(* ===== verification/_CoqProject ===== *)
-Q . S2P
Prelude.v
MetastoreModels.v
Metastore.v
MetastoreSpec.v
ExecutorErrors.v
RunningQueries.v
ExecutionService.v
MergeSink.v
MergePlan.v
PartitionSpec.v
Calendar.v
DateTime.v
Ordering.v
Utf8.v
JsonValue.v
JsonEncode.v
SessionParams.v
DateParts.v
Session.v
SemiStructured.v
ArrayFunctions.v
ObjectFunctions.v
StringFunctions.v
Aggregates.v
Conversions.v
ToTimestamp.v
ResultBatches.v
Catalog.v
RestSessions.v
RestServer.v
Flatten.v
Bootstrap.v
Regexp.v
Encryption.v
SqlAst.v
Visitors.v
AliasInlining.v
CteRelation.v
StatementRewriting.v
UnimplementedFunctions.v
Conditional.v
