(* ===== verification/Prelude.v ===== *)
(** * Verification of the Embucket query engine

    Embucket (crates under [src/crates]) answers SQL sent over the Snowflake REST protocol: sessions
    and queries are managed by an execution service, statements are planned and run by DataFusion
    over Iceberg tables, and the databases, schemas and tables live in an in-memory metastore.  This
    library models the parts of the program that are its own and proves what makes them correct.
    Definitions are executable and keep the names of the source.

    ** The parts and how they interact

    A client's request reaches the execution service ([executor/src/service.rs]), which checks the
    session and the concurrency limit, starts a task for the query and enters it in the registry of
    running queries ([executor/src/running_queries.rs]).  The task rewrites the parsed statement
    ([functions/src/visitors]), refuses functions that are not implemented, and plans and runs it
    ([executor/src/query.rs]); it uses the metastore ([catalog-metastore/src/metastore.rs]) for every
    object it names, the MERGE sink ([executor/src/datafusion/physical_plan/merge.rs]) to write, and the
    SQL functions ([functions/src]).  Its result, or an error, goes back through the registry's
    channel to the caller of [wait]; an error is classified ([executor/src/snowflake_error.rs]) and
    becomes an HTTP response ([api-snowflake-rest/src/server/error.rs]).

    In front of the service the REST server ([api-snowflake-rest/src/server]) checks a login or the
    token of a request ([api-snowflake-rest-sessions/src]) and turns result batches into the rows
    the client reads ([executor/src/utils.rs]).  Between the planner and the metastore the catalog
    list ([catalog/src]) caches databases, schemas and tables.  At start-up the metastore is filled
    from a configuration file ([catalog-metastore/src/metastore_bootstrap_config.rs]).

    ** The files

    - [Prelude]: results and the [?] operator, ASCII case folding, the order of strings, machine
      integers with their wrap-around, and the lemmas and tactics the other files share.
    - [MetastoreModels]: [catalog-metastore/src/models] and [error.rs]: versioned rows,
      identifiers, volumes and their validation, tables, requirements of a commit; a module per
      source type.
    - [Metastore]: [metastore.rs].  The state is the record of the four maps and the cache of object
      stores; every operation of the [Metastore] trait is a program of a state and error monad that also
      carries whether the write guard is held, so that waiting for one's own lock is a value.
      The clock, the object stores and the Iceberg builders are the record [Ext].
    - [ExecutorErrors]: [executor/src/error.rs], [error_code.rs], [snowflake_error.rs] and the
      response of the REST server: every variant and the classification as functions.
    - [RunningQueries]: the registry, its entries with the cancellation token and the status
      channel, and the class [RunningQueries] with its laws, which is all the service uses.
    - [ExecutionService]: [service.rs] and [query_task_result.rs].  Calls and tasks interleave: the
      internal steps are the relation [istep], the calls of clients [estep], both between points
      where another task can act; the idle signal and the session sweep are functions.
    - [MergeSink]: the copy-on-write sink: per batch [poll_batch], per stream [drain] and
      [poll_end], then the commit and the one-row answer.  The Arrow kernels are the class [Arrow].
    - [MergePlan]: the filter of the target by the partition bounds of the source, the projection a
      MERGE evaluates on every joined row, as expression syntax, and the joins that restrict it to the
      affected files.  Evaluation is the class [Evaluator]; the scan is a parameter that leaves out files.
    - [PartitionSpec]: the PARTITION BY clause of a table.
    - [Calendar]: the operations of [chrono] the date functions call, as a class with the laws the
      crate documents, and a Gregorian calendar that satisfies them.
    - [DateTime]: [functions/src/datetime]: ADD_MONTHS, LAST_DAY, NEXT_DAY, PREVIOUS_DAY, DATEDIFF
      and DATEADD.
    - [SessionParams]: [functions/src/session_params.rs]: the properties of a session.
    - [DateParts]: the rest of [functions/src/datetime]: the parts of dates with the week numbering the
      session's settings choose, dates and timestamps from parts, time zones.
    - [Session]: [executor/src/session.rs] and the part of [query.rs] that changes a session, resolves
      names and rewrites SHOW; a session is the record of its variables, options and recent queries.  The
      assignments of a statement are a hash map whose order of iteration is the class [HashOrder].
    - [MetastoreSpec]: an abstract metastore, a tree of databases, schemas and tables with an
      executable specification of every call, and the relation by which [Metastore] refines it.
    - [Ordering], [Utf8]: Rust's three-way comparisons and stable sorting; strings as bytes and as
      characters, searching, splitting, trimming and joining.
    - [JsonValue]: the values of [serde_json], the class [Serde] for its parser and printer, and the
      paths of [functions/src/json.rs].
    - [JsonEncode]: the rest of [json.rs]: Arrow arrays as an inductive type and their encoding.
    - [SemiStructured], [ArrayFunctions], [ObjectFunctions]: [functions/src/semi-structured]: columns
      and scalars of an invocation, the functions on arrays, those on objects and variants.
    - [StringFunctions]: [functions/src/string-binary].
    - [Aggregates]: [functions/src/aggregate]: the class [Accumulator], how one and two phases compose
      its operations, and the nine accumulators.
    - [Conversions], [ToTimestamp]: [functions/src/conversion]: the parsers of booleans, numbers, binary
      values, dates and times, and TO_TIMESTAMP with its formats, scales and time zones.
    - [ResultBatches]: [executor/src/utils.rs] and [models.rs]: the columns of a result rewritten for
      the client, the rows as JSON, the types of the columns.
    - [Catalog]: [catalog/src]: the catalog list, its caches and the providers of catalogs and
      schemas; the state is the record of the caches and the metastore.
    - [RestSessions], [RestServer]: [api-snowflake-rest-sessions/src] and the handlers of
      [api-snowflake-rest/src/server]: tokens, the session store, the authentication layer, login,
      query, abort and the answers.
    - [Flatten]: [functions/src/table/flatten]: the recursion over JSON values and the batches.
    - [Bootstrap]: the configuration file: its validation and its application to the metastore.
    - [Regexp]: [functions/src/regexp] over a class [RegexEngine] of regular expressions; the module
      [SmallRegex] is an engine that satisfies the laws.
    - [Encryption]: [functions/src/encryption] over the class [Crypto].
    - [SqlAst]: the syntax trees of the crate sqlparser as far as the visitors look into them, their
      traversal by a visitor with state that may break off or panic, and what any visit keeps, removes
      and relates; the crate is not part of the repository, so nothing of this file maps to its source.
    - [Visitors], [AliasInlining], [CteRelation]: [functions/src/visitors] and the visitors of
      [functions/src/semi-structured/variant/visitors], a module per source file; the printing of names,
      expressions and types is the class [SqlText].
    - [StatementRewriting]: [postprocess_query_statement_with_validation] of [executor/src/query.rs],
      the thirteen visitors in their order.
    - [UnimplementedFunctions]: the entries of [visitors/unimplemented/generated_snowflake_functions.rs]
      and the registry made of them.
    - [Conditional]: [functions/src/conditional], [functions/src/numeric] and [functions/src/window]: the
      three-valued connectives, EQUAL_NULL, IFF, NULLIFZERO, ZEROIFNULL, DIV0 and CONDITIONAL_TRUE_EVENT.

    ** What is proved

    - As long as callers pass normalized identifiers and rows that carry them, the metastore files every
      row under its identifier and keeps the references from tables to schemas, databases and volumes
      ([metastore_integrity]); it changes nothing when it raises, and never waits for its own lock; a
      created table is found under every spelling of its name, a cascading drop removes what belongs
      to the database and nothing else, and a commit checks its requirements, applies the updates,
      writes the new metadata and stores them ([update_table_commit]).
    - Every call of the execution service is answered, every task ends and the registry is empty at
      the end ([calls_terminate], by a measure that every internal step decreases); [wait] returns
      the result of its own query or says that it is not running; a result is consumed once;
      a task always finds its registry entry, because it starts only after the entry exists;
      sessions in use survive the sweep; the idle signal fires after the first full idle window.
    - A MERGE whose clauses set the same columns computes, for every joined row, the values of
      the first clause that applies ([merge_projection_correct]); what the plan writes, with the files
      it leaves, is the merged table, when the condition equates the partition columns by which the
      target is filtered ([merge_plan_complete]); the sink counts the touched rows, hands on the columns
      of the table, and collects the files to replace ([merge_stream_correct]).
    - Error classification does not depend on wrapping, and failures of an object store are answered
      with status 503.
    - Under normalized calls the flat maps of the metastore refine a tree: every such call ends as the
      specification says of the tree, errors included ([metastore_refines_tree]).
    - Encoding an Arrow array gives JSON of the shape its type prescribes, null where the array is
      ([encode_array_typed]); JSON
      paths are read back as printed, and the tokenizer ends on every input; the array functions do on
      columns what they do on scalars, and sort, split, slice and print as documented; the object
      functions change the fields they name and no others.
    - SUBSTR, SPLIT, STRTOK and the hexadecimal functions satisfy their specifications on strings as
      sequences of characters; constant folding of SUBSTR agrees with its evaluation where the length is
      not negative.
    - For the aggregates whose states merge, partitions and phases do not matter, as long as each state
      comes in a batch of its own ([aggregates_in_two_phases]); LISTAGG and OBJECT_AGG are related to the rows they have seen.
    - The date functions satisfy their calendar specifications on the whole range of the calendar
      short of its first or last year; timestamps are put together, down to the second, from the parts
      they are taken apart into ([timestamp_parts_round_trip]); the searches of the week numbering end, and its result is
      related to the rule its comments state.
    - Session variables are stored under folded names and set as the statements say
      ([session_invariant], [session_variables_correct]); names are completed to three parts with the
      database and schema of the session, once and for all ([table_name_resolution]); a prefix of SHOW cannot leave its literal.
    - A query over REST runs only for a token that a login issued and in the session of that login
      ([queries_are_authenticated], [login_then_request]).
    - The caching schema provider is a map of tables, whatever the order of the calls
      ([local_schema_refines_map]).
    - Timestamps sent as seconds and fraction are read back ([struct_timestamps_round_trip]); the
      conversion functions accept what they document.
    - FLATTEN returns a row per element, with its key, path and text ([flatten_correct]), and over a
      column the rows of its inputs in their order ([flatten_execution]); the path of a row leads back
      to its value ([flatten_path_leads_back]).
    - A valid configuration is in the metastore after it was applied, and the metastore stays
      consistent also when it fails halfway ([apply_configures], [apply_keeps_integrity]).
    - The REGEXP functions compute what the matches of the pattern say (REGEXP_REPLACE where the
      occurrence exists, [regexp_replace_correct]);
      DECRYPT_RAW inverts ENCRYPT_RAW ([encrypt_decrypt_raw]).
    - The statement that is planned is free of the operators, casts and clauses the visitors rewrite
      ([rewritten_is_plannable]); rewriting the pattern operators keeps the meaning of a statement
      ([operators_keep_meaning]), and inlining aliases the values of a SELECT ([alias_inlining_correct]);
      the inlining of common table expressions always ends ([cte_visit_terminates]), that of aliases
      where no expression holds a query ([inlining_terminates]); the PARTITION BY clause is left alone
      ([partition_clause_untouched]).
    - The check for functions that are not implemented reports the first one, and refuses nothing the
      visitors have put in ([unimplemented_functions_checked], [implemented_not_refused]).
    - BOOLAND, BOOLOR and BOOLXOR are three-valued logic ([boolean_functions_kleene]); DIV0 returns the
      type it declares and exact quotients where its scale allows ([div0_typed], [div0_row]);
      CONDITIONAL_TRUE_EVENT is the same evaluated at once or row by row, and counts the changes to
      true where no two true rows are neighbours ([conditional_true_event_correct]).
    - TO_TIMESTAMP has its declared type for the listed shapes of calls ([to_timestamp_typed]), and reads
      digits by the milliseconds, microseconds and nanoseconds of a year ([digits_timestamp_correct]).

    Some theorems record behaviour that departs from what the code means to do: rows of nulls written
    by a MERGE, matching rows outside the partition bounds that are inserted again
    ([pruned_match_inserted]), update and insert clauses that interfere, a race on the concurrency limit, tables
    orphaned by a differently spelled schema or by the deletion of their own volume, request ids that are never removed, DATEDIFF in
    quarters that ignores the years, DATEADD that ignores numbers out of range, PREVIOUS_DAY
    without Sunday, encoders of maps that never return, functions on columns that answer one row,
    boolean aggregates that depend on the batches, a percentile of percentiles, week numbers two short,
    timestamps that wrap, quotes kept by USE and ALTER SESSION, patterns of SHOW that are not escaped,
    anchors that bind to one alternative of a pattern, positions counted in bytes, configurations
    that stay half applied, NOT LIKE ANY that is true too often, a TOP that limits a whole UNION, an
    inlining of aliases that never ends ([inlining_diverges]), implemented functions that are refused,
    decimals that NULLIFZERO divides by powers of ten.

    ** Bounds

    Recursion is structural except in these places, which take fuel: [encode_array] (the depth of the
    array, which every nested call decreases), [tokenize_loop] (the characters left) and [join_value]
    (the size of the text, since a string that parses as an array is longer than its elements), and the
    week numbering (the days of a week, and two years).  A visit of a tree takes the number of its nodes,
    which no hook called before the nodes below increases, save that of the alias inlining, whose two
    bounds are arguments of the definitions; the inliner of common table expressions nests at most as
    deeply as there are expressions.  The
    theorems on termination prove that the fuel given is enough.  The interleavings of the service are
    a relation.  Counters are integers that wrap at the width of the source ([wrap_i32],
    [wrap_i64]); theorems that need the absence of overflow say so.  [HashMap] and [DashMap] are
    finite maps; where the source iterates over one, the order is a parameter or not observable in what
    is proved.

    Three places are coarser than the source: a refresh of the catalogs reads one state of the metastore
    and of the providers, without other calls between its awaits; the failure to join a task, which the
    runtime reports for a task that panicked, is not a value of [wait]; and a visitor of
    [StatementRewriting] whose result is dropped and that breaks off gives the statement back as it was.

    ** What is not modelled

    DataFusion, Arrow, the Iceberg crates, chrono, the regular expressions, the ciphers, the printing
    of syntax trees and the object stores are parameters.  Reading the environment, serialization,
    tracing and metrics are left out, as are TO_VARCHAR, whose formats are those of chrono and of a
    number formatter, the information schema and the state store's models, which are records copied from one
    form to another.  The
    rules that rewrite DataFusion plans, the HTTP routers, the programs' start-up, DynamoDB and the
    query history are calls into libraries. *)

From Stdlib Require Import ZArith Lia Ascii String.
From stdpp Require Import base option list gmap strings sorting.

#[global] Open Scope Z_scope.

(** ** Results

    Rust's [Result<T, E>].  [Ok] and [Err] keep the source's names. *)
Inductive result (E A : Type) : Type :=
| Ok (a : A)
| Err (e : E).
Arguments Ok {E A} a.
Arguments Err {E A} e.

Definition result_bind {E A B} (r : result E A) (f : A -> result E B) : result E B :=
  match r with Ok a => f a | Err e => Err e end.

Definition result_map {E A B} (f : A -> B) (r : result E A) : result E B :=
  match r with Ok a => Ok (f a) | Err e => Err e end.

(** [Option::ok_or] and the [context] of an [Option]. *)
Definition ok_or {E A} (o : option A) (e : E) : result E A :=
  match o with Some a => Ok a | None => Err e end.

Definition is_ok {E A} (r : result E A) : bool :=
  match r with Ok _ => true | Err _ => false end.

(** The [?] operator. *)
Declare Scope rust_scope.
Delimit Scope rust_scope with rust.
Notation "'let?' x ':=' r 'in' k" := (result_bind r (fun x => k))
  (at level 10, x pattern, r at level 100, k at level 200) : rust_scope.

Lemma result_bind_Ok {E A B} (r : result E A) (f : A -> result E B) b :
  result_bind r f = Ok b <-> exists a, r = Ok a /\ f a = Ok b.
Proof. destruct r; naive_solver. Qed.

Lemma result_bind_Err {E A B} (r : result E A) (f : A -> result E B) e :
  result_bind r f = Err e <-> r = Err e \/ exists a, r = Ok a /\ f a = Err e.
Proof. destruct r; naive_solver. Qed.

(** [Iterator::collect::<Result<Vec<_>, _>>()] and [try_for_each]: stop at the first error. *)
Fixpoint traverse {E A B} (f : A -> result E B) (l : list A) : result E (list B) :=
  match l with
  | [] => Ok []
  | x :: l => result_bind (f x) (fun y => result_map (cons y) (traverse f l))
  end.

Fixpoint try_for_each {E A} (f : A -> result E unit) (l : list A) : result E unit :=
  match l with
  | [] => Ok tt
  | x :: l => result_bind (f x) (fun _ => try_for_each f l)
  end.

Lemma try_for_each_Ok {E A} (f : A -> result E unit) l :
  try_for_each f l = Ok tt <-> Forall (fun x => f x = Ok tt) l.
Proof.
  induction l as [|x l IH]; simpl; [split; [constructor|done]|].
  rewrite Forall_cons. destruct (f x) as [[]|e]; simpl; naive_solver.
Qed.

Lemma traverse_Ok {E A B} (f : A -> result E B) l k :
  traverse f l = Ok k <-> Forall2 (fun x y => f x = Ok y) l k.
Proof.
  revert k. induction l as [|x l IH]; intros k; simpl.
  - split; [intros [= <-]; constructor|]. by inversion 1.
  - split.
    + destruct (f x) as [y|] eqn:Hx; simpl; [|done].
      destruct (traverse f l) as [ys|] eqn:Hl; simpl; [|done].
      intros [= <-]. constructor; [done|]. by apply IH.
    + inversion 1 as [|? y ? ys Hy Hys]; subst. rewrite Hy; simpl.
      apply IH in Hys. by rewrite Hys.
Qed.

Lemma traverse_length {E A B} (f : A -> result E B) l k :
  traverse f l = Ok k -> length k = length l.
Proof. intros H%traverse_Ok. symmetry. by eapply Forall2_length. Qed.

(** ** Case folding of ASCII strings

    [str::to_ascii_lowercase] maps the bytes of A..Z and keeps every other byte, those of a
    multi-byte character included. *)
Definition ascii_lower (c : ascii) : ascii :=
  let n := nat_of_ascii c in
  if ((65 <=? n) && (n <=? 90))%nat then ascii_of_nat (n + 32) else c.

Fixpoint to_ascii_lowercase (s : string) : string :=
  match s with
  | EmptyString => EmptyString
  | String c s => String (ascii_lower c) (to_ascii_lowercase s)
  end.

(** [str::to_ascii_uppercase], likewise. *)
Definition ascii_upper (c : ascii) : ascii :=
  let n := nat_of_ascii c in if ((97 <=? n) && (n <=? 122))%nat then ascii_of_nat (n - 32) else c.

Fixpoint to_ascii_uppercase (s : string) : string :=
  match s with EmptyString => EmptyString | String c s => String (ascii_upper c) (to_ascii_uppercase s) end.

Definition is_lower (s : string) : bool := String.eqb (to_ascii_lowercase s) s.

Lemma ascii_lower_idem c : ascii_lower (ascii_lower c) = ascii_lower c.
Proof. destruct c as [[] [] [] [] [] [] [] []]; reflexivity. Qed.

Lemma to_ascii_lowercase_idem s :
  to_ascii_lowercase (to_ascii_lowercase s) = to_ascii_lowercase s.
Proof. induction s as [|c s IH]; simpl; [done|]. by rewrite ascii_lower_idem, IH. Qed.

Lemma is_lower_spec s : is_lower s = true <-> to_ascii_lowercase s = s.
Proof. unfold is_lower. by rewrite String.eqb_eq. Qed.

Lemma is_lower_lowercase s : is_lower (to_ascii_lowercase s) = true.
Proof. apply is_lower_spec, to_ascii_lowercase_idem. Qed.

(** ** The byte-wise order of [str] ([Ord for str]) *)
Definition str_leb (a b : string) : bool := String.leb a b.
Definition str_le (a b : string) : Prop := str_leb a b = true.

#[global] Instance str_le_dec : RelDecision str_le.
Proof. intros a b. unfold str_le. apply _. Defined.

Lemma str_leb_cons c d a b :
  str_leb (String c a) (String d b) =
    if (N_of_ascii c =? N_of_ascii d)%N then str_leb a b
    else (N_of_ascii c <? N_of_ascii d)%N.
Proof.
  unfold str_leb, String.leb; simpl. unfold Ascii.compare.
  destruct (N.compare_spec (N_of_ascii c) (N_of_ascii d)) as [E|L|G].
  - by rewrite (proj2 (N.eqb_eq _ _) E).
  - rewrite (proj2 (N.eqb_neq _ _)) by lia. symmetry. by apply N.ltb_lt.
  - rewrite (proj2 (N.eqb_neq _ _)) by lia. symmetry. apply N.ltb_ge. lia.
Qed.

#[global] Instance str_le_total : Total str_le.
Proof.
  intros a. induction a as [|c a IH]; intros [|d b]; unfold str_le in *; [by left..|by right|].
  rewrite !str_leb_cons, (N.eqb_sym (N_of_ascii d)).
  destruct (N.eqb_spec (N_of_ascii c) (N_of_ascii d)) as [E|N]; [by apply IH|].
  rewrite !N.ltb_lt. lia.
Qed.

#[global] Instance str_le_trans : Transitive str_le.
Proof.
  intros a. induction a as [|c a IH]; intros [|d b] [|e z]; unfold str_le in *; try done.
  rewrite !str_leb_cons.
  destruct (N.eqb_spec (N_of_ascii c) (N_of_ascii d)), (N.eqb_spec (N_of_ascii d) (N_of_ascii e)),
    (N.eqb_spec (N_of_ascii c) (N_of_ascii e)); rewrite ?N.ltb_lt; try lia; eauto.
Qed.

(** ** Machine integers

    Two's-complement wrap-around and the checked conversions [iN::try_from]. *)
Definition i32_min : Z := -2147483648.
Definition i32_max : Z := 2147483647.
Definition i64_min : Z := -9223372036854775808.
Definition i64_max : Z := 9223372036854775807.

Definition in_i32 (z : Z) : bool := (i32_min <=? z) && (z <=? i32_max).
Definition in_i64 (z : Z) : bool := (i64_min <=? z) && (z <=? i64_max).

(** Closes a bound on a machine integer. *)
Ltac solve_range := unfold in_i32, in_i64, i32_min, i32_max, i64_min, i64_max in *; lia.

Definition wrap_i32 (z : Z) : Z := (z + 2147483648) mod 4294967296 - 2147483648.
Definition wrap_i64 (z : Z) : Z := (z + 9223372036854775808) mod 18446744073709551616 - 9223372036854775808.

Lemma wrap_i64_id z : in_i64 z = true -> wrap_i64 z = z.
Proof. unfold in_i64, wrap_i64, i64_min, i64_max. intros H. rewrite Z.mod_small; lia. Qed.

Lemma wrap_i32_id z : in_i32 z = true -> wrap_i32 z = z.
Proof. unfold in_i32, wrap_i32, i32_min, i32_max. intros H. rewrite Z.mod_small; lia. Qed.

Lemma wrap_i64_range z : in_i64 (wrap_i64 z) = true.
Proof. unfold in_i64, wrap_i64, i64_min, i64_max. pose proof (Z.mod_pos_bound (z + 9223372036854775808) 18446744073709551616). lia. Qed.

Lemma wrap_i32_range z : in_i32 (wrap_i32 z) = true.
Proof. unfold in_i32, wrap_i32, i32_min, i32_max. pose proof (Z.mod_pos_bound (z + 2147483648) 4294967296). lia. Qed.

Lemma wrap_i32_add_l a b : wrap_i32 (wrap_i32 a + b) = wrap_i32 (a + b).
Proof.
  unfold wrap_i32. f_equal.
  replace ((a + 2147483648) mod 4294967296 - 2147483648 + b + 2147483648)
    with ((a + 2147483648) mod 4294967296 + b) by lia.
  rewrite Zplus_mod_idemp_l. f_equal. lia.
Qed.

Lemma wrap_i32_period a k : wrap_i32 (a + k * 4294967296) = wrap_i32 a.
Proof.
  unfold wrap_i32. f_equal. replace (a + k * 4294967296 + 2147483648) with (a + 2147483648 + k * 4294967296) by lia.
  by rewrite Z_mod_plus_full.
Qed.

(** The unsigned 32-bit conversion [as u32]. *)
Definition wrap_u32 (z : Z) : Z := z mod 4294967296.

Lemma wrap_u32_id z : 0 <= z < 4294967296 -> wrap_u32 z = z.
Proof. apply Z.mod_small. Qed.

(** Overflow-free arithmetic: [wrap_simpl] removes the wraps whose argument is in range. *)
Create HintDb machine.
#[export] Hint Resolve wrap_i64_range wrap_i32_range : machine.
#[export] Hint Rewrite wrap_i32_id wrap_i64_id wrap_u32_id using (solve [eassumption | solve_range]) : machine.
Ltac wrap_simpl := autorewrite with machine.

(** ** Weights of finite maps

    The sum of a measure over the values of a map. *)
Definition map_weight {K A : Type} `{Countable K} (f : A -> nat) (m : gmap K A) : nat :=
  map_fold (fun _ x n => (f x + n)%nat) 0%nat m.

Lemma map_weight_insert_new {K A} `{Countable K} (f : A -> nat) (m : gmap K A) i x :
  m !! i = None -> map_weight f (<[i := x]> m) = (f x + map_weight f m)%nat.
Proof.
  intros Hi. unfold map_weight. rewrite map_fold_insert_L; [done| |done].
  intros; lia.
Qed.

Lemma map_weight_insert {K A} `{Countable K} (f : A -> nat) i x y (m : gmap K A) :
  m !! i = Some x -> (map_weight f (<[i := y]> m) + f x = map_weight f m + f y)%nat.
Proof.
  intros Hi. rewrite <- (insert_delete_id m i x Hi) at 2. rewrite <- insert_delete_eq.
  rewrite !map_weight_insert_new by apply lookup_delete_eq. lia.
Qed.

(** ** Lists *)

(** Filters that agree on the elements of the list. *)
Lemma list_filter_iff' {A} (P Q : A -> Prop) `{forall x, Decision (P x)} `{forall x, Decision (Q x)} (l : list A) :
  (forall x, x ∈ l -> P x <-> Q x) -> filter P l = filter Q l.
Proof.
  induction l as [|x l IH]; intros Hl; [done|]. rewrite !filter_cons.
  rewrite IH by (intros y Hy; apply Hl; by apply elem_of_cons; right).
  assert (P x <-> Q x) as Hx by (apply Hl; by apply elem_of_cons; left).
  repeat case_decide; naive_solver.
Qed.

(** ** Concatenation of strings *)

#[local] Arguments String.append : simpl nomatch.

Lemma string_app_assoc (a b c : string) : ((a ++ b) ++ c = a ++ (b ++ c))%string.
Proof. induction a as [|x a IH]; [done|]. simpl. by rewrite IH. Qed.

Lemma string_app_nil_r (a : string) : (a ++ "" = a)%string.
Proof. induction a as [|x a IH]; [done|]. simpl. by rewrite IH. Qed.

Lemma string_length_app a b : String.length (a ++ b) = (String.length a + String.length b)%nat.
Proof. induction a as [|x a IH]; [done|]. simpl. by rewrite IH. Qed.
