(* ===== verification/MetastoreModels.v ===== *)
(** * The metastore's data: volumes, databases, schemas, tables and versioned rows

    Models [crates/catalog-metastore/src/models/*.rs] and [src/error.rs].  The types of the Iceberg
    crates are data here: the fields and variants the metastore reads. *)

From Stdlib Require Import ZArith Lia Ascii String.
From stdpp Require Import base option list gmap strings.
From S2P Require Import Prelude.

(** ** Versioned rows: [models/mod.rs] *)
Module RwObject.
(** A timestamp of [chrono::Utc::now] is an integer supplied by the caller. *)
Definition time := Z.

Record t (T : Type) : Type := mk { data : T; created_at : time; updated_at : time }.
Arguments mk {T} data created_at updated_at.
Arguments data {T} _.
Arguments created_at {T} _.
Arguments updated_at {T} _.

Definition new {T} (now : time) (d : T) : t T := mk d now now.

(** [data != self.data] is the derived equality of the row's type. *)
Definition update {T} `{EqDecision T} (now : time) (d : T) (row : t T) : t T :=
  if decide (d = data row) then row else mk d (created_at row) now.

Definition touch {T} (now : time) (row : t T) : t T :=
  mk (data row) (created_at row) now.

#[global] Instance t_eq_dec {T} `{EqDecision T} : EqDecision (t T).
Proof. solve_decision. Defined.
End RwObject.

(** ** Identifiers *)
Notation VolumeIdent := string (only parsing).
Notation DatabaseIdent := string (only parsing).

Module SchemaIdent.
Record t := mk { schema : string; database : DatabaseIdent }.
Definition new (database : DatabaseIdent) (schema : string) : t := mk schema database.
Definition normalized (i : t) : t :=
  mk (to_ascii_lowercase (schema i)) (to_ascii_lowercase (database i)).
Definition fmt (i : t) : string := (database i +:+ "." +:+ schema i)%string.

#[global] Instance t_eq_dec : EqDecision t.
Proof. solve_decision. Defined.
End SchemaIdent.

Module TableIdent.
Record t := mk { table : string; schema : string; database : string }.
Definition new (database schema table : string) : t := mk table schema database.
Definition normalized (i : t) : t :=
  mk (to_ascii_lowercase (table i)) (to_ascii_lowercase (schema i))
     (to_ascii_lowercase (database i)).
(** [From<TableIdent> for SchemaIdent] *)
Definition to_schema_ident (i : t) : SchemaIdent.t := SchemaIdent.mk (schema i) (database i).
Definition fmt (i : t) : string :=
  (database i +:+ "." +:+ schema i +:+ "." +:+ table i)%string.

#[global] Instance t_eq_dec : EqDecision t.
Proof. solve_decision. Defined.
End TableIdent.

(** ** Volumes: [models/volumes.rs] *)
Module Volume.
Record AwsAccessKeyCredentials := {
  aws_access_key_id : string;
  aws_secret_access_key : string;
  aws_session_token : option string }.

Inductive AwsCredentials :=
| AccessKey (creds : AwsAccessKeyCredentials)
| Token (token : string).

(** [client_options] is skipped by the hand-written equality of [S3Volume] and carries no
    data the metastore reads. *)
Record S3Volume := {
  region : option string;
  bucket : option string;
  endpoint : option string;
  credentials : option AwsCredentials }.

Inductive VolumeType :=
| S3 (v : S3Volume)
| File (path : string)
| Memory.

Record t := mk { ident : VolumeIdent; volume : VolumeType }.

#[global] Instance creds_eq_dec : EqDecision AwsAccessKeyCredentials.
Proof. solve_decision. Defined.
#[global] Instance awscreds_eq_dec : EqDecision AwsCredentials.
Proof. solve_decision. Defined.
#[global] Instance s3_eq_dec : EqDecision S3Volume.
Proof. solve_decision. Defined.
#[global] Instance vtype_eq_dec : EqDecision VolumeType.
Proof. solve_decision. Defined.
#[global] Instance t_eq_dec : EqDecision t.
Proof. solve_decision. Defined.

(** The settings [get_s3_builder] gives [AmazonS3Builder]; [None] is "not set". *)
Record S3Builder := {
  b_region : option string;
  b_bucket : option string;
  b_endpoint : option string;
  b_allow_http : option bool;
  b_access_key_id : option string;
  b_secret_access_key : option string;
  b_token : option string }.

Definition starts_with (p s : string) : bool := String.prefix p s.

Definition get_s3_builder (v : S3Volume) : S3Builder :=
  {| b_region := region v;
     b_bucket := bucket v;
     b_endpoint := endpoint v;
     b_allow_http := starts_with "http:" <$> endpoint v;
     b_access_key_id :=
       match credentials v with
       | Some (AccessKey c) => Some (aws_access_key_id c)
       | _ => None
       end;
     b_secret_access_key :=
       match credentials v with
       | Some (AccessKey c) => Some (aws_secret_access_key c)
       | _ => None
       end;
     b_token :=
       match credentials v with
       | Some (AccessKey c) => aws_session_token c
       | Some (Token tok) => Some tok
       | None => None
       end |}.

Definition prefix (v : t) : string :=
  match volume v with
  | S3 s => match bucket s with
            | None => "s3://"
            | Some b => "s3://" +:+ b
            end
  | File path => "file://" +:+ path
  | Memory => "memory://"
  end%string.

Definition fmt_type (v : VolumeType) : string :=
  match v with S3 _ => "s3" | File _ => "file" | Memory => "memory" end.

(** [validate_bucket_name] *)
Inductive BucketError := BadCharacters | BadEnds.

Definition is_ascii_alphanumeric (c : ascii) : bool :=
  let n := nat_of_ascii c in
  ((48 <=? n) && (n <=? 57) || (65 <=? n) && (n <=? 90) || (97 <=? n) && (n <=? 122))%nat.

Definition bucket_char (c : ascii) : bool :=
  is_ascii_alphanumeric c || Ascii.eqb c "-" || Ascii.eqb c "_".

Fixpoint all_chars (p : ascii -> bool) (s : string) : bool :=
  match s with EmptyString => true | String c s => p c && all_chars p s end.

Definition first_char (s : string) : option ascii := String.get 0 s.
Definition last_char (s : string) : option ascii := String.get (String.length s - 1) s.

Definition is_edge (o : option ascii) : bool :=
  match o with Some c => Ascii.eqb c "-" || Ascii.eqb c "_" | None => false end.

Definition validate_bucket_name (s : string) : result BucketError unit :=
  if negb (all_chars bucket_char s) then Err BadCharacters
  else if is_edge (first_char s) || is_edge (last_char s) then Err BadEnds
  else Ok tt.

(** [impl Validate for AwsCredentials]; the two regular expressions of an access key are
    [^[a-zA-Z0-9]{20}$] and [^[A-Za-z0-9/+=]{40}$]. *)
Definition valid_access_key_id (s : string) : bool :=
  all_chars is_ascii_alphanumeric s && (String.length s =? 20)%nat.
Definition valid_secret_access_key (s : string) : bool :=
  all_chars (fun c => is_ascii_alphanumeric c || Ascii.eqb c "/" || Ascii.eqb c "+"
                      || Ascii.eqb c "=") s
  && (String.length s =? 40)%nat.
Definition validate_credentials (c : AwsCredentials) : bool :=
  match c with
  | AccessKey k =>
      valid_access_key_id (aws_access_key_id k)
      && valid_secret_access_key (aws_secret_access_key k)
  | Token tok => negb (String.eqb tok "")
  end.
End Volume.

(** ** Databases and schemas *)
Module Database.
Record t := mk {
  ident : DatabaseIdent;
  properties : option (gmap string string);
  volume : VolumeIdent;
  should_refresh : bool }.

Definition prefix (d : t) (parent : string) : string := (parent +:+ "/" +:+ ident d)%string.

#[global] Instance t_eq_dec : EqDecision t.
Proof. solve_decision. Defined.
End Database.

Module Schema.
Record t := mk { ident : SchemaIdent.t; properties : option (gmap string string) }.

Definition prefix (s : t) (parent : string) : string :=
  (parent +:+ "/" +:+ SchemaIdent.schema (ident s))%string.

#[global] Instance t_eq_dec : EqDecision t.
Proof. solve_decision. Defined.
End Schema.

(** ** The Iceberg data the metastore reads *)
Module Iceberg.
(** [iceberg_rust_spec::types]: a primitive type is its name. *)
Inductive type :=
| Primitive (name : string)
| Struct (fields : list field)
| TList (element_id : Z) (element_required : bool) (element : type)
| TMap (key_id : Z) (key : type) (value_id : Z) (value_required : bool) (value : type)
with field :=
| StructField (id : Z) (name : string) (required : bool) (ftype : type) (doc : option string).

Definition field_id (f : field) : Z := match f with StructField i _ _ _ _ => i end.
Definition field_type (f : field) : type := match f with StructField _ _ _ t _ => t end.
Definition field_name (f : field) : string := match f with StructField _ n _ _ _ => n end.

Record schema := { schema_id : Z; fields : list field }.
Record partition_spec := { spec_id : Z; partition_field_ids : list Z }.
Record sort_order := { order_id : Z; sort_fields : list Z }.
Inductive format_version := V1 | V2.

Record metadata := {
  format : format_version;
  table_uuid : string;
  location : string;
  last_updated_ms : Z;
  last_column_id : Z;
  schemas : gmap Z schema;
  current_schema_id : Z;
  partition_specs : gmap Z partition_spec;
  default_spec_id : Z;
  last_partition_id : Z;
  properties : gmap string string;
  snapshots : gmap Z string;
  refs : gmap string Z;
  sort_orders : gmap Z sort_order;
  default_sort_order_id : Z }.

(** The fields given to [TableMetadataBuilder]; [None] is left to the builder's default. *)
Record builder := {
  b_schemas : gmap Z schema;
  b_current_schema_id : Z;
  b_location : string;
  b_last_updated_ms : Z;
  b_format_version : format_version;
  b_last_column_id : Z;
  b_partition : option (gmap Z partition_spec * Z * Z);
  b_sort : option (gmap Z sort_order * Z) }.

(** [iceberg_rust::catalog::commit]: the update the metastore rewrites, and the others. *)
Inductive update :=
| AddSchema (s : schema) (last_column_id : option Z)
| OtherUpdate (payload : string).

Inductive requirement :=
| AssertCreate
| AssertTableUuid (uuid : string)
| AssertRefSnapshotId (r : string) (snapshot_id : option Z)
| AssertLastAssignedFieldId (id : Z)
| AssertCurrentSchemaId (id : Z)
| AssertLastAssignedPartitionId (id : Z)
| AssertDefaultSpecId (id : Z)
| AssertDefaultSortOrderId (id : Z).
End Iceberg.

(** ** Tables *)
Module Table.
Inductive TableFormat := Parquet | IcebergFormat.

Definition fmt_format (f : TableFormat) : string :=
  match f with Parquet => "parquet" | IcebergFormat => "iceberg" end.

Record t := mk {
  ident : TableIdent.t;
  metadata : Iceberg.metadata;
  metadata_location : string;
  properties : gmap string string;
  volume_ident : option VolumeIdent;
  volume_location : option string;
  is_temporary : bool;
  format : TableFormat }.

Record create_request := mk_request {
  r_ident : TableIdent.t;
  r_properties : option (gmap string string);
  r_format : option TableFormat;
  r_location : option string;
  r_schema : Iceberg.schema;
  r_partition_spec : option Iceberg.partition_spec;
  r_sort_order : option Iceberg.sort_order;
  r_stage_create : option bool;
  r_volume_ident : option VolumeIdent;
  r_is_temporary : option bool }.

Record update := mk_update {
  requirements : list Iceberg.requirement;
  updates : list Iceberg.update }.
End Table.

(** ** Errors: [error.rs]

    An error that wraps one of a library ([object_store], [iceberg_rust], ...) carries it as a
    string. *)
Inductive merror :=
| TableDataExists (path : string)
| TableRequirementFailed (message : string)
| ObjectStoreError (error : string)
| VolumeAlreadyExists (volume : string)
| VolumeNotFound (volume : string)
| DatabaseAlreadyExists (db : string)
| DatabaseNotFound (db : string)
| SchemaAlreadyExists (schema db : string)
| SchemaNotFound (schema db : string)
| TableAlreadyExists (table schema db : string)
| TableNotFound (table schema db : string)
| VolumeInUse (database : string)
| DatabaseInUse (database schema : string)
| IcebergError (error : string)
| TableMetadataBuilderError (error : string)
| SerializeMetadata (error : string)
| Filesystem (error : string)
| IcebergSpecError (error : string)
| TableVolumeMissing (table : string).

(** ** Commit requirements: [TableRequirementExt::assert] *)
Module TableRequirementExt.
Import Iceberg.

Definition failed (message : string) : result merror unit := Err (TableRequirementFailed message).

Definition assert (r : requirement) (m : metadata) : result merror unit :=
  match r with
  | AssertCreate =>
      if decide (snapshots m = ∅) then Ok tt else Err (TableDataExists (location m))
  | AssertTableUuid uuid =>
      if String.eqb (table_uuid m) uuid then Ok tt else failed "Table uuid does not match"
  | AssertCurrentSchemaId id =>
      if Z.eqb (current_schema_id m) id then Ok tt
      else failed "Table current schema id does not match"
  | AssertDefaultSortOrderId id =>
      if Z.eqb (default_sort_order_id m) id then Ok tt
      else failed "Table default sort order id does not match"
  | AssertRefSnapshotId r (Some snapshot_id) =>
      match refs m !! r with
      | None => failed "Table ref not found"
      | Some s => if Z.eqb s snapshot_id then Ok tt
                  else failed "Table ref snapshot id does not match"
      end
  | AssertRefSnapshotId r None =>
      match refs m !! r with
      | Some _ => failed "Table ref already exists"
      | None => Ok tt
      end
  | AssertDefaultSpecId id =>
      if Z.eqb (default_spec_id m) id then Ok tt else failed "Table default spec id does not match"
  | AssertLastAssignedPartitionId id =>
      if Z.eqb (last_partition_id m) id then Ok tt
      else failed "Table last assigned partition id does not match"
  | AssertLastAssignedFieldId id =>
      if Z.eqb (last_column_id m) id then Ok tt
      else failed "Table last assigned field id does not match"
  end%string.

(** What a requirement demands of the current metadata, as the Iceberg commit protocol says. *)
Definition holds (r : requirement) (m : metadata) : Prop :=
  match r with
  | AssertCreate => snapshots m = ∅
  | AssertTableUuid uuid => table_uuid m = uuid
  | AssertCurrentSchemaId id => current_schema_id m = id
  | AssertDefaultSortOrderId id => default_sort_order_id m = id
  | AssertRefSnapshotId r o => refs m !! r = o
  | AssertDefaultSpecId id => default_spec_id m = id
  | AssertLastAssignedPartitionId id => last_partition_id m = id
  | AssertLastAssignedFieldId id => last_column_id m = id
  end.

Lemma assert_holds r m : assert r m = Ok tt <-> holds r m.
Proof.
  destruct r as [|u|r [s|]|i|i|i|i|i]; simpl; unfold failed.
  - case_decide; naive_solver.
  - destruct (String.eqb_spec (table_uuid m) u); naive_solver.
  - destruct (refs m !! r) as [s'|]; [|naive_solver].
    destruct (Z.eqb_spec s' s); naive_solver.
  - destruct (refs m !! r); naive_solver.
  - destruct (Z.eqb_spec (last_column_id m) i); naive_solver.
  - destruct (Z.eqb_spec (current_schema_id m) i); naive_solver.
  - destruct (Z.eqb_spec (last_partition_id m) i); naive_solver.
  - destruct (Z.eqb_spec (default_spec_id m) i); naive_solver.
  - destruct (Z.eqb_spec (default_sort_order_id m) i); naive_solver.
Qed.
End TableRequirementExt.
