(* ===== verification/Metastore.v ===== *)
(** * The in-memory metastore

    Models [crates/catalog-metastore/src/metastore.rs]: the four maps of [MetastoreState], the
    object-store cache beside them and every operation of the [Metastore] trait, with the write
    guard of the [tokio::sync::RwLock] explicit so that a task that waits for a lock it holds
    itself is a value ([Deadlock]) and not silently skipped. *)

From Stdlib Require Import ZArith Lia Ascii String.
From stdpp Require Import base option list gmap strings sorting.
From S2P Require Import Prelude MetastoreModels.

(** What an operation asks of the libraries while it runs: the clock, the file name of
    [Uuid::new_v4], the object store and the Iceberg crates.  Every call of an operation has its
    own answers. *)
Record Ext {ObjectStore : Type} := {
  now : RwObject.time;
  now_ms : Z;
  now_rfc3339 : string;
  uuid : string;
  s3_build : Volume.S3Builder -> result string ObjectStore;
  create_dir_all : string -> result string unit;
  local_file_system : string -> result string ObjectStore;
  in_memory : ObjectStore;
  to_vec : Iceberg.metadata -> result string string;
  object_put : ObjectStore -> string -> string -> result string unit;
  metadata_build : Iceberg.builder -> result string Iceberg.metadata;
  apply_table_updates : Iceberg.metadata -> list Iceberg.update -> result string Iceberg.metadata;
  schema_build : Z -> list Iceberg.field -> result string Iceberg.schema;
  to_lowercase : string -> string }.
Arguments Ext : clear implicits.

(** The error conversions of [ResultExt::context]. *)
Definition context {A} (wrap : string -> merror) (r : result string A) : result merror A :=
  match r with Ok a => Ok a | Err e => Err (wrap e) end.

Definition join_comma (l : list string) : string := String.concat ", " l.

(** ** Schema helpers *)
Fixpoint max_field_id_recurse (f : Iceberg.field) : Z :=
  match f with
  | Iceberg.StructField id _ _ ty _ =>
      match ty with
      | Iceberg.Struct inner => fold_left Z.max (List.map max_field_id_recurse inner) id
      | _ => id
      end
  end.

Definition max_field_id (s : Iceberg.schema) : Z :=
  match List.map max_field_id_recurse (Iceberg.fields s) with
  | [] => 0
  | x :: l => fold_left Z.max l x
  end.

(** The ids of a field and of the fields of the structs nested directly in it. *)
Inductive struct_id : Iceberg.field -> Z -> Prop :=
| struct_id_self id n r ty doc : struct_id (Iceberg.StructField id n r ty doc) id
| struct_id_inner id n r inner doc f i :
    f ∈ inner -> struct_id f i -> struct_id (Iceberg.StructField id n r (Iceberg.Struct inner) doc) i.

Lemma fold_max_ge l z : z <= fold_left Z.max l z /\ forall y, y ∈ l -> y <= fold_left Z.max l z.
Proof.
  revert z. induction l as [|a l IH]; intros z; cbn [fold_left].
  - split; [lia|]. intros y Hy. by apply not_elem_of_nil in Hy.
  - destruct (IH (Z.max z a)) as [H1 H2]. split; [lia|].
    intros y [->|Hy]%elem_of_cons; [lia|auto].
Qed.

Lemma max_field_id_recurse_ge f i : struct_id f i -> i <= max_field_id_recurse f.
Proof.
  induction 1 as [id n r ty doc|id n r inner doc f i Hf _ IH]; cbn.
  - destruct ty; [done|apply (proj1 (fold_max_ge _ _))|done..].
  - etrans; [exact IH|]. apply (proj2 (fold_max_ge _ _)). by apply list_elem_of_fmap_2.
Qed.

Lemma max_field_id_ge s f i :
  f ∈ Iceberg.fields s -> struct_id f i -> i <= max_field_id s.
Proof.
  intros Hf Hi%max_field_id_recurse_ge. unfold max_field_id.
  destruct (Iceberg.fields s) as [|g l]; [by apply not_elem_of_nil in Hf|]. cbn.
  destruct (fold_max_ge (List.map max_field_id_recurse l) (max_field_id_recurse g)) as [H1 H2].
  apply elem_of_cons in Hf as [->|Hf]; [lia|].
  etrans; [exact Hi|]. apply H2. by apply list_elem_of_fmap_2.
Qed.

Section metastore.
Context {ObjectStore Settings : Type}.

(** ** State *)
Record MetastoreState := mkState {
  volumes : gmap VolumeIdent (RwObject.t Volume.t);
  databases : gmap DatabaseIdent (RwObject.t Database.t);
  schemas : gmap (DatabaseIdent * string) (RwObject.t Schema.t);
  tables : gmap (DatabaseIdent * string * string) (RwObject.t Table.t) }.

(** [guard] says that the running task holds the write guard of [state]. *)
Record InMemoryMetastore := mkStore {
  state : MetastoreState;
  object_store_cache : gmap VolumeIdent ObjectStore;
  settings_config : option Settings;
  guard : bool }.

Definition empty_state : MetastoreState := mkState ∅ ∅ ∅ ∅.
Definition new : InMemoryMetastore := mkStore empty_state ∅ None false.
Definition with_settings_config (s : Settings) (m : InMemoryMetastore) : InMemoryMetastore :=
  mkStore (state m) (object_store_cache m) (Some s) (guard m).

Definition set_volumes x (s : MetastoreState) := mkState x (databases s) (schemas s) (tables s).
Definition set_databases x (s : MetastoreState) := mkState (volumes s) x (schemas s) (tables s).
Definition set_schemas x (s : MetastoreState) := mkState (volumes s) (databases s) x (tables s).
Definition set_tables x (s : MetastoreState) := mkState (volumes s) (databases s) (schemas s) x.

(** ** Operations as state transformers *)
Inductive outcome (A : Type) := Done (r : result merror A) | Deadlock.
Arguments Done {A} r.
Arguments Deadlock {A}.

Definition M (A : Type) : Type := InMemoryMetastore -> outcome A * InMemoryMetastore.

Definition ret {A} (a : A) : M A := fun m => (Done (Ok a), m).
Definition fail {A} (e : merror) : M A := fun m => (Done (Err e), m).
Definition lift {A} (r : result merror A) : M A := fun m => (Done r, m).
Definition bind {A B} (c : M A) (k : A -> M B) : M B :=
  fun m => match c m with
           | (Done (Ok a), m') => k a m'
           | (Done (Err e), m') => (Done (Err e), m')
           | (Deadlock, m') => (Deadlock, m')
           end.
Definition get_state : M MetastoreState := fun m => (Done (Ok (state m)), m).
Definition put_state (s : MetastoreState) : M unit :=
  fun m => (Done (Ok tt), mkStore s (object_store_cache m) (settings_config m) (guard m)).
Definition get_cache : M (gmap VolumeIdent ObjectStore) :=
  fun m => (Done (Ok (object_store_cache m)), m).
Definition put_cache c : M unit :=
  fun m => (Done (Ok tt), mkStore (state m) c (settings_config m) (guard m)).

Definition set_guard b (m : InMemoryMetastore) : InMemoryMetastore :=
  mkStore (state m) (object_store_cache m) (settings_config m) b.

(** [self.state.read().await] and [self.state.write().await] for the extent of [c]: waiting for
    the lock while the task itself holds the write guard never ends. *)
Definition read_lock {A} (c : M A) : M A :=
  fun m => if guard m then (Deadlock, m) else c m.
Definition write_lock {A} (c : M A) : M A :=
  fun m => if guard m then (Deadlock, m)
           else let (r, m') := c (set_guard true m) in (r, set_guard false m').

Local Notation "'let*' x ':=' c 'in' k" := (bind c (fun x => k))
  (at level 10, x pattern, c at level 100, k at level 200).

(** ** Keys *)
Definition default_table_location (i : TableIdent.t) : string :=
  (TableIdent.database i +:+ "/" +:+ TableIdent.schema i +:+ "/" +:+ TableIdent.table i)%string.

Definition table_key (i : TableIdent.t) : DatabaseIdent * string * string :=
  (to_ascii_lowercase (TableIdent.database i), to_ascii_lowercase (TableIdent.schema i),
   to_ascii_lowercase (TableIdent.table i)).

Definition schema_key (i : SchemaIdent.t) : DatabaseIdent * string :=
  (to_ascii_lowercase (SchemaIdent.database i), to_ascii_lowercase (SchemaIdent.schema i)).

Definition database_key (i : TableIdent.t) : DatabaseIdent :=
  to_ascii_lowercase (TableIdent.database i).

Definition table_not_found (i : TableIdent.t) : merror :=
  TableNotFound (TableIdent.table i) (TableIdent.schema i) (TableIdent.database i).

Definition ensure_database (s : MetastoreState) (name : DatabaseIdent)
  : result merror (RwObject.t Database.t) := ok_or (databases s !! name) (DatabaseNotFound name).

Definition ensure_volume (s : MetastoreState) (name : VolumeIdent)
  : result merror (RwObject.t Volume.t) := ok_or (volumes s !! name) (VolumeNotFound name).

(** ** Object stores *)
Definition get_object_store (x : Ext ObjectStore) (v : Volume.t) : result merror ObjectStore :=
  match Volume.volume v with
  | Volume.S3 s => context ObjectStoreError (s3_build x (Volume.get_s3_builder s))
  | Volume.File path =>
      result_bind (context Filesystem (create_dir_all x path)) (fun _ =>
      context ObjectStoreError (local_file_system x path))
  | Volume.Memory => Ok (in_memory x)
  end.

Definition metadata_file_name (x : Ext ObjectStore) : string := (uuid x +:+ ".metadata.json")%string.

Definition put_metadata (x : Ext ObjectStore) (i : TableIdent.t) (store : ObjectStore)
    (md : Iceberg.metadata) : result merror string :=
  let path := (default_table_location i +:+ "/metadata/" +:+ metadata_file_name x)%string in
  result_bind (context SerializeMetadata (to_vec x md)) (fun bytes =>
  result_bind (context ObjectStoreError (object_put x store path bytes)) (fun _ =>
  Ok path)).

(** ** Volumes *)
Definition list_volumes : M (list (RwObject.t Volume.t)) :=
  read_lock (let* s := get_state in ret ((map_to_list (volumes s)).*2)).

Definition create_volume (x : Ext ObjectStore) (name : VolumeIdent) (v : Volume.t)
  : M (RwObject.t Volume.t) :=
  let* object_store := lift (get_object_store x v) in
  write_lock (
    let* s := get_state in
    match volumes s !! name with
    | Some _ => fail (VolumeAlreadyExists name)
    | None =>
        let row := RwObject.new (now x) v in
        let* _ := put_state (set_volumes (<[name := row]> (volumes s)) s) in
        let* c := get_cache in
        let* _ := put_cache (<[name := object_store]> c) in
        ret row
    end).

Definition get_volume (name : VolumeIdent) : M (option (RwObject.t Volume.t)) :=
  read_lock (let* s := get_state in ret (volumes s !! name)).

Definition update_volume (x : Ext ObjectStore) (name : VolumeIdent) (v : Volume.t)
  : M (RwObject.t Volume.t) :=
  let* object_store := lift (get_object_store x v) in
  write_lock (
    let* s := get_state in
    match volumes s !! name with
    | None => fail (VolumeNotFound name)
    | Some row =>
        let row := RwObject.update (now x) v row in
        let* _ := put_state (set_volumes (<[name := row]> (volumes s)) s) in
        let* c := get_cache in
        let* _ := put_cache (<[name := object_store]> c) in
        ret row
    end).

(** The keys of a map that pass a test, removed one after the other. *)
Definition remove_all {K A} `{Countable K} (keys : list K) (m : gmap K A) : gmap K A :=
  fold_left (fun m k => delete k m) keys m.

Definition select_keys {K A} `{Countable K} (p : K -> bool) (m : gmap K A) : list K :=
  List.filter p ((map_to_list m).*1).

(** The identifiers of the databases that lie on a volume, and the test [delete_volume] makes of
    a key against them. *)
Definition databases_in_use (s : MetastoreState) (name : VolumeIdent) : list DatabaseIdent :=
  List.map (fun db => Database.ident (RwObject.data db))
    (List.filter (fun db => String.eqb (Database.volume (RwObject.data db)) name)
       ((map_to_list (databases s)).*2)).
Definition is_used (in_use : list DatabaseIdent) (db : DatabaseIdent) : bool :=
  existsb (fun d => String.eqb d db) in_use.

Definition delete_volume (name : VolumeIdent) (cascade : bool) : M unit :=
  write_lock (
    let* s := get_state in
    let in_use := databases_in_use s name in
    if negb (bool_decide (in_use = [])) && negb cascade then fail (VolumeInUse (join_comma in_use))
    else
      let* _ :=
        if cascade then
          let schema_keys := select_keys (fun k => is_used in_use k.1) (schemas s) in
          let s := set_schemas (remove_all schema_keys (schemas s)) s in
          let table_keys := select_keys (fun k => is_used in_use k.1.1) (tables s) in
          let s := set_tables (remove_all table_keys (tables s)) s in
          put_state (set_databases (remove_all in_use (databases s)) s)
        else if negb (bool_decide (in_use = [])) then fail (VolumeInUse (join_comma in_use))
        else ret tt in
      let* s := get_state in
      match volumes s !! name with
      | None => ret tt
      | Some _ =>
          let* _ := put_state (set_volumes (delete name (volumes s)) s) in
          let* c := get_cache in
          put_cache (delete name c)
      end).

Definition volume_object_store (x : Ext ObjectStore) (name : VolumeIdent)
  : M (option ObjectStore) :=
  let* c := get_cache in
  match c !! name with
  | Some store => ret (Some store)
  | None =>
      let* volume := get_volume name in
      match volume with
      | Some volume =>
          let* object_store := lift (get_object_store x (RwObject.data volume)) in
          let* c := get_cache in
          let* _ := put_cache (<[name := object_store]> c) in
          ret (Some object_store)
      | None => ret None
      end
  end.

(** ** Databases *)
Definition list_databases : M (list (RwObject.t Database.t)) :=
  read_lock (let* s := get_state in ret ((map_to_list (databases s)).*2)).

Definition create_database (x : Ext ObjectStore) (name : DatabaseIdent) (d : Database.t)
  : M (RwObject.t Database.t) :=
  write_lock (
    let* s := get_state in
    let* _ := lift (ensure_volume s (Database.volume d)) in
    match databases s !! name with
    | Some _ => fail (DatabaseAlreadyExists name)
    | None =>
        let row := RwObject.new (now x) d in
        let* _ := put_state (set_databases (<[name := row]> (databases s)) s) in
        ret row
    end).

Definition get_database (name : DatabaseIdent) : M (option (RwObject.t Database.t)) :=
  read_lock (let* s := get_state in ret (databases s !! name)).

Definition update_database (x : Ext ObjectStore) (name : DatabaseIdent) (d : Database.t)
  : M (RwObject.t Database.t) :=
  write_lock (
    let* s := get_state in
    match databases s !! name with
    | None => fail (DatabaseNotFound name)
    | Some row =>
        let row := RwObject.update (now x) d row in
        let* _ := put_state (set_databases (<[name := row]> (databases s)) s) in
        ret row
    end).

Definition delete_database (name : DatabaseIdent) (cascade : bool) : M unit :=
  write_lock (
    let* s := get_state in
    let schema_keys := select_keys (fun k => String.eqb k.1 name) (schemas s) in
    if negb (bool_decide (schema_keys = [])) && negb cascade
    then fail (DatabaseInUse name (join_comma (List.map snd schema_keys)))
    else
      let s := set_schemas (remove_all schema_keys (schemas s)) s in
      let table_keys := select_keys (fun k => String.eqb k.1.1 name) (tables s) in
      let s := set_tables (remove_all table_keys (tables s)) s in
      put_state (set_databases (delete name (databases s)) s)).

(** ** Schemas *)
Definition row_schema_name (r : RwObject.t Schema.t) : string :=
  SchemaIdent.schema (Schema.ident (RwObject.data r)).

(** [b.ident.schema.cmp(&a.ident.schema)]: the order of [sort_by]. *)
Definition schema_ge (a b : RwObject.t Schema.t) : Prop :=
  str_le (row_schema_name b) (row_schema_name a).
#[local] Instance schema_ge_dec : RelDecision schema_ge.
Proof. intros a b. unfold schema_ge. apply _. Defined.

Definition list_schemas (database : DatabaseIdent) : M (list (RwObject.t Schema.t)) :=
  read_lock (
    let* s := get_state in
    let items :=
      List.map snd (List.filter (fun kv => String.eqb kv.1.1 database) (map_to_list (schemas s))) in
    ret (merge_sort schema_ge items)).

Definition create_schema (x : Ext ObjectStore) (i : SchemaIdent.t) (sch : Schema.t)
  : M (RwObject.t Schema.t) :=
  write_lock (
    let* s := get_state in
    match schemas s !! schema_key i with
    | Some _ => fail (SchemaAlreadyExists (SchemaIdent.schema i) (SchemaIdent.database i))
    | None =>
        match databases s !! SchemaIdent.database i with
        | None => fail (DatabaseNotFound (SchemaIdent.database i))
        | Some _ =>
            let row := RwObject.new (now x) sch in
            let* _ := put_state (set_schemas (<[schema_key i := row]> (schemas s)) s) in
            ret row
        end
    end).

Definition get_schema (i : SchemaIdent.t) : M (option (RwObject.t Schema.t)) :=
  read_lock (let* s := get_state in ret (schemas s !! schema_key i)).

Definition update_schema (x : Ext ObjectStore) (i : SchemaIdent.t) (sch : Schema.t)
  : M (RwObject.t Schema.t) :=
  write_lock (
    let* s := get_state in
    match schemas s !! schema_key i with
    | None => fail (SchemaNotFound (SchemaIdent.schema i) (SchemaIdent.database i))
    | Some row =>
        let row := RwObject.update (now x) sch row in
        let* _ := put_state (set_schemas (<[schema_key i := row]> (schemas s)) s) in
        ret row
    end).

Definition delete_schema (i : SchemaIdent.t) (cascade : bool) : M unit :=
  write_lock (
    let* s := get_state in
    let keys := select_keys (fun k => String.eqb k.1.1 (SchemaIdent.database i)
                                      && String.eqb k.1.2 (SchemaIdent.schema i)) (tables s) in
    if negb (bool_decide (keys = [])) && negb cascade
    then fail (SchemaNotFound (SchemaIdent.schema i) (SchemaIdent.database i))
    else
      let s := set_tables (remove_all keys (tables s)) s in
      put_state (set_schemas (delete (schema_key i) (schemas s)) s)).

(** ** Tables *)
Definition list_tables (i : SchemaIdent.t) : M (list (RwObject.t Table.t)) :=
  read_lock (
    let* s := get_state in
    ret (List.map snd
           (List.filter (fun kv => String.eqb kv.1.1.1 (SchemaIdent.database i)
                                   && String.eqb kv.1.1.2 (SchemaIdent.schema i))
              (map_to_list (tables s))))).

Definition table_exists (i : TableIdent.t) : M bool :=
  read_lock (let* s := get_state in ret (bool_decide (is_Some (tables s !! table_key i)))).

Definition get_table (i : TableIdent.t) : M (option (RwObject.t Table.t)) :=
  read_lock (let* s := get_state in ret (tables s !! table_key i)).

Definition url_for_table (i : TableIdent.t) : M string :=
  read_lock (
    let* s := get_state in
    match tables s !! table_key i with
    | Some t => ret (default ("memory://" +:+ TableIdent.table i)%string
                             (Table.volume_location (RwObject.data t)))
    | None => fail (table_not_found i)
    end).

Definition volume_for_table (i : TableIdent.t) : M (option (RwObject.t Volume.t)) :=
  read_lock (
    let* s := get_state in
    match tables s !! table_key i ≫= fun t => Table.volume_ident (RwObject.data t) with
    | Some volume_ident => ret (volumes s !! volume_ident)
    | None =>
        match databases s !! database_key i with
        | Some d => ret (volumes s !! Database.volume (RwObject.data d))
        | None => ret None
        end
    end).

Definition table_object_store (x : Ext ObjectStore) (i : TableIdent.t) : M (option ObjectStore) :=
  let* volume := volume_for_table i in
  match volume with
  | Some v => volume_object_store x (Volume.ident (RwObject.data v))
  | None => ret None
  end.

(** The request's volume as [create_table] has filled it in. *)
Definition table_object_store_from_request (x : Ext ObjectStore) (s : MetastoreState)
    (volume_ident : option VolumeIdent) (i : TableIdent.t) : M ObjectStore :=
  let* volume_ident := lift (ok_or volume_ident (TableVolumeMissing (TableIdent.table i))) in
  let* _ := lift (ensure_volume s volume_ident) in
  let* store := volume_object_store x volume_ident in
  lift (ok_or store (VolumeNotFound volume_ident)).

Definition update_properties_timestamps (x : Ext ObjectStore) (p : gmap string string)
  : gmap string string :=
  <["updated_at" := now_rfc3339 x]> (<["created_at" := now_rfc3339 x]> p).

(** The metadata builder [create_table] fills from the request. *)
Definition request_builder (x : Ext ObjectStore) (location : string) (t : Table.create_request)
  : Iceberg.builder :=
  let sch := Table.r_schema t in
  {| Iceberg.b_schemas := {[ Iceberg.schema_id sch := sch ]};
     Iceberg.b_current_schema_id := Iceberg.schema_id sch;
     Iceberg.b_location := location;
     Iceberg.b_last_updated_ms := now_ms x;
     Iceberg.b_format_version := Iceberg.V2;
     Iceberg.b_last_column_id := max_field_id sch;
     Iceberg.b_partition :=
       match Table.r_partition_spec t with
       | Some spec =>
           Some ({[ Iceberg.spec_id spec := spec ]}, Iceberg.spec_id spec,
                 match Iceberg.partition_field_ids spec with
                 | [] => 0
                 | f :: l => fold_left Z.max l f
                 end)
       | None => None
       end;
     Iceberg.b_sort :=
       match Table.r_sort_order t with
       | Some order => Some ({[ Iceberg.order_id order := order ]}, Iceberg.order_id order)
       | None => None
       end |}.

(** [table.volume_ident], taken from the database when the request has none. *)
Definition request_volume (s : MetastoreState) (i : TableIdent.t) (t : Table.create_request)
  : result merror (option VolumeIdent) :=
  match Table.r_volume_ident t with
  | Some v => Ok (Some v)
  | None =>
      result_map (fun database => Some (Database.volume (RwObject.data database)))
        (ensure_database s (TableIdent.database i))
  end.

Definition create_table (x : Ext ObjectStore) (i : TableIdent.t) (t : Table.create_request)
  : M (RwObject.t Table.t) :=
  write_lock (
    let* s := get_state in
    match schemas s !! schema_key (TableIdent.to_schema_ident i) with
    | None => fail (SchemaNotFound (TableIdent.schema i) (TableIdent.database i))
    | Some _ =>
    match tables s !! table_key i with
    | Some _ =>
        fail (TableAlreadyExists (TableIdent.table i) (TableIdent.schema i) (TableIdent.database i))
    | None =>
        let* volume_ident := lift (request_volume s i t) in
        let location := default (default_table_location i) (Table.r_location t) in
        let* metadata :=
          lift (context TableMetadataBuilderError (metadata_build x (request_builder x location t))) in
        let* object_store := table_object_store_from_request x s volume_ident i in
        let* metadata_location := lift (put_metadata x i object_store metadata) in
        let properties := update_properties_timestamps x (default ∅ (Table.r_properties t)) in
        let stored_table :=
          Table.mk i metadata metadata_location properties volume_ident (Some location)
            (default false (Table.r_is_temporary t))
            (default Table.IcebergFormat (Table.r_format t)) in
        let row := RwObject.new (now x) stored_table in
        let* s := get_state in
        let* _ := put_state (set_tables (<[table_key i := row]> (tables s)) s) in
        ret row
    end end).

Definition register_table (x : Ext ObjectStore) (i : TableIdent.t) (t : Table.t)
  : M (RwObject.t Table.t) :=
  write_lock (
    let* s := get_state in
    let row := RwObject.new (now x) t in
    let* _ := put_state (set_tables (<[table_key i := row]> (tables s)) s) in
    ret row).

Definition convert_schema_fields_to_lowercase (x : Ext ObjectStore) (s : Iceberg.schema)
  : result merror Iceberg.schema :=
  let converted_fields :=
    List.map (fun f => match f with
                       | Iceberg.StructField id name required ty doc =>
                           Iceberg.StructField id (to_lowercase x name) required ty doc
                       end) (Iceberg.fields s) in
  context IcebergSpecError (schema_build x (Iceberg.schema_id s) converted_fields).

Definition convert_add_schema_update_to_lowercase (x : Ext ObjectStore) (us : list Iceberg.update)
  : result merror (list Iceberg.update) :=
  traverse (fun u => match u with
                     | Iceberg.AddSchema schema last_column_id =>
                         result_map (fun schema => Iceberg.AddSchema schema last_column_id)
                           (convert_schema_fields_to_lowercase x schema)
                     | u => Ok u
                     end) us.

Definition set_metadata (md : Iceberg.metadata) (loc : string) (t : Table.t) : Table.t :=
  Table.mk (Table.ident t) md loc (Table.properties t) (Table.volume_ident t)
    (Table.volume_location t) (Table.is_temporary t) (Table.format t).

Definition update_table (x : Ext ObjectStore) (i : TableIdent.t) (u : Table.update)
  : M (RwObject.t Table.t) :=
  let* store := table_object_store x i in
  let* object_store := lift (ok_or store (table_not_found i)) in
  write_lock (
    let* s := get_state in
    let* entry := lift (ok_or (tables s !! table_key i) (table_not_found i)) in
    let metadata := Table.metadata (RwObject.data entry) in
    let* _ := lift (try_for_each (fun r => TableRequirementExt.assert r metadata)
                      (Table.requirements u)) in
    let* updates := lift (convert_add_schema_update_to_lowercase x (Table.updates u)) in
    let* metadata := lift (context IcebergError (apply_table_updates x metadata updates)) in
    let* metadata_location := lift (put_metadata x i object_store metadata) in
    let data := set_metadata metadata metadata_location (RwObject.data entry) in
    let row := RwObject.touch (now x) (RwObject.mk data (RwObject.created_at entry)
                                         (RwObject.updated_at entry)) in
    let* _ := put_state (set_tables (<[table_key i := row]> (tables s)) s) in
    ret row).

Definition delete_table (i : TableIdent.t) (cascade : bool) : M unit :=
  write_lock (
    let* s := get_state in
    put_state (set_tables (delete (table_key i) (tables s)) s)).

(** ** One call of the trait, and a run of calls *)
Inductive call :=
| ListVolumes | CreateVolume (name : VolumeIdent) (v : Volume.t) | GetVolume (name : VolumeIdent)
| UpdateVolume (name : VolumeIdent) (v : Volume.t) | DeleteVolume (name : VolumeIdent) (c : bool)
| VolumeObjectStore (name : VolumeIdent)
| ListDatabases | CreateDatabase (name : DatabaseIdent) (d : Database.t)
| GetDatabase (name : DatabaseIdent) | UpdateDatabase (name : DatabaseIdent) (d : Database.t)
| DeleteDatabase (name : DatabaseIdent) (c : bool)
| ListSchemas (d : DatabaseIdent) | CreateSchema (i : SchemaIdent.t) (s : Schema.t)
| GetSchema (i : SchemaIdent.t) | UpdateSchema (i : SchemaIdent.t) (s : Schema.t)
| DeleteSchema (i : SchemaIdent.t) (c : bool)
| ListTables (i : SchemaIdent.t) | CreateTable (i : TableIdent.t) (t : Table.create_request)
| RegisterTable (i : TableIdent.t) (t : Table.t) | GetTable (i : TableIdent.t)
| UpdateTable (i : TableIdent.t) (u : Table.update) | DeleteTable (i : TableIdent.t) (c : bool)
| TableObjectStore (i : TableIdent.t) | TableExists (i : TableIdent.t)
| UrlForTable (i : TableIdent.t) | VolumeForTable (i : TableIdent.t).

(** How a call ended, its value forgotten. *)
Inductive ending := Returned | Raised (e : merror) | Hung.

Definition ending_of {A} (o : outcome A) : ending :=
  match o with Done (Ok _) => Returned | Done (Err e) => Raised e | Deadlock => Hung end.

Definition forget {A} (c : M A) (m : InMemoryMetastore) : ending * InMemoryMetastore :=
  let (o, m') := c m in (ending_of o, m').

Definition exec (x : Ext ObjectStore) (c : call) : InMemoryMetastore -> ending * InMemoryMetastore :=
  match c with
  | ListVolumes => forget list_volumes
  | CreateVolume n v => forget (create_volume x n v)
  | GetVolume n => forget (get_volume n)
  | UpdateVolume n v => forget (update_volume x n v)
  | DeleteVolume n b => forget (delete_volume n b)
  | VolumeObjectStore n => forget (volume_object_store x n)
  | ListDatabases => forget list_databases
  | CreateDatabase n d => forget (create_database x n d)
  | GetDatabase n => forget (get_database n)
  | UpdateDatabase n d => forget (update_database x n d)
  | DeleteDatabase n b => forget (delete_database n b)
  | ListSchemas d => forget (list_schemas d)
  | CreateSchema i s => forget (create_schema x i s)
  | GetSchema i => forget (get_schema i)
  | UpdateSchema i s => forget (update_schema x i s)
  | DeleteSchema i b => forget (delete_schema i b)
  | ListTables i => forget (list_tables i)
  | CreateTable i t => forget (create_table x i t)
  | RegisterTable i t => forget (register_table x i t)
  | GetTable i => forget (get_table i)
  | UpdateTable i u => forget (update_table x i u)
  | DeleteTable i b => forget (delete_table i b)
  | TableObjectStore i => forget (table_object_store x i)
  | TableExists i => forget (table_exists i)
  | UrlForTable i => forget (url_for_table i)
  | VolumeForTable i => forget (volume_for_table i)
  end.

(** States reached from a new metastore by calls that returned or raised. *)
Inductive reachable : InMemoryMetastore -> Prop :=
| reach_new : reachable new
| reach_call m x c : reachable m -> reachable (exec x c m).2.

(** ** Proof vocabulary *)

(** Every volume has a cached object store, and no task is left holding the guard. *)
Definition covers (m : InMemoryMetastore) : Prop :=
  forall v, is_Some (volumes (state m) !! v) -> is_Some (object_store_cache m !! v).
Definition inv (m : InMemoryMetastore) : Prop := guard m = false /\ covers m.

(** [c] keeps [I] and comes to an end. *)
Definition keeps (I : InMemoryMetastore -> Prop) {A} (c : M A) : Prop :=
  forall m, I m -> I (c m).2 /\ (c m).1 <> Deadlock.

Ltac unfold_ms :=
  unfold write_lock, read_lock, bind, get_state, put_state, get_cache, put_cache, lift, ret, fail,
    set_guard, set_volumes, set_databases, set_schemas, set_tables, ok_or in *; cbn in *.

Ltac ms_cases := unfold_ms; repeat (case_match; cbn in *); simplify_eq; cbn in *.

Lemma keeps_ret I {A} (a : A) : keeps I (ret a).
Proof. done. Qed.
Lemma keeps_fail I {A} e : keeps I (fail (A := A) e).
Proof. done. Qed.
Lemma keeps_lift I {A} (r : result merror A) : keeps I (lift r).
Proof. done. Qed.
Lemma keeps_get_state I : keeps I get_state.
Proof. done. Qed.
Lemma keeps_get_cache I : keeps I get_cache.
Proof. done. Qed.

Lemma keeps_bind I {A B} (c : M A) (k : A -> M B) :
  keeps I c -> (forall a, keeps I (k a)) -> keeps I (bind c k).
Proof.
  intros Hc Hk m Hm. unfold bind. destruct (Hc m Hm) as [HI HD].
  destruct (c m) as [[[a|e]|] m']; simpl in *; [by apply Hk| |]; done.
Qed.

Lemma keeps_read_lock I {A} (c : M A) :
  (forall m, I m -> guard m = false) -> keeps I c -> keeps I (read_lock c).
Proof. intros HI Hc m Hm. unfold read_lock. rewrite (HI m Hm). by apply Hc. Qed.

(** Under the write guard the invariant is only the coverage of the cache. *)
Definition inv_locked (m : InMemoryMetastore) : Prop := guard m = true /\ covers m.

Lemma keeps_write_lock {A} (c : M A) : keeps inv_locked c -> keeps inv (write_lock c).
Proof.
  intros Hc m [Hg Hm]. unfold write_lock. rewrite Hg.
  destruct (Hc (set_guard true m)) as [[_ HI] HD]; [by split|].
  destruct (c (set_guard true m)) as [r m']; simpl in *. done.
Qed.

Lemma keeps_put_state I s :
  (forall m, I m -> I (mkStore s (object_store_cache m) (settings_config m) (guard m))) ->
  keeps I (put_state s).
Proof. intros H m Hm. by split; [apply H|]. Qed.

Ltac solve_inv :=
  match goal with
  | H : inv _ |- _ => destruct H as [? ?]
  | H : inv_locked _ |- _ => destruct H as [? ?]
  end;
  ms_cases; try done; (split; [split; [done|]|done]);
  unfold covers in *; cbn; intros w;
  rewrite ?lookup_insert, ?lookup_delete; repeat case_decide; naive_solver.

Lemma create_volume_keeps x n v : keeps inv (create_volume x n v).
Proof.
  apply keeps_bind; [apply keeps_lift|intros st].
  apply keeps_write_lock. intros m Hm. solve_inv.
Qed.

Lemma update_volume_keeps x n v : keeps inv (update_volume x n v).
Proof.
  apply keeps_bind; [apply keeps_lift|intros st].
  apply keeps_write_lock. intros m Hm. solve_inv.
Qed.

Lemma delete_volume_keeps n b : keeps inv (delete_volume n b).
Proof. apply keeps_write_lock. intros m Hm. unfold_ms. destruct b; solve_inv. Qed.

Lemma volume_object_store_keeps x n : keeps inv (volume_object_store x n).
Proof. intros m Hm. unfold volume_object_store, get_volume. solve_inv. Qed.

Lemma table_object_store_keeps x i : keeps inv (table_object_store x i).
Proof.
  apply keeps_bind.
  - apply keeps_read_lock; [by intros m []|]. intros m Hm. solve_inv.
  - intros [v|]; [apply volume_object_store_keeps|apply keeps_ret].
Qed.

Lemma update_table_keeps x i u : keeps inv (update_table x i u).
Proof.
  apply keeps_bind; [apply table_object_store_keeps|intros st].
  apply keeps_bind; [apply keeps_lift|intros store].
  apply keeps_write_lock. intros m Hm. solve_inv.
Qed.

#[local] Arguments volume_object_store : simpl never.
#[local] Arguments table_object_store_from_request : simpl never.

(** With the guard held, looking up the object store of an existing volume hits the cache. *)
Lemma volume_object_store_cached x n m :
  covers m -> is_Some (volumes (state m) !! n) ->
  exists store, volume_object_store x n m = (Done (Ok (Some store)), m).
Proof. intros Hc [store Hn]%Hc. exists store. unfold volume_object_store. unfold_ms. by rewrite Hn. Qed.

Lemma table_object_store_from_request_cached x vi i m :
  covers m -> exists r, table_object_store_from_request x (state m) vi i m = (Done r, m).
Proof.
  intros Hc. unfold table_object_store_from_request, ensure_volume. unfold_ms.
  destruct vi as [v|]; [|by eexists]. destruct (volumes (state m) !! v) eqn:Hv; [|by eexists].
  destruct (volume_object_store_cached x v m) as [st ->]; [done|by eexists|by eexists].
Qed.

(** [create_table]: a failure changes nothing, a success adds one table. *)
Lemma create_table_spec x i t m :
  covers m -> guard m = false ->
  exists r m', create_table x i t m = (Done r, m') /\
    match r with
    | Err _ => m' = m
    | Ok row =>
        m' = mkStore (set_tables (<[table_key i := row]> (tables (state m))) (state m))
               (object_store_cache m) (settings_config m) false
        /\ is_Some (schemas (state m) !! schema_key (TableIdent.to_schema_ident i))
        /\ tables (state m) !! table_key i = None
        /\ Table.ident (RwObject.data row) = i
    end.
Proof.
  intros Hc Hg. unfold create_table, write_lock. rewrite Hg. unfold bind at 1. cbn.
  assert (set_guard false (set_guard true m) = m) as Hm by (destruct m; simpl in *; by subst).
  destruct (schemas (state m) !! _) as [sch|] eqn:Hs; [|by eexists _, _].
  destruct (tables (state m) !! _) as [tb|] eqn:Ht; [by eexists _, _|].
  unfold bind at 1. unfold lift at 1. destruct (request_volume _ _ _) as [vi|e]; [|by eexists _, _].
  unfold bind at 1. unfold lift at 1. destruct (context _ _) as [md|e]; [|by eexists _, _].
  unfold bind at 1.
  destruct (table_object_store_from_request_cached x vi i (set_guard true m)) as [r Hr]; [done|].
  replace (state (set_guard true m)) with (state m) in Hr by done. rewrite Hr.
  destruct r as [store|e]; [|by eexists _, _].
  unfold bind at 1. unfold lift at 1.
  destruct (put_metadata x i store md) as [loc|e]; [|by eexists _, _].
  eexists _, _. split; [done|]. cbn. by eauto.
Qed.

Lemma create_table_keeps x i t : keeps inv (create_table x i t).
Proof.
  intros m [Hg Hc]. destruct (create_table_spec x i t m Hc Hg) as (r & m' & -> & H).
  split; [|done]. simpl. destruct r as [row|e]; [destruct H as [-> _]|by subst].
  by split.
Qed.

(** Operations that leave the volumes and the cache alone. *)
Lemma exec_inv x c m : inv m -> inv (exec x c m).2 /\ (exec x c m).1 <> Hung.
Proof.
  assert (forall A (k : M A), keeps inv k -> inv m -> inv (forget k m).2 /\ (forget k m).1 <> Hung)
    as Hforget.
  { intros A k Hk Hm. destruct (Hk m Hm) as [HI HD]. unfold forget.
    destruct (k m) as [[[]|] ?]; done. }
  intros Hm. destruct c; apply Hforget; try done;
    auto using create_volume_keeps, update_volume_keeps, delete_volume_keeps,
      volume_object_store_keeps, table_object_store_keeps, update_table_keeps, create_table_keeps;
    (apply keeps_write_lock || (apply keeps_read_lock; [by intros ? []|]));
    intros m' Hm'; unfold ensure_volume; solve_inv.
Qed.

Lemma reachable_inv m : reachable m -> inv m.
Proof.
  induction 1 as [|m x c _ IH]; [|by apply exec_inv].
  split; [done|]. by intros v [? ?].
Qed.

(** ** A call that raises changes none of the four maps *)
Definition reads {A} (c : M A) : Prop := forall m, state (c m).2 = state m.
Definition succeeds {A} (c : M A) : Prop := forall m, exists a, (c m).1 = Done (Ok a).
Definition atomic {A} (c : M A) : Prop :=
  forall m, (exists a, (c m).1 = Done (Ok a)) \/ state (c m).2 = state m.

Lemma reads_bind {A B} (c : M A) (k : A -> M B) :
  reads c -> (forall a, reads (k a)) -> reads (bind c k).
Proof.
  intros Hc Hk m. unfold bind. specialize (Hc m).
  destruct (c m) as [[[a|e]|] m']; simpl in *; [|done..]. by rewrite Hk.
Qed.
Lemma reads_read_lock {A} (c : M A) : reads c -> reads (read_lock c).
Proof. intros Hc m. unfold read_lock. by destruct (guard m). Qed.
Lemma reads_lift {A} (r : result merror A) : reads (lift r).
Proof. done. Qed.
Lemma reads_ret {A} (a : A) : reads (ret a).
Proof. done. Qed.
Lemma reads_fail {A} e : reads (fail (A := A) e).
Proof. done. Qed.
Lemma reads_get_state : reads get_state.
Proof. done. Qed.
Lemma reads_get_cache : reads get_cache.
Proof. done. Qed.
Lemma reads_put_cache c : reads (put_cache c).
Proof. done. Qed.
Lemma succeeds_bind {A B} (c : M A) (k : A -> M B) :
  succeeds c -> (forall a, succeeds (k a)) -> succeeds (bind c k).
Proof.
  intros Hc Hk m. unfold bind. destruct (Hc m) as [a Ha].
  destruct (c m) as [r m']; simpl in *. subst. apply Hk.
Qed.
Lemma succeeds_ret {A} (a : A) : succeeds (ret a).
Proof. intros m. by eexists. Qed.
Lemma succeeds_get_state : succeeds get_state.
Proof. intros m. by eexists. Qed.
Lemma succeeds_get_cache : succeeds get_cache.
Proof. intros m. by eexists. Qed.
Lemma succeeds_put_cache c : succeeds (put_cache c).
Proof. intros m. by eexists. Qed.
Lemma succeeds_put_state s : succeeds (put_state s).
Proof. intros m. by eexists. Qed.
Lemma atomic_reads {A} (c : M A) : reads c -> atomic c.
Proof. intros Hc m. right. apply Hc. Qed.
Lemma atomic_succeeds {A} (c : M A) : succeeds c -> atomic c.
Proof. intros Hc m. left. apply Hc. Qed.
Lemma atomic_bind {A B} (c : M A) (k : A -> M B) :
  reads c -> (forall a, atomic (k a)) -> atomic (bind c k).
Proof.
  intros Hc Hk m. unfold bind. specialize (Hc m).
  destruct (c m) as [[[a|e]|] m']; simpl in *; [|by right..].
  destruct (Hk a m') as [?|H]; [by left|right]. by rewrite H.
Qed.
Lemma atomic_write_lock {A} (c : M A) : atomic c -> atomic (write_lock c).
Proof.
  intros Hc m. unfold write_lock. destruct (guard m); [by right|].
  destruct (Hc (set_guard true m)) as [[a H]|H]; destruct (c (set_guard true m)); simpl in *;
    [left; by eexists|by right].
Qed.

Lemma atomic_read_lock {A} (c : M A) : atomic c -> atomic (read_lock c).
Proof. intros Hc m. unfold read_lock. destruct (guard m); [by right|apply Hc]. Qed.

(** The rules that compose readers and total steps, and those that keep the invariant. *)
Create HintDb ms.
#[local] Hint Resolve reads_bind reads_read_lock reads_lift reads_ret reads_fail reads_get_state
  reads_get_cache reads_put_cache succeeds_bind succeeds_ret succeeds_get_state succeeds_get_cache
  succeeds_put_cache succeeds_put_state : ms.

(** One step of the proof that a body is atomic: bind through the reads, then split its cases. *)
Ltac atomic_step :=
  first
    [ apply atomic_write_lock
    | apply atomic_read_lock
    | solve [apply atomic_reads; auto with ms]
    | solve [apply atomic_succeeds; auto with ms]
    | apply atomic_bind; [solve [auto with ms]|intros ?; cbn zeta]
    | case_match ].

Lemma volume_object_store_reads x n : reads (volume_object_store x n).
Proof.
  apply reads_bind; [done|intros c]. case_match; [auto with ms|].
  apply reads_bind; [unfold get_volume; auto with ms|]. intros [v|]; auto 10 with ms.
Qed.

Lemma volume_for_table_reads i : reads (volume_for_table i).
Proof. apply reads_read_lock, reads_bind; [done|]. intros s. repeat case_match; auto with ms. Qed.

Lemma table_object_store_reads x i : reads (table_object_store x i).
Proof.
  apply reads_bind; [apply volume_for_table_reads|].
  intros [v|]; [apply volume_object_store_reads|auto with ms].
Qed.
#[local] Hint Resolve volume_object_store_reads volume_for_table_reads table_object_store_reads : ms.

Lemma table_object_store_from_request_reads x s v i : reads (table_object_store_from_request x s v i).
Proof. unfold table_object_store_from_request. auto 10 with ms. Qed.
#[local] Hint Resolve table_object_store_from_request_reads : ms.

Lemma create_volume_atomic x n v : atomic (create_volume x n v).
Proof. unfold create_volume. repeat atomic_step. Qed.
Lemma update_volume_atomic x n v : atomic (update_volume x n v).
Proof. unfold update_volume. repeat atomic_step. Qed.
Lemma delete_volume_atomic n b : atomic (delete_volume n b).
Proof.
  unfold delete_volume. do 2 atomic_step. case_match; [atomic_step|].
  destruct b.
  - apply atomic_succeeds, succeeds_bind; [auto with ms|]. intros _.
    apply succeeds_bind; [auto with ms|]. intros s. case_match; auto with ms.
  - apply atomic_bind; [case_match; auto with ms|]. intros _. repeat atomic_step.
Qed.
Lemma create_table_atomic x i t : atomic (create_table x i t).
Proof. unfold create_table. repeat atomic_step. Qed.
Lemma update_table_atomic x i t : atomic (update_table x i t).
Proof. unfold update_table. repeat atomic_step. Qed.

Lemma exec_raise_state x c m e : (exec x c m).1 = Raised e -> state (exec x c m).2 = state m.
Proof.
  assert (forall A (k : M A), atomic k ->
            (forget k m).1 = Raised e -> state (forget k m).2 = state m) as Hforget.
  { intros A k Hk. unfold forget. destruct (Hk m) as [[a H]|H]; destruct (k m) as [r m'];
      simpl in *; [by subst|done]. }
  destruct c; apply Hforget;
    auto using create_volume_atomic, update_volume_atomic, delete_volume_atomic,
      create_table_atomic, update_table_atomic.
  all: first [ apply atomic_reads; solve [auto with ms]
             | cbv [list_volumes get_volume list_databases get_database list_schemas get_schema
                 list_tables get_table table_exists url_for_table create_database update_database
                 delete_database create_schema update_schema delete_schema register_table
                 delete_table]; repeat atomic_step ].
Qed.

(** ** Removal of the selected keys *)
Lemma lookup_remove_all {K A} `{Countable K} (keys : list K) (m : gmap K A) k :
  remove_all keys m !! k = if decide (k ∈ keys) then None else m !! k.
Proof.
  unfold remove_all. revert m. induction keys as [|k' keys IH]; intros m; cbn [fold_left].
  - case_decide as Hk; [by apply not_elem_of_nil in Hk|done].
  - rewrite IH, lookup_delete. repeat case_decide; set_solver.
Qed.

Lemma elem_of_select_keys {K A} `{Countable K} (p : K -> bool) (m : gmap K A) k :
  k ∈ select_keys p m <-> is_Some (m !! k) /\ p k = true.
Proof.
  unfold select_keys. rewrite list_elem_of_In, filter_In, <- list_elem_of_In, list_elem_of_fmap.
  split.
  - intros [([k' a] & -> & Hin%elem_of_map_to_list) Hp]. simpl in *. eauto.
  - intros [[a Ha] Hp]. split; [|done]. exists (k, a). by rewrite elem_of_map_to_list.
Qed.

Lemma lookup_remove_selected {K A} `{Countable K} (p : K -> bool) (m : gmap K A) k :
  remove_all (select_keys p m) m !! k = if p k then None else m !! k.
Proof.
  rewrite lookup_remove_all. destruct (m !! k) as [a|] eqn:Hm.
  - case_decide as Hd; rewrite elem_of_select_keys in Hd; destruct (p k); naive_solver.
  - case_decide; by destruct (p k).
Qed.

(** ** Deletion: what is removed and what is kept *)
Lemma delete_database_spec n m :
  guard m = false ->
  exists s', delete_database n true m
      = (Done (Ok tt), mkStore s' (object_store_cache m) (settings_config m) false)
    /\ volumes s' = volumes (state m)
    /\ databases s' = delete n (databases (state m))
    /\ (forall d sch, schemas s' !! (d, sch)
          = if String.eqb d n then None else schemas (state m) !! (d, sch))
    /\ (forall d sch t, tables s' !! (d, sch, t)
          = if String.eqb d n then None else tables (state m) !! (d, sch, t)).
Proof.
  intros Hg. eexists. split; [unfold delete_database; unfold_ms; rewrite Hg, andb_false_r; done|].
  cbn. split; [done|]. split; [done|].
  split; intros; rewrite lookup_remove_selected; done.
Qed.

Lemma delete_database_refused n m :
  guard m = false ->
  (exists sch, is_Some (schemas (state m) !! (n, sch))) <->
  exists l, delete_database n false m = (Done (Err (DatabaseInUse n l)), m).
Proof.
  intros Hg. assert (set_guard false (set_guard true m) = m) as Hm by (destruct m; simpl in *; by subst).
  unfold delete_database, write_lock, bind, get_state. rewrite Hg, andb_true_r. cbn -[select_keys].
  case_bool_decide as Hk; simpl.
  - split.
    + intros (sch & Hsch). exfalso. apply (not_elem_of_nil (n, sch)). rewrite <- Hk.
      apply elem_of_select_keys. split; [done|apply String.eqb_refl].
    + by intros (? & ?).
  - split; [|intros _].
    + intros _. eexists. unfold fail. by rewrite Hm.
    + destruct (select_keys _ _) as [|[d sch] l] eqn:Hl; [done|].
      assert ((d, sch) ∈ select_keys (fun k => String.eqb k.1 n) (schemas (state m))) as Hin
        by (rewrite Hl; left).
      apply elem_of_select_keys in Hin as [Hs Hd]. apply String.eqb_eq in Hd. simpl in Hd.
      subst. by exists sch.
Qed.

(** ** Referential integrity

    Every row is filed under the key of its own identifier, and its parent exists: the volume of a
    database, the database of a schema and the schema of a table.  A table's own [volume_ident] is
    not among the references kept ([delete_volume_orphans_table] below). *)
Record wf (s : MetastoreState) : Prop := {
  wf_volume : forall v row, volumes s !! v = Some row -> Volume.ident (RwObject.data row) = v;
  wf_database : forall n row, databases s !! n = Some row ->
    Database.ident (RwObject.data row) = n /\ to_ascii_lowercase n = n
    /\ is_Some (volumes s !! Database.volume (RwObject.data row));
  wf_schema : forall d sch row, schemas s !! (d, sch) = Some row ->
    schema_key (Schema.ident (RwObject.data row)) = (d, sch) /\ is_Some (databases s !! d);
  wf_table : forall d sch t row, tables s !! (d, sch, t) = Some row ->
    table_key (Table.ident (RwObject.data row)) = (d, sch, t) /\ is_Some (schemas s !! (d, sch)) }.

(** The calls whose identifiers are already normalized where the metastore does not normalize
    them itself, whose rows carry the identifier they are passed with, and refer to what exists
    where the metastore does not check. *)
Definition normal_call (s : MetastoreState) (c : call) : Prop :=
  match c with
  | CreateVolume n v | UpdateVolume n v => Volume.ident v = n
  | CreateDatabase n d => Database.ident d = n /\ to_ascii_lowercase n = n
  | UpdateDatabase n d => Database.ident d = n /\ is_Some (volumes s !! Database.volume d)
  | CreateSchema i sch => to_ascii_lowercase (SchemaIdent.database i) = SchemaIdent.database i
      /\ schema_key (Schema.ident sch) = schema_key i
  | UpdateSchema i sch => schema_key (Schema.ident sch) = schema_key i
  | DeleteSchema i _ => SchemaIdent.normalized i = i
  | RegisterTable i t => is_Some (schemas s !! schema_key (TableIdent.to_schema_ident i))
      /\ table_key (Table.ident t) = table_key i
  | _ => True
  end.

Lemma wf_same s s' :
  volumes s' = volumes s -> databases s' = databases s -> schemas s' = schemas s ->
  tables s' = tables s -> wf s -> wf s'.
Proof. destruct s, s'; simpl; intros; subst; done. Qed.

Lemma forget_snd {A} (c : M A) m : (forget c m).2 = (c m).2.
Proof. unfold forget. by destruct (c m). Qed.

Lemma elem_of_in_use s n d :
  wf s -> d ∈ databases_in_use s n <->
  exists row, databases s !! d = Some row /\ Database.volume (RwObject.data row) = n.
Proof.
  intros [_ Hdb _ _]. unfold databases_in_use. rewrite list_elem_of_In, in_map_iff.
  setoid_rewrite filter_In. setoid_rewrite <- list_elem_of_In. setoid_rewrite list_elem_of_fmap.
  setoid_rewrite String.eqb_eq. split.
  - intros (row & <- & ([k r] & -> & Hk%elem_of_map_to_list) & Hv). simpl in *.
    destruct (Hdb _ _ Hk) as (-> & _). eauto.
  - intros (row & Hk & Hv). exists row. destruct (Hdb _ _ Hk) as (Hi & _).
    split; [done|]. split; [|done]. exists (d, row). by rewrite elem_of_map_to_list.
Qed.

Lemma is_used_spec l d : is_used l d = true <-> d ∈ l.
Proof.
  unfold is_used. rewrite existsb_exists, list_elem_of_In. setoid_rewrite String.eqb_eq.
  naive_solver.
Qed.

(** The cascade: no database of the volume, and nothing inside one, is left. *)
Definition cascade_state (s : MetastoreState) (n : VolumeIdent) : MetastoreState :=
  let in_use := databases_in_use s n in
  mkState (volumes s) (remove_all in_use (databases s))
    (remove_all (select_keys (fun k => is_used in_use k.1) (schemas s)) (schemas s))
    (remove_all (select_keys (fun k => is_used in_use k.1.1) (tables s)) (tables s)).

Lemma cascade_state_wf s n : wf s -> wf (cascade_state s n).
Proof.
  intros Hwf. pose proof Hwf as [Hvol Hdb Hsch Htab]. split; [exact Hvol|..]; cbn -[remove_all select_keys].
  - intros d row. rewrite lookup_remove_all. case_decide; [done|]. apply Hdb.
  - intros d s0 row. rewrite lookup_remove_selected, lookup_remove_all. simpl.
    destruct (is_used _ d) eqn:Hu; [done|].
    case_decide as Hd; [by apply is_used_spec in Hd; congruence|apply Hsch].
  - intros d s0 t0 row. rewrite !lookup_remove_selected. simpl.
    destruct (is_used _ d); [done|]. apply Htab.
Qed.

Lemma cascade_state_free s n d row :
  wf s -> databases (cascade_state s n) !! d = Some row ->
  Database.volume (RwObject.data row) <> n.
Proof.
  intros Hwf. cbn -[remove_all]. rewrite lookup_remove_all. case_decide as Hd; [done|].
  intros Hr Hn. apply Hd, elem_of_in_use; eauto.
Qed.

(** A volume no database lies on can go. *)
Lemma delete_unused_volume_wf s n :
  wf s -> (forall d row, databases s !! d = Some row -> Database.volume (RwObject.data row) <> n) ->
  wf (set_volumes (delete n (volumes s)) s).
Proof.
  intros [Hvol Hdb Hsch Htab] Hfree. split; [| |done..].
  { intros v row. cbn. rewrite lookup_delete. case_decide; [done|apply Hvol]. }
  intros d row Hr.
  destruct (Hdb d row Hr) as (? & ? & Hv). split; [done|]. split; [done|].
  cbn. rewrite lookup_delete_ne; [done|]. intros Hn. by apply (Hfree d row).
Qed.

Lemma delete_volume_state (n : string) (b : bool) (m : InMemoryMetastore) :
  guard m = false ->
  let s : MetastoreState := state m in
  let s' : MetastoreState := if b then cascade_state s n else s in
  state (delete_volume n b m).2 =
    if negb (bool_decide (databases_in_use s n = [])) && negb b then s
    else match volumes s !! n with Some _ => set_volumes (delete n (volumes s')) s' | None => s' end.
Proof.
  intros Hg. unfold delete_volume, write_lock. rewrite Hg. unfold bind, get_state.
  cbn -[databases_in_use select_keys remove_all].
  destruct b; rewrite ?andb_false_r, ?andb_true_r; cbn -[databases_in_use select_keys remove_all].
  - by destruct (volumes (state m) !! n).
  - destruct (bool_decide _); cbn; [|done]. by destruct (volumes (state m) !! n).
Qed.

Lemma delete_volume_wf n b m : guard m = false -> wf (state m) -> wf (state (delete_volume n b m).2).
Proof.
  intros Hg Hwf. rewrite delete_volume_state by done. cbn zeta.
  destruct (negb _ && negb b) eqn:Hb; [done|].
  assert (wf (if b then cascade_state (state m) n else state m)) as Hwf'
    by (destruct b; [by apply cascade_state_wf|done]).
  destruct (volumes (state m) !! n); [|exact Hwf'].
  apply delete_unused_volume_wf; [exact Hwf'|]. intros d row.
  destruct b; [by apply cascade_state_free|]. rewrite andb_true_r in Hb.
  apply negb_false_iff, bool_decide_eq_true in Hb. intros Hr Hn.
  apply (not_elem_of_nil d). rewrite <- Hb. apply elem_of_in_use; eauto.
Qed.

Lemma wf_insert_volume s n row :
  wf s -> Volume.ident (RwObject.data row) = n -> wf (set_volumes (<[n := row]> (volumes s)) s).
Proof.
  intros [Hvol Hdb Hsch Htab] Hi. split; [| |done..]; cbn.
  - intros v r. rewrite lookup_insert. case_decide; [naive_solver|apply Hvol].
  - intros d r Hr. destruct (Hdb d r Hr) as (? & ? & Hv).
    do 2 (split; [done|]). rewrite lookup_insert. by case_decide.
Qed.

Lemma wf_insert_database s n row :
  wf s -> Database.ident (RwObject.data row) = n -> to_ascii_lowercase n = n ->
  is_Some (volumes s !! Database.volume (RwObject.data row)) ->
  wf (set_databases (<[n := row]> (databases s)) s).
Proof.
  intros [Hvol Hdb Hsch Htab] Hi Hl Hv. split; [done| | |done]; cbn.
  - intros d r. rewrite lookup_insert. case_decide; [by intros [= <-]; subst|apply Hdb].
  - intros d sc r [? ?]%Hsch. split; [done|]. rewrite lookup_insert. by case_decide.
Qed.

Lemma wf_insert_schema s k row :
  wf s -> schema_key (Schema.ident (RwObject.data row)) = k -> is_Some (databases s !! k.1) ->
  wf (set_schemas (<[k := row]> (schemas s)) s).
Proof.
  intros [Hvol Hdb Hsch Htab] Hi Hk. split; [done..| |]; cbn.
  - intros d sc r. rewrite lookup_insert. case_decide as E; [intros [= <-]; by rewrite E in Hi, Hk|apply Hsch].
  - intros d sc t r [? ?]%Htab. split; [done|]. rewrite lookup_insert. by case_decide.
Qed.

Lemma wf_insert_table s k row :
  wf s -> table_key (Table.ident (RwObject.data row)) = k -> is_Some (schemas s !! k.1) ->
  wf (set_tables (<[k := row]> (tables s)) s).
Proof.
  intros [Hvol Hdb Hsch Htab] Hi Hk. split; [done..|]; cbn.
  intros d sc t r. rewrite lookup_insert. case_decide as E; [intros [= <-]; by rewrite E in Hi, Hk|apply Htab].
Qed.

Lemma wf_remove_tables s ts : wf s -> ts ⊆ tables s -> wf (set_tables ts s).
Proof.
  intros [Hvol Hdb Hsch Htab] Hsub. split; [done..|]; cbn.
  intros d sc t row Hr. eapply Htab. by eapply lookup_weaken.
Qed.

Lemma wf_delete_schema s k :
  wf s -> (forall t, tables s !! (k, t) = None) -> wf (set_schemas (delete k (schemas s)) s).
Proof.
  intros [Hvol Hdb Hsch Htab] Hk. split; [done..| |]; cbn.
  - intros d sc r. rewrite lookup_delete. case_decide; [done|apply Hsch].
  - intros d sc t r Ht. destruct (Htab _ _ _ _ Ht) as [Hi Hs]. split; [done|].
    rewrite lookup_delete. case_decide as Hd; [|done]. subst. by rewrite Hk in Ht.
Qed.

Lemma remove_selected_sub {K A} `{Countable K} (p : K -> bool) (m : gmap K A) :
  remove_all (select_keys p m) m ⊆ m.
Proof. apply map_subseteq_spec. intros k a. rewrite lookup_remove_selected. by destruct (p k). Qed.

Lemma delete_database_wf n b m :
  guard m = false -> wf (state m) -> wf (state (delete_database n b m).2).
Proof.
  intros Hg [Hvol Hdb Hsch Htab]. unfold delete_database, write_lock, bind, get_state. rewrite Hg.
  cbn -[select_keys remove_all]. destruct (_ && _); [by split|]. cbn -[select_keys remove_all].
  split; [exact Hvol|..]; cbn -[select_keys remove_all].
  - intros d r. rewrite lookup_delete. case_decide; [done|apply Hdb].
  - intros d sc r. rewrite lookup_remove_selected, lookup_delete. simpl.
    destruct (String.eqb_spec d n) as [->|Hne]; [done|].
    rewrite decide_False by done. apply Hsch.
  - intros d sc t r. rewrite !lookup_remove_selected. simpl.
    destruct (String.eqb_spec d n); [done|apply Htab].
Qed.

Lemma delete_schema_wf i b m :
  guard m = false -> SchemaIdent.normalized i = i -> wf (state m) ->
  wf (state (delete_schema i b m).2).
Proof.
  intros Hg Hi Hwf. unfold delete_schema, write_lock, bind, get_state. rewrite Hg.
  cbn -[select_keys remove_all]. destruct (_ && _); [done|]. cbn -[select_keys remove_all].
  apply (wf_delete_schema (set_tables _ (state m))).
  - apply wf_remove_tables; [done|apply remove_selected_sub].
  - intros t. cbn -[select_keys remove_all]. rewrite lookup_remove_selected.
    destruct i as [sc db]. unfold SchemaIdent.normalized in Hi. injection Hi as Hi1 Hi2.
    unfold schema_key; cbn. by rewrite Hi1, Hi2, !String.eqb_refl.
Qed.

Lemma update_data {T} `{EqDecision T} t0 (v : T) row : RwObject.data (RwObject.update t0 v row) = v.
Proof. unfold RwObject.update. by case_decide. Qed.

#[local] Hint Resolve wf_insert_volume wf_insert_database wf_insert_schema wf_insert_table
  wf_remove_tables : ms.

(** Symbolic run of an operation whose guard is free; the branches that change nothing close. *)
Ltac run_op Hg Hwf :=
  unfold_ms; rewrite ?Hg in *; cbn in *; repeat (case_match; cbn in *; simplify_eq); try exact Hwf.

Section preservation.
Context (x : Ext ObjectStore) (m : InMemoryMetastore).
Hypothesis Hg : guard m = false.
Hypothesis Hwf : wf (state m).

Lemma create_volume_wf n v : Volume.ident v = n -> wf (state (create_volume x n v m).2).
Proof. intros Hi. unfold create_volume. run_op Hg Hwf. by apply (wf_insert_volume (state m)). Qed.

Lemma update_volume_wf n v : Volume.ident v = n -> wf (state (update_volume x n v m).2).
Proof.
  intros Hi. unfold update_volume. run_op Hg Hwf. apply (wf_insert_volume (state m)); [done|].
  by rewrite update_data.
Qed.

Lemma create_database_wf n d :
  Database.ident d = n -> to_ascii_lowercase n = n -> wf (state (create_database x n d m).2).
Proof.
  intros Hi Hl. unfold create_database, ensure_volume. run_op Hg Hwf.
  apply (wf_insert_database (state m)); cbn; eauto.
Qed.

Lemma update_database_wf n d :
  Database.ident d = n -> is_Some (volumes (state m) !! Database.volume d) ->
  wf (state (update_database x n d m).2).
Proof.
  intros Hi Hv. unfold update_database. run_op Hg Hwf.
  assert (to_ascii_lowercase (Database.ident d) = Database.ident d) as Hl by by eapply Hwf.
  apply (wf_insert_database (state m)); try done; unfold RwObject.update; case_decide; cbn;
    congruence.
Qed.

Lemma create_schema_wf i sch :
  to_ascii_lowercase (SchemaIdent.database i) = SchemaIdent.database i ->
  schema_key (Schema.ident sch) = schema_key i ->
  wf (state (create_schema x i sch m).2).
Proof.
  intros Hl Hi. unfold create_schema. run_op Hg Hwf.
  apply (wf_insert_schema (state m)); cbn [RwObject.new RwObject.data schema_key fst]; [done|unfold schema_key; congruence|].
  rewrite Hl. eauto.
Qed.

Lemma update_schema_wf i sch :
  schema_key (Schema.ident sch) = schema_key i -> wf (state (update_schema x i sch m).2).
Proof.
  intros Hi. unfold update_schema. run_op Hg Hwf.
  apply (wf_insert_schema (state m)); [done|rewrite update_data; unfold schema_key; congruence|].
  by eapply (wf_schema _ Hwf).
Qed.

Lemma register_table_wf i t :
  is_Some (schemas (state m) !! schema_key (TableIdent.to_schema_ident i)) ->
  table_key (Table.ident t) = table_key i ->
  wf (state (register_table x i t m).2).
Proof.
  intros Hs Hi. unfold register_table. run_op Hg Hwf.
  apply (wf_insert_table (state m)); [done|exact Hi|done].
Qed.

Lemma create_table_wf i t : covers m -> wf (state (create_table x i t m).2).
Proof.
  intros Hc. destruct (create_table_spec x i t m Hc Hg) as (r & m' & -> & H).
  destruct r as [row|e]; [|by subst]. destruct H as (-> & Hs & _ & Hi).
  apply wf_insert_table; [done| |done]. by rewrite Hi.
Qed.

Lemma delete_table_wf i b : wf (state (delete_table i b m).2).
Proof. unfold delete_table. run_op Hg Hwf. apply wf_remove_tables; [done|apply delete_subseteq]. Qed.
End preservation.

Lemma update_table_wf x i u m : inv m -> wf (state m) -> wf (state (update_table x i u m).2).
Proof.
  intros Hm Hwf. unfold update_table, bind at 1.
  destruct (table_object_store_keeps x i m Hm) as [[Hg _] _].
  pose proof (table_object_store_reads x i m) as Hst.
  destruct (table_object_store x i m) as [[[o|e]|] m1]; cbn [fst snd] in *;
    rewrite <- Hst in Hwf; [|done..].
  clear Hst Hm. run_op Hg Hwf.
  match goal with H : tables (state m1) !! table_key i = Some _ |- _ =>
    destruct (wf_table _ Hwf _ _ _ _ H) as [Hi Hs] end.
  by apply (wf_insert_table (state m1)).
Qed.

Lemma exec_wf x c m :
  inv m -> normal_call (state m) c -> wf (state m) -> wf (state (exec x c m).2).
Proof.
  intros Hinv Hn Hwf. pose proof Hinv as [Hg Hc].
  destruct c; simpl in Hn; cbn [exec] in *; rewrite forget_snd; destruct_and?;
    auto using create_volume_wf, update_volume_wf, delete_volume_wf, create_database_wf,
      update_database_wf, delete_database_wf, create_schema_wf, update_schema_wf, delete_schema_wf,
      register_table_wf, create_table_wf, delete_table_wf, update_table_wf.
  all: cbv [list_volumes get_volume list_databases get_database list_schemas get_schema
         list_tables get_table table_exists url_for_table];
       lazymatch goal with |- wf (state (?k _).2) =>
         assert (reads k) as -> by (auto with ms || (apply reads_read_lock, reads_bind;
           [done|intros s; case_match; auto with ms])) end; exact Hwf.
Qed.

(** States reached by normalized calls only. *)
Inductive reachable_normal : InMemoryMetastore -> Prop :=
| reach_n_new : reachable_normal new
| reach_n_call m x c :
    reachable_normal m -> normal_call (state m) c -> reachable_normal (exec x c m).2.

Lemma reachable_normal_inv m : reachable_normal m -> inv m.
Proof.
  induction 1 as [|m x c _ IH _]; [|by apply exec_inv].
  split; [done|]. by intros v [? ?].
Qed.

Lemma reachable_normal_wf m : reachable_normal m -> wf (state m).
Proof.
  induction 1 as [|m x c Hr IH Hn]; [|by apply exec_wf; [apply reachable_normal_inv|..]].
  by split.
Qed.

#[local] Instance schema_ge_trans : Transitive schema_ge.
Proof. intros a b c H1 H2. unfold schema_ge in *. by trans (row_schema_name b). Qed.
#[local] Instance schema_ge_total : Total schema_ge.
Proof. intros a b. unfold schema_ge. destruct (total str_le (row_schema_name b) (row_schema_name a)); auto. Qed.

(** What becomes of the updates of a commit: an added schema has the names of its top-level columns
    in lower case, everything else is applied as it was sent. *)
Definition lower_column (x : Ext ObjectStore) (f f' : Iceberg.field) : Prop :=
  let 'Iceberg.StructField id name required ty doc := f in
  f' = Iceberg.StructField id (to_lowercase x name) required ty doc.

Inductive lowered (x : Ext ObjectStore) : Iceberg.update -> Iceberg.update -> Prop :=
| lowered_schema s s' fields last_column_id :
    Forall2 (lower_column x) (Iceberg.fields s) fields ->
    schema_build x (Iceberg.schema_id s) fields = Ok s' ->
    lowered x (Iceberg.AddSchema s last_column_id) (Iceberg.AddSchema s' last_column_id)
| lowered_other u : (forall s n, u <> Iceberg.AddSchema s n) -> lowered x u u.

Lemma lower_columns x l :
  Forall2 (lower_column x) l
    (List.map (fun f => match f with Iceberg.StructField id name required ty doc =>
       Iceberg.StructField id (to_lowercase x name) required ty doc end) l).
Proof. induction l as [|[]]; by constructor. Qed.

Lemma convert_lowered x us us' :
  convert_add_schema_update_to_lowercase x us = Ok us' -> Forall2 (lowered x) us us'.
Proof.
  intros H%traverse_Ok. eapply Forall2_impl; [exact H|]. intros u u' Hu.
  destruct u; try (injection Hu as <-; by apply lowered_other).
  destruct (convert_schema_fields_to_lowercase x _) as [s'|] eqn:Hs; [|done]. injection Hu as <-.
  unfold convert_schema_fields_to_lowercase, context in Hs. cbn zeta in Hs.
  destruct (schema_build x _ _) as [s''|] eqn:Hb; [|done]. injection Hs as ->.
  eapply lowered_schema; [apply lower_columns|exact Hb].
Qed.

(** What a commit that returns has done: [old] is the row it replaces, [md] the metadata it
    computed from it, [store] the object store of the table's volume. *)
Record committed (x : Ext ObjectStore) (i : TableIdent.t) (u : Table.update) (m m' : InMemoryMetastore)
    (row old : RwObject.t Table.t) (us : list Iceberg.update) (md : Iceberg.metadata) (store : ObjectStore) (bytes : string) : Prop := {
  commit_old : tables (state m) !! table_key i = Some old;
  commit_requirements :
    Forall (fun r => TableRequirementExt.holds r (Table.metadata (RwObject.data old))) (Table.requirements u);
  commit_lowered : Forall2 (lowered x) (Table.updates u) us;
  commit_applied : apply_table_updates x (Table.metadata (RwObject.data old)) us = Ok md;
  commit_store : (table_object_store x i m).1 = Done (Ok (Some store));
  commit_bytes : to_vec x md = Ok bytes;
  commit_written :
    object_put x store (default_table_location i +:+ "/metadata/" +:+ metadata_file_name x)%string bytes = Ok tt;
  commit_row : row = RwObject.mk
    (Table.mk (Table.ident (RwObject.data old)) md
       (default_table_location i +:+ "/metadata/" +:+ metadata_file_name x)%string
       (Table.properties (RwObject.data old)) (Table.volume_ident (RwObject.data old))
       (Table.volume_location (RwObject.data old)) (Table.is_temporary (RwObject.data old))
       (Table.format (RwObject.data old)))
    (RwObject.created_at old) (now x);
  commit_state : state m' = set_tables (<[table_key i := row]> (tables (state m))) (state m) }.

Lemma update_table_done x i u m row m' :
  inv m -> update_table x i u m = (Done (Ok row), m') ->
  exists old us md store bytes, committed x i u m m' row old us md store bytes.
Proof.
  intros Hm. unfold update_table, bind at 1.
  destruct (table_object_store_keeps x i m Hm) as [[Hg _] _].
  pose proof (table_object_store_reads x i m) as Hst.
  destruct (table_object_store x i m) as [[[o|e]|] m1] eqn:Ho; cbn [fst snd] in *; [|done..].
  clear Hm. unfold_ms. rewrite Hg.
  destruct o as [store|]; cbn; [|done].
  destruct (tables (state m1) !! table_key i) as [old|] eqn:Hold; cbn; [|done].
  destruct (try_for_each _ _) as [[]|] eqn:Hreq; cbn; [|done].
  destruct (convert_add_schema_update_to_lowercase x _) as [us|] eqn:Hus; cbn; [|done].
  destruct (apply_table_updates x _ us) as [md|] eqn:Hmd; cbn; [|done].
  unfold put_metadata. destruct (to_vec x md) as [bytes|] eqn:Hb; cbn; [|done].
  destruct (object_put x store _ _) as [[]|] eqn:Hp; cbn; [|done]. intros [= <- <-].
  exists old, us, md, store, bytes. rewrite Hst in Hold. split; try done.
  - apply try_for_each_Ok in Hreq. eapply Forall_impl; [exact Hreq|].
    intros r. apply TableRequirementExt.assert_holds.
  - by apply convert_lowered.
  - by rewrite Ho.
  - cbn. by rewrite Hst.
Qed.

(** ** Theorems *)

(** C26: no call ever waits for the lock its own task holds: from every state the metastore can
    reach, every call of the trait returns or raises, [create_table] included, whose object-store
    lookup would read the lock it holds if the cache missed. *)
Theorem metastore_never_deadlocks m x c : reachable m -> (exec x c m).1 <> Hung.
Proof. intros Hr. apply exec_inv. by apply reachable_inv. Qed.

(** C20: errors are atomic: a call that raises leaves the volumes, databases, schemas and tables as
    they were, whatever the libraries answer. *)
Theorem metastore_raise_atomic x c m e :
  (exec x c m).1 = Raised e -> state (exec x c m).2 = state m.
Proof. apply exec_raise_state. Qed.


(** [DROP DATABASE ... CASCADE] removes the database, its schemas and its tables, and touches
    nothing else. *)
Theorem delete_database_cascade n m :
  guard m = false ->
  exists s', delete_database n true m
      = (Done (Ok tt), mkStore s' (object_store_cache m) (settings_config m) false)
    /\ volumes s' = volumes (state m)
    /\ databases s' = delete n (databases (state m))
    /\ (forall d sch, schemas s' !! (d, sch)
          = if String.eqb d n then None else schemas (state m) !! (d, sch))
    /\ (forall d sch t, tables s' !! (d, sch, t)
          = if String.eqb d n then None else tables (state m) !! (d, sch, t)).
Proof. apply delete_database_spec. Qed.

(** Without cascade a database is refused for deletion exactly when it has a schema, and the
    refusal changes nothing. *)
Theorem delete_database_in_use n m :
  guard m = false ->
  (exists sch, is_Some (schemas (state m) !! (n, sch))) <->
  exists l, delete_database n false m = (Done (Err (DatabaseInUse n l)), m).
Proof. apply delete_database_refused. Qed.

(** A table just created is found under every spelling of its name that differs in ASCII case
    only, and creating it a second time under any such spelling fails. *)
Theorem create_table_get_table x x' i j t t' m row m' :
  reachable m -> create_table x i t m = (Done (Ok row), m') ->
  TableIdent.normalized j = TableIdent.normalized i ->
  get_table j m' = (Done (Ok (Some row)), m')
  /\ create_table x' j t' m'
     = (Done (Err (TableAlreadyExists (TableIdent.table j) (TableIdent.schema j)
                     (TableIdent.database j))), m').
Proof.
  intros [Hg Hc]%reachable_inv Hct Hj.
  destruct (create_table_spec x i t m Hc Hg) as (r & m'' & Hr & H). rewrite Hr in Hct.
  injection Hct as -> ->. destruct H as (-> & [sch Hs] & _).
  assert (table_key j = table_key i) as Hk by (unfold table_key; injection Hj; congruence).
  assert (schema_key (TableIdent.to_schema_ident j) = schema_key (TableIdent.to_schema_ident i))
    as Hsk by (unfold schema_key; cbn; injection Hj; congruence).
  split.
  - unfold get_table, read_lock, bind. cbn -[table_key]. by rewrite Hk, lookup_insert_eq.
  - unfold create_table, write_lock, bind at 1. cbn -[table_key schema_key].
    by rewrite Hsk, Hs, Hk, lookup_insert_eq.
Qed.

(** [list_schemas] returns exactly the schemas stored under the database, each once, in
    descending order of their names. *)
Theorem list_schemas_sorted d m :
  guard m = false ->
  exists l, list_schemas d m = (Done (Ok l), m)
    /\ l ≡ₚ List.map snd (List.filter (fun kv => String.eqb kv.1.1 d) (map_to_list (schemas (state m))))
    /\ StronglySorted schema_ge l.
Proof.
  intros Hg. eexists. split; [unfold list_schemas, read_lock; by rewrite Hg|].
  split; [apply merge_sort_Permutation|].
  apply (StronglySorted_merge_sort schema_ge).
Qed.

(** C28: optimistic commits: when [update_table] returns, every requirement of the request held of the
    metadata it replaced; the new metadata is what the Iceberg library makes of the old one with the
    request's updates, the columns of added schemas in lower case; exactly these metadata were
    written, under the table's location and with the fresh file name, to the object store of the
    table; and the one row that changed carries them and the path of the file, keeps its identity,
    properties, volume and creation time, and is stamped. *)
Theorem update_table_commit x i u m row m' :
  reachable m -> update_table x i u m = (Done (Ok row), m') ->
  exists old us md store bytes, committed x i u m m' row old us md store bytes.
Proof. intros Hm%reachable_inv. by apply update_table_done. Qed.
End metastore.

Arguments Done {A} r.
Arguments Deadlock {A}.

(** ** Witnesses

    A concrete environment: object stores are unit values that accept every write. *)
Module Demo.
Definition md0 : Iceberg.metadata :=
  {| Iceberg.format := Iceberg.V2; Iceberg.table_uuid := "u"; Iceberg.location := "l";
     Iceberg.last_updated_ms := 0; Iceberg.last_column_id := 0; Iceberg.schemas := ∅;
     Iceberg.current_schema_id := 0; Iceberg.partition_specs := ∅; Iceberg.default_spec_id := 0;
     Iceberg.last_partition_id := 0; Iceberg.properties := ∅; Iceberg.snapshots := ∅;
     Iceberg.refs := ∅; Iceberg.sort_orders := ∅; Iceberg.default_sort_order_id := 0 |}.

(** An Iceberg library that knows one update: a schema is added and becomes the current one. *)
Definition add_schema (md : Iceberg.metadata) (u : Iceberg.update) : Iceberg.metadata :=
  match u with
  | Iceberg.AddSchema sch last =>
      {| Iceberg.format := Iceberg.format md; Iceberg.table_uuid := Iceberg.table_uuid md;
         Iceberg.location := Iceberg.location md; Iceberg.last_updated_ms := Iceberg.last_updated_ms md;
         Iceberg.last_column_id := default (Iceberg.last_column_id md) last;
         Iceberg.schemas := <[Iceberg.schema_id sch := sch]> (Iceberg.schemas md);
         Iceberg.current_schema_id := Iceberg.schema_id sch;
         Iceberg.partition_specs := Iceberg.partition_specs md;
         Iceberg.default_spec_id := Iceberg.default_spec_id md;
         Iceberg.last_partition_id := Iceberg.last_partition_id md;
         Iceberg.properties := Iceberg.properties md; Iceberg.snapshots := Iceberg.snapshots md;
         Iceberg.refs := Iceberg.refs md; Iceberg.sort_orders := Iceberg.sort_orders md;
         Iceberg.default_sort_order_id := Iceberg.default_sort_order_id md |}
  | _ => md
  end.

Definition ext : Ext unit :=
  {| now := 7; now_ms := 7; now_rfc3339 := "t"; uuid := "id"; s3_build := fun _ => Ok tt;
     create_dir_all := fun _ => Ok tt; local_file_system := fun _ => Ok tt; in_memory := tt;
     to_vec := fun _ => Ok "{}"%string; object_put := fun _ _ _ => Ok tt;
     metadata_build := fun _ => Ok md0; apply_table_updates := fun md us => Ok (List.fold_left add_schema us md);
     schema_build := fun i fs => Ok {| Iceberg.schema_id := i; Iceberg.fields := fs |};
     to_lowercase := to_ascii_lowercase |}.

Definition db : Database.t := Database.mk "db" None "vol" false.
Definition sid : SchemaIdent.t := SchemaIdent.mk "s" "db".
Definition tid : TableIdent.t := TableIdent.mk "t" "s" "db".
Definition request : Table.create_request :=
  Table.mk_request tid None None None {| Iceberg.schema_id := 0; Iceberg.fields := [] |}
    None None None None None.
Definition request_on_other : Table.create_request :=
  Table.mk_request tid None None None {| Iceberg.schema_id := 0; Iceberg.fields := [] |}
    None None None (Some "other"%string) None.

Notation store := (@InMemoryMetastore unit unit).
Definition m1 : store := (exec ext (CreateVolume "vol" (Volume.mk "vol" Volume.Memory)) new).2.
Definition m2 : store := (exec ext (CreateDatabase "db" db) m1).2.
Definition m3 : store := (exec ext (CreateSchema sid (Schema.mk sid None)) m2).2.
Definition m4 : store := (exec ext (CreateTable tid request) m3).2.

Lemma m3_reachable : reachable m3.
Proof. apply reach_call, reach_call, reach_call, reach_new. Qed.
Lemma m4_reachable : reachable m4.
Proof. apply reach_call, m3_reachable. Qed.
Lemma m3_normal : reachable_normal m3.
Proof.
  apply reach_n_call; [apply reach_n_call; [apply reach_n_call; [apply reach_n_new|done]|done]|].
  vm_compute. done.
Qed.

Definition upper : TableIdent.t := TableIdent.mk "T" "S" "DB".
Definition row4 : RwObject.t Table.t :=
  RwObject.new 7 (Table.mk tid md0 "db/s/t/metadata/id.metadata.json"
    {["updated_at" := "t"; "created_at" := "t"]}%string (Some "vol"%string) (Some "db/s/t"%string)
    false Table.IcebergFormat).
Definition columns (name : string) : Iceberg.schema :=
  {| Iceberg.schema_id := 1;
     Iceberg.fields := [Iceberg.StructField 1 name false (Iceberg.Primitive "string") None] |}.
Definition commit : Table.update :=
  Table.mk_update [Iceberg.AssertTableUuid "u"] [Iceberg.AddSchema (columns "ID") (Some 1)].
Definition md1 : Iceberg.metadata := add_schema md0 (Iceberg.AddSchema (columns "id") (Some 1)).
Definition row5 : RwObject.t Table.t :=
  RwObject.new 7 (Table.mk tid md1 "db/s/t/metadata/id.metadata.json"
    {["updated_at" := "t"; "created_at" := "t"]}%string (Some "vol"%string) (Some "db/s/t"%string)
    false Table.IcebergFormat).
Definition m5 : store := (exec ext (UpdateTable tid commit) m4).2.
End Demo.

Lemma metastore_never_deadlocks_witness :
  reachable Demo.m3 /\ (exec Demo.ext (CreateTable Demo.tid Demo.request) Demo.m3).1 <> Hung.
Proof.
  split; [apply Demo.m3_reachable|].
  apply (metastore_never_deadlocks Demo.m3 Demo.ext), Demo.m3_reachable.
Defined.

Lemma metastore_raise_atomic_witness :
  state (exec Demo.ext (CreateDatabase "db" Demo.db) Demo.m2).2 = state Demo.m2.
Proof.
  apply (metastore_raise_atomic Demo.ext _ Demo.m2 (DatabaseAlreadyExists "db")). reflexivity.
Defined.


Lemma delete_database_cascade_witness :
  guard Demo.m4 = false /\
  exists s', delete_database "db" true Demo.m4
      = (Done (Ok tt), mkStore s' (object_store_cache Demo.m4) (settings_config Demo.m4) false)
    /\ tables s' !! ("db", "s", "t")%string = None.
Proof.
  split; [reflexivity|].
  destruct (delete_database_cascade "db" Demo.m4 eq_refl) as (s' & H & _ & _ & _ & Ht).
  exists s'. split; [exact H|]. rewrite Ht. reflexivity.
Defined.

Lemma delete_database_in_use_witness :
  exists l, delete_database "db" false Demo.m3 = (Done (Err (DatabaseInUse "db" l)), Demo.m3).
Proof.
  apply (delete_database_in_use "db" Demo.m3); [reflexivity|].
  exists "s"%string. eexists. reflexivity.
Defined.

Lemma create_table_get_table_witness :
  get_table Demo.upper Demo.m4 = (Done (Ok (Some Demo.row4)), Demo.m4).
Proof.
  apply (create_table_get_table Demo.ext Demo.ext Demo.tid Demo.upper Demo.request Demo.request
           Demo.m3 Demo.row4 Demo.m4).
  - apply Demo.m3_reachable.
  - vm_compute. reflexivity.
  - reflexivity.
Defined.

Lemma list_schemas_sorted_witness :
  exists l, list_schemas "db" Demo.m3 = (Done (Ok l), Demo.m3) /\ StronglySorted schema_ge l.
Proof.
  destruct (list_schemas_sorted "db" Demo.m3 eq_refl) as (l & H & _ & Hs). exact (ex_intro _ l (conj H Hs)).
Defined.

Lemma update_table_commit_witness :
  exists old us md store bytes,
    committed Demo.ext Demo.tid Demo.commit Demo.m4 Demo.m5 Demo.row5 old us md store bytes
    /\ length us = 1%nat /\ Table.metadata (RwObject.data Demo.row5) = Demo.md1.
Proof.
  destruct (update_table_commit Demo.ext Demo.tid Demo.commit Demo.m4 Demo.row5 Demo.m5)
    as (old & us & md & store & bytes & H); [apply Demo.m4_reachable|vm_compute; reflexivity|].
  exists old, us, md, store, bytes. split; [exact H|]. split; [|reflexivity].
  destruct H as [_ _ Hl _ _ _ _ _ _]. symmetry. exact (Forall2_length _ _ _ Hl).
Defined.

(** A table can lie on a volume other than its database's, and then the volume can be deleted
    under it without cascade: no database uses it, and the table names a volume that is gone. *)
Theorem delete_volume_orphans_table :
  let vol2 := "other"%string in
  let m1 := (exec Demo.ext (CreateVolume vol2 (Volume.mk vol2 Volume.Memory)) Demo.m3).2 in
  let m2 := (exec Demo.ext (CreateTable Demo.tid Demo.request_on_other) m1).2 in
  let m := (exec Demo.ext (DeleteVolume vol2 false) m2).2 in
  reachable_normal m /\ volumes (state m) !! vol2 = None
  /\ exists row, tables (state m) !! ("db", "s", "t")%string = Some row
       /\ Table.volume_ident (RwObject.data row) = Some vol2.
Proof.
  cbn zeta. split; [|split; [reflexivity|eexists; split; reflexivity]].
  do 3 (apply reach_n_call; [|done]). apply Demo.m3_normal.
Qed.

(** The case of an identifier matters where it should not: dropping the schema under another
    spelling with cascade removes the schema but keeps its tables, which then lie in no schema. *)
Theorem delete_schema_case_orphans :
  let m := (exec Demo.ext (DeleteSchema (SchemaIdent.mk "S" "db") true) Demo.m4).2 in
  reachable m /\ schemas (state m) !! ("db", "s")%string = None
  /\ is_Some (tables (state m) !! ("db", "s", "t")%string).
Proof.
  split; [apply reach_call, Demo.m4_reachable|]. split; [reflexivity|]. eexists. reflexivity.
Qed.

(** The [last_column_id] [create_table] computes is at least the id of every column and of
    every field of the structs nested in it; ids inside a list or a map are not counted, so a
    schema whose largest id is a list element's is given a smaller [last_column_id]. *)
Theorem max_field_id_structs_only :
  (forall s f i, f ∈ Iceberg.fields s -> struct_id f i -> i <= max_field_id s)
  /\ max_field_id
       {| Iceberg.schema_id := 0;
          Iceberg.fields :=
            [Iceberg.StructField 1 "tags" false (Iceberg.TList 2 false (Iceberg.Primitive "string"))
               None] |} = 1.
Proof. split; [exact max_field_id_ge|reflexivity]. Qed.
