(* ===== verification/MetastoreSpec.v ===== *)
(** * The metastore as a tree

    What the metastore of [Metastore] promises its callers: a catalog is a tree of databases,
    schemas and tables beside the volumes, [spec] says what every call of the trait does to it,
    and the four flat maps of [MetastoreState] refine it: from states reached by normalized calls
    every call ends as the specification says and leaves the maps of the specified tree.  Dropping
    a node of the tree drops what lies below it, so that the cascades over the flat maps are
    correct because they implement it. *)

From Stdlib Require Import ZArith Lia Ascii String.
From stdpp Require Import base option list gmap strings sorting.
From S2P Require Import Prelude MetastoreModels Metastore.

Section spec.
Context {ObjectStore Settings : Type}.

(** ** The tree *)

Record SchemaNode := mkSchemaNode {
  schema_row : RwObject.t Schema.t;
  schema_tables : gmap string (RwObject.t Table.t) }.

Record DatabaseNode := mkDatabaseNode {
  database_row : RwObject.t Database.t;
  database_schemas : gmap string SchemaNode }.

Record Tree := mkTree {
  tree_volumes : gmap VolumeIdent (RwObject.t Volume.t);
  tree_databases : gmap DatabaseIdent DatabaseNode }.

Definition empty_tree : Tree := mkTree ∅ ∅.

Definition find_schema (t : Tree) (k : DatabaseIdent * string) : option SchemaNode :=
  tree_databases t !! k.1 ≫= fun n => database_schemas n !! k.2.

Definition find_table (t : Tree) (k : DatabaseIdent * string * string) : option (RwObject.t Table.t) :=
  find_schema t k.1 ≫= fun n => schema_tables n !! k.2.

(** Changes of a subtree. *)
Definition with_volumes f (t : Tree) : Tree := mkTree (f (tree_volumes t)) (tree_databases t).
Definition with_databases f (t : Tree) : Tree := mkTree (tree_volumes t) (f (tree_databases t)).
Definition on_schemas (d : DatabaseIdent) f : Tree -> Tree :=
  with_databases (alter (fun n => mkDatabaseNode (database_row n) (f (database_schemas n))) d).
Definition on_tables (k : DatabaseIdent * string) f : Tree -> Tree :=
  on_schemas k.1 (alter (fun n => mkSchemaNode (schema_row n) (f (schema_tables n))) k.2).

(** The databases that lie on a volume. *)
Definition lies_on (v : VolumeIdent) (n : DatabaseNode) : Prop :=
  Database.volume (RwObject.data (database_row n)) = v.
#[global] Instance lies_on_dec v n : Decision (lies_on v n).
Proof. unfold lies_on. apply _. Defined.

Definition on_volume (v : VolumeIdent) (t : Tree) : gmap DatabaseIdent DatabaseNode :=
  filter (fun kn => lies_on v kn.2) (tree_databases t).
Definition off_volume (v : VolumeIdent) (t : Tree) : gmap DatabaseIdent DatabaseNode :=
  filter (fun kn => ~ lies_on v kn.2) (tree_databases t).

(** ** The specification

    Two answers are not determined by the tree: the order in which a refusal lists names, and the
    object store that holds a table's files. *)
Record Oracle := mkOracle { listing : list string; answering : option ObjectStore }.

Definition request_volume_of (t : Tree) (i : TableIdent.t) (r : Table.create_request)
  : result merror (option VolumeIdent) :=
  match Table.r_volume_ident r with
  | Some v => Ok (Some v)
  | None =>
      result_map (fun n => Some (Database.volume (RwObject.data (database_row n))))
        (ok_or (tree_databases t !! TableIdent.database i) (DatabaseNotFound (TableIdent.database i)))
  end.

(** The row a new table gets. *)
Definition new_table (x : Ext ObjectStore) (i : TableIdent.t) (r : Table.create_request)
    (metadata : Iceberg.metadata) (metadata_location : string) (volume_ident : option VolumeIdent)
  : RwObject.t Table.t :=
  RwObject.new (now x)
    (Table.mk i metadata metadata_location
       (update_properties_timestamps x (default ∅ (Table.r_properties r))) volume_ident
       (Some (default (default_table_location i) (Table.r_location r)))
       (default false (Table.r_is_temporary r)) (default Table.IcebergFormat (Table.r_format r))).

Definition spec_create_table (x : Ext ObjectStore) (store : ObjectStore) (i : TableIdent.t)
    (r : Table.create_request) (t : Tree) : result merror (RwObject.t Table.t) :=
  match find_schema t (schema_key (TableIdent.to_schema_ident i)) with
  | None => Err (SchemaNotFound (TableIdent.schema i) (TableIdent.database i))
  | Some _ =>
  match find_table t (table_key i) with
  | Some _ => Err (TableAlreadyExists (TableIdent.table i) (TableIdent.schema i) (TableIdent.database i))
  | None =>
      result_bind (request_volume_of t i r) (fun vi =>
      result_bind (context TableMetadataBuilderError
                     (metadata_build x (request_builder x (default (default_table_location i) (Table.r_location r)) r))) (fun md =>
      result_bind (ok_or vi (TableVolumeMissing (TableIdent.table i))) (fun v =>
      result_bind (ok_or (tree_volumes t !! v) (VolumeNotFound v)) (fun _ =>
      result_map (fun path => new_table x i r md path vi) (put_metadata x i store md)))))
  end end.

(** The volume of a table, as its row or its database names it. *)
Definition table_volume (t : Tree) (i : TableIdent.t) : option (RwObject.t Volume.t) :=
  match find_table t (table_key i) ≫= fun row => Table.volume_ident (RwObject.data row) with
  | Some v => tree_volumes t !! v
  | None => tree_databases t !! database_key i ≫= fun n =>
              tree_volumes t !! Database.volume (RwObject.data (database_row n))
  end.

Definition spec_update_table (x : Ext ObjectStore) (store : option ObjectStore) (i : TableIdent.t)
    (u : Table.update) (t : Tree) : result merror (RwObject.t Table.t) :=
  result_bind (ok_or store (table_not_found i)) (fun store =>
  result_bind (ok_or (find_table t (table_key i)) (table_not_found i)) (fun entry =>
  let metadata := Table.metadata (RwObject.data entry) in
  result_bind (try_for_each (fun r => TableRequirementExt.assert r metadata) (Table.requirements u)) (fun _ =>
  result_bind (convert_add_schema_update_to_lowercase x (Table.updates u)) (fun updates =>
  result_bind (context IcebergError (apply_table_updates x metadata updates)) (fun metadata =>
  result_map (fun path =>
    RwObject.touch (now x) (RwObject.mk (set_metadata metadata path (RwObject.data entry))
                              (RwObject.created_at entry) (RwObject.updated_at entry)))
    (put_metadata x i store metadata)))))).

(** The end of a call that may fail and, when it does not, changes the tree. *)
Definition ends {A} (r : result merror A) (t : Tree) (k : A -> Tree) : ending * Tree :=
  match r with Ok a => (Returned, k a) | Err e => (Raised e, t) end.

Definition absent {A} (o : option A) (e : merror) : result merror unit :=
  match o with Some _ => Err e | None => Ok tt end.

Definition unless (b : bool) (e : merror) : result merror unit := if b then Err e else Ok tt.

Definition spec (x : Ext ObjectStore) (o : Oracle) (c : call) (t : Tree) : ending * Tree :=
  match c with
  | CreateVolume n v =>
      ends (result_bind (get_object_store x v) (fun _ => absent (tree_volumes t !! n) (VolumeAlreadyExists n))) t
        (fun _ => with_volumes (insert n (RwObject.new (now x) v)) t)
  | UpdateVolume n v =>
      ends (result_bind (get_object_store x v) (fun _ => ok_or (tree_volumes t !! n) (VolumeNotFound n))) t
        (fun row => with_volumes (insert n (RwObject.update (now x) v row)) t)
  | DeleteVolume n cascade =>
      ends (unless (negb (bool_decide (on_volume n t = ∅)) && negb cascade) (VolumeInUse (join_comma (listing o)))) t
        (fun _ => mkTree (delete n (tree_volumes t)) (off_volume n t))
  | CreateDatabase n d =>
      ends (result_bind (ok_or (tree_volumes t !! Database.volume d) (VolumeNotFound (Database.volume d)))
              (fun _ => absent (tree_databases t !! n) (DatabaseAlreadyExists n))) t
        (fun _ => with_databases (insert n (mkDatabaseNode (RwObject.new (now x) d) ∅)) t)
  | UpdateDatabase n d =>
      ends (ok_or (tree_databases t !! n) (DatabaseNotFound n)) t
        (fun node => with_databases (insert n (mkDatabaseNode (RwObject.update (now x) d (database_row node)) (database_schemas node))) t)
  | DeleteDatabase n cascade =>
      ends (unless (negb (bool_decide (default ∅ (database_schemas <$> tree_databases t !! n) = ∅)) && negb cascade)
              (DatabaseInUse n (join_comma (listing o)))) t
        (fun _ => with_databases (delete n) t)
  | CreateSchema i s =>
      ends (result_bind (absent (find_schema t (schema_key i)) (SchemaAlreadyExists (SchemaIdent.schema i) (SchemaIdent.database i)))
              (fun _ => ok_or (tree_databases t !! SchemaIdent.database i) (DatabaseNotFound (SchemaIdent.database i)))) t
        (fun _ => on_schemas (schema_key i).1 (insert (schema_key i).2 (mkSchemaNode (RwObject.new (now x) s) ∅)) t)
  | UpdateSchema i s =>
      ends (ok_or (find_schema t (schema_key i)) (SchemaNotFound (SchemaIdent.schema i) (SchemaIdent.database i))) t
        (fun node => on_schemas (schema_key i).1
           (insert (schema_key i).2 (mkSchemaNode (RwObject.update (now x) s (schema_row node)) (schema_tables node))) t)
  | DeleteSchema i cascade =>
      ends (unless (negb (bool_decide (default ∅ (schema_tables <$> find_schema t (schema_key i)) = ∅)) && negb cascade)
              (SchemaNotFound (SchemaIdent.schema i) (SchemaIdent.database i))) t
        (fun _ => on_schemas (schema_key i).1 (delete (schema_key i).2) t)
  | CreateTable i r =>
      match answering o with
      | Some store => ends (spec_create_table x store i r t) t (fun row => on_tables (table_key i).1 (insert (table_key i).2 row) t)
      | None => (Hung, t)
      end
  | RegisterTable i row => (Returned, on_tables (table_key i).1 (insert (table_key i).2 (RwObject.new (now x) row)) t)
  | UpdateTable i u => ends (spec_update_table x (answering o) i u t) t (fun row => on_tables (table_key i).1 (insert (table_key i).2 row) t)
  | DeleteTable i _ => (Returned, on_tables (table_key i).1 (delete (table_key i).2) t)
  | UrlForTable i => ends (ok_or (find_table t (table_key i)) (table_not_found i)) t (fun _ => t)
  | _ => (Returned, t)
  end.

(** What an answer may be: a refusal lists every name once; there is a store, except for a commit
    to a table whose volume is unknown. *)
Definition oracle_ok (c : call) (t : Tree) (o : Oracle) : Prop :=
  match c with
  | DeleteVolume n _ => listing o ≡ₚ (map_to_list (on_volume n t)).*1
  | DeleteDatabase n _ => listing o ≡ₚ (map_to_list (default ∅ (database_schemas <$> tree_databases t !! n))).*1
  | CreateTable _ _ => is_Some (answering o)
  | UpdateTable i _ =>
      answering o = None ->
      match table_volume t i with
      | Some v => tree_volumes t !! Volume.ident (RwObject.data v) = None
      | None => True
      end
  | _ => True
  end.

(** ** The flat maps of a tree *)

Record abs (s : MetastoreState) (t : Tree) : Prop := {
  abs_volumes : volumes s = tree_volumes t;
  abs_databases : forall d, databases s !! d = database_row <$> tree_databases t !! d;
  abs_schemas : forall k, schemas s !! k = schema_row <$> find_schema t k;
  abs_tables : forall k, tables s !! k = find_table t k }.

Lemma abs_empty : abs empty_state empty_tree.
Proof. by split. Qed.

Lemma find_schema_on d f t k :
  find_schema (on_schemas d f t) k =
    if decide (k.1 = d) then tree_databases t !! d ≫= fun n => f (database_schemas n) !! k.2 else find_schema t k.
Proof.
  unfold find_schema, on_schemas, with_databases; cbn. rewrite lookup_alter.
  destruct (decide (d = k.1)) as [->|]; [rewrite decide_True by done|by rewrite decide_False by congruence].
  by destruct (tree_databases t !! k.1).
Qed.

Lemma databases_on d f t e :
  database_row <$> tree_databases (on_schemas d f t) !! e = database_row <$> tree_databases t !! e.
Proof.
  unfold on_schemas, with_databases; cbn. rewrite lookup_alter. case_decide; [subst|done].
  by destruct (tree_databases t !! e).
Qed.

Lemma find_schema_on_tables k f t j :
  find_schema (on_tables k f t) j =
    if decide (j = k) then (fun n => mkSchemaNode (schema_row n) (f (schema_tables n))) <$> find_schema t k else find_schema t j.
Proof.
  unfold on_tables. rewrite find_schema_on. destruct j as [d s], k as [d' s']; cbn.
  destruct (decide (d = d')) as [->|].
  - destruct (decide ((d', s) = (d', s'))) as [[= ->]|Hne].
    + unfold find_schema; cbn. destruct (tree_databases t !! d'); cbn; [|done].
      by rewrite lookup_alter, decide_True.
    + unfold find_schema; cbn. destruct (tree_databases t !! d'); cbn; [|done].
      by rewrite lookup_alter, decide_False by congruence.
  - by rewrite decide_False by congruence.
Qed.

(** ** Changes of the tree as changes of the maps *)

Section changes.
Context (s : MetastoreState) (t : Tree).
Hypothesis R : abs s t.

Lemma abs_with_volumes f : abs (set_volumes (f (volumes s)) s) (with_volumes f t).
Proof. destruct R as [Hv Hd Hs Ht]. split; cbn; [by rewrite Hv|done..]. Qed.

Lemma abs_new_database n row :
  tree_databases t !! n = None ->
  abs (set_databases (<[n := row]> (databases s)) s) (with_databases (insert n (mkDatabaseNode row ∅)) t).
Proof.
  destruct R as [Hv Hd Hs Ht]. intros Hn.
  assert (forall k, find_schema (with_databases (insert n (mkDatabaseNode row ∅)) t) k = find_schema t k) as Hf.
  { intros [d sc]. unfold find_schema; cbn. rewrite lookup_insert. case_decide; [subst; by rewrite Hn|done]. }
  split; cbn; [done| |intros k; by rewrite Hf|intros k; unfold find_table; rewrite Hf; apply Ht].
  intros d. rewrite !lookup_insert, Hd. by case_decide.
Qed.

Lemma abs_set_database n node row :
  tree_databases t !! n = Some node ->
  abs (set_databases (<[n := row]> (databases s)) s)
      (with_databases (insert n (mkDatabaseNode row (database_schemas node))) t).
Proof.
  destruct R as [Hv Hd Hs Ht]. intros Hn.
  assert (forall k, find_schema (with_databases (insert n (mkDatabaseNode row (database_schemas node))) t) k
                    = find_schema t k) as Hf.
  { intros [d sc]. unfold find_schema; cbn. rewrite lookup_insert. case_decide; [subst; by rewrite Hn|done]. }
  split; cbn; [done| |intros k; by rewrite Hf|intros k; unfold find_table; rewrite Hf; apply Ht].
  intros d. rewrite !lookup_insert, Hd. by case_decide.
Qed.

(** Dropping databases drops the keys below them. *)
Lemma abs_filter_databases (p : DatabaseIdent -> bool) ds scs ts dbs :
  (forall d, dbs !! d = if p d then None else tree_databases t !! d) ->
  (forall d, ds !! d = if p d then None else databases s !! d) ->
  (forall k, scs !! k = if p k.1 then None else schemas s !! k) ->
  (forall k, ts !! k = if p k.1.1 then None else tables s !! k) ->
  abs (mkState (volumes s) ds scs ts) (mkTree (tree_volumes t) dbs).
Proof.
  destruct R as [Hv Hd Hs Ht]. intros Hdbs Hds Hscs Hts. split; cbn; [done|..].
  - intros d. rewrite Hds, Hdbs, Hd. by destruct (p d).
  - intros [d sc]. rewrite Hscs, Hs. unfold find_schema; cbn. rewrite Hdbs. by destruct (p d).
  - intros [[d sc] tb]. rewrite Hts, Ht. unfold find_table, find_schema; cbn. rewrite Hdbs. by destruct (p d).
Qed.

Lemma abs_put_schema k row tbls node :
  tree_databases t !! k.1 = Some node ->
  tbls = default ∅ (schema_tables <$> find_schema t k) ->
  abs (set_schemas (<[k := row]> (schemas s)) s) (on_schemas k.1 (insert k.2 (mkSchemaNode row tbls)) t).
Proof.
  destruct R as [Hv Hd Hs Ht]. intros Hn ->.
  assert (forall j, find_schema (on_schemas k.1 (insert k.2 (mkSchemaNode row (default ∅ (schema_tables <$> find_schema t k)))) t) j
    = if decide (k = j) then Some (mkSchemaNode row (default ∅ (schema_tables <$> find_schema t k))) else find_schema t j) as Hf.
  { intros [d sc]. rewrite find_schema_on. cbn [fst snd]. destruct (decide (d = k.1)) as [->|].
    - rewrite Hn. cbn. rewrite lookup_insert. destruct k as [d' sc']; cbn in *. unfold find_schema; cbn. rewrite Hn; cbn.
      destruct (decide (sc' = sc)) as [->|]; [by rewrite decide_True|by rewrite decide_False by congruence].
    - rewrite decide_False; [done|]. intros ->; done. }
  split; cbn -[on_schemas].
  - done.
  - intros d. by rewrite databases_on.
  - intros j. rewrite Hf, lookup_insert, Hs. by case_decide.
  - intros [j tb]. rewrite Ht. unfold find_table; cbn. rewrite Hf. case_decide; [subst|done]. cbn.
    by destruct (find_schema t j).
Qed.

Lemma abs_delete_schema k ts :
  (forall j, ts !! j = if decide (j.1 = k) then None else tables s !! j) ->
  abs (mkState (volumes s) (databases s) (delete k (schemas s)) ts) (on_schemas k.1 (delete k.2) t).
Proof.
  destruct R as [Hv Hd Hs Ht]. intros Hts.
  assert (forall j, find_schema (on_schemas k.1 (delete k.2) t) j = if decide (j = k) then None else find_schema t j) as Hf.
  { intros [d sc]. rewrite find_schema_on. destruct k as [d' sc']; cbn. unfold find_schema; cbn.
    destruct (decide (d = d')) as [->|]; [|by rewrite decide_False by congruence].
    destruct (tree_databases t !! d'); cbn; [|by case_decide]. rewrite lookup_delete.
    destruct (decide (sc' = sc)) as [->|]; [by rewrite decide_True|by rewrite decide_False by congruence]. }
  split; cbn -[on_schemas].
  - done.
  - intros d. by rewrite databases_on.
  - intros j. rewrite Hf, lookup_delete, Hs. destruct (decide (k = j)) as [->|]; [by rewrite decide_True|by rewrite decide_False by congruence].
  - intros [j tb]. rewrite Hts, Ht. unfold find_table; cbn. rewrite Hf. by case_decide.
Qed.

Lemma abs_on_tables k f ts :
  (forall j, ts !! j = if decide (j.1 = k) then f (default ∅ (schema_tables <$> find_schema t k)) !! j.2 else tables s !! j) ->
  (find_schema t k = None -> f ∅ = ∅) ->
  abs (set_tables ts s) (on_tables k f t).
Proof.
  destruct R as [Hv Hd Hs Ht]. intros Hts Hnone. split; cbn -[on_tables].
  - done.
  - intros d. unfold on_tables. by rewrite databases_on.
  - intros j. rewrite find_schema_on_tables, Hs. case_decide; [subst|done]. by destruct (find_schema t k).
  - intros [j tb]. rewrite Hts, Ht. unfold find_table; cbn. rewrite find_schema_on_tables. case_decide; [subst|done].
    destruct (find_schema t k) eqn:E; cbn; [done|]. by rewrite Hnone, lookup_empty.
Qed.

Lemma abs_put_table k row :
  is_Some (find_schema t k.1) ->
  abs (set_tables (<[k := row]> (tables s)) s) (on_tables k.1 (insert k.2 row) t).
Proof.
  intros [node Hn]. apply abs_on_tables; [|by rewrite Hn].
  intros [j tb]. rewrite lookup_insert. destruct k as [k tb']; cbn in *. rewrite (abs_tables _ _ R). unfold find_table; cbn.
  destruct (decide (j = k)) as [->|]; [|by rewrite decide_False by congruence].
  rewrite Hn; cbn. rewrite lookup_insert.
  destruct (decide (tb' = tb)) as [->|]; [by rewrite decide_True|by rewrite decide_False by congruence].
Qed.

Lemma abs_delete_table k :
  abs (set_tables (delete k (tables s)) s) (on_tables k.1 (delete k.2) t).
Proof.
  apply abs_on_tables; [|intros _; apply delete_empty].
  intros [j tb]. rewrite lookup_delete. destruct k as [k tb']; cbn in *. rewrite (abs_tables _ _ R). unfold find_table; cbn.
  destruct (decide (j = k)) as [->|]; [|by rewrite decide_False by congruence].
  destruct (find_schema t k); cbn; rewrite !lookup_delete; [|rewrite lookup_empty; by repeat case_decide].
  destruct (decide (tb' = tb)) as [->|]; [by rewrite decide_True|by rewrite decide_False by congruence].
Qed.
End changes.

(** ** Keys and listings *)

Lemma select_keys_nil {K A} `{Countable K} (p : K -> bool) (m : gmap K A) :
  select_keys p m = [] <-> forall k, is_Some (m !! k) -> p k = false.
Proof.
  split.
  - intros Hnil k Hk. destruct (p k) eqn:E; [|done].
    destruct (not_elem_of_nil k). rewrite <- Hnil. by apply elem_of_select_keys.
  - intros Hp. destruct (select_keys p m) as [|k l] eqn:E; [done|].
    assert (k ∈ select_keys p m) as Hk by (rewrite E; left).
    apply elem_of_select_keys in Hk as [Hk Hpk]. by rewrite Hp in Hpk.
Qed.

Lemma NoDup_list_filter {A} (p : A -> bool) (l : list A) : NoDup l -> NoDup (List.filter p l).
Proof. rewrite !NoDup_ListNoDup. apply List.NoDup_filter. Qed.

Lemma NoDup_select_keys {K A} `{Countable K} (p : K -> bool) (m : gmap K A) : NoDup (select_keys p m).
Proof. apply NoDup_list_filter, NoDup_fst_map_to_list. Qed.

Lemma map_nonempty {K A} `{Countable K} (m : gmap K A) : (forall k, m !! k = None) <-> m = ∅.
Proof. split; [apply map_empty|intros ->; apply lookup_empty]. Qed.

(** The second components of the keys that start with [d] name the schemas of the database. *)
Lemma schema_names s t d : abs s t ->
  List.map snd (select_keys (fun k => String.eqb k.1 d) (schemas s))
    ≡ₚ (map_to_list (default ∅ (database_schemas <$> tree_databases t !! d))).*1.
Proof.
  intros R. apply NoDup_Permutation.
  - apply NoDup_fmap_2_strong; [|apply NoDup_select_keys].
    intros [a b] [a' b'] Ha Hb; cbn. apply elem_of_select_keys in Ha as [_ Ha], Hb as [_ Hb]. cbn in *.
    apply String.eqb_eq in Ha, Hb. by intros ->; subst.
  - apply NoDup_fst_map_to_list.
  - intros n. rewrite !list_elem_of_fmap. split.
    + intros ([a b] & -> & Hk). apply elem_of_select_keys in Hk as [Hk Ha]. cbn in *. apply String.eqb_eq in Ha as ->.
      rewrite (abs_schemas _ _ R), fmap_is_Some in Hk. destruct Hk as [node Hn]. unfold find_schema in Hn; cbn in Hn.
      destruct (tree_databases t !! d) as [db|] eqn:Ed; [|done]. exists (b, node). by rewrite elem_of_map_to_list.
    + intros ([b node] & -> & Hk%elem_of_map_to_list). exists (d, b). split; [done|].
      apply elem_of_select_keys. split; [|apply String.eqb_refl]. rewrite (abs_schemas _ _ R), fmap_is_Some. exists node.
      unfold find_schema; cbn. destruct (tree_databases t !! d); [done|]. simpl in Hk. by rewrite lookup_empty in Hk.
Qed.

Lemma no_schema_names s t d : abs s t ->
  bool_decide (select_keys (fun k => String.eqb k.1 d) (schemas s) = [])
    = bool_decide (default ∅ (database_schemas <$> tree_databases t !! d) = ∅).
Proof.
  intros R. apply bool_decide_ext. pose proof (schema_names s t d R) as Hp. split.
  - intros E. rewrite E in Hp. symmetry in Hp. apply Permutation_nil_r in Hp. apply fmap_nil_inv in Hp. by apply map_to_list_empty_iff in Hp.
  - intros E. rewrite E, map_to_list_empty in Hp. apply Permutation_nil_r in Hp. by apply map_eq_nil in Hp.
Qed.

(** The keys below a schema are its tables. *)
Lemma no_table_names s t d sc : abs s t ->
  bool_decide (select_keys (fun k => String.eqb k.1.1 d && String.eqb k.1.2 sc) (tables s) = [])
    = bool_decide (default ∅ (schema_tables <$> find_schema t (d, sc)) = ∅).
Proof.
  intros R. apply bool_decide_ext. rewrite select_keys_nil, <- map_nonempty. split.
  - intros Hk tb. destruct (_ !! tb) eqn:E; [|done]. specialize (Hk (d, sc, tb)). cbn in Hk. rewrite !String.eqb_refl in Hk.
    rewrite (abs_tables _ _ R) in Hk. unfold find_table in Hk; cbn in Hk.
    destruct (find_schema t (d, sc)); cbn in *; [|by rewrite lookup_empty in E]. rewrite E in Hk. by discriminate Hk.
  - intros Hn [[a b] tb]. cbn. rewrite (abs_tables _ _ R). unfold find_table; cbn.
    destruct (String.eqb_spec a d) as [->|]; [|done]. destruct (String.eqb_spec b sc) as [->|]; [|done].
    specialize (Hn tb). destruct (find_schema t (d, sc)); cbn in *; [rewrite Hn|]; by intros [].
Qed.

(** In a well-formed state the databases on a volume are the keys of the nodes on it. *)
Lemma volume_databases s t n : wf s -> abs s t -> databases_in_use s n ≡ₚ (map_to_list (on_volume n t)).*1.
Proof.
  intros Hwf R. apply NoDup_Permutation; [|apply NoDup_fst_map_to_list|].
  - unfold databases_in_use. apply (NoDup_fmap_2_strong (fun db => Database.ident (RwObject.data db))).
    + intros a b. rewrite !list_elem_of_In, !filter_In, <- !list_elem_of_In, !list_elem_of_fmap.
      intros [([k r] & -> & Hk%elem_of_map_to_list) _] [([k' r'] & -> & Hk'%elem_of_map_to_list) _]. cbn in *.
      destruct (wf_database _ Hwf _ _ Hk) as [-> _], (wf_database _ Hwf _ _ Hk') as [-> _]. congruence.
    + apply NoDup_list_filter. apply NoDup_fmap_2_strong; [|apply NoDup_map_to_list].
      intros [k r] [k' r'] Hk%elem_of_map_to_list Hk'%elem_of_map_to_list; cbn. intros ->.
      destruct (wf_database _ Hwf _ _ Hk) as [<- _], (wf_database _ Hwf _ _ Hk') as [<- _]. done.
  - intros d. rewrite elem_of_in_use by done. rewrite list_elem_of_fmap. unfold on_volume, lies_on. split.
    + intros (row & Hd & Hv). rewrite (abs_databases _ _ R) in Hd. apply fmap_Some in Hd as (node & Hn & ->).
      exists (d, node). split; [done|]. by apply elem_of_map_to_list, map_lookup_filter_Some.
    + intros ([d' node] & -> & Hk%elem_of_map_to_list). apply map_lookup_filter_Some in Hk as [Hn Hv]. cbn in *.
      exists (database_row node). by rewrite (abs_databases _ _ R), Hn.
Qed.

Lemma no_volume_databases s t n : wf s -> abs s t ->
  bool_decide (databases_in_use s n = []) = bool_decide (on_volume n t = ∅).
Proof.
  intros Hwf R. apply bool_decide_ext. pose proof (volume_databases s t n Hwf R) as Hp. split.
  - intros E. rewrite E in Hp. symmetry in Hp. apply Permutation_nil_r in Hp. apply fmap_nil_inv in Hp. by apply map_to_list_empty_iff in Hp.
  - intros E. rewrite E, map_to_list_empty in Hp. by apply Permutation_nil_r in Hp.
Qed.

Lemma off_volume_lookup s t n d : wf s -> abs s t ->
  off_volume n t !! d = if is_used (databases_in_use s n) d then None else tree_databases t !! d.
Proof.
  intros Hwf R. unfold off_volume. rewrite map_lookup_filter. cbn.
  destruct (tree_databases t !! d) as [node|] eqn:Ed; cbn; [|by destruct (is_used _ _)].
  assert (is_used (databases_in_use s n) d = true <-> lies_on n node) as Hu.
  { rewrite is_used_spec, elem_of_in_use, (abs_databases _ _ R), Ed by done. unfold lies_on. cbn. naive_solver. }
  destruct (is_used (databases_in_use s n) d); case_guard; naive_solver.
Qed.

Lemma off_unused t n : on_volume n t = ∅ -> off_volume n t = tree_databases t.
Proof.
  intros Hn. apply map_eq. intros d. unfold off_volume. rewrite map_lookup_filter. cbn.
  destruct (tree_databases t !! d) as [node|] eqn:Ed; cbn; [|done]. case_guard as Hl; [done|].
  exfalso. assert (on_volume n t !! d = Some node) as Hd; [|by rewrite Hn, lookup_empty in Hd].
  apply map_lookup_filter_Some. split; [done|]. by destruct (decide (lies_on n node)).
Qed.

Lemma abs_cascade s t n : wf s -> abs s t -> abs (cascade_state s n) (mkTree (tree_volumes t) (off_volume n t)).
Proof.
  intros Hwf R. apply (abs_filter_databases _ _ R (is_used (databases_in_use s n))).
  - intros d. by apply off_volume_lookup.
  - intros d. rewrite lookup_remove_all. destruct (is_used _ d) eqn:Hu.
    + apply is_used_spec in Hu. by rewrite decide_True.
    + rewrite decide_False; [done|]. rewrite <- is_used_spec. congruence.
  - intros [d sc]. by rewrite lookup_remove_selected.
  - intros [[d sc] tb]. by rewrite lookup_remove_selected.
Qed.

(** ** Every call refines its specification *)

Definition refines (x : Ext ObjectStore) (c : call) (m : InMemoryMetastore (ObjectStore := ObjectStore) (Settings := Settings)) (t : Tree) : Prop :=
  exists o t', oracle_ok c t o /\ spec x o c t = ((exec x c m).1, t') /\ abs (state (exec x c m).2) t'.

(** The answer of a call that asks nothing. *)
Definition no_oracle : Oracle := mkOracle [] None.

Section refinement.
Context (x : Ext ObjectStore) (m : InMemoryMetastore (ObjectStore := ObjectStore) (Settings := Settings)) (t : Tree).
Hypothesis Hinv : inv m.
Hypothesis Hwf : wf (state m).
Hypothesis R : abs (state m) t.

Lemma Hg : guard m = false.
Proof. by destruct Hinv. Qed.

(** A call that only reads and returns. *)
Lemma refines_read c :
  (exec x c m).1 = Returned -> state (exec x c m).2 = state m -> (forall o, spec x o c t = (Returned, t)) ->
  (forall o, oracle_ok c t o) -> refines x c m t.
Proof. intros H1 H2 H3 H4. exists no_oracle, t. rewrite H1, H2. by repeat split; try apply R. Qed.

Lemma lookup_volume n : volumes (state m) !! n = tree_volumes t !! n.
Proof. by rewrite (abs_volumes _ _ R). Qed.

#[local] Arguments select_keys : simpl never.
#[local] Arguments remove_all : simpl never.
#[local] Arguments schema_key : simpl never.
#[local] Arguments databases_in_use : simpl never.

(** Runs a call whose branches the tree decides. *)
Ltac run_call :=
  unfold write_lock, read_lock, bind, get_state, lift, ok_or, absent, ends; rewrite ?Hg; cbn.

Lemma refines_create_volume n v : refines x (CreateVolume n v) m t.
Proof.
  exists no_oracle. unfold exec, forget, create_volume, spec. run_call.
  destruct (get_object_store x v); cbn; [|by eexists]. rewrite lookup_volume.
  destruct (tree_volumes t !! n); cbn; eexists; (split; [done|]; split; [done|]); cbn; [done|].
  exact (abs_with_volumes _ _ R (insert n (RwObject.new (now x) v))).
Qed.

Lemma refines_update_volume n v : refines x (UpdateVolume n v) m t.
Proof.
  exists no_oracle. unfold exec, forget, update_volume, spec. run_call.
  destruct (get_object_store x v); cbn; [|by eexists]. rewrite lookup_volume.
  destruct (tree_volumes t !! n) as [row|]; cbn; eexists; (split; [done|]; split; [done|]); cbn; [|done].
  exact (abs_with_volumes _ _ R (insert n (RwObject.update (now x) v row))).
Qed.

Lemma refines_create_database n d : refines x (CreateDatabase n d) m t.
Proof.
  exists no_oracle. unfold exec, forget, create_database, ensure_volume, spec. run_call. rewrite lookup_volume.
  destruct (tree_volumes t !! _); cbn; [|by eexists]. rewrite (abs_databases _ _ R).
  destruct (tree_databases t !! n) eqn:E; cbn; eexists; (split; [done|]; split; [done|]); cbn; [done|].
  by apply abs_new_database.
Qed.

Lemma refines_update_database n d : refines x (UpdateDatabase n d) m t.
Proof.
  exists no_oracle. unfold exec, forget, update_database, spec. run_call. rewrite (abs_databases _ _ R).
  destruct (tree_databases t !! n) as [node|] eqn:E; cbn; eexists; (split; [done|]; split; [done|]); cbn; [|done].
  by apply abs_set_database.
Qed.

Lemma refines_create_schema i sch :
  to_ascii_lowercase (SchemaIdent.database i) = SchemaIdent.database i -> refines x (CreateSchema i sch) m t.
Proof.
  intros Hl. exists no_oracle. unfold exec, forget, create_schema, spec. run_call. rewrite (abs_schemas _ _ R), (abs_databases _ _ R).
  destruct (find_schema t (schema_key i)) eqn:E; cbn; [by eexists|].
  destruct (tree_databases t !! _) as [node|] eqn:Ed; cbn; eexists; (split; [done|]; split; [done|]); cbn; [|done].
  apply (abs_put_schema _ _ R (schema_key i) _ ∅ node); [unfold schema_key; cbn; by rewrite Hl|by rewrite E].
Qed.

Lemma refines_update_schema i sch : refines x (UpdateSchema i sch) m t.
Proof.
  exists no_oracle. unfold exec, forget, update_schema, spec. run_call. rewrite (abs_schemas _ _ R).
  destruct (find_schema t (schema_key i)) as [node|] eqn:E; cbn; eexists; (split; [done|]; split; [done|]); cbn; [|done].
  pose proof E as E'. unfold find_schema in E'. apply bind_Some in E' as (db & Hd & _).
  by apply (abs_put_schema _ _ R (schema_key i) _ _ db); [|rewrite E].
Qed.

Lemma refines_register_table i tb :
  is_Some (schemas (state m) !! schema_key (TableIdent.to_schema_ident i)) -> refines x (RegisterTable i tb) m t.
Proof.
  rewrite (abs_schemas _ _ R), fmap_is_Some. intros Hs. exists no_oracle. unfold exec, forget, register_table, spec. run_call.
  eexists; (split; [done|]; split; [done|]); cbn. by apply abs_put_table.
Qed.

Lemma refines_delete_table i b : refines x (DeleteTable i b) m t.
Proof.
  exists no_oracle. unfold exec, forget, delete_table, spec. run_call.
  eexists; (split; [done|]; split; [done|]); cbn. by apply abs_delete_table.
Qed.

Lemma refines_delete_schema i b : SchemaIdent.normalized i = i -> refines x (DeleteSchema i b) m t.
Proof.
  intros Hi. exists no_oracle. unfold exec, forget, delete_schema, spec. run_call.
  assert (schema_key i = (SchemaIdent.database i, SchemaIdent.schema i)) as Hk.
  { destruct i; unfold SchemaIdent.normalized in Hi; injection Hi as H1 H2; cbn in *. unfold schema_key; cbn. by rewrite H1, H2. }
  rewrite Hk, (no_table_names _ _ (SchemaIdent.database i) (SchemaIdent.schema i) R).
  unfold unless. destruct (negb _ && negb b); eexists; (split; [done|]; split; [done|]); [done|].
  apply (abs_delete_schema _ _ R (_, _)). intros [[d sc] tb]. cbn. rewrite lookup_remove_selected. cbn.
  destruct (String.eqb_spec d (SchemaIdent.database i)) as [->|]; cbn; [|by rewrite decide_False by congruence].
  destruct (String.eqb_spec sc (SchemaIdent.schema i)) as [->|]; cbn; [by rewrite decide_True|by rewrite decide_False by congruence].
Qed.

Lemma refines_delete_database n b : refines x (DeleteDatabase n b) m t.
Proof.
  exists (mkOracle (List.map snd (select_keys (fun k => String.eqb k.1 n) (schemas (state m)))) None).
  unfold exec, forget, delete_database, spec. run_call. rewrite (no_schema_names _ _ n R).
  unfold unless. destruct (negb _ && negb b); eexists; (split; [by apply schema_names|]; split; [done|]); [done|].
  unfold set_databases, set_tables, set_schemas. cbn -[select_keys remove_all].
  apply (abs_filter_databases _ _ R (fun d => String.eqb d n)); intros;
    rewrite ?lookup_remove_selected, ?lookup_delete; try done; case_decide;
    by destruct (String.eqb_spec d n); congruence.
Qed.

Lemma refines_delete_volume n b : refines x (DeleteVolume n b) m t.
Proof.
  exists (mkOracle (databases_in_use (state m) n) None).
  pose proof (delete_volume_state n b m Hg) as Hst.
  assert ((delete_volume n b m).1 = Done (if negb (bool_decide (databases_in_use (state m) n = [])) && negb b
            then Err (VolumeInUse (join_comma (databases_in_use (state m) n))) else Ok tt)) as He.
  { unfold delete_volume. run_call. destruct b; cbn.
    - rewrite andb_false_r. cbn. by destruct (volumes (state m) !! n).
    - rewrite andb_true_r. destruct (bool_decide _); cbn; [|done]. by destruct (volumes (state m) !! n). }
  unfold exec. rewrite forget_snd, Hst. unfold forget. destruct (delete_volume n b m) as [o m']; cbn in He |- *. subst o.
  rewrite (no_volume_databases _ _ n Hwf R). unfold unless, ends.
  destruct (negb (bool_decide (on_volume n t = ∅)) && negb b) eqn:Hb; eexists; (split; [by apply volume_databases|]; split; [done|]); [done|].
  assert (abs (if b then cascade_state (state m) n else state m) (mkTree (tree_volumes t) (off_volume n t))) as R'.
  { destruct b; [by apply abs_cascade|]. rewrite andb_true_r in Hb. apply negb_false_iff, bool_decide_eq_true in Hb.
    rewrite off_unused by done. by destruct t. }
  rewrite lookup_volume. destruct (tree_volumes t !! n) eqn:Hn; [exact (abs_with_volumes _ _ R' (delete n))|].
  rewrite delete_id by done. exact R'.
Qed.

Lemma refines_url_for_table i : refines x (UrlForTable i) m t.
Proof.
  exists no_oracle. unfold exec, forget, url_for_table, spec. run_call. rewrite (abs_tables _ _ R).
  destruct (find_table t _); cbn; by eexists.
Qed.

Lemma request_volume_abs i r : request_volume (state m) i r = request_volume_of t i r.
Proof.
  unfold request_volume, request_volume_of, ensure_database. destruct (Table.r_volume_ident r); [done|].
  rewrite (abs_databases _ _ R). by destruct (tree_databases t !! _).
Qed.

Lemma refines_create_table i r : refines x (CreateTable i r) m t.
Proof.
  set (store := default (in_memory x)
                  (match request_volume_of t i r with Ok (Some v) => object_store_cache m !! v | _ => None end)).
  exists (mkOracle [] (Some store)). unfold exec, forget, spec, create_table, spec_create_table. cbn [answering].
  unfold write_lock. rewrite Hg. unfold bind at 1. cbn -[table_key table_object_store_from_request].
  rewrite (abs_schemas _ _ R), (abs_tables _ _ R).
  destruct (find_schema t _) as [node|] eqn:Hs; cbn -[table_key table_object_store_from_request]; [|by eexists].
  destruct (find_table t _) as [row|] eqn:Ht; cbn -[table_key table_object_store_from_request]; [by eexists|].
  unfold bind at 1, lift at 1. rewrite request_volume_abs.
  destruct (request_volume_of t i r) as [vi|e] eqn:Hv; cbn -[table_key table_object_store_from_request]; [|by eexists].
  unfold bind at 1, lift at 1. destruct (context _ _) as [md|e]; cbn -[table_key table_object_store_from_request]; [|by eexists].
  unfold table_object_store_from_request, ensure_volume. unfold bind, lift.
  destruct vi as [v|]; cbn -[table_key volume_object_store]; [|by eexists]. rewrite lookup_volume.
  destruct (tree_volumes t !! v) as [vol|] eqn:Hvol; cbn -[table_key volume_object_store]; [|by eexists].
  assert (object_store_cache m !! v = Some store) as Hstore.
  { destruct Hinv as [_ Hc]. destruct (Hc v) as [st Hst]; [rewrite lookup_volume; eauto|].
    unfold store. by rewrite Hst. }
  unfold volume_object_store, bind, get_cache. cbn -[table_key]. rewrite Hstore. cbn -[table_key].
  destruct (put_metadata x i store md) as [path|e]; cbn -[table_key]; eexists; (split; [by eexists|]; split; [done|]); [|done].
  apply (abs_put_table _ _ R (table_key i)). exists node. exact Hs.
Qed.

Lemma volume_for_table_abs i : volume_for_table i m = (Done (Ok (table_volume t i)), m).
Proof.
  unfold volume_for_table. run_call. unfold table_volume. rewrite (abs_tables _ _ R).
  destruct (find_table t (table_key i) ≫= _) as [v|]; cbn; [by rewrite lookup_volume|].
  rewrite (abs_databases _ _ R). destruct (tree_databases t !! _); cbn; [by rewrite lookup_volume|done].
Qed.

(** Looking up an object store always returns; it finds one for every volume of the tree. *)
Lemma volume_object_store_abs n :
  exists r m', volume_object_store x n m = (Done (Ok r), m') /\ guard m' = false /\ state m' = state m /\
    (r = None -> tree_volumes t !! n = None).
Proof.
  unfold volume_object_store, bind, get_cache. destruct (object_store_cache m !! n) as [st|] eqn:Hc.
  - eexists _, m. split; [done|]. by rewrite Hg.
  - unfold get_volume. run_call. rewrite lookup_volume. destruct (tree_volumes t !! n) as [v|] eqn:Hv.
    + destruct Hinv as [_ Hcov]. destruct (Hcov n) as [st Hst]; [rewrite lookup_volume; eauto|congruence].
    + eexists _, m. split; [done|]. by rewrite Hg.
Qed.

Lemma table_object_store_abs i :
  exists r m', table_object_store x i m = (Done (Ok r), m') /\ guard m' = false /\ state m' = state m /\
    (r = None -> match table_volume t i with
                 | Some v => tree_volumes t !! Volume.ident (RwObject.data v) = None
                 | None => True
                 end).
Proof.
  unfold table_object_store, bind at 1. rewrite volume_for_table_abs.
  destruct (table_volume t i) as [v|]; [apply volume_object_store_abs|].
  eexists _, m. split; [done|]. by rewrite Hg.
Qed.

(** A commit ends as the tree says, given the store it found. *)
Lemma update_table_abs i u r m' :
  table_object_store x i m = (Done (Ok r), m') -> guard m' = false -> state m' = state m ->
  exists m2, update_table x i u m = (Done (spec_update_table x r i u t), m2) /\
    state m2 = match spec_update_table x r i u t with
               | Ok row => set_tables (<[table_key i := row]> (tables (state m))) (state m)
               | Err _ => state m
               end.
Proof.
  intros Hr Hg' Hst. unfold update_table, spec_update_table.
  unfold bind at 1. rewrite Hr. unfold bind at 1, lift at 1. destruct r as [store|]; cbn -[table_key]; [|eauto].
  unfold write_lock. rewrite Hg'. unfold bind, get_state, lift. cbn -[table_key]. rewrite Hst, (abs_tables _ _ R).
  destruct (find_table t (table_key i)) as [entry|] eqn:Ht; cbn -[table_key]; [|eauto].
  destruct (try_for_each _ _) as [[]|e]; cbn -[table_key]; [|eauto].
  destruct (convert_add_schema_update_to_lowercase x _) as [us|e]; cbn -[table_key]; [|eauto].
  destruct (context _ (apply_table_updates x _ us)) as [md|e]; cbn -[table_key]; [|eauto].
  destruct (put_metadata x i store md) as [path|e]; cbn -[table_key]; eauto.
Qed.

Lemma refines_update_table i u : refines x (UpdateTable i u) m t.
Proof.
  destruct (table_object_store_abs i) as (r & m' & Hr & Hg' & Hst & Hnone).
  destruct (update_table_abs i u r m' Hr Hg' Hst) as (m2 & E & Es).
  exists (mkOracle [] r). unfold exec, forget. rewrite E. cbn [spec answering fst snd]. rewrite Es.
  destruct (spec_update_table x r i u t) as [row|e] eqn:Hs; eexists; (split; [exact Hnone|]; split; [done|]); [|done].
  apply (abs_put_table _ _ R (table_key i)). unfold spec_update_table in Hs.
  destruct r; [|done]. destruct (find_table t (table_key i)) eqn:Ht; [|done].
  unfold find_table in Ht. apply bind_Some in Ht as (node & Hn & _). eauto.
Qed.

Lemma refines_call c : normal_call (state m) c -> refines x c m t.
Proof.
  destruct (volume_object_store_abs) with (n := match c with VolumeObjectStore n => n | _ => "" end) as (r & mv & Hr & _ & Hst & _).
  destruct (table_object_store_abs) with (i := match c with TableObjectStore i => i | _ => TableIdent.mk "" "" "" end) as (r' & mt & Hr' & _ & Hst' & _).
  destruct c; cbn [normal_call]; intros Hn; destruct_and?;
    auto using refines_create_volume, refines_update_volume, refines_delete_volume, refines_create_database,
      refines_update_database, refines_delete_database, refines_create_schema, refines_update_schema, refines_delete_schema,
      refines_create_table, refines_register_table, refines_update_table, refines_delete_table, refines_url_for_table;
    apply refines_read; try done; unfold exec, forget;
    rewrite ?Hr, ?Hr', ?volume_for_table_abs; try done;
    unfold list_volumes, get_volume, list_databases, get_database, list_schemas, get_schema, list_tables, table_exists, get_table;
    run_call; done.
Qed.

End refinement.

Lemma reachable_abs (m : InMemoryMetastore (ObjectStore := ObjectStore) (Settings := Settings)) :
  reachable_normal m -> exists t, abs (state m) t.
Proof.
  induction 1 as [|m x c Hr [t R] Hn]; [exists empty_tree; apply abs_empty|].
  destruct (refines_call x m t (reachable_normal_inv _ Hr) (reachable_normal_wf _ Hr) R c Hn) as (o & t' & _ & _ & R'). eauto.
Qed.

(** C2: called with normalized identifiers the metastore implements a tree.  In every state reached by
    normalized calls ([normal_call]: identifiers in lower case where the metastore does not fold
    them itself, rows that carry the identifier they are filed under and name an existing parent
    where it is not checked) the four maps are those of a tree of databases, schemas and tables;
    every further normalized call of the trait ends as the specification says of that tree, with the
    same error when it fails, and leaves the maps of the specified tree; and lookups, under any
    spelling, answer with the nodes of the tree.  Other calls are outside it:
    [delete_schema_case_orphans] is one after which the maps are no tree. *)
Theorem metastore_refines_tree (m : InMemoryMetastore (ObjectStore := ObjectStore) (Settings := Settings)) :
  reachable_normal m ->
  exists t, abs (state m) t /\
    (forall x c, normal_call (state m) c ->
      exists o t', oracle_ok c t o /\ spec x o c t = ((exec x c m).1, t') /\ abs (state (exec x c m).2) t') /\
    (forall d, (get_database d m).1 = Done (Ok (database_row <$> tree_databases t !! d))) /\
    (forall i, (get_schema i m).1 = Done (Ok (schema_row <$> find_schema t (schema_key i)))) /\
    (forall i, (get_table i m).1 = Done (Ok (find_table t (table_key i)))).
Proof.
  intros Hr. destruct (reachable_abs m Hr) as [t R]. exists t. pose proof (reachable_normal_inv _ Hr) as Hinv.
  split; [done|]. split; [intros x c; by apply refines_call; [|apply reachable_normal_wf|]|].
  unfold get_database, get_schema, get_table, read_lock, bind, get_state. destruct Hinv as [-> _]. cbn -[schema_key table_key].
  split; [|split]; intros k; do 2 f_equal; apply R.
Qed.

End spec.

(** ** Witness *)

Lemma metastore_refines_tree_witness :
  exists t, abs (state Demo.m3) t /\
    exists o t', oracle_ok (DeleteDatabase "db" true) t o /\
      spec Demo.ext o (DeleteDatabase "db" true) t
        = ((exec Demo.ext (DeleteDatabase "db" true) Demo.m3).1, t').
Proof.
  destruct (metastore_refines_tree Demo.m3 Demo.m3_normal) as (t & R & Hstep & _).
  exists t. split; [exact R|].
  destruct (Hstep Demo.ext (DeleteDatabase "db" true) I) as (o & t' & Ho & Hs & _).
  exists o, t'. split; [exact Ho|exact Hs].
Defined.

(** Dropping a database that holds a schema is refused without cascade and drops the subtree with it. *)
Example drop_database_tree :
  let t : Tree := mkTree ∅ {[ "db"%string := mkDatabaseNode (RwObject.mk Demo.db 0 0)
             {[ "s"%string := mkSchemaNode (RwObject.mk (Schema.mk Demo.sid None) 0 0) ∅ ]} ]} in
  spec Demo.ext (mkOracle ["s"%string] None) (DeleteDatabase "db" false) t = (Raised (DatabaseInUse "db" "s"), t)
  /\ spec Demo.ext (mkOracle [] None) (DeleteDatabase "db" true) t = (Returned, mkTree ∅ ∅).
Proof. split; vm_compute; reflexivity. Qed.
