(* ===== verification/ExecutorErrors.v ===== *)
(** * Executor errors and what a client sees of them

    Models [crates/executor/src/error.rs], [error_code.rs], [snowflake_error.rs] and the response of
    [crates/api-snowflake-rest/src/server/error.rs]: every executor error is classified into a
    Snowflake error with a code, and the REST layer turns the code into an HTTP status.

    An error of a library is its variant, where the classification looks at it, with the text of
    its [Display].  Source locations are not modelled. *)

From Stdlib Require Import ZArith Lia Ascii String.
From stdpp Require Import base option list strings.
From S2P Require Import Prelude.

(** A [Uuid] is its canonical text. *)
Notation Uuid := string (only parsing).
Notation QueryId := string (only parsing).
Definition nil_uuid : Uuid := "00000000-0000-0000-0000-000000000000".

(** ** The error types *)
Inductive OperationType := OpCreate | OpAlter | OpDrop | OpShow | OpUnknown.
Inductive OperationOn :=
| OnDatabase (t : OperationType) | OnSchema (t : OperationType) | OnTable (t : OperationType)
| OnUnknown.
Inductive Entity := EntDatabase | EntSchema | EntTable.

Inductive ErrorCode :=
| CNone | CDb | CMetastore | CObjectStore | CDatafusion | CDatafusionEmbucketFn
| CDatafusionEmbucketFnAggregate | CDatafusionEmbucketFnConversion
| CDatafusionEmbucketFnDateTime | CDatafusionEmbucketFnNumeric
| CDatafusionEmbucketFnSemiStructured | CDatafusionEmbucketFnStringBinary
| CDatafusionEmbucketFnTable | CDatafusionEmbucketFnCrate | CDatafusionEmbucketFnRegexp
| CDatafusionEmbucketFnSystem | CArrow | CCatalog | CIceberg | CInternal | CHistoricalQueryError
| CDataFusionSqlParse | CDataFusionSql | CEntityNotFound (e : Entity) (o : OperationOn) | COther
| CUnsupportedFeature | CTimeout | CCancelled | CLimitExceeded | CQueryTask.

#[global] Instance OperationType_eq_dec : EqDecision OperationType.
Proof. solve_decision. Defined.
#[global] Instance OperationOn_eq_dec : EqDecision OperationOn.
Proof. solve_decision. Defined.
#[global] Instance Entity_eq_dec : EqDecision Entity.
Proof. solve_decision. Defined.
#[global] Instance ErrorCode_eq_dec : EqDecision ErrorCode.
Proof. solve_decision. Defined.

(** The number [Display for ErrorCode] prints, zero-padded to six digits. *)
Definition code_number (c : ErrorCode) : Z :=
  match c with
  | CUnsupportedFeature => 2
  | CTimeout => 630
  | CCancelled => 684
  | CHistoricalQueryError => 1001
  | CDataFusionSqlParse => 1003
  | CDataFusionSql => 2003
  | CEntityNotFound entity operation =>
      match entity, operation with
      | EntTable, OnTable _ | EntSchema, OnTable _ | EntDatabase, OnTable _ => 2003
      | _, _ => 2043
      end
  | _ => 10001
  end.

(** [object_store::Error] is its text. *)
Inductive IcebergError :=
| IceObjectStore (inner : string) (display : string)
| IceExternal (e : dyn_error) (display : string)
| IceOther (display : string)
with MetastoreError :=
| MsObjectStore (display : string)
| MsIceberg (e : IcebergError)
| MsSchemaNotFound (schema db : string)
| MsOther (display : string)
(** What a [Box<dyn Error>] of Iceberg is found to be by [downcast_ref]. *)
with dyn_error :=
| DynMetastore (e : MetastoreError)
| DynObjectStore (display : string)
| DynOther (display : string).

Inductive CatalogError := CatMetastore (e : MetastoreError) | CatOther (display : string).
Inductive ParserError := Tokenizer (e : string) | Parser (e : string) | RecursionLimitExceeded (display : string).
Inductive ArrowError := ArrowExternal (display : string) | ArrowOther (display : string).

(** The groups of [functions::df_error::DFExternalError]. *)
Inductive FunctionError :=
| FnAggregate | FnConversion | FnDateTime | FnNumeric | FnSemiStructured | FnStringBinary
| FnTable | FnCrate | FnRegexp | FnSystem.

Record Diagnostic := { is_error : bool; span : option (Z * Z); diag_message : string }.

Inductive Error :=
| ConcurrencyLimit
| QueryTimeout
| RegisterUDF (e : DataFusionError)
| RegisterUDAF (e : DataFusionError)
| DataFusion (e : DataFusionError)
| DataFusionQuery (e : DataFusionError) (query : string)
| DataFusionLogicalPlanMergeTarget (e : DataFusionError)
| DataFusionLogicalPlanMergeSource (e : DataFusionError)
| DataFusionLogicalPlanMergeJoin (e : DataFusionError)
| Arrow (display : string)
| MissingDataFusionSession (id : string)
| Metastore (source : MetastoreError)
| DatabaseNotFound (db : string)
| TableNotFoundInSchemaInDatabase (o : OperationOn) (table schema db : string)
| SchemaNotFoundInDatabase (o : OperationOn) (schema db : string)
| RefreshCatalogList (source : CatalogError)
| CatalogDownCast (catalog : string)
| CatalogNotFound (o : OperationOn) (catalog : string)
| Iceberg (e : IcebergError)
| CatalogListDowncast
| RegisterCatalog (source : CatalogError)
| DropDatabase (source : CatalogError)
| CreateDatabase (source : CatalogError)
| SerdeParse (display : string)
| SqlParser (e : ParserError) (display : string)
| LogicalExtensionChildCount (name : string) (expected : string)
| MatchingFilesAlreadyConsumed
| MissingFilterPredicates
| NotSupportedStatement (statement : string)
| QueryExecution (query_id : QueryId) (source : Error)
| QueryIsntRunning (query_id : QueryId)
| QueryByRequestIdIsntRunning (request_id : Uuid)
| QueryCancelled (query_id : QueryId)
| ExecutionStatusRecv (query_id : QueryId) (display : string)
| AsyncResultTaskJoin (display : string) (query_id : QueryId)
| QuerySubtaskJoin (display : string)
| NoJoinHandle (query_id : QueryId)
(** The variants no code modelled here builds or tells apart, by their text. *)
| OtherError (display : string)
with DataFusionError :=
| DFArrow (e : ArrowError) (display : string)
| DFDiagnostic (d : Diagnostic) (display : string)
| DFExecution (e : string) (display : string)
| DFNotImplemented (e : string) (display : string)
| DFSql (e : ParserError) (backtrace : bool) (display : string)
| DFExecutionJoin (join : string) (display : string)
| DFExternal (e : external) (display : string)
(** [Plan], [Collection], [Context], [IoError], [ObjectStore], [ParquetError], [SchemaError],
    [Shared] and the variants of the last arm. *)
| DFOther (display : string)
(** What the [Box<dyn Error>] of [DataFusionError::External] is found to be, tried in this order. *)
with external :=
| ExtDataFusion (e : DataFusionError)
| ExtExecutor (e : Error)
| ExtObjectStore (display : string)
| ExtIceberg (e : IcebergError)
| ExtFunctions (e : FunctionError) (display : string)
| ExtCatalogIceberg (e : IcebergError)
| ExtCatalogOther (display : string)
| ExtArrow (display : string)
| ExtUnknown (display : string).

(** ** Display *)
Definition df_display (e : DataFusionError) : string :=
  match e with
  | DFArrow _ d | DFDiagnostic _ d | DFExecution _ d | DFNotImplemented _ d | DFSql _ _ d
  | DFExecutionJoin _ d | DFExternal _ d | DFOther d => d
  end.

Definition ice_display (e : IcebergError) : string :=
  match e with IceObjectStore _ d | IceExternal _ d | IceOther d => d end.

Definition ms_display (e : MetastoreError) : string :=
  match e with
  | MsObjectStore d => "ObjectStore: " +:+ d
  | MsIceberg e => "Iceberg error: " +:+ ice_display e
  | MsSchemaNotFound schema db => "Schema " +:+ schema +:+ " not found in database " +:+ db
  | MsOther d => d
  end%string.

Definition cat_display (e : CatalogError) : string :=
  match e with CatMetastore e => "Metastore error: " +:+ ms_display e | CatOther d => d end%string.

(** [Display for Error]: the [#[snafu(display(...))]] attributes. *)
Fixpoint display (e : Error) : string :=
  match e with
  | ConcurrencyLimit => "Concurrency limit reached — too many concurrent queries are running"
  | QueryTimeout => "Query execution exceeded timeout"
  | RegisterUDF _ => "Cannot register UDF functions"
  | RegisterUDAF _ => "Cannot register UDAF functions"
  | DataFusion e => "DataFusion error: " +:+ df_display e
  | DataFusionQuery e q => "DataFusion query error: " +:+ df_display e +:+ ", query: " +:+ q
  | DataFusionLogicalPlanMergeTarget e =>
      "DataFusion error when building logical plan for merge target: " +:+ df_display e
  | DataFusionLogicalPlanMergeSource e =>
      "DataFusion error when building logical plan for merge source: " +:+ df_display e
  | DataFusionLogicalPlanMergeJoin e =>
      "DataFusion error when building logical plan for join of merge target and source: "
      +:+ df_display e
  | Arrow d => "Arrow error: " +:+ d
  | MissingDataFusionSession id => "Missing DataFusion session for id " +:+ id
  | Metastore e => "Metastore error: " +:+ ms_display e
  | DatabaseNotFound db => "Database " +:+ db +:+ " not found"
  | TableNotFoundInSchemaInDatabase _ t s db =>
      "Table " +:+ t +:+ " not found in " +:+ db +:+ "." +:+ s
  | SchemaNotFoundInDatabase _ s db => "Schema " +:+ s +:+ " not found in database " +:+ db
  | RefreshCatalogList e => "Cannot refresh catalog list: " +:+ cat_display e
  | CatalogDownCast c => "Catalog " +:+ c +:+ " cannot be downcasted"
  | CatalogNotFound _ c => "Catalog " +:+ c +:+ " not found"
  | Iceberg e => "Iceberg error: " +:+ ice_display e
  | CatalogListDowncast => "CatalogList failed"
  | RegisterCatalog e => "Failed to register catalog: " +:+ cat_display e
  | DropDatabase e => "Failed to drop database: " +:+ cat_display e
  | CreateDatabase e => "Failed to create database: " +:+ cat_display e
  | SerdeParse d => "Failed to parse data: " +:+ d
  | SqlParser _ d => "SQL parser error: " +:+ d
  | LogicalExtensionChildCount n k =>
      "LogicalPlan Extension " +:+ n +:+ " requires exactly " +:+ k +:+ " child(ren)"
  | MatchingFilesAlreadyConsumed => "Matching files have already been consumed"
  | MissingFilterPredicates => "When there are matching data files, there must be filter predicates"
  | NotSupportedStatement s => "Not supported statement: " +:+ s
  | QueryExecution q e => q +:+ ": Query execution error: " +:+ display e
  | QueryIsntRunning q => "Query " +:+ q +:+ " isn't running"
  | QueryByRequestIdIsntRunning r => "Query with request_id " +:+ r +:+ " isn't running"
  | QueryCancelled q => "Query " +:+ q +:+ " cancelled"
  | ExecutionStatusRecv q d => "Query " +:+ q +:+ " result notify error: " +:+ d
  | AsyncResultTaskJoin d q => "Failed to get async result for query [" +:+ q +:+ "]: " +:+ d
  | QuerySubtaskJoin d => "Failed to join query subtask: " +:+ d
  | NoJoinHandle q => "Missing results handle in running query [" +:+ q +:+ "]"
  | OtherError d => d
  end%string.

Definition query_id (e : Error) : QueryId :=
  match e with QueryExecution q _ => q | _ => nil_uuid end.

Fixpoint is_query_cancelled (e : Error) : bool :=
  match e with
  | QueryExecution _ source => is_query_cancelled source
  | QueryCancelled _ => true
  | _ => false
  end.

Fixpoint is_query_timeout (e : Error) : bool :=
  match e with
  | QueryExecution _ source => is_query_timeout source
  | QueryTimeout => true
  | _ => false
  end.

(** ** The Snowflake error *)
Inductive SqlCompilationError :=
| CompilationUnsupportedFeature (e : string)
| CompilationDiagnosticGeneric (d : Diagnostic)
| CompilationDiagnosticEmptySpan (d : Diagnostic)
| EntityDoesntExist (o : OperationOn) (name : string) (entity : Entity)
| CompilationParse (e : string)
| CompilationGeneric (e : string).

Inductive SnowflakeError :=
| SqlCompilation (e : SqlCompilationError) (code : ErrorCode)
| Custom (message : string) (code : ErrorCode).

Definition error_code (e : SnowflakeError) : ErrorCode :=
  match e with SqlCompilation _ c => c | Custom _ c => c end.

(** [format_message]: the non-empty parts of the path, joined by spaces, before the text. *)
Definition format_message (subtext : list string) (error : string) : string :=
  let subtext := String.concat " " (List.filter (fun s => negb (String.eqb s "")) subtext) in
  if String.eqb subtext "" then error else (subtext +:+ ": " +:+ error)%string.

Definition object_store_error (display : string) (subtext : list string) : SnowflakeError :=
  Custom (format_message (subtext ++ ["Object store"%string]) display) CObjectStore.

Fixpoint iceberg_error (e : IcebergError) (subtext : list string) : SnowflakeError :=
  let subtext := subtext ++ ["Iceberg"%string] in
  match e with
  | IceObjectStore d _ => object_store_error d subtext
  | IceExternal (DynMetastore e) _ => metastore_error e subtext
  | IceExternal (DynObjectStore d) _ => object_store_error d subtext
  | IceExternal (DynOther d) _ => Custom d CIceberg
  | IceOther d => Custom (format_message subtext d) CIceberg
  end
with metastore_error (e : MetastoreError) (subtext : list string) : SnowflakeError :=
  let subtext := subtext ++ ["Metastore"%string] in
  match e with
  | MsObjectStore d => object_store_error d subtext
  | MsIceberg e => iceberg_error e subtext
  | MsSchemaNotFound schema db =>
      SqlCompilation (EntityDoesntExist (OnSchema OpUnknown) (db +:+ "." +:+ schema) EntSchema)
        (CEntityNotFound EntSchema (OnSchema OpUnknown))
  | MsOther d => Custom (format_message subtext d) CMetastore
  end.

Definition catalog_error (e : CatalogError) (subtext : list string) : SnowflakeError :=
  let subtext := subtext ++ ["Catalog"%string] in
  match e with
  | CatMetastore e => metastore_error e subtext
  | CatOther d => Custom (format_message subtext d) CCatalog
  end.

Definition datafusion_parser_error (e : ParserError) : SnowflakeError :=
  match e with
  | Tokenizer error | Parser error =>
      SqlCompilation (if String.prefix "syntax error" error then CompilationGeneric error
                      else CompilationParse error) CDataFusionSqlParse
  | RecursionLimitExceeded display => Custom display CDataFusionSqlParse
  end.

Definition function_code (e : FunctionError) : ErrorCode :=
  match e with
  | FnAggregate => CDatafusionEmbucketFnAggregate
  | FnConversion => CDatafusionEmbucketFnConversion
  | FnDateTime => CDatafusionEmbucketFnDateTime
  | FnNumeric => CDatafusionEmbucketFnNumeric
  | FnSemiStructured => CDatafusionEmbucketFnSemiStructured
  | FnStringBinary => CDatafusionEmbucketFnStringBinary
  | FnTable => CDatafusionEmbucketFnTable
  | FnCrate => CDatafusionEmbucketFnCrate
  | FnRegexp => CDatafusionEmbucketFnRegexp
  | FnSystem => CDatafusionEmbucketFnSystem
  end.

Fixpoint datafusion_error (e : DataFusionError) (subtext : list string) : SnowflakeError :=
  let subtext := subtext ++ ["DataFusion"%string] in
  match e with
  | DFArrow (ArrowExternal d) _ => Custom d CArrow
  | DFArrow (ArrowOther _) message => Custom message CArrow
  | DFDiagnostic d _ =>
      SqlCompilation (match span d with
                      | Some _ => CompilationDiagnosticGeneric d
                      | None => CompilationDiagnosticEmptySpan d
                      end) CDataFusionSql
  | DFExecution error _ => SqlCompilation (CompilationGeneric error) CDataFusionSql
  | DFNotImplemented error _ => SqlCompilation (CompilationUnsupportedFeature error) CDatafusion
  | DFSql e true _ => datafusion_parser_error e
  | DFSql _ false message => Custom message CDatafusion
  | DFExecutionJoin join _ => Custom join CDatafusion
  | DFExternal err message =>
      match err with
      | ExtDataFusion e => datafusion_error e subtext
      | ExtExecutor e => Custom (display e) CDatafusion
      | ExtObjectStore d => object_store_error d subtext
      | ExtIceberg e => iceberg_error e subtext
      | ExtFunctions f d => Custom d (function_code f)
      | ExtCatalogIceberg e => iceberg_error e []
      | ExtCatalogOther d => Custom d CCatalog
      | ExtArrow d => Custom d CArrow
      | ExtUnknown _ => Custom message COther
      end
  | DFOther message => Custom message CDatafusion
  end.

Definition entity_doesnt_exist (o : OperationOn) (name : string) (entity : Entity)
    (code : ErrorCode) : SnowflakeError :=
  SqlCompilation (EntityDoesntExist o name entity) code.

Fixpoint executor_error (error : Error) : SnowflakeError :=
  let message := display error in
  match error with
  | RegisterUDF e | RegisterUDAF e | DataFusionQuery e _ | DataFusionLogicalPlanMergeTarget e
  | DataFusionLogicalPlanMergeSource e | DataFusionLogicalPlanMergeJoin e | DataFusion e =>
      datafusion_error e []
  | SqlParser e _ => datafusion_parser_error e
  | Metastore e => metastore_error e []
  | Iceberg e => iceberg_error e []
  | RefreshCatalogList e | RegisterCatalog e | DropDatabase e | CreateDatabase e =>
      catalog_error e []
  | QueryExecution _ source => executor_error source
  | TableNotFoundInSchemaInDatabase o table schema db =>
      entity_doesnt_exist o (db +:+ "." +:+ schema +:+ "." +:+ table) EntTable
        (CEntityNotFound EntTable o)
  | SchemaNotFoundInDatabase o schema db =>
      entity_doesnt_exist o (db +:+ "." +:+ schema) EntSchema (CEntityNotFound EntSchema o)
  | DatabaseNotFound db =>
      entity_doesnt_exist OnUnknown db EntDatabase (CEntityNotFound EntDatabase (OnDatabase OpUnknown))
  | CatalogNotFound o catalog =>
      entity_doesnt_exist o catalog EntDatabase (CEntityNotFound EntDatabase o)
  | NotSupportedStatement s => SqlCompilation (CompilationUnsupportedFeature s) CUnsupportedFeature
  | Arrow _ | SerdeParse _ | CatalogListDowncast | CatalogDownCast _
  | LogicalExtensionChildCount _ _ | MatchingFilesAlreadyConsumed | MissingFilterPredicates =>
      Custom message CInternal
  | _ => Custom message COther
  end%string.

Definition from_executor_error : Error -> SnowflakeError := executor_error.

(** ** The REST error *)
Inductive ApiError :=
| Execution (source : Error)
| SetVariable (variable : string) (e : Error)
| MissingAuthToken | InvalidAuthData | InvalidAuthToken | NoJwtSecret | CreateJwt | BadAuthToken
| AuthSession
| Utf8 | CreateExecutor | BuildDevCatalog | RetryDisabled | ApiArrow | NotImplemented.

Inductive SqlState := Success | FeatureNotSupported | GenericQueryErrorFromHistory | DoesNotExist.

Definition api_query_id (e : ApiError) : QueryId :=
  match e with Execution source => query_id source | _ => nil_uuid end.

(** The HTTP status, SQL state and code of [prepare_response]. *)
Definition prepare_response (e : ApiError) : Z * SqlState * ErrorCode :=
  match e with
  | Execution source =>
      let code := error_code (from_executor_error source) in
      match code with
      | CInternal => (500, Success, code)
      | CObjectStore => (503, Success, code)
      | CHistoricalQueryError => (200, GenericQueryErrorFromHistory, code)
      | CEntityNotFound EntTable (OnTable _) => (200, DoesNotExist, code)
      | _ => (200, Success, code)
      end
  | MissingAuthToken | InvalidAuthData | InvalidAuthToken | NoJwtSecret | CreateJwt | BadAuthToken
  | AuthSession => (401, Success, COther)
  | SetVariable _ _ => (400, FeatureNotSupported, COther)
  | Utf8 | CreateExecutor | BuildDevCatalog | RetryDisabled | ApiArrow | NotImplemented =>
      (200, Success, COther)
  end.

Definition http_status (e : ApiError) : Z := (prepare_response e).1.1.

(** ** Theorems *)

(** [QueryExecution], applied once per nested id. *)
Definition wrap (ids : list QueryId) (e : Error) : Error := foldr QueryExecution e ids.

Lemma executor_error_wrap ids e : executor_error (wrap ids e) = executor_error e.
Proof. by induction ids. Qed.

Lemma is_query_timeout_wrap ids e : is_query_timeout (wrap ids e) = is_query_timeout e.
Proof. by induction ids. Qed.

(** An object-store failure, however the layers between the store and the executor wrap it. *)
Inductive store_iceberg : IcebergError -> Prop :=
| si_store d m : store_iceberg (IceObjectStore d m)
| si_dyn d m : store_iceberg (IceExternal (DynObjectStore d) m)
| si_metastore e m : store_metastore e -> store_iceberg (IceExternal (DynMetastore e) m)
with store_metastore : MetastoreError -> Prop :=
| sm_store d : store_metastore (MsObjectStore d)
| sm_iceberg e : store_iceberg e -> store_metastore (MsIceberg e).

Inductive store_datafusion : DataFusionError -> Prop :=
| sd_store d m : store_datafusion (DFExternal (ExtObjectStore d) m)
| sd_iceberg e m : store_iceberg e -> store_datafusion (DFExternal (ExtIceberg e) m)
| sd_catalog e m : store_iceberg e -> store_datafusion (DFExternal (ExtCatalogIceberg e) m)
| sd_nested e m : store_datafusion e -> store_datafusion (DFExternal (ExtDataFusion e) m).

Inductive store_failure : Error -> Prop :=
| sf_metastore e : store_metastore e -> store_failure (Metastore e)
| sf_iceberg e : store_iceberg e -> store_failure (Iceberg e)
| sf_datafusion e : store_datafusion e -> store_failure (DataFusion e)
| sf_query e q : store_datafusion e -> store_failure (DataFusionQuery e q)
| sf_drop e : store_metastore e -> store_failure (DropDatabase (CatMetastore e))
| sf_create e : store_metastore e -> store_failure (CreateDatabase (CatMetastore e))
| sf_refresh e : store_metastore e -> store_failure (RefreshCatalogList (CatMetastore e))
| sf_register e : store_metastore e -> store_failure (RegisterCatalog (CatMetastore e))
| sf_wrapped q e : store_failure e -> store_failure (QueryExecution q e).

Scheme store_iceberg_mind := Minimality for store_iceberg Sort Prop
with store_metastore_mind := Minimality for store_metastore Sort Prop.

Lemma iceberg_store_code e : store_iceberg e -> forall sub, error_code (iceberg_error e sub) = CObjectStore.
Proof.
  intros H. induction H using store_iceberg_mind
    with (P0 := fun e => forall sub, error_code (metastore_error e sub) = CObjectStore);
    intros sub; simpl; auto.
Qed.

Lemma metastore_store_code e :
  store_metastore e -> forall sub, error_code (metastore_error e sub) = CObjectStore.
Proof. destruct 1 as [d|e H]; intros sub; simpl; [done|]. by apply iceberg_store_code. Qed.

Lemma datafusion_store_code e :
  store_datafusion e -> forall sub, error_code (datafusion_error e sub) = CObjectStore.
Proof. induction 1; intros sub; simpl; auto using iceberg_store_code. Qed.

Lemma store_failure_code e : store_failure e -> error_code (executor_error e) = CObjectStore.
Proof.
  induction 1; simpl; auto using metastore_store_code, iceberg_store_code, datafusion_store_code.
Qed.

(** A failing object store is reported to the client as HTTP 503, however many layers (Iceberg,
    the metastore, the catalog, DataFusion, [QueryExecution]) have wrapped the error on its way. *)
Theorem store_failure_is_503 e : store_failure e -> prepare_response (Execution e) = (503, Success, CObjectStore).
Proof. intros H%store_failure_code. unfold prepare_response, from_executor_error. by rewrite H. Qed.

Lemma store_failure_is_503_witness :
  prepare_response (Execution (QueryExecution "q"
    (DropDatabase (CatMetastore (MsIceberg (IceExternal (DynObjectStore "timeout") "iceberg")))))) =
  (503, Success, CObjectStore).
Proof. apply store_failure_is_503. repeat constructor. Defined.

(** The layers of [QueryExecution] a query's error collects do not change what the client is
    told: the classification, and with it the whole response, is that of the innermost error. *)
Theorem response_ignores_wrapping ids e :
  prepare_response (Execution (wrap ids e)) = prepare_response (Execution e).
Proof. unfold prepare_response, from_executor_error. by rewrite executor_error_wrap. Qed.

Definition is_auth_error (e : ApiError) : bool :=
  match e with
  | MissingAuthToken | InvalidAuthData | InvalidAuthToken | NoJwtSecret | CreateJwt | BadAuthToken
  | AuthSession => true
  | _ => false
  end.

(** The status of an execution error, by its code. *)
Lemma http_status_execution err :
  http_status (Execution err) =
    match error_code (executor_error err) with
    | CInternal => 500 | CObjectStore => 503 | _ => 200
    end.
Proof.
  unfold http_status, prepare_response, from_executor_error.
  destruct (error_code (executor_error err)) as [| | | | | | | | | | | | | | | | | | | | | | |[] []| | | | | | ];
    done.
Qed.

(** The HTTP status tells the kinds of failure apart: 401 exactly for the authentication errors,
    400 exactly for a refused session variable, 500 exactly for an execution error classified as
    internal, 503 exactly for one classified as an object-store failure, 200 for all the rest. *)
Theorem http_status_classes e :
  (http_status e = 401 <-> is_auth_error e = true)
  /\ (http_status e = 400 <-> exists v err, e = SetVariable v err)
  /\ (http_status e = 500 <-> exists err, e = Execution err /\ error_code (executor_error err) = CInternal)
  /\ (http_status e = 503 <-> exists err, e = Execution err /\ error_code (executor_error err) = CObjectStore)
  /\ (http_status e = 200 \/ http_status e = 400 \/ http_status e = 401 \/ http_status e = 500
      \/ http_status e = 503).
Proof.
  assert (forall P Q : Prop, ~ P -> ~ Q -> (P <-> Q)) as Hno by tauto.
  assert (forall P Q : Prop, P -> Q -> (P <-> Q)) as Hyes by tauto.
  destruct e as [err|v err| | | | | | | | | | | | | ];
    [rewrite http_status_execution; destruct (error_code (executor_error err)) eqn:Hc|..];
    cbn; split_and!;
    first [ by apply Hno; [|intros H; decompose [ex and] H; congruence]
          | by apply Hyes; eauto | lia ].
Qed.

(** A query that timed out or was cancelled has its own code (630 and 684) in the task result,
    but the response is classified from the error itself, where neither has a case: the client is
    told the generic 10001 under any wrapping. *)
Theorem timeout_code_is_generic ids q :
  code_number CTimeout = 630 /\ code_number CCancelled = 684
  /\ is_query_timeout (wrap ids QueryTimeout) = true
  /\ code_number (prepare_response (Execution (wrap ids QueryTimeout))).2 = 10001
  /\ code_number (prepare_response (Execution (wrap ids (QueryCancelled q)))).2 = 10001.
Proof.
  unfold prepare_response, from_executor_error. rewrite is_query_timeout_wrap, !executor_error_wrap.
  done.
Qed.
