(* ===== verification/RunningQueries.v ===== *)
(** * The registry of running queries

    Models [crates/executor/src/running_queries.rs] and the types of [query_types.rs] it stores.

    A [RunningQuery] shares two objects with the task that runs it and with the callers that wait
    for it: the [CancellationToken] and the [watch] channel of the status.  Both live in a store
    ([Shared]) and are named by their address, so that an effect through one alias is seen through
    the others. *)

From Stdlib Require Import ZArith Lia Ascii String.
From stdpp Require Import base option list gmap strings.
From S2P Require Import Prelude ExecutorErrors.

(** ** Query types *)
Module QueryTypes.
Inductive ExecutionStatus := Running | Success | Fail | Incident.

Inductive DmlStType := Select | Insert | Update | Delete | Truncate | Merge.
Inductive DdlStType :=
| CreateExternalTable | CreateTable | CreateView | CreateDatabase | CreateVolume | CreateSchema
| CreateStage | CopyIntoSnowflake | DropTable | DropView | DropMaterializedView | DropSchema
| DropDatabase | DropStage | AlterTable | AlterSession | Drop.
Inductive MiscStType :=
| Use | Set_ | Begin | Commit | Rollback | ShowColumns | ShowFunctions | ShowVariables
| ShowObjects | ShowVariable | ShowDatabases | ShowSchemas | ShowTables | ShowViews
| ExplainTable | Explain | Analyze | CopyTo.
Inductive QueryType := Dml (t : DmlStType) | Ddl (t : DdlStType) | Misc (t : MiscStType).

#[global] Instance ExecutionStatus_eq_dec : EqDecision ExecutionStatus.
Proof. solve_decision. Defined.
#[global] Instance DmlStType_eq_dec : EqDecision DmlStType.
Proof. solve_decision. Defined.
#[global] Instance DdlStType_eq_dec : EqDecision DdlStType.
Proof. solve_decision. Defined.
#[global] Instance MiscStType_eq_dec : EqDecision MiscStType.
Proof. solve_decision. Defined.
#[global] Instance QueryType_eq_dec : EqDecision QueryType.
Proof. solve_decision. Defined.

(** [strum::Display] with [serialize_all = "UPPERCASE"]: the variant's name in capitals. *)
Definition fmt_dml (t : DmlStType) : string :=
  match t with
  | Select => "SELECT" | Insert => "INSERT" | Update => "UPDATE" | Delete => "DELETE"
  | Truncate => "TRUNCATE" | Merge => "MERGE"
  end.
Definition fmt_ddl (t : DdlStType) : string :=
  match t with
  | CreateExternalTable => "CREATEEXTERNALTABLE" | CreateTable => "CREATETABLE"
  | CreateView => "CREATEVIEW" | CreateDatabase => "CREATEDATABASE"
  | CreateVolume => "CREATEVOLUME" | CreateSchema => "CREATESCHEMA" | CreateStage => "CREATESTAGE"
  | CopyIntoSnowflake => "COPYINTOSNOWFLAKE" | DropTable => "DROPTABLE" | DropView => "DROPVIEW"
  | DropMaterializedView => "DROPMATERIALIZEDVIEW" | DropSchema => "DROPSCHEMA"
  | DropDatabase => "DROPDATABASE" | DropStage => "DROPSTAGE" | AlterTable => "ALTERTABLE"
  | AlterSession => "ALTERSESSION" | Drop => "DROP"
  end.
Definition fmt_misc (t : MiscStType) : string :=
  match t with
  | Use => "USE" | Set_ => "SET" | Begin => "BEGIN" | Commit => "COMMIT" | Rollback => "ROLLBACK"
  | ShowColumns => "SHOWCOLUMNS" | ShowFunctions => "SHOWFUNCTIONS"
  | ShowVariables => "SHOWVARIABLES" | ShowObjects => "SHOWOBJECTS"
  | ShowVariable => "SHOWVARIABLE" | ShowDatabases => "SHOWDATABASES"
  | ShowSchemas => "SHOWSCHEMAS" | ShowTables => "SHOWTABLES" | ShowViews => "SHOWVIEWS"
  | ExplainTable => "EXPLAINTABLE" | Explain => "EXPLAIN" | Analyze => "ANALYZE"
  | CopyTo => "COPYTO"
  end.
Definition fmt (t : QueryType) : string :=
  match t with Dml d => fmt_dml d | Ddl d => fmt_ddl d | Misc m => fmt_misc m end.

Record QueryStats := mkStats { query_type : option QueryType }.
Definition default_stats : QueryStats := mkStats None.
Definition with_query_type (s : QueryStats) (t : QueryType) : QueryStats := mkStats (Some t).
End QueryTypes.
Import QueryTypes.

(** ** Shared objects *)
Module Shared.
(** A [watch] channel: the last value sent, and whether its sender is still alive. *)
Record chan := mkChan { value : option ExecutionStatus; alive : bool }.
Record t := mk { tokens : gmap nat bool; chans : gmap nat chan }.

Definition empty : t := mk ∅ ∅.
Definition new_token (h : t) : nat * t :=
  let k := fresh (dom (tokens h)) in (k, mk (<[k := false]> (tokens h)) (chans h)).
Definition new_chan (h : t) : nat * t :=
  let k := fresh (dom (chans h)) in
  (k, mk (tokens h) (<[k := mkChan None true]> (chans h))).
Definition cancel (k : nat) (h : t) : t := mk (<[k := true]> (tokens h)) (chans h).
Definition send (k : nat) (s : ExecutionStatus) (h : t) : t :=
  mk (tokens h) (alter (fun c => mkChan (Some s) (alive c)) k (chans h)).
Definition drop_sender (k : nat) (h : t) : t :=
  mk (tokens h) (alter (fun c => mkChan (value c) false) k (chans h)).
Definition is_cancelled (k : nat) (h : t) : bool := default false (tokens h !! k).
End Shared.

(** ** [RunningQuery] *)
Module RunningQuery.
Record t := mk {
  query_id : QueryId;
  request_id : option Uuid;
  result_handle : option nat;
  cancellation_token : nat;
  chan : nat;
  query_stats : QueryStats }.

Definition new (q : QueryId) (h : Shared.t) : t * Shared.t :=
  let (c, h) := Shared.new_chan h in
  let (k, h) := Shared.new_token h in
  (mk q None None k c default_stats, h).
Definition with_request_id (r : t) (request_id : option Uuid) : t :=
  mk (query_id r) request_id (result_handle r) (cancellation_token r) (chan r) (query_stats r).
Definition with_result_handle (r : t) (handle : nat) : t :=
  mk (query_id r) (request_id r) (Some handle) (cancellation_token r) (chan r) (query_stats r).
Definition with_cancellation_token (r : t) (token : nat) : t :=
  mk (query_id r) (request_id r) (result_handle r) token (chan r) (query_stats r).

Definition cancel (r : t) (h : Shared.t) : Shared.t := Shared.cancel (cancellation_token r) h.
Definition notify_query_finished (r : t) (s : ExecutionStatus) (h : Shared.t) : Shared.t :=
  Shared.send (chan r) s h.

(** [wait_query_finished] on a receiver: one turn of its loop. *)
Inductive poll := Ready (s : ExecutionStatus) | RecvError | Pending.
Definition wait_query_finished (c : nat) (h : Shared.t) : poll :=
  match Shared.chans h !! c with
  | Some (Shared.mkChan (Some s) _) => Ready s
  | Some (Shared.mkChan None true) => Pending
  | Some (Shared.mkChan None false) | None => RecvError
  end.

Definition update_query_stats (r : t) (s : QueryStats) : t :=
  match query_type (query_stats r) with
  | None => mk (query_id r) (request_id r) (result_handle r) (cancellation_token r) (chan r)
              (mkStats (query_type s))
  | Some _ => r
  end.
End RunningQuery.

Inductive RunningQueryId := ByQueryId (q : QueryId) | ByRequestId (r : Uuid) (sql_text : string).

(** ** The interface other components use: [trait RunningQueries]

    [get] is the content; [abort] and [notify_query_finished] act on the shared objects of the
    entry they find. *)
Class RunningQueries (R : Type) := {
  empty_queries : R;
  get : R -> QueryId -> option RunningQuery.t;
  add : RunningQuery.t -> R -> R;
  remove : QueryId -> R -> result Error RunningQuery.t * R;
  abort : QueryId -> R -> Shared.t -> result Error unit * Shared.t;
  notify_query_finished : QueryId -> ExecutionStatus -> R -> Shared.t -> result Error unit * Shared.t;
  locate_query_id : RunningQueryId -> R -> result Error QueryId;
  count : R -> nat;
  cloned_stats : QueryId -> R -> option QueryStats;
  update_stats : QueryId -> QueryStats -> R -> R }.

Class RunningQueriesLaws (R : Type) {ops : RunningQueries R} : Prop := {
  get_empty : forall q, get empty_queries q = None;
  get_add : forall r s q,
    get (add r s) q = if decide (RunningQuery.query_id r = q) then Some r else get s q;
  remove_get : forall q s,
    (remove q s).1 = ok_or (get s q) (QueryIsntRunning q);
  get_remove : forall q s q',
    get (remove q s).2 q' = if decide (q = q') then None else get s q';
  abort_spec : forall q s h,
    abort q s h = match get s q with
                  | Some r => (Ok tt, RunningQuery.cancel r h)
                  | None => (Err (QueryIsntRunning q), h)
                  end;
  notify_spec : forall q st s h,
    notify_query_finished q st s h = match get s q with
                                     | Some r => (Ok tt, RunningQuery.notify_query_finished r st h)
                                     | None => (Err (QueryIsntRunning q), h)
                                     end;
  count_empty : count empty_queries = 0%nat;
  count_add_new : forall r s, get s (RunningQuery.query_id r) = None -> count (add r s) = S (count s);
  count_add_old : forall r s, is_Some (get s (RunningQuery.query_id r)) -> count (add r s) = count s;
  count_remove_old : forall q s, is_Some (get s q) -> S (count (remove q s).2) = count s;
  count_remove_none : forall q s, get s q = None -> count (remove q s).2 = count s;
  get_update_stats : forall q st s q',
    get (update_stats q st s) q' =
      if decide (q = q') then (fun r => RunningQuery.update_query_stats r st) <$> get s q'
      else get s q' }.

(** ** [RunningQueriesRegistry] *)
Module Registry.
Record t := mk { queries : gmap QueryId RunningQuery.t; requests_ids : gmap Uuid QueryId }.

Definition new : t := mk ∅ ∅.

Definition add (r : RunningQuery.t) (s : t) : t :=
  mk (<[RunningQuery.query_id r := r]> (queries s))
     (match RunningQuery.request_id r with
      | Some request_id => <[request_id := RunningQuery.query_id r]> (requests_ids s)
      | None => requests_ids s
      end).

Definition remove (q : QueryId) (s : t) : result Error RunningQuery.t * t :=
  match queries s !! q with
  | Some r => (Ok r, mk (delete q (queries s)) (requests_ids s))
  | None => (Err (QueryIsntRunning q), s)
  end.

Definition abort (q : QueryId) (s : t) (h : Shared.t) : result Error unit * Shared.t :=
  match queries s !! q with
  | Some r => (Ok tt, RunningQuery.cancel r h)
  | None => (Err (QueryIsntRunning q), h)
  end.

Definition notify_query_finished (q : QueryId) (st : ExecutionStatus) (s : t) (h : Shared.t)
  : result Error unit * Shared.t :=
  match queries s !! q with
  | Some r => (Ok tt, RunningQuery.notify_query_finished r st h)
  | None => (Err (QueryIsntRunning q), h)
  end.

Definition locate_query_id (i : RunningQueryId) (s : t) : result Error QueryId :=
  match i with
  | ByRequestId r _ => ok_or (requests_ids s !! r) (QueryByRequestIdIsntRunning r)
  | ByQueryId q => Ok q
  end.

Definition count (s : t) : nat := size (queries s).

Definition cloned_stats (q : QueryId) (s : t) : option QueryStats :=
  RunningQuery.query_stats <$> queries s !! q.

Definition update_stats (q : QueryId) (st : QueryStats) (s : t) : t :=
  mk (alter (fun r => RunningQuery.update_query_stats r st) q (queries s)) (requests_ids s).
End Registry.

#[global] Instance registry_ops : RunningQueries Registry.t := {|
  empty_queries := Registry.new;
  get s q := Registry.queries s !! q;
  add := Registry.add;
  remove := Registry.remove;
  abort := Registry.abort;
  notify_query_finished := Registry.notify_query_finished;
  locate_query_id := Registry.locate_query_id;
  count := Registry.count;
  cloned_stats := Registry.cloned_stats;
  update_stats := Registry.update_stats |}.

Lemma registry_get_remove q (s : Registry.t) q' :
  Registry.queries (Registry.remove q s).2 !! q' =
    if decide (q = q') then None else Registry.queries s !! q'.
Proof.
  unfold Registry.remove. destruct (Registry.queries s !! q) eqn:Hq; simpl.
  - by rewrite lookup_delete.
  - case_decide; by subst.
Qed.

#[global] Instance registry_laws : RunningQueriesLaws Registry.t.
Proof.
  split; simpl.
  - done.
  - intros r s q. apply lookup_insert.
  - intros q s. unfold Registry.remove. by destruct (Registry.queries s !! q).
  - apply registry_get_remove.
  - done.
  - done.
  - done.
  - intros r s Hr. by apply map_size_insert_None.
  - intros r s Hx. unfold Registry.count; cbn. by rewrite map_size_insert_Some.
  - intros q s [x Hx]. unfold Registry.remove. rewrite Hx. unfold Registry.count; cbn.
    rewrite map_size_delete, Hx. assert (size (Registry.queries s) <> 0)%nat; [|lia].
    apply map_size_ne_0_lookup. eauto.
  - intros q s Hq. unfold Registry.remove. by rewrite Hq.
  - intros q st s q'. rewrite lookup_alter. case_decide; by subst.
Qed.

(** ** Theorems of the registry *)

(** The printed type of a query identifies it: no two of the 41 statement types share a text. *)
Theorem query_type_display_injective t1 t2 : fmt t1 = fmt t2 -> t1 = t2.
Proof.
  destruct t1 as [[]|[]|[]], t2 as [[]|[]|[]]; simpl; intros H; try reflexivity; discriminate H.
Qed.

Lemma query_type_display_injective_witness : fmt (Ddl Drop) = "DROP"%string /\ Ddl Drop = Ddl Drop.
Proof. split; [reflexivity|]. apply query_type_display_injective. reflexivity. Defined.

(** A query added under a request id can be cancelled by either name: both locate the same
    entry, and aborting it cancels exactly the token its task watches. *)
Theorem add_locate_abort (r : RunningQuery.t) (rid : Uuid) (sql : string) (s : Registry.t) (h : Shared.t) :
  RunningQuery.request_id r = Some rid ->
  let s' := Registry.add r s in
  let q := RunningQuery.query_id r in
  Registry.locate_query_id (ByRequestId rid sql) s' = Ok q
  /\ Registry.locate_query_id (ByQueryId q) s' = Ok q
  /\ Registry.abort q s' h = (Ok tt, Shared.cancel (RunningQuery.cancellation_token r) h)
  /\ Shared.is_cancelled (RunningQuery.cancellation_token r) (Registry.abort q s' h).2 = true.
Proof.
  intros Hr s' q. unfold s', q, Registry.add, Registry.locate_query_id, Registry.abort. simpl.
  rewrite Hr, !lookup_insert_eq. simpl. split_and!; try done.
  unfold Shared.is_cancelled. simpl. by rewrite lookup_insert_eq.
Qed.

Definition demo_query : RunningQuery.t :=
  RunningQuery.with_result_handle
    (RunningQuery.with_request_id (RunningQuery.new "q" Shared.empty).1 (Some "r"%string)) 0.

Lemma add_locate_abort_witness :
  Registry.locate_query_id (ByRequestId "r" "select 1") (Registry.add demo_query Registry.new)
  = Ok "q"%string.
Proof. apply (add_locate_abort demo_query "r" "select 1" Registry.new Shared.empty). reflexivity. Defined.

(** The association of a request id outlives its query: [remove] never touches it, so after the
    query is gone its request id still locates it, and the abort that follows fails. *)
Theorem request_id_outlives_query (r : RunningQuery.t) (rid : Uuid) (sql : string)
    (s : Registry.t) (h : Shared.t) :
  RunningQuery.request_id r = Some rid ->
  let q := RunningQuery.query_id r in
  let s' := (Registry.remove q (Registry.add r s)).2 in
  Registry.queries s' !! q = None
  /\ Registry.locate_query_id (ByRequestId rid sql) s' = Ok q
  /\ Registry.abort q s' h = (Err (QueryIsntRunning q), h).
Proof.
  intros Hr q s'.
  assert (Registry.queries s' !! q = None) as Hq.
  { unfold s'. rewrite registry_get_remove. by case_decide. }
  split; [done|]. split.
  - unfold s', q, Registry.remove, Registry.add, Registry.locate_query_id. simpl.
    rewrite Hr, lookup_insert_eq. simpl. by rewrite lookup_insert_eq.
  - unfold Registry.abort. by rewrite Hq.
Qed.

Lemma request_id_outlives_query_witness :
  Registry.abort "q" (Registry.remove "q" (Registry.add demo_query Registry.new)).2 Shared.empty
  = (Err (QueryIsntRunning "q"), Shared.empty).
Proof. apply (request_id_outlives_query demo_query "r" "" Registry.new Shared.empty). reflexivity. Defined.
