(* ===== verification/ExecutionService.v ===== *)
(** * The execution service

    Models [CoreExecutionService] of [crates/executor/src/service.rs] and the task results of
    [query_task_result.rs].  Every call runs as its own task on a multi-threaded runtime, so the
    service is a step relation: one step is what a call does between two points where another
    task can act (an [.await], or an access to the shared registry).  The registry is used only
    through the [RunningQueries] interface. *)

From Stdlib Require Import ZArith Lia Ascii String.
From stdpp Require Import base option list gmap strings.
From S2P Require Import Prelude ExecutorErrors RunningQueries.
Import QueryTypes.

(** ** Results of a query task *)
Record ExecutionTaskResult {QueryResult : Type} := mkTaskResult {
  task_result : result Error QueryResult;
  execution_status : ExecutionStatus;
  task_error_code : option ErrorCode }.
Arguments ExecutionTaskResult : clear implicits.
Arguments mkTaskResult {QueryResult}.

Section task_results.
Context {QueryResult : Type}.
Implicit Types r : result Error QueryResult.

(** [.context(QueryExecutionSnafu { query_id })]. *)
Definition in_query_execution (query_id : QueryId) r : result Error QueryResult :=
  match r with Ok a => Ok a | Err e => Err (QueryExecution query_id e) end.

Definition from_query_result (query_id : QueryId) r : ExecutionTaskResult QueryResult :=
  {| task_result := in_query_execution query_id r;
     execution_status := match r with Ok _ => Success | Err _ => Fail end;
     task_error_code := match r with
                        | Ok _ => None
                        | Err err => Some (error_code (from_executor_error err))
                        end |}.

Definition from_query_limit_exceeded (query_id : QueryId) : ExecutionTaskResult QueryResult :=
  {| task_result := in_query_execution query_id (Err ConcurrencyLimit);
     execution_status := Incident;
     task_error_code := Some CLimitExceeded |}.

Definition from_failed_query_task (query_id : QueryId) (task_error : string)
  : ExecutionTaskResult QueryResult :=
  {| task_result := in_query_execution query_id (Err (QuerySubtaskJoin task_error));
     execution_status := Incident;
     task_error_code := Some CQueryTask |}.

Definition from_cancelled_query_task (query_id : QueryId) : ExecutionTaskResult QueryResult :=
  {| task_result := in_query_execution query_id (Err (QueryCancelled query_id));
     execution_status := Fail;
     task_error_code := Some CCancelled |}.

Definition from_timeout_query_task (query_id : QueryId) : ExecutionTaskResult QueryResult :=
  {| task_result := in_query_execution query_id (Err QueryTimeout);
     execution_status := Fail;
     task_error_code := Some CTimeout |}.
End task_results.

(** ** State *)

(** The task [submit] spawns: waiting for the start gate, gate opened, running the query,
    holding the result, and finished with what its [JoinHandle] yields. *)
Inductive phase {QueryResult : Type} :=
| Gated
| Opened
| Executing
| Notifying (r : ExecutionTaskResult QueryResult)
| Finished (r : result Error QueryResult).
Arguments phase : clear implicits.

Record task {QueryResult : Type} := mkTask {
  task_query : QueryId;
  task_token : nat;
  task_phase : phase QueryResult }.
Arguments task : clear implicits.
Arguments mkTask {QueryResult}.

(** The calls in progress: what each has done so far. *)
Inductive client {QueryResult : Type} :=
| SubmitChecked (q : QueryId) (request_id : option Uuid)
| SubmitSpawned (q : QueryId) (request_id : option Uuid) (token handle : nat)
| SubmitAdded (q : QueryId) (handle : nat)
| SubmitDone (r : result Error QueryId)
| WaitStart (q : QueryId)
| WaitBlocked (q : QueryId) (chan : nat)
| WaitRemove (q : QueryId)
| WaitJoin (q : QueryId) (r : RunningQuery.t)
| WaitDone (q : QueryId) (r : result Error QueryResult)
| AbortStart (q : QueryId)
| AbortWait (q : QueryId)
| AbortBlocked (q : QueryId) (chan : nat)
| AbortDone (q : QueryId) (r : result Error unit).
Arguments client : clear implicits.

Record CoreExecutionService {R QueryResult : Type} := mkService {
  queries : R;
  shared : Shared.t;
  df_sessions : gmap string Z;
  tasks : gmap nat (task QueryResult);
  discards : list QueryId;
  clients : gmap nat (client QueryResult);
  (** The ids given to [submit] so far. *)
  submitted : gset QueryId }.
Arguments CoreExecutionService : clear implicits.
Arguments mkService {R QueryResult}.

Section service.
Context {R QueryResult : Type} {ops : RunningQueries R}.
Notation svc := (CoreExecutionService R QueryResult).
Implicit Types s : svc.

Definition new : svc := mkService empty_queries Shared.empty ∅ ∅ [] ∅ ∅.

Definition set_client (i : nat) (c : client QueryResult) s : svc :=
  mkService (queries s) (shared s) (df_sessions s) (tasks s) (discards s)
    (<[i := c]> (clients s)) (submitted s).
Definition drop_client (i : nat) s : svc :=
  mkService (queries s) (shared s) (df_sessions s) (tasks s) (discards s)
    (delete i (clients s)) (submitted s).
Definition set_queries (r : R) s : svc :=
  mkService r (shared s) (df_sessions s) (tasks s) (discards s) (clients s) (submitted s).
Definition set_shared (h : Shared.t) s : svc :=
  mkService (queries s) h (df_sessions s) (tasks s) (discards s) (clients s) (submitted s).
Definition set_task (t : nat) (a : task QueryResult) s : svc :=
  mkService (queries s) (shared s) (df_sessions s) (<[t := a]> (tasks s)) (discards s)
    (clients s) (submitted s).
Definition set_phase (t : nat) (a : task QueryResult) (p : phase QueryResult) s : svc :=
  set_task t (mkTask (task_query a) (task_token a) p) s.
Definition set_discards (l : list QueryId) s : svc :=
  mkService (queries s) (shared s) (df_sessions s) (tasks s) l (clients s) (submitted s).
Definition mark_submitted (q : QueryId) s : svc :=
  mkService (queries s) (shared s) (df_sessions s) (tasks s) (discards s) (clients s)
    ({[q]} ∪ submitted s).
Definition set_sessions (m : gmap string Z) s : svc :=
  mkService (queries s) (shared s) m (tasks s) (discards s) (clients s) (submitted s).

(** ** Sessions

    A session is its expiry; [now] is the clock's answer in unix seconds. *)
Definition SESSION_INACTIVITY_EXPIRATION_SECONDS : Z := 4 * 60 * 60.

(** The half of [create_session] under the write lock. *)
Definition insert_session (now : Z) (session_id : string) s : svc :=
  set_sessions (<[session_id := now + SESSION_INACTIVITY_EXPIRATION_SECONDS]> (df_sessions s)) s.

Definition create_session (now : Z) (session_id : string) s : svc :=
  match df_sessions s !! session_id with
  | Some _ => s
  | None => insert_session now session_id s
  end.

Definition update_session_expiry (now : Z) (session_id : string) s : bool * svc :=
  match df_sessions s !! session_id with
  | Some _ =>
      (true, set_sessions (<[session_id := now + SESSION_INACTIVITY_EXPIRATION_SECONDS]> (df_sessions s)) s)
  | None => (false, s)
  end.

(** The closure of [retain] in [delete_expired_sessions]. *)
Definition retain_session (now : Z) (running_queries_count : nat) (expiry : Z) : bool :=
  if bool_decide (expiry <= now) then negb (Nat.eqb running_queries_count 0) else true.

Definition delete_expired_sessions (now : Z) s : svc :=
  set_sessions
    (filter (fun kv => retain_session now (count (queries s)) kv.2 = true) (df_sessions s)) s.

Definition get_session (session_id : string) s : result Error Z :=
  ok_or (df_sessions s !! session_id) (MissingDataFusionSession session_id).

Definition session_exists (session_id : string) s : bool := bool_decide (is_Some (df_sessions s !! session_id)).

Definition delete_session (session_id : string) s : svc :=
  set_sessions (delete session_id (df_sessions s)) s.

(** ** [submit] *)
Variable max_concurrency_level : nat.

(** The checks before anything is created. *)
Definition submit_check (session_id : string) (q : QueryId) s : result Error unit :=
  match get_session session_id s with
  | Err e => Err e
  | Ok _ =>
      if (max_concurrency_level <=? count (queries s))%nat
      then result_map (fun _ : QueryResult => tt) (task_result (from_query_limit_exceeded q))
      else Ok tt
  end.

(** [CancellationToken::new] and [tokio::spawn]: the task waits for its start gate. *)
Definition submit_spawn (q : QueryId) s : nat * nat * svc :=
  let (token, h) := Shared.new_token (shared s) in
  let handle := fresh (dom (tasks s)) in
  (token, handle, set_task handle (mkTask q token Gated) (set_shared h s)).

Definition submit_add (q : QueryId) (request_id : option Uuid) (token handle : nat) s : svc :=
  let (r, h) := RunningQuery.new q (shared s) in
  let r := RunningQuery.with_cancellation_token
             (RunningQuery.with_result_handle (RunningQuery.with_request_id r request_id) handle)
             token in
  set_queries (add r (queries s)) (set_shared h s).

(** [start_tx.send(())]. *)
Definition submit_start (handle : nat) s : svc :=
  match tasks s !! handle with
  | Some a => set_phase handle a Opened s
  | None => s
  end.

(** ** The query task *)

(** The three branches of [select!]: the query finished (or its subtask died), the token was
    cancelled, the timeout elapsed. *)
Inductive finished_by : Type :=
| ByResult (r : result Error QueryResult)
| ByJoinError (e : string)
| ByCancel
| ByTimeout.

Definition execution_result (q : QueryId) (f : finished_by) : ExecutionTaskResult QueryResult :=
  match f with
  | ByResult r => from_query_result q r
  | ByJoinError e => from_failed_query_task q e
  | ByCancel => from_cancelled_query_task q
  | ByTimeout => from_timeout_query_task q
  end.

Definition branch_enabled (token : nat) (f : finished_by) s : bool :=
  match f with ByCancel => Shared.is_cancelled token (shared s) | _ => true end.

(** [notify_query_finished(..)?], then the timer that discards the result is spawned. *)
Definition task_notify (t : nat) (a : task QueryResult) (r : ExecutionTaskResult QueryResult) s : svc :=
  match notify_query_finished (task_query a) (execution_status r) (queries s) (shared s) with
  | (Ok _, h) =>
      set_phase t a (Finished (task_result r))
        (set_discards (task_query a :: discards s) (set_shared h s))
  | (Err e, h) => set_phase t a (Finished (Err e)) (set_shared h s)
  end.

(** A [RunningQuery] taken out of the registry is dropped, and its sender with it. *)
Definition drop_query (r : RunningQuery.t) s : svc :=
  set_shared (Shared.drop_sender (RunningQuery.chan r) (shared s)) s.

Definition discard (q : QueryId) s : svc :=
  match remove q (queries s) with
  | (Ok r, m) => drop_query r (set_queries m s)
  | (Err _, m) => set_queries m s
  end.

(** ** [wait] and [abort] *)

(** [RunningQueriesRegistry::wait_query_finished], up to the receiver. *)
Definition wait_start (q : QueryId) s : result Error nat :=
  result_map RunningQuery.chan (ok_or (get (queries s) q) (QueryIsntRunning q)).

Definition wait_remove (q : QueryId) s : client QueryResult * svc :=
  match remove q (queries s) with
  | (Ok r, m) => (WaitJoin q r, set_queries m s)
  | (Err e, m) => (WaitDone q (Err e), set_queries m s)
  end.

(** [result_handle.await]; a task that is not finished keeps the caller waiting.  The error of a task
    that panics, [AsyncResultTaskJoin], is left out, as no step makes a task panic. *)
Definition wait_join (q : QueryId) (r : RunningQuery.t) s : option (result Error QueryResult) :=
  match RunningQuery.result_handle r with
  | None => Some (Err (NoJoinHandle q))
  | Some t => match tasks s !! t with
              | Some (mkTask _ _ (Finished res)) => Some res
              | _ => None
              end
  end.

Definition abort_start (q : QueryId) s : client QueryResult * svc :=
  match abort q (queries s) (shared s) with
  | (Ok _, h) => (AbortWait q, set_shared h s)
  | (Err e, h) => (AbortDone q (Err e), set_shared h s)
  end.

(** ** Steps of calls and tasks already started *)
Inductive istep : svc -> svc -> Prop :=
| i_spawn s i q rid token handle s' :
    clients s !! i = Some (SubmitChecked q rid) -> submit_spawn q s = (token, handle, s') ->
    istep s (set_client i (SubmitSpawned q rid token handle) s')
| i_add s i q rid token handle :
    clients s !! i = Some (SubmitSpawned q rid token handle) ->
    istep s (set_client i (SubmitAdded q handle) (submit_add q rid token handle s))
| i_open s i q handle :
    clients s !! i = Some (SubmitAdded q handle) ->
    istep s (set_client i (SubmitDone (Ok q)) (submit_start handle s))
| i_run s t a :
    tasks s !! t = Some a -> task_phase a = Opened -> istep s (set_phase t a Executing s)
| i_select s t a f :
    tasks s !! t = Some a -> task_phase a = Executing -> branch_enabled (task_token a) f s = true ->
    istep s (set_phase t a (Notifying (execution_result (task_query a) f)) s)
| i_notify s t a r :
    tasks s !! t = Some a -> task_phase a = Notifying r -> istep s (task_notify t a r s)
| i_discard s q l :
    q :: l ≡ₚ discards s -> istep s (discard q (set_discards l s))
| i_wait_start s i q :
    clients s !! i = Some (WaitStart q) ->
    istep s (set_client i match wait_start q s with
                          | Ok c => WaitBlocked q c
                          | Err e => WaitDone q (Err e)
                          end s)
| i_wait_ready s i q c st :
    clients s !! i = Some (WaitBlocked q c) ->
    RunningQuery.wait_query_finished c (shared s) = RunningQuery.Ready st ->
    istep s (set_client i (WaitRemove q) s)
| i_wait_closed s i q c d :
    clients s !! i = Some (WaitBlocked q c) ->
    RunningQuery.wait_query_finished c (shared s) = RunningQuery.RecvError ->
    istep s (set_client i (WaitDone q (Err (ExecutionStatusRecv q d))) s)
| i_wait_remove s i q c s' :
    clients s !! i = Some (WaitRemove q) -> wait_remove q s = (c, s') -> istep s (set_client i c s')
| i_wait_join s i q r res :
    clients s !! i = Some (WaitJoin q r) -> wait_join q r s = Some res ->
    istep s (set_client i (WaitDone q res) (drop_query r s))
| i_abort s i q c s' :
    clients s !! i = Some (AbortStart q) -> abort_start q s = (c, s') -> istep s (set_client i c s')
| i_abort_wait s i q :
    clients s !! i = Some (AbortWait q) ->
    istep s (set_client i match wait_start q s with
                          | Ok c => AbortBlocked q c
                          | Err e => AbortDone q (Err e)
                          end s)
| i_abort_ready s i q c st :
    clients s !! i = Some (AbortBlocked q c) ->
    RunningQuery.wait_query_finished c (shared s) = RunningQuery.Ready st ->
    istep s (set_client i (AbortDone q (Ok tt)) s)
| i_abort_closed s i q c d :
    clients s !! i = Some (AbortBlocked q c) ->
    RunningQuery.wait_query_finished c (shared s) = RunningQuery.RecvError ->
    istep s (set_client i (AbortDone q (Err (ExecutionStatusRecv q d))) s).

(** ** Steps of the environment: new calls, callers that give up, session traffic.

    [submit] gets an id no earlier call had: [QueryContext::default] draws a version 7 UUID. *)
Inductive estep : svc -> svc -> Prop :=
| e_submit s i session_id q rid :
    clients s !! i = None -> q ∉ submitted s ->
    estep s (set_client i match submit_check session_id q s with
                          | Ok _ => SubmitChecked q rid
                          | Err e => SubmitDone (Err e)
                          end (mark_submitted q s))
| e_wait s i q : clients s !! i = None -> estep s (set_client i (WaitStart q) s)
(** [query] goes on with [wait] on the id it submitted. *)
| e_query s i q : clients s !! i = Some (SubmitDone (Ok q)) -> estep s (set_client i (WaitStart q) s)
| e_abort s i q : clients s !! i = None -> estep s (set_client i (AbortStart q) s)
(** The future of a blocked call is dropped. *)
| e_drop_wait s i q c : clients s !! i = Some (WaitBlocked q c) -> estep s (drop_client i s)
| e_drop_join s i q r : clients s !! i = Some (WaitJoin q r) -> estep s (drop_client i (drop_query r s))
| e_drop_abort s i q c : clients s !! i = Some (AbortBlocked q c) -> estep s (drop_client i s)
| e_stats s q st : estep s (set_queries (update_stats q st (queries s)) s)
(** [create_session] looks under the read lock and inserts later under the write lock, when
    another call may have inserted the session already. *)
| e_insert_session s now id : estep s (insert_session now id s)
| e_update_expiry s now id : estep s (update_session_expiry now id s).2
| e_delete_expired s now : estep s (delete_expired_sessions now s)
| e_delete_session s id : estep s (delete_session id s).

Inductive reachable : svc -> Prop :=
| reach_new : reachable new
| reach_istep s s' : reachable s -> istep s s' -> reachable s'
| reach_estep s s' : reachable s -> estep s s' -> reachable s'.

(** ** Invariant *)
Definition is_finished (a : task QueryResult) : Prop := exists res, task_phase a = Finished res.
Definition finished_query (q : QueryId) s : Prop :=
  exists t a, tasks s !! t = Some a /\ task_query a = q /\ is_finished a.
(** The registry has the query and its channel has not been written. *)
Definition waiting_entry (q : QueryId) s : Prop :=
  exists r, get (queries s) q = Some r /\
    Shared.chans (shared s) !! RunningQuery.chan r = Some (Shared.mkChan None true).
(** What a query's task may return. *)
Definition own_result (q : QueryId) (r : result Error QueryResult) : Prop :=
  match r with Ok _ => True | Err e => exists e', e = QueryExecution q e' end.

Definition phase_ok (a : task QueryResult) s : Prop :=
  match task_phase a with
  | Gated => True
  | Opened | Executing => waiting_entry (task_query a) s
  | Notifying r => waiting_entry (task_query a) s /\ own_result (task_query a) (task_result r)
  | Finished r => own_result (task_query a) r
  end.

Definition entry_ok (q : QueryId) (r : RunningQuery.t) s : Prop :=
  RunningQuery.query_id r = q /\
  exists t a v b, RunningQuery.result_handle r = Some t /\ tasks s !! t = Some a /\
    task_query a = q /\
    Shared.chans (shared s) !! RunningQuery.chan r = Some (Shared.mkChan v b) /\
    (is_Some v <-> is_finished a).

Definition client_ok (c : client QueryResult) s : Prop :=
  match c with
  | SubmitChecked q _ =>
      q ∈ submitted s /\ forall t a, tasks s !! t = Some a -> task_query a <> q
  | SubmitSpawned q _ token t =>
      tasks s !! t = Some (mkTask q token Gated) /\ get (queries s) q = None
  | SubmitAdded q t =>
      (exists token, tasks s !! t = Some (mkTask q token Gated)) /\ waiting_entry q s
  | WaitBlocked q c | AbortBlocked q c =>
      exists v b, Shared.chans (shared s) !! c = Some (Shared.mkChan v b) /\
        match v with
        | Some _ => finished_query q s
        | None => exists r, get (queries s) q = Some r /\ RunningQuery.chan r = c
        end
  | WaitRemove q => finished_query q s
  | WaitJoin q r =>
      get (queries s) q = None /\
      (exists t a, RunningQuery.result_handle r = Some t /\ tasks s !! t = Some a /\
         task_query a = q /\ is_finished a) /\
      (exists v b, Shared.chans (shared s) !! RunningQuery.chan r = Some (Shared.mkChan (Some v) b))
  | WaitDone q res =>
      res = Err (QueryIsntRunning q) \/
      (get (queries s) q = None /\
       exists t a, tasks s !! t = Some a /\ task_query a = q /\ task_phase a = Finished res)
  | SubmitDone _ | WaitStart _ | AbortStart _ | AbortWait _ => True
  | AbortDone q res => res = Ok tt \/ res = Err (QueryIsntRunning q)
  end.

(** The call that submits a query, and the call that has taken its result. *)
Definition submitting (c : client QueryResult) : option QueryId :=
  match c with
  | SubmitChecked q _ | SubmitSpawned q _ _ _ | SubmitAdded q _ => Some q
  | _ => None
  end.
Definition taking (c : client QueryResult) : option QueryId :=
  match c with
  | WaitJoin q _ => Some q
  | WaitDone q (Err (QueryIsntRunning _)) => None
  | WaitDone q _ => Some q
  | _ => None
  end.
Definition owns_gate (t : nat) (c : client QueryResult) : Prop :=
  match c with SubmitSpawned _ _ _ t' | SubmitAdded _ t' => t' = t | _ => False end.
Definition unique_by (f : client QueryResult -> option QueryId) s : Prop :=
  forall i j ci cj q, clients s !! i = Some ci -> clients s !! j = Some cj ->
    f ci = Some q -> f cj = Some q -> i = j.

Record inv s : Prop := {
  inv_task_inj : forall t t' a a', tasks s !! t = Some a -> tasks s !! t' = Some a' ->
    task_query a = task_query a' -> t = t';
  inv_task_sub : forall t a, tasks s !! t = Some a -> task_query a ∈ submitted s;
  inv_phase : forall t a, tasks s !! t = Some a -> phase_ok a s;
  inv_entry : forall q r, get (queries s) q = Some r -> entry_ok q r s;
  inv_chan_inj : forall q q' r r', get (queries s) q = Some r -> get (queries s) q' = Some r' ->
    RunningQuery.chan r = RunningQuery.chan r' -> q = q';
  inv_chans : forall c v b, Shared.chans (shared s) !! c = Some (Shared.mkChan v b) -> v = None -> b = true;
  inv_discards : forall q, q ∈ discards s -> finished_query q s;
  inv_clients : forall i c, clients s !! i = Some c -> client_ok c s;
  inv_submit_unique : unique_by submitting s;
  inv_take_unique : unique_by taking s }.

(** Whoever holds the sender of a start gate is still to run. *)
Definition gates s : Prop :=
  forall t a, tasks s !! t = Some a -> task_phase a = Gated ->
    exists i c, clients s !! i = Some c /\ owns_gate t c.

(** ** Preservation of the invariant *)
Context {laws : RunningQueriesLaws R}.

(** What a step may do to the objects a blocked or finished call depends on. *)
Record advance s s' : Prop := {
  adv_finished : forall t a, tasks s !! t = Some a -> is_finished a -> tasks s' !! t = Some a;
  adv_removed : forall q, get (queries s) q = None -> finished_query q s -> get (queries s') q = None;
  adv_written : forall c v b, Shared.chans (shared s) !! c = Some (Shared.mkChan (Some v) b) ->
    exists v' b', Shared.chans (shared s') !! c = Some (Shared.mkChan (Some v') b');
  adv_pending : forall q r b, get (queries s) q = Some r ->
    Shared.chans (shared s) !! RunningQuery.chan r = Some (Shared.mkChan None b) ->
    exists v b', Shared.chans (shared s') !! RunningQuery.chan r = Some (Shared.mkChan v b') /\
      match v with
      | Some _ => finished_query q s'
      | None => exists r', get (queries s') q = Some r' /\ RunningQuery.chan r' = RunningQuery.chan r
      end }.

Lemma advance_finished_query s s' q : advance s s' -> finished_query q s -> finished_query q s'.
Proof. intros Ha (t & a & Ht & Hq & Hf). exists t, a. split_and!; [by eapply adv_finished|done..]. Qed.

Lemma advance_blocked s s' q c :
  advance s s' -> client_ok (WaitBlocked q c) s -> client_ok (WaitBlocked q c) s'.
Proof.
  intros Ha (v & b & Hc & Hv). destruct v as [v|].
  - destruct (adv_written _ _ Ha _ _ _ Hc) as (v' & b' & Hc'). exists (Some v'), b'.
    split; [done|]. by eapply advance_finished_query.
  - destruct Hv as (r & Hr & <-). exact (adv_pending _ _ Ha _ _ _ Hr Hc).
Qed.

Lemma advance_client s s' c :
  advance s s' -> (is_Some (submitting c) -> client_ok c s -> client_ok c s') ->
  client_ok c s -> client_ok c s'.
Proof.
  intros Ha Hsub Hc. destruct c; try done; try (by apply Hsub).
  - by eapply advance_blocked.
  - by eapply advance_finished_query.
  - destruct Hc as (Hg & (t & a & Hh & Ht & Hq & Hf) & (v & b & Hv)). split_and!.
    + eapply adv_removed; [done..|]. by exists t, a.
    + exists t, a. split_and!; try done. by eapply adv_finished.
    + by eapply adv_written.
  - destruct Hc as [Hc|(Hg & t & a & Ht & Hq & Hp)]; [by left|right]. split.
    + eapply adv_removed; [done..|]. exists t, a. split_and!; try done. by eexists.
    + exists t, a. split_and!; try done. eapply adv_finished; [done..|]. by eexists.
  - by eapply advance_blocked.
Qed.

(** Steps that leave registry, channels, tasks and submitted ids as they are. *)
Record same_core s s' : Prop := {
  same_queries : queries s' = queries s;
  same_chans : Shared.chans (shared s') = Shared.chans (shared s);
  same_tasks : tasks s' = tasks s;
  same_submitted : submitted s' = submitted s }.

Lemma same_core_client s s' c : same_core s s' -> client_ok c s -> client_ok c s'.
Proof.
  intros [Hq Hc Ht Hs]. destruct c; unfold client_ok, waiting_entry, finished_query; rewrite ?Hq, ?Hc, ?Ht, ?Hs; done.
Qed.

Lemma same_core_inv s s' :
  same_core s s' -> inv s ->
  (forall q, q ∈ discards s' -> q ∈ discards s \/ finished_query q s) ->
  (forall i c, clients s' !! i = Some c -> client_ok c s) ->
  unique_by submitting s' -> unique_by taking s' -> inv s'.
Proof.
  intros Hcore I Hd Hcl Hu1 Hu2. pose proof Hcore as [Hq Hc Ht Hs]. split; try done.
  - rewrite Ht. apply (inv_task_inj _ I).
  - rewrite Ht, Hs. apply (inv_task_sub _ I).
  - intros t a. rewrite Ht. intros Hta. pose proof (inv_phase _ I _ _ Hta) as Hp.
    unfold phase_ok, waiting_entry in *. by rewrite Hq, Hc.
  - intros q r. rewrite Hq. intros Hr. pose proof (inv_entry _ I _ _ Hr) as Hp.
    unfold entry_ok in *. by rewrite Hc, Ht.
  - rewrite Hq. apply (inv_chan_inj _ I).
  - rewrite Hc. apply (inv_chans _ I).
  - intros q Hin. assert (finished_query q s) as Hf.
    { destruct (Hd q Hin); [by apply (inv_discards _ I)|done]. }
    unfold finished_query in *. by rewrite Ht.
  - intros i c Hi. eapply same_core_client; [done|]. by eapply Hcl.
Qed.

Lemma inv_same s s' :
  same_core s s' -> discards s' = discards s -> clients s' = clients s -> inv s -> inv s'.
Proof.
  intros Hcore Hd Hcl I. apply (same_core_inv s); [done|done| | | |].
  - rewrite Hd. by left.
  - rewrite Hcl. apply (inv_clients _ I).
  - unfold unique_by. rewrite Hcl. apply (inv_submit_unique _ I).
  - unfold unique_by. rewrite Hcl. apply (inv_take_unique _ I).
Qed.

Lemma clients_drop_client i j c s :
  clients (drop_client i s) !! j = Some c <-> i <> j /\ clients s !! j = Some c.
Proof. apply lookup_delete_Some. Qed.

Lemma inv_drop_client i s : inv s -> inv (drop_client i s).
Proof.
  intros I. apply (same_core_inv s); [by split|done|by left|..].
  - intros j c [_ Hj]%clients_drop_client. by apply (inv_clients _ I j).
  - intros j k cj ck q [_ Hj]%clients_drop_client [_ Hk]%clients_drop_client.
    by apply (inv_submit_unique _ I).
  - intros j k cj ck q [_ Hj]%clients_drop_client [_ Hk]%clients_drop_client.
    by apply (inv_take_unique _ I).
Qed.

(** No other call submits (takes) the query that [c] submits (takes). *)
Definition alone (f : client QueryResult -> option QueryId) (c : client QueryResult) s : Prop :=
  forall j cj q, clients s !! j = Some cj -> f c = Some q -> f cj <> Some q.

Lemma unique_by_insert f i c s :
  unique_by f s -> clients s !! i = None -> alone f c s -> unique_by f (set_client i c s).
Proof.
  intros Hu Hi Ha j k cj ck q. unfold set_client; simpl. rewrite !lookup_insert.
  repeat case_decide; subst; try done.
  - intros [= <-] Hk Hj' Hk'. by destruct (Ha _ _ _ Hk Hj').
  - intros Hj [= <-] Hj' Hk'. by destruct (Ha _ _ _ Hj Hk').
  - apply Hu.
Qed.

Lemma inv_set_client i c s :
  inv s -> clients s !! i = None -> client_ok c s -> alone submitting c s -> alone taking c s ->
  inv (set_client i c s).
Proof.
  intros I Hi Hc Ha1 Ha2. apply (same_core_inv s); [by split|done|by left|..].
  - simpl. intros j cj. rewrite lookup_insert. case_decide; [by intros [= <-]|].
    apply (inv_clients _ I).
  - apply unique_by_insert; [apply (inv_submit_unique _ I)|done..].
  - apply unique_by_insert; [apply (inv_take_unique _ I)|done..].
Qed.

(** A step of call [i] is a change of the rest of the state followed by its new local state. *)
Lemma set_client_drop i c s : set_client i c s = set_client i c (drop_client i s).
Proof. unfold set_client, drop_client; simpl. by rewrite insert_delete_eq. Qed.

Lemma alone_drop (f : client QueryResult -> option QueryId) i c c0 s :
  unique_by f s -> clients s !! i = Some c0 -> (forall q, f c = Some q -> f c0 = Some q) ->
  alone f c (drop_client i s).
Proof.
  intros Hu Hi Hf j cj q [Hne Hj]%clients_drop_client Hq Hq'.
  apply Hne. eapply (Hu i j); [done..| |done]. by apply Hf.
Qed.

Lemma alone_none (f : client QueryResult -> option QueryId) c s : f c = None -> alone f c s.
Proof. intros Hf j cj q _. by rewrite Hf. Qed.

(** An [advance] that keeps the calls keeps the invariant when tasks, registry and channels do. *)
Lemma advance_inv s s' :
  advance s s' -> inv s -> clients s' = clients s ->
  (forall t t' a a', tasks s' !! t = Some a -> tasks s' !! t' = Some a' ->
    task_query a = task_query a' -> t = t') ->
  (forall t a, tasks s' !! t = Some a -> task_query a ∈ submitted s') ->
  (forall t a, tasks s' !! t = Some a -> phase_ok a s') ->
  (forall q r, get (queries s') q = Some r -> entry_ok q r s') ->
  (forall q q' r r', get (queries s') q = Some r -> get (queries s') q' = Some r' ->
    RunningQuery.chan r = RunningQuery.chan r' -> q = q') ->
  (forall c v b, Shared.chans (shared s') !! c = Some (Shared.mkChan v b) -> v = None -> b = true) ->
  (forall q, q ∈ discards s' -> q ∈ discards s \/ finished_query q s') ->
  (forall i c, clients s !! i = Some c -> is_Some (submitting c) -> client_ok c s -> client_ok c s') ->
  inv s'.
Proof.
  intros Ha I Hcl H1 H2 H3 H4 H5 H6 H7 H8. split; try done.
  - intros q Hq. destruct (H7 q Hq) as [Hd|Hd]; [|done].
    eapply advance_finished_query; [done|]. by apply (inv_discards _ I).
  - intros i c. rewrite Hcl. intros Hi. eapply advance_client; [done| |by eapply inv_clients].
    by apply (H8 i).
  - unfold unique_by. rewrite Hcl. apply (inv_submit_unique _ I).
  - unfold unique_by. rewrite Hcl. apply (inv_take_unique _ I).
Qed.

Lemma fresh_task s : tasks s !! fresh (dom (tasks s)) = None.
Proof. apply not_elem_of_dom. apply is_fresh. Qed.

Lemma inv_spawn q s token t s' :
  inv s -> q ∈ submitted s -> (forall t a, tasks s !! t = Some a -> task_query a <> q) ->
  (forall i c, clients s !! i = Some c -> submitting c <> Some q) ->
  submit_spawn q s = (token, t, s') ->
  inv s' /\ tasks s' !! t = Some (mkTask q token Gated) /\ get (queries s') q = None
  /\ clients s' = clients s.
Proof.
  intros I Hq Hno Hcl. unfold submit_spawn, Shared.new_token. simpl. intros [= <- <- <-]. simpl.
  pose proof (fresh_task s) as Hf. set (t := fresh (dom (tasks s))) in *.
  assert (forall t' a, tasks s !! t' = Some a -> t' <> t) as Hne by (intros t' a Ht ->; congruence).
  assert (get (queries s) q = None) as Hg.
  { destruct (get (queries s) q) as [r|] eqn:Hr; [|done]. exfalso.
    destruct (inv_entry _ I _ _ Hr) as (_ & t' & a & _ & _ & _ & Ht & Hqa & _). by eapply Hno. }
  split; [|by rewrite lookup_insert_eq].
  eapply (advance_inv s); [split|done|done|..]; simpl.
  - intros t' a Ht _. rewrite lookup_insert_ne; [done|]. symmetry. by eapply Hne.
  - done.
  - by eauto.
  - intros q' r b Hr Hb. exists None, b. split; [done|]. by exists r.
  - intros t1 t2 a1 a2. rewrite !lookup_insert. repeat case_decide; subst; try done.
    + intros [= <-] Ht2 Heq. simpl in Heq. by destruct (Hno _ _ Ht2).
    + intros Ht1 [= <-] Heq. simpl in Heq. by destruct (Hno _ _ Ht1).
    + apply (inv_task_inj _ I).
  - intros t' a. rewrite lookup_insert. case_decide; [by intros [= <-]|apply (inv_task_sub _ I)].
  - intros t' a. rewrite lookup_insert. case_decide; [by intros [= <-]|apply (inv_phase _ I)].
  - intros q' r Hr. destruct (inv_entry _ I _ _ Hr) as (Hid & t' & a & v & b & Hh & Ht & Hrest).
    split; [done|]. exists t', a, v, b. split_and!; try apply Hrest; [done|].
    simpl. rewrite lookup_insert_ne; [done|]. symmetry. by eapply Hne.
  - apply (inv_chan_inj _ I).
  - apply (inv_chans _ I).
  - by left.
  - intros i c Hi [q' Hsub] Hc. pose proof (Hcl _ _ Hi) as Hn. destruct c; simpl in *; try done.
    + destruct Hc as [Hs Hno']. split; [done|]. intros t' a. rewrite lookup_insert.
      case_decide; [intros [= <-]; simpl; congruence|apply Hno'].
    + destruct Hc as [Ht Hg']. split; [|done]. rewrite lookup_insert_ne; [done|].
      symmetry. by eapply Hne.
    + destruct Hc as [[tk Ht] Hw]. split; [|done]. exists tk. rewrite lookup_insert_ne; [done|].
      symmetry. by eapply Hne.
Qed.

Lemma fresh_chan h : Shared.chans h !! fresh (dom (Shared.chans h)) = None.
Proof. apply not_elem_of_dom. apply is_fresh. Qed.

Lemma inv_add q rid token t s :
  inv s -> tasks s !! t = Some (mkTask q token Gated) -> get (queries s) q = None ->
  (forall i c, clients s !! i = Some c -> submitting c <> Some q) ->
  let s' := submit_add q rid token t s in
  inv s' /\ waiting_entry q s' /\ tasks s' = tasks s /\ clients s' = clients s.
Proof.
  intros I Ht Hg Hcl s'. unfold s', submit_add. simpl.
  pose proof (fresh_chan (shared s)) as Hf. set (c := fresh (dom (Shared.chans (shared s)))) in *.
  match goal with |- context [add ?x _] => set (r := x) end.
  assert (forall k ch, Shared.chans (shared s) !! k = Some ch -> c <> k) as Hne by (intros k ch Hk ->; congruence).
  assert (forall q' r', get (queries s) q' = Some r' -> RunningQuery.chan r' <> c) as Hreg.
  { intros q' r' Hr Heq. destruct (inv_entry _ I _ _ Hr) as (_ & ? & ? & ? & ? & _ & _ & _ & Hc & _).
    rewrite Heq in Hc. congruence. }
  split; [|split; [|done]].
  2:{ exists r. simpl. rewrite get_add, decide_True by done. by rewrite lookup_insert_eq. }
  eapply (advance_inv s); [split|done|done|..]; simpl.
  - done.
  - intros q' Hq' (t' & a & Ht' & Hqa & Hfin). rewrite get_add. case_decide as Hd; [|done].
    exfalso. assert (t' = t) as ->. { eapply (inv_task_inj _ I); [done..|]. by rewrite Hqa. }
    rewrite Ht in Ht'. injection Ht' as <-. by destruct Hfin.
  - intros k v b Hk. rewrite lookup_insert_ne by eauto. by eauto.
  - intros q' r' b Hr Hb. rewrite lookup_insert_ne by eauto. exists None, b. split; [done|].
    exists r'. rewrite get_add. rewrite decide_False; [done|]. simpl. intros ->. congruence.
  - apply (inv_task_inj _ I).
  - apply (inv_task_sub _ I).
  - intros t' a Ht'. pose proof (inv_phase _ I _ _ Ht') as Hp.
    assert (waiting_entry (task_query a) s -> waiting_entry (task_query a) s') as Hw.
    { intros (r' & Hr & Hc). exists r'. unfold s', submit_add; simpl. rewrite get_add.
      rewrite decide_False; [|simpl; intros ->; congruence].
      rewrite lookup_insert_ne; [done|]. by eapply Hne. }
    unfold phase_ok in *. destruct (task_phase a); naive_solver.
  - intros q' r'. rewrite get_add. case_decide as Hd.
    + intros [= <-]. split; [done|]. exists t, (mkTask q token Gated), None, true. simpl.
      rewrite lookup_insert_eq. split_and!; try done. split; [by intros []|]. by intros [? ?].
    + intros Hr. destruct (inv_entry _ I _ _ Hr) as (Hid & t' & a & v & b & Hh & Ht' & Hq' & Hc & Hv).
      split; [done|]. exists t', a, v, b. simpl. rewrite lookup_insert_ne by eauto. by split_and!.
  - intros q1 q2 r1 r2. rewrite !get_add. repeat case_decide; subst; try done.
    + intros [= <-] Hr2 Hc. by destruct (Hreg _ _ Hr2).
    + intros Hr1 [= <-] Hc. by destruct (Hreg _ _ Hr1).
    + apply (inv_chan_inj _ I).
  - intros k v b. rewrite lookup_insert. case_decide; [by intros [= <- <-]|apply (inv_chans _ I)].
  - by left.
  - intros i cl Hi [q' Hsub] Hc. pose proof (Hcl _ _ Hi) as Hn. destruct cl; simpl in *; try done.
    + destruct Hc as [Hc1 Hc2]. split; [done|]. rewrite get_add. rewrite decide_False; [done|].
      simpl. congruence.
    + destruct Hc as [Hc1 (r' & Hr & Hc2)]. split; [done|]. exists r'. simpl. rewrite get_add.
      rewrite decide_False by (simpl; congruence). split; [done|].
      rewrite lookup_insert_ne; [done|]. by eapply Hne.
Qed.

(** A task that moves on without finishing. *)
Lemma inv_set_phase t a p s :
  inv s -> tasks s !! t = Some a -> ~ is_finished a ->
  phase_ok (mkTask (task_query a) (task_token a) p) s -> (forall r, p <> Finished r) ->
  (task_phase a = Gated -> forall i c, clients s !! i = Some c -> submitting c <> Some (task_query a)) ->
  inv (set_phase t a p s).
Proof.
  intros I Ht Hnf Hp Hp' Hcl. unfold set_phase.
  eapply (advance_inv s); [split|done|done|..]; simpl.
  - intros t' a' Ht' Hf. rewrite lookup_insert_ne; [done|]. intros ->. congruence.
  - done.
  - by eauto.
  - intros q r b Hr Hb. exists None, b. split; [done|]. by exists r.
  - intros t1 t2 a1 a2. rewrite !lookup_insert. repeat case_decide; subst; try done.
    + intros [= <-] Ht2 Heq. by apply (inv_task_inj _ I _ _ a a2).
    + intros Ht1 [= <-] Heq. by apply (inv_task_inj _ I _ _ a1 a).
    + apply (inv_task_inj _ I).
  - intros t' a'. rewrite lookup_insert. case_decide; [|apply (inv_task_sub _ I)].
    intros [= <-]. by eapply (inv_task_sub _ I t a).
  - intros t' a'. rewrite lookup_insert. case_decide; [by intros [= <-]|apply (inv_phase _ I)].
  - intros q r Hr. destruct (inv_entry _ I _ _ Hr) as (Hid & t' & a' & v & b & Hh & Ht' & Hq & Hc & Hv).
    split; [done|]. destruct (decide (t' = t)) as [->|Hne].
    + rewrite Ht in Ht'. injection Ht' as <-. exists t, (mkTask (task_query a) (task_token a) p), v, b.
      simpl. rewrite lookup_insert_eq. split_and!; try done. rewrite Hv. split; [done|].
      intros [r' Hr']. by destruct (Hp' r').
    + exists t', a', v, b. simpl. rewrite lookup_insert_ne by done. by split_and!.
  - apply (inv_chan_inj _ I).
  - apply (inv_chans _ I).
  - by left.
  - intros i c Hi Hsub Hc. destruct c; simpl in *; try by destruct Hsub.
    + destruct Hc as [Hs Hno]. split; [done|]. intros t' a'. rewrite lookup_insert.
      case_decide; [intros [= <-]; by apply (Hno t a)|apply Hno].
    + destruct Hc as [Hta Hg]. split; [|done]. rewrite lookup_insert_ne; [done|]. intros ->.
      rewrite Ht in Hta. injection Hta as ->. by destruct (Hcl eq_refl _ _ Hi).
    + destruct Hc as [[tk Hta] Hw]. split; [|done]. exists tk. rewrite lookup_insert_ne; [done|].
      intros ->. rewrite Ht in Hta. injection Hta as ->. by destruct (Hcl eq_refl _ _ Hi).
Qed.

(** The registry forgets a query whose task has finished. *)
Lemma inv_remove q s :
  inv s -> finished_query q s -> inv (set_queries (remove q (queries s)).2 s).
Proof.
  intros I Hfin.
  assert (forall q' r b, get (queries s) q' = Some r ->
            Shared.chans (shared s) !! RunningQuery.chan r = Some (Shared.mkChan None b) -> q <> q') as Hne.
  { intros q' r b Hr Hc <-. destruct (inv_entry _ I _ _ Hr) as (_ & t & a & v & b' & _ & Ht & Hq & Hc' & Hv).
    destruct Hfin as (t' & a' & Ht' & Hq' & Hf). rewrite Hc in Hc'. injection Hc' as <- <-.
    assert (t' = t) as -> by (eapply (inv_task_inj _ I); [done..|congruence]).
    rewrite Ht in Ht'. injection Ht' as <-. apply Hv in Hf. by destruct Hf. }
  assert (forall q', waiting_entry q' s -> waiting_entry q' (set_queries (remove q (queries s)).2 s)) as Hw.
  { intros q' (r & Hr & Hc). exists r. simpl. rewrite get_remove, decide_False; [done|]. by eapply Hne. }
  eapply (advance_inv s); [split|done|done|..]; simpl.
  - done.
  - intros q' Hq' _. rewrite get_remove. by case_decide.
  - by eauto.
  - intros q' r b Hr Hb. exists None, b. split; [done|]. exists r. rewrite get_remove.
    rewrite decide_False; [done|]. by eapply Hne.
  - apply (inv_task_inj _ I).
  - apply (inv_task_sub _ I).
  - intros t a Ht. pose proof (inv_phase _ I _ _ Ht) as Hp. unfold phase_ok in *.
    destruct (task_phase a); naive_solver.
  - intros q' r. rewrite get_remove. case_decide; [done|]. apply (inv_entry _ I).
  - intros q1 q2 r1 r2. rewrite !get_remove. repeat case_decide; try done. apply (inv_chan_inj _ I).
  - apply (inv_chans _ I).
  - by left.
  - intros i c Hi Hsub Hc. destruct c; simpl in *; try by destruct Hsub.
    + destruct Hc as [Hta Hg]. split; [done|]. rewrite get_remove. by case_decide.
    + destruct Hc as [Hta Hg]. split; [done|]. by apply Hw.
Qed.

(** A sender is dropped after its channel was written. *)
Lemma inv_drop_query r s :
  inv s -> (exists v b, Shared.chans (shared s) !! RunningQuery.chan r = Some (Shared.mkChan (Some v) b)) ->
  inv (drop_query r s).
Proof.
  intros I (v0 & b0 & Hr0).
  assert (forall c v b, Shared.chans (shared s) !! c = Some (Shared.mkChan v b) ->
    exists b', Shared.chans (shared (drop_query r s)) !! c = Some (Shared.mkChan v b') /\
               (v = None -> b' = b)) as Hc.
  { intros c v b Hc. simpl. rewrite lookup_alter. case_decide as Hd; [subst|by eauto].
    rewrite Hc. simpl. exists false. split; [done|]. intros ->. congruence. }
  assert (forall q, waiting_entry q s -> waiting_entry q (drop_query r s)) as Hw.
  { intros q (r' & Hr & Hrc). exists r'. split; [done|]. destruct (Hc _ _ _ Hrc) as (b' & Hb & Hb').
    by rewrite Hb, Hb'. }
  eapply (advance_inv s); [split|done|done|..].
  - done.
  - done.
  - intros c v b Hcv. destruct (Hc _ _ _ Hcv) as (b' & Hb & _). by eauto.
  - intros q r' b Hr Hb. destruct (Hc _ _ _ Hb) as (b' & Hb' & _). exists None, b'. split; [done|]. by exists r'.
  - apply (inv_task_inj _ I).
  - apply (inv_task_sub _ I).
  - intros t a Ht. pose proof (inv_phase _ I _ _ Ht) as Hp. unfold phase_ok in *.
    destruct (task_phase a); naive_solver.
  - intros q r' Hr. destruct (inv_entry _ I _ _ Hr) as (Hid & t & a & v & b & Hh & Ht & Hq & Hcv & Hv).
    split; [done|]. destruct (Hc _ _ _ Hcv) as (b' & Hb & _). exists t, a, v, b'. by split_and!.
  - apply (inv_chan_inj _ I).
  - intros c v b. simpl. rewrite lookup_alter. case_decide as Hd; [subst|apply (inv_chans _ I)].
    rewrite Hr0. by intros [= <- <-].
  - by left.
  - intros i c Hi Hsub Hcl. destruct c; simpl in *; try by destruct Hsub.
    destruct Hcl as [Hcl1 Hcl2]. split; [done|]. by apply Hw.
Qed.

(** The notification finds the query in the registry, writes its channel and finishes the task. *)
Lemma task_notify_eq t a r s :
  inv s -> tasks s !! t = Some a -> task_phase a = Notifying r ->
  exists rq, get (queries s) (task_query a) = Some rq /\
    Shared.chans (shared s) !! RunningQuery.chan rq = Some (Shared.mkChan None true) /\
    notify_query_finished (task_query a) (execution_status r) (queries s) (shared s)
      = (Ok tt, Shared.send (RunningQuery.chan rq) (execution_status r) (shared s)) /\
    task_notify t a r s =
      set_phase t a (Finished (task_result r))
        (set_discards (task_query a :: discards s)
           (set_shared (Shared.send (RunningQuery.chan rq) (execution_status r) (shared s)) s)).
Proof.
  intros I Ht Hp. pose proof (inv_phase _ I _ _ Ht) as Ho. unfold phase_ok in Ho. rewrite Hp in Ho.
  destruct Ho as [(rq & Hg & Hc) _]. exists rq. unfold task_notify. by rewrite notify_spec, Hg.
Qed.

(** The announcement of a result: the task finishes, its channel gets the status and the timer
    that discards the entry is armed. *)
Section notify.
Variables (t : nat) (a : task QueryResult) (r : ExecutionTaskResult QueryResult) (s : svc) (rq : RunningQuery.t).
Hypothesis I : inv s.
Hypothesis Ht : tasks s !! t = Some a.
Hypothesis Hp : task_phase a = Notifying r.
Hypothesis Hg : get (queries s) (task_query a) = Some rq.
Hypothesis Hrc : Shared.chans (shared s) !! RunningQuery.chan rq = Some (Shared.mkChan None true).

Let a' : task QueryResult := mkTask (task_query a) (task_token a) (Finished (task_result r)).
Let s' : svc :=
  set_phase t a (Finished (task_result r))
    (set_discards (task_query a :: discards s)
       (set_shared (Shared.send (RunningQuery.chan rq) (execution_status r) (shared s)) s)).

Lemma notified_unfinished : ~ is_finished a.
Proof. intros [? ?]. congruence. Qed.

Lemma notified_finished : finished_query (task_query a) s'.
Proof. exists t, a'. split; [apply lookup_insert_eq|]. split; [done|by eexists]. Qed.

Lemma notified_tasks t1 x : tasks s' !! t1 = Some x -> t1 = t /\ x = a' \/ t1 <> t /\ tasks s !! t1 = Some x.
Proof. unfold s'; simpl. rewrite lookup_insert. case_decide; [intros [= <-]; by left|by right]. Qed.

Lemma notified_other_chan c ch :
  c <> RunningQuery.chan rq -> Shared.chans (shared s) !! c = Some ch -> Shared.chans (shared s') !! c = Some ch.
Proof. intros Hc Hch. unfold s'; simpl. by rewrite lookup_alter_ne. Qed.

Lemma notified_chan :
  Shared.chans (shared s') !! RunningQuery.chan rq = Some (Shared.mkChan (Some (execution_status r)) true).
Proof. unfold s'; simpl. by rewrite lookup_alter_eq, Hrc. Qed.

Lemma notified_waiting q : q <> task_query a -> waiting_entry q s -> waiting_entry q s'.
Proof.
  intros Hq (r' & Hr & Hc). exists r'. split; [done|]. apply notified_other_chan; [|done].
  intros Heq. apply Hq. by eapply (inv_chan_inj _ I).
Qed.

Lemma notified_advance : advance s s'.
Proof.
  split.
  - intros t1 x Hx Hf. unfold s'; simpl. rewrite lookup_insert_ne; [done|].
    intros ->. simplify_eq. by destruct notified_unfinished.
  - done.
  - intros c v b Hc. exists v, b. apply notified_other_chan; [|done]. intros ->. congruence.
  - intros q r' b Hr Hb. destruct (decide (RunningQuery.chan r' = RunningQuery.chan rq)) as [Heq|Hne].
    + rewrite Heq. eexists _, _. split; [apply notified_chan|]. simpl.
      replace q with (task_query a) by (by eapply (inv_chan_inj _ I)). apply notified_finished.
    + exists None, b. split; [by apply notified_other_chan|]. by exists r'.
Qed.

Lemma notified_phase t1 x : tasks s' !! t1 = Some x -> phase_ok x s'.
Proof.
  pose proof (inv_phase _ I _ _ Ht) as Ho. unfold phase_ok in Ho. rewrite Hp in Ho. destruct Ho as [_ Ho].
  intros [[-> ->]|[Hne Hx]]%notified_tasks; [done|]. pose proof (inv_phase _ I _ _ Hx) as Hxp.
  assert (task_query x <> task_query a) as Hqx by (intros ?; apply Hne; by eapply (inv_task_inj _ I)).
  pose proof (notified_waiting _ Hqx). unfold phase_ok in *. destruct (task_phase x); naive_solver.
Qed.

Lemma notified_entry q r' : get (queries s') q = Some r' -> entry_ok q r' s'.
Proof.
  intros Hr. change (get (queries s) q = Some r') in Hr.
  destruct (inv_entry _ I _ _ Hr) as (Hid & t1 & x & v & b & Hh & Hx & Hq & Hc & Hv).
  split; [done|]. destruct (decide (t1 = t)) as [->|Hne].
  - rewrite Ht in Hx. injection Hx as <-. assert (r' = rq) as -> by congruence.
    exists t, a', (Some (execution_status r)), true. split_and!; try done; [apply lookup_insert_eq|apply notified_chan|].
    split; [by eexists|done].
  - exists t1, x, v, b. split_and!; try done.
    + unfold s'; simpl. by rewrite lookup_insert_ne.
    + apply notified_other_chan; [|done]. intros Heq. apply Hne. eapply (inv_task_inj _ I); [done..|].
      rewrite Hq. by eapply (inv_chan_inj _ I).
Qed.

Lemma notified_client i c :
  clients s !! i = Some c -> is_Some (submitting c) -> client_ok c s -> client_ok c s'.
Proof.
  intros Hi Hsub Hcl. destruct c; simpl in Hcl; try by destruct Hsub.
  - destruct Hcl as [Hs Hno]. split; [done|].
    intros t1 x [[-> ->]|[_ Hx]]%notified_tasks; [by apply (Hno t a)|by apply (Hno t1 x)].
  - destruct Hcl as [Hta Hgn]. split; [|done]. unfold s'; simpl. rewrite lookup_insert_ne; [done|].
    intros ->. rewrite Ht in Hta. injection Hta as ->. done.
  - destruct Hcl as [[tk Hta] Hwe].
    assert (handle <> t) as Hne by (intros ->; rewrite Ht in Hta; injection Hta as ->; done).
    split; [exists tk; unfold s'; simpl; by rewrite lookup_insert_ne|].
    apply notified_waiting; [|done]. intros ->. apply Hne. by eapply (inv_task_inj _ I).
Qed.

Lemma notified_inv : inv s'.
Proof.
  eapply (advance_inv s); [apply notified_advance|done|done|..].
  - intros t1 t2 a1 a2 [[-> ->]|[H1 H1']]%notified_tasks [[-> ->]|[H2 H2']]%notified_tasks Heq; try done.
    + by apply (inv_task_inj _ I _ _ a a2).
    + by apply (inv_task_inj _ I _ _ a1 a).
    + by eapply (inv_task_inj _ I).
  - intros t1 x [[-> ->]|[_ Hx]]%notified_tasks; [by apply (inv_task_sub _ I t a)|by apply (inv_task_sub _ I t1 x)].
  - apply notified_phase.
  - apply notified_entry.
  - apply (inv_chan_inj _ I).
  - intros c v b. unfold s'; simpl. rewrite lookup_alter. case_decide as Hd; [subst|apply (inv_chans _ I)].
    rewrite Hrc. by intros [= <- <-].
  - intros q. unfold s'; simpl. rewrite elem_of_cons. intros [->|Hq]; [right; apply notified_finished|by left].
  - apply notified_client.
Qed.
End notify.

Lemma inv_notify t a r s :
  inv s -> tasks s !! t = Some a -> task_phase a = Notifying r -> inv (task_notify t a r s).
Proof.
  intros I Ht Hp. destruct (task_notify_eq t a r s I Ht Hp) as (rq & Hg & Hrc & _ & ->). by apply notified_inv.
Qed.

Lemma get_update_stats_view q st s q' r :
  get (update_stats q st (queries s)) q' = Some r ->
  exists r0, get (queries s) q' = Some r0 /\ RunningQuery.chan r0 = RunningQuery.chan r /\
    RunningQuery.query_id r0 = RunningQuery.query_id r /\
    RunningQuery.result_handle r0 = RunningQuery.result_handle r.
Proof.
  rewrite get_update_stats. case_decide; [|by eauto 10].
  destruct (get (queries s) q') as [r0|]; simpl; [|done]. intros [= <-]. exists r0.
  unfold RunningQuery.update_query_stats. by destruct (query_type _).
Qed.

Lemma get_update_stats_some q st s q' r0 :
  get (queries s) q' = Some r0 ->
  exists r, get (update_stats q st (queries s)) q' = Some r /\ RunningQuery.chan r = RunningQuery.chan r0.
Proof.
  intros Hr. rewrite get_update_stats. case_decide; [|by eauto]. rewrite Hr. simpl. eexists. split; [done|].
  unfold RunningQuery.update_query_stats. by destruct (query_type _).
Qed.

Lemma get_update_stats_none q st s q' :
  get (queries s) q' = None -> get (update_stats q st (queries s)) q' = None.
Proof. intros Hr. rewrite get_update_stats. case_decide; [|done]. by rewrite Hr. Qed.

Lemma inv_stats q st s : inv s -> inv (set_queries (update_stats q st (queries s)) s).
Proof.
  intros I.
  assert (forall q', waiting_entry q' s -> waiting_entry q' (set_queries (update_stats q st (queries s)) s)) as Hw.
  { intros q' (r & Hr & Hc). destruct (get_update_stats_some q st s _ _ Hr) as (r' & Hr' & Heq).
    exists r'. simpl. by rewrite Heq. }
  eapply (advance_inv s); [split|done|done|..]; simpl.
  - done.
  - intros q' Hq' _. by apply get_update_stats_none.
  - by eauto.
  - intros q' r b Hr Hb. exists None, b. split; [done|]. by eapply get_update_stats_some.
  - apply (inv_task_inj _ I).
  - apply (inv_task_sub _ I).
  - intros t a Ht. pose proof (inv_phase _ I _ _ Ht) as Hp. unfold phase_ok in *.
    destruct (task_phase a); naive_solver.
  - intros q' r (r0 & Hr & Hc & Hid & Hh)%get_update_stats_view.
    pose proof (inv_entry _ I _ _ Hr) as He. unfold entry_ok in *. by rewrite <- Hc, <- Hid, <- Hh.
  - intros q1 q2 r1 r2 (r1' & Hr1 & Hc1 & _)%get_update_stats_view (r2' & Hr2 & Hc2 & _)%get_update_stats_view Heq.
    eapply (inv_chan_inj _ I); [done..|]. congruence.
  - apply (inv_chans _ I).
  - by left.
  - intros i c Hi Hsub Hcl. destruct c; simpl in *; try by destruct Hsub.
    + destruct Hcl as [Hta Hg]. split; [done|]. by apply get_update_stats_none.
    + destruct Hcl as [Hta Hg]. split; [done|]. by apply Hw.
Qed.

Lemma taking_client_ok c q s : client_ok c s -> taking c = Some q -> get (queries s) q = None.
Proof.
  destruct c as [| | | | | | |q' r|q' res| | | |]; simpl; try done.
  - intros [Hg _] [= <-]. done.
  - intros [->|[Hg _]]; [done|]. destruct res as [x|e]; [by intros [= <-]|].
    destruct e; try done; by intros [= <-].
Qed.

Lemma dropped_none i s : clients (drop_client i s) !! i = None.
Proof. apply lookup_delete_eq. Qed.

(** Replacing the local state of call [i], the rest of the state being [s1]. *)
Lemma inv_replace i c s1 :
  inv (drop_client i s1) -> client_ok c (drop_client i s1) ->
  alone submitting c (drop_client i s1) -> alone taking c (drop_client i s1) ->
  inv (set_client i c s1).
Proof. intros. rewrite set_client_drop. apply inv_set_client; [done|apply dropped_none|done..]. Qed.

(** The common case: nothing but the local state changes, and it neither submits nor takes. *)
Lemma inv_replace_quiet i c s :
  inv s -> client_ok c s -> submitting c = None -> taking c = None -> inv (set_client i c s).
Proof.
  intros I Hc Hs Ht. apply inv_replace; [by apply inv_drop_client| |by apply alone_none..].
  by eapply same_core_client.
Qed.

Lemma others_not_submitting i c q s :
  inv s -> clients s !! i = Some c -> submitting c = Some q ->
  forall j cj, clients (drop_client i s) !! j = Some cj -> submitting cj <> Some q.
Proof.
  intros I Hi Hc j cj Hj. eapply (alone_drop submitting i c); [apply (inv_submit_unique _ I)|done..].
Qed.

Lemma inv_step_spawn s i q rid token t s' :
  inv s -> clients s !! i = Some (SubmitChecked q rid) -> submit_spawn q s = (token, t, s') ->
  inv (set_client i (SubmitSpawned q rid token t) s').
Proof.
  intros I Hi Hs. pose proof (inv_clients _ I _ _ Hi) as [Hsub Hno].
  pose proof (others_not_submitting i _ q s I Hi eq_refl) as Hoth.
  destruct (inv_spawn q (drop_client i s) token t (drop_client i s')) as (I' & Ht & Hg & Hcl);
    [by apply inv_drop_client|done..| |].
  { revert Hs. unfold submit_spawn, Shared.new_token. simpl. by intros [= <- <- <-]. }
  apply inv_replace; [done|done| |by apply alone_none].
  intros j cj q' Hj [= <-]. rewrite Hcl in Hj. by apply (Hoth j).
Qed.

Lemma inv_step_add s i q rid token t :
  inv s -> clients s !! i = Some (SubmitSpawned q rid token t) ->
  inv (set_client i (SubmitAdded q t) (submit_add q rid token t s)).
Proof.
  intros I Hi. pose proof (inv_clients _ I _ _ Hi) as [Ht Hg].
  pose proof (others_not_submitting i _ q s I Hi eq_refl) as Hoth.
  destruct (inv_add q rid token t (drop_client i s)) as (I' & Hw & Htk & Hcl);
    [by apply inv_drop_client|done..|].
  apply inv_replace; [exact I'| | |by apply alone_none].
  - split; [by exists token|exact Hw].
  - intros j cj q' Hj [= <-]. by apply (Hoth j).
Qed.

Lemma inv_step_open s i q t :
  inv s -> clients s !! i = Some (SubmitAdded q t) ->
  inv (set_client i (SubmitDone (Ok q)) (submit_start t s)).
Proof.
  intros I Hi. pose proof (inv_clients _ I _ _ Hi) as [[tk Ht] Hw].
  pose proof (others_not_submitting i _ q s I Hi eq_refl) as Hoth.
  unfold submit_start. rewrite Ht. apply inv_replace; [|done|by apply alone_none..].
  apply (inv_set_phase t (mkTask q tk Gated) Opened (drop_client i s)); try done.
  - by apply inv_drop_client.
  - by intros [r Hr].
Qed.

Lemma own_result_select q f : own_result q (task_result (execution_result q f)).
Proof. destruct f as [[a|e]| | |]; simpl; by eauto. Qed.

Lemma inv_step_discard s q l : inv s -> q :: l ≡ₚ discards s -> inv (discard q (set_discards l s)).
Proof.
  intros I Hl.
  assert (inv (set_discards l s)) as I1.
  { apply (same_core_inv s); [by split|done| |apply (inv_clients _ I)|apply (inv_submit_unique _ I)|apply (inv_take_unique _ I)].
    simpl. intros q' Hq'. left. rewrite <- Hl. by apply elem_of_cons; right. }
  assert (finished_query q (set_discards l s)) as Hf.
  { apply (inv_discards _ I). rewrite <- Hl. by apply elem_of_cons; left. }
  pose proof (inv_remove q _ I1 Hf) as I2. unfold discard.
  pose proof (remove_get q (queries s)) as Hrem. simpl in *.
  destruct (remove q (queries s)) as [[r|e] m] eqn:Hr; simpl in *; [|exact I2].
  destruct (get (queries s) q) as [r'|] eqn:Hg; simpl in Hrem; [|done]. injection Hrem as ->.
  apply inv_drop_query; [exact I2|].
  destruct (inv_entry _ I _ _ Hg) as (_ & t & a & v & b & _ & Ht & Hq & Hc & Hv).
  destruct Hf as (t' & a' & Ht' & Hq' & Hfin). simpl in Ht'.
  assert (t' = t) as -> by (eapply (inv_task_inj _ I); [done..|congruence]). simplify_eq.
  apply Hv in Hfin as [v' ->]. by exists v', b.
Qed.

Lemma inv_step_wait_remove s i q c s' :
  inv s -> clients s !! i = Some (WaitRemove q) -> wait_remove q s = (c, s') -> inv (set_client i c s').
Proof.
  intros I Hi. pose proof (inv_clients _ I _ _ Hi) as Hf. simpl in Hf.
  pose proof (inv_remove q (drop_client i s) (inv_drop_client i s I) Hf) as I2.
  pose proof (remove_get q (queries s)) as Hrem. pose proof (get_remove q (queries s) q) as Hafter.
  unfold wait_remove. simpl in *. destruct (remove q (queries s)) as [[r|e] m] eqn:Hr; simpl in *;
    destruct (get (queries s) q) as [r'|] eqn:Hg; simpl in Hrem; try done; injection Hrem as ->;
    intros [= <- <-]; apply inv_replace; try exact I2; try by apply alone_none.
  - rewrite decide_True in Hafter by done.
    destruct (inv_entry _ I _ _ Hg) as (_ & t & a & v & b & Hh & Ht & Hq & Hc & Hv).
    destruct Hf as (t' & a' & Ht' & Hq' & Hfin).
    assert (t' = t) as -> by (eapply (inv_task_inj _ I); [done..|congruence]). simplify_eq.
    destruct (proj2 Hv Hfin) as [v' ->]. split_and!; [done| |by exists v', b]. by eexists t, _.
  - intros j cj q' Hj [= <-] Htk. apply clients_drop_client in Hj as [_ Hj].
    assert (get (queries s) q = None) as Hn; [|congruence].
    eapply taking_client_ok; [|done]. by apply (inv_clients _ I j).
  - by left.
Qed.

Lemma inv_step_wait_join s i q r res :
  inv s -> clients s !! i = Some (WaitJoin q r) -> wait_join q r s = Some res ->
  inv (set_client i (WaitDone q res) (drop_query r s)).
Proof.
  intros I Hi Hj. pose proof (inv_clients _ I _ _ Hi) as (Hg & (t & a & Hh & Ht & Hq & Hf) & Hc).
  unfold wait_join in Hj. rewrite Hh, Ht in Hj. destruct a as [q' tk p]. simpl in *. subst q'.
  destruct Hf as [res' Hp]. simpl in Hp. subst p. injection Hj as ->.
  apply inv_replace.
  - by apply (inv_drop_query r (drop_client i s)); [apply inv_drop_client|].
  - right. split; [done|]. by exists t, (mkTask q tk (Finished res)).
  - by apply alone_none.
  - eapply (alone_drop taking i (WaitDone q res) (WaitJoin q r)); [apply (inv_take_unique _ I)|done|].
    intros q'. simpl. destruct res as [x|[]]; by intros [= <-].
Qed.

Lemma wait_start_blocked s q c :
  inv s -> wait_start q s = Ok c -> client_ok (WaitBlocked q c) s.
Proof.
  intros I. unfold wait_start. destruct (get (queries s) q) as [r|] eqn:Hg; simpl; [|done].
  intros [= <-]. destruct (inv_entry _ I _ _ Hg) as (_ & t & a & v & b & _ & Ht & Hq & Hc & Hv).
  exists v, b. split; [done|]. destruct v as [v|]; [|by eauto].
  exists t, a. split_and!; try done. by apply Hv.
Qed.

Lemma wait_start_err s q e : wait_start q s = Err e -> e = QueryIsntRunning q.
Proof. unfold wait_start. destruct (get (queries s) q); simpl; [done|]. by intros [= <-]. Qed.

(** A blocked call never sees its channel closed. *)
Lemma blocked_not_closed s q c :
  inv s -> client_ok (WaitBlocked q c) s ->
  RunningQuery.wait_query_finished c (shared s) <> RunningQuery.RecvError.
Proof.
  intros I (v & b & Hc & _). unfold RunningQuery.wait_query_finished. rewrite Hc.
  destruct v as [v|]; [done|]. by rewrite (inv_chans _ I _ _ _ Hc eq_refl).
Qed.

Lemma blocked_ready s q c st :
  client_ok (WaitBlocked q c) s ->
  RunningQuery.wait_query_finished c (shared s) = RunningQuery.Ready st -> finished_query q s.
Proof.
  intros (v & b & Hc & Hv). unfold RunningQuery.wait_query_finished. rewrite Hc.
  destruct v as [v|]; [done|]. by destruct b.
Qed.

Lemma inv_istep s s' : inv s -> istep s s' -> inv s'.
Proof.
  intros I. destruct 1 as [s i q rid token t s' Hi Hs|s i q rid token t Hi|s i q t Hi|s t a Ht Hp
    |s t a f Ht Hp _|s t a r Ht Hp|s q l Hl|s i q Hi|s i q c st Hi Hr|s i q c d Hi Hr|s i q c s' Hi Hr
    |s i q r res Hi Hj|s i q c s' Hi Ha|s i q Hi|s i q c st Hi Hr|s i q c d Hi Hr].
  - by eapply inv_step_spawn.
  - by apply inv_step_add.
  - by apply inv_step_open.
  - pose proof (inv_phase _ I _ _ Ht) as Ho. unfold phase_ok in Ho. rewrite Hp in Ho.
    apply inv_set_phase; try done; try congruence. intros [? ?]. congruence.
  - pose proof (inv_phase _ I _ _ Ht) as Ho. unfold phase_ok in Ho. rewrite Hp in Ho.
    apply inv_set_phase; try done; try congruence.
    + intros [? ?]. congruence.
    + split; [done|]. apply own_result_select.
  - by apply inv_notify.
  - by apply inv_step_discard.
  - apply inv_replace_quiet; try done; destruct (wait_start q s) as [c|e] eqn:Hw; try done.
    + by apply wait_start_blocked.
    + apply wait_start_err in Hw as ->. by left.
    + apply wait_start_err in Hw as ->. done.
  - apply inv_replace_quiet; try done. simpl. eapply blocked_ready; [|done]. by apply (inv_clients _ I i).
  - by destruct (blocked_not_closed s q c I (inv_clients _ I _ _ Hi)).
  - by eapply inv_step_wait_remove.
  - by eapply inv_step_wait_join.
  - revert Ha. unfold abort_start. rewrite abort_spec. destruct (get (queries s) q); intros [= <- <-];
      apply inv_replace_quiet; try done; try (by right); by apply (inv_same s).
  - apply inv_replace_quiet; try done; destruct (wait_start q s) as [c|e] eqn:Hw; try done.
    + exact (wait_start_blocked s q c I Hw).
    + apply wait_start_err in Hw as ->. by right.
  - apply inv_replace_quiet; try done. by left.
  - by destruct (blocked_not_closed s q c I (inv_clients _ I _ _ Hi)).
Qed.

Lemma submit_check_err session_id q s e : submit_check session_id q s = Err e ->
  e = MissingDataFusionSession session_id \/ e = QueryExecution q ConcurrencyLimit.
Proof.
  unfold submit_check, get_session. destruct (df_sessions s !! session_id); simpl.
  - case_match; [|done]. intros [= <-]. by right.
  - intros [= <-]. by left.
Qed.

Lemma unsubmitted s q : inv s -> q ∉ submitted s ->
  forall i c, clients s !! i = Some c -> submitting c <> Some q.
Proof.
  intros I Hq i c Hi Hs. apply Hq. pose proof (inv_clients _ I _ _ Hi) as Hc.
  destruct c; simplify_eq/=.
  - by destruct Hc.
  - destruct Hc as [Ht _]. exact (inv_task_sub _ I _ _ Ht).
  - destruct Hc as [[tk Ht] _]. exact (inv_task_sub _ I _ _ Ht).
Qed.

Lemma inv_mark q s : inv s -> inv (mark_submitted q s).
Proof.
  intros I. apply (advance_inv s); try done; try apply I; simpl.
  - split; simpl; [done|done|by eauto|]. intros q' r b Hr Hb. exists None, b. by eauto.
  - intros t a Ht. apply elem_of_union_r. exact (inv_task_sub _ I _ _ Ht).
  - by left.
  - intros i c Hi [q' Hsub] Hc. destruct c; simplify_eq/=; try done.
    destruct Hc. split; [|done]. by apply elem_of_union_r.
Qed.

Lemma inv_estep s s' : inv s -> estep s s' -> inv s'.
Proof.
  intros I. destruct 1 as [s i id q rid Hi Hq|s i q Hi|s i q Hi|s i q Hi|s i q c Hi|s i q r Hi|s i q c Hi
    |s q st|s now id|s now id|s now|s id].
  - pose proof (inv_mark q s I) as I1. destruct (submit_check id q s) as [[]|e] eqn:Hs.
    + apply inv_set_client; [done|done| | |by apply alone_none].
      * split; [simpl; apply elem_of_union_l; by apply elem_of_singleton|].
        intros t a Ht <-. apply Hq. exact (inv_task_sub _ I _ _ Ht).
      * intros j cj q' Hj [= <-]. exact (unsubmitted _ _ I Hq _ _ Hj).
    + by apply inv_replace_quiet.
  - by apply inv_replace_quiet.
  - by apply inv_replace_quiet.
  - by apply inv_replace_quiet.
  - by apply inv_drop_client.
  - apply inv_drop_client. apply inv_drop_query; [done|].
    pose proof (inv_clients _ I _ _ Hi) as (_ & _ & Hc). exact Hc.
  - by apply inv_drop_client.
  - by apply inv_stats.
  - by apply (inv_same s).
  - unfold update_session_expiry. destruct (df_sessions s !! id); [by apply (inv_same s)|done].
  - by apply (inv_same s).
  - by apply (inv_same s).
Qed.

Lemma inv_new : inv new.
Proof.
  split; simpl; unfold unique_by; simpl; try (by intros; simplify_map_eq); intros *.
  - rewrite get_empty. done.
  - rewrite get_empty. done.
  - by intros ?%elem_of_nil.
Qed.

Lemma service_inv s : reachable s -> inv s.
Proof.
  induction 1; [apply inv_new|by eapply inv_istep|by eapply inv_estep].
Qed.

(** ** Nothing is forgotten: start gates have an owner, finished queries a discard timer *)
Definition covered s : Prop :=
  forall q r, get (queries s) q = Some r -> finished_query q s -> q ∈ discards s.

Lemma gates_frame s s' :
  gates s ->
  (forall t a, tasks s' !! t = Some a -> task_phase a = Gated ->
     (exists i c, clients s' !! i = Some c /\ owns_gate t c) \/
     (exists a', tasks s !! t = Some a' /\ task_phase a' = Gated /\
        forall i c, clients s !! i = Some c -> owns_gate t c ->
          exists c', clients s' !! i = Some c' /\ owns_gate t c')) ->
  gates s'.
Proof.
  intros G H t a Ht Hp. destruct (H t a Ht Hp) as [?|(a' & Ht' & Hp' & Hk)]; [done|].
  destruct (G t a' Ht' Hp') as (i & c & Hi & Ho). destruct (Hk i c Hi Ho) as (c' & Hi' & Ho'). by eauto.
Qed.

(** A call that owns no gate may change its state, and tasks may leave the gate. *)
Lemma gates_quiet s s' i c0 :
  gates s -> (forall t, ~ owns_gate t c0) -> clients s !! i = Some c0 \/ clients s !! i = None ->
  (forall j, j <> i -> clients s' !! j = clients s !! j) ->
  (forall t a, tasks s' !! t = Some a -> task_phase a = Gated -> tasks s !! t = Some a) -> gates s'.
Proof.
  intros G Hno Hi Hoth Ht. apply (gates_frame s); [done|]. intros t a Hta Hp. right. exists a.
  split_and!; [by apply Ht|done|]. intros j c Hj Ho. exists c. split; [|done].
  rewrite Hoth; [done|]. intros ->. destruct Hi as [Hi|Hi]; [|congruence].
  rewrite Hj in Hi. injection Hi as ->. by apply (Hno t).
Qed.

Local Tactic Notation "quiet_call" constr(s) constr(i) uconstr(c) :=
  eapply (gates_quiet s _ i c);
    [done|by intros ? []|first [by left|by right]
    |intros; simpl; first [by apply lookup_insert_ne|by apply lookup_delete_ne]|done].

Lemma gates_same s s' : gates s -> clients s' = clients s -> tasks s' = tasks s -> gates s'.
Proof. intros G Hc Ht. unfold gates. by rewrite Hc, Ht. Qed.

Lemma gates_phase s t a p :
  gates s -> tasks s !! t = Some a -> p <> Gated -> gates (set_phase t a p s).
Proof.
  intros G Ht Hp. apply (gates_frame s); [done|]. intros t' a'. simpl. rewrite lookup_insert.
  case_decide; [by intros [= <-]|]. intros. right. by eauto 10.
Qed.

Lemma gates_istep s s' : inv s -> gates s -> istep s s' -> gates s'.
Proof.
  intros I G. destruct 1 as [s i q rid token t s' Hi Hs|s i q rid token t Hi|s i q t Hi|s t a Ht Hp
    |s t a f Ht Hp _|s t a r Ht Hp|s q l Hl|s i q Hi|s i q c st Hi Hr|s i q c d Hi Hr|s i q c s' Hi Hr
    |s i q r res Hi Hj|s i q c s' Hi Ha|s i q Hi|s i q c st Hi Hr|s i q c d Hi Hr];
    try (by eapply (gates_quiet s _ i); [done| |by left; exact Hi|intros; simpl; by apply lookup_insert_ne|done]; intros t []).
  - revert Hs. unfold submit_spawn, Shared.new_token. simpl. intros [= <- <- <-].
    apply (gates_frame s); [done|]. intros t a. simpl. rewrite lookup_insert. case_decide as Hd.
    + subst. intros _ _. left. exists i. eexists. by rewrite lookup_insert_eq.
    + intros Ht Hp. right. exists a. split_and!; [done..|]. intros j c Hj Ho. exists c.
      rewrite lookup_insert_ne; [done|]. intros ->. by simplify_eq.
  - apply (gates_frame s); [done|]. intros t' a. simpl. intros Ht Hp. right. exists a.
    split_and!; [done..|]. intros j c Hj Ho. rewrite lookup_insert. case_decide as Hd; [|by eauto].
    subst. simplify_eq/=. by eexists.
  - pose proof (inv_clients _ I _ _ Hi) as [[tk Ht] _]. unfold submit_start. rewrite Ht.
    apply (gates_frame s); [done|]. intros t' a. simpl. rewrite lookup_insert.
    case_decide as Hd; [by intros [= <-]|]. intros Ha Hp. right. exists a. split_and!; [done..|].
    intros j c Hj Ho. exists c. rewrite lookup_insert_ne; [done|]. intros ->. by simplify_eq/=.
  - by apply gates_phase.
  - by apply gates_phase.
  - destruct (task_notify_eq t a r s I Ht Hp) as (rq & _ & _ & _ & ->). apply gates_phase; [|done..].
    by apply (gates_same s).
  - unfold discard. destruct (remove q _) as [[]]; by apply (gates_same s).
  - revert Hr. unfold wait_remove. destruct (remove q _) as [[]]; intros [= <- <-];
      quiet_call s i (WaitRemove q).
  - revert Ha. unfold abort_start. destruct (abort q _ _) as [[]]; intros [= <- <-];
      quiet_call s i (AbortStart q).
Qed.

Lemma gates_estep s s' : gates s -> estep s s' -> gates s'.
Proof.
  intros G. destruct 1 as [s i id q rid Hi Hq|s i q Hi|s i q Hi|s i q Hi|s i q c Hi|s i q r Hi|s i q c Hi
    |s q st|s now id|s now id|s now|s id]; try (by apply (gates_same s)).
  - quiet_call s i (WaitStart q).
  - quiet_call s i (WaitStart q).
  - quiet_call s i (SubmitDone (Ok q)).
  - quiet_call s i (WaitStart q).
  - quiet_call s i (WaitBlocked q c).
  - quiet_call s i (WaitJoin q r).
  - quiet_call s i (AbortBlocked q c).
  - unfold update_session_expiry. destruct (df_sessions s !! id); [by apply (gates_same s)|done].
Qed.

Lemma reachable_gates s : reachable s -> gates s.
Proof.
  induction 1 as [|s s' Hr IH Hs|s s' Hr IH Hs]; [done| |by eapply gates_estep].
  eapply gates_istep; [by apply service_inv|done..].
Qed.

Lemma covered_frame s s' :
  covered s ->
  (forall q r, get (queries s') q = Some r -> finished_query q s' ->
     q ∈ discards s' \/
     (is_Some (get (queries s) q) /\ finished_query q s /\ (q ∈ discards s -> q ∈ discards s'))) ->
  covered s'.
Proof.
  intros C H q r Hr Hf. destruct (H q r Hr Hf) as [?|([r0 Hr0] & Hf0 & Hd)]; [done|].
  apply Hd. by eapply C.
Qed.

Lemma covered_same s s' :
  covered s -> queries s' = queries s -> tasks s' = tasks s -> discards s' = discards s -> covered s'.
Proof. intros C Hq Ht Hd. unfold covered, finished_query. by rewrite Hq, Ht, Hd. Qed.

Lemma covered_phase s t a p :
  covered s -> (forall r, p <> Finished r) -> covered (set_phase t a p s).
Proof.
  intros C Hp. apply (covered_frame s); [done|]. intros q r Hr (t' & a' & Ht & Hq & [r' Hf]).
  right. split_and!; [by eexists| |done]. simpl in Ht. rewrite lookup_insert in Ht. case_decide.
  - simplify_eq/=. by destruct (Hp r').
  - exists t', a'. split_and!; try done. by exists r'.
Qed.

Lemma covered_remove s q :
  covered s -> covered (set_queries (remove q (queries s)).2 s).
Proof.
  intros C. apply (covered_frame s); [done|]. intros q' r. simpl. rewrite get_remove.
  case_decide; [done|]. intros Hr Hf. right. split_and!; [by eexists|exact Hf|done].
Qed.

Lemma covered_discard s q l : q :: l ≡ₚ discards s -> covered s -> covered (discard q (set_discards l s)).
Proof.
  intros Hl C. pose proof (get_remove q (queries s)) as Hg. unfold discard. simpl.
  assert (forall m, (remove q (queries s)).2 = m ->
            covered (set_queries m (set_discards l s))) as Hm.
  { intros m Hm. apply (covered_frame s); [done|]. intros q' r. simpl. rewrite <- Hm, Hg.
    case_decide as Hd; [done|]. intros Hr Hf. right. split_and!; [by eexists|exact Hf|].
    rewrite <- Hl, elem_of_cons. intros [->|?]; done. }
  destruct (remove q (queries s)) as [[r|e] m]; [|by apply Hm].
  apply (covered_same (set_queries m (set_discards l s))); [by apply Hm|done..].
Qed.

Lemma covered_add s q rid token t :
  inv s -> tasks s !! t = Some (mkTask q token Gated) -> covered s ->
  covered (submit_add q rid token t s).
Proof.
  intros I Ht C. apply (covered_frame s); [done|]. unfold submit_add; simpl. intros q' r. rewrite get_add.
  case_decide as Hd; simpl in Hd.
  - intros _ (t' & a & Ht' & Hq & Hf). change (tasks s !! t' = Some a) in Ht'.
    assert (t' = t) as -> by (eapply (inv_task_inj _ I); [done..|simpl; congruence]).
    destruct Hf as [? Hf]. rewrite Ht in Ht'. injection Ht' as <-. discriminate Hf.
  - intros Hr Hf. right. split_and!; [by eexists|exact Hf|done].
Qed.

Lemma covered_istep s s' : inv s -> covered s -> istep s s' -> covered s'.
Proof.
  intros I C. destruct 1 as [s i q rid token t s' Hi Hs|s i q rid token t Hi|s i q t Hi|s t a Ht Hp
    |s t a f Ht Hp _|s t a r Ht Hp|s q l Hl|s i q Hi|s i q c st Hi Hr|s i q c d Hi Hr|s i q c s' Hi Hr
    |s i q r res Hi Hj|s i q c s' Hi Ha|s i q Hi|s i q c st Hi Hr|s i q c d Hi Hr];
    try (by apply (covered_same s)).
  - revert Hs. unfold submit_spawn, Shared.new_token. simpl. intros [= <- <- <-].
    eapply covered_same; [|done..].
    apply (covered_frame s); [done|]. intros q' r Hr (t' & a & Ht & Hq & Hf). right.
    split_and!; [by eexists| |done]. simpl in Ht. rewrite lookup_insert in Ht. case_decide.
    + destruct Hf as [? Hf]. injection Ht as <-. discriminate Hf.
    + by exists t', a.
  - eapply covered_same; [|done..]. apply covered_add; [done| |done].
    by destruct (inv_clients _ I _ _ Hi).
  - pose proof (inv_clients _ I _ _ Hi) as [[tk Ht] _]. unfold submit_start. rewrite Ht.
    eapply covered_same; [|done..]. by apply (covered_phase s).
  - by apply covered_phase.
  - by apply covered_phase.
  - destruct (task_notify_eq t a r s I Ht Hp) as (rq & Hg & _ & _ & ->).
    apply (covered_frame s); [done|]. simpl. intros q r' Hr (t' & a' & Ht' & Hq & Hf).
    simpl in Ht'. rewrite lookup_insert in Ht'. case_decide.
    + simplify_eq/=. left. by apply elem_of_cons; left.
    + right. split_and!; [by eexists|by exists t', a'|]. intros. by apply elem_of_cons; right.
  - by apply covered_discard.
  - revert Hr. unfold wait_remove. pose proof (covered_remove s q C) as Hc.
    destruct (remove q _) as [[]]; intros [= <- <-]; (eapply covered_same; [exact Hc|done..]).
  - revert Ha. unfold abort_start. destruct (abort q _ _) as [[]]; intros [= <- <-]; by apply (covered_same s).
Qed.

Lemma covered_estep s s' : covered s -> estep s s' -> covered s'.
Proof.
  intros C. destruct 1 as [s i id q rid Hi Hq|s i q Hi|s i q Hi|s i q Hi|s i q c Hi|s i q r Hi|s i q c Hi
    |s q st|s now id|s now id|s now|s id]; try (by apply (covered_same s)).
  - apply (covered_frame s); [done|]. intros q' r (r0 & Hr & _)%get_update_stats_view Hf. right.
    split_and!; [by eexists|exact Hf|done].
  - unfold update_session_expiry. destruct (df_sessions s !! id); [by apply (covered_same s)|done].
Qed.

Lemma reachable_covered s : reachable s -> covered s.
Proof.
  induction 1 as [|s s' Hr IH Hs|s s' Hr IH Hs]; [|eapply covered_istep; [by apply service_inv|done..]|by eapply covered_estep].
  intros q r. simpl. by rewrite get_empty.
Qed.

(** ** Termination: the work left *)
Definition client_work (c : client QueryResult) : nat :=
  match c with
  | SubmitChecked _ _ => 9 | SubmitSpawned _ _ _ _ => 2 | SubmitAdded _ _ => 1
  | WaitStart _ => 4 | WaitBlocked _ _ => 3 | WaitRemove _ => 2 | WaitJoin _ _ => 1
  | AbortStart _ => 3 | AbortWait _ => 2 | AbortBlocked _ _ => 1
  | SubmitDone _ | WaitDone _ _ | AbortDone _ _ => 0
  end.
Definition task_work (a : task QueryResult) : nat :=
  match task_phase a with Gated => 6 | Opened => 5 | Executing => 4 | Notifying _ => 3 | Finished _ => 0 end.
Definition work s : nat :=
  (map_weight client_work (clients s) + map_weight task_work (tasks s) + 2 * length (discards s))%nat.

(** The call has its answer. *)
Definition answered (c : client QueryResult) : Prop :=
  match c with SubmitDone _ | WaitDone _ _ | AbortDone _ _ => True | _ => False end.

Lemma weight_replace_client i c c' s :
  clients s !! i = Some c ->
  (map_weight client_work (<[i := c']> (clients s)) + client_work c
   = map_weight client_work (clients s) + client_work c')%nat.
Proof. apply map_weight_insert. Qed.

Lemma work_client i c c' s s' :
  clients s !! i = Some c -> clients s' = clients s -> tasks s' = tasks s ->
  (length (discards s') <= length (discards s))%nat ->
  (client_work c' < client_work c)%nat -> (work (set_client i c' s') < work s)%nat.
Proof.
  intros Hi Hc Ht Hd Hw. unfold work; simpl. rewrite Hc, Ht.
  pose proof (weight_replace_client i c c' s Hi). lia.
Qed.

Lemma work_phase t a p s s' :
  tasks s !! t = Some a -> tasks s' = tasks s -> clients s' = clients s ->
  (task_work (mkTask (task_query a) (task_token a) p) + 2 * length (discards s')
   < task_work a + 2 * length (discards s))%nat ->
  (work (set_phase t a p s') < work s)%nat.
Proof.
  intros Ht Htk Hc Hw. unfold work; simpl. rewrite Hc, Htk.
  pose proof (map_weight_insert task_work t a (mkTask (task_query a) (task_token a) p) (tasks s) Ht). lia.
Qed.

Lemma istep_work s s' : inv s -> istep s s' -> (work s' < work s)%nat.
Proof.
  intros I. destruct 1 as [s i q rid token t s' Hi Hs|s i q rid token t Hi|s i q t Hi|s t a Ht Hp
    |s t a f Ht Hp _|s t a r Ht Hp|s q l Hl|s i q Hi|s i q c st Hi Hr|s i q c d Hi Hr|s i q c s' Hi Hr
    |s i q r res Hi Hj|s i q c s' Hi Ha|s i q Hi|s i q c st Hi Hr|s i q c d Hi Hr];
    try (by eapply (work_client i); [exact Hi|done..|simpl; lia]).
  - revert Hs. unfold submit_spawn, Shared.new_token. simpl. intros [= <- <- <-]. unfold work.
    cbn [clients tasks discards set_client set_task set_shared].
    rewrite (map_weight_insert_new task_work) by apply fresh_task.
    pose proof (weight_replace_client i _ (SubmitSpawned q rid (fresh (dom (Shared.tokens (shared s))))
      (fresh (dom (tasks s)))) s Hi) as Hw. cbn [client_work] in Hw.
    change (task_work (mkTask q _ Gated)) with 6%nat. lia.
  - pose proof (inv_clients _ I _ _ Hi) as [[tk Ht] _]. unfold submit_start. rewrite Ht. unfold work.
    cbn [clients tasks discards set_client set_task set_phase task_query task_token].
    pose proof (weight_replace_client i _ (SubmitDone (Ok q)) s Hi) as Hw. simpl in Hw.
    pose proof (map_weight_insert task_work t _ (mkTask q tk Opened) (tasks s) Ht) as Hw'.
    change (task_work (mkTask q tk Gated)) with 6%nat in Hw'.
    change (task_work (mkTask q tk Opened)) with 5%nat in Hw'. lia.
  - apply (work_phase t a _ s); [done..|]. unfold task_work. rewrite Hp. simpl. lia.
  - apply (work_phase t a _ s); [done..|]. unfold task_work. rewrite Hp. simpl. lia.
  - destruct (task_notify_eq t a r s I Ht Hp) as (rq & _ & _ & _ & ->).
    apply (work_phase t a _ s); [done..|]. unfold task_work. rewrite Hp. simpl. lia.
  - assert (length (discards s) = S (length l)) as Hlen by (by rewrite <- Hl).
    unfold discard. destruct (remove q _) as [[]]; unfold work; simpl; lia.
  - eapply (work_client i); [exact Hi|done..|]. destruct (wait_start q s); simpl; lia.
  - revert Hr. unfold wait_remove. destruct (remove q _) as [[]]; intros [= <- <-];
      (eapply (work_client i); [exact Hi|done..|simpl; lia]).
  - revert Ha. unfold abort_start. destruct (abort q _ _) as [[]]; intros [= <- <-];
      (eapply (work_client i); [exact Hi|done..|simpl; lia]).
  - eapply (work_client i); [exact Hi|done..|]. destruct (wait_start q s); simpl; lia.
Qed.

(** ** Progress *)
Lemma task_can_step t a s :
  gates s -> tasks s !! t = Some a -> ~ is_finished a -> exists s', istep s s'.
Proof.
  intros G Ht Hf. destruct (task_phase a) as [| | |r|r] eqn:Hp.
  - destruct (G _ _ Ht Hp) as (i & c & Hi & Ho). destruct c; try done.
    + eexists. by eapply i_add.
    + eexists. by eapply i_open.
  - eexists. by eapply i_run.
  - eexists. by apply (i_select s t a ByTimeout).
  - eexists. by eapply i_notify.
  - destruct Hf. by exists r.
Qed.

Lemma blocked_can_step i q c s :
  inv s -> gates s -> client_ok (WaitBlocked q c) s ->
  (forall st, RunningQuery.wait_query_finished c (shared s) = RunningQuery.Ready st -> exists s', istep s s') ->
  clients s !! i = Some (WaitBlocked q c) \/ clients s !! i = Some (AbortBlocked q c) ->
  exists s', istep s s'.
Proof.
  intros I G (v & b & Hc & Hv) Hready Hi. destruct v as [st|].
  - apply (Hready st). unfold RunningQuery.wait_query_finished. by rewrite Hc.
  - destruct Hv as (r & Hr & <-).
    destruct (inv_entry _ I _ _ Hr) as (_ & t & a & v & b' & _ & Ht & _ & Hc' & Hfin). simplify_eq.
    apply (task_can_step t a); [done..|]. rewrite <- Hfin. by intros [].
Qed.

Lemma client_can_step i c s :
  inv s -> gates s -> clients s !! i = Some c -> ~ answered c -> exists s', istep s s'.
Proof.
  intros I G Hi Hna. pose proof (inv_clients _ I _ _ Hi) as Hc. destruct c; try by destruct Hna.
  - destruct (submit_spawn q s) as [[token t] s'] eqn:Hs. eexists. by eapply i_spawn.
  - eexists. by eapply i_add.
  - eexists. by eapply i_open.
  - eexists. by eapply i_wait_start.
  - eapply (blocked_can_step i); [done..| |by left]. intros st Hst. eexists. by eapply i_wait_ready.
  - destruct (wait_remove q s) as [c s'] eqn:Hw. eexists. by eapply i_wait_remove.
  - destruct Hc as (_ & (t & a & Hh & Ht & _ & res & Hp) & _). eexists. eapply (i_wait_join _ _ _ _ res); [done|].
    unfold wait_join. rewrite Hh, Ht. destruct a. simpl in Hp. by rewrite Hp.
  - destruct (abort_start q s) as [c s'] eqn:Ha. eexists. by eapply i_abort.
  - eexists. by eapply i_abort_wait.
  - eapply (blocked_can_step i); [done..| |by right]. intros st Hst. eexists. by eapply i_abort_ready.
Qed.

Inductive isteps : nat -> svc -> svc -> Prop :=
| isteps_0 s : isteps 0 s s
| isteps_S n s s' s'' : istep s s' -> isteps n s' s'' -> isteps (S n) s s''.

Lemma isteps_reachable n s s' : reachable s -> isteps n s s' -> reachable s'.
Proof. intros Hr H. induction H; [done|]. apply IHisteps. by eapply reach_istep. Qed.

Lemma isteps_work n s s' : reachable s -> isteps n s s' -> (n + work s' <= work s)%nat.
Proof.
  intros Hr H. induction H as [|n s s1 s2 Hs H IH]; [lia|].
  pose proof (istep_work _ _ (service_inv _ Hr) Hs). specialize (IH (reach_istep _ _ Hr Hs)). lia.
Qed.

(** ** Theorems *)

(** C18: the start gate works: when a query task comes to announce its result, the registry has
    the query, so the notification succeeds, the error of [?] never replaces the result, and the
    caller that joins the task gets exactly the result the execution produced. *)
Theorem notify_never_fails s t a r :
  reachable s -> tasks s !! t = Some a -> task_phase a = Notifying r ->
  (notify_query_finished (task_query a) (execution_status r) (queries s) (shared s)).1 = Ok tt
  /\ exists a', tasks (task_notify t a r s) !! t = Some a' /\ task_phase a' = Finished (task_result r).
Proof.
  intros Hr Ht Hp.
  destruct (task_notify_eq t a r s (service_inv _ Hr) Ht Hp) as (rq & _ & _ & -> & ->).
  split; [done|]. simpl. rewrite lookup_insert_eq. by eexists.
Qed.

(** C14: a call of [wait] that returns has either the result of that query's own finished task
    (a value, or an error tagged with the query's id) or the error that the query is not
    running; never a closed channel, a missing handle or another query's result. *)
Theorem wait_outcome s i q res :
  reachable s -> clients s !! i = Some (WaitDone q res) ->
  res = Err (QueryIsntRunning q) \/
  (own_result q res /\
   exists t a, tasks s !! t = Some a /\ task_query a = q /\ task_phase a = Finished res).
Proof.
  intros Hr%service_inv Hi.
  destruct (inv_clients _ Hr _ _ Hi) as [->|(_ & t & a & Ht & Hq & Hp)]; [by left|right].
  split; [|by eauto]. pose proof (inv_phase _ Hr _ _ Ht) as Ho. unfold phase_ok in Ho.
  rewrite Hp in Ho. by rewrite <- Hq.
Qed.

(** C27: a result is consumed at most once: of two calls that waited for the same query and returned, when one
    has anything but "the query isn't running", its result or the error of its execution, the other one has
    "the query isn't running". *)
Theorem result_taken_once s i j q ri rj :
  reachable s -> clients s !! i = Some (WaitDone q ri) -> clients s !! j = Some (WaitDone q rj) ->
  i <> j -> ri <> Err (QueryIsntRunning q) -> rj = Err (QueryIsntRunning q).
Proof.
  intros Hr%service_inv Hi Hj Hij Hri.
  assert (forall k r, clients s !! k = Some (WaitDone q r) -> r = Err (QueryIsntRunning q) \/ taking (WaitDone q r) = Some q) as Htk.
  { intros k r Hk. destruct r as [x|e]; [by right|].
    destruct (inv_clients _ Hr _ _ Hk) as [->|(_ & t & a & Ht & Hq & Hp)]; [by left|right].
    pose proof (inv_phase _ Hr _ _ Ht) as Ho. unfold phase_ok in Ho. rewrite Hp in Ho.
    destruct Ho as [e' ->]. done. }
  destruct (Htk i ri Hi) as [|Hti]; [done|]. destruct (Htk j rj Hj) as [|Htj]; [done|].
  exfalso. apply Hij. by eapply (inv_take_unique _ Hr i j).
Qed.

(** C3: every call is answered and nothing leaks: from any reachable state the calls and tasks
    already started take at most [work s] steps, and once none of them can move every call has
    its answer, every task is finished, no discard timer is pending and the registry is empty. *)
Theorem calls_terminate s :
  reachable s ->
  (forall n s', isteps n s s' -> (n <= work s)%nat) /\
  (forall n s', isteps n s s' -> (forall s'', ~ istep s' s'') ->
     (forall i c, clients s' !! i = Some c -> answered c) /\
     (forall t a, tasks s' !! t = Some a -> is_finished a) /\
     discards s' = [] /\ forall q, get (queries s') q = None).
Proof.
  intros Hr. split; [intros n s' H; pose proof (isteps_work _ _ _ Hr H); lia|].
  intros n s' H Hstuck. apply (isteps_reachable _ _ _ Hr) in H as Hr'.
  pose proof (service_inv _ Hr') as I. pose proof (reachable_gates _ Hr') as G.
  assert (forall t a, tasks s' !! t = Some a -> is_finished a) as Hfin.
  { intros t a Ht. destruct (task_phase a) eqn:Hp; try by eexists.
    all: destruct (task_can_step t a s' G Ht) as [s'' Hs]; [|by destruct (Hstuck s'')].
    all: intros [? ?]; congruence. }
  assert (discards s' = []) as Hd.
  { destruct (discards s') as [|q l] eqn:Hd; [done|]. edestruct Hstuck. apply (i_discard s' q l). by rewrite Hd. }
  split_and!; [|done|done|].
  - intros i c Hi. destruct c; try done.
    all: edestruct (client_can_step i) as [s'' Hs]; [done|done|exact Hi|exact id|by destruct (Hstuck s'')].
  - intros q. destruct (get (queries s') q) as [r|] eqn:Hg; [|done]. exfalso.
    assert (q ∈ discards s') as Hq; [|rewrite Hd in Hq; by apply elem_of_nil in Hq].
    apply (reachable_covered _ Hr' q r Hg).
    destruct (inv_entry _ I _ _ Hg) as (_ & t & a & _ & _ & _ & Ht & Hq & _).
    exists t, a. split_and!; [done..|]. by eapply Hfin.
Qed.

(** ** [submit] run without interference *)
Definition submit (session_id : string) (q : QueryId) (request_id : option Uuid) s
  : result Error QueryId * svc :=
  match submit_check session_id q s with
  | Err e => (Err e, s)
  | Ok _ =>
      let '(token, handle, s) := submit_spawn q s in
      (Ok q, submit_start handle (submit_add q request_id token handle s))
  end.

Lemma count_submit_add q rid token t s :
  (count (queries (submit_add q rid token t s)) <= S (count (queries s)))%nat.
Proof.
  unfold submit_add; simpl. match goal with |- context [add ?x _] => set (r := x) end.
  destruct (get (queries s) (RunningQuery.query_id r)) eqn:Hg.
  - rewrite count_add_old by (by eexists). lia.
  - by rewrite count_add_new.
Qed.

(** A [submit] no other call interferes with respects the concurrency limit: it is refused
    with [ConcurrencyLimit] exactly when the limit is reached, and never takes the number of
    running queries over it. *)
Theorem submit_respects_limit session_id q rid s :
  (count (queries s) <= max_concurrency_level)%nat -> is_Some (df_sessions s !! session_id) ->
  (count (queries (submit session_id q rid s).2) <= max_concurrency_level)%nat
  /\ (submit session_id q rid s).1 =
       (if decide (count (queries s) = max_concurrency_level)
        then Err (QueryExecution q ConcurrencyLimit) else Ok q).
Proof.
  intros Hle [e He]. unfold submit, submit_check, get_session. rewrite He. simpl.
  destruct (Nat.leb_spec max_concurrency_level (count (queries s))) as [Hge|Hlt]; simpl.
  - rewrite decide_True by lia. split; [lia|done].
  - rewrite decide_False by lia. split; [|done].
    unfold submit_start. match goal with |- context [submit_add q rid ?k ?h ?x] =>
      pose proof (count_submit_add q rid k h x) as Hc; set (s2 := submit_add q rid k h x) in * end.
    simpl in Hc. case_match; simpl in *; lia.
Qed.

(** Sweeping expired sessions keeps a session exactly when it has not expired or some query
    runs, whatever session that query belongs to; it never invents or alters one. *)
Theorem delete_expired_sessions_spec now s session_id expiry :
  df_sessions (delete_expired_sessions now s) !! session_id = Some expiry <->
  df_sessions s !! session_id = Some expiry /\ (now < expiry \/ count (queries s) <> 0%nat).
Proof.
  unfold delete_expired_sessions; simpl. rewrite map_lookup_filter_Some. simpl.
  unfold retain_session. case_bool_decide.
  - rewrite negb_true_iff, Nat.eqb_neq. split; intros [? ?]; split; try done; try lia.
  - split; intros [? ?]; (split; [done|]); [left; lia|done].
Qed.

(** Activity protects a session: after [update_session_expiry] at [now] found the session,
    no sweep of expired sessions in the next four hours removes it. *)
Theorem active_session_survives now sweeps s session_id s' :
  update_session_expiry now session_id s = (true, s') ->
  Forall (fun t => t < now + SESSION_INACTIVITY_EXPIRATION_SECONDS) sweeps ->
  session_exists session_id (fold_left (fun s t => delete_expired_sessions t s) sweeps s') = true.
Proof.
  unfold update_session_expiry. destruct (df_sessions s !! session_id) eqn:Hs; [|done].
  intros [= <-] Hsw. unfold session_exists. apply bool_decide_eq_true_2.
  set (e := now + _) in *. exists e.
  assert (forall s0, df_sessions s0 !! session_id = Some e ->
    df_sessions (fold_left (fun s t => delete_expired_sessions t s) sweeps s0) !! session_id = Some e) as Hk.
  { clear s Hs. induction Hsw as [|t l Ht Hl IH]; simpl; intros s0 Hs0; [done|]. apply IH. simpl.
    apply map_lookup_filter_Some. split; [done|]. simpl. unfold retain_session. by rewrite bool_decide_false by lia. }
  apply Hk. simpl. apply lookup_insert_eq.
Qed.
End service.

(** ** [timeout_signal]: the idle window

    One element per turn of the loop after the skipped first tick: the clock and what the turn
    observes.  [None] of [timeout_turn] is the [return]. *)
Record tick := mkTick { tick_now : Z; sessions_empty : bool; queries_empty : bool }.

Definition idle_now (k : tick) : bool := sessions_empty k && queries_empty k.

(** [Instant::elapsed] saturates at zero. *)
Definition elapsed (since now : Z) : Z := Z.max 0 (now - since).

Definition timeout_turn (idle_timeout : Z) (k : tick) (idle_since : option Z) : option (option Z) :=
  match idle_now k, idle_since with
  | true, None => Some (Some (tick_now k))
  | true, Some since => if bool_decide (idle_timeout <= elapsed since (tick_now k)) then None else Some (Some since)
  | false, _ => Some None
  end.

(** The turn at which the loop returns, if it does. *)
Fixpoint timeout_signal (idle_timeout : Z) (idle_since : option Z) (ticks : list tick) : option nat :=
  match ticks with
  | [] => None
  | k :: ticks => match timeout_turn idle_timeout k idle_since with
                  | None => Some 0%nat
                  | Some st => S <$> timeout_signal idle_timeout st ticks
                  end
  end.

Definition idle_between (ticks : list tick) (m n : nat) : Prop :=
  forall j, (m <= j <= n)%nat -> exists k, ticks !! j = Some k /\ idle_now k = true.
Definition clock_monotone (ticks : list tick) : Prop :=
  forall i j a b, (i <= j)%nat -> ticks !! i = Some a -> ticks !! j = Some b -> tick_now a <= tick_now b.
(** The service was idle at every turn from [m] to [n] and [idle_timeout] passed between them. *)
Definition idle_window (idle_timeout : Z) (ticks : list tick) (m n : nat) : Prop :=
  (m < n)%nat /\ idle_between ticks m n /\
  exists a b, ticks !! m = Some a /\ ticks !! n = Some b /\ idle_timeout <= elapsed (tick_now a) (tick_now b).

Lemma idle_between_cons k ticks m n :
  idle_between ticks m n -> idle_between (k :: ticks) (S m) (S n).
Proof. intros H [|j] Hj; [lia|]. simpl. apply H. lia. Qed.

Lemma idle_between_uncons k ticks m n :
  idle_between (k :: ticks) m (S n) -> idle_between ticks (pred m) n.
Proof. intros H j Hj. apply (H (S j)). lia. Qed.

Lemma clock_monotone_tail k ticks : clock_monotone (k :: ticks) -> clock_monotone ticks.
Proof. intros H i j a b Hij. apply (H (S i) (S j)). lia. Qed.

Lemma timeout_signal_sound idle_timeout st ticks n :
  timeout_signal idle_timeout st ticks = Some n ->
  (exists m, idle_window idle_timeout ticks m n) \/
  (exists since b, st = Some since /\ idle_between ticks 0 n /\ ticks !! n = Some b /\
     idle_timeout <= elapsed since (tick_now b)).
Proof.
  revert st n. induction ticks as [|k ticks IH]; intros st n; simpl; [done|].
  unfold timeout_turn. destruct (idle_now k) eqn:Hk; [destruct st as [since|]; [case_bool_decide as Hd|]|].
  - intros [= <-]. right. exists since, k. split_and!; try done. intros j Hj. exists k.
    by replace j with 0%nat by lia.
  - destruct (timeout_signal _ _ ticks) as [n'|] eqn:Hn; simpl; [|done]. intros [= <-].
    destruct (IH _ _ Hn) as [(m & Hlt & Hi & Hw)|(s' & b & [= <-] & Hi & Hb & Hw)].
    + left. exists (S m). split_and!; [lia|by apply idle_between_cons|done].
    + right. exists since, b. split_and!; try done. intros [|j] Hj; [by exists k|].
      apply (idle_between_cons k ticks 0 n' Hi). lia.
  - destruct (timeout_signal _ _ ticks) as [n'|] eqn:Hn; simpl; [|done]. intros [= <-].
    destruct (IH _ _ Hn) as [(m & Hlt & Hi & Hw)|(s' & b & [= <-] & Hi & Hb & Hw)].
    + left. exists (S m). split_and!; [lia|by apply idle_between_cons|done].
    + left. exists 0%nat. split_and!; [lia| |by exists k, b]. intros [|j] Hj; [by exists k|].
      apply (idle_between_cons k ticks 0 n' Hi). lia.
  - destruct (timeout_signal _ _ ticks) as [n'|] eqn:Hn; simpl; [|done]. intros [= <-].
    destruct (IH _ _ Hn) as [(m & Hlt & Hi & Hw)|(s' & b & ? & _)]; [|done].
    left. exists (S m). split_and!; [lia|by apply idle_between_cons|done].
Qed.

Lemma timeout_signal_inside idle_timeout since since' ticks n b :
  since' <= since -> idle_between ticks 0 n -> ticks !! n = Some b ->
  idle_timeout <= elapsed since (tick_now b) ->
  exists n', timeout_signal idle_timeout (Some since') ticks = Some n' /\ (n' <= n)%nat.
Proof.
  intros Hs. revert n. induction ticks as [|k ticks IH]; intros n Hi Hb Hw; [done|]. simpl.
  destruct (Hi 0%nat) as (k' & [= <-] & Hk); [lia|]. unfold timeout_turn. rewrite Hk.
  case_bool_decide as Hd; [exists 0%nat; split; [done|lia]|]. destruct n as [|n].
  - simpl in Hb. injection Hb as <-. unfold elapsed in *. lia.
  - destruct (IH n) as (n' & Hn & Hle); [by apply (idle_between_uncons k _ 0)|done..|].
    exists (S n'). rewrite Hn. split; [done|lia].
Qed.

Lemma timeout_signal_complete idle_timeout st ticks m n :
  clock_monotone ticks -> (forall since k, st = Some since -> ticks !! 0%nat = Some k -> since <= tick_now k) ->
  idle_window idle_timeout ticks m n ->
  exists n', timeout_signal idle_timeout st ticks = Some n' /\ (n' <= n)%nat.
Proof.
  revert st m n. induction ticks as [|k ticks IH]; intros st m n Hmono Hst (Hlt & Hi & a & b & Ha & Hb & Hw); [done|].
  destruct n as [|n]; [lia|]. simpl in Hb. destruct m as [|m].
  - simpl in Ha. injection Ha as <-. destruct (Hi 0%nat) as (k' & [= <-] & Hk); [lia|].
    simpl. unfold timeout_turn. rewrite Hk. destruct st as [since|].
    + case_bool_decide; [exists 0%nat; split; [done|lia]|].
      destruct (timeout_signal_inside idle_timeout (tick_now k) since ticks n b) as (n' & -> & Hle);
        [by apply Hst|by apply (idle_between_uncons k _ 0)|done..|]. exists (S n'). split; [done|lia].
    + destruct (timeout_signal_inside idle_timeout (tick_now k) (tick_now k) ticks n b) as (n' & -> & Hle);
        [done|by apply (idle_between_uncons k _ 0)|done..|]. exists (S n'). split; [done|lia].
  - assert (forall st', (forall since k', st' = Some since -> ticks !! 0%nat = Some k' -> since <= tick_now k') ->
      exists n', S <$> timeout_signal idle_timeout st' ticks = Some n' /\ (n' <= S n)%nat) as Hrec.
    { intros st' Hst'. destruct (IH st' m n) as (n' & -> & Hle); [by eapply clock_monotone_tail|done| |].
      - split_and!; [lia|by apply (idle_between_uncons k _ (S m))|by eauto].
      - exists (S n'). split; [done|lia]. }
    assert (forall k', ticks !! 0%nat = Some k' -> tick_now k <= tick_now k') as Hk'.
    { intros k' Hk'. apply (Hmono 0%nat 1%nat); [lia|done|done]. }
    simpl. unfold timeout_turn. destruct (idle_now k); [destruct st as [since|]; [case_bool_decide|]|].
    + exists 0%nat. split; [done|lia].
    + apply Hrec. intros ? k' [= <-] Hh. specialize (Hst since k eq_refl eq_refl). specialize (Hk' k' Hh). lia.
    + apply Hrec. intros ? k' [= <-] Hh. by apply Hk'.
    + apply Hrec. done.
Qed.

(** The shutdown signal fires exactly after a full idle window: when it returns, the service had
    no session and no query at every turn of a window at least [idle_timeout] long; and on a
    monotone clock it returns no later than the end of the first such window. *)
Theorem timeout_signal_window idle_timeout ticks n :
  clock_monotone ticks ->
  (timeout_signal idle_timeout None ticks = Some n <->
   (exists m, idle_window idle_timeout ticks m n) /\
   forall m' n', idle_window idle_timeout ticks m' n' -> (n <= n')%nat).
Proof.
  intros Hmono. split.
  - intros Hn. split.
    + destruct (timeout_signal_sound _ _ _ _ Hn) as [|(? & ? & ? & _)]; done.
    + intros m' n' Hw. destruct (timeout_signal_complete idle_timeout None ticks m' n') as (n'' & Hn'' & Hle); try done.
      rewrite Hn in Hn''. by simplify_eq.
  - intros [[m Hw] Hmin]. destruct (timeout_signal_complete idle_timeout None ticks m n) as (n' & Hn & Hle); try done.
    destruct (timeout_signal_sound _ _ _ _ Hn) as [[m' Hw']|(? & ? & ? & _)]; [|done].
    pose proof (Hmin _ _ Hw'). rewrite Hn. f_equal. lia.
Qed.

(** ** A concrete run *)
Module ServiceDemo.
Notation st := (CoreExecutionService Registry.t nat).
Definition s1 : st := create_session 0 "a" new.
(** One [submit] up to its result. *)
Definition s2 : st := set_client 0 (SubmitChecked "q" None) (mark_submitted "q" s1).
Definition spawned (i : nat) (q : QueryId) (s : st) : st :=
  let '(token, handle, s') := submit_spawn q s in set_client i (SubmitSpawned q None token handle) s'.
Definition added (i : nat) (q : QueryId) (token handle : nat) (s : st) : st :=
  set_client i (SubmitAdded q handle) (submit_add q None token handle s).
Definition s3 : st := spawned 0 "q" s2.
Definition s4 : st := added 0 "q" 0 0 s3.
Definition s5 : st := set_client 0 (SubmitDone (Ok "q"%string)) (submit_start 0 s4).
Definition s6 : st := set_phase 0 (mkTask "q" 0 Opened) Executing s5.
Definition outcome : ExecutionTaskResult nat := execution_result "q" (ByResult (Ok 7%nat)).
Definition s7 : st := set_phase 0 (mkTask "q" 0 Executing) (Notifying outcome) s6.
Definition s8 : st := task_notify 0 (mkTask "q" 0 (Notifying outcome)) outcome s7.
(** One [wait]. *)
Definition s9 : st := set_client 0 (WaitStart "q") s8.
Definition s10 : st := set_client 0 (WaitBlocked "q" 0) s9.
Definition s11 : st := set_client 0 (WaitRemove "q") s10.
Definition s12 : st := set_client 0 (wait_remove "q" s11).1 (wait_remove "q" s11).2.
Definition entry : RunningQuery.t :=
  RunningQuery.mk "q" None (Some 0%nat) 0 0 default_stats.
Definition s13 : st := set_client 0 (WaitDone "q" (Ok 7%nat)) (drop_query entry s12).

Lemma submit_passes i q (s : st) :
  submit_check 1 "a" q s = Ok tt -> clients s !! i = None -> q ∉ submitted s ->
  estep 1 s (set_client i (SubmitChecked q None) (mark_submitted q s)).
Proof. intros Hs Hi Hq. pose proof (e_submit 1 s i "a" q None Hi Hq) as He. by rewrite Hs in He. Qed.

Lemma r2 : reachable 1 s2.
Proof.
  apply (reach_estep 1 s1).
  - apply (reach_estep 1 new); [apply reach_new|apply (e_insert_session 1 new 0 "a")].
  - apply submit_passes; [vm_compute; reflexivity|reflexivity|apply not_elem_of_empty].
Qed.
Lemma r7 : reachable 1 s7.
Proof.
  eapply reach_istep; [|apply (i_select s6 0 (mkTask "q" 0 Executing) (ByResult (Ok 7%nat))); vm_compute; reflexivity].
  eapply reach_istep; [|apply (i_run s5 0 (mkTask "q" 0 Opened)); vm_compute; reflexivity].
  eapply reach_istep; [|apply (i_open s4 0 "q" 0); vm_compute; reflexivity].
  eapply reach_istep; [|apply (i_add s3 0 "q" None 0 0); vm_compute; reflexivity].
  eapply reach_istep; [apply r2|apply (i_spawn s2 0 "q" None 0 0); [vm_compute; reflexivity|reflexivity]].
Qed.
Lemma wait_blocks i q c (s : st) :
  wait_start q s = Ok c -> clients s !! i = Some (WaitStart q) ->
  istep s (set_client i (WaitBlocked q c) s).
Proof. intros Hw Hi. pose proof (i_wait_start s i q Hi) as Hs. by rewrite Hw in Hs. Qed.

(** Two calls of [wait] that are both notified before either takes the result. *)
Definition w10 : st := set_client 1 (WaitStart "q") s10.
Definition w11 : st := set_client 1 (WaitBlocked "q" 0) w10.
Definition w12 : st := set_client 0 (WaitRemove "q") w11.
Definition w13 : st := set_client 1 (WaitRemove "q") w12.
Definition w14 : st := set_client 0 (wait_remove "q" w13).1 (wait_remove "q" w13).2.
Definition w15 : st := set_client 0 (WaitDone "q" (Ok 7%nat)) (drop_query entry w14).
Definition w17 : st := set_client 1 (wait_remove "q" w15).1 (wait_remove "q" w15).2.

Lemma r10 : reachable 1 s10.
Proof.
  eapply reach_istep; [|apply (wait_blocks 0 "q" 0 s9); vm_compute; reflexivity].
  eapply reach_estep; [|apply (e_query 1 s8 0 "q"); vm_compute; reflexivity].
  eapply reach_istep; [apply r7|apply (i_notify s7 0 (mkTask "q" 0 (Notifying outcome)) outcome); vm_compute; reflexivity].
Qed.
Lemma r13 : reachable 1 s13.
Proof.
  eapply reach_istep; [|apply (i_wait_join s12 0 "q" entry); vm_compute; reflexivity].
  eapply reach_istep; [|eapply (i_wait_remove s11 0 "q"); [vm_compute; reflexivity|apply surjective_pairing]].
  eapply reach_istep; [apply r10|apply (i_wait_ready s10 0 "q" 0 Success); vm_compute; reflexivity].
Qed.
Lemma rw17 : reachable 1 w17.
Proof.
  eapply reach_istep; [|eapply (i_wait_remove w15 1 "q"); [vm_compute; reflexivity|apply surjective_pairing]].
  eapply reach_istep; [|apply (i_wait_join w14 0 "q" entry); vm_compute; reflexivity].
  eapply reach_istep; [|eapply (i_wait_remove w13 0 "q"); [vm_compute; reflexivity|apply surjective_pairing]].
  eapply reach_istep; [|apply (i_wait_ready w12 1 "q" 0 Success); vm_compute; reflexivity].
  eapply reach_istep; [|apply (i_wait_ready w11 0 "q" 0 Success); vm_compute; reflexivity].
  eapply reach_istep; [|apply (wait_blocks 1 "q" 0 w10); vm_compute; reflexivity].
  eapply reach_estep; [apply r10|apply (e_wait 1 s10 1 "q"); vm_compute; reflexivity].
Qed.

(** Two calls of [submit] that both pass the check before either adds its query. *)
Definition c3 : st := set_client 1 (SubmitChecked "p" None) (mark_submitted "p" s2).
Definition c7 : st := added 1 "p" 1 1 (added 0 "q" 0 0 (spawned 1 "p" (spawned 0 "q" c3))).

Lemma rc7 : reachable 1 c7.
Proof.
  eapply reach_istep; [|apply (i_add (added 0 "q" 0 0 (spawned 1 "p" (spawned 0 "q" c3))) 1 "p" None 1 1); vm_compute; reflexivity].
  eapply reach_istep; [|apply (i_add (spawned 1 "p" (spawned 0 "q" c3)) 0 "q" None 0 0); vm_compute; reflexivity].
  eapply reach_istep; [|apply (i_spawn (spawned 0 "q" c3) 1 "p" None 1 1); [vm_compute; reflexivity|reflexivity]].
  eapply reach_istep; [|apply (i_spawn c3 0 "q" None 0 0); [vm_compute; reflexivity|reflexivity]].
  apply (reach_estep 1 s2); [apply r2|]. apply submit_passes; [vm_compute; reflexivity|vm_compute; reflexivity|].
  unfold s2; simpl. rewrite elem_of_union, elem_of_singleton. intros [Hp|Hp]; [discriminate Hp|].
  by apply not_elem_of_empty in Hp.
Qed.
End ServiceDemo.

(** The concurrency limit is not enforced between calls that race: with a limit of one query, two
    calls of [submit] that both read the count before either registers its query leave two queries
    running. *)
Theorem concurrency_limit_race :
  exists s : CoreExecutionService Registry.t nat, reachable 1 s /\ count (queries s) = 2%nat.
Proof. exists ServiceDemo.c7. split; [apply ServiceDemo.rc7|vm_compute; reflexivity]. Qed.

Lemma notify_never_fails_witness :
  exists a', tasks (task_notify 0 (mkTask "q" 0 (Notifying ServiceDemo.outcome)) ServiceDemo.outcome ServiceDemo.s7) !! 0%nat
             = Some a' /\ task_phase a' = Finished (Ok 7%nat).
Proof.
  exact (proj2 (notify_never_fails 1 ServiceDemo.s7 0 (mkTask "q" 0 (Notifying ServiceDemo.outcome))
    ServiceDemo.outcome ServiceDemo.r7 eq_refl eq_refl)).
Defined.

Lemma wait_outcome_witness :
  clients ServiceDemo.s13 !! 0%nat = Some (WaitDone "q" (Ok 7%nat)) /\
  (Ok 7%nat = Err (QueryIsntRunning "q") \/
   (own_result "q" (Ok 7%nat) /\
    exists t a, tasks ServiceDemo.s13 !! t = Some a /\ task_query a = "q"%string /\ task_phase a = Finished (Ok 7%nat))).
Proof. exact (conj eq_refl (wait_outcome 1 ServiceDemo.s13 0 "q" (Ok 7%nat) ServiceDemo.r13 eq_refl)). Defined.

(** Two calls waited for the query: the first took its result, the second found it gone. *)
Lemma result_taken_once_witness :
  clients ServiceDemo.w17 !! 0%nat = Some (WaitDone "q" (Ok 7%nat)) /\
  exists r, clients ServiceDemo.w17 !! 1%nat = Some (WaitDone "q" r) /\ r = Err (QueryIsntRunning "q").
Proof.
  split; [reflexivity|]. eexists. split; [reflexivity|].
  apply (result_taken_once 1 ServiceDemo.w17 0 1 "q" (Ok 7%nat) _ ServiceDemo.rw17 eq_refl eq_refl); intros H; discriminate H.
Defined.

Lemma calls_terminate_witness :
  isteps 2 ServiceDemo.s2 ServiceDemo.s4 /\ (2 <= 9)%nat.
Proof.
  assert (isteps 2 ServiceDemo.s2 ServiceDemo.s4) as Hsteps.
  { eapply isteps_S; [apply (i_spawn ServiceDemo.s2 0 "q" None 0 0); [vm_compute; reflexivity|reflexivity]|].
    eapply isteps_S; [apply (i_add ServiceDemo.s3 0 "q" None 0 0); vm_compute; reflexivity|]. apply isteps_0. }
  exact (conj Hsteps (proj1 (calls_terminate 1 ServiceDemo.s2 ServiceDemo.r2) _ _ Hsteps)).
Defined.

Lemma submit_respects_limit_witness :
  (submit 1 "a" "q" None ServiceDemo.s1).1 = Ok "q"%string
  /\ (submit 1 "a" "p" None (submit 1 "a" "q" None ServiceDemo.s1).2).1
     = Err (QueryExecution "p" ConcurrencyLimit).
Proof.
  split.
  - refine (eq_trans (proj2 (submit_respects_limit 1 "a" "q" None ServiceDemo.s1 _ _)) _).
    + vm_compute. lia.
    + eexists. vm_compute. reflexivity.
    + vm_compute. reflexivity.
  - refine (eq_trans (proj2 (submit_respects_limit 1 "a" "p" None (submit 1 "a" "q" None ServiceDemo.s1).2 _ _)) _).
    + vm_compute. lia.
    + eexists. vm_compute. reflexivity.
    + vm_compute. reflexivity.
Defined.

Lemma active_session_survives_witness :
  session_exists "a" (fold_left (fun s t => delete_expired_sessions t s) [100; 15000]
    (update_session_expiry 1000 "a" ServiceDemo.s1).2) = true.
Proof.
  apply (active_session_survives 1000 [100; 15000] ServiceDemo.s1 "a").
  - vm_compute. reflexivity.
  - repeat constructor; unfold SESSION_INACTIVITY_EXPIRATION_SECONDS; lia.
Defined.

Lemma timeout_signal_window_witness :
  timeout_signal 60 None [mkTick 0 true false; mkTick 40 true true; mkTick 80 true true; mkTick 120 true true]
  = Some 3%nat <->
  (exists m, idle_window 60 [mkTick 0 true false; mkTick 40 true true; mkTick 80 true true; mkTick 120 true true] m 3) /\
  forall m' n', idle_window 60 [mkTick 0 true false; mkTick 40 true true; mkTick 80 true true; mkTick 120 true true] m' n' -> (3 <= n')%nat.
Proof.
  apply timeout_signal_window. intros i j a b Hij Hi Hj.
  do 4 (destruct i as [|i]; [do 4 (destruct j as [|j]; [simpl in *; simplify_eq; simpl; lia|]); done|]). done.
Defined.
