(* ===== verification/MergeSink.v ===== *)
(** * The copy-on-write MERGE sink

    Models [crates/executor/src/datafusion/physical_plan/merge.rs]: the stream that counts the rows
    each clause touched, remembers which data files the batches came from and projects the
    auxiliary columns away, and the commit that follows it.  The Arrow kernels and the Iceberg
    writer are parameters; [ArrowLaws] states what their documentation promises. *)

From Stdlib Require Import ZArith Lia Ascii String.
From stdpp Require Import base option list gmap strings.
From S2P Require Import Prelude.

(** ** Arrow data *)

(** A slot of a [StringArray]: its validity bit and the bytes behind it, which exist for a null
    slot too. *)
Record cell := mkCell { valid : bool; bytes : string }.
Definition logical (c : cell) : option string := if valid c then Some (bytes c) else None.

(** A [BooleanArray]: the value bitmap and the optional validity bitmap. *)
Record BooleanArray := mkBools { values : list bool; nulls : option (list bool) }.

Inductive column :=
| Utf8 (l : list cell)
| Boolean (b : BooleanArray)
| OtherColumn (l : list Z).

Definition column_len (c : column) : nat :=
  match c with Utf8 l => length l | Boolean b => length (values b) | OtherColumn l => length l end.

Record RecordBatch := mkBatch { schema : list string; columns : list column }.

Class Arrow := {
  distinct : list cell -> list cell -> result string (list bool);
  filter_cells : list cell -> list bool -> result string (list cell);
  try_new : list string -> list column -> result string RecordBatch }.

(** [distinct] is the null-aware comparison (two nulls are not distinct). *)
Definition cell_distinct (a b : cell) : bool := bool_decide (logical a <> logical b).

Fixpoint keep {A} (l : list A) (mask : list bool) : list A :=
  match l, mask with
  | x :: l, b :: mask => if b then x :: keep l mask else keep l mask
  | _, _ => []
  end.

Class ArrowLaws {A : Arrow} : Prop := {
  distinct_spec : forall a b, length a = length b -> distinct a b = Ok (zip_with cell_distinct a b);
  filter_spec : forall l mask, length l = length mask -> filter_cells l mask = Ok (keep l mask);
  try_new_spec : forall names cols n, length names = length cols -> cols <> [] ->
    Forall (fun c => column_len c = n) cols -> try_new names cols = Ok (mkBatch names cols) }.

(** ** Counting *)
Definition count_set_bits (l : list bool) : nat := length (filter (fun b => b = true) l).
Definition null_count (a : BooleanArray) : nat :=
  match nulls a with None => 0 | Some v => length (filter (fun b => b = false) v) end.
Definition logical_nulls (a : BooleanArray) : option (list bool) := nulls a.
Definition bitand (a b : list bool) : list bool := zip_with andb a b.

Definition count_true_and_valid (arr : BooleanArray) : nat :=
  if Nat.eqb (null_count arr) 0 then count_set_bits (values arr)
  else match logical_nulls arr with
       | Some valid => count_set_bits (bitand (values arr) valid)
       | None => count_set_bits (values arr)
       end.

Definition usize_to_i64_saturating (v : nat) : Z :=
  if bool_decide (Z.of_nat v <= i64_max) then Z.of_nat v else i64_max.

(** ** Files *)
Section files.
Context {A : Arrow}.

(** [value(0)]: the bytes of the first slot, valid or not. *)
Definition first_value (l : list cell) : string :=
  match l with c :: _ => bytes c | [] => "" end.

Definition insert_pair (acc : gmap string string) (manifest file : option string) : gmap string string :=
  match manifest, file with
  | Some manifest, Some file => if bool_decide (file = ""%string) then acc else <[file := manifest]> acc
  | _, _ => acc
  end.

Definition fold_pairs (init : gmap string string) (manifests files : list cell) : gmap string string :=
  fold_left (fun acc (p : cell * cell) => insert_pair acc (logical p.1) (logical p.2)) (zip manifests files) init.

Definition unique_files_and_manifests (files manifests : list cell) : result string (gmap string string) :=
  if Nat.eqb (length files) 0 then Ok ∅
  else
    let first_file := first_value files in
    let first_manifest := first_value manifests in
    let init := if bool_decide (first_file = ""%string) then ∅ else {[first_file := first_manifest]} in
    let slice_len := (length files - 1)%nat in
    if Nat.eqb slice_len 0 then Ok init
    else
      let v1 := take slice_len files in
      let v2 := take slice_len (drop 1 files) in
      let manifests := take slice_len (drop 1 manifests) in
      result_bind (distinct v1 v2) (fun mask =>
      result_bind (filter_cells v2 mask) (fun unique_files =>
      result_bind (filter_cells manifests mask) (fun unique_manifests =>
      Ok (fold_pairs init unique_manifests unique_files)))).

(** ** The stream *)
Definition TARGET_EXISTS_COLUMN : string := "__target_exists".
Definition SOURCE_EXISTS_COLUMN : string := "__source_exists".
Definition DATA_FILE_PATH_COLUMN : string := "__data_file_path".
Definition MANIFEST_FILE_PATH_COLUMN : string := "__manifest_file_path".
Definition MERGE_UPDATED_COLUMN : string := "__merge_row_updated".
Definition MERGE_INSERTED_COLUMN : string := "__merge_row_inserted".

Record MergeCOWCountAndProjectStream := mkStream {
  projection_indices : list nat;
  projected_schema : list string;
  updated_idx : option nat;
  inserted_idx : option nat;
  updated_rows : Z;
  inserted_rows : Z;
  updated_rows_metric : nat;
  inserted_rows_metric : nat;
  data_file_path_idx : nat;
  manifest_file_path_idx : nat;
  matching_files : gmap string string;
  matching_files_ref : option (gmap string (list string)) }.

(** [Schema::index_of]: the first field of that name. *)
Fixpoint index_of (names : list string) (name : string) : option nat :=
  match names with
  | [] => None
  | x :: names => if bool_decide (x = name) then Some 0%nat else S <$> index_of names name
  end.

Definition projected (name : string) : bool :=
  negb (bool_decide (name = SOURCE_EXISTS_COLUMN)) && negb (bool_decide (name = DATA_FILE_PATH_COLUMN))
  && negb (bool_decide (name = MANIFEST_FILE_PATH_COLUMN)) && negb (bool_decide (name = MERGE_UPDATED_COLUMN))
  && negb (bool_decide (name = MERGE_INSERTED_COLUMN)).

(** [enumerate().filter_map(..)]. *)
Fixpoint projected_indices (i : nat) (names : list string) : list nat :=
  match names with
  | [] => []
  | x :: names => if projected x then i :: projected_indices (S i) names else projected_indices (S i) names
  end.

Definition new (input_schema : list string) : MergeCOWCountAndProjectStream :=
  let projection_indices := projected_indices 0 input_schema in
  {| projection_indices := projection_indices;
     projected_schema := omap (fun i => input_schema !! i) projection_indices;
     updated_idx := index_of input_schema MERGE_UPDATED_COLUMN;
     inserted_idx := index_of input_schema MERGE_INSERTED_COLUMN;
     updated_rows := 0;
     inserted_rows := 0;
     updated_rows_metric := 0;
     inserted_rows_metric := 0;
     data_file_path_idx := default 0%nat (index_of input_schema DATA_FILE_PATH_COLUMN);
     manifest_file_path_idx := default 0%nat (index_of input_schema MANIFEST_FILE_PATH_COLUMN);
     matching_files := ∅;
     matching_files_ref := None |}.

Inductive poll_error := Internal (e : string) | Panic.

Definition with_files (m : gmap string string) (s : MergeCOWCountAndProjectStream) :=
  mkStream (projection_indices s) (projected_schema s) (updated_idx s) (inserted_idx s) (updated_rows s)
    (inserted_rows s) (updated_rows_metric s) (inserted_rows_metric s) (data_file_path_idx s)
    (manifest_file_path_idx s) m (matching_files_ref s).
Definition add_updated (n : nat) (s : MergeCOWCountAndProjectStream) :=
  mkStream (projection_indices s) (projected_schema s) (updated_idx s) (inserted_idx s)
    (wrap_i64 (updated_rows s + usize_to_i64_saturating n)) (inserted_rows s) (updated_rows_metric s + n)%nat
    (inserted_rows_metric s) (data_file_path_idx s) (manifest_file_path_idx s) (matching_files s)
    (matching_files_ref s).
Definition add_inserted (n : nat) (s : MergeCOWCountAndProjectStream) :=
  mkStream (projection_indices s) (projected_schema s) (updated_idx s) (inserted_idx s) (updated_rows s)
    (wrap_i64 (inserted_rows s + usize_to_i64_saturating n)) (updated_rows_metric s)
    (inserted_rows_metric s + n)%nat (data_file_path_idx s) (manifest_file_path_idx s) (matching_files s)
    (matching_files_ref s).

(** [downcast_array::<BooleanArray>] of a column that may be missing. *)
Definition count_column (idx : option nat) (b : RecordBatch) : result poll_error (option nat) :=
  match idx ≫= fun i => columns b !! i with
  | None => Ok None
  | Some (Boolean a) => Ok (Some (count_true_and_valid a))
  | Some _ => Err Panic
  end.

Definition string_column (i : nat) (b : RecordBatch) : result poll_error (list cell) :=
  match columns b !! i with Some (Utf8 l) => Ok l | _ => Err Panic end.

(** [poll_next] on a batch. *)
Definition poll_batch (b : RecordBatch) (s : MergeCOWCountAndProjectStream)
  : result poll_error RecordBatch * MergeCOWCountAndProjectStream :=
  match string_column (data_file_path_idx s) b, string_column (manifest_file_path_idx s) b with
  | Ok data_file_col, Ok manifest_file_col =>
      match unique_files_and_manifests data_file_col manifest_file_col with
      | Err e => (Err (Internal e), s)
      | Ok file_pairs =>
          let s := with_files (file_pairs ∪ matching_files s) s in
          match count_column (updated_idx s) b with
          | Err e => (Err e, s)
          | Ok n =>
              let s := match n with Some n => add_updated n s | None => s end in
              match count_column (inserted_idx s) b with
              | Err e => (Err e, s)
              | Ok n =>
                  let s := match n with Some n => add_inserted n s | None => s end in
                  match mapM (fun i => columns b !! i) (projection_indices s) with
                  | None => (Err Panic, s)
                  | Some cols =>
                      match try_new (projected_schema s) cols with
                      | Ok batch => (Ok batch, s)
                      | Err e => (Err (Internal ("Failed to project MERGE record batch: " +:+ e)), s)
                      end
                  end
              end
          end
      end
  | _, _ => (Err Panic, s)
  end.

(** The grouping at the end of the stream; [order] is the iteration order of the hash map. *)
Definition group_file (grouped : gmap string (list string)) (p : string * string) : gmap string (list string) :=
  let '(file, manifest) := p in
  match grouped !! manifest with
  | Some v => <[manifest := v ++ [file]]> grouped
  | None => <[manifest := [file]]> grouped
  end.

Definition poll_end (order : list (string * string)) (s : MergeCOWCountAndProjectStream) : MergeCOWCountAndProjectStream :=
  mkStream (projection_indices s) (projected_schema s) (updated_idx s) (inserted_idx s) (updated_rows s)
    (inserted_rows s) (updated_rows_metric s) (inserted_rows_metric s) (data_file_path_idx s)
    (manifest_file_path_idx s) ∅ (Some (fold_left group_file order ∅)).

(** What the writer reads: batches until the input ends or one fails. *)
Fixpoint drain (bs : list RecordBatch) (s : MergeCOWCountAndProjectStream)
  : result poll_error (list RecordBatch) * MergeCOWCountAndProjectStream :=
  match bs with
  | [] => (Ok [], s)
  | b :: bs =>
      match poll_batch b s with
      | (Err e, s) => (Err e, s)
      | (Ok out, s) => match drain bs s with
                       | (Ok outs, s) => (Ok (out :: outs), s)
                       | (Err e, s) => (Err e, s)
                       end
      end
  end.
End files.

(** ** The commit *)
Inductive transaction :=
| NoTransaction
| AppendData (datafiles : list string)
| Overwrite (datafiles : list string) (matching : gmap string (list string)).

Definition MATCHING_FILES_CONSUMED : string := "Matching files have already been consumed".

(** The transaction [execute] commits once the data files are written. *)
Definition commit (datafiles : list string) (matching : option (gmap string (list string)))
  : result string transaction :=
  match matching with
  | None => Err MATCHING_FILES_CONSUMED
  | Some matching =>
      Ok (match datafiles with
          | [] => NoTransaction
          | _ => if bool_decide (matching = ∅) then AppendData datafiles else Overwrite datafiles matching
          end)
  end.

(** The one-row result. *)
Definition result_value (inserted updated : Z) (name : string) : result string Z :=
  if bool_decide (name = "number of rows inserted"%string) then Ok inserted
  else if bool_decide (name = "number of rows updated"%string) then Ok updated
  else if bool_decide (name = "number of rows deleted"%string) then Ok 0
  else Err ("Unexpected MERGE result column: " +:+ name)%string.

Definition result_row (inserted updated : Z) (names : list string) : result string (list Z) :=
  traverse (result_value inserted updated) names.

(** ** Files: the kernels compute the pairs of the batch *)

(** A batch row's data file and manifest, as the two columns hold them. *)
Notation file_row := (cell * cell)%type.

Definition row_pair (p : file_row) : option (string * string) :=
  match logical p.1, logical p.2 with
  | Some f, Some m => if bool_decide (f = ""%string) then None else Some (f, m)
  | _, _ => None
  end.

(** Data file [f] of manifest [m] appears in the rows. *)
Definition touches (rows : list file_row) (f m : string) : Prop :=
  exists p, p ∈ rows /\ row_pair p = Some (f, m).

(** What the scan of an Iceberg table produces: null slots are empty, a data file comes with its
    manifest, and always with the same one. *)
Record coherent (rows : list file_row) : Prop := {
  null_is_empty : forall p, p ∈ rows -> valid p.1 = false -> bytes p.1 = ""%string;
  file_has_manifest : forall p, p ∈ rows -> valid p.1 = true -> bytes p.1 <> ""%string -> valid p.2 = true;
  one_manifest : forall f m m', touches rows f m -> touches rows f m' -> m = m' }.

Lemma touches_app r1 r2 f m : touches (r1 ++ r2) f m <-> touches r1 f m \/ touches r2 f m.
Proof. unfold touches. setoid_rewrite elem_of_app. naive_solver. Qed.

Lemma touches_cons p rows f m : touches (p :: rows) f m <-> row_pair p = Some (f, m) \/ touches rows f m.
Proof. unfold touches. setoid_rewrite elem_of_cons. naive_solver. Qed.

Lemma touches_sub r1 r2 f m : (forall p, p ∈ r1 -> p ∈ r2) -> touches r1 f m -> touches r2 f m.
Proof. intros H (p & Hp & Hr). exists p. eauto. Qed.

Lemma coherent_sub r1 r2 : (forall p, p ∈ r1 -> p ∈ r2) -> coherent r2 -> coherent r1.
Proof.
  intros H [H1 H2 H3]. split; [by eauto..|]. intros f m m' T1 T2.
  eapply H3; eapply touches_sub; eauto.
Qed.

Definition insert_row (acc : gmap string string) (p : file_row) : gmap string string :=
  match row_pair p with Some (f, m) => <[f := m]> acc | None => acc end.

Lemma insert_pair_row acc p : insert_pair acc (logical p.2) (logical p.1) = insert_row acc p.
Proof.
  unfold insert_row, row_pair, insert_pair. destruct (logical p.1), (logical p.2); try done.
  by case_bool_decide.
Qed.

#[global] Instance touches_dec rows f m : Decision (touches rows f m).
Proof.
  destruct (decide (Exists (fun p => row_pair p = Some (f, m)) rows)) as [H|H]; [left|right];
    unfold touches; rewrite Exists_exists in H; exact H.
Defined.

(** Every entry comes from a row, and with one manifest per file every row has its entry. *)
Lemma fold_insert_sound rows acc f m :
  fold_left insert_row rows acc !! f = Some m -> touches rows f m \/ acc !! f = Some m.
Proof.
  revert acc. induction rows as [|p rows IH]; intros acc; simpl; [by right|].
  rewrite touches_cons. intros [H|H]%IH; [naive_solver|]. unfold insert_row in H.
  destruct (row_pair p) as [[f' m']|]; [|naive_solver]. rewrite lookup_insert in H.
  case_decide; naive_solver.
Qed.

Lemma fold_insert_complete rows acc f m :
  (forall m', touches rows f m' -> m' = m) -> touches rows f m \/ acc !! f = Some m ->
  fold_left insert_row rows acc !! f = Some m.
Proof.
  revert acc. induction rows as [|p rows IH]; intros acc Hf; simpl.
  - unfold touches. setoid_rewrite elem_of_nil. naive_solver.
  - setoid_rewrite touches_cons in Hf. rewrite touches_cons. intros H.
    apply IH; [naive_solver|]. unfold insert_row.
    destruct (row_pair p) as [[f' m']|] eqn:Hp; [|naive_solver].
    destruct (decide (f' = f)) as [->|Hne].
    + right. rewrite lookup_insert_eq. f_equal. apply Hf. by left.
    + rewrite lookup_insert_ne by done. naive_solver.
Qed.

(** The rows whose file differs from the row before. *)
Fixpoint kept (prev : cell) (rows : list file_row) : list file_row :=
  match rows with
  | [] => []
  | p :: rows => if cell_distinct prev p.1 then p :: kept p.1 rows else kept p.1 rows
  end.

Lemma kept_sub prev rows p : p ∈ kept prev rows -> p ∈ rows.
Proof.
  revert prev. induction rows as [|q rows IH]; intros prev; simpl; [done|].
  destruct (cell_distinct prev q.1); rewrite ?elem_of_cons; naive_solver.
Qed.

Lemma fold_kept init prev fs ms :
  length fs = length ms ->
  let mask := zip_with cell_distinct (take (length fs) (prev :: fs)) fs in
  fold_pairs init (keep ms mask) (keep fs mask) = fold_left insert_row (kept prev (zip fs ms)) init.
Proof.
  unfold fold_pairs. revert prev ms init. induction fs as [|f fs IH]; intros prev [|m ms] init Hl; try done.
  injection Hl as Hl. simpl. destruct (cell_distinct prev f); simpl.
  - rewrite <- (IH f ms _ Hl). by rewrite <- (insert_pair_row init (f, m)).
  - apply (IH f ms init Hl).
Qed.

(** A dropped row repeats the file, hence the pair, of the row before it. *)
Lemma touches_kept rows prev f m :
  coherent (prev :: rows) -> row_pair prev = Some (f, m) \/ touches rows f m ->
  row_pair prev = Some (f, m) \/ touches (kept prev.1 rows) f m.
Proof.
  revert prev. induction rows as [|p rows IH]; intros prev Hc; [done|]. rewrite touches_cons.
  assert (coherent (p :: rows)) as Hc' by (eapply coherent_sub; [|done]; intros; by apply elem_of_cons; right).
  intros H. destruct (decide (row_pair prev = Some (f, m))) as [|Hn]; [by left|]. right.
  destruct H as [|H]; [done|]. simpl. destruct (cell_distinct prev.1 p.1) eqn:Hd.
  - rewrite touches_cons. by apply IH.
  - destruct (IH p Hc' H) as [Hp|]; [|done]. exfalso. apply Hn.
    unfold cell_distinct in Hd. apply bool_decide_eq_false in Hd. apply dec_stable in Hd.
    assert (touches (prev :: p :: rows) f m) as T.
    { exists p. rewrite !elem_of_cons. naive_solver. }
    unfold row_pair in *. rewrite Hd. destruct (logical p.1) as [f'|] eqn:Hf; [|done].
    destruct (logical p.2) as [m'|] eqn:Hm; [|done]. case_bool_decide; [done|]. injection Hp as -> ->.
    destruct (logical prev.2) as [m''|] eqn:Hm'.
    + f_equal. f_equal. eapply (one_manifest _ Hc f); [|done]. exists prev. split; [by left|].
      unfold row_pair. rewrite Hd, Hm'. by rewrite bool_decide_false.
    + exfalso. assert (valid prev.2 = true) as Hv.
      { assert (logical prev.1 = Some f) as Hl by done. unfold logical in Hl. destruct (valid prev.1) eqn:E; [|done].
        injection Hl as Hl. apply (file_has_manifest _ Hc prev); [by left|done|congruence]. }
      unfold logical in Hm'. by rewrite Hv in Hm'.
Qed.

Section files_spec.
Context {A : Arrow} {laws : ArrowLaws}.

Lemma unique_files_eq f0 fs m0 ms :
  length fs = length ms ->
  unique_files_and_manifests (f0 :: fs) (m0 :: ms) =
  Ok (fold_left insert_row (kept f0 (zip fs ms))
        (if bool_decide (bytes f0 = ""%string) then ∅ else {[bytes f0 := bytes m0]})).
Proof.
  intros Hl. unfold unique_files_and_manifests. simpl. rewrite Nat.sub_0_r. destruct fs as [|f1 fs].
  - by destruct ms.
  - cbn [Nat.eqb length]. rewrite !drop_0. rewrite (take_ge (f1 :: fs)) by (simpl; lia).
    rewrite (take_ge ms) by (simpl in *; lia). rewrite distinct_spec; [|rewrite length_take; simpl; lia].
    cbn [result_bind]. rewrite filter_spec; [|rewrite length_zip_with, length_take; simpl; lia].
    cbn [result_bind]. rewrite filter_spec; [|rewrite length_zip_with, length_take; simpl in *; lia].
    cbn [result_bind]. f_equal. exact (fold_kept _ f0 (f1 :: fs) ms Hl).
Qed.

Lemma first_row_pair f0 m0 rows :
  coherent ((f0, m0) :: rows) ->
  (if bool_decide (bytes f0 = ""%string) then ∅ else {[bytes f0 := bytes m0]}) = insert_row ∅ (f0, m0).
Proof.
  intros Hc. pose proof (null_is_empty _ Hc (f0, m0)) as H1. pose proof (file_has_manifest _ Hc (f0, m0)) as H2.
  unfold insert_row, row_pair, logical. simpl in *. destruct (valid f0) eqn:Hf; simpl.
  - case_bool_decide as Hb; simpl.
    + by destruct (valid m0).
    + by rewrite H2; [|left| |].
  - rewrite H1; [done|by left|done].
Qed.

Lemma unique_files_spec files manifests :
  length files = length manifests -> coherent (zip files manifests) ->
  exists m, unique_files_and_manifests files manifests = Ok m /\
    forall f x, m !! f = Some x <-> touches (zip files manifests) f x.
Proof.
  intros Hl Hc. destruct files as [|f0 fs], manifests as [|m0 ms]; try done.
  - exists ∅. split; [done|]. intros f x. unfold touches. setoid_rewrite elem_of_nil. rewrite lookup_empty. naive_solver.
  - injection Hl as Hl. rewrite unique_files_eq by done. simpl in Hc. rewrite (first_row_pair _ _ _ Hc).
    eexists. split; [done|]. intros f x. simpl. rewrite touches_cons.
    assert (forall m', touches (kept f0 (zip fs ms)) f m' -> touches (zip fs ms) f m') as Hk.
    { intros m'. apply touches_sub. apply kept_sub. }
    assert (forall m', insert_row ∅ (f0, m0) !! f = Some m' -> row_pair (f0, m0) = Some (f, m')) as Hi.
    { intros m'. unfold insert_row. destruct (row_pair (f0, m0)) as [[f' m'']|]; [|done].
      rewrite lookup_insert. case_decide; [by intros [= ->]; subst|done]. }
    assert (forall m', row_pair (f0, m0) = Some (f, m') -> insert_row ∅ (f0, m0) !! f = Some m') as Hi'.
    { intros m' Hp. unfold insert_row. rewrite Hp. apply lookup_insert_eq. }
    split.
    + intros [T|T]%fold_insert_sound; [right; by apply Hk|left; by apply Hi].
    + intros T. apply fold_insert_complete.
      * intros m' T'. apply (one_manifest _ Hc f); rewrite touches_cons; [right; by apply Hk|done].
      * destruct (touches_kept (zip fs ms) (f0, m0) f x Hc T) as [Hp|]; [right; by apply Hi'|by left].
Qed.
End files_spec.

(** ** Grouping *)
Lemma group_lookup order g man :
  default [] (fold_left group_file order g !! man) =
  default [] (g !! man) ++ (filter (fun p => p.2 = man) order).*1.
Proof.
  revert g. induction order as [|[f m] order IH]; intros g; simpl; [by rewrite app_nil_r|].
  rewrite IH. rewrite filter_cons. unfold group_file. simpl. case_decide as Hd; simpl.
  - subst. destruct (g !! man) as [v|]; rewrite lookup_insert_eq; simpl; [by rewrite <- app_assoc|done].
  - f_equal. destruct (g !! m) as [v|]; by rewrite lookup_insert_ne.
Qed.

Lemma group_files_spec (m : gmap string string) order man :
  order ≡ₚ map_to_list m ->
  NoDup (default [] (fold_left group_file order ∅ !! man)) /\
  forall f, f ∈ default [] (fold_left group_file order ∅ !! man) <-> m !! f = Some man.
Proof.
  intros Ho. rewrite group_lookup, lookup_empty. simpl.
  assert (NoDup order.*1) as Hnd by (rewrite Ho; apply NoDup_fst_map_to_list).
  split.
  - eapply sublist_NoDup; [done|]. apply fmap_sublist. apply sublist_filter.
  - intros f. rewrite list_elem_of_fmap. split.
    + intros ([f' man'] & -> & Hin). rewrite list_elem_of_filter in Hin. simpl in Hin. destruct Hin as [<- Hin].
      apply elem_of_map_to_list. by rewrite <- Ho.
    + intros Hm. exists (f, man). split; [done|]. rewrite list_elem_of_filter. split; [done|].
      rewrite Ho. by apply elem_of_map_to_list.
Qed.

(** ** Projection *)
Definition project (names : list string) (b : RecordBatch) : RecordBatch :=
  let kept := filter (fun p : string * column => projected p.1 = true) (zip names (columns b)) in
  mkBatch kept.*1 kept.*2.

Lemma mapM_projected pre names (cols : list column) :
  length cols = length names ->
  mapM (fun i => (pre ++ cols) !! i) (projected_indices (length pre) names)
  = Some (filter (fun p : string * column => projected p.1 = true) (zip names cols)).*2.
Proof.
  revert pre cols. induction names as [|x names IH]; intros pre [|c cols] Hl; try done. injection Hl as Hl.
  simpl. specialize (IH (pre ++ [c]) cols Hl). rewrite length_app, Nat.add_1_r, <- app_assoc in IH. simpl in IH.
  rewrite filter_cons. simpl. destruct (projected x) eqn:Hx; simpl.
  - rewrite lookup_app_r, Nat.sub_diag by lia. simpl. by rewrite IH.
  - done.
Qed.

Lemma omap_projected pre names :
  omap (fun i => (pre ++ names) !! i) (projected_indices (length pre) names)
  = filter (fun x => projected x = true) names.
Proof.
  revert pre. induction names as [|x names IH]; intros pre; [done|].
  specialize (IH (pre ++ [x])). rewrite length_app, Nat.add_1_r, <- app_assoc in IH.
  cbn [length app] in IH. rewrite filter_cons. cbn [projected_indices].
  destruct (projected x) eqn:Hx; rewrite ?decide_True, ?decide_False by done; [|done].
  change (match (pre ++ x :: names) !! length pre with
          | Some y => y :: omap (fun i => (pre ++ x :: names) !! i) (projected_indices (S (length pre)) names)
          | None => omap (fun i => (pre ++ x :: names) !! i) (projected_indices (S (length pre)) names)
          end = x :: filter (fun x => projected x = true) names).
  rewrite lookup_app_r, Nat.sub_diag by lia. simpl. by rewrite <- IH.
Qed.

Lemma zip_filter_fst names (cols : list column) :
  length cols = length names ->
  (filter (fun p : string * column => projected p.1 = true) (zip names cols)).*1
  = filter (fun x => projected x = true) names.
Proof.
  revert cols. induction names as [|x names IH]; intros [|c cols] Hl; try done. injection Hl as Hl. simpl.
  rewrite !filter_cons. simpl. destruct (projected x); simpl; by rewrite IH.
Qed.

(** ** What is counted *)

(** The slot is set and not null. *)
Definition slot_true (a : BooleanArray) (i : nat) : bool :=
  default false (values a !! i) && match nulls a with None => true | Some v => default false (v !! i) end.

Lemma count_set_bits_seq l :
  count_set_bits l = length (filter (fun i => default false (l !! i) = true) (seq 0 (length l))).
Proof.
  unfold count_set_bits. induction l as [|b l IH] using rev_ind; [done|].
  rewrite length_app, Nat.add_1_r, seq_S, !filter_app, !length_app. simpl. f_equal.
  - rewrite IH. f_equal. apply list_filter_iff'. intros i. rewrite elem_of_seq. intros Hi.
    by rewrite lookup_app_l by lia.
  - rewrite !filter_cons, !filter_nil. rewrite lookup_app_r, Nat.sub_diag by lia. simpl. by destruct b.
Qed.

(** The bitmap count equals the number of rows whose flag is set and not null. *)
Theorem count_true_and_valid_correct a :
  (forall v, nulls a = Some v -> length v = length (values a)) ->
  count_true_and_valid a = length (filter (fun i => slot_true a i = true) (seq 0 (length (values a)))).
Proof.
  intros Hl. unfold count_true_and_valid, logical_nulls, null_count. destruct (nulls a) as [v|] eqn:Hn; simpl.
  - specialize (Hl v eq_refl). destruct (Nat.eqb_spec (length (filter (fun b => b = false) v)) 0) as [H0|H0].
    + rewrite count_set_bits_seq. f_equal. apply list_filter_iff'. intros i. rewrite elem_of_seq. intros Hi.
      unfold slot_true. rewrite Hn. destruct (lookup_lt_is_Some_2 v i) as [b Hb]; [lia|]. rewrite Hb. simpl.
      assert (b = true) as ->; [|by rewrite andb_true_r].
      destruct b; [done|]. apply list_elem_of_lookup_2 in Hb.
      assert (false ∈ filter (fun b => b = false) v) as Hin by (by apply list_elem_of_filter).
      destruct (filter _ v); [by apply elem_of_nil in Hin|done].
    + rewrite count_set_bits_seq. unfold bitand. rewrite length_zip_with, Hl, Nat.min_id. f_equal.
      apply list_filter_iff'. intros i. rewrite elem_of_seq. intros Hi. unfold slot_true. rewrite Hn, lookup_zip_with.
      destruct (lookup_lt_is_Some_2 v i) as [b Hb]; [lia|]. destruct (lookup_lt_is_Some_2 (values a) i) as [c Hc]; [lia|].
      by rewrite Hb, Hc.
  - rewrite count_set_bits_seq. f_equal. apply list_filter_iff'. intros i _. unfold slot_true. rewrite Hn.
    by rewrite andb_true_r.
Qed.

(** ** The stream over a whole input *)
Definition named_column (names : list string) (name : string) (b : RecordBatch) : option column :=
  index_of names name ≫= fun i => columns b !! i.
Definition cells_of (names : list string) (name : string) (b : RecordBatch) : list cell :=
  match named_column names name b with Some (Utf8 l) => l | _ => [] end.
Definition bools_of (names : list string) (name : string) (b : RecordBatch) : BooleanArray :=
  match named_column names name b with Some (Boolean a) => a | _ => mkBools [] None end.
Definition file_rows (names : list string) (b : RecordBatch) : list file_row :=
  zip (cells_of names DATA_FILE_PATH_COLUMN b) (cells_of names MANIFEST_FILE_PATH_COLUMN b).

(** A batch of the planned schema: one column per name, of one length, the auxiliary ones typed. *)
Record well_formed (names : list string) (b : RecordBatch) : Prop := {
  wf_columns : length (columns b) = length names;
  wf_rows : exists n, Forall (fun c => column_len c = n) (columns b);
  wf_files : exists l, named_column names DATA_FILE_PATH_COLUMN b = Some (Utf8 l);
  wf_manifests : exists l, named_column names MANIFEST_FILE_PATH_COLUMN b = Some (Utf8 l);
  wf_updated : exists a, named_column names MERGE_UPDATED_COLUMN b = Some (Boolean a);
  wf_inserted : exists a, named_column names MERGE_INSERTED_COLUMN b = Some (Boolean a);
  wf_bitmaps : forall a v, Boolean a ∈ columns b -> nulls a = Some v -> length v = length (values a) }.

Definition total (names : list string) (name : string) (bs : list RecordBatch) : nat :=
  sum_list_with (fun b => count_true_and_valid (bools_of names name b)) bs.

(** The fields [new] sets and no poll changes. *)
Record of_schema (names : list string) (s : MergeCOWCountAndProjectStream) : Prop := {
  os_indices : projection_indices s = projected_indices 0 names;
  os_schema : projected_schema s = filter (fun x => projected x = true) names;
  os_updated : updated_idx s = index_of names MERGE_UPDATED_COLUMN;
  os_inserted : inserted_idx s = index_of names MERGE_INSERTED_COLUMN;
  os_files : data_file_path_idx s = default 0%nat (index_of names DATA_FILE_PATH_COLUMN);
  os_manifests : manifest_file_path_idx s = default 0%nat (index_of names MANIFEST_FILE_PATH_COLUMN) }.

Lemma new_of_schema names : of_schema names (new names).
Proof. split; try done. exact (omap_projected [] names). Qed.

Lemma string_column_named names name b l i :
  named_column names name b = Some (Utf8 l) -> i = default 0%nat (index_of names name) ->
  string_column i b = Ok (cells_of names name b).
Proof.
  unfold named_column, cells_of, string_column, named_column. intros H ->.
  destruct (index_of names name) as [j|]; simpl in *; [|done]. by rewrite H.
Qed.

Lemma count_column_named names name b a :
  named_column names name b = Some (Boolean a) ->
  count_column (index_of names name) b = Ok (Some (count_true_and_valid (bools_of names name b))).
Proof. unfold named_column, bools_of, count_column, named_column. intros H. by rewrite H. Qed.

Section stream_spec.
Context {A : Arrow} {laws : ArrowLaws}.

Lemma named_len names name b n c :
  Forall (fun c => column_len c = n) (columns b) -> named_column names name b = Some c -> column_len c = n.
Proof.
  intros Hn Hc. unfold named_column in Hc. destruct (index_of names name) as [i|]; simpl in Hc; [|done].
  by apply (Forall_lookup_1 _ _ _ _ Hn Hc).
Qed.

Lemma poll_batch_spec names b s :
  of_schema names s -> well_formed names b -> coherent (file_rows names b) ->
  Exists (fun x => projected x = true) names ->
  exists pairs, (forall f x, pairs !! f = Some x <-> touches (file_rows names b) f x) /\
    poll_batch b s = (Ok (project names b),
      add_inserted (count_true_and_valid (bools_of names MERGE_INSERTED_COLUMN b))
        (add_updated (count_true_and_valid (bools_of names MERGE_UPDATED_COLUMN b))
          (with_files (pairs ∪ matching_files s) s))).
Proof.
  intros [O1 O2 O3 O4 O5 O6] [W1 [n W2] [lf W3] [lm W4] [au W5] [ai W6] _] Hc Hex.
  assert (length (cells_of names DATA_FILE_PATH_COLUMN b) = length (cells_of names MANIFEST_FILE_PATH_COLUMN b)) as Hl.
  { unfold cells_of. rewrite W3, W4. pose proof (named_len _ _ _ _ _ W2 W3). pose proof (named_len _ _ _ _ _ W2 W4).
    simpl in *. congruence. }
  destruct (unique_files_spec _ _ Hl Hc) as (pairs & Hu & Hp). exists pairs. split; [exact Hp|].
  unfold poll_batch. rewrite (string_column_named _ _ _ _ _ W3 O5), (string_column_named _ _ _ _ _ W4 O6), Hu.
  cbn [updated_idx with_files]. rewrite O3, (count_column_named _ _ _ _ W5).
  cbn [inserted_idx add_updated with_files]. rewrite O4, (count_column_named _ _ _ _ W6).
  cbn [projection_indices projected_schema add_inserted add_updated with_files]. rewrite O1, O2.
  pose proof (mapM_projected [] names (columns b) W1) as Hm. cbn [app length] in Hm. rewrite Hm.
  rewrite (try_new_spec _ _ n).
  - unfold project. by rewrite zip_filter_fst.
  - rewrite <- (zip_filter_fst names (columns b) W1), !length_fmap. done.
  - intros Hnil. apply fmap_nil_inv in Hnil. apply (f_equal (fmap fst)) in Hnil.
    rewrite zip_filter_fst in Hnil by done. simpl in Hnil. rewrite Exists_exists in Hex.
    destruct Hex as (x & Hx & Hpx). assert (x ∈ filter (fun x => projected x = true) names) as Hin
      by (by apply list_elem_of_filter). rewrite Hnil in Hin. by apply elem_of_nil in Hin.
  - apply Forall_forall. intros c Hin. apply list_elem_of_fmap in Hin as ([x c'] & -> & Hin).
    apply list_elem_of_filter in Hin as [_ Hin]. apply elem_of_zip_r in Hin. simpl.
    by apply (proj1 (Forall_forall _ _) W2).
Qed.

Lemma union_touches r0 rows (pairs m : gmap string string) :
  coherent (r0 ++ rows) ->
  (forall f x, m !! f = Some x <-> touches r0 f x) -> (forall f x, pairs !! f = Some x <-> touches rows f x) ->
  forall f x, (pairs ∪ m) !! f = Some x <-> touches (r0 ++ rows) f x.
Proof.
  intros Hc Hm Hp f x. rewrite lookup_union_Some_raw, touches_app, Hm, Hp. split; [naive_solver|].
  intros [T|T]; [|by left]. destruct (pairs !! f) as [x'|] eqn:E; [|by right].
  left. apply Hp in E. assert (x = x') as ->; [|done].
  eapply (one_manifest _ Hc f); rewrite touches_app; [by left|by right].
Qed.

Lemma add_count_i64 z n : 0 <= z -> z + Z.of_nat n <= i64_max ->
  wrap_i64 (z + usize_to_i64_saturating n) = z + Z.of_nat n.
Proof.
  intros Hz Hn. unfold usize_to_i64_saturating. rewrite bool_decide_true by lia.
  apply wrap_i64_id. solve_range.
Qed.

Lemma drain_spec names bs : forall s r0,
  of_schema names s -> Forall (well_formed names) bs -> Exists (fun x => projected x = true) names ->
  coherent (r0 ++ mjoin (file_rows names <$> bs)) ->
  (forall f x, matching_files s !! f = Some x <-> touches r0 f x) ->
  0 <= updated_rows s -> updated_rows s + Z.of_nat (total names MERGE_UPDATED_COLUMN bs) <= i64_max ->
  0 <= inserted_rows s -> inserted_rows s + Z.of_nat (total names MERGE_INSERTED_COLUMN bs) <= i64_max ->
  exists s', drain bs s = (Ok (project names <$> bs), s') /\
    updated_rows s' = updated_rows s + Z.of_nat (total names MERGE_UPDATED_COLUMN bs) /\
    inserted_rows s' = inserted_rows s + Z.of_nat (total names MERGE_INSERTED_COLUMN bs) /\
    forall f x, matching_files s' !! f = Some x <-> touches (r0 ++ mjoin (file_rows names <$> bs)) f x.
Proof.
  induction bs as [|b bs IH]; intros s r0 Hs Hwf Hex Hc Hm Hu1 Hu2 Hi1 Hi2.
  - exists s. rewrite app_nil_r. unfold total in *; simpl in *. split_and!; try done; lia.
  - inversion Hwf as [|? ? Hb Hbs]; subst. cbn [fmap list_fmap mjoin list_join] in Hc |- *. rewrite app_assoc in Hc |- *.
    unfold total in *. cbn [sum_list_with] in *.
    set (nu := count_true_and_valid (bools_of names MERGE_UPDATED_COLUMN b)) in *.
    set (ni := count_true_and_valid (bools_of names MERGE_INSERTED_COLUMN b)) in *.
    assert (coherent (r0 ++ file_rows names b)) as Hc1.
    { eapply coherent_sub; [|exact Hc]. intros p Hp. by apply elem_of_app; left. }
    destruct (poll_batch_spec names b s Hs Hb) as (pairs & Hp & Hpoll); [|done|].
    { eapply coherent_sub; [|exact Hc1]. intros p Hp. by apply elem_of_app; right. }
    cbn [drain]. rewrite Hpoll. fold nu ni. set (s1 := add_inserted ni _).
    destruct (IH s1 (r0 ++ file_rows names b)) as (s' & Hd & Hup & Hin & Hmf); try done.
    + destruct Hs. by split.
    + by apply union_touches.
    + simpl. rewrite add_count_i64; lia.
    + simpl. rewrite add_count_i64; lia.
    + simpl. rewrite add_count_i64; lia.
    + simpl. rewrite add_count_i64; lia.
    + exists s'. rewrite Hd. split; [done|]. rewrite Hup, Hin. cbn [updated_rows inserted_rows s1 add_inserted add_updated with_files].
      subst s1. simpl. rewrite !add_count_i64 by lia. split_and!; [lia|lia|exact Hmf].
Qed.

(** *** What is promised of the output

    The columns a MERGE plan adds to those of the table, the ones of them that mark files and rows and the
    source, and the columns of a batch that are the table's, with their names. *)
Definition row_markers : list string :=
  ["__source_exists"; "__data_file_path"; "__manifest_file_path"; "__merge_row_updated"; "__merge_row_inserted"]%string.
Definition table_columns (names : list string) (cols : list column) : list (string * column) :=
  filter (fun p => p.1 ∉ "__target_exists"%string :: row_markers) (zip names cols).

Record handed_on (names : list string) (b out : RecordBatch) : Prop := {
  out_columns : length (columns out) = length (schema out);
  out_table : table_columns (schema out) (columns out) = table_columns names (columns b);
  out_markers : Forall (fun n => n ∉ row_markers) (schema out) }.

(** How many rows of the input have the flag set and not null. *)
Definition flagged_rows (names : list string) (name : string) (b : RecordBatch) : nat :=
  let a := bools_of names name b in length (filter (fun i => slot_true a i = true) (seq 0 (length (values a)))).
Definition flagged (names : list string) (name : string) (bs : list RecordBatch) : Z :=
  Z.of_nat (sum_list_with (flagged_rows names name) bs).

Lemma projected_spec n : projected n = true <-> n ∉ row_markers.
Proof.
  unfold projected, row_markers. rewrite !andb_true_iff, !negb_true_iff, !bool_decide_eq_false, !not_elem_of_cons.
  pose proof (not_elem_of_nil n). tauto.
Qed.

Lemma project_handed_on names b : length (columns b) = length names -> handed_on names b (project names b).
Proof.
  intros Hl. unfold project. split; cbn [columns schema].
  - by rewrite !length_fmap.
  - unfold table_columns. rewrite zip_fst_snd, list_filter_filter. apply list_filter_iff. intros [n c]. cbn [fst].
    rewrite projected_spec, not_elem_of_cons. tauto.
  - apply Forall_forall. intros n Hn. apply list_elem_of_fmap in Hn as ([n' c] & -> & [Hp _]%list_elem_of_filter). by apply projected_spec.
Qed.

Lemma total_flagged names name bs :
  Forall (well_formed names) bs -> (forall b, b ∈ bs -> exists a, named_column names name b = Some (Boolean a)) ->
  Z.of_nat (total names name bs) = flagged names name bs.
Proof.
  intros Hwf Hn. unfold total, flagged. f_equal. induction Hwf as [|b bs Hb Hbs IH]; [done|]. cbn [sum_list_with].
  rewrite IH by (intros; apply Hn; by right). f_equal. unfold flagged_rows. apply count_true_and_valid_correct.
  destruct (Hn b) as [a Ha]; [by left|]. unfold bools_of. rewrite Ha. intros v Hv. apply (wf_bitmaps _ _ Hb a v); [|done].
  unfold named_column in Ha. destruct (index_of names name) as [i|]; [|done]. by apply list_elem_of_lookup_2 in Ha.
Qed.

(** C15: over a whole MERGE input the sink's stream hands every batch on with all the columns of the table, in
    their order and with their data, and without the five columns that mark the source, the files and the
    rows; it counts exactly the rows whose updated and inserted flags are set and not null, as long as the
    counts fit 64 bits; and it groups by manifest exactly the data files the rows came from, each listed once.
    Of [__target_exists] it says nothing. *)
Theorem merge_stream_correct names bs order :
  Forall (well_formed names) bs -> Exists (fun n => n ∉ "__target_exists"%string :: row_markers) names ->
  coherent (mjoin (file_rows names <$> bs)) ->
  flagged names "__merge_row_updated" bs <= i64_max ->
  flagged names "__merge_row_inserted" bs <= i64_max ->
  order ≡ₚ map_to_list (matching_files (drain bs (new names)).2) ->
  exists outs s, drain bs (new names) = (Ok outs, s)
  /\ Forall2 (handed_on names) bs outs
  /\ updated_rows s = flagged names "__merge_row_updated" bs
  /\ inserted_rows s = flagged names "__merge_row_inserted" bs
  /\ exists grouped, matching_files_ref (poll_end order s) = Some grouped /\
       forall man, NoDup (default [] (grouped !! man)) /\
         forall f, f ∈ default [] (grouped !! man) <-> touches (mjoin (file_rows names <$> bs)) f man.
Proof.
  intros Hwf Hex Hc. pose proof (proj1 (Forall_forall _ _) Hwf) as Hall.
  rewrite <- (total_flagged names "__merge_row_updated" bs) by (done || (intros b Hb; apply (wf_updated _ _ (Hall b Hb)))).
  rewrite <- (total_flagged names "__merge_row_inserted" bs) by (done || (intros b Hb; apply (wf_inserted _ _ (Hall b Hb)))).
  intros Hu Hi Ho. destruct (drain_spec names bs (new names) []) as (s & Hd & Hup & Hin & Hm); try done.
  { apply new_of_schema. }
  { eapply Exists_impl; [exact Hex|]. intros n Hn. apply projected_spec. by apply not_elem_of_cons in Hn as [_ ?]. }
  { intros f x. simpl. rewrite lookup_empty. unfold touches. setoid_rewrite elem_of_nil. naive_solver. }
  rewrite Hd in *. exists (project names <$> bs), s. split; [done|]. split; [|split; [exact Hup|split; [exact Hin|]]].
  - apply Forall2_fmap_r, Forall_Forall2_diag. eapply Forall_impl; [exact Hwf|]. intros b Hb. apply project_handed_on, Hb.
  - eexists. split; [done|]. intros man. destruct (group_files_spec _ order man Ho) as [Hn Hg].
    split; [done|]. intros f. by rewrite Hg, Hm.
Qed.

(** The fast path that compares neighbouring rows finds exactly the file-manifest pairs of the
    batch; the arrays need not be sorted as its comment assumes. *)
Theorem unique_files_correct files manifests :
  length files = length manifests -> coherent (zip files manifests) ->
  exists m, unique_files_and_manifests files manifests = Ok m /\
    forall f x, m !! f = Some x <-> touches (zip files manifests) f x.
Proof. apply unique_files_spec. Qed.
End stream_spec.

(** ** The result columns: [MergeIntoCOWSink::new] *)
Definition sink_fields (has_insert has_update has_delete : bool) : list string :=
  let fields := (if has_insert then ["number of rows inserted"%string] else [])
             ++ (if has_update then ["number of rows updated"%string] else [])
             ++ (if has_delete then ["number of rows deleted"%string] else []) in
  match fields with [] => ["number of rows updated"%string] | _ => fields end.

(** The one-row answer of a MERGE always exists: every column the planner can announce has a
    value, in the order insert, update, delete, and the deleted count is always zero. *)
Theorem merge_result_total inserted updated hi hu hd :
  exists row, result_row inserted updated (sink_fields hi hu hd) = Ok row /\
    length row = length (sink_fields hi hu hd) /\
    forall i name v, sink_fields hi hu hd !! i = Some name -> row !! i = Some v ->
      v = if bool_decide (name = "number of rows inserted"%string) then inserted
          else if bool_decide (name = "number of rows updated"%string) then updated else 0.
Proof.
  destruct hi, hu, hd; (eexists; split; [reflexivity|]; split; [reflexivity|]; intros i name v Hn Hv;
    do 3 (destruct i as [|i]; [by simplify_eq/=|]); discriminate Hn).
Qed.

Lemma group_nonempty order g : (exists m l, g !! m = Some l) \/ order <> [] -> fold_left group_file order g <> ∅.
Proof.
  revert g. induction order as [|[f m] order IH]; intros g; simpl.
  - intros [(m & l & Hm)|]; [|done]. intros ->. by rewrite lookup_empty in Hm.
  - intros _. apply IH. left. exists m. unfold group_file. destruct (g !! m) as [v|]; rewrite lookup_insert_eq; by eauto.
Qed.

(** A MERGE commits nothing when no rows were written, appends when no target file was touched,
    and otherwise replaces exactly the touched files; the matching files are there whenever the
    stream was read to its end. *)
Theorem merge_commit_choice order datafiles s :
  order ≡ₚ map_to_list (matching_files s) ->
  exists tx, commit datafiles (matching_files_ref (poll_end order s)) = Ok tx /\
    match tx with
    | NoTransaction => datafiles = []
    | AppendData l => l = datafiles /\ datafiles <> [] /\ matching_files s = ∅
    | Overwrite l g => l = datafiles /\ datafiles <> [] /\ matching_files s <> ∅ /\
        forall man f, f ∈ default [] (g !! man) <-> matching_files s !! f = Some man
    end.
Proof.
  intros Ho. eexists. split; [reflexivity|]. destruct datafiles as [|d l]; [done|].
  case_bool_decide as Hg.
  - split_and!; try done. destruct (decide (order = [])) as [Hn|Hn].
    + subst. apply Permutation_nil in Ho. by apply map_to_list_empty_iff.
    + exfalso. eapply group_nonempty; [|exact Hg]. by right.
  - split_and!; try done.
    + intros He. apply Hg. rewrite He, map_to_list_empty in Ho. apply Permutation_sym, Permutation_nil in Ho. by rewrite Ho.
    + intros man f. apply group_files_spec. done.
Qed.

(** ** A concrete kernel implementation and run *)
Module SinkDemo.
#[global] Instance kernels : Arrow := {|
  distinct a b := Ok (zip_with cell_distinct a b);
  filter_cells l mask := Ok (keep l mask);
  try_new names cols := Ok (mkBatch names cols) |}.
#[global] Instance kernels_laws : ArrowLaws (A := kernels).
Proof. by split. Qed.

Definition names : list string :=
  ["id"; DATA_FILE_PATH_COLUMN; MANIFEST_FILE_PATH_COLUMN; MERGE_UPDATED_COLUMN; MERGE_INSERTED_COLUMN]%string.
Definition files : list cell := [mkCell true "f1"; mkCell true "f2"; mkCell true "f2"; mkCell false ""].
Definition manifests : list cell := [mkCell true "m"; mkCell true "m"; mkCell true "m"; mkCell false ""].
Definition batch : RecordBatch :=
  mkBatch names [OtherColumn [1; 2; 3; 4]; Utf8 files; Utf8 manifests;
    Boolean (mkBools [true; false; true; false] (Some [true; true; true; false]));
    Boolean (mkBools [false; false; false; true] None)].

Lemma batch_wf : well_formed names batch.
Proof.
  split; [reflexivity|exists 4%nat; repeat constructor|eexists; reflexivity..|].
  intros a v Ha. cbn in Ha. rewrite !elem_of_cons, elem_of_nil in Ha.
  destruct Ha as [?|[?|[?|[[= ->]|[[= ->]|[]]]]]]; intros Hv; try discriminate; by injection Hv as <-.
Qed.

Lemma names_projected : Exists (fun n => n ∉ "__target_exists"%string :: row_markers) names.
Proof. left. apply (bool_decide_unpack _). vm_compute. exact I. Qed.

Lemma rows_coherent : coherent (zip files manifests).
Proof.
  split.
  - intros p Hp. unfold files, manifests in Hp. simpl in Hp. rewrite !elem_of_cons, elem_of_nil in Hp. naive_solver.
  - intros p Hp. unfold files, manifests in Hp. simpl in Hp. rewrite !elem_of_cons, elem_of_nil in Hp. naive_solver.
  - intros f m m' (p & Hp & Hpr) (p' & Hp' & Hpr'). unfold files, manifests in Hp, Hp'. simpl in Hp, Hp'.
    rewrite !elem_of_cons, elem_of_nil in Hp, Hp'.
    destruct Hp as [->|[->|[->|[->|[]]]]], Hp' as [->|[->|[->|[->|[]]]]]; vm_compute in Hpr, Hpr'; congruence.
Qed.
End SinkDemo.

Lemma unique_files_correct_witness :
  exists m, unique_files_and_manifests (A := SinkDemo.kernels) SinkDemo.files SinkDemo.manifests = Ok m /\
    forall f x, m !! f = Some x <-> touches (zip SinkDemo.files SinkDemo.manifests) f x.
Proof. exact (unique_files_correct SinkDemo.files SinkDemo.manifests eq_refl SinkDemo.rows_coherent). Defined.

(** Two of the three rows of the target are updated, one row is inserted, and two files are replaced. *)
Lemma merge_stream_correct_witness :
  exists out s, drain (A := SinkDemo.kernels) [SinkDemo.batch] (new SinkDemo.names) = (Ok [out], s)
  /\ handed_on SinkDemo.names SinkDemo.batch out /\ updated_rows s = 2 /\ inserted_rows s = 1.
Proof.
  destruct (merge_stream_correct SinkDemo.names [SinkDemo.batch]
    (map_to_list (matching_files (drain (A := SinkDemo.kernels) [SinkDemo.batch] (new SinkDemo.names)).2))
    (Forall_cons_2 _ _ _ SinkDemo.batch_wf (Forall_nil_2 _)) SinkDemo.names_projected
    SinkDemo.rows_coherent ltac:(vm_compute; intros H; discriminate H) ltac:(vm_compute; intros H; discriminate H)
    (reflexivity _)) as (outs & s & Hd & Hb & Hu & Hi & _).
  apply Forall2_cons_inv_l in Hb as (out & l & Hout & Hnil & ->). apply Forall2_nil_inv_l in Hnil as ->.
  exists out, s. split; [exact Hd|]. split; [exact Hout|]. split; [exact Hu|exact Hi].
Defined.

Lemma count_true_and_valid_correct_witness :
  count_true_and_valid (mkBools [true; false; true] (Some [true; true; false])) = 1%nat.
Proof.
  exact (count_true_and_valid_correct (mkBools [true; false; true] (Some [true; true; false]))
    ltac:(intros v Hv; injection Hv as <-; reflexivity)).
Defined.

Lemma merge_commit_choice_witness :
  exists tx, commit ["d"%string] (matching_files_ref (poll_end [("f"%string, "m"%string)]
    (with_files {["f"%string := "m"%string]} (new [])))) = Ok tx /\
    match tx with
    | NoTransaction => ["d"%string] = []
    | AppendData l => l = ["d"%string] /\ ["d"%string] <> [] /\
        matching_files (with_files {["f"%string := "m"%string]} (new [])) = ∅
    | Overwrite l g => l = ["d"%string] /\ ["d"%string] <> [] /\
        matching_files (with_files {["f"%string := "m"%string]} (new [])) <> ∅ /\
        forall man f, f ∈ default [] (g !! man) <->
          matching_files (with_files {["f"%string := "m"%string]} (new [])) !! f = Some man
    end.
Proof.
  apply (merge_commit_choice [("f"%string, "m"%string)] ["d"%string] (with_files {["f"%string := "m"%string]} (new []))).
  vm_compute. reflexivity.
Defined.
