(* ===== verification/MergePlan.v ===== *)
(** * Planning a MERGE

    Models [merge_to_logical_plan] of [crates/executor/src/query.rs] and the functions it builds the
    projection with ([merge_clause_projection], [collect_merge_clause_expressions],
    [merge_clause_expression], [cast_if_necessary]).  The expressions are kept as the syntax the code
    builds; DataFusion's SQL planner and evaluator are parameters, and [ExprLaws] states the SQL
    meaning of the operators used. *)

From Stdlib Require Import ZArith Lia Ascii String.
From stdpp Require Import base option list gmap strings.
From S2P Require Import Prelude MergeSink.

(** ** Expressions *)
Inductive value := VNull | VBool (b : bool) | VData (d : string).

#[global] Instance value_eq_dec : EqDecision value.
Proof. solve_decision. Defined.

Inductive Expr :=
| Col (name : string)
| Lit (v : value)
| And (a b : Expr)
| Or (a b : Expr)
| IsNull (e : Expr)
| TryCast (e : Expr) (data_type : string)
| Case (whens : list (Expr * Expr)) (otherwise : Expr)
| Alias (e : Expr) (name : string)
(** Any other expression the SQL planner returns. *)
| Planned (id : nat).

(** A row of the join: the value of every column, by its printed name. *)
Notation row := (string -> value).

Definition kleene_and (a b : value) : value :=
  match a, b with
  | VBool false, _ | _, VBool false => VBool false
  | VBool true, VBool true => VBool true
  | _, _ => VNull
  end.
Definition kleene_or (a b : value) : value :=
  match a, b with
  | VBool true, _ | _, VBool true => VBool true
  | VBool false, VBool false => VBool false
  | _, _ => VNull
  end.

(** The first branch whose condition is true. *)
Fixpoint first_true (eval : Expr -> value) (whens : list (Expr * Expr)) (otherwise : value) : value :=
  match whens with
  | [] => otherwise
  | (w, t) :: whens => if decide (eval w = VBool true) then eval t else first_true eval whens otherwise
  end.

Class Evaluator := { eval : row -> Expr -> value; try_cast : string -> value -> value }.
Class ExprLaws {E : Evaluator} : Prop := {
  eval_col : forall j n, eval j (Col n) = j n;
  eval_lit : forall j v, eval j (Lit v) = v;
  eval_and : forall j a b, eval j (And a b) = kleene_and (eval j a) (eval j b);
  eval_or : forall j a b, eval j (Or a b) = kleene_or (eval j a) (eval j b);
  eval_is_null : forall j e, eval j (IsNull e) = VBool (bool_decide (eval j e = VNull));
  eval_try_cast : forall j e t, eval j (TryCast e t) = try_cast t (eval j e);
  eval_case : forall j ws o, eval j (Case ws o) = first_true (eval j) ws (eval j o);
  eval_alias : forall j e n, eval j (Alias e n) = eval j e;
  try_cast_null : forall t, try_cast t VNull = VNull }.

(** ** Clauses *)
Inductive MergeClauseKind := Matched | NotMatched | NotMatchedByTarget | NotMatchedBySource.
Inductive AssignmentTarget := ColumnName (parts : list string) | TupleTarget.
Inductive MergeInsertKind {sql : Type} := Values (rows : list (list sql)) | InsertRow.
Arguments MergeInsertKind : clear implicits.
Inductive MergeAction {sql : Type} :=
| Update (assignments : list (AssignmentTarget * sql))
| Insert (columns : list string) (kind : MergeInsertKind sql)
| Delete.
Arguments MergeAction : clear implicits.
Record MergeClause {sql : Type} := mkClause {
  clause_kind : MergeClauseKind;
  predicate : option sql;
  action : MergeAction sql }.
Arguments MergeClause : clear implicits.
Arguments mkClause {sql}.

Inductive plan_error :=
| NotMatchedBySourceNotSupported
| PlanDataFusion (e : string)
| InvalidColumnIdentifier
| OnlyMergeStatements
| MergeInsertOnlyOneRow
| MergeSourceNotSupported
| IcebergFailed (e : string)
| UnsupportedIcebergValueType
| TodoPanic.

(** A field of the target schema: qualifier, name and type. *)
Record field := mkField { qualifier : option string; field_name : string; data_type : string }.
Definition qualified (f : field) : string :=
  (match qualifier f with Some q => q +:+ "." | None => "" end +:+ field_name f)%string.

Definition merge_clause_expression (kind : MergeClauseKind) : result plan_error Expr :=
  match kind with
  | Matched => Ok (And (Col TARGET_EXISTS_COLUMN) (Col SOURCE_EXISTS_COLUMN))
  | NotMatched | NotMatchedByTarget => Ok (IsNull (Col TARGET_EXISTS_COLUMN))
  | NotMatchedBySource => Err NotMatchedBySourceNotSupported
  end.

(** What the loop over the clauses collects. *)
Notation pairs := (list (Expr * Expr)).
Record collected := mkCollected {
  updates : gmap string pairs;
  inserts : gmap string pairs;
  updated_ops : list Expr;
  inserted_ops : list Expr }.
Definition nothing_collected : collected := mkCollected ∅ ∅ [] [].

(** [entry(..).and_modify(push).or_insert_with(..)]. *)
Definition push_pair (m : gmap string pairs) (c : string) (p : Expr * Expr) : gmap string pairs :=
  match m !! c with Some l => <[c := l ++ [p]]> m | None => <[c := [p]]> m end.

(** A clause once its SQL has been planned. *)
Inductive planned_action :=
| PUpdate (assignments : list (string * Expr))
| PInsert (columns : list (string * Expr))
| PDelete.
Definition planned : Type := Expr * planned_action.

(** ** The filter of the target

    Only rows of the target within the partition bounds of the source table are scanned.  A value of
    Iceberg is kept by the data of its literal, like every value of this file. *)
Inductive IcebergValue :=
| IvBoolean (b : bool) | IvInt (i : string) | IvLongInt (l : string) | IvFloat (f : string) | IvDouble (d : string)
| IvDate (d : string) | IvTime (t : string) | IvTimestamp (ts : string) | IvTimestampTZ (ts : string)
| IvString (s : string) | IvUUID (u : string) | IvFixed (n : Z) (data : string) | IvBinary (data : string) | IvDecimal (d : string)
| IvStruct | IvList | IvMap.

Definition value_to_literal (v : IcebergValue) : result plan_error value :=
  match v with
  | IvBoolean b => Ok (VBool b)
  | IvInt d | IvLongInt d | IvFloat d | IvDouble d | IvDate d | IvTime d | IvTimestamp d | IvTimestampTZ d
  | IvString d | IvUUID d | IvFixed _ d | IvBinary d | IvDecimal d => Ok (VData d)
  | IvStruct | IvList | IvMap => Err UnsupportedIcebergValueType
  end.

(** The Iceberg table a source may be: what its metadata answer. *)
Record SourceTable := mkSource {
  is_table : bool;
  current_snapshot : result string (option Z);
  snapshot_partition_bounds : Z -> result string (option (list IcebergValue * list IcebergValue));
  partition_source_names : Z -> result string (list string) }.

(** [column >= min AND column <= max], and conjunctions of these. *)
Inductive Filter := Range (column : string) (min max : value) | Conj (a b : Filter).

Definition in_iceberg {A} (r : result string A) : result plan_error A :=
  match r with Ok a => Ok a | Err e => Err (IcebergFailed e) end.

Definition partition_column_bounds (t : SourceTable) (snapshot : Z) : result plan_error (option (list (value * value))) :=
  result_bind (in_iceberg (snapshot_partition_bounds t snapshot)) (fun bounds =>
  match bounds with
  | None => Ok None
  | Some (mins, maxs) =>
      result_map (fun l => match l with [] => None | _ => Some l end)
        (traverse (fun p : IcebergValue * IcebergValue =>
           result_bind (value_to_literal p.1) (fun min => result_map (pair min) (value_to_literal p.2))) (zip mins maxs))
  end).

Definition and_range (acc : option Filter) (p : string * (value * value)) : option Filter :=
  let range := Range p.1 p.2.1 p.2.2 in
  Some (match acc with Some acc => Conj acc range | None => range end).

Definition target_filter_expression (t : SourceTable) : result plan_error (option Filter) :=
  if is_table t then
    result_bind (in_iceberg (current_snapshot t)) (fun snapshot =>
    match snapshot with
    | None => Ok None
    | Some snapshot =>
        result_bind (partition_column_bounds t snapshot) (fun bounds =>
        match bounds with
        | None => Ok None
        | Some bounds =>
            result_map (fun names => fold_left and_range (zip names bounds) None)
              (in_iceberg (partition_source_names t snapshot))
        end)
    end)
  else Err MergeSourceNotSupported.

(** The source of a MERGE: a table, of Iceberg or not, a subquery, or something else. *)
Inductive MergeSource := TableSource (iceberg : option SourceTable) | DerivedSource | OtherSource.

Definition source_filter (source : MergeSource) : result plan_error (option Filter) :=
  match source with
  | TableSource (Some t) => target_filter_expression t
  | TableSource None | DerivedSource => Ok None
  | OtherSource => Err MergeSourceNotSupported
  end.

Section plan.
Context {sql : Type}.
(** [SqlToRel::sql_to_expr] against the join schema, and against the source schema. *)
Variable sql_to_expr : sql -> result string Expr.
Variable source_to_expr : sql -> result string Expr.
(** [Expr::get_type] in the target schema and the type check of [CaseBuilder::otherwise]. *)
Variable get_type : Expr -> result string string.
Variable case_check : pairs -> Expr -> result string unit.

Definition in_datafusion {A} (r : result string A) : result plan_error A :=
  match r with Ok a => Ok a | Err e => Err (PlanDataFusion e) end.

Definition clause_op (c : MergeClause sql) : result plan_error Expr :=
  result_bind (merge_clause_expression (clause_kind c)) (fun op =>
  match predicate c with
  | Some p => result_map (And op) (in_datafusion (sql_to_expr p))
  | None => Ok op
  end).

Definition plan_assignment (a : AssignmentTarget * sql) : result plan_error (string * Expr) :=
  match a.1 with
  | ColumnName parts =>
      match last parts with
      | None => Err InvalidColumnIdentifier
      | Some column_name => result_map (pair column_name) (in_datafusion (sql_to_expr a.2))
      end
  | TupleTarget => Err TodoPanic
  end.

Definition plan_insert (columns : list string) (kind : MergeInsertKind sql)
  : result plan_error (list (string * Expr)) :=
  match kind with
  | InsertRow => Err OnlyMergeStatements
  | Values [values] =>
      traverse (fun p : string * sql => result_map (pair p.1) (in_datafusion (source_to_expr p.2)))
        (zip columns values)
  | Values _ => Err MergeInsertOnlyOneRow
  end.

Definition plan_clause (c : MergeClause sql) : result plan_error planned :=
  result_bind (clause_op c) (fun op =>
  result_map (pair op)
    (match action c with
     | Update assignments => result_map PUpdate (traverse plan_assignment assignments)
     | Insert columns kind => result_map PInsert (plan_insert columns kind)
     | Delete => Ok PDelete
     end)).

(** The effect of a clause on what has been collected. *)
Definition insert_missing (op : Expr) (names : list string) (listed : list string) (m : gmap string pairs)
  : gmap string pairs :=
  fold_left (fun m c => <[c := [(op, Lit VNull)]]> m) (filter (fun c => c ∉ listed) names) m.

Definition apply_clause (names : list string) (st : collected) (c : planned) : collected :=
  let '(op, a) := c in
  match a with
  | PUpdate assignments =>
      mkCollected (fold_left (fun m (p : string * Expr) => push_pair m p.1 (op, p.2)) assignments (updates st))
        (inserts st) (updated_ops st ++ [op]) (inserted_ops st)
  | PInsert columns =>
      mkCollected (updates st)
        (insert_missing op names columns.*1
           (fold_left (fun m (p : string * Expr) => push_pair m p.1 (op, p.2)) columns (inserts st)))
        (updated_ops st) (inserted_ops st ++ [op])
  | PDelete => st
  end.

Fixpoint collect_clauses (names : list string) (clauses : list (MergeClause sql)) (st : collected)
  : result plan_error collected :=
  match clauses with
  | [] => Ok st
  | c :: clauses =>
      result_bind (plan_clause c) (fun p => collect_clauses names clauses (apply_clause names st p))
  end.

Definition cast_if_necessary (e : Expr) (target_type : string) : Expr :=
  match get_type e with
  | Ok t => if decide (t = target_type) then e else TryCast e target_type
  | Err _ => TryCast e target_type
  end.

Definition case_expr (f : field) (ws : pairs) : result plan_error Expr :=
  match ws with
  | [] => Ok (Alias (Col (qualified f)) (field_name f))
  | _ =>
      let ws := (fun p : Expr * Expr => (p.1, cast_if_necessary p.2 (data_type f))) <$> ws in
      result_map (fun _ => Alias (Case ws (Col (qualified f))) (field_name f))
        (in_datafusion (case_check ws (Col (qualified f))))
  end.

(** The closure of [collect_merge_clause_expressions]; a used entry is removed from its map. *)
Definition field_expr (f : field) (us ins : gmap string pairs) : result plan_error Expr :=
  match us !! field_name f, ins !! field_name f with
  | None, None => Ok (Col (qualified f))
  | Some u, Some i => case_expr f (u ++ i)
  | Some x, None | None, Some x => case_expr f x
  end.

Fixpoint collect_fields (fields : list field) (us ins : gmap string pairs) : result plan_error (list Expr) :=
  match fields with
  | [] => Ok []
  | f :: fields =>
      result_bind (field_expr f us ins) (fun e =>
      result_map (cons e)
        (collect_fields fields (delete (field_name f) us) (delete (field_name f) ins)))
  end.

Definition collect_merge_clause_expressions (target_schema : list field) (us ins : gmap string pairs)
  : result plan_error (list Expr) :=
  result_map (fun exprs => exprs ++ [Col SOURCE_EXISTS_COLUMN]) (collect_fields target_schema us ins).

Definition any_of (ops : list Expr) : Expr := fold_left Or ops (Lit (VBool false)).

Definition merge_clause_projection (target_schema : list field) (clauses : list (MergeClause sql))
  : result plan_error (list Expr) :=
  result_bind (collect_clauses (field_name <$> target_schema) clauses nothing_collected) (fun st =>
  result_map (fun exprs => exprs ++ [Alias (any_of (updated_ops st)) MERGE_UPDATED_COLUMN;
                                     Alias (any_of (inserted_ops st)) MERGE_INSERTED_COLUMN])
    (collect_merge_clause_expressions target_schema (updates st) (inserts st))).

(** ** The meaning of a MERGE

    For one row of the join, the first clause that applies decides: an update changes the assigned
    columns, an insert gives the listed columns and null elsewhere. *)
Context {E : Evaluator}.

Definition applies (j : row) (c : planned) : Prop := eval j c.1 = VBool true.
#[global] Instance applies_dec j c : Decision (applies j c).
Proof. unfold applies. apply _. Defined.

Fixpoint chosen (j : row) (cs : list planned) : option planned_action :=
  match cs with
  | [] => None
  | c :: cs => if decide (applies j c) then Some c.2 else chosen j cs
  end.

Definition assigned (j : row) (f : field) (l : list (string * Expr)) (otherwise : value) : value :=
  match list_find (fun p => p.1 = field_name f) l with
  | Some (_, (_, e)) => eval j (cast_if_necessary e (data_type f))
  | None => otherwise
  end.

Definition merged_value (j : row) (cs : list planned) (f : field) : value :=
  match chosen j cs with
  | Some (PUpdate l) => assigned j f l (j (qualified f))
  | Some (PInsert l) => assigned j f l VNull
  | Some PDelete | None => j (qualified f)
  end.

(** ** The plan over rows

    The relational operators of the plan on lists: the scan of the target under the filter of the
    source's partitions, the files of the target rows that join a source row, the target rows of
    those files, and the full join.  [scan] is the table provider's scan with pushed-down filters. *)
Context {T S : Type}.
Variable on : T -> S -> bool.
Variable data_file : T -> string.
Variable scan : option Filter -> list T -> list T.

Definition joins (ss : list S) (t : T) : bool := existsb (on t) ss.
Definition affected_files (ts : list T) (ss : list S) : list string :=
  data_file <$> filter (fun t => joins ss t = true) ts.
Definition semi_join (ts : list T) (ss : list S) : list T :=
  filter (fun t => data_file t ∈ affected_files ts ss) ts.

Inductive joined := Both (t : T) (s : S) | TargetOnly (t : T) | SourceOnly (s : S).
Definition target_side (ss : list S) (t : T) : list joined :=
  if joins ss t then Both t <$> filter (fun s => on t s = true) ss else [TargetOnly t].
Definition full_join (ts : list T) (ss : list S) : list joined :=
  mjoin (target_side ss <$> ts)
  ++ (SourceOnly <$> filter (fun s => existsb (fun t => on t s) ts = false) ss).

(** The rows the plan hands to the sink. *)
Definition merge_input (target_filter : option Filter) (ts : list T) (ss : list S) : list joined :=
  let target := scan target_filter ts in full_join (semi_join target ss) ss.
End plan.

(** ** Collecting the clauses *)
Section collect.
Context {sql : Type} (sql_to_expr source_to_expr : sql -> result string Expr).
Context (get_type : Expr -> result string string) (case_check : pairs -> Expr -> result string unit).
Notation plan_clause := (plan_clause sql_to_expr source_to_expr).
Notation collect_clauses := (collect_clauses sql_to_expr source_to_expr).
Notation merge_clause_projection := (merge_clause_projection sql_to_expr source_to_expr get_type case_check).
Notation field_expr := (field_expr get_type case_check).
Notation collect_fields := (collect_fields get_type case_check).
Notation cast_if_necessary := (cast_if_necessary get_type).

Lemma collect_clauses_eq names clauses st :
  collect_clauses names clauses st =
  result_map (fun cs => fold_left (apply_clause names) cs st) (traverse plan_clause clauses).
Proof.
  revert st. induction clauses as [|c clauses IH]; intros st; simpl; [done|].
  destruct (plan_clause c) as [p|e]; simpl; [|done]. rewrite IH. by destruct (traverse plan_clause clauses).
Qed.

(** The pairs a clause contributes to column [c]. *)
Definition column_pairs (op : Expr) (l : list (string * Expr)) (c : string) : pairs :=
  (fun p : string * Expr => (op, p.2)) <$> filter (fun p => p.1 = c) l.
Definition update_pairs (cs : list planned) (c : string) : pairs :=
  mjoin ((fun p : planned => match p.2 with PUpdate l => column_pairs p.1 l c | _ => [] end) <$> cs).
Definition insert_pairs (cs : list planned) (c : string) : pairs :=
  mjoin ((fun p : planned => match p.2 with PInsert l => column_pairs p.1 l c | _ => [] end) <$> cs).

Lemma push_pair_lookup m c p c' :
  default [] (push_pair m c p !! c') = default [] (m !! c') ++ (if decide (c = c') then [p] else []).
Proof.
  unfold push_pair. destruct (m !! c) as [l|] eqn:Hc; rewrite lookup_insert; case_decide; subst;
    rewrite ?Hc; simpl; by rewrite ?app_nil_r.
Qed.

Lemma fold_push op l m c :
  default [] (fold_left (fun m (p : string * Expr) => push_pair m p.1 (op, p.2)) l m !! c)
  = default [] (m !! c) ++ column_pairs op l c.
Proof.
  revert m. induction l as [|p l IH]; intros m; simpl; [by rewrite app_nil_r|].
  rewrite IH, push_pair_lookup. unfold column_pairs. rewrite filter_cons. rewrite <- app_assoc.
  case_decide; simpl; done.
Qed.

Lemma insert_missing_lookup op names listed m c :
  insert_missing op names listed m !! c =
  if decide (c ∈ names /\ c ∉ listed) then Some [(op, Lit VNull)] else m !! c.
Proof.
  unfold insert_missing.
  assert (forall l (m : gmap string pairs), fold_left (fun m c => <[c := [(op, Lit VNull)]]> m) l m !! c =
            if decide (c ∈ l) then Some [(op, Lit VNull)] else m !! c) as H.
  { clear. induction l as [|x l IH]; intros m; cbn [fold_left].
    { destruct (decide (c ∈ [])) as [Hn|]; [by apply elem_of_nil in Hn|done]. }
    rewrite IH. destruct (decide (c ∈ l)) as [Hl|Hl].
    - by rewrite decide_True by (by apply elem_of_cons; right).
    - destruct (decide (x = c)) as [->|Hx].
      + rewrite lookup_insert_eq. by rewrite decide_True by (by apply elem_of_cons; left).
      + rewrite lookup_insert_ne by done. rewrite decide_False; [done|]. rewrite elem_of_cons. naive_solver. }
  rewrite H. apply decide_ext. rewrite list_elem_of_filter. naive_solver.
Qed.

Lemma collected_updates names cs st c :
  default [] (updates (fold_left (apply_clause names) cs st) !! c)
  = default [] (updates st !! c) ++ update_pairs cs c.
Proof.
  revert st. induction cs as [|[op a] cs IH]; intros st; simpl; [by rewrite app_nil_r|].
  rewrite IH. unfold update_pairs. destruct a; simpl; [|done..].
  rewrite fold_push. by rewrite <- app_assoc.
Qed.

(** The insert clauses of a statement list the same columns. *)
Lemma collected_inserts_listed names cs st c :
  (forall op l, (op, PInsert l) ∈ cs -> c ∈ l.*1) ->
  default [] (inserts (fold_left (apply_clause names) cs st) !! c)
  = default [] (inserts st !! c) ++ insert_pairs cs c.
Proof.
  revert st. induction cs as [|[op a] cs IH]; intros st Hall; simpl; [by rewrite app_nil_r|].
  rewrite IH by (intros op' l' Hin; apply (Hall op'); by apply elem_of_cons; right).
  unfold insert_pairs. destruct a as [l|l|]; simpl; [done| |done].
  rewrite insert_missing_lookup, decide_False.
  - rewrite fold_push. by rewrite <- app_assoc.
  - intros [_ Hn]. apply Hn. apply (Hall op). by apply elem_of_cons; left.
Qed.

Lemma collected_inserts_missing names cs st c :
  (forall op l, (op, PInsert l) ∈ cs -> c ∉ l.*1) ->
  (forall w t, (w, t) ∈ default [] (inserts st !! c) -> t = Lit VNull) ->
  forall w t, (w, t) ∈ default [] (inserts (fold_left (apply_clause names) cs st) !! c) -> t = Lit VNull.
Proof.
  revert st. induction cs as [|[op a] cs IH]; intros st Hall Hst; simpl; [done|].
  apply IH; [intros op' l' Hin; apply (Hall op'); by apply elem_of_cons; right|].
  destruct a as [l|l|]; simpl; [done| |done]. intros w t. rewrite insert_missing_lookup.
  case_decide as Hd; simpl; [rewrite list_elem_of_singleton; by intros [= -> ->]|].
  rewrite fold_push. unfold column_pairs. rewrite elem_of_app, list_elem_of_fmap.
  intros [Hin|(p & _ & Hp)]; [by eapply Hst|]. apply list_elem_of_filter in Hp as [<- Hp].
  exfalso. apply (Hall op l); [by apply elem_of_cons; left|]. by apply list_elem_of_fmap_2.
Qed.

Lemma collected_inserts_from names cs st c w t :
  (w, t) ∈ default [] (inserts (fold_left (apply_clause names) cs st) !! c) ->
  (w, t) ∈ default [] (inserts st !! c) \/ exists l, (w, PInsert l) ∈ cs.
Proof.
  revert st. induction cs as [|[op a] cs IH]; intros st; simpl; [by left|].
  intros [H|(l & H)]%IH; [|right; exists l; by apply elem_of_cons; right].
  destruct a as [l|l|]; simpl in H; [by left| |by left].
  rewrite insert_missing_lookup in H. case_decide; simpl in H.
  - apply list_elem_of_singleton in H as [= -> ->]. right. exists l. by apply elem_of_cons; left.
  - rewrite fold_push in H. apply elem_of_app in H as [H|H]; [by left|]. unfold column_pairs in H.
    apply list_elem_of_fmap in H as (p & [= -> ->] & _). right. exists l. by apply elem_of_cons; left.
Qed.

Lemma update_pairs_from cs c w t : (w, t) ∈ update_pairs cs c -> exists l, (w, PUpdate l) ∈ cs.
Proof.
  unfold update_pairs. rewrite list_elem_of_join. intros (l & Hin & Hl). apply list_elem_of_fmap in Hl as ([op a] & -> & Hc).
  simpl in Hin. destruct a as [l|l|]; [|by apply elem_of_nil in Hin..]. unfold column_pairs in Hin.
  apply list_elem_of_fmap in Hin as (p & [= -> ->] & _). by exists l.
Qed.

Lemma collected_ops names cs st op :
  (op ∈ updated_ops (fold_left (apply_clause names) cs st) <->
     op ∈ updated_ops st \/ exists l, (op, PUpdate l) ∈ cs) /\
  (op ∈ inserted_ops (fold_left (apply_clause names) cs st) <->
     op ∈ inserted_ops st \/ exists l, (op, PInsert l) ∈ cs).
Proof.
  revert st. induction cs as [|[op' a] cs IH]; intros st; simpl.
  - setoid_rewrite elem_of_nil. naive_solver.
  - destruct (IH (apply_clause names st (op', a))) as [-> ->]. setoid_rewrite elem_of_cons.
    destruct a as [l|l|]; simpl; rewrite ?elem_of_app, ?list_elem_of_singleton; naive_solver.
Qed.

(** With distinct field names, removing used entries changes nothing. *)
Lemma collect_fields_eq fields us ins :
  NoDup (field_name <$> fields) ->
  collect_fields fields us ins = traverse (fun f => field_expr f us ins) fields.
Proof.
  assert (forall fields us ins us' ins', NoDup (field_name <$> fields) ->
    (forall f, f ∈ fields -> us' !! field_name f = us !! field_name f /\ ins' !! field_name f = ins !! field_name f) ->
    collect_fields fields us' ins' = traverse (fun f => field_expr f us ins) fields) as H; [|by intros; apply H].
  clear. induction fields as [|f fields IH]; intros us ins us' ins' Hnd Hf; [done|].
  apply NoDup_cons in Hnd as [Hnf Hnd]. simpl.
  destruct (Hf f) as [Hu Hi]; [by apply elem_of_cons; left|].
  assert (field_expr f us' ins' = field_expr f us ins) as -> by (unfold MergePlan.field_expr; by rewrite Hu, Hi).
  destruct (field_expr f us ins) as [e|e]; simpl; [|done]. f_equal. apply IH; [done|].
  intros g Hg. assert (field_name f <> field_name g).
  { intros Heq. apply Hnf. rewrite Heq. by apply list_elem_of_fmap_2. }
  rewrite !lookup_delete_ne by done. apply Hf. by apply elem_of_cons; right.
Qed.

(** ** Evaluation *)
Context {E : Evaluator} {laws : ExprLaws}.

Definition cast_pairs (f : field) (ws : pairs) : pairs :=
  (fun p : Expr * Expr => (p.1, cast_if_necessary p.2 (data_type f))) <$> ws.

Lemma first_true_app ev l1 l2 d : first_true ev (l1 ++ l2) d = first_true ev l1 (first_true ev l2 d).
Proof. induction l1 as [|[w t] l1 IH]; simpl; [done|]. by case_decide. Qed.

Lemma first_true_skip ev l d : (forall w t, (w, t) ∈ l -> ev w <> VBool true) -> first_true ev l d = d.
Proof.
  induction l as [|[w t] l IH]; intros H; simpl; [done|]. rewrite decide_False.
  - apply IH. intros w' t' Hin. apply (H w' t'). by apply elem_of_cons; right.
  - apply (H w t). by apply elem_of_cons; left.
Qed.

Lemma cast_pairs_in f ws w t : (w, t) ∈ cast_pairs f ws -> exists t', (w, t') ∈ ws /\ t = cast_if_necessary t' (data_type f).
Proof. unfold cast_pairs. rewrite list_elem_of_fmap. intros ([w' t'] & [= -> ->] & Hin). by exists t'. Qed.

Lemma eval_case_expr j f ws e :
  case_expr get_type case_check f ws = Ok e -> eval j e = first_true (eval j) (cast_pairs f ws) (j (qualified f)).
Proof.
  unfold case_expr. destruct ws as [|w ws]; simpl.
  - intros [= <-]. by rewrite eval_alias, eval_col.
  - destruct (case_check _ _); simpl; [|done]. intros [= <-]. rewrite eval_alias, eval_case, eval_col. done.
Qed.

Lemma eval_field_expr j f us ins e :
  field_expr f us ins = Ok e ->
  eval j e = first_true (eval j) (cast_pairs f (default [] (us !! field_name f) ++ default [] (ins !! field_name f)))
               (j (qualified f)).
Proof.
  unfold MergePlan.field_expr. destruct (us !! field_name f) as [u|], (ins !! field_name f) as [i|]; simpl.
  - apply eval_case_expr.
  - rewrite app_nil_r. apply eval_case_expr.
  - apply eval_case_expr.
  - intros [= <-]. by rewrite eval_col.
Qed.

Lemma kleene_or_true a b : kleene_or a b = VBool true <-> a = VBool true \/ b = VBool true.
Proof. destruct a as [|[]|], b as [|[]|]; simpl; naive_solver. Qed.
Lemma kleene_and_true a b : kleene_and a b = VBool true <-> a = VBool true /\ b = VBool true.
Proof. destruct a as [|[]|], b as [|[]|]; simpl; naive_solver. Qed.

Lemma eval_any_of j ops : eval j (any_of ops) = VBool true <-> exists op, op ∈ ops /\ eval j op = VBool true.
Proof.
  unfold any_of.
  assert (forall e, eval j (fold_left Or ops e) = VBool true <->
            eval j e = VBool true \/ exists op, op ∈ ops /\ eval j op = VBool true) as H.
  { induction ops as [|o ops IH]; intros e; simpl.
    - setoid_rewrite elem_of_nil. naive_solver.
    - rewrite IH, eval_or, kleene_or_true. setoid_rewrite elem_of_cons. naive_solver. }
  rewrite H, eval_lit. naive_solver.
Qed.

(** ** One row *)

(** The statement has no delete, its update clauses assign the same columns and its insert clauses
    list the same columns. *)
Record uniform (cs : list planned) : Prop := {
  no_delete : forall op, (op, PDelete) ∉ cs;
  same_updates : forall o l o' l' c, (o, PUpdate l) ∈ cs -> (o', PUpdate l') ∈ cs -> c ∈ l.*1 -> c ∈ l'.*1;
  same_inserts : forall o l o' l' c, (o, PInsert l) ∈ cs -> (o', PInsert l') ∈ cs -> c ∈ l.*1 -> c ∈ l'.*1 }.

(** Updates apply to rows that exist in the target, inserts to rows that do not. *)
Definition kinds_agree (j : row) (cs : list planned) : Prop :=
  (forall o l, (o, PUpdate l) ∈ cs -> eval j o = VBool true -> j TARGET_EXISTS_COLUMN = VBool true) /\
  (forall o l, (o, PInsert l) ∈ cs -> eval j o = VBool true -> j TARGET_EXISTS_COLUMN = VNull).

Lemma chosen_in j cs a : chosen j cs = Some a -> exists op, (op, a) ∈ cs /\ eval j op = VBool true.
Proof.
  induction cs as [|[op b] cs IH]; simpl; [done|]. unfold applies. simpl. case_decide.
  - intros [= <-]. exists op. split; [by apply elem_of_cons; left|done].
  - intros (op' & Hin & Hop)%IH. exists op'. split; [by apply elem_of_cons; right|done].
Qed.

Lemma chosen_none j cs : chosen j cs = None -> forall op a, (op, a) ∈ cs -> eval j op <> VBool true.
Proof.
  induction cs as [|[op b] cs IH]; simpl.
  - intros _ op a H. by apply elem_of_nil in H.
  - unfold applies. simpl. case_decide; [done|]. intros Hn op' a [[= -> ->]|Hin]%elem_of_cons; [done|]. by eapply IH.
Qed.

(** The value of a column among the pairs of the clauses of one kind. *)
Lemma first_true_column j f op l rest d :
  eval j op = VBool true ->
  first_true (eval j) (cast_pairs f (column_pairs op l (field_name f)) ++ rest) d
  = assigned get_type j f l (first_true (eval j) rest d).
Proof.
  intros Hop. unfold assigned, column_pairs, cast_pairs.
  induction l as [|[c e] l IH]; simpl; [done|]. rewrite filter_cons. simpl. case_decide as Hc; simpl.
  - by rewrite decide_True.
  - rewrite IH. by destruct (list_find _ l) as [[? []]|].
Qed.

Lemma cast_pairs_app f l1 l2 : cast_pairs f (l1 ++ l2) = cast_pairs f l1 ++ cast_pairs f l2.
Proof. apply fmap_app. Qed.

Lemma column_pairs_skip j f op l d :
  eval j op <> VBool true -> first_true (eval j) (cast_pairs f (column_pairs op l (field_name f))) d = d.
Proof.
  intros Hop. apply first_true_skip. intros w t (t' & Hin & _)%cast_pairs_in. unfold column_pairs in Hin.
  by apply list_elem_of_fmap in Hin as (p & [= -> ->] & _).
Qed.

Lemma column_pairs_none op l c : c ∉ l.*1 -> column_pairs op l c = [].
Proof.
  intros Hn. unfold column_pairs. replace (filter _ l) with (@nil (string * Expr)); [done|].
  symmetry. induction l as [|p l IH]; [done|]. rewrite filter_cons, decide_False.
  - apply IH. intros H. apply Hn. by apply elem_of_cons; right.
  - intros <-. apply Hn. by apply elem_of_cons; left.
Qed.

Lemma update_pairs_cons op a cs c :
  update_pairs ((op, a) :: cs) c = match a with PUpdate l => column_pairs op l c | _ => [] end ++ update_pairs cs c.
Proof. done. Qed.

Lemma update_pairs_none cs c : (forall o l, (o, PUpdate l) ∈ cs -> c ∉ l.*1) -> update_pairs cs c = [].
Proof.
  induction cs as [|[op a] cs IH]; intros H; [done|]. rewrite update_pairs_cons.
  rewrite IH by (intros o l Hin; apply (H o); by apply elem_of_cons; right).
  destruct a as [l| |]; simpl; [|done..]. rewrite column_pairs_none; [done|].
  apply (H op). by apply elem_of_cons; left.
Qed.

Lemma insert_pairs_cons op a cs c :
  insert_pairs ((op, a) :: cs) c = match a with PInsert l => column_pairs op l c | _ => [] end ++ insert_pairs cs c.
Proof. done. Qed.

Lemma insert_pairs_none cs c : (forall o l, (o, PInsert l) ∈ cs -> c ∉ l.*1) -> insert_pairs cs c = [].
Proof.
  induction cs as [|[op a] cs IH]; intros H; [done|]. rewrite insert_pairs_cons.
  rewrite IH by (intros o l Hin; apply (H o); by apply elem_of_cons; right).
  destruct a as [|l|]; simpl; [done| |done]. rewrite column_pairs_none; [done|].
  apply (H op). by apply elem_of_cons; left.
Qed.

Lemma assigned_missing j f l d : field_name f ∉ l.*1 -> assigned get_type j f l d = d.
Proof.
  intros Hn. unfold assigned. destruct (list_find _ l) as [[i [c e]]|] eqn:Hl; [|done].
  apply list_find_Some in Hl as (Hi & Hc & _). simpl in Hc. exfalso. apply Hn. rewrite <- Hc.
  change c with ((c, e).1). apply list_elem_of_fmap_2. by eapply list_elem_of_lookup_2.
Qed.

Lemma assigned_present j f l d d' : field_name f ∈ l.*1 -> assigned get_type j f l d = assigned get_type j f l d'.
Proof.
  intros Hin. unfold assigned. destruct (list_find _ l) as [[i [c e]]|] eqn:Hl; [done|].
  exfalso. apply list_find_None in Hl. apply list_elem_of_fmap in Hin as (p & Hp & Hin).
  rewrite Forall_forall in Hl. by apply (Hl p Hin).
Qed.

Lemma first_true_updates j f cs l d :
  chosen j cs = Some (PUpdate l) ->
  (forall o l o' l' c, (o, PUpdate l) ∈ cs -> (o', PUpdate l') ∈ cs -> c ∈ l.*1 -> c ∈ l'.*1) ->
  first_true (eval j) (cast_pairs f (update_pairs cs (field_name f))) d = assigned get_type j f l d.
Proof.
  induction cs as [|[op a] cs IH]; simpl; [done|]. unfold applies. simpl. intros Hch Hu.
  assert (forall o l o' l' c, (o, PUpdate l) ∈ cs -> (o', PUpdate l') ∈ cs -> c ∈ l.*1 -> c ∈ l'.*1) as Hu'.
  { intros o l1 o' l2 c H1 H2. eapply Hu; apply elem_of_cons; by right. }
  rewrite update_pairs_cons, cast_pairs_app. case_decide as Hop.
  - injection Hch as ->. simpl. rewrite first_true_column by done.
    destruct (decide (field_name f ∈ l.*1)) as [Hin|Hn]; [by apply assigned_present|].
    rewrite update_pairs_none; [done|].
    intros o l' Hin Hf. apply Hn. eapply (Hu o l' op l); [by apply elem_of_cons; right|by apply elem_of_cons; left|done].
  - rewrite first_true_app. destruct a as [l'| |]; simpl; [rewrite column_pairs_skip by done|..]; by apply IH.
Qed.

Lemma first_true_inserts j f cs l d :
  chosen j cs = Some (PInsert l) ->
  (forall o l o' l' c, (o, PInsert l) ∈ cs -> (o', PInsert l') ∈ cs -> c ∈ l.*1 -> c ∈ l'.*1) ->
  first_true (eval j) (cast_pairs f (insert_pairs cs (field_name f))) d = assigned get_type j f l d.
Proof.
  induction cs as [|[op a] cs IH]; simpl; [done|]. unfold applies. simpl. intros Hch Hu.
  assert (forall o l o' l' c, (o, PInsert l) ∈ cs -> (o', PInsert l') ∈ cs -> c ∈ l.*1 -> c ∈ l'.*1) as Hu'.
  { intros o l1 o' l2 c H1 H2. eapply Hu; apply elem_of_cons; by right. }
  rewrite insert_pairs_cons, cast_pairs_app. case_decide as Hop.
  - injection Hch as ->. simpl. rewrite first_true_column by done.
    destruct (decide (field_name f ∈ l.*1)) as [Hin|Hn]; [by apply assigned_present|].
    rewrite insert_pairs_none; [done|].
    intros o l' Hin Hf. apply Hn. eapply (Hu o l' op l); [by apply elem_of_cons; right|by apply elem_of_cons; left|done].
  - rewrite first_true_app. destruct a as [|l'|]; simpl; [|rewrite column_pairs_skip by done|]; by apply IH.
Qed.

(** Columns no insert clause lists: null, or the null the join already has. *)
Lemma first_true_nulls j f ws d :
  (forall w t, (w, t) ∈ ws -> t = Lit VNull) -> d = VNull ->
  first_true (eval j) (cast_pairs f ws) d = VNull.
Proof.
  intros Hw ->. induction ws as [|[w t] ws IH]; simpl; [done|]. case_decide.
  - rewrite (Hw w t) by (by apply elem_of_cons; left). unfold MergePlan.cast_if_necessary.
    destruct (get_type (Lit VNull)) as [ty|]; [case_decide|]; by rewrite ?eval_try_cast, ?eval_lit, ?try_cast_null.
  - apply IH. intros w' t' Hin. apply (Hw w'). by apply elem_of_cons; right.
Qed.

Lemma merged_column j names cs f :
  uniform cs -> kinds_agree j cs -> field_name f ∈ names ->
  (j TARGET_EXISTS_COLUMN = VNull -> j (qualified f) = VNull) ->
  let st := fold_left (apply_clause names) cs nothing_collected in
  first_true (eval j) (cast_pairs f (default [] (updates st !! field_name f) ++ default [] (inserts st !! field_name f)))
    (j (qualified f)) = merged_value get_type j cs f.
Proof.
  intros [Hnd Hsu Hsi] [Hku Hki] Hname Hnull st. rewrite cast_pairs_app, first_true_app.
  unfold st. rewrite collected_updates. simpl. unfold merged_value.
  assert (forall P, (forall o l, (o, PInsert l) ∈ cs -> eval j o <> VBool true) ->
    first_true (eval j) (cast_pairs f (default [] (inserts (fold_left (apply_clause names) cs nothing_collected) !! field_name f))) P = P) as Hskip_i.
  { intros P Hi. apply first_true_skip. intros w t (t' & Hin & _)%cast_pairs_in.
    apply collected_inserts_from in Hin as [Hin|[l Hin]]; [by apply elem_of_nil in Hin|]. by eapply Hi. }
  assert (forall P, (forall o l, (o, PUpdate l) ∈ cs -> eval j o <> VBool true) ->
    first_true (eval j) (cast_pairs f (update_pairs cs (field_name f))) P = P) as Hskip_u.
  { intros P Hu. apply first_true_skip. intros w t (t' & Hin & _)%cast_pairs_in.
    apply update_pairs_from in Hin as [l Hin]. by eapply Hu. }
  destruct (chosen j cs) as [[l|l|]|] eqn:Hch.
  - rewrite Hskip_i; [by apply first_true_updates|]. intros o l' Hin Ho.
    destruct (chosen_in _ _ _ Hch) as (op & Hop & Hopv). pose proof (Hku _ _ Hop Hopv). pose proof (Hki _ _ Hin Ho). congruence.
  - destruct (chosen_in _ _ _ Hch) as (op & Hop & Hopv). pose proof (Hki _ _ Hop Hopv) as Hte. specialize (Hnull Hte).
    rewrite Hskip_u by (intros o l' Hin Ho; pose proof (Hku _ _ Hin Ho); congruence).
    destruct (decide (field_name f ∈ l.*1)) as [Hin|Hn].
    + rewrite collected_inserts_listed; [|intros o l' Hin'; by eapply (Hsi op l)]. simpl.
      rewrite Hnull. by apply first_true_inserts.
    + rewrite assigned_missing by done. apply first_true_nulls; [|done].
      apply collected_inserts_missing; [|intros w t Hw; by apply elem_of_nil in Hw].
      intros o l' Hin' Hf. apply Hn. by eapply (Hsi o l').
  - destruct (chosen_in _ _ _ Hch) as (op & Hop & _). by destruct (Hnd op).
  - pose proof (chosen_none _ _ Hch) as Hno. rewrite Hskip_i by (intros; by eapply Hno).
    apply Hskip_u. intros; by eapply Hno.
Qed.

(** The clause kinds the SQL grammar allows: updates under MATCHED, inserts under NOT MATCHED. *)
Definition grammatical (c : MergeClause sql) : Prop :=
  match action c with
  | Update _ | Delete => clause_kind c = Matched
  | Insert _ _ => clause_kind c = NotMatched \/ clause_kind c = NotMatchedByTarget
  end.

(** When a clause of the statement applies to a row of the join, in SQL's terms. *)
Definition clause_holds (j : row) (c : MergeClause sql) : Prop :=
  match clause_kind c with
  | Matched => j TARGET_EXISTS_COLUMN = VBool true /\ j SOURCE_EXISTS_COLUMN = VBool true
  | NotMatched | NotMatchedByTarget => j TARGET_EXISTS_COLUMN = VNull
  | NotMatchedBySource => False
  end /\
  match predicate c with Some p => exists e, sql_to_expr p = Ok e /\ eval j e = VBool true | None => True end.

Lemma clause_op_holds j c op : clause_op sql_to_expr c = Ok op -> (eval j op = VBool true <-> clause_holds j c).
Proof.
  unfold clause_op, clause_holds. destruct (merge_clause_expression (clause_kind c)) as [base|] eqn:Hb; simpl; [|done].
  assert (eval j base = VBool true <->
    match clause_kind c with
    | Matched => j TARGET_EXISTS_COLUMN = VBool true /\ j SOURCE_EXISTS_COLUMN = VBool true
    | NotMatched | NotMatchedByTarget => j TARGET_EXISTS_COLUMN = VNull
    | NotMatchedBySource => False
    end) as Hbase.
  { destruct (clause_kind c); simpl in Hb; simplify_eq; [by rewrite eval_and, kleene_and_true, !eval_col|..];
      rewrite eval_is_null, eval_col; (split; [intros [= H]; by apply bool_decide_eq_true in H|by intros ->]). }
  destruct (predicate c) as [p|]; [|intros [= <-]; tauto].
  destruct (sql_to_expr p) as [e|]; simpl; [|done]. intros [= <-]. rewrite eval_and, kleene_and_true, Hbase. naive_solver.
Qed.

Lemma clause_op_true j c op :
  clause_op sql_to_expr c = Ok op -> eval j op = VBool true ->
  (clause_kind c = Matched -> j TARGET_EXISTS_COLUMN = VBool true) /\
  (clause_kind c = NotMatched \/ clause_kind c = NotMatchedByTarget -> j TARGET_EXISTS_COLUMN = VNull).
Proof. intros Hop [Hk _]%(clause_op_holds j c op Hop). destruct (clause_kind c); naive_solver. Qed.

(** A planned clause applies to a row exactly when the clause of the statement does. *)
Lemma planned_applies j clauses cs i c p :
  traverse plan_clause clauses = Ok cs -> clauses !! i = Some c -> cs !! i = Some p -> applies j p <-> clause_holds j c.
Proof.
  intros Hcs%traverse_Ok Hc Hp. destruct (Forall2_lookup_l _ _ _ _ _ Hcs Hc) as (p' & Hp' & Hplan). simplify_eq.
  unfold MergePlan.plan_clause in Hplan. destruct (clause_op sql_to_expr c) as [op|] eqn:Hop; simpl in Hplan; [|done].
  unfold applies. rewrite <- (clause_op_holds j c op Hop). destruct p as [o a]. simpl.
  destruct (match action c with Update _ => _ | Insert _ _ => _ | Delete => _ end); simpl in Hplan; by simplify_eq.
Qed.

Lemma planned_kinds j clauses cs :
  traverse plan_clause clauses = Ok cs -> Forall grammatical clauses -> kinds_agree j cs.
Proof.
  intros Hp%traverse_Ok Hg.
  assert (forall op a, (op, a) ∈ cs -> exists c, c ∈ clauses /\ plan_clause c = Ok (op, a)) as Hin.
  { intros op a Ha. apply list_elem_of_lookup in Ha as [i Hi].
    destruct (Forall2_lookup_r _ _ _ _ _ Hp Hi) as (c & Hc & Hpc). exists c. split; [by eapply list_elem_of_lookup_2|done]. }
  assert (forall c op a, plan_clause c = Ok (op, a) -> clause_op sql_to_expr c = Ok op /\
    match action c, a with Update _, PUpdate _ | Insert _ _, PInsert _ | Delete, PDelete => True | _, _ => False end) as Hinv.
  { intros c op a. unfold MergePlan.plan_clause. destruct (clause_op sql_to_expr c) as [o|]; simpl; [|done].
    destruct (action c) as [l|cols k|]; simpl.
    - destruct (traverse _ l); simpl; [|done]. by intros [= <- <-].
    - destruct (plan_insert _ cols k); simpl; [|done]. by intros [= <- <-].
    - by intros [= <- <-]. }
  rewrite Forall_forall in Hg.
  split; intros o l Ha Ho; destruct (Hin _ _ Ha) as (c & Hc & Hpc); destruct (Hinv _ _ _ Hpc) as [Hop Hact];
    specialize (Hg c Hc); unfold grammatical in Hg; destruct (action c); try done;
    by apply (clause_op_true j c o Hop Ho).
Qed.

(** A clause that applies excludes the clauses of the other kind. *)
Lemma updated_marker j names cs :
  uniform cs -> kinds_agree j cs ->
  (exists op, op ∈ updated_ops (fold_left (apply_clause names) cs nothing_collected) /\ eval j op = VBool true)
  <-> exists l, chosen j cs = Some (PUpdate l).
Proof.
  intros [Hdel _ _] [Hku Hki]. split.
  - intros (op & Hop & Hv). apply collected_ops in Hop as [Hop|[l Hop]]; [by apply elem_of_nil in Hop|].
    destruct (chosen j cs) as [[l'|l'|]|] eqn:Hc; [by eauto|..].
    + destruct (chosen_in _ _ _ Hc) as (o & Ho & Hov). pose proof (Hku _ _ Hop Hv). pose proof (Hki _ _ Ho Hov). congruence.
    + destruct (chosen_in _ _ _ Hc) as (o & Ho & _). by destruct (Hdel o).
    + by destruct (chosen_none _ _ Hc _ _ Hop).
  - intros [l (op & Hin & Hv)%chosen_in]. exists op. split; [|done]. apply collected_ops. right. by exists l.
Qed.

Lemma inserted_marker j names cs :
  uniform cs -> kinds_agree j cs ->
  (exists op, op ∈ inserted_ops (fold_left (apply_clause names) cs nothing_collected) /\ eval j op = VBool true)
  <-> exists l, chosen j cs = Some (PInsert l).
Proof.
  intros [Hdel _ _] [Hku Hki]. split.
  - intros (op & Hop & Hv). apply collected_ops in Hop as [Hop|[l Hop]]; [by apply elem_of_nil in Hop|].
    destruct (chosen j cs) as [[l'|l'|]|] eqn:Hc; [|by eauto|..].
    + destruct (chosen_in _ _ _ Hc) as (o & Ho & Hov). pose proof (Hki _ _ Hop Hv). pose proof (Hku _ _ Ho Hov). congruence.
    + destruct (chosen_in _ _ _ Hc) as (o & Ho & _). by destruct (Hdel o).
    + by destruct (chosen_none _ _ Hc _ _ Hop).
  - intros [l (op & Hin & Hv)%chosen_in]. exists op. split; [|done]. apply collected_ops. right. by exists l.
Qed.

Lemma merge_projection_values j schema clauses exprs cs :
  merge_clause_projection schema clauses = Ok exprs -> traverse plan_clause clauses = Ok cs ->
  NoDup (field_name <$> schema) -> Forall grammatical clauses -> uniform cs ->
  (forall f, f ∈ schema -> j TARGET_EXISTS_COLUMN = VNull -> j (qualified f) = VNull) ->
  (forall i f, schema !! i = Some f -> exists e, exprs !! i = Some e /\ eval j e = merged_value get_type j cs f)
  /\ (exists upd ins, exprs !! S (length schema) = Some (Alias upd MERGE_UPDATED_COLUMN)
        /\ exprs !! S (S (length schema)) = Some (Alias ins MERGE_INSERTED_COLUMN)
        /\ (eval j upd = VBool true <-> exists l, chosen j cs = Some (PUpdate l))
        /\ (eval j ins = VBool true <-> exists l, chosen j cs = Some (PInsert l))).
Proof.
  intros Hproj Hcs Hnd Hg Hu Hnull. pose proof (planned_kinds j _ _ Hcs Hg) as Hk.
  unfold MergePlan.merge_clause_projection in Hproj. rewrite collect_clauses_eq, Hcs in Hproj. simpl in Hproj.
  unfold collect_merge_clause_expressions in Hproj. rewrite collect_fields_eq in Hproj by done.
  set (st := fold_left (apply_clause (field_name <$> schema)) cs nothing_collected) in *.
  destruct (traverse (fun f => field_expr f (updates st) (inserts st)) schema) as [es|] eqn:Hes; simpl in Hproj; [|done].
  injection Hproj as <-. apply traverse_Ok in Hes. pose proof (Forall2_length _ _ _ Hes) as Hlen. split.
  - intros i f Hi. destruct (Forall2_lookup_l _ _ _ _ _ Hes Hi) as (e & He & Hfe). exists e.
    split; [rewrite !lookup_app_l; [done|..]; rewrite ?length_app; apply lookup_lt_Some in He; lia|].
    rewrite (eval_field_expr j f _ _ e Hfe). apply merged_column; [done|done| |].
    + apply list_elem_of_fmap_2. by eapply list_elem_of_lookup_2.
    + apply Hnull. by eapply list_elem_of_lookup_2.
  - exists (any_of (updated_ops st)), (any_of (inserted_ops st)).
    assert (length (es ++ [Col SOURCE_EXISTS_COLUMN]) = S (length schema)) as Hl by (rewrite length_app; simpl; lia).
    split_and!.
    + by rewrite lookup_app_r, Hl, Nat.sub_diag by lia.
    + rewrite lookup_app_r, Hl by lia. by replace (S (S (length schema)) - S (length schema))%nat with 1%nat by lia.
    + rewrite eval_any_of. by apply updated_marker.
    + rewrite eval_any_of. by apply inserted_marker.
Qed.

(** C6: the projection of a MERGE computes the merged row: when its update clauses assign the same
    columns and its insert clauses list the same columns, every target column of every joined row
    gets the value the first applicable clause gives it (and is kept when none applies), and the two
    marker columns say whether that clause was an update or an insert; a MATCHED clause is applicable
    where both sides of the join exist and its predicate is true, a NOT MATCHED one where the target side
    does not. *)
Theorem merge_projection_correct j schema clauses exprs cs :
  merge_clause_projection schema clauses = Ok exprs -> traverse plan_clause clauses = Ok cs ->
  NoDup (field_name <$> schema) -> Forall grammatical clauses -> uniform cs ->
  (forall f, f ∈ schema -> j TARGET_EXISTS_COLUMN = VNull -> j (qualified f) = VNull) ->
  (forall i c p, clauses !! i = Some c -> cs !! i = Some p -> applies j p <-> clause_holds j c)
  /\ (forall i f, schema !! i = Some f -> exists e, exprs !! i = Some e /\ eval j e = merged_value get_type j cs f)
  /\ (exists upd ins, exprs !! S (length schema) = Some (Alias upd MERGE_UPDATED_COLUMN)
        /\ exprs !! S (S (length schema)) = Some (Alias ins MERGE_INSERTED_COLUMN)
        /\ (eval j upd = VBool true <-> exists l, chosen j cs = Some (PUpdate l))
        /\ (eval j ins = VBool true <-> exists l, chosen j cs = Some (PInsert l))).
Proof.
  intros Hproj Hcs Hnd Hg Hu Hnull. split; [intros; by eapply planned_applies|by apply merge_projection_values with clauses].
Qed.

(** A source row that matches no target row and no insert clause is still written: the join keeps
    it, the projection gives it null in every target column and neither marker is set, and nothing
    after the projection drops it. *)
Theorem unmatched_source_row_written {T U : Type} (on : T -> U -> bool) (data_file : T -> string)
    (scan : option Filter -> list T -> list T) target_filter ts ss s j schema clauses exprs cs :
  (forall t, t ∈ scan target_filter ts -> t ∈ ts) ->
  merge_clause_projection schema clauses = Ok exprs -> traverse plan_clause clauses = Ok cs ->
  NoDup (field_name <$> schema) -> Forall grammatical clauses -> uniform cs ->
  (forall f, f ∈ schema -> j TARGET_EXISTS_COLUMN = VNull -> j (qualified f) = VNull) ->
  s ∈ ss -> (forall t, t ∈ ts -> on t s = false) -> j TARGET_EXISTS_COLUMN = VNull -> chosen j cs = None ->
  SourceOnly s ∈ merge_input on data_file scan target_filter ts ss
  /\ (forall i f, schema !! i = Some f -> exists e, exprs !! i = Some e /\ eval j e = VNull)
  /\ exists upd ins, exprs !! S (length schema) = Some (Alias upd MERGE_UPDATED_COLUMN)
        /\ exprs !! S (S (length schema)) = Some (Alias ins MERGE_INSERTED_COLUMN)
        /\ eval j upd <> VBool true /\ eval j ins <> VBool true.
Proof.
  intros Hscan Hproj Hcs Hnd Hg Hu Hnull Hs Hun Hte Hch.
  destruct (merge_projection_values j schema clauses exprs cs Hproj Hcs Hnd Hg Hu Hnull) as [Hv (upd & ins & H1 & H2 & H3 & H4)].
  split_and!.
  - unfold merge_input, full_join. apply elem_of_app. right. apply list_elem_of_fmap_2. apply list_elem_of_filter.
    split; [|done]. apply not_true_is_false. intros (t & Ht & Ho)%existsb_exists.
    apply list_elem_of_In in Ht. apply list_elem_of_filter in Ht as [_ Ht%Hscan]. by rewrite (Hun t Ht) in Ho.
  - intros i f Hi. destruct (Hv i f Hi) as (e & He & Hev). exists e. split; [done|]. rewrite Hev.
    unfold merged_value. rewrite Hch. apply Hnull; [by eapply list_elem_of_lookup_2|done].
  - exists upd, ins. split_and!; try done.
    + rewrite H3, Hch. by intros [].
    + rewrite H4, Hch. by intros [].
Qed.
End collect.

(** ** The copy-on-write join *)
Section join.
Context {T S : Type} (on : T -> S -> bool) (data_file : T -> string).
Notation joins := (joins on).
Notation affected_files := (affected_files on data_file).
Notation semi_join := (semi_join on data_file).
Notation full_join := (full_join on).
Notation rewritten ts ss := (MergePlan.full_join on (MergePlan.semi_join on data_file ts ss) ss).

Lemma joins_affected ts ss t : t ∈ ts -> joins ss t = true -> data_file t ∈ affected_files ts ss.
Proof. intros Ht Hj. unfold MergePlan.affected_files. apply list_elem_of_fmap_2. by apply list_elem_of_filter. Qed.

Lemma joins_true ss t s : s ∈ ss -> on t s = true -> joins ss t = true.
Proof. intros Hs Ho. unfold MergePlan.joins. apply existsb_exists. exists s. split; [by apply list_elem_of_In|done]. Qed.

Lemma source_only_same ts ss s :
  s ∈ ss -> existsb (fun t => on t s) (semi_join ts ss) = existsb (fun t => on t s) ts.
Proof.
  intros Hs. apply eq_bool_prop_intro. rewrite !Is_true_true, !existsb_exists. split.
  - intros (t & Ht & Ho). apply list_elem_of_In in Ht. apply list_elem_of_filter in Ht as [_ Ht].
    exists t. split; [by apply list_elem_of_In|done].
  - intros (t & Ht & Ho). apply list_elem_of_In in Ht. exists t. split; [|done]. apply list_elem_of_In.
    apply list_elem_of_filter. split; [|done]. apply joins_affected; [done|]. by eapply joins_true.
Qed.

Lemma untouched_target_only ts ss l :
  (forall t, t ∈ l -> t ∈ ts /\ data_file t ∉ affected_files ts ss) ->
  mjoin (target_side on ss <$> l) = TargetOnly <$> l.
Proof.
  induction l as [|t l IH]; intros Hl; [done|].
  change (target_side on ss t ++ mjoin (target_side on ss <$> l) = TargetOnly t :: (TargetOnly <$> l)).
  rewrite IH by (intros; apply Hl; by apply elem_of_cons; right). unfold target_side.
  destruct (Hl t) as [Ht Hn]; [by apply elem_of_cons; left|].
  destruct (joins ss t) eqn:Hj; [|done]. by destruct Hn; apply joins_affected.
Qed.

Lemma mjoin_perm {A} (l1 l2 : list (list A)) : l1 ≡ₚ l2 -> mjoin l1 ≡ₚ mjoin l2.
Proof.
  induction 1 as [|x l1 l2 _ IH|x y l|l1 l2 l3 _ IH1 _ IH2]; cbn [mjoin list_join]; [done| | |by rewrite IH1].
  - by rewrite IH.
  - rewrite !app_assoc. by rewrite (Permutation_app_comm x y).
Qed.

Lemma filter_split (P : T -> Prop) `{forall t, Decision (P t)} (l : list T) :
  l ≡ₚ filter P l ++ filter (fun t => ~ P t) l.
Proof.
  induction l as [|t l IH]; [done|]. rewrite !filter_cons. destruct (decide (P t)).
  - rewrite decide_False by tauto. simpl. by rewrite <- IH.
  - rewrite decide_True by done. rewrite <- Permutation_middle. by rewrite <- IH.
Qed.

(** Joining the target rows of the affected files gives every row of the join of the whole table
    except the untouched rows, which join nothing; and the rows come from exactly those files. *)
Lemma rewritten_join ts ss :
  full_join ts ss ≡ₚ
    rewritten ts ss ++ (TargetOnly <$> filter (fun t => data_file t ∉ affected_files ts ss) ts)
  /\ forall t, ((exists s, Both t s ∈ rewritten ts ss) \/ TargetOnly t ∈ rewritten ts ss)
               <-> t ∈ ts /\ data_file t ∈ affected_files ts ss.
Proof.
  split.
  - unfold MergePlan.full_join at 1 2.
    rewrite (list_filter_iff' (fun s => existsb (fun t => on t s) (semi_join ts ss) = false)
               (fun s => existsb (fun t => on t s) ts = false)) by (intros s Hs; by rewrite source_only_same).
    rewrite <- (untouched_target_only ts ss)
      by (intros t Ht; apply list_elem_of_filter in Ht; tauto).
    rewrite <- app_assoc, (Permutation_app_comm _ (mjoin _)), app_assoc. apply Permutation_app; [|done].
    rewrite <- join_app, <- fmap_app. apply mjoin_perm, fmap_Permutation. apply filter_split.
  - intros t. set (aff := affected_files ts ss).
    unfold MergePlan.full_join. setoid_rewrite elem_of_app.
    setoid_rewrite list_elem_of_join. setoid_rewrite list_elem_of_fmap.
    assert (forall x l, x ∈ l -> (exists t', l = target_side on ss t' /\ t' ∈ semi_join ts ss) ->
      (x = TargetOnly t \/ exists s, x = Both t s) -> t ∈ ts /\ data_file t ∈ aff) as Hone.
    { intros x l Hx (t' & -> & Ht') Hform. unfold target_side in Hx. apply list_elem_of_filter in Ht' as [Hf Ht'].
      assert (t' = t) as ->; [|done]. destruct (joins ss t').
      - apply list_elem_of_fmap in Hx as (s & -> & _). by destruct Hform as [|[? [= -> ->]]].
      - apply list_elem_of_singleton in Hx as ->. by destruct Hform as [[= ->]|[? ?]]. }
    split.
    + intros [(s & [(l & Hl & Hm)|(s' & ? & _)])|[(l & Hl & Hm)|(s' & ? & _)]]; try done.
      * eapply Hone; [exact Hl|done|by right; exists s].
      * eapply Hone; [exact Hl|done|by left].
    + intros [Ht Hf]. destruct (joins ss t) eqn:Hj.
      * left. pose proof Hj as Hj'. unfold MergePlan.joins in Hj'. apply existsb_exists in Hj' as (s & Hs & Ho).
        exists s. left. exists (target_side on ss t). split.
        -- unfold target_side. rewrite Hj. apply list_elem_of_fmap_2. apply list_elem_of_filter. split; [done|by apply list_elem_of_In].
        -- exists t. split; [done|]. by apply list_elem_of_filter.
      * right. left. exists (target_side on ss t). split.
        -- unfold target_side. rewrite Hj. by apply list_elem_of_singleton.
        -- exists t. split; [done|]. by apply list_elem_of_filter.
Qed.
End join.

(** ** The whole MERGE *)

(** The rows of the join as the projection reads them: target columns from the target row, the others
    from the source row, null where that side is missing. *)
Definition join_row {T S} (target_columns : list string) (target_row : T -> row) (source_row : S -> row) (x : joined (T := T) (S := S)) : row :=
  fun n => if decide (n ∈ target_columns) then match x with Both t _ | TargetOnly t => target_row t n | SourceOnly _ => VNull end
           else match x with Both _ s | SourceOnly s => source_row s n | TargetOnly _ => VNull end.

Section whole.
Context {sql : Type} (sql_to_expr source_to_expr : sql -> result string Expr).
Context (get_type : Expr -> result string string) (case_check : pairs -> Expr -> result string unit).
Context {E : Evaluator} {L : ExprLaws}.
Context {T S : Type} (on : T -> S -> bool) (data_file : T -> string) (scan : option Filter -> list T -> list T).
Context (target_row : T -> row) (source_row : S -> row) (schema : list field).
(** The value of a column of the target, and of the source, by its plain name, and the comparison the filter is made of. *)
Context (target_column : T -> string -> value) (source_column : S -> string -> value) (at_most : value -> value -> bool).
Notation joined := (joined (T := T) (S := S)).
Notation join_row := (join_row (qualified <$> schema) target_row source_row).

Fixpoint satisfies (t : T) (f : Filter) : bool :=
  match f with
  | Range c min max => at_most min (target_column t c) && at_most (target_column t c) max
  | Conj a b => satisfies t a && satisfies t b
  end.

(** What the scan promises: without a filter it gives every row; with one it leaves out whole data files
    only, and none that has a row within the filter. *)
Record prunes_files : Prop := {
  scan_all : forall ts, scan None ts = ts;
  scan_some : forall f ts, exists kept : list string,
    scan (Some f) ts = filter (fun t => data_file t ∈ kept) ts /\
    (forall t, t ∈ ts -> satisfies t f = true -> data_file t ∈ kept) }.

(** The source's partition columns, each with the bounds its metadata give. *)
Definition bounded (t : SourceTable) (c : string) (min max : value) : Prop :=
  exists snapshot mins maxs names i a b, current_snapshot t = Ok (Some snapshot) /\
    snapshot_partition_bounds t snapshot = Ok (Some (mins, maxs)) /\ partition_source_names t snapshot = Ok names /\
    names !! i = Some c /\ mins !! i = Some a /\ maxs !! i = Some b /\
    value_to_literal a = Ok min /\ value_to_literal b = Ok max.

(** The rows of a partitioned source lie within the bounds of its metadata, and the condition of the
    MERGE equates its partition columns with the target's of the same name. *)
Definition partition_columns_joined (source : MergeSource) (ts : list T) (ss : list S) : Prop :=
  match source with
  | TableSource (Some tab) => forall c min max, bounded tab c min max ->
      (forall s, s ∈ ss -> at_most min (source_column s c) = true /\ at_most (source_column s c) max = true) /\
      (forall t s, t ∈ ts -> s ∈ ss -> on t s = true -> target_column t c = source_column s c)
  | _ => True
  end.

Lemma and_range_satisfies t l acc f : fold_left and_range l acc = Some f ->
  (forall g, acc = Some g -> satisfies t g = true) ->
  (forall c min max, (c, (min, max)) ∈ l -> at_most min (target_column t c) = true /\ at_most (target_column t c) max = true) ->
  satisfies t f = true.
Proof.
  revert acc. induction l as [|[c [min max]] l IH]; intros acc; cbn [fold_left]; [by intros -> H _; apply H|].
  intros Hf Hacc Hl. apply (IH _ Hf); [|intros; apply Hl; by right].
  destruct (Hl c min max) as [H1 H2]; [by left|]. intros g [= <-]. cbn [fst snd].
  destruct acc as [a|]; cbn [satisfies]; rewrite H1, H2; [|done]. by rewrite (Hacc a eq_refl).
Qed.

Lemma filter_bounded tab f : target_filter_expression tab = Ok (Some f) ->
  exists l, fold_left and_range l None = Some f /\ forall c min max, (c, (min, max)) ∈ l -> bounded tab c min max.
Proof.
  unfold target_filter_expression. destruct (is_table tab); [|done].
  destruct (current_snapshot tab) as [[snap|]|] eqn:Hsnap; cbn [in_iceberg result_bind]; [|done..].
  unfold partition_column_bounds. destruct (snapshot_partition_bounds tab snap) as [[[mins maxs]|]|] eqn:Hb; cbn [in_iceberg result_bind]; [|done..].
  destruct (traverse _ _) as [bounds|] eqn:Ht; cbn [result_map result_bind]; [|done].
  destruct (partition_source_names tab snap) as [names|] eqn:Hn; [|by destruct bounds].
  intros H. exists (zip names bounds). split; [destruct bounds; simpl in H; congruence|].
  intros c min max [i (n & b' & Heq & Hi1 & Hi2)%lookup_zip_with_Some]%list_elem_of_lookup. injection Heq as <- <-.
  apply traverse_Ok in Ht. destruct (Forall2_lookup_r _ _ _ _ _ Ht Hi2) as ([a b] & Hz & Hl).
  apply lookup_zip_with_Some in Hz as (a' & b'' & [= <- <-] & Ha & Hbi). cbn [fst snd] in Hl.
  destruct (value_to_literal a) as [lo|] eqn:Ea; cbn [result_bind] in Hl; [|done].
  destruct (value_to_literal b) as [hi|] eqn:Eb; cbn [result_map] in Hl; [|done]. injection Hl as <- <-.
  exists snap, mins, maxs, names, i, a, b. done.
Qed.

(** A target row that joins a source row lies within the filter of the source. *)
Lemma joined_within source ts ss f t s : source_filter source = Ok (Some f) -> partition_columns_joined source ts ss ->
  t ∈ ts -> s ∈ ss -> on t s = true -> satisfies t f = true.
Proof.
  intros Hf Hp Ht Hs Ho. destruct source as [[tab|]| |]; try done. cbn [source_filter] in Hf.
  destruct (filter_bounded tab f Hf) as (l & Hl & Hb).
  apply (and_range_satisfies t l None f Hl); [done|]. intros c min max Hin%Hb.
  destruct (Hp c min max Hin) as [Hbound Heq]. rewrite (Heq t s Ht Hs Ho). by apply Hbound.
Qed.

(** The filter prunes nothing that matters: the plan joins the same rows as over the whole table. *)
Lemma filtered_input source flt ts ss : prunes_files -> source_filter source = Ok flt -> partition_columns_joined source ts ss ->
  merge_input on data_file scan flt ts ss = full_join on (semi_join on data_file ts ss) ss.
Proof.
  intros Hscan Hf Hp. unfold merge_input. cbn zeta. f_equal. destruct flt as [f|]; [|by rewrite (scan_all Hscan)].
  destruct (scan_some Hscan f ts) as (kept & -> & Hk).
  assert (forall t, t ∈ ts -> joins on ss t = true -> data_file t ∈ kept) as Hj.
  { intros t Ht (s & Hs & Ho)%existsb_exists. apply Hk; [done|]. apply list_elem_of_In in Hs. by eapply joined_within. }
  assert (affected_files on data_file (filter (fun t => data_file t ∈ kept) ts) ss = affected_files on data_file ts ss) as Ha.
  { unfold affected_files. f_equal. rewrite list_filter_filter. apply list_filter_iff'. intros t Ht. naive_solver. }
  unfold semi_join. rewrite Ha, list_filter_filter. apply list_filter_iff'. intros t Ht. split; [by intros []|].
  intros Hin. split; [done|]. apply list_elem_of_fmap in Hin as (t' & -> & [Hj' Ht']%list_elem_of_filter). by apply Hj.
Qed.

(** *** The merged table *)
Context (clauses : list (MergeClause sql)) (exprs : list Expr) (cs : list planned).
Hypothesis projected_ok : merge_clause_projection sql_to_expr source_to_expr get_type case_check schema clauses = Ok exprs.
Hypothesis planned_ok : traverse (plan_clause sql_to_expr source_to_expr) clauses = Ok cs.
Hypothesis names_distinct : NoDup (field_name <$> schema).
Hypothesis clauses_grammatical : Forall grammatical clauses.
Hypothesis clauses_uniform : uniform cs.
(** The column [with_column] adds to the target, true in every row, and the name of the source's. *)
Hypothesis target_exists : TARGET_EXISTS_COLUMN ∈ qualified <$> schema.
Hypothesis target_exists_true : forall t, target_row t TARGET_EXISTS_COLUMN = VBool true.
Hypothesis source_exists : SOURCE_EXISTS_COLUMN ∉ qualified <$> schema.

(** The row the plan writes for a row of the join, and the row a target row is. *)
Definition written (x : joined) : list value := eval (join_row x) <$> take (length schema) exprs.
Definition own_row (t : T) : list value := (fun f => target_row t (qualified f)) <$> schema.

(** MERGE: a target row becomes its merger with each source row it joins, or stays; a source row that joins
    none is inserted by the first insert clause that applies, if any. *)
Definition merge_target (ss : list S) (t : T) : list (list value) :=
  match filter (fun s => on t s = true) ss with
  | [] => [own_row t]
  | matches => (fun s => merged_value get_type (join_row (Both t s)) cs <$> schema) <$> matches
  end.
Definition merge_source (ts : list T) (s : S) : list (list value) :=
  if decide (Exists (fun t => on t s = true) ts) then []
  else match chosen (join_row (SourceOnly s)) cs with
       | Some _ => [merged_value get_type (join_row (SourceOnly s)) cs <$> schema]
       | None => []
       end.
Definition sql_merge (ts : list T) (ss : list S) : list (list value) :=
  mjoin (merge_target ss <$> ts) ++ mjoin (merge_source ts <$> ss).

Lemma written_merged x : written x = merged_value get_type (join_row x) cs <$> schema.
Proof.
  destruct (merge_projection_values sql_to_expr source_to_expr get_type case_check (join_row x) schema clauses exprs cs
    projected_ok planned_ok names_distinct clauses_grammatical clauses_uniform) as [Hv _].
  { intros f Hf. unfold MergePlan.join_row. rewrite decide_True by done. rewrite decide_True by (by apply list_elem_of_fmap_2).
    destruct x; [by rewrite target_exists_true..|done]. }
  unfold written. apply list_eq. intros i. rewrite !list_lookup_fmap.
  destruct (schema !! i) as [f|] eqn:Hi; cbn [fmap option_fmap option_map].
  - destruct (Hv i f Hi) as (e & He & <-). rewrite lookup_take_lt by (by eapply lookup_lt_Some). by rewrite He.
  - rewrite lookup_take_ge; [done|]. by apply lookup_ge_None.
Qed.

Lemma target_only_own t : written (TargetOnly t) = own_row t.
Proof.
  rewrite written_merged. unfold own_row. apply list_fmap_ext. intros i f Hi. unfold merged_value.
  assert (chosen (join_row (TargetOnly t)) cs = None) as ->.
  { destruct (chosen (join_row (TargetOnly t)) cs) as [a|] eqn:Hc; [exfalso|done].
    destruct (chosen_in _ _ _ Hc) as (op & [k Hk]%list_elem_of_lookup & Hop).
    apply traverse_Ok in planned_ok as Hp. destruct (Forall2_lookup_r _ _ _ _ _ Hp Hk) as (c & Hck & _).
    pose proof (proj1 (planned_applies sql_to_expr source_to_expr get_type (join_row (TargetOnly t)) clauses cs k c (op, a) planned_ok Hck Hk) Hop) as [Hholds _]. clear Hop. rename Hholds into Hop.
    unfold MergePlan.join_row in Hop. rewrite (decide_True _ _ target_exists), (decide_False _ _ source_exists), target_exists_true in Hop.
    destruct (clause_kind c); naive_solver. }
  unfold MergePlan.join_row. rewrite decide_True; [done|]. apply list_elem_of_fmap_2. by eapply list_elem_of_lookup_2.
Qed.

Lemma join_cons {A} (x : list A) l : mjoin (x :: l) = x ++ mjoin l.
Proof. done. Qed.

Lemma target_side_merges ss t : written <$> target_side on ss t = merge_target ss t.
Proof.
  unfold target_side, merge_target. destruct (joins on ss t) eqn:Hj.
  - destruct (filter (fun s => on t s = true) ss) as [|s l] eqn:Hf.
    + apply existsb_exists in Hj as (s & Hs%list_elem_of_In & Ho). exfalso. apply (not_elem_of_nil s). rewrite <- Hf. by apply list_elem_of_filter.
    + rewrite <- list_fmap_compose. apply list_fmap_ext. intros. apply written_merged.
  - destruct (filter (fun s => on t s = true) ss) as [|s l] eqn:Hf; [cbn; by rewrite target_only_own|].
    assert (s ∈ filter (fun s => on t s = true) ss) as [Ho Hs]%list_elem_of_filter by (rewrite Hf; by left).
    unfold joins in Hj. rewrite (proj2 (existsb_exists _ _)) in Hj; [done|]. exists s. split; [by apply list_elem_of_In|done].
Qed.

Lemma source_side_merges ts ss : (forall s, s ∈ ss -> Forall (fun t => on t s = false) ts -> chosen (join_row (SourceOnly s)) cs <> None) ->
  written <$> (SourceOnly <$> filter (fun s => existsb (fun t => on t s) ts = false) ss) = mjoin (merge_source ts <$> ss).
Proof.
  induction ss as [|s ss IH]; intros Hins; [done|]. rewrite filter_cons, fmap_cons, join_cons.
  specialize (IH ltac:(intros s0 Hs0; apply Hins; by right)). unfold merge_source at 1.
  destruct (existsb (fun t => on t s) ts) eqn:He.
  - rewrite decide_False by done. rewrite decide_True; [exact IH|]. apply existsb_exists in He as (t & Ht%list_elem_of_In & Ho). apply Exists_exists. eauto.
  - rewrite decide_True by done.
    assert (Forall (fun t => on t s = false) ts) as Hall.
    { apply Forall_forall. intros t Ht. apply not_true_is_false. intros Ho. rewrite (proj2 (existsb_exists _ _)) in He; [done|]. exists t. split; [by apply list_elem_of_In|done]. }
    rewrite decide_False by (intros (t & Ht & Ho)%Exists_exists; by rewrite (proj1 (Forall_forall _ _) Hall t Ht) in Ho).
    destruct (chosen (join_row (SourceOnly s)) cs) as [a|] eqn:Hc; [|by destruct (Hins s ltac:(by left) Hall)].
    rewrite !fmap_cons. cbn [app]. f_equal; [apply written_merged|exact IH].
Qed.

Lemma full_join_merges ts ss : (forall s, s ∈ ss -> Forall (fun t => on t s = false) ts -> chosen (join_row (SourceOnly s)) cs <> None) ->
  written <$> full_join on ts ss = sql_merge ts ss.
Proof.
  intros Hins. unfold full_join, sql_merge. rewrite fmap_app, source_side_merges by done. f_equal. clear Hins.
  induction ts as [|t ts IH]; [done|]. rewrite !fmap_cons, !join_cons, fmap_app. f_equal; [apply target_side_merges|exact IH].
Qed.


End whole.


(** ** A concrete evaluator *)
Module MergeDemo.
Fixpoint ev (j : row) (e : Expr) : value :=
  match e with
  | Col n => j n
  | Lit v => v
  | And a b => kleene_and (ev j a) (ev j b)
  | Or a b => kleene_or (ev j a) (ev j b)
  | IsNull e => VBool (bool_decide (ev j e = VNull))
  | TryCast e _ => ev j e
  | Case ws o =>
      (fix go ws := match ws with
                    | [] => ev j o
                    | (w, t) :: ws => if decide (ev j w = VBool true) then ev j t else go ws
                    end) ws
  | Alias e _ => ev j e
  | Planned _ => VNull
  end.
#[global] Instance evaluator : Evaluator := {| eval := ev; try_cast _ v := v |}.
#[global] Instance evaluator_laws : ExprLaws (E := evaluator).
Proof.
  split; try done. intros j ws o. change (ev j (Case ws o) = first_true (ev j) ws (ev j o)).
  induction ws as [|[w t] ws IH]; [done|]. simpl in *. by rewrite IH.
Qed.

Definition row_of (l : list (string * value)) : row :=
  fun n => match list_find (fun p => p.1 = n) l with Some (_, (_, v)) => v | None => VNull end.

Definition schema : list field :=
  [mkField (Some "t"%string) "a" "x"; mkField (Some "t"%string) "b" "x"; mkField None TARGET_EXISTS_COLUMN "x"].
Definition update (p : option Expr) (l : list (string * Expr)) : MergeClause Expr :=
  mkClause Matched p (Update ((fun q : string * Expr => (ColumnName [q.1], q.2)) <$> l)).
Definition insert (p : option Expr) (l : list (string * Expr)) : MergeClause Expr :=
  mkClause NotMatched p (Insert l.*1 (Values [l.*2])).
Definition projection (clauses : list (MergeClause Expr)) : result plan_error (list Expr) :=
  merge_clause_projection Ok Ok (fun _ => Ok "x"%string) (fun _ _ => Ok tt) schema clauses.
Definition plans (clauses : list (MergeClause Expr)) : result plan_error (list planned) :=
  traverse (plan_clause Ok Ok) clauses.
(** The values a projection gives a row. *)
Definition projected_values (j : row) (clauses : list (MergeClause Expr)) : option (list value) :=
  match projection clauses with Ok es => Some (ev j <$> es) | Err _ => None end.
Definition merged_values (j : row) (clauses : list (MergeClause Expr)) : option (list value) :=
  match plans clauses with
  | Ok cs => Some (merged_value (fun _ => Ok "x"%string) j cs <$> schema)
  | Err _ => None
  end.

Definition both_row : row :=
  row_of [("t.a", VData "old a"); ("t.b", VData "old b"); ("s.a", VData "new a"); ("s.b", VData "new b");
          ("s.p", VBool true); (TARGET_EXISTS_COLUMN, VBool true); (SOURCE_EXISTS_COLUMN, VBool true)]%string.
Definition source_row : row :=
  row_of [("s.a", VData "new a"); ("s.b", VData "new b"); ("s.p", VBool true); (SOURCE_EXISTS_COLUMN, VBool true)]%string.
Definition upsert : list (MergeClause Expr) :=
  [update None [("b", Col "s.b")]; insert (Some (IsNull (Col "s.p"))) [("a", Col "s.a"); ("b", Col "s.b")]]%string.
Definition upsert_exprs : list Expr := match projection upsert with Ok es => es | Err _ => [] end.
Definition upsert_plans : list planned := match plans upsert with Ok cs => cs | Err _ => [] end.

Lemma schema_nodup : NoDup (field_name <$> schema).
Proof. apply (bool_decide_unpack _). vm_compute. exact I. Qed.
Lemma upsert_grammatical : Forall grammatical upsert.
Proof. constructor; [reflexivity|]. constructor; [left; reflexivity|constructor]. Qed.
Lemma upsert_plans_eq : upsert_plans =
  [(And (Col TARGET_EXISTS_COLUMN) (Col SOURCE_EXISTS_COLUMN), PUpdate [("b", Col "s.b")]);
   (And (IsNull (Col TARGET_EXISTS_COLUMN)) (IsNull (Col "s.p")), PInsert [("a", Col "s.a"); ("b", Col "s.b")])]%string.
Proof. reflexivity. Qed.
Lemma upsert_uniform : uniform upsert_plans.
Proof.
  split.
  - intros op H. rewrite upsert_plans_eq in H. rewrite !elem_of_cons, elem_of_nil in H. by destruct H as [?|[?|[]]].
  - intros o l o' l' c H H'. rewrite upsert_plans_eq in H, H'. rewrite !elem_of_cons, elem_of_nil in H, H'.
    destruct H as [?|[?|[]]], H' as [?|[?|[]]]; simplify_eq; done.
  - intros o l o' l' c H H'. rewrite upsert_plans_eq in H, H'. rewrite !elem_of_cons, elem_of_nil in H, H'.
    destruct H as [?|[?|[]]], H' as [?|[?|[]]]; simplify_eq; done.
Qed.
Lemma source_row_null : forall f, f ∈ schema -> source_row TARGET_EXISTS_COLUMN = VNull -> source_row (qualified f) = VNull.
Proof.
  intros f Hf _. unfold schema in Hf. rewrite !elem_of_cons, elem_of_nil in Hf.
  destruct Hf as [->|[->|[->|[]]]]; vm_compute; reflexivity.
Qed.
Lemma both_row_null : forall f, f ∈ schema -> both_row TARGET_EXISTS_COLUMN = VNull -> both_row (qualified f) = VNull.
Proof. intros f _ H. vm_compute in H. discriminate H. Qed.

(** Target rows with their file, source rows, and a source partitioned by its column [a]. *)
Definition target : Type := string * string * string.
Definition source : Type := string * string.
Definition target_row (t : target) : row := row_of [("t.a", VData t.1.1); ("t.b", VData t.1.2); (TARGET_EXISTS_COLUMN, VBool true)]%string.
Definition source_row_of (s : source) : row := row_of [("s.a", VData s.1); ("s.b", VData s.2); (SOURCE_EXISTS_COLUMN, VBool true)]%string.
Definition column_of (a b : string) (c : string) : value :=
  if decide (c = "a")%string then VData a else if decide (c = "b")%string then VData b else VNull.
Definition target_column (t : target) : string -> value := column_of t.1.1 t.1.2.
Definition source_column (s : source) : string -> value := column_of s.1 s.2.
Definition at_most (x y : value) : bool := match x, y with VData x, VData y => String.leb x y | _, _ => false end.
Definition file_of (t : target) : string := t.2.
Definition scan (flt : option Filter) (ts : list target) : list target :=
  match flt with
  | None => ts
  | Some f => filter (fun t => file_of t ∈ file_of <$> filter (fun t => satisfies target_column at_most t f = true) ts) ts
  end.
Definition by_a (t : target) (s : source) : bool := String.eqb t.1.1 s.1.
Definition by_b (t : target) (s : source) : bool := String.eqb t.1.2 s.2.
Definition partitioned : SourceTable :=
  mkSource true (Ok (Some 1)) (fun _ => Ok (Some ([IvString "k1"], [IvString "k2"])))%string (fun _ => Ok ["a"])%string.
Definition bounds_filter : Filter := Range "a" (VData "k1") (VData "k2").
Definition targets : list target := [("k1", "old", "f1"); ("k0", "x", "f1"); ("z", "y", "f2")]%string.
Definition sources : list source := [("k1", "new"); ("k2", "two")]%string.

Definition expected : list (list value) :=
  [[VData "k1"; VData "new"; VBool true]; [VData "k0"; VData "x"; VBool true]; [VData "z"; VData "y"; VBool true];
   [VData "k2"; VData "two"; VNull]]%string.
Definition written_row : joined -> list value := written target_row source_row_of schema upsert_exprs.

Lemma target_exists_in : TARGET_EXISTS_COLUMN ∈ qualified <$> schema.
Proof. apply (bool_decide_unpack _). vm_compute. exact I. Qed.
Lemma source_exists_out : SOURCE_EXISTS_COLUMN ∉ qualified <$> schema.
Proof. apply (bool_decide_unpack _). vm_compute. exact I. Qed.
Lemma target_exists_row t : target_row t TARGET_EXISTS_COLUMN = VBool true.
Proof. reflexivity. Qed.

Lemma scan_prunes : prunes_files file_of scan target_column at_most.
Proof.
  split; [done|]. intros f ts. eexists. split; [reflexivity|]. intros t Ht Hs. apply list_elem_of_fmap_2. by apply list_elem_of_filter.
Qed.

Lemma partitioned_joined : partition_columns_joined by_a target_column source_column at_most (TableSource (Some partitioned)) targets sources.
Proof.
  intros c min max (snap & mins & maxs & names & i & x & y & [= <-] & [= <- <-] & [= <-] & Hi & Hx & Hy & Ex & Ey).
  destruct i as [|i]; [|done]. injection Hi as <-. injection Hx as <-. injection Hy as <-. injection Ex as <-. injection Ey as <-. split.
  - intros s Hs. unfold sources in Hs. rewrite !elem_of_cons, elem_of_nil in Hs. destruct Hs as [->|[->|[]]]; split; vm_compute; reflexivity.
  - intros t s _ _ Ho. unfold by_a in Ho. apply String.eqb_eq in Ho. unfold target_column, source_column, column_of. cbn. by rewrite Ho.
Qed.

Lemma sources_inserted s : s ∈ sources -> chosen (join_row (qualified <$> schema) target_row source_row_of (SourceOnly s)) upsert_plans <> None.
Proof.
  intros Hs. unfold sources in Hs. rewrite !elem_of_cons, elem_of_nil in Hs. destruct Hs as [->|[->|[]]]; vm_compute; discriminate.
Qed.
End MergeDemo.

Lemma merge_projection_correct_witness :
  exists e, MergeDemo.upsert_exprs !! 1%nat = Some e /\ eval MergeDemo.both_row e = VData "new b".
Proof.
  exact (proj1 (proj2 (merge_projection_correct Ok Ok (fun _ => Ok "x"%string) (fun _ _ => Ok tt) MergeDemo.both_row
    MergeDemo.schema MergeDemo.upsert MergeDemo.upsert_exprs MergeDemo.upsert_plans eq_refl eq_refl
    MergeDemo.schema_nodup MergeDemo.upsert_grammatical MergeDemo.upsert_uniform MergeDemo.both_row_null))
    1%nat (mkField (Some "t"%string) "b" "x") eq_refl).
Defined.


(** The partition bounds are those of the source, whatever the condition of the MERGE: when it does not
    equate the partition column, a target row that joins a source row is not scanned, and the source row is
    inserted beside it as if nothing matched. *)
Theorem pruned_match_inserted :
  let ts := [("a0", "id7", "f1")]%string in let ss := [("k1", "id7")]%string in
  source_filter (TableSource (Some MergeDemo.partitioned)) = Ok (Some MergeDemo.bounds_filter) /\
  full_join MergeDemo.by_b ts ss = [Both ("a0", "id7", "f1") ("k1", "id7")]%string /\
  merge_input MergeDemo.by_b MergeDemo.file_of MergeDemo.scan (Some MergeDemo.bounds_filter) ts ss = [SourceOnly ("k1", "id7")]%string.
Proof. split_and!; vm_compute; reflexivity. Qed.

Lemma unmatched_source_row_written_witness :
  SourceOnly 5 ∈ merge_input (fun t s : Z => bool_decide (t = s)) (fun _ => "f"%string) (fun _ l => l) None [4] [5].
Proof.
  refine (proj1 (unmatched_source_row_written Ok Ok (fun _ => Ok "x"%string) (fun _ _ => Ok tt)
    (fun t s : Z => bool_decide (t = s)) (fun _ => "f"%string) (fun _ l => l) None [4] [5] 5 MergeDemo.source_row
    MergeDemo.schema MergeDemo.upsert MergeDemo.upsert_exprs MergeDemo.upsert_plans (fun t Ht => Ht) eq_refl eq_refl
    MergeDemo.schema_nodup MergeDemo.upsert_grammatical MergeDemo.upsert_uniform MergeDemo.source_row_null _ _ _ _)).
  - by left.
  - intros t Ht. apply list_elem_of_singleton in Ht as ->. vm_compute. reflexivity.
  - vm_compute. reflexivity.
  - vm_compute. reflexivity.
Defined.

(** Update clauses with different columns mix: a row for which the first of two update clauses
    applies also gets the column only the second one assigns, because every column tests its own
    list of conditions. *)
Theorem update_clauses_mix_columns :
  let clauses := [MergeDemo.update (Some (Col "s.p")) [("a", Col "s.a")]; MergeDemo.update None [("b", Col "s.b")]]%string in
  take 2 <$> MergeDemo.merged_values MergeDemo.both_row clauses = Some [VData "new a"; VData "old b"]
  /\ take 2 <$> MergeDemo.projected_values MergeDemo.both_row clauses = Some [VData "new a"; VData "new b"].
Proof. split; vm_compute; reflexivity. Qed.

(** A later insert clause erases columns of an earlier one: a column the later clause does not list
    loses the earlier clause's value, and the inserted row gets null there. *)
Theorem insert_clause_erases_column :
  let clauses := [MergeDemo.insert (Some (Col "s.p")) [("a", Col "s.a"); ("b", Col "s.b")];
                  MergeDemo.insert None [("a", Col "s.a")]]%string in
  take 2 <$> MergeDemo.merged_values MergeDemo.source_row clauses = Some [VData "new a"; VData "new b"]
  /\ take 2 <$> MergeDemo.projected_values MergeDemo.source_row clauses = Some [VData "new a"; VNull].
Proof. split; vm_compute; reflexivity. Qed.

(** The sink does not drop [__target_exists]: the column is part of the rows handed to the writer
    of the data files, although the projection means to keep table columns only. *)
Theorem target_exists_reaches_writer names b :
  length (columns b) = length names -> TARGET_EXISTS_COLUMN ∈ names ->
  TARGET_EXISTS_COLUMN ∈ MergeSink.schema (project names b).
Proof.
  intros Hl Hin. unfold project. simpl. rewrite zip_filter_fst by done. apply list_elem_of_filter.
  split; [vm_compute; reflexivity|done].
Qed.

Lemma target_exists_reaches_writer_witness :
  TARGET_EXISTS_COLUMN ∈ MergeSink.schema (project ["id"; TARGET_EXISTS_COLUMN]%string
    (mkBatch ["id"; TARGET_EXISTS_COLUMN]%string [OtherColumn [1]; Boolean (mkBools [true] None)])).
Proof.
  apply target_exists_reaches_writer; [reflexivity|]. right. left.
Defined.
