(* ===== verification/PartitionSpec.v ===== *)
(** * PARTITION BY expressions

    Models [build_iceberg_partition_spec] of [crates/executor/src/query.rs] and its helpers: the
    translation of a [PARTITION BY] clause to the fields of an Iceberg partition spec.  The SQL
    syntax is the part of the parser's tree the code inspects; [str::to_lowercase], the printer of an
    expression and the builder of the spec are parameters. *)

From Stdlib Require Import ZArith Lia Ascii String.
From stdpp Require Import base option list gmap strings.
From S2P Require Import Prelude.

(** ** Syntax *)
Inductive Expr :=
| Identifier (value : string)
| CompoundIdentifier (idents : list string)
| Function (name : list ObjectNamePart) (args : FunctionArguments)
| Tuple (exprs : list Expr)
| Nested (inner : Expr)
| NumberValue (n : string)
| OtherValue
| OtherExpr
with ObjectNamePart := NameIdent (value : string) | NameFunction
with FunctionArguments := ArgList (args : list FunctionArg) | ArgOther
with FunctionArg := Unnamed (e : Expr) | OtherArg.

Inductive Transform := Identity | Year | Month | Day | Hour | Bucket (n : Z) | Truncate (n : Z) | Void.

#[global] Instance Transform_eq_dec : EqDecision Transform.
Proof. solve_decision. Defined.

(** [PartitionField::new(source_id, field_id, name, transform)]. *)
Record PartitionField := mkPartitionField {
  source_id : Z; field_id : Z; name : string; transform : Transform }.

Inductive partition_error :=
| InvalidPartitionByExpression (expr : string)
| PartitionFieldNotFoundInSchema (column : string)
| PartitionBuild (e : string).

(** ** Numbers: [str::parse::<u32>] *)
Definition u32_max : Z := 4294967295.

Definition digit_value (c : ascii) : option Z :=
  let n := Z.of_N (N_of_ascii c) in
  if (48 <=? n) && (n <=? 57) then Some (n - 48) else None.

Fixpoint parse_digits (acc : Z) (s : string) : option Z :=
  match s with
  | EmptyString => Some acc
  | String c s =>
      match digit_value c with
      | None => None
      | Some d => let acc := acc * 10 + d in if u32_max <? acc then None else parse_digits acc s
      end
  end.

Definition parse_u32 (s : string) : option Z :=
  match s with
  | EmptyString => None
  | String "+" EmptyString => None
  | String "+" s => parse_digits 0 s
  | s => parse_digits 0 s
  end.

Section partition.
Variable to_lowercase : string -> string.
Variable to_string : Expr -> string.
Variable build : list PartitionField -> result string (list PartitionField).

Definition invalid {A} (parent : Expr) : result partition_error A :=
  Err (InvalidPartitionByExpression (to_string parent)).

Fixpoint flatten_partition_exprs (e : Expr) : list Expr :=
  match e with
  | Tuple exprs => exprs
  | Nested inner => flatten_partition_exprs inner
  | other => [other]
  end.

Definition column_name_from_arg (arg : FunctionArg) (parent : Expr) : result partition_error string :=
  match arg with
  | Unnamed (Identifier v) => Ok v
  | Unnamed (CompoundIdentifier idents) =>
      match last idents with Some v => Ok v | None => invalid parent end
  | _ => invalid parent
  end.

Definition u32_from_arg (arg : FunctionArg) (parent : Expr) : result partition_error Z :=
  match arg with
  | Unnamed (NumberValue n) => match parse_u32 n with Some v => Ok v | None => invalid parent end
  | _ => invalid parent
  end.

Definition extract_partition_col (args : list FunctionArg) (parent : Expr) : result partition_error string :=
  match args with [a] => column_name_from_arg a parent | _ => invalid parent end.

Definition extract_partition_n_col (args : list FunctionArg) (parent : Expr) : result partition_error (Z * string) :=
  match args with
  | [a; b] => result_bind (u32_from_arg a parent) (fun n => result_map (pair n) (column_name_from_arg b parent))
  | _ => invalid parent
  end.

Definition with_transform (t : Transform) (r : result partition_error string) : result partition_error (string * Transform) :=
  result_map (fun c => (c, t)) r.

Definition parse_partition_field_expr (e : Expr) : result partition_error (string * Transform) :=
  match e with
  | Identifier v => Ok (v, Identity)
  | CompoundIdentifier idents =>
      match last idents with Some v => Ok (v, Identity) | None => invalid e end
  | Function name args =>
      match last name with
      | Some (NameIdent v) =>
          match args with
          | ArgOther => invalid e
          | ArgList args =>
              let fn_name := to_lowercase v in
              if bool_decide (fn_name = "year"%string) then with_transform Year (extract_partition_col args e)
              else if bool_decide (fn_name = "month"%string) then with_transform Month (extract_partition_col args e)
              else if bool_decide (fn_name = "day"%string) then with_transform Day (extract_partition_col args e)
              else if bool_decide (fn_name = "hour"%string) then with_transform Hour (extract_partition_col args e)
              else if bool_decide (fn_name = "bucket"%string) then
                result_map (fun p : Z * string => (p.2, Bucket p.1)) (extract_partition_n_col args e)
              else if bool_decide (fn_name = "truncate"%string) then
                result_map (fun p : Z * string => (p.2, Truncate p.1)) (extract_partition_n_col args e)
              else invalid e
          end
      | _ => invalid e
      end
  | _ => invalid e
  end.

(** [format!("{n}")] of a [u32]. *)
Definition partition_field_name (show : Z -> string) (col_name : string) (t : Transform) : string :=
  match t with
  | Identity => col_name
  | Year => col_name +:+ "_year"
  | Month => col_name +:+ "_month"
  | Day => col_name +:+ "_day"
  | Hour => col_name +:+ "_hour"
  | Bucket n => col_name +:+ "_bucket_" +:+ show n
  | Truncate n => col_name +:+ "_trunc_" +:+ show n
  | Void => col_name +:+ "_void"
  end%string.

(** A field of the Iceberg schema: name and id. *)
Definition eq_ignore_ascii_case (a b : string) : bool :=
  bool_decide (to_ascii_lowercase a = to_ascii_lowercase b).

Definition find_field (schema : list (string * Z)) (col_name : string) : option (string * Z) :=
  snd <$> list_find (fun f => eq_ignore_ascii_case f.1 col_name = true) schema.

(** [1000_i32.saturating_add(i32::try_from(idx).unwrap_or(i32::MAX))]. *)
Definition partition_field_id (idx : nat) : Z :=
  let i := if bool_decide (Z.of_nat idx <= i32_max) then Z.of_nat idx else i32_max in
  Z.min i32_max (1000 + i).

Definition partition_field (show : Z -> string) (schema : list (string * Z)) (idx : nat) (e : Expr)
  : result partition_error PartitionField :=
  result_bind (parse_partition_field_expr e) (fun p =>
  result_bind (ok_or (find_field schema p.1) (PartitionFieldNotFoundInSchema p.1)) (fun f =>
  Ok (mkPartitionField f.2 (partition_field_id idx) (partition_field_name show p.1 p.2) p.2))).

Fixpoint partition_fields (show : Z -> string) (schema : list (string * Z)) (idx : nat) (exprs : list Expr)
  : result partition_error (list PartitionField) :=
  match exprs with
  | [] => Ok []
  | e :: exprs =>
      result_bind (partition_field show schema idx e) (fun f =>
      result_map (cons f) (partition_fields show schema (S idx) exprs))
  end.

Definition build_iceberg_partition_spec (show : Z -> string) (partition_by : Expr) (schema : list (string * Z))
  : result partition_error (list PartitionField) :=
  result_bind (partition_fields show schema 0 (flatten_partition_exprs partition_by)) (fun fields =>
  match build fields with Ok s => Ok s | Err e => Err (PartitionBuild e) end).

(** ** Printing a partition field back *)
Definition print_field (num : string) (c : string) (t : Transform) : Expr :=
  let call f args := Function [NameIdent f] (ArgList args) in
  match t with
  | Identity => Identifier c
  | Year => call "YEAR"%string [Unnamed (Identifier c)]
  | Month => call "MONTH"%string [Unnamed (Identifier c)]
  | Day => call "DAY"%string [Unnamed (Identifier c)]
  | Hour => call "HOUR"%string [Unnamed (Identifier c)]
  | Bucket _ => call "BUCKET"%string [Unnamed (NumberValue num); Unnamed (Identifier c)]
  | Truncate _ => call "TRUNCATE"%string [Unnamed (NumberValue num); Unnamed (Identifier c)]
  | Void => OtherExpr
  end.

Hypothesis to_lowercase_ascii : forall s, (forall c, c ∈ String.list_ascii_of_string s -> (N_of_ascii c < 128)%N) ->
  to_lowercase s = to_ascii_lowercase s.

Lemma to_lowercase_upper (s : string) :
  Forall (fun c => (N_of_ascii c < 128)%N) (String.list_ascii_of_string s) -> to_lowercase s = to_ascii_lowercase s.
Proof. intros H. apply to_lowercase_ascii. by apply Forall_forall. Qed.

(** Every partition transform the code can produce is recognised from its SQL form: parsing the
    printed field gives back the column and the transform. *)
Theorem partition_field_roundtrip num c t :
  t <> Void -> (forall n, t = Bucket n \/ t = Truncate n -> parse_u32 num = Some n) ->
  parse_partition_field_expr (print_field num c t) = Ok (c, t).
Proof.
  intros Hv Hn.
  destruct t; try done; cbn [print_field parse_partition_field_expr last];
    (rewrite to_lowercase_upper by (repeat constructor)); unfold extract_partition_n_col, u32_from_arg; simpl;
    try reflexivity; by rewrite (Hn n) by naive_solver.
Qed.

Lemma partition_fields_lookup show schema idx exprs fields :
  partition_fields show schema idx exprs = Ok fields ->
  length fields = length exprs /\
  forall i e, exprs !! i = Some e -> exists f, fields !! i = Some f /\ partition_field show schema (idx + i) e = Ok f.
Proof.
  revert idx fields. induction exprs as [|e exprs IH]; intros idx fields; simpl; [by intros [= <-]|].
  destruct (partition_field show schema idx e) as [f|] eqn:Hf; simpl; [|done].
  destruct (partition_fields show schema (S idx) exprs) as [fs|] eqn:Hfs; simpl; [|done]. intros [= <-].
  destruct (IH _ _ Hfs) as [Hl Hi]. split; [simpl; lia|]. intros [|i] e' He; simpl in *.
  - simplify_eq. exists f. by rewrite Nat.add_0_r.
  - destruct (Hi i e' He) as (f' & Hf' & Hp). exists f'. by rewrite Nat.add_succ_r.
Qed.

Lemma find_field_Some schema col_name f :
  find_field schema col_name = Some f -> f ∈ schema /\ eq_ignore_ascii_case f.1 col_name = true.
Proof.
  unfold find_field. destruct (list_find _ schema) as [[i g]|] eqn:H; simpl; [|done]. intros [= <-].
  apply list_find_Some in H as (Hi & Hg & _). split; [by eapply list_elem_of_lookup_2|done].
Qed.

(** A partition spec that builds is the clause's: one field per listed expression in order, each
    over a schema column of that name (in any case), and the field ids, which count up from 1000, are
    pairwise different for any clause of fewer than two thousand million fields. *)
Theorem partition_spec_correct show partition_by schema spec :
  (forall l s, build l = Ok s -> s = l) ->
  build_iceberg_partition_spec show partition_by schema = Ok spec ->
  length spec = length (flatten_partition_exprs partition_by) /\
  (forall i e, flatten_partition_exprs partition_by !! i = Some e ->
     exists c t f id, parse_partition_field_expr e = Ok (c, t) /\ (f, id) ∈ schema /\
       to_ascii_lowercase f = to_ascii_lowercase c /\
       spec !! i = Some (mkPartitionField id (partition_field_id i) (partition_field_name show c t) t)) /\
  (Z.of_nat (length spec) <= 2147482648 ->
   forall i j a b, spec !! i = Some a -> spec !! j = Some b -> field_id a = field_id b -> i = j).
Proof.
  intros Hb. unfold build_iceberg_partition_spec.
  destruct (partition_fields show schema 0 (flatten_partition_exprs partition_by)) as [fields|] eqn:Hf; simpl; [|done].
  destruct (build fields) as [s|] eqn:Hs; [|done]. intros [= <-]. apply Hb in Hs as ->.
  apply partition_fields_lookup in Hf as [Hl Hi].
  assert (forall i e, flatten_partition_exprs partition_by !! i = Some e ->
     exists c t f id, parse_partition_field_expr e = Ok (c, t) /\ (f, id) ∈ schema /\
       to_ascii_lowercase f = to_ascii_lowercase c /\
       fields !! i = Some (mkPartitionField id (partition_field_id i) (partition_field_name show c t) t)) as Hfield.
  { intros i e He. destruct (Hi i e He) as (pf & Hpf & Hp). simpl in Hp. unfold partition_field in Hp.
    destruct (parse_partition_field_expr e) as [[c t]|]; simpl in Hp; [|done].
    destruct (find_field schema c) as [[f id]|] eqn:Hff; simpl in Hp; [|done]. injection Hp as <-.
    apply find_field_Some in Hff as [Hin Heq]. apply bool_decide_eq_true in Heq. by exists c, t, f, id. }
  split_and!; [done|done|]. intros Hbound i j a b Ha Hb' Hid.
  assert (forall k x, fields !! k = Some x -> field_id x = 1000 + Z.of_nat k) as Hids.
  { intros k x Hx. pose proof (lookup_lt_Some _ _ _ Hx) as Hk.
    destruct (lookup_lt_is_Some_2 (flatten_partition_exprs partition_by) k) as [e He]; [lia|].
    destruct (Hfield k e He) as (c & t & f & id & _ & _ & _ & Hx'). rewrite Hx in Hx'. injection Hx' as ->. simpl.
    unfold partition_field_id. rewrite bool_decide_true by (unfold i32_max; lia). unfold i32_max. lia. }
  rewrite (Hids _ _ Ha), (Hids _ _ Hb') in Hid. lia.
Qed.
End partition.

(** ** Witnesses *)
Lemma partition_field_roundtrip_witness :
  parse_partition_field_expr to_ascii_lowercase (fun _ => ""%string) (print_field "16" "user_id" (Bucket 16))
  = Ok ("user_id"%string, Bucket 16).
Proof.
  apply partition_field_roundtrip; [reflexivity|discriminate|].
  intros n [H|H]; [injection H as <-; reflexivity|discriminate H].
Defined.

Lemma partition_spec_correct_witness :
  length [mkPartitionField 7 1000 "ts_day" Day; mkPartitionField 3 1001 "Region" Identity] = 2%nat.
Proof.
  apply (proj1 (partition_spec_correct to_ascii_lowercase (fun _ => ""%string) Ok (fun _ => ""%string)
    (Nested (Tuple [Function [NameIdent "Day"] (ArgList [Unnamed (Identifier "ts")]); Identifier "Region"]))
    [("ts"%string, 7); ("region"%string, 3)]
    [mkPartitionField 7 1000 "ts_day" Day; mkPartitionField 3 1001 "Region" Identity]
    ltac:(intros l s H; injection H as <-; reflexivity) ltac:(vm_compute; reflexivity))).
Defined.
