(* ===== verification/Calendar.v ===== *)
(** * The calendar interface

    The date functions use [chrono]'s [NaiveDate].  [Chrono] lists the operations they call and
    [ChronoLaws] what the crate documents about them; [ChronoDays] adds day numbers, ISO weeks and
    months; [Gregorian] is a concrete proleptic Gregorian
    calendar that satisfies the laws, so that nothing proved from them is vacuous. *)

From Stdlib Require Import ZArith Lia.
From stdpp Require Import base option list numbers.
From S2P Require Import Prelude.

(** ** The proleptic Gregorian rules *)
Definition is_leap (y : Z) : bool := (y mod 4 =? 0) && (negb (y mod 100 =? 0) || (y mod 400 =? 0)).

Definition days_in_month (y m : Z) : Z :=
  if m =? 2 then (if is_leap y then 29 else 28)
  else if (m =? 4) || (m =? 6) || (m =? 9) || (m =? 11) then 30 else 31.

Lemma days_in_month_range y m : 28 <= days_in_month y m <= 31.
Proof. unfold days_in_month. repeat case_match; lia. Qed.

(** Days since the start of year zero. *)
Definition days_before_year (y : Z) : Z := 365 * y + (y + 3) / 4 - (y + 99) / 100 + (y + 399) / 400.
Definition days_before_month (y m : Z) : Z :=
  (if m <=? 1 then 0 else if m =? 2 then 31 else if m =? 3 then 59 else if m =? 4 then 90 else if m =? 5 then 120
   else if m =? 6 then 151 else if m =? 7 then 181 else if m =? 8 then 212 else if m =? 9 then 243
   else if m =? 10 then 273 else if m =? 11 then 304 else 334)
  + (if (2 <? m) && is_leap y then 1 else 0).
Definition day_number (y m d : Z) : Z := days_before_year y + days_before_month y m + d - 1.

Lemma days_before_year_succ y : days_before_year (y + 1) = days_before_year y + (if is_leap y then 366 else 365).
Proof.
  unfold days_before_year, is_leap.
  assert ((y + 1 + 3) / 4 = (y + 3) / 4 + (if y mod 4 =? 0 then 1 else 0)) as ->.
  { destruct (Z.eqb_spec (y mod 4) 0); Z.div_mod_to_equations; lia. }
  assert ((y + 1 + 99) / 100 = (y + 99) / 100 + (if y mod 100 =? 0 then 1 else 0)) as ->.
  { destruct (Z.eqb_spec (y mod 100) 0); Z.div_mod_to_equations; lia. }
  assert ((y + 1 + 399) / 400 = (y + 399) / 400 + (if y mod 400 =? 0 then 1 else 0)) as ->.
  { destruct (Z.eqb_spec (y mod 400) 0); Z.div_mod_to_equations; lia. }
  assert (y mod 400 = 0 -> y mod 100 = 0) by (Z.div_mod_to_equations; lia). assert (y mod 100 = 0 -> y mod 4 = 0) by (Z.div_mod_to_equations; lia).
  destruct (Z.eqb_spec (y mod 4) 0), (Z.eqb_spec (y mod 100) 0), (Z.eqb_spec (y mod 400) 0); cbn [andb orb negb];
    try (exfalso; tauto); lia.
Qed.

Lemma days_before_month_succ y m :
  1 <= m < 12 -> days_before_month y (m + 1) = days_before_month y m + days_in_month y m.
Proof.
  intros Hm. assert (m = 1 \/ m = 2 \/ m = 3 \/ m = 4 \/ m = 5 \/ m = 6 \/ m = 7 \/ m = 8 \/ m = 9 \/ m = 10 \/ m = 11)
    as Hc by lia.
  unfold days_before_month, days_in_month. destruct (is_leap y);
    repeat (destruct Hc as [->|Hc]; [reflexivity|]); subst; reflexivity.
Qed.

Lemma days_before_december y : days_before_month y 12 = 334 + (if is_leap y then 1 else 0).
Proof. reflexivity. Qed.

Lemma day_number_month_end y m : 1 <= m < 12 -> day_number y (m + 1) 1 = day_number y m (days_in_month y m) + 1.
Proof. intros Hm. unfold day_number. rewrite days_before_month_succ by done. lia. Qed.

Lemma day_number_year_end y : day_number (y + 1) 1 1 = day_number y 12 31 + 1.
Proof.
  unfold day_number. rewrite days_before_year_succ, days_before_december.
  change (days_before_month (y + 1) 1) with (0 + 0). destruct (is_leap y); lia.
Qed.

(** A day number determines its year, month and day. *)
Lemma days_before_year_mono y y' : y <= y' -> days_before_year y <= days_before_year y'.
Proof.
  intros Hy. replace y' with (y + (y' - y)) by lia. assert (0 <= y' - y) as Hk by lia. revert Hk.
  generalize (y' - y) as k. apply natlike_ind; [by rewrite Z.add_0_r|].
  intros k Hk IH. unfold Z.succ. replace (y + (k + 1)) with (y + k + 1) by lia. rewrite days_before_year_succ.
  destruct (is_leap _); lia.
Qed.

Lemma days_before_month_range y m : 1 <= m <= 12 ->
  0 <= days_before_month y m /\ days_before_month y m + days_in_month y m <= (if is_leap y then 366 else 365).
Proof.
  intros Hm. assert (m = 1 \/ m = 2 \/ m = 3 \/ m = 4 \/ m = 5 \/ m = 6 \/ m = 7 \/ m = 8 \/ m = 9 \/ m = 10 \/ m = 11 \/ m = 12)
    as Hc by lia.
  unfold days_before_month, days_in_month. destruct (is_leap y);
    repeat (destruct Hc as [->|Hc]; [cbn; lia|]); subst; cbn; lia.
Qed.

Lemma day_number_year y m d : 1 <= m <= 12 -> 1 <= d <= days_in_month y m ->
  days_before_year y <= day_number y m d < days_before_year (y + 1).
Proof. intros Hm Hd. pose proof (days_before_month_range y m Hm). unfold day_number. rewrite days_before_year_succ. lia. Qed.

Lemma year_of_day_number y y' n :
  days_before_year y <= n < days_before_year (y + 1) -> days_before_year y' <= n < days_before_year (y' + 1) -> y = y'.
Proof.
  intros H H'. destruct (Z.lt_trichotomy y y') as [Hlt|[|Hlt]]; [|done|].
  - pose proof (days_before_year_mono (y + 1) y'). lia.
  - pose proof (days_before_year_mono (y' + 1) y). lia.
Qed.

Lemma days_before_month_mono y m m' : 1 <= m < m' -> m' <= 12 ->
  days_before_month y m + days_in_month y m <= days_before_month y m'.
Proof.
  intros Hm Hm'. replace m' with (m + 1 + (m' - m - 1)) in * by lia. assert (0 <= m' - m - 1) as Hk by lia.
  revert Hk Hm'. generalize (m' - m - 1) as k. apply (natlike_ind (fun k => m + 1 + k <= 12 -> _)).
  - intros Hk. rewrite Z.add_0_r, days_before_month_succ by lia. lia.
  - intros k Hk IH Hle. unfold Z.succ in *. replace (m + 1 + (k + 1)) with (m + 1 + k + 1) by lia.
    rewrite days_before_month_succ by lia. pose proof (days_in_month_range y (m + 1 + k)). lia.
Qed.

Lemma day_number_inj y m d y' m' d' :
  1 <= m <= 12 -> 1 <= d <= days_in_month y m -> 1 <= m' <= 12 -> 1 <= d' <= days_in_month y' m' ->
  day_number y m d = day_number y' m' d' -> y = y' /\ m = m' /\ d = d'.
Proof.
  intros Hm Hd Hm' Hd' He.
  assert (y = y') as <-.
  { eapply year_of_day_number; [by apply (day_number_year y m d)|]. rewrite He. by apply day_number_year. }
  unfold day_number in He. destruct (Z.lt_trichotomy m m') as [Hlt|[<-|Hlt]].
  - pose proof (days_before_month_mono y m m'). lia.
  - lia.
  - pose proof (days_before_month_mono y m' m). lia.
Qed.

(** ** [chrono] *)
Class Chrono := {
  NaiveDate : Type;
  min_year : Z;
  max_year : Z;
  from_ymd_opt : Z -> Z -> Z -> option NaiveDate;
  year : NaiveDate -> Z;
  month : NaiveDate -> Z;
  day : NaiveDate -> Z;
  (** [weekday().num_days_from_monday()]. *)
  num_days_from_monday : NaiveDate -> Z;
  succ_opt : NaiveDate -> option NaiveDate;
  pred_opt : NaiveDate -> option NaiveDate;
  (** [checked_add_signed(Duration::days(n))]; the [+] operator panics where it is [None]. *)
  checked_add_days : NaiveDate -> Z -> option NaiveDate }.

Definition valid_ymd {C : Chrono} (y m d : Z) : Prop :=
  min_year <= y <= max_year /\ 1 <= m <= 12 /\ 1 <= d <= days_in_month y m.

Class ChronoLaws {C : Chrono} : Prop := {
  years_fit : -1000000 <= min_year /\ min_year <= 0 /\ 0 < max_year /\ max_year <= 1000000;
  from_ymd_valid : forall y m d, is_Some (from_ymd_opt y m d) <-> valid_ymd y m d;
  from_ymd_fields : forall y m d D, from_ymd_opt y m d = Some D -> year D = y /\ month D = m /\ day D = d;
  date_fields : forall D, from_ymd_opt (year D) (month D) (day D) = Some D;
  pred_spec : forall D, pred_opt D =
    if 1 <? day D then from_ymd_opt (year D) (month D) (day D - 1)
    else if 1 <? month D then from_ymd_opt (year D) (month D - 1) (days_in_month (year D) (month D - 1))
    else from_ymd_opt (year D - 1) 12 31;
  succ_spec : forall D, succ_opt D =
    if day D <? days_in_month (year D) (month D) then from_ymd_opt (year D) (month D) (day D + 1)
    else if month D <? 12 then from_ymd_opt (year D) (month D + 1) 1
    else from_ymd_opt (year D + 1) 1 1;
  add_days_zero : forall D, checked_add_days D 0 = Some D;
  add_days_up : forall D n, 0 <= n -> checked_add_days D (n + 1) = checked_add_days D n ≫= succ_opt;
  add_days_down : forall D n, n <= 0 -> checked_add_days D (n - 1) = checked_add_days D n ≫= pred_opt;
  weekday_range : forall D, 0 <= num_days_from_monday D < 7;
  weekday_succ : forall D D', succ_opt D = Some D' ->
    num_days_from_monday D' = (num_days_from_monday D + 1) mod 7;
  weekday_pred : forall D D', pred_opt D = Some D' ->
    num_days_from_monday D' = (num_days_from_monday D + 6) mod 7 }.

Section calendar.
Context {C : Chrono} {laws : ChronoLaws}.

Lemma date_valid D : valid_ymd (year D) (month D) (day D).
Proof. apply from_ymd_valid. rewrite date_fields. by eexists. Qed.

Lemma date_eq D D' : year D = year D' -> month D = month D' -> day D = day D' -> D = D'.
Proof. intros H1 H2 H3. pose proof (date_fields D) as H. rewrite H1, H2, H3, date_fields in H. by injection H. Qed.

Lemma from_ymd_some y m d : valid_ymd y m d -> exists D, from_ymd_opt y m d = Some D.
Proof. by intros [D HD]%from_ymd_valid; exists D. Qed.

(** Adding days is repeating [succ_opt] or [pred_opt]. *)
Lemma add_days_ind D (P : Z -> NaiveDate -> Prop) :
  P 0 D ->
  (forall n D1 D2, 0 <= n -> P n D1 -> succ_opt D1 = Some D2 -> P (n + 1) D2) ->
  (forall n D1 D2, n <= 0 -> P n D1 -> pred_opt D1 = Some D2 -> P (n - 1) D2) ->
  forall n D', checked_add_days D n = Some D' -> P n D'.
Proof.
  intros H0 Hup Hdown n. destruct (Z_le_gt_dec 0 n) as [Hn|Hn].
  - pattern n. apply natlike_ind; [| |done].
    + intros D'. rewrite add_days_zero. by intros [= <-].
    + intros k Hk IH D'. unfold Z.succ. rewrite add_days_up by done.
      destruct (checked_add_days D k) as [D1|]; [|done]. intros H. eapply Hup; eauto.
  - replace n with (- (- n)) by lia. assert (0 <= - n) as Hn' by lia. pattern (- n).
    apply natlike_ind; [| |done].
    + intros D'. rewrite add_days_zero. by intros [= <-].
    + intros k Hk IH D'. replace (- Z.succ k) with (- k - 1) by lia. rewrite add_days_down by lia.
      destruct (checked_add_days D (- k)) as [D1|]; [|done]. intros H. apply (Hdown (- k) D1); [lia|by apply IH|done].
Qed.

(** The weekday advances with the days. *)
Lemma weekday_add D n D' :
  checked_add_days D n = Some D' -> num_days_from_monday D' = (num_days_from_monday D + n) mod 7.
Proof.
  revert n D'. apply add_days_ind.
  - rewrite Z.add_0_r, Z.mod_small; [done|apply weekday_range].
  - intros n D1 D2 _ IH H. rewrite (weekday_succ _ _ H), IH, Zplus_mod_idemp_l. f_equal. lia.
  - intros n D1 D2 _ IH H. rewrite (weekday_pred _ _ H), IH, Zplus_mod_idemp_l.
    replace (num_days_from_monday D + n + 6) with (num_days_from_monday D + (n - 1) + 1 * 7) by lia.
    by rewrite Z_mod_plus_full.
Qed.

(** The day before the first of a month is the last of the month before. *)
Lemma pred_first_of_month y m D :
  from_ymd_opt (if m =? 12 then y + 1 else y) (if m =? 12 then 1 else m + 1) 1 = Some D -> 1 <= m <= 12 ->
  min_year <= y -> exists L, pred_opt D = Some L /\ year L = y /\ month L = m /\ day L = days_in_month y m.
Proof.
  intros HD Hm Hy. destruct (from_ymd_fields _ _ _ _ HD) as (H1 & H2 & H3).
  assert (valid_ymd (if m =? 12 then y + 1 else y) (if m =? 12 then 1 else m + 1) 1) as (Hv & _ & _) by (apply from_ymd_valid; by eexists).
  assert (valid_ymd y m (days_in_month y m)) as Hvalid.
  { pose proof (days_in_month_range y m). split_and!; try lia. destruct (Z.eqb_spec m 12); lia. }
  destruct (from_ymd_some _ _ _ Hvalid) as [L HL]. destruct (from_ymd_fields _ _ _ _ HL) as (L1 & L2 & L3).
  exists L. split; [|done]. rewrite pred_spec, H1, H2, H3. simpl. destruct (Z.eqb_spec m 12) as [->|Hne]; simpl.
  - replace (y + 1 - 1) with y by lia. exact HL.
  - rewrite (proj2 (Z.ltb_lt 1 (m + 1))) by lia. replace (m + 1 - 1) with m by lia. exact HL.
Qed.

(** A date before the last year of the calendar has a successor, and a week of them. *)
Lemma succ_some D : year D < max_year \/ year D = max_year /\ month D = 1 /\ day D < 31 ->
  exists D', succ_opt D = Some D' /\
    (year D' < max_year \/ year D' = max_year /\ month D' = 1 /\
      (day D' = 1 \/ day D' = day D + 1 /\ year D = max_year /\ month D = 1)).
Proof.
  intros H. destruct (date_valid D) as (Hy & Hm & Hd). rewrite succ_spec.
  destruct (Z.ltb_spec (day D) (days_in_month (year D) (month D))) as [H1|H1].
  - destruct (from_ymd_some (year D) (month D) (day D + 1)) as [D' HD']; [split_and!; lia|].
    exists D'. split; [done|]. destruct (from_ymd_fields _ _ _ _ HD') as (-> & -> & ->). lia.
  - destruct H as [H|(H & Hm1 & Hd1)].
    + destruct (Z.ltb_spec (month D) 12) as [H2|H2].
      * destruct (from_ymd_some (year D) (month D + 1) 1) as [D' HD'].
        { pose proof (days_in_month_range (year D) (month D + 1)). split_and!; lia. }
        exists D'. split; [done|]. destruct (from_ymd_fields _ _ _ _ HD') as (-> & -> & ->). lia.
      * destruct (from_ymd_some (year D + 1) 1 1) as [D' HD'].
        { pose proof (days_in_month_range (year D + 1) 1). split_and!; lia. }
        exists D'. split; [done|]. destruct (from_ymd_fields _ _ _ _ HD') as (-> & -> & ->). lia.
    + exfalso. rewrite Hm1 in H1. change (days_in_month (year D) 1) with 31 in H1. lia.
Qed.

Lemma add_week_some D n : year D < max_year -> 0 <= n <= 31 ->
  exists D', checked_add_days D n = Some D' /\
    (year D' < max_year \/ year D' = max_year /\ month D' = 1 /\ day D' <= n).
Proof.
  intros HD [Hn Hle]. revert Hle. pattern n. apply natlike_ind; [| |done].
  - intros _. exists D. rewrite add_days_zero. auto.
  - intros k Hk IH Hle. destruct IH as (D1 & H1 & H2); [lia|]. unfold Z.succ in *.
    destruct (succ_some D1) as (D' & H3 & H4); [lia|].
    exists D'. rewrite add_days_up, H1 by done. simpl. split; [done|]. lia.
Qed.

Lemma pred_some D : min_year < year D \/ year D = min_year /\ month D = 12 /\ 1 < day D ->
  exists D', pred_opt D = Some D' /\
    (min_year < year D' \/ year D' = min_year /\ month D' = 12 /\
      (day D' = 31 \/ day D' = day D - 1 /\ year D = min_year /\ month D = 12)).
Proof.
  intros H. destruct (date_valid D) as (Hy & Hm & Hd). rewrite pred_spec.
  destruct (Z.ltb_spec 1 (day D)) as [H1|H1].
  - destruct (from_ymd_some (year D) (month D) (day D - 1)) as [D' HD']; [split_and!; lia|].
    exists D'. split; [done|]. destruct (from_ymd_fields _ _ _ _ HD') as (-> & -> & ->). lia.
  - destruct (Z.ltb_spec 1 (month D)) as [H2|H2].
    + destruct (from_ymd_some (year D) (month D - 1) (days_in_month (year D) (month D - 1))) as [D' HD'].
      { pose proof (days_in_month_range (year D) (month D - 1)). split_and!; lia. }
      exists D'. split; [done|]. destruct (from_ymd_fields _ _ _ _ HD') as (-> & -> & ->). lia.
    + destruct (from_ymd_some (year D - 1) 12 31) as [D' HD'].
      { assert (days_in_month (year D - 1) 12 = 31) by done. split_and!; lia. }
      exists D'. split; [done|]. destruct (from_ymd_fields _ _ _ _ HD') as (-> & -> & ->). lia.
Qed.

Lemma sub_week_some D n : min_year < year D -> 0 <= n <= 31 ->
  exists D', checked_add_days D (- n) = Some D' /\
    (min_year < year D' \/ year D' = min_year /\ month D' = 12 /\ 32 - n <= day D').
Proof.
  intros HD [Hn Hle]. revert Hle. pattern n. apply natlike_ind; [| |done].
  - intros _. exists D. rewrite add_days_zero. auto.
  - intros k Hk IH Hle. destruct IH as (D1 & H1 & H2); [lia|]. unfold Z.succ in *.
    destruct (pred_some D1) as (D' & H3 & H4); [lia|].
    exists D'. replace (- (k + 1)) with (- k - 1) by lia. rewrite add_days_down, H1 by lia. simpl. split; [done|]. lia.
Qed.
End calendar.

(** ** Day numbers, weeks and months

    The other operations of [chrono]: [num_days_from_ce] counts from the first of January of year 1,
    a Monday; [iso_week] is the pair of [iso_week().year()] and [iso_week().week()]; the months
    operations clamp the day to the month they reach. *)
Class ChronoDays {C : Chrono} := {
  num_days_from_ce : NaiveDate -> Z;
  ordinal : NaiveDate -> Z;
  iso_week : NaiveDate -> Z * Z;
  checked_add_months : NaiveDate -> Z -> option NaiveDate;
  checked_sub_months : NaiveDate -> Z -> option NaiveDate }.

(** The date [n] months away from a date. *)
Definition months_away {C : Chrono} (D : NaiveDate) (n : Z) : option NaiveDate :=
  let t := year D * 12 + (month D - 1) + n in
  from_ymd_opt (t / 12) (t mod 12 + 1) (Z.min (day D) (days_in_month (t / 12) (t mod 12 + 1))).

Class ChronoDaysLaws {C : Chrono} {CD : ChronoDays} : Prop := {
  ce_number : forall D, num_days_from_ce D = day_number (year D) (month D) (day D) - 365;
  weekday_ce : forall D, num_days_from_monday D = (num_days_from_ce D - 1) mod 7;
  ordinal_spec : forall D, ordinal D = days_before_month (year D) (month D) + day D;
  (** ISO 8601: a week belongs to the year of its Thursday, and is numbered by it. *)
  iso_week_thursday : forall D T, num_days_from_ce T = num_days_from_ce D - num_days_from_monday D + 3 ->
    iso_week D = (year T, (ordinal T - 1) / 7 + 1);
  chrono_add_months : forall D n, 0 <= n -> checked_add_months D n = months_away D n;
  chrono_sub_months : forall D n, 0 <= n -> checked_sub_months D n = months_away D (- n) }.

Section days.
Context {C : Chrono} {laws : ChronoLaws} {CD : ChronoDays} {days_laws : ChronoDaysLaws}.

Lemma ce_inj D D' : num_days_from_ce D = num_days_from_ce D' -> D = D'.
Proof.
  rewrite !ce_number. intros He. destruct (date_valid D) as (_ & Hm & Hd), (date_valid D') as (_ & Hm' & Hd').
  destruct (day_number_inj (year D) (month D) (day D) (year D') (month D') (day D')) as (? & ? & ?); try done; [lia|].
  by apply date_eq.
Qed.

Lemma ce_from_ymd y m d D : from_ymd_opt y m d = Some D -> num_days_from_ce D = day_number y m d - 365.
Proof. intros H. destruct (from_ymd_fields _ _ _ _ H) as (<- & <- & <-). apply ce_number. Qed.

Lemma ce_succ D D' : succ_opt D = Some D' -> num_days_from_ce D' = num_days_from_ce D + 1.
Proof.
  destruct (date_valid D) as (_ & Hm & Hd). rewrite succ_spec, (ce_number D).
  destruct (Z.ltb_spec (day D) (days_in_month (year D) (month D))) as [H1|H1];
    [|destruct (Z.ltb_spec (month D) 12) as [H2|H2]]; intros ->%ce_from_ymd.
  - unfold day_number. lia.
  - rewrite day_number_month_end by lia. replace (day D) with (days_in_month (year D) (month D)) by lia. lia.
  - replace (month D) with 12 in * by lia. change (days_in_month (year D) 12) with 31 in *.
    rewrite day_number_year_end. replace (day D) with 31 by lia. lia.
Qed.

Lemma ce_pred D D' : pred_opt D = Some D' -> num_days_from_ce D' = num_days_from_ce D - 1.
Proof.
  destruct (date_valid D) as (_ & Hm & Hd). rewrite pred_spec, (ce_number D).
  destruct (Z.ltb_spec 1 (day D)) as [H1|H1]; [|destruct (Z.ltb_spec 1 (month D)) as [H2|H2]]; intros ->%ce_from_ymd.
  - unfold day_number. lia.
  - replace (day D) with 1 by lia. pose proof (day_number_month_end (year D) (month D - 1)) as H.
    replace (month D - 1 + 1) with (month D) in H by lia. rewrite H; lia.
  - replace (month D) with 1 by lia. replace (day D) with 1 by lia.
    pose proof (day_number_year_end (year D - 1)) as H. replace (year D - 1 + 1) with (year D) in H by lia. lia.
Qed.

(** A date lies in its year. *)
Lemma ce_year D : days_before_year (year D) <= num_days_from_ce D + 365 < days_before_year (year D + 1).
Proof. rewrite ce_number. destruct (date_valid D) as (_ & Hm & Hd). pose proof (day_number_year _ _ _ Hm Hd). lia. Qed.

Lemma year_of_ce D y : days_before_year y <= num_days_from_ce D + 365 < days_before_year (y + 1) -> year D = y.
Proof. apply year_of_day_number, ce_year. Qed.

(** The range of the calendar, in days. *)
Definition in_calendar (n : Z) : Prop := days_before_year min_year <= n + 365 < days_before_year (max_year + 1).

Lemma ce_in_calendar D : in_calendar (num_days_from_ce D).
Proof.
  destruct (date_valid D) as (Hy & _). pose proof (ce_year D).
  pose proof (days_before_year_mono min_year (year D)). pose proof (days_before_year_mono (year D + 1) (max_year + 1)).
  unfold in_calendar. lia.
Qed.

Lemma succ_exists D : in_calendar (num_days_from_ce D + 1) -> exists D', succ_opt D = Some D'.
Proof.
  intros Hc. destruct (date_valid D) as (Hy & Hm & Hd). rewrite succ_spec.
  destruct (Z.ltb_spec (day D) (days_in_month (year D) (month D))) as [H1|H1];
    [|destruct (Z.ltb_spec (month D) 12) as [H2|H2]]; apply from_ymd_some; split_and!; try lia.
  - pose proof (days_in_month_range (year D) (month D + 1)). lia.
  - destruct Hc as [_ Hc]. rewrite ce_number in Hc. replace (month D) with 12 in * by lia.
    change (days_in_month (year D) 12) with 31 in *. replace (day D) with 31 in * by lia.
    pose proof (day_number_year_end (year D)) as H. change (day_number (year D + 1) 1 1) with (days_before_year (year D + 1) + 0 + 1 - 1) in H.
    destruct (decide (year D = max_year)) as [He|]; [|lia]. rewrite He in *. lia.
  - done.
Qed.

Lemma pred_exists D : in_calendar (num_days_from_ce D - 1) -> exists D', pred_opt D = Some D'.
Proof.
  intros Hc. destruct (date_valid D) as (Hy & Hm & Hd). rewrite pred_spec.
  destruct (Z.ltb_spec 1 (day D)) as [H1|H1]; [|destruct (Z.ltb_spec 1 (month D)) as [H2|H2]]; apply from_ymd_some;
    split_and!; try lia.
  - pose proof (days_in_month_range (year D) (month D - 1)). lia.
  - destruct Hc as [Hc _]. rewrite ce_number in Hc. replace (month D) with 1 in * by lia. replace (day D) with 1 in * by lia.
    change (day_number (year D) 1 1) with (days_before_year (year D) + 0 + 1 - 1) in Hc.
    destruct (decide (year D = min_year)) as [He|]; [|lia]. rewrite He in *. lia.
  - done.
Qed.

(** The date with a given number: adding days is adding to the day number. *)
Lemma add_days_exists D n : in_calendar (num_days_from_ce D + n) ->
  exists D', checked_add_days D n = Some D' /\ num_days_from_ce D' = num_days_from_ce D + n.
Proof.
  pose proof (ce_in_calendar D) as HD. destruct (Z_le_gt_dec 0 n) as [Hn|Hn].
  - pattern n. apply natlike_ind; [| |done].
    + exists D. rewrite add_days_zero. auto with lia.
    + intros k Hk IH Hc. unfold Z.succ in *. destruct IH as (D1 & H1 & H2); [unfold in_calendar in *; lia|].
      destruct (succ_exists D1) as [D2 H]; [rewrite H2; unfold in_calendar in *; lia|].
      exists D2. rewrite add_days_up, H1 by done. simpl. split; [done|]. rewrite (ce_succ _ _ H). lia.
  - replace n with (- (- n)) by lia. assert (0 <= - n) as Hn' by lia. pattern (- n). apply natlike_ind; [| |done].
    + exists D. rewrite add_days_zero. auto with lia.
    + intros k Hk IH Hc. replace (- Z.succ k) with (- k - 1) in * by lia.
      destruct IH as (D1 & H1 & H2); [unfold in_calendar in *; lia|].
      destruct (pred_exists D1) as [D2 H]; [rewrite H2; unfold in_calendar in *; lia|].
      exists D2. rewrite add_days_down, H1 by lia. simpl. split; [done|]. rewrite (ce_pred _ _ H). lia.
Qed.

Lemma add_days_ce D n D' : checked_add_days D n = Some D' <-> num_days_from_ce D' = num_days_from_ce D + n.
Proof.
  split.
  - revert n D'. apply add_days_ind; [lia| |].
    + intros n D1 D2 _ H1 H2%ce_succ. lia.
    + intros n D1 D2 _ H1 H2%ce_pred. lia.
  - intros H. destruct (add_days_exists D n) as (D2 & H2 & H3); [rewrite <- H; apply ce_in_calendar|].
    rewrite H2. f_equal. apply ce_inj. lia.
Qed.

Lemma days_in_year y : 365 <= days_before_year (y + 1) - days_before_year y <= 366.
Proof. rewrite days_before_year_succ. destruct (is_leap y); lia. Qed.

(** The first of January of a date's year, and the day of the year. *)
Lemma jan1_exists D : exists J, from_ymd_opt (year D) 1 1 = Some J /\ year J = year D /\
  num_days_from_ce J = days_before_year (year D) - 365 /\ ordinal D = num_days_from_ce D - num_days_from_ce J + 1.
Proof.
  destruct (date_valid D) as (Hy & _). destruct (from_ymd_some (year D) 1 1) as [J HJ].
  { pose proof (days_in_month_range (year D) 1). split_and!; lia. }
  exists J. destruct (from_ymd_fields _ _ _ _ HJ) as (H1 & _ & _). rewrite (ce_from_ymd _ _ _ _ HJ), ordinal_spec, ce_number.
  unfold day_number. change (days_before_month (year D) 1) with 0. split_and!; [done|done|lia|lia].
Qed.

Lemma ordinal_range D : 1 <= ordinal D <= 366.
Proof.
  rewrite ordinal_spec. destruct (date_valid D) as (_ & Hm & Hd). pose proof (days_before_month_range (year D) (month D) Hm).
  destruct (is_leap (year D)); lia.
Qed.
End days.

(** ** A Gregorian calendar *)
Module Gregorian.
Definition date_ok (p : Z * Z * Z) : bool :=
  let '(y, m, d) := p in
  (-9999 <=? y) && (y <=? 9999) && (1 <=? m) && (m <=? 12) && (1 <=? d) && (d <=? days_in_month y m).
Definition date : Type := { p : Z * Z * Z | date_ok p = true }.

Definition mk (y m d : Z) : option date :=
  match decide (date_ok (y, m, d) = true) with left H => Some (exist _ (y, m, d) H) | right _ => None end.
Definition y_of (D : date) : Z := (`D).1.1.
Definition m_of (D : date) : Z := (`D).1.2.
Definition d_of (D : date) : Z := (`D).2.

Definition number (D : date) : Z := day_number (y_of D) (m_of D) (d_of D).

Definition succ (D : date) : option date :=
  if d_of D <? days_in_month (y_of D) (m_of D) then mk (y_of D) (m_of D) (d_of D + 1)
  else if m_of D <? 12 then mk (y_of D) (m_of D + 1) 1
  else mk (y_of D + 1) 1 1.
Definition pred (D : date) : option date :=
  if 1 <? d_of D then mk (y_of D) (m_of D) (d_of D - 1)
  else if 1 <? m_of D then mk (y_of D) (m_of D - 1) (days_in_month (y_of D) (m_of D - 1))
  else mk (y_of D - 1) 12 31.
Definition add_days (D : date) (n : Z) : option date :=
  match n with
  | Z0 => Some D
  | Zpos p => Pos.iter (fun o => o ≫= succ) (Some D) p
  | Zneg p => Pos.iter (fun o => o ≫= pred) (Some D) p
  end.

(** Day zero, the first of January of year zero, was a Saturday. *)
#[global] Instance chrono : Chrono := {|
  NaiveDate := date;
  min_year := -9999;
  max_year := 9999;
  from_ymd_opt := mk;
  year := y_of;
  month := m_of;
  day := d_of;
  num_days_from_monday D := (number D + 5) mod 7;
  succ_opt := succ;
  pred_opt := pred;
  checked_add_days := add_days |}.

Lemma mk_some y m d D : mk y m d = Some D -> y_of D = y /\ m_of D = m /\ d_of D = d.
Proof. unfold mk. case_match; [|done]. by intros [= <-]. Qed.

Lemma mk_valid y m d : is_Some (mk y m d) <-> valid_ymd y m d.
Proof.
  unfold mk, valid_ymd. cbn [min_year max_year chrono]. destruct (decide _) as [H|H].
  - split; [|by eexists]. intros _. unfold date_ok in *. lia.
  - split; [by intros []|]. intros Hv. exfalso. apply H. unfold date_ok. lia.
Qed.

Lemma mk_fields (D : date) : mk (y_of D) (m_of D) (d_of D) = Some D.
Proof.
  destruct D as [[[y m] d] H]. unfold mk, y_of, m_of, d_of. simpl. case_match; [|done].
  do 2 f_equal. apply (Eqdep_dec.UIP_dec Bool.bool_dec).
Qed.

Lemma date_bounds (D : date) : 1 <= m_of D <= 12 /\ 1 <= d_of D <= days_in_month (y_of D) (m_of D).
Proof. apply (mk_valid (y_of D)). rewrite mk_fields. by eexists. Qed.

Lemma succ_number D D' : succ D = Some D' -> number D' = number D + 1.
Proof.
  destruct (date_bounds D) as [Hm Hd]. unfold succ, number.
  destruct (Z.ltb_spec (d_of D) (days_in_month (y_of D) (m_of D))) as [H1|H1];
    [|destruct (Z.ltb_spec (m_of D) 12) as [H2|H2]]; intros (-> & -> & ->)%mk_some.
  - unfold day_number. lia.
  - rewrite day_number_month_end by lia. do 2 f_equal. lia.
  - replace (m_of D) with 12 in * by lia. rewrite day_number_year_end. change (days_in_month (y_of D) 12) with 31 in *.
    do 2 f_equal. lia.
Qed.

Lemma pred_number D D' : pred D = Some D' -> number D' = number D - 1.
Proof.
  destruct (date_bounds D) as [Hm Hd]. unfold pred, number.
  destruct (Z.ltb_spec 1 (d_of D)) as [H1|H1]; [|destruct (Z.ltb_spec 1 (m_of D)) as [H2|H2]]; intros (-> & -> & ->)%mk_some.
  - unfold day_number. lia.
  - replace (d_of D) with 1 by lia. pose proof (day_number_month_end (y_of D) (m_of D - 1)) as H.
    replace (m_of D - 1 + 1) with (m_of D) in H by lia. rewrite H; lia.
  - replace (m_of D) with 1 by lia. replace (d_of D) with 1 by lia.
    pose proof (day_number_year_end (y_of D - 1)) as H. replace (y_of D - 1 + 1) with (y_of D) in H by lia. lia.
Qed.

#[global] Instance chrono_laws : ChronoLaws (C := chrono).
Proof.
  split; cbn [from_ymd_opt year month day num_days_from_monday succ_opt pred_opt checked_add_days chrono].
  - cbn. lia.
  - apply mk_valid.
  - apply mk_some.
  - apply mk_fields.
  - done.
  - done.
  - done.
  - intros D n Hn. destruct n as [|p|p]; [done| |lia]. change (Z.pos p + 1) with (Z.pos (p + 1)).
    rewrite Pos.add_1_r. unfold add_days. by rewrite Pos.iter_succ.
  - intros D n Hn. destruct n as [|p|p]; [done|lia|]. change (Z.neg p - 1) with (Z.neg (p + 1)).
    rewrite Pos.add_1_r. unfold add_days. by rewrite Pos.iter_succ.
  - intros D. apply Z.mod_pos_bound. lia.
  - intros D D' ->%succ_number. rewrite Zplus_mod_idemp_l. f_equal. lia.
  - intros D D' ->%pred_number. rewrite Zplus_mod_idemp_l.
    replace (number D + 5 + 6) with (number D - 1 + 5 + 1 * 7) by lia. by rewrite Z_mod_plus_full.
Qed.

(** The year of a day number is found among the neighbours of a year. *)
Definition year_near (y n : Z) : Z :=
  if n <? days_before_year y then y - 1 else if n <? days_before_year (y + 1) then y else y + 1.

Definition week_of (D : date) : Z * Z :=
  let thursday := number D - (number D + 5) mod 7 + 3 in
  let y := year_near (y_of D) thursday in
  (y, (thursday - days_before_year y) / 7 + 1).

#[global] Instance chrono_days : ChronoDays (C := chrono) := {|
  num_days_from_ce (D : @NaiveDate chrono) := number D - 365;
  ordinal (D : @NaiveDate chrono) := days_before_month (y_of D) (m_of D) + d_of D;
  iso_week (D : @NaiveDate chrono) := week_of D;
  checked_add_months D n := months_away D n;
  checked_sub_months D n := months_away D (- n) |}.

Lemma number_year (D : date) : days_before_year (y_of D) <= number D < days_before_year (y_of D + 1).
Proof. destruct (date_bounds D). by apply day_number_year. Qed.

Lemma year_near_correct (D T : date) : - 3 <= number T - number D <= 3 -> year_near (y_of D) (number T) = y_of T.
Proof.
  intros Hn. pose proof (number_year D). pose proof (number_year T) as HT. unfold year_near.
  assert (365 <= days_before_year (y_of D) - days_before_year (y_of D - 1)).
  { pose proof (days_before_year_succ (y_of D - 1)) as H'. replace (y_of D - 1 + 1) with (y_of D) in H' by lia.
    destruct (is_leap (y_of D - 1)); lia. }
  assert (365 <= days_before_year (y_of D + 1 + 1) - days_before_year (y_of D + 1)).
  { rewrite (days_before_year_succ (y_of D + 1)). destruct (is_leap _); lia. }
  symmetry. repeat case_match; (eapply year_of_day_number; [exact HT|]).
  - replace (y_of D - 1 + 1) with (y_of D) by lia. lia.
  - lia.
  - lia.
Qed.

#[global] Instance chrono_days_laws : ChronoDaysLaws (C := chrono) (CD := chrono_days).
Proof.
  split; cbn [num_days_from_ce ordinal iso_week checked_add_months checked_sub_months chrono_days year month day
              num_days_from_monday chrono]; [done| |done| |done|done].
  - intros D. replace (number D + 5) with (number D - 365 - 1 + 53 * 7) by lia. by rewrite Z_mod_plus_full.
  - intros D T HT. unfold week_of. assert (number D - (number D + 5) mod 7 + 3 = number T) as -> by lia.
    pose proof (Z.mod_pos_bound (number D + 5) 7). rewrite (year_near_correct D T) by lia.
    f_equal. f_equal. f_equal. unfold number, day_number. lia.
Qed.

(** The sixth of May 2025 was a Tuesday. *)
Lemma weekday_example : num_days_from_monday <$> mk 2025 5 6 = Some 1.
Proof. vm_compute. reflexivity. Qed.
End Gregorian.
