(* ===== verification/DateTime.v ===== *)
(** * Date and time functions

    The arithmetic of [crates/functions/src/datetime]: [ADD_MONTHS], [LAST_DAY], [NEXT_DAY],
    [PREVIOUS_DAY], [DATEDIFF] and [DATEADD], each as the function applied to one row and the
    loop over the rows.  [chrono] is the interface of [Calendar]; the casts and the kernels of
    Arrow ([date_part], [add_wrapping]) are parameters.  Integer arithmetic wraps at its width as
    in a release build; a panic of [chrono]'s operators is the value [Panicked]. *)

From Stdlib Require Import ZArith Lia Ascii String.
From stdpp Require Import base option list strings numbers.
From S2P Require Import Prelude Calendar.

Local Open Scope rust_scope.

(** ** Shared data *)

(** [NaiveDateTime]: a date and the nanoseconds since midnight. *)
Record NaiveDateTime `{C : Chrono} := mk_datetime { date : NaiveDate; time : Z }.
Arguments mk_datetime {C} date time.

(** The errors of the date functions ([datetime/errors.rs], [exec_err!] and [internal_err!]). *)
Inductive dt_error :=
| ExecErr (msg : string)
| CantParseDate
| TimestampIsOutOfRange
| CantCastTo (v : string)
| InvalidArgument (description : string)
| DateDiffThreeArgsRequired
| DateDiffFirstArgNotString
| DateDiffSecondAndThirdInvalidTypes
| DateDiffTimeMixingUnsupported
| DateDiffInvalidUnitFormat
| DateDiffInvalidComponentForTime
| DateDiffInvalidPartType
| InvalidTimestamp
| InvalidDatetime
| CantGetNanoseconds
| CantParseTimezone
| InternalErr (msg : string)
| ComputeError
| Panicked
(** A loop that does not end within its fuel; no theorem concludes with it. *)
| OutOfFuel.

(** [datafusion::arrow::compute::DatePart]. *)
Inductive DatePart :=
| Quarter | Year | YearISO | Month | Week | WeekISO | Day | DayOfWeekSunday0 | DayOfWeekMonday0
| DayOfYear | Hour | Minute | Second | Millisecond | Microsecond | Nanosecond.

(** [chrono::Weekday]. *)
Inductive Weekday := Mon | Tue | Wed | Thu | Fri | Sat | Sun.

Definition num_days_from_sunday (w : Weekday) : Z :=
  match w with Sun => 0 | Mon => 1 | Tue => 2 | Wed => 3 | Thu => 4 | Fri => 5 | Sat => 6 end.
Definition weekday_of (d : Z) : Weekday :=
  if d =? 0 then Mon else if d =? 1 then Tue else if d =? 2 then Wed else if d =? 3 then Thu
  else if d =? 4 then Fri else if d =? 5 then Sat else Sun.

Definition str_in (s : string) (l : list string) : bool := existsb (String.eqb s) l.
Arguments str_in s l : simpl never.

Section functions.
Context `{C : Chrono}.

Definition weekday (D : NaiveDate) : Weekday := weekday_of (num_days_from_monday D).

(** [*ndt + Duration::days(n)]: panics outside the range of [chrono]. *)
Definition add_duration_days (ndt : NaiveDateTime) (n : Z) : result dt_error NaiveDateTime :=
  match checked_add_days ndt.(date) n with
  | Some d => Ok (mk_datetime d ndt.(time))
  | None => Err Panicked
  end.

(** ** [add_months.rs] *)

Definition last_day_of_month (year month : Z) : option Z :=
  first_of_next_month ←
    (if month =? 12 then from_ymd_opt (wrap_i32 (year + 1)) 1 1
     else from_ymd_opt year (wrap_u32 (month + 1)) 1);
  day <$> pred_opt first_of_next_month.

Definition add_months (dt : NaiveDateTime) (months : Z) : option NaiveDateTime :=
  let D := dt.(date) in
  let y := year D in
  let m := month D in
  let total_months := wrap_i32 (wrap_i32 (wrap_i32 (y * 12) + (m - 1)) + months) in
  let new_year := Z.quot total_months 12 in
  let new_month := Z.rem total_months 12 + 1 in
  last ← last_day_of_month y (wrap_u32 m);
  new_last ← last_day_of_month new_year (wrap_u32 new_month);
  let new_day := if day D =? last then new_last else Z.min (day D) new_last in
  (fun d => mk_datetime d dt.(time)) <$> from_ymd_opt new_year (wrap_u32 new_month) new_day.

(** One row of [AddMonthsFunc::invoke_with_args]; [from_timestamp_nanos] and
    [timestamp_nanos_opt] are [chrono]'s. *)
Definition add_months_row (from_timestamp_nanos : Z -> NaiveDateTime)
  (timestamp_nanos_opt : NaiveDateTime -> option Z) (to_add : Z) (v : option Z) : result dt_error Z :=
  match v with
  | None => Err (ExecErr "First argument must be a timestamp with nanosecond precision")
  | Some ts =>
      let naive := from_timestamp_nanos ts in
      let? new_naive := ok_or (add_months naive (wrap_i32 to_add)) CantParseDate in
      ok_or (timestamp_nanos_opt new_naive) TimestampIsOutOfRange
  end.

Definition add_months_invoke (from_timestamp_nanos : Z -> NaiveDateTime)
  (timestamp_nanos_opt : NaiveDateTime -> option Z) (to_add : option Z) (arr : list (option Z)) : result dt_error (list Z) :=
  match to_add with
  | None => Err (ExecErr "Second argument must be a scalar Int64 value representing months to add")
  | Some to_add => traverse (add_months_row from_timestamp_nanos timestamp_nanos_opt to_add) arr
  end.

(** ** [last_day.rs]

    [week_start] is the session parameter of that name, an unsigned number; [to_lowercase] is
    the Unicode lower-casing of the standard library. *)
Definition and_hms_opt (D : NaiveDate) : option NaiveDateTime := Some (mk_datetime D 0).

Definition day_parts : list string := ["day"; "d"; "dd"; "days"; "dayofmonth"].
Definition week_parts : list string := ["week"; "w"; "wk"; "weekofyear"; "woy"; "wy"].
Definition month_parts : list string := ["month"; "mm"; "mon"; "mons"; "months"].
Definition year_parts : list string := ["year"; "y"; "yy"; "yyy"; "yyyy"; "yr"; "years"].
Definition quarter_parts : list string := ["quarter"; "q"; "qtr"; "qtrs"; "quarters"].
Definition hour_parts : list string := ["hour"; "h"; "hh"; "hr"; "hours"; "hrs"].
Definition minute_parts : list string := ["minute"; "m"; "mi"; "min"; "minutes"; "mins"].
Definition second_parts : list string := ["second"; "s"; "sec"; "seconds"; "secs"].
Definition millisecond_parts : list string := ["millisecond"; "ms"; "msec"; "milliseconds"].
Definition microsecond_parts : list string := ["microsecond"; "us"; "usec"; "microseconds"].
Definition nanosecond_parts : list string :=
  ["nanosecond"; "ns"; "nsec"; "nanosec"; "nsecond"; "nanoseconds"; "nanosecs"].

Definition week_end_offset (week_start weekday_num : Z) : Z :=
  let week_start_norm := if week_start =? 0 then 0 else (week_start - 1) mod 7 in
  let last_day_num := (week_start_norm + 6) mod 7 in
  (last_day_num + 7 - weekday_num) mod 7.

Definition last_day (to_lowercase : string -> string) (week_start : Z) (ndt : NaiveDateTime) (date_part : string) :
  result dt_error NaiveDateTime :=
  let D := ndt.(date) in
  let part := to_lowercase date_part in
  let native := CantCastTo "native_datetime" in
  if str_in part day_parts then ok_or (and_hms_opt D) native
  else if str_in part week_parts then
    match checked_add_days D (week_end_offset week_start (num_days_from_monday D)) with
    | Some last_day_of_week => ok_or (and_hms_opt last_day_of_week) native
    | None => Err Panicked
    end
  else if str_in part month_parts then
    let '(next_year, next_month) :=
      if month D =? 12 then (wrap_i32 (year D + 1), 1) else (year D, month D + 1) in
    let? first := ok_or (from_ymd_opt next_year next_month 1) native in
    let? last := ok_or (pred_opt first) native in
    ok_or (and_hms_opt last) native
  else if str_in part year_parts then
    let? last := ok_or (from_ymd_opt (year D) 12 31) native in
    ok_or (and_hms_opt last) native
  else Err (ExecErr (append "Unsupported date part: " date_part)).

(** ** [next_day.rs] and [previous_day.rs]: [dow] is already in lower case *)
Definition next_day (ndt : NaiveDateTime) (dow : string) : result dt_error NaiveDateTime :=
  let? target_dow :=
    (if String.prefix "su" dow then Ok Sun
     else if String.prefix "mo" dow then Ok Mon
     else if String.prefix "tu" dow then Ok Tue
     else if String.prefix "we" dow then Ok Wed
     else if String.prefix "th" dow then Ok Thu
     else if String.prefix "fr" dow then Ok Fri
     else if String.prefix "sa" dow then Ok Sat
     else Err (ExecErr (append "Invalid day of week: " dow))) in
  let current_dow := weekday ndt.(date) in
  let days_to_add := (num_days_from_sunday target_dow + 7 - num_days_from_sunday current_dow) mod 7 in
  add_duration_days ndt (if days_to_add =? 0 then 7 else days_to_add).

(** [dow.chars().take(2)] is compared with two ASCII characters, so that its test is a prefix test. *)
Definition prev_day (ndt : NaiveDateTime) (dow : string) : result dt_error NaiveDateTime :=
  let? target_dow :=
    (if String.prefix "mo" dow then Ok Mon
     else if String.prefix "tu" dow then Ok Tue
     else if String.prefix "we" dow then Ok Wed
     else if String.prefix "th" dow then Ok Thu
     else if String.prefix "fr" dow then Ok Fri
     else if String.prefix "sa" dow then Ok Sat
     else Err (ExecErr (append "Invalid day of week: " dow))) in
  let current_dow := weekday ndt.(date) in
  let days_to_subtract := (num_days_from_sunday current_dow + 7 - num_days_from_sunday target_dow) mod 7 in
  add_duration_days ndt (- (if days_to_subtract =? 0 then 7 else days_to_subtract)).
End functions.

(** ** [date_diff.rs] *)
Section date_diff.
(** [arrow::compute::date_part] of one timestamp. *)
Variable date_part : DatePart -> Z -> Z.

Definition SECOND : Z := 1000000000.

(** [i64::div_euclid] and [rem_euclid] by a positive number. *)
Definition div_euclid (a b : Z) : Z := a / b.
Definition rem_euclid (a b : Z) : Z := a mod b.

(** A kernel applied row by row, null where an operand is null. *)
Definition zip_rows {A} (f : Z -> Z -> result dt_error A) (lhs rhs : list (option Z)) : result dt_error (list (option A)) :=
  traverse (fun p : option Z * option Z =>
    match p with
    | (Some a, Some b) => result_map Some (f a b)
    | _ => Ok None
    end) (zip lhs rhs).

(** Arrow's checked subtraction. *)
Definition sub_i32 (a b : Z) : result dt_error Z := if in_i32 (a - b) then Ok (a - b) else Err ComputeError.
Definition sub_i64 (a b : Z) : result dt_error Z := if in_i64 (a - b) then Ok (a - b) else Err ComputeError.

Definition boundary_diff (coef : Z) (lhs rhs : list (option Z)) : result dt_error (list (option Z)) :=
  zip_rows (fun a b => Ok (wrap_i64 (div_euclid b coef - div_euclid a coef))) lhs rhs.

Definition weeks_of (week_start ns : Z) : Z :=
  let days := div_euclid ns 86400000000000 in
  if days <? 0 then 0
  else
    let weeks := div_euclid days 7 in
    let remainder := rem_euclid days 7 in
    if ((week_start =? 0) && (0 <? remainder)) || (negb (week_start =? 0) && (week_start <=? remainder))
    then weeks + 1 else weeks.

Definition weeks_diff (week_start : Z) (lhs rhs : list (option Z)) : result dt_error (list (option Z)) :=
  zip_rows (fun a b => result_map (weeks_of week_start) (sub_i64 b a)) lhs rhs.

Definition time_only_diff (unit_type : DatePart) (lhs rhs : list (option Z)) : result dt_error (list (option Z)) :=
  match unit_type with
  | Hour => boundary_diff (3600 * SECOND) lhs rhs
  | Minute => boundary_diff (60 * SECOND) lhs rhs
  | Second => boundary_diff SECOND lhs rhs
  | Millisecond => boundary_diff 1000000 lhs rhs
  | Microsecond => boundary_diff 1000 lhs rhs
  | Nanosecond => boundary_diff 1 lhs rhs
  | _ => Err DateDiffInvalidComponentForTime
  end.

(** [date_diff_func]: [is_time64] is the test of the type of the first column. *)
Definition date_diff_func (week_start : Z) (is_time64 : bool) (lhs rhs : list (option Z)) (unit_type : DatePart) :
  result dt_error (list (option Z)) :=
  if is_time64 then time_only_diff unit_type lhs rhs
  else
    match unit_type with
    | Quarter | Year | YearISO => zip_rows (fun a b => sub_i32 (date_part unit_type b) (date_part unit_type a)) lhs rhs
    | Month =>
        zip_rows (fun a b =>
          let? diff_month := sub_i32 (date_part Month b) (date_part Month a) in
          let? diff_year := sub_i32 (date_part Year b) (date_part Year a) in
          Ok (wrap_i32 (wrap_i32 (diff_year * 12) + diff_month))) lhs rhs
    | Week | WeekISO => weeks_diff week_start lhs rhs
    | Day | DayOfYear => boundary_diff (86400 * SECOND) lhs rhs
    | Hour => boundary_diff (3600 * SECOND) lhs rhs
    | Minute => boundary_diff (60 * SECOND) lhs rhs
    | Second => boundary_diff SECOND lhs rhs
    | Millisecond => boundary_diff 1000000 lhs rhs
    | Microsecond => boundary_diff 1000 lhs rhs
    | _ => boundary_diff 1 lhs rhs
    end.

(** The part named by the first argument of [DATEDIFF]. *)
Definition date_diff_part (date_or_time_part : string) : result dt_error DatePart :=
  let part := to_ascii_lowercase date_or_time_part in
  if str_in part year_parts then Ok Year
  else if str_in part month_parts then Ok Month
  else if str_in part day_parts then Ok Day
  else if str_in part week_parts then Ok Week
  else if str_in part quarter_parts then Ok Quarter
  else if str_in part hour_parts then Ok Hour
  else if str_in part minute_parts then Ok Minute
  else if str_in part second_parts then Ok Second
  else if str_in part millisecond_parts then Ok Millisecond
  else if str_in part microsecond_parts then Ok Microsecond
  else if str_in part nanosecond_parts then Ok Nanosecond
  else Err DateDiffInvalidPartType.

(** An argument: a column or a constant ([ColumnarValue]). *)
Inductive columnar := Array (arr : list (option Z)) | Scalar (v : option Z).

Definition broadcast_to_len (val : columnar) (len : nat) : list (option Z) :=
  match val with Array arr => arr | Scalar v => replicate len v end.

(** [DateDiffFunc::invoke_with_args] on coerced arguments; [None] is a first argument that is
    not a string constant. *)
Definition date_diff_invoke (week_start : Z) (is_time64 : bool) (part : option string) (arg1 arg2 : columnar) :
  result dt_error (list (option Z)) :=
  match part with
  | None => Err DateDiffInvalidUnitFormat
  | Some part =>
      let len := match arg1, arg2 with
                 | Array arr1, _ => length arr1
                 | _, Array arr2 => length arr2
                 | _, _ => 1%nat
                 end in
      let expr1 := broadcast_to_len arg1 len in
      let expr2 := broadcast_to_len arg2 len in
      let? unit_type := date_diff_part part in
      date_diff_func week_start is_time64 expr1 expr2 unit_type
  end.
End date_diff.

(** The types [DATEDIFF] tells apart. *)
Inductive DataType := Timestamp | Date32 | Date64 | Time32 | Time64 | Utf8 | LargeUtf8 | Utf8View | Null | OtherType.

Definition is_datetime_like (dt : DataType) : bool :=
  match dt with
  | Timestamp | Date32 | Date64 | Time32 | Time64 | Utf8 | LargeUtf8 | Null => true
  | _ => false
  end.
Definition is_time (dt : DataType) : bool := match dt with Time32 | Time64 => true | _ => false end.

Definition date_diff_coerce_types (arg_types : list DataType) : result dt_error (list DataType) :=
  match arg_types with
  | [part_type; arg1; arg2] =>
      let? coerced0 :=
        (match part_type with Utf8 | LargeUtf8 | Null => Ok Utf8 | _ => Err DateDiffFirstArgNotString end) in
      if negb (is_datetime_like arg1) || negb (is_datetime_like arg2) then Err DateDiffSecondAndThirdInvalidTypes
      else if is_time arg1 || is_time arg2 then
        if is_time arg1 && is_time arg2 then Ok [coerced0; Time64; Time64] else Err DateDiffTimeMixingUnsupported
      else Ok [coerced0; Timestamp; Timestamp]
  | _ => Err DateDiffThreeArgsRequired
  end.

(** ** [date_add.rs] *)
Inductive interval :=
| interval_ym (years months : Z)
| interval_dt (days millis : Z)
| interval_mdn (months days nanos : Z).

(** [i32::try_from(v).unwrap_or(0)]. *)
Definition i32_or_zero (v : Z) : Z := if in_i32 v then v else 0.

Definition year_interval (opt_y : option Z) : interval := interval_ym (i32_or_zero (default 0 opt_y)) 0.
Definition month_interval (multiplier : Z) (m : option Z) : interval :=
  interval_ym 0 (i32_or_zero (wrap_i64 (default 0 m * multiplier))).
Definition day_interval (multiplier : Z) (opt_d : option Z) : interval :=
  interval_dt (i32_or_zero (wrap_i64 (default 0 opt_d * multiplier))) 0.
Definition nano_interval (multiplier : Z) (opt_ns : option Z) : interval :=
  interval_mdn 0 0 (wrap_i64 (default 0 opt_ns * multiplier)).

Section date_add.
(** [arrow::compute::kernels::numeric::add_wrapping] of one row. *)
Variable add_wrapping : Z -> interval -> result dt_error Z.

Definition add_intervals (dates : list (option Z)) (intervals : list interval) : result dt_error (list (option Z)) :=
  traverse (fun p : option Z * interval =>
    match p with (Some d, i) => result_map Some (add_wrapping d i) | (None, _) => Ok None end) (zip dates intervals).

Definition date_add_part (date_or_time_part : string) : result dt_error (option Z -> interval) :=
  let part := date_or_time_part in
  if str_in part year_parts then Ok year_interval
  else if str_in part month_parts then Ok (month_interval 1)
  else if str_in part day_parts then Ok (day_interval 1)
  else if str_in part week_parts then Ok (day_interval 7)
  else if str_in part quarter_parts then Ok (month_interval 3)
  else if str_in part hour_parts then Ok (nano_interval 3600000000000)
  else if str_in part minute_parts then Ok (nano_interval 60000000000)
  else if str_in part second_parts then Ok (nano_interval 1000000000)
  else if str_in part millisecond_parts then Ok (nano_interval 1000000)
  else if str_in part microsecond_parts then Ok (nano_interval 1000)
  else if str_in part (nanosecond_parts ++ ["nseconds"]) then Ok (nano_interval 1)
  else Err (InvalidArgument "Invalid date_or_time_part type").

(** The end of [DateAddFunc::invoke_with_args]: the part, the integer values and the dates, one per row. *)
Definition date_add_invoke (part : option string) (values dates : list (option Z)) : result dt_error (list (option Z)) :=
  match part with
  | None => Err (InvalidArgument "Invalid unit type format")
  | Some part =>
      let? to_interval := date_add_part part in
      if decide (dates = []) then Ok [] else add_intervals dates (to_interval <$> values)
  end.
End date_add.

(** [check_return_type]: a date and a part smaller than a day give a timestamp. *)
Definition check_return_type (to_lowercase : string -> string) (unit : string) (expr_type : DataType) : DataType :=
  let part := to_lowercase unit in
  match expr_type with
  | Date32 | Date64 =>
      if str_in part (hour_parts ++ minute_parts ++ second_parts ++ millisecond_parts ++ microsecond_parts
                      ++ nanosecond_parts ++ ["nseconds"])
      then Timestamp else expr_type
  | _ => expr_type
  end.

(** ** The theorems *)
Section theorems.
Context `{C : Chrono} {L : ChronoLaws}.

Lemma last_day_of_month_spec y m :
  1 <= m <= 12 -> min_year <= y < max_year -> last_day_of_month y (wrap_u32 m) = Some (days_in_month y m).
Proof.
  intros Hm Hy. pose proof years_fit as Hf. unfold last_day_of_month. rewrite wrap_u32_id by lia.
  destruct (from_ymd_some (if m =? 12 then y + 1 else y) (if m =? 12 then 1 else m + 1) 1) as [D HD].
  { pose proof (days_in_month_range (if m =? 12 then y + 1 else y) (if m =? 12 then 1 else m + 1)).
    destruct (Z.eqb_spec m 12); split_and!; lia. }
  destruct (pred_first_of_month y m D HD) as (E & HE & _ & _ & Hday); [lia..|].
  destruct (Z.eqb_spec m 12) as [->|Hne].
  - wrap_simpl. rewrite HD. simpl. by rewrite HE, <- Hday.
  - rewrite wrap_u32_id by lia. rewrite HD. simpl. by rewrite HE, <- Hday.
Qed.

(** The month index of a date: months since the start of year zero. *)
Definition month_index (D : NaiveDate) : Z := 12 * year D + (month D - 1).

Lemma total_months_spec (D : NaiveDate) months :
  wrap_i32 (wrap_i32 (wrap_i32 (year D * 12) + (month D - 1)) + months) = wrap_i32 (month_index D + months).
Proof. rewrite (wrap_i32_add_l (year D * 12)), wrap_i32_add_l. unfold month_index. f_equal. lia. Qed.

Lemma add_months_spec (dt : NaiveDateTime) (months : Z) :
  let total := month_index dt.(date) + months in
  year dt.(date) < max_year -> 0 <= total -> in_i32 total = true -> total / 12 < max_year ->
  exists dt', add_months dt months = Some dt' /\ month_index dt'.(date) = total /\
    day dt'.(date) =
      (let last := days_in_month (year dt'.(date)) (month dt'.(date)) in
       if day dt.(date) =? days_in_month (year dt.(date)) (month dt.(date)) then last else Z.min (day dt.(date)) last) /\
    dt'.(time) = dt.(time).
Proof.
  intros total Hy H0 H32 Hmax. pose proof years_fit as Hf. destruct (date_valid dt.(date)) as (Hv & Hm & Hd).
  assert (0 <= total mod 12 < 12) as Hr by (apply Z.mod_pos_bound; lia).
  assert (0 <= total / 12) as Hq by (apply Z.div_pos; lia).
  unfold add_months. rewrite total_months_spec. fold total. rewrite wrap_i32_id, Z.quot_div_nonneg, Z.rem_mod_nonneg by (done || lia).
  rewrite !last_day_of_month_spec by lia. cbn [mbind option_bind]. rewrite wrap_u32_id by lia.
  set (y' := total / 12) in *. set (m' := total mod 12 + 1). pose proof (days_in_month_range y' m') as Hdm.
  set (nd := if _ =? _ then _ else _). assert (1 <= nd <= days_in_month y' m') as Hnd by (subst nd; case_match; lia).
  destruct (from_ymd_some y' m' nd) as [D' HD']; [split_and!; lia|]. rewrite HD'. cbn [fmap option_fmap option_map].
  destruct (from_ymd_fields _ _ _ _ HD') as (E1 & E2 & E3). eexists. split; [done|]. unfold month_index. cbn [date time].
  rewrite E1, E2, E3. split_and!; [|done..]. subst y' m'. pose proof (Z_div_mod_eq_full total 12). lia.
Qed.

(** [add_months] moves a date by exactly the given number of months: the month index grows by
    [months], the day is the last of the target month when the date is the last of its month,
    otherwise the same day or the last of a shorter month, and the time of day is kept. *)
Theorem add_months_correct (dt : NaiveDateTime) (months : Z) :
  let total := month_index dt.(date) + months in
  year dt.(date) < max_year -> 0 <= total -> in_i32 total = true -> total / 12 < max_year ->
  exists dt', add_months dt months = Some dt' /\ month_index dt'.(date) = total /\
    day dt'.(date) =
      (let last := days_in_month (year dt'.(date)) (month dt'.(date)) in
       if day dt.(date) =? days_in_month (year dt.(date)) (month dt.(date)) then last else Z.min (day dt.(date)) last) /\
    dt'.(time) = dt.(time).
Proof. apply add_months_spec. Qed.

(** The number of months is truncated to 32 bits, so that adding a multiple of 2^32 months
    to every argument changes nothing. *)
Theorem add_months_truncates from_timestamp_nanos timestamp_nanos_opt (to_add k : Z) (arr : list (option Z)) :
  add_months_invoke from_timestamp_nanos timestamp_nanos_opt (Some (to_add + k * 4294967296)) arr =
  add_months_invoke from_timestamp_nanos timestamp_nanos_opt (Some to_add) arr.
Proof.
  unfold add_months_invoke. f_equal. unfold add_months_row. by rewrite wrap_i32_period.
Qed.

(** *** The next and the previous weekday *)

Definition abbr (w : Weekday) : string :=
  match w with Mon => "mo" | Tue => "tu" | Wed => "we" | Thu => "th" | Fri => "fr" | Sat => "sa" | Sun => "su" end.

Lemma prefix_two c d s : String.prefix (String c (String d EmptyString)) s = true -> exists r, s = String c (String d r).
Proof.
  destruct s as [|c' [|d' r]]; simpl; [done|by destruct (ascii_dec c c')|].
  destruct (ascii_dec c c') as [<-|]; [|done]. destruct (ascii_dec d d') as [<-|]; [|done]. by exists r.
Qed.

Lemma abbr_unique w w' dow : String.prefix (abbr w) dow = true -> String.prefix (abbr w') dow = true -> w = w'.
Proof.
  intros H1 H2. destruct w; apply prefix_two in H1 as [r ->]; destruct w'; apply prefix_two in H2 as [r' Hr];
    (reflexivity || discriminate Hr).
Qed.

Lemma weekday_sunday D : num_days_from_sunday (weekday D) = (num_days_from_monday D + 1) mod 7.
Proof.
  pose proof (weekday_range D) as H. unfold weekday, weekday_of.
  assert (num_days_from_monday D = 0 \/ num_days_from_monday D = 1 \/ num_days_from_monday D = 2 \/ num_days_from_monday D = 3
    \/ num_days_from_monday D = 4 \/ num_days_from_monday D = 5 \/ num_days_from_monday D = 6) as Hc by lia.
  destruct Hc as [->|[->|[->|[->|[->|[->| ->]]]]]]; reflexivity.
Qed.

Lemma weekday_shift D n D' :
  checked_add_days D n = Some D' ->
  num_days_from_sunday (weekday D') = (num_days_from_sunday (weekday D) + n) mod 7.
Proof.
  intros H. rewrite !weekday_sunday, (weekday_add _ _ _ H), !Zplus_mod_idemp_l. f_equal. lia.
Qed.

Lemma num_days_from_sunday_inj w w' : num_days_from_sunday w = num_days_from_sunday w' -> w = w'.
Proof. by destruct w, w'. Qed.

Lemma num_days_from_sunday_range w : 0 <= num_days_from_sunday w < 7.
Proof. destruct w; simpl; lia. Qed.

(** Which weekday the text names, as [next_day] reads it. *)
Lemma next_day_eval ndt w dow :
  String.prefix (abbr w) dow = true ->
  next_day ndt dow =
    (let n := (num_days_from_sunday w + 7 - num_days_from_sunday (weekday ndt.(date))) mod 7 in
     add_duration_days ndt (if n =? 0 then 7 else n)).
Proof.
  intros H. unfold next_day.
  assert (forall w', w' <> w -> String.prefix (abbr w') dow = false) as Hno.
  { intros w' Hne. destruct (String.prefix (abbr w') dow) eqn:E; [|done]. by destruct Hne; eapply abbr_unique. }
  pose proof (Hno Sun) as H1. pose proof (Hno Mon) as H2. pose proof (Hno Tue) as H3. pose proof (Hno Wed) as H4.
  pose proof (Hno Thu) as H5. pose proof (Hno Fri) as H6. pose proof (Hno Sat) as H7. cbn [abbr] in *.
  destruct w; cbn [abbr] in H; rewrite ?H1, ?H2, ?H3, ?H4, ?H5, ?H6, ?H7, ?H by done; reflexivity.
Qed.

Lemma prev_day_eval ndt w dow :
  w <> Sun -> String.prefix (abbr w) dow = true ->
  prev_day ndt dow =
    (let n := (num_days_from_sunday (weekday ndt.(date)) + 7 - num_days_from_sunday w) mod 7 in
     add_duration_days ndt (- (if n =? 0 then 7 else n))).
Proof.
  intros Hs H. unfold prev_day.
  assert (forall w', w' <> w -> String.prefix (abbr w') dow = false) as Hno.
  { intros w' Hne. destruct (String.prefix (abbr w') dow) eqn:E; [|done]. by destruct Hne; eapply abbr_unique. }
  pose proof (Hno Mon) as H2. pose proof (Hno Tue) as H3. pose proof (Hno Wed) as H4.
  pose proof (Hno Thu) as H5. pose proof (Hno Fri) as H6. pose proof (Hno Sat) as H7. cbn [abbr] in *.
  destruct w; cbn [abbr] in H; try done; rewrite ?H2, ?H3, ?H4, ?H5, ?H6, ?H7, ?H by done; reflexivity.
Qed.

(** [next_day] returns the first day after the given one that falls on the named weekday, one to
    seven days later, at the same time of day. *)
Theorem next_day_correct (ndt : NaiveDateTime) (w : Weekday) (dow : string) :
  String.prefix (abbr w) dow = true -> year ndt.(date) < max_year ->
  exists r n, next_day ndt dow = Ok r /\ 1 <= n <= 7 /\ checked_add_days ndt.(date) n = Some r.(date) /\
    r.(time) = ndt.(time) /\ weekday r.(date) = w /\
    forall k D', 1 <= k < n -> checked_add_days ndt.(date) k = Some D' -> weekday D' <> w.
Proof.
  intros Hw Hy. rewrite (next_day_eval _ w) by done. cbn zeta. unfold add_duration_days.
  set (cur := num_days_from_sunday (weekday ndt.(date))). set (tgt := num_days_from_sunday w).
  pose proof (num_days_from_sunday_range (weekday ndt.(date))) as Hc. fold cur in Hc.
  pose proof (num_days_from_sunday_range w) as Ht. fold tgt in Ht.
  set (n := if _ =? 0 then 7 else _).
  assert (1 <= n <= 7 /\ (cur + n) mod 7 = tgt /\ forall k, 1 <= k < n -> (cur + k) mod 7 <> tgt) as (Hn & Htgt & Hmin).
  { subst n. destruct (Z.eqb_spec ((tgt + 7 - cur) mod 7) 0); Z.div_mod_to_equations; split_and!; try intros k Hk; 
      Z.div_mod_to_equations; lia. }
  destruct (add_week_some ndt.(date) n) as (D' & HD' & _); [lia..|]. rewrite HD'.
  eexists _, n. split; [done|]. cbn [date time]. split_and!; [lia..|done|done| |].
  - apply num_days_from_sunday_inj. by rewrite (weekday_shift _ _ _ HD').
  - intros k E Hk HE Hbad. apply (Hmin k Hk). subst tgt cur. rewrite <- (weekday_shift _ _ _ HE). by rewrite Hbad.
Qed.

(** [prev_day] returns the last day before the given one that falls on the named weekday, for
    every weekday but Sunday. *)
Theorem prev_day_correct (ndt : NaiveDateTime) (w : Weekday) (dow : string) :
  w <> Sun -> String.prefix (abbr w) dow = true -> min_year < year ndt.(date) ->
  exists r n, prev_day ndt dow = Ok r /\ 1 <= n <= 7 /\ checked_add_days ndt.(date) (- n) = Some r.(date) /\
    r.(time) = ndt.(time) /\ weekday r.(date) = w /\
    forall k D', 1 <= k < n -> checked_add_days ndt.(date) (- k) = Some D' -> weekday D' <> w.
Proof.
  intros Hs Hw Hy. rewrite (prev_day_eval _ w) by done. cbn zeta. unfold add_duration_days.
  set (cur := num_days_from_sunday (weekday ndt.(date))). set (tgt := num_days_from_sunday w).
  pose proof (num_days_from_sunday_range (weekday ndt.(date))) as Hc. fold cur in Hc.
  pose proof (num_days_from_sunday_range w) as Ht. fold tgt in Ht.
  set (n := if _ =? 0 then 7 else _).
  assert (1 <= n <= 7 /\ (cur + - n) mod 7 = tgt /\ forall k, 1 <= k < n -> (cur + - k) mod 7 <> tgt) as (Hn & Htgt & Hmin).
  { subst n. destruct (Z.eqb_spec ((cur + 7 - tgt) mod 7) 0); Z.div_mod_to_equations; split_and!; try intros k Hk; 
      Z.div_mod_to_equations; lia. }
  destruct (sub_week_some ndt.(date) n) as (D' & HD' & _); [lia..|]. rewrite HD'.
  eexists _, n. split; [done|]. cbn [date time]. split_and!; [lia..|done|done| |].
  - apply num_days_from_sunday_inj. by rewrite (weekday_shift _ _ _ HD').
  - intros k E Hk HE Hbad. apply (Hmin k Hk). subst tgt cur. rewrite <- (weekday_shift _ _ _ HE). by rewrite Hbad.
Qed.

(** [prev_day] has no case for Sunday: every date and every text that names Sunday is an error,
    where [next_day] accepts it. *)
Theorem prev_day_no_sunday (ndt : NaiveDateTime) (dow : string) :
  String.prefix "su" dow = true ->
  prev_day ndt dow = Err (ExecErr (append "Invalid day of week: " dow)) /\
  (year ndt.(date) < max_year -> is_ok (next_day ndt dow) = true).
Proof.
  intros H. split.
  - apply prefix_two in H as [r ->]. reflexivity.
  - intros Hy. rewrite (next_day_eval _ Sun) by done. cbn zeta. unfold add_duration_days. set (n := if _ =? 0 then 7 else _).
    assert (0 <= n <= 31) as Hn.
    { subst n. case_match; [lia|]. pose proof (Z.mod_pos_bound (num_days_from_sunday Sun + 7 - num_days_from_sunday (weekday ndt.(date))) 7). lia. }
    destruct (add_week_some ndt.(date) n Hy Hn) as (D' & -> & _). done.
Qed.

(** *** The last day of a period *)

(** The first day of a week is Monday for a [week_start] of 0 or 1, Tuesday for 2, and so on. *)
Definition week_first_day (week_start : Z) : Z := if week_start =? 0 then 0 else (week_start - 1) mod 7.

Lemma week_end_offset_spec week_start d :
  0 <= week_start -> 0 <= d < 7 ->
  0 <= week_end_offset week_start d <= 6 /\ (d + week_end_offset week_start d + 1) mod 7 = week_first_day week_start.
Proof.
  intros Hw Hd. unfold week_end_offset, week_first_day.
  assert (0 <= (if week_start =? 0 then 0 else (week_start - 1) mod 7) < 7) as Hn
    by (case_match; [lia|apply Z.mod_pos_bound; lia]).
  set (n := if week_start =? 0 then _ else _) in *. clearbody n. Z.div_mod_to_equations. lia.
Qed.

(** What [LAST_DAY] promises of a date [D] for the four families of parts. *)
Definition last_day_spec (week_start : Z) (part : string) (D : NaiveDate) (r : NaiveDateTime) : Prop :=
  r.(time) = 0 /\
  (str_in part day_parts = true -> r.(date) = D) /\
  (str_in part week_parts = true -> exists n, 0 <= n <= 6 /\ checked_add_days D n = Some r.(date) /\
    (num_days_from_monday r.(date) + 1) mod 7 = week_first_day week_start) /\
  (str_in part month_parts = true -> year r.(date) = year D /\ month r.(date) = month D /\
    day r.(date) = days_in_month (year D) (month D)) /\
  (str_in part year_parts = true -> year r.(date) = year D /\ month r.(date) = 12 /\ day r.(date) = 31).

Lemma str_in_elem s l : str_in s l = true <-> s ∈ l.
Proof.
  unfold str_in. rewrite existsb_exists. setoid_rewrite String.eqb_eq. rewrite list_elem_of_In. naive_solver.
Qed.

Lemma last_day_month_case D :
  year D < max_year ->
  exists first last, from_ymd_opt (if month D =? 12 then wrap_i32 (year D + 1) else year D)
      (if month D =? 12 then 1 else month D + 1) 1 = Some first /\
    pred_opt first = Some last /\ year last = year D /\ month last = month D /\
    day last = days_in_month (year D) (month D).
Proof.
  intros Hy. pose proof years_fit as Hf. destruct (date_valid D) as (Hv & Hm & Hd).
  wrap_simpl.
  set (y' := if _ =? 12 then _ + 1 else _). set (m' := if _ =? 12 then 1 else _).
  destruct (from_ymd_some y' m' 1) as [first Hfirst].
  { pose proof (days_in_month_range y' m'). subst y' m'. destruct (Z.eqb_spec (month D) 12); split_and!; lia. }
  destruct (pred_first_of_month (year D) (month D) first) as (last & H1 & H2); [done|lia..|].
  by exists first, last.
Qed.

(** The families of parts are disjoint. *)
Lemma part_families s :
  s ∈ day_parts ++ week_parts ++ month_parts ++ year_parts ->
  (str_in s day_parts, str_in s week_parts, str_in s month_parts, str_in s year_parts)
    ∈ [(true, false, false, false); (false, true, false, false); (false, false, true, false); (false, false, false, true)].
Proof.
  intros H.
  assert (Forall (fun s => bool_decide ((str_in s day_parts, str_in s week_parts, str_in s month_parts, str_in s year_parts)
    ∈ [(true, false, false, false); (false, true, false, false); (false, false, true, false); (false, false, false, true)]) = true)
    (day_parts ++ week_parts ++ month_parts ++ year_parts)) as Hall by (repeat constructor).
  rewrite Forall_forall in Hall. specialize (Hall s (proj1 (list_elem_of_In _ _) H)). by apply bool_decide_eq_true in Hall.
Qed.

(** [last_day] returns the last day of the day, week, month or year of its date, at midnight; a
    week ends the day before the weekday named by [week_start]. *)
Theorem last_day_correct to_lowercase week_start (ndt : NaiveDateTime) (part : string) :
  0 <= week_start -> year ndt.(date) < max_year ->
  to_lowercase part ∈ day_parts ++ week_parts ++ month_parts ++ year_parts ->
  exists r, last_day to_lowercase week_start ndt part = Ok r /\
    last_day_spec week_start (to_lowercase part) ndt.(date) r.
Proof.
  intros Hw Hy Hp%part_families. unfold last_day, last_day_spec. set (D := ndt.(date)) in *.
  rewrite !elem_of_cons, elem_of_nil in Hp.
  destruct Hp as [[= H1 H2 H3 H4]|[[= H1 H2 H3 H4]|[[= H1 H2 H3 H4]|[[= H1 H2 H3 H4]|[]]]]]; rewrite H1, ?H2, ?H3, ?H4.
  - eexists. by split_and!.
  - destruct (week_end_offset_spec week_start (num_days_from_monday D) Hw (weekday_range D)) as (Ho & Hwd).
    destruct (add_week_some D (week_end_offset week_start (num_days_from_monday D))) as (W & HW & _); [lia..|].
    rewrite HW. eexists. split; [done|]. split_and!; try done. intros _.
    exists (week_end_offset week_start (num_days_from_monday D)). split; [done|]. split; [done|].
    cbn [date]. rewrite (weekday_add _ _ _ HW), Zplus_mod_idemp_l. done.
  - destruct (last_day_month_case D Hy) as (first & last & Hfirst & Hlast & HM). exists (mk_datetime last 0).
    split; [|split_and!; try done; intros _; cbn [date]; apply HM].
    destruct (month D =? 12); rewrite Hfirst; simpl; by rewrite Hlast.
  - destruct (from_ymd_some (year D) 12 31) as (Y & HY).
    { assert (days_in_month (year D) 12 = 31) by done. destruct (date_valid D) as (Hv & _ & _). split_and!; lia. }
    rewrite HY. eexists. split; [done|]. split_and!; try done. intros _. by apply from_ymd_fields in HY.
Qed.
End theorems.

(** *** [DATEDIFF] *)

(** The multiples of [c] after [a] up to [b]. *)
Definition boundaries (c a b : Z) : nat := length (filter (fun x => x mod c = 0) (seqZ (a + 1) (b - a))).

(** The number of boundaries crossed from [a] to [b], negative when [b] is before [a]. *)
Definition crossed (c a b : Z) : Z :=
  if a <=? b then Z.of_nat (boundaries c a b) else - Z.of_nat (boundaries c b a).

Lemma div_succ c x : 0 < c -> (x + 1) / c = x / c + (if decide ((x + 1) mod c = 0) then 1 else 0).
Proof.
  intros Hc. pose proof (Z_div_mod_eq_full (x + 1) c) as H1. pose proof (Z_div_mod_eq_full x c) as H2.
  pose proof (Z.mod_pos_bound (x + 1) c Hc). pose proof (Z.mod_pos_bound x c Hc).
  destruct (decide _) as [E|E]; nia.
Qed.

Lemma boundaries_div c a n : 0 < c -> 0 <= n -> Z.of_nat (boundaries c a (a + n)) = (a + n) / c - a / c.
Proof.
  intros Hc Hn. unfold boundaries. replace (a + n - a) with n by lia. revert a. pattern n.
  apply natlike_ind; [| |done].
  - intros a. rewrite seqZ_nil by lia. simpl. rewrite Z.add_0_r. lia.
  - intros k Hk IH a. rewrite seqZ_cons by lia. rewrite filter_cons. replace (Z.pred (Z.succ k)) with k by lia.
    replace (Z.succ (a + 1)) with ((a + 1) + 1) by lia. replace (a + Z.succ k) with ((a + 1) + k) by lia.
    specialize (IH (a + 1)). pose proof (div_succ c a Hc) as Hs.
    destruct (decide ((a + 1) mod c = 0)); cbn [length]; lia.
Qed.

Lemma crossed_div c a b : 0 < c -> crossed c a b = b / c - a / c.
Proof.
  intros Hc. unfold crossed. destruct (Z.leb_spec a b).
  - pose proof (boundaries_div c a (b - a) Hc) as H1. replace (a + (b - a)) with b in H1 by lia. apply H1. lia.
  - pose proof (boundaries_div c b (a - b) Hc) as H1. replace (b + (a - b)) with a in H1 by lia. rewrite H1 by lia. lia.
Qed.

(** The length of a unit in nanoseconds, for the units of fixed length above a nanosecond. *)
Definition unit_nanos (u : DatePart) : option Z :=
  match u with
  | Day | DayOfYear => Some (86400 * SECOND)
  | Hour => Some (3600 * SECOND)
  | Minute => Some (60 * SECOND)
  | Second => Some SECOND
  | Millisecond => Some 1000000
  | Microsecond => Some 1000
  | _ => None
  end.

Definition is_i64 (o : option Z) : Prop := match o with Some a => in_i64 a = true | None => True end.

(** A row of a difference: null when an operand is null. *)
Definition diff_row (f : Z -> Z -> Z) (p : option Z * option Z) : option Z :=
  match p with (Some a, Some b) => Some (f a b) | _ => None end.

Lemma zip_rows_total (f : Z -> Z -> result dt_error Z) (g : Z -> Z -> Z) (lhs rhs : list (option Z)) :
  (forall a b, Some a ∈ lhs -> Some b ∈ rhs -> f a b = Ok (g a b)) ->
  zip_rows f lhs rhs = Ok (diff_row g <$> zip lhs rhs).
Proof.
  intros H. unfold zip_rows. apply traverse_Ok.
  rewrite Forall2_fmap_r. apply Forall_Forall2_diag, Forall_forall. intros [[a|] [b|]] Hin; try done.
  cbn [diff_row]. apply list_elem_of_In in Hin. rewrite H; [done|..].
  - by eapply elem_of_zip_l.
  - by eapply elem_of_zip_r.
Qed.

Lemma div_i64 c a b : 1 < c -> in_i64 a = true -> in_i64 b = true -> in_i64 (b / c - a / c) = true.
Proof.
  unfold in_i64, i64_min, i64_max. intros Hc Ha Hb.
  assert (forall x, -9223372036854775808 <= x <= 9223372036854775807 ->
    -4611686018427387904 <= x / c <= 4611686018427387903) as Hd.
  { intros x Hx. pose proof (Z_div_mod_eq_full x c). pose proof (Z.mod_pos_bound x c). nia. }
  pose proof (Hd a). pose proof (Hd b). lia.
Qed.

Lemma boundary_diff_spec c lhs rhs :
  1 < c -> Forall is_i64 lhs -> Forall is_i64 rhs -> boundary_diff c lhs rhs = Ok (diff_row (crossed c) <$> zip lhs rhs).
Proof.
  intros Hc Hl Hr. apply zip_rows_total. intros a b Ha Hb.
  assert (in_i64 a = true) as H1 by exact (proj1 (Forall_forall _ _) Hl (Some a) (proj1 (list_elem_of_In _ _) Ha)).
  assert (in_i64 b = true) as H2 by exact (proj1 (Forall_forall _ _) Hr (Some b) (proj1 (list_elem_of_In _ _) Hb)).
  rewrite crossed_div by lia. unfold div_euclid. by rewrite wrap_i64_id by (apply div_i64; done).
Qed.

(** For a day and every smaller unit above the nanosecond, [DATEDIFF] counts the boundaries of
    the unit between its two timestamps, negatively when they are in reverse order, without
    overflow; a null operand gives null. *)
Theorem boundary_diff_counts date_part week_start (part : string) (u : DatePart) (c : Z) (lhs rhs : list (option Z)) :
  date_diff_part part = Ok u -> unit_nanos u = Some c -> Forall is_i64 lhs -> Forall is_i64 rhs -> length lhs = length rhs ->
  date_diff_invoke date_part week_start false (Some part) (Array lhs) (Array rhs)
    = Ok (diff_row (crossed c) <$> zip lhs rhs).
Proof.
  intros Hp Hu Hl Hr _. cbn [date_diff_invoke broadcast_to_len]. rewrite Hp. cbn [result_bind].
  unfold date_diff_func. destruct u; simplify_eq/=; apply boundary_diff_spec; (done || (unfold SECOND; lia)).
Qed.

(** *** Months, quarters and weeks *)
Section calendar_diff.
Context `{C : Chrono} {L : ChronoLaws}.
Variable date_part : DatePart -> Z -> Z.
Variable from_timestamp_nanos : Z -> NaiveDateTime.

(** What Arrow documents of [date_part]. *)
Hypothesis date_part_year : forall ts, date_part Year ts = year (from_timestamp_nanos ts).(date).
Hypothesis date_part_month : forall ts, date_part Month ts = month (from_timestamp_nanos ts).(date).
Hypothesis date_part_quarter : forall ts, date_part Quarter ts = (month (from_timestamp_nanos ts).(date) - 1) / 3 + 1.

Lemma month_diff_spec week_start a b :
  date_diff_func date_part week_start false [Some a] [Some b] Month =
    Ok [Some (month_index (from_timestamp_nanos b).(date) - month_index (from_timestamp_nanos a).(date))].
Proof.
  pose proof years_fit as Hf. destruct (date_valid (from_timestamp_nanos a).(date)) as (Ya & Ma & _).
  destruct (date_valid (from_timestamp_nanos b).(date)) as (Yb & Mb & _).
  assert (forall z, -100000000 <= z <= 100000000 -> in_i32 z = true) as H32
    by (intros; solve_range).
  unfold date_diff_func, zip_rows, sub_i32. cbn [zip zip_with traverse]. rewrite !date_part_month, !date_part_year.
  rewrite !H32 by lia. cbn [result_bind result_map]. rewrite !wrap_i32_id by (rewrite ?wrap_i32_id; apply H32; lia).
  unfold month_index. do 3 f_equal. lia.
Qed.

(** [DATEDIFF(month, d, ADD_MONTHS(d, n))] is [n]. *)
Theorem month_diff_add_months week_start (a b n : Z) :
  year (from_timestamp_nanos a).(date) < max_year ->
  0 <= month_index (from_timestamp_nanos a).(date) + n < 12 * max_year ->
  add_months (from_timestamp_nanos a) n = Some (from_timestamp_nanos b) ->
  date_diff_invoke date_part week_start false (Some "month") (Scalar (Some a)) (Scalar (Some b)) = Ok [Some n].
Proof.
  intros Hy Hn Hadd. unfold date_diff_invoke. cbn [broadcast_to_len replicate]. change (date_diff_part "month") with (@Ok dt_error _ Month).
  cbn [result_bind]. rewrite month_diff_spec. do 3 f_equal. pose proof years_fit as Hf.
  destruct (add_months_spec (from_timestamp_nanos a) n) as (dt' & H1 & H2 & _); [lia|lia| | |].
  - solve_range.
  - apply Z.div_lt_upper_bound; lia.
  - simplify_eq. lia.
Qed.

(** [DATEDIFF(quarter, ...)] subtracts the quarters of the two years and ignores the years: whatever
    the dates, the result lies between -3 and 3, and two dates of the same month of different years
    are no quarter apart. *)
Theorem quarter_diff_bounded week_start (a b : Z) :
  exists q, date_diff_invoke date_part week_start false (Some "quarter") (Scalar (Some a)) (Scalar (Some b)) = Ok [Some q] /\
    -3 <= q <= 3 /\
    (month (from_timestamp_nanos a).(date) = month (from_timestamp_nanos b).(date) -> q = 0).
Proof.
  exists ((month (from_timestamp_nanos b).(date) - 1) / 3 - (month (from_timestamp_nanos a).(date) - 1) / 3).
  destruct (date_valid (from_timestamp_nanos a).(date)) as (_ & Ma & _).
  destruct (date_valid (from_timestamp_nanos b).(date)) as (_ & Mb & _).
  assert (0 <= (month (from_timestamp_nanos a).(date) - 1) / 3 <= 3) as Ha by (Z.div_mod_to_equations; lia).
  assert (0 <= (month (from_timestamp_nanos b).(date) - 1) / 3 <= 3) as Hb by (Z.div_mod_to_equations; lia).
  split_and!; [|lia|lia|intros ->; lia].
  unfold date_diff_invoke. cbn [broadcast_to_len replicate]. change (date_diff_part "quarter") with (@Ok dt_error _ Quarter).
  unfold date_diff_func, zip_rows, sub_i32. cbn [zip zip_with traverse result_bind]. rewrite !date_part_quarter.
  replace (in_i32 _) with true by solve_range. cbn [result_bind result_map]. do 3 f_equal. lia.
Qed.
End calendar_diff.

(** [DATEDIFF(week, ...)] is a function of the elapsed time alone: under the default session
    setting it is the number of started weeks of the elapsed whole days, whichever boundaries lie between, and
    zero when the second timestamp is the earlier one. *)
Theorem week_diff_elapsed date_part (a b : Z) :
  in_i64 (b - a) = true ->
  date_diff_invoke date_part 0 false (Some "week") (Scalar (Some a)) (Scalar (Some b))
    = Ok [Some (if b <? a then 0 else ((b - a) / (86400 * SECOND) + 6) / 7)].
Proof.
  intros Hd. unfold date_diff_invoke. cbn [broadcast_to_len replicate]. change (date_diff_part "week") with (@Ok dt_error _ Week).
  unfold date_diff_func, weeks_diff, zip_rows, sub_i64. cbn [zip zip_with traverse result_bind]. rewrite Hd. cbn [result_map result_bind].
  do 3 f_equal. unfold weeks_of, div_euclid, rem_euclid. change (86400 * SECOND) with 86400000000000.
  set (ns := b - a). assert ((b <? a) = (ns <? 0)) as -> by (subst ns; lia). clearbody ns.
  set (days := ns / 86400000000000). assert ((ns <? 0) = (days <? 0)) as -> by (subst days; Z.div_mod_to_equations; lia).
  clearbody days. destruct (Z.ltb_spec days 0); [done|]. simpl. rewrite orb_false_r.
  destruct (Z.ltb_spec 0 (days mod 7)); Z.div_mod_to_equations; lia.
Qed.

(** *** [DATEADD] *)

(** A [DATEADD] of years, months or days whose number of units does not fit in 32
    bits, or is null, adds an empty interval: the dates come back unchanged, without an error. *)
Theorem date_add_overflow_is_noop add_wrapping (part : string) (values dates : list (option Z)) :
  (forall d, add_wrapping d (interval_ym 0 0) = Ok d) -> (forall d, add_wrapping d (interval_dt 0 0) = Ok d) ->
  part ∈ year_parts ++ month_parts ++ day_parts ->
  Forall (fun v => match v with Some n => in_i64 n = true /\ in_i32 n = false | None => True end) values ->
  length values = length dates ->
  date_add_invoke add_wrapping (Some part) values dates = Ok dates.
Proof.
  intros Hym Hdt Hp Hv Hlen.
  assert (exists f z, date_add_part part = Ok f /\ (z = interval_ym 0 0 \/ z = interval_dt 0 0) /\
    (f = year_interval \/ f = month_interval 1 \/ f = day_interval 1) /\ f None = z) as (f & z & Hf & Hz & Hsh & Hfz).
  { apply elem_of_app in Hp as [Hp|[Hp|Hp]%elem_of_app]; unfold year_parts, month_parts, day_parts in Hp;
      repeat (apply elem_of_cons in Hp as [->|Hp]; [eexists _, _; split; [reflexivity|]; split; [|split; [|reflexivity]];
        [(left; reflexivity) || (right; reflexivity)|eauto]|]); by apply elem_of_nil in Hp. }
  assert (Forall (fun v => f v = z) values) as Hall.
  { rewrite Forall_forall in Hv |- *. intros v Hin. specialize (Hv v Hin). rename Hv into Hn. destruct v as [n|]; [|by rewrite <- Hfz]. destruct Hn as [H64 H32]. subst z.
    destruct Hsh as [->|[->| ->]]; unfold year_interval, month_interval, day_interval; cbn [default];
      rewrite ?Z.mul_1_r, ?wrap_i64_id by done; unfold i32_or_zero; cbn [id]; rewrite H32; reflexivity. }
  unfold date_add_invoke. rewrite Hf. cbn [result_bind]. destruct (decide (dates = [])) as [->|_]; [done|].
  unfold add_intervals. apply traverse_Ok. clear Hv Hf. revert dates Hlen. induction Hall as [|v values Hv' Hvs IH]; intros [|d dates] Hlen; try done.
  cbn [fmap list_fmap zip zip_with]. constructor; [|apply IH; by injection Hlen].
  rewrite Hv'. destruct d as [d|]; [|done]. destruct Hz as [-> | ->]; [by rewrite Hym|by rewrite Hdt].
Qed.

(** [DATEADD] recognises only the lower-case spelling of a part, where [DATEDIFF] and the return type of
    [DATEADD] itself fold the case. *)
Theorem date_add_part_case (part : string) :
  to_ascii_lowercase part <> part ->
  date_add_part part = Err (InvalidArgument "Invalid date_or_time_part type") /\
  date_diff_part part = date_diff_part (to_ascii_lowercase part).
Proof.
  intros Hne. split; [|unfold date_diff_part; by rewrite to_ascii_lowercase_idem].
  assert (forall l, Forall (fun s => is_lower s = true) l -> str_in part l = false) as Hno.
  { intros l Hl. destruct (str_in part l) eqn:E; [|done]. apply str_in_elem in E. rewrite Forall_forall in Hl.
    apply list_elem_of_In, Hl, is_lower_spec in E. done. }
  unfold date_add_part. rewrite !Hno by (repeat constructor). done.
Qed.

(** ** Witnesses *)
Module DateTimeExamples.
Import Gregorian.

Definition epoch : date := default (exist _ (1970, 1, 1) eq_refl) (mk 1970 1 1).
Definition from_ts (ts : Z) : NaiveDateTime (C := chrono) :=
  mk_datetime (C := chrono) (default epoch (add_days epoch (ts / 86400000000000))) (ts mod 86400000000000).
Definition part_of (u : DatePart) (ts : Z) : Z :=
  let D : NaiveDate (Chrono := chrono) := DateTime.date (from_ts ts) in
  match u with
  | Year => year D
  | Month => month D
  | Quarter => (month D - 1) / 3 + 1
  | _ => 0
  end.

(** The last of January 1970, at noon. *)
Definition jan31 : NaiveDateTime (C := chrono) := from_ts (30 * 86400000000000 + 43200000000000).

Definition fields (dt : NaiveDateTime (C := chrono)) : Z * Z * Z * Z :=
  (y_of (DateTime.date dt), m_of (DateTime.date dt), d_of (DateTime.date dt), time dt).

Lemma fields_ext o dt : fields <$> o = Some (fields dt) -> o = Some dt.
Proof.
  destruct o as [[D t]|], dt as [D' t']; [|done]. unfold fields. cbn [fmap option_fmap option_map DateTime.date time].
  intros H. injection H as H1 H2 H3 ->. do 2 f_equal. by apply (date_eq (C := chrono)).
Qed.

Lemma add_months_correct_witness :
  exists dt', add_months jan31 1 = Some dt' /\ month_index (DateTime.date dt') = month_index (DateTime.date jan31) + 1 /\
    time dt' = time jan31.
Proof.
  destruct (add_months_correct jan31 1) as (dt' & H1 & H2 & _ & H4); [by vm_compute..|]. exists dt'. split_and!; assumption.
Defined.

Lemma add_months_example : day ∘ DateTime.date <$> add_months jan31 1 = Some 28.
Proof. vm_compute. reflexivity. Qed.

Lemma next_day_correct_witness : exists r, next_day jan31 "friday" = Ok r /\ weekday (DateTime.date r) = Fri.
Proof.
  destruct (next_day_correct jan31 Fri "friday") as (r & n & H1 & _ & _ & _ & H2 & _); [by vm_compute..|]. exists r. split; [exact H1|exact H2].
Defined.

Lemma prev_day_correct_witness : exists r, prev_day jan31 "friday" = Ok r /\ weekday (DateTime.date r) = Fri.
Proof.
  destruct (prev_day_correct jan31 Fri "friday") as (r & n & H1 & _ & _ & _ & H2 & _); [by vm_compute..|]. exists r. split; [exact H1|exact H2].
Defined.

Lemma prev_day_no_sunday_witness :
  prev_day jan31 "sunday" = Err (ExecErr "Invalid day of week: sunday") /\ is_ok (next_day jan31 "sunday") = true.
Proof.
  destruct (prev_day_no_sunday jan31 "sunday") as [H1 H2]; [reflexivity|]. split; [exact H1|]. apply H2. by vm_compute.
Defined.

Lemma last_day_correct_witness :
  exists r, last_day to_ascii_lowercase 0 jan31 "Week" = Ok r /\ last_day_spec 0 "week" (DateTime.date jan31) r.
Proof.
  apply (last_day_correct to_ascii_lowercase 0 jan31 "Week"); [lia|by vm_compute|]. apply str_in_elem. reflexivity.
Defined.

Lemma boundary_diff_counts_witness :
  date_diff_invoke part_of 0 false (Some "HOUR") (Array [Some 3599999999999; None]) (Array [Some 3600000000000; Some 0])
    = Ok [Some 1; None].
Proof.
  rewrite (boundary_diff_counts part_of 0 "HOUR" Hour 3600000000000); [|reflexivity..|by repeat constructor|by repeat constructor|done].
  reflexivity.
Defined.

Lemma month_diff_add_months_witness :
  date_diff_invoke part_of 0 false (Some "month") (Scalar (Some 2635200000000000)) (Scalar (Some 5054400000000000)) = Ok [Some 1].
Proof.
  apply (month_diff_add_months part_of from_ts (fun ts => eq_refl) (fun ts => eq_refl)).
  - vm_compute. reflexivity.
  - vm_compute. split; [discriminate|reflexivity].
  - apply fields_ext. vm_compute. reflexivity.
Defined.

Lemma quarter_diff_bounded_witness :
  exists q, date_diff_invoke part_of 0 false (Some "quarter") (Scalar (Some 0)) (Scalar (Some 31536000000000000)) = Ok [Some q] /\ q = 0.
Proof.
  destruct (quarter_diff_bounded part_of from_ts (fun ts => eq_refl) 0 0 31536000000000000) as (q & H1 & _ & H2).
  exists q. split; [exact H1|]. apply H2. vm_compute. reflexivity.
Defined.

Lemma week_diff_elapsed_witness :
  date_diff_invoke part_of 0 false (Some "week") (Scalar (Some 86400000000000)) (Scalar (Some 0)) = Ok [Some 0].
Proof. rewrite (week_diff_elapsed part_of 86400000000000 0); reflexivity. Defined.

Lemma date_add_overflow_is_noop_witness :
  date_add_invoke (fun d i => match i with interval_ym y m => Ok (d + 12 * y + m) | interval_dt n _ => Ok (d + n) | _ => Err ComputeError end)
    (Some "day") [Some 3000000000; None] [Some 5; Some 6] = Ok [Some 5; Some 6].
Proof.
  apply date_add_overflow_is_noop; [intros d; f_equal; lia|intros d; f_equal; lia| |by repeat constructor|done].
  apply str_in_elem. reflexivity.
Defined.

Lemma date_add_part_case_witness : date_add_part "DAY" = Err (InvalidArgument "Invalid date_or_time_part type").
Proof. exact (proj1 (date_add_part_case "DAY" ltac:(discriminate))). Defined.
End DateTimeExamples.
