(* ===== verification/Ordering.v ===== *)
(** * Orders and sorting

    The orders of [std::cmp] the functions sort and compare by: floats ([partial_cmp] on binary64
    data), booleans, strings; and [slice::sort_by], a stable sort, with the proof that it sorts for
    every comparison that is a total preorder. *)

From Stdlib Require Import ZArith Lia Ascii String SpecFloat.
From stdpp Require Import base option list strings sorting.
From S2P Require Import Prelude.

Open Scope Z_scope.

(** ** Comparisons that are total preorders *)

(** [a] is not after [b]. *)
Definition cmp_le {A} (cmp : A -> A -> comparison) (a b : A) : Prop := cmp a b <> Gt.

#[global] Instance cmp_le_dec {A} (cmp : A -> A -> comparison) : RelDecision (cmp_le cmp).
Proof. intros a b. unfold cmp_le. destruct (cmp a b); (left; congruence) || (right; congruence). Defined.

(** The laws of [Ord::cmp], on the values that satisfy [P]. *)
Class TotalPreorderOn {A} (P : A -> Prop) (cmp : A -> A -> comparison) : Prop := {
  cmp_antisym : forall a b, P a -> P b -> cmp b a = CompOpp (cmp a b);
  cmp_trans : forall a b c, P a -> P b -> P c -> cmp_le cmp a b -> cmp_le cmp b c -> cmp_le cmp a c
}.

Arguments cmp_antisym {A} P cmp {_} a b.
Arguments cmp_trans {A} P cmp {_} a b c.

Lemma cmp_total {A} (P : A -> Prop) cmp `{!TotalPreorderOn P cmp} a b : P a -> P b -> cmp_le cmp a b \/ cmp_le cmp b a.
Proof.
  intros Ha Hb. unfold cmp_le. rewrite (cmp_antisym P cmp a b) by done. destruct (cmp a b); simpl; auto; left; congruence.
Qed.

(** The reversed order ([Ordering::reverse]). *)
Lemma reverse_preorder {A} (P : A -> Prop) cmp : TotalPreorderOn P cmp -> TotalPreorderOn P (fun a b => CompOpp (cmp a b)).
Proof.
  intros HC. split.
  - intros a b Ha Hb. by rewrite (cmp_antisym P cmp a b).
  - intros a b c Ha Hb Hc H1 H2. unfold cmp_le in *.
    assert (cmp_le cmp b a) as H1'.
    { unfold cmp_le. rewrite (cmp_antisym P cmp a b) by done. by destruct (cmp a b). }
    assert (cmp_le cmp c b) as H2'.
    { unfold cmp_le. rewrite (cmp_antisym P cmp b c) by done. by destruct (cmp b c). }
    pose proof (cmp_trans P cmp c b a Hc Hb Ha H2' H1') as H. unfold cmp_le in H.
    rewrite (cmp_antisym P cmp a c) in H by done. by destruct (cmp a c).
Qed.

(** Comparing keys is a total preorder when comparing the keys' values is. *)
Lemma preorder_by_key {A} (P : A -> Prop) (key : A -> Z * Z * Z) cmp (kcmp : Z * Z * Z -> Z * Z * Z -> comparison) :
  (forall a b, P a -> P b -> cmp a b = kcmp (key a) (key b)) ->
  TotalPreorderOn (fun _ => True) kcmp -> TotalPreorderOn P cmp.
Proof.
  intros Hk HC. split.
  - intros a b Ha Hb. rewrite !Hk by done. by apply (cmp_antisym (fun _ => True) kcmp).
  - intros a b c Ha Hb Hc. unfold cmp_le. rewrite !Hk by done. by apply (cmp_trans (fun _ => True) kcmp).
Qed.

Definition lex_cmp (a b : Z * Z * Z) : comparison :=
  let '(a1, a2, a3) := a in
  let '(b1, b2, b3) := b in
  match a1 ?= b1 with
  | Eq => match a2 ?= b2 with Eq => a3 ?= b3 | c => c end
  | c => c
  end.

#[global] Instance lex_preorder : TotalPreorderOn (fun _ => True) lex_cmp.
Proof.
  split.
  - intros [[a1 a2] a3] [[b1 b2] b3] _ _. simpl.
    rewrite (Z.compare_antisym a1 b1), (Z.compare_antisym a2 b2), (Z.compare_antisym a3 b3).
    by destruct (a1 ?= b1), (a2 ?= b2), (a3 ?= b3).
  - intros [[a1 a2] a3] [[b1 b2] b3] [[c1 c2] c3] _ _ _. unfold cmp_le. simpl.
    destruct (Z.compare_spec a1 b1), (Z.compare_spec b1 c1), (Z.compare_spec a1 c1); try lia; try done;
      destruct (Z.compare_spec a2 b2), (Z.compare_spec b2 c2), (Z.compare_spec a2 c2); try lia; try done;
      intros Hab%Z.compare_ngt_iff Hbc%Z.compare_ngt_iff; apply Z.compare_ngt_iff; lia.
Qed.

(** ** The stable sort *)

Fixpoint insert_sorted {A} (cmp : A -> A -> comparison) (x : A) (l : list A) : list A :=
  match l with
  | [] => [x]
  | y :: l' => match cmp x y with Gt => y :: insert_sorted cmp x l' | _ => x :: l end
  end.

(** [slice::sort_by]. *)
Definition sort_by {A} (cmp : A -> A -> comparison) (l : list A) : list A := foldr (insert_sorted cmp) [] l.

Lemma insert_sorted_Permutation {A} (cmp : A -> A -> comparison) x l : insert_sorted cmp x l ≡ₚ x :: l.
Proof.
  induction l as [|y l IH]; simpl; [done|]. destruct (cmp x y); [done..|]. rewrite IH. by constructor.
Qed.

Lemma sort_by_Permutation {A} (cmp : A -> A -> comparison) l : sort_by cmp l ≡ₚ l.
Proof. induction l as [|x l IH]; simpl; [done|]. by rewrite insert_sorted_Permutation, IH. Qed.

Lemma cmp_le_Forall {A} (P : A -> Prop) cmp `{!TotalPreorderOn P cmp} x y l :
  P x -> P y -> Forall P l -> cmp_le cmp x y -> Forall (cmp_le cmp y) l -> Forall (cmp_le cmp x) l.
Proof.
  intros Px Py Hl Hxy. induction Hl as [|z l Pz Hl IH]; [done|]. intros [Hz Hy]%Forall_cons.
  constructor; [|by apply IH]. by apply (cmp_trans P cmp x y z).
Qed.

Lemma insert_sorted_Sorted {A} (P : A -> Prop) cmp `{!TotalPreorderOn P cmp} x l :
  P x -> Forall P l -> StronglySorted (cmp_le cmp) l -> StronglySorted (cmp_le cmp) (insert_sorted cmp x l).
Proof.
  intros Hx Hl Hs. induction Hs as [|y l Hs IH Hy]; simpl; [by repeat constructor|].
  apply Forall_cons in Hl as [Py Hl].
  assert (cmp x y <> Gt -> StronglySorted (cmp_le cmp) (x :: y :: l)) as Hle.
  { intros Hxy. constructor; [by constructor|]. constructor; [done|]. by apply (cmp_le_Forall P cmp x y). }
  destruct (cmp x y) eqn:E; [by apply Hle..|].
  constructor; [by apply IH|]. rewrite insert_sorted_Permutation. constructor; [|done].
  unfold cmp_le. rewrite (cmp_antisym P cmp x y) by done. by rewrite E.
Qed.

Lemma sort_by_Sorted {A} (P : A -> Prop) cmp `{!TotalPreorderOn P cmp} l :
  Forall P l -> StronglySorted (cmp_le cmp) (sort_by cmp l).
Proof.
  intros H. induction H as [|x l Hx Hl IH]; simpl; [constructor|].
  refine (insert_sorted_Sorted P cmp x _ Hx _ IH). by rewrite sort_by_Permutation.
Qed.

(** Elements that compare equal keep their order. *)
Lemma insert_sorted_stable {A} (cmp : A -> A -> comparison) (p : A -> bool) x l :
  (forall a b, p a = true -> p b = true -> cmp a b = Eq) ->
  List.filter p (insert_sorted cmp x l) = List.filter p (x :: l).
Proof.
  intros Hp. induction l as [|y l IH]; simpl; [done|]. destruct (cmp x y) eqn:E; try done.
  simpl. rewrite IH. simpl. destruct (p y) eqn:Py, (p x) eqn:Px; try done.
  rewrite (Hp x y Px Py) in E. done.
Qed.

Lemma sort_by_stable {A} (cmp : A -> A -> comparison) (p : A -> bool) l :
  (forall a b, p a = true -> p b = true -> cmp a b = Eq) -> List.filter p (sort_by cmp l) = List.filter p l.
Proof.
  intros Hp. induction l as [|x l IH]; [done|]. cbn [sort_by foldr].
  rewrite insert_sorted_stable by done. simpl. fold (sort_by cmp l). by rewrite IH.
Qed.

(** ** Floats *)

Definition is_nan (f : spec_float) : bool := match f with S754_nan => true | _ => false end.

(** [partial_cmp], equal when one is NaN. *)
Definition f64_cmp (a b : spec_float) : comparison := match SFcompare a b with Some c => c | None => Eq end.

(** The order of floats: by sign, exponent and significand. *)
Definition f64_key (f : spec_float) : Z * Z * Z :=
  match f with
  | S754_infinity true => (-2, 0, 0)
  | S754_finite true m e => (-1, - e, - Z.pos m)
  | S754_zero _ | S754_nan => (0, 0, 0)
  | S754_finite false m e => (1, e, Z.pos m)
  | S754_infinity false => (2, 0, 0)
  end.

Lemma f64_cmp_key a b : is_nan a = false -> is_nan b = false -> f64_cmp a b = lex_cmp (f64_key a) (f64_key b).
Proof.
  intros Ha Hb. unfold f64_cmp.
  destruct a as [?|[]| |[] m e], b as [?|[]| |[] m' e']; try done; simpl.
  rewrite Z.compare_opp, (Z.compare_antisym e e'). by destruct (e ?= e').
Qed.

#[global] Instance f64_preorder : TotalPreorderOn (fun f => is_nan f = false) f64_cmp.
Proof. apply (preorder_by_key _ f64_key _ lex_cmp); [apply f64_cmp_key|apply _]. Qed.

(** *** Integers converted to floats are numbers *)

Lemma iter_shr_nonneg p mrs : 0 <= shr_m mrs -> 0 <= shr_m (SpecFloat.iter_pos shr_1 p mrs).
Proof.
  assert (forall mrs, 0 <= shr_m mrs -> 0 <= shr_m (shr_1 mrs)) as H1.
  { intros [[|[]|] r s]; simpl; intros; try lia. }
  revert mrs. induction p; intros mrs Hm; simpl; auto.
Qed.

Lemma shr_nonneg prec emax m e l : 0 <= m -> 0 <= shr_m (fst (shr_fexp prec emax m e l)).
Proof.
  intros Hm. unfold shr_fexp, shr. destruct (_ - e); simpl; try (by destruct l as [|[]]).
  apply iter_shr_nonneg. by destruct l as [|[]].
Qed.

Lemma round_aux_not_nan prec emax s m e l : 0 <= m -> is_nan (binary_round_aux prec emax s m e l) = false.
Proof.
  intros Hm. unfold binary_round_aux.
  pose proof (shr_nonneg prec emax m e l Hm) as H1. destruct (shr_fexp prec emax m e l) as [mrs' e'].
  assert (0 <= round_nearest_even (shr_m mrs') (loc_of_shr_record mrs')) as H2.
  { simpl in H1. destruct (loc_of_shr_record mrs') as [|[]]; simpl; try lia. destruct (Z.even _); lia. }
  pose proof (shr_nonneg prec emax _ e' loc_Exact H2) as H3.
  destruct (shr_fexp _ _ _ e' loc_Exact) as [mrs'' e'']. simpl in H3.
  destruct (shr_m mrs''); try done. by destruct (_ <=? _).
Qed.

Lemma normalize_not_nan prec emax m e s : is_nan (binary_normalize prec emax m e s) = false.
Proof.
  unfold binary_normalize, binary_round. destruct m; [done|..]; destruct (shl_align _ _ _); by apply round_aux_not_nan.
Qed.

(** ** Booleans and strings *)

Definition bool_cmp (a b : bool) : comparison :=
  match a, b with false, true => Lt | true, false => Gt | _, _ => Eq end.

(** [Ord for str], byte by byte. *)
Definition str_cmp (a b : string) : comparison := String.compare a b.

Lemma str_cmp_le a b : cmp_le str_cmp a b <-> str_le a b.
Proof. unfold cmp_le, str_cmp, str_le, str_leb, String.leb. destruct (String.compare a b); split; congruence. Qed.

#[global] Instance str_preorder : TotalPreorderOn (fun _ => True) str_cmp.
Proof.
  split.
  - intros a b _ _. unfold str_cmp. apply String.compare_antisym.
  - intros a b c _ _ _. rewrite !str_cmp_le. apply str_le_trans.
Qed.

#[global] Instance bool_preorder : TotalPreorderOn (fun _ => True) bool_cmp.
Proof. split; [by intros [] []|]. unfold cmp_le. by intros [] [] []. Qed.
