(* ===== verification/Utf8.v ===== *)
(** * Strings as UTF-8

    What the functions use of Rust's [str]: a string is its bytes; [chars] splits it into characters,
    each a leading byte with its continuation bytes; [str::split], [str::replace],
    [str::trim_end_matches] and [std::str::from_utf8]. *)

From Stdlib Require Import ZArith Lia Ascii String.
From Stdlib.Strings Require Import Byte.
From stdpp Require Import base option list strings.
From S2P Require Import Prelude.

Open Scope string_scope.
Open Scope nat_scope.

#[local] Arguments String.append : simpl nomatch.

Lemma substring_full (t : string) : substring 0 (String.length t) t = t.
Proof. induction t as [|c t IH]; cbn; congruence. Qed.

(** ** Characters *)

(** A byte [10xxxxxx] continues a character. *)
Definition is_continuation (c : ascii) : bool := let n := nat_of_ascii c in (128 <=? n) && (n <? 192).

(** [str::chars], each character as its bytes. *)
Fixpoint chars (s : string) : list string :=
  match s with
  | EmptyString => []
  | String c s' =>
      match s' with
      | String d _ =>
          if is_continuation d then
            match chars s' with ch :: rest => String c ch :: rest | [] => [String c ""] end
          else String c "" :: chars s'
      | EmptyString => [String c ""]
      end
  end.

(** [collect::<String>()] of characters. *)
Fixpoint of_chars (l : list string) : string :=
  match l with [] => "" | ch :: l => ch ++ of_chars l end.

(** The first byte of a valid string is no continuation. *)
Definition starts_char (s : string) : bool :=
  match s with EmptyString => true | String c _ => negb (is_continuation c) end.

(** One character: a leading byte and its continuations. *)
Fixpoint continuations (s : string) : bool :=
  match s with EmptyString => true | String c s => is_continuation c && continuations s end.

Definition is_char (ch : string) : bool :=
  match ch with EmptyString => false | String c s => negb (is_continuation c) && continuations s end.

Lemma chars_cons c s : chars (String c s) =
  match s with
  | String d _ => if is_continuation d then match chars s with ch :: rest => String c ch :: rest | [] => [String c ""] end
                  else String c "" :: chars s
  | EmptyString => [String c ""]
  end.
Proof. reflexivity. Qed.

Lemma chars_nil_inv s : chars s = [] -> s = "".
Proof.
  destruct s as [|c s]; [done|]. rewrite chars_cons. destruct s as [|d s]; [done|].
  destruct (is_continuation d); [|done]. by destruct (chars (String d s)).
Qed.

Lemma of_chars_chars s : of_chars (chars s) = s.
Proof.
  induction s as [|c s IH]; [done|]. rewrite chars_cons. destruct s as [|d s]; [done|].
  destruct (is_continuation d).
  - destruct (chars (String d s)) as [|ch rest] eqn:E; [by apply chars_nil_inv in E|].
    simpl in *. by rewrite IH.
  - change (of_chars (String c "" :: chars (String d s))) with (String c (of_chars (chars (String d s)))). by rewrite IH.
Qed.

Lemma chars_is_char s : starts_char s = true -> Forall (fun ch => is_char ch = true) (chars s).
Proof.
  enough (match chars s with
          | [] => True
          | ch :: rest => Forall (fun ch => is_char ch = true) rest /\
              match s, ch with String c _, String c' ch' => c = c' /\ continuations ch' = true | _, _ => False end
          end) as H.
  { intros Hs. destruct s as [|c s]; [constructor|]. destruct (chars (String c s)) as [|ch rest]; [constructor|].
    destruct H as [Hr Hc]. constructor; [|done]. destruct ch as [|c' ch]; [done|]. destruct Hc as [<- Hc].
    simpl in *. by rewrite Hs, Hc. }
  induction s as [|c s IH]; [done|]. rewrite chars_cons. destruct s as [|d s]; [split; [constructor|done]|].
  destruct (is_continuation d) eqn:Ed; destruct (chars (String d s)) as [|ch rest] eqn:E.
  - by apply chars_nil_inv in E.
  - destruct IH as [Hr Hc]. split; [done|]. destruct ch as [|c' ch]; [done|]. destruct Hc as [<- Hc]. simpl. by rewrite Ed, Hc.
  - split; [constructor|done].
  - destruct IH as [Hr Hc]. destruct ch as [|c' ch]; [done|]. destruct Hc as [<- Hc].
    split; [|done]. constructor; [|done]. simpl. by rewrite Ed, Hc.
Qed.

(** Characters joined are split again into the same characters. *)
Lemma chars_of_chars l : Forall (fun ch => is_char ch = true) l -> chars (of_chars l) = l.
Proof.
  induction 1 as [|ch l Hch Hl IH]; [done|]. cbn [of_chars].
  destruct ch as [|c ch]; [done|]. simpl in Hch. apply andb_true_iff in Hch as [Hc Hch].
  assert (starts_char (of_chars l) = true) as Hs.
  { destruct Hl as [|ch' l Hch' Hl]; [done|]. cbn [of_chars]. destruct ch' as [|c' ch']; [done|].
    simpl in *. by apply andb_true_iff in Hch' as [-> _]. }
  clear Hc. revert c. induction ch as [|d ch IHch]; intros c.
  - change (String c "" ++ of_chars l)%string with (String c (of_chars l)). rewrite chars_cons, IH.
    destruct (of_chars l) as [|e s]; [by rewrite <- IH|]. simpl in Hs. apply negb_true_iff in Hs. by rewrite Hs.
  - simpl in Hch. apply andb_true_iff in Hch as [Hd Hch]. 
    change (String c (String d ch) ++ of_chars l)%string with (String c (String d ch ++ of_chars l)).
    rewrite chars_cons. rewrite IHch by done. change (String d ch ++ of_chars l)%string with (String d (ch ++ of_chars l)).
    cbn match. by rewrite Hd.
Qed.

Lemma of_chars_app l k : of_chars (l ++ k) = (of_chars l ++ of_chars k)%string.
Proof. induction l as [|ch l IH]; [done|]. simpl. by rewrite IH, string_app_assoc. Qed.

(** [str::len] *)
Notation byte_len := String.length.

(** There are at most as many characters as bytes. *)
Lemma chars_length s : length (chars s) <= byte_len s.
Proof.
  induction s as [|c s IH]; [done|]. rewrite chars_cons. destruct s as [|d s]; [done|].
  destruct (is_continuation d); [|cbn [length String.length] in *; lia].
  destruct (chars (String d s)); cbn [length String.length] in *; lia.
Qed.

(** ** Searching *)

(** The rest of [s] after its prefix [p]. *)
Fixpoint strip_prefix (p s : string) : option string :=
  match p, s with
  | EmptyString, _ => Some s
  | String a p, String b s => if Ascii.eqb a b then strip_prefix p s else None
  | String _ _, EmptyString => None
  end.

(** [str::split] by a pattern that is not empty: the text up to the next occurrence, from left to
    right; [skip] counts the bytes of an occurrence still to drop. *)
Fixpoint split_on (pat : string) (skip : nat) (s : string) : list string :=
  match s with
  | EmptyString => [""]
  | String c s' =>
      match skip with
      | S skip => split_on pat skip s'
      | O =>
          match strip_prefix pat s with
          | Some _ => "" :: split_on pat (byte_len pat - 1) s'
          | None =>
              match split_on pat 0 s' with
              | part :: parts => String c part :: parts
              | [] => [String c ""]
              end
          end
      end
  end.

(** The empty pattern matches before every character and at the end. *)
Definition split (s delimiter : string) : list string :=
  match delimiter with
  | EmptyString => "" :: chars s ++ [""]
  | _ => split_on delimiter 0 s
  end.

(** [char::is_whitespace], on the bytes of a character. *)
Definition whitespace_chars : list string :=
  map (fun l => String.string_of_list_byte l)
    [[x09]; [x0a]; [x0b]; [x0c]; [x0d]; [x20]; [xc2; x85]; [xc2; xa0]; [xe1; x9a; x80];
     [xe2; x80; x80]; [xe2; x80; x81]; [xe2; x80; x82]; [xe2; x80; x83]; [xe2; x80; x84]; [xe2; x80; x85];
     [xe2; x80; x86]; [xe2; x80; x87]; [xe2; x80; x88]; [xe2; x80; x89]; [xe2; x80; x8a]; [xe2; x80; xa8];
     [xe2; x80; xa9]; [xe2; x80; xaf]; [xe2; x81; x9f]; [xe3; x80; x80]].

Definition is_whitespace (ch : string) : bool := existsb (String.eqb ch) whitespace_chars.

Fixpoint trim_start_chars (cs : list string) : list string :=
  match cs with ch :: cs' => if is_whitespace ch then trim_start_chars cs' else cs | [] => [] end.

(** [str::trim] *)
Definition trim (s : string) : string :=
  of_chars (reverse (trim_start_chars (reverse (trim_start_chars (chars s))))).

(** [slice::join] *)
Fixpoint join (sep : string) (l : list string) : string :=
  match l with
  | [] => ""
  | [x] => x
  | x :: l => x ++ sep ++ join sep l
  end.

(** [str::replace]: the parts joined by the replacement. *)
Definition replace (s from to : string) : string := join to (split s from).

Lemma split_on_nonnil pat skip s : split_on pat skip s <> [].
Proof.
  revert skip. induction s as [|c s IH]; intros [|skip]; cbn [split_on]; try done.
  destruct (strip_prefix pat (String c s)); [done|]. by destruct (split_on pat 0 s).
Qed.

Lemma strip_prefix_Some p s r : strip_prefix p s = Some r -> s = (p ++ r)%string.
Proof.
  revert s. induction p as [|a p IH]; intros s; simpl; [by intros [= ->]|].
  destruct s as [|b s]; [done|]. destruct (Ascii.eqb_spec a b) as [->|]; [|done]. intros Hs. by rewrite (IH s Hs).
Qed.

(** Dropping the rest of an occurrence leaves the text after it. *)
Lemma split_on_skip pat p s : split_on pat (byte_len p) (p ++ s) = split_on pat 0 s.
Proof.
  induction p as [|c p IH]; [done|]. change (String c p ++ s)%string with (String c (p ++ s)). simpl. apply IH.
Qed.

Lemma join_cons_nonnil sep x l : l <> [] -> join sep (x :: l) = (x ++ sep ++ join sep l)%string.
Proof. by destruct l. Qed.

Lemma join_split_on pat s : pat <> "" -> join pat (split_on pat 0 s) = s.
Proof.
  intros Hpat. remember (byte_len s) as n eqn:Hn. revert s Hn. induction (lt_wf n) as [n _ IH]; intros s Hn.
  destruct s as [|c s]; [done|]. cbn [split_on].
  destruct (strip_prefix pat (String c s)) as [r|] eqn:E.
  - apply strip_prefix_Some in E. destruct pat as [|a p]; [done|]. injection E as <- ->.
    rewrite join_cons_nonnil by apply split_on_nonnil. simpl. rewrite Nat.sub_0_r, split_on_skip.
    simpl in Hn. rewrite (IH (byte_len r)); [done| |done].
    rewrite string_length_app in Hn. lia.
  - pose proof (split_on_nonnil pat 0 s) as Hne. simpl in Hn.
    specialize (IH (byte_len s) ltac:(lia) s eq_refl).
    destruct (split_on pat 0 s) as [|part parts]; [done|]. destruct parts as [|q qs]; simpl in *; by rewrite IH.
Qed.

(** Joining what was split gives the text back. *)
Lemma join_empty l : join "" l = of_chars l.
Proof.
  induction l as [|x l IH]; [done|]. destruct l as [|y l]; [simpl; by rewrite string_app_nil_r|].
  by rewrite join_cons_nonnil, IH.
Qed.

Lemma join_split s delimiter : join delimiter (split s delimiter) = s.
Proof.
  destruct delimiter as [|a p]; [|by apply join_split_on].
  cbn [split]. rewrite join_empty. cbn [of_chars]. rewrite of_chars_app, of_chars_chars. simpl. by rewrite string_app_nil_r.
Qed.

(** [pat] occurs in [s]. *)
Fixpoint contains (pat s : string) : bool :=
  match strip_prefix pat s with
  | Some _ => true
  | None => match s with EmptyString => false | String _ s => contains pat s end
  end.

Lemma strip_prefix_app p s t : strip_prefix p s <> None -> strip_prefix p (s ++ t) <> None.
Proof.
  revert s. induction p as [|a p IH]; intros s; [done|]. destruct s as [|b s]; [done|].
  change (String b s ++ t)%string with (String b (s ++ t)). cbn [strip_prefix].
  destruct (Ascii.eqb a b); [apply IH|done].
Qed.

(** The first part is what the text starts with. *)
Lemma split_on_head pat s part parts : split_on pat 0 s = part :: parts -> exists t, s = (part ++ t)%string.
Proof.
  revert part parts. induction s as [|c s IH]; intros part parts; cbn [split_on].
  - intros [= <- <-]. by exists "".
  - destruct (strip_prefix pat (String c s)); [intros [= <- <-]; by exists (String c s)|].
    destruct (split_on pat 0 s) as [|q qs] eqn:E.
    + by apply split_on_nonnil in E.
    + intros [= <- <-]. destruct (IH q qs eq_refl) as [t ->]. by exists t.
Qed.

Lemma split_on_lacks pat skip s : pat <> "" -> Forall (fun part => contains pat part = false) (split_on pat skip s).
Proof.
  intros Hpat. assert (contains pat "" = false) as He by (by destruct pat).
  revert skip. induction s as [|c s IH]; intros skip; cbn [split_on]; [by repeat constructor|].
  destruct skip as [|skip]; [|apply IH].
  destruct (strip_prefix pat (String c s)) as [r|] eqn:E; [constructor; [done|apply IH]|].
  pose proof (IH 0) as H0. destruct (split_on pat 0 s) as [|part parts] eqn:Es; [by apply split_on_nonnil in Es|].
  apply Forall_cons in H0 as [Hp Hps]. constructor; [|done]. cbn [contains].
  destruct (strip_prefix pat (String c part)) as [r|] eqn:Ep; [|done].
  destruct (split_on_head pat s part parts Es) as [t ->].
  exfalso. apply (strip_prefix_app pat (String c part) t); [by rewrite Ep|]. exact E.
Qed.

(** [str::trim_end_matches] with a character *)
Fixpoint trim_end (c : ascii) (s : string) : string :=
  match s with
  | EmptyString => EmptyString
  | String d s' =>
      match trim_end c s' with
      | EmptyString => if Ascii.eqb d c then EmptyString else String d EmptyString
      | t => String d t
      end
  end.

(** ** [std::str::from_utf8] *)

Definition in_range (lo hi : N) (b : byte) : bool := let n := Byte.to_N b in (lo <=? n)%N && (n <=? hi)%N.
Definition tail_byte : byte -> bool := in_range 128 191.

(** Well-formed byte sequences: no overlong forms, no surrogates, nothing above U+10FFFF. *)
Fixpoint is_utf8 (l : list byte) : bool :=
  match l with
  | [] => true
  | b0 :: l1 =>
      if in_range 0 127 b0 then is_utf8 l1
      else if in_range 194 223 b0 then
        match l1 with b1 :: l2 => tail_byte b1 && is_utf8 l2 | _ => false end
      else if in_range 224 239 b0 then
        match l1 with
        | b1 :: b2 :: l3 =>
            (if in_range 224 224 b0 then in_range 160 191 b1
             else if in_range 237 237 b0 then in_range 128 159 b1 else tail_byte b1)
            && tail_byte b2 && is_utf8 l3
        | _ => false
        end
      else if in_range 240 244 b0 then
        match l1 with
        | b1 :: b2 :: b3 :: l4 =>
            (if in_range 240 240 b0 then in_range 144 191 b1
             else if in_range 244 244 b0 then in_range 128 143 b1 else tail_byte b1)
            && tail_byte b2 && tail_byte b3 && is_utf8 l4
        | _ => false
        end
      else false
  end.

(** A string of the model is its bytes. *)
Definition as_bytes (s : string) : list byte := String.list_byte_of_string s.

Definition from_utf8 (l : list byte) : option string :=
  if is_utf8 l then Some (String.string_of_list_byte l) else None.

(** What every [str] satisfies. *)
Definition valid_str (s : string) : bool := is_utf8 (as_bytes s).

Lemma from_utf8_as_bytes s : valid_str s = true -> from_utf8 (as_bytes s) = Some s.
Proof.
  unfold from_utf8, valid_str, as_bytes. intros ->. by rewrite string_of_list_byte_of_string.
Qed.

Example split_example : split "a,b,,c" "," = ["a"; "b"; ""; "c"].
Proof. reflexivity. Qed.

Example split_overlap : split "aaa" "aa" = [""; "a"].
Proof. reflexivity. Qed.

Example replace_empty : replace "abc" "" "-" = "-a-b-c-".
Proof. reflexivity. Qed.
