(* ===== verification/JsonValue.v ===== *)
(** * JSON values and paths

    The values of [serde_json] as the functions of [functions/src] build and inspect them, and the
    path expressions of [functions/src/json.rs]: [PathToken], [get_json_value] and [tokenize_path].

    [serde_json::Map] keeps the order of insertion (the workspace's lock file resolves
    [serde_json] with [indexmap], its feature [preserve_order]), so an object is an association
    list, and equality of values, which ignores the order of an object's fields, is a relation of
    its own, [value_eqb].  Floats are the binary64 values of [SpecFloat]. *)

From Stdlib Require Import ZArith Lia Ascii String SpecFloat DecimalString DecimalN DecimalZ.
From stdpp Require Import base option list strings.
From S2P Require Import Prelude.

Open Scope string_scope.
Open Scope Z_scope.
Open Scope rust_scope.

#[local] Arguments String.append : simpl nomatch.

(** ** Decimal notation of integers *)

(** [ToString] for an integer. *)
Definition int_to_string (z : Z) : string := NilZero.string_of_int (Z.to_int z).

(** [ToString] for an unsigned integer. *)
Definition nat_to_string (n : nat) : string := NilZero.string_of_uint (N.to_uint (N.of_nat n)).

Definition u64_max : Z := 18446744073709551615.

(** The sign an integer may start with, and its digits. *)
Definition split_sign (s : string) : option ascii * string :=
  match s with
  | String c s' => if Ascii.eqb c "+" || Ascii.eqb c "-" then (Some c, s') else (None, s)
  | EmptyString => (None, s)
  end.

Definition parse_digits (s : string) : option Z :=
  option_map (fun d => Z.of_N (N.of_uint d)) (NilZero.uint_of_string s).

(** [str::parse::<usize>]: an optional plus sign, at least one digit, and no overflow. *)
Definition parse_usize (s : string) : option nat :=
  let '(sign, digits) := split_sign s in
  let n := match sign with
           | Some c => if Ascii.eqb c "+" then parse_digits digits else None
           | None => parse_digits digits
           end in
  match n with
  | Some n => if n <=? u64_max then Some (Z.to_nat n) else None
  | None => None
  end.

(** [str::parse::<i64>]. *)
Definition parse_i64 (s : string) : option Z :=
  let '(sign, digits) := split_sign s in
  match parse_digits digits with
  | Some n =>
      let n := if decide (sign = Some "-"%char) then - n else n in
      if in_i64 n then Some n else None
  | None => None
  end.

(** A number is not printed as an empty list of digits. *)
Lemma to_uint_nonnil n : N.to_uint n <> Decimal.Nil.
Proof.
  intros H. pose proof (Unsigned.of_to n) as Hn. rewrite H in Hn. subst n. discriminate H.
Qed.

Lemma string_of_uint_head d : d <> Decimal.Nil ->
  exists c s, NilZero.string_of_uint d = String c s /\ c <> "+"%char /\ c <> "-"%char /\ c <> "]"%char.
Proof. destruct d; [done|..]; intros _; simpl; eexists _, _; repeat split; discriminate. Qed.

(** No digit is a bracket. *)
Fixpoint str_all (p : ascii -> bool) (s : string) : bool :=
  match s with EmptyString => true | String c s => p c && str_all p s end.

Lemma str_all_impl (p q : ascii -> bool) s : (forall c, p c = true -> q c = true) -> str_all p s = true -> str_all q s = true.
Proof. intros Hpq. induction s as [|c s IH]; [done|]. cbn [str_all]. intros [Hc Hs]%andb_prop. rewrite (Hpq c Hc). by apply IH. Qed.

Lemma str_all_app p s t : str_all p (s ++ t) = str_all p s && str_all p t.
Proof. induction s as [|c s IH]; [done|]. cbn [String.append str_all]. by rewrite IH, andb_assoc. Qed.

Lemma string_of_uint_no_bracket d :
  str_all (fun c => negb (Ascii.eqb c "]")) (NilZero.string_of_uint d) = true.
Proof.
  assert (forall d, str_all (fun c => negb (Ascii.eqb c "]")) (NilEmpty.string_of_uint d) = true) as H.
  { clear d; intros d; induction d; simpl; auto. }
  destruct d; simpl; auto.
Qed.

Lemma split_sign_uint d : d <> Decimal.Nil ->
  split_sign (NilZero.string_of_uint d) = (None, NilZero.string_of_uint d).
Proof.
  intros Hd. destruct (string_of_uint_head d Hd) as (c & s & -> & Hplus & Hminus & _). simpl.
  destruct (Ascii.eqb_spec c "+"); [done|]. by destruct (Ascii.eqb_spec c "-").
Qed.

Lemma parse_digits_uint n : parse_digits (NilZero.string_of_uint (N.to_uint n)) = Some (Z.of_N n).
Proof.
  unfold parse_digits. rewrite NilZero.usu by apply to_uint_nonnil. simpl. by rewrite Unsigned.of_to.
Qed.

Lemma parse_usize_to_string n : Z.of_nat n <= u64_max -> parse_usize (nat_to_string n) = Some n.
Proof.
  intros Hn. unfold parse_usize, nat_to_string.
  rewrite split_sign_uint by apply to_uint_nonnil. rewrite parse_digits_uint, nat_N_Z.
  destruct (Z.leb_spec (Z.of_nat n) u64_max); [|lia]. by rewrite Nat2Z.id.
Qed.

Lemma split_sign_minus s : split_sign (String "-" s) = (Some "-"%char, s).
Proof. reflexivity. Qed.

Lemma parse_int_to_string z : in_i64 z = true -> parse_i64 (int_to_string z) = Some z.
Proof.
  intros Hz. unfold parse_i64, int_to_string. destruct z as [|p|p].
  - done.
  - change (NilZero.string_of_int (Z.to_int (Z.pos p))) with (NilZero.string_of_uint (N.to_uint (N.pos p))).
    rewrite split_sign_uint by apply to_uint_nonnil. rewrite parse_digits_uint.
    change (Z.of_N (N.pos p)) with (Z.pos p). rewrite decide_False by done. by rewrite Hz.
  - change (NilZero.string_of_int (Z.to_int (Z.neg p))) with (String "-" (NilZero.string_of_uint (N.to_uint (N.pos p)))).
    rewrite split_sign_minus, parse_digits_uint. rewrite decide_True by done.
    change (- Z.of_N (N.pos p)) with (Z.neg p). by rewrite Hz.
Qed.

(** ** The value of decimal digits *)
Definition is_ascii_digit (c : ascii) : bool := let n := nat_of_ascii c in (48 <=? n)%nat && (n <=? 57)%nat.

Fixpoint digits_value (acc : Z) (s : string) : Z :=
  match s with EmptyString => acc | String c s => digits_value (10 * acc + (Z.of_nat (nat_of_ascii c) - 48)) s end.

Lemma digit_cases c : is_ascii_digit c = true -> exists n, (n <= 9)%nat /\ c = ascii_of_nat (48 + n).
Proof.
  unfold is_ascii_digit. intros [H1%Nat.leb_le H2%Nat.leb_le]%andb_prop. exists (nat_of_ascii c - 48)%nat.
  split; [lia|]. replace (48 + _)%nat with (nat_of_ascii c) by lia. by rewrite ascii_nat_embedding.
Qed.

Lemma uint_of_digits s : str_all is_ascii_digit s = true -> exists d, NilEmpty.uint_of_string s = Some d /\
  forall l, Z.of_N (DecimalPos.Unsigned.of_lu (Decimal.revapp d l)) = digits_value (Z.of_N (DecimalPos.Unsigned.of_lu l)) s.
Proof.
  induction s as [|c s IH]; cbn [str_all]; intros Hs; [by exists Decimal.Nil|].
  apply andb_prop in Hs as [Hc Hs]. destruct (IH Hs) as (d & E & Hd). cbn [NilEmpty.uint_of_string]. rewrite E.
  destruct (digit_cases c Hc) as (n & Hn & ->). clear Hc.
  do 10 (destruct n as [|n]; [eexists; split; [reflexivity|]; intros l; cbn [Decimal.revapp digits_value]; rewrite Hd;
    f_equal; cbn [DecimalPos.Unsigned.of_lu]; rewrite nat_ascii_embedding by lia; lia|]). lia.
Qed.

Lemma parse_digits_value s : s <> "" -> str_all is_ascii_digit s = true -> parse_digits s = Some (digits_value 0 s).
Proof.
  intros Hn Hs. destruct (uint_of_digits s Hs) as (d & E & Hd). unfold parse_digits. destruct s as [|c s]; [done|].
  unfold NilZero.uint_of_string. rewrite E. cbn [option_map]. f_equal.
  unfold N.of_uint. rewrite DecimalPos.Unsigned.of_uint_alt. apply (Hd Decimal.Nil).
Qed.

Lemma digits_value_app acc s t : digits_value acc (s ++ t) = digits_value (digits_value acc s) t.
Proof. revert acc. by induction s as [|c s IH]; intros acc; simpl. Qed.

Lemma digits_value_bounds s acc : str_all is_ascii_digit s = true ->
  acc * 10 ^ Z.of_nat (String.length s) <= digits_value acc s < (acc + 1) * 10 ^ Z.of_nat (String.length s).
Proof.
  revert acc. induction s as [|c s IH]; intros acc; cbn [str_all digits_value String.length]; [lia|].
  intros [(n & Hn & ->)%digit_cases Hs]%andb_prop. specialize (IH (10 * acc + (Z.of_nat (nat_of_ascii (ascii_of_nat (48 + n))) - 48)) Hs).
  rewrite nat_ascii_embedding in IH |- * by lia. rewrite Nat2Z.inj_succ, Z.pow_succ_r by lia.
  assert (0 < 10 ^ Z.of_nat (String.length s)) by (apply Z.pow_pos_nonneg; lia). nia.
Qed.

Lemma digits_value_acc s acc : digits_value acc s = acc * 10 ^ Z.of_nat (String.length s) + digits_value 0 s.
Proof.
  revert acc. induction s as [|c s IH]; intros acc; cbn [digits_value String.length]; [lia|].
  rewrite IH, (IH (10 * 0 + _)), Nat2Z.inj_succ, Z.pow_succ_r by lia. lia.
Qed.

(** The digits before the last ones are the quotient by a power of ten. *)
Lemma digits_value_quotient s t : str_all is_ascii_digit t = true ->
  digits_value 0 s = digits_value 0 (s ++ t) / 10 ^ Z.of_nat (String.length t).
Proof.
  intros Ht. rewrite digits_value_app. pose proof (digits_value_bounds t (digits_value 0 s) Ht) as Hb.
  apply Z.div_unique with (digits_value (digits_value 0 s) t - digits_value 0 s * 10 ^ Z.of_nat (String.length t)); lia.
Qed.

Lemma split_sign_digits s : str_all is_ascii_digit s = true -> split_sign s = (None, s).
Proof.
  destruct s as [|c s]; [done|]. cbn [str_all]. intros [(n & Hn & ->)%digit_cases _]%andb_prop.
  by do 10 (destruct n as [|n]; [reflexivity|]); lia.
Qed.

Lemma parse_i64_digits s : s <> "" -> str_all is_ascii_digit s = true ->
  parse_i64 s = if in_i64 (digits_value 0 s) then Some (digits_value 0 s) else None.
Proof. intros Hn Hs. unfold parse_i64. by rewrite split_sign_digits, parse_digits_value. Qed.

(** The digits of a number. *)
Lemma string_of_uint_digits d : d <> Decimal.Nil -> str_all is_ascii_digit (NilZero.string_of_uint d) = true.
Proof.
  intros Hd. assert (forall d, str_all is_ascii_digit (NilEmpty.string_of_uint d) = true) as H by (clear; induction d; simpl; auto).
  by destruct d; [|apply (H (Decimal.D0 _))|apply (H (Decimal.D1 _))|apply (H (Decimal.D2 _))|apply (H (Decimal.D3 _))|apply (H (Decimal.D4 _))|apply (H (Decimal.D5 _))|apply (H (Decimal.D6 _))|apply (H (Decimal.D7 _))|apply (H (Decimal.D8 _))|apply (H (Decimal.D9 _))].
Qed.

Lemma digits_value_to_string n : 0 <= n ->
  str_all is_ascii_digit (int_to_string n) = true /\ int_to_string n <> "" /\ digits_value 0 (int_to_string n) = n.
Proof.
  intros Hn. assert (int_to_string n = NilZero.string_of_uint (N.to_uint (Z.to_N n))) as -> by (by destruct n).
  pose proof (to_uint_nonnil (Z.to_N n)) as Hd. pose proof (string_of_uint_digits _ Hd) as Hs.
  assert (NilZero.string_of_uint (N.to_uint (Z.to_N n)) <> "") as Hne.
  { destruct (string_of_uint_head _ Hd) as (c & s & -> & _). done. }
  split; [done|]. split; [done|]. apply (inj Some). rewrite <- parse_digits_value, parse_digits_uint by done. f_equal. lia.
Qed.

(** ** Values *)

(** [f64], as its IEEE 754 datum. *)
Notation f64 := spec_float.

(** [serde_json::Number]: the three representations of the crate. *)
Inductive Number : Type :=
| PosInt (n : Z)
| NegInt (n : Z)
| Float (f : f64).

(** [Number::from] for signed and unsigned integers. *)
Definition number_from (z : Z) : Number := if z <? 0 then NegInt z else PosInt z.

(** [f64::is_finite] *)
Definition is_finite (f : f64) : bool :=
  match f with S754_zero _ | S754_finite _ _ _ => true | S754_infinity _ | S754_nan => false end.

(** [Number::from_f64]: [None] for infinities and NaN. *)
Definition number_from_f64 (f : f64) : option Number := if is_finite f then Some (Float f) else None.

Inductive Value : Type :=
| VNull
| VBool (b : bool)
| VNumber (n : Number)
| VString (s : string)
| VArray (l : list Value)
| VObject (m : list (string * Value)).

(** [serde_json::Map]. *)
Notation Map := (list (string * Value)).

(** The induction principle that reaches the elements of arrays and the fields of objects. *)
Section value_ind.
Variable P : Value -> Prop.
Hypothesis HNull : P VNull.
Hypothesis HBool : forall b, P (VBool b).
Hypothesis HNumber : forall n, P (VNumber n).
Hypothesis HString : forall s, P (VString s).
Hypothesis HArray : forall l, Forall P l -> P (VArray l).
Hypothesis HObject : forall m, Forall (fun kv => P kv.2) m -> P (VObject m).

Fixpoint value_ind' (v : Value) : P v :=
  match v with
  | VNull => HNull
  | VBool b => HBool b
  | VNumber n => HNumber n
  | VString s => HString s
  | VArray l => HArray l ((fix go l := match l return Forall P l with
      | [] => Forall_nil_2 _ | v :: l => Forall_cons_2 _ _ _ (value_ind' v) (go l) end) l)
  | VObject m => HObject m ((fix go m := match m return Forall (fun kv => P kv.2) m with
      | [] => Forall_nil_2 _ | (k, v) :: m => Forall_cons_2 _ (k, v) _ (value_ind' v) (go m) end) m)
  end.
End value_ind.

(** [Map::get]. *)
Fixpoint map_get (k : string) (m : Map) : option Value :=
  match m with
  | [] => None
  | (k', v) :: m => if String.eqb k k' then Some v else map_get k m
  end.

(** [Map::contains_key]. *)
Definition map_contains_key (k : string) (m : Map) : bool :=
  match map_get k m with Some _ => true | None => false end.

(** [Map::insert]: a key that is present keeps its place and takes the new value. *)
Fixpoint map_insert (k : string) (v : Value) (m : Map) : Map :=
  match m with
  | [] => [(k, v)]
  | (k', v') :: m => if String.eqb k k' then (k', v) :: m else (k', v') :: map_insert k v m
  end.

(** [Map::remove], which in an insertion-ordered map moves the last field into the gap. *)
Fixpoint map_remove (k : string) (m : Map) : Map :=
  match m with
  | [] => []
  | (k', v') :: m' =>
      if String.eqb k k' then
        match last m' with
        | Some kv => kv :: removelast m'
        | None => []
        end
      else (k', v') :: map_remove k m'
  end.

Definition keys_of (m : Map) : list string := map fst m.

Lemma map_get_Some k m v : map_get k m = Some v -> (k, v) ∈ m.
Proof.
  induction m as [|[k' v'] m IH]; simpl; [done|].
  destruct (String.eqb_spec k k') as [->|]; intros H; apply elem_of_cons; [left|right]; naive_solver.
Qed.

Lemma map_get_None k m : map_get k m = None <-> k ∉ keys_of m.
Proof.
  induction m as [|[k' v'] m IH]; simpl; [split; [intros _ []%elem_of_nil|done]|].
  rewrite not_elem_of_cons. destruct (String.eqb_spec k k') as [->|]; naive_solver.
Qed.

Lemma map_get_elem k m v : NoDup (keys_of m) -> (k, v) ∈ m -> map_get k m = Some v.
Proof.
  induction m as [|[k' v'] m IH]; simpl; [by intros _ []%elem_of_nil|].
  rewrite NoDup_cons. intros [Hk Hm] [[= -> ->]|Hin]%elem_of_cons; [by rewrite String.eqb_refl|].
  destruct (String.eqb_spec k k') as [->|]; [|by apply IH].
  destruct Hk. change k' with (fst (k', v)). by apply list_elem_of_fmap_2.
Qed.

Lemma map_get_insert_eq k v m : map_get k (map_insert k v m) = Some v.
Proof.
  induction m as [|[k' v'] m IH]; simpl; [by rewrite String.eqb_refl|].
  destruct (String.eqb_spec k k') as [->|Hk]; simpl; [by rewrite String.eqb_refl|].
  rewrite (proj2 (String.eqb_neq k k')); done.
Qed.

Lemma map_get_insert_ne k k' v m : k <> k' -> map_get k' (map_insert k v m) = map_get k' m.
Proof.
  intros Hk. induction m as [|[k1 v1] m IH]; simpl.
  - by rewrite (proj2 (String.eqb_neq k' k)) by done.
  - destruct (String.eqb_spec k k1) as [->|]; simpl; [|by rewrite IH].
    by rewrite !(proj2 (String.eqb_neq k' k1)) by done.
Qed.

Lemma map_insert_keys k v m :
  keys_of (map_insert k v m) = if map_contains_key k m then keys_of m else (keys_of m ++ [k])%list.
Proof.
  unfold map_contains_key. induction m as [|[k' v'] m IH]; simpl; [done|].
  destruct (String.eqb_spec k k') as [->|]; simpl; [done|]. rewrite IH. by destruct (map_get k m).
Qed.

Lemma map_insert_NoDup k v m : NoDup (keys_of m) -> NoDup (keys_of (map_insert k v m)).
Proof.
  intros H. rewrite map_insert_keys. unfold map_contains_key.
  destruct (map_get k m) eqn:E; [done|]. apply map_get_None in E.
  apply NoDup_app. repeat split; [done| |apply NoDup_singleton].
  intros x Hx ->%list_elem_of_singleton. done.
Qed.

(** The last field moves to the front of the rest: a permutation of the other fields. *)
Lemma map_remove_Permutation k m : NoDup (keys_of m) ->
  map_remove k m ≡ₚ filter (fun kv => kv.1 <> k) m.
Proof.
  induction m as [|[k' v'] m IH]; simpl; [done|]. rewrite NoDup_cons. intros [Hk Hm].
  rewrite filter_cons; simpl. destruct (String.eqb_spec k k') as [->|Hne].
  - rewrite decide_False by (by intros H; apply H).
    assert (filter (fun kv : string * Value => kv.1 <> k') m = m) as ->.
    { clear IH Hm. induction m as [|[k1 v1] m IH]; [done|]. simpl in Hk. rewrite not_elem_of_cons in Hk.
      rewrite filter_cons; simpl. rewrite decide_True by naive_solver. f_equal. apply IH. naive_solver. }
    destruct m as [|a m'] using rev_ind; [done|].
    rewrite last_snoc, removelast_last. apply Permutation_cons_append.
  - rewrite decide_True by done. by rewrite IH.
Qed.

(** ** Equality of values ([PartialEq for Value])

    Numbers of different representations differ; objects are equal when they have the same fields
    in any order. *)
Definition number_eqb (a b : Number) : bool :=
  match a, b with
  | PosInt x, PosInt y | NegInt x, NegInt y => x =? y
  | Float x, Float y => SFeqb x y
  | _, _ => false
  end.

Fixpoint value_eqb (a b : Value) : bool :=
  match a, b with
  | VNull, VNull => true
  | VBool x, VBool y => Bool.eqb x y
  | VNumber x, VNumber y => number_eqb x y
  | VString x, VString y => String.eqb x y
  | VArray x, VArray y =>
      (fix go x y := match x, y with
       | [], [] => true
       | v :: x, w :: y => value_eqb v w && go x y
       | _, _ => false
       end) x y
  | VObject x, VObject y =>
      (length x =? length y)%nat &&
      (fix go x := match x with
       | [] => true
       | (k, v) :: x => match map_get k y with Some w => value_eqb v w | None => false end && go x
       end) x
  | _, _ => false
  end.

(** The values the crate can hold: finite floats and objects whose keys are distinct. *)
Fixpoint value_wf (v : Value) : Prop :=
  match v with
  | VNumber (Float f) => is_finite f = true
  | VArray l => (fix go l := match l with [] => True | v :: l => value_wf v /\ go l end) l
  | VObject m => NoDup (keys_of m) /\
      (fix go m := match m with [] => True | (_, v) :: m => value_wf v /\ go m end) m
  | _ => True
  end.

Lemma value_wf_array l : value_wf (VArray l) <-> Forall value_wf l.
Proof. simpl. induction l as [|v l IH]; [done|]. rewrite Forall_cons. naive_solver. Qed.

Lemma value_wf_object m : value_wf (VObject m) <-> NoDup (keys_of m) /\ Forall (fun kv => value_wf kv.2) m.
Proof.
  simpl. enough ((fix go m := match m with [] => True | (_, v) :: m => value_wf v /\ go m end) m
    <-> Forall (fun kv => value_wf kv.2) m) as -> by done.
  induction m as [|[k v] m IH]; [done|]. rewrite Forall_cons. naive_solver.
Qed.

Lemma value_eqb_array x y : value_eqb (VArray x) (VArray y) = true <-> Forall2 (fun a b => value_eqb a b = true) x y.
Proof.
  simpl. revert y. induction x as [|a x IH]; intros [|b y]; simpl; try (split; [done|by inversion 1]).
  rewrite andb_true_iff, IH, Forall2_cons. done.
Qed.

Lemma value_eqb_object x y : value_eqb (VObject x) (VObject y) = true <->
  length x = length y /\ Forall (fun kv => exists w, map_get kv.1 y = Some w /\ value_eqb kv.2 w = true) x.
Proof.
  simpl. rewrite andb_true_iff, Nat.eqb_eq.
  match goal with |- _ /\ ?F x = true <-> _ => enough (forall z, F z = true <-> Forall (fun kv => exists w, map_get kv.1 y = Some w /\ value_eqb kv.2 w = true) z) as H by by rewrite H end.
  induction z as [|[k v] z IH]; [done|]. rewrite andb_true_iff, IH, Forall_cons; simpl.
  destruct (map_get k y); naive_solver.
Qed.

(** Equality of floats: the two zeros are equal, NaN differs from itself. *)
Definition is_zero (f : f64) : bool := match f with S754_zero _ => true | _ => false end.

Lemma SFeqb_true x y : SFeqb x y = true <->
  (is_zero x = true /\ is_zero y = true) \/ (x = y /\ x <> S754_nan).
Proof.
  unfold SFeqb, SFcompare.
  destruct x as [[]|[]| |[] m e], y as [[]|[]| |[] m' e']; simpl;
    try (split; [done|by intros [[]|[]]]); try (split; [by left|done]); try (split; [by right|done]).
  all: change (Pos.compare_cont Eq m m') with (m ?= m')%positive.
  all: destruct (Z.compare_spec e e') as [->| |]; try (split; [done|intros [[]|[[= -> ->] _]]; try done; lia]).
  all: destruct (Pos.compare_spec m m') as [->| |]; simpl;
    try (split; [done|intros [[]|[[= ->] _]]; try done; lia]).
  all: split; [by right|done].
Qed.

Lemma number_eqb_sym a b : number_eqb a b = number_eqb b a.
Proof.
  destruct a as [x|x|x], b as [y|y|y]; simpl; try done; try apply Z.eqb_sym.
  apply eq_true_iff_eq. rewrite !SFeqb_true. naive_solver.
Qed.

Lemma number_eqb_trans a b c : number_eqb a b = true -> number_eqb b c = true -> number_eqb a c = true.
Proof.
  destruct a, b, c; simpl; try done; rewrite ?Z.eqb_eq; try congruence.
  rewrite !SFeqb_true. intros [[]|[-> ?]] [[]|[-> ?]]; auto.
Qed.

Lemma value_eqb_refl v : value_wf v -> value_eqb v v = true.
Proof.
  induction v as [| | n | |l IH|m IH] using value_ind'; intros Hwf; simpl; try done.
  - by apply Bool.eqb_true_iff.
  - destruct n as [x|x|x]; simpl; [apply Z.eqb_refl..|]. apply SFeqb_true.
    right. split; [done|]. by intros ->.
  - apply String.eqb_refl.
  - apply value_eqb_array. apply value_wf_array in Hwf. rewrite Forall_forall in IH, Hwf.
    apply Forall2_same_length_lookup. split; [done|]. intros i x y Hx Hy. rewrite Hx in Hy.
    injection Hy as <-. apply list_elem_of_lookup_2 in Hx. apply IH; [done|]. by apply Hwf.
  - apply value_eqb_object. split; [done|]. apply value_wf_object in Hwf as [Hnd Hwf].
    rewrite !Forall_forall in *. intros [k v] Hin. exists v. split; [|by apply (IH (k, v)), (Hwf (k, v))].
    by apply map_get_elem.
Qed.

Lemma value_eqb_trans a b c : value_eqb a b = true -> value_eqb b c = true -> value_eqb a c = true.
Proof.
  revert b c. induction a as [|x|x|x|x IH|x IH] using value_ind'; intros [|y|y|y|y|y] [|z|z|z|z|z]; try done.
  - simpl. rewrite !Bool.eqb_true_iff. congruence.
  - simpl. apply number_eqb_trans.
  - simpl. rewrite !String.eqb_eq. congruence.
  - rewrite !value_eqb_array. intros Hxy. revert z. induction Hxy; intros z Hyz; inversion Hyz; subst; constructor;
      inversion IH; subst; eauto.
  - rewrite !value_eqb_object. intros [L1 H1] [L2 H2]. split; [congruence|].
    rewrite Forall_forall in H1, H2, IH. apply Forall_forall. intros [k v] Hin.
    destruct (H1 _ Hin) as (w & Hw & Hvw). simpl in *.
    destruct (H2 (k, w)) as (u & Hu & Hwu); [by apply map_get_Some|].
    exists u. split; [done|]. by apply (IH (k, v) Hin w u).
Qed.

Lemma map_get_swap x y : NoDup (keys_of x) -> length x = length y ->
  Forall (fun kv => is_Some (map_get kv.1 y)) x -> NoDup (keys_of y) ->
  forall k, k ∈ keys_of y -> k ∈ keys_of x.
Proof.
  intros Hx Hl H Hy k Hk.
  assert (keys_of x ⊆+ keys_of y) as Hsub.
  { apply NoDup_submseteq; [done|]. intros k' Hk'. apply list_elem_of_fmap in Hk' as ([k1 v1] & -> & Hin).
    rewrite Forall_forall in H. destruct (H (k1, v1)) as [w Hw]; [done|].
    destruct (decide (k1 ∈ keys_of y)) as [|Hno]; [done|]. apply map_get_None in Hno. simpl in Hw. congruence. }
  assert (keys_of x ≡ₚ keys_of y) as ->; [|done].
  apply submseteq_length_Permutation; [done|]. unfold keys_of. rewrite !length_map. lia.
Qed.

Lemma value_eqb_sym_1 a b : value_wf a -> value_wf b -> value_eqb a b = true -> value_eqb b a = true.
Proof.
  revert b. induction a as [|x|x|x|x IH|x IH] using value_ind'; intros [|y|y|y|y|y]; try done.
  - simpl. rewrite !Bool.eqb_true_iff. congruence.
  - simpl. by rewrite number_eqb_sym.
  - simpl. by rewrite String.eqb_sym.
  - rewrite !value_eqb_array, !value_wf_array. intros Hx Hy Hxy. induction Hxy; constructor;
      inversion IH; inversion Hx; inversion Hy; subst; auto.
  - rewrite !value_eqb_object, !value_wf_object. intros [Nx Wx] [Ny Wy] [L H]. split; [done|].
    rewrite Forall_forall in Wx, Wy, IH.
    apply Forall_forall. intros [k w] Hin. simpl.
    assert (map_get k y = Some w) as Hg by (apply map_get_elem; [done|done]).
    assert (k ∈ keys_of x) as Hk.
    { apply (map_get_swap x y); try done.
      - eapply Forall_impl; [exact H|]. intros ? (? & -> & _). eauto.
      - change k with (fst (k, w)). apply list_elem_of_fmap_2; done. }
    apply list_elem_of_fmap in Hk as ([k' v] & -> & Hv). simpl in *.
    rewrite Forall_forall in H. destruct (H _ Hv) as (w' & Hw' & E). simpl in *.
    assert (w' = w) as -> by congruence. exists v. split.
    + apply map_get_elem; [done|done].
    + by apply (IH (k', v) Hv); [apply (Wx (k', v))|apply (Wy (k', w))|].
Qed.

(** ** Paths *)

Inductive PathToken : Type :=
| Key (k : string)
| Index (i : nat).

#[global] Instance PathToken_eq_dec : EqDecision PathToken.
Proof. solve_decision. Defined.

(** [Value::get] with a string: only objects have fields. *)
Definition get_key (k : string) (v : Value) : option Value :=
  match v with VObject m => map_get k m | _ => None end.

(** [Value::get] with a number: only arrays have elements. *)
Definition get_index (i : nat) (v : Value) : option Value :=
  match v with VArray l => l !! i | _ => None end.

(** The loop over the tokens; [?] leaves it. *)
Fixpoint get_json_value (value : Value) (tokens : list PathToken) : option Value :=
  match tokens with
  | [] => Some value
  | Key k :: tokens => match get_key k value with Some v => get_json_value v tokens | None => None end
  | Index i :: tokens => match get_index i value with Some v => get_json_value v tokens | None => None end
  end.

(** The inner loops of the tokenizer: the characters up to the first that satisfies [stop], and the
    rest of the input, which starts with that character. *)
Fixpoint take_until (stop : ascii -> bool) (s : string) : string * string :=
  match s with
  | EmptyString => (EmptyString, EmptyString)
  | String c s' =>
      if stop c then (EmptyString, s)
      else let '(taken, rest) := take_until stop s' in (String c taken, rest)
  end.

(** [chars.next()] on the terminator the loop stopped at, when there is one. *)
Definition skip_one (s : string) : string :=
  match s with EmptyString => EmptyString | String _ s => s end.

Definition quote : ascii := "034".

Definition is_separator (c : ascii) : bool := Ascii.eqb c "." || Ascii.eqb c ":".

(** What ends a key without quotes. *)
Definition ends_key (c : ascii) : bool := is_separator c || Ascii.eqb c "[".

(** Why the loop leaves: an index that is no number ([return None]), or no fuel. *)
Inductive tokenize_stop := NoIndex | NoFuel.

(** The [while let] loop.  [fuel] bounds its iterations. *)
Fixpoint tokenize_loop (fuel : nat) (chars : string) : result tokenize_stop (list PathToken) :=
  match chars with
  | EmptyString => Ok []
  | String ch rest =>
      match fuel with
      | O => Err NoFuel
      | S fuel =>
          if is_separator ch then tokenize_loop fuel rest
          else if Ascii.eqb ch quote then
            let '(key, rest) := take_until (fun c => Ascii.eqb c quote) rest in
            result_map (cons (Key key)) (tokenize_loop fuel (skip_one rest))
          else if Ascii.eqb ch "[" then
            let '(num, rest) := take_until (fun c => Ascii.eqb c "]") rest in
            match parse_usize num with
            | Some index => result_map (cons (Index index)) (tokenize_loop fuel (skip_one rest))
            | None => Err NoIndex
            end
          else
            let '(key, rest) := take_until ends_key chars in
            let next := tokenize_loop fuel rest in
            if String.eqb key "" then next else result_map (cons (Key key)) next
      end
  end.

(** Every iteration consumes a character, so the length of the path is fuel enough. *)
Definition tokenize_path (path : string) : option (list PathToken) :=
  match tokenize_loop (String.length path) path with Ok tokens => Some tokens | Err _ => None end.

Lemma take_until_length stop s :
  (String.length (snd (take_until stop s)) <= String.length s)%nat.
Proof.
  induction s as [|c s IH]; simpl; [done|]. destruct (stop c); simpl; [done|].
  destruct (take_until stop s); simpl in *. lia.
Qed.

Lemma skip_one_length s : (String.length (skip_one s) <= String.length s)%nat.
Proof. destruct s; simpl; lia. Qed.

(** The rest of the input after an inner loop is no longer than what the loop was given. *)
Ltac use_take_until stop s :=
  let H := fresh "Htake" in
  pose proof (take_until_length stop s) as H;
  destruct (take_until stop s) as [? ?rest]; cbn [snd] in H;
  try (let H' := fresh "Hskip" in pose proof (skip_one_length rest) as H').

Lemma ends_key_false c : is_separator c = false -> Ascii.eqb c "[" = false -> ends_key c = false.
Proof. unfold ends_key. by intros -> ->. Qed.

Lemma result_map_not_Err {E A B} (f : A -> B) (r : result E A) e : r <> Err e -> result_map f r <> Err e.
Proof. destruct r; simpl; congruence. Qed.

Lemma tokenize_loop_fuel fuel s :
  (String.length s <= fuel)%nat -> tokenize_loop fuel s <> Err NoFuel.
Proof.
  revert s. induction fuel as [|fuel IH]; intros [|c s] Hs; simpl in *; try done; [lia|].
  destruct (is_separator c) eqn:Hsep; [apply IH; lia|].
  destruct (Ascii.eqb c quote).
  { use_take_until (fun c => Ascii.eqb c quote) s. apply result_map_not_Err, IH. lia. }
  destruct (Ascii.eqb c "[") eqn:Hbr.
  { use_take_until (fun c => Ascii.eqb c "]") s. destruct (parse_usize _); [|done].
    apply result_map_not_Err, IH. lia. }
  rewrite (ends_key_false _ Hsep Hbr). use_take_until ends_key s.
  simpl. apply result_map_not_Err, IH. lia.
Qed.

Lemma tokenize_loop_more fuel fuel' s :
  (String.length s <= fuel)%nat -> (fuel <= fuel')%nat -> tokenize_loop fuel' s = tokenize_loop fuel s.
Proof.
  revert fuel' s. induction fuel as [|fuel IH]; intros fuel' [|c s] Hs Hf; simpl in *;
    try (by destruct fuel'); [lia|].
  destruct fuel' as [|fuel']; [lia|]. simpl.
  destruct (is_separator c) eqn:Hsep; [apply IH; lia|].
  destruct (Ascii.eqb c quote).
  { use_take_until (fun c => Ascii.eqb c quote) s. rewrite IH by lia. done. }
  destruct (Ascii.eqb c "[") eqn:Hbr.
  { use_take_until (fun c => Ascii.eqb c "]") s. rewrite IH by lia. done. }
  rewrite (ends_key_false _ Hsep Hbr). use_take_until ends_key s. by rewrite IH by lia.
Qed.

(** The loop with any sufficient fuel is [tokenize_path]. *)
Lemma tokenize_path_unfold fuel s :
  (String.length s <= fuel)%nat ->
  tokenize_path s = match tokenize_loop fuel s with Ok tokens => Some tokens | Err _ => None end.
Proof. intros H. unfold tokenize_path. by rewrite (tokenize_loop_more (String.length s) fuel) by lia. Qed.

(** [tokenize_path] terminates: its loop, given as many iterations as the path has
    characters, or more, never stops for lack of them, and further iterations change nothing. *)
Theorem tokenize_path_terminates s fuel :
  (String.length s <= fuel)%nat ->
  tokenize_loop fuel s <> Err NoFuel /\
  tokenize_path s = match tokenize_loop fuel s with Ok tokens => Some tokens | Err _ => None end.
Proof. intros H. split; [by apply tokenize_loop_fuel|by apply tokenize_path_unfold]. Qed.

Lemma tokenize_path_terminates_witness :
  tokenize_loop 7 "a.b[12]" <> Err NoFuel /\
  tokenize_path "a.b[12]" = match tokenize_loop 7 "a.b[12]" with Ok tokens => Some tokens | Err _ => None end.
Proof. apply (tokenize_path_terminates "a.b[12]" 7). vm_compute. lia. Defined.

(** *** Printing a path *)

(** A key that needs no quotes. *)
Definition plain_key (k : string) : bool :=
  match k with
  | EmptyString => false
  | String c _ => negb (Ascii.eqb c quote) && str_all (fun c => negb (ends_key c)) k
  end.

Definition print_token (t : PathToken) : string :=
  match t with
  | Key k => if plain_key k then String "." k else String "." (String quote (k ++ String quote ""))
  | Index i => String "[" (nat_to_string i ++ "]")
  end.

Fixpoint print_path (p : list PathToken) : string :=
  match p with [] => "" | t :: p => print_token t ++ print_path p end.

(** The tokens a path can spell: a key in quotes has no quote in it, an index is a [usize]. *)
Definition printable (t : PathToken) : bool :=
  match t with
  | Key k => plain_key k || str_all (fun c => negb (Ascii.eqb c quote)) k
  | Index i => Z.of_nat i <=? u64_max
  end.

Lemma take_until_app stop s c t :
  str_all (fun c => negb (stop c)) s = true -> stop c = true ->
  take_until stop (s ++ String c t) = (s, String c t).
Proof.
  intros Hs Hc. induction s as [|d s IH]; simpl in *; [by rewrite Hc|].
  apply andb_true_iff in Hs as [Hd Hs]. apply negb_true_iff in Hd. rewrite Hd. by rewrite IH.
Qed.

Lemma take_until_all stop s : str_all (fun c => negb (stop c)) s = true -> take_until stop s = (s, "").
Proof.
  intros Hs. induction s as [|d s IH]; simpl in *; [done|].
  apply andb_true_iff in Hs as [Hd Hs]. apply negb_true_iff in Hd. rewrite Hd. by rewrite IH.
Qed.

Lemma print_path_head p : print_path p = "" \/ exists c s, print_path p = String c s /\ ends_key c = true.
Proof.
  destruct p as [|t p]; [by left|right]. destruct t as [k|i]; simpl; [destruct (plain_key k)|]; simpl; eauto.
Qed.

(** One token of a printed path. *)
Lemma tokenize_loop_print fuel t p :
  printable t = true -> (String.length (print_path (t :: p)) <= S fuel)%nat ->
  tokenize_loop (S (S fuel)) (print_path (t :: p)) =
    result_map (cons t) (match t with Key _ => tokenize_loop fuel (print_path p)
                                    | Index _ => tokenize_loop (S fuel) (print_path p) end).
Proof.
  intros Hp Hlen. destruct t as [k|i]; cbn [print_path print_token].
  - destruct (plain_key k) eqn:Hk.
    + destruct k as [|c k]; [done|]. simpl in Hk. apply andb_true_iff in Hk as [Hq Hall].
      apply andb_true_iff in Hall as [Hc Hk].
      apply negb_true_iff in Hq, Hc. unfold ends_key in Hc. apply orb_false_iff in Hc as [Hsep Hbr].
      simpl. rewrite Hsep, Hq, Hbr, (ends_key_false _ Hsep Hbr).
      destruct (print_path_head p) as [->|(d & s & -> & Hd)].
      * by rewrite string_app_nil_r, take_until_all.
      * by rewrite take_until_app.
    + simpl in Hp. rewrite Hk in Hp. simpl. rewrite string_app_assoc. simpl.
      rewrite take_until_app; done.
  - simpl. rewrite string_app_assoc. simpl. rewrite take_until_app.
    + simpl in Hp. rewrite parse_usize_to_string by lia. done.
    + apply string_of_uint_no_bracket.
    + done.
Qed.

Lemma tokenize_path_print p :
  Forall (fun t => printable t = true) p -> tokenize_path (print_path p) = Some p.
Proof.
  intros Hp.
  assert (tokenize_loop (2 * String.length (print_path p)) (print_path p) = Ok p) as H.
  { enough (forall fuel, (2 * String.length (print_path p) <= fuel)%nat ->
      tokenize_loop fuel (print_path p) = Ok p) by auto.
    induction Hp as [|t p Ht Hp IH]; intros fuel Hf; [by destruct fuel|].
    assert (String.length (print_path (t :: p)) >= 1 + String.length (print_path p))%nat as Hl.
    { simpl. rewrite string_length_app. destruct t as [k|i]; simpl; [destruct (plain_key k)|]; simpl; lia. }
    destruct fuel as [|[|fuel]]; [lia..|]. rewrite tokenize_loop_print; [|done|lia].
    destruct t; by rewrite IH by lia. }
  rewrite (tokenize_path_unfold (2 * String.length (print_path p))) by lia. by rewrite H.
Qed.

(** C19: A path that is printed is read back: keys are quoted where they hold a separator or
    start with a quote, indices are decimal, and [tokenize_path] returns the very tokens. *)
Theorem tokenize_print_path p :
  Forall (fun t => printable t = true) p -> tokenize_path (print_path p) = Some p.
Proof. apply tokenize_path_print. Qed.

Lemma tokenize_print_path_witness :
  tokenize_path (print_path [Key "a"; Index 12; Key "b.c"]) = Some [Key "a"; Index 12; Key "b.c"].
Proof. apply (tokenize_print_path [Key "a"; Index 12; Key "b.c"]). repeat constructor. Defined.

(** Following a path is following its parts one after the other, and every value inside an
    object or array is reached by the key or index it has there. *)
Theorem get_json_value_compose v p q :
  get_json_value v (p ++ q) = get_json_value v p ≫= (fun w => get_json_value w q) /\
  (forall k w m, v = VObject m -> map_get k m = Some w -> get_json_value v (Key k :: q) = get_json_value w q) /\
  (forall i w l, v = VArray l -> l !! i = Some w -> get_json_value v (Index i :: q) = get_json_value w q).
Proof.
  repeat split.
  - revert v. induction p as [|[k|i] p IH]; intros v; simpl; [done|..].
    + destruct (get_key k v); simpl; auto.
    + destruct (get_index i v); simpl; auto.
  - intros k w m -> H. simpl. by rewrite H.
  - intros i w l -> H. simpl. by rewrite H.
Qed.
