(* ===== verification/JsonEncode.v ===== *)
(** * Arrow arrays as JSON

    [functions/src/json.rs]: [encode_array] and the encoder of each data type, [encode_scalar] and
    [encode_columnar_value].  An array is its data type's rows ([None] where [is_null]); the nested
    encoders call [encode_array] again, so that they take it as the argument [rec], and
    [encode_array] takes fuel.  The theorems show that the depth of the array is fuel enough, except
    for maps and run-end encoded arrays, where no fuel is.

    Parameters ([ArrowExt]): the base64 engine, the cast of decimals to floats, and the conversion of
    a scalar to an array. *)

From Stdlib Require Import ZArith Lia Ascii String SpecFloat.
From Stdlib.Strings Require Import Byte.
From stdpp Require Import base option list strings.
From S2P Require Import Prelude JsonValue.

Open Scope string_scope.
Open Scope Z_scope.
Open Scope rust_scope.

(** ** Arrow data *)

Inductive TimeUnit := Second | Millisecond | Microsecond | Nanosecond.

Inductive IntKind := Int8 | Int16 | Int32 | Int64 | UInt8 | UInt16 | UInt32 | UInt64.

Inductive FloatKind := Float16 | Float32 | Float64.

Inductive Utf8Kind := Utf8 | LargeUtf8 | Utf8View.

Inductive BinaryKind := Binary | LargeBinary | BinaryView | FixedSizeBinary (width : Z).

Inductive TemporalKind :=
| Timestamp (unit : TimeUnit) (tz : option string)
| Date32 | Date64
| Time32 (unit : TimeUnit)
| Time64 (unit : TimeUnit)
| Duration (unit : TimeUnit).

Inductive ListKind := List_ | ListView | FixedSizeList (size : Z) | LargeList | LargeListView.

Inductive DecimalKind := Decimal32 | Decimal64 | Decimal128.

Inductive IntervalUnit := YearMonth | DayTime | MonthDayNano.

Inductive UnionMode := Sparse | Dense.

(** [arrow::datatypes::DataType] *)
Inductive DataType :=
| TNull
| TBoolean
| TInt (k : IntKind)
| TFloat (k : FloatKind)
| TUtf8 (k : Utf8Kind)
| TBinary (k : BinaryKind)
| TDictionary (key : IntKind) (value : DataType)
| TTemporal (k : TemporalKind)
| TInterval (unit : IntervalUnit)
| TList (k : ListKind) (elem : DataType)
| TStruct (fields : list (string * DataType))
| TDecimal (k : DecimalKind) (precision scale : Z)
| TDecimal256 (precision scale : Z)
| TRunEndEncoded (value : DataType)
| TMap (entries : DataType)
| TUnion (fields : list (Z * DataType)) (mode : UnionMode).

(** Arrays.  A list row is the array of its elements, a decimal of 256 bits is its low and high
    half, a struct is its columns and the validity of its rows, a union the type of each row, the
    offset of each row in its child (dense unions) and its children. *)
Inductive ArrayRef :=
| ANull (len : nat)
| ABoolean (rows : list (option bool))
| AInt (k : IntKind) (rows : list (option Z))
| AFloat (k : FloatKind) (rows : list (option f64))
| AUtf8 (k : Utf8Kind) (rows : list (option string))
| ABinary (k : BinaryKind) (rows : list (option (list byte)))
| ADictionary (k : IntKind) (keys : list (option Z)) (values : ArrayRef)
| ATemporal (k : TemporalKind) (rows : list (option Z))
| AYearMonth (rows : list (option Z))
| ADayTime (rows : list (option (Z * Z)))
| AMonthDayNano (rows : list (option (Z * Z * Z)))
| AList (k : ListKind) (elem : DataType) (rows : list (option ArrayRef))
| AStruct (columns : list (string * ArrayRef)) (valid : list bool)
| ADecimal (k : DecimalKind) (precision scale : Z) (rows : list (option Z))
| ADecimal256 (precision scale : Z) (rows : list (option (Z * Z)))
| ARunEnd (run_ends : list Z) (values : ArrayRef) (offset len : nat)
| AMap (entries : DataType) (rows : list (option ArrayRef))
| AUnion (mode : UnionMode) (type_ids : list Z) (offsets : list nat) (children : list (Z * ArrayRef)).

(** [Array::len]. *)
Definition len (a : ArrayRef) : nat :=
  match a with
  | ANull n => n
  | ABoolean rows => length rows
  | AInt _ rows | ATemporal _ rows | AYearMonth rows | ADecimal _ _ _ rows => length rows
  | AFloat _ rows => length rows
  | AUtf8 _ rows => length rows
  | ABinary _ rows => length rows
  | ADictionary _ keys _ => length keys
  | ADayTime rows | ADecimal256 _ _ rows => length rows
  | AMonthDayNano rows => length rows
  | AList _ _ rows | AMap _ rows => length rows
  | AStruct _ valid => length valid
  | ARunEnd _ _ _ n => n
  | AUnion _ type_ids _ _ => length type_ids
  end.

(** [Array::data_type]. *)
Fixpoint data_type (a : ArrayRef) : DataType :=
  match a with
  | ANull _ => TNull
  | ABoolean _ => TBoolean
  | AInt k _ => TInt k
  | AFloat k _ => TFloat k
  | AUtf8 k _ => TUtf8 k
  | ABinary k _ => TBinary k
  | ADictionary k _ values => TDictionary k (data_type values)
  | ATemporal k _ => TTemporal k
  | AYearMonth _ => TInterval YearMonth
  | ADayTime _ => TInterval DayTime
  | AMonthDayNano _ => TInterval MonthDayNano
  | AList k elem _ => TList k elem
  | AStruct columns _ => TStruct (map (fun c => (fst c, data_type (snd c))) columns)
  | ADecimal k p s _ => TDecimal k p s
  | ADecimal256 p s _ => TDecimal256 p s
  | ARunEnd _ values _ _ => TRunEndEncoded (data_type values)
  | AMap entries _ => TMap entries
  | AUnion mode _ _ children => TUnion (map (fun c => (fst c, data_type (snd c))) children) mode
  end.

(** [Array::is_null]: null, run-end encoded and union arrays have no validity of their own. *)
Definition row_null {A} (rows : list (option A)) (i : nat) : bool :=
  match rows !! i with Some None => true | _ => false end.

Definition is_null (a : ArrayRef) (i : nat) : bool :=
  match a with
  | ANull _ | ARunEnd _ _ _ _ | AUnion _ _ _ _ => false
  | ABoolean rows => row_null rows i
  | AInt _ rows | ATemporal _ rows | AYearMonth rows | ADecimal _ _ _ rows => row_null rows i
  | AFloat _ rows => row_null rows i
  | AUtf8 _ rows => row_null rows i
  | ABinary _ rows => row_null rows i
  | ADictionary _ keys _ => row_null keys i
  | ADayTime rows | ADecimal256 _ _ rows => row_null rows i
  | AMonthDayNano rows => row_null rows i
  | AList _ _ rows | AMap _ rows => row_null rows i
  | AStruct _ valid => match valid !! i with Some false => true | _ => false end
  end.

Definition window {A} (i n : nat) (l : list A) : list A := take n (drop i l).

(** [Array::slice] within bounds: the columns of a struct and the children of a sparse union are
    sliced with it. *)
Fixpoint slice_rows (i n : nat) (a : ArrayRef) : ArrayRef :=
  match a with
  | ANull _ => ANull n
  | ABoolean rows => ABoolean (window i n rows)
  | AInt k rows => AInt k (window i n rows)
  | AFloat k rows => AFloat k (window i n rows)
  | AUtf8 k rows => AUtf8 k (window i n rows)
  | ABinary k rows => ABinary k (window i n rows)
  | ADictionary k keys values => ADictionary k (window i n keys) values
  | ATemporal k rows => ATemporal k (window i n rows)
  | AYearMonth rows => AYearMonth (window i n rows)
  | ADayTime rows => ADayTime (window i n rows)
  | AMonthDayNano rows => AMonthDayNano (window i n rows)
  | AList k elem rows => AList k elem (window i n rows)
  | AStruct columns valid =>
      AStruct (map (fun c => (fst c, slice_rows i n (snd c))) columns) (window i n valid)
  | ADecimal k p s rows => ADecimal k p s (window i n rows)
  | ADecimal256 p s rows => ADecimal256 p s (window i n rows)
  | ARunEnd run_ends values offset _ => ARunEnd run_ends values (offset + i)%nat n
  | AMap entries rows => AMap entries (window i n rows)
  | AUnion Sparse type_ids offsets children =>
      AUnion Sparse (window i n type_ids) offsets (map (fun c => (fst c, slice_rows i n (snd c))) children)
  | AUnion Dense type_ids offsets children => AUnion Dense (window i n type_ids) (window i n offsets) children
  end.

(** ** Errors *)

(** [arrow_error::ArrowInvalidArgumentError], which becomes the message of an
    [InvalidArgumentError]. *)
Inductive ArrowInvalidArgumentError :=
| ArraysSupportSecondAndMillisecondUnits (data_type : string) (unit : TimeUnit)
| ExpectedArrayOfType (data_type : string) (actual_type : DataType)
| UnsupportedPrimitiveType (data_type : DataType).

(** The errors of [arrow::error::ArrowError] that the encoders raise, and the others they pass on. *)
Inductive ArrowError :=
| InvalidArgumentError (message : string)
| Invalid (e : ArrowInvalidArgumentError)
| OtherError (message : string).

(** What stops an encoder: an error, a panic of Arrow or of [unwrap], or no fuel. *)
Inductive stop := Raise (e : ArrowError) | Panic | NoFuel.

Notation outcome A := (result stop A).

Definition raise {A} (e : ArrowError) : outcome A := Err (Raise e).
Definition invalid {A} (message : string) : outcome A := raise (InvalidArgumentError message).

(** Errors of Arrow's own operations, as an encoder's. *)
Definition lift {A} (r : result ArrowError A) : outcome A :=
  match r with Ok a => Ok a | Err e => Err (Raise e) end.

(** [Array::slice]: out of bounds is a panic. *)
Definition slice (a : ArrayRef) (i n : nat) : outcome ArrayRef :=
  if (i + n <=? len a)%nat then Ok (slice_rows i n a) else Err Panic.

(** ** Floats

    The conversions of the encoders, on binary floating-point data. *)

(** The integer part. *)
Definition trunc (f : f64) : option Z :=
  match f with
  | S754_zero _ => Some 0
  | S754_finite s m e =>
      let n := if 0 <=? e then Z.pos m * 2 ^ e else Z.pos m / 2 ^ (- e) in
      Some (if s then - n else n)
  | S754_infinity _ | S754_nan => None
  end.

(** [f.fract() == 0.0]; the fractional part of an infinity is NaN. *)
Definition fract_is_zero (f : f64) : bool :=
  match f with
  | S754_zero _ => true
  | S754_finite _ m e => (0 <=? e) || (Z.pos m mod 2 ^ (- e) =? 0)
  | S754_infinity _ | S754_nan => false
  end.

(** [ToPrimitive::to_i64]: truncates, [None] out of range. *)
Definition to_i64 (f : f64) : option Z :=
  match trunc f with Some z => if in_i64 z then Some z else None | None => None end.

(** [f64::from] for the narrower formats: the same number, in the format's normal form. *)
Definition f64_from (f : f64) : f64 :=
  match f with
  | S754_finite s m e => binary_normalize 53 1024 (if s then Z.neg m else Z.pos m) e s
  | _ => f
  end.

(** ** Scalars and columns *)

(** [datafusion_common::ScalarValue]: the variants the functions name. *)
Inductive ScalarValue :=
| SNull
| SBoolean (v : option bool)
| SInt (k : IntKind) (v : option Z)
| SFloat (k : FloatKind) (v : option f64)
| SUtf8 (k : Utf8Kind) (v : option string)
| SBinary (k : BinaryKind) (v : option (list byte))
| STemporal (k : TemporalKind) (v : option Z)
| SDecimal (k : DecimalKind) (precision scale : Z) (v : option Z)
| SDictionary (k : IntKind) (value : ScalarValue)
| SArray (a : ArrayRef).

(** [datafusion_expr::ColumnarValue]. *)
Inductive ColumnarValue :=
| Array (a : ArrayRef)
| Scalar (s : ScalarValue).

(** The code outside the repository that the encoders call. *)
Class ArrowExt := {
  base64_encode : list byte -> string;
  cast_float64 : ArrayRef -> result ArrowError ArrayRef;
  to_array_of_size : ScalarValue -> nat -> result ArrowError ArrayRef
}.

(** ** The encoders *)

Section encode.
Context `{ArrowExt}.

(** The loop of every encoder: null rows become [Null], the others are converted. *)
Definition encode_rows {A} (f : A -> outcome Value) (rows : list (option A)) : outcome Value :=
  result_map VArray
    (traverse (fun row => match row with Some v => f v | None => Ok VNull end) rows).

Definition encode_boolean_array (array : ArrayRef) : outcome Value :=
  match array with
  | ABoolean rows => encode_rows (fun b => Ok (VBool b)) rows
  | _ => invalid "Expected boolean array"
  end.

Definition encode_number (z : Z) : outcome Value := Ok (VNumber (number_from z)).

#[global] Instance IntKind_eq_dec : EqDecision IntKind.
Proof. solve_decision. Defined.

Definition encode_signed_array (T : IntKind) (array : ArrayRef) : outcome Value :=
  match array with
  | AInt k rows => if decide (k = T) then encode_rows encode_number rows else invalid "Expected primitive array"
  | _ => invalid "Expected primitive array"
  end.

(** [as_primitive] panics on another type. *)
Definition encode_unsigned_array (T : IntKind) (array : ArrayRef) : outcome Value :=
  match array with
  | AInt k rows => if decide (k = T) then encode_rows encode_number rows else Err Panic
  | _ => Err Panic
  end.

Definition invalid_float {A} : outcome A := invalid "Invalid float value".

Definition opt_float {A} (o : option A) : outcome A :=
  match o with Some a => Ok a | None => invalid_float end.

Definition encode_float16_array (array : ArrayRef) : outcome Value :=
  match array with
  | AFloat Float16 rows =>
      encode_rows (fun x =>
        let v := f64_from x in
        if fract_is_zero v then
          let? i := opt_float (to_i64 x) in Ok (VNumber (number_from i))
        else
          let? n := opt_float (number_from_f64 v) in Ok (VNumber n)) rows
  | _ => Err Panic
  end.

Definition encode_float32_array (array : ArrayRef) : outcome Value :=
  match array with
  | AFloat Float32 rows =>
      encode_rows (fun x =>
        if fract_is_zero x then
          let? i := opt_float (to_i64 x) in Ok (VNumber (number_from i))
        else
          let? n := opt_float (number_from_f64 (f64_from x)) in Ok (VNumber n)) rows
  | _ => Err Panic
  end.

Definition encode_float64_array (array : ArrayRef) : outcome Value :=
  match array with
  | AFloat Float64 rows =>
      encode_rows (fun x => let? n := opt_float (number_from_f64 x) in Ok (VNumber n)) rows
  | _ => Err Panic
  end.

Definition encode_utf8_array (array : ArrayRef) : outcome Value :=
  match array with
  | AUtf8 Utf8 rows => encode_rows (fun s => Ok (VString s)) rows
  | _ => Err Panic
  end.

Definition encode_large_utf8_array (array : ArrayRef) : outcome Value :=
  match array with
  | AUtf8 LargeUtf8 rows => encode_rows (fun s => Ok (VString s)) rows
  | _ => Err Panic
  end.

Definition encode_base64 (b : list byte) : outcome Value := Ok (VString (base64_encode b)).

Definition encode_binary_array (array : ArrayRef) : outcome Value :=
  match array with ABinary Binary rows => encode_rows encode_base64 rows | _ => Err Panic end.

Definition encode_large_binary_array (array : ArrayRef) : outcome Value :=
  match array with ABinary LargeBinary rows => encode_rows encode_base64 rows | _ => Err Panic end.

Definition encode_fixed_size_binary_array (array : ArrayRef) : outcome Value :=
  match array with ABinary (FixedSizeBinary _) rows => encode_rows encode_base64 rows | _ => Err Panic end.

Definition encode_binary_view_array (array : ArrayRef) : outcome Value :=
  match array with ABinary BinaryView rows => encode_rows encode_base64 rows | _ => Err Panic end.

Definition encode_utf8_view_array (array : ArrayRef) : outcome Value :=
  match array with
  | AUtf8 Utf8View rows => encode_rows (fun s => Ok (VString s)) rows
  | _ => invalid "Expected utf8 view array"
  end.

(** The four units are encoded alike. *)
Definition encode_timestamp_array (array : ArrayRef) : outcome Value :=
  match array with
  | ATemporal (Timestamp unit _) rows =>
      match unit with
      | Second => encode_rows encode_number rows
      | Millisecond => encode_rows encode_number rows
      | Microsecond => encode_rows encode_number rows
      | Nanosecond => encode_rows encode_number rows
      end
  | _ => invalid "Expected timestamp array"
  end.

Definition encode_date32_array (array : ArrayRef) : outcome Value :=
  match array with ATemporal Date32 rows => encode_rows encode_number rows | _ => Err Panic end.

Definition encode_date64_array (array : ArrayRef) : outcome Value :=
  match array with ATemporal Date64 rows => encode_rows encode_number rows | _ => Err Panic end.

Definition encode_time32_array (array : ArrayRef) : outcome Value :=
  match array with
  | ATemporal (Time32 unit) rows =>
      match unit with
      | Second => encode_rows encode_number rows
      | Millisecond => encode_rows encode_number rows
      | _ => raise (Invalid (ArraysSupportSecondAndMillisecondUnits "Time32" unit))
      end
  | _ => raise (Invalid (ExpectedArrayOfType "Time32" (data_type array)))
  end.

Definition encode_time64_array (array : ArrayRef) : outcome Value :=
  match array with
  | ATemporal (Time64 unit) rows =>
      match unit with
      | Microsecond => encode_rows encode_number rows
      | Nanosecond => encode_rows encode_number rows
      | _ => raise (Invalid (ArraysSupportSecondAndMillisecondUnits "Time64" unit))
      end
  | _ => raise (Invalid (ExpectedArrayOfType "Time64" (data_type array)))
  end.

Definition encode_duration_array (array : ArrayRef) : outcome Value :=
  match array with
  | ATemporal (Duration unit) rows =>
      match unit with
      | Second => encode_rows encode_number rows
      | Millisecond => encode_rows encode_number rows
      | Microsecond => encode_rows encode_number rows
      | Nanosecond => encode_rows encode_number rows
      end
  | _ => raise (Invalid (ExpectedArrayOfType "Duration" (data_type array)))
  end.

Definition is_signed (k : IntKind) : bool :=
  match k with Int8 | Int16 | Int32 | Int64 => true | _ => false end.

Definition encode_primitive_array (array : ArrayRef) : outcome Value :=
  match data_type array with
  | TInt k => if is_signed k then encode_signed_array k array else encode_unsigned_array k array
  | TFloat Float16 => encode_float16_array array
  | TFloat Float32 => encode_float32_array array
  | TFloat Float64 => encode_float64_array array
  | TTemporal (Timestamp _ _) => encode_timestamp_array array
  | TTemporal Date32 => encode_date32_array array
  | TTemporal Date64 => encode_date64_array array
  | TTemporal (Time32 _) => encode_time32_array array
  | TTemporal (Time64 _) => encode_time64_array array
  | TTemporal (Duration _) => encode_duration_array array
  | t => raise (Invalid (UnsupportedPrimitiveType t))
  end.

(** The fields every interval has. *)
Definition interval_object (unit : string) (fields : list (string * Z)) : Value :=
  VObject (foldl (fun obj f => map_insert (fst f) (VString (int_to_string (snd f))) obj)
             (map_insert "unit" (VString unit) (map_insert "type" (VString "interval") [])) fields).

Definition encode_interval_array (array : ArrayRef) : outcome Value :=
  match array with
  | AYearMonth rows => encode_rows (fun v => Ok (interval_object "YearMonth" [("value", v)])) rows
  | ADayTime rows =>
      encode_rows (fun '(days, milliseconds) =>
        Ok (interval_object "DayTime" [("days", days); ("milliseconds", milliseconds)])) rows
  | AMonthDayNano rows =>
      encode_rows (fun '(months, days, nanoseconds) =>
        Ok (interval_object "MonthDayNano" [("months", months); ("days", days); ("nanoseconds", nanoseconds)])) rows
  | _ => raise (Invalid (ExpectedArrayOfType "Interval" (data_type array)))
  end.

(** The dictionary's keys and values side by side, not its rows. *)
Definition encode_dictionary_array (rec : ArrayRef -> outcome Value) (K : IntKind) (array : ArrayRef) : outcome Value :=
  match array with
  | ADictionary k keys values =>
      if decide (k = K) then
        let? key_values := encode_primitive_array (AInt k keys) in
        let? value_values := rec values in
        Ok (VObject (map_insert "values" value_values (map_insert "keys" key_values [])))
      else Err Panic
  | _ => Err Panic
  end.

Definition encode_list_array (rec : ArrayRef -> outcome Value) (array : ArrayRef) : outcome Value :=
  match array with AList List_ _ rows => encode_rows rec rows | _ => Err Panic end.

Definition encode_list_view_array (rec : ArrayRef -> outcome Value) (array : ArrayRef) : outcome Value :=
  match array with AList ListView _ rows => encode_rows rec rows | _ => Err Panic end.

Definition encode_fixed_size_list_array (rec : ArrayRef -> outcome Value) (array : ArrayRef) : outcome Value :=
  match array with AList (FixedSizeList _) _ rows => encode_rows rec rows | _ => Err Panic end.

Definition encode_large_list_array (rec : ArrayRef -> outcome Value) (array : ArrayRef) : outcome Value :=
  match array with AList LargeList _ rows => encode_rows rec rows | _ => Err Panic end.

(** [encoded_array.get(i).unwrap()]. *)
Definition get_unwrap (v : Value) (i : nat) : outcome Value :=
  match get_index i v with Some w => Ok w | None => Err Panic end.

Definition struct_field (i : nat) (field : Value * string) : outcome (string * Value) :=
  let '(encoded_array, name) := field in
  let? encoded_value := get_unwrap encoded_array i in Ok (name, encoded_value).

(** One row of a struct: the fields in order, a repeated name overwriting the one before. *)
Definition struct_row (encoded_arrays : list (Value * string)) (i : nat) : outcome Value :=
  let? values := traverse (struct_field i) encoded_arrays in
  Ok (VObject (foldl (fun m '(name, v) => map_insert name v m) [] values)).

Definition encode_struct_array (rec : ArrayRef -> outcome Value) (array : ArrayRef) : outcome Value :=
  match array with
  | AStruct columns valid =>
      let? encoded := traverse (fun c => rec (snd c)) columns in
      let encoded_arrays := zip encoded (map fst columns) in
      encode_rows (struct_row encoded_arrays) (imap (fun i (ok : bool) => if ok then Some i else None) valid)
  | _ => Err Panic
  end.

(** [cast] to [Float64] first. *)
Definition encode_decimal128_array (array : ArrayRef) : outcome Value :=
  let? array := lift (cast_float64 array) in encode_float64_array array.

Definition encode_decimal256_array (array : ArrayRef) : outcome Value :=
  match array with
  | ADecimal256 _ _ rows =>
      encode_rows (fun '(low, high) =>
        Ok (VArray [VString (int_to_string low); VString (int_to_string high)])) rows
  | _ => Err Panic
  end.

(** The indices of the rows, [None] at the null ones. *)
Definition row_indices (a : ArrayRef) : list (option nat) :=
  map (fun i => if is_null a i then None else Some i) (seq 0 (len a)).

Definition encode_run_end_encoded_array (rec : ArrayRef -> outcome Value) (array : ArrayRef) : outcome Value :=
  encode_rows (fun i =>
    let? row := slice array i 1 in
    let? v := rec row in
    Ok (VObject (map_insert "value" v []))) (row_indices array).

Definition encode_map_array (rec : ArrayRef -> outcome Value) (array : ArrayRef) : outcome Value :=
  encode_rows (fun i =>
    let? m := slice array i 1 in
    let? v := rec m in
    Ok (VArray [VObject (map_insert "entries" v [])])) (row_indices array).

(** [UnionArray::child]: panics on a type that is not of the union. *)
Fixpoint union_child (children : list (Z * ArrayRef)) (type_id : Z) : outcome ArrayRef :=
  match children with
  | [] => Err Panic
  | (t, c) :: children => if t =? type_id then Ok c else union_child children type_id
  end.

Definition encode_union_array (rec : ArrayRef -> outcome Value) (array : ArrayRef) : outcome Value :=
  match array with
  | AUnion _ type_ids _ children =>
      encode_rows (fun '(i, type_id) =>
        let? child := union_child children type_id in
        let? row := slice child i 1 in
        let? v := rec row in
        Ok (VObject (map_insert "value" v (map_insert "type_id" (VNumber (number_from type_id)) []))))
        (imap (fun i type_id => Some (i, type_id)) type_ids)
  | _ => Err Panic
  end.

Definition encode_null_array (array : ArrayRef) : outcome Value :=
  match array with
  | ANull n => Ok (VArray (replicate n VNull))
  | _ => invalid "Expected null array"
  end.

(** The dispatch on the data type. *)
Fixpoint encode_array (fuel : nat) (array : ArrayRef) : outcome Value :=
  match fuel with
  | O => Err NoFuel
  | S fuel =>
      let rec := encode_array fuel in
      match data_type array with
      | TNull => encode_null_array array
      | TBoolean => encode_boolean_array array
      | TInt k => if is_signed k then encode_signed_array k array else encode_unsigned_array k array
      | TFloat Float16 => encode_float16_array array
      | TFloat Float32 => encode_float32_array array
      | TFloat Float64 => encode_float64_array array
      | TUtf8 Utf8 => encode_utf8_array array
      | TUtf8 LargeUtf8 => encode_large_utf8_array array
      | TBinary Binary => encode_binary_array array
      | TBinary LargeBinary => encode_large_binary_array array
      | TDictionary key_type _ => encode_dictionary_array rec key_type array
      | TTemporal (Timestamp _ _) => encode_timestamp_array array
      | TTemporal Date32 => encode_date32_array array
      | TTemporal Date64 => encode_date64_array array
      | TTemporal (Time32 _) => encode_time32_array array
      | TTemporal (Time64 _) => encode_time64_array array
      | TTemporal (Duration _) => encode_duration_array array
      | TInterval _ => encode_interval_array array
      | TList List_ _ => encode_list_array rec array
      | TList ListView _ => encode_list_view_array rec array
      | TList (FixedSizeList _) _ => encode_fixed_size_list_array rec array
      | TList LargeList _ | TList LargeListView _ => encode_large_list_array rec array
      | TStruct _ => encode_struct_array rec array
      | TDecimal _ _ _ => encode_decimal128_array array
      | TDecimal256 _ _ => encode_decimal256_array array
      | TBinary (FixedSizeBinary _) => encode_fixed_size_binary_array array
      | TBinary BinaryView => encode_binary_view_array array
      | TUtf8 Utf8View => encode_utf8_view_array array
      | TRunEndEncoded _ => encode_run_end_encoded_array rec array
      | TMap _ => encode_map_array rec array
      | TUnion _ _ => encode_union_array rec array
      end
  end.

(** [swap_remove(0)] panics on an empty vector. *)
Definition encode_scalar (fuel : nat) (scalar : ScalarValue) : outcome Value :=
  let? scalar_array := lift (to_array_of_size scalar 1) in
  let? encoded_array := encode_array fuel scalar_array in
  match encoded_array with
  | VArray (v :: _) => Ok v
  | VArray [] => Err Panic
  | _ => invalid "Expected array"
  end.

Definition encode_columnar_value (fuel : nat) (value : ColumnarValue) : outcome Value :=
  match value with
  | Array array => encode_array fuel array
  | Scalar scalar => encode_scalar fuel scalar
  end.

End encode.

(** ** The shape of an encoded array

    [shapes t] are two checks: on the encoding of one row of an array of type [t], and on that of
    the whole array. *)

Definition kind_range (k : IntKind) : Z * Z :=
  match k with
  | Int8 => (-128, 127) | Int16 => (-32768, 32767)
  | Int32 => (i32_min, i32_max) | Int64 => (i64_min, i64_max)
  | UInt8 => (0, 255) | UInt16 => (0, 65535) | UInt32 => (0, 4294967295) | UInt64 => (0, u64_max)
  end.

Definition in_kind (k : IntKind) (z : Z) : bool :=
  let '(lo, hi) := kind_range k in (lo <=? z) && (z <=? hi).

(** The integer a number is. *)
Definition as_int (n : Number) : option Z :=
  match n with PosInt z | NegInt z => Some z | Float _ => None end.

Definition int_value (p : Z -> bool) (v : Value) : bool :=
  match v with VNumber n => match as_int n with Some z => p z | None => false end | _ => false end.

Definition number_value (v : Value) : bool := match v with VNumber _ => true | _ => false end.
Definition string_value (v : Value) : bool := match v with VString _ => true | _ => false end.

Definition nullable (p : Value -> bool) (v : Value) : bool :=
  match v with VNull => true | _ => p v end.

Definition array_of (p : Value -> bool) (v : Value) : bool :=
  match v with VArray l => forallb p l | _ => false end.

Definition object_of (fields : list (string * (Value -> bool))) (v : Value) : bool :=
  match v with
  | VObject m =>
      (fix go fields m := match fields, m with
       | [], [] => true
       | (k, p) :: fields, (k', v) :: m => String.eqb k k' && p v && go fields m
       | _, _ => false
       end) fields m
  | _ => false
  end.

Definition interval_fields (u : IntervalUnit) : list (string * (Value -> bool)) :=
  map (fun k => (k, string_value))
    match u with
    | YearMonth => ["type"; "unit"; "value"]
    | DayTime => ["type"; "unit"; "days"; "milliseconds"]
    | MonthDayNano => ["type"; "unit"; "months"; "days"; "nanoseconds"]
    end.

Fixpoint shapes (t : DataType) : (Value -> bool) * (Value -> bool) :=
  let rows (p : Value -> bool) := (nullable p, array_of (nullable p)) in
  match t with
  | TNull => rows (fun _ => false)
  | TBoolean => rows (fun v => match v with VBool _ => true | _ => false end)
  | TInt k => rows (int_value (in_kind k))
  | TFloat _ | TDecimal _ _ _ => rows number_value
  | TUtf8 _ | TBinary _ => rows string_value
  | TTemporal _ => rows (int_value (fun _ => true))
  | TInterval u => rows (object_of (interval_fields u))
  | TDecimal256 _ _ => rows (fun v => match v with VArray [VString _; VString _] => true | _ => false end)
  | TDictionary k t =>
      let p := object_of [("keys", array_of (nullable (int_value (in_kind k)))); ("values", snd (shapes t))] in
      (fun _ => false, p)
  | TList _ t => rows (snd (shapes t))
  | TStruct fields => rows (object_of (map (fun f => (fst f, fst (shapes (snd f)))) fields))
  | TRunEndEncoded _ => rows (fun _ => false)
  | TMap _ => rows (fun _ => false)
  | TUnion fields _ =>
      rows (fun v => existsb (fun f =>
        object_of [("type_id", int_value (fun z => z =? fst f)); ("value", snd (shapes (snd f)))] v) fields)
  end.

(** One row and the whole of an array of type [t]. *)
Definition row_shape (t : DataType) : Value -> bool := fst (shapes t).
Definition array_shape (t : DataType) : Value -> bool := snd (shapes t).

(** The rows that hold no value: the null slots, and every row of a [NullArray]. *)
Definition logically_null (a : ArrayRef) (i : nat) : bool := match a with ANull _ => true | _ => is_null a i end.
Definition null_where (a : ArrayRef) (vs : list Value) : Prop :=
  forall i v, vs !! i = Some v -> v = VNull <-> logically_null a i = true.

Lemma array_shape_null t : array_shape t VNull = false.
Proof. by destruct t. Qed.

(** ** The arrays the encoders handle *)

Definition is_dictionary (a : ArrayRef) : bool := match a with ADictionary _ _ _ => true | _ => false end.

(** Finite, and an [i64] when it is a whole number. *)
Definition encodable_float (k : FloatKind) (f : f64) : bool :=
  is_finite f &&
  match k with
  | Float64 => true
  | Float32 => if fract_is_zero f then match to_i64 f with Some _ => true | None => false end
               else is_finite (f64_from f)
  | Float16 => if fract_is_zero (f64_from f) then match to_i64 f with Some _ => true | None => false end
               else is_finite (f64_from f)
  end.

Definition valid_temporal (k : TemporalKind) : bool :=
  match k with
  | Time32 Microsecond | Time32 Nanosecond | Time64 Second | Time64 Millisecond => false
  | _ => true
  end.

(** Every row that is not null satisfies [P]. *)
Definition all_rows {A} (P : A -> Prop) (rows : list (option A)) : Prop :=
  Forall (fun r => forall v, r = Some v -> P v) rows.

(** The arrays of a supported type whose parts fit together: numbers in the range of their type,
    columns as long as their struct and no dictionaries, list items of the list's type, the types of
    a sparse union among its children; no dense unions, no [LargeListView], no run and no map entry. *)
Inductive encodable : ArrayRef -> Prop :=
| encodable_null n : encodable (ANull n)
| encodable_boolean rows : encodable (ABoolean rows)
| encodable_int k rows : all_rows (fun z => in_kind k z = true) rows -> encodable (AInt k rows)
| encodable_float_ k rows : all_rows (fun f => encodable_float k f = true) rows -> encodable (AFloat k rows)
| encodable_utf8 k rows : encodable (AUtf8 k rows)
| encodable_binary k rows : encodable (ABinary k rows)
| encodable_dictionary k keys values :
    all_rows (fun z => in_kind k z = true) keys -> encodable values -> encodable (ADictionary k keys values)
| encodable_temporal k rows : valid_temporal k = true -> encodable (ATemporal k rows)
| encodable_year_month rows : encodable (AYearMonth rows)
| encodable_day_time rows : encodable (ADayTime rows)
| encodable_month_day_nano rows : encodable (AMonthDayNano rows)
| encodable_list k elem rows :
    k <> LargeListView -> all_rows (fun a => encodable a /\ data_type a = elem) rows ->
    encodable (AList k elem rows)
| encodable_struct columns valid :
    NoDup (map fst columns) ->
    Forall (fun c => encodable (snd c) /\ len (snd c) = length valid /\ is_dictionary (snd c) = false) columns ->
    encodable (AStruct columns valid)
| encodable_decimal k p s rows : encodable (ADecimal k p s rows)
| encodable_decimal256 p s rows : encodable (ADecimal256 p s rows)
| encodable_run_end run_ends values offset : encodable (ARunEnd run_ends values offset 0)
| encodable_map entries rows : Forall (fun r => r = None) rows -> encodable (AMap entries rows)
| encodable_union type_ids offsets children :
    Forall (fun c => encodable (snd c) /\ len (snd c) = length type_ids) children ->
    Forall (fun t => t ∈ map fst children) type_ids ->
    encodable (AUnion Sparse type_ids offsets children).

(** The nesting of an array: the recursive calls its encoding makes. *)
Fixpoint depth (a : ArrayRef) : nat :=
  match a with
  | ADictionary _ _ values => S (depth values)
  | AList _ _ rows =>
      S (list_max (map (fun r => match r with Some a => depth a | None => O end) rows))
  | AStruct columns _ => S (list_max (map (fun c => depth (snd c)) columns))
  | AUnion _ _ _ children => S (list_max (map (fun c => depth (snd c)) children))
  | _ => O
  end.

Lemma list_max_elem {A} (f : A -> nat) l x : x ∈ l -> (f x <= list_max (map f l))%nat.
Proof.
  intros Hx. assert (Forall (fun k => (k <= list_max (map f l))%nat) (map f l)) as H.
  { by apply list_max_le. }
  rewrite Forall_forall in H. apply H. by apply list_elem_of_fmap_2.
Qed.

(** ** Slicing *)

Lemma window_length {A} i n (l : list A) : (i + n <= length l)%nat -> length (window i n l) = n.
Proof. intros H. unfold window. rewrite length_take, length_drop. lia. Qed.

Lemma window_Forall {A} (P : A -> Prop) i n l : Forall P l -> Forall P (window i n l).
Proof. intros H. unfold window. by apply Forall_take, Forall_drop. Qed.

Lemma window_one {A} i (l : list A) x : l !! i = Some x -> window i 1 l = [x].
Proof. intros H. unfold window. rewrite (drop_S _ _ _ H). done. Qed.

(** The columns of a struct and the children of a union are less deep. *)
Lemma child_depth {K} (l : list (K * ArrayRef)) c m :
  c ∈ l -> (S (list_max (map (fun c => depth (snd c)) l)) < S m)%nat -> (depth (snd c) < m)%nat.
Proof. intros Hc Hm. pose proof (list_max_elem (fun c => depth (snd c)) l c Hc). simpl in *. lia. Qed.

Lemma children_types_slice {K} (l : list (K * ArrayRef)) i n :
  (forall c, c ∈ l -> data_type (slice_rows i n (snd c)) = data_type (snd c)) ->
  map (fun c => (fst c, data_type (snd c))) (map (fun c => (fst c, slice_rows i n (snd c))) l) =
  map (fun c => (fst c, data_type (snd c))) l.
Proof.
  intros H. rewrite map_map. apply map_ext_in. intros c Hin%list_elem_of_In. simpl. f_equal. auto.
Qed.

Lemma data_type_slice i n a m : (depth a < m)%nat -> encodable a -> data_type (slice_rows i n a) = data_type a.
Proof.
  revert a. induction m as [|m IH]; intros a Hm Ha; [lia|].
  inversion Ha as [| | | | | | | | | | | |cols valid Hnd Hc| | | | |ids offs ch Hch Hids]; subst; simpl in *; try done.
  - f_equal. apply children_types_slice. intros c Hin. rewrite Forall_forall in Hc.
    destruct (Hc c Hin). apply IH; [by eapply child_depth|done].
  - f_equal. apply children_types_slice. intros c Hin. rewrite Forall_forall in Hch.
    destruct (Hch c Hin). apply IH; [by eapply child_depth|done].
Qed.

Lemma slice_is_dictionary i n a : is_dictionary (slice_rows i n a) = is_dictionary a.
Proof. destruct a as [| | | | | | | | | | | | | | | | |[]]; done. Qed.

Lemma len_slice i n a : (i + n <= len a)%nat -> len (slice_rows i n a) = n.
Proof. destruct a as [| | | | | | | | | | | | | | | | |[]]; simpl; intros; try done; by apply window_length. Qed.

Lemma depth_slice i n a m : (depth a < m)%nat -> encodable a -> (depth (slice_rows i n a) <= depth a)%nat.
Proof.
  revert a. induction m as [|m IH]; intros a Hm Ha; [lia|].
  inversion Ha as [| | | | | | | | | | |k t rows Hk Hr|cols valid Hnd Hc| | | | |ids offs ch Hch Hids]; subst; simpl in *; try done.
  - apply le_n_S. apply list_max_le. apply Forall_forall. intros x Hx.
    apply list_elem_of_fmap in Hx as (r & -> & Hr').
    apply (list_max_elem (fun r => match r with Some a => depth a | None => O end)).
    eapply subseteq_take in Hr'; by eapply subseteq_drop in Hr'.
  - apply le_n_S. apply list_max_le. apply Forall_forall. intros x Hx. rewrite map_map in Hx.
    apply list_elem_of_fmap in Hx as (c & -> & Hin). simpl. rewrite Forall_forall in Hc. destruct (Hc c Hin).
    etrans; [apply IH; [by eapply child_depth|done]|]. by apply (list_max_elem (fun c : string * ArrayRef => depth (snd c))).
  - apply le_n_S. apply list_max_le. apply Forall_forall. intros x Hx. rewrite map_map in Hx.
    apply list_elem_of_fmap in Hx as (c & -> & Hin). simpl. rewrite Forall_forall in Hch. destruct (Hch c Hin).
    etrans; [apply IH; [by eapply child_depth|done]|]. by apply (list_max_elem (fun c : Z * ArrayRef => depth (snd c))).
Qed.

Lemma map_fst_slice {K} (l : list (K * ArrayRef)) i n :
  map fst (map (fun c => (fst c, slice_rows i n (snd c))) l) = map fst l.
Proof. by rewrite map_map. Qed.

Lemma encodable_slice i n a m : (depth a < m)%nat -> encodable a -> (i + n <= len a)%nat -> encodable (slice_rows i n a).
Proof.
  revert a. induction m as [|m IH]; intros a Hm Ha Hlen; [lia|].
  inversion Ha as [| | | | | | | | | | |k t rows Hk Hr|cols valid Hnd Hc| | | | |ids offs ch Hch Hids]; subst; simpl in *;
    try (constructor; unfold all_rows in *; auto using window_Forall; done).
  - constructor; [by rewrite map_fst_slice|]. apply Forall_map. eapply Forall_impl; [|exact (fun c H => H)].
    apply Forall_forall. intros c Hin. rewrite Forall_forall in Hc. destruct (Hc c Hin) as (He & Hl & Hd). simpl.
    rewrite slice_is_dictionary, len_slice, window_length by lia.
    split; [|done]. apply IH; [by eapply child_depth|done|lia].
  - replace n with 0%nat by lia. constructor.
  - constructor.
    + apply Forall_map. apply Forall_forall. intros c Hin. rewrite Forall_forall in Hch. destruct (Hch c Hin) as (He & Hl). simpl.
      rewrite len_slice, window_length by lia. split; [|done]. apply IH; [by eapply child_depth|done|lia].
    + rewrite map_fst_slice. by apply window_Forall.
Qed.

(** ** Encoding succeeds with the type's shape *)

(** What Arrow documents of the cast and of the conversion of scalars: a decimal becomes the nearest
    finite float and nulls stay; an array of size one has one row. *)
Class ArrowLaws `{ArrowExt} := {
  cast_decimal : forall k p s rows, exists fs,
    cast_float64 (ADecimal k p s rows) = Ok (AFloat Float64 fs) /\ length fs = length rows /\
    (forall i, row_null fs i = row_null rows i) /\ all_rows (fun f => is_finite f = true) fs;
  to_array_one : forall s a, to_array_of_size s 1 = Ok a -> len a = 1%nat
}.

Section encode_typed.
Context `{ArrowLaws}.

(** What [encode_array] returns for an array that is not a dictionary: its rows, each of the type's
    shape, and null where the row is null and nowhere else. *)
Definition encodes_rows (a : ArrayRef) (r : outcome Value) : Prop :=
  exists vs, r = Ok (VArray vs) /\ length vs = len a /\ forallb (row_shape (data_type a)) vs = true /\
    null_where a vs.

Lemma encode_rows_ok {A} (f : A -> outcome Value) rows (p : Value -> bool) : p VNull = false ->
  all_rows (fun v => exists w, f v = Ok w /\ p w = true) rows ->
  exists vs, encode_rows f rows = Ok (VArray vs) /\ length vs = length rows /\ forallb (nullable p) vs = true /\
    (forall i v, vs !! i = Some v -> v = VNull <-> row_null rows i = true).
Proof.
  intros Hn. unfold encode_rows. induction 1 as [|r rows Hr _ (vs & E & Hl & Hp & Hv)]; [by exists []|].
  simpl. destruct (traverse _ rows) as [vs'|] eqn:Et; [|done]. simpl in E. injection E as ->.
  destruct r as [v|]; simpl.
  - destruct (Hr v eq_refl) as (w & -> & Hw). simpl. exists (w :: vs). simpl. rewrite Hl, Hp.
    split; [done|]. split; [done|]. split; [by destruct w; simpl in *; rewrite ?Hw|].
    intros [|i] u; [|exact (Hv i u)]. intros [= <-]. split; [|done]. intros ->. congruence.
  - exists (VNull :: vs). simpl. rewrite Hl, Hp. split; [done|]. split; [done|]. split; [done|].
    intros [|i] u; [by intros [= <-]|exact (Hv i u)].
Qed.

(** The common case of the encoders: a loop over rows whose values have shape [p]. *)
Lemma encodes_rows_intro {A} (f : A -> outcome Value) rows (p : Value -> bool) a r :
  r = encode_rows f rows -> len a = length rows -> row_shape (data_type a) = nullable p -> p VNull = false ->
  (forall i, (i < length rows)%nat -> logically_null a i = row_null rows i) ->
  all_rows (fun v => exists w, f v = Ok w /\ p w = true) rows -> encodes_rows a r.
Proof.
  intros -> Hl Hs Hn Hnull Hr. destruct (encode_rows_ok f rows p Hn Hr) as (vs & E & L & F & Hv).
  exists vs. rewrite Hl, Hs. split_and!; [done..|]. intros i v Hi. rewrite Hnull; [by apply Hv|]. rewrite <- L. by eapply lookup_lt_Some.
Qed.

Lemma all_rows_impl {A} (P Q : A -> Prop) rows : all_rows P rows -> (forall v, P v -> Q v) -> all_rows Q rows.
Proof. intros HP HPQ. eapply Forall_impl; [exact HP|]. intros r Hr v Hv. auto. Qed.

Lemma all_rows_any {A} (P : A -> Prop) rows : (forall v, P v) -> all_rows P rows.
Proof. intros HP. apply Forall_forall. intros r _ v _. auto. Qed.

Lemma encode_number_shape p z : p z = true -> exists w, encode_number z = Ok w /\ int_value p w = true.
Proof.
  intros Hp. eexists. split; [done|]. simpl. unfold number_from. by destruct (z <? 0).
Qed.

Lemma encode_int_ok k rows (array := AInt k rows) :
  all_rows (fun z => in_kind k z = true) rows ->
  encodes_rows array (if is_signed k then encode_signed_array k array else encode_unsigned_array k array).
Proof.
  intros Hr. apply (encodes_rows_intro encode_number rows (int_value (in_kind k))); [|done..| |].
  - unfold array; simpl. destruct (is_signed k); by rewrite decide_True.
  - done.
  - eapply all_rows_impl; [exact Hr|]. apply encode_number_shape.
Qed.

Lemma encode_float_ok k rows : all_rows (fun f => encodable_float k f = true) rows ->
  encodes_rows (AFloat k rows) (match k with Float16 => encode_float16_array | Float32 => encode_float32_array
                                           | Float64 => encode_float64_array end (AFloat k rows)).
Proof.
  intros Hr. destruct k; (eapply (encodes_rows_intro _ rows number_value); [reflexivity..|]);
    (eapply all_rows_impl; [exact Hr|]); intros f [Hf Hk]%andb_true_iff; simpl in Hk |- *.
  - destruct (fract_is_zero (f64_from f)).
    + destruct (to_i64 f); [|done]. simpl. eauto.
    + unfold number_from_f64. rewrite Hk. simpl. eauto.
  - destruct (fract_is_zero f).
    + destruct (to_i64 f); [|done]. simpl. eauto.
    + unfold number_from_f64. rewrite Hk. simpl. eauto.
  - unfold number_from_f64. rewrite Hf. simpl. eauto.
Qed.

Lemma encode_temporal_ok k rows fuel : valid_temporal k = true ->
  encodes_rows (ATemporal k rows) (encode_array (S fuel) (ATemporal k rows)).
Proof.
  intros Hk. apply (encodes_rows_intro encode_number rows (int_value (fun _ => true))); [|done..|].
  - destruct k as [[] ?| | |[]|[]|[]]; done.
  - apply all_rows_any. intros z. by apply encode_number_shape.
Qed.

Lemma encode_interval_ok a fuel :
  match a with AYearMonth _ | ADayTime _ | AMonthDayNano _ => True | _ => False end ->
  encodes_rows a (encode_array (S fuel) a).
Proof.
  destruct a as [| | | | | | | |rows|rows|rows| | | | | | |]; intros Ha; try done.
  - eapply (encodes_rows_intro _ rows (object_of (interval_fields YearMonth))); [reflexivity..|].
    apply all_rows_any. intros v. eexists. split; [reflexivity|]. reflexivity.
  - eapply (encodes_rows_intro _ rows (object_of (interval_fields DayTime))); [reflexivity..|].
    apply all_rows_any. intros [d ms]. eexists. split; [reflexivity|]. reflexivity.
  - eapply (encodes_rows_intro _ rows (object_of (interval_fields MonthDayNano))); [reflexivity..|].
    apply all_rows_any. intros [[mo d] ns]. eexists. split; [reflexivity|]. reflexivity.
Qed.

Lemma encode_decimal_ok k p s rows fuel :
  encodes_rows (ADecimal k p s rows) (encode_array (S fuel) (ADecimal k p s rows)).
Proof.
  destruct (cast_decimal k p s rows) as (fs & E & L & Hnull & F). simpl. unfold encode_decimal128_array. rewrite E. simpl.
  apply (encodes_rows_intro (fun x => let? n := opt_float (number_from_f64 x) in Ok (VNumber n)) fs number_value);
    [done|by simpl|done|done|intros i _; symmetry; apply Hnull|].
  eapply all_rows_impl; [exact F|]. intros f Hf. simpl. unfold number_from_f64. rewrite Hf. simpl. eauto.
Qed.

Lemma row_indices_null a i : match a with ANull _ => False | _ => True end -> (i < length (row_indices a))%nat ->
  logically_null a i = row_null (row_indices a) i.
Proof.
  intros Ha Hi. unfold row_indices in *. rewrite length_map, length_seq in Hi. unfold row_null. rewrite list_lookup_fmap, lookup_seq_lt by done.
  cbn. destruct a; (done || (cbn [logically_null]; by destruct (is_null _ i))).
Qed.

(** Arrays without nested arrays. *)
Lemma encode_flat_ok a fuel : encodable a -> depth a = 0%nat -> encodes_rows a (encode_array (S fuel) a).
Proof.
  intros Ha Hd.
  inversion Ha as [n|rows|k rows Hr|k rows Hr|k rows|k rows| |k rows Hk| | | | | |k p s rows|p s rows|re vals off|t rows Hr|];
    subst; try discriminate Hd.
  - exists (replicate n VNull). split; [done|]. split; [apply length_replicate|].
    split; [clear Ha Hd; induction n; simpl in *; done|]. intros i v Hi. apply lookup_replicate in Hi as [-> _]. done.
  - eapply (encodes_rows_intro _ rows (fun v => match v with VBool _ => true | _ => false end)); [reflexivity..|].
    apply all_rows_any. eauto.
  - by apply encode_int_ok.
  - pose proof (encode_float_ok k rows Hr) as Hf. by destruct k.
  - apply (encodes_rows_intro (fun s => Ok (VString s)) rows string_value); [by destruct k|done..|]. apply all_rows_any. eauto.
  - apply (encodes_rows_intro encode_base64 rows string_value); [by destruct k|done..|]. apply all_rows_any. unfold encode_base64. eauto.
  - by apply encode_temporal_ok.
  - by apply encode_interval_ok.
  - by apply encode_interval_ok.
  - by apply encode_interval_ok.
  - apply encode_decimal_ok.
  - eapply (encodes_rows_intro _ rows (fun v => match v with VArray [VString _; VString _] => true | _ => false end)); [reflexivity..|].
    apply all_rows_any. intros [low high]. eauto.
  - exists []. done.
  - eapply (encodes_rows_intro _ (row_indices (AMap t rows)) (fun _ => false)); [reflexivity| |reflexivity..| |].
    { unfold row_indices. by rewrite length_map, length_seq. }
    { intros i. by apply row_indices_null. }
    apply Forall_map, Forall_forall. intros i Hi%elem_of_seq. simpl in *. unfold row_null.
    destruct (lookup_lt_is_Some_2 rows i ltac:(lia)) as [r Er]. rewrite Er.
    rewrite Forall_forall in Hr. apply list_elem_of_lookup_2, Hr in Er. by subst r.
Qed.

(** A row of a struct has its fields' names in order. *)
Lemma foldl_map_insert_fresh (kvs m : Map) :
  NoDup (keys_of (m ++ kvs)) -> foldl (fun m '(name, v) => map_insert name v m) m kvs = (m ++ kvs)%list.
Proof.
  revert m. induction kvs as [|[k v] kvs IH]; intros m Hnd; simpl; [by rewrite app_nil_r|].
  assert (map_insert k v m = (m ++ [(k, v)])%list) as ->.
  { unfold keys_of in Hnd. rewrite map_app in Hnd. apply NoDup_app in Hnd as (_ & Hnd & _).
    assert (k ∉ map fst m) as Hk by (intros Hk; apply (Hnd k Hk); simpl; by apply elem_of_cons; left).
    clear -Hk. induction m as [|[k' v'] m IH]; [done|]. simpl in *. rewrite not_elem_of_cons in Hk.
    rewrite (proj2 (String.eqb_neq k k')) by naive_solver. f_equal. apply IH. naive_solver. }
  rewrite IH; by rewrite <- app_assoc.
Qed.

(** The columns of a struct, each with its encoding. *)
Definition column_encoded (n : nat) (c : string * ArrayRef) (v : Value) : Prop :=
  exists vs, v = VArray vs /\ length vs = n /\ forallb (row_shape (data_type (snd c))) vs = true.

Lemma struct_row_ok columns encoded n i :
  NoDup (map fst columns) -> Forall2 (column_encoded n) columns encoded -> (i < n)%nat ->
  exists w, struct_row (zip encoded (map fst columns)) i = Ok w /\
    object_of (map (fun f => (fst f, fst (shapes (snd f)))) (map (fun c => (fst c, data_type (snd c))) columns)) w = true.
Proof.
  intros Hnd Hc Hi. unfold struct_row.
  assert (exists kvs, traverse (struct_field i) (zip encoded (map fst columns)) = Ok kvs /\ keys_of kvs = map fst columns /\
      object_of (map (fun f => (fst f, fst (shapes (snd f)))) (map (fun c => (fst c, data_type (snd c))) columns)) (VObject kvs) = true)
    as (kvs & -> & Hk & Ho).
  { clear Hnd. induction Hc as [|c v columns encoded (vs & -> & L & F) _ (kvs & E & Hk & Ho)]; [by exists []|].
    destruct (lookup_lt_is_Some_2 vs i ltac:(lia)) as [w Hw].
    assert (struct_field i (VArray vs, fst c) = Ok (fst c, w)) as Hf by (simpl; unfold get_unwrap; simpl; by rewrite Hw).
    exists ((fst c, w) :: kvs). cbn [map zip zip_with traverse]. rewrite Hf. simpl. rewrite E. simpl. rewrite Hk.
    split; [done|]. split; [done|]. rewrite String.eqb_refl. simpl in Ho. rewrite Ho.
    rewrite forallb_forall in F. apply list_elem_of_lookup_2, list_elem_of_In, F in Hw.
    unfold row_shape in Hw. by rewrite Hw. }
  exists (VObject kvs). simpl. split; [|done]. do 2 f_equal. rewrite foldl_map_insert_fresh; [done|].
  simpl. by rewrite Hk.
Qed.

(** What [encode_array] does on an array of the supported kinds. *)
Definition encodes (a : ArrayRef) (r : outcome Value) : Prop :=
  exists v, r = Ok v /\ array_shape (data_type a) v = true /\ (is_dictionary a = false -> encodes_rows a r).

Lemma encodes_of_rows a r : is_dictionary a = false -> encodes_rows a r -> encodes a r.
Proof.
  intros Hd Hr. destruct (Hr) as (vs & -> & L & F & _). exists (VArray vs). split; [done|]. split; [|done].
  unfold array_shape. unfold row_shape in F. destruct a; done.
Qed.

Lemma encode_struct_ok rec columns valid :
  NoDup (map fst columns) ->
  Forall (fun c => encodes_rows (snd c) (rec (snd c)) /\ len (snd c) = length valid) columns ->
  encodes_rows (AStruct columns valid) (encode_struct_array rec (AStruct columns valid)).
Proof.
  intros Hnd Hc. simpl.
  assert (exists encoded, traverse (fun c => rec (snd c)) columns = Ok encoded /\
            Forall2 (column_encoded (length valid)) columns encoded) as (encoded & -> & Henc).
  { clear Hnd. induction Hc as [|c columns [(vs & Hv & L & F & _) Hl] _ (encoded & E & HF)]; [by exists []|].
    exists (VArray vs :: encoded). simpl. rewrite Hv. simpl. rewrite E. split; [done|].
    constructor; [|done]. exists vs. by rewrite L. }
  simpl. eapply (encodes_rows_intro _ _ (object_of _)); [reflexivity|by rewrite length_imap|reflexivity|reflexivity| |].
  { intros i Hi. cbn [logically_null is_null]. unfold row_null. rewrite list_lookup_imap. by destruct (valid !! i) as [[]|]. }
  apply Forall_forall. intros r Hr i ->. apply list_elem_of_lookup_1 in Hr as [j Hj].
  rewrite list_lookup_imap in Hj. destruct (valid !! j) as [[]|] eqn:Ej; simplify_eq/=.
  apply (struct_row_ok columns encoded (length valid)); try done. by apply lookup_lt_Some in Ej.
Qed.

Lemma union_child_elem children t : t ∈ map fst children ->
  exists c, union_child children t = Ok c /\ (t, c) ∈ children.
Proof.
  induction children as [|[t' c'] children IH]; simpl; [by intros []%elem_of_nil|].
  intros [->|Ht]%elem_of_cons.
  - rewrite Z.eqb_refl. exists c'. split; [done|]. apply elem_of_cons. by left.
  - destruct (Z.eqb_spec t' t) as [->|]; [exists c'|destruct (IH Ht) as (c & -> & Hc); exists c];
      (split; [done|]); apply elem_of_cons; by (left + right).
Qed.

Lemma encode_union_ok rec type_ids offsets children :
  Forall (fun t => t ∈ map fst children) type_ids ->
  Forall (fun c => len (snd c) = length type_ids /\
    forall i, (i < length type_ids)%nat -> exists v, rec (slice_rows i 1 (snd c)) = Ok v /\
      array_shape (data_type (snd c)) v = true) children ->
  encodes_rows (AUnion Sparse type_ids offsets children)
    (encode_union_array rec (AUnion Sparse type_ids offsets children)).
Proof.
  intros Ht Hc. eapply (encodes_rows_intro _ _ (fun v => existsb (fun f =>
    object_of [("type_id", int_value (fun z => z =? fst f)); ("value", array_shape (snd f))] v)
    (map (fun c => (fst c, data_type (snd c))) children))); [reflexivity|by simpl; rewrite length_imap|reflexivity| | |].
  { induction (map (fun c => (fst c, data_type (snd c))) children) as [|x l IH]; [done|]. exact IH. }
  { intros i Hi. cbn [logically_null is_null]. unfold row_null. rewrite list_lookup_imap. by destruct (type_ids !! i). }
  apply Forall_forall. intros r Hr [i t] ->. apply list_elem_of_lookup_1 in Hr as [j Hj].
  rewrite list_lookup_imap in Hj. destruct (type_ids !! j) as [t'|] eqn:Ej; simplify_eq/=.
  pose proof (lookup_lt_Some _ _ _ Ej) as Hlt.
  rewrite Forall_forall in Ht. rewrite Forall_forall in Hc. apply list_elem_of_lookup_2, Ht in Ej.
  destruct (union_child_elem children t Ej) as (c & -> & Hin). simpl.
  destruct (Hc _ Hin) as (Hl & Hrec). simpl in *. destruct (Hrec i Hlt) as (v & Hv & Hs).
  unfold slice. destruct (Nat.leb_spec (i + 1) (len c)); [|lia]. simpl. rewrite Hv. simpl.
  eexists. split; [done|]. apply existsb_exists. exists (t, data_type c). split.
  - apply in_map_iff. exists (t, c). split; [done|]. by apply list_elem_of_In.
  - simpl. unfold number_from. rewrite Hs. destruct (t <? 0); simpl; by rewrite Z.eqb_refl.
Qed.

Lemma encode_dictionary_ok rec k keys values :
  all_rows (fun z => in_kind k z = true) keys -> encodes values (rec values) ->
  encodes (ADictionary k keys values) (encode_dictionary_array rec k (ADictionary k keys values)).
Proof.
  intros Hk (v & Hv & Hs & _). simpl. rewrite decide_True by done.
  destruct (encode_int_ok k keys Hk) as (ks & E & L & F & _).
  assert (encode_primitive_array (AInt k keys) = Ok (VArray ks)) as -> by done.
  simpl. rewrite Hv. simpl. eexists. split; [done|]. split; [|done].
  unfold array_shape. simpl. unfold array_shape in Hs. rewrite Hs. unfold row_shape in F. simpl in F. by rewrite F.
Qed.

(** The recursive calls reach only arrays of smaller depth. *)
Lemma encode_array_encodes fuel a : encodable a -> (depth a < fuel)%nat -> encodes a (encode_array fuel a).
Proof.
  revert a. induction fuel as [|fuel IH]; intros a Ha Hd; [lia|].
  destruct (depth a) as [|d] eqn:Edepth.
  { apply encodes_of_rows; [by destruct a|]. by apply encode_flat_ok. }
  inversion Ha as [| | | | | |k keys vals Hk Hv| | | | |k t rows Hk Hr|cols valid Hnd Hc| | | | |ids offs ch Hch Hids];
    subst; try discriminate Edepth; simpl in Edepth.
  - apply encode_dictionary_ok; [done|]. apply IH; [done|lia].
  - apply encodes_of_rows; [done|].
    eapply (encodes_rows_intro (encode_array fuel) rows (array_shape t)); [by destruct k|done|done|apply array_shape_null|done|].
    apply Forall_forall. intros r Hin x ->. unfold all_rows in Hr. rewrite Forall_forall in Hr.
    destruct (Hr _ Hin x eq_refl) as [Hx <-].
    pose proof (list_max_elem (fun r => match r with Some a => depth a | None => O end) rows _ Hin) as Hm. simpl in Hm.
    destruct (IH x Hx ltac:(lia)) as (v & E & Hs & _). eauto.
  - apply encodes_of_rows; [done|]. apply encode_struct_ok; [done|].
    apply Forall_forall. intros c Hin. rewrite Forall_forall in Hc. destruct (Hc c Hin) as (He & Hl & Hdict).
    split; [|done]. destruct (IH (snd c) He) as (v & E & Hs & Hrows); [|by apply Hrows].
    eapply child_depth; [done|]. lia.
  - apply encodes_of_rows; [done|]. apply encode_union_ok; [done|].
    apply Forall_forall. intros c Hin. rewrite Forall_forall in Hch. destruct (Hch c Hin) as (He & Hl).
    assert (depth (snd c) < fuel)%nat as Hdc by (eapply child_depth; [done|lia]).
    split; [done|]. intros i Hi.
    destruct (IH (slice_rows i 1 (snd c))) as (v & E & Hs & _).
    + apply (encodable_slice _ _ _ fuel); [done..|lia].
    + pose proof (depth_slice i 1 (snd c) fuel Hdc He). lia.
    + rewrite (data_type_slice i 1 (snd c) fuel Hdc He) in Hs. eauto.
Qed.

(** C17: Encoding terminates and is typed: for an array of the supported kinds, any fuel above its
    nesting depth gives a value, of the shape its data type prescribes; unless the array is a
    dictionary it is a JSON array with one element per row, each null or of the row's shape, and
    null exactly where the row of the array is. *)
Theorem encode_array_typed a fuel :
  encodable a -> (depth a < fuel)%nat ->
  exists v, encode_array fuel a = Ok v /\ array_shape (data_type a) v = true /\
    (is_dictionary a = false ->
     exists rows, v = VArray rows /\ length rows = len a /\ forallb (row_shape (data_type a)) rows = true /\
       forall i w, rows !! i = Some w -> w = VNull <-> logically_null a i = true).
Proof.
  intros Ha Hd. destruct (encode_array_encodes fuel a Ha Hd) as (v & E & Hs & Hr). exists v.
  split; [done|]. split; [done|]. intros Hdict. destruct (Hr Hdict) as (vs & E' & L & F & Hn). exists vs.
  rewrite E in E'. injection E' as ->. by split_and!.
Qed.

(** [encode_scalar] returns the one row of the scalar's array, of the row's shape; a scalar of
    a dictionary type is refused although its array is encoded. *)
Theorem encode_scalar_typed s a fuel :
  to_array_of_size s 1 = Ok a -> encodable a -> (depth a < fuel)%nat ->
  if is_dictionary a then encode_scalar fuel s = invalid "Expected array"
  else exists v, encode_scalar fuel s = Ok v /\ encode_array fuel a = Ok (VArray [v]) /\ row_shape (data_type a) v = true.
Proof.
  intros Hs Ha Hd. unfold encode_scalar. rewrite Hs. simpl.
  destruct (encode_array_encodes fuel a Ha Hd) as (v & E & Hsh & Hr). rewrite E. simpl.
  destruct (is_dictionary a) eqn:Ed.
  - destruct a; try discriminate Ed. by destruct v.
  - destruct (Hr eq_refl) as (vs & E' & L & F & _). rewrite (to_array_one s a Hs) in L.
    rewrite E in E'. injection E' as ->. destruct vs as [|w [|]]; try discriminate L.
    exists w. simpl in F. rewrite andb_true_r in F. done.
Qed.

End encode_typed.

Section encode_limits.
Context `{ArrowExt}.

Lemma encode_rows_stop {A} (f : A -> outcome Value) rows e :
  (forall v, Some v ∈ rows -> f v = Err e) -> (exists v, Some v ∈ rows) -> encode_rows f rows = Err e.
Proof.
  unfold encode_rows. intros Hf [v Hv]. induction rows as [|r rows IH]; [by apply elem_of_nil in Hv|].
  simpl. destruct r as [w|].
  - rewrite Hf by (apply elem_of_cons; by left). done.
  - simpl. apply elem_of_cons in Hv as [Hv|Hv]; [done|].
    assert (result_map VArray (traverse (fun row => match row with Some v => f v | None => Ok VNull end) rows) = Err e) as E.
    { apply IH; [|done]. intros u Hu. apply Hf. apply elem_of_cons. by right. }
    by destruct (traverse _ rows); simplify_eq/=.
Qed.

(** A row of a map or of a run-end encoded array is encoded by encoding an array of the same kind
    with one row. *)
Lemma encode_map_stop fuel entries rows : (exists m, Some m ∈ rows) -> encode_array fuel (AMap entries rows) = Err NoFuel.
Proof.
  revert rows. induction fuel as [|fuel IH]; intros rows [m Hm]; [done|].
  simpl. unfold encode_map_array. apply encode_rows_stop.
  - intros i Hi. unfold row_indices in Hi. apply list_elem_of_fmap in Hi as (j & E & Hj).
    apply elem_of_seq in Hj. simpl in *. unfold row_null in E.
    destruct (lookup_lt_is_Some_2 rows j ltac:(lia)) as [[x|] Ej]; rewrite Ej in E; simplify_eq.
    unfold slice. simpl.
    destruct (Nat.leb_spec (j + 1) (length rows)); [|lia]. simpl.
    rewrite (window_one _ _ _ Ej), IH; [done|]. exists x. by apply list_elem_of_singleton.
  - apply list_elem_of_lookup_1 in Hm as [i Hi]. exists i. unfold row_indices. apply list_elem_of_fmap.
    exists i. simpl. unfold row_null. rewrite Hi. split; [done|]. apply elem_of_seq. apply lookup_lt_Some in Hi. lia.
Qed.

Lemma encode_run_end_stop fuel run_ends values offset n :
  (0 < n)%nat -> encode_array fuel (ARunEnd run_ends values offset n) = Err NoFuel.
Proof.
  revert offset n. induction fuel as [|fuel IH]; intros offset n Hn; [done|].
  simpl. unfold encode_run_end_encoded_array. apply encode_rows_stop.
  - intros i Hi. unfold row_indices in Hi. apply list_elem_of_fmap in Hi as (j & E & Hj%elem_of_seq).
    simpl in *. simplify_eq. unfold slice. simpl. destruct (Nat.leb_spec (j + 1) n); [|lia]. simpl.
    by rewrite IH by lia.
  - exists 0%nat. unfold row_indices. apply list_elem_of_fmap. exists 0%nat. split; [done|]. apply elem_of_seq. simpl. lia.
Qed.

(** The encoders of maps and of run-end encoded arrays never return: encoding one row slices
    the array and encodes the slice, an array of the same type, with no base case.  No fuel is
    enough as soon as a map has a row that is not null or a run-end encoded array has a row. *)
Theorem encode_map_never_returns fuel entries rows run_ends values offset n :
  (exists m, Some m ∈ rows) -> (0 < n)%nat ->
  encode_array fuel (AMap entries rows) = Err NoFuel /\
  encode_array fuel (ARunEnd run_ends values offset n) = Err NoFuel.
Proof. intros Hr Hn. split; [by apply encode_map_stop|by apply encode_run_end_stop]. Qed.

(** A dense union whose row lies beyond the end of its child is never encoded: the child is
    sliced at the row's number in the union instead of at its offset. *)
Theorem encode_dense_union_fails fuel type_ids offsets children i t c :
  type_ids !! i = Some t -> union_child children t = Ok c -> (len c <= i)%nat ->
  forall v, encode_array fuel (AUnion Dense type_ids offsets children) <> Ok v.
Proof.
  intros Ht Hc Hl v. destruct fuel as [|fuel]; [done|]. simpl. unfold encode_rows.
  destruct (traverse _ _) as [vs|] eqn:E; [|done]. intros _. apply traverse_Ok in E.
  assert (imap (fun i type_id => Some (i, type_id)) type_ids !! i = Some (Some (i, t))) as Hi.
  { rewrite list_lookup_imap, Ht. done. }
  destruct (Forall2_lookup_l _ _ _ _ _ E Hi) as (w & _ & Hw). rewrite Hc in Hw. simpl in Hw.
  unfold slice in Hw. destruct (Nat.leb_spec (i + 1) (len c)); [lia|]. done.
Qed.

(** A whole number outside the range of [i64] is an error in a 32-bit column and a number in a
    64-bit one. *)
Theorem encode_float32_out_of_range f z rows fuel :
  is_finite f = true -> fract_is_zero f = true -> trunc f = Some z -> in_i64 z = false ->
  encode_array (S fuel) (AFloat Float32 (Some f :: rows)) = invalid "Invalid float value" /\
  encode_array (S fuel) (AFloat Float64 [Some f]) = Ok (VArray [VNumber (Float f)]).
Proof.
  intros Hf Hz Ht Hi. simpl. unfold encode_rows, number_from_f64. simpl. rewrite Hz, Hf. unfold to_i64.
  by rewrite Ht, Hi.
Qed.

End encode_limits.

(** ** An instance of the parameters *)

Module ArrowExample.

Definition base64_char (n : Z) : ascii :=
  let c := if n <? 26 then n + 65 else if n <? 52 then n + 71 else if n <? 62 then n - 4
           else if n =? 62 then 43 else 47 in
  ascii_of_nat (Z.to_nat c).

Fixpoint base64 (b : list Z) : string :=
  match b with
  | x :: y :: z :: b =>
      String (base64_char (x / 4)) (String (base64_char (x mod 4 * 16 + y / 16))
        (String (base64_char (y mod 16 * 4 + z / 64)) (String (base64_char (z mod 64)) (base64 b))))
  | [x; y] =>
      String (base64_char (x / 4)) (String (base64_char (x mod 4 * 16 + y / 16))
        (String (base64_char (y mod 16 * 4)) "="))
  | [x] => String (base64_char (x / 4)) (String (base64_char (x mod 4 * 16)) "==")
  | [] => ""
  end.

Definition decimal_to_float (scale z : Z) : f64 :=
  let f := SFdiv 53 1024 (binary_normalize 53 1024 z 0 false) (binary_normalize 53 1024 (10 ^ scale) 0 false) in
  if is_finite f then f else S754_zero false.

Definition cast (a : ArrayRef) : result ArrowError ArrayRef :=
  match a with
  | ADecimal _ _ scale rows => Ok (AFloat Float64 (map (option_map (decimal_to_float scale)) rows))
  | AFloat Float64 _ => Ok a
  | _ => Err (OtherError "cast")
  end.

Fixpoint to_array (s : ScalarValue) (n : nat) : result ArrowError ArrayRef :=
  match s with
  | SNull => Ok (ANull n)
  | SBoolean v => Ok (ABoolean (replicate n v))
  | SInt k v => Ok (AInt k (replicate n v))
  | SFloat k v => Ok (AFloat k (replicate n v))
  | SUtf8 k v => Ok (AUtf8 k (replicate n v))
  | SBinary k v => Ok (ABinary k (replicate n v))
  | STemporal k v => Ok (ATemporal k (replicate n v))
  | SDecimal k p s v => Ok (ADecimal k p s (replicate n v))
  | SDictionary k v => result_map (ADictionary k (replicate n (Some 0))) (to_array v 1)
  | SArray a => Ok (AList List_ (data_type a) (replicate n (Some a)))
  end.

#[global] Instance example_ext : ArrowExt := {|
  base64_encode b := base64 (map (fun x => Z.of_N (Byte.to_N x)) b);
  cast_float64 := cast;
  to_array_of_size := to_array |}.

#[global] Instance example_laws : ArrowLaws.
Proof.
  split.
  - intros k p s rows. eexists. split; [done|]. rewrite length_map. split; [done|].
    split; [intros i; unfold row_null; rewrite list_lookup_fmap; by destruct (rows !! i) as [[]|]|].
    apply Forall_map, Forall_forall. intros [z|] _ f [= <-]. unfold decimal_to_float.
    by destruct (is_finite (SFdiv _ _ _ _)) eqn:E.
  - intros s a E. destruct s as [| | | | | | | |k v|]; simpl in E; simplify_eq/=; try done.
    destruct (to_array v 1); simplify_eq/=. done.
Qed.

End ArrowExample.

Import ArrowExample.

(** Test vectors of the crate's own base64 engine's alphabet and padding. *)
Example base64_foobar : base64 [102; 111; 111; 98; 97; 114; 102] = "Zm9vYmFyZg==".
Proof. reflexivity. Qed.

(** Two rows of a struct of a number, a list of strings and a decimal; the second row is null. *)
Definition example_struct : ArrayRef :=
  AStruct [("id", AInt Int64 [Some 7; None]);
           ("tags", AList List_ (TUtf8 Utf8) [Some (AUtf8 Utf8 [Some "a"; None]); None]);
           ("price", ADecimal Decimal128 10 2 [Some 150; Some 1])] [true; false].

Example example_struct_encoded :
  encode_array 3 example_struct =
    Ok (VArray [VObject [("id", VNumber (PosInt 7)); ("tags", VArray [VString "a"; VNull]);
                         ("price", VNumber (Float (S754_finite false 6755399441055744 (-52))))]; VNull]).
Proof. vm_compute. reflexivity. Qed.

Lemma encode_array_typed_witness :
  exists v, encode_array 3 example_struct = Ok v /\ array_shape (data_type example_struct) v = true /\
    (is_dictionary example_struct = false ->
     exists rows, v = VArray rows /\ length rows = len example_struct /\
       forallb (row_shape (data_type example_struct)) rows = true /\
       forall i w, rows !! i = Some w -> w = VNull <-> logically_null example_struct i = true).
Proof.
  apply (encode_array_typed example_struct 3).
  - apply encodable_struct; [by apply (bool_decide_unpack (NoDup ["id"; "tags"; "price"]))|].
    repeat (apply Forall_cons; split; [split; [|by split]|]); [..|apply Forall_nil; done].
    + constructor. repeat (apply Forall_cons; split); try apply Forall_nil; [|done..]. by intros v [= <-].
    + constructor; [done|]. repeat (apply Forall_cons; split); try apply Forall_nil; [|done..].
      intros v [= <-]. split; [constructor|done].
    + constructor.
  - vm_compute. lia.
Defined.

Lemma encode_scalar_typed_witness :
  exists v, encode_scalar 1 (SInt Int64 (Some 7)) = Ok v /\
    encode_array 1 (AInt Int64 [Some 7]) = Ok (VArray [v]) /\ row_shape (data_type (AInt Int64 [Some 7])) v = true.
Proof.
  apply (encode_scalar_typed (SInt Int64 (Some 7)) (AInt Int64 [Some 7]) 1); [done| |vm_compute; lia].
  constructor. apply Forall_cons. split; [|by apply Forall_nil]. by intros v [= <-].
Defined.

Lemma encode_map_never_returns_witness :
  encode_array 1000 (AMap TNull [None; Some (ANull 0)]) = Err NoFuel /\
  encode_array 1000 (ARunEnd [3] (AInt Int64 [Some 1]) 0 3) = Err NoFuel.
Proof.
  apply (encode_map_never_returns 1000 TNull [None; Some (ANull 0)] [3] (AInt Int64 [Some 1]) 0 3); [|lia].
  exists (ANull 0). apply elem_of_cons. right. by apply list_elem_of_singleton.
Defined.

Lemma encode_dense_union_fails_witness :
  forall v, encode_array 5 (AUnion Dense [0; 1] [0%nat; 0%nat] [(0, AInt Int64 [Some 1]); (1, ABoolean [Some true])]) <> Ok v.
Proof. apply (encode_dense_union_fails 5 _ _ _ 1 1 (ABoolean [Some true])); [done..|]. simpl. lia. Defined.

(** 2 to the 70. *)
Lemma encode_float32_out_of_range_witness :
  encode_array 1 (AFloat Float32 [Some (S754_finite false 8388608 47)]) = invalid "Invalid float value" /\
  encode_array 1 (AFloat Float64 [Some (S754_finite false 8388608 47)]) =
    Ok (VArray [VNumber (Float (S754_finite false 8388608 47))]).
Proof. by apply (encode_float32_out_of_range (S754_finite false 8388608 47) (2 ^ 70) [] 0). Defined.
