(* ===== verification/SessionParams.v ===== *)
(** * Session parameters

    [functions/src/session_params.rs]: the properties of a session, the constructors that turn
    literals, scalars and ALTER SESSION options into properties, and the values queries read from
    them.  The map is shared between the session's configuration and the functions that were
    registered with it (a clone of [SessionParams] shares its [DashMap]), so that one value models
    both.  The syntax of SQL values and the text of scalars belong to libraries. *)

From Stdlib Require Import ZArith Lia Ascii String.
From stdpp Require Import base option list gmap strings.
From S2P Require Import Prelude Utf8 JsonValue JsonEncode.

Open Scope string_scope.
Open Scope Z_scope.

#[local] Arguments String.append : simpl nomatch.

(** ** [sqlparser]'s values and options *)

(** [sqlparser::ast::Value]: numbers keep their text and whether it ends in [L]; [Text] stands for the
    string literals of every quoting style, [Other] for placeholders, null and the rest. *)
Module SqlValue.
Inductive t :=
| Number (text : string) (long : bool)
| Boolean (b : bool)
| SingleQuotedString (text : string)
| Text (style : nat) (text : string)
| Other (id : nat).

(** [Value::into_string]: the text of a string literal. *)
Definition into_string (v : t) : option string :=
  match v with SingleQuotedString s | Text _ s => Some s | _ => None end.
End SqlValue.

(** [KeyValueOptionKind], with the options of the nested case as text. *)
Module KeyValueOptionKind.
Inductive t := Single (v : SqlValue.t) | Multi (values : list SqlValue.t) | KeyValueOptions (display : string).
End KeyValueOptionKind.

Record KeyValueOption := mkOption { option_name : string; option_value : KeyValueOptionKind.t }.

(** [ToString] of values and scalars, and [f64]'s text. *)
Class SqlText := {
  value_to_string : SqlValue.t -> string;
  scalar_to_string : ScalarValue -> string;
  float_to_string : f64 -> string;
  parse_float : string -> option f64 }.

(** What their documentation says: a number prints as written, a Boolean as a keyword and a string
    literal with its quotes, doubled inside; no text of a float that is not a whole number is an
    integer, and its text is read back. *)
Class SqlTextLaws `{SqlText} : Prop := {
  number_text : forall s, value_to_string (SqlValue.Number s false) = s;
  boolean_text : forall b : bool, value_to_string (SqlValue.Boolean b) = if b then "true" else "false";
  quoted_text : forall s, str_all (fun c => negb (Ascii.eqb c "'")) s = true -> value_to_string (SqlValue.SingleQuotedString s) = "'" ++ s ++ "'";
  float_round_trip : forall f, parse_float (float_to_string f) = Some f }.

(** ** Properties *)
Record SessionProperty := mkProperty {
  session_id : option string;
  created_on : Z;
  updated_on : Z;
  value : string;
  property_type : string;
  comment : option string;
  name : string }.

(** [SessionParams], the shared map. *)
Notation SessionParams := (gmap string SessionProperty).

Section properties.
Context `{SqlText}.

(** Every constructor reads the clock once: [now]. *)
Definition property (now : Z) (session_id : option string) (value property_type name : string) : SessionProperty :=
  mkProperty session_id now now value property_type None name.

Definition from_key_value (now : Z) (option : KeyValueOption) (session_id : string) : SessionProperty :=
  let '(value, property_type) :=
    match option.(option_value) with
    | KeyValueOptionKind.Single v =>
        (value_to_string v,
         match v with SqlValue.Boolean _ => "boolean" | SqlValue.Number _ _ => "fixed" | _ => "text" end)
    | KeyValueOptionKind.Multi values => (join "," (map value_to_string values), "text")
    | KeyValueOptionKind.KeyValueOptions opts => (opts, "text")
    end in
  property now (Some session_id) value property_type option.(option_name).

Definition from_value (now : Z) (name : string) (option : SqlValue.t) (session_id : string) : SessionProperty :=
  property now (Some session_id)
    match option with
    | SqlValue.Number _ _ | SqlValue.Boolean _ => value_to_string option
    | _ => default "" (SqlValue.into_string option)
    end
    match option with SqlValue.Number _ _ => "fixed" | SqlValue.Boolean _ => "boolean" | _ => "text" end
    name.

Definition from_scalar_value (now : Z) (name : string) (value : ScalarValue) (session_id : string) : SessionProperty :=
  let '(property_type, value) :=
    match value with
    | SBoolean (Some b) => ("boolean", if b : bool then "true" else "false")
    | SInt Int64 (Some i) => ("fixed", int_to_string i)
    | SFloat Float64 (Some f) => ("fixed", float_to_string f)
    | _ => ("text", scalar_to_string value)
    end in
  property now (Some session_id) value property_type name.

Definition from_str_value (now : Z) (name value : string) (session_id : option string) : SessionProperty :=
  property now session_id value "text" name.

(** [str::parse::<bool>]. *)
Definition parse_bool_exact (s : string) : option bool :=
  if String.eqb s "true" then Some true else if String.eqb s "false" then Some false else None.

Definition to_scalar_value (self : SessionProperty) : option ScalarValue :=
  if String.eqb self.(property_type) "boolean" then (fun b => SBoolean (Some b)) <$> parse_bool_exact self.(value)
  else if String.eqb self.(property_type) "fixed" then
    match parse_i64 self.(value) with
    | Some i => Some (SInt Int64 (Some i))
    | None => (fun f => SFloat Float64 (Some f)) <$> parse_float self.(value)
    end
  else if String.eqb self.(property_type) "text" then Some (SUtf8 Utf8 (Some self.(value)))
  else None.

(** ** The parameters of a session *)

(** [for (key, value) in properties { self.properties.insert(key, value) }]. *)
Definition set_properties (self properties : SessionParams) : SessionParams :=
  map_fold (fun k v m => <[k := v]> m) self properties.

Definition remove_properties (self properties : SessionParams) : SessionParams :=
  map_fold (fun k _ m => delete k m) self properties.

Definition get_property (self : SessionParams) (key : string) : option string := value <$> self !! key.

(** [ExtensionOptions::set] and [entries], and the values bound to the placeholders of a plan. *)
Definition set (now : Z) (self : SessionParams) (key val : string) : SessionParams :=
  <[key := from_str_value now key val None]> self.

Definition entries (self : SessionParams) : list (string * option string) :=
  map (fun e => ("session_params." ++ fst e, Some (snd e).(value))) (map_to_list self).

Definition param_values (self : SessionParams) : gmap string ScalarValue := omap to_scalar_value self.

(** [.map_or_else(|| 0, |v| v.parse::<usize>().unwrap_or(0))]: how the functions read a number. *)
Definition usize_property (self : SessionParams) (key : string) : Z :=
  match get_property self key with
  | None => 0
  | Some v => match parse_usize v with Some n => Z.of_nat n | None => 0 end
  end.

(** Setting and removing are the operations on maps. *)
Lemma set_properties_lookup self properties k : set_properties self properties !! k = properties !! k ∪ self !! k.
Proof.
  unfold set_properties. apply (map_fold_weak_ind (fun r m => r !! k = m !! k ∪ self !! k)).
  - rewrite lookup_empty. by destruct (self !! k).
  - intros i x m r _ IH. destruct (decide (i = k)) as [->|Hne].
    + rewrite !lookup_insert_eq. by destruct (self !! k).
    + by rewrite !lookup_insert_ne, IH by done.
Qed.

Lemma remove_properties_lookup self properties k :
  remove_properties self properties !! k = match properties !! k with Some _ => None | None => self !! k end.
Proof.
  unfold remove_properties. apply (map_fold_weak_ind (fun r m => r !! k = match m !! k with Some _ => None | None => self !! k end)).
  - by rewrite lookup_empty.
  - intros i x m r _ IH. destruct (decide (i = k)) as [->|Hne].
    + by rewrite lookup_delete_eq, lookup_insert_eq.
    + by rewrite lookup_delete_ne, lookup_insert_ne, IH by done.
Qed.

Context `{!SqlTextLaws}.

(** The value of a placeholder: the scalar itself, except for floats whose text is that of an integer,
    and for the other scalars the string of their text. *)
Definition placeholder_value (s : ScalarValue) : ScalarValue :=
  match s with
  | SBoolean (Some _) | SInt Int64 (Some _) => s
  | SFloat Float64 (Some f) => match parse_i64 (float_to_string f) with Some i => SInt Int64 (Some i) | None => s end
  | _ => SUtf8 Utf8 (Some (scalar_to_string s))
  end.

Definition scalar_fits (s : ScalarValue) : bool :=
  match s with SInt Int64 (Some i) => in_i64 i | _ => true end.

Lemma scalar_placeholder now n s id :
  scalar_fits s = true -> to_scalar_value (from_scalar_value now n s id) = Some (placeholder_value s).
Proof.
  intros Hf. destruct s as [|[b|]|[] [i|]|[] [f|]| | | | | |]; try done.
  - by destruct b.
  - unfold to_scalar_value, from_scalar_value. cbn -[int_to_string parse_i64]. by rewrite parse_int_to_string.
  - unfold to_scalar_value, from_scalar_value. cbn. destruct (parse_i64 _); [done|]. by rewrite float_round_trip.
Qed.

(** A number read from a property that was set to its text. *)
Lemma usize_property_set self now k n id :
  Z.of_nat n <= u64_max ->
  usize_property (<[k := from_str_value now k (nat_to_string n) id]> self) k = Z.of_nat n.
Proof. intros Hn. unfold usize_property, get_property. rewrite lookup_insert_eq. cbn. by rewrite parse_usize_to_string. Qed.
End properties.
