(* ===== verification/DateParts.v ===== *)
(** * Parts of dates: extraction, week numbering, construction, time zones

    The rest of [crates/functions/src/datetime]: [date_part_extract.rs] (YEAR, WEEK, DAYOFWEEK and the
    like, which depend on the session's [week_start] and [week_of_year_policy]),
    [timestamp_from_parts.rs], [date_from_parts.rs], [time_from_parts.rs], [convert_timezone.rs],
    [dayname.rs] and [monthname.rs].  [chrono] is the interface of [Calendar], timestamps and time
    zones are classes with the laws the crate documents.  Integers wrap at their width; the loops
    that search a weekday take fuel, and the theorems show that a week of it is enough. *)

From Stdlib Require Import ZArith Lia Ascii String.
From stdpp Require Import base option list gmap strings numbers.
From S2P Require Import Prelude Calendar DateTime JsonValue SessionParams.

Local Open Scope rust_scope.

(** ** The intervals *)
Module Interval.
Inductive t :=
| Year | YearOfWeek | YearOfWeekIso | Day | DayOfMonth | DayOfWeek | DayOfWeekIso | DayOfYear
| Week | WeekOfYear | WeekIso | Month | Quarter | Hour | Minute | Second.
End Interval.

Definition interval_name (i : Interval.t) : string :=
  match i with
  | Interval.Year => "year"
  | Interval.YearOfWeek => "yearofweek"
  | Interval.YearOfWeekIso => "yearofweekiso"
  | Interval.Day => "day"
  | Interval.DayOfMonth => "dayofmonth"
  | Interval.DayOfWeek => "dayofweek"
  | Interval.DayOfWeekIso => "dayofweekiso"
  | Interval.DayOfYear => "dayofyear"
  | Interval.Week => "week"
  | Interval.WeekOfYear => "weekofyear"
  | Interval.WeekIso => "weekiso"
  | Interval.Month => "month"
  | Interval.Quarter => "quarter"
  | Interval.Hour => "hour"
  | Interval.Minute => "minute"
  | Interval.Second => "second"
  end.

(** [Weekday::num_days_from_monday]. *)
Definition days_from_monday (w : Weekday) : Z :=
  match w with Mon => 0 | Tue => 1 | Wed => 2 | Thu => 3 | Fri => 4 | Sat => 5 | Sun => 6 end.

#[global] Instance Weekday_eq_dec : EqDecision Weekday.
Proof. solve_decision. Defined.

Lemma days_from_monday_of d : 0 <= d < 7 -> days_from_monday (weekday_of d) = d.
Proof.
  intros Hd. assert (d = 0 \/ d = 1 \/ d = 2 \/ d = 3 \/ d = 4 \/ d = 5 \/ d = 6) as Hc by lia.
  repeat (destruct Hc as [->|Hc]; [reflexivity|]). by subst.
Qed.

Lemma days_from_monday_inj w w' : days_from_monday w = days_from_monday w' -> w = w'.
Proof. by destruct w, w'. Qed.

Lemma days_from_monday_range w : 0 <= days_from_monday w < 7.
Proof. destruct w; simpl; lia. Qed.

Definition week_start_to_weekday (week_start : Z) : Weekday :=
  if week_start =? 1 then Mon else if week_start =? 2 then Tue else if week_start =? 3 then Wed
  else if week_start =? 4 then Thu else if week_start =? 5 then Fri else if week_start =? 6 then Sat
  else if week_start =? 7 then Sun else Mon.

(** ** Timestamps: [DateTime::<Utc>] as the date and time of day in UTC *)
Class Timestamps {C : Chrono} := {
  from_timestamp_nanos : Z -> NaiveDateTime;
  timestamp_nanos_opt : NaiveDateTime -> option Z }.

Definition nanos_per_day : Z := 86400000000000.
Definition epoch_ce : Z := 719163.

Class TimestampsLaws {C : Chrono} {CD : ChronoDays} {T : Timestamps} : Prop := {
  from_nanos_date : forall ts, in_i64 ts = true ->
    num_days_from_ce (from_timestamp_nanos ts).(date) = epoch_ce + ts / nanos_per_day;
  from_nanos_time : forall ts, in_i64 ts = true -> (from_timestamp_nanos ts).(time) = ts mod nanos_per_day;
  nanos_opt_spec : forall dt, timestamp_nanos_opt dt =
    let n := (num_days_from_ce dt.(date) - epoch_ce) * nanos_per_day + dt.(time) in
    if in_i64 n then Some n else None }.

(** [Timelike]: the parts of the time of day. *)
Definition hour {C : Chrono} (dt : NaiveDateTime) : Z := dt.(time) / 3600000000000.
Definition minute {C : Chrono} (dt : NaiveDateTime) : Z := dt.(time) / 60000000000 mod 60.
Definition second {C : Chrono} (dt : NaiveDateTime) : Z := dt.(time) / 1000000000 mod 60.

(** An array of one row becomes a scalar. *)
Inductive column (A : Type) := Rows (rows : list A) | One (v : A).
Arguments Rows {A} rows.
Arguments One {A} v.

Definition column_rows {A} (c : column A) : list A := match c with Rows rows => rows | One v => [v] end.

Definition finish {A} (rows : list A) : column A := match rows with [v] => One v | _ => Rows rows end.

Definition over_nulls {A B} (f : A -> result dt_error B) (row : option A) : result dt_error (option B) :=
  match row with None => Ok None | Some v => result_map Some (f v) end.

Section extract.
Context {C : Chrono} {CD : ChronoDays}.

(** [(a - b).num_days()], [num_weeks()] and [a < b] on dates. *)
Definition days_between (a b : NaiveDate) : Z := num_days_from_ce a - num_days_from_ce b.
Definition num_weeks (a b : NaiveDate) : Z := Z.quot (days_between a b) 7.
Definition date_lt (a b : NaiveDate) : bool := num_days_from_ce a <? num_days_from_ce b.

Definition native_datetime : dt_error := CantCastTo "native_datetime".

(** [D + Duration::days(n)]: panics outside the calendar. *)
Definition plus_days (D : NaiveDate) (n : Z) : result dt_error NaiveDate := ok_or (checked_add_days D n) Panicked.

(** [while going(D)? { D = step(D)? }]. *)
Fixpoint while_date (fuel : nat) (going : NaiveDate -> result dt_error bool) (step : NaiveDate -> option NaiveDate)
  (D : NaiveDate) : result dt_error NaiveDate :=
  match fuel with
  | O => Err OutOfFuel
  | S fuel =>
      let? b := going D in
      if b : bool then
        let? D' := ok_or (step D) native_datetime in
        while_date fuel going step D'
      else Ok D
  end.

(** The days of a week, and one more test. *)
Definition week_fuel : nat := 8.

Definition calculate_day_of_week (D : NaiveDate) (week_start : Z) : Z :=
  let start_weekday := week_start_to_weekday week_start in
  let current_weekday := weekday D in
  let dow := Z.rem (days_from_monday current_weekday - days_from_monday start_weekday + 7) 7 in
  if (week_start =? 0) && (dow =? 6) then 0 else dow + 1.

(** The first week of the year as both functions below compute it for other starts than Monday. *)
Definition first_week_start (y : Z) (start_weekday : Weekday) : result dt_error NaiveDate :=
  let? jan1 := ok_or (from_ymd_opt y 1 1) native_datetime in
  let? first := while_date week_fuel (fun D => Ok (negb (bool_decide (weekday D = start_weekday)))) succ_opt jan1 in
  let days_before_first_week := days_between first jan1 in
  if 3 <? days_before_first_week then plus_days first 7 else Ok first.

Fixpoint calculate_week_of_year (fuel : nat) (D : NaiveDate) (week_start week_of_year_policy : Z) : result dt_error Z :=
  match fuel with
  | O => Err OutOfFuel
  | S fuel =>
      if week_of_year_policy =? 0 then
        let start_weekday := week_start_to_weekday week_start in
        if (week_start =? 0) || (week_start =? 1) then Ok (snd (iso_week D))
        else
          let? first := first_week_start (year D) start_weekday in
          if date_lt D first then
            let? prev_dec31 := ok_or (from_ymd_opt (wrap_i32 (year D - 1)) 12 31) native_datetime in
            calculate_week_of_year fuel prev_dec31 week_start week_of_year_policy
          else Ok (wrap_i32 (wrap_i32 (num_weeks D first) + 1))
      else if week_of_year_policy =? 1 then
        let? jan1 := ok_or (from_ymd_opt (year D) 1 1) native_datetime in
        let start_weekday := week_start_to_weekday week_start in
        let? _ := while_date week_fuel
          (fun first =>
             if bool_decide (weekday first = start_weekday) then Ok false
             else let? bound := plus_days jan1 (-7) in Ok (date_lt bound first))
          pred_opt jan1 in
        let? first :=
          (if bool_decide (weekday jan1 = start_weekday) then Ok jan1
           else
             let days_to_subtract := Z.rem (days_from_monday (weekday jan1) - days_from_monday start_weekday + 7) 7 in
             plus_days jan1 (- days_to_subtract)) in
        Ok (wrap_i32 (wrap_i32 (num_weeks D first) + 1))
      else Ok (snd (iso_week D))
  end.

Definition calculate_year_of_week (D : NaiveDate) (week_start week_of_year_policy : Z) : result dt_error Z :=
  if week_of_year_policy =? 0 then
    let start_weekday := week_start_to_weekday week_start in
    if (week_start =? 0) || (week_start =? 1) then Ok (fst (iso_week D))
    else
      let? first := first_week_start (year D) start_weekday in
      if date_lt D first then Ok (wrap_i32 (year D - 1)) else Ok (year D)
  else if week_of_year_policy =? 1 then Ok (year D)
  else Ok (fst (iso_week D)).

(** The first call asks the previous year at most once. *)
Definition week_of_year (D : NaiveDate) (week_start week_of_year_policy : Z) : result dt_error Z :=
  calculate_week_of_year 2 D week_start week_of_year_policy.

Context {T : Timestamps}.

(** One row of [DatePartExtractFunc::invoke_with_args]. *)
Definition date_part_value (interval : Interval.t) (week_start week_of_year_policy ts : Z) : result dt_error Z :=
  let naive := from_timestamp_nanos ts in
  let D := naive.(date) in
  match interval with
  | Interval.Year => Ok (year D)
  | Interval.YearOfWeekIso => Ok (fst (iso_week D))
  | Interval.YearOfWeek => calculate_year_of_week D week_start week_of_year_policy
  | Interval.Day | Interval.DayOfMonth => Ok (day D)
  | Interval.DayOfWeek => Ok (calculate_day_of_week D week_start)
  | Interval.DayOfWeekIso => Ok (num_days_from_monday D + 1)
  | Interval.DayOfYear => Ok (ordinal D - 1)
  | Interval.Week | Interval.WeekOfYear => week_of_year D week_start week_of_year_policy
  | Interval.WeekIso => Ok (snd (iso_week D))
  | Interval.Month => Ok (month D)
  | Interval.Quarter => Ok ((month D - 1) / 3 + 1)
  | Interval.Hour => Ok (hour naive)
  | Interval.Minute => Ok (minute naive)
  | Interval.Second => Ok (second naive)
  end.

(** [DatePartExtractFunc::invoke_with_args] on the rows cast to nanoseconds; the session parameters are
    read again for every row. *)
Definition date_part_invoke (session_params : SessionParams) (interval : Interval.t) (arg : column (option Z)) :
  result dt_error (column (option Z)) :=
  let? rows := traverse (over_nulls (fun ts =>
      date_part_value interval (usize_property session_params "week_start")
        (usize_property session_params "week_of_year_policy") ts)) (column_rows arg) in
  Ok (finish rows).

(** ** [dayname.rs] and [monthname.rs] *)
Definition dayname (dt : NaiveDateTime) : string :=
  match weekday dt.(date) with
  | Mon => "Mon" | Tue => "Tue" | Wed => "Wed" | Thu => "Thu" | Fri => "Fri" | Sat => "Sat" | Sun => "Sun"
  end.

Definition dayname_row (row : option Z) : result dt_error string :=
  match row with
  | None => Err (ExecErr "First argument must be a timestamp with nanosecond precision")
  | Some ts => Ok (dayname (from_timestamp_nanos ts))
  end.

Definition dayname_invoke (arg : column (option Z)) : result dt_error (column string) :=
  result_map finish (traverse dayname_row (column_rows arg)).

(** The format [%b] of [chrono]. *)
Definition month_abbreviation (m : Z) : string :=
  default "" (["Jan"; "Feb"; "Mar"; "Apr"; "May"; "Jun"; "Jul"; "Aug"; "Sep"; "Oct"; "Nov"; "Dec"] !! Z.to_nat (m - 1)).

Definition monthname_invoke (arg : column (option Z)) : column (option string) :=
  Rows (map (fmap (fun ts => month_abbreviation (month (from_timestamp_nanos ts).(date)))) (column_rows arg)).
End extract.

(** ** [timestamp_from_parts.rs] *)

(** Arguments: numbers as the buffer of an Arrow array with its validity, which [value(i)] does not look
    at, or a scalar; and texts. *)
Record PrimitiveArray := mkPrimitive { values : list Z; validity : list bool }.

Inductive part_arg :=
| PartArray (a : PrimitiveArray)
| PartScalar (v : option Z)
| TextArray (rows : list string)
| TextScalar (v : string).

Inductive part_type := Int32Part | Int64Part | Date32Part | Time64Part.

(** Arrow's casts, the array of one row a scalar becomes, and the names of time zones. *)
Class PartCasts := {
  cast_to : part_type -> part_arg -> result dt_error part_arg;
  scalar_to_array : option Z -> PrimitiveArray;
  is_timezone : string -> bool }.

Definition part_bounds (t : part_type) (v : Z) : bool :=
  match t with Int32Part | Date32Part => in_i32 v | Int64Part | Time64Part => in_i64 v end.

Class PartCastsLaws `{PartCasts} : Prop := {
  cast_array : forall t vs ns, forallb (part_bounds t) vs = true ->
    cast_to t (PartArray (mkPrimitive vs ns)) = Ok (PartArray (mkPrimitive vs ns));
  cast_scalar : forall t v, part_bounds t v = true -> cast_to t (PartScalar (Some v)) = Ok (PartScalar (Some v));
  one_row : forall v, scalar_to_array (Some v) = mkPrimitive [v] [true] }.

Section from_parts.
Context {C : Chrono} {CD : ChronoDays} {T : Timestamps} `{PartCasts}.

(** The messages of the errors are kept without the values they quote. *)
Definition make_date (y m d : Z) : result dt_error Z :=
  let u_month := if m =? 0 then 1 else if m <? 0 then wrap_i32 (1 - m) else m - 1 in
  if u_month <? 0 then Err (ExecErr "month value is out of range")
  else
    let? jan1 := ok_or (from_ymd_opt y 1 1) (ExecErr "Invalid date part") in
    let days := wrap_i32 (d - 1) in
    let? months_result :=
      ok_or (if m <=? 0 then checked_sub_months jan1 u_month else checked_add_months jan1 u_month)
        (ExecErr "invalid date part") in
    let? days_result := ok_or (checked_add_days months_result days) (ExecErr "invalid date part") in
    Ok (wrap_i32 (num_days_from_ce days_result - epoch_ce)).

Definition make_time (hour minute seconds : Z) (nanosecond : option Z) : Z :=
  let n_hour := wrap_i64 (hour * 3600000000000) in
  let n_minute := wrap_i64 (minute * 60000000000) in
  let n_seconds := wrap_i64 (seconds * 1000000000) in
  let n_nano := default 0 nanosecond in
  wrap_i64 (wrap_i64 (wrap_i64 (n_hour + n_minute) + n_seconds) + n_nano).

(** [with_timezone] changes how an instant is written, not the instant. *)
Definition make_timestamp_from_nanoseconds (nanoseconds : Z) (tz : option string) : result dt_error Z :=
  let date_time := from_timestamp_nanos nanoseconds in
  let? _ := match tz with
            | Some timezone => if is_timezone timezone then Ok tt else Err ComputeError
            | None => Ok tt
            end in
  ok_or (timestamp_nanos_opt date_time) (ExecErr "Unable to parse timestamp").

Definition make_timestamp_from_date_time (date time : Z) : result dt_error Z :=
  make_timestamp_from_nanoseconds (wrap_i64 (wrap_i64 (date * nanos_per_day) + time)) None.

Definition make_timestamp (year month day hour minute seconds : Z) (nano : option Z) (timezone : option string) :
  result dt_error Z :=
  let? days := make_date year month day in
  let n_date := wrap_i64 (days * nanos_per_day) in
  let n_time := make_time hour minute seconds nano in
  make_timestamp_from_nanoseconds (wrap_i64 (n_date + n_time)) timezone.

Definition to_primitive_array (col : part_arg) : result dt_error PrimitiveArray :=
  match col with
  | PartArray a => Ok a
  | PartScalar s => Ok (scalar_to_array s)
  | _ => Err Panicked
  end.

Definition to_string_array (col : part_arg) : result dt_error (list string) :=
  match col with
  | TextArray rows => Ok rows
  | TextScalar v => Ok [v]
  | PartArray _ => Err (ExecErr "Failed to downcast Array to StringArray")
  | PartScalar _ => Err (ExecErr "Failed to downcast Scalar to StringArray")
  end.

(** [array.value(i)]: panics out of range. *)
Definition value_at {A} (l : list A) (i : nat) : result dt_error A := ok_or (l !! i) Panicked.

(** [args.iter().find_map(..).unwrap_or(1)]: the length of the first array. *)
Fixpoint array_size (args : list part_arg) : nat :=
  match args with
  | [] => 1
  | PartArray a :: _ => length a.(values)
  | TextArray rows :: _ => length rows
  | _ :: args => array_size args
  end.

Definition cast_values (t : part_type) (col : part_arg) : result dt_error (list Z) :=
  let? col := cast_to t col in
  result_map values (to_primitive_array col).

(** [Option::map(..).transpose()?] and the value of an optional column. *)
Definition transpose {A B} (f : A -> result dt_error B) (o : option A) : result dt_error (option B) :=
  match o with Some a => result_map Some (f a) | None => Ok None end.

Definition optional_value {A} (o : option (list A)) (i : nat) : result dt_error (option A) :=
  transpose (fun l => value_at l i) o.

Definition timestamps_from_components (args : list part_arg) (array_size : nat) : result dt_error (list Z) :=
  let? (years, months, days, hours, minutes, seconds, nanoseconds, time_zone) :=
    match args with
    | [years; months; days; hours; minutes; seconds; nanoseconds; time_zone] =>
        Ok (years, months, days, hours, minutes, seconds, Some nanoseconds, Some time_zone)
    | [years; months; days; hours; minutes; seconds; nanoseconds] =>
        Ok (years, months, days, hours, minutes, seconds, Some nanoseconds, None)
    | [years; months; days; hours; minutes; seconds] => Ok (years, months, days, hours, minutes, seconds, None, None)
    | _ => Err (InternalErr "Unsupported number of arguments")
    end in
  let? years := cast_values Int32Part years in
  let? months := cast_values Int32Part months in
  let? days := cast_values Int32Part days in
  let? hours := cast_values Int64Part hours in
  let? minutes := cast_values Int64Part minutes in
  let? seconds := cast_values Int64Part seconds in
  let? nanoseconds := transpose (cast_values Int64Part) nanoseconds in
  let? time_zone := transpose to_string_array time_zone in
  traverse (fun i =>
    let? nano := optional_value nanoseconds i in
    let? tz := optional_value time_zone i in
    let? y := value_at years i in
    let? m := value_at months i in
    let? d := value_at days i in
    let? h := value_at hours i in
    let? mi := value_at minutes i in
    let? s := value_at seconds i in
    make_timestamp y m d h mi s nano tz) (seq 0 array_size).

(** If the size is one the answer is a scalar. *)
Definition scalar_or_array (size : nat) (rows : list Z) : result dt_error (column Z) :=
  if (size =? 1)%nat then result_map One (value_at rows 0) else Ok (Rows rows).

Definition timestamp_from_parts (args : list part_arg) : result dt_error (column Z) :=
  let size := array_size args in
  let? rows :=
    match args with
    | [date; time] =>
        let? date := cast_values Date32Part date in
        let? time := cast_values Time64Part time in
        traverse (fun i =>
          let? d := value_at date i in
          let? t := value_at time i in
          make_timestamp_from_date_time d t) (seq 0 size)
    | _ =>
        if (5 <? length args)%nat && (length args <? 9)%nat then timestamps_from_components args size
        else Err (InternalErr "Unsupported number of arguments")
    end in
  scalar_or_array size rows.

(** ** [date_from_parts.rs] and [time_from_parts.rs] *)
Definition date_from_components (args : list part_arg) (array_size : nat) : result dt_error (list Z) :=
  match args with
  | [years; months; days] =>
      let? years := cast_values Int32Part years in
      let? months := cast_values Int32Part months in
      let? days := cast_values Int32Part days in
      traverse (fun i =>
        let? y := value_at years i in
        let? m := value_at months i in
        let? d := value_at days i in
        make_date y m d) (seq 0 array_size)
  | _ => Err (ExecErr "date_from_parts function requires 3 arguments")
  end.

Definition date_from_parts (args : list part_arg) : result dt_error (column Z) :=
  let size := array_size args in
  let? rows := date_from_components args size in
  scalar_or_array size rows.

Definition time_from_components (args : list part_arg) (array_size : nat) : result dt_error (list Z) :=
  let? (hours, minutes, seconds, nanos) :=
    match args with
    | [hours; minutes; seconds; nanos] => Ok (hours, minutes, seconds, Some nanos)
    | [hours; minutes; seconds] => Ok (hours, minutes, seconds, None)
    | _ => Err (InternalErr "Unsupported number of arguments")
    end in
  let? hours := cast_values Int64Part hours in
  let? minutes := cast_values Int64Part minutes in
  let? seconds := cast_values Int64Part seconds in
  let? nanoseconds := transpose (cast_values Int64Part) nanos in
  traverse (fun i =>
    let? h := value_at hours i in
    let? m := value_at minutes i in
    let? s := value_at seconds i in
    let? nano := optional_value nanoseconds i in
    Ok (make_time h m s nano)) (seq 0 array_size).

Definition time_from_parts (args : list part_arg) : result dt_error (column Z) :=
  let size := array_size args in
  let? rows := time_from_components args size in
  scalar_or_array size rows.
End from_parts.

(** ** [convert_timezone.rs]

    A naive date and time is its number of nanoseconds since the epoch, an instant the number in UTC.
    [from_timestamp] is [DateTime::from_timestamp]; [from_local] is [from_local_datetime(..).single()]. *)
Class TimeZones := {
  Tz : Type;
  parse_tz : string -> option Tz;
  from_timestamp : Z -> Z -> option Z;
  utc_offset : Tz -> Z -> Z;
  from_local : Tz -> Z -> option Z }.

Class TimeZonesLaws {Z_ : TimeZones} : Prop := {
  (** The nanoseconds are below a second, or below two in a leap second. *)
  from_timestamp_ok : forall secs nanos, 0 <= nanos < 1000000000 -> in_i64 (secs * 1000000000) = true ->
    from_timestamp secs nanos = Some (secs * 1000000000 + nanos);
  from_timestamp_bad : forall secs nanos, 2000000000 <= nanos -> from_timestamp secs nanos = None;
  (** A local time is [single] when exactly one instant has it. *)
  from_local_single : forall tz n u, from_local tz n = Some u <->
    u + utc_offset tz u = n /\ forall u', u' + utc_offset tz u' = n -> u' = u }.

Section timezones.
Context {Z_ : TimeZones}.

Definition convert_timezone (source_timezone target_timezone : Tz) (source_timestamp_ntz : Z) : result dt_error Z :=
  let secs := Z.quot source_timestamp_ntz 1000000000 in
  let nanos := wrap_u32 (Z.rem source_timestamp_ntz 1000000000) in
  let? naive_dt := ok_or (from_timestamp secs nanos) InvalidTimestamp in
  let? source_dt := ok_or (from_local source_timezone naive_dt) InvalidDatetime in
  let target_naive := source_dt + utc_offset target_timezone source_dt in
  ok_or (if in_i64 target_naive then Some target_naive else None) CantGetNanoseconds.

(** [as_timestamp_nanosecond_array] is an error for other units. *)
Definition build_array (nanosecond : bool) (rows : list (option Z)) (source_tz target_tz : string) : result dt_error (list (option Z)) :=
  let? source_tz := ok_or (parse_tz source_tz) CantParseTimezone in
  let? target_tz := ok_or (parse_tz target_tz) CantParseTimezone in
  if nanosecond then traverse (over_nulls (convert_timezone source_tz target_tz)) rows else Err ComputeError.

(** The session's zone, and the arguments: two with the target zone, three with both.  [zoned] says
    whether the timestamps carry a zone, [nanosecond] whether they count nanoseconds; casting such a column changes how it is written only. *)
Definition session_timezone (session_params : SessionParams) : string :=
  default "America/Los_Angeles" (get_property session_params "timezone").

Inductive tz_arg := TzText (v : option string) | TzOther | TzTimestamps (zoned nanosecond : bool) (rows : column (option Z)).

Definition convert_timezone_invoke (session_params : SessionParams) (args : list tz_arg) : result dt_error (list (option Z)) :=
  let? (source_tz, target_tz, arr) :=
    match args with
    | [tz; arr] =>
        match tz with
        | TzText (Some tz) => Ok (None, tz, arr)
        | _ => Err (InternalErr "Invalid source_tz type format")
        end
    | [source; target; arr] =>
        match source with
        | TzText (Some source_tz) =>
            match target with
            | TzText (Some target_tz) => Ok (Some source_tz, target_tz, arr)
            | _ => Err (InternalErr "Invalid target_tz type format")
            end
        | _ => Err (InternalErr "Invalid source_tz type format")
        end
    | _ => Err (InternalErr "Invalid number of arguments")
    end in
  match source_tz, arr with
  | Some source_tz, TzTimestamps _ nanosecond rows => build_array nanosecond (column_rows rows) source_tz target_tz
  | None, TzTimestamps true _ rows => Ok (column_rows rows)
  | None, TzTimestamps false nanosecond rows => build_array nanosecond (column_rows rows) (session_timezone session_params) target_tz
  | Some _, _ => Err ComputeError
  | None, _ => Err (InternalErr "Invalid source_timestamp type")
  end.
End timezones.

(** ** Weekdays and the search for a week start *)
Section weeks.
Context {C : Chrono} {laws : ChronoLaws} {CD : ChronoDays} {days_laws : ChronoDaysLaws}.

Lemma weekday_days D : days_from_monday (weekday D) = num_days_from_monday D.
Proof. apply days_from_monday_of, weekday_range. Qed.

(** How many days a date is before the next day of the week [w], and after the last one. *)
Definition days_to (w : Weekday) (D : NaiveDate) : Z := (days_from_monday w - num_days_from_monday D) mod 7.
Definition days_since (w : Weekday) (D : NaiveDate) : Z := (num_days_from_monday D - days_from_monday w) mod 7.

Lemma days_to_range w D : 0 <= days_to w D < 7.
Proof. apply Z.mod_pos_bound. lia. Qed.

Lemma days_since_range w D : 0 <= days_since w D < 7.
Proof. apply Z.mod_pos_bound. lia. Qed.

Lemma days_to_zero w D : days_to w D = 0 <-> weekday D = w.
Proof.
  pose proof (weekday_range D). pose proof (days_from_monday_range w). pose proof (weekday_days D) as Hw. unfold days_to. split.
  - intros Hz. apply days_from_monday_inj. Z.div_mod_to_equations. lia.
  - intros <-. rewrite Hw, Z.sub_diag. done.
Qed.

Lemma days_since_zero w D : days_since w D = 0 <-> weekday D = w.
Proof.
  pose proof (weekday_range D). pose proof (days_from_monday_range w). pose proof (weekday_days D) as Hw. unfold days_since. split.
  - intros Hz. apply days_from_monday_inj. Z.div_mod_to_equations. lia.
  - intros <-. rewrite Hw, Z.sub_diag. done.
Qed.

Lemma days_to_succ w D D' : succ_opt D = Some D' -> 0 < days_to w D -> days_to w D' = days_to w D - 1.
Proof. intros H%weekday_succ. unfold days_to. rewrite H. Z.div_mod_to_equations. lia. Qed.

Lemma days_since_pred w D D' : pred_opt D = Some D' -> 0 < days_since w D -> days_since w D' = days_since w D - 1.
Proof. intros H%weekday_pred. unfold days_since. rewrite H. Z.div_mod_to_equations. lia. Qed.

Definition not_start (w : Weekday) (D : NaiveDate) : result dt_error bool := Ok (negb (bool_decide (weekday D = w))).

(** The search forward ends on the next start of a week. *)
Lemma while_forward w fuel D :
  days_to w D < Z.of_nat fuel -> in_calendar (num_days_from_ce D + days_to w D) ->
  exists F, while_date fuel (not_start w) succ_opt D = Ok F /\ num_days_from_ce F = num_days_from_ce D + days_to w D.
Proof.
  revert D. induction fuel as [|fuel IH]; intros D Hf Hc; [pose proof (days_to_range w D); lia|].
  cbn [while_date not_start result_bind]. case_bool_decide as Hw; cbn [negb].
  - exists D. apply days_to_zero in Hw. split; [done|lia].
  - assert (0 < days_to w D) as Hpos.
    { pose proof (days_to_range w D). destruct (decide (days_to w D = 0)) as [He%days_to_zero|]; [done|lia]. }
    pose proof (ce_in_calendar D).
    destruct (succ_exists D) as [D' HD']; [unfold in_calendar in *; lia|].
    rewrite HD'. cbn [ok_or result_bind]. pose proof (days_to_succ w _ _ HD' Hpos) as Hs. pose proof (ce_succ _ _ HD') as Hn.
    destruct (IH D') as (F & HF & HFn); [lia|unfold in_calendar in *; lia|]. exists F. split; [done|lia].
Qed.

(** The search backward ends within the week; [bound] is a week before its first day. *)
Lemma while_backward w B fuel D :
  days_since w D < Z.of_nat fuel -> num_days_from_ce B < num_days_from_ce D - days_since w D ->
  in_calendar (num_days_from_ce D - days_since w D) ->
  exists F, while_date fuel (fun D => if bool_decide (weekday D = w) then Ok false else Ok (date_lt B D)) pred_opt D = Ok F.
Proof.
  revert D. induction fuel as [|fuel IH]; intros D Hf HB Hc; [pose proof (days_since_range w D); lia|].
  cbn [while_date]. case_bool_decide as Hw; cbn [result_bind]; [by eexists|].
  assert (0 < days_since w D) as Hpos.
  { pose proof (days_since_range w D). destruct (decide (days_since w D = 0)) as [He%days_since_zero|]; [done|lia]. }
  unfold date_lt at 1. destruct (Z.ltb_spec (num_days_from_ce B) (num_days_from_ce D)); [|lia].
  pose proof (ce_in_calendar D). destruct (pred_exists D) as [D' HD']; [unfold in_calendar in *; lia|].
  rewrite HD'. cbn [ok_or result_bind]. pose proof (days_since_pred w _ _ HD' Hpos). pose proof (ce_pred _ _ HD').
  apply IH; unfold in_calendar in *; lia.
Qed.

(** A search never needs more than the days of a week. *)
Lemma while_forward_ends w fuel D :
  days_to w D < Z.of_nat fuel -> while_date fuel (not_start w) succ_opt D <> Err OutOfFuel.
Proof.
  revert D. induction fuel as [|fuel IH]; intros D Hf; [pose proof (days_to_range w D); lia|].
  cbn [while_date not_start result_bind]. case_bool_decide as Hw; cbn [negb]; [done|].
  destruct (succ_opt D) as [D'|] eqn:HD'; cbn [ok_or result_bind]; [|done].
  apply IH. rewrite (days_to_succ w D D' HD'); [lia|].
  pose proof (days_to_range w D). destruct (decide (days_to w D = 0)) as [He%days_to_zero|]; [done|lia].
Qed.

Lemma while_backward_ends w (bound : result dt_error NaiveDate) fuel D :
  bound <> Err OutOfFuel -> days_since w D < Z.of_nat fuel ->
  while_date fuel (fun D => if bool_decide (weekday D = w) then Ok false else let? B := bound in Ok (date_lt B D)) pred_opt D
    <> Err OutOfFuel.
Proof.
  intros Hb. revert D. induction fuel as [|fuel IH]; intros D Hf; [pose proof (days_since_range w D); lia|].
  cbn [while_date]. case_bool_decide as Hw; cbn [result_bind]; [done|].
  destruct bound as [B|e]; cbn [result_bind] in *; [|congruence]. destruct (date_lt B D); [|done].
  destruct (pred_opt D) as [D'|] eqn:HD'; cbn [ok_or result_bind]; [|done].
  apply IH. rewrite (days_since_pred w D D' HD'); [lia|].
  pose proof (days_since_range w D). destruct (decide (days_since w D = 0)) as [He%days_since_zero|]; [done|lia].
Qed.

(** ** The first week of a year *)

(** Days from the first of January to the first start of a week. *)
Definition first_offset (w : Weekday) (y : Z) : Z := (days_from_monday w - (days_before_year y - 366)) mod 7.

(** Where the functions let the first week start, as a day of the year counted from zero. *)
Definition first_day (w : Weekday) (y : Z) : Z :=
  if 3 <? first_offset w y then first_offset w y + 7 else first_offset w y.

Lemma first_offset_range w y : 0 <= first_offset w y < 7.
Proof. apply Z.mod_pos_bound. lia. Qed.

Lemma jan1_days_to w J y : num_days_from_ce J = days_before_year y - 365 -> days_to w J = first_offset w y.
Proof.
  intros HJ. unfold days_to, first_offset. rewrite weekday_ce, HJ, Zminus_mod_idemp_r. f_equal. lia.
Qed.

Lemma first_week_start_ok w D :
  exists F, first_week_start (year D) w = Ok F /\
    num_days_from_ce F = days_before_year (year D) - 365 + first_day w (year D).
Proof.
  destruct (jan1_exists D) as (J & HJ & _ & HJn & _). unfold first_week_start. rewrite HJ. cbn [ok_or result_bind].
  pose proof (jan1_days_to w J _ HJn) as Ho. pose proof (first_offset_range w (year D)).
  destruct (date_valid D) as (Hy & _). pose proof (days_in_year (year D)).
  pose proof (days_before_year_mono min_year (year D)). pose proof (days_before_year_mono (year D + 1) (max_year + 1)).
  destruct (while_forward w week_fuel J) as (F & HF & HFn);
    [rewrite Ho; unfold week_fuel; lia|rewrite Ho; unfold in_calendar; lia|].
  change (fun D0 => Ok (negb (bool_decide (weekday D0 = w)))) with (not_start w). rewrite HF. cbn [result_bind].
  unfold days_between, first_day. rewrite HFn, Ho. replace (num_days_from_ce J + first_offset w (year D) - num_days_from_ce J)
    with (first_offset w (year D)) by lia.
  destruct (Z.ltb_spec 3 (first_offset w (year D))).
  - destruct (add_days_exists F 7) as (F' & HF' & HFn'); [unfold in_calendar; lia|].
    exists F'. unfold plus_days. rewrite HF'. split; [done|lia].
  - exists F. split; [done|lia].
Qed.

(** A date, the days since its week began, and the first week of its year. *)
Lemma days_since_offset w D :
  days_since w D = (num_days_from_ce D + 365 - days_before_year (year D) - first_offset w (year D)) mod 7.
Proof. unfold days_since, first_offset. rewrite weekday_ce. Z.div_mod_to_equations. lia. Qed.
End weeks.

(** ** Week numbers *)
Section week_numbers.
Context {C : Chrono} {laws : ChronoLaws} {CD : ChronoDays} {days_laws : ChronoDaysLaws}.

(** The rule the comments state for policy 0: a week belongs to the year that has at least four of its
    days, which is the year of its fourth day [M], and is numbered by it. *)
Definition fourth_day (w : Weekday) (D M : NaiveDate) : Prop :=
  num_days_from_ce M = num_days_from_ce D - days_since w D + 3.

Definition week_number (M : NaiveDate) : Z := (ordinal M - 1) / 7 + 1.

(** For weeks that start on Monday the rule is ISO 8601. *)
Lemma iso_week_fourth_day D M : fourth_day Mon D M -> iso_week D = (year M, week_number M).
Proof.
  unfold fourth_day, days_since. cbn [days_from_monday]. rewrite Z.sub_0_r, Z.mod_small by apply weekday_range.
  apply iso_week_thursday.
Qed.

Definition other_start (week_start : Z) : bool := (2 <=? week_start) && (week_start <=? 7).

Lemma year_bounds D : in_i32 (year D - 1) = true.
Proof. destruct (date_valid D) as (Hy & _). pose proof years_fit. unfold in_i32, i32_min, i32_max. lia. Qed.

Lemma week_count_bounds D F : -1000 <= days_between D F <= 1000 -> wrap_i32 (wrap_i32 (num_weeks D F) + 1) = Z.quot (days_between D F) 7 + 1.
Proof.
  intros Hb. unfold num_weeks. assert (-1000 <= Z.quot (days_between D F) 7 <= 1000).
  { Z.quot_rem_to_equations. lia. }
  rewrite (wrap_i32_id (Z.quot _ _)) by solve_range. by rewrite wrap_i32_id by solve_range.
Qed.

(** From the first week of the year on, the number is one more than the weeks since. *)
Lemma week_from_first fuel week_start D : other_start week_start = true ->
  let w := week_start_to_weekday week_start in
  let x := num_days_from_ce D + 365 - days_before_year (year D) in
  first_day w (year D) <= x ->
  calculate_week_of_year (S fuel) D week_start 0 = Ok ((x - first_day w (year D)) / 7 + 1) /\
  calculate_year_of_week D week_start 0 = Ok (year D).
Proof.
  intros Hs w x Hx. unfold other_start in Hs. destruct (first_week_start_ok w D) as (F & HF & HFn).
  pose proof (ce_year D). pose proof (days_in_year (year D)). pose proof (first_offset_range w (year D)).
  assert (0 <= first_day w (year D)) by (unfold first_day; case_match; lia).
  cbn [calculate_week_of_year]. unfold calculate_year_of_week. cbn [Z.eqb].
  assert ((week_start =? 0) || (week_start =? 1) = false) as -> by lia. fold w. rewrite HF. cbn [result_bind].
  unfold date_lt. destruct (Z.ltb_spec (num_days_from_ce D) (num_days_from_ce F)); [lia|]. split; [|done].
  assert (days_between D F = x - first_day w (year D)) as Hb by (unfold days_between; lia).
  rewrite week_count_bounds, Hb by lia. by rewrite Z.quot_div_nonneg by lia.
Qed.

(** Before it, the last day of the year before is asked. *)
Lemma week_before_first fuel week_start D P : other_start week_start = true ->
  let w := week_start_to_weekday week_start in
  num_days_from_ce D + 365 - days_before_year (year D) < first_day w (year D) ->
  from_ymd_opt (year D - 1) 12 31 = Some P ->
  calculate_week_of_year (S fuel) D week_start 0 = calculate_week_of_year fuel P week_start 0 /\
  calculate_year_of_week D week_start 0 = Ok (year D - 1).
Proof.
  intros Hs w Hx HP. unfold other_start in Hs. destruct (first_week_start_ok w D) as (F & HF & HFn).
  cbn [calculate_week_of_year]. unfold calculate_year_of_week. cbn [Z.eqb].
  assert ((week_start =? 0) || (week_start =? 1) = false) as -> by lia. fold w. rewrite HF. cbn [result_bind].
  unfold date_lt. destruct (Z.ltb_spec (num_days_from_ce D) (num_days_from_ce F)); [|lia].
  rewrite wrap_i32_id by apply year_bounds. by rewrite HP.
Qed.

Lemma dec31_exists y : min_year <= y <= max_year -> exists P, from_ymd_opt y 12 31 = Some P /\ year P = y /\
  num_days_from_ce P = days_before_year (y + 1) - 366.
Proof.
  intros Hy. destruct (from_ymd_some y 12 31) as [P HP]; [split_and!; cbn; lia|]. exists P.
  destruct (from_ymd_fields _ _ _ _ HP) as (H1 & _ & _). rewrite (ce_from_ymd _ _ _ _ HP).
  pose proof (day_number_year_end y) as H. change (day_number (y + 1) 1 1) with (days_before_year (y + 1) + 0 + 1 - 1) in H.
  split_and!; [done|done|lia].
Qed.

Lemma fourth_day_ordinal w D M : fourth_day w D M -> year M = year D ->
  let x := num_days_from_ce D + 365 - days_before_year (year D) in
  week_number M = (x - first_offset w (year D)) / 7 + (if 3 <? first_offset w (year D) then 1 else 0) + 1.
Proof.
  intros HM Hy x. unfold week_number, fourth_day in *. destruct (jan1_exists M) as (J & _ & _ & HJ & ->).
  rewrite HJ, HM, Hy, (days_since_offset w D). fold x. pose proof (first_offset_range w (year D)).
  replace (num_days_from_ce D) with (x - 365 + days_before_year (year D)) by (unfold x; lia).
  destruct (Z.ltb_spec 3 (first_offset w (year D))); Z.div_mod_to_equations; lia.
Qed.

(** A date before the first week of its year is in the week of the last day of the year before. *)
Lemma fourth_day_previous w D M P : fourth_day w D M -> year M = year D - 1 ->
  year P = year D - 1 -> num_days_from_ce P = days_before_year (year D) - 366 ->
  fourth_day w P M /\ num_days_from_ce D + 365 - days_before_year (year D) < first_offset w (year D) /\ first_offset w (year D) <= 3.
Proof.
  intros HM Hy HyP HP. unfold fourth_day in *. pose proof (ce_year M) as HyM. rewrite Hy in HyM.
  replace (year D - 1 + 1) with (year D) in HyM by lia. pose proof (ce_year D) as HyD.
  pose proof (days_since_range w D). assert (days_since w P = days_since w D - (num_days_from_ce D - num_days_from_ce P)) as Hs.
  { unfold days_since in *. rewrite !weekday_ce in *. rewrite HP in *. Z.div_mod_to_equations. lia. }
  rewrite (days_since_offset w D) in *. pose proof (first_offset_range w (year D)). split; [lia|].
  Z.div_mod_to_equations. lia.
Qed.

(** How far the number is from the rule: two weeks short in the years whose first of January is more
    than three days before a week start. *)
Definition shortfall (w : Weekday) (y : Z) : Z := if 3 <? first_offset w y then 2 else 0.

(** Policy 0 for weeks that do not start on Monday: when the first of January of the date's year is
    at most three days before a week start, and the week does not belong to the next year, the year of
    the week is the year that has at least four of its days, and its number is that of its fourth day;
    only the number of a week of the year before can be two short, when that year starts otherwise. *)
Theorem week_of_year_majority week_start D M : other_start week_start = true ->
  let w := week_start_to_weekday week_start in
  fourth_day w D M -> year M <= year D -> min_year < year D -> first_offset w (year D) <= 3 ->
  calculate_year_of_week D week_start 0 = Ok (year M) /\
  week_of_year D week_start 0 = Ok (week_number M - shortfall w (year M)).
Proof.
  intros Hs w HM Hle Hmin Ho. pose proof (ce_year D). pose proof (ce_year M).
  pose proof (days_since_range w D). unfold week_of_year.
  assert (year M = year D \/ year M = year D - 1) as [Hy|Hy].
  { pose proof (days_in_year (year D - 1)) as Hd. replace (year D - 1 + 1) with (year D) in Hd by lia. unfold fourth_day in HM.
    destruct (Z_le_gt_dec (year M) (year D - 2)) as [Hlt|]; [|lia]. pose proof (days_before_year_mono (year M + 1) (year D - 1)). lia. }
  - assert (first_day w (year D) <= num_days_from_ce D + 365 - days_before_year (year D)) as Hx.
    { unfold first_day. destruct (Z.ltb_spec 3 (first_offset w (year D))); [lia|]. rewrite Hy in *. unfold fourth_day in HM.
      rewrite (days_since_offset w D) in HM. pose proof (first_offset_range w (year D)). Z.div_mod_to_equations. lia. }
    destruct (week_from_first 1 week_start D Hs Hx) as [-> ->]. fold w. rewrite Hy. split; [done|].
    rewrite (fourth_day_ordinal w D M HM Hy). unfold shortfall, first_day.
    destruct (Z.ltb_spec 3 (first_offset w (year D))); [lia|]. f_equal. lia.
  - destruct (date_valid D) as (HyD & _). destruct (dec31_exists (year D - 1)) as (P & HP & HyP & HPn); [lia|].
    replace (year D - 1 + 1) with (year D) in HPn by lia.
    destruct (fourth_day_previous w D M P HM Hy HyP HPn) as (HMP & Hx & _).
    destruct (week_before_first 1 week_start D P Hs) as [-> ->]; [fold w; unfold first_day; case_match; lia|done|].
    rewrite Hy. split; [done|].
    destruct (week_from_first 0 week_start P Hs) as [-> _].
    { fold w. rewrite HyP, HPn. pose proof (days_in_year (year D - 1)) as Hd. replace (year D - 1 + 1) with (year D) in Hd by lia.
      pose proof (first_offset_range w (year D - 1)). unfold first_day. case_match; lia. }
    fold w. f_equal. rewrite (fourth_day_ordinal w P M HMP) by lia. unfold shortfall, first_day. rewrite HyP.
    destruct (Z.ltb_spec 3 (first_offset w (year D - 1))); Z.div_mod_to_equations; lia.
Qed.

(** In the other years every week from the middle of January on is numbered two short. *)
Theorem week_of_year_two_short week_start D M : other_start week_start = true ->
  let w := week_start_to_weekday week_start in
  fourth_day w D M -> year M = year D -> 3 < first_offset w (year D) -> 14 <= ordinal D ->
  week_of_year D week_start 0 = Ok (week_number M - 2).
Proof.
  intros Hs w HM Hy Ho Hd. destruct (jan1_exists D) as (J & _ & _ & HJ & Hord). pose proof (first_offset_range w (year D)).
  assert (first_day w (year D) = first_offset w (year D) + 7) as Hf by (unfold first_day; case_match; lia).
  destruct (week_from_first 1 week_start D Hs) as [Hw _]; [fold w; lia|]. unfold week_of_year. rewrite Hw. fold w.
  rewrite (fourth_day_ordinal w D M HM Hy), Hf. f_equal. destruct (Z.ltb_spec 3 (first_offset w (year D))); [|lia].
  Z.div_mod_to_equations. lia.
Qed.

(** The search for the week start and the recursion into the previous year end: no call of WEEK
    and its variants runs out of the fuel of a week and two years. *)
Theorem week_of_year_terminates D week_start week_of_year_policy :
  week_of_year D week_start week_of_year_policy <> Err OutOfFuel /\
  calculate_year_of_week D week_start week_of_year_policy <> Err OutOfFuel.
Proof.
  split.
  - unfold week_of_year. cbn [calculate_week_of_year]. destruct (Z.eqb_spec week_of_year_policy 0) as [->|]; [|case_match; [|done]].
    + destruct ((week_start =? 0) || (week_start =? 1)) eqn:Hs; [done|]. cbn [Z.eqb].
      set (w := week_start_to_weekday week_start). destruct (first_week_start_ok w D) as (F & -> & HF). cbn [result_bind].
      destruct (date_lt D F) eqn:Hlt; [|done]. rewrite wrap_i32_id by apply year_bounds.
      destruct (from_ymd_opt (year D - 1) 12 31) as [P|] eqn:HP; cbn [ok_or result_bind]; [|done].
      destruct (from_ymd_fields _ _ _ _ HP) as (HyP & _ & _).
      destruct (first_week_start_ok w P) as (F' & -> & HF'). cbn [result_bind]. unfold date_lt.
      pose proof (ce_from_ymd _ _ _ _ HP) as HPn. pose proof (day_number_year_end (year D - 1)) as Hend.
      change (day_number (year D - 1 + 1) 1 1) with (days_before_year (year D - 1 + 1) + 0 + 1 - 1) in Hend.
      pose proof (days_in_year (year D - 1)). rewrite HyP in HF'. pose proof (first_offset_range w (year D - 1)).
      destruct (Z.ltb_spec (num_days_from_ce P) (num_days_from_ce F')); [|done]. exfalso. unfold first_day in HF'. case_match; lia.
    + destruct (from_ymd_opt (year D) 1 1) as [J|]; cbn [ok_or result_bind]; [|done]. set (w := week_start_to_weekday week_start).
      pose proof (days_since_range w J).
      pose proof (while_backward_ends w (plus_days J (-7)) week_fuel J) as Hw.
      destruct (while_date week_fuel _ pred_opt J) as [?|e]; cbn [result_bind].
      * case_bool_decide; [done|]. unfold plus_days. destruct (checked_add_days J _); done.
      * intros [= ->]. apply Hw; [|unfold week_fuel; lia|done]. unfold plus_days. by destruct (checked_add_days J (-7)).
  - unfold calculate_year_of_week. repeat case_match; try done. set (w := week_start_to_weekday week_start).
    destruct (first_week_start_ok w D) as (F & -> & HF). cbn [result_bind]. by case_match.
Qed.

(** The weeks of policy 1 count from the last week start on or before the first of January. *)
Lemma policy_one_count week_start D : let w := week_start_to_weekday week_start in
  min_year < year D -> exists k, 0 <= k < 7 /\ k = (days_before_year (year D) - 366 - days_from_monday w) mod 7 /\
    week_of_year D week_start 1 = Ok ((ordinal D - 1 + k) / 7 + 1).
Proof.
  intros w Hmin. destruct (jan1_exists D) as (J & HJ & HyJ & HJn & Hord). exists (days_since w J).
  pose proof (days_since_range w J) as Hr. pose proof (ordinal_range D). split; [done|]. split.
  { unfold days_since. rewrite weekday_ce, HJn, Zminus_mod_idemp_l. f_equal. lia. }
  unfold week_of_year. cbn [calculate_week_of_year Z.eqb]. rewrite HJ. cbn [ok_or result_bind Pos.eqb]. fold w.
  destruct (date_valid D) as (Hy & _). pose proof (days_in_year (year D - 1)) as Hd. replace (year D - 1 + 1) with (year D) in Hd by lia.
  pose proof (days_before_year_mono min_year (year D - 1)). pose proof (ce_in_calendar J).
  destruct (add_days_exists J (-7)) as (B & HB & HBn); [unfold in_calendar in *; lia|].
  destruct (while_backward w B week_fuel J) as [F HF]; [unfold week_fuel; lia|lia|unfold in_calendar in *; lia|].
  unfold plus_days at 1. rewrite HB. cbn [ok_or result_bind]. rewrite HF. cbn [result_bind].
  destruct (add_days_exists J (- days_since w J)) as (F' & HF' & HFn'); [unfold in_calendar in *; lia|].
  assert ((if bool_decide (weekday J = w) then Ok J
           else plus_days J (- Z.rem (days_from_monday (weekday J) - days_from_monday w + 7) 7)) = Ok F') as ->.
  { case_bool_decide as Hw.
    - apply days_since_zero in Hw. rewrite Hw in HF'. change (- 0) with 0 in HF'. rewrite add_days_zero in HF'. congruence.
    - assert (Z.rem (days_from_monday (weekday J) - days_from_monday w + 7) 7 = days_since w J) as ->.
      { rewrite weekday_days. pose proof (weekday_range J). pose proof (days_from_monday_range w).
        rewrite Z.rem_mod_nonneg by lia. unfold days_since. by rewrite <- (Z_mod_plus_full (_ - _) 1 7). }
      unfold plus_days. by rewrite HF'. }
  cbn [result_bind]. rewrite week_count_bounds by (unfold days_between; lia).
  assert (days_between D F' = ordinal D - 1 + days_since w J) as -> by (unfold days_between; lia).
  by rewrite Z.quot_div_nonneg by lia.
Qed.

(** Policy 1: the first of January is in week 1, a new week begins exactly on the days the session
    starts weeks with, and there are at most 54 weeks in a year. *)
Theorem week_policy_one week_start D : min_year < year D ->
  exists n, week_of_year D week_start 1 = Ok n /\ 1 <= n <= 54 /\ (ordinal D = 1 -> n = 1) /\
    (forall D', succ_opt D = Some D' -> year D' = year D ->
       week_of_year D' week_start 1 = Ok (if bool_decide (weekday D' = week_start_to_weekday week_start) then n + 1 else n)).
Proof.
  intros Hmin. set (w := week_start_to_weekday week_start).
  destruct (policy_one_count week_start D Hmin) as (k & Hk & Hkv & HD). exists ((ordinal D - 1 + k) / 7 + 1). pose proof (ordinal_range D).
  split; [done|]. split; [Z.div_mod_to_equations; lia|]. split; [intros ->; Z.div_mod_to_equations; lia|].
  intros D' Hs Hy. destruct (policy_one_count week_start D') as (k' & Hk' & Hkv' & ->); [lia|].
  assert (k' = k) as -> by (rewrite Hkv, Hkv', Hy; done).
  destruct (jan1_exists D) as (J & _ & _ & HJ & Ho), (jan1_exists D') as (J' & _ & _ & HJ' & Ho'). pose proof (ce_succ _ _ Hs).
  rewrite Hy in HJ'. f_equal. assert (bool_decide (weekday D' = w) = ((ordinal D - 1 + k + 1) mod 7 =? 0)) as ->.
  { apply eq_bool_prop_intro. rewrite bool_decide_spec, <- days_since_zero. unfold days_since. rewrite weekday_ce.
    rewrite Zminus_mod_idemp_l, Hkv. fold w.
    replace (num_days_from_ce D' - 1 - days_from_monday w) with (ordinal D + (days_before_year (year D) - 366 - days_from_monday w)) by lia.
    rewrite <- (Zplus_mod_idemp_r (_ - _) (ordinal D)). match goal with |- ?a = 0 <-> Is_true (?b =? 0) => replace b with a by (f_equal; lia) end.
    by destruct (Z.eqb_spec ((ordinal D + (days_before_year (year D) - 366 - days_from_monday w) mod 7) mod 7) 0). }
  assert (ordinal D' - 1 + k = ordinal D - 1 + k + 1) as -> by lia. clear -Hk H.
  destruct (Z.eqb_spec ((ordinal D - 1 + k + 1) mod 7) 0); Z.div_mod_to_equations; lia.
Qed.
End week_numbers.

Section week_days.
Context {C : Chrono} {laws : ChronoLaws}.

(** DAYOFWEEK counts from 1 on the day weeks start with; without a setting Sunday is 0. *)
Theorem day_of_week_correct D week_start :
  calculate_day_of_week D week_start =
  if week_start =? 0 then (num_days_from_monday D + 1) mod 7 else days_since (week_start_to_weekday week_start) D + 1.
Proof.
  unfold calculate_day_of_week. rewrite weekday_days. pose proof (weekday_range D).
  pose proof (days_from_monday_range (week_start_to_weekday week_start)).
  assert (Z.rem (num_days_from_monday D - days_from_monday (week_start_to_weekday week_start) + 7) 7
          = days_since (week_start_to_weekday week_start) D) as ->.
  { rewrite Z.rem_mod_nonneg by lia. unfold days_since. by rewrite <- (Z_mod_plus_full (_ - _) 1 7). }
  destruct (Z.eqb_spec week_start 0) as [->|]; [|done]. cbn [andb]. unfold days_since. cbn [week_start_to_weekday days_from_monday].
  change (week_start_to_weekday 0) with Mon. cbn [days_from_monday]. rewrite Z.sub_0_r, Z.mod_small by done.
  destruct (Z.eqb_spec (num_days_from_monday D) 6) as [->|]; [done|]. rewrite Z.mod_small; lia.
Qed.
End week_days.

(** ** Construction *)
Section construct.
Context {C : Chrono} {laws : ChronoLaws} {CD : ChronoDays} {days_laws : ChronoDaysLaws} {T : Timestamps} `{PartCasts}.

(** The first of the month that [m] names, counted from January of the year [y]. *)
Definition first_of_month (y m : Z) : option NaiveDate :=
  let t := y * 12 + (m - 1) in from_ymd_opt (t / 12) (t mod 12 + 1) 1.

Lemma months_of_january y m J : from_ymd_opt y 1 1 = Some J -> months_away J (m - 1) = first_of_month y m.
Proof.
  intros HJ. destruct (from_ymd_fields _ _ _ _ HJ) as (Hy & Hm & Hd). unfold months_away, first_of_month. rewrite Hy, Hm, Hd.
  replace (y * 12 + (1 - 1) + (m - 1)) with (y * 12 + (m - 1)) by lia. f_equal.
  pose proof (days_in_month_range ((y * 12 + (m - 1)) / 12) ((y * 12 + (m - 1)) mod 12 + 1)). lia.
Qed.

Lemma year_gap y : -1000000 <= y <= 1000000 -> -1000000000 <= days_before_year y <= 1000000000.
Proof. intros Hy. unfold days_before_year. Z.div_mod_to_equations. lia. Qed.

Lemma ce_bounds D : in_i32 (num_days_from_ce D - epoch_ce) = true.
Proof.
  destruct (date_valid D) as (Hy & _). pose proof years_fit. pose proof (ce_year D). pose proof (year_gap (year D)).
  pose proof (days_in_year (year D)). unfold in_i32, i32_min, i32_max, epoch_ce. lia.
Qed.

(** DATE_FROM_PARTS: for a year of the calendar and any month and day, also negative or beyond the
    usual range, the result is the day number that lies [d - 1] days after the first of the month
    reached from January of the year; it is an error exactly when that date leaves the calendar. *)
Theorem make_date_correct y m d n : -2147483647 < m -> -2147483648 < d -> in_i32 m = true -> in_i32 d = true ->
  make_date y m d = Ok n <->
  min_year <= y <= max_year /\
  exists F D, first_of_month y m = Some F /\ num_days_from_ce D = num_days_from_ce F + (d - 1) /\ n = num_days_from_ce D - epoch_ce.
Proof.
  intros Hm Hd Hm32 Hd32. unfold in_i32, i32_min, i32_max in Hm32, Hd32. unfold make_date.
  set (u := if m =? 0 then 1 else if m <? 0 then wrap_i32 (1 - m) else m - 1).
  assert (0 <= u /\ (m <= 0 -> u = 1 - m) /\ (0 < m -> u = m - 1)) as (Hu & Hneg & Hpos).
  { unfold u. destruct (Z.eqb_spec m 0); [lia|]. destruct (Z.ltb_spec m 0); [rewrite wrap_i32_id by solve_range|]; lia. }
  clearbody u. destruct (Z.ltb_spec u 0); [lia|]. destruct (from_ymd_opt y 1 1) as [J|] eqn:HJ; cbn [ok_or result_bind].
  - assert (valid_ymd y 1 1) as (Hy & _) by (apply from_ymd_valid; by eexists).
    assert ((if m <=? 0 then checked_sub_months J u else checked_add_months J u) = first_of_month y m) as ->.
    { rewrite <- (months_of_january y m J HJ). destruct (Z.leb_spec m 0).
      - rewrite chrono_sub_months, Hneg by lia. f_equal. lia.
      - rewrite chrono_add_months, Hpos by lia. done. }
    destruct (first_of_month y m) as [F|]; cbn [ok_or result_bind]; [|naive_solver].
    rewrite wrap_i32_id by solve_range. destruct (checked_add_days F (d - 1)) as [D|] eqn:HD; cbn [ok_or result_bind].
    + rewrite wrap_i32_id by apply ce_bounds. apply add_days_ce in HD. split.
      * intros [= <-]. eauto 10.
      * intros (_ & F' & D' & [= <-] & HD' & ->). do 2 f_equal. lia.
    + split; [done|]. intros (_ & F' & D' & [= <-] & HD'%add_days_ce & _). congruence.
  - split; [done|]. intros [Hy _]. destruct (from_ymd_some y 1 1) as [J HJ']; [|congruence].
    pose proof (days_in_month_range y 1). split_and!; lia.
Qed.

Lemma make_date_fields D : make_date (year D) (month D) (day D) = Ok (num_days_from_ce D - epoch_ce).
Proof.
  destruct (date_valid D) as (Hy & Hm & Hd). pose proof (days_in_month_range (year D) (month D)).
  apply make_date_correct; [lia|lia|unfold in_i32, i32_min, i32_max; lia|unfold in_i32, i32_min, i32_max; lia|]. split; [done|].
  destruct (from_ymd_some (year D) (month D) 1) as [F HF]; [split_and!; lia|]. exists F, D. split_and!; [|..|done].
  - unfold first_of_month. rewrite <- HF. f_equal; Z.div_mod_to_equations; lia.
  - rewrite (ce_from_ymd _ _ _ _ HF), ce_number. unfold day_number. lia.
Qed.

Lemma wrap_i64_add a b : wrap_i64 (wrap_i64 a + wrap_i64 b) = wrap_i64 (a + b).
Proof.
  unfold wrap_i64. f_equal. set (M := 18446744073709551616). set (H0 := 9223372036854775808).
  replace ((a + H0) mod M - H0 + ((b + H0) mod M - H0) + H0) with ((a + H0) mod M + (b + H0) mod M + - H0) by lia.
  rewrite <- Zplus_mod_idemp_l, <- Zplus_mod, Zplus_mod_idemp_l. f_equal. lia.
Qed.

Lemma wrap_i64_idem a : wrap_i64 (wrap_i64 a) = wrap_i64 a.
Proof. apply wrap_i64_id, wrap_i64_range. Qed.

Lemma wrap_i64_add_l a b : wrap_i64 (wrap_i64 a + b) = wrap_i64 (a + b).
Proof. by rewrite <- wrap_i64_add, wrap_i64_idem, wrap_i64_add. Qed.

Lemma make_time_sum h m s n :
  make_time h m s n = wrap_i64 (h * 3600000000000 + m * 60000000000 + s * 1000000000 + default 0 n).
Proof.
  unfold make_time. by rewrite (wrap_i64_add (h * _)), wrap_i64_add, wrap_i64_add_l.
Qed.

Context {times : TimestampsLaws}.

Lemma timestamp_round_trip ts : in_i64 ts = true -> timestamp_nanos_opt (from_timestamp_nanos ts) = Some ts.
Proof.
  intros Hts. rewrite nanos_opt_spec. cbv zeta. rewrite from_nanos_date, from_nanos_time by done.
  assert ((epoch_ce + ts / nanos_per_day - epoch_ce) * nanos_per_day + ts mod nanos_per_day = ts) as ->.
  { pose proof (Z_div_mod_eq_full ts nanos_per_day). lia. }
  by rewrite Hts.
Qed.

Lemma time_parts t : 0 <= t < nanos_per_day ->
  t / 3600000000000 * 3600000000000 + t / 60000000000 mod 60 * 60000000000 + t / 1000000000 mod 60 * 1000000000 + t mod 1000000000 = t.
Proof. intros Ht. unfold nanos_per_day in Ht. Z.div_mod_to_equations. lia. Qed.

(** C39: YEAR, MONTH, DAY, HOUR, MINUTE and SECOND take a timestamp of 64 bits apart down to its second, whatever the session's week
    settings. TIMESTAMP_FROM_PARTS of these six gives the timestamp back without its fraction of a second, and with nanoseconds
    as seventh argument that second and those nanoseconds, whenever the result fits 64 bits; so the fraction itself gives the
    timestamp. *)
Theorem timestamp_parts_round_trip ts nano week_start policy : in_i64 ts = true ->
  let whole_second := ts - ts mod 1000000000 in
  in_i64 (whole_second + default 0 nano) = true ->
  (let part i := date_part_value i week_start policy ts in
   let? y := part Interval.Year in
   let? m := part Interval.Month in
   let? d := part Interval.Day in
   let? h := part Interval.Hour in
   let? mi := part Interval.Minute in
   let? s := part Interval.Second in
   make_timestamp y m d h mi s nano None) = Ok (whole_second + default 0 nano).
Proof.
  intros Hts whole_second Hfit. cbn [date_part_value result_bind]. unfold make_timestamp. rewrite make_date_fields. cbn [result_bind].
  rewrite make_time_sum. unfold hour, minute, second. rewrite from_nanos_time, from_nanos_date by done. rewrite wrap_i64_add.
  assert ((epoch_ce + ts / nanos_per_day - epoch_ce) * nanos_per_day +
    (ts mod nanos_per_day / 3600000000000 * 3600000000000 + ts mod nanos_per_day / 60000000000 mod 60 * 60000000000 +
     ts mod nanos_per_day / 1000000000 mod 60 * 1000000000 + default 0 nano) = whole_second + default 0 nano) as ->.
  { pose proof (time_parts (ts mod nanos_per_day) (Z.mod_pos_bound ts nanos_per_day eq_refl)).
    pose proof (Z_div_mod_eq_full ts nanos_per_day). unfold whole_second.
    replace (ts mod 1000000000) with (ts mod nanos_per_day mod 1000000000) by (unfold nanos_per_day; Z.div_mod_to_equations; lia). lia. }
  rewrite wrap_i64_id by done. unfold make_timestamp_from_nanoseconds. cbn [result_bind]. by rewrite timestamp_round_trip.
Qed.

(** ** Columns *)
Context {casts : PartCastsLaws}.

(** Three columns of one length are read row by row, nulls included. *)
Lemma cast_values_array t vs ns : forallb (part_bounds t) vs = true -> cast_values t (PartArray (mkPrimitive vs ns)) = Ok vs.
Proof. intros Hv. unfold cast_values. by rewrite cast_array. Qed.

Lemma cast_values_scalar t v : part_bounds t v = true -> cast_values t (PartScalar (Some v)) = Ok [v].
Proof. intros Hv. unfold cast_values. rewrite cast_scalar by done. cbn. by rewrite one_row. Qed.

(** Constants are columns of one row, so that a call with a column of several rows and a constant
    panics on the second row. *)
Theorem mixed_parts_panic y0 y1 ys ns m d n0 :
  forallb in_i32 (y0 :: y1 :: ys) = true -> in_i32 m = true -> in_i32 d = true -> make_date y0 m d = Ok n0 ->
  date_from_parts [PartArray (mkPrimitive (y0 :: y1 :: ys) ns); PartScalar (Some m); PartScalar (Some d)] = Err Panicked.
Proof.
  intros Hys Hm Hd Hn. unfold date_from_parts, date_from_components.
  rewrite cast_values_array by done. cbn [result_bind]. rewrite !cast_values_scalar by done. cbn [result_bind array_size values length].
  cbn [seq traverse value_at lookup list_lookup ok_or result_bind]. by rewrite Hn.
Qed.
End construct.

(** ** Time zones *)
Section zones.
Context {Z_ : TimeZones} {zones : TimeZonesLaws}.

(** A timestamp splits into seconds and nanoseconds unless it is negative with a fraction. *)
Definition whole_or_positive (ts : Z) : bool := (0 <=? ts) || (Z.rem ts 1000000000 =? 0).

Lemma from_timestamp_split ts : in_i64 ts = true -> whole_or_positive ts = true ->
  from_timestamp (Z.quot ts 1000000000) (wrap_u32 (Z.rem ts 1000000000)) = Some ts.
Proof.
  intros Hts Hw. unfold whole_or_positive in Hw. pose proof (Z.quot_rem' ts 1000000000).
  assert (0 <= Z.rem ts 1000000000 < 1000000000) as Hr.
  { destruct (Z.leb_spec 0 ts); [apply Z.rem_bound_pos; lia|]. lia. }
  rewrite wrap_u32_id by lia. rewrite from_timestamp_ok; [f_equal; lia|done|].
  unfold in_i64, i64_min, i64_max in *. Z.quot_rem_to_equations. lia.
Qed.

Lemma convert_timezone_Ok s t ts w : in_i64 ts = true -> whole_or_positive ts = true ->
  convert_timezone s t ts = Ok w <-> exists u, from_local s ts = Some u /\ w = u + utc_offset t u /\ in_i64 w = true.
Proof.
  intros Hts Hw. unfold convert_timezone. rewrite from_timestamp_split by done. cbn [ok_or result_bind].
  destruct (from_local s ts) as [u|]; cbn [ok_or result_bind]; [|naive_solver].
  destruct (in_i64 (u + utc_offset t u)) eqn:Hi; cbn [ok_or]; split; try done.
  - intros [= <-]. eauto.
  - by intros (u' & [= <-] & -> & _).
  - intros (u' & [= <-] & -> & ?). congruence.
Qed.

(** CONVERT_TIMEZONE is undone by converting back, wherever the local time it gives names a single
    instant of the target zone; converting through a third zone is converting directly. *)
Theorem convert_timezone_round_trip s t r ts w : in_i64 ts = true -> whole_or_positive ts = true ->
  convert_timezone s t ts = Ok w -> whole_or_positive w = true -> is_Some (from_local t w) ->
  convert_timezone t s w = Ok ts /\ convert_timezone t r w = convert_timezone s r ts.
Proof.
  intros Hts Hw (u & Hu & -> & Hi)%convert_timezone_Ok Hw' [u' Hu']; [|done..].
  pose proof (proj1 (from_local_single _ _ _) Hu) as [Hu0 _]. pose proof (proj1 (from_local_single _ _ _) Hu') as [He Hone].
  assert (u = u') as <- by (apply Hone; done). split.
  - apply convert_timezone_Ok; [done..|]. exists u. split_and!; [done|lia|done].
  - destruct (convert_timezone s r ts) as [v|e] eqn:Hr.
    + apply convert_timezone_Ok in Hr as (u'' & Hu'' & -> & Hv); [|done..].
      assert (u'' = u) as -> by congruence.
      apply convert_timezone_Ok; [done..|]. eauto.
    + unfold convert_timezone in *. rewrite from_timestamp_split in * by done. cbn [ok_or result_bind] in *.
      rewrite Hu in Hr. by rewrite Hu'.
Qed.
End zones.

Section zone_errors.
Context {Z_ : TimeZones} {zones : TimeZonesLaws}.

(** The remainder of a negative timestamp is negative and becomes a huge count of nanoseconds: before
    the epoch only whole seconds can be converted. *)
Theorem convert_timezone_refuses s t ts :
  whole_or_positive ts = false -> convert_timezone s t ts = Err InvalidTimestamp.
Proof.
  intros Hw. unfold whole_or_positive in Hw. unfold convert_timezone.
  assert (-1000000000 < Z.rem ts 1000000000 < 0) as Hr.
  { Z.quot_rem_to_equations. lia. }
  rewrite from_timestamp_bad; [done|]. unfold wrap_u32. rewrite <- (Z_mod_plus_full _ 1 4294967296), Z.mod_small; lia.
Qed.
End zone_errors.

(** ** On the Gregorian calendar *)
Module DatePartsExamples.
Import Gregorian.

Definition on (y m d : Z) (H : date_ok (y, m, d) = true) : @NaiveDate chrono := exist _ (y, m, d) H.

Definition epoch : @NaiveDate chrono := on 1970 1 1 eq_refl.

#[global] Instance timestamps : Timestamps (C := chrono) := {|
  from_timestamp_nanos ts := mk_datetime (default epoch (add_days epoch (ts / nanos_per_day))) (ts mod nanos_per_day);
  timestamp_nanos_opt dt :=
    let n := (num_days_from_ce dt.(DateTime.date) - epoch_ce) * nanos_per_day + dt.(DateTime.time) in
    if in_i64 n then Some n else None |}.

#[global] Instance timestamps_laws : TimestampsLaws (T := timestamps).
Proof.
  split; [|done|done]. intros ts Hts. unfold from_timestamp_nanos, timestamps. cbn [DateTime.date].
  destruct (add_days_exists (C := chrono) epoch (ts / nanos_per_day)) as (D & HD & Hn).
  - unfold in_calendar. assert (num_days_from_ce epoch = 719163) as -> by reflexivity.
    assert (days_before_year (@min_year chrono) = -3652059) as -> by reflexivity.
    assert (days_before_year (@max_year chrono + 1) = 3652425) as -> by reflexivity.
    unfold in_i64, i64_min, i64_max, nanos_per_day in *. Z.div_mod_to_equations. lia.
  - change (add_days epoch (ts / nanos_per_day)) with (checked_add_days epoch (ts / nanos_per_day)). rewrite HD. exact Hn.
Qed.

#[global] Instance part_casts : PartCasts := {|
  cast_to t c :=
    match c with
    | PartArray a => if forallb (part_bounds t) a.(values) then Ok c else Err ComputeError
    | PartScalar (Some v) => if part_bounds t v then Ok c else Err ComputeError
    | PartScalar None => Ok c
    | _ => Err ComputeError
    end;
  scalar_to_array v := mkPrimitive [default 0 v] [bool_decide (is_Some v)];
  is_timezone s := String.eqb s "UTC" |}.

#[global] Instance part_casts_laws : PartCastsLaws.
Proof. split; [intros t vs ns H|intros t v H|done]; cbn; by rewrite H. Qed.

(** Zones with a fixed offset in nanoseconds. *)
#[global] Instance fixed_zones : TimeZones := {|
  Tz := Z;
  parse_tz s := if String.eqb s "UTC" then Some 0 else None;
  from_timestamp secs nanos := if (0 <=? nanos) && (nanos <? 1000000000) then Some (secs * 1000000000 + nanos) else None;
  utc_offset tz _ := tz;
  from_local tz n := Some (n - tz) |}.

#[global] Instance fixed_zones_laws : TimeZonesLaws.
Proof.
  split; cbn.
  - intros secs nanos Hn _. destruct (Z.leb_spec 0 nanos), (Z.ltb_spec nanos 1000000000); by (done || lia).
  - intros secs nanos Hn. destruct (Z.ltb_spec nanos 1000000000); [lia|]. by destruct (0 <=? nanos).
  - intros tz n u. split; [intros [= <-]; split; [|intros]; lia|]. intros [<- _]. f_equal. lia.
Qed.

Lemma week_of_year_majority_witness :
  (calculate_year_of_week (on 2017 6 14 eq_refl) 3 0 = Ok (year (on 2017 6 17 eq_refl)) /\
   week_of_year (on 2017 6 14 eq_refl) 3 0 =
     Ok (week_number (on 2017 6 17 eq_refl) - shortfall (week_start_to_weekday 3) (year (on 2017 6 17 eq_refl)))) /\
  week_number (on 2017 6 17 eq_refl) - shortfall (week_start_to_weekday 3) (year (on 2017 6 17 eq_refl)) = 24.
Proof.
  split; [|vm_compute; reflexivity].
  apply (week_of_year_majority 3 (on 2017 6 14 eq_refl) (on 2017 6 17 eq_refl));
    vm_compute; discriminate || reflexivity.
Defined.

(** The fifteenth of June 2025 is in the twenty-fifth week of Sundays, and WEEK says 23. *)
Lemma week_of_year_two_short_witness :
  week_of_year (on 2025 6 15 eq_refl) 7 0 = Ok (week_number (on 2025 6 18 eq_refl) - 2) /\
  week_number (on 2025 6 18 eq_refl) = 25.
Proof.
  split; [|vm_compute; reflexivity].
  apply (week_of_year_two_short 7 (on 2025 6 15 eq_refl) (on 2025 6 18 eq_refl)); vm_compute; discriminate || reflexivity.
Defined.

Lemma week_of_year_terminates_witness :
  week_of_year (on 2017 1 1 eq_refl) 3 0 <> Err OutOfFuel /\ calculate_year_of_week (on 2017 1 1 eq_refl) 3 0 <> Err OutOfFuel.
Proof. apply (week_of_year_terminates (on 2017 1 1 eq_refl) 3 0). Defined.

Lemma week_policy_one_witness : exists n, week_of_year (on 2016 1 3 eq_refl) 1 1 = Ok n /\ 1 <= n <= 54.
Proof.
  destruct (week_policy_one 1 (on 2016 1 3 eq_refl)) as (n & H1 & H2 & _); [vm_compute; reflexivity|]. by exists n.
Defined.

(** A month of -1 and a day of -1 count back from December and from the first of the month. *)
Lemma make_date_correct_witness : make_date 2004 (-1) (-1) = Ok (num_days_from_ce (on 2003 10 30 eq_refl) - epoch_ce).
Proof.
  apply (make_date_correct 2004 (-1) (-1)); [lia|lia|reflexivity|reflexivity|]. split; [vm_compute; split; discriminate|].
  exists (on 2003 11 1 eq_refl), (on 2003 10 30 eq_refl). split; [|split; reflexivity]. unfold first_of_month. vm_compute. reflexivity.
Defined.

Definition from_own_parts (ts : Z) (nano : option Z) : result dt_error Z :=
  let part i := date_part_value i 0 0 ts in
  let? y := part Interval.Year in
  let? m := part Interval.Month in
  let? d := part Interval.Day in
  let? h := part Interval.Hour in
  let? mi := part Interval.Minute in
  let? s := part Interval.Second in
  make_timestamp y m d h mi s nano None.

Lemma timestamp_parts_round_trip_witness :
  from_own_parts (-1) None = Ok (-1000000000) /\ from_own_parts (-1) (Some 999999999) = Ok (-1) /\ from_own_parts 1 None = Ok 0.
Proof.
  split; [|split].
  - apply (timestamp_parts_round_trip (-1) None 0 0); reflexivity.
  - apply (timestamp_parts_round_trip (-1) (Some 999999999) 0 0); reflexivity.
  - apply (timestamp_parts_round_trip 1 None 0 0); reflexivity.
Defined.

Definition zone (offset : Z) : @Tz fixed_zones := offset.

(** From an hour ahead of UTC to UTC, and back. *)
Lemma convert_timezone_round_trip_witness :
  convert_timezone (zone 0) (zone 3600000000000) 3600000000000 = Ok 7200000000000 /\
  convert_timezone (zone 0) (zone 0) 3600000000000 = convert_timezone (zone 3600000000000) (zone 0) 7200000000000.
Proof.
  apply (convert_timezone_round_trip (zone 3600000000000) (zone 0) (zone 0) 7200000000000 3600000000000);
    try reflexivity. by eexists.
Defined.

Lemma mixed_parts_panic_witness :
  date_from_parts [PartArray (mkPrimitive [2024; 2025] [true; true]); PartScalar (Some 1); PartScalar (Some 1)] = Err Panicked.
Proof. apply (mixed_parts_panic 2024 2025 [] [true; true] 1 1 19723); vm_compute; reflexivity. Defined.

(** Timestamps hold 584 years: the first of January 3000 wraps to 1830. *)
Lemma timestamp_from_parts_wraps : exists ts, make_timestamp 3000 1 1 0 0 0 None None = Ok ts /\ ts < 0 /\
  date_part_value Interval.Year 0 0 ts = Ok 1830.
Proof. eexists. split; [vm_compute; reflexivity|]. split; [lia|vm_compute; reflexivity]. Qed.

(** A session with WEEK_OF_YEAR_POLICY set to a quoted number is one without: the quotes are part of the
    value, and no number is read from it. *)
Lemma quoted_number_is_zero `{SqlTextLaws} now id (params : SessionParams) :
  usize_property (<["week_of_year_policy" := from_key_value now
      (mkOption "WEEK_OF_YEAR_POLICY" (KeyValueOptionKind.Single (SqlValue.SingleQuotedString "1"))) id]> params)
    "week_of_year_policy" = 0 /\
  usize_property (<["week_of_year_policy" := from_key_value now
      (mkOption "WEEK_OF_YEAR_POLICY" (KeyValueOptionKind.Single (SqlValue.Number "1" false))) id]> params)
    "week_of_year_policy" = 1.
Proof.
  unfold usize_property, get_property. rewrite !lookup_insert_eq. cbn.
  by rewrite quoted_text, number_text by done.
Qed.
End DatePartsExamples.
