(* ===== verification/Session.v ===== *)
(** * Sessions and names

    [executor/src/session.rs], the statements of [executor/src/query.rs] that change a session (USE,
    SET, ALTER SESSION), the resolution of the names of tables and schemas against the session, the
    SQL that SHOW and DESCRIBE are rewritten to, and the session functions of
    [datafusion/rewriters/session_context.rs].  [sqlparser]'s syntax is data; its printing, the
    normalizer and the options of DataFusion, and running a query are parameters. *)

From Stdlib Require Import ZArith Lia Ascii String.
From stdpp Require Import base option list gmap strings.
From S2P Require Import Prelude Utf8 JsonValue JsonEncode SessionParams ExecutorErrors.

Open Scope string_scope.
Open Scope Z_scope.
Open Scope rust_scope.

#[local] Arguments String.append : simpl nomatch.

(** ** Syntax *)

(** [sqlparser::ast::Ident], [ObjectNamePart] and [Use]. *)
Record Ident := mkIdent { ident_value : string; quote_style : option ascii }.

Inductive ObjectNamePart := Identifier (i : Ident) | FunctionPart (display : string).

Notation ObjectName := (list ObjectNamePart).

Inductive UseEntity :=
| UseCatalog (n : ObjectName) | UseSchema (n : ObjectName) | UseDatabase (n : ObjectName)
| UseWarehouse (n : ObjectName) | UseRole (n : ObjectName) | UseObject (n : ObjectName)
| UseSecondaryRoles (display : string) | UseDefault.

(** [sqlparser::ast::Expr], as SET tells expressions apart; an expression carries its text. *)
Inductive SetExpr :=
| ValueExpr (v : SqlValue.t)
| SubqueryExpr (query : string)
| BinaryOpExpr (display : string)
| OtherExpr (display : string).

(** [datafusion_common]'s references. *)
Inductive TableReference := Bare (table : string) | Partial (schema table : string) | Full (catalog schema table : string).
Inductive SchemaReference := BareSchema (schema : string) | FullSchema (catalog schema : string).
Record ResolvedTableReference := mkResolved { catalog : string; schema : string; table : string }.

#[global] Instance ResolvedTableReference_eq_dec : EqDecision ResolvedTableReference.
Proof. solve_decision. Defined.

(** [Ident::new] and [Ident::with_quote]. *)
Definition ident_new (value : string) : Ident := mkIdent value None.

Definition double_quote : ascii := ascii_of_nat 34.

(** ** The code the session calls *)
Class SessionExt := {
  (** [Display] of identifiers and names, and [object_name_to_string]. *)
  ident_to_string : Ident -> string;
  object_to_string : ObjectName -> string;
  object_name_to_string : ObjectName -> string;
  expr_to_string : SetExpr -> string;
  (** [str::to_lowercase]. *)
  to_lowercase : string -> string;
  (** [IdentNormalizer::normalize] of an unquoted identifier. *)
  normalize : string -> string;
  (** [TableReference::resolve] with the default catalog and schema. *)
  resolve : TableReference -> string -> string -> ResolvedTableReference;
  (** [TableReference::parse_str], which folds the parts that are not quoted. *)
  parse_str : string -> TableReference;
  (** [SchemaReference]'s [Display]. *)
  schema_to_string : SchemaReference -> string;
  (** [ConfigOptions::set]. *)
  Config : Type;
  config_set : Config -> string -> string -> result DataFusionError Config }.

Class SessionExtLaws `{SessionExt} : Prop := {
  plain_ident : forall v, ident_to_string (ident_new v) = v;
  plain_name : forall v, object_to_string [Identifier (ident_new v)] = v;
  quoted_name : forall v, str_all (fun c => negb (Ascii.eqb c double_quote)) v = true ->
    object_to_string [Identifier (mkIdent v (Some double_quote))] = String double_quote (v ++ String double_quote "");
  lowercase_ascii : forall s, to_ascii_lowercase s = s -> to_lowercase s = s;
  normalize_lower : forall v, normalize v = to_ascii_lowercase v;
  resolve_bare : forall t c s, resolve (Bare t) c s = mkResolved c s t;
  resolve_partial : forall s' t c s, resolve (Partial s' t) c s = mkResolved c s' t;
  resolve_full : forall c' s' t c s, resolve (Full c' s' t) c s = mkResolved c' s' t }.

(** The errors of these statements, by their text. *)
Definition ony_use_with_variables : Error := OtherError "Only USE with variables are supported".
Definition only_primitive_statements : Error := OtherError "Only primitive statements are supported".
Definition invalid_table_identifier (ident : string) : Error := OtherError ("Invalid table identifier: " ++ ident).
Definition invalid_schema_identifier (ident : string) : Error := OtherError ("Invalid schema identifier: " ++ ident).

(** A [HashMap] of parameters gives its entries, each once, in an order nobody can rely on. *)
Class HashOrder := { iterate : gmap string SessionProperty -> list (string * SessionProperty) }.
Class HashOrderLaws `{HashOrder} : Prop := { iterate_entries : forall m, iterate m ≡ₚ map_to_list m }.

(** [collect] and repeated [insert]: a key that is given twice has its last value. *)
Definition hash_map_of (l : list (string * SessionProperty)) : gmap string SessionProperty :=
  foldl (fun m p => <[fst p := snd p]> m) ∅ l.

Section sessions.
Context `{SessionExt} `{SqlText} {order : HashOrder}.

(** ** [UserSession]

    The parameters are shared with the functions registered for the session; [now] is the clock a
    statement reads. *)
Record UserSession := mkSession {
  ctx_session_id : string;
  session_params : SessionParams;
  config : Config;
  recent_queries : list QueryId }.

Definition with_params (s : UserSession) (p : SessionParams) : UserSession :=
  mkSession s.(ctx_session_id) p s.(config) s.(recent_queries).
Definition with_config (s : UserSession) (c : Config) : UserSession :=
  mkSession s.(ctx_session_id) s.(session_params) c s.(recent_queries).

Definition is_datafusion_key (key : string) : bool := String.prefix "datafusion." (to_lowercase key).

(** The loop that applies DataFusion's options stops at the first that is refused; those before it stay. *)
Fixpoint set_options (c : Config) (params : list (string * string)) : Config * option DataFusionError :=
  match params with
  | [] => (c, None)
  | (key, value) :: params =>
      match config_set c key value with
      | Ok c' => set_options c' params
      | Err e => (c, Some e)
      end
  end.

(** What the loop over the entries makes of them. *)
Definition datafusion_params (params : list (string * SessionProperty)) : list (string * string) :=
  map (fun p => (to_ascii_lowercase (fst p), (snd p).(value))) (List.filter (fun p => is_datafusion_key (fst p)) params).

Definition own_params (params : list (string * SessionProperty)) : SessionParams :=
  foldl (fun m p => <[to_ascii_lowercase (fst p) := snd p]> m) ∅
    (List.filter (fun p => negb (is_datafusion_key (fst p))) params).

Definition set_session_variable (s : UserSession) (set : bool) (params : gmap string SessionProperty) :
  UserSession * result Error unit :=
  let params := iterate params in
  let '(c, e) := set_options s.(config) (datafusion_params params) in
  let s := with_config s c in
  match e with
  | Some e => (s, Err (DataFusion e))
  | None =>
      let p := if set then set_properties s.(session_params) (own_params params)
               else remove_properties s.(session_params) (own_params params) in
      (with_params s p, Ok tt)
  end.

Definition get_session_variable (s : UserSession) (variable : string) : option string :=
  value <$> s.(session_params) !! variable.

Definition parse_bool (value : string) : option bool :=
  let v := to_ascii_lowercase (trim value) in
  if String.eqb v "true" || String.eqb v "1" then Some true
  else if String.eqb v "false" || String.eqb v "0" then Some false
  else None.

Definition get_session_variable_bool (s : UserSession) (variable : string) : bool :=
  match s.(session_params) !! variable with
  | Some prop => match parse_bool prop.(value) with Some parsed => parsed | None => false end
  | None => false
  end.

Definition MAX_QUERIES : nat := 64.

(** [push_front], and [pop_back] while there are too many. *)
Definition record_query_id (s : UserSession) (query_id : QueryId) : UserSession :=
  mkSession s.(ctx_session_id) s.(session_params) s.(config) (take MAX_QUERIES (query_id :: s.(recent_queries))).

(** ** USE, SET and ALTER SESSION *)
Definition str_property (now : Z) (s : UserSession) (key value : string) : string * SessionProperty :=
  (key, from_str_value now key value (Some s.(ctx_session_id))).

Definition execute_use_statement (now : Z) (s : UserSession) (entity : UseEntity) : UserSession * result Error unit :=
  let '(variable, value) :=
    match entity with
    | UseCatalog n => ("catalog", object_to_string n)
    | UseSchema n => ("schema", object_to_string n)
    | UseDatabase n => ("database", object_to_string n)
    | UseWarehouse n => ("warehouse", object_to_string n)
    | UseRole n => ("role", object_to_string n)
    | UseObject n => ("object", object_to_string n)
    | UseSecondaryRoles sr => ("secondary_roles", sr)
    | UseDefault => ("", "")
    end in
  if String.eqb variable "" || String.eqb value "" then (s, Err ony_use_with_variables)
  else set_session_variable s true (hash_map_of [str_property now s variable value]).

(** Running a query for its first value: [execute_scalar_query]. *)
Context (execute_scalar_query : UserSession -> string -> result Error ScalarValue).

Definition set_value (now : Z) (s : UserSession) (key : string) (e : SetExpr) : result Error SessionProperty :=
  match e with
  | ValueExpr v => Ok (from_value now key v s.(ctx_session_id))
  | SubqueryExpr query =>
      let? scalar := execute_scalar_query s query in
      Ok (from_scalar_value now key scalar s.(ctx_session_id))
  | BinaryOpExpr _ =>
      let? scalar := execute_scalar_query s ("SELECT " ++ expr_to_string e) in
      Ok (from_scalar_value now key scalar s.(ctx_session_id))
  | OtherExpr _ => Err only_primitive_statements
  end.

Definition set_variable (now : Z) (s : UserSession) (variable : ObjectName) (values : list SetExpr) :
  UserSession * result Error unit :=
  let name := object_to_string variable in
  match traverse (set_value now s name) values with
  | Err e => (s, Err e)
  | Ok props => set_session_variable s true (hash_map_of (map (pair name) props))
  end.

Definition tuple_value (now : Z) (s : UserSession) (key : string) (e : SetExpr) : result Error SessionProperty :=
  match e with
  | ValueExpr v => Ok (from_value now key v s.(ctx_session_id))
  | _ =>
      let? scalar := execute_scalar_query s ("SELECT " ++ expr_to_string e) in
      Ok (from_scalar_value now key scalar s.(ctx_session_id))
  end.

(** The parenthesized assignment of the parsed text. *)
Definition set_tuple_variables (now : Z) (s : UserSession) (variables : list ObjectName) (values : list SetExpr) :
  UserSession * result Error unit :=
  let names := map object_name_to_string variables in
  if negb (length names =? length values)%nat then (s, Err only_primitive_statements)
  else
    match traverse (fun p => result_map (pair (fst p)) (tuple_value now s (fst p) (snd p))) (combine names values) with
    | Err e => (s, Err e)
    | Ok props => set_session_variable s true (hash_map_of props)
    end.

Definition alter_session (now : Z) (s : UserSession) (set : bool) (options : list KeyValueOption) :
  UserSession * result Error unit :=
  set_session_variable s set (hash_map_of (map (fun v => (v.(option_name), from_key_value now v s.(ctx_session_id))) options)).

(** ** The functions of the session: LAST_QUERY_ID *)
Definition get_query_by_index (queries : list string) (index : Z) : option string :=
  if index <? 0 then
    if index =? i64_min then None else queries !! Z.to_nat (- index - 1)
  else if 0 <? index then
    if Z.of_nat (length queries) <? index then None else queries !! (length queries - Z.to_nat index)%nat
  else None.

Definition last_query_id (s : UserSession) (index : Z) : string := default "" (get_query_by_index s.(recent_queries) index).

(** ** Names *)

(** What a query knows besides its session. *)
Record QueryContext := mkContext { ctx_database : option string; ctx_schema : option string }.

Context (s : UserSession) (query_context : QueryContext).

Definition or_else {A} (a b : option A) : option A := match a with Some _ => a | None => b end.

Definition current_database : string :=
  default "embucket" (or_else (get_session_variable s "database") query_context.(ctx_database)).

Definition current_schema : string :=
  default "public" (or_else (get_session_variable s "schema") query_context.(ctx_schema)).

Definition normalize_ident (ident : Ident) : Ident :=
  match ident.(quote_style) with
  | Some qs => mkIdent ident.(ident_value) (Some qs)
  | None => ident_new (normalize ident.(ident_value))
  end.

Definition normalize_resolved_ref (t : ResolvedTableReference) : ResolvedTableReference :=
  mkResolved (to_ascii_lowercase t.(catalog)) (to_ascii_lowercase t.(schema)) (to_ascii_lowercase t.(table)).

Definition resolve_table_ref (table_ref : TableReference) : ResolvedTableReference :=
  normalize_resolved_ref (resolve table_ref current_database current_schema).

Definition part_to_string (p : ObjectNamePart) : string :=
  match p with Identifier i => ident_to_string i | FunctionPart d => d end.

Definition part_ident (p : ObjectNamePart) : Ident :=
  match p with Identifier ident => normalize_ident ident | FunctionPart _ => ident_new "" end.

Definition resolve_table_object_name (table_ident : ObjectName) : result Error (list Ident) :=
  let database := Identifier (ident_new current_database) in
  let schema := Identifier (ident_new current_schema) in
  let? table_ident :=
    match table_ident with
    | [t] => Ok [database; schema; t]
    | [sc; t] => Ok [database; sc; t]
    | [_; _; _] => Ok table_ident
    | _ => Err (invalid_table_identifier (join "." (map part_to_string table_ident)))
    end in
  Ok (List.filter (fun i => negb (String.eqb i.(ident_value) "")) (map part_ident table_ident)).

(** [String::from(&NormalizedIdent)], also its [Display]: the values with dots, without their quotes. *)
Definition normalized_to_string (i : list Ident) : string := join "." (map ident_value i).

(** [TableReference::from(&NormalizedIdent)]. *)
Definition normalized_to_reference (i : list Ident) : TableReference := parse_str (normalized_to_string i).

Definition resolve_ident (table_ident : list Ident) : result Error ResolvedTableReference :=
  match map ident_value table_ident with
  | [t] => Ok (resolve_table_ref (Bare t))
  | [sc; t] => Ok (resolve_table_ref (Partial sc t))
  | [c; sc; t] => Ok (resolve_table_ref (Full c sc t))
  | _ => Err (invalid_table_identifier (normalized_to_string table_ident))
  end.

Definition resolve_schema_ref (sc : SchemaReference) : SchemaReference :=
  match sc with BareSchema sc => FullSchema current_database sc | FullSchema _ _ => sc end.

Definition schema_ref_to_resolved (sc : SchemaReference) : ResolvedTableReference :=
  match sc with
  | BareSchema sc => mkResolved current_database sc ""
  | FullSchema c sc => mkResolved c sc ""
  end.

Definition resolve_schema_name (ident : string) : result Error SchemaReference :=
  let norm p := ident_to_string (normalize_ident (ident_new p)) in
  match split ident "." with
  | [sc] => Ok (FullSchema current_database (norm sc))
  | [c; sc] => Ok (FullSchema (norm c) (norm sc))
  | _ => Err (invalid_schema_identifier ident)
  end.

(** ** SHOW and DESCRIBE *)

Definition show_databases_select : string := "SELECT
                        NULL as created_on,
                        database_name as name,
                        'STANDARD' as kind,
                        NULL as database_name,
                        NULL as schema_name
                    FROM ".

Definition show_schemas_select : string := "SELECT
                        NULL as created_on,
                        schema_name as name,
                        NULL as kind,
                        catalog_name as database_name,
                        NULL as schema_name
                    FROM ".

Definition show_tables_select : string := "SELECT
                        NULL as created_on,
                        table_name as name,
                        table_type as kind,
                        table_catalog as database_name,
                        table_schema as schema_name
                    FROM ".

Definition show_views_select : string := "SELECT
                        NULL as created_on,
                        view_name as name,
                        view_type as kind,
                        view_catalog as database_name,
                        view_schema as schema_name
                    FROM ".

Definition show_objects_select : string := "SELECT
                        NULL as created_on,
                        upper(table_name) as name,
                        table_type as kind,
                        upper(table_catalog) as database_name,
                        upper(table_schema) as schema_name,
                        is_iceberg,
                        'N' as is_dynamic
                    FROM ".

Definition show_columns_select : string := "SELECT
                        table_name as table_name,
                        table_schema as schema_name,
                        column_name as column_name,
                        data_type as data_type,
                        is_nullable as 'null?',
                        column_default as default,
                        column_type as kind,
                        NULL as expression,
                        NULL as comment,
                        table_catalog as database_name,
                        NULL as autoincrement
                    FROM ".

Definition primary_keys_select : string := "SELECT
                        NULL::TIMESTAMP as created_on,
                        NULL::VARCHAR as database_name,
                        NULL::VARCHAR as schema_name,
                        NULL::VARCHAR as table_name,
                        NULL::VARCHAR as column_name,
                        NULL::INT as key_sequence,
                        NULL::VARCHAR as comment,
                        NULL::VARCHAR as constraint_name".

Definition show_variable_select : string := "SELECT
                        NULL as created_on,
                        NULL as updated_on,
                        name,
                        value,
                        NULL as type,
                        description as comment
                    FROM ".

Definition show_variables_select : string := "SELECT
                        session_id,
                        name AS name,
                        value,
                        type,
                        description as comment,
                        created_on,
                        updated_on
                    FROM ".

Definition describe_select : string := "SELECT
                column_name as name,
                upper(snowflake_data_type) as type,
                is_nullable as 'null?'
            FROM ".

(** [ShowStatementInParentType], [ShowStatementIn] and the SHOW statements. *)
Inductive ShowType := ShowAccount | ShowDatabase | ShowSchema | ShowTable | ShowView.

Record ShowStatementIn := mkShowIn { parent_type : option ShowType; parent_name : option ObjectName }.

Record ShowOptions := mkShowOptions { show_in : option ShowStatementIn; starts_with : option SqlValue.t }.

Inductive ShowStatement :=
| ShowDatabases (o : ShowOptions)
| ShowSchemas (o : ShowOptions)
| ShowTables (o : ShowOptions)
| ShowViews (o : ShowOptions)
| ShowObjects (o : ShowOptions)
| ShowColumns (o : ShowOptions)
| ShowVariable (variable : ObjectName)
| ShowVariables (like : option string)
| ShowOther (display : string).

(** What the catalog list answers: [catalog(name)], [schema(name)] and [table_exist(name)]. *)
Record Catalogs := mkCatalogs {
  has_catalog : string -> bool;
  has_schema : string -> string -> bool;
  table_exist : string -> string -> string -> bool }.

Definition get_catalog (cs : Catalogs) (name : string) : result Error unit :=
  if has_catalog cs name then Ok tt else Err (DatabaseNotFound name).

Definition INFORMATION_SCHEMA : string := "information_schema".

(** [catalog.schema(name).context(..)]. *)
Definition get_schema (cs : Catalogs) (o : OperationOn) (db sc : string) : result Error unit :=
  if has_schema cs db sc then Ok tt else Err (SchemaNotFoundInDatabase o sc db).

Definition show_part (p : ObjectNamePart) : string :=
  match p with Identifier ident => ident_to_string (normalize_ident ident) | FunctionPart _ => "" end.

Definition resolve_show_in_name (cs : Catalogs) (show_in : option ShowStatementIn) (default_show_type : ShowType) :
  result Error TableReference :=
  match show_in with
  | None => Ok (Full current_database current_schema "")
  | Some clause =>
      let parts := List.filter (fun p => negb (String.eqb p ""))
        (map show_part (default [] clause.(parent_name))) in
      match default default_show_type clause.(parent_type) with
      | ShowAccount | ShowDatabase =>
          let database := join "" parts in
          let? _ := get_catalog cs database in
          Ok (Full database "" "")
      | ShowSchema =>
          let '(database, sc) :=
            match parts with
            | [sc] => (current_database, sc)
            | [d; sc] => (d, sc)
            | _ => ("", "")
            end in
          let? _ := get_catalog cs database in
          let? _ := if String.eqb sc INFORMATION_SCHEMA then Ok tt else get_schema cs (OnSchema OpShow) database sc in
          Ok (Full database sc "")
      | ShowTable | ShowView =>
          let '(database, sc, t) :=
            match parts with
            | [t] => (current_database, current_schema, t)
            | [sc; t] => (current_database, sc, t)
            | [d; sc; t] => (d, sc, t)
            | _ => (current_database, current_schema, "")
            end in
          let? _ := get_catalog cs database in
          let? _ := get_schema cs (OnTable OpShow) database sc in
          if table_exist cs database sc t then Ok (Full database sc t)
          else Err (TableNotFoundInSchemaInDatabase (OnTable OpShow) t sc database)
      end
  end.

Definition build_starts_with_filter (starts_with : option SqlValue.t) (column_name : string) : option string :=
  match starts_with with
  | Some (SqlValue.SingleQuotedString prefix) =>
      let escaped := replace prefix "'" "''" in
      Some (column_name ++ " LIKE '" ++ escaped ++ "%'")
  | _ => None
  end.

Definition apply_show_filters (sql : string) (filters : list string) : string :=
  match filters with [] => sql | _ => sql ++ " WHERE " ++ join " AND " filters end.

(** [reference.catalog()], [schema()] and [table()] of a [TableReference]. *)
Definition ref_catalog (r : TableReference) : option string := match r with Full c _ _ => Some c | _ => None end.
Definition ref_schema (r : TableReference) : option string :=
  match r with Full _ sc _ | Partial sc _ => Some sc | Bare _ => None end.
Definition ref_table (r : TableReference) : string := match r with Full _ _ t | Partial _ t | Bare t => t end.

Definition equals_filter (column v : string) : string := column ++ " = '" ++ v ++ "'".

(** [if let Some(schema) = reference.schema().filter(|s| !s.is_empty()) { .. }]. *)
Definition schema_filter (column : string) (r : TableReference) : list string :=
  match ref_schema r with
  | Some sc => if String.eqb sc "" then [] else [equals_filter column sc]
  | None => []
  end.

Definition show_listing (cs : Catalogs) (o : ShowOptions) (default_type : ShowType) (select view : string) (first : list string)
  (prefix_column : string) (more : TableReference -> list string) : result Error string :=
  let? reference := resolve_show_in_name cs o.(show_in) default_type in
  let sql := select ++ default current_database (ref_catalog reference) ++ ".information_schema." ++ view in
  Ok (apply_show_filters sql
        (first ++ option_list (build_starts_with_filter o.(starts_with) prefix_column) ++ more reference)).

Context (to_uppercase : string -> string).

(** The query a SHOW statement is rewritten to. *)
Definition show_query (cs : Catalogs) (statement : ShowStatement) : result Error string :=
  match statement with
  | ShowDatabases o =>
      Ok (apply_show_filters (show_databases_select ++ current_database ++ ".information_schema.databases")
            (option_list (build_starts_with_filter o.(starts_with) "database_name")))
  | ShowSchemas o => show_listing cs o ShowDatabase show_schemas_select "schemata" [] "schema_name" (fun _ => [])
  | ShowTables o =>
      show_listing cs o ShowSchema show_tables_select "tables" ["table_type = 'TABLE'"] "table_name" (schema_filter "table_schema")
  | ShowViews o => show_listing cs o ShowSchema show_views_select "views" [] "view_name" (schema_filter "view_schema")
  | ShowObjects o => show_listing cs o ShowSchema show_objects_select "tables" [] "table_name" (schema_filter "table_schema")
  | ShowColumns o =>
      show_listing cs o ShowTable show_columns_select "columns" [] "column_name"
        (fun r => (schema_filter "table_schema" r ++
                   match o.(show_in) with Some _ => [equals_filter "table_name" (ref_table r)] | None => [] end)%list)
  | ShowVariable variable =>
      let variable := object_name_to_string variable in
      if String.prefix "PRIMARY.KEYS" (to_uppercase variable) then Ok primary_keys_select
      else Ok (show_variable_select ++ current_database ++ ".information_schema.df_settings
                    WHERE name = '" ++ variable ++ "'")
  | ShowVariables like =>
      Ok (apply_show_filters (show_variables_select ++ current_database ++ ".information_schema.df_settings")
            ("session_id is NOT NULL" :: match like with Some pattern => ["name LIKE '" ++ pattern ++ "'"] | None => [] end))
  | ShowOther display => Err (OtherError ("unsupported SHOW statement: " ++ display))
  end.

(** The object a SHOW statement is about, which the information schema reads no further than. *)
Definition show_query_table_reference (cs : Catalogs) (statement : ShowStatement) : result Error (option TableReference) :=
  match statement with
  | ShowSchemas o => result_map Some (resolve_show_in_name cs o.(show_in) ShowDatabase)
  | ShowTables o | ShowViews o | ShowObjects o =>
      match default ShowSchema (o.(show_in) ≫= parent_type) with
      | ShowDatabase => Ok None
      | _ => result_map Some (resolve_show_in_name cs o.(show_in) ShowSchema)
      end
  | ShowColumns o => result_map Some (resolve_show_in_name cs o.(show_in) ShowTable)
  | _ => Ok None
  end.

Definition describe_table_query (table_name : ObjectName) : result Error string :=
  let? resolved_ident := resolve_table_object_name table_name in
  let t := resolve_table_ref (normalized_to_reference resolved_ident) in
  Ok (describe_select ++ t.(catalog) ++ ".information_schema.columns
            WHERE table_catalog = '" ++ t.(catalog) ++ "'
              AND table_schema = '" ++ t.(schema) ++ "'
              AND table_name = '" ++ t.(table) ++ "'
            ORDER BY ordinal_position").

(** TRUNCATE TABLE replaces the first table by an empty copy of itself. *)
Definition truncate_table (table_names : list ObjectName) : result Error string :=
  match table_names with
  | [] => Err (OtherError "No table names provided for TRUNCATE TABLE")
  | first_table :: _ =>
      let? i := resolve_table_object_name first_table in
      let object_name := normalized_to_string i in
      Ok ("CREATE OR REPLACE TABLE " ++ object_name ++ " as (SELECT * FROM " ++ object_name ++ " WHERE FALSE)")
  end.

(** ** ALTER TABLE, DROP and CREATE SCHEMA

    What the catalogs answer besides: looking a table up, and which of DataFusion's traits the provider is
    ([CachingCatalog], backed by Iceberg or not, and [CachingSchema]). *)
Record CatalogKinds := mkKinds {
  find_table : string -> string -> string -> result DataFusionError bool;
  is_caching_catalog : string -> bool;
  has_iceberg_catalog : string -> bool;
  is_caching_schema : string -> string -> bool }.

(** [get_catalog(..).map_err(..)]. *)
Definition catalog_for (cs : Catalogs) (o : OperationOn) (name : string) : result Error unit :=
  if has_catalog cs name then Ok tt else Err (CatalogNotFound o name).

(** [schema.table(..).await.context(DataFusionSnafu)?]. *)
Definition table_for (k : CatalogKinds) (t : ResolvedTableReference) : result Error bool :=
  match find_table k t.(catalog) t.(schema) t.(table) with Ok b => Ok b | Err e => Err (DataFusion e) end.

(** The operations are not looked at. *)
Definition alter_table (cs : Catalogs) (k : CatalogKinds) (name : ObjectName) (if_exists : bool) : result Error unit :=
  let? ident := resolve_table_object_name name in
  let resolved := resolve_table_ref (normalized_to_reference ident) in
  let? _ := catalog_for cs (OnTable OpAlter) resolved.(catalog) in
  let? _ := get_schema cs (OnTable OpAlter) resolved.(catalog) resolved.(schema) in
  if if_exists then Ok tt
  else
    let? found := table_for k resolved in
    if found : bool then Ok tt
    else Err (TableNotFoundInSchemaInDatabase (OnTable OpAlter) resolved.(table) resolved.(schema) resolved.(catalog)).

Inductive ObjectType := TypeTable | TypeView | TypeSchema | TypeDatabase | TypeOther.

#[local] Instance ObjectType_eq_dec : EqDecision ObjectType.
Proof. solve_decision. Defined.

(** The plans DataFusion makes of DROP and CREATE SCHEMA. *)
Inductive DdlPlan :=
| PlanDropTable (name : TableReference)
| PlanDropView (name : TableReference)
| PlanDropCatalogSchema (name : SchemaReference)
| PlanCreateCatalogSchema (schema_name : string) (if_not_exists : bool)
| PlanOther.

(** What a statement does in the end. *)
Inductive DdlAction :=
| DropCatalog (name : string) (cascade : bool)
| DropNamespace (db sc : string) (cascade : bool)
| DropTableAsync (t : ResolvedTableReference)
| CreateNamespace (db sc : string)
| ExecutePlan (plan : DdlPlan)
| NothingToDo.

Definition resolved_to_reference (t : ResolvedTableReference) : TableReference := Full t.(catalog) t.(schema) t.(table).

Definition drop_operation (object_type : ObjectType) : OperationOn :=
  match object_type with
  | TypeTable | TypeView => OnTable OpDrop
  | TypeSchema => OnSchema OpDrop
  | TypeDatabase => OnDatabase OpDrop
  | TypeOther => OnUnknown
  end.

(** The checks that the object is there. *)
Definition drop_checks (cs : Catalogs) (k : CatalogKinds) (object_type : ObjectType) (if_exists : bool)
  (t : ResolvedTableReference) : result Error unit :=
  match object_type with
  | TypeTable | TypeView =>
      if has_schema cs t.(catalog) t.(schema) then
        if if_exists then Ok tt
        else
          let? found := table_for k t in
          if found : bool then Ok tt
          else Err (TableNotFoundInSchemaInDatabase (OnTable OpDrop) t.(table) t.(schema) t.(catalog))
      else Err (SchemaNotFoundInDatabase (OnTable OpDrop) t.(schema) t.(catalog))
  | TypeSchema =>
      if negb if_exists && negb (has_schema cs t.(catalog) t.(schema))
      then Err (SchemaNotFoundInDatabase (OnTable OpDrop) t.(schema) t.(catalog)) else Ok tt
  | _ => Ok tt
  end.

Definition drop_query (cs : Catalogs) (k : CatalogKinds) (object_type : ObjectType) (names : list ObjectName)
  (cascade if_exists : bool) (plan : result Error DdlPlan) : result Error DdlAction :=
  if bool_decide (object_type = TypeDatabase) then
    match names with
    | database :: _ => Ok (DropCatalog (object_name_to_string database) cascade)
    | [] => Err (OtherError "Invalid database identifier: ")
    end
  else
    let? plan := plan in
    let? (plan, t) :=
      match plan with
      | PlanDropTable name => let r := resolve_table_ref name in Ok (PlanDropTable (resolved_to_reference r), r)
      | PlanDropView name => let r := resolve_table_ref name in Ok (PlanDropView (resolved_to_reference r), r)
      | PlanDropCatalogSchema name =>
          let r := resolve_schema_ref name in Ok (PlanDropCatalogSchema r, schema_ref_to_resolved r)
      | _ => Err (OtherError "Only DROP statements are supported")
      end in
    let? _ := catalog_for cs (drop_operation object_type) t.(catalog) in
    let? _ := drop_checks cs k object_type if_exists t in
    let iceberg := is_caching_catalog k t.(catalog) && has_iceberg_catalog k t.(catalog) in
    match object_type with
    | TypeSchema => Ok (if iceberg then DropNamespace t.(catalog) t.(schema) cascade else ExecutePlan plan)
    | TypeTable =>
        Ok (if iceberg && has_schema cs t.(catalog) t.(schema) && is_caching_schema k t.(catalog) t.(schema)
            then DropTableAsync t else ExecutePlan plan)
    | _ => Ok (ExecutePlan plan)
    end.

Definition create_schema (cs : Catalogs) (k : CatalogKinds) (plan : result Error DdlPlan) : result Error DdlAction :=
  let? plan := plan in
  let? (plan, t, if_not_exists) :=
    match plan with
    | PlanCreateCatalogSchema schema_name if_not_exists =>
        let? resolved := resolve_schema_name schema_name in
        Ok (PlanCreateCatalogSchema (schema_to_string resolved) if_not_exists, schema_ref_to_resolved resolved, if_not_exists)
    | _ => Err (OtherError "Only CREATE SCHEMA statements are supported")
    end in
  let? _ := get_catalog cs t.(catalog) in
  if has_schema cs t.(catalog) t.(schema) then
    if if_not_exists : bool then Ok NothingToDo
    else Err (OtherError ("Object of type Schema with name " ++ t.(schema) ++ " already exists"))
  else Ok (if is_caching_catalog k t.(catalog) then CreateNamespace t.(catalog) t.(schema) else ExecutePlan plan).
End sessions.

(** ** Session variables *)
Section variables.
Context `{SessionExt} `{SqlText} `{order_laws : HashOrderLaws} (execute_scalar_query : UserSession -> string -> result Error ScalarValue).

(** Whether a parameter names the session variable [k]. *)
Definition names_variable (k : string) (p : string * SessionProperty) : bool :=
  negb (is_datafusion_key (fst p)) && String.eqb (to_ascii_lowercase (fst p)) k.

Lemma own_params_snoc params p : own_params (params ++ [p]) =
  if is_datafusion_key (fst p) then own_params params else <[to_ascii_lowercase (fst p) := snd p]> (own_params params).
Proof.
  unfold own_params. rewrite List.filter_app. simpl. destruct (is_datafusion_key (fst p)); simpl.
  - by rewrite app_nil_r.
  - by rewrite foldl_app.
Qed.

(** The last entry with a name wins. *)
Lemma own_params_lookup params k : own_params params !! k = snd <$> last (List.filter (names_variable k) params).
Proof.
  induction params as [|p params IH] using rev_ind; [done|].
  rewrite own_params_snoc, List.filter_app. simpl. unfold names_variable at 2.
  destruct (is_datafusion_key (fst p)); simpl; [by rewrite app_nil_r|].
  destruct (String.eqb_spec (to_ascii_lowercase (fst p)) k) as [<-|Hne].
  - by rewrite lookup_insert_eq, last_snoc.
  - by rewrite lookup_insert_ne, app_nil_r.
Qed.

Lemma set_session_variable_Ok s b params s' r :
  set_session_variable s b params = (s', r) ->
  s'.(session_params) =
    match r with
    | Ok _ => if b then set_properties s.(session_params) (own_params (iterate params))
              else remove_properties s.(session_params) (own_params (iterate params))
    | Err _ => s.(session_params)
    end /\ s'.(recent_queries) = s.(recent_queries).
Proof. unfold set_session_variable. destruct (set_options _ _) as [c [e|]]; intros [= <- <-]; by destruct b. Qed.

Lemma variable_after s b params s' r k : set_session_variable s b params = (s', r) ->
  get_session_variable s' k =
  match r, last (List.filter (names_variable k) (iterate params)) with
  | Ok _, Some p => if b then Some (snd p).(value) else None
  | _, _ => get_session_variable s k
  end.
Proof.
  intros Hset. destruct (set_session_variable_Ok _ _ _ _ _ Hset) as [Hp _]. unfold get_session_variable. rewrite Hp.
  destruct r as [[]|e]; [|done]. destruct b.
  - rewrite set_properties_lookup, own_params_lookup. destruct (last _); simpl; [by destruct (session_params s !! k)|].
    by destruct (session_params s !! k).
  - rewrite remove_properties_lookup, own_params_lookup. by destruct (last _).
Qed.

Lemma named_entry m k : match last (List.filter (names_variable k) (iterate m)) with
  | Some p => m !! fst p = Some (snd p) /\ names_variable k p = true
  | None => forall n p, m !! n = Some p -> names_variable k (n, p) = false
  end.
Proof.
  destruct (last _) as [[n p]|] eqn:E.
  - apply last_Some_elem_of in E. apply list_elem_of_In, List.filter_In in E as [E Hn]. split; [|done].
    apply list_elem_of_In in E. rewrite iterate_entries in E. by apply elem_of_map_to_list in E.
  - intros n p Hp. apply last_None in E. destruct (names_variable k (n, p)) eqn:Hn; [|done]. exfalso.
    apply (not_elem_of_nil (n, p)). rewrite <- E. apply list_elem_of_In, List.filter_In. split; [|done].
    apply list_elem_of_In. rewrite iterate_entries. by apply elem_of_map_to_list.
Qed.

(** C31: a statement that sets variables, when it succeeds, gives every variable it names, in any spelling, one of
    the values it names it with, so the one value when there is one spelling, whatever order the hash map of the
    assignments iterates in; one that unsets variables removes those it names; both keep the others, and when an
    option of DataFusion is refused no variable changes.  A name of DataFusion's options names no variable. *)
Theorem session_variables_correct s b params s' r k : set_session_variable s b params = (s', r) ->
  match r with
  | Err _ => get_session_variable s' k = get_session_variable s k
  | Ok _ =>
      ((forall n p, params !! n = Some p -> is_datafusion_key n = false -> to_ascii_lowercase n <> k) ->
       get_session_variable s' k = get_session_variable s k) /\
      (forall n p, params !! n = Some p -> is_datafusion_key n = false -> to_ascii_lowercase n = k ->
       if b then exists n' p', params !! n' = Some p' /\ is_datafusion_key n' = false /\ to_ascii_lowercase n' = k /\
         get_session_variable s' k = Some p'.(value)
       else get_session_variable s' k = None)
  end.
Proof.
  intros Hset. pose proof (variable_after _ _ _ _ _ k Hset) as Hv. destruct r as [[]|e]; [|by rewrite Hv].
  pose proof (named_entry params k) as He. assert (forall n p, names_variable k (n, p) = true <-> is_datafusion_key n = false /\ to_ascii_lowercase n = k) as Hn.
  { intros n p. unfold names_variable. cbn [fst]. by rewrite andb_true_iff, negb_true_iff, String.eqb_eq. }
  destruct (last _) as [[n0 p0]|]; cbn [fst snd] in *; split.
  - intros Hno. destruct He as [Hp [Hd Hk]%Hn]. by destruct (Hno _ _ Hp Hd).
  - intros n p _ _ _. destruct He as [Hp [Hd Hk]%Hn]. destruct b; [|done]. by exists n0, p0.
  - by intros _.
  - intros n p Hp Hd Hk. specialize (He n p Hp). rewrite (proj2 (Hn n p)) in He; done.
Qed.

(** The statements that act on a session. *)
Inductive session_step : UserSession -> result Error unit -> UserSession -> Prop :=
| step_use now s e s' r : execute_use_statement now s e = (s', r) -> session_step s r s'
| step_set now s v es s' r : set_variable execute_scalar_query now s v es = (s', r) -> session_step s r s'
| step_tuple now s vs es s' r : set_tuple_variables execute_scalar_query now s vs es = (s', r) -> session_step s r s'
| step_alter now s b os s' r : alter_session now s b os = (s', r) -> session_step s r s'
| step_record s q : session_step s (Ok tt) (record_query_id s q).

Definition session_reachable (s0 s : UserSession) : Prop := rtc (fun s s' => exists r, session_step s r s') s0 s.

(** Every step is either a change of variables or none, and at most one query more. *)
Lemma step_cases s r s' : session_step s r s' ->
  (exists b params, set_session_variable s b params = (s', r)) \/ (s' = s /\ r <> Ok tt) \/ (exists q, s' = record_query_id s q /\ r = Ok tt).
Proof.
  destruct 1 as [now s e s' r Hu|now s v es s' r Hs|now s vs es s' r Ht|now s b os s' r Ha|s q]; [| | | |by right; right; exists q].
  - unfold execute_use_statement in Hu. destruct e; cbn in Hu;
      repeat (case_match; [injection Hu as <- <-; by right; left|]); try (left; by eexists _, _).
    injection Hu as <- <-. by right; left.
  - unfold set_variable in Hs. destruct (traverse _ es) as [ps|e]; [left; by eexists _, _|]. injection Hs as <- <-. by right; left.
  - unfold set_tuple_variables in Ht. case_match; [injection Ht as <- <-; by right; left|].
    destruct (traverse _ _) as [ps|e]; [left; by eexists _, _|]. injection Ht as <- <-. by right; left.
  - left. by eexists _, _.
Qed.

(** A statement on the session that fails changes no variable: SET evaluates all its values before
    it assigns any. *)
Theorem session_error_atomic s e s' : session_step s (Err e) s' ->
  s'.(session_params) = s.(session_params) /\ s'.(recent_queries) = s.(recent_queries).
Proof.
  intros [(b & params & Hs%set_session_variable_Ok)|[[-> _]|(q & _ & Hq)]]%step_cases; [by destruct Hs|done|done].
Qed.

(** The keys of a session are folded, and it remembers 64 queries at most. *)
Definition session_ok (s : UserSession) : Prop :=
  (forall k, is_Some (s.(session_params) !! k) -> to_ascii_lowercase k = k) /\ (length s.(recent_queries) <= MAX_QUERIES)%nat.

Lemma own_params_folded params k : is_Some (own_params params !! k) -> to_ascii_lowercase k = k.
Proof.
  rewrite own_params_lookup. intros [p (q & Hq & _)%fmap_Some]. apply last_Some_elem_of in Hq.
  apply list_elem_of_In, List.filter_In in Hq as [_ Hq]. unfold names_variable in Hq.
  apply andb_true_iff in Hq as [_ Hq%String.eqb_eq]. by rewrite <- Hq, to_ascii_lowercase_idem.
Qed.

Lemma session_step_ok s r s' : session_step s r s' -> session_ok s -> session_ok s'.
Proof.
  intros Hs [Hk Hq]. destruct (step_cases _ _ _ Hs) as [(b & params & Hset%set_session_variable_Ok)|[[-> _]|(q & -> & _)]].
  - destruct Hset as [Hp Hr]. split; [|by rewrite Hr]. intros k. rewrite Hp. destruct r as [[]|e]; [|apply Hk]. destruct b.
    + rewrite set_properties_lookup. destruct (own_params (iterate params) !! k) eqn:E.
      * intros _. apply (own_params_folded (iterate params)). by eexists.
      * intros [x Hx]. apply Hk. exists x. by destruct (session_params s !! k).
    + rewrite remove_properties_lookup. destruct (own_params (iterate params) !! k); [by intros []|apply Hk].
  - done.
  - split; [done|]. cbn [record_query_id recent_queries]. rewrite length_take. lia.
Qed.

(** In every session the statements can reach from a fresh one the variables are stored under
    lower-case names, so that a name with a capital letter is never found, and at most 64 queries are
    remembered. *)
Theorem session_invariant s0 s k : s0.(session_params) = ∅ -> s0.(recent_queries) = [] -> session_reachable s0 s ->
  session_ok s /\ (to_ascii_lowercase k <> k -> get_session_variable s k = None).
Proof.
  intros Hp Hq Hr.
  assert (session_ok s) as Hok.
  { assert (session_ok s0) as H0ok.
    { split; [rewrite Hp; intros k' [x Hx]; by rewrite lookup_empty in Hx|rewrite Hq; simpl; lia]. }
    clear Hp Hq. induction Hr as [s|s1 s2 s3 [r Hs] _ IH]; [done|]. by apply IH, (session_step_ok _ _ _ Hs). }
  split; [done|]. intros Hk. unfold get_session_variable. destruct (session_params s !! k) eqn:E; [|done].
  exfalso. apply Hk, Hok. by eexists.
Qed.

(** ** LAST_QUERY_ID *)
Definition record_all (s : UserSession) (qs : list QueryId) : UserSession := foldl record_query_id s qs.

Lemma record_all_queries s qs :
  (record_all s qs).(recent_queries) = take MAX_QUERIES (reverse qs ++ s.(recent_queries)) \/ qs = [].
Proof.
  induction qs as [|q qs IH] using rev_ind; [by right|]. left. unfold record_all. rewrite foldl_app. cbn [foldl record_query_id recent_queries].
  fold (record_all s qs). rewrite reverse_snoc. simpl. destruct IH as [->| ->]; [|done].
  unfold MAX_QUERIES. cbn [take]. f_equal. rewrite take_take. done.
Qed.

(** LAST_QUERY_ID: -1 is the last recorded query, and -n the n-th back; a positive number counts from the
    oldest query the session still remembers. *)
Theorem last_query_id_correct s qs n : s.(recent_queries) = [] -> (0 < n <= Nat.min MAX_QUERIES (length qs))%nat ->
  get_query_by_index (record_all s qs).(recent_queries) (- Z.of_nat n) = reverse qs !! (n - 1)%nat /\
  get_query_by_index (record_all s qs).(recent_queries) (Z.of_nat n) = reverse (take MAX_QUERIES (reverse qs)) !! (n - 1)%nat.
Proof.
  intros Hs Hn. destruct (record_all_queries s qs) as [->| ->]; [|simpl in Hn; lia]. rewrite Hs, app_nil_r.
  assert (length (take MAX_QUERIES (reverse qs)) = Nat.min MAX_QUERIES (length qs)) as Hl by (by rewrite length_take, length_reverse).
  unfold MAX_QUERIES in *. unfold get_query_by_index. split.
  - destruct (Z.ltb_spec (- Z.of_nat n) 0); [|lia]. destruct (Z.eqb_spec (- Z.of_nat n) i64_min) as [He|]; [unfold i64_min in He; lia|].
    rewrite lookup_take_lt by lia. f_equal. lia.
  - destruct (Z.ltb_spec (Z.of_nat n) 0); [lia|]. destruct (Z.ltb_spec 0 (Z.of_nat n)); [|lia]. rewrite Hl.
    destruct (Z.ltb_spec (Z.of_nat (Nat.min 64 (length qs))) (Z.of_nat n)); [lia|]. rewrite Nat2Z.id.
    rewrite reverse_lookup by lia. rewrite Hl. f_equal. lia.
Qed.
End variables.

(** ** Names *)
Section names.
Context `{SessionExt} `{SqlText} `{order_laws : HashOrderLaws} `{!SessionExtLaws}.

(** A part of a name that is an identifier and not empty. *)
Definition named (p : ObjectNamePart) : bool :=
  match p with Identifier i => negb (String.eqb i.(ident_value) "") | FunctionPart _ => false end.

Lemma lower_nonempty v : String.eqb (to_ascii_lowercase v) "" = String.eqb v "".
Proof. by destruct v. Qed.

Lemma part_ident_nonempty p : named p = true -> negb (String.eqb (part_ident p).(ident_value) "") = true.
Proof.
  destruct p as [[v [q|]]|]; cbn; [done| |done]. by rewrite normalize_lower, lower_nonempty.
Qed.

(** A normalized identifier stays as it is. *)
Lemma normalize_ident_idem i : normalize_ident (normalize_ident i) = normalize_ident i.
Proof. destruct i as [v [q|]]; [done|]. unfold normalize_ident; cbn. by rewrite !normalize_lower, to_ascii_lowercase_idem. Qed.

Lemma filter_named ps : Forall (fun p => named p = true) ps ->
  List.filter (fun i => negb (String.eqb i.(ident_value) "")) (map part_ident ps) = map part_ident ps.
Proof.
  induction 1 as [|p ps Hp _ IH]; [done|]. simpl. by rewrite part_ident_nonempty, IH.
Qed.

(** An identifier as a name is read: in lower case unless it is quoted. *)
Definition folded_ident (p : ObjectNamePart) : Ident :=
  match p with
  | Identifier (mkIdent v None) => mkIdent (to_ascii_lowercase v) None
  | Identifier i => i
  | FunctionPart _ => mkIdent "" None
  end.

(** The first that there is of a session variable, a value of the query's context and a default. *)
Definition default_of (variable : option SessionProperty) (context : option string) (otherwise : string) : string :=
  match variable, context with Some p, _ => p.(value) | None, Some v => v | None, None => otherwise end.

Lemma part_ident_folded p : part_ident p = folded_ident p.
Proof. destruct p as [[v [q|]]|]; [done| |done]. cbn. unfold normalize_ident. cbn. by rewrite normalize_lower. Qed.

Lemma current_database_default s qc : current_database s qc = default_of (session_params s !! "database") qc.(ctx_database) "embucket".
Proof. unfold current_database, get_session_variable. destruct (session_params s !! "database"), (ctx_database qc); done. Qed.

Lemma current_schema_default s qc : current_schema s qc = default_of (session_params s !! "schema") qc.(ctx_schema) "public".
Proof. unfold current_schema, get_session_variable. destruct (session_params s !! "schema"), (ctx_schema qc); done. Qed.

(** C32: a table name of one, two or three identifiers is completed to three: the database that is not named is the
    session's, or else the query's, or else [embucket], the schema that is not named likewise, or else [public], both in
    lower case; the parts that are named stay, in lower case when they are not quoted.  Resolving the result again
    changes nothing, in any session, and the table it stands for is its three parts in lower case, those of
    quoted identifiers too. *)
Theorem table_name_resolution s qc parts :
  (1 <= length parts <= 3)%nat -> Forall (fun p => named p = true) parts ->
  default_of (session_params s !! "database") qc.(ctx_database) "embucket" <> "" -> default_of (session_params s !! "schema") qc.(ctx_schema) "public" <> "" ->
  let database := ident_new (to_ascii_lowercase (default_of (session_params s !! "database") qc.(ctx_database) "embucket")) in
  let schema := ident_new (to_ascii_lowercase (default_of (session_params s !! "schema") qc.(ctx_schema) "public")) in
  exists c sc t, resolve_table_object_name s qc parts = Ok [c; sc; t] /\
    match parts with
    | [p1] => c = database /\ sc = schema /\ t = folded_ident p1
    | [p1; p2] => c = database /\ sc = folded_ident p1 /\ t = folded_ident p2
    | [p1; p2; p3] => c = folded_ident p1 /\ sc = folded_ident p2 /\ t = folded_ident p3
    | _ => False
    end /\
    forall s' qc',
      resolve_table_object_name s' qc' (map Identifier [c; sc; t]) = Ok [c; sc; t] /\
      resolve_ident s' qc' [c; sc; t] =
        Ok (mkResolved (to_ascii_lowercase c.(ident_value)) (to_ascii_lowercase sc.(ident_value)) (to_ascii_lowercase t.(ident_value))).
Proof.
  intros Hlen Hnamed Hdb Hsc database schema. rewrite <- current_database_default in Hdb. rewrite <- current_schema_default in Hsc.
  assert (forall a b c : ObjectNamePart, Forall (fun p => named p = true) [a; b; c] ->
    forall s' qc', resolve_table_object_name s' qc' (map Identifier [part_ident a; part_ident b; part_ident c])
      = Ok [part_ident a; part_ident b; part_ident c]) as Hidem.
  { intros a b c Habc s' qc'. unfold resolve_table_object_name. cbn [map result_bind].
    assert (forall p, named p = true -> part_ident (Identifier (part_ident p)) = part_ident p) as Hp.
    { intros [i|]; [|done]. intros _. apply normalize_ident_idem. }
    apply Forall_cons in Habc as [Ha Habc]. apply Forall_cons in Habc as [Hb Habc]. apply Forall_cons in Habc as [Hc _].
    rewrite !Hp by done. f_equal. cbn [List.filter]. by rewrite !part_ident_nonempty. }
  assert (forall v, v <> "" -> named (Identifier (ident_new v)) = true) as Hn.
  { intros v Hv. cbn. by destruct (String.eqb_spec v ""). }
  set (db := Identifier (ident_new (current_database s qc))). set (sch := Identifier (ident_new (current_schema s qc))).
  assert (exists a b c, resolve_table_object_name s qc parts =
      Ok (List.filter (fun i => negb (String.eqb i.(ident_value) "")) (map part_ident [a; b; c])) /\
    match parts with [p1] => a = db /\ b = sch /\ c = p1 | [p1; p2] => a = db /\ b = p1 /\ c = p2 | [p1; p2; p3] => a = p1 /\ b = p2 /\ c = p3 | _ => False end /\
    Forall (fun p => named p = true) [a; b; c]) as (a & b & c & Hr & Hl & Habc).
  { destruct parts as [|p1 [|p2 [|p3 [|]]]]; simpl in Hlen; try lia; unfold resolve_table_object_name; cbn [result_bind];
      eexists _, _, _; (split; [reflexivity|split; [done|]]); repeat (apply Forall_cons; split; auto); by decompose_Forall_hyps. }
  rewrite filter_named in Hr by done.
  exists (part_ident a), (part_ident b), (part_ident c). split; [done|]. split.
  { unfold database, schema. rewrite <- current_database_default, <- current_schema_default.
    destruct parts as [|p1 [|p2 [|p3 [|]]]]; try done; destruct Hl as (-> & -> & ->); by rewrite !part_ident_folded. }
  intros s' qc'. split; [by apply Hidem|]. unfold resolve_ident, resolve_table_ref. cbn [map]. by rewrite resolve_full.
Qed.

Lemma iterate_one p : iterate (hash_map_of [p]) = [p].
Proof.
  apply Permutation_singleton_r. rewrite iterate_entries. unfold hash_map_of. cbn [foldl].
  by rewrite map_to_list_insert, map_to_list_empty by done; destruct p.
Qed.

Lemma use_plain now s v s' b : v <> "" ->
  execute_use_statement now s (if b : bool then UseDatabase [Identifier (ident_new v)] else UseSchema [Identifier (ident_new v)]) = (s', Ok tt) ->
  forall k, get_session_variable s' k = if String.eqb (if b then "database" else "schema") k then Some v else get_session_variable s k.
Proof.
  intros Hv Hu k. unfold execute_use_statement in Hu.
  assert (exists key, key = (if b then "database" else "schema") /\ set_session_variable s true (hash_map_of [str_property now s key v]) = (s', Ok tt)) as (key & Hkey & Hset).
  { destruct b; rewrite plain_name in Hu; cbn [String.eqb orb] in Hu; (destruct (String.eqb_spec v ""); [done|]); eauto. }
  rewrite (variable_after _ _ _ _ _ k Hset), iterate_one. cbn [List.filter]. unfold names_variable.
  assert (is_datafusion_key key = false /\ to_ascii_lowercase key = key) as [Hd Hl].
  { rewrite Hkey. unfold is_datafusion_key. destruct b; (split; [rewrite lowercase_ascii by reflexivity; reflexivity|reflexivity]). }
  cbn [str_property fst snd]. rewrite Hd, Hl. cbn [negb andb]. rewrite Hkey.
  by destruct (String.eqb (if b then "database" else "schema") k).
Qed.

(** After USE DATABASE and USE SCHEMA with plain names a bare table name stands for that table of
    that schema, whatever the context of the query says. *)
Theorem use_then_resolve now s d sc t qc s1 s2 : d <> "" -> sc <> "" -> t <> "" ->
  execute_use_statement now s (UseDatabase [Identifier (ident_new d)]) = (s1, Ok tt) ->
  execute_use_statement now s1 (UseSchema [Identifier (ident_new sc)]) = (s2, Ok tt) ->
  (let? ids := resolve_table_object_name s2 qc [Identifier (ident_new t)] in resolve_ident s2 qc ids) =
    Ok (mkResolved (to_ascii_lowercase d) (to_ascii_lowercase sc) (to_ascii_lowercase t)).
Proof.
  intros Hd Hs Ht Hu1 Hu2. pose proof (use_plain now s d s1 true Hd Hu1) as Hv1. pose proof (use_plain now s1 sc s2 false Hs Hu2) as Hv2.
  assert (current_database s2 qc = d) as Hdb by (unfold current_database; by rewrite Hv2, Hv1).
  assert (current_schema s2 qc = sc) as Hsc by (unfold current_schema; by rewrite Hv2).
  unfold resolve_table_object_name. rewrite Hdb, Hsc. cbn [result_bind]. rewrite filter_named.
  - cbn [map part_ident result_bind]. unfold resolve_ident, resolve_table_ref, normalize_ident. cbn [map ident_value quote_style ident_new].
    rewrite resolve_full, !normalize_lower. unfold normalize_resolved_ref. cbn. by rewrite !to_ascii_lowercase_idem.
  - assert (forall v, v <> "" -> named (Identifier (ident_new v)) = true) by (intros v Hv; cbn; by destruct (String.eqb_spec v "")).
    repeat (apply Forall_cons; split; auto).
Qed.

(** A quoted name of USE is stored with its quotes, which are then part of the name of the schema. *)
Theorem use_quoted_schema now s v s' qc : str_all (fun c => negb (Ascii.eqb c double_quote)) v = true ->
  execute_use_statement now s (UseSchema [Identifier (mkIdent v (Some double_quote))]) = (s', Ok tt) ->
  current_schema s' qc = String double_quote (v ++ String double_quote "").
Proof.
  intros Hv. unfold execute_use_statement. rewrite quoted_name by done. cbn [String.eqb orb].
  intros Hset. unfold current_schema. rewrite (variable_after _ _ _ _ _ "schema" Hset), iterate_one.
  cbn [List.filter str_property]. unfold names_variable, is_datafusion_key. cbn [fst]. by rewrite lowercase_ascii by reflexivity.
Qed.

(** ** Literals in the text of SHOW *)

(** Reads the text after the opening quote of an SQL string: a doubled quote is a quote, a single one ends it. *)
Fixpoint read_literal (s : string) : option (string * string) :=
  match s with
  | EmptyString => None
  | String c s' =>
      if Ascii.eqb c "'" then
        match s' with
        | String d s'' => if Ascii.eqb d "'" then prod_map (String "'") id <$> read_literal s'' else Some ("", s')
        | EmptyString => Some ("", "")
        end
      else prod_map (String c) id <$> read_literal s'
  end.

Fixpoint double_quotes (s : string) : string :=
  match s with
  | EmptyString => ""
  | String c s => if Ascii.eqb c "'" then String "'" (String "'" (double_quotes s)) else String c (double_quotes s)
  end.

Lemma replace_quotes s : replace s "'" "''" = double_quotes s.
Proof.
  unfold replace, split. induction s as [|c s IH]; [done|]. cbn [split_on strip_prefix]. rewrite Ascii.eqb_sym.
  destruct (Ascii.eqb_spec c "'") as [->|Hc].
  - cbn [strip_prefix String.length Nat.sub]. rewrite join_cons_nonnil by apply split_on_nonnil.
    cbn [double_quotes Ascii.eqb]. rewrite <- IH. reflexivity.
  - cbn [double_quotes]. apply Ascii.eqb_neq in Hc. rewrite Hc. rewrite <- IH.
    pose proof (split_on_nonnil "'" 0 s). destruct (split_on "'" 0 s) as [|p [|q l]]; done.
Qed.

Lemma read_double_quotes s rest : match rest with String c _ => Ascii.eqb c "'" = false | EmptyString => True end ->
  read_literal (double_quotes s ++ String "'" rest) = Some (s, rest).
Proof.
  intros Hr. induction s as [|c s IH]; [simpl; destruct rest as [|d rest]; [done|]; by rewrite Hr|].
  cbn [double_quotes]. destruct (Ascii.eqb c "'") eqn:Hc.
  - apply Ascii.eqb_eq in Hc as ->.
    change (String "'" (String "'" (double_quotes s)) ++ String "'" rest) with (String "'" (String "'" (double_quotes s ++ String "'" rest))).
    cbn [read_literal Ascii.eqb]. change (Ascii.eqb "'" "'") with true. cbn iota. by rewrite IH.
  - change (String c (double_quotes s) ++ String "'" rest) with (String c (double_quotes s ++ String "'" rest)).
    cbn [read_literal]. rewrite Hc. by rewrite IH.
Qed.

Lemma double_quotes_app a b : double_quotes (a ++ b) = double_quotes a ++ double_quotes b.
Proof.
  induction a as [|c a IH]; [done|]. change (String c a ++ b) with (String c (a ++ b)). cbn [double_quotes].
  rewrite IH. by destruct (Ascii.eqb c "'").
Qed.

(** The prefix of STARTS WITH cannot leave its string: the literal in the filter reads back as the
    prefix with a percent sign, and nothing follows it. *)
Theorem starts_with_filter_literal prefix column :
  exists lit, build_starts_with_filter (Some (SqlValue.SingleQuotedString prefix)) column = Some (column ++ " LIKE '" ++ lit) /\
    read_literal lit = Some (prefix ++ "%", "").
Proof.
  exists (double_quotes (prefix ++ "%") ++ "'"). split; [|by apply read_double_quotes].
  unfold build_starts_with_filter. rewrite replace_quotes, double_quotes_app. do 3 f_equal.
  by rewrite string_app_assoc.
Qed.

(** The other names and patterns are inserted as they are: a quote ends the string, and what follows is
    read as SQL. *)
Theorem show_variables_unescaped s qc up cs : exists pattern,
  show_query s qc up cs (ShowVariables (Some pattern)) =
    Ok (show_variables_select ++ current_database s qc ++ ".information_schema.df_settings WHERE session_id is NOT NULL AND name LIKE '" ++ pattern ++ "'") /\
  read_literal (pattern ++ "'") = Some ("x", " OR 'a' = 'a'").
Proof. exists "x' OR 'a' = 'a". split; [|reflexivity]. cbn [show_query apply_show_filters join]. f_equal. by rewrite !string_app_assoc. Qed.

(** ** SHOW and DROP *)

(** IN ACCOUNT names no database, and the empty name is looked up. *)
Theorem show_in_account_fails s qc up cs o : has_catalog cs "" = false ->
  o.(show_in) = Some (mkShowIn (Some ShowAccount) None) ->
  show_query s qc up cs (ShowTables o) = Err (DatabaseNotFound "").
Proof. intros Hc Ho. cbn [show_query]. unfold show_listing. rewrite Ho. cbn. unfold get_catalog. by rewrite Hc. Qed.

(** DROP TABLE acts only on a table it has found, under the resolved name, and says which part of the
    name is missing otherwise. *)
Theorem drop_table_correct s qc cs k names cascade name :
  let t := resolve_table_ref s qc name in
  match drop_query s qc cs k TypeTable names cascade false (Ok (PlanDropTable name)) with
  | Ok a => has_catalog cs t.(catalog) = true /\ has_schema cs t.(catalog) t.(schema) = true /\
      find_table k t.(catalog) t.(schema) t.(table) = Ok true /\
      (a = DropTableAsync t \/ a = ExecutePlan (PlanDropTable (resolved_to_reference t)))
  | Err e =>
      has_catalog cs t.(catalog) = false /\ e = CatalogNotFound (OnTable OpDrop) t.(catalog) \/
      has_schema cs t.(catalog) t.(schema) = false /\ e = SchemaNotFoundInDatabase (OnTable OpDrop) t.(schema) t.(catalog) \/
      find_table k t.(catalog) t.(schema) t.(table) = Ok false /\
        e = TableNotFoundInSchemaInDatabase (OnTable OpDrop) t.(table) t.(schema) t.(catalog) \/
      exists d, find_table k t.(catalog) t.(schema) t.(table) = Err d /\ e = DataFusion d
  end.
Proof.
  intros t. unfold drop_query. rewrite bool_decide_false by done. cbn [result_bind]. fold t. unfold catalog_for, drop_operation.
  destruct (has_catalog cs t.(catalog)) eqn:Hc; cbn [result_bind]; [|by left]. unfold drop_checks, table_for.
  destruct (has_schema cs t.(catalog) t.(schema)) eqn:Hs; [|cbn; by right; left].
  destruct (find_table k t.(catalog) t.(schema) t.(table)) as [[]|d]; cbn [result_bind].
  - split_and!; try done. case_match; [by left|by right].
  - by right; right; left.
  - right; right; right. eauto.
Qed.

(** IF EXISTS does not cover a schema that is missing. *)
Theorem drop_if_exists_missing_schema s qc cs k names cascade name :
  let t := resolve_table_ref s qc name in
  has_catalog cs t.(catalog) = true -> has_schema cs t.(catalog) t.(schema) = false ->
  drop_query s qc cs k TypeTable names cascade true (Ok (PlanDropTable name)) =
    Err (SchemaNotFoundInDatabase (OnTable OpDrop) t.(schema) t.(catalog)).
Proof.
  intros t Hc Hs. unfold drop_query. rewrite bool_decide_false by done. cbn [result_bind]. fold t. unfold catalog_for, drop_checks.
  by rewrite Hc, Hs.
Qed.
End names.

(** ** A session *)
Module SessionExample.
Definition show_ident (i : Ident) : string :=
  match i.(quote_style) with None => i.(ident_value) | Some q => String q (i.(ident_value) ++ String q "") end.

Definition show_name (n : ObjectName) : string :=
  join "." (map (fun p => match p with Identifier i => show_ident i | FunctionPart d => d end) n).

#[global] Instance ext : SessionExt := {|
  ident_to_string := show_ident;
  object_to_string := show_name;
  object_name_to_string := show_name;
  expr_to_string e := match e with BinaryOpExpr d | OtherExpr d | SubqueryExpr d => d | ValueExpr _ => "" end;
  to_lowercase := to_ascii_lowercase;
  normalize := to_ascii_lowercase;
  resolve r c s :=
    match r with Bare t => mkResolved c s t | Partial s t => mkResolved c s t | Full c s t => mkResolved c s t end;
  parse_str := Bare;
  schema_to_string r := match r with BareSchema s => s | FullSchema c s => c ++ "." ++ s end;
  Config := list (string * string);
  config_set c k v := if String.eqb v "" then Err (DFOther "empty value") else Ok ((k, v) :: c) |}.

#[global] Instance ext_laws : SessionExtLaws.
Proof. split; try done. Qed.

#[global] Instance stored_order : HashOrder := {| iterate := map_to_list |}.
#[global] Instance stored_order_laws : HashOrderLaws.
Proof. by split. Qed.
Definition reversed_order : HashOrder := {| iterate m := reverse (map_to_list m) |}.
Lemma reversed_order_laws : HashOrderLaws (H := reversed_order).
Proof. split. intros m. cbn. apply reverse_Permutation. Qed.

#[global] Instance text : SqlText := {|
  value_to_string v :=
    match v with
    | SqlValue.Number s _ => s
    | SqlValue.Boolean b => if b then "true" else "false"
    | SqlValue.SingleQuotedString s => "'" ++ double_quotes s ++ "'"
    | SqlValue.Text _ s => s
    | SqlValue.Other _ => "NULL"
    end;
  scalar_to_string _ := "";
  float_to_string _ := "";
  parse_float _ := None |}.

Definition fresh : UserSession := mkSession "s1" ∅ [] [].

Definition no_query (s : UserSession) (q : string) : result Error ScalarValue := Err only_primitive_statements.

Definition plain (v : string) : ObjectName := [Identifier (ident_new v)].

Definition week_options : gmap string SessionProperty :=
  hash_map_of [("Week_Start", property 0 (Some "s1") "7" "fixed" "Week_Start"); ("timezone", property 0 (Some "s1") "UTC" "text" "timezone")].

Definition with_week : UserSession := fst (set_session_variable fresh true week_options).

(** Whatever the order of the map, the variable has the value of the one assignment that names it. *)
Lemma session_variables_correct_witness : exists n p, week_options !! n = Some p /\ to_ascii_lowercase n = "week_start" /\
  get_session_variable with_week "week_start" = Some p.(value).
Proof.
  assert (set_session_variable fresh true week_options = (with_week, Ok tt)) as E by (vm_compute; reflexivity).
  destruct (proj2 (session_variables_correct fresh true week_options with_week (Ok tt) "week_start" E)
    "Week_Start" (property 0 (Some "s1") "7" "fixed" "Week_Start") eq_refl eq_refl eq_refl) as (n & p & Hp & _ & Hk & Hv).
  exists n, p. split; [exact Hp|]. split; [exact Hk|exact Hv].
Defined.

(** Two spellings of one name in a statement race: which value the variable gets depends on the order the map
    of the assignments iterates in. *)
Theorem spellings_race :
  let both := hash_map_of [("Week_Start", property 0 (Some "s1") "1" "fixed" "Week_Start"); ("WEEK_START", property 0 (Some "s1") "7" "fixed" "WEEK_START")] in
  get_session_variable (fst (set_session_variable (order := stored_order) fresh true both)) "week_start" <>
  get_session_variable (fst (set_session_variable (order := reversed_order) fresh true both)) "week_start".
Proof. vm_compute. discriminate. Qed.

Lemma session_error_atomic_witness :
  session_params (fst (execute_use_statement 0 fresh UseDefault)) = session_params fresh.
Proof.
  apply (session_error_atomic no_query fresh ony_use_with_variables (fst (execute_use_statement 0 fresh UseDefault))).
  by apply (step_use no_query 0 fresh UseDefault).
Defined.

Definition in_sales : UserSession := fst (execute_use_statement 0 fresh (UseDatabase (plain "Sales"))).

Lemma session_invariant_witness : session_ok in_sales /\ get_session_variable in_sales "Database" = None.
Proof.
  destruct (session_invariant no_query fresh in_sales "Database") as [H1 H2]; [reflexivity|reflexivity| |].
  - apply rtc_once. exists (Ok tt). by apply (step_use no_query 0 fresh (UseDatabase (plain "Sales"))).
  - split; [exact H1|]. apply H2. discriminate.
Defined.

Lemma table_name_resolution_witness :
  resolve_table_object_name in_sales (mkContext None (Some "Q1")) (plain "Orders") = Ok [ident_new "sales"; ident_new "q1"; ident_new "orders"].
Proof.
  destruct (table_name_resolution in_sales (mkContext None (Some "Q1")) (plain "Orders")) as (c & sc & t & H & (-> & -> & ->) & _);
    [simpl; lia|repeat constructor|vm_compute; discriminate|vm_compute; discriminate|]. exact H.
Defined.

Definition in_q1 : UserSession := fst (execute_use_statement 0 in_sales (UseSchema (plain "Q1"))).

Lemma use_then_resolve_witness :
  (let? ids := resolve_table_object_name in_q1 (mkContext None None) (plain "Orders") in
   resolve_ident in_q1 (mkContext None None) ids) = Ok (mkResolved "sales" "q1" "orders").
Proof.
  apply (use_then_resolve 0 fresh "Sales" "Q1" "Orders" (mkContext None None) in_sales in_q1);
    vm_compute; solve [discriminate | reflexivity].
Defined.

(** ALTER SESSION keeps the quotes of a string literal, SET drops them. *)
Lemma alter_session_keeps_quotes :
  get_session_variable (fst (alter_session 0 fresh true
    [mkOption "timezone" (KeyValueOptionKind.Single (SqlValue.SingleQuotedString "UTC"))])) "timezone" = Some "'UTC'" /\
  get_session_variable (fst (set_variable no_query 0 fresh (plain "timezone") [ValueExpr (SqlValue.SingleQuotedString "UTC")])) "timezone"
    = Some "UTC".
Proof. split; vm_compute; reflexivity. Qed.
End SessionExample.
