(* ===== verification/SemiStructured.v ===== *)
(** * What the semi-structured functions share

    The errors of [functions/src/semi-structured/errors.rs], the parts of [serde_json], Arrow and the
    standard library outside the repository that the functions call (the classes [Serde] and
    [Kernels]), and the shapes of [invoke_with_args] that the functions repeat: a loop over the rows of
    a string column, a scalar string, and the JSON value of a scalar argument.

    JSON travels as text: every function parses its arguments and prints its result. *)

From Stdlib Require Import ZArith Lia Ascii String SpecFloat.
From stdpp Require Import base option list strings.
From S2P Require Import Prelude JsonValue JsonEncode.

Open Scope string_scope.
Open Scope Z_scope.
Open Scope rust_scope.

(** The variants of [errors::Error]; the sources of an error are left out. *)
Inductive Error :=
| ArgumentMustBeJsonObject (argument : string)
| ArgumentMustBeJsonArray (argument : string)
| FirstArgumentMustBeJsonArrayStringSecondScalar
| FirstArgumentMustBeJsonArrayStringSecondInteger
| FirstArgumentMustBeJsonArrayStringSecondIntegerThirdScalar
| FirstArgumentMustBeJsonArrayStringSecondAndThirdIntegers
| ArrayCatExpectsExactlyTwoArguments
| CannotConcatenateArraysWithNullValues
| ArgumentsMustBothBeEitherScalarUtf8StringsOrArrays
| JsonParseError
| FailedToSerializeValue
| FailedToDeserializeJson
| ExpectedArrayForScalarValue
| ArrayArgumentExpected
| ExpectedElementArgument
| ExpectedUtf8StringForArray
| FailedToDeserializeJsonEntity (entity : string)
| ArgumentsMustBeJsonArrays
| InvalidArgumentTypesForArrayConcat
| FailedToSerializeResult
| InputMustBeJsonArray
| ExpectedNamedArgument (name : string)
| MismatchedArgumentTypes
| SerdeJsonMessage
| ExpectedUtf8StringForNamedArray (name : string)
| ArrayGenerateRangeInvalidArgumentCount
| ExpectedNamedArgumentToBeAnInt64Array (name : string)
| PositionOutOfBoundsForArrayLength (pos length : Z)
| PositionMustBeAnInteger
| FailedToParseNumber
| ExpectedUtf8String
| ArrayArgumentMustBeAStringType
| ElementValueIsNull
| NamedIndexMustBeAnInteger (name : string)
| BothArgumentsMustBeJsonArrays
| AllArgumentsMustBeArrays
| MixedScalarAndArrayArgumentsNotSupported
| ArraysZipRequiresAtLeastOneArrayArgument
| ObjectConstructRequiresEvenNumberOfArguments
| ObjectConstructKeyCannotBeNull
| ObjectConstructKeyMustBeAString
| ObjectConstructValueMustBeANumber
| ObjectConstructValueMustBeAStringNumberOrBoolean
| KeyArgumentsMustBeScalarValues
| KeyMustBeAString
| KeyAlreadyExistsAndUpdateFlagIsFalse (name : string)
| UpdateFlagMustBeABoolean
| ArgumentMustBeAScalarValue (argument : string)
| InputMustBeJsonObject
| ExpectedJsonPathValueForIndex
| InvalidNumberOfArguments
| ExpectedStringArray
| InvalidArgumentTypes.

(** What stops a function: an error of its own, an execution error with a message, or what stops an
    Arrow operation or an encoder. *)
Inductive failure :=
| Fail (e : Error)
| Exec (message : string)
| Halt (s : stop).

Notation res A := (result failure A).

Definition fail {A} (e : Error) : res A := Err (Fail e).
Definition panic {A} : res A := Err (Halt Panic).

Definition of_outcome {A} (r : outcome A) : res A :=
  match r with Ok a => Ok a | Err s => Err (Halt s) end.

Definition of_arrow {A} (r : result ArrowError A) : res A := of_outcome (lift r).

(** [serde_json]: parsing, compact and pretty printing of a value. *)
Class Serde := {
  from_str : string -> option Value;
  to_string : Value -> string;
  to_string_pretty : Value -> string
}.

(** Arrow's casts, the data types it calls nested, the text of a float, the regular expression of
    ARRAY_FLATTEN, and the selection of JSON by a path of [jsonpath_lib]. *)
Class Kernels := {
  cast_utf8 : ArrayRef -> result ArrowError ArrayRef;
  cast_scalar_utf8 : ScalarValue -> result ArrowError ScalarValue;
  casts_to_decimal : ArrayRef -> bool;
  is_nested : DataType -> bool;
  select_as : string -> string -> option (list Value);
  f64_to_string : f64 -> string;
  parse_f64 : string -> option f64;
  replace_null_word : string -> string
}.

(** [args.get(i).ok_or_else(..)?] *)
Definition arg (args : list ColumnarValue) (i : nat) (e : Error) : res ColumnarValue :=
  ok_or (args !! i) (Fail e).

(** [args[i]]: indexing panics out of range. *)
Definition arg_index (args : list ColumnarValue) (i : nat) : res ColumnarValue :=
  ok_or (args !! i) (Halt Panic).

(** [as_string::<i32>] and [as_string_array]: a panic on another type. *)
Definition as_string (a : ArrayRef) : res (list (option string)) :=
  match a with AUtf8 Utf8 rows => Ok rows | _ => panic end.

(** The loop over a string column: null rows stay null, the others are converted. *)
Definition over_rows {B} (f : string -> res (option B)) (rows : list (option string)) : res (list (option B)) :=
  traverse (fun row => match row with Some s => f s | None => Ok None end) rows.

Definition string_column (rows : list (option string)) : ColumnarValue := Array (AUtf8 Utf8 rows).
Definition string_scalar (v : option string) : ColumnarValue := Scalar (SUtf8 Utf8 v).

(** [ScalarValue::is_null]. *)
Fixpoint scalar_is_null (s : ScalarValue) : bool :=
  match s with
  | SNull => true
  | SBoolean v => match v with None => true | _ => false end
  | SInt _ v => match v with None => true | _ => false end
  | SFloat _ v => match v with None => true | _ => false end
  | SUtf8 _ v => match v with None => true | _ => false end
  | SBinary _ v => match v with None => true | _ => false end
  | STemporal _ v | SDecimal _ _ _ v => match v with None => true | _ => false end
  | SDictionary _ v => scalar_is_null v
  | SArray _ => false
  end.

(** [from_str(..).context(e)?] *)
Definition parse `{Serde} (s : string) (e : Error) : res Value := ok_or (from_str s) (Fail e).

(** An array of one row becomes a scalar again ([if res.len() == 1]). *)
Definition strings_or_scalar (rows : list (option string)) : ColumnarValue :=
  match rows with [v] => string_scalar v | _ => string_column rows end.

Definition booleans_or_scalar (rows : list (option bool)) : ColumnarValue :=
  match rows with [v] => Scalar (SBoolean v) | _ => Array (ABoolean rows) end.

Section arguments.
Context `{ArrowExt}.

(** [ColumnarValue::into_array]. *)
Definition into_array (v : ColumnarValue) (number_rows : nat) : res ArrayRef :=
  match v with
  | Array a => Ok a
  | Scalar s => of_arrow (to_array_of_size s number_rows)
  end.

(** [encode_array] with the fuel its argument's depth needs. *)
Definition encode (a : ArrayRef) : res Value := of_outcome (encode_array (S (depth a)) a).

(** [encode_scalar] likewise. *)
Definition encode_scalar_value (s : ScalarValue) : res Value :=
  let? a := of_arrow (to_array_of_size s 1) in
  of_outcome (encode_scalar (S (depth a)) s).

(** The JSON value of a scalar argument, as the functions compute it in place: encode the scalar's
    array and take its first element. *)
Definition first_element (s : ScalarValue) : res Value :=
  let? a := of_arrow (to_array_of_size s 1) in
  let? v := encode a in
  match v with
  | VArray (x :: _) => Ok x
  | VArray [] => fail ExpectedArrayForScalarValue
  | _ => fail ExpectedArrayForScalarValue
  end.

End arguments.

(** ** Lemmas the functions share *)

Lemma over_rows_Ok {B} (f : string -> res (option B)) rows out :
  over_rows f rows = Ok out <->
  Forall2 (fun r o => match r with Some s => f s = Ok o | None => o = None end) rows out.
Proof.
  unfold over_rows. rewrite traverse_Ok.
  split; intros H; (eapply Forall2_impl; [exact H|]); intros [s|] o Ho; naive_solver.
Qed.

(** A row of a column is computed from that row alone. *)
Lemma over_rows_lookup {B} (f : string -> res (option B)) rows out i s :
  over_rows f rows = Ok out -> rows !! i = Some (Some s) -> exists o, out !! i = Some o /\ f s = Ok o.
Proof. intros H%over_rows_Ok Hi. destruct (Forall2_lookup_l _ _ _ _ _ H Hi) as (o & Ho & Hf). eauto. Qed.

Lemma over_rows_length {B} (f : string -> res (option B)) rows out :
  over_rows f rows = Ok out -> length out = length rows.
Proof. apply traverse_length. Qed.

(** ** An instance of the parameters

    A parser and printer of JSON without escapes and floats, for the examples. *)
Module SerdeExample.

Fixpoint print (v : Value) : string :=
  match v with
  | VNull => "null"
  | VBool true => "true"
  | VBool false => "false"
  | VNumber (PosInt z) | VNumber (NegInt z) => int_to_string z
  | VNumber (Float _) => "0.5"
  | VString s => String quote (s ++ String quote "")
  | VArray l => "[" ++ String.concat "," (map print l) ++ "]"
  | VObject m => "{" ++ String.concat "," (map (fun kv => String quote (fst kv ++ String quote (":" ++ print (snd kv)))) m) ++ "}"
  end.

Definition is_digit (c : ascii) : bool := let n := nat_of_ascii c in (48 <=? n)%nat && (n <=? 57)%nat.

Definition eat (p s : string) : option string :=
  if String.prefix p s then Some (String.substring (String.length p) (String.length s) s) else None.

(** A value, then the elements of an array ([mode] 1) or the fields of an object ([mode] 2). *)
Fixpoint parse_value (fuel : nat) (s : string) : option (Value * string) :=
  match fuel with
  | O => None
  | S fuel =>
      let elements := fix elements (n : nat) (s : string) : option (list Value * string) :=
        match n with
        | O => None
        | S n =>
            match parse_value fuel s with
            | Some (v, s) =>
                match s with
                | String c s' =>
                    if Ascii.eqb c "," then
                      match elements n s' with Some (l, r) => Some (v :: l, r) | None => None end
                    else if Ascii.eqb c "]" then Some ([v], s') else None
                | _ => None
                end
            | None => None
            end
        end in
      let fields := fix fields (n : nat) (s : string) : option (Map * string) :=
        match n with
        | O => None
        | S n =>
            match s with
            | String c s' =>
                if Ascii.eqb c quote then
                  let '(k, r) := take_until (fun c => Ascii.eqb c quote) s' in
                  match eat ":" (skip_one r) with
                  | Some r =>
                      match parse_value fuel r with
                      | Some (v, String c r) =>
                          if Ascii.eqb c "," then
                            match fields n r with Some (m, r) => Some ((k, v) :: m, r) | None => None end
                          else if Ascii.eqb c "}" then Some ([(k, v)], r) else None
                      | _ => None
                      end
                  | None => None
                  end
                else None
            | _ => None
            end
        end in
      match s with
      | EmptyString => None
      | String c s' =>
          if Ascii.eqb c quote then
            let '(k, r) := take_until (fun c => Ascii.eqb c quote) s' in
            match r with String _ r => Some (VString k, r) | _ => None end
          else if Ascii.eqb c "[" then
            match eat "]" s' with
            | Some r => Some (VArray [], r)
            | None => match elements fuel s' with Some (l, r) => Some (VArray l, r) | None => None end
            end
          else if Ascii.eqb c "{" then
            match eat "}" s' with
            | Some r => Some (VObject [], r)
            | None => match fields fuel s' with Some (m, r) => Some (VObject m, r) | None => None end
            end
          else if is_digit c || Ascii.eqb c "-" then
            let '(digits, r) := take_until (fun c => negb (is_digit c)) s' in
            match parse_i64 (String c digits) with Some z => Some (VNumber (number_from z), r) | None => None end
          else match eat "null" s with
               | Some r => Some (VNull, r)
               | None => match eat "true" s with
                         | Some r => Some (VBool true, r)
                         | None => match eat "false" s with Some r => Some (VBool false, r) | None => None end
                         end
               end
      end
  end.

#[global] Instance example_serde : Serde := {|
  from_str s := match parse_value (S (String.length s)) s with Some (v, EmptyString) => Some v | _ => None end;
  to_string := print;
  to_string_pretty := print |}.

#[global] Instance example_kernels : Kernels := {|
  cast_utf8 a := match a with
                 | AUtf8 _ rows => Ok (AUtf8 Utf8 rows)
                 | AInt _ rows => Ok (AUtf8 Utf8 (map (option_map int_to_string) rows))
                 | ANull n => Ok (AUtf8 Utf8 (replicate n None))
                 | _ => Err (OtherError "cast")
                 end;
  cast_scalar_utf8 s := match s with
                        | SUtf8 _ v => Ok (SUtf8 Utf8 v)
                        | SInt _ v => Ok (SUtf8 Utf8 (option_map int_to_string v))
                        | SNull => Ok (SUtf8 Utf8 None)
                        | _ => Err (OtherError "cast")
                        end;
  casts_to_decimal a := match a with AInt _ _ => true | _ => false end;
  is_nested t := match t with TList _ _ | TStruct _ | TUnion _ _ | TMap _ => true | _ => false end;
  select_as _ _ := None;
  f64_to_string _ := "0.5";
  parse_f64 s := if String.eqb s "0.5" then Some (S754_finite false 4503599627370496 (-53)) else None;
  replace_null_word s := s |}.

End SerdeExample.

Import SerdeExample.

Example parse_example :
  from_str (print (VObject [("a", VArray [VNumber (PosInt 1); VNull; VString "x"]); ("b", VObject [])])) =
    Some (VObject [("a", VArray [VNumber (PosInt 1); VNull; VString "x"]); ("b", VObject [])]).
Proof. vm_compute. reflexivity. Qed.
