(* ===== verification/ArrayFunctions.v ===== *)
(** * The array functions

    [functions/src/semi-structured/array]: ARRAY_APPEND, ARRAY_CAT, ARRAY_COMPACT, ARRAY_CONSTRUCT,
    ARRAY_CONTAINS, ARRAY_DISTINCT, ARRAY_EXCEPT, ARRAY_FLATTEN, ARRAY_GENERATE_RANGE, ARRAY_INSERT,
    ARRAY_INTERSECTION, ARRAY_MAX, ARRAY_MIN, ARRAY_POSITION, ARRAY_PREPEND, ARRAY_REMOVE,
    ARRAY_REMOVE_AT, ARRAY_REVERSE, ARRAY_SIZE, ARRAY_SLICE, ARRAY_SORT, ARRAYS_OVERLAP,
    ARRAYS_TO_OBJECT, ARRAYS_ZIP and IS_ARRAY.  For each, the function on JSON values and the
    whole [invoke_with_args] on columns and scalars. *)

From Stdlib Require Import ZArith Lia Ascii String SpecFloat DecimalString.
From stdpp Require Import base option list strings sorting.
From S2P Require Import Prelude Ordering JsonValue JsonEncode SemiStructured.

Open Scope string_scope.
Open Scope Z_scope.
Open Scope rust_scope.

Section array_functions.
Context `{ArrowExt, Serde, Kernels}.

(** ** ARRAY_APPEND *)

Definition append_element (array_str : string) (element : ScalarValue) : res string :=
  let? array_value := parse array_str FailedToDeserializeJson in
  let? scalar_value := first_element element in
  match array_value with
  | VArray array => Ok (to_string (VArray (array ++ [scalar_value])))
  | _ => fail (ArgumentMustBeJsonArray "First")
  end.

Definition array_append (args : list ColumnarValue) : res ColumnarValue :=
  let? array_str := arg args 0 ArrayArgumentExpected in
  let? element := arg args 1 ExpectedElementArgument in
  match array_str, element with
  | Array array, Scalar element_value =>
      let? string_array := as_string array in
      let? results := over_rows (fun s => result_map Some (append_element s element_value)) string_array in
      Ok (string_column results)
  | Scalar array_value, Scalar element_value =>
      match array_value with
      | SUtf8 Utf8 (Some array_str) =>
          let? result := append_element array_str element_value in
          Ok (string_scalar (Some result))
      | _ => fail ExpectedUtf8StringForArray
      end
  | _, _ => fail FirstArgumentMustBeJsonArrayStringSecondScalar
  end.

(** ** ARRAY_CAT *)

Definition as_array_or {A} (v : Value) (e : Error) (k : list Value -> res A) : res A :=
  match v with VArray l => k l | _ => fail e end.

Definition concatenate_arrays (arrays : list string) : res string :=
  let? parts := traverse (fun s =>
    let? v := parse s (FailedToDeserializeJsonEntity "array") in
    as_array_or v ArgumentsMustBeJsonArrays (fun l => Ok l)) arrays in
  Ok (to_string (VArray (List.concat parts))).

Definition cat_row (row : option (string * string)) : res (option string) :=
  match row with
  | Some (s1, s2) => result_map Some (concatenate_arrays [s1; s2])
  | None => fail CannotConcatenateArraysWithNullValues
  end.

(** Row [i] of two columns, [None] when one is null.  The second is indexed by the rows of the first:
    a shorter one is a panic. *)
Definition column_pair (l k : list (option string)) (i : nat) : res (option (string * string)) :=
  match l !! i with
  | Some (Some s1) =>
      match k !! i with
      | Some (Some s2) => Ok (Some (s1, s2))
      | Some None => Ok None
      | None => panic
      end
  | _ => Ok None
  end.

Definition over_pairs {B} (f : option (string * string) -> res B) (l k : list (option string)) : res (list B) :=
  traverse (fun i => let? row := column_pair l k i in f row) (seq 0 (length l)).

Definition array_cat (args : list ColumnarValue) : res ColumnarValue :=
  match args with
  | [a1; a2] =>
      match a1, a2 with
      | Scalar (SUtf8 Utf8 (Some s1)), Scalar (SUtf8 Utf8 (Some s2)) =>
          let? result := concatenate_arrays [s1; s2] in Ok (string_scalar (Some result))
      | Scalar (SUtf8 Utf8 (Some s1)), Array array2 =>
          let? string_array2 := as_string array2 in
          let? results := traverse (fun r => cat_row (option_map (pair s1) r)) string_array2 in
          Ok (string_column results)
      | Array array1, Scalar (SUtf8 Utf8 (Some s2)) =>
          let? string_array1 := as_string array1 in
          let? results := traverse (fun r => cat_row (option_map (fun s1 => (s1, s2)) r)) string_array1 in
          Ok (string_column results)
      | Array array1, Array array2 =>
          let? string_array1 := as_string array1 in
          let? string_array2 := as_string array2 in
          let? results := over_pairs cat_row string_array1 string_array2 in
          Ok (string_column results)
      | _, _ => fail InvalidArgumentTypesForArrayConcat
      end
  | _ => fail ArrayCatExpectsExactlyTwoArguments
  end.

(** ** ARRAY_COMPACT *)

Definition is_null_value (v : Value) : bool := match v with VNull => true | _ => false end.

Definition compact_array (array_str : string) : res string :=
  let? array_value := parse array_str FailedToDeserializeJson in
  match array_value with
  | VArray array => Ok (to_string (VArray (List.filter (fun v => negb (is_null_value v)) array)))
  | _ => fail InputMustBeJsonArray
  end.

(** A column of strings or a scalar string, as most functions of one array take it. *)
Definition on_strings (v : ColumnarValue) (f : string -> res (option string))
    (other : ScalarValue -> res ColumnarValue) : res ColumnarValue :=
  match v with
  | Array array =>
      let? string_array := as_string array in
      let? results := over_rows f string_array in
      Ok (string_column results)
  | Scalar (SUtf8 Utf8 (Some s)) => let? result := f s in Ok (string_scalar result)
  | Scalar s => other s
  end.

Definition not_utf8 : ScalarValue -> res ColumnarValue := fun _ => fail ExpectedUtf8StringForArray.

Definition array_compact (args : list ColumnarValue) : res ColumnarValue :=
  let? array_str := arg args 0 ArrayArgumentExpected in
  on_strings array_str (fun s => result_map Some (compact_array s)) not_utf8.

(** ** ARRAY_CONSTRUCT *)

(** A string element that is JSON text is parsed. *)
Definition construct_element (elem : Value) : Value :=
  match elem with
  | VString s => match from_str s with Some parsed => parsed | None => elem end
  | _ => elem
  end.

Definition construct_row (json_arrays : list Value) (row_index : nat) : res (list Value) :=
  traverse (fun arr =>
    match arr with
    | VArray a => match a !! row_index with Some elem => Ok (construct_element elem) | None => panic end
    | _ => Ok VNull
    end) json_arrays.

Definition array_construct (args : list ColumnarValue) (number_rows : nat) : res ColumnarValue :=
  let? arrays := traverse (fun a => into_array a number_rows) args in
  let? json_arrays := traverse encode arrays in
  let? rows := traverse (construct_row json_arrays) (seq 0 number_rows) in
  Ok (string_column (map (fun row => Some (to_string (VArray row))) rows)).

(** ** ARRAY_CONTAINS *)

Definition list_contains (l : list Value) (v : Value) : bool := existsb (fun x => value_eqb x v) l.

Definition contains_value (search_value : Value) (array_str : option string) : res (option bool) :=
  match array_str with
  | Some array_str =>
      let? array_value := parse array_str FailedToDeserializeJson in
      match array_value with
      | VArray array =>
          if is_null_value search_value then
            if existsb is_null_value array then Ok (Some true) else Ok None
          else Ok (Some (list_contains array search_value))
      | _ => Ok None
      end
  | None => Ok None
  end.

Definition array_contains (args : list ColumnarValue) : res ColumnarValue :=
  let? value := arg args 0 (ExpectedNamedArgument "first") in
  let? array := arg args 1 (ExpectedNamedArgument "second") in
  match value, array with
  | Array value_array, Array array_array =>
      let? casted := of_arrow (cast_utf8 array_array) in
      let? array_strings := as_string casted in
      let? value_array := encode value_array in
      as_array_or value_array ArrayArgumentExpected (fun values =>
        let? results := traverse (fun '(search_val, col_val) => contains_value search_val col_val) (zip values array_strings) in
        Ok (Array (ABoolean results)))
  | Scalar value_scalar, Scalar array_scalar =>
      let? value_scalar := encode_scalar_value value_scalar in
      match array_scalar with
      | SUtf8 Utf8 (Some array_str) =>
          let? result := contains_value value_scalar (Some array_str) in
          Ok (Scalar (SBoolean result))
      | SNull | SUtf8 Utf8 None => Ok (Scalar (SBoolean None))
      | _ => fail ExpectedUtf8StringForArray
      end
  | _, _ => fail MismatchedArgumentTypes
  end.

(** ** ARRAY_DISTINCT *)

(** The loop with the set of the values seen. *)
Fixpoint distinct_values (seen : list Value) (array : list Value) : list Value :=
  match array with
  | [] => []
  | value :: array =>
      if list_contains seen value then distinct_values seen array
      else value :: distinct_values (value :: seen) array
  end.

Definition distinct_array (string : string) : res (option String.string) :=
  let? array_value := parse string FailedToDeserializeJson in
  match array_value with
  | VArray [] => Ok (Some "[]")
  | VArray array => Ok (Some (to_string (VArray (distinct_values [] array))))
  | _ => Ok None
  end.

Definition array_distinct (args : list ColumnarValue) : res ColumnarValue :=
  let? array_str := arg args 0 (ExpectedNamedArgument "a variant") in
  on_strings array_str distinct_array not_utf8.

(** ** ARRAY_EXCEPT and ARRAY_INTERSECTION *)

Definition except_values (arr1 arr2 : list Value) : list Value :=
  List.filter (fun item => negb (list_contains arr2 item)) arr1.

(** The elements of the second array, in its order. *)
Definition intersection_values (arr1 arr2 : list Value) : list Value :=
  List.filter (fun item => list_contains arr1 item) arr2.

(** Both functions parse their arguments alike. *)
Definition two_arrays (f : list Value -> list Value -> list Value) (array1_str array2_str : option string) : res (option Value) :=
  match array1_str, array2_str with
  | Some arr1, Some arr2 =>
      let? array1_value := parse arr1 FailedToDeserializeJson in
      let? array2_value := parse arr2 FailedToDeserializeJson in
      match array1_value, array2_value with
      | VArray arr1, VArray arr2 => Ok (Some (VArray (f arr1 arr2)))
      | _, _ => Ok None
      end
  | _, _ => Ok None
  end.

Definition array_except_values := two_arrays except_values.
Definition array_intersection_values := two_arrays intersection_values.

(** [ScalarValue::Utf8(Some(s))], null, or another type. *)
Definition utf8_or_null {A} (s : ScalarValue) (name : string) (null : A) (k : string -> res A) : res A :=
  match s with
  | SUtf8 Utf8 (Some s) => k s
  | SNull | SUtf8 Utf8 None => Ok null
  | _ => fail (ExpectedUtf8StringForNamedArray name)
  end.

Definition binary_array_function (f : option string -> option string -> res (option Value))
    (args : list ColumnarValue) : res ColumnarValue :=
  let? array1 := arg args 0 (ExpectedNamedArgument "first array") in
  let? array2 := arg args 1 (ExpectedNamedArgument "second array") in
  match array1, array2 with
  | Array array1_array, Array array2_array =>
      let? array1_strings := as_string array1_array in
      let? array2_strings := as_string array2_array in
      let? results := traverse (fun '(arr1, arr2) => f arr1 arr2) (zip array1_strings array2_strings) in
      Ok (string_column (map (option_map to_string) results))
  | Scalar array1_scalar, Scalar array2_scalar =>
      utf8_or_null array1_scalar "first" (string_scalar None) (fun array1_str =>
      utf8_or_null array2_scalar "second" (string_scalar None) (fun array2_str =>
        let? result := f (Some array1_str) (Some array2_str) in
        Ok (string_scalar (option_map to_string result))))
  | _, _ => fail MismatchedArgumentTypes
  end.

Definition array_except := binary_array_function array_except_values.
Definition array_intersection := binary_array_function array_intersection_values.

(** ** ARRAY_FLATTEN *)

(** Why flattening leaves its loop: a null item makes the whole result null. *)
Fixpoint flatten_items (arr : list Value) : res (option (list Value)) :=
  match arr with
  | [] => Ok (Some [])
  | VArray inner :: arr => result_map (option_map (app inner)) (flatten_items arr)
  | VNull :: _ => Ok None
  | _ :: _ => Err (Exec "Not an array: 'Input argument to ARRAY_FLATTEN is not an array of arrays'")
  end.

Fixpoint flatten_inner (v : Value) : res Value :=
  match v with
  | VArray arr =>
      let? items := flatten_items arr in
      Ok (match items with Some l => VArray l | None => VNull end)
  | VObject m =>
      let? m := (fix fields (m : Map) : res Map := match m with
        | [] => Ok []
        | (k, v) :: m =>
            let? v := flatten_inner v in
            let? m := fields m in Ok ((k, v) :: m)
        end) m in
      Ok (VObject m)
  | _ => Ok v
  end.

Definition flatten_row (item : Value) : res Value :=
  match item with
  | VString s =>
      let row := match from_str (replace_null_word s) with Some parsed => parsed | None => item end in
      flatten_inner row
  | VNull => Ok VNull
  | _ => flatten_inner item
  end.

Definition array_flatten (args : list ColumnarValue) (number_rows : nat) : res ColumnarValue :=
  let? a := arg_index args 0 in
  let? arr := into_array a number_rows in
  let? json_array := encode arr in
  let? rows := match json_array with
    | VArray v => traverse flatten_row (take number_rows v)
    | _ => Ok []
    end in
  Ok (string_column (map (fun val => if is_null_value val then None else Some (to_string val)) rows)).

(** ** ARRAY_GENERATE_RANGE *)

(** [step_val as usize]. *)
Definition as_usize (z : Z) : Z := z mod 18446744073709551616.

(** [(start..stop).step_by(step)]: a step of zero panics. *)
Definition range_step_by (start stop step : Z) : res (list Z) :=
  if step =? 0 then panic
  else Ok (map (fun k => start + Z.of_nat k * step) (seq 0 (Z.to_nat ((Z.max 0 (stop - start) + step - 1) / step)))).

(** A row with a null is left out ([continue]); a column of another type is an error. *)
Definition int64_row (a : ArrayRef) (i : nat) (name : string) : res (option Z) :=
  if is_null a i then Ok None
  else match a with
       | AInt Int64 rows => match rows !! i with Some v => Ok v | None => panic end
       | _ => fail (ExpectedNamedArgumentToBeAnInt64Array name)
       end.

Definition range_row (start stop step : ArrayRef) (i : nat) : res (list Z) :=
  let? start_val := int64_row start i "start" in
  match start_val with
  | None => Ok []
  | Some start_val =>
      let? stop_val := int64_row stop i "stop" in
      match stop_val with
      | None => Ok []
      | Some stop_val =>
          let? step_val := int64_row step i "step" in
          match step_val with
          | None => Ok []
          | Some step_val => range_step_by start_val stop_val (as_usize step_val)
          end
      end
  end.

(** The rows' ranges are collected into one array. *)
Definition array_generate_range (args : list ColumnarValue) (number_rows : nat) : res ColumnarValue :=
  match args with
  | [start_arg; stop_arg] | [start_arg; stop_arg; _] =>
      let? step := match args with
        | [_; _; step_arg] => into_array step_arg number_rows
        | _ => of_arrow (to_array_of_size (SInt Int64 (Some 1)) number_rows)
        end in
      let? stop := into_array stop_arg number_rows in
      let? start := into_array start_arg number_rows in
      let? results := traverse (range_row start stop step) (seq 0 number_rows) in
      Ok (string_scalar (Some (to_string (VArray (map (fun i => VNumber (number_from i)) (List.concat results))))))
  | _ => fail ArrayGenerateRangeInvalidArgumentCount
  end.

(** ** ARRAY_INSERT *)

(** The position counted from the end when it is negative, not before the start. *)
Definition insert_position (len : nat) (pos : Z) : Z :=
  if pos <? 0 then Z.max (Z.of_nat len + pos) 0 else pos.

Definition insert_values (array : list Value) (pos : Z) (v : Value) : res (list Value) :=
  let pos := insert_position (length array) pos in
  if Z.of_nat (length array) <? pos then
    fail (PositionOutOfBoundsForArrayLength pos (Z.of_nat (length array)))
  else Ok (take (Z.to_nat pos) array ++ v :: drop (Z.to_nat pos) array)%list.

Definition insert_element (array_str : string) (pos : Z) (element : ScalarValue) : res string :=
  let? array_value := parse array_str FailedToDeserializeJson in
  let? scalar_value := encode_scalar_value element in
  match array_value with
  | VArray array =>
      let? array := insert_values array pos scalar_value in Ok (to_string (VArray array))
  | _ => fail (ArgumentMustBeJsonArray "First")
  end.

Definition array_insert (args : list ColumnarValue) : res ColumnarValue :=
  let? array_str := arg args 0 (ExpectedNamedArgument "array") in
  let? pos := arg args 1 (ExpectedNamedArgument "position") in
  let? element := arg args 2 (ExpectedNamedArgument "element") in
  match array_str, pos, element with
  | Array array, Scalar pos_value, Scalar element_value =>
      let? string_array := as_string array in
      match pos_value with
      | SInt Int64 (Some pos) =>
          let? results := over_rows (fun s => result_map Some (insert_element s pos element_value)) string_array in
          Ok (string_column results)
      | _ => fail PositionMustBeAnInteger
      end
  | Scalar array_value, Scalar pos_value, Scalar element_value =>
      match array_value with
      | SUtf8 Utf8 (Some array_str) =>
          match pos_value with
          | SInt Int64 (Some pos) =>
              let? result := insert_element array_str pos element_value in
              Ok (string_scalar (Some result))
          | _ => fail PositionMustBeAnInteger
          end
      | _ => fail ExpectedUtf8StringForArray
      end
  | _, _, _ => fail FirstArgumentMustBeJsonArrayStringSecondIntegerThirdScalar
  end.

(** ** ARRAY_MAX and ARRAY_MIN *)

(** [Number::is_i64] with [as_i64], and [Number::is_f64] with [as_f64]. *)
Definition number_as_i64 (n : Number) : option Z :=
  match n with PosInt z => if z <=? i64_max then Some z else None | NegInt z => Some z | Float _ => None end.

Inductive NumType := TI64 | TF64.

#[global] Instance NumType_eq_dec : EqDecision NumType.
Proof. solve_decision. Defined.

(** One iteration: the text and the type of the best number so far.  [better] says whether the new
    number replaces the current one. *)
Definition extremum_step (better_i64 : Z -> Z -> bool) (better_f64 : f64 -> f64 -> bool)
    (best : option (string * NumType)) (value : Value) : option (string * NumType) :=
  match value with
  | VNumber n =>
      match number_as_i64 n with
      | Some num =>
          let should_update := match best with
            | None => true
            | Some (current, ty) =>
                match parse_i64 current with
                | Some current_num => bool_decide (ty = TI64) && better_i64 num current_num
                | None => false
                end
            end in
          if should_update then Some (int_to_string num, TI64) else best
      | None =>
          match n with
          | Float num =>
              let should_update := match best with
                | None => true
                | Some (current, ty) =>
                    match parse_f64 current with
                    | Some current_num => bool_decide (ty = TF64) && better_f64 num current_num
                    | None => false
                    end
                end in
              if should_update then Some (f64_to_string num, TF64) else best
          | _ => best
          end
      end
  | _ => best
  end.

Definition find_extremum (better_i64 : Z -> Z -> bool) (better_f64 : f64 -> f64 -> bool) (string : string) : res (option String.string) :=
  let? array_value := parse string FailedToDeserializeJson in
  match array_value with
  | VArray [] => Ok None
  | VArray array => Ok (option_map fst (foldl (extremum_step better_i64 better_f64) None array))
  | _ => Ok None
  end.

Definition find_max : string -> res (option string) :=
  find_extremum (fun num current => current <? num) (fun num current => SFltb current num).

Definition find_min : string -> res (option string) :=
  find_extremum (fun num current => num <? current) (fun num current => SFltb num current).

Definition array_max (args : list ColumnarValue) : res ColumnarValue :=
  let? array_str := arg args 0 (ExpectedNamedArgument "variant") in
  on_strings array_str find_max not_utf8.

Definition array_min (args : list ColumnarValue) : res ColumnarValue :=
  let? array_str := arg args 0 (ExpectedNamedArgument "variant") in
  on_strings array_str find_min not_utf8.

(** ** ARRAY_POSITION *)

Fixpoint position_from (i : nat) (element : Value) (arr : list Value) : option nat :=
  match arr with
  | [] => None
  | item :: arr => if value_eqb item element then Some i else position_from (S i) element arr
  end.

Definition array_position_of (element array : Value) : option Z :=
  match array with VArray arr => option_map Z.of_nat (position_from 0 element arr) | _ => None end.

Definition position_row (element_array : list Value) (string_array : list (option string)) (i : nat) : res (option Z) :=
  match string_array !! i with
  | Some (Some s) =>
      let? array_value := parse s SerdeJsonMessage in
      match element_array !! i with
      | Some element => Ok (array_position_of element array_value)
      | None => panic
      end
  | _ => Ok None
  end.

Definition array_position (args : list ColumnarValue) : res ColumnarValue :=
  let? element := arg args 0 ExpectedElementArgument in
  let? array := arg args 1 ArrayArgumentExpected in
  match element, array with
  | Array element_array, Array array_array =>
      let? element_array := encode element_array in
      let? string_array := as_string array_array in
      let? results := match element_array with
        | VArray element_array => traverse (position_row element_array string_array) (seq 0 (length string_array))
        | _ => Ok []
        end in
      Ok (Array (AInt Int64 results))
  | Scalar element_scalar, Scalar array_scalar =>
      let? element_scalar := encode_scalar_value element_scalar in
      match array_scalar with
      | SUtf8 _ (Some s) =>
          let? array_scalar := parse s SerdeJsonMessage in
          Ok (Scalar (SInt Int64 (array_position_of element_scalar array_scalar)))
      | _ => fail ArrayArgumentMustBeAStringType
      end
  | _, _ => fail MismatchedArgumentTypes
  end.

(** ** ARRAY_PREPEND *)

Definition prepend_element (array_value element_value : Value) : res string :=
  match array_value with
  | VArray array => Ok (to_string (VArray (element_value :: array)))
  | _ => fail (ArgumentMustBeJsonArray "first")
  end.

Definition array_prepend (args : list ColumnarValue) : res ColumnarValue :=
  let? array_str := arg args 0 ArrayArgumentExpected in
  let? element := arg args 1 ExpectedElementArgument in
  match array_str, element with
  | Array array, Scalar element_value =>
      let? string_array := as_string array in
      let? element_value := encode_scalar_value element_value in
      let? results := over_rows (fun s =>
        let? array_value := parse s FailedToDeserializeJson in
        result_map Some (prepend_element array_value element_value)) string_array in
      Ok (string_column results)
  | Scalar array_value, Scalar element_value =>
      match array_value with
      | SUtf8 Utf8 (Some array_str) =>
          let? array_value := parse array_str FailedToDeserializeJson in
          let? element_value := encode_scalar_value element_value in
          let? result := prepend_element array_value element_value in
          Ok (string_scalar (Some result))
      | _ => fail ExpectedUtf8StringForArray
      end
  | _, _ => fail FirstArgumentMustBeJsonArrayStringSecondScalar
  end.

(** ** ARRAY_REMOVE *)

Definition remove_element (array_value : Value) (element_value : option Value) : res (option string) :=
  match element_value with
  | None => Ok None
  | Some element_value =>
      match array_value with
      | VArray array => Ok (Some (to_string (VArray (List.filter (fun x => negb (value_eqb x element_value)) array))))
      | _ => fail (ArgumentMustBeJsonArray "first")
      end
  end.

(** A null element is [None]. *)
Definition element_json (s : ScalarValue) : res (option Value) :=
  if scalar_is_null s then Ok None else result_map Some (first_element s).

Definition array_remove (args : list ColumnarValue) : res ColumnarValue :=
  let? array_str := arg args 0 ArrayArgumentExpected in
  let? element := arg args 1 ExpectedElementArgument in
  match array_str, element with
  | Array array, Scalar element_value =>
      let? string_array := as_string array in
      let? element_json := element_json element_value in
      let? results := over_rows (fun s =>
        let? array_json := parse s FailedToDeserializeJson in remove_element array_json element_json) string_array in
      Ok (string_column results)
  | Scalar array_value, Scalar element_value =>
      match array_value with
      | SUtf8 Utf8 (Some array_str) =>
          let? array_json := parse array_str FailedToDeserializeJson in
          let? element_json := element_json element_value in
          let? result := remove_element array_json element_json in
          Ok (string_scalar result)
      | _ => fail ExpectedUtf8StringForArray
      end
  | _, _ => fail FirstArgumentMustBeJsonArrayStringSecondScalar
  end.

(** ** ARRAY_REMOVE_AT *)

(** The element a position names, counted from the end when negative. *)
Definition remove_at (array : list Value) (position : Z) : option (list Value) :=
  let array_len := Z.of_nat (length array) in
  let actual_pos := if position <? 0 then position + array_len else position in
  if (actual_pos <? 0) || (array_len <=? actual_pos) then None
  else Some (delete (Z.to_nat actual_pos) array).

Definition remove_at_position (array_value : Value) (position : Z) : res (option string) :=
  match array_value with
  | VArray array => Ok (option_map (fun l => to_string (VArray l)) (remove_at array position))
  | _ => fail (ArgumentMustBeJsonArray "first")
  end.

Definition array_remove_at (args : list ColumnarValue) : res ColumnarValue :=
  let? array_str := arg args 0 ArrayArgumentExpected in
  let? position := arg args 1 (ExpectedNamedArgument "position") in
  match array_str, position with
  | Array array, Scalar position_value =>
      let? string_array := as_string array in
      match position_value with
      | SInt Int64 (Some pos) =>
          let? results := over_rows (fun s =>
            let? array_json := parse s FailedToDeserializeJson in remove_at_position array_json pos) string_array in
          Ok (string_column results)
      | SInt Int64 None | SNull => Ok (string_scalar None)
      | _ => fail PositionMustBeAnInteger
      end
  | Scalar array_value, Scalar position_value =>
      match array_value with
      | SUtf8 Utf8 (Some array_str) =>
          if scalar_is_null array_value || scalar_is_null position_value then Ok (string_scalar None)
          else match position_value with
               | SInt Int64 (Some pos) =>
                   let? array_json := parse array_str FailedToDeserializeJson in
                   let? result := remove_at_position array_json pos in
                   Ok (string_scalar result)
               | _ => fail PositionMustBeAnInteger
               end
      | _ => fail ExpectedUtf8StringForArray
      end
  | _, _ => fail FirstArgumentMustBeJsonArrayStringSecondInteger
  end.

(** ** ARRAY_REVERSE *)

Definition reverse_array (array_value : Value) : res (option string) :=
  match array_value with
  | VArray array => Ok (Some (to_string (VArray (reverse array))))
  | _ => fail (ArgumentMustBeJsonArray "")
  end.

Definition array_reverse (args : list ColumnarValue) : res ColumnarValue :=
  let? array_arg := arg args 0 ArrayArgumentExpected in
  on_strings array_arg (fun s => let? v := parse s FailedToDeserializeJson in reverse_array v)
    (fun s => if scalar_is_null s then Ok (string_scalar None) else fail ExpectedUtf8StringForArray).

(** ** ARRAY_SIZE *)

Definition get_array_size (value : Value) : option Z :=
  match value with VArray array => Some (wrap_i64 (Z.of_nat (length array))) | _ => None end.

Definition array_size (args : list ColumnarValue) : res ColumnarValue :=
  let? array_arg := arg args 0 ArrayArgumentExpected in
  match array_arg with
  | Array array =>
      let? string_array := as_string array in
      let? results := over_rows (fun s =>
        let? array_json := parse s FailedToDeserializeJson in Ok (get_array_size array_json)) string_array in
      Ok (Array (AInt Int64 results))
  | Scalar (SUtf8 Utf8 (Some s)) =>
      let? array_json := parse s FailedToDeserializeJson in
      Ok (Scalar (SInt Int64 (get_array_size array_json)))
  | Scalar (SUtf8 Utf8 None) | Scalar SNull => Ok (Scalar (SInt Int64 None))
  | Scalar _ => fail ExpectedUtf8String
  end.

(** ** ARRAY_SLICE *)

Definition slice_values (array : list Value) (from to : Z) : option (list Value) :=
  let array_len := Z.of_nat (length array) in
  let actual_from := if from <? 0 then from + array_len else from in
  let actual_to := if to <? 0 then to + array_len else to in
  if (actual_from <? 0) || (array_len <=? actual_from) || (actual_to <? actual_from) || (array_len <? actual_to)
  then None
  else Some (take (Z.to_nat (actual_to - actual_from)) (drop (Z.to_nat actual_from) array)).

Definition slice_array (array_value : Value) (from to : Z) : res (option string) :=
  match array_value with
  | VArray array => Ok (option_map (fun l => to_string (VArray l)) (slice_values array from to))
  | _ => fail InputMustBeJsonArray
  end.

Definition array_slice (args : list ColumnarValue) : res ColumnarValue :=
  let? array_str := arg args 0 ArrayArgumentExpected in
  let? from := arg args 1 (ExpectedNamedArgument "from") in
  let? to := arg args 2 (ExpectedNamedArgument "to") in
  match array_str, from, to with
  | Array array, Scalar from_value, Scalar to_value =>
      let? string_array := as_string array in
      match from_value with
      | SInt Int64 (Some from) =>
          match to_value with
          | SInt Int64 (Some to) =>
              let? results := over_rows (fun s =>
                let? array_json := parse s FailedToDeserializeJson in slice_array array_json from to) string_array in
              Ok (string_column results)
          | SInt Int64 None | SNull => Ok (string_scalar None)
          | _ => fail (NamedIndexMustBeAnInteger "To")
          end
      | SInt Int64 None | SNull => Ok (string_scalar None)
      | _ => fail (NamedIndexMustBeAnInteger "From")
      end
  | Scalar array_value, Scalar from_value, Scalar to_value =>
      match array_value with
      | SUtf8 Utf8 (Some array_str) =>
          if scalar_is_null array_value || scalar_is_null from_value || scalar_is_null to_value
          then Ok (string_scalar None)
          else match from_value with
               | SInt Int64 (Some from) =>
                   match to_value with
                   | SInt Int64 (Some to) =>
                       let? array_json := parse array_str FailedToDeserializeJson in
                       let? result := slice_array array_json from to in
                       Ok (string_scalar result)
                   | _ => fail (NamedIndexMustBeAnInteger "To")
                   end
               | _ => fail (NamedIndexMustBeAnInteger "From")
               end
      | _ => fail ExpectedUtf8StringForArray
      end
  | _, _, _ => fail FirstArgumentMustBeJsonArrayStringSecondAndThirdIntegers
  end.

(** ** ARRAY_SORT *)

(** [Number::as_f64]: integers are rounded. *)
Definition number_as_f64 (n : Number) : f64 :=
  match n with PosInt z | NegInt z => binary_normalize 53 1024 z 0 false | Float f => f end.

Definition type_order (v : Value) : Z :=
  match v with
  | VNull => 5
  | VBool _ => 0
  | VNumber _ => 1
  | VString _ => 2
  | VArray _ => 3
  | VObject _ => 4
  end.

Definition compare_json_values (a b : Value) : comparison :=
  match a, b with
  | VNull, VNull => Eq
  | VBool a, VBool b => bool_cmp a b
  | VNumber a, VNumber b => f64_cmp (number_as_f64 a) (number_as_f64 b)
  | VString a, VString b => str_cmp a b
  | _, _ => type_order a ?= type_order b
  end.

(** The closure of [sort_by]; [None] is a null. *)
Definition sort_cmp (sort_ascending : bool) (a b : option Value) : comparison :=
  match a, b with
  | None, None => Eq
  | None, Some _ => if sort_ascending then Gt else Lt
  | Some _, None => if sort_ascending then Lt else Gt
  | Some a_val, Some b_val =>
      let cmp := compare_json_values a_val b_val in
      if sort_ascending then cmp else CompOpp cmp
  end.

Definition null_to_none (v : Value) : option Value := match v with VNull => None | _ => Some v end.

(** [_nulls_first] is not used. *)
Definition sort_values (array : list Value) (sort_ascending _nulls_first : bool) : list Value :=
  map (default VNull) (sort_by (sort_cmp sort_ascending) (map null_to_none array)).

Definition sort_array (array_value : Value) (sort_ascending nulls_first : bool) : res (option string) :=
  match array_value with
  | VArray array => Ok (Some (to_string (VArray (sort_values array sort_ascending nulls_first))))
  | _ => fail (ArgumentMustBeJsonArray "First")
  end.

(** A flag that is absent, null or no boolean is true. *)
Definition flag (args : list ColumnarValue) (i : nat) : bool :=
  match args !! i with Some (Scalar (SBoolean (Some b))) => b | _ => true end.

Definition array_sort (args : list ColumnarValue) : res ColumnarValue :=
  let? array_arg := arg args 0 ArrayArgumentExpected in
  let sort_ascending := flag args 1 in
  let nulls_first := flag args 2 in
  on_strings array_arg (fun s =>
      let? array_json := parse s FailedToDeserializeJson in sort_array array_json sort_ascending nulls_first)
    (fun s => match s with SUtf8 Utf8 None => Ok (string_scalar None) | _ => fail (ArgumentMustBeJsonArray "First") end).

(** ** ARRAY_TO_STRING *)

(** [to_string(v, sep)].  A string that is JSON text is parsed and printed in turn; [fuel] bounds how
    often. *)
Fixpoint join_value (fuel : nat) (v : Value) (sep : string) : res string :=
  match fuel with
  | O => Err (Halt NoFuel)
  | S fuel =>
      let? parts := match v with
        | VArray arr =>
            traverse (fun av => match av with
              | VArray _ | VObject _ => Ok (to_string av)
              | _ => join_value fuel av sep
              end) arr
        | VObject _ => Ok [to_string v]
        | VNull => Ok [""]
        | VBool b => Ok [if b then "true" else "false"]
        | VNumber _ => Ok [to_string v]
        | VString s =>
            match from_str s with
            | Some json => result_map (fun x => [x]) (join_value fuel json sep)
            | None => Ok [s]
            end
        end in
      Ok (String.concat sep parts)
  end.

(** The value of a string column at a row; a null slot holds the empty string. *)
Definition string_value_at (rows : list (option string)) (i : nat) : res string :=
  match rows !! i with Some (Some s) => Ok s | Some None => Ok "" | None => panic end.

Definition array_to_string (fuel : nat) (args : list ColumnarValue) (number_rows : nat) : res ColumnarValue :=
  let? arrays := traverse (fun a => into_array a number_rows) args in
  let? a0 := ok_or (arrays !! 0%nat) (Halt Panic) in
  let? json_array := encode a0 in
  let? a1 := ok_or (arrays !! 1%nat) (Halt Panic) in
  let? sep_array := as_string a1 in
  match json_array with
  | VArray v =>
      let? rows := traverse (fun '(row_index, row) =>
        let? sep := string_value_at sep_array row_index in
        match row with
        | VNull => Ok None
        | _ => result_map Some (join_value fuel row sep)
        end) (imap pair v) in
      Ok (string_column rows)
  | _ => Err (Exec "wrong arguments")
  end.

(** ** ARRAYS_OVERLAP *)

(** Elements are compared by their text. *)
Definition overlap (arr1 arr2 : list Value) : bool :=
  existsb (fun val => existsb (String.eqb (to_string val)) (map to_string arr1)) arr2.

Definition arrays_have_overlap (array1 array2 : Value) : res (option bool) :=
  match array1, array2 with
  | VArray arr1, VArray arr2 => Ok (Some (overlap arr1 arr2))
  | _, _ => fail BothArgumentsMustBeJsonArrays
  end.

Definition overlap_row (row : option (string * string)) : res (option bool) :=
  match row with
  | Some (array1_str, array2_str) =>
      let? array1_json := parse array1_str (FailedToDeserializeJsonEntity "first array") in
      let? array2_json := parse array2_str (FailedToDeserializeJsonEntity "second array") in
      arrays_have_overlap array1_json array2_json
  | None => Ok None
  end.

Definition arrays_overlap (args : list ColumnarValue) : res ColumnarValue :=
  let? array1_arg := arg args 0 (ExpectedNamedArgument "first array") in
  let? array2_arg := arg args 1 (ExpectedNamedArgument "second array") in
  match array1_arg, array2_arg with
  | Array array1, Array array2 =>
      let? string_array1 := as_string array1 in
      let? string_array2 := as_string array2 in
      let? results := over_pairs overlap_row string_array1 string_array2 in
      Ok (Array (ABoolean results))
  | Scalar array1_value, Scalar array2_value =>
      if scalar_is_null array1_value || scalar_is_null array2_value then Ok (Scalar (SBoolean None))
      else match array1_value with
           | SUtf8 Utf8 (Some array1_str) =>
               match array2_value with
               | SUtf8 Utf8 (Some array2_str) =>
                   let? result := overlap_row (Some (array1_str, array2_str)) in
                   Ok (Scalar (SBoolean result))
               | _ => fail (ExpectedUtf8StringForNamedArray "second array")
               end
           | _ => fail (ExpectedUtf8StringForNamedArray "first array")
           end
  | _, _ => fail BothArgumentsMustBeJsonArrays
  end.

(** ** ARRAYS_TO_OBJECT *)

Definition create_map (keys : list (option string)) (values : list Value) : option Map :=
  if (length keys =? length values)%nat then
    Some (foldl (fun obj '(key_opt, value) =>
            match key_opt with Some key => map_insert key value obj | None => obj end) [] (zip keys values))
  else None.

Definition create_object (keys : list (option string)) (values : list Value) : option string :=
  option_map (fun m => to_string (VObject m)) (create_map keys values).

(** A value column's text is parsed where it is JSON. *)
Definition column_value (v : option string) : Value :=
  match v with
  | None => VNull
  | Some s => match from_str s with Some val => val | None => VString s end
  end.

Definition key_of_value (v : Value) : option string :=
  match v with VString s => Some s | VNull => None | _ => Some (to_string v) end.

(** Every row is built from the whole columns. *)
Definition arrays_to_object (args : list ColumnarValue) : res ColumnarValue :=
  let? keys_arg := arg args 0 (ExpectedNamedArgument "keys array") in
  let? values_arg := arg args 1 (ExpectedNamedArgument "values array") in
  match keys_arg, values_arg with
  | Array keys_array, Array values_array =>
      let? keys := as_string keys_array in
      let? values_strings := as_string values_array in
      let values := map column_value values_strings in
      let? results := traverse (fun i =>
        match keys !! i with
        | Some (Some _) => Ok (create_object keys values)
        | _ =>
            match values_strings !! i with
            | Some None => Ok None
            | Some (Some _) => Ok (create_object keys values)
            | None => panic
            end
        end) (seq 0 (length keys)) in
      Ok (string_column results)
  | Scalar keys_value, Scalar values_value =>
      if scalar_is_null keys_value || scalar_is_null values_value then Ok (string_scalar None)
      else match keys_value, values_value with
           | SUtf8 Utf8 (Some keys_str), SUtf8 Utf8 (Some values_str) =>
               let? keys := parse keys_str (FailedToDeserializeJsonEntity "keys") in
               let? values := parse values_str (FailedToDeserializeJsonEntity "values") in
               match keys, values with
               | VArray key_array, VArray value_array =>
                   Ok (string_scalar (create_object (map key_of_value key_array) value_array))
               | _, _ => fail ArgumentsMustBeJsonArrays
               end
           | _, _ => Ok (string_scalar None)
           end
  | _, _ => fail ArgumentsMustBeJsonArrays
  end.

(** ** ARRAYS_ZIP *)

Definition zip_key (array_idx : nat) : string := String "$" (nat_to_string (array_idx + 1)).

Definition zip_object (arrays : list (list Value)) (i : nat) : Map :=
  foldl (fun obj '(array_idx, array) => map_insert (zip_key array_idx) (default VNull (array !! i)) obj)
    [] (imap pair arrays).

Definition zip_values (arrays : list (list Value)) : list Value :=
  map (fun i => VObject (zip_object arrays i)) (seq 0 (list_max (map length arrays))).

Definition zip_arrays (arrays : list Value) : res (option string) :=
  if existsb is_null_value arrays then Ok None
  else
    let? arrays := traverse (fun val => match val with VArray arr => Ok arr | _ => fail AllArgumentsMustBeArrays end) arrays in
    Ok (Some (to_string (VArray (zip_values arrays)))).

(** The arguments of one row; [None] when one of them is null. *)
Fixpoint zip_row (args : list ColumnarValue) (row : nat) : res (option (list Value)) :=
  match args with
  | [] => Ok (Some [])
  | Array arr :: args =>
      let? arr := as_string arr in
      match arr !! row with
      | None => panic
      | Some None => Ok None
      | Some (Some s) =>
          let? array_json := parse s FailedToDeserializeJson in
          result_map (option_map (cons array_json)) (zip_row args row)
      end
  | Scalar _ :: _ => fail AllArgumentsMustBeArrays
  end.

Fixpoint zip_scalars (args : list ColumnarValue) : res (option (list Value)) :=
  match args with
  | [] => Ok (Some [])
  | Scalar scalar :: args =>
      if scalar_is_null scalar then Ok None
      else match scalar with
           | SUtf8 Utf8 (Some s) =>
               let? array_json := parse s (FailedToDeserializeJsonEntity "array") in
               result_map (option_map (cons array_json)) (zip_scalars args)
           | _ => fail ExpectedUtf8StringForArray
           end
  | Array _ :: _ => fail MixedScalarAndArrayArgumentsNotSupported
  end.

Definition zip_or_null (arrays : option (list Value)) : res (option string) :=
  match arrays with Some arrays => zip_arrays arrays | None => Ok None end.

Definition arrays_zip (args : list ColumnarValue) : res ColumnarValue :=
  match args with
  | Array first_array :: _ =>
      let? string_array := as_string first_array in
      let? results := traverse (fun row => let? arrays := zip_row args row in zip_or_null arrays)
                        (seq 0 (length string_array)) in
      Ok (string_column results)
  | Scalar _ :: _ =>
      let? arrays := zip_scalars args in
      let? result := zip_or_null arrays in
      Ok (string_scalar result)
  | [] => fail ArraysZipRequiresAtLeastOneArrayArgument
  end.

(** ** IS_ARRAY *)

Definition is_array_value (v : Value) : bool := match v with VArray _ => true | _ => false end.

Definition is_array (args : list ColumnarValue) (number_rows : nat) : res ColumnarValue :=
  let? a := arg_index args 0 in
  let? arr := into_array a number_rows in
  let? input := as_string arr in
  Ok (Array (ABoolean (map (option_map (fun v =>
    match from_str v with Some v => is_array_value v | None => false end)) input))).

End array_functions.

(** ** Set-like functions *)

Lemma list_contains_In l v : list_contains l v = true <-> exists x, x ∈ l /\ value_eqb x v = true.
Proof.
  unfold list_contains. rewrite existsb_exists. split; intros (x & Hx & E); exists x; split; try done; by apply list_elem_of_In.
Qed.

Lemma distinct_values_sublist seen l : distinct_values seen l `sublist_of` l.
Proof.
  revert seen. induction l as [|v l IH]; intros seen; simpl; [constructor|].
  destruct (list_contains seen v); [apply sublist_cons|apply sublist_skip]; apply IH.
Qed.

(** What is kept differs from what was seen and from what is kept before it. *)
Lemma distinct_values_fresh seen l :
  Forall (fun v => list_contains seen v = false) (distinct_values seen l).
Proof.
  revert seen. induction l as [|v l IH]; intros seen; simpl; [constructor|].
  destruct (list_contains seen v) eqn:E; [apply IH|]. constructor; [done|].
  eapply Forall_impl; [apply IH|]. intros w Hw. simpl in Hw. by apply orb_false_iff in Hw as [_ ?].
Qed.

(** No element of the list equals an earlier one. *)
Inductive all_distinct : list Value -> Prop :=
| all_distinct_nil : all_distinct []
| all_distinct_cons v l : Forall (fun w => value_eqb v w = false) l -> all_distinct l -> all_distinct (v :: l).

Lemma distinct_values_distinct seen l : all_distinct (distinct_values seen l).
Proof.
  revert seen. induction l as [|v l IH]; intros seen; simpl; [constructor|].
  destruct (list_contains seen v) eqn:E; [apply IH|]. constructor; [|apply IH].
  eapply Forall_impl; [apply distinct_values_fresh|]. intros w Hw. simpl in Hw. by apply orb_false_iff in Hw as [? _].
Qed.

Lemma list_contains_app a b v : list_contains (a ++ b)%list v = list_contains a v || list_contains b v.
Proof. apply existsb_app. Qed.

Lemma distinct_values_complete seen l v : Forall value_wf l -> v ∈ l ->
  list_contains (seen ++ distinct_values seen l)%list v = true.
Proof.
  revert seen. induction l as [|w l IH]; intros seen Hwf Hv; [by apply elem_of_nil in Hv|].
  apply Forall_cons in Hwf as [Hw Hwf]. simpl. destruct (list_contains seen w) eqn:E.
  - apply elem_of_cons in Hv as [->|Hv]; [by rewrite list_contains_app, E|]. by apply IH.
  - rewrite list_contains_app. simpl. apply elem_of_cons in Hv as [->|Hv].
    + rewrite value_eqb_refl by done. by rewrite orb_true_r.
    + specialize (IH (w :: seen) Hwf Hv). rewrite list_contains_app in IH. simpl in IH.
      rewrite orb_assoc, (orb_comm (list_contains seen v)). done.
Qed.

(** ARRAY_DISTINCT keeps the first of equal elements: its result is a subsequence of the
    array, no element of it equals an earlier one, and every element of the array equals one that
    is kept. *)
Theorem array_distinct_correct `{Serde} s array :
  from_str s = Some (VArray array) -> array <> [] -> Forall value_wf array ->
  exists kept, distinct_array s = Ok (Some (to_string (VArray kept))) /\
    kept `sublist_of` array /\ all_distinct kept /\
    (forall v, v ∈ array -> exists w, w ∈ kept /\ value_eqb w v = true).
Proof.
  intros Hs Hne Hwf. exists (distinct_values [] array). repeat split.
  - unfold distinct_array, parse. rewrite Hs. simpl. by destruct array.
  - apply distinct_values_sublist.
  - apply distinct_values_distinct.
  - intros v Hv. apply list_contains_In. by apply (distinct_values_complete []).
Qed.

(** ARRAY_EXCEPT and ARRAY_INTERSECTION split an array by whether the other one holds the
    element: together they are a permutation of it, every element of one is in the other array and
    no element of the other is, and repetitions are kept. *)
Theorem array_except_intersection_partition arr1 arr2 :
  except_values arr1 arr2 ++ intersection_values arr2 arr1 ≡ₚ arr1 /\
  Forall (fun v => list_contains arr2 v = true) (intersection_values arr2 arr1) /\
  Forall (fun v => list_contains arr2 v = false) (except_values arr1 arr2) /\
  except_values arr1 arr2 `sublist_of` arr1 /\ intersection_values arr2 arr1 `sublist_of` arr1.
Proof.
  unfold except_values, intersection_values.
  induction arr1 as [|v l (P & F1 & F2 & S1 & S2)]; simpl; [repeat split; constructor|].
  destruct (list_contains arr2 v) eqn:E; simpl.
  - repeat split; [|by constructor|done|by apply sublist_cons|by apply sublist_skip].
    by rewrite <- Permutation_middle, P.
  - repeat split; [by rewrite P|done|by constructor|by apply sublist_skip|by apply sublist_cons].
Qed.

Lemma position_from_spec i e l :
  match position_from i e l with
  | Some j => exists x, (i <= j)%nat /\ l !! (j - i)%nat = Some x /\ value_eqb x e = true /\
                Forall (fun y => value_eqb y e = false) (take (j - i) l)
  | None => list_contains l e = false
  end.
Proof.
  revert i. induction l as [|x l IH]; intros i; simpl; [done|].
  destruct (value_eqb x e) eqn:E.
  - exists x. rewrite Nat.sub_diag. repeat split; [lia|done|constructor].
  - specialize (IH (S i)). destruct (position_from (S i) e l) as [j|]; simpl.
    + destruct IH as (y & Hj & Hy & Ey & F). exists y. replace (j - i)%nat with (S (j - S i)) by lia.
      repeat split; [lia|done|done|]. simpl. by constructor.
    + done.
Qed.

(** ARRAY_POSITION and ARRAY_CONTAINS agree: a value that is not null is contained exactly
    when it has a position, and the position is that of the first equal element. *)
Theorem array_position_contains `{Serde} s array v :
  from_str s = Some (VArray array) -> v <> VNull ->
  contains_value v (Some s) = Ok (Some (match array_position_of v (VArray array) with Some _ => true | None => false end)) /\
  (forall i, array_position_of v (VArray array) = Some i ->
    exists x, array !! Z.to_nat i = Some x /\ value_eqb x v = true /\
      Forall (fun y => value_eqb y v = false) (take (Z.to_nat i) array)).
Proof.
  intros Hs Hv. pose proof (position_from_spec 0 v array) as Hp. simpl. split.
  - unfold contains_value, parse. rewrite Hs. simpl.
    destruct (is_null_value v) eqn:En; [by destruct v|]. do 2 f_equal.
    destruct (position_from 0 v array) as [j|]; simpl; [|done].
    destruct Hp as (x & _ & Hx & Ex & _). apply list_contains_In. exists x.
    split; [by apply list_elem_of_lookup_2 in Hx|done].
  - intros i. destruct (position_from 0 v array) as [j|]; simpl; [|done]. intros [= <-].
    rewrite Nat2Z.id. destruct Hp as (x & _ & Hx & Ex & F). rewrite Nat.sub_0_r in Hx, F. eauto.
Qed.

(** ** ARRAY_SORT *)

(** Numbers are compared as floats; no number of a JSON value is NaN. *)
Definition comparable (v : Value) : Prop :=
  match v with VNumber n => is_nan (number_as_f64 n) = false | _ => True end.

Lemma value_wf_comparable v : value_wf v -> comparable v.
Proof.
  destruct v as [| |[z|z|f]| | |]; simpl; try done; [intros _; apply normalize_not_nan..|]. by destruct f.
Qed.

#[global] Instance compare_json_preorder : TotalPreorderOn comparable compare_json_values.
Proof.
  split.
  - intros a b Ha Hb. destruct a, b; simpl in *; try done.
    + by apply (cmp_antisym (fun _ => True) bool_cmp).
    + by apply (cmp_antisym (fun f => is_nan f = false) f64_cmp).
    + by apply (cmp_antisym (fun _ => True) str_cmp).
  - intros a b c Ha Hb Hc. unfold cmp_le. destruct a, b, c; simpl in *; try done.
    + by apply (cmp_trans (fun _ => True) bool_cmp).
    + by apply (cmp_trans (fun f => is_nan f = false) f64_cmp).
    + by apply (cmp_trans (fun _ => True) str_cmp).
Qed.

Definition comparable_opt (o : option Value) : Prop := forall v, o = Some v -> comparable v.

#[global] Instance sort_cmp_preorder asc : TotalPreorderOn comparable_opt (sort_cmp asc).
Proof.
  set (cmp := fun a b => if asc then compare_json_values a b else CompOpp (compare_json_values a b)).
  assert (TotalPreorderOn comparable cmp) as HC.
  { unfold cmp. destruct asc; [apply _|]. apply reverse_preorder, _. }
  split.
  - intros [a|] [b|] Ha Hb; simpl; try by destruct asc.
    exact (cmp_antisym comparable cmp a b (Ha a eq_refl) (Hb b eq_refl)).
  - intros [a|] [b|] [c|] Ha Hb Hc; unfold cmp_le; simpl; try by destruct asc.
    exact (cmp_trans comparable cmp a b c (Ha a eq_refl) (Hb b eq_refl) (Hc c eq_refl)).
Qed.

Lemma default_null_to_none l : map (default VNull) (map null_to_none l) = l.
Proof. rewrite map_map. rewrite <- (map_id l) at 2. apply map_ext. by intros []. Qed.

Lemma null_to_none_default l : Forall (fun o => o <> Some VNull) l -> map null_to_none (map (default VNull) l) = l.
Proof.
  rewrite map_map. induction 1 as [|[v|] l Hv _ IH]; simpl; [done| |by rewrite IH].
  rewrite IH. by destruct v.
Qed.

Lemma sort_by_null_to_none asc l :
  map null_to_none (sort_values l asc asc) = sort_by (sort_cmp asc) (map null_to_none l).
Proof.
  apply null_to_none_default. rewrite sort_by_Permutation. apply Forall_map, Forall_forall. by intros [] _.
Qed.

(** ARRAY_SORT returns a permutation of the array in the order of its comparison, equal
    elements in their old order; nulls come last in an ascending and first in a descending sort,
    whatever the third argument says. *)
Theorem array_sort_correct `{Serde} s array asc nulls_first :
  from_str s = Some (VArray array) -> Forall value_wf array ->
  exists sorted,
    (let? v := parse s FailedToDeserializeJson in sort_array v asc nulls_first) = Ok (Some (to_string (VArray sorted))) /\
    sorted ≡ₚ array /\
    StronglySorted (cmp_le (sort_cmp asc)) (map null_to_none sorted) /\
    (forall p, (forall a b, p a = true -> p b = true -> sort_cmp asc a b = Eq) ->
       List.filter p (map null_to_none sorted) = List.filter p (map null_to_none array)).
Proof.
  intros Hs Hwf. exists (sort_values array asc nulls_first). unfold parse. rewrite Hs. simpl.
  change (sort_values array asc nulls_first) with (sort_values array asc asc).
  split; [done|]. rewrite sort_by_null_to_none. split; [|split].
  - unfold sort_values. rewrite sort_by_Permutation. by rewrite default_null_to_none.
  - refine (sort_by_Sorted comparable_opt (sort_cmp asc) _ _). apply Forall_map. eapply Forall_impl; [exact Hwf|].
    intros v Hv w E. apply value_wf_comparable in Hv. destruct v; simpl in *; by simplify_eq.
  - intros p Hp. by apply sort_by_stable.
Qed.

(** ** Positions *)

(** ARRAY_INSERT, ARRAY_REMOVE_AT and ARRAY_SLICE count a negative position from the end.
    Inserting succeeds exactly up to the length, a negative position beyond the start inserts in
    front; the element inserted is found at its position and removing it there gives the array
    back. *)
Theorem array_insert_remove_at array pos v :
  let n := Z.of_nat (length array) in
  let p := insert_position (length array) pos in
  match insert_values array pos v with
  | Ok array' => p <= n /\ length array' = S (length array) /\ array' !! Z.to_nat p = Some v /\
                 remove_at array' p = Some array
  | Err e => n < p /\ e = Fail (PositionOutOfBoundsForArrayLength p n)
  end.
Proof.
  intros n p. unfold insert_values. fold n p. destruct (Z.ltb_spec n p) as [Hlt|Hle]; [done|].
  assert (0 <= p) as Hp0 by (unfold p, insert_position; destruct (Z.ltb_spec pos 0); lia). assert (Z.to_nat p <= length array)%nat as Hnat by (unfold n in *; lia).
  assert (length (take (Z.to_nat p) array) = Z.to_nat p) as Ht by (rewrite length_take; lia).
  split; [done|]. split; [rewrite length_app, Ht; simpl; rewrite length_drop; lia|].
  split; [by rewrite lookup_app_r, Ht, Nat.sub_diag by lia|].
  unfold remove_at. rewrite length_app, Ht. simpl. rewrite length_drop.
  destruct (Z.ltb_spec p 0); [lia|]. simpl. destruct (Z.leb_spec (Z.of_nat (Z.to_nat p + S (length array - Z.to_nat p))) p); [lia|].
  rewrite (proj2 (Z.ltb_ge p 0)) by lia. simpl. rewrite <- Ht at 1. rewrite delete_middle. by rewrite take_drop.
Qed.

(** ARRAY_SLICE returns the elements from one position up to another when both, counted from
    the end if negative, are in order, the first inside the array and the second at most its length;
    otherwise the result is null.  An empty array has no slice. *)
Theorem array_slice_bounds array from to :
  let n := Z.of_nat (length array) in
  let f := if from <? 0 then from + n else from in
  let t := if to <? 0 then to + n else to in
  match slice_values array from to with
  | Some l => 0 <= f < n /\ f <= t <= n /\ Z.of_nat (length l) = t - f /\
              (forall i, (i < length l)%nat -> l !! i = array !! (Z.to_nat f + i)%nat)
  | None => ~ (0 <= f < n /\ f <= t <= n)
  end.
Proof.
  intros n f t. unfold slice_values. fold n. fold f t.
  destruct ((f <? 0) || (n <=? f) || (t <? f) || (n <? t)) eqn:E.
  - rewrite !orb_true_iff, !Z.ltb_lt, Z.leb_le in E. lia.
  - rewrite !orb_false_iff, !Z.ltb_ge, Z.leb_gt in E.
    assert (Z.of_nat (length (take (Z.to_nat (t - f)) (drop (Z.to_nat f) array))) = t - f) as Hl.
    { rewrite length_take, length_drop. unfold n in *. lia. }
    split; [lia|]. split; [lia|]. split; [done|]. intros i Hi.
    rewrite lookup_take_lt by lia. by rewrite lookup_drop.
Qed.

(** ** ARRAY_MAX and ARRAY_MIN *)

(** The integers of an array that fit an [i64]. *)
Definition ints_of (l : list Value) : list Z :=
  omap (fun v => match v with VNumber n => number_as_i64 n | _ => None end) l.

Lemma ints_of_app l k : ints_of (l ++ k) = (ints_of l ++ ints_of k)%list.
Proof. unfold ints_of. by rewrite omap_app. Qed.

Section extremum.
Context `{Serde, Kernels}.

(** Once an integer is the best, floats are ignored. *)
Lemma extremum_step_int bi bf z0 v : in_i64 z0 = true ->
  extremum_step bi bf (Some (int_to_string z0, TI64)) v =
    Some (int_to_string (match v with
      | VNumber n => match number_as_i64 n with Some num => if bi num z0 : bool then num else z0 | None => z0 end
      | _ => z0
      end), TI64).
Proof.
  intros Hz. unfold extremum_step. destruct v as [| |n| | |]; try done.
  rewrite parse_int_to_string by done. rewrite bool_decide_true, bool_decide_false by done.
  destruct (number_as_i64 n) as [num|]; [by destruct (bi num z0)|].
  destruct n; try done. by destruct (parse_f64 _).
Qed.

Lemma extremum_after_int bi bf l z0 :
  in_i64 z0 = true -> Forall (fun z => in_i64 z = true) (ints_of l) ->
  foldl (extremum_step bi bf) (Some (int_to_string z0, TI64)) l =
    Some (int_to_string (foldl (fun m z => if bi z m : bool then z else m) z0 (ints_of l)), TI64).
Proof.
  revert z0. induction l as [|v l IH]; intros z0 Hz Hl; [done|]. cbn [foldl].
  rewrite extremum_step_int by done. unfold ints_of in Hl |- *. cbn [omap list_omap] in Hl |- *.
  destruct v as [| |n| | |]; try (by apply IH).
  destruct (number_as_i64 n) as [num|]; [|by apply IH].
  apply Forall_cons in Hl as [Hnum Hl]. cbn [foldl]. destruct (bi num z0); by apply IH.
Qed.

(** Elements that are no number leave nothing. *)
Definition not_a_number (v : Value) : bool :=
  match v with
  | VNumber (Float _) => false
  | VNumber n => match number_as_i64 n with Some _ => false | None => true end
  | _ => true
  end.

Lemma extremum_skip bi bf l : Forall (fun v => not_a_number v = true) l -> foldl (extremum_step bi bf) None l = None.
Proof.
  induction 1 as [|v l Hv _ IH]; [done|]. cbn [foldl].
  replace (extremum_step bi bf None v) with (@None (string * NumType)); [done|].
  destruct v as [| |n| | |]; try done. simpl in *.
  destruct n as [x|x|f]; simpl in *; [destruct (x <=? i64_max); done|done|done].
Qed.

Lemma ints_of_skip l : Forall (fun v => not_a_number v = true) l -> ints_of l = [].
Proof.
  induction 1 as [|v l Hv _ IH]; [done|]. unfold ints_of in *. simpl.
  destruct v as [| |n| | |]; try done. simpl in *.
  destruct n as [x|x|f]; simpl in *; [destruct (x <=? i64_max); done|done|done].
Qed.

Lemma foldl_best (better : Z -> Z -> bool) (le : Z -> Z -> Prop) z0 l :
  (forall a b, if better a b then le b a else le a b) -> (forall a b c, le a b -> le b c -> le a c) -> (forall a, le a a) ->
  let m := foldl (fun m z => if better z m then z else m) z0 l in
  m ∈ z0 :: l /\ Forall (fun z => le z m) (z0 :: l).
Proof.
  intros Hb Ht Hr. revert z0. induction l as [|z l IH]; intros z0; simpl.
  - split; [apply elem_of_cons; by left|by repeat constructor].
  - specialize (IH (if better z z0 then z else z0)). simpl in IH. destruct IH as [Hin Hall].
    specialize (Hb z z0). apply Forall_cons in Hall as [H1 H2]. destruct (better z z0).
    + split; [apply elem_of_cons; right; done|]. constructor; [by eapply Ht|]. by constructor.
    + split; [apply elem_of_cons in Hin as [->|Hin]; apply elem_of_cons; [by left|right; apply elem_of_cons; by right]|].
      constructor; [done|]. constructor; [by eapply Ht|done].
Qed.

(** ARRAY_MAX (and ARRAY_MIN) of an array whose first number is an integer is its greatest
    (least) integer, whatever floats follow it: numbers of the other kind are never compared. *)
Theorem array_max_min_of_integers s pre n z post :
  let array := (pre ++ VNumber n :: post)%list in
  from_str s = Some (VArray array) ->
  Forall (fun v => not_a_number v = true) pre -> number_as_i64 n = Some z ->
  Forall (fun z => in_i64 z = true) (ints_of array) ->
  (exists m, find_max s = Ok (Some (int_to_string m)) /\ m ∈ ints_of array /\ Forall (fun z => z <= m) (ints_of array)) /\
  (exists m, find_min s = Ok (Some (int_to_string m)) /\ m ∈ ints_of array /\ Forall (fun z => m <= z) (ints_of array)).
Proof.
  intros array Hs Hpre Hn Hints.
  assert (ints_of array = z :: ints_of post) as Hi.
  { unfold array. rewrite ints_of_app, (ints_of_skip pre Hpre). unfold ints_of. simpl. by rewrite Hn. }
  rewrite Hi in *. apply Forall_cons in Hints as [Hz Hpost].
  assert (forall bi bf, find_extremum bi bf s =
    Ok (Some (int_to_string (foldl (fun m z => if bi z m : bool then z else m) z (ints_of post))))) as Hf.
  { intros bi bf. unfold find_extremum, parse. rewrite Hs. simpl.
    assert (foldl (extremum_step bi bf) None array = Some (int_to_string (foldl (fun m z => if bi z m : bool then z else m) z (ints_of post)), TI64)) as E.
    { unfold array. rewrite foldl_app, extremum_skip by done. cbn [foldl]. unfold extremum_step at 2. rewrite Hn.
      by apply extremum_after_int. }
    destruct array as [|x xs] eqn:Ea; [by destruct pre|]. by rewrite E. }
  split; unfold find_max, find_min; rewrite Hf; eexists; (split; [reflexivity|]).
  - apply (foldl_best (fun num current => current <? num) Z.le); [|lia..].
    intros a b. destruct (Z.ltb_spec b a); lia.
  - apply (foldl_best (fun num current => num <? current) (fun a b => b <= a)); [|lia..].
    intros a b. destruct (Z.ltb_spec a b); lia.
Qed.

End extremum.

(** ** ARRAY_GENERATE_RANGE *)

(** A range from [start] up to [stop] in positive steps holds exactly the numbers
    [start + k * step] below [stop], in order; a step of zero panics, and a negative step, taken as
    an unsigned number, yields at most the start and never descends. *)
Theorem generate_range_row start stop step :
  in_i64 start = true -> in_i64 stop = true -> in_i64 step = true ->
  (step = 0 -> range_step_by start stop (as_usize step) = panic) /\
  (0 < step -> exists l, range_step_by start stop (as_usize step) = Ok l /\
     (forall k, l !! k = if start + Z.of_nat k * step <? stop then Some (start + Z.of_nat k * step) else None)) /\
  (i64_min < step < 0 -> 0 <= start -> range_step_by start stop (as_usize step) = Ok (if start <? stop then [start] else [])).
Proof.
  intros Ha Hb Hc. split; [by intros ->|]. split.
  - intros Hpos. unfold as_usize. rewrite Z.mod_small by solve_range. unfold range_step_by.
    destruct (Z.eqb_spec step 0); [lia|]. eexists. split; [done|]. intros k. rewrite list_lookup_fmap.
    set (len := Z.to_nat _). destruct (decide (k < len)%nat) as [Hk|Hk].
    + rewrite lookup_seq_lt by done. simpl. unfold len in Hk.
      assert (Z.of_nat k < (Z.max 0 (stop - start) + step - 1) / step) as Hk' by lia.
      assert (Z.of_nat k * step < stop - start) as Hlt.
      { Z.div_mod_to_equations. nia. }
      by rewrite (proj2 (Z.ltb_lt _ _)) by lia.
    + rewrite lookup_seq_ge by lia. simpl. unfold len in Hk.
      assert ((Z.max 0 (stop - start) + step - 1) / step <= Z.of_nat k) as Hk'.
      { assert (0 <= (Z.max 0 (stop - start) + step - 1) / step) by (apply Z.div_pos; lia). lia. }
      assert (stop - start <= Z.of_nat k * step) as Hge.
      { Z.div_mod_to_equations. nia. }
      by rewrite (proj2 (Z.ltb_ge _ _)) by lia.
  - intros Hneg Hst. unfold as_usize.
    assert (step mod 18446744073709551616 = step + 18446744073709551616) as ->.
    { symmetry. apply (Z.mod_unique _ _ (-1)); [left; solve_range|lia]. }
    unfold range_step_by. destruct (Z.eqb_spec (step + 18446744073709551616) 0); [solve_range|].
    assert ((Z.max 0 (stop - start) + (step + 18446744073709551616) - 1) / (step + 18446744073709551616) =
      if start <? stop then 1 else 0) as ->.
    { destruct (Z.ltb_spec start stop).
      - symmetry. apply (Z.div_unique _ _ 1 (stop - start - 1)); [left; solve_range|]. lia.
      - symmetry. apply (Z.div_unique _ _ 0 (step + 18446744073709551616 - 1)); [left; solve_range|]. lia. }
    destruct (start <? stop); simpl; [|done]. by rewrite Z.add_0_r.
Qed.

(** ** ARRAYS_ZIP *)

Lemma nat_to_string_inj n m : nat_to_string n = nat_to_string m -> n = m.
Proof.
  intros E. apply (f_equal parse_digits) in E. unfold nat_to_string in E. rewrite !parse_digits_uint in E.
  injection E. lia.
Qed.

Lemma zip_keys_NoDup {A} (f : nat -> A -> Value) (l : list A) :
  NoDup (keys_of (imap (fun j a => (zip_key j, f j a)) l)).
Proof.
  unfold keys_of. apply NoDup_alt. intros i j k. rewrite !list_lookup_fmap, !list_lookup_imap.
  destruct (l !! i), (l !! j); simpl; try done. intros [= Hi] [= Hj].
  unfold zip_key in *. subst k. injection Hj as Hj. apply nat_to_string_inj in Hj. lia.
Qed.

Lemma foldl_map_insert_map {A} (key : nat -> string) (val : A -> Value) (l : list (nat * A)) (m : Map) :
  foldl (fun obj '(j, a) => map_insert (key j) (val a) obj) m l =
  foldl (fun m '(name, v) => map_insert name v m) m (map (fun '(j, a) => (key j, val a)) l).
Proof. revert m. induction l as [|[j a] l IH]; intros m; simpl; [done|]. apply IH. Qed.

Lemma zip_object_fields arrays i :
  zip_object arrays i = imap (fun j array => (zip_key j, default VNull (array !! i))) arrays.
Proof.
  unfold zip_object. rewrite (foldl_map_insert_map zip_key (fun array : list Value => default VNull (array !! i))).
  assert (map (fun '(j, a) => (zip_key j, default VNull (a !! i))) (imap pair arrays) =
    imap (fun j (array : list Value) => (zip_key j, default VNull (array !! i))) arrays) as ->.
  { apply (fmap_imap pair (fun '(j, a) => (zip_key j, default VNull (a !! i)))). }
  rewrite foldl_map_insert_fresh; [done|]. simpl. apply zip_keys_NoDup.
Qed.

(** ARRAYS_ZIP returns as many objects as the longest array has elements; the [i]-th has the
    fields $1, $2, ... in order, one per array, with the array's [i]-th element or null where the
    array is shorter. *)
Theorem arrays_zip_correct arrays :
  length (zip_values arrays) = list_max (map length arrays) /\
  (forall i, (i < list_max (map length arrays))%nat ->
     zip_values arrays !! i =
       Some (VObject (imap (fun j array => (zip_key j, default VNull (array !! i))) arrays))) /\
  (forall i j array, arrays !! j = Some array ->
     map_get (zip_key j) (zip_object arrays i) = Some (default VNull (array !! i))).
Proof.
  unfold zip_values. split; [by rewrite length_map, length_seq|]. split.
  - intros i Hi. rewrite list_lookup_fmap, lookup_seq_lt by done. simpl. by rewrite zip_object_fields.
  - intros i j array Hj. rewrite zip_object_fields. apply map_get_elem; [apply zip_keys_NoDup|].
    apply list_elem_of_lookup. exists j. by rewrite list_lookup_imap, Hj.
Qed.

(** ** ARRAY_FLATTEN *)

Lemma flatten_items_app ls rest :
  flatten_items (map VArray ls ++ rest) = result_map (option_map (app (List.concat ls))) (flatten_items rest).
Proof.
  induction ls as [|l ls IH]; simpl; [by destruct (flatten_items rest) as [[]|]|]. rewrite IH.
  destruct (flatten_items rest) as [[x|]|e]; simpl; try done. by rewrite app_assoc.
Qed.

(** ARRAY_FLATTEN concatenates the arrays of an array; the first item that is no array
    decides otherwise: a null makes the result null, anything else is an error. *)
Theorem flatten_inner_correct ls rest :
  flatten_inner (VArray (map VArray ls ++ rest)) =
    match rest with
    | [] => Ok (VArray (List.concat ls))
    | VNull :: _ => Ok VNull
    | VArray inner :: rest' => flatten_inner (VArray (map VArray (ls ++ [inner]) ++ rest'))
    | _ :: _ => Err (Exec "Not an array: 'Input argument to ARRAY_FLATTEN is not an array of arrays'")
    end.
Proof.
  destruct rest as [|v rest].
  - simpl. rewrite flatten_items_app. simpl. by rewrite app_nil_r.
  - destruct v as [| | | |inner|]; try (simpl; by rewrite flatten_items_app).
    by rewrite map_app, <- app_assoc.
Qed.

(** ** Columns and scalars *)

(** The functions of one array. *)
Definition row_functions `{Serde, Kernels} : list (list ColumnarValue -> res ColumnarValue) :=
  [array_compact; array_distinct; array_max; array_min; array_reverse; array_sort].

Lemma on_strings_rows f other rows out :
  on_strings (string_column rows) f other = Ok out ->
  exists outs, out = string_column outs /\ length outs = length rows /\
    forall i, match rows !! i with
      | Some (Some s) => exists o, outs !! i = Some o /\ on_strings (string_scalar (Some s)) f other = Ok (string_scalar o)
      | Some None => outs !! i = Some None
      | None => True
      end.
Proof.
  simpl. intros H%result_bind_Ok. destruct H as (outs & Hrows & [= <-]). exists outs.
  split; [done|]. split; [by eapply over_rows_length|]. intros i.
  destruct (rows !! i) as [[s|]|] eqn:Ei; [| |done].
  - destruct (over_rows_lookup _ _ _ _ _ Hrows Ei) as (o & Ho & Hf). exists o. by rewrite Hf.
  - apply over_rows_Ok in Hrows. destruct (Forall2_lookup_l _ _ _ _ _ Hrows Ei) as (o & Ho & ->). done.
Qed.

(** On a column, these functions compute each row as they compute the scalar of that row, and
    a null row stays null: the result has the column's length and row [i] depends on row [i] only. *)
Theorem column_rows_are_scalars `{Serde, Kernels} f rows rest out :
  f ∈ row_functions -> f (string_column rows :: rest) = Ok out ->
  exists outs, out = string_column outs /\ length outs = length rows /\
    forall i, match rows !! i with
      | Some (Some s) => exists o, outs !! i = Some o /\ f (string_scalar (Some s) :: rest) = Ok (string_scalar o)
      | Some None => outs !! i = Some None
      | None => True
      end.
Proof.
  intros Hf. unfold row_functions in Hf.
  repeat (apply elem_of_cons in Hf as [->|Hf]; [apply on_strings_rows|]). by apply elem_of_nil in Hf.
Qed.

(** ARRAYS_TO_OBJECT on columns builds every row from the whole columns: all rows with a key are
    the same object. *)
Theorem arrays_to_object_mixes_rows `{Serde} keys values outs i j k k' :
  arrays_to_object [string_column keys; string_column values] = Ok (string_column outs) ->
  keys !! i = Some (Some k) -> keys !! j = Some (Some k') ->
  outs !! i = outs !! j /\ outs !! i = Some (create_object keys (map column_value values)).
Proof.
  intros E Hi Hj. unfold arrays_to_object, string_column in E. simpl in E.
  apply result_bind_Ok in E as (outs' & Ht & [= <-]). apply traverse_Ok in Ht.
  assert (forall n k, keys !! n = Some (Some k) -> outs' !! n = Some (create_object keys (map column_value values))) as Hn.
  { intros n kn Hk. assert (seq 0 (length keys) !! n = Some n) as Hs.
    { apply lookup_seq. apply lookup_lt_Some in Hk. lia. }
    destruct (Forall2_lookup_l _ _ _ _ _ Ht Hs) as (o & Ho & Hf). rewrite Hk in Hf. by injection Hf as <-. }
  by rewrite (Hn i k Hi), (Hn j k' Hj).
Qed.

(** ** ARRAY_TO_STRING *)

(** The longest string that joining a value may parse. *)
Definition string_weight (v : Value) : nat := match v with VString s => String.length s | _ => 0%nat end.

Definition text_weight (v : Value) : nat :=
  match v with VArray l => list_max (map string_weight l) | _ => string_weight v end.

(** A parsed string is longer than every string in it: it has two quotes around each. *)
Class SerdeLaws `{Serde} : Prop := {
  from_str_shorter : forall s v, from_str s = Some v -> (text_weight v < String.length s)%nat
}.

(** Strings, which may hold an array, need one step less than arrays. *)
Definition join_fuel (v : Value) : nat :=
  match v with VArray _ => 2 * text_weight v + 2 | _ => 2 * text_weight v + 1 end%nat.

Lemma join_fuel_bound v : (join_fuel v <= 2 * text_weight v + 2)%nat.
Proof. destruct v; unfold join_fuel; lia. Qed.

Lemma traverse_total {E A B} (f : A -> result E B) l : (forall x, x ∈ l -> exists y, f x = Ok y) -> exists k, traverse f l = Ok k.
Proof.
  induction l as [|x l IH]; intros H; simpl; [eauto|].
  destruct (H x) as [y ->]; [apply elem_of_cons; by left|]. simpl.
  destruct IH as [k ->]; [intros z Hz; apply H; apply elem_of_cons; by right|]. simpl. eauto.
Qed.

Lemma join_value_total `{SerdeLaws} fuel v sep : (join_fuel v <= fuel)%nat -> exists t, join_value fuel v sep = Ok t.
Proof.
  revert v. induction fuel as [|fuel IH]; intros v Hv; [destruct v; simpl in Hv; lia|].
  destruct v as [| | |s|l|]; cbn [join_value]; eauto.
  - destruct (from_str s) as [json|] eqn:E; [|simpl; eauto].
    pose proof (from_str_shorter s json E) as Hlt. pose proof (join_fuel_bound json) as Hb. simpl in Hv.
    destruct (IH json ltac:(lia)) as [t ->]. simpl. eauto.
  - destruct (traverse_total (fun av => match av with
      | VArray _ | VObject _ => Ok (to_string av) | _ => join_value fuel av sep end) l) as [k ->]; [|simpl; eauto].
    intros x Hx. pose proof (list_max_elem string_weight l x Hx) as Hm. simpl in Hv.
    destruct x as [| | |s| |]; eauto; apply IH; simpl in *; lia.
Qed.

Lemma traverse_mono {E A B} (f g : A -> result E B) l k :
  (forall x y, f x = Ok y -> g x = Ok y) -> traverse f l = Ok k -> traverse g l = Ok k.
Proof. rewrite !traverse_Ok. intros Hfg H. eapply Forall2_impl; [exact H|]. auto. Qed.

(** More fuel changes nothing. *)
Lemma join_value_more `{Serde} fuel fuel' v sep t :
  (fuel <= fuel')%nat -> join_value fuel v sep = Ok t -> join_value fuel' v sep = Ok t.
Proof.
  revert fuel' v t. induction fuel as [|fuel IH]; intros fuel' v t Hf; [done|].
  destruct fuel' as [|fuel']; [lia|]. cbn [join_value].
  intros (parts & Hp & Ht)%result_bind_Ok. apply result_bind_Ok. exists parts.
  split; [|done]. destruct v as [| | |s|l|]; try done.
  - destruct (from_str s) as [json|]; [|done]. destruct (join_value fuel json sep) as [x|] eqn:E; [|done].
    by rewrite (IH fuel' json x ltac:(lia) E).
  - eapply traverse_mono; [|exact Hp]. intros x y Hx. destruct x; try done; (apply IH; [lia|done]).
Qed.

(** ARRAY_TO_STRING terminates: its conversion parses strings inside strings again and again,
    but each one is shorter than the text it came from, so that it always returns, within twice as
    many steps as the longest string has characters. *)
Theorem array_to_string_terminates `{SerdeLaws} v sep :
  exists t, forall fuel, (2 * text_weight v + 2 <= fuel)%nat -> join_value fuel v sep = Ok t.
Proof.
  pose proof (join_fuel_bound v) as Hb.
  destruct (join_value_total (2 * text_weight v + 2) v sep Hb) as [t Ht]. exists t.
  intros fuel Hf. by apply (join_value_more (2 * text_weight v + 2)).
Qed.

(** ** Witnesses *)

Import ArrowExample SerdeExample.

(** A parser of decimal numbers only. *)
Definition digits_serde : Serde := {|
  from_str s := option_map (fun z => VNumber (number_from z)) (parse_i64 s);
  to_string := print;
  to_string_pretty := print |}.

Lemma digits_laws : @SerdeLaws digits_serde.
Proof. split. intros [|c s] v; [done|]. simpl. destruct (parse_i64 _); [|done]. intros [= <-]. simpl. lia. Qed.

Lemma array_to_string_terminates_witness :
  exists t, forall fuel, (6 <= fuel)%nat ->
    @join_value digits_serde fuel (VArray [VString "12"; VNull]) "," = Ok t.
Proof.
  apply (@array_to_string_terminates digits_serde digits_laws (VArray [VString "12"; VNull]) ",").
Defined.

Lemma array_distinct_correct_witness :
  exists kept, distinct_array "[1,2,1,null,null]" = Ok (Some (to_string (VArray kept))) /\
    kept `sublist_of` [VNumber (PosInt 1); VNumber (PosInt 2); VNumber (PosInt 1); VNull; VNull] /\ all_distinct kept /\
    (forall v, v ∈ [VNumber (PosInt 1); VNumber (PosInt 2); VNumber (PosInt 1); VNull; VNull] ->
       exists w, w ∈ kept /\ value_eqb w v = true).
Proof.
  apply (array_distinct_correct "[1,2,1,null,null]"); [vm_compute; reflexivity|done|repeat constructor].
Defined.

Lemma array_position_contains_witness :
  contains_value (VNumber (PosInt 2)) (Some "[1,2]") =
    Ok (Some (match array_position_of (VNumber (PosInt 2)) (VArray [VNumber (PosInt 1); VNumber (PosInt 2)]) with Some _ => true | None => false end)) /\
  (forall i, array_position_of (VNumber (PosInt 2)) (VArray [VNumber (PosInt 1); VNumber (PosInt 2)]) = Some i ->
    exists x, [VNumber (PosInt 1); VNumber (PosInt 2)] !! Z.to_nat i = Some x /\ value_eqb x (VNumber (PosInt 2)) = true /\
      Forall (fun y => value_eqb y (VNumber (PosInt 2)) = false) (take (Z.to_nat i) [VNumber (PosInt 1); VNumber (PosInt 2)])).
Proof.
  apply (array_position_contains "[1,2]" [VNumber (PosInt 1); VNumber (PosInt 2)]); [vm_compute; reflexivity|done].
Defined.

Lemma array_sort_correct_witness :
  exists sorted,
    (let? v := parse "[20,null,0]" FailedToDeserializeJson in sort_array v true false) = Ok (Some (to_string (VArray sorted))) /\
    sorted ≡ₚ [VNumber (PosInt 20); VNull; VNumber (PosInt 0)] /\
    StronglySorted (cmp_le (sort_cmp true)) (map null_to_none sorted) /\
    (forall p, (forall a b, p a = true -> p b = true -> sort_cmp true a b = Eq) ->
       List.filter p (map null_to_none sorted) =
       List.filter p (map null_to_none [VNumber (PosInt 20); VNull; VNumber (PosInt 0)])).
Proof.
  apply (array_sort_correct "[20,null,0]" [VNumber (PosInt 20); VNull; VNumber (PosInt 0)] true false);
    [vm_compute; reflexivity|repeat constructor].
Defined.

Example array_sort_example :
  array_sort [string_scalar (Some "[20,null,0,10]"); Scalar (SBoolean (Some false))] = Ok (string_scalar (Some "[null,20,10,0]")).
Proof. vm_compute. reflexivity. Qed.

Lemma array_max_min_of_integers_witness :
  (exists m, find_max "[null,3,9,2]" = Ok (Some (int_to_string m)) /\
     m ∈ ints_of [VNull; VNumber (PosInt 3); VNumber (PosInt 9); VNumber (PosInt 2)] /\
     Forall (fun z => z <= m) (ints_of [VNull; VNumber (PosInt 3); VNumber (PosInt 9); VNumber (PosInt 2)])) /\
  (exists m, find_min "[null,3,9,2]" = Ok (Some (int_to_string m)) /\
     m ∈ ints_of [VNull; VNumber (PosInt 3); VNumber (PosInt 9); VNumber (PosInt 2)] /\
     Forall (fun z => m <= z) (ints_of [VNull; VNumber (PosInt 3); VNumber (PosInt 9); VNumber (PosInt 2)])).
Proof.
  apply (array_max_min_of_integers "[null,3,9,2]" [VNull] (PosInt 3) 3 [VNumber (PosInt 9); VNumber (PosInt 2)]);
    [vm_compute; reflexivity|by repeat constructor|done|].
  change (Forall (fun z => in_i64 z = true) [3; 9; 2]). repeat (apply Forall_cons; split; [reflexivity|]). by apply Forall_nil.
Defined.

Lemma generate_range_row_witness :
  (3 = 0 -> range_step_by 0 10 (as_usize 3) = panic) /\
  (0 < 3 -> exists l, range_step_by 0 10 (as_usize 3) = Ok l /\
     (forall k, l !! k = if 0 + Z.of_nat k * 3 <? 10 then Some (0 + Z.of_nat k * 3) else None)) /\
  (i64_min < 3 < 0 -> 0 <= 0 -> range_step_by 0 10 (as_usize 3) = Ok (if 0 <? 10 then [0] else [])).
Proof. by apply (generate_range_row 0 10 3). Defined.

Lemma column_rows_are_scalars_witness :
  exists outs, string_column [Some "[2,1]"] = string_column outs /\ length outs = 1%nat /\
    forall i, match [Some "[1,2]"] !! i with
      | Some (Some s) => exists o, outs !! i = Some o /\ array_reverse [string_scalar (Some s)] = Ok (string_scalar o)
      | Some None => outs !! i = Some None
      | None => True
      end.
Proof.
  apply (column_rows_are_scalars array_reverse [Some "[1,2]"] [] (string_column [Some "[2,1]"]));
    [|vm_compute; reflexivity].
  do 4 (apply elem_of_cons; right). apply elem_of_cons. by left.
Defined.

Definition example_object : option string :=
  Some (to_string (VObject [("a", VNumber (PosInt 1)); ("b", VNumber (PosInt 2))])).

Lemma arrays_to_object_mixes_rows_witness :
  [example_object; example_object] !! 0%nat = [example_object; example_object] !! 1%nat /\
  [example_object; example_object] !! 0%nat = Some (create_object [Some "a"; Some "b"] (map column_value [Some "1"; Some "2"])).
Proof.
  apply (arrays_to_object_mixes_rows [Some "a"; Some "b"] [Some "1"; Some "2"] [example_object; example_object] 0 1 "a" "b");
    [vm_compute; reflexivity|done|done].
Defined.
