(* ===== verification/ObjectFunctions.v ===== *)
(** * Objects, paths and types of JSON values

    [functions/src/semi-structured]: OBJECT_CONSTRUCT, OBJECT_DELETE, OBJECT_INSERT, OBJECT_KEYS,
    OBJECT_PICK, IS_OBJECT, GET, GET_PATH, PARSE_JSON, TYPEOF, the IS_... predicates, AS_ARRAY and the
    element of a variant, each with its [invoke_with_args]. *)

From Stdlib Require Import ZArith Lia Ascii String SpecFloat.
From stdpp Require Import base option list strings.
From S2P Require Import Prelude JsonValue JsonEncode SemiStructured.

Open Scope string_scope.
Open Scope Z_scope.
Open Scope rust_scope.

#[local] Arguments String.append : simpl nomatch.

Section object_functions.
Context `{ArrowExt, Serde, Kernels}.

(** [to_array()] of a scalar argument. *)
Definition column_of (v : ColumnarValue) : res ArrayRef := into_array v 1.

(** ** OBJECT_CONSTRUCT *)

(** [None] leaves the field out ([continue]). *)
Definition construct_value (keep_null : bool) (value_array : ArrayRef) (i : nat) : res (option Value) :=
  if is_null value_array i then Ok (Some VNull)
  else match value_array with
       | AUtf8 Utf8 rows =>
           match rows !! i with
           | Some (Some istr) => Ok (Some (match from_str istr with Some json => json | None => VString istr end))
           | _ => panic
           end
       | AInt Int64 rows =>
           match rows !! i with Some (Some z) => Ok (Some (VNumber (number_from z))) | _ => panic end
       | AFloat Float64 rows =>
           match rows !! i with
           | Some (Some f) =>
               match number_from_f64 f with
               | Some n => Ok (Some (VNumber n))
               | None => fail ObjectConstructValueMustBeANumber
               end
           | _ => panic
           end
       | ABoolean rows => match rows !! i with Some (Some b) => Ok (Some (VBool b)) | _ => panic end
       | ANull _ => if keep_null then Ok (Some VNull) else Ok None
       | _ => fail ObjectConstructValueMustBeAStringNumberOrBoolean
       end.

Definition construct_key (key_array : ArrayRef) (i : nat) : res string :=
  if is_null key_array i then fail ObjectConstructKeyCannotBeNull
  else match key_array with
       | AUtf8 Utf8 rows => match rows !! i with Some (Some s) => Ok s | _ => panic end
       | _ => fail ObjectConstructKeyMustBeAString
       end.

(** The rows of one pair of arguments, inserted into the object so far. *)
Fixpoint construct_rows (keep_null : bool) (key_array value_array : ArrayRef) (rows : list nat) (object : Map) : res Map :=
  match rows with
  | [] => Ok object
  | i :: rows =>
      let? key := construct_key key_array i in
      let? value := construct_value keep_null value_array i in
      construct_rows keep_null key_array value_array rows
        (match value with Some v => map_insert key v object | None => object end)
  end.

(** [args.chunks(2)] *)
Fixpoint construct_pairs (keep_null : bool) (args : list ColumnarValue) (number_rows : nat) (object : Map) : res Map :=
  match args with
  | k :: v :: args =>
      let? key_array := into_array k number_rows in
      let? value_array := into_array v number_rows in
      let? object := construct_rows keep_null key_array value_array (seq 0 (len key_array)) object in
      construct_pairs keep_null args number_rows object
  | _ => Ok object
  end.

Definition object_construct (keep_null : bool) (args : list ColumnarValue) (number_rows : nat) : res ColumnarValue :=
  match args with
  | [] => Ok (string_scalar (Some "{}"))
  | _ =>
      if negb (Nat.even (length args)) then fail ObjectConstructRequiresEvenNumberOfArguments
      else
        let? object := construct_pairs keep_null args number_rows [] in
        Ok (string_scalar (Some (to_string (VObject object))))
  end.

(** ** OBJECT_DELETE *)

Definition delete_from (obj : Map) (keys : list Value) : Map :=
  foldl (fun obj key => match key with VString k => map_remove k obj | _ => obj end) obj keys.

Definition delete_keys (object_value : Value) (keys : list Value) : res (option string) :=
  match object_value with
  | VObject obj => Ok (Some (to_string (VObject (delete_from obj keys))))
  | _ => fail (ArgumentMustBeJsonArray "First")
  end.

(** A column of objects or a scalar; any other scalar is null. *)
Definition on_objects (v : ColumnarValue) (f : Value -> res (option string)) : res ColumnarValue :=
  match v with
  | Array array =>
      let? string_array := as_string array in
      let? results := over_rows (fun s => let? object_json := parse s FailedToDeserializeJson in f object_json) string_array in
      Ok (string_column results)
  | Scalar (SUtf8 Utf8 (Some object_str)) =>
      let? object_json := parse object_str FailedToDeserializeJson in
      let? result := f object_json in
      Ok (string_scalar result)
  | Scalar _ => Ok (string_scalar None)
  end.

Definition delete_key_arg (a : ColumnarValue) : res Value :=
  match a with
  | Scalar value => if scalar_is_null value then Ok VNull else first_element value
  | Array _ => fail KeyArgumentsMustBeScalarValues
  end.

Definition object_delete (args : list ColumnarValue) : res ColumnarValue :=
  let? object_str := arg args 0 (ExpectedNamedArgument "object") in
  let? keys := traverse delete_key_arg (tail args) in
  on_objects object_str (fun v => delete_keys v keys).

(** ** OBJECT_INSERT *)

Definition insert_key_value (object_value key value : Value) (update_flag : bool) : res (option string) :=
  match object_value with
  | VObject obj =>
      match key with
      | VString key_str =>
          if map_contains_key key_str obj && negb update_flag then fail (KeyAlreadyExistsAndUpdateFlagIsFalse key_str)
          else Ok (Some (to_string (VObject (map_insert key_str value obj))))
      | _ => fail KeyMustBeAString
      end
  | _ => fail (ArgumentMustBeJsonObject "First")
  end.

(** The JSON of a scalar argument; a null ends the call with null ([None]). *)
Definition scalar_json (a : ColumnarValue) (name : string) : res (option Value) :=
  match a with
  | Scalar value => if scalar_is_null value then Ok None else result_map Some (first_element value)
  | Array _ => fail (ArgumentMustBeAScalarValue name)
  end.

Definition update_flag_arg (args : list ColumnarValue) : res bool :=
  match args !! 3%nat with
  | None => Ok false
  | Some (Scalar (SBoolean (Some b))) => Ok b
  | Some _ => fail UpdateFlagMustBeABoolean
  end.

Definition object_insert (args : list ColumnarValue) : res ColumnarValue :=
  let? object_str := arg args 0 (ExpectedNamedArgument "object") in
  let? key_arg := arg args 1 (ExpectedNamedArgument "key") in
  let? value_arg := arg args 2 (ExpectedNamedArgument "value") in
  let? update_flag := update_flag_arg args in
  let? key_json := scalar_json key_arg "Key" in
  match key_json with
  | None => Ok (string_scalar None)
  | Some key_json =>
      let? value_json := scalar_json value_arg "Value" in
      match value_json with
      | None => Ok (string_scalar None)
      | Some value_json => on_objects object_str (fun v => insert_key_value v key_json value_json update_flag)
      end
  end.

(** ** OBJECT_KEYS and IS_OBJECT *)

Definition object_keys_of (s : string) : res (option string) :=
  let? json := parse s FailedToDeserializeJson in
  match json with
  | VObject map => Ok (Some (to_string (VArray (List.map VString (keys_of map)))))
  | _ => fail InputMustBeJsonObject
  end.

Definition object_keys (args : list ColumnarValue) : res ColumnarValue :=
  let? a := arg_index args 0 in
  let? arr := column_of a in
  let? arr := as_string arr in
  let? rows := over_rows object_keys_of arr in
  Ok (strings_or_scalar rows).

Definition is_object_value (v : Value) : bool := match v with VObject _ => true | _ => false end.

Definition is_object (args : list ColumnarValue) : res ColumnarValue :=
  let? a := arg_index args 0 in
  let? arr := column_of a in
  let? input := as_string arr in
  Ok (booleans_or_scalar (List.map (option_map (fun v =>
    match from_str v with Some v => is_object_value v | None => false end)) input)).

(** ** OBJECT_PICK *)

Definition pick_from (obj : Map) (keys : list string) : Map :=
  foldl (fun new_obj key => match map_get key obj with Some value => map_insert key value new_obj | None => new_obj end) [] keys.

Definition pick_keys (object_value : Value) (keys : list string) : res (option string) :=
  match object_value with
  | VObject obj => Ok (Some (to_string (VObject (pick_from obj keys))))
  | _ => fail (ArgumentMustBeJsonObject "First")
  end.

(** Two arguments: a JSON array of keys or one key; more: one key each. *)
Definition pick_keys_arg (args : list ColumnarValue) : list string :=
  if (length args =? 2)%nat then
    match args !! 1%nat with
    | Some (Scalar (SUtf8 Utf8 (Some array_str))) =>
        match from_str array_str with
        | Some (VArray json_array) => omap (fun v => match v with VString key => Some key | _ => None end) json_array
        | _ => [array_str]
        end
    | _ => []
    end
  else omap (fun a => match a with Scalar (SUtf8 Utf8 (Some key)) => Some key | _ => None end) (tail args).

Definition object_pick (args : list ColumnarValue) : res ColumnarValue :=
  let? object_str := arg args 0 (ExpectedNamedArgument "object") in
  let keys := pick_keys_arg args in
  on_objects object_str (fun v => pick_keys v keys).

(** ** GET and GET_IGNORE_CASE *)

(** [eq_ignore_ascii_case] *)
Definition eq_ignore_ascii_case (a b : string) : bool := String.eqb (to_ascii_lowercase a) (to_ascii_lowercase b).

Fixpoint find_ignore_case (key : string) (m : Map) : option Value :=
  match m with
  | [] => None
  | (k, v) :: m => if eq_ignore_ascii_case k key then Some v else find_ignore_case key m
  end.

Definition get_field (ignore_case : bool) (key : string) (v : Value) : option Value :=
  match v with
  | VObject map => if ignore_case then find_ignore_case key map else map_get key map
  | _ => None
  end.

(** [as_usize] of an [i64] wraps a negative index. *)
Definition get_element (key : Z) (v : Value) : option Value :=
  match v with VArray arr => arr !! Z.to_nat (key mod 18446744073709551616) | _ => None end.

Definition get_row (ignore_case : bool) (path : ScalarValue) (input : string) : res (option string) :=
  if scalar_is_null path then Ok None
  else
    let? json_input := parse input FailedToDeserializeJson in
    match path with
    | SUtf8 Utf8 (Some key) => Ok (option_map to_string (get_field ignore_case key json_input))
    | SInt Int64 (Some key) => Ok (option_map to_string (get_element key json_input))
    | _ => Err (Exec "get function requires the second argument to be a scalar string or integer")
    end.

Definition get (ignore_case : bool) (args : list ColumnarValue) : res ColumnarValue :=
  let? a := arg_index args 0 in
  let? arr := match a with
    | Array arr => Ok arr
    | Scalar v => let? v := of_arrow (cast_scalar_utf8 v) in of_arrow (to_array_of_size v 1)
    end in
  let? p := arg_index args 1 in
  match p with
  | Scalar path =>
      let? arr := as_string arr in
      let? rows := over_rows (get_row ignore_case path) arr in
      Ok (strings_or_scalar rows)
  | Array _ => Err (Exec "function requires the second argument to be a scalar")
  end.

(** ** GET_PATH *)

Definition get_path_row (path v : string) : option string :=
  match from_str v with
  | Some json_value =>
      option_map to_string_pretty (match tokenize_path path with Some t => get_json_value json_value t | None => None end)
  | None => None
  end.

Definition path_error {A} : res A :=
  Err (Exec "get_path function requires the second argument to be a scalar string").

Definition get_path (args : list ColumnarValue) : res ColumnarValue :=
  let? a := arg_index args 0 in
  let? arr := column_of a in
  let? p := arg_index args 1 in
  match p with
  | Scalar path_scalar =>
      let? path := of_arrow (cast_scalar_utf8 path_scalar) in
      match path with
      | SUtf8 Utf8 (Some path) =>
          let? arr := of_arrow (cast_utf8 arr) in
          let? input := as_string arr in
          Ok (strings_or_scalar (List.map (fun v => match v with Some v => get_path_row path v | None => None end) input))
      | _ => path_error
      end
  | Array _ => path_error
  end.

(** ** PARSE_JSON and TRY_PARSE_JSON *)

(** [str::replace]: the occurrences from left to right, not overlapping; [skip] counts the characters
    of an occurrence still to drop. *)
Fixpoint str_replace (pat rep : string) (skip : nat) (s : string) : string :=
  match s with
  | EmptyString => EmptyString
  | String c s' =>
      match skip with
      | S skip => str_replace pat rep skip s'
      | O =>
          if String.prefix pat s then rep ++ str_replace pat rep (String.length pat - 1) s'
          else String c (str_replace pat rep 0 s')
      end
  end.

(** Missing elements become nulls, in three passes over the text. *)
Definition fill_missing (v : string) : string :=
  let v := str_replace ",," ",null," 0 v in
  let v := str_replace ",]" ",null]" 0 v in
  str_replace "[," "[null," 0 v.

Definition parse_json_row (try_mode : bool) (v : string) : res (option string) :=
  match from_str (fill_missing v) with
  | Some VNull => Ok None
  | Some v => Ok (Some (to_string v))
  | None => if try_mode then Ok None else fail FailedToDeserializeJson
  end.

Definition parse_json (try_mode : bool) (args : list ColumnarValue) : res ColumnarValue :=
  let? a := arg_index args 0 in
  let? arr := column_of a in
  let? casted := of_arrow (cast_utf8 arr) in
  let? input := as_string casted in
  let? rows := over_rows (parse_json_row try_mode) input in
  Ok (strings_or_scalar rows).

(** ** TYPEOF *)

Definition number_is_i64 (n : Number) : bool :=
  match n with PosInt z => z <=? i64_max | NegInt _ => true | Float _ => false end.

Definition typeof_value (v : option Value) : string :=
  match v with
  | Some VNull => "NULL_VALUE"
  | Some (VBool _) => "BOOLEAN"
  | Some (VNumber n) => if number_is_i64 n then "INTEGER" else match n with Float _ => "DOUBLE" | _ => "NUMBER" end
  | Some (VString _) => "VARCHAR"
  | Some (VArray _) => "ARRAY"
  | Some (VObject _) => "OBJECT"
  | None => "VARCHAR"
  end.

Definition append_all {A} (len : nat) (v : A) : list (option A) := replicate len (Some v).

Definition typeof_rows (arr : ArrayRef) : res (list (option string)) :=
  match data_type arr with
  | TInt _ => Ok (append_all (len arr) "INTEGER")
  | TFloat _ => Ok (append_all (len arr) "DOUBLE")
  | TBoolean => Ok (append_all (len arr) "BOOLEAN")
  | TDecimal Decimal128 _ _ | TDecimal256 _ _ => Ok (append_all (len arr) "DECIMAL")
  | t =>
      if is_nested t then Ok (append_all (len arr) "ARRAY")
      else
        let? arr := of_arrow (cast_utf8 arr) in
        let? input := as_string arr in
        Ok (List.map (option_map (fun v => typeof_value (from_str (to_ascii_lowercase v)))) input)
  end.

Definition typeof (args : list ColumnarValue) : res ColumnarValue :=
  let? a := arg_index args 0 in
  let? arr := column_of a in
  let? rows := typeof_rows arr in
  Ok (if (len arr =? 1)%nat then match rows with r :: _ => string_scalar r | [] => string_column rows end
      else string_column rows).

(** ** The predicates on types *)

Inductive Kind := KNull | KBoolean | KDouble | KDecimal | KReal | KInteger | KString | KArray | KObject.

#[global] Instance Kind_eq_dec : EqDecision Kind.
Proof. solve_decision. Defined.

Definition is_kind (kind : Kind) (v : Value) : bool :=
  match kind with
  | KNull => match v with VNull => true | _ => false end
  | KBoolean => match v with VBool _ => true | _ => false end
  | KDouble | KReal | KDecimal => match v with VNumber _ => true | _ => false end
  | KInteger => match v with VNumber n => number_is_i64 n | _ => false end
  | KString => match v with VString _ => true | _ => false end
  | KArray => match v with VArray _ => true | _ => false end
  | KObject => is_object_value v
  end.

Definition is_typeof_row (kind : Kind) (v : string) : res (option bool) :=
  match from_str v with
  | Some v => Ok (Some (is_kind kind v))
  | None => Err (Exec "Failed to parse JSON string")
  end.

Definition is_typeof_rows (kind : Kind) (arr : ArrayRef) : res (list (option bool)) :=
  match data_type arr with
  | TBoolean => Ok (append_all (len arr) (bool_decide (kind = KBoolean)))
  | TInt _ =>
      if bool_decide (kind = KDecimal) && casts_to_decimal arr
      then Ok (append_all (len arr) (bool_decide (kind = KDecimal)))
      else Ok (append_all (len arr) (bool_decide (kind = KInteger)))
  | TFloat _ => Ok (append_all (len arr) (bool_decide (kind = KDouble \/ kind = KReal)))
  | t =>
      if is_nested t then Ok (append_all (len arr) (bool_decide (kind = KArray)))
      else match t with
           | TDecimal Decimal128 _ _ | TDecimal256 _ _ => Ok (append_all (len arr) (bool_decide (kind = KDecimal)))
           | _ =>
               let? array := of_arrow (cast_utf8 arr) in
               match array with
               | AUtf8 Utf8 input => over_rows (is_typeof_row kind) input
               | _ => fail ExpectedUtf8StringForArray
               end
           end
  end.

Definition is_typeof (kind : Kind) (args : list ColumnarValue) (number_rows : nat) : res ColumnarValue :=
  let? a := arg_index args 0 in
  let? arr := into_array a number_rows in
  let? rows := is_typeof_rows kind arr in
  Ok (Array (ABoolean rows)).

(** ** AS_ARRAY, AS_OBJECT *)

Definition as_func (args : list ColumnarValue) : res ColumnarValue :=
  let? a := arg_index args 0 in
  let? arr := column_of a in
  let rows := match arr with AUtf8 Utf8 rows => rows | _ => replicate (len arr) None end in
  Ok (strings_or_scalar rows).

(** ** The element of a variant *)

Definition variant_row (flatten : bool) (json_str json_path : string) : option string :=
  match select_as json_str json_path with
  | None => None
  | Some [] => None
  | Some (v :: values) =>
      if flatten then
        match v with
        | VNull => None
        | VString s => Some s
        | other => Some (to_string other)
        end
      else Some (to_string (VArray (v :: values)))
  end.

Definition variant_element (args : list ColumnarValue) (number_rows : nat) : res ColumnarValue :=
  match args with
  | array :: index :: ([] | [_]) =>
      let? array := into_array array number_rows in
      let? index := into_array index number_rows in
      let flatten := match args !! 2%nat with Some (Scalar (SBoolean (Some b))) => b | _ => false end in
      let? array := of_arrow (cast_utf8 array) in
      let? arr := as_string array in
      let? index := of_arrow (cast_utf8 index) in
      let? path_arr := as_string index in
      let? rows := traverse (fun i =>
        match arr !! i with
        | Some (Some json_str) =>
            match path_arr !! i with
            | Some (Some json_path) => Ok (variant_row flatten json_str json_path)
            | Some None => Ok None
            | None => panic
            end
        | _ => Ok None
        end) (seq 0 (length arr)) in
      Ok (string_column rows)
  | _ => fail InvalidNumberOfArguments
  end.

End object_functions.

(** ** Objects *)

Lemma map_remove_get_eq k m : NoDup (keys_of m) -> map_get k (map_remove k m) = None.
Proof.
  intros Hnd. apply map_get_None. unfold keys_of. rewrite (map_remove_Permutation k m Hnd).
  intros Hk. apply list_elem_of_fmap in Hk as ([k' v] & -> & Hin). apply list_elem_of_filter in Hin as [Hne _]. done.
Qed.

Lemma map_remove_NoDup k m : NoDup (keys_of m) -> NoDup (keys_of (map_remove k m)).
Proof.
  intros Hnd. unfold keys_of. rewrite (map_remove_Permutation k m Hnd).
  eapply sublist_NoDup; [exact Hnd|]. unfold keys_of. apply (fmap_sublist fst), sublist_filter.
Qed.

Lemma map_remove_get_ne k k' m : NoDup (keys_of m) -> k' <> k -> map_get k' (map_remove k m) = map_get k' m.
Proof.
  intros Hnd Hne. destruct (map_get k' m) as [v|] eqn:E.
  - apply map_get_elem; [by apply map_remove_NoDup|]. rewrite (map_remove_Permutation k m Hnd).
    apply list_elem_of_filter. split; [done|]. by apply map_get_Some.
  - apply map_get_None. apply map_get_None in E. intros Hk. apply E.
    unfold keys_of in Hk. rewrite (map_remove_Permutation k m Hnd) in Hk.
    apply list_elem_of_fmap in Hk as ([k1 v] & -> & Hin). apply list_elem_of_filter in Hin as [_ Hin].
    by apply (list_elem_of_fmap_2 fst) in Hin.
Qed.

(** A key named by one of the arguments. *)
Definition names_key (keys : list Value) (k : string) : bool :=
  existsb (fun v => match v with VString s => String.eqb s k | _ => false end) keys.

Lemma delete_from_spec obj keys : NoDup (keys_of obj) ->
  NoDup (keys_of (delete_from obj keys)) /\
  forall k, map_get k (delete_from obj keys) = if names_key keys k then None else map_get k obj.
Proof.
  revert obj. induction keys as [|v keys IH]; intros obj Hnd; [done|]. cbn [delete_from foldl].
  destruct v as [| | |s| |]; try (by apply IH). fold (delete_from (map_remove s obj) keys).
  destruct (IH (map_remove s obj) (map_remove_NoDup s obj Hnd)) as [H1 H2]. split; [done|].
  intros k. rewrite H2. simpl. destruct (String.eqb_spec s k) as [->|Hne]; simpl.
  - destruct (names_key keys k); [done|]. by apply map_remove_get_eq.
  - destruct (names_key keys k); [done|]. by apply map_remove_get_ne.
Qed.

Lemma pick_from_spec obj keys k :
  map_get k (pick_from obj keys) = if existsb (String.eqb k) keys then map_get k obj else None.
Proof.
  unfold pick_from.
  enough (forall m, map_get k (foldl (fun new_obj key => match map_get key obj with Some value => map_insert key value new_obj | None => new_obj end) m keys)
    = if existsb (String.eqb k) keys then (match map_get k obj with Some v => Some v | None => map_get k m end) else map_get k m) as H.
  { rewrite H. simpl. destruct (existsb _ keys); [|done]. by destruct (map_get k obj). }
  induction keys as [|key keys IH]; intros m; [done|]. cbn [foldl existsb]. rewrite IH.
  destruct (String.eqb_spec k key) as [->|Hne]; simpl.
  - destruct (map_get key obj) as [v|] eqn:E; [|by destruct (existsb _ keys)].
    destruct (existsb _ keys); [done|]. apply map_get_insert_eq.
  - destruct (map_get key obj) as [v|]; [|done]. by rewrite map_get_insert_ne by done.
Qed.

(** OBJECT_INSERT, OBJECT_DELETE and OBJECT_PICK do to an object what they say: the key inserted
    has the new value and every other key its old one; deleted keys are gone and the others keep
    their values; exactly the keys picked remain.  Inserting a key that exists without the update
    flag is an error. *)
Theorem object_functions_correct `{Serde} obj key value update keys picks :
  NoDup (keys_of obj) ->
  (exists r, insert_key_value (VObject obj) (VString key) value update = r /\
     if map_contains_key key obj && negb update then r = fail (KeyAlreadyExistsAndUpdateFlagIsFalse key)
     else exists obj', r = Ok (Some (to_string (VObject obj'))) /\
       forall k, map_get k obj' = if String.eqb k key then Some value else map_get k obj) /\
  (exists obj', delete_keys (VObject obj) keys = Ok (Some (to_string (VObject obj'))) /\
     forall k, map_get k obj' = if names_key keys k then None else map_get k obj) /\
  (exists obj', pick_keys (VObject obj) picks = Ok (Some (to_string (VObject obj'))) /\
     forall k, map_get k obj' = if existsb (String.eqb k) picks then map_get k obj else None).
Proof.
  intros Hnd. split; [|split].
  - eexists. split; [done|]. simpl. destruct (map_contains_key key obj && negb update); [done|].
    exists (map_insert key value obj). split; [done|]. intros k.
    destruct (String.eqb_spec k key) as [->|Hne]; [apply map_get_insert_eq|]. by apply map_get_insert_ne.
  - exists (delete_from obj keys). split; [done|]. by apply delete_from_spec.
  - exists (pick_from obj picks). split; [done|]. intros k. apply pick_from_spec.
Qed.

(** *** OBJECT_CONSTRUCT *)

Lemma construct_rows_keep_null `{Serde} k a rows obj b1 b2 :
  (forall n, a <> ANull n) -> construct_rows b1 k a rows obj = construct_rows b2 k a rows obj.
Proof.
  intros Ha. revert obj. induction rows as [|i rows IH]; intros obj; simpl; [done|].
  destruct (construct_key k i); simpl; [|done].
  replace (construct_value b1 a i) with (construct_value b2 a i).
  - destruct (construct_value b2 a i); simpl; [|done]. apply IH.
  - unfold construct_value. destruct a; try done. by destruct (Ha len).
Qed.

(** The value arguments whose array has the type Null. *)
Fixpoint untyped_nulls `{ArrowExt} (args : list ColumnarValue) (number_rows : nat) : bool :=
  match args with
  | _ :: v :: args =>
      match into_array v number_rows with Ok (ANull _) => true | _ => false end || untyped_nulls args number_rows
  | _ => false
  end.

Lemma construct_pairs_keep_null `{ArrowExt, Serde} args number_rows obj b1 b2 :
  untyped_nulls args number_rows = false ->
  construct_pairs b1 args number_rows obj = construct_pairs b2 args number_rows obj.
Proof.
  enough (forall n args obj, (length args <= n)%nat -> untyped_nulls args number_rows = false ->
    construct_pairs b1 args number_rows obj = construct_pairs b2 args number_rows obj) as Hn by (by eapply Hn).
  clear args obj. induction n as [|n IH]; intros [|k [|v args]] obj Hl Hu; simpl in *; try done; [lia|].
  apply orb_false_iff in Hu as [Hv Hu].
  destruct (into_array k number_rows) as [ka|]; simpl; [|done].
  destruct (into_array v number_rows) as [va|]; simpl; [|done].
  rewrite (construct_rows_keep_null ka va _ obj b1 b2) by (by intros m ->).
  destruct (construct_rows b2 ka va _ obj); simpl; [|done]. apply IH; [lia|done].
Qed.

(** OBJECT_CONSTRUCT leaves out nulls only where the argument's type is Null: with typed values
    it returns the same object as OBJECT_CONSTRUCT_KEEP_NULL, nulls included. *)
Theorem object_construct_keeps_typed_nulls `{ArrowExt, Serde} args number_rows :
  untyped_nulls args number_rows = false ->
  object_construct false args number_rows = object_construct true args number_rows.
Proof.
  intros Hu. unfold object_construct. destruct args as [|a args]; [done|].
  destruct (negb _); [done|]. by rewrite (construct_pairs_keep_null (a :: args) number_rows [] false true Hu).
Qed.

(** ** Paths and types *)

(** GET_PATH follows a printed path: for every path whose keys can be spelled, the result is the
    value [get_json_value] finds in the parsed document, and null when there is none. *)
Theorem get_path_follows `{Serde} p s v :
  Forall (fun t => printable t = true) p -> from_str s = Some v ->
  get_path_row (print_path p) s = option_map to_string_pretty (get_json_value v p).
Proof. intros Hp Hs. unfold get_path_row. rewrite Hs. by rewrite tokenize_path_print. Qed.

(** *** PARSE_JSON *)

(** The text [pat] occurs in [s]. *)
Fixpoint occurs (pat s : string) : bool :=
  String.prefix pat s || match s with EmptyString => false | String _ s => occurs pat s end.

Lemma str_replace_absent pat rep s : occurs pat s = false -> str_replace pat rep 0 s = s.
Proof.
  induction s as [|c s IH]; intros Ho; [done|]. cbn [occurs] in Ho. apply orb_false_iff in Ho as [Hp Ho].
  cbn [str_replace]. rewrite Hp. by rewrite IH.
Qed.

(** PARSE_JSON of a text without missing elements returns the parsed value printed again, null
    for a JSON null, and an error, or null in the try variant, when the text is not JSON. *)
Theorem parse_json_regular `{Serde} try_mode s :
  occurs ",," s = false -> occurs ",]" s = false -> occurs "[," s = false ->
  parse_json_row try_mode s =
    match from_str s with
    | Some VNull => Ok None
    | Some v => Ok (Some (to_string v))
    | None => if try_mode then Ok None else fail FailedToDeserializeJson
    end.
Proof.
  intros H1 H2 H3. unfold parse_json_row, fill_missing.
  rewrite (str_replace_absent ",,"), (str_replace_absent ",]"), (str_replace_absent "[,") by done. done.
Qed.

Definition lacks (c : ascii) (s : string) : bool := str_all (fun d => negb (Ascii.eqb d c)) s.

Lemma lacks_cons c d s : lacks c (String d s) = true <-> d <> c /\ lacks c s = true.
Proof. unfold lacks. simpl. rewrite andb_true_iff, negb_true_iff, Ascii.eqb_neq. done. Qed.

Lemma lacks_app c a b : lacks c (a ++ b) = lacks c a && lacks c b.
Proof. unfold lacks. induction a as [|x a IH]; [done|]. simpl. rewrite IH. apply andb_assoc. Qed.

(** A text without one of its characters has no occurrence of a pattern. *)
Lemma lacks_first a pat s : lacks a s = true -> occurs (String a pat) s = false.
Proof.
  induction s as [|c s IH]; [done|]. intros [Hc Hs]%lacks_cons. cbn [occurs]. rewrite IH by done.
  simpl. destruct (ascii_dec a c); [congruence|done].
Qed.

Lemma lacks_second a b s : lacks b s = true -> occurs (String a (String b "")) s = false.
Proof.
  induction s as [|c s IH]; [done|]. intros [Hc Hs]%lacks_cons. cbn [occurs]. rewrite IH by done. rewrite orb_false_r.
  simpl. destruct (ascii_dec a c); [|done]. destruct s as [|d s]; [done|]. apply lacks_cons in Hs as [Hd _].
  simpl. destruct (ascii_dec b d); [congruence|done].
Qed.

Lemma prefix_nil s : String.prefix "" s = true.
Proof. by destruct s. Qed.

(** The text before the first occurrence is copied. *)
Lemma str_replace_prefix a pat rep x s :
  lacks a x = true -> str_replace (String a pat) rep 0 (x ++ s) = (x ++ str_replace (String a pat) rep 0 s)%string.
Proof.
  induction x as [|c x IH]; [done|]. intros [Hc Hx]%lacks_cons.
  change (String c x ++ s)%string with (String c (x ++ s)). cbn [str_replace String.prefix].
  destruct (ascii_dec a c); [congruence|]. rewrite IH by done. done.
Qed.

(** PARSE_JSON changes the contents of strings: two commas inside a string come back with a null
    between them. *)
Theorem parse_json_rewrites_strings `{Serde} try_mode x y :
  let text := String quote (x ++ (",null," ++ (y ++ String quote ""))) in
  lacks "," x = true -> lacks "," y = true -> lacks "[" x = true -> lacks "[" y = true ->
  lacks "]" x = true -> lacks "]" y = true ->
  from_str text = Some (VString (x ++ (",null," ++ y))) ->
  parse_json_row try_mode (String quote (x ++ (",," ++ (y ++ String quote "")))) =
    Ok (Some (to_string (VString (x ++ (",null," ++ y))))).
Proof.
  intros text Hx Hy Hx1 Hy1 Hx2 Hy2 Hs. unfold parse_json_row.
  assert (fill_missing (String quote (x ++ (",," ++ (y ++ String quote "")))) = text) as ->; [|by rewrite Hs].
  unfold fill_missing.
  assert (str_replace ",," ",null," 0 (String quote (x ++ (",," ++ (y ++ String quote "")))) = text) as ->.
  { change (String quote (x ++ (",," ++ (y ++ String quote "")))) with (String quote x ++ (",," ++ (y ++ String quote "")))%string.
    rewrite str_replace_prefix by (by apply lacks_cons). unfold text.
    change (String quote (x ++ (",null," ++ (y ++ String quote "")))) with (String quote x ++ (",null," ++ (y ++ String quote "")))%string.
    f_equal. cbn [str_replace append String.prefix]. simpl. rewrite prefix_nil. do 6 f_equal. apply str_replace_absent.
    apply lacks_first. rewrite lacks_app, Hy. done. }
  assert (forall c, lacks c x = true -> lacks c y = true -> lacks c (String quote (",null," ++ String quote "")) = true ->
    lacks c text = true) as Hl.
  { intros c H1 H2 H3. unfold text. apply lacks_cons in H3 as [Hq H3]. apply lacks_cons. split; [done|].
    rewrite !lacks_app in *. rewrite H1, H2. by apply andb_true_iff in H3 as [-> ->]. }
  rewrite (str_replace_absent ",]"); [|by apply lacks_second, Hl].
  apply str_replace_absent. by apply lacks_first, Hl.
Qed.

(** ** Witnesses *)

Import ArrowExample SerdeExample.

Lemma object_functions_correct_witness :
  (exists r, insert_key_value (VObject [("a", VNull)]) (VString "b") (VBool true) false = r /\
     if map_contains_key "b" [("a", VNull)] && negb false then r = fail (KeyAlreadyExistsAndUpdateFlagIsFalse "b")
     else exists obj', r = Ok (Some (to_string (VObject obj'))) /\
       forall k, map_get k obj' = if String.eqb k "b" then Some (VBool true) else map_get k [("a", VNull)]) /\
  (exists obj', delete_keys (VObject [("a", VNull)]) [VString "a"] = Ok (Some (to_string (VObject obj'))) /\
     forall k, map_get k obj' = if names_key [VString "a"] k then None else map_get k [("a", VNull)]) /\
  (exists obj', pick_keys (VObject [("a", VNull)]) ["a"; "c"] = Ok (Some (to_string (VObject obj'))) /\
     forall k, map_get k obj' = if existsb (String.eqb k) ["a"; "c"] then map_get k [("a", VNull)] else None).
Proof. apply (object_functions_correct [("a", VNull)] "b" (VBool true) false [VString "a"] ["a"; "c"]). apply NoDup_singleton. Defined.

(** A null of the type VARCHAR is kept by both. *)
Lemma object_construct_keeps_typed_nulls_witness :
  object_construct false [string_scalar (Some "a"); string_scalar None] 1 =
  object_construct true [string_scalar (Some "a"); string_scalar None] 1.
Proof. by apply (object_construct_keeps_typed_nulls [string_scalar (Some "a"); string_scalar None] 1). Defined.

Lemma get_path_follows_witness :
  get_path_row (print_path [Key "a"; Index 1]) (print (VObject [("a", VArray [VNull; VBool true])])) =
    option_map to_string_pretty (get_json_value (VObject [("a", VArray [VNull; VBool true])]) [Key "a"; Index 1]).
Proof.
  apply (get_path_follows [Key "a"; Index 1] _ (VObject [("a", VArray [VNull; VBool true])]));
    [repeat constructor|vm_compute; reflexivity].
Defined.

Lemma parse_json_regular_witness :
  parse_json_row false "[1,2]" = match from_str "[1,2]" with
    | Some VNull => Ok None
    | Some v => Ok (Some (to_string v))
    | None => fail FailedToDeserializeJson
    end.
Proof. by apply (parse_json_regular false "[1,2]"). Defined.

Lemma parse_json_rewrites_strings_witness :
  parse_json_row false (String quote ("a" ++ (",," ++ ("b" ++ String quote "")))) =
    Ok (Some (to_string (VString "a,null,b"))).
Proof. by apply (parse_json_rewrites_strings false "a" "b"). Defined.
