(* ===== verification/StringFunctions.v ===== *)
(** * The string and binary functions

    [functions/src/string-binary]: SUBSTR with its constant folding and its coercion of types, INSERT,
    SPLIT, STRTOK, STRTOK_TO_ARRAY ([semi-structured/array]), HEX_ENCODE, HEX_DECODE_STRING and
    HEX_DECODE_BINARY, LENGTH, RTRIMMED_LENGTH, LOWER and REPLACE, each with its
    [invoke_with_args].

    Parameters ([StrExt]): DataFusion's conversion of arguments to arrays and its text of a scalar,
    Arrow's casts, the [hex] crate, and Unicode lower-casing. *)

From Stdlib Require Import ZArith Lia Ascii String SpecFloat.
From Stdlib.Strings Require Import Byte.
From stdpp Require Import base option list strings.
From S2P Require Import Prelude Utf8 JsonValue JsonEncode.

Open Scope string_scope.
Open Scope Z_scope.
Open Scope rust_scope.

(** [string_binary::errors::Error]; the text of a cast's error, and the fields that only describe
    the type an error complains about, are left out. *)
Inductive StrError :=
| ExpectedUtf8String
| ExpectedUtf8StringForNamedArray (name : string)
| FailedToCastToUtf8
| LowerExpectsOneArgument (count : nat)
| InvalidArgumentCount (function_name expected : string) (actual : nat)
| InvalidArgumentType (function_name position expected_type : string)
| FailedToDowncast (array_type : string)
| UnsupportedDataType (function_name : string) (data_type : DataType)
| NegativeSubstringLength (function_name : string) (start length : Z)
| NotEnoughArguments (function_call : string) (expected actual : nat)
| TooManyArguments (function_call : string) (expected actual : nat)
| NonValidASCIIString
| IllegalHexValue (value : string)
| NumericValueNotRecognized (value : string)
| InvalidParameterValue (value : Z) (reason : string)
| ArrayLengthMismatch
| NonConstantArgument (function_name : string) (position : nat)
| ParseIpFailed (reason : string).

Inductive str_failure :=
| StrFail (e : StrError)
| StrExec (message : string)
| StrHalt (s : stop).

Notation sres A := (result str_failure A).

Definition sfail {A} (e : StrError) : sres A := Err (StrFail e).
Definition sexec {A} (message : string) : sres A := Err (StrExec message).
Definition spanic {A} : sres A := Err (StrHalt Panic).

Definition of_df {A} (r : result ArrowError A) : sres A :=
  match r with Ok a => Ok a | Err e => Err (StrHalt (Raise e)) end.

(** The code outside the repository. *)
Class StrExt := {
  values_to_arrays : list ColumnarValue -> result ArrowError (list ArrayRef);
  scalar_display : ScalarValue -> string;
  float_display : FloatKind -> f64 -> string;
  cast_to_utf8 : ArrayRef -> result ArrowError ArrayRef;
  cast_to_utf8_view : ArrayRef -> result ArrowError ArrayRef;
  cast_to_int64 : ArrayRef -> result ArrowError ArrayRef;
  to_lowercase : string -> string;
  hex_encode_lower : list byte -> string;
  hex_encode_upper : list byte -> string;
  hex_decode : string -> option (list byte)
}.

Section string_functions.
Context `{ArrowExt, StrExt}.

(** [args[i]] *)
Definition str_arg (args : list ColumnarValue) (i : nat) : sres ColumnarValue := ok_or (args !! i) (StrHalt Panic).

(** A column, or the scalar as an array of one row ([to_array]). *)
Definition resolve_arg (v : ColumnarValue) : sres ArrayRef :=
  match v with Array a => Ok a | Scalar s => of_df (to_array_of_size s 1) end.

(** [as_int64_array] and [as_string_array] of DataFusion: an error on another type. *)
Definition downcast_error {A} : sres A := of_df (Err (OtherError "could not cast")).

Definition as_int64_array (a : ArrayRef) : sres (list (option Z)) :=
  match a with AInt Int64 rows => Ok rows | _ => downcast_error end.

Definition as_string_array (a : ArrayRef) : sres (list (option string)) :=
  match a with AUtf8 Utf8 rows => Ok rows | _ => downcast_error end.

Definition as_binary_array (a : ArrayRef) : sres (list (option (list byte))) :=
  match a with ABinary Binary rows => Ok rows | _ => downcast_error end.

(** ** SUBSTR *)

(** [compute_substr_string] on characters and [compute_substr_binary] on bytes: positions count from
    one, a negative start from the end, a start of zero is the first. *)
Definition compute_substr {A} (input : list A) (start : Z) (len : option Z) : list A :=
  match input with
  | [] => []
  | _ =>
      let count := Z.min (Z.of_nat (length input)) i64_max in
      let actual_start := match start ?= 0 with Lt => count + start + 1 | Eq => 1 | Gt => start end in
      if (actual_start <=? 0) || (count <? actual_start) then []
      else
        let start_idx := actual_start - 1 in
        let slice end_idx :=
          if Z.of_nat (length input) <=? start_idx then []
          else take (Z.to_nat (end_idx - start_idx)) (drop (Z.to_nat start_idx) input) in
        match len with
        | Some len =>
            if len =? 0 then []
            else slice (Z.min (Z.min (start_idx + len) u64_max) (Z.of_nat (length input)))
        | None => slice (Z.of_nat (length input))
        end
  end.

Definition compute_substr_string (input : string) (start : Z) (len : option Z) : string :=
  of_chars (compute_substr (chars input) start len).

Definition compute_substr_binary (input : list byte) (start : Z) (len : option Z) : list byte :=
  compute_substr input start len.

(** The text of a row; null rows are handled before. *)
Definition row_text {A} (rows : list (option A)) (i : nat) (f : A -> string) : sres string :=
  match rows !! i with Some (Some v) => Ok (f v) | Some None => Ok "" | None => spanic end.

Definition extract_string_value (base_array : ArrayRef) (i : nat) : sres string :=
  match base_array with
  | AUtf8 Utf8 rows => row_text rows i id
  | AUtf8 LargeUtf8 rows => row_text rows i id
  | AUtf8 Utf8View rows => row_text rows i id
  | _ => spanic
  end.

Definition extract_numeric_string_value (base_array : ArrayRef) (i : nat) : sres string :=
  match base_array with
  | AInt _ rows => row_text rows i int_to_string
  | AFloat Float32 rows => row_text rows i (float_display Float32)
  | AFloat Float64 rows => row_text rows i (float_display Float64)
  | _ => spanic
  end.

(** [unreachable!()] on the other types. *)
Definition extract_value (base_array : ArrayRef) (i : nat) : sres string :=
  match data_type base_array with
  | TUtf8 _ => extract_string_value base_array i
  | TInt _ | TFloat Float32 | TFloat Float64 => extract_numeric_string_value base_array i
  | _ => spanic
  end.

(** [array.is_null(i)] panics out of range, [value(i)] too. *)
Definition int_at (rows : list (option Z)) (i : nat) : sres (option Z) := ok_or (rows !! i) (StrHalt Panic).

(** The start and length of a row: [None] when the row is null. *)
Definition substr_bounds (base_null : bool) (start_array : list (option Z)) (length_array : option (list (option Z))) (i : nat)
    : sres (option (Z * option Z)) :=
  if base_null then Ok None
  else
    let? start := int_at start_array i in
    match start with
    | None => Ok None
    | Some start_val =>
        match length_array with
        | None => Ok (Some (start_val, None))
        | Some length_arr =>
            let? len := int_at length_arr i in
            match len with None => Ok None | Some length_val => Ok (Some (start_val, Some length_val)) end
        end
    end.

Definition check_length (start_val : Z) (length_val : option Z) : sres (option Z) :=
  match length_val with
  | Some l => if l <? 0 then sfail (NegativeSubstringLength "substr" start_val l) else Ok (Some l)
  | None => Ok None
  end.

Definition process_string_row (base_array : ArrayRef) (start_array : list (option Z)) (length_array : option (list (option Z))) (i : nat)
    : sres (option string) :=
  let? bounds := substr_bounds (is_null base_array i) start_array length_array i in
  match bounds with
  | None => Ok None
  | Some (start_val, length_val) =>
      let? string_val := extract_value base_array i in
      let? length_val := check_length start_val length_val in
      Ok (Some (compute_substr_string string_val start_val length_val))
  end.

Definition process_string_arrays (base_array : ArrayRef) (start_array : list (option Z)) (length_array : option (list (option Z)))
    : sres ArrayRef :=
  result_map (AUtf8 Utf8) (traverse (process_string_row base_array start_array length_array) (seq 0 (len base_array))).

Definition process_binary_row (rows : list (option (list byte))) (base_null : bool) (start_array : list (option Z))
    (length_array : option (list (option Z))) (i : nat) : sres (option (list byte)) :=
  let? bounds := substr_bounds base_null start_array length_array i in
  match bounds with
  | None => Ok None
  | Some (start_val, length_val) =>
      let? binary_val := match rows !! i with Some (Some v) => Ok v | Some None => Ok [] | None => spanic end in
      let? length_val := check_length start_val length_val in
      Ok (Some (compute_substr_binary binary_val start_val length_val))
  end.

Definition process_binary_arrays (base_array : ArrayRef) (start_array : list (option Z)) (length_array : option (list (option Z)))
    : sres ArrayRef :=
  match base_array with
  | ABinary Binary rows | ABinary LargeBinary rows =>
      result_map (ABinary Binary)
        (traverse (fun i => process_binary_row rows (is_null base_array i) start_array length_array i) (seq 0 (len base_array)))
  | _ => spanic
  end.

Definition process_large_binary_arrays (base_array : ArrayRef) (start_array : list (option Z)) (length_array : option (list (option Z)))
    : sres ArrayRef :=
  match base_array with
  | ABinary LargeBinary rows =>
      result_map (ABinary LargeBinary)
        (traverse (fun i => process_binary_row rows (is_null base_array i) start_array length_array i) (seq 0 (len base_array)))
  | _ => spanic
  end.

Definition substr (base_array start_array : ArrayRef) (length_array : option ArrayRef) : sres ArrayRef :=
  let? start_array := as_int64_array start_array in
  let? length_array := match length_array with
    | Some arr => result_map Some (as_int64_array arr)
    | None => Ok None
    end in
  match data_type base_array with
  | TUtf8 _ | TInt _ | TFloat Float32 | TFloat Float64 | TDecimal Decimal128 _ _ =>
      process_string_arrays base_array start_array length_array
  | TBinary Binary => process_binary_arrays base_array start_array length_array
  | TBinary LargeBinary => process_large_binary_arrays base_array start_array length_array
  | other => sfail (UnsupportedDataType "substr" other)
  end.

Definition substr_invoke (args : list ColumnarValue) : sres ColumnarValue :=
  let n := length args in
  if (n <? 2)%nat then sfail (NotEnoughArguments "substr" 2 n)
  else if (3 <? n)%nat then sfail (TooManyArguments "substr" 3 n)
  else
    let? arrays := of_df (values_to_arrays args) in
    match arrays with
    | [base_array; start_array] => result_map Array (substr base_array start_array None)
    | [base_array; start_array; length_array] => result_map Array (substr base_array start_array (Some length_array))
    | _ => spanic
    end.

(** *** Constant folding *)

(** An argument of a call: a literal, or another expression. *)
Inductive Expr := Literal (s : ScalarValue) | OtherExpr (name : string).

(** [ExprSimplifyResult] *)
Inductive simplified := Simplified (s : ScalarValue) | Original (args : list Expr).

Fixpoint scalar_null (s : ScalarValue) : bool :=
  match s with
  | SNull | SBoolean None | SInt _ None | SFloat _ None | SUtf8 _ None | SBinary _ None
  | STemporal _ None | SDecimal _ _ _ None => true
  | SDictionary _ v => scalar_null v
  | _ => false
  end.

(** [u64::try_from(l).ok()] *)
Definition nonnegative (l : option Z) : option Z :=
  match l with Some l => if l <? 0 then None else Some l | None => None end.

Definition substr_simplify (args : list Expr) : simplified :=
  match args with
  | Literal string_scalar :: Literal start_scalar :: rest =>
      if (length args <=? 3)%nat then
        if scalar_null string_scalar || scalar_null start_scalar then Simplified SNull
        else
          match parse_i64 (scalar_display start_scalar) with
          | Some start_val =>
              let compute len := Simplified (SUtf8 Utf8View (Some (compute_substr_string (scalar_display string_scalar) start_val (nonnegative len)))) in
              match rest with
              | Literal length_scalar :: _ =>
                  if scalar_null length_scalar then Simplified SNull
                  else compute (parse_i64 (scalar_display length_scalar))
              | OtherExpr _ :: _ => compute None
              | [] => compute None
              end
          | None => Original args
          end
      else Original args
  | _ => Original args
  end.

(** *** Coercion *)

Definition is_string_coercible (t : DataType) : bool :=
  match t with
  | TNull | TUtf8 _ | TInt _ | TFloat Float32 | TFloat Float64 | TDecimal Decimal128 _ _ => true
  | _ => false
  end.

Definition is_binary_type (t : DataType) : bool :=
  match t with TBinary Binary | TBinary LargeBinary => true | _ => false end.

Definition coerce_string_type (t : DataType) : DataType :=
  match t with TUtf8 _ => t | _ => TUtf8 Utf8 end.

Definition coerce_binary_type (t : DataType) : DataType :=
  match t with TBinary Binary | TBinary LargeBinary => t | _ => TBinary Binary end.

Definition position_name (idx : nat) : string :=
  match idx with 0%nat => "first" | 1%nat => "second" | 2%nat => "third" | _ => "unknown" end.

Definition coerce_first (t : DataType) : sres DataType :=
  let other :=
    if is_string_coercible t then Ok (coerce_string_type t)
    else if is_binary_type t then Ok (coerce_binary_type t)
    else sfail (InvalidArgumentType "substr" (position_name 0) "a string or binary coercible type") in
  match t with
  | TDictionary _ value_type => if is_string_coercible value_type then Ok (coerce_string_type value_type) else other
  | _ => other
  end.

Definition integer_or_null (t : DataType) : bool := match t with TInt _ | TNull => true | _ => false end.

Definition substr_coerce_types (arg_types : list DataType) : sres (list DataType) :=
  let n := length arg_types in
  if (n <? 2)%nat then sfail (NotEnoughArguments "substr" 2 n)
  else if (3 <? n)%nat then sfail (TooManyArguments "substr" 3 n)
  else match arg_types with
       | t0 :: t1 :: rest =>
           let? first_data_type := coerce_first t0 in
           if negb (integer_or_null t1) then sfail (InvalidArgumentType "substr" (position_name 1) "an integer")
           else match rest with
                | [] => Ok [first_data_type; TInt Int64]
                | t2 :: _ =>
                    if negb (integer_or_null t2) then sfail (InvalidArgumentType "substr" (position_name 2) "an integer")
                    else Ok [first_data_type; TInt Int64; TInt Int64]
                end
       | _ => spanic
       end.

(** ** INSERT *)

(** The bounds are checked against the length in bytes, the positions count characters. *)
Definition insert_string (base : string) (pos n : Z) (insert : string) : sres string :=
  let base_len := Z.of_nat (String.length base) in
  if (pos <? 1) || (base_len + 1 <? pos) then
    sexec "Valid values for position are between 1 and one more than length of string"
  else if (n <? 0) || (base_len - pos + 1 <? n) then
    sexec "Valid values for length range from 0 to the number of characters from position to end of string"
  else
    let chs := chars base in
    let left_part := of_chars (take (Z.to_nat (pos - 1)) chs) in
    let right_part := of_chars (drop (Z.to_nat n) (drop (Z.to_nat (pos - 1)) chs)) in
    Ok (left_part ++ insert ++ right_part).

Definition insert_binary (base : list byte) (pos n : Z) (insert : list byte) : sres (list byte) :=
  let base_len := Z.of_nat (length base) in
  if (pos <? 1) || (base_len + 1 <? pos) then
    sexec "Valid values for position are between 1 and one more than length of binary"
  else if (n <? 0) || (base_len - pos + 1 <? n) then
    sexec "Valid values for length range from 0 to the number of bytes from position to end of binary"
  else
    let pos := Z.to_nat (pos - 1) in
    Ok (take pos base ++ insert ++ drop (pos + Z.to_nat n) base)%list.

(** [izip!] of four columns: as many rows as the shortest has. *)
Fixpoint izip4 {A B C D} (a : list A) (b : list B) (c : list C) (d : list D) : list (A * B * C * D) :=
  match a, b, c, d with
  | a :: l, b :: m, c :: n, d :: o => (a, b, c, d) :: izip4 l m n o
  | _, _, _, _ => []
  end.

Definition insert_rows {A} (f : A -> Z -> Z -> A -> sres A) (rows : list (option A * option Z * option Z * option A)) : sres (list (option A)) :=
  traverse (fun '(base, pos, n, insert) =>
    match base, pos, n, insert with
    | Some base, Some pos, Some n, Some insert => result_map Some (f base pos n insert)
    | _, _, _, _ => Ok None
    end) rows.

Definition insert_invoke (args : list ColumnarValue) : sres ColumnarValue :=
  let? a0 := str_arg args 0 in let? base_arr := resolve_arg a0 in
  let? a1 := str_arg args 1 in let? pos_arr := resolve_arg a1 in
  let? a2 := str_arg args 2 in let? len_arr := resolve_arg a2 in
  let? a3 := str_arg args 3 in let? insert_arr := resolve_arg a3 in
  match data_type base_arr with
  | TUtf8 Utf8 =>
      let? base_strs := as_string_array base_arr in
      let? pos_i64s := as_int64_array pos_arr in
      let? len_i64s := as_int64_array len_arr in
      let? insert_strs := as_string_array insert_arr in
      let? rows := insert_rows insert_string (izip4 base_strs pos_i64s len_i64s insert_strs) in
      Ok (Array (AUtf8 Utf8 rows))
  | TBinary Binary =>
      let? base_bin := as_binary_array base_arr in
      let? pos_i64s := as_int64_array pos_arr in
      let? len_i64s := as_int64_array len_arr in
      let? insert_bin := as_binary_array insert_arr in
      let? rows := insert_rows insert_binary (izip4 base_bin pos_i64s len_i64s insert_bin) in
      Ok (Array (ABinary Binary rows))
  | _ => sexec "Invalid datatype"
  end.

(** ** SPLIT *)

(** The rows of a string array of any kind. *)
Definition any_strings (a : ArrayRef) : option (list (option string)) :=
  match a with AUtf8 _ rows => Some rows | _ => None end.

(** The item type follows the first argument: 64-bit offsets for [LargeUtf8]. *)
Definition split_item (a : ArrayRef) : Utf8Kind := match a with AUtf8 LargeUtf8 _ => LargeUtf8 | _ => Utf8 end.

Definition split_impl (item : Utf8Kind) (string_array delimiter_array : list (option string)) : ArrayRef :=
  AList List_ (TUtf8 item)
    (map (fun row => match row with
       | (Some str, Some delimiter) => Some (AUtf8 item (map Some (split str delimiter)))
       | _ => None
       end) (zip string_array delimiter_array)).

Fixpoint first_array_len (args : list ColumnarValue) : option nat :=
  match args with
  | [] => None
  | Array a :: _ => Some (len a)
  | Scalar _ :: args => first_array_len args
  end.

(** Of constants the answer is the scalar of the first row; a null list is the null scalar. *)
Definition split_invoke (args : list ColumnarValue) : sres ColumnarValue :=
  let n := first_array_len args in
  let inferred_length := default 1%nat n in
  let? arrays := traverse (fun a => match a with
    | Scalar s => of_df (to_array_of_size s inferred_length)
    | Array a => Ok a
    end) args in
  match arrays with
  | a0 :: a1 :: _ =>
      match any_strings a0, any_strings a1 with
      | Some strs, Some delims =>
          let result := split_impl (split_item a0) strs delims in
          match n with
          | Some _ => Ok (Array result)
          | None =>
              match result with
              | AList _ _ (Some row :: _) => Ok (Scalar (SArray row))
              | AList _ _ (None :: _) => Ok (Scalar SNull)
              | _ => spanic
              end
          end
      | _, _ => sexec "split function only supports Utf8View, Utf8, and LargeUtf8 data types"
      end
  | _ => spanic
  end.

(** ** STRTOK and STRTOK_TO_ARRAY *)

(** The loop over [char_indices]: [cur] is the text since the last delimiter; empty tokens are
    dropped. *)
Fixpoint tokens (delimiter_set : list string) (cur : string) (cs : list string) : list string :=
  match cs with
  | [] => if String.eqb cur "" then [] else [cur]
  | ch :: cs =>
      if existsb (String.eqb ch) delimiter_set then
        if String.eqb cur "" then tokens delimiter_set "" cs else cur :: tokens delimiter_set "" cs
      else tokens delimiter_set (cur ++ ch) cs
  end.

Definition strtok_tokens (string delimiter : string) : list String.string := tokens (chars delimiter) "" (chars string).

(** [usize::try_from(part_nr).unwrap()] panics on a negative number. *)
Definition strtok_part (string delimiter : string) (part_nr : Z) : sres (option String.string) :=
  if part_nr <? 0 then spanic
  else if part_nr <? 1 then sexec "partNr cannot be less than 1"
  else
    let toks := strtok_tokens string delimiter in
    if Z.of_nat (length toks) <? part_nr then Ok None else Ok (toks !! Z.to_nat (part_nr - 1)).

(** Row [i] of the three columns; a column that is too short panics. *)
Definition process_split_row (strs delms : list (option string)) (part_nrs : list (option Z)) (i : nat) : sres (option string) :=
  match strs !! i with
  | Some (Some string) =>
      let? d := ok_or (delms !! i) (StrHalt Panic) in
      match d with
      | None => Ok None
      | Some delimiter =>
          let? p := ok_or (part_nrs !! i) (StrHalt Panic) in
          match p with None => Ok None | Some part_nr => strtok_part string delimiter part_nr end
      end
  | _ => Ok None
  end.

Definition process_split (strs delms : list (option string)) (part_nrs : list (option Z)) : sres (list (option string)) :=
  traverse (process_split_row strs delms part_nrs) (seq 0 (length strs)).

(** [Utf8LikeArray::try_from_array] *)
Definition try_from_array (a : ArrayRef) : sres (list (option string)) :=
  match a with AUtf8 _ rows => Ok rows | _ => sexec "Expected Utf8, Utf8View, or LargeUtf8" end.

Definition is_large (a : ArrayRef) : bool := match a with AUtf8 LargeUtf8 _ => true | _ => false end.

(** Without a third argument the part number is an unsigned one. *)
Definition strtok_invoke (args : list ColumnarValue) : sres ColumnarValue :=
  let? a0 := str_arg args 0 in
  let? first_arg := resolve_arg a0 in
  let? second_arg := match args with
    | [_] => of_df (to_array_of_size (SUtf8 Utf8 (Some " ")) 1)
    | _ => let? a1 := str_arg args 1 in resolve_arg a1
    end in
  let? third_arg := match args with
    | [_] | [_; _] => of_df (to_array_of_size (SInt UInt64 (Some 1)) 1)
    | _ => let? a2 := str_arg args 2 in resolve_arg a2
    end in
  let? strs := try_from_array first_arg in
  let? delms := try_from_array second_arg in
  let? part_nrs := as_int64_array third_arg in
  let? rows := process_split strs delms part_nrs in
  Ok (Array (AUtf8 (if is_large first_arg || is_large second_arg then LargeUtf8 else Utf8) rows)).

Definition is_json_null (s : string) : bool :=
  let t := to_lowercase (trim s) in String.eqb t "null" || String.eqb t "[ null ]".

(** Where either text is a JSON null the list is null. *)
Definition strtok_array_row (row : option string * option string) : option ArrayRef :=
  match row with
  | (Some string, Some delimiter) =>
      if is_json_null string || is_json_null delimiter then None
      else Some (AUtf8 Utf8 (map Some (strtok_tokens string delimiter)))
  | _ => None
  end.

Definition strtok_to_array (args : list ColumnarValue) : sres ColumnarValue :=
  let? a0 := str_arg args 0 in
  let? lhs := resolve_arg a0 in
  let? rhs := match args with
    | [_; a1] => resolve_arg a1
    | _ => of_df (to_array_of_size (SUtf8 Utf8 (Some " ")) 1)
    end in
  let? strs := as_string_array lhs in
  let? delms := as_string_array rhs in
  Ok (Array (AList List_ (TUtf8 Utf8) (map strtok_array_row (zip strs delms)))).

(** ** HEX_ENCODE and HEX_DECODE *)

Definition is_ascii (s : string) : bool := str_all (fun c => (nat_of_ascii c <? 128)%nat) s.

(** Upper case for 1; any other number, or null, is lower case. *)
Definition encode_to_hex (data : list byte) (uc : option Z) : sres string :=
  let hex_string := match uc with
    | Some v => if v =? 1 then hex_encode_upper data else hex_encode_lower data
    | None => hex_encode_lower data
    end in
  if is_ascii hex_string then Ok hex_string else sfail NonValidASCIIString.

Definition encode_binary_to_hex (binaries : list (option (list byte))) (use_uppercase : list (option Z)) : sres (list (option string)) :=
  traverse (fun '(opt_binary, uc) =>
    match opt_binary with
    | Some binary => result_map Some (encode_to_hex binary uc)
    | None => Ok None
    end) (zip binaries use_uppercase).

Definition encode_strings_to_hex (strings : list (option string)) (use_uppercase : list (option Z)) : sres (list (option string)) :=
  traverse (fun '(opt_str, uc) =>
    match opt_str with
    | Some s => result_map Some (encode_to_hex (as_bytes s) uc)
    | None => Ok None
    end) (zip strings use_uppercase).

Definition hex_encode_invoke (args : list ColumnarValue) : sres ColumnarValue :=
  match args with
  | input :: ([] | [_]) =>
      let? input_array := resolve_arg input in
      let? case_array := match args with
        | [_; c] => resolve_arg c
        | _ => of_df (to_array_of_size (SInt Int64 (Some 1)) (len input_array))
        end in
      let? case_array := of_df (cast_to_int64 case_array) in
      let? case_array := as_int64_array case_array in
      match input_array with
      | AUtf8 _ rows => let? r := encode_strings_to_hex rows case_array in Ok (Array (AUtf8 Utf8 r))
      | ABinary Binary rows | ABinary LargeBinary rows | ABinary BinaryView rows =>
          let? r := encode_binary_to_hex rows case_array in Ok (Array (AUtf8 Utf8 r))
      | ANull n => let? a := of_df (to_array_of_size (SUtf8 Utf8 None) n) in Ok (Array a)
      | _ => sfail (UnsupportedDataType "hex_encode" (data_type input_array))
      end
  | _ => sfail (InvalidArgumentCount "hex_encode" "1-2" (length args))
  end.

(** Both decoders accept only bytes that are UTF-8. *)
Definition decode_hex (try_mode : bool) (hex_str : string) : sres (option string) :=
  let illegal := if try_mode then Ok None else sfail (IllegalHexValue hex_str) in
  if String.eqb hex_str "" then Ok (Some "")
  else match hex_decode hex_str with
       | Some binary_data =>
           match from_utf8 binary_data with
           | Some s => Ok (Some s)
           | None => illegal
           end
       | None => illegal
       end.

Definition decode_hex_strings (try_mode : bool) (strings : list (option string)) : sres (list (option string)) :=
  traverse (fun opt_str => match opt_str with Some hex_str => decode_hex try_mode hex_str | None => Ok None end) strings.

Definition hex_decode_name (binary try_mode : bool) : string :=
  (if try_mode then "try_" else "") ++ (if binary then "hex_decode_binary" else "hex_decode_string").

Definition hex_decode_string_invoke (try_mode : bool) (args : list ColumnarValue) : sres ColumnarValue :=
  let? input := str_arg args 0 in
  let? input_array := resolve_arg input in
  match input_array with
  | AUtf8 _ rows => let? r := decode_hex_strings try_mode rows in Ok (Array (AUtf8 Utf8 r))
  | ANull n => let? a := of_df (to_array_of_size (SUtf8 Utf8 None) n) in Ok (Array a)
  | _ => sfail (UnsupportedDataType (hex_decode_name false try_mode) (data_type input_array))
  end.

Definition hex_decode_binary_invoke (try_mode : bool) (args : list ColumnarValue) : sres ColumnarValue :=
  let? input := str_arg args 0 in
  let? input_array := resolve_arg input in
  match input_array with
  | AUtf8 _ rows =>
      let? r := decode_hex_strings try_mode rows in
      Ok (Array (ABinary Binary (map (option_map as_bytes) r)))
  | ANull n => let? a := of_df (to_array_of_size (SUtf8 Utf8 None) n) in Ok (Array a)
  | _ => sfail (UnsupportedDataType (hex_decode_name true try_mode) (data_type input_array))
  end.

(** ** LENGTH and RTRIMMED_LENGTH *)

Definition char_count (s : string) : Z := Z.of_nat (length (chars s)).
Definition byte_count (s : string) : Z := Z.of_nat (String.length s).

Definition length_invoke (args : list ColumnarValue) : sres ColumnarValue :=
  let? a := str_arg args 0 in
  let? arr := resolve_arg a in
  let? rows := match arr with
    | AUtf8 _ rows => Ok (map (option_map char_count) rows)
    | ABinary Binary rows | ABinary LargeBinary rows | ABinary BinaryView rows =>
        Ok (map (option_map (fun b => Z.of_nat (List.length b))) rows)
    | AInt _ _ | AFloat _ _ | ADecimal _ _ _ _ | ADecimal256 _ _ _ =>
        let? casted := of_df (cast_to_utf8 arr) in
        let? strs := as_string_array casted in
        Ok (map (option_map byte_count) strs)
    | ANull n => Ok (replicate n None)
    | _ => sexec "Invalid datatype"
    end in
  Ok (Array (AInt UInt64 rows)).

Definition rtrimmed_length (s : string) : Z := byte_count (trim_end " " s).

Definition rtrimmed_length_invoke (args : list ColumnarValue) : sres ColumnarValue :=
  let? a := str_arg args 0 in
  let? arr := resolve_arg a in
  let? strs := as_string_array arr in
  Ok (Array (AInt UInt64 (map (option_map rtrimmed_length) strs))).

(** ** LOWER *)

(** Only [Utf8] columns are lower-cased; other types are cast to text. *)
Definition lower_invoke (args : list ColumnarValue) : sres ColumnarValue :=
  match args with
  | [a] =>
      let? array := resolve_arg a in
      match data_type array with
      | TUtf8 Utf8 | TUtf8 LargeUtf8 =>
          let? string_array := as_string_array array in
          Ok (Array (AUtf8 Utf8 (map (option_map to_lowercase) string_array)))
      | _ =>
          match cast_to_utf8 array with
          | Ok string_array => Ok (Array string_array)
          | Err _ => sfail FailedToCastToUtf8
          end
      end
  | _ => sfail (LowerExpectsOneArgument (length args))
  end.

Definition lower_simplify (args : list Expr) : simplified :=
  match args with
  | [Literal scalar] =>
      if scalar_null scalar then Simplified SNull
      else Simplified (SUtf8 Utf8 (Some (to_lowercase (scalar_display scalar))))
  | _ => Original args
  end.

(** ** REPLACE *)

Definition replace_row (row : option string * option string * option string) : option string :=
  match row with
  | (Some string, Some from, Some to) => Some (replace string from to)
  | (Some string, Some from, None) => Some (replace string from "")
  | _ => None
  end.

Definition replace_view_row (row : option string * option string * option string) : option string :=
  match row with
  | (Some string, Some from, Some to) => Some (replace string from to)
  | _ => None
  end.

Definition strings_of_kind (k : Utf8Kind) (a : ArrayRef) : sres (list (option string)) :=
  match a, k with
  | AUtf8 Utf8 rows, Utf8 | AUtf8 LargeUtf8 rows, LargeUtf8 | AUtf8 Utf8View rows, Utf8View => Ok rows
  | _, _ => downcast_error
  end.

Definition replace_columns (k : Utf8Kind) (f : option string * option string * option string -> option string) (args : list ArrayRef) : sres ColumnarValue :=
  match args with
  | a0 :: a1 :: rest =>
      let? string_array := strings_of_kind k a0 in
      let? from_array := strings_of_kind k a1 in
      let? to_array := match rest with
        | a2 :: _ => strings_of_kind k a2
        | [] => Ok (replicate (length string_array) (Some ""))
        end in
      Ok (Array (AUtf8 k (map f (zip (zip string_array from_array) to_array))))
  | _ => spanic
  end.

(** [replace::<T>] and [replace_view]: the second casts its arguments first. *)
Definition replace_invoke (return_dtype : DataType) (args : list ColumnarValue) (number_rows : nat) : sres ColumnarValue :=
  let? arrays := traverse (fun a => match a with
    | Array a => Ok a
    | Scalar s => of_df (to_array_of_size s number_rows)
    end) args in
  match return_dtype with
  | TUtf8 Utf8 => replace_columns Utf8 replace_row arrays
  | TUtf8 Utf8View =>
      let? casted := traverse (fun a => of_df (cast_to_utf8_view a)) arrays in
      replace_columns Utf8View replace_view_row casted
  | TUtf8 LargeUtf8 => replace_columns LargeUtf8 replace_row arrays
  | _ => sfail ExpectedUtf8String
  end.

End string_functions.

(** ** SUBSTR *)

Lemma is_char_take n l : Forall (fun ch => is_char ch = true) l -> Forall (fun ch => is_char ch = true) (take n l).
Proof. apply Forall_take. Qed.

(** Within the range of the machine, the window the positions name. *)
Lemma compute_substr_spec {A} (input : list A) start len :
  Z.of_nat (length input) <= i64_max -> (forall l, len = Some l -> 0 <= l) ->
  let n := Z.of_nat (length input) in
  let s := match start ?= 0 with Lt => n + start + 1 | Eq => 1 | Gt => start end in
  compute_substr input start len =
    if (1 <=? s) && (s <=? n) then
      match len with
      | Some l => take (Z.to_nat l) (drop (Z.to_nat (s - 1)) input)
      | None => drop (Z.to_nat (s - 1)) input
      end
    else [].
Proof.
  intros Hn Hl n s. unfold compute_substr.
  assert (forall B (x y : B), match input with [] => x | _ => y end = if decide (input = []) then x else y) as Hm by (by destruct input).
  rewrite Hm. destruct (decide (input = [])) as [->|_].
  { destruct ((1 <=? s) && (s <=? n)); [|done]. destruct len; by rewrite ?drop_nil, ?take_nil. }
  clear Hm. fold n. rewrite (Z.min_l n) by done. fold s.
  destruct (Z.leb_spec s 0) as [H1|H1]; simpl.
  { by rewrite (proj2 (Z.leb_gt 1 s)) by lia. }
  destruct (Z.ltb_spec n s) as [H2|H2]; simpl.
  { rewrite (proj2 (Z.leb_gt s n)) by lia. by rewrite andb_false_r. }
  rewrite (proj2 (Z.leb_le 1 s)), (proj2 (Z.leb_le s n)) by lia. simpl.
  rewrite (proj2 (Z.leb_gt n (s - 1))) by lia.
  assert (length (drop (Z.to_nat (s - 1)) input) = Z.to_nat (n - (s - 1))) as Hd by (rewrite length_drop; lia).
  destruct len as [l|].
  - specialize (Hl l eq_refl). destruct (Z.eqb_spec l 0) as [->|Hl0]; [done|].
    destruct (Z.le_gt_cases l (n - (s - 1))).
    + rewrite Z.min_l by (unfold u64_max, i64_max in *; lia). rewrite Z.min_l by (unfold u64_max, i64_max in *; lia). f_equal. lia.
    + rewrite Z.min_r by (unfold u64_max, i64_max in *; lia). rewrite !take_ge; [done|lia|lia].
  - by rewrite take_ge by lia.
Qed.

Lemma compute_substr_chars s start len : starts_char s = true ->
  Forall (fun ch => is_char ch = true) (compute_substr (chars s) start len).
Proof.
  intros Hs. pose proof (chars_is_char s Hs) as Hc. unfold compute_substr.
  destruct (chars s) as [|c cs] eqn:E; [constructor|]. rewrite <- E in *. 
  destruct (_ || _); [constructor|]. destruct len as [l|].
  - destruct (l =? 0); [constructor|]. destruct (_ <=? _); [constructor|]. by apply Forall_take, Forall_drop.
  - destruct (_ <=? _); [constructor|]. by apply Forall_take, Forall_drop.
Qed.

(** SUBSTR cuts a string as it cuts a list of characters: its result's characters are those the
    positions name, which is what the binary variant does to bytes; a start of zero is the first
    position, a negative start counts from the end; and the first [k] characters followed by what
    starts at [k + 1] are the string. *)
Theorem substr_laws s start len k :
  starts_char s = true -> Z.of_nat (length (chars s)) <= i64_max -> (forall l, len = Some l -> 0 <= l) ->
  0 <= k <= Z.of_nat (length (chars s)) ->
  let n := Z.of_nat (length (chars s)) in
  chars (compute_substr_string s start len) = compute_substr (chars s) start len /\
  compute_substr_string s 0 len = compute_substr_string s 1 len /\
  (- n <= start < 0 -> compute_substr_string s start len = compute_substr_string s (n + start + 1) len) /\
  (n < Z.abs start -> compute_substr_string s start len = "") /\
  (compute_substr_string s 1 (Some k) ++ compute_substr_string s (k + 1) None = s)%string.
Proof.
  intros Hs Hn Hl Hk n. unfold compute_substr_string.
  split; [by apply chars_of_chars, compute_substr_chars|].
  rewrite !compute_substr_spec by (done || by (intros l [= <-]; lia)). fold n. simpl.
  split; [done|]. split; [|split].
  - intros Hst. rewrite (proj2 (Z.compare_lt_iff start 0)) by lia.
    destruct (Z.compare_spec (n + start + 1) 0); [lia..|done].
  - intros Hst. destruct (Z.compare_spec start 0) as [->|Hlt|Hgt].
    + destruct (Z.leb_spec 1 n); [lia|done].
    + rewrite (proj2 (Z.leb_gt 1 (n + start + 1))) by lia. done.
    + rewrite (proj2 (Z.leb_gt start n)) by lia. by rewrite andb_false_r.
  - rewrite (proj2 (Z.compare_gt_iff (k + 1) 0)) by lia. rewrite <- of_chars_app.
    transitivity (of_chars (chars s)); [f_equal|apply of_chars_chars]. replace (k + 1 - 1) with k by lia. rewrite drop_0.
    rewrite (proj2 (Z.leb_le 1 (k + 1))) by lia. simpl.
    destruct (Z.leb_spec 1 n) as [H1|H1]; destruct (Z.leb_spec (k + 1) n) as [H2|H2]; try lia.
    + apply take_drop.
    + rewrite app_nil_r. apply take_ge. unfold n in *. lia.
    + destruct (chars s); [done|]. simpl in *. lia.
Qed.

(** *** Constant folding against evaluation *)

Section substr_folding.
Context `{ArrowExt, StrExt}.

(** What DataFusion documents of its conversions: a scalar becomes a column of one row; several
    scalars become such columns; and the texts of string and integer literals. *)
Class ScalarLaws : Prop := {
  utf8_to_array : forall k r, to_array_of_size (SUtf8 k r) 1 = Ok (AUtf8 k [r]);
  int_to_array : forall k r, to_array_of_size (SInt k r) 1 = Ok (AInt k [r])
}.

Class FoldLaws : Prop := {
  values_to_arrays_scalars2 : forall s1 s2 a1 a2, to_array_of_size s1 1 = Ok a1 -> to_array_of_size s2 1 = Ok a2 ->
    values_to_arrays [Scalar s1; Scalar s2] = Ok [a1; a2];
  values_to_arrays_scalars3 : forall s1 s2 s3 a1 a2 a3, to_array_of_size s1 1 = Ok a1 -> to_array_of_size s2 1 = Ok a2 ->
    to_array_of_size s3 1 = Ok a3 -> values_to_arrays [Scalar s1; Scalar s2; Scalar s3] = Ok [a1; a2; a3];
  display_utf8 : forall k s, scalar_display (SUtf8 k (Some s)) = s;
  display_int : forall k z, scalar_display (SInt k (Some z)) = int_to_string z
}.

(** The literal arguments of a call and what it evaluates to. *)
Definition substr_args (s : option string) (start : option Z) (length : option (option Z)) : list ScalarValue :=
  SUtf8 Utf8 s :: SInt Int64 start :: match length with Some l => [SInt Int64 l] | None => [] end.

Definition folded_text (s : option string) (start : option Z) (length : option (option Z)) : option string :=
  match s, start, length with
  | Some s, Some start, None => Some (compute_substr_string s start None)
  | Some s, Some start, Some (Some l) => Some (compute_substr_string s start (Some l))
  | _, _, _ => None
  end.

Context `{!ScalarLaws, !FoldLaws}.

Definition fold_ok (start : option Z) (length : option (option Z)) : Prop :=
  (forall z, start = Some z -> in_i64 z = true) /\ (forall l, length = Some (Some l) -> in_i64 l = true).

Lemma substr_simplify_text s start length : fold_ok start length ->
  substr_simplify (map Literal (substr_args s start length)) =
    match s, start, length with
    | None, _, _ | _, None, _ | _, _, Some None => Simplified SNull
    | Some s, Some start, None => Simplified (SUtf8 Utf8View (Some (compute_substr_string s start None)))
    | Some s, Some start, Some (Some l) => Simplified (SUtf8 Utf8View (Some (compute_substr_string s start (nonnegative (Some l)))))
    end.
Proof.
  intros [Hst Hl]. destruct s as [s|]; [|by destruct start, length]. destruct start as [start|]; [|by destruct length].
  cbn. destruct length as [[l|]|]; cbn; rewrite !display_int, parse_int_to_string by auto; cbn.
  - rewrite display_utf8. by rewrite parse_int_to_string by auto.
  - done.
  - by rewrite display_utf8.
Qed.

Lemma substr_invoke_text s start length : (forall l, length = Some (Some l) -> 0 <= l) ->
  substr_invoke (map Scalar (substr_args s start length)) = Ok (Array (AUtf8 Utf8 [folded_text s start length])).
Proof.
  intros Hl. unfold substr_invoke, substr_args. destruct length as [l|]; simpl.
  - rewrite (values_to_arrays_scalars3 _ _ _ _ _ _ (utf8_to_array _ _) (int_to_array _ _) (int_to_array _ _)). simpl.
    unfold substr, process_string_arrays. simpl. unfold process_string_row. simpl.
    destruct s as [s|]; [|by destruct start, l]. simpl. destruct start as [start|]; [|by destruct l]. simpl.
    destruct l as [l|]; [|done]. simpl. specialize (Hl l eq_refl). destruct (Z.ltb_spec l 0); [lia|]. done.
  - rewrite (values_to_arrays_scalars2 _ _ _ _ (utf8_to_array _ _) (int_to_array _ _)). simpl.
    unfold substr, process_string_arrays. simpl. unfold process_string_row. simpl.
    destruct s as [s|]; [|by destruct start]. by destruct start.
Qed.

(** The constant folding of SUBSTR agrees with its evaluation: for literal arguments (null or
    not), integers that fit an [i64] and a length that is absent or not negative, [simplify] gives
    the value [invoke_with_args] computes for the row. *)
Theorem substr_simplify_agrees s start length :
  fold_ok start length -> (forall l, length = Some (Some l) -> 0 <= l) ->
  exists r, substr_invoke (map Scalar (substr_args s start length)) = Ok (Array (AUtf8 Utf8 [r])) /\
    substr_simplify (map Literal (substr_args s start length)) =
      Simplified match r with Some t => SUtf8 Utf8View (Some t) | None => SNull end.
Proof.
  intros Hok Hl. exists (folded_text s start length). split; [by apply substr_invoke_text|].
  rewrite substr_simplify_text by done. destruct s, start, length as [[l|]|]; try done.
  simpl. specialize (Hl l eq_refl). destruct (Z.ltb_spec l 0); [lia|done].
Qed.

(** Outside that range the two disagree: a negative literal length is an error when the call
    is evaluated, and no length at all when it is folded; and folding drops a third argument that
    is not a literal. *)
Theorem substr_simplify_diverges s start l e :
  in_i64 start = true -> in_i64 l = true -> l < 0 ->
  substr_invoke (map Scalar (substr_args (Some s) (Some start) (Some (Some l)))) =
    Err (StrFail (NegativeSubstringLength "substr" start l)) /\
  substr_simplify (map Literal (substr_args (Some s) (Some start) (Some (Some l)))) =
    Simplified (SUtf8 Utf8View (Some (compute_substr_string s start None))) /\
  substr_simplify [Literal (SUtf8 Utf8 (Some s)); Literal (SInt Int64 (Some start)); OtherExpr e] =
    Simplified (SUtf8 Utf8View (Some (compute_substr_string s start None))).
Proof.
  intros Hst Hl Hneg. split; [|split].
  - unfold substr_invoke, substr_args. simpl.
    rewrite (values_to_arrays_scalars3 _ _ _ _ _ _ (utf8_to_array _ _) (int_to_array _ _) (int_to_array _ _)). simpl.
    unfold substr, process_string_arrays. simpl. unfold process_string_row. simpl.
    destruct (Z.ltb_spec l 0); [done|lia].
  - rewrite substr_simplify_text by (split; congruence). simpl. destruct (Z.ltb_spec l 0); [done|lia].
  - cbn. rewrite display_int, parse_int_to_string by done. cbn. by rewrite display_utf8.
Qed.

End substr_folding.

(** ** INSERT *)

Lemma insert_string_Ok base pos n insert :
  1 <= pos <= Z.of_nat (String.length base) + 1 -> 0 <= n <= Z.of_nat (String.length base) - pos + 1 ->
  insert_string base pos n insert =
    Ok (of_chars (take (Z.to_nat (pos - 1)) (chars base)) ++ insert ++
        of_chars (drop (Z.to_nat n) (drop (Z.to_nat (pos - 1)) (chars base))))%string.
Proof.
  intros Hp Hn. unfold insert_string.
  destruct (Z.ltb_spec pos 1); [lia|]. destruct (Z.ltb_spec (Z.of_nat (String.length base) + 1) pos); [lia|].
  destruct (Z.ltb_spec n 0); [lia|]. destruct (Z.ltb_spec (Z.of_nat (String.length base) - pos + 1) n); [lia|]. done.
Qed.

Lemma insert_binary_Ok base pos n insert :
  1 <= pos <= Z.of_nat (length base) + 1 -> 0 <= n <= Z.of_nat (length base) - pos + 1 ->
  insert_binary base pos n insert =
    Ok (take (Z.to_nat (pos - 1)) base ++ insert ++ drop (Z.to_nat (pos - 1) + Z.to_nat n) base)%list.
Proof.
  intros Hp Hn. unfold insert_binary.
  destruct (Z.ltb_spec pos 1); [lia|]. destruct (Z.ltb_spec (Z.of_nat (length base) + 1) pos); [lia|].
  destruct (Z.ltb_spec n 0); [lia|]. destruct (Z.ltb_spec (Z.of_nat (length base) - pos + 1) n); [lia|]. done.
Qed.

(** INSERT on bytes succeeds exactly when the position and the length lie in the binary and
    then replaces those bytes: inserting [ins] over a window and then putting the window back over
    [ins] gives the original. *)
Theorem insert_binary_undo base pos n ins :
  let valid := 1 <= pos <= Z.of_nat (length base) + 1 /\ 0 <= n <= Z.of_nat (length base) - pos + 1 in
  (valid <-> exists r, insert_binary base pos n ins = Ok r) /\
  (forall r, insert_binary base pos n ins = Ok r ->
    Z.of_nat (length r) = Z.of_nat (length base) - n + Z.of_nat (length ins) /\
    insert_binary r pos (Z.of_nat (length ins)) (take (Z.to_nat n) (drop (Z.to_nat (pos - 1)) base)) = Ok base).
Proof.
  intros valid.
  assert (forall r, insert_binary base pos n ins = Ok r -> valid) as Hv.
  { unfold valid, insert_binary. intros r.
    destruct (Z.ltb_spec pos 1); [done|]. destruct (Z.ltb_spec (Z.of_nat (length base) + 1) pos); [done|].
    destruct (Z.ltb_spec n 0); [done|]. destruct (Z.ltb_spec (Z.of_nat (length base) - pos + 1) n); [done|]. lia. }
  split.
  - split; [|intros [r Hr]; by apply (Hv r)]. intros [Hp Hn]. eexists. by apply insert_binary_Ok.
  - intros r Hr. destruct (Hv r Hr) as [Hp Hn]. rewrite insert_binary_Ok in Hr by done. injection Hr as <-.
    set (p := Z.to_nat (pos - 1)). assert (length (take p base) = p) as Hlp by (rewrite length_take; lia).
    assert (Z.of_nat (length (take p base ++ ins ++ drop (p + Z.to_nat n) base)) = Z.of_nat (length base) - n + Z.of_nat (length ins)) as Hlen.
    { rewrite !length_app, length_drop. lia. }
    split; [done|]. rewrite insert_binary_Ok by lia. fold p. f_equal.
    rewrite <- Hlp at 1. rewrite take_app_length. rewrite Nat2Z.id.
    replace (p + length ins)%nat with (length (take p base ++ ins)) by (rewrite length_app; lia).
    rewrite (app_assoc (take p base) ins), drop_app_length.
    rewrite <- drop_drop, take_drop. apply take_drop.
Qed.

(** INSERT on strings counts positions in characters but checks them against the length in
    bytes: for a string with multi-byte characters a position past its end is accepted, and the
    insertion is appended. *)
Theorem insert_past_end base pos ins :
  Z.of_nat (length (chars base)) + 1 < pos <= Z.of_nat (String.length base) + 1 ->
  insert_string base pos 0 ins = Ok (base ++ ins)%string.
Proof.
  intros Hp. rewrite insert_string_Ok by lia. f_equal.
  rewrite take_ge by lia. rewrite of_chars_chars, drop_0, drop_ge by lia.
  simpl. by rewrite string_app_nil_r.
Qed.

Lemma insert_past_end_witness :
  insert_string (String.string_of_list_byte [xc3; xa9; xc3; xa9]) 4 0 "x" =
    Ok (String.string_of_list_byte [xc3; xa9; xc3; xa9; x78]).
Proof.
  apply (insert_past_end (String.string_of_list_byte [xc3; xa9; xc3; xa9]) 4 "x"). split; [reflexivity|discriminate].
Defined.

(** ** SPLIT *)

Lemma split_lacks s delimiter : delimiter <> "" -> Forall (fun part => contains delimiter part = false) (split s delimiter).
Proof. intros Hd. destruct delimiter; [done|]. by apply split_on_lacks. Qed.

(** Each row of SPLIT lists the parts of its string: joined with the delimiter they give the
    string back, and none of them contains the (non-empty) delimiter; a row is null where either
    argument is. *)
Theorem split_rows item strs delims : length strs = length delims ->
  exists rows, split_impl item strs delims = AList List_ (TUtf8 item) rows /\ length rows = length strs /\
    forall i s d, strs !! i = Some s -> delims !! i = Some d ->
      match s, d with
      | Some s, Some d => exists parts, rows !! i = Some (Some (AUtf8 item (map Some parts))) /\
          join d parts = s /\ (d <> "" -> Forall (fun part => contains d part = false) parts)
      | _, _ => rows !! i = Some None
      end.
Proof.
  intros Hlen. eexists. split; [reflexivity|]. split; [rewrite length_map, length_zip; lia|].
  intros i s d Hs Hd. rewrite list_lookup_fmap.
  assert (zip strs delims !! i = Some (s, d)) as -> by (apply lookup_zip_with_Some; eauto).
  simpl. destruct s as [s|]; [|done]. destruct d as [d|]; [|done].
  exists (split s d). split; [done|]. split; [apply join_split|apply split_lacks].
Qed.

Lemma split_rows_witness : exists rows,
  split_impl Utf8 [Some "a--b"; None] [Some "--"; Some "x"] = AList List_ (TUtf8 Utf8) rows /\ length rows = 2%nat /\
  rows !! 1%nat = Some None.
Proof.
  destruct (split_rows Utf8 [Some "a--b"; None] [Some "--"; Some "x"] eq_refl) as (rows & E & L & R).
  exists rows. split; [exact E|]. split; [exact L|]. exact (R 1%nat None (Some "x") eq_refl eq_refl).
Defined.

(** ** STRTOK *)

Lemma of_chars_filter_cons (p : string -> bool) ch cs :
  of_chars (List.filter p (ch :: cs)) = ((if p ch then ch else "") ++ of_chars (List.filter p cs))%string.
Proof. cbn [List.filter]. by destruct (p ch). Qed.

Lemma tokens_concat ds cur cs :
  of_chars (tokens ds cur cs) = (cur ++ of_chars (List.filter (fun ch => negb (existsb (String.eqb ch) ds)) cs))%string.
Proof.
  revert cur. induction cs as [|ch cs IH]; intros cur; cbn [tokens].
  - destruct (String.eqb_spec cur "") as [->|]; simpl; [done|]. done.
  - rewrite of_chars_filter_cons. destruct (existsb (String.eqb ch) ds); cbn [negb].
    + destruct (String.eqb_spec cur "") as [->|]; cbn [of_chars]; by rewrite IH.
    + rewrite IH. by rewrite string_app_assoc.
Qed.

(** A token is a run of characters that are no delimiters. *)
Definition is_token (ds : list string) (t : string) : Prop :=
  t <> "" /\ exists cs, t = of_chars cs /\ Forall (fun ch => existsb (String.eqb ch) ds = false /\ ch <> "") cs.

Lemma tokens_are_tokens ds cur cs :
  (cur = "" \/ is_token ds cur) -> Forall (fun ch => ch <> "") cs -> Forall (is_token ds) (tokens ds cur cs).
Proof.
  revert cur. induction cs as [|ch cs IH]; intros cur Hcur Hcs; cbn [tokens].
  - destruct (String.eqb_spec cur "") as [->|Hne]; [constructor|]. destruct Hcur as [->|Hc]; [done|]. by apply Forall_singleton.
  - inversion Hcs as [|? ? Hch Hcs']; subst. destruct (existsb (String.eqb ch) ds) eqn:Ed.
    + destruct (String.eqb_spec cur "") as [->|Hne]; [apply IH; auto|].
      destruct Hcur as [->|Hc]; [done|]. constructor; [done|]. apply IH; auto.
    + apply IH; [|done]. right. destruct Hcur as [->|(Hne & l & -> & Hl)].
      * split; [done|]. exists [ch]. split; [simpl; by rewrite string_app_nil_r|]. by repeat constructor.
      * split; [by destruct (of_chars l)|]. exists (l ++ [ch])%list. split; [rewrite of_chars_app; simpl; by rewrite string_app_nil_r|].
        apply Forall_app. by repeat constructor.
Qed.

Lemma chars_nonempty s : Forall (fun ch => ch <> "") (chars s).
Proof.
  induction s as [|c s IH]; [constructor|]. rewrite chars_cons. destruct s as [|d s]; [by repeat constructor|].
  destruct (is_continuation d); [|by constructor].
  destruct (chars (String d s)) as [|ch rest]; [by repeat constructor|]. inversion IH; subst. by constructor.
Qed.

(** The tokens of STRTOK and STRTOK_TO_ARRAY are the maximal pieces of the string without
    delimiter characters: none is empty, none holds a delimiter, and together they are the string
    with its delimiters removed; part [n] is the [n]-th token, null when there are fewer, an error
    for 0 and a panic below. *)
Theorem strtok_correct str delimiter n :
  let ds := chars delimiter in
  let toks := strtok_tokens str delimiter in
  Forall (is_token ds) toks /\
  of_chars toks = of_chars (List.filter (fun ch => negb (existsb (String.eqb ch) ds)) (chars str)) /\
  strtok_part str delimiter n =
    (if n <? 0 then Err (StrHalt Panic)
     else if n =? 0 then Err (StrExec "partNr cannot be less than 1")
     else Ok (toks !! Z.to_nat (n - 1))).
Proof.
  intros ds toks. split; [apply tokens_are_tokens; [by left|apply chars_nonempty]|].
  split; [apply tokens_concat|]. unfold strtok_part. destruct (Z.ltb_spec n 0) as [|H0]; [done|].
  destruct (Z.eqb_spec n 0) as [->|Hn]; [done|]. destruct (Z.ltb_spec n 1) as [|H1]; [lia|].
  fold toks. destruct (Z.ltb_spec (Z.of_nat (length toks)) n); [|done].
  rewrite lookup_ge_None_2 by lia. done.
Qed.

(** STRTOK called with one or two arguments fails on every string: its default part number is
    an unsigned column, which it then reads as a signed one. *)
Theorem strtok_needs_part_number `{ArrowExt, StrExt, !ScalarLaws} s k delimiters :
  match delimiters with [] => True | [Scalar (SUtf8 _ _)] => True | _ => False end ->
  strtok_invoke (Scalar (SUtf8 k s) :: delimiters) = Err (StrHalt (Raise (OtherError "could not cast"))).
Proof.
  intros Hd. unfold strtok_invoke. simpl. rewrite utf8_to_array. simpl.
  destruct delimiters as [|d [|]]; [|destruct d as [|[]]; try done|by destruct d as [|[]]]; rewrite ?utf8_to_array; simpl; by rewrite ?int_to_array, ?utf8_to_array, ?int_to_array.
Qed.

(** ** HEX *)

Section hex.
Context `{ArrowExt, StrExt}.

(** What the [hex] crate documents: decoding undoes encoding in either case, and the digits are
    ASCII. *)
Class HexLaws : Prop := {
  hex_decode_lower : forall b, hex_decode (hex_encode_lower b) = Some b;
  hex_decode_upper : forall b, hex_decode (hex_encode_upper b) = Some b;
  hex_lower_ascii : forall b, is_ascii (hex_encode_lower b) = true;
  hex_upper_ascii : forall b, is_ascii (hex_encode_upper b) = true;
  hex_nil : forall b, hex_encode_lower b = "" \/ hex_encode_upper b = "" -> b = []
}.
Context `{!HexLaws}.

Lemma encode_to_hex_Ok data uc : exists t, encode_to_hex data uc = Ok t /\ hex_decode t = Some data /\ (t = "" -> data = []).
Proof.
  unfold encode_to_hex. destruct uc as [v|]; [destruct (v =? 1)|];
    rewrite ?hex_lower_ascii, ?hex_upper_ascii; eexists; split; try done; split;
    first [apply hex_decode_lower | apply hex_decode_upper | intros ?; apply hex_nil; auto].
Qed.

(** HEX_DECODE_STRING undoes HEX_ENCODE on every valid string, in either case and both modes;
    on bytes that are no UTF-8 both decoders fail (or give null in the TRY variants), the binary
    decoder too. *)
Theorem hex_round_trip s data uc try_mode :
  valid_str s = true -> is_utf8 data = false ->
  (exists t, encode_to_hex (as_bytes s) uc = Ok t /\ decode_hex try_mode t = Ok (Some s)) /\
  (exists t, encode_to_hex data uc = Ok t /\
     decode_hex try_mode t = if try_mode then Ok None else Err (StrFail (IllegalHexValue t))).
Proof.
  intros Hs Hd. split.
  - destruct (encode_to_hex_Ok (as_bytes s) uc) as (t & E & D & N). exists t. split; [done|]. unfold decode_hex.
    destruct (String.eqb_spec t "") as [->|].
    + specialize (N eq_refl). do 2 f_equal. by destruct s.
    + rewrite D. by rewrite from_utf8_as_bytes.
  - destruct (encode_to_hex_Ok data uc) as (t & E & D & N). exists t. split; [done|]. unfold decode_hex.
    destruct (String.eqb_spec t "") as [->|].
    + by rewrite (N eq_refl) in Hd.
    + rewrite D. unfold from_utf8. rewrite Hd. done.
Qed.
End hex.

(** ** Columns and scalars *)

(** Beside columns of one row, only the first row is paired. *)
Lemma izip4_one {A B C D} (a : A) (l : list A) (b : B) (c : C) (d : D) :
  izip4 (a :: l) [b] [c] [d] = [(a, b, c, d)].
Proof. by destruct l. Qed.

(** INSERT, HEX_ENCODE with its case and STRTOK_TO_ARRAY with its delimiter pair a column with a
    constant argument row by row after turning the constant into one row, so only the first row of
    the column is answered, however long it is. *)
Theorem constants_answer_one_row `{ArrowExt, StrExt, !ScalarLaws} (rows : list (option string)) r pos n ins d out :
  insert_invoke [Array (AUtf8 Utf8 (r :: rows)); Scalar (SInt Int64 pos); Scalar (SInt Int64 n); Scalar (SUtf8 Utf8 ins)] = Ok out ->
  (exists x, out = Array (AUtf8 Utf8 [x])) /\
  exists y, strtok_to_array [Array (AUtf8 Utf8 (r :: rows)); Scalar (SUtf8 Utf8 d)] = Ok (Array (AList List_ (TUtf8 Utf8) [y])).
Proof.
  unfold insert_invoke. cbn -[izip4]. rewrite !int_to_array, utf8_to_array. cbn -[izip4]. rewrite izip4_one. intros Ho. split.
  - destruct r as [r|], pos as [pos|], n as [n|], ins as [ins|]; simpl in Ho; try (injection Ho as <-; eauto; fail).
    unfold insert_rows in Ho. simpl in Ho. destruct (insert_string r pos n ins); simpl in Ho; [injection Ho as <-; eauto|done].
  - unfold strtok_to_array. simpl. rewrite utf8_to_array. simpl. destruct rows; eauto.
Qed.

(** ** LOWER and REPLACE *)

(** The functions treat the kinds of string columns differently.  LOWER lower-cases a [Utf8]
    column and only casts a [Utf8View] column, while folding lower-cases the literal; REPLACE with
    a null replacement deletes the pattern in [Utf8] columns and gives null in [Utf8View] columns. *)
Theorem string_kinds_diverge `{ArrowExt, StrExt} rows s from :
  (forall rows, cast_to_utf8 (AUtf8 Utf8View rows) = Ok (AUtf8 Utf8 rows)) ->
  (forall rows, cast_to_utf8_view (AUtf8 Utf8 rows) = Ok (AUtf8 Utf8View rows)) ->
  (forall k s, scalar_display (SUtf8 k (Some s)) = s) ->
  let args := [AUtf8 Utf8 [Some s]; AUtf8 Utf8 [Some from]; AUtf8 Utf8 [None]] in
  lower_invoke [Array (AUtf8 Utf8 rows)] = Ok (Array (AUtf8 Utf8 (map (option_map to_lowercase) rows))) /\
  lower_invoke [Array (AUtf8 Utf8View rows)] = Ok (Array (AUtf8 Utf8 rows)) /\
  lower_simplify [Literal (SUtf8 Utf8View (Some s))] = Simplified (SUtf8 Utf8 (Some (to_lowercase s))) /\
  replace_invoke (TUtf8 Utf8) (map Array args) 1 = Ok (Array (AUtf8 Utf8 [Some (of_chars (split s from))])) /\
  replace_invoke (TUtf8 Utf8View) (map Array args) 1 = Ok (Array (AUtf8 Utf8View [None])).
Proof.
  intros Hc Hv Hd args. split; [done|]. split; [unfold lower_invoke; simpl; by rewrite Hc|].
  split; [unfold lower_simplify; simpl; by rewrite Hd|]. split.
  - cbn. unfold replace. by rewrite join_empty.
  - unfold replace_invoke. simpl. rewrite !Hv. done.
Qed.

(** ** Witnesses *)

(** An implementation of the parameters: the digits of [hex], ASCII lower-casing. *)
Module StringExample.

Definition nibble (upper : bool) (n : N) : ascii :=
  ascii_of_N (if (n <? 10)%N then 48 + n else (if upper then 55 else 87) + n).

Fixpoint hex (upper : bool) (l : list byte) : string :=
  match l with
  | [] => ""
  | b :: l => let n := Byte.to_N b in String (nibble upper (n / 16)) (String (nibble upper (n mod 16)) (hex upper l))
  end.

Definition digit (c : ascii) : option N :=
  let n := N_of_ascii c in
  if ((48 <=? n) && (n <=? 57))%N then Some (n - 48)%N
  else if ((65 <=? n) && (n <=? 70))%N then Some (n - 55)%N
  else if ((97 <=? n) && (n <=? 102))%N then Some (n - 87)%N
  else None.

Fixpoint unhex (s : string) : option (list byte) :=
  match s with
  | EmptyString => Some []
  | String a (String b s) =>
      match digit a, digit b, unhex s with
      | Some x, Some y, Some l => option_map (fun z => z :: l) (Byte.of_N (16 * x + y))
      | _, _, _ => None
      end
  | _ => None
  end.

Definition lower_ascii (c : ascii) : ascii :=
  let n := N_of_ascii c in if ((65 <=? n) && (n <=? 90))%N then ascii_of_N (n + 32) else c.

Fixpoint lower (s : string) : string :=
  match s with EmptyString => "" | String c s => String (lower_ascii c) (lower s) end.

Definition display (s : ScalarValue) : string :=
  match s with SUtf8 _ (Some s) => s | SInt _ (Some z) => int_to_string z | _ => "" end.

Definition to_utf8 (k : Utf8Kind) (a : ArrayRef) : result ArrowError ArrayRef :=
  match a with
  | AUtf8 _ rows => Ok (AUtf8 k rows)
  | AInt _ rows => Ok (AUtf8 k (map (option_map int_to_string) rows))
  | _ => Err (OtherError "cast")
  end.

Import ArrowExample.

Definition rows_of (args : list ColumnarValue) : nat := default 1%nat (first_array_len args).

#[global] Instance example_str : StrExt := {|
  values_to_arrays args :=
    traverse (fun a => match a with Array a => Ok a | Scalar s => to_array_of_size s (rows_of args) end) args;
  scalar_display := display;
  float_display _ _ := "";
  cast_to_utf8 := to_utf8 Utf8;
  cast_to_utf8_view := to_utf8 Utf8View;
  cast_to_int64 a := match a with AInt _ rows => Ok (AInt Int64 rows) | _ => Err (OtherError "cast") end;
  to_lowercase := lower;
  hex_encode_lower := hex false;
  hex_encode_upper := hex true;
  hex_decode := unhex |}.

#[global] Instance example_scalar_laws : ScalarLaws.
Proof. by split. Qed.

#[global] Instance example_fold_laws : FoldLaws.
Proof.
  split; try done.
  - intros s1 s2 a1 a2 E1 E2. cbn in *. by rewrite E1, E2.
  - intros s1 s2 s3 a1 a2 a3 E1 E2 E3. cbn in *. by rewrite E1, E2, E3.
Qed.

Lemma unhex_hex upper l : unhex (hex upper l) = Some l.
Proof.
  induction l as [|b l IH]; [done|]. cbn [hex unhex]. rewrite IH. by destruct upper, b.
Qed.

Lemma hex_ascii upper l : is_ascii (hex upper l) = true.
Proof.
  induction l as [|b l IH]; [done|]. unfold is_ascii in *. cbn [hex str_all]. rewrite IH. by destruct upper, b.
Qed.

#[global] Instance example_hex_laws : HexLaws.
Proof.
  split; try (intros; apply unhex_hex || apply hex_ascii). by intros [|b l] [E|E].
Qed.

End StringExample.

Import StringExample.

Example hex_example : hex_encode_invoke [Scalar (SUtf8 Utf8 (Some "SNOW"))] = Ok (Array (AUtf8 Utf8 [Some "534E4F57"])).
Proof. reflexivity. Qed.

Example strtok_example :
  strtok_invoke [Scalar (SUtf8 Utf8 (Some "a.b@c")); Scalar (SUtf8 Utf8 (Some "@.")); Scalar (SInt Int64 (Some 3))]
    = Ok (Array (AUtf8 Utf8 [Some "c"])).
Proof. reflexivity. Qed.

Example substr_example :
  substr_invoke [Array (AUtf8 Utf8 [Some "mystring"; None]); Array (AInt Int64 [Some (-3); Some 1])]
    = Ok (Array (AUtf8 Utf8 [Some "ing"; None])).
Proof. reflexivity. Qed.

Lemma substr_laws_witness :
  (compute_substr_string "embucket" 1 (Some 2) ++ compute_substr_string "embucket" 3 None = "embucket")%string.
Proof.
  exact (proj2 (proj2 (proj2 (proj2 (substr_laws "embucket" 1 None 2 eq_refl ltac:(discriminate) ltac:(discriminate) ltac:(split; discriminate)))))).
Defined.

Lemma substr_simplify_agrees_witness : exists r,
  substr_invoke (map Scalar (substr_args (Some "mystring") (Some (-6)) (Some (Some 2)))) = Ok (Array (AUtf8 Utf8 [r])) /\
  substr_simplify (map Literal (substr_args (Some "mystring") (Some (-6)) (Some (Some 2)))) =
    Simplified match r with Some t => SUtf8 Utf8View (Some t) | None => SNull end.
Proof.
  apply (substr_simplify_agrees (Some "mystring") (Some (-6)) (Some (Some 2))).
  - split; intros z [= <-]; reflexivity.
  - intros l [= <-]. discriminate.
Defined.

Lemma substr_simplify_diverges_witness :
  substr_invoke (map Scalar (substr_args (Some "mystring") (Some 3) (Some (Some (-1))))) =
    Err (StrFail (NegativeSubstringLength "substr" 3 (-1))).
Proof. exact (proj1 (substr_simplify_diverges "mystring" 3 (-1) "c" eq_refl eq_refl eq_refl)). Defined.

Lemma strtok_needs_part_number_witness :
  strtok_invoke [Scalar (SUtf8 Utf8 (Some "a b"))] = Err (StrHalt (Raise (OtherError "could not cast"))).
Proof. exact (strtok_needs_part_number (Some "a b") Utf8 [] I). Defined.

Lemma hex_round_trip_witness :
  exists t, encode_to_hex (as_bytes "SNOW") (Some 0) = Ok t /\ decode_hex false t = Ok (Some "SNOW").
Proof. exact (proj1 (hex_round_trip "SNOW" [xff] (Some 0) false eq_refl eq_refl)). Defined.

Lemma constants_answer_one_row_witness :
  exists x, Array (AUtf8 Utf8 [Some "xbc"]) = Array (AUtf8 Utf8 [x]).
Proof.
  exact (proj1 (constants_answer_one_row [Some "def"; Some "ghi"] (Some "abc") (Some 1) (Some 1) (Some "x") (Some " ")
    (Array (AUtf8 Utf8 [Some "xbc"])) eq_refl)).
Defined.

Lemma string_kinds_diverge_witness :
  lower_invoke [Array (AUtf8 Utf8View [Some "ABC"])] = Ok (Array (AUtf8 Utf8 [Some "ABC"])).
Proof.
  exact (proj1 (proj2 (string_kinds_diverge [Some "ABC"] "a" "a" (fun _ => eq_refl) (fun _ => eq_refl) (fun _ _ => eq_refl)))).
Defined.
