(* ===== verification/Aggregates.v ===== *)
(** * The aggregate functions

    [functions/src/aggregate]: the accumulators of BOOLAND_AGG, BOOLOR_AGG, BOOLXOR_AGG, ANY_VALUE,
    ARRAY_UNIQUE_AGG, ARRAY_UNION_AGG, LISTAGG, OBJECT_AGG and PERCENTILE_CONT.

    An aggregation runs in one phase, over the batches of its input, or in two: accumulators over
    the partitions, whose states another accumulator merges.  The class [Accumulator] is the trait
    of DataFusion; [MergeLaws] is what makes the phases irrelevant, proved once for every lawful
    accumulator and discharged by those that are.  [merging] cuts the states into batches of several
    rows; [two_phases] hands them over one by one. *)

From Stdlib Require Import ZArith Lia Ascii String SpecFloat.
From stdpp Require Import base option list strings.
From S2P Require Import Prelude Ordering Utf8 JsonValue JsonEncode SemiStructured.

Open Scope string_scope.
Open Scope Z_scope.
Open Scope rust_scope.

(** [aggregate::errors::Error]; the text of a source error is left out. *)
Inductive AggError :=
| MissingKeyColumn
| KeyColumnShouldBeStringType
| MissingValueColumn
| StateValuesShouldBeStringType
| FailedToParseBoolean
| FailedToParseFloat
| FailedToParseFloatNoSource
| ArrayUnionAggOnlySupportsJsonArray
| ArrayUnionAggOnlySupportsBooleanFloat64AndUtf8
| FailedToSerializeAggregate.

Inductive agg_failure :=
| AggFail (e : AggError)
| UnsupportedType (t : DataType)
| Internal (message : string)
| AggExec (message : string)
| AggHalt (s : stop).

Notation ares A := (result agg_failure A).

Definition apanic {A} : ares A := Err (AggHalt Panic).
Definition of_arrow_agg {A} (r : result ArrowError A) : ares A :=
  match r with Ok a => Ok a | Err e => Err (AggHalt (Raise e)) end.

(** [Iterator::flatten] of the rows: those that are not null. *)
Fixpoint flatten {A} (l : list (option A)) : list A :=
  match l with [] => [] | Some a :: l => a :: flatten l | None :: l => flatten l end.

(** [datafusion_expr::Accumulator]: [update_batch] for the input, [state] and [merge_batch] between
    the phases (a batch of states is the rows of its columns), [evaluate] for the result. *)
Class Accumulator (Acc Batch State Out : Type) := {
  update_batch : Acc -> Batch -> ares Acc;
  state : Acc -> State;
  merge_batch : Acc -> list State -> ares Acc;
  evaluate : Acc -> ares Out
}.

(** ** The boolean aggregates *)

Definition decimal256_is_zero (v : Z * Z) : bool := (fst v =? 0) && (snd v =? 0).

(** [array_to_boolean] of [lib.rs]: numbers are true when they are not zero. *)
Definition array_to_boolean (arr : ArrayRef) : ares (list (option bool)) :=
  match arr with
  | ANull n => Ok (replicate n None)
  | ABoolean rows => Ok rows
  | AInt _ rows | ADecimal _ _ _ rows => Ok (map (option_map (fun v => negb (v =? 0))) rows)
  | AFloat _ rows => Ok (map (option_map (fun v => negb (is_zero v))) rows)
  | ADecimal256 _ _ rows => Ok (map (option_map (fun v => negb (decimal256_is_zero v))) rows)
  | AUtf8 Utf8View rows =>
      if forallb (fun v => match v with Some _ => false | None => true end) rows
      then Ok (map (fun _ => None) rows)
      else Err (UnsupportedType (data_type arr))
  | _ => Err (UnsupportedType (data_type arr))
  end.

(** The state of the three accumulators, [Option<bool>]. *)
Record BoolState (tag : Type) := mkBool { bool_state : option bool }.
Arguments mkBool {tag} bool_state.
Arguments bool_state {tag} b.

Inductive BoolAndAgg := .
Inductive BoolOrAgg := .
Inductive BoolXorAgg := .

Definition bool_new {tag} : BoolState tag := mkBool None.

(** [ScalarValue::try_from_array(&states[0], 0)]: the first row of the state column. *)
Definition first_state {S} (states : list S) : ares S := ok_or (states !! 0%nat) (AggHalt Panic).

Definition any_some (l : list (option bool)) : bool := existsb (fun v => match v with Some _ => true | None => false end) l.
Definition has (b : bool) (l : list (option bool)) : bool := existsb (fun v => match v with Some v => Bool.eqb v b | None => false end) l.

Module BoolAnd.
Definition update_batch (self : option bool) (values : list ArrayRef) : ares (option bool) :=
  match values with
  | [] => Ok self
  | arr :: _ =>
      match self with
      | Some false => Ok self
      | _ =>
          let? barr := array_to_boolean arr in
          if has false barr then Ok (Some false)
          else if any_some barr then Ok (Some true)
          else Ok self
      end
  end.

Definition merge_batch (self : option bool) (states : list (option bool)) : ares (option bool) :=
  match self with
  | Some false => Ok self
  | _ =>
      let? v := first_state states in
      match v with
      | Some false => Ok (Some false)
      | Some true => Ok (Some true)
      | None => Ok self
      end
  end.
End BoolAnd.

Module BoolOr.
(** Returns early when the state is false, as BOOLAND_AGG does. *)
Definition update_batch (self : option bool) (values : list ArrayRef) : ares (option bool) :=
  match values with
  | [] => Ok self
  | arr :: _ =>
      match self with
      | Some false => Ok self
      | _ =>
          let? barr := array_to_boolean arr in
          if has true barr then Ok (Some true)
          else if any_some barr then Ok (Some false)
          else Ok self
      end
  end.

Definition merge_batch (self : option bool) (states : list (option bool)) : ares (option bool) :=
  match self with
  | Some true => Ok self
  | _ =>
      let? v := first_state states in
      match v with
      | Some true => Ok (Some true)
      | Some false => Ok (Some false)
      | None => Ok self
      end
  end.
End BoolOr.

Module BoolXor.
(** The loop over the rows: [inr] when it returns early. *)
Fixpoint scan (self : option bool) (is_null : bool) (rows : list (option bool)) : (option bool * bool) + option bool :=
  match rows with
  | [] => inl (self, is_null)
  | val :: rows =>
      let is_null := match val with Some _ => false | None => is_null end in
      match val, self with
      | Some true, Some true => inr (Some false)
      | Some true, _ => scan (Some true) is_null rows
      | _, _ => scan self is_null rows
      end
  end.

Definition finish (r : (option bool * bool) + option bool) : option bool :=
  match r with
  | inr s => s
  | inl (Some true, _) => Some true
  | inl (s, is_null) => if is_null then s else Some false
  end.

Definition update_batch (self : option bool) (values : list ArrayRef) : ares (option bool) :=
  match values with
  | [] => Ok self
  | arr :: _ =>
      match self with
      | Some false => Ok self
      | _ => let? barr := array_to_boolean arr in Ok (finish (scan self true barr))
      end
  end.

(** The loop runs over the state's columns, of which there is one. *)
Definition merge_batch (self : option bool) (states : list (option bool)) : ares (option bool) :=
  match self with
  | Some false => Ok self
  | _ => let? v := first_state states in Ok (finish (scan self true [v]))
  end.
End BoolXor.

#[global] Instance bool_and_agg : Accumulator (BoolState BoolAndAgg) (list ArrayRef) (option bool) (option bool) := {|
  update_batch a b := result_map mkBool (BoolAnd.update_batch (bool_state a) b);
  state := bool_state;
  merge_batch a s := result_map mkBool (BoolAnd.merge_batch (bool_state a) s);
  evaluate a := Ok (bool_state a) |}.

#[global] Instance bool_or_agg : Accumulator (BoolState BoolOrAgg) (list ArrayRef) (option bool) (option bool) := {|
  update_batch a b := result_map mkBool (BoolOr.update_batch (bool_state a) b);
  state := bool_state;
  merge_batch a s := result_map mkBool (BoolOr.merge_batch (bool_state a) s);
  evaluate a := Ok (bool_state a) |}.

#[global] Instance bool_xor_agg : Accumulator (BoolState BoolXorAgg) (list ArrayRef) (option bool) (option bool) := {|
  update_batch a b := result_map mkBool (BoolXor.update_batch (bool_state a) b);
  state := bool_state;
  merge_batch a s := result_map mkBool (BoolXor.merge_batch (bool_state a) s);
  evaluate a := Ok (bool_state a) |}.

(** ** Aggregates of scalars

    The values of a column as DataFusion's scalars: [V] is the type of the values that are not
    null.  [scalars] is [ScalarValue::try_from_array] of every row, [iter_to_array] its inverse,
    [as_utf8] the text of a string. *)
Class ScalarExt (V : Type) := {
  scalars : ArrayRef -> result ArrowError (list (option V));
  iter_to_array : list V -> result ArrowError ArrayRef;
  as_utf8 : V -> option string
}.

Section scalar_aggregates.
Context {V : Type} `{EqDecision V, !ScalarExt V}.

(** *** ANY_VALUE *)

(** [is_set] says whether a row, null or not, has been seen. *)
Record AnyValueAccumulator := mkAny { any_value : option V; is_set : bool }.
Definition any_value_new : AnyValueAccumulator := mkAny None false.

Definition any_value_update (self : AnyValueAccumulator) (values : list ArrayRef) : ares AnyValueAccumulator :=
  if is_set self then Ok self
  else match values with
       | [] => Ok self
       | arr :: _ =>
           if (len arr =? 0)%nat then Ok self
           else
             let? rows := of_arrow_agg (scalars arr) in
             let? row := ok_or (rows !! 0%nat) (AggHalt Panic) in
             Ok (mkAny row true)
       end.

Fixpoint any_value_merge (self : AnyValueAccumulator) (states : list (option V * bool)) : ares AnyValueAccumulator :=
  match states with
  | [] => Ok self
  | (value, flag) :: states => if flag && negb (is_set self) then Ok (mkAny value true) else any_value_merge self states
  end.

#[global] Instance any_value_agg : Accumulator AnyValueAccumulator (list ArrayRef) (option V * bool) (option V) := {|
  update_batch := any_value_update;
  state a := (any_value a, is_set a);
  merge_batch := any_value_merge;
  evaluate a := Ok (any_value a) |}.

(** *** ARRAY_UNIQUE_AGG *)

(** [hash] is the set of the values seen, in the order of insertion. *)
Record ArrayUniqueAggAccumulator := mkUnique { unique_values : list V; unique_hash : list V }.
Definition array_unique_new : ArrayUniqueAggAccumulator := mkUnique [] [].

(** The loop of [update_batch] and [merge_batch]. *)
Definition unique_push (self : ArrayUniqueAggAccumulator) (value : option V) : ArrayUniqueAggAccumulator :=
  match value with
  | Some v =>
      if decide (v ∈ unique_hash self) then self
      else mkUnique (unique_values self ++ [v]) (unique_hash self ++ [v])
  | None => self
  end.

Definition array_unique_update (self : ArrayUniqueAggAccumulator) (values : list ArrayRef) : ares ArrayUniqueAggAccumulator :=
  match values with
  | [] => apanic
  | arr :: _ => let? rows := of_arrow_agg (scalars arr) in Ok (foldl unique_push self rows)
  end.

(** [as_list_array(&states[0]).value(0)]: the list of the first row. *)
Definition array_unique_merge (self : ArrayUniqueAggAccumulator) (states : list (list V)) : ares ArrayUniqueAggAccumulator :=
  let? values := first_state states in
  Ok (foldl unique_push self (map Some values)).

Definition of_res {A} (r : res A) : ares A :=
  match r with
  | Ok a => Ok a
  | Err (Fail _) => Err (AggExec "JSON encoding")
  | Err (Exec m) => Err (AggExec m)
  | Err (Halt s) => Err (AggHalt s)
  end.

Context `{ArrowExt, Serde, Kernels}.

(** [iter_to_array] has no type for no values. *)
Definition array_unique_evaluate (self : ArrayUniqueAggAccumulator) : ares string :=
  let? arr := of_arrow_agg (iter_to_array (unique_values self)) in
  let? res := of_res (encode arr) in
  Ok (to_string res).

#[global] Instance array_unique_agg : Accumulator ArrayUniqueAggAccumulator (list ArrayRef) (list V) string := {|
  update_batch := array_unique_update;
  state := unique_values;
  merge_batch := array_unique_merge;
  evaluate := array_unique_evaluate |}.

(** *** OBJECT_AGG *)

Record ObjectAggAccumulator := mkObject {
  object_entries : list (string * V);
  keys_seen : list string }.
Definition object_new : ObjectAggAccumulator := mkObject [] [].

Definition duplicate_key (key : string) : agg_failure :=
  Internal ("Duplicate keys are not allowed, key found: " ++ key).

(** One pair, in both loops: an error on a key that was seen. *)
Definition object_push (self : ObjectAggAccumulator) (key : string) (v : V) : ares ObjectAggAccumulator :=
  if decide (key ∈ keys_seen self) then Err (duplicate_key key)
  else Ok (mkObject (object_entries self ++ [(key, v)]) (key :: keys_seen self)).

Fixpoint object_rows (self : ObjectAggAccumulator) (rows : list (option string * option V)) : ares ObjectAggAccumulator :=
  match rows with
  | [] => Ok self
  | (Some key, Some v) :: rows => let? self := object_push self key v in object_rows self rows
  | _ :: rows => object_rows self rows
  end.

(** Keys are read as [StringArray] only. *)
Definition object_update (self : ObjectAggAccumulator) (values : list ArrayRef) : ares ObjectAggAccumulator :=
  match values with
  | keys :: vals :: _ =>
      match keys with
      | AUtf8 Utf8 key_array =>
          let? val_array := of_arrow_agg (scalars vals) in
          object_rows self (zip key_array val_array)
      | _ => Err (Internal "Key column must be Utf8 or LargeUtf8")
      end
  | _ => apanic
  end.

(** Every row of the state column is a list of pairs. *)
Definition object_merge (self : ObjectAggAccumulator) (states : list (list (string * V))) : ares ObjectAggAccumulator :=
  object_rows self (map (fun '(k, v) => (Some k, Some v)) (concat states)).

(** Values that are no strings are left out; strings are parsed. *)
Fixpoint object_fields (entries : list (string * V)) : ares (list (string * Value)) :=
  match entries with
  | [] => Ok []
  | (key, v) :: entries =>
      match as_utf8 v with
      | Some s =>
          let? value := ok_or (from_str s) (AggFail FailedToSerializeAggregate) in
          result_map (cons (key, value)) (object_fields entries)
      | None => object_fields entries
      end
  end.

Definition object_evaluate (self : ObjectAggAccumulator) : ares string :=
  let? fields := object_fields (object_entries self) in
  Ok (to_string (VObject (foldl (fun m '(k, v) => map_insert k v m) [] fields))).

#[global] Instance object_agg : Accumulator ObjectAggAccumulator (list ArrayRef) (list (string * V)) string := {|
  update_batch := object_update;
  state := object_entries;
  merge_batch := object_merge;
  evaluate := object_evaluate |}.

(** [ObjectAggUDAF::accumulator] *)
Definition object_agg_accumulator (is_distinct : bool) (order_bys : nat) (key_type : DataType) : ares ObjectAggAccumulator :=
  if is_distinct then Err (AggExec "OBJECT_AGG does not yet support DISTINCT")
  else if negb (order_bys =? 0)%nat then Err (AggExec "OBJECT_AGG does not yet support ORDER BY")
  else match key_type with
       | TUtf8 Utf8 | TUtf8 LargeUtf8 => Ok object_new
       | _ => Err (AggExec "OBJECT_AGG key must be Utf8 or LargeUtf8")
       end.

End scalar_aggregates.

(** ** ARRAY_UNION_AGG *)

Section array_union.
Context `{Serde, Kernels}.

Inductive DType := DBoolean | DFloat64 | DUtf8 | DSemiStructured.

(** The state holds texts of JSON values. *)
Record ArrayUnionAccumulator := mkUnion {
  union_values : list string;
  union_hash : list string;
  union_type : option DType }.
Definition array_union_new : ArrayUnionAccumulator := mkUnion [] [] None.

Definition dtype_of (v : Value) : option DType :=
  match v with
  | VNull => None
  | VBool _ => Some DBoolean
  | VNumber _ => Some DFloat64
  | VString _ => Some DUtf8
  | VArray _ | VObject _ => Some DSemiStructured
  end.

(** The inner loop: the type of the last value, and the texts that are not in the set. *)
Definition last_type (t : option DType) (l : list Value) : option DType :=
  foldl (fun t v => match dtype_of v with Some d => Some d | None => t end) t l.

Definition texts (l : list Value) : list string :=
  map to_string (List.filter (fun v => match v with VNull => false | _ => true end) l).

Definition fresh (hash : list string) (l : list string) : list string :=
  List.filter (fun s => negb (existsb (String.eqb s) hash)) l.

Definition union_push (self : ArrayUnionAccumulator) (dt : option DType) (l : list string) : ArrayUnionAccumulator :=
  let buf := fresh (union_hash self) l in
  mkUnion (union_values self ++ buf) (union_hash self ++ buf) dt.

Fixpoint union_rows (self : ArrayUnionAccumulator) (rows : list (option string)) : ares ArrayUnionAccumulator :=
  match rows with
  | [] => Ok self
  | None :: rows => union_rows self rows
  | Some v :: rows =>
      let? json := ok_or (from_str v) (AggFail FailedToSerializeAggregate) in
      match json with
      | VArray l => union_rows (union_push self (last_type (union_type self) l) (texts l)) rows
      | _ => Err (AggFail ArrayUnionAggOnlySupportsJsonArray)
      end
  end.

Definition array_union_update (self : ArrayUnionAccumulator) (values : list ArrayRef) : ares ArrayUnionAccumulator :=
  match values with
  | [] => apanic
  | arr :: _ =>
      let? arr := of_arrow_agg (cast_utf8 arr) in
      match arr with
      | AUtf8 Utf8 rows => union_rows self rows
      | _ => Err (AggHalt (Raise (OtherError "could not cast")))
      end
  end.

(** [dt as u64], and back. *)
Definition dtype_number (t : DType) : Z :=
  match t with DBoolean => 0 | DFloat64 => 1 | DUtf8 => 2 | DSemiStructured => 3 end.

Definition dtype_from (n : Z) : option DType :=
  if n =? 0 then Some DBoolean else if n =? 1 then Some DFloat64
  else if n =? 2 then Some DUtf8 else if n =? 3 then Some DSemiStructured else None.

Definition array_union_merge (self : ArrayUnionAccumulator) (states : list (list string * option Z)) : ares ArrayUnionAccumulator :=
  let? row := first_state states in
  let '(values, dt) := row in
  let? dt := match dt with
    | None => Ok (union_type self)
    | Some n =>
        match dtype_from n with
        | Some t => Ok (Some t)
        | None => Err (AggFail ArrayUnionAggOnlySupportsBooleanFloat64AndUtf8)
        end
    end in
  Ok (union_push self dt values).

(** [v.parse::<bool>()] *)
Definition parse_bool (s : string) : option bool :=
  if String.eqb s "true" then Some true else if String.eqb s "false" then Some false else None.

(** [vv as i64] saturates. *)
Definition saturate_i64 (f : f64) : Z :=
  match trunc f with Some z => Z.max i64_min (Z.min i64_max z) | None => 0 end.

Definition union_value (dt : option DType) (v : string) : ares Value :=
  match dt with
  | None | Some DUtf8 => Ok (VString v)
  | Some DBoolean => result_map VBool (ok_or (parse_bool v) (AggFail FailedToParseBoolean))
  | Some DFloat64 =>
      let? vv := ok_or (parse_f64 v) (AggFail FailedToParseFloat) in
      if fract_is_zero vv then Ok (VNumber (number_from (saturate_i64 vv)))
      else result_map VNumber (ok_or (number_from_f64 vv) (AggFail FailedToParseFloatNoSource))
  | Some DSemiStructured => ok_or (from_str v) (AggFail FailedToSerializeAggregate)
  end.

Definition array_union_evaluate (self : ArrayUnionAccumulator) : ares string :=
  let? arr := traverse (union_value (union_type self)) (union_values self) in
  Ok (to_string (VArray arr)).

#[global] Instance array_union_agg : Accumulator ArrayUnionAccumulator (list ArrayRef) (list string * option Z) string := {|
  update_batch := array_union_update;
  state a := (union_values a, option_map dtype_number (union_type a));
  merge_batch := array_union_merge;
  evaluate := array_union_evaluate |}.

End array_union.

(** ** LISTAGG *)

Section listagg.
Context `{Kernels}.

(** The order in which the set of seen values is listed. *)
Variable hash_order : list string -> list string.

Record ListAggAccumulator := mkListAgg {
  la_result : option string;
  la_delimiter : string;
  delimiter_set : bool;
  la_is_distinct : bool;
  value_offset : nat;
  seen_values : list string }.

Definition listagg_new (is_distinct : bool) (value_offset : nat) : ListAggAccumulator :=
  mkListAgg None "" false is_distinct value_offset [].

(** [ListAggUDAF::accumulator] *)
Definition listagg_accumulator (exprs order_bys : nat) (is_distinct : bool) : ares ListAggAccumulator :=
  let listagg_arg_count := (exprs - order_bys)%nat in
  if (listagg_arg_count =? 0)%nat || (2 <? listagg_arg_count)%nat then Err (AggExec "LISTAGG requires 1 or 2 arguments")
  else Ok (listagg_new is_distinct order_bys).

Definition see (val : string) (l : list string) : list string := if decide (val ∈ l) then l else val :: l.

(** No delimiter is written after an empty text. *)
Definition append_text (delimiter : string) (result : option string) (val : string) : option string :=
  match result with
  | Some res => Some ((if String.eqb res "" then "" else res ++ delimiter) ++ val)
  | None => Some val
  end.

Definition append_value (self : ListAggAccumulator) (val : string) : ListAggAccumulator :=
  if la_is_distinct self && bool_decide (val ∈ seen_values self) then self
  else mkListAgg (append_text (la_delimiter self) (la_result self) val) (la_delimiter self) (delimiter_set self)
         (la_is_distinct self) (value_offset self)
         (if la_is_distinct self then see val (seen_values self) else seen_values self).

Definition append_values (self : ListAggAccumulator) (rows : list (option string)) : ListAggAccumulator :=
  foldl (fun self row => match row with Some v => append_value self v | None => self end) self rows.

Definition set_delimiter (self : ListAggAccumulator) (d : string) : ListAggAccumulator :=
  mkListAgg (la_result self) d true (la_is_distinct self) (value_offset self) (seen_values self).

(** [compute::cast] to [Utf8] and [as_string_array]. *)
Definition utf8_rows (a : ArrayRef) : ares (list (option string)) :=
  let? a := of_arrow_agg (cast_utf8 a) in
  match a with AUtf8 Utf8 rows => Ok rows | _ => apanic end.

Fixpoint first_text (rows : list (option string)) : option string :=
  match rows with [] => None | Some d :: _ => Some d | None :: rows => first_text rows end.

(** The delimiter is the first one that is not null. *)
Definition read_delimiter (self : ListAggAccumulator) (values : list ArrayRef) : ares ListAggAccumulator :=
  match values with
  | _ :: d :: _ =>
      if delimiter_set self then Ok self
      else match data_type d with
           | TNull => Ok self
           | _ =>
               let? rows := utf8_rows d in
               Ok (match first_text rows with Some d => set_delimiter self d | None => self end)
           end
  | _ => Ok self
  end.

Definition listagg_update (self : ListAggAccumulator) (values : list ArrayRef) : ares ListAggAccumulator :=
  if (length values <=? value_offset self)%nat then Ok self
  else match drop (value_offset self) values with
       | [] => apanic
       | arr :: rest =>
           let? self := read_delimiter self (arr :: rest) in
           match data_type arr with
           | TNull => Ok self
           | _ => let? rows := utf8_rows arr in Ok (append_values self rows)
           end
       end.

Definition zero_char : string := String (Ascii.ascii_of_nat 0) "".

Definition listagg_state (self : ListAggAccumulator) : option string * option string * option string :=
  (la_result self, Some (la_delimiter self),
   if la_is_distinct self then Some (join zero_char (hash_order (seen_values self))) else None).

(** The seen values of every state are added before its text is appended as one value. *)
Definition merge_seen (l : list string) (row : option string) : list string :=
  match row with
  | Some s => if String.eqb s "" then l else foldl (fun l v => see v l) l (split s zero_char)
  | None => l
  end.

Definition listagg_merge (self : ListAggAccumulator) (states : list (option string * option string * option string)) : ares ListAggAccumulator :=
  let self :=
    if delimiter_set self then self
    else match map (fun s => snd (fst s)) states with Some d :: _ => set_delimiter self d | _ => self end in
  let self :=
    if la_is_distinct self then
      mkListAgg (la_result self) (la_delimiter self) (delimiter_set self) true (value_offset self)
        (foldl merge_seen (seen_values self) (map snd states))
    else self in
  Ok (append_values self (map (fun s => fst (fst s)) states)).

Definition listagg_evaluate (self : ListAggAccumulator) : string := default "" (la_result self).

#[global] Instance listagg : Accumulator ListAggAccumulator (list ArrayRef) (option string * option string * option string) string := {|
  update_batch := listagg_update;
  state := listagg_state;
  merge_batch := listagg_merge;
  evaluate a := Ok (listagg_evaluate a) |}.

End listagg.

(** ** PERCENTILE_CONT *)

Section percentile.

(** The fused multiply-add of the machine. *)
Variable mul_add : f64 -> f64 -> f64 -> f64.

Record PercentileContAccumulator := mkPercentile { percentile : f64; percentile_values : list f64 }.

Definition f64_of_Z (z : Z) : f64 := binary_normalize 53 1024 z 0 false.
Definition f64_one : f64 := f64_of_Z 1.

(** [validate_input_percentile_expr] on the literal, and [accumulator]. *)
Definition validate_percentile (s : ScalarValue) : ares f64 :=
  let? p := match s with
    | SFloat Float32 (Some v) => Ok (f64_from v)
    | SFloat Float64 (Some v) => Ok v
    | _ => Err (AggExec "Percentile value for 'PERCENTILE_CONT' must be Float32 or Float64 literal")
    end in
  if SFleb (f64_of_Z 0) p && SFleb p f64_one then Ok p
  else Err (AggExec "Percentile value must be between 0.0 and 1.0 inclusive").

Definition percentile_accumulator (s : ScalarValue) (is_descending : bool) : ares PercentileContAccumulator :=
  let? p := validate_percentile s in
  Ok (mkPercentile (if is_descending then SFsub 53 1024 f64_one p else p) []).

(** [value_to_f64] of the rows that are not null: other types push nothing. *)
Definition numbers (a : ArrayRef) : list f64 :=
  match a with
  | AFloat Float64 rows => flatten rows
  | AFloat Float32 rows => map f64_from (flatten rows)
  | AInt _ rows => map f64_of_Z (flatten rows)
  | _ => []
  end.

Definition percentile_update (self : PercentileContAccumulator) (values : list ArrayRef) : ares PercentileContAccumulator :=
  match values with
  | [] => Ok self
  | array :: _ => Ok (mkPercentile (percentile self) (percentile_values self ++ numbers array))
  end.

(** [f64::EPSILON], 2^-52. *)
Definition epsilon : f64 := S754_finite false 4503599627370496 (-104).

(** [index.floor() as usize]: negative numbers and NaN give 0. *)
Definition floor_usize (f : f64) : nat :=
  match f with
  | S754_finite true _ _ => 0%nat
  | _ => match trunc f with Some z => Z.to_nat (Z.min z u64_max) | None => match f with S754_infinity false => Z.to_nat u64_max | _ => 0%nat end end
  end.

Definition percentile_evaluate (self : PercentileContAccumulator) : ares (option f64) :=
  let values := sort_by f64_cmp (percentile_values self) in
  match values with
  | [] => Ok None
  | [v] => Ok (Some v)
  | _ =>
      let index := SFmul 53 1024 (percentile self) (SFsub 53 1024 (f64_of_Z (Z.of_nat (length values))) f64_one) in
      let lower_idx := floor_usize index in
      let factor := SFsub 53 1024 index (f64_of_Z (Z.of_nat lower_idx)) in
      if SFltb (SFabs factor) epsilon then result_map Some (ok_or (values !! lower_idx) (AggHalt Panic))
      else
        let? upper := ok_or (values !! S lower_idx) (AggHalt Panic) in
        let? lower := ok_or (values !! lower_idx) (AggHalt Panic) in
        Ok (Some (mul_add (SFsub 53 1024 upper lower) factor lower))
  end.

(** The state is the percentile of the partition, not its values. *)
Definition percentile_state (self : PercentileContAccumulator) : f64 * ares (option f64) :=
  (percentile self, percentile_evaluate self).

Definition percentile_merge (self : PercentileContAccumulator) (states : list (f64 * ares (option f64))) : ares PercentileContAccumulator :=
  let? values := traverse snd states in
  Ok (mkPercentile (percentile self) (percentile_values self ++ flatten values)).

#[global] Instance percentile_cont : Accumulator PercentileContAccumulator (list ArrayRef) (f64 * ares (option f64)) (option f64) := {|
  update_batch := percentile_update;
  state := percentile_state;
  merge_batch := percentile_merge;
  evaluate := percentile_evaluate |}.

End percentile.

(** ** Aggregation in one phase and in two *)

Section phases.
Context {Acc Batch State Out : Type} `{!Accumulator Acc Batch State Out}.

Fixpoint accumulate (a : Acc) (batches : list Batch) : ares Acc :=
  match batches with [] => Ok a | b :: bs => let? a := update_batch a b in accumulate a bs end.

(** Every state in a batch of its own. *)
Fixpoint merge_all (a : Acc) (states : list State) : ares Acc :=
  match states with [] => Ok a | s :: ss => let? a := merge_batch a [s] in merge_all a ss end.

Definition one_phase (new : Acc) (batches : list Batch) : ares Out :=
  let? a := accumulate new batches in evaluate a.

(** The partitions are accumulated on their own; another accumulator merges their states. *)
Definition two_phases (new : Acc) (parts : list (list Batch)) : ares Out :=
  let? states := traverse (fun batches => result_map state (accumulate new batches)) parts in
  let? a := merge_all new states in evaluate a.

(** The states of several partitions in one batch. *)
Fixpoint merge_batches (a : Acc) (batches : list (list State)) : ares Acc :=
  match batches with [] => Ok a | b :: bs => let? a := merge_batch a b in merge_batches a bs end.

Definition states_of (new : Acc) (parts : list (list Batch)) : ares (list State) :=
  traverse (fun batches => result_map state (accumulate new batches)) parts.

Definition merging (new : Acc) (groups : list (list (list Batch))) : ares Out :=
  let? states := traverse (states_of new) groups in
  let? a := merge_batches new states in evaluate a.

(** An accumulator is lawful when it is determined by the rows it has seen, and merging a state is
    seeing the rows of its accumulator. *)
Class MergeLaws (new : Acc) := {
  row : Type;
  rows : Batch -> ares (list row);
  acc_of : list row -> Acc;
  acc_new : acc_of [] = new;
  update_law : forall l b r, rows b = Ok r -> update_batch (acc_of l) b = Ok (acc_of (l ++ r));
  merge_law : forall l k, merge_batch (acc_of l) [state (acc_of k)] = Ok (acc_of (l ++ k))
}.

(** Batches whose rows can be read. *)
Definition readable (new : Acc) `{!MergeLaws new} (b : Batch) : Prop := exists r, rows b = Ok r.

(** Cutting the input into partitions and their states into batches of the given sizes does not change the result. *)
Definition phases_agree (new : Acc) `{!MergeLaws new} (size : nat -> Prop) : Prop :=
  forall groups, Forall (fun group => size (length group)) groups -> Forall (Forall (Forall (readable new))) groups ->
    merging new groups = one_phase new (concat (concat groups)).

Context (new : Acc) `{!MergeLaws new}.

Lemma readable_rows batches : Forall (readable new) batches -> exists k, traverse rows batches = Ok k.
Proof.
  induction 1 as [|b bs [r Hr] _ [k Hk]]; [by exists []|]. exists (r :: k). simpl. by rewrite Hr, Hk.
Qed.

Lemma accumulate_rows l batches k :
  traverse rows batches = Ok k -> accumulate (acc_of l) batches = Ok (acc_of (l ++ concat k)).
Proof.
  revert l k. induction batches as [|b bs IH]; intros l k; simpl.
  - intros [= <-]. by rewrite app_nil_r.
  - destruct (rows b) as [r|] eqn:Hr; [|done]. simpl. destruct (traverse rows bs) as [k'|] eqn:Hk; [|done].
    intros [= <-]. rewrite (update_law l b r Hr). simpl. rewrite (IH _ _ eq_refl). simpl. by rewrite app_assoc.
Qed.

Lemma accumulate_app a p q : accumulate a (p ++ q) = let? a := accumulate a p in accumulate a q.
Proof. revert a. induction p as [|b p IH]; intros a; [done|]. simpl. destruct (update_batch a b); simpl; [apply IH|done]. Qed.

Lemma states_rows parts : Forall (Forall (readable new)) parts ->
  exists ks, states_of (acc_of []) parts = Ok (map (fun k => state (acc_of k)) ks) /\ length ks = length parts /\
    forall l, accumulate (acc_of l) (concat parts) = Ok (acc_of (l ++ concat ks)).
Proof.
  unfold states_of. induction 1 as [|p ps Hb _ (ks & E & Hn & Hk)]; simpl.
  - exists []. split_and!; [done..|]. intros l. simpl. by rewrite app_nil_r.
  - destruct (readable_rows p Hb) as [k Hrows]. rewrite (accumulate_rows [] p k Hrows), E. simpl. exists (concat k :: ks).
    split_and!; [done|simpl; by rewrite Hn|]. intros l. rewrite accumulate_app, (accumulate_rows l p k Hrows). simpl. rewrite Hk. simpl.
    by rewrite app_assoc.
Qed.

(** Batches of states that are merged as the rows behind them. *)
Definition merges_rows (size : nat -> Prop) : Prop :=
  forall l ks, size (length ks) -> merge_batch (acc_of l) (map (fun k => state (acc_of k)) ks) = Ok (acc_of (l ++ concat ks)).

Lemma single_merges : merges_rows (fun n => n = 1%nat).
Proof. intros l [|k [|]] Hn; try done. cbn [map concat]. rewrite app_nil_r. apply merge_law. Qed.

Lemma lawful_phases size : merges_rows size -> phases_agree new size.
Proof.
  intros Hlaw groups Hs Hr. unfold merging, one_phase. rewrite <- acc_new.
  enough (exists states, traverse (states_of (acc_of [])) groups = Ok states /\
    forall l, merge_batches (acc_of l) states = accumulate (acc_of l) (concat (concat groups))) as (states & -> & Hm) by (cbn [result_bind]; by rewrite Hm).
  revert Hs. induction Hr as [|g gs Hg _ IH]; intros Hs; [by exists []|]. apply Forall_cons in Hs as [Hn Hs].
  destruct (IH Hs) as (states & E & Hm). destruct (states_rows g Hg) as (ks & Ek & Hl & Hk). cbn [traverse]. rewrite Ek, E. cbn [result_bind result_map].
  eexists. split; [done|]. intros l. cbn [concat]. rewrite concat_app, accumulate_app, Hk. cbn [merge_batches result_bind].
  rewrite Hlaw by (by rewrite Hl). cbn [result_bind]. apply Hm.
Qed.

End phases.

(** ** The lawful accumulators *)

(** BOOLAND_AGG: the conjunction of the values that are not null. *)
Definition conjunction (l : list (option bool)) : option bool :=
  if has false l then Some false else if any_some l then Some true else None.

Lemma has_app b l k : has b (l ++ k) = has b l || has b k.
Proof. apply existsb_app. Qed.
Lemma any_some_app l k : any_some (l ++ k) = any_some l || any_some k.
Proof. apply existsb_app. Qed.
Lemma has_any_some b l : has b l = true -> any_some l = true.
Proof. unfold has, any_some. rewrite !existsb_exists. intros ([v|] & Hv & E); [|done]. by exists (Some v). Qed.

Definition bool_rows (values : list ArrayRef) : ares (list (option bool)) :=
  match values with [] => Ok [] | arr :: _ => array_to_boolean arr end.

#[global] Instance bool_and_laws : MergeLaws (bool_new : BoolState BoolAndAgg).
Proof.
  refine {| row := option bool; rows := bool_rows; acc_of l := mkBool (conjunction l) : BoolState BoolAndAgg |}; [done|..].
  - intros l [|arr values] r; simpl; unfold BoolAnd.update_batch; simpl.
    + intros [= <-]. by rewrite app_nil_r.
    + intros Hr. rewrite Hr. unfold conjunction. rewrite has_app, any_some_app. destruct (has false l) eqn:Hl; [done|]. simpl.
      destruct (any_some l), (has false r) eqn:Hf; try done; by destruct (any_some r).
  - intros l k. unfold BoolAnd.merge_batch, conjunction; simpl. rewrite has_app, any_some_app.
    destruct (has false l); [done|]. simpl. destruct (any_some l), (has false k); simpl; try done; by destruct (any_some k).
Defined.

Section scalar_laws.
Context {V : Type} `{EqDecision V, !ScalarExt V}.

(** One scalar per row. *)
Class ScalarRows : Prop := scalars_length : forall a l, scalars a = Ok l -> length l = len a.
Context `{!ScalarRows}.

(** ANY_VALUE: the first row. *)
Definition any_of (l : list (option V)) : AnyValueAccumulator :=
  match l with [] => any_value_new | v :: _ => mkAny v true end.

Definition any_rows (values : list ArrayRef) : ares (list (option V)) :=
  match values with
  | [] => Ok []
  | arr :: _ => if (len arr =? 0)%nat then Ok [] else of_arrow_agg (scalars arr)
  end.

#[global] Instance any_value_laws : MergeLaws (any_value_new : AnyValueAccumulator (V := V)).
Proof.
  refine {| row := option V; rows := any_rows; acc_of := any_of |}; [done|..].
  - intros l [|arr values] r; unfold update_batch, any_value_agg, any_rows, any_value_update.
    + intros [= <-]. rewrite app_nil_r. by destruct l.
    + destruct (Nat.eqb_spec (len arr) 0) as [|Hne].
      * intros [= <-]. rewrite app_nil_r. by destruct l.
      * destruct (scalars arr) as [ss|] eqn:Hs; [|done]. simpl. intros [= <-]. destruct l; [|done]. simpl.
        pose proof (scalars_length _ _ Hs). destruct ss; [done|]. done.
  - intros l k. by destruct l, k.
Defined.

Lemma any_value_merges : merges_rows (any_value_new : AnyValueAccumulator (V := V)) (fun _ => True).
Proof.
  intros l ks _. induction ks as [|k ks IH]; cbn [map concat]; [by rewrite app_nil_r|].
  destruct k as [|v k]; cbn [app]; [|by destruct l]. rewrite <- IH. by destruct l.
Qed.

(** ARRAY_UNIQUE_AGG: the distinct values, in the order of their first occurrence. *)
Definition unique_of (l : list (option V)) : ArrayUniqueAggAccumulator := foldl unique_push array_unique_new l.

Definition scalar_rows (values : list ArrayRef) : ares (list (option V)) :=
  match values with [] => apanic | arr :: _ => of_arrow_agg (scalars arr) end.

Lemma unique_push_hash (a : ArrayUniqueAggAccumulator (V := V)) l v :
  v ∈ unique_hash (foldl unique_push a l) <-> v ∈ unique_hash a \/ Some v ∈ l.
Proof.
  revert a. induction l as [|[w|] l IH]; intros a; simpl.
  - split; [by left|]. intros [|Hn]; [done|]. by apply elem_of_nil in Hn.
  - rewrite IH. unfold unique_push. destruct (decide (w ∈ unique_hash a)); simpl;
      rewrite elem_of_cons; [naive_solver|]. rewrite elem_of_app, list_elem_of_singleton. naive_solver.
  - rewrite IH, elem_of_cons. naive_solver.
Qed.

(** Pushing the distinct values of rows is pushing the rows. *)
Lemma unique_push_values (a : ArrayUniqueAggAccumulator (V := V)) l :
  foldl unique_push a (map Some (unique_values (unique_of l))) = foldl unique_push a l.
Proof.
  induction l as [|x l IH] using rev_ind; [done|]. unfold unique_of in *. rewrite !foldl_snoc.
  destruct x as [v|]; [|exact IH]. unfold unique_push at 2.
  destruct (decide (v ∈ unique_hash (foldl unique_push array_unique_new l))) as [Hv|Hv].
  - rewrite IH. unfold unique_push at 2. rewrite decide_True; [done|].
    apply unique_push_hash. right. apply unique_push_hash in Hv as [Hv|Hv]; [|done]. by apply elem_of_nil in Hv.
  - simpl. rewrite map_app, foldl_app, IH. done.
Qed.

Context `{ArrowExt, Serde, Kernels}.

#[global] Instance array_unique_laws : MergeLaws (array_unique_new : ArrayUniqueAggAccumulator (V := V)).
Proof.
  refine {| row := option V; rows := scalar_rows; acc_of := unique_of |}; [done|..].
  - intros l [|arr values] r; unfold update_batch, array_unique_agg, array_unique_update, scalar_rows; [done|].
    intros Hr. rewrite Hr. simpl. unfold unique_of. by rewrite foldl_app.
  - intros l k. unfold merge_batch, state, array_unique_agg, array_unique_merge. simpl. rewrite unique_push_values.
    unfold unique_of. by rewrite foldl_app.
Defined.

End scalar_laws.

(** ARRAY_UNION_AGG: each array adds the values that no earlier one had. *)
Section union_laws.
Context `{Serde, Kernels}.

Definition union_step (a : ArrayUnionAccumulator) (l : list Value) : ArrayUnionAccumulator :=
  union_push a (last_type (union_type a) l) (texts l).
Definition union_of (ls : list (list Value)) : ArrayUnionAccumulator := foldl union_step array_union_new ls.

Definition parse_array (v : string) : ares (list Value) :=
  let? json := ok_or (from_str v) (AggFail FailedToSerializeAggregate) in
  match json with VArray l => Ok l | _ => Err (AggFail ArrayUnionAggOnlySupportsJsonArray) end.

Definition union_batch (values : list ArrayRef) : ares (list (list Value)) :=
  match values with
  | [] => apanic
  | arr :: _ =>
      let? arr := of_arrow_agg (cast_utf8 arr) in
      match arr with
      | AUtf8 Utf8 rows => traverse parse_array (flatten rows)
      | _ => Err (AggHalt (Raise (OtherError "could not cast")))
      end
  end.

Lemma union_rows_fold a rows r : traverse parse_array (flatten rows) = Ok r -> union_rows a rows = Ok (foldl union_step a r).
Proof.
  revert a r. induction rows as [|[v|] rows IH]; intros a r; simpl; [by intros [= <-]| |apply IH].
  unfold parse_array at 1. destruct (from_str v) as [[| | | |l|]|]; simpl; try done.
  destruct (traverse parse_array (flatten rows)) as [r'|]; simpl; [|done]. intros [= <-]. by rewrite (IH _ r').
Qed.

Lemma fresh_app h l k : fresh h (l ++ k) = (fresh h l ++ fresh h k)%list.
Proof. apply List.filter_app. Qed.

Lemma fresh_fresh h g l : fresh (h ++ fresh h g) l = fresh h (fresh g l).
Proof.
  unfold fresh. induction l as [|s l IH]; [done|]. simpl. rewrite IH. rewrite existsb_app.
  destruct (existsb (String.eqb s) g) eqn:Hg; simpl.
  - destruct (existsb (String.eqb s) h) eqn:Hh; [done|]. simpl.
    replace (existsb (String.eqb s) (List.filter _ g)) with true; [done|]. symmetry.
    apply existsb_exists in Hg as (x & Hx & E). apply String.eqb_eq in E as <-.
    apply existsb_exists. exists s. rewrite filter_In, Hh, String.eqb_refl. done.
  - destruct (existsb (String.eqb s) h) eqn:Hh; simpl; [done|].
    replace (existsb (String.eqb s) (List.filter _ g)) with false; [done|]. symmetry.
    apply not_true_iff_false. intros Hx. apply existsb_exists in Hx as (x & Hx & E).
    apply filter_In in Hx as [Hx _]. apply not_true_iff_false in Hg. apply Hg, existsb_exists. eauto.
Qed.

Lemma union_hash_values ls a : union_hash a = union_values a ->
  union_hash (foldl union_step a ls) = union_values (foldl union_step a ls).
Proof. revert a. induction ls as [|l ls IH]; intros a Ha; [done|]. simpl. apply IH. simpl. by rewrite Ha. Qed.

Lemma last_type_from t l : last_type t l = match last_type None l with Some d => Some d | None => t end.
Proof.
  unfold last_type. induction l as [|v l IH] using rev_ind; [done|]. rewrite !foldl_snoc, IH.
  by destruct (dtype_of v).
Qed.

(** Pushing the values of arrays at once is pushing the arrays. *)
Lemma union_push_all a ls : union_hash a = union_values a ->
  foldl union_step a ls =
    mkUnion (union_values a ++ fresh (union_hash a) (union_values (union_of ls)))
            (union_hash a ++ fresh (union_hash a) (union_values (union_of ls)))
            (match union_type (union_of ls) with Some d => Some d | None => union_type a end).
Proof.
  intros Ha. induction ls as [|l ls IH] using rev_ind.
  - simpl. rewrite !app_nil_r. by destruct a.
  - unfold union_of in *. rewrite !foldl_snoc, IH. unfold union_step at 1, union_push. simpl.
    rewrite (union_hash_values ls array_union_new eq_refl).
    assert (fresh (union_hash a ++ fresh (union_hash a) (union_values (foldl union_step array_union_new ls))) (texts l)
            = fresh (union_hash a) (fresh (union_values (foldl union_step array_union_new ls)) (texts l))) as E by apply fresh_fresh.
    rewrite E, fresh_app, !app_assoc. f_equal.
    rewrite (last_type_from (union_type (foldl union_step array_union_new ls)) l), last_type_from.
    by destruct (last_type None l).
Qed.

#[global] Instance array_union_laws : MergeLaws array_union_new.
Proof.
  refine {| row := list Value; rows := union_batch; acc_of := union_of |}; [done|..].
  - intros l [|arr values] r; unfold update_batch, array_union_agg, array_union_update, union_batch; [done|].
    destruct (cast_utf8 arr) as [a|]; [|done]. simpl. destruct a as [| | | |[] rows| | | | | | | | | | | | | ]; try done.
    intros Hr. rewrite (union_rows_fold _ _ _ Hr). unfold union_of. by rewrite foldl_app.
  - intros l k. unfold merge_batch, state, array_union_agg, array_union_merge. simpl.
    assert (union_of (l ++ k) = foldl union_step (union_of l) k) as -> by (unfold union_of; by rewrite foldl_app).
    rewrite union_push_all by (by apply union_hash_values).
    unfold union_push. destruct (union_type (union_of k)) as [[]|]; simpl; done.
Defined.

End union_laws.

(** ** What the aggregates compute *)

(** C40: the phases of an aggregation do not matter for ANY_VALUE, however the states of the partitions are cut into the batches that are
    merged, nor for BOOLAND_AGG, ARRAY_UNIQUE_AGG and ARRAY_UNION_AGG as long as every state is merged in a batch of its own: accumulating
    the partitions separately and merging their states gives the result of one accumulator over all batches of the input. (Of a batch
    with several states these three read the first only: [first_state_only].) *)
Theorem aggregates_in_two_phases {V} `{EqDecision V, !ScalarExt V, !ScalarRows, ArrowExt, Serde, Kernels} :
  phases_agree (any_value_new : AnyValueAccumulator (V := V)) (fun _ => True) /\
  phases_agree (bool_new : BoolState BoolAndAgg) (fun n => n = 1%nat) /\
  phases_agree (array_unique_new : ArrayUniqueAggAccumulator (V := V)) (fun n => n = 1%nat) /\
  phases_agree array_union_new (fun n => n = 1%nat).
Proof. repeat split; apply lawful_phases; [apply any_value_merges|apply single_merges..]. Qed.

(** How many values are true. *)
Definition trues (l : list (option bool)) : nat :=
  length (List.filter (fun v => match v with Some true => true | _ => false end) l).

Lemma has_true_trues l : has true l = negb (trues l =? 0)%nat.
Proof.
  unfold trues. induction l as [|[[]|] l IH]; simpl; [done..| |]; by rewrite IH.
Qed.

Lemma scan_spec self is_null l : self <> Some false ->
  BoolXor.scan self is_null l =
    let n := (trues l + match self with Some true => 1 | _ => 0 end)%nat in
    match n with
    | 0%nat => inl (self, is_null && negb (any_some l))
    | 1%nat => inl (Some true, is_null && negb (any_some l))
    | _ => inr (Some false)
    end.
Proof.
  revert self is_null. induction l as [|v l IH]; intros self is_null Hs; simpl.
  - rewrite andb_true_r. by destruct self as [[]|].
  - unfold trues in *. destruct v as [[]|]; simpl.
    + destruct self as [[]|]; [|done|].
      * by replace (length (List.filter _ l) + 1)%nat with (S (length (List.filter (fun v => match v with Some true => true | _ => false end) l))) by lia.
      * rewrite IH by done. simpl. rewrite andb_false_r.
        replace (length (List.filter _ l) + 1)%nat with (S (length (List.filter (fun v => match v with Some true => true | _ => false end) l) + 0)) by lia. done.
    + rewrite IH by done. simpl. by rewrite andb_false_r.
    + by rewrite IH.
Qed.

(** Over a single batch the boolean aggregates compute what they document: null when every value
    is null, and otherwise whether all values are true (BOOLAND_AGG), some value is (BOOLOR_AGG), or
    exactly one value is (BOOLXOR_AGG); numbers count as true unless they are zero. *)
Theorem bool_aggregates_one_batch arr l : array_to_boolean arr = Ok l ->
  let null_or b := Ok (if any_some l then Some b else None) in
  one_phase (bool_new : BoolState BoolAndAgg) [[arr]] = null_or (negb (has false l)) /\
  one_phase (bool_new : BoolState BoolOrAgg) [[arr]] = null_or (has true l) /\
  one_phase (bool_new : BoolState BoolXorAgg) [[arr]] = null_or (trues l =? 1)%nat.
Proof.
  intros Hl. unfold one_phase; simpl. unfold BoolAnd.update_batch, BoolOr.update_batch, BoolXor.update_batch; simpl. rewrite Hl. simpl.
  split; [|split].
  - destruct (has false l) eqn:E; [by rewrite (has_any_some _ _ E)|]. by destruct (any_some l).
  - destruct (has true l) eqn:E; [by rewrite (has_any_some _ _ E)|]. by destruct (any_some l).
  - rewrite scan_spec by done. pose proof (has_true_trues l) as Ht.
    destruct (trues l) as [|[|n]]; simpl in *.
    + by destruct (any_some l).
    + by rewrite (has_any_some _ _ Ht).
    + by rewrite (has_any_some _ _ Ht).
Qed.

(** Over several batches BOOLOR_AGG and BOOLXOR_AGG depend on how the rows are cut: a batch of
    false values makes every later true value invisible, and after a true value BOOLOR_AGG forgets it
    when a batch of false values follows. *)
Theorem bool_aggregates_depend_on_batches :
  let batch b := [ABoolean [Some b]] in
  let both a b := [[ABoolean [Some a; Some b]]] in
  one_phase (bool_new : BoolState BoolOrAgg) (both false true) = Ok (Some true) /\
  one_phase (bool_new : BoolState BoolOrAgg) [batch false; batch true] = Ok (Some false) /\
  one_phase (bool_new : BoolState BoolOrAgg) [batch true; batch false] = Ok (Some false) /\
  one_phase (bool_new : BoolState BoolXorAgg) (both false true) = Ok (Some true) /\
  one_phase (bool_new : BoolState BoolXorAgg) [batch false; batch true] = Ok (Some false).
Proof. by repeat split. Qed.

(** *** ARRAY_UNIQUE_AGG *)

Section unique.
Context {V : Type} `{EqDecision V, !ScalarExt V}.

Lemma unique_of_values (l : list (option V)) :
  unique_hash (unique_of l) = unique_values (unique_of l) /\ NoDup (unique_values (unique_of l)).
Proof.
  unfold unique_of. induction l as [|x l [IHh IHn]] using rev_ind; [split; [done|constructor]|]. rewrite foldl_snoc.
  revert IHh IHn. generalize (foldl unique_push array_unique_new l) as a. intros a IHh IHn.
  destruct x as [v|]; [|done]. unfold unique_push. destruct (decide _) as [|Hv]; [done|]. simpl.
  split; [by rewrite IHh|]. rewrite IHh in Hv. apply NoDup_app. split; [done|]. split.
  - intros w Hw Hs. apply list_elem_of_singleton in Hs as ->. done.
  - by apply NoDup_singleton.
Qed.

(** ARRAY_UNIQUE_AGG keeps every value that is not null exactly once, and keeps the values in
    the order of their first occurrence: cutting the input after any row cuts the result. *)
Theorem array_unique_correct (l k : list (option V)) :
  NoDup (unique_values (unique_of l)) /\
  (forall v, v ∈ unique_values (unique_of l) <-> Some v ∈ l) /\
  exists rest, unique_values (unique_of (l ++ k)) = (unique_values (unique_of l) ++ rest)%list.
Proof.
  destruct (unique_of_values l) as [Hh Hn]. split; [done|]. split.
  - intros v. rewrite <- Hh. unfold unique_of. rewrite unique_push_hash. split; [|by right].
    intros [Hv|Hv]; [|done]. by apply elem_of_nil in Hv.
  - unfold unique_of. rewrite foldl_app. generalize (foldl unique_push array_unique_new l) as a.
    induction k as [|x k IH]; intros a; [exists []; by rewrite app_nil_r|]. simpl.
    destruct (IH (unique_push a x)) as [rest Hr]. rewrite Hr. destruct x as [v|]; [|eauto].
    simpl. destruct (decide _); [eauto|]. simpl. exists ([v] ++ rest)%list. by rewrite app_assoc.
Qed.

(** *** OBJECT_AGG *)

(** The pairs of the rows where neither is null. *)
Fixpoint object_pairs (rows : list (option string * option V)) : list (string * V) :=
  match rows with
  | [] => []
  | (Some k, Some v) :: rows => (k, v) :: object_pairs rows
  | _ :: rows => object_pairs rows
  end.

Lemma object_rows_Ok a rows :
  NoDup (object_pairs rows).*1 -> (forall k, k ∈ (object_pairs rows).*1 -> k ∉ keys_seen a) ->
  object_rows a rows = Ok (mkObject (object_entries a ++ object_pairs rows) (reverse (object_pairs rows).*1 ++ keys_seen a)).
Proof.
  revert a. induction rows as [|[[k|] [v|]] rows IH]; intros a Hn Hd; cbn [object_rows object_pairs fmap list_fmap] in *; auto.
  - rewrite app_nil_r. by destruct a.
  - apply NoDup_cons in Hn as [Hk Hn]. unfold object_push. rewrite decide_False by (apply Hd; left). simpl.
    rewrite IH; [|done|].
    + simpl. rewrite <- app_assoc. by rewrite reverse_cons, <- app_assoc.
    + intros k' Hk' Hs. simpl in Hs. apply elem_of_cons in Hs as [->|Hs]; [done|]. apply (Hd k'); [by right|done].
Qed.

Lemma object_rows_new rows : NoDup (object_pairs rows).*1 ->
  object_rows object_new rows = Ok (mkObject (object_pairs rows) (reverse (object_pairs rows).*1)).
Proof.
  intros Hn. rewrite object_rows_Ok; [simpl; by rewrite app_nil_r|done|]. intros k _ Hk. by apply elem_of_nil in Hk.
Qed.

Lemma object_pairs_app l k : object_pairs (l ++ k) = (object_pairs l ++ object_pairs k)%list.
Proof. induction l as [|[[x|] [y|]] l IH]; simpl; rewrite ?IH; done. Qed.

Lemma object_rows_dup a rows :
  ~ (NoDup (object_pairs rows).*1 /\ (forall k, k ∈ (object_pairs rows).*1 -> k ∉ keys_seen a)) ->
  exists k, k ∈ (object_pairs rows).*1 /\ object_rows a rows = Err (duplicate_key k).
Proof.
  revert a. induction rows as [|[[k|] [v|]] rows IH]; intros a Hn; cbn [object_rows object_pairs fmap list_fmap] in *; auto.
  - destruct Hn. split; [constructor|]. intros k Hk. by apply elem_of_nil in Hk.
  - unfold object_push. destruct (decide (k ∈ keys_seen a)) as [Hk|Hk].
    + exists k. split; [left|done].
    + simpl. destruct (IH (mkObject (object_entries a ++ [(k, v)]) (k :: keys_seen a))) as (k' & Hk' & E).
      * intros [Hn' Hd]. apply Hn. split.
        -- constructor; [|done]. intros Hk'. apply (Hd k Hk'). by left.
        -- intros k' [->|Hk']%elem_of_cons; [done|]. intros Hs. apply (Hd k' Hk'). by right.
      * exists k'. split; [by right|done].
Qed.

Lemma object_pairs_some l : object_pairs (map (fun '(k, v) => (Some k, Some v)) l) = l.
Proof. induction l as [|[k v] l IH]; [done|]. simpl. by rewrite IH. Qed.

(** OBJECT_AGG collects the pairs in which neither key nor value is null, in order, when their
    keys are distinct, and is an error naming a duplicated key otherwise; merging the state of another
    accumulator is the same as having seen its rows. *)
Theorem object_agg_correct rows rows' :
  let pairs := object_pairs rows in
  (NoDup pairs.*1 -> exists a, object_rows object_new rows = Ok a /\ object_entries a = pairs) /\
  (~ NoDup pairs.*1 -> exists k, k ∈ pairs.*1 /\ object_rows object_new rows = Err (duplicate_key k)) /\
  (NoDup (object_pairs (rows ++ rows')).*1 -> exists a b,
     object_rows object_new rows = Ok a /\ object_rows object_new rows' = Ok b /\
     object_merge a [object_entries b] = object_rows object_new (rows ++ rows')).
Proof.
  intros pairs. split; [|split].
  - intros Hn. rewrite object_rows_new by done. by eexists.
  - intros Hn. apply object_rows_dup. by intros [? _].
  - intros Hn. rewrite (object_rows_new _ Hn). rewrite object_pairs_app, fmap_app in *.
    pose proof Hn as (Hn1 & Hd & Hn2)%NoDup_app. rewrite !object_rows_new by done.
    eexists _, _. split; [done|]. split; [done|].
    unfold object_merge. cbn [object_entries concat]. rewrite app_nil_r, object_rows_Ok; rewrite object_pairs_some; [|done|].
    + cbn [object_entries keys_seen]. by rewrite reverse_app.
    + cbn [keys_seen]. intros k Hk. rewrite elem_of_reverse. intros Hk'. by apply (Hd k).
Qed.

End unique.

(** *** LISTAGG *)

Section listagg_text.
Context `{Kernels}.

(** [cast] leaves [Utf8] columns alone. *)
Class CastLaws : Prop := cast_utf8_id : forall rows, cast_utf8 (AUtf8 Utf8 rows) = Ok (AUtf8 Utf8 rows).
Context `{!CastLaws} (hash_order : list string -> list string).
#[local] Existing Instance listagg.

(** An accumulator without DISTINCT that knows its delimiter. *)
Definition listing (d : string) (r : option string) : ListAggAccumulator := mkListAgg r d true false 0 [].

Lemma append_values_listing d r rows :
  append_values (listing d r) rows = listing d (foldl (append_text d) r (flatten rows)).
Proof. revert r. induction rows as [|[v|] rows IH]; intros r; simpl; [done|apply IH..]. Qed.

(** Appending texts that are not empty is joining them. *)
Lemma append_texts_some d r l : r <> "" -> Forall (fun s => s <> "") l ->
  foldl (append_text d) (Some r) l = Some (join d (r :: l)).
Proof.
  intros Hr Hl. revert r Hr. induction Hl as [|s l Hs Hl IH]; intros r Hr; simpl; [done|].
  destruct (String.eqb_spec r ""); [done|]. rewrite IH.
  - f_equal. destruct l as [|x l]; [by rewrite string_app_assoc|].
    change (join d (((r ++ d) ++ s)%string :: x :: l)) with (((r ++ d) ++ s) ++ d ++ join d (x :: l))%string.
    change (join d (s :: x :: l)) with (s ++ d ++ join d (x :: l))%string. by rewrite <- !string_app_assoc.
  - by destruct r.
Qed.

Definition joined (d : string) (l : list string) : option string := match l with [] => None | _ => Some (join d l) end.

Lemma append_texts d l : Forall (fun s => s <> "") l -> foldl (append_text d) None l = joined d l.
Proof. intros Hl. destruct Hl as [|s l Hs Hl]; [done|]. simpl. by rewrite append_texts_some. Qed.

Lemma join_app_texts d l k : l <> [] -> k <> [] -> join d (l ++ k) = (join d l ++ d ++ join d k)%string.
Proof.
  intros Hl Hk. induction l as [|x l IH]; [done|]. destruct l as [|y l].
  - simpl. destruct k; [done|]. done.
  - rewrite (join_cons_nonnil _ _ (y :: l)) by done. simpl app. rewrite join_cons_nonnil by done.
    change ((y :: l) ++ k)%list with (y :: l ++ k)%list in IH. rewrite IH by done. by rewrite <- !string_app_assoc.
Qed.

Lemma join_nonempty d l : Forall (fun s => s <> "") l -> l <> [] -> join d l <> "".
Proof. intros Hl Hne. destruct Hl as [|s l Hs Hl]; [done|]. destruct l; [done|]. rewrite join_cons_nonnil by done. by destruct s. Qed.

(** Appending joined texts is joining all of them. *)
Lemma append_joined d ls : Forall (Forall (fun s => s <> "")) ls ->
  foldl (append_text d) None (flatten (map (joined d) ls)) = joined d (concat ls).
Proof.
  intros Hls. enough (forall l, Forall (fun s => s <> "") l ->
    foldl (append_text d) (joined d l) (flatten (map (joined d) ls)) = joined d (l ++ concat ls)) as He by (by apply (He [])).
  induction Hls as [|k ls Hk Hls IH]; intros l Hl; simpl; [by rewrite app_nil_r|].
  destruct k as [|x k]; [apply IH, Hl|]. cbn [joined flatten foldl].
  rewrite app_assoc. rewrite <- IH by (by apply Forall_app). f_equal. destruct l as [|y l]; [done|].
  cbn [joined append_text]. destruct (String.eqb_spec (join d (y :: l)) "") as [E|_].
  - by apply join_nonempty in E.
  - cbn [app joined]. f_equal. rewrite (app_comm_cons l (x :: k) y), join_app_texts by done. by rewrite string_app_assoc.
Qed.

(** A batch of texts with a constant delimiter. *)
Definition text_batch (d : string) (rows : list (option string)) : list ArrayRef :=
  [AUtf8 Utf8 rows; AUtf8 Utf8 (map (fun _ => Some d) rows)].

Lemma update_listing d r rows : listagg_update (listing d r) (text_batch d rows) = Ok (listing d (foldl (append_text d) r (flatten rows))).
Proof. unfold listagg_update, text_batch, utf8_rows; simpl. unfold utf8_rows. rewrite cast_utf8_id. simpl. by rewrite append_values_listing. Qed.

Lemma update_new d rows : rows <> [] ->
  listagg_update (listagg_new false 0) (text_batch d rows) = Ok (listing d (foldl (append_text d) None (flatten rows))).
Proof.
  intros Hr. unfold listagg_update, text_batch; simpl. unfold utf8_rows. rewrite !cast_utf8_id. simpl.
  destruct rows as [|x rows]; [done|]. rewrite <- append_values_listing. done.
Qed.

Lemma accumulate_listing d r batches :
  accumulate (Accumulator0 := listagg hash_order) (listing d r) (map (text_batch d) batches)
    = Ok (listing d (foldl (append_text d) r (flatten (concat batches)))).
Proof.
  revert r. induction batches as [|rows bs IH]; intros r; [done|]. cbn [accumulate map]. unfold update_batch at 1, listagg at 1.
  rewrite update_listing. simpl. rewrite IH. f_equal.
  assert (forall l k : list (option string), flatten (l ++ k) = (flatten l ++ flatten k)%list) as ->.
  { induction l as [|[v|] l IHl]; intros k; simpl; rewrite ?IHl; done. }
  by rewrite foldl_app.
Qed.

Definition part_texts (part : list (list (option string))) : list string := flatten (concat part).

Lemma accumulate_part d part : part <> [] -> Forall (fun rows => rows <> []) part ->
  accumulate (Accumulator0 := listagg hash_order) (listagg_new false 0) (map (text_batch d) part)
    = Ok (listing d (foldl (append_text d) None (part_texts part))).
Proof.
  intros Hp Hr. destruct Hr as [|rows part Hrows Hr]; [done|]. unfold part_texts. rewrite <- accumulate_listing. cbn [accumulate map].
  change (update_batch (listagg_new false 0) (text_batch d rows)) with (listagg_update (listagg_new false 0) (text_batch d rows)).
  change (update_batch (listing d None) (text_batch d rows)) with (listagg_update (listing d None) (text_batch d rows)).
  rewrite update_new by done. by rewrite update_listing.
Qed.

Lemma merge_listing d r states :
  merge_all (Accumulator0 := listagg hash_order) (listing d r) (map (fun x => (x, Some d, None)) states)
    = Ok (listing d (foldl (append_text d) r (flatten states))).
Proof.
  revert r. induction states as [|x states IH]; intros r; [done|]. cbn [merge_all map]. unfold merge_batch at 1, listagg at 1, listagg_merge. simpl.
  destruct x as [x|]; simpl; [|apply IH]. unfold append_value. simpl. apply IH.
Qed.

(** LISTAGG joins the texts that are not null with the delimiter, in one phase or in two, whatever
    the batches and the partitions, as long as no text, no batch and no partition is empty. *)
Theorem listagg_joins d parts :
  Forall (fun part => part <> [] /\ Forall (fun rows => rows <> []) part /\ Forall (fun s => s <> "") (part_texts part)) parts ->
  let all := join d (concat (map part_texts parts)) in
  one_phase (Accumulator0 := listagg hash_order) (listagg_new false 0) (map (text_batch d) (concat parts)) = Ok all /\
  two_phases (Accumulator0 := listagg hash_order) (listagg_new false 0) (map (map (text_batch d)) parts) = Ok all.
Proof.
  intros Hp all.
  assert (Forall (Forall (fun s => s <> "")) (map part_texts parts)) as Ht.
  { apply Forall_map. eapply Forall_impl; [exact Hp|]. by intros part (_ & _ & ?). }
  assert (forall parts : list (list (list (option string))), part_texts (concat parts) = concat (map part_texts parts)) as Hc.
  { assert (forall l k : list (option string), flatten (l ++ k) = (flatten l ++ flatten k)%list) as Hf.
    { induction l as [|[v|] l IHl]; intros k; simpl; rewrite ?IHl; done. }
    unfold part_texts. induction parts0 as [|p ps IH]; [done|]. simpl. by rewrite concat_app, Hf, IH. }
  split.
  - assert (parts = [] \/ parts <> []) as [->|Hne] by (destruct parts; auto); [done|]. unfold one_phase. rewrite accumulate_part.
    + cbn [result_bind]. rewrite Hc, append_texts by (by apply Forall_concat). unfold evaluate, listagg, listagg_evaluate. cbn [listing la_result].
      f_equal. unfold all. by destruct (concat (map part_texts parts)).
    + destruct Hp as [|p ps [Hpne _] _]; [done|]. simpl. by destruct p.
    + apply Forall_concat. eapply Forall_impl; [exact Hp|]. by intros part (_ & ? & _).
  - unfold two_phases.
    assert (traverse (fun batches => result_map (state (Accumulator := listagg hash_order)) (accumulate (Accumulator0 := listagg hash_order) (listagg_new false 0) batches)) (map (map (text_batch d)) parts)
      = Ok (map (fun x => (x, Some d, None)) (map (fun p => joined d (part_texts p)) parts))) as ->.
    { clear all Ht. induction Hp as [|p ps (Hne & Hr & Hs) _ IH]; [done|]. cbn [map traverse]. rewrite accumulate_part by done.
      rewrite append_texts by done. cbn [result_map result_bind]. by rewrite IH. }
    simpl. destruct parts as [|p ps]; [done|]. cbn [map merge_all]. unfold merge_batch at 1, listagg at 1, listagg_merge. simpl.
    replace (match joined d (part_texts p) with Some v => _ | None => _ end) with (listing d (joined d (part_texts p))).
    + rewrite merge_listing. simpl. do 2 f_equal. unfold listagg_evaluate. simpl.
      pose proof (append_joined d _ Ht) as Hj. simpl in Hj. rewrite map_map in Hj.
      replace (foldl (append_text d) None match joined d (part_texts p) with Some a => a :: _ | None => _ end)
        with (foldl (append_text d) (joined d (part_texts p)) (flatten (map (fun p => joined d (part_texts p)) ps))) in Hj
        by (by destruct (joined d (part_texts p))).
      rewrite Hj. unfold all. simpl. by destruct (part_texts p ++ concat (map part_texts ps))%list.
    + by destruct (joined d (part_texts p)).
Qed.

End listagg_text.

(** ** Witnesses *)

Module AggregateExample.
Export SerdeExample.
#[global] Existing Instance ArrowExample.example_ext.

(** Integer columns as scalars; there is no array of no values. *)
#[global] Instance int_scalars : ScalarExt Z := {|
  scalars a := match a with AInt _ rows => Ok rows | _ => Err (OtherError "type") end;
  iter_to_array l := match l with [] => Err (OtherError "Empty iterator passed to ScalarValue::iter_to_array") | _ => Ok (AInt Int64 (map Some l)) end;
  as_utf8 _ := None |}.

#[global] Instance int_scalar_rows : ScalarRows (V := Z).
Proof. intros a l. destruct a; simpl; congruence. Qed.

#[global] Instance example_cast : CastLaws.
Proof. by intros rows. Qed.

(** A rounded product and sum in place of the fused operation. *)
Definition mul_add (a b c : f64) : f64 := SFadd 53 1024 (SFmul 53 1024 a b) c.
Definition half : f64 := SFdiv 53 1024 f64_one (f64_of_Z 2).
End AggregateExample.

Import AggregateExample.

Example array_unique_example :
  one_phase (array_unique_new : ArrayUniqueAggAccumulator (V := Z))
    [[AInt Int64 [Some 5; Some 2]]; [AInt Int64 [Some 1; Some 2; None; Some 1]]] = Ok "[5,2,1]".
Proof. vm_compute. reflexivity. Qed.

Example array_union_example :
  one_phase array_union_new [[AUtf8 Utf8 [Some "[[1],[1],[2]]"; Some "[[1],[3]]"]]] = Ok "[[1],[1],[2],[3]]".
Proof. vm_compute. reflexivity. Qed.

Lemma aggregates_in_two_phases_witness :
  merging (array_unique_new : ArrayUniqueAggAccumulator (V := Z)) [[[[AInt Int64 [Some 1; Some 2]]]]; [[[AInt Int64 [Some 2; Some 3]]]]] = Ok "[1,2,3]" /\
  merging (any_value_new : AnyValueAccumulator (V := Z)) [[[[AInt Int64 []]]; [[AInt Int64 [Some 7]]]]; [[[AInt Int64 [Some 8]]]]] = Ok (Some 7).
Proof.
  split; etransitivity.
  - apply (proj1 (proj2 (proj2 (aggregates_in_two_phases (V := Z))))); repeat constructor; eexists; reflexivity.
  - vm_compute. reflexivity.
  - apply (proj1 (aggregates_in_two_phases (V := Z))); repeat constructor; eexists; reflexivity.
  - vm_compute. reflexivity.
Defined.

(** Two states in one batch: only the first is merged. *)
Example first_state_only :
  merging (bool_new : BoolState BoolAndAgg) [[[[ABoolean [Some true]]]; [[ABoolean [Some false]]]]] = Ok (Some true) /\
  one_phase (bool_new : BoolState BoolAndAgg) [[ABoolean [Some true]]; [ABoolean [Some false]]] = Ok (Some false) /\
  merging (array_unique_new : ArrayUniqueAggAccumulator (V := Z)) [[[[AInt Int64 [Some 1]]]; [[AInt Int64 [Some 2]]]]] = Ok "[1]" /\
  merging array_union_new [[[[AUtf8 Utf8 [Some "[[1]]"]]]; [[AUtf8 Utf8 [Some "[[2]]"]]]]] = Ok "[[1]]".
Proof. split_and!; vm_compute; reflexivity. Qed.

Lemma bool_aggregates_one_batch_witness :
  one_phase (bool_new : BoolState BoolXorAgg) [[AInt Int64 [Some 0; None; Some 7]]] = Ok (Some true).
Proof.
  exact (proj2 (proj2 (bool_aggregates_one_batch (AInt Int64 [Some 0; None; Some 7]) [Some false; None; Some true] eq_refl))).
Defined.

Lemma listagg_joins_witness :
  two_phases (Accumulator0 := listagg id) (listagg_new false 0)
    [[text_batch ", " [Some "a"; None]]; [text_batch ", " [Some "b"]; text_batch ", " [Some "c"]]] = Ok "a, b, c".
Proof.
  refine (proj2 (listagg_joins id ", " [[[Some "a"; None]]; [[Some "b"]; [Some "c"]]] _)).
  repeat (constructor; try discriminate).
Defined.

(** Where LISTAGG loses something: a partition with one value in the set of a DISTINCT aggregation, the
    delimiter when the first partition has no rows, and the delimiter after an empty text. *)
Theorem listagg_losses :
  two_phases (Accumulator0 := listagg id) (listagg_new true 0) [[text_batch "," [Some "a"]]; [text_batch "," [Some "b"]]] = Ok "" /\
  two_phases (Accumulator0 := listagg id) (listagg_new false 0) [[]; [text_batch "," [Some "a"]]; [text_batch "," [Some "b"]]] = Ok "ab" /\
  one_phase (Accumulator0 := listagg id) (listagg_new false 0) [text_batch "," [Some ""; Some "a"]] = Ok "a".
Proof. by repeat split. Qed.

(** PERCENTILE_CONT sends the percentile of a partition in place of its values, so that merging takes
    the percentile of percentiles: the median of 1, 2 and 9 is 2, and 5.25 in two phases. *)
Theorem percentile_of_percentiles :
  let acc := mkPercentile half [] in
  let agg := percentile_cont mul_add in
  one_phase (Accumulator0 := agg) acc [[AInt Int64 [Some 1; Some 2]]; [AInt Int64 [Some 9]]] = Ok (Some (f64_of_Z 2)) /\
  two_phases (Accumulator0 := agg) acc [[[AInt Int64 [Some 1; Some 2]]]; [[AInt Int64 [Some 9]]]]
    = Ok (Some (SFdiv 53 1024 (f64_of_Z 21) (f64_of_Z 4))).
Proof. split; vm_compute; reflexivity. Qed.

(** OBJECT_AGG accepts [LargeUtf8] keys when it is planned and fails on every batch of them, and leaves
    out values that are no strings; ARRAY_UNIQUE_AGG of no values is an error where the comment
    promises an empty array. *)
Theorem aggregate_gaps (keys : list (option string)) (vals : ArrayRef) :
  object_agg_accumulator (V := Z) false 0 (TUtf8 LargeUtf8) = Ok object_new /\
  object_update (V := Z) object_new [AUtf8 LargeUtf8 keys; vals] = Err (Internal "Key column must be Utf8 or LargeUtf8") /\
  one_phase (object_new : ObjectAggAccumulator (V := Z)) [[AUtf8 Utf8 [Some "a"]; AInt Int64 [Some 1]]] = Ok "{}" /\
  one_phase (array_unique_new : ArrayUniqueAggAccumulator (V := Z)) [[AInt Int64 [None]]]
    = Err (AggHalt (Raise (OtherError "Empty iterator passed to ScalarValue::iter_to_array"))).
Proof. repeat split. Qed.
