(* ===== verification/Conversions.v ===== *)
(** * Conversion functions

    [functions/src/conversion]: TO_BOOLEAN, TO_BINARY, TO_TIME, TO_DATE, TO_DECIMAL, TO_ARRAY,
    TO_OBJECT and TO_VARIANT with their TRY variants ([try_mode]), each as the conversion of one row
    and the function over its arguments.  [conversion/to_timestamp.rs] is in [ToTimestamp].

    Parameters ([ConvExt]): Arrow's casts, the [hex] and [base64] decoders, Unicode case mapping, and
    [chrono]'s parsers. *)

From Stdlib Require Import ZArith Lia Ascii String DecimalString.
From Stdlib.Strings Require Import Byte.
From stdpp Require Import base option list strings.
From S2P Require Import Prelude Aggregates Calendar Utf8 JsonValue JsonEncode SemiStructured.

Open Scope string_scope.
Open Scope Z_scope.
Open Scope rust_scope.

#[local] Arguments String.append : simpl nomatch.

(** ** Errors *)

(** [conversion/errors.rs]; the sources of parse errors are their text. *)
Module ConversionError.
Inductive t :=
| FormatMustBeNonNullScalarValue
| UnsupportedInputType (data_type : DataType)
| UnsupportedInputTypeWithPosition (data_type : DataType) (position : nat)
| FailedToDecodeHexString (error : string)
| FailedToDecodeBase64String (error : string)
| InvalidBooleanString (v : string)
| ReturnTypeFromArgsShouldBeCalled
| NoInputArgumentOnPositions (positions : list nat)
| InvalidPrecision (precision : ScalarValue)
| InvalidScale (precision_minus_one : Z) (scale : ScalarValue)
| NotEnoughArguments (got at_least : nat)
| TooManyArguments (got at_maximum : nat)
| UnexpectedReturnType (got expected : DataType)
| InvalidIntegerConversion
| ArgumentTwoNeedsToBeInteger
| ArgumentTwoNeedsToBeString
| InvalidValueForFunctionAtPositionTwo
| CantCastTo (v : string)
| CantParseTimestamp
| CantGetTimestamp
| CantParseTimezone
| CantCreateDateTimeFromTimestamp
| CantAddLocalTimezone
| InvalidDataType
| InvalidType
| UnsupportedFormat (format expected : string)
| UnsupportedValueFormat (value formats : string)
| InvalidNumericValue (value : string)
| FailedToParseInt (value : string)
| InvalidTypeForParameter (value parameter : string)
| FailedToCastVariant (value real_type : string).
End ConversionError.

(** What a conversion raises: an error of its own, one of the helpers shared with the aggregates,
    [errors::UnsupportedInputType], [exec_err!], an error of Arrow or a panic. *)
Inductive conv_failure :=
| Conv (e : ConversionError.t)
| ConvShared (e : agg_failure)
| ConvInput (data_type : DataType)
| ConvExec (message : string)
| ConvHalt (s : stop).

Notation cres A := (result conv_failure A).

Definition cfail {A} (e : ConversionError.t) : cres A := Err (Conv e).
Definition cexec {A} (message : string) : cres A := Err (ConvExec message).
Definition cpanic {A} : cres A := Err (ConvHalt Panic).

Definition of_arrow_conv {A} (r : result ArrowError A) : cres A :=
  match r with Ok a => Ok a | Err e => Err (ConvHalt (Raise e)) end.

Definition of_shared {A} (r : result agg_failure A) : cres A :=
  match r with Ok a => Ok a | Err e => Err (ConvShared e) end.

(** The code outside the repository.  A time of [chrono] is its hour, minute, second and
    nanosecond. *)
Class ConvExt {C : Chrono} := {
  str_to_lowercase : string -> string;
  str_to_uppercase : string -> string;
  scalar_display : ScalarValue -> string;
  cast_string : ArrayRef -> result ArrowError ArrayRef;
  cast_date32 : bool -> ArrayRef -> result ArrowError ArrayRef;
  cast_decimal128 : bool -> Z -> Z -> ArrayRef -> result ArrowError ArrayRef;
  cast_int64 : ArrayRef -> result ArrowError ArrayRef;
  with_precision_and_scale : Z -> Z -> result ArrowError unit;
  scalar_at : ArrayRef -> nat -> result ArrowError ScalarValue;
  scalars_to_array : list ScalarValue -> result ArrowError ArrayRef;
  decode_hex_digits : string -> result string (list byte);
  decode_base64 : string -> result string (list byte);
  time_from_str : string -> string -> result string (Z * Z * Z * Z);
  time64_from_str : string -> option Z;
  date_from_str : string -> string -> option NaiveDate;
  date_of_seconds : Z -> option NaiveDate;
  with_year : NaiveDate -> Z -> option NaiveDate }.

(** [str::eq_ignore_ascii_case]. *)
Definition eq_ignore_ascii_case (a b : string) : bool := String.eqb (to_ascii_lowercase a) (to_ascii_lowercase b).

(** [&s[..n]]: a panic unless [n] is the boundary of a character. *)
Definition slice_to (s : string) (n : nat) : option string :=
  if (n <=? String.length s)%nat && starts_char (substring n (String.length s - n) s)
  then Some (substring 0 n s) else None.

(** [str::find] of a character. *)
Fixpoint find_char (c : ascii) (s : string) : option nat :=
  match s with
  | EmptyString => None
  | String d s => if Ascii.eqb c d then Some O else option_map S (find_char c s)
  end.

Definition starts_with_char (c : ascii) (s : string) : bool :=
  match s with String d _ => Ascii.eqb c d | EmptyString => false end.

Fixpoint ends_with_char (c : ascii) (s : string) : bool :=
  match s with
  | EmptyString => false
  | String d EmptyString => Ascii.eqb c d
  | String _ s => ends_with_char c s
  end.

(** [ScalarValue::data_type]. *)
Fixpoint scalar_type (s : ScalarValue) : DataType :=
  match s with
  | SNull => TNull
  | SBoolean _ => TBoolean
  | SInt k _ => TInt k
  | SFloat k _ => TFloat k
  | SUtf8 k _ => TUtf8 k
  | SBinary k _ => TBinary k
  | STemporal k _ => TTemporal k
  | SDecimal k p sc _ => TDecimal k p sc
  | SDictionary k v => TDictionary k (scalar_type v)
  | SArray a => TList List_ (data_type a)
  end.

Definition columnar_type (v : ColumnarValue) : DataType :=
  match v with Array a => data_type a | Scalar s => scalar_type s end.

(** The loop over rows: null rows stay null. *)
Definition conv_rows {A B} (f : A -> cres (option B)) (rows : list (option A)) : cres (list (option B)) :=
  traverse (fun row => match row with Some a => f a | None => Ok None end) rows.

(** A row that does not convert: null in a TRY variant, else an error. *)
Definition unconverted {B} (try_mode : bool) (e : conv_failure) : cres (option B) :=
  if try_mode then Ok None else Err e.

Section conversions.
Context {C : Chrono} {CD : ChronoDays} `{ArrowExt, !ConvExt, Serde}.

Definition arg_at (args : list ColumnarValue) (i : nat) : cres ColumnarValue := ok_or (args !! i) (ConvHalt Panic).

(** A column, or a scalar as an array of one row. *)
Definition arg_array (v : ColumnarValue) : cres ArrayRef :=
  match v with Array a => Ok a | Scalar s => of_arrow_conv (to_array_of_size s 1) end.

(** [utils::to_string_array]. *)
Definition to_string_array (array : ArrayRef) : cres (list (option string)) :=
  match array with
  | AUtf8 Utf8 rows => Ok rows
  | AUtf8 _ _ =>
      let? casted := of_arrow_conv (cast_string array) in
      match casted with AUtf8 Utf8 rows => Ok rows | _ => of_arrow_conv (Err (OtherError "could not cast")) end
  | _ => Err (ConvInput (data_type array))
  end.

(** ** TO_BOOLEAN *)
Definition TRUE : list string := ["true"; "t"; "yes"; "y"; "on"; "1"].
Definition FALSE : list string := ["false"; "f"; "no"; "n"; "off"; "0"].

Definition to_boolean_row (try_ : bool) (v : string) : cres (option bool) :=
  if existsb (fun s => eq_ignore_ascii_case s v) TRUE then Ok (Some true)
  else if existsb (fun s => eq_ignore_ascii_case s v) FALSE then Ok (Some false)
  else unconverted try_ (Conv (ConversionError.InvalidBooleanString v)).

Definition to_boolean (try_ : bool) (args : list ColumnarValue) : cres ColumnarValue :=
  let? arg := arg_at args 0 in
  let? arr := arg_array arg in
  let? rows :=
    match arr with
    | AUtf8 _ _ => let? rows := to_string_array arr in conv_rows (to_boolean_row try_) rows
    | _ => of_shared (array_to_boolean arr)
    end in
  Ok (Array (ABoolean rows)).

(** ** TO_BINARY *)

Definition strip_surrounding_quotes (s : string) : string :=
  if (2 <=? String.length s)%nat && starts_with_char quote s && ends_with_char quote s
  then substring 1 (String.length s - 2) s else s.

Definition binary_row (format : string) (try_mode : bool) (s : string) : cres (option (list byte)) :=
  let format' := str_to_lowercase (str_to_uppercase format) in
  if String.eqb format' "hex" then
    match decode_hex_digits (replace (strip_surrounding_quotes s) " " "") with
    | Ok bytes => Ok (Some bytes)
    | Err e => unconverted try_mode (Conv (ConversionError.FailedToDecodeHexString e))
    end
  else if String.eqb format' "base64" then
    match decode_base64 (strip_surrounding_quotes s) with
    | Ok bytes => Ok (Some bytes)
    | Err e => unconverted try_mode (Conv (ConversionError.FailedToDecodeBase64String e))
    end
  else if String.eqb format' "utf-8" || String.eqb format' "utf8" then Ok (Some (as_bytes s))
  else unconverted try_mode (Conv (ConversionError.UnsupportedFormat format "HEX, BASE64, and UTF-8")).

Definition convert_string_to_binary (strings : list (option string)) (format : string) (try_mode : bool) : cres ArrayRef :=
  result_map (ABinary Binary) (conv_rows (binary_row format try_mode) strings).

(** The format of an array must be one row of type [Utf8]. *)
Definition binary_format (args : list ColumnarValue) : cres string :=
  match args !! 1%nat with
  | None => Ok "HEX"
  | Some (Scalar v) => Ok (scalar_display v)
  | Some (Array arr) =>
      if (len arr =? 1)%nat && negb (is_null arr 0) then
        match arr with
        | AUtf8 Utf8 (Some s :: _) => Ok s
        | _ => of_arrow_conv (Err (OtherError "could not cast"))
        end
      else cfail ConversionError.FormatMustBeNonNullScalarValue
  end.

(** [as_binary_array] takes no [LargeBinary] array. *)
Definition to_binary (try_mode : bool) (args : list ColumnarValue) : cres ColumnarValue :=
  let? input := arg_at args 0 in
  let? format := binary_format args in
  let? input_array := arg_array input in
  let? result :=
    match input_array with
    | AUtf8 _ rows => convert_string_to_binary rows format try_mode
    | ABinary Binary _ => Ok input_array
    | ABinary LargeBinary _ => of_arrow_conv (Err (OtherError "could not cast"))
    | ABinary BinaryView rows => Ok (ABinary Binary rows)
    | _ => cfail (ConversionError.UnsupportedInputType (data_type input_array))
    end in
  Ok (Array result).

(** ** TO_TIME *)
Definition NANOS_IN_DAY : Z := 86400 * 1000000000.

Definition calc_nanos_since_midnight (nanos_total : Z) : Z :=
  if 0 <=? nanos_total then Z.rem nanos_total NANOS_IN_DAY
  else Z.rem (Z.rem nanos_total NANOS_IN_DAY + NANOS_IN_DAY) NANOS_IN_DAY.

Definition TIME_MAP : list (string * string) :=
  [("HH24", "%H"); ("HH12", "%I"); ("MI", "%M"); ("SS", "%S"); ("FF", "%.f"); ("FF0", "%.f"); ("FF3", "%.3f");
   ("FF6", "%.6f"); ("FF9", "%.9f"); ("AM", "%p"); ("PM", "%p")].

(** Replacements one after the other. *)
Definition replace_all (m : list (string * string)) (format : string) : string :=
  fold_left (fun f p => replace f (fst p) (snd p)) m format.

Definition parse_time (value format : string) : result string (Z * Z * Z * Z) :=
  time_from_str value (replace_all TIME_MAP format).

Definition time_row (is_try : bool) (format : option string) (s : string) : cres (option Z) :=
  match format with
  | Some format =>
      match parse_time s format with
      | Ok (hours, minutes, seconds, nanos) => Ok (Some ((hours * 3600 + minutes * 60 + seconds) * 1000000000 + nanos))
      | Err v => unconverted is_try (ConvExec ("can't parse time string with format: " ++ v))
      end
  | None =>
      match parse_i64 s with
      | Some i =>
          let len := String.length s in
          if (len =? 8)%nat then Ok (Some (calc_nanos_since_midnight (wrap_i64 (i * 1000000000))))
          else if (len =? 11)%nat then Ok (Some (calc_nanos_since_midnight (wrap_i64 (i * 1000000))))
          else if (len =? 14)%nat then Ok (Some (calc_nanos_since_midnight (wrap_i64 (i * 1000))))
          else if (len =? 17)%nat then Ok (Some (calc_nanos_since_midnight i))
          else unconverted is_try (ConvExec "function expects a valid integer (seconds, milliseconds, microseconds or nanoseconds)")
      | None =>
          match time64_from_str s with
          | None => unconverted is_try (ConvExec "can't parse time string")
          | Some v => Ok (Some v)
          end
      end
  end.

(** The nanoseconds in a unit. *)
Definition unit_nanos (unit : TimeUnit) : Z :=
  match unit with Second => 1000000000 | Millisecond => 1000000 | Microsecond => 1000 | Nanosecond => 1 end.

Definition timestamp_time (unit : TimeUnit) (v : Z) : Z := calc_nanos_since_midnight (wrap_i64 (v * unit_nanos unit)).

Definition to_time (is_try : bool) (args : list ColumnarValue) : cres ColumnarValue :=
  let? arg := arg_at args 0 in
  let? arr := arg_array arg in
  let? format :=
    match args with
    | [_; Scalar (SUtf8 Utf8 (Some v))] => Ok (Some v)
    | [_; _] => cexec "function expects a string as the second argument"
    | _ => Ok None
    end in
  let? b :=
    match arr with
    | AUtf8 _ _ => let? rows := to_string_array arr in conv_rows (time_row is_try format) rows
    | ATemporal (Timestamp unit _) rows => Ok (map (option_map (timestamp_time unit)) rows)
    | _ => cexec "unknown data type"
    end in
  Ok (Array (ATemporal (Time64 Nanosecond) b)).

(** ** TO_DATE *)
Definition UNIX_EPOCH_DAYS_FROM_CE : Z := 719163.
Definition YYYY_MM_DD_FORMAT : string := "%Y-%m-%d".
Definition DD_MON_YYYY_FORMAT : string := "%d-%B-%Y".
Definition MM_DD_YYYY_SLASH_FORMAT : string := "%m/%d/%Y".

(** The format in lower case; AUTO is no format. *)
Definition date_format_arg (args : list ColumnarValue) : cres (option string) :=
  match args !! 1%nat with
  | None => Ok None
  | Some (Scalar (SUtf8 _ (Some format))) =>
      let format := str_to_lowercase (trim format) in
      Ok (if String.eqb format "auto" then None else Some format)
  | Some other => cfail (ConversionError.UnsupportedInputTypeWithPosition (columnar_type other) 2)
  end.

Definition parse_to_chrono_format (format : string) : string :=
  replace_all [("yyyy", "%C%y"); ("yy", "%Y"); ("mon", "%B"); ("mmmm", "%B"); ("mm", "%m"); ("dd", "%d")] format.

Definition format_missing_chrono_format (format : string) : string * string :=
  if negb (contains "%Y" format) && negb (contains "%y" format) then (format ++ "%Y", "1970")
  else if negb (contains "%m" format) && negb (contains "%B" format) then (format ++ "%m", "01")
  else if negb (contains "%d" format) then (format ++ "%d", "01")
  else (format, "").

(** The text before a [T] or a space; the position of the [T] is that in the trimmed text. *)
Definition format_date_str (str : string) : cres string :=
  match match find_char "T" (trim str) with Some i => Some i | None => find_char " " str end with
  | Some index => ok_or (slice_to str index) (ConvHalt Panic)
  | None => Ok str
  end.

(** The seconds among the digits of a timestamp in a smaller unit. *)
Definition truncated_length (len : nat) : nat :=
  (if 19 <? len then 11 + (len - 20) else if 10 <? len then 8 + (len - 11) mod 3 else len)%nat.

Definition parse_truncated_checked (str : string) : cres (option Z) :=
  let? truncated_str := ok_or (slice_to str (truncated_length (String.length str))) (ConvHalt Panic) in
  Ok (parse_i64 truncated_str).

Definition days_from_epoch (date : NaiveDate) : Z := num_days_from_ce date - UNIX_EPOCH_DAYS_FROM_CE.

Definition date_row_auto (try_mode : bool) (s : string) : cres (option Z) :=
  let? str := format_date_str s in
  match date_from_str str YYYY_MM_DD_FORMAT with
  | Some date => Ok (Some (days_from_epoch date))
  | None =>
      match date_from_str str DD_MON_YYYY_FORMAT with
      | Some date => Ok (Some (days_from_epoch date))
      | None =>
          match date_from_str str MM_DD_YYYY_SLASH_FORMAT with
          | Some date => Ok (Some (days_from_epoch date))
          | None =>
              let? parsed := parse_truncated_checked str in
              match parsed with
              | Some timestamp => Ok (option_map days_from_epoch (date_of_seconds timestamp))
              | None =>
                  unconverted try_mode (Conv (ConversionError.UnsupportedValueFormat str
                    (YYYY_MM_DD_FORMAT ++ ", " ++ DD_MON_YYYY_FORMAT ++ " & " ++ MM_DD_YYYY_SLASH_FORMAT)))
              end
          end
      end
  end.

(** Years below 70 are of this century, those below 100 of the last, and those before 1970 refused. *)
Definition date_row_format (try_mode : bool) (real_format str : string) : cres (option Z) :=
  let '(format, missing) := format_missing_chrono_format (parse_to_chrono_format real_format) in
  let unsupported := unconverted try_mode (Conv (ConversionError.UnsupportedValueFormat str real_format)) in
  match date_from_str (str ++ missing) format with
  | Some date =>
      if year date <? 70 then Ok (option_map days_from_epoch (with_year date (year date + 2000)))
      else if year date <? 100 then Ok (option_map days_from_epoch (with_year date (year date + 1900)))
      else if year date <? 1970 then unsupported
      else Ok (Some (days_from_epoch date))
  | None => unsupported
  end.

Definition date_row (try_mode : bool) (real_format : option string) : string -> cres (option Z) :=
  match real_format with
  | None => date_row_auto try_mode
  | Some real_format => date_row_format try_mode real_format
  end.

Definition to_date_array (try_mode : bool) (array : ArrayRef) (args : list ColumnarValue) : cres ArrayRef :=
  match array with
  | AUtf8 _ _ =>
      let? string_array := to_string_array array in
      let? real_format := date_format_arg args in
      result_map (ATemporal Date32) (conv_rows (date_row try_mode real_format) string_array)
  | ATemporal (Timestamp _ _) _ | ATemporal Date32 _ => of_arrow_conv (cast_date32 try_mode array)
  | _ => cfail (ConversionError.UnsupportedInputTypeWithPosition (data_type array) 1)
  end.

Definition to_date (try_mode : bool) (args : list ColumnarValue) : cres ColumnarValue :=
  let? expr := arg_at args 0 in
  let? array := arg_array expr in
  result_map Array (to_date_array try_mode array args).

Definition to_date_return_type (arg_types : list DataType) : cres DataType :=
  match length arg_types with
  | 0%nat => cfail (ConversionError.NotEnoughArguments 0 1)
  | 1%nat | 2%nat => Ok (TTemporal Date32)
  | n => cfail (ConversionError.TooManyArguments n 2)
  end.

(** ** TO_DECIMAL *)

(** [T::try_from] for an integer type given by its bounds. *)
Definition try_convert_scalar_to_integer (lo hi : Z) (scalar : ScalarValue) : cres Z :=
  let try_from v := if (lo <=? v) && (v <=? hi) then Ok v else cfail ConversionError.InvalidIntegerConversion in
  match scalar with
  | SInt _ (Some v) => try_from v
  | SDecimal Decimal128 _ _ (Some v) => try_from v
  | _ => cfail (ConversionError.UnsupportedInputType (scalar_type scalar))
  end.

Definition get_precision_checked (precision_scalar : ScalarValue) : cres Z :=
  let? precision := try_convert_scalar_to_integer 0 255 precision_scalar in
  if (1 <=? precision) && (precision <=? 38) then Ok precision
  else cfail (ConversionError.InvalidPrecision precision_scalar).

Definition get_scale_checked (scale_scalar : ScalarValue) (precision : Z) : cres Z :=
  let? scale := try_convert_scalar_to_integer (-128) 127 scale_scalar in
  if (0 <=? scale) && (scale <=? precision - 1) then Ok scale
  else cfail (ConversionError.InvalidScale (precision - 1) scale_scalar).

Definition decimal_format_arg (args : list ColumnarValue) : cres (option string) :=
  match args !! 1%nat with
  | None => Ok None
  | Some (Scalar (SUtf8 _ (Some str))) => Ok (Some str)
  | Some (Scalar (SInt _ (Some _) | SFloat Float64 (Some _) | SFloat Float32 (Some _) | SDecimal Decimal128 _ _ _) as scalar) =>
      if (3 <? length args)%nat then cfail (ConversionError.UnsupportedInputTypeWithPosition (columnar_type scalar) 2)
      else Ok None
  | Some other =>
      let? other_array := arg_array other in
      cfail (ConversionError.UnsupportedInputTypeWithPosition (data_type other_array) 2)
  end.

Definition format_number_text (format s : string) : string :=
  let s := replace s " " "" in
  let s := if starts_with_char "$" format then default s (strip_prefix "$" s) else s in
  if contains "," format then replace s "," "" else s.

Definition apply_formatting_if_needed (array : list (option string)) (format : string) : list (option string) :=
  map (option_map (format_number_text format)) array.

Definition null_decimals (num_rows : nat) (precision scale : Z) : cres ArrayRef :=
  let? _ := of_arrow_conv (with_precision_and_scale precision scale) in
  Ok (ADecimal Decimal128 precision scale (replicate num_rows None)).

Definition error_or_null_array (try_mode : bool) (num_rows : nat) (precision scale : Z) (error : conv_failure) : cres ArrayRef :=
  if try_mode then null_decimals num_rows precision scale else Err error.

(** The declared type; [scalar_arguments] are the literals among the arguments. *)
Definition is_string_scalar (s : ScalarValue) : bool := match s with SUtf8 _ _ => true | _ => false end.

Definition decimal_return_type (scalar_arguments : list (option ScalarValue)) : cres DataType :=
  let decimal p s := TDecimal Decimal128 p s in
  let precision_and_scale precision scale :=
    let? p := get_precision_checked precision in
    let? s := get_scale_checked scale p in
    Ok (decimal p s) in
  match scalar_arguments with
  | [] => cfail (ConversionError.NotEnoughArguments 0 1)
  | [_] => Ok (decimal 38 0)
  | [_; None] => cfail (ConversionError.NoInputArgumentOnPositions [2%nat])
  | [_; Some second] =>
      if is_string_scalar second then Ok (decimal 38 0)
      else let? p := get_precision_checked second in Ok (decimal p 0)
  | [_; Some second; Some third] =>
      if is_string_scalar second then let? p := get_precision_checked third in Ok (decimal p 0)
      else precision_and_scale second third
  | [_; _; _] => cfail (ConversionError.NoInputArgumentOnPositions [1%nat; 2%nat])
  | [_; _; Some third; Some fourth] => precision_and_scale third fourth
  | [_; _; _; _] => cfail (ConversionError.NoInputArgumentOnPositions [3%nat; 4%nat])
  | _ => cfail (ConversionError.TooManyArguments (length scalar_arguments) 4)
  end.

(** The cast of the text, formatted when a format is given: only an array of type [Utf8] is. *)
Definition to_decimal (try_mode : bool) (return_type : DataType) (args : list ColumnarValue) (number_rows : nat) : cres ColumnarValue :=
  match return_type with
  | TDecimal Decimal128 precision scale =>
      let? expr := arg_at args 0 in
      let? array := arg_array expr in
      let? format := decimal_format_arg args in
      let cast_to a := of_arrow_conv (cast_decimal128 try_mode precision scale a) in
      let? result_array :=
        match array with
        | AUtf8 k rows =>
            match format with
            | Some format =>
                match k with
                | Utf8 => cast_to (AUtf8 Utf8 (apply_formatting_if_needed rows format))
                | _ => cpanic
                end
            | None => cast_to array
            end
        | AInt _ _ | AFloat Float32 _ | AFloat Float64 _ | ADecimal Decimal128 _ _ _ => cast_to array
        | ABoolean _ => let? casted := of_arrow_conv (cast_int64 array) in cast_to casted
        | ANull _ => null_decimals number_rows precision scale
        | _ => error_or_null_array try_mode number_rows precision scale
                 (Conv (ConversionError.UnsupportedInputTypeWithPosition (data_type array) 1))
        end in
      Ok (Array result_array)
  | _ => cfail (ConversionError.UnexpectedReturnType return_type (TDecimal Decimal128 38 0))
  end.

(** ** TO_ARRAY *)
Definition to_array_return_type (input_type : DataType) : DataType :=
  match input_type with
  | TList List_ _ | TNull => input_type
  | _ => TList List_ input_type
  end.

(** The elements of one row that is not null. *)
Definition row_elements (elem_type : DataType) (value : ScalarValue) : list ScalarValue :=
  match elem_type with
  | TUtf8 _ =>
      let s := scalar_display value in
      match from_str s with
      | Some (VArray json_arr) => map (fun item => SUtf8 Utf8 (Some (to_string item))) json_arr
      | _ => [SUtf8 Utf8 (Some s)]
      end
  | _ => [value]
  end.

(** The values of all rows one after the other, and the offset after each row. *)
Fixpoint array_rows (elem_type : DataType) (flat_values : list ScalarValue) (rows : list ScalarValue) : cres (list ScalarValue * list nat) :=
  match rows with
  | [] => Ok (flat_values, [])
  | value :: rows =>
      let flat_values := if scalar_is_null value then flat_values else (flat_values ++ row_elements elem_type value)%list in
      if Z.of_nat (length flat_values) <=? i32_max then
        let? (flat, offsets) := array_rows elem_type flat_values rows in
        Ok (flat, length flat_values :: offsets)
      else cfail ConversionError.InvalidIntegerConversion
  end.

(** [ListArray::new]: the slices between the offsets. *)
Fixpoint list_rows (values : ArrayRef) (start : nat) (offsets : list nat) : list (option ArrayRef) :=
  match offsets with
  | [] => []
  | o :: offsets => Some (slice_rows start (o - start) values) :: list_rows values o offsets
  end.

Definition to_array_func (args : list ColumnarValue) (number_rows : nat) : cres ColumnarValue :=
  let? arg := arg_at args 0 in
  let? arr := match arg with Array a => Ok a | Scalar s => of_arrow_conv (to_array_of_size s number_rows) end in
  match data_type arr with
  | TList List_ _ | TNull => Ok (Array arr)
  | elem_type =>
      let? rows := traverse (fun i => of_arrow_conv (scalar_at arr i)) (seq 0 (len arr)) in
      let? (flat_values, offsets) := array_rows elem_type [] rows in
      let? values_array :=
        match flat_values with
        | [] => Ok (slice_rows 0 0 arr)
        | _ => of_arrow_conv (scalars_to_array flat_values)
        end in
      if default 0%nat (last offsets) <=? len values_array
      then Ok (Array (AList List_ (data_type values_array) (list_rows values_array 0 offsets)))
      else cpanic
  end%nat.

(** ** TO_OBJECT and TO_VARIANT *)
Definition object_row (str : string) : cres (option string) :=
  match from_str str with
  | Some (VObject _) => Ok (Some str)
  | Some _ => cfail (ConversionError.FailedToCastVariant str "OBJECT")
  | None => cfail (ConversionError.InvalidTypeForParameter ("'" ++ str ++ "'") "TO_OBJECT")
  end.

Definition to_object (args : list ColumnarValue) (number_rows : nat) : cres ColumnarValue :=
  let? arg := ok_or (args !! 0%nat) (Conv (ConversionError.NotEnoughArguments 0 1)) in
  let? array := match arg with Array a => Ok a | Scalar s => of_arrow_conv (to_array_of_size s number_rows) end in
  let? array :=
    match array with
    | ANull n => of_arrow_conv (to_array_of_size (SUtf8 Utf8 None) n)
    | AUtf8 _ _ => let? arr := to_string_array array in result_map (AUtf8 Utf8) (conv_rows object_row arr)
    | _ => cfail (ConversionError.UnsupportedInputTypeWithPosition (data_type array) 1)
    end in
  Ok (Array array).

Definition to_variant (args : list ColumnarValue) : cres ColumnarValue := arg_at args 0.
End conversions.

(** ** TRY variants *)

(** The failures of a conversion itself: errors of Arrow and panics are none. *)
Definition conversion_error (e : conv_failure) : bool := match e with Conv _ | ConvExec _ => true | _ => false end.

(** A conversion whose TRY variant is null where it raises an error, and else agrees with it. *)
Class TryVariant {A B} (f : bool -> A -> cres (option B)) : Prop := {
  try_agrees : forall a r, f false a = Ok r -> f true a = Ok r;
  try_null : forall a e, f false a = Err e -> conversion_error e = true -> f true a = Ok None }.

(** The value of a row that may not convert. *)
Definition converted {B} (r : cres (option B)) : option B := match r with Ok o => o | Err _ => None end.

Definition converted_rows {A B} (f : A -> cres (option B)) (rows : list (option A)) : list (option B) :=
  map (fun row : option A => row ≫= fun a => converted (f a)) rows.

Definition converts {B} (r : cres (option B)) : Prop := forall e, r = Err e -> conversion_error e = true.

Lemma try_rows {A B} (f : bool -> A -> cres (option B)) `{!TryVariant f} rows :
  Forall (fun row => match row with Some a => converts (f false a) | None => True end) rows ->
  conv_rows (f true) rows = Ok (converted_rows (f false) rows).
Proof.
  unfold conv_rows. induction 1 as [|row rows Hrow _ IH]; simpl; [done|].
  rewrite IH. destruct row as [a|]; simpl; [|done]. destruct (f false a) as [o|e] eqn:E.
  - by rewrite (try_agrees _ _ E).
  - by rewrite (try_null _ _ E (Hrow e eq_refl)).
Qed.

Lemma try_rows_agree {A B} (f : bool -> A -> cres (option B)) `{!TryVariant f} rows r :
  conv_rows (f false) rows = Ok r -> conv_rows (f true) rows = Ok r.
Proof.
  unfold conv_rows. revert r. induction rows as [|row rows IH]; simpl; intros r; [done|].
  destruct row as [a|]; simpl.
  - destruct (f false a) as [o|e] eqn:E; simpl; [|done]. rewrite (try_agrees _ _ E). simpl.
    destruct (traverse _ _) as [l|e] eqn:F; simpl; [|done]. by rewrite (IH l eq_refl).
  - destruct (traverse _ _) as [l|e] eqn:F; simpl; [|done]. by rewrite (IH l eq_refl).
Qed.

Section try_variants.
Context {C : Chrono} {CD : ChronoDays} `{ArrowExt, !ConvExt}.

#[local] Ltac each_case := repeat case_match; simplify_eq/=; try done.

#[global] Instance try_to_boolean : TryVariant to_boolean_row.
Proof. split; unfold to_boolean_row; intros a; [intros r|intros e]; each_case. Qed.

#[global] Instance try_to_binary format : TryVariant (binary_row format).
Proof. split; unfold binary_row; intros a; [intros r|intros e]; each_case. Qed.

#[global] Instance try_to_time format : TryVariant (fun is_try => time_row is_try format).
Proof. split; unfold time_row; intros a; [intros r|intros e]; each_case. Qed.

Lemma format_date_str_Err s e : format_date_str s = Err e -> e = ConvHalt Panic.
Proof. unfold format_date_str, ok_or. intros E. by repeat case_match; simplify_eq. Qed.

Lemma parse_truncated_Err s e : parse_truncated_checked s = Err e -> e = ConvHalt Panic.
Proof. unfold parse_truncated_checked, ok_or. intros E. by repeat case_match; simplify_eq/=. Qed.

Lemma date_row_auto_try s :
  (forall r, date_row_auto false s = Ok r -> date_row_auto true s = Ok r) /\
  (forall e, date_row_auto false s = Err e -> conversion_error e = true -> date_row_auto true s = Ok None).
Proof.
  unfold date_row_auto. destruct (format_date_str s) as [str|e0] eqn:E0; simpl.
  2:{ apply format_date_str_Err in E0 as ->. by split; intros ? [= <-]. }
  destruct (parse_truncated_checked str) as [o|e1] eqn:E1; simpl.
  2:{ apply parse_truncated_Err in E1 as ->. by repeat case_match; split; intros ? [= <-]. }
  by repeat case_match; split; intros ? [= <-].
Qed.

Lemma date_row_format_try f s :
  (forall r, date_row_format false f s = Ok r -> date_row_format true f s = Ok r) /\
  (forall e, date_row_format false f s = Err e -> conversion_error e = true -> date_row_format true f s = Ok None).
Proof. unfold date_row_format. by repeat case_match; split; intros ? [= <-]. Qed.

#[global] Instance try_to_date format : TryVariant (fun try_mode => date_row try_mode format).
Proof.
  destruct format as [f|]; split; intros a; apply date_row_auto_try || apply date_row_format_try.
Qed.

Lemma to_boolean_converts v : converts (to_boolean_row false v).
Proof. unfold converts, to_boolean_row. intros e. by repeat case_match; intros [= <-]. Qed.

Lemma to_binary_converts f v : converts (binary_row f false v).
Proof. unfold converts, binary_row. intros e. by repeat case_match; intros [= <-]. Qed.

Lemma to_time_converts f v : converts (time_row false f v).
Proof. unfold converts, time_row. intros e. by repeat case_match; intros [= <-]. Qed.

Lemma rows_convert {A B} (f : A -> cres (option B)) (rows : list (option A)) : (forall a, converts (f a)) ->
  Forall (fun row => match row with Some a => converts (f a) | None => True end) rows.
Proof. intros Hf. apply Forall_forall. by intros [a|] _. Qed.

(** ASCII text can be sliced anywhere. *)
Definition ascii_text (s : string) : bool := str_all (fun c => (nat_of_ascii c <? 128)%nat) s.

Lemma str_all_substring p n m s : str_all p s = true -> str_all p (substring n m s) = true.
Proof.
  revert n m. induction s as [|c s IH]; intros [|n] [|m]; simpl; try done; intros [Hc Hs]%andb_prop;
    rewrite ?Hc; try apply IH; done.
Qed.

Lemma ascii_starts_char s : ascii_text s = true -> starts_char s = true.
Proof.
  destruct s as [|c s]; [done|]. unfold ascii_text, starts_char, is_continuation. cbn [str_all].
  intros [Hc%Nat.ltb_lt _]%andb_prop. destruct (Nat.leb_spec 128 (nat_of_ascii c)); [lia|done].
Qed.

Lemma slice_to_ascii s n : ascii_text s = true -> (n <= String.length s)%nat -> slice_to s n = Some (substring 0 n s).
Proof.
  intros Hs Hn. unfold slice_to. rewrite (proj2 (Nat.leb_le _ _) Hn), ascii_starts_char; [done|]. by apply str_all_substring.
Qed.

Lemma find_char_lt c s i : find_char c s = Some i -> (i < String.length s)%nat.
Proof.
  revert i. induction s as [|d s IH]; simpl; intros i; [done|]. destruct (Ascii.eqb c d); [intros [= <-]; lia|].
  destruct (find_char c s) as [j|]; simpl; [|done]. intros [= <-]. specialize (IH j eq_refl). lia.
Qed.

Lemma of_chars_length l : String.length (of_chars l) = sum_list_with String.length l.
Proof. induction l as [|ch l IH]; simpl; [done|]. by rewrite string_length_app, IH. Qed.

Lemma trim_start_chars_length l : (sum_list_with String.length (trim_start_chars l) <= sum_list_with String.length l)%nat.
Proof. induction l as [|ch l IH]; simpl; [done|]. destruct (is_whitespace ch); simpl; lia. Qed.

Lemma sum_list_with_reverse (l : list string) : sum_list_with String.length (reverse l) = sum_list_with String.length l.
Proof. induction l as [|x l IH]; [done|]. rewrite reverse_cons, sum_list_with_app, IH. simpl. lia. Qed.

Lemma trim_length s : (String.length (trim s) <= String.length s)%nat.
Proof.
  unfold trim. rewrite of_chars_length, sum_list_with_reverse. rewrite <- (of_chars_chars s) at 2. rewrite of_chars_length.
  etransitivity; [apply trim_start_chars_length|]. rewrite sum_list_with_reverse. apply trim_start_chars_length.
Qed.

Lemma format_date_str_ascii s : ascii_text s = true -> exists t, format_date_str s = Ok t /\ ascii_text t = true.
Proof.
  intros Hs. unfold format_date_str.
  assert (forall i, (i <= String.length s)%nat -> exists t, ok_or (slice_to s i) (ConvHalt Panic) = Ok t /\ ascii_text t = true) as Hi.
  { intros i Hi. rewrite slice_to_ascii by done. simpl. eexists. split; [done|]. by apply str_all_substring. }
  pose proof (trim_length s). destruct (find_char "T" (trim s)) as [i|] eqn:E; [apply find_char_lt in E; apply Hi; lia|].
  destruct (find_char " " s) as [i|] eqn:F; [apply find_char_lt in F; apply Hi; lia|]. eauto.
Qed.

Lemma truncated_length_le n : (truncated_length n <= n)%nat.
Proof.
  unfold truncated_length. destruct (Nat.ltb_spec 19 n); [lia|]. destruct (Nat.ltb_spec 10 n); [|lia].
  pose proof (Nat.mod_upper_bound (n - 11) 3). lia.
Qed.

Lemma to_date_converts f s : ascii_text s = true -> converts (date_row false f s).
Proof.
  intros Hs e. destruct f as [f|]; simpl.
  - unfold date_row_format. by repeat case_match; intros [= <-].
  - unfold date_row_auto. destruct (format_date_str_ascii s Hs) as (t & -> & Ht). simpl. unfold parse_truncated_checked.
    rewrite slice_to_ascii by (apply truncated_length_le || done). simpl. by repeat case_match; intros [= <-].
Qed.

(** The TRY variants of TO_BOOLEAN, TO_BINARY and TO_TIME succeed on every column of strings: each
    row is the value of the strict conversion, or null where that raises an error.  TRY_TO_DATE does
    so on columns of ASCII text. *)
Theorem try_conversions_total rows format time_format date_format :
  Forall (fun row => match row with Some s => ascii_text s = true | None => True end) rows ->
  let column := [Array (AUtf8 Utf8 rows)] in
  to_boolean true column = Ok (Array (ABoolean (converted_rows (to_boolean_row false) rows))) /\
  convert_string_to_binary rows format true = Ok (ABinary Binary (converted_rows (binary_row format false) rows)) /\
  to_time true (column ++ [Scalar (SUtf8 Utf8 (Some time_format))]) =
    Ok (Array (ATemporal (Time64 Nanosecond) (converted_rows (time_row false (Some time_format)) rows))) /\
  to_time true column = Ok (Array (ATemporal (Time64 Nanosecond) (converted_rows (time_row false None) rows))) /\
  (forall args, date_format_arg (column ++ args) = Ok date_format ->
   to_date true (column ++ args) = Ok (Array (ATemporal Date32 (converted_rows (date_row false date_format) rows)))).
Proof.
  intros Hrows column. split_and!.
  - unfold to_boolean. simpl. by rewrite (try_rows to_boolean_row) by apply rows_convert, to_boolean_converts.
  - unfold convert_string_to_binary. by rewrite (try_rows (binary_row format)) by apply rows_convert, to_binary_converts.
  - unfold to_time. simpl. by rewrite (try_rows (fun t => time_row t (Some time_format))) by apply rows_convert, to_time_converts.
  - unfold to_time. simpl. by rewrite (try_rows (fun t => time_row t None)) by apply rows_convert, to_time_converts.
  - intros args Hf. unfold to_date. simpl. simpl in Hf. rewrite Hf. simpl.
    rewrite (try_rows (fun t => date_row t date_format)); [done|].
    eapply Forall_impl; [exact Hrows|]. intros [s|]; [apply to_date_converts|done].
Qed.

(** Where the strict conversion of a column succeeds, the TRY variant has the same result. *)
Theorem try_conversions_agree rows format time_format date_format b bin t d :
  conv_rows (to_boolean_row false) rows = Ok b -> conv_rows (binary_row format false) rows = Ok bin ->
  conv_rows (time_row false time_format) rows = Ok t -> conv_rows (date_row false date_format) rows = Ok d ->
  conv_rows (to_boolean_row true) rows = Ok b /\ conv_rows (binary_row format true) rows = Ok bin /\
  conv_rows (time_row true time_format) rows = Ok t /\ conv_rows (date_row true date_format) rows = Ok d.
Proof.
  intros Hb Hbin Ht Hd. split_and!; [exact (try_rows_agree _ _ _ Hb)|exact (try_rows_agree _ _ _ Hbin)| |].
  - by apply (try_rows_agree (fun m => time_row m time_format)).
  - by apply (try_rows_agree (fun m => date_row m date_format)).
Qed.

(** TRY_TO_DATE panics on text of 12 bytes whose ninth byte is inside a character. *)
Lemma try_to_date_panics s : String.length s = 12%nat -> starts_char (substring 9 3 s) = false ->
  find_char "T" (trim s) = None -> find_char " " s = None ->
  (forall f, date_from_str s f = None) -> to_date true [Array (AUtf8 Utf8 [Some s])] = Err (ConvHalt Panic).
Proof.
  intros Hl Hs HT Hsp Hp. unfold to_date. simpl. unfold conv_rows. simpl. unfold date_row_auto, format_date_str.
  rewrite HT, Hsp. simpl. rewrite !Hp. unfold parse_truncated_checked, slice_to. rewrite Hl.
  change (truncated_length 12) with 9%nat. simpl (9 <=? 12)%nat. change (12 - 9)%nat with 3%nat. by rewrite Hs.
Qed.
End try_variants.

(** ** The time of day *)
Section times.
Context {C : Chrono} `{ArrowExt, !ConvExt}.

Lemma calc_nanos_mod n : calc_nanos_since_midnight n = n mod NANOS_IN_DAY.
Proof.
  unfold calc_nanos_since_midnight. change NANOS_IN_DAY with 86400000000000. destruct (Z.leb_spec 0 n).
  - apply Z.rem_mod_nonneg; lia.
  - pose proof (Z.rem_bound_pos_neg n 86400000000000 ltac:(lia) ltac:(lia)). rewrite Z.rem_mod_nonneg by lia.
    pose proof (Z.quot_rem' n 86400000000000) as E. set (q := Z.quot _ _) in E.
    replace (Z.rem n 86400000000000 + 86400000000000) with (n + (1 - q) * 86400000000000) by lia. apply Z_mod_plus_full.
Qed.

Lemma to_time_of_day u v : in_i64 (v * unit_nanos u) = true -> timestamp_time u v = (v * unit_nanos u) mod NANOS_IN_DAY.
Proof. intros Hv. unfold timestamp_time. by rewrite wrap_i64_id, calc_nanos_mod. Qed.

(** The digits of seconds, milliseconds, microseconds and nanoseconds TO_TIME reads. *)
Definition time_digits (u : TimeUnit) : nat := match u with Second => 8 | Millisecond => 11 | Microsecond => 14 | Nanosecond => 17 end.

Lemma time_row_digits is_try u s : String.length s = time_digits u -> str_all is_ascii_digit s = true ->
  time_row is_try None s = Ok (Some ((digits_value 0 s * unit_nanos u) mod NANOS_IN_DAY)).
Proof.
  intros Hl Hs. pose proof (digits_value_bounds s 0 Hs) as Hb. rewrite Hl in Hb. unfold time_row.
  assert (s <> "") by (intros ->; by destruct u).
  assert (in_i64 (digits_value 0 s) = true /\ in_i64 (digits_value 0 s * unit_nanos u) = true) as [Hfit Hfit'].
  { unfold in_i64, i64_min, i64_max. destruct u; simpl in *; lia. }
  rewrite parse_i64_digits, Hfit, Hl by done.
  destruct u; simpl in *; rewrite calc_nanos_mod, ?wrap_i64_id by done; rewrite ?Z.mul_1_r; done.
Qed.

(** TO_TIME of a timestamp is the time of day of the instant, in every unit and before 1970 too,
    and of a text of 8, 11, 14 or 17 digits that of the number as seconds, milliseconds, microseconds
    or nanoseconds; a time of day is always below 24 hours. *)
Theorem to_time_correct u tz values s is_try :
  Forall (fun v => in_i64 (v * unit_nanos u) = true) values ->
  String.length s = time_digits u -> str_all is_ascii_digit s = true ->
  to_time is_try [Array (ATemporal (Timestamp u tz) (map Some values))] =
    Ok (Array (ATemporal (Time64 Nanosecond) (map (fun v => Some ((v * unit_nanos u) mod NANOS_IN_DAY)) values))) /\
  to_time is_try [Array (AUtf8 Utf8 [Some s])] =
    Ok (Array (ATemporal (Time64 Nanosecond) [Some ((digits_value 0 s * unit_nanos u) mod NANOS_IN_DAY)])) /\
  forall v, 0 <= timestamp_time u v < NANOS_IN_DAY.
Proof.
  intros Hv Hl Hs. split_and!.
  - unfold to_time. simpl. do 3 f_equal. rewrite map_map. apply map_ext_Forall. eapply Forall_impl; [exact Hv|].
    intros v Hv'. simpl. f_equal. by apply to_time_of_day.
  - unfold to_time. simpl. unfold conv_rows. cbn [traverse]. by rewrite (time_row_digits is_try u).
  - intros v. unfold timestamp_time. rewrite calc_nanos_mod. by apply Z.mod_pos_bound.
Qed.
End times.

(** ** Digits as a timestamp *)
Section dates.
Context {C : Chrono} {CD : ChronoDays} `{ArrowExt, !ConvExt}.

(** The power of a thousand between the unit of a text of digits and seconds. *)
Definition digits_unit (len : nat) : Z :=
  if (len <=? 10)%nat then 0 else if (len <=? 13)%nat then 3 else if (len <=? 16)%nat then 6 else 9.

Lemma string_split n s : (n <= String.length s)%nat -> s = substring 0 n s ++ substring n (String.length s - n) s.
Proof.
  revert n. induction s as [|c s IH]; intros [|n] Hn; simpl in *; [done|lia| |].
  - f_equal. clear. induction s as [|d s IH]; simpl; congruence.
  - f_equal. apply IH. lia.
Qed.

Lemma substring_length n m s : (n + m <= String.length s)%nat -> String.length (substring n m s) = m.
Proof.
  revert n m. induction s as [|c s IH]; intros [|n] [|m]; simpl; intros Hn; try lia; try done.
  - rewrite IH; lia.
  - apply IH. lia.
  - apply IH. lia.
Qed.

Lemma truncated_power n : (n <= 28)%nat -> Z.of_nat (n - truncated_length n) = digits_unit n.
Proof. intros Hn. do 29 (destruct n as [|n]; [reflexivity|]). lia. Qed.

Lemma digits_ascii s : str_all is_ascii_digit s = true -> ascii_text s = true.
Proof.
  unfold ascii_text. induction s as [|c s IH]; [done|]. cbn [str_all]. intros [Hc Hs]%andb_prop. rewrite IH by done.
  unfold is_ascii_digit in Hc. apply andb_prop in Hc as [_ Hc%Nat.leb_le].
  destruct (Nat.ltb_spec (nat_of_ascii c) 128); [done|lia].
Qed.

Lemma truncated_length_small n : (n <= 27)%nat -> (truncated_length n <= 18)%nat.
Proof. intros Hn. do 28 (destruct n as [|n]; [by vm_compute; lia|]). lia. Qed.

Lemma truncated_length_pos n : (0 < n)%nat -> (0 < truncated_length n)%nat.
Proof. unfold truncated_length. intros Hn. repeat case_match; lia. Qed.

(** The seconds of a text of up to 27 digits: its number divided by the power of ten of its unit. *)
Lemma parse_truncated_digits s : s <> "" -> str_all is_ascii_digit s = true -> (String.length s <= 27)%nat ->
  parse_truncated_checked s = Ok (Some (digits_value 0 s / 10 ^ digits_unit (String.length s))).
Proof.
  intros Hn Hs Hl. unfold parse_truncated_checked. pose proof (truncated_length_le (String.length s)) as Ht.
  set (n := truncated_length (String.length s)) in *.
  rewrite slice_to_ascii by (done || by apply digits_ascii). simpl.
  assert (str_all is_ascii_digit (substring 0 n s) = true) as Hd by (by apply str_all_substring).
  assert (String.length (substring 0 n s) = n) as Hln by (apply substring_length; lia).
  assert (0 < n)%nat as Hpos by (apply truncated_length_pos; destruct s; simpl in *; [done|lia]).
  rewrite parse_i64_digits; [|intros E; rewrite E in Hln; simpl in Hln; lia|done].
  assert (digits_value 0 (substring 0 n s) = digits_value 0 s / 10 ^ digits_unit (String.length s)) as E.
  { rewrite (digits_value_quotient _ (substring n (String.length s - n) s)) by (by apply str_all_substring).
    rewrite <- string_split, substring_length by lia. do 2 f_equal. apply truncated_power. lia. }
  rewrite <- E. pose proof (digits_value_bounds _ 0 Hd) as Hb. rewrite Hln in Hb.
  pose proof (truncated_length_small _ Hl : (n <= 18)%nat) as Hs18.
  assert (10 ^ Z.of_nat n <= 10 ^ 18) by (apply Z.pow_le_mono_r; lia).
  assert (in_i64 (digits_value 0 (substring 0 n s)) = true) as ->; [|done].
  unfold in_i64, i64_min, i64_max. change (10 ^ 18) with 1000000000000000000 in *. lia.
Qed.

Lemma find_char_absent c s : str_all (fun d => negb (Ascii.eqb c d)) s = true -> find_char c s = None.
Proof.
  induction s as [|d s IH]; [done|]. simpl. intros [Hc Hs]%andb_prop. destruct (Ascii.eqb c d); [done|]. by rewrite IH.
Qed.

Lemma str_all_of_chars p l : str_all p (of_chars l) = forallb (str_all p) l.
Proof. induction l as [|ch l IH]; [done|]. simpl. by rewrite str_all_app, IH. Qed.

Lemma forallb_sublist {A} (p : A -> bool) l k : l `sublist_of` k -> forallb p k = true -> forallb p l = true.
Proof. induction 1; simpl; [done|intros [-> ?]%andb_prop; auto|intros [_ ?]%andb_prop; auto]. Qed.

Lemma trim_start_sublist l : trim_start_chars l `sublist_of` l.
Proof. induction l as [|ch l IH]; simpl; [done|]. destruct (is_whitespace ch); [by apply sublist_cons|done]. Qed.

Lemma forallb_reverse {A} (p : A -> bool) l : forallb p (reverse l) = forallb p l.
Proof. induction l as [|x l IH]; [done|]. rewrite reverse_cons, forallb_app, IH. simpl. by destruct (p x), (forallb p l). Qed.

Lemma str_all_trim p s : str_all p s = true -> str_all p (trim s) = true.
Proof.
  unfold trim. rewrite <- (of_chars_chars s) at 1. rewrite !str_all_of_chars, forallb_reverse. intros Hs.
  eapply forallb_sublist; [apply trim_start_sublist|]. rewrite forallb_reverse.
  eapply forallb_sublist; [apply trim_start_sublist|done].
Qed.

Lemma digit_not c d : is_ascii_digit d = true -> is_ascii_digit c = false -> negb (Ascii.eqb c d) = true.
Proof. intros Hd Hc. destruct (Ascii.eqb_spec c d) as [->|]; [congruence|done]. Qed.

Lemma format_date_str_digits s : str_all is_ascii_digit s = true -> format_date_str s = Ok s.
Proof.
  intros Hs. unfold format_date_str. rewrite !find_char_absent; [done|..].
  - eapply str_all_impl; [|exact Hs]. intros c Hc. by apply digit_not.
  - eapply str_all_impl; [|by apply str_all_trim]. intros c Hc. by apply digit_not.
Qed.

(** A text of at most 27 digits that is no date is a timestamp whose unit its length tells: up to
    10 digits count seconds, 11 to 13 milliseconds, 14 to 16 microseconds and more nanoseconds; TO_DATE
    gives the day of that instant, null when [chrono] has no such day. *)
Theorem to_date_of_digits try_mode s :
  s <> "" -> str_all is_ascii_digit s = true -> (String.length s <= 27)%nat ->
  Forall (fun f => date_from_str s f = None) [YYYY_MM_DD_FORMAT; DD_MON_YYYY_FORMAT; MM_DD_YYYY_SLASH_FORMAT] ->
  to_date try_mode [Array (AUtf8 Utf8 [Some s])] =
  Ok (Array (ATemporal Date32 [option_map days_from_epoch
    (date_of_seconds (digits_value 0 s / 10 ^ digits_unit (String.length s)))])).
Proof.
  intros Hn Hs Hl Hp. rewrite !Forall_cons, Forall_nil in Hp. destruct Hp as (P1 & P2 & P3 & _).
  unfold to_date. simpl. unfold conv_rows. cbn [traverse date_row]. unfold date_row_auto.
  rewrite format_date_str_digits by done. simpl. rewrite P1, P2, P3, parse_truncated_digits by done. done.
Qed.
End dates.

(** ** The type of TO_DECIMAL *)
Section decimals.
Context {C : Chrono} `{ArrowExt, !ConvExt}.

(** A cast to a decimal type gives an array of that type. *)
Class CastLaws : Prop := {
  cast_decimal_type : forall safe p s a b, cast_decimal128 safe p s a = Ok b -> data_type b = TDecimal Decimal128 p s }.

Definition decimal_type_ok (t : DataType) : Prop :=
  exists p s, t = TDecimal Decimal128 p s /\ 1 <= p <= 38 /\ 0 <= s < p.

Lemma get_precision_Ok v p : get_precision_checked v = Ok p -> 1 <= p <= 38.
Proof.
  unfold get_precision_checked. destruct (try_convert_scalar_to_integer _ _ v); simpl; [|done].
  case_match eqn:E; [intros [= <-]; lia|done].
Qed.

Lemma get_scale_Ok v p s : get_scale_checked v p = Ok s -> 0 <= s < p.
Proof.
  unfold get_scale_checked. destruct (try_convert_scalar_to_integer _ _ v); simpl; [|done].
  case_match eqn:E; [intros [= <-]; lia|done].
Qed.

Lemma decimal_return_type_ok args t : decimal_return_type args = Ok t -> decimal_type_ok t.
Proof.
  unfold decimal_return_type, result_bind, decimal_type_ok.
  repeat case_match; intros E; simplify_eq;
    repeat match goal with
    | Hp : get_precision_checked _ = Ok _ |- _ => apply get_precision_Ok in Hp
    | Hp : get_scale_checked _ _ = Ok _ |- _ => apply get_scale_Ok in Hp
    end; eexists _, _; (split; [reflexivity|lia]).
Qed.

Lemma of_arrow_conv_Ok {A} (r : result ArrowError A) a : of_arrow_conv r = Ok a -> r = Ok a.
Proof. by destruct r; intros E; simplify_eq/=. Qed.

Lemma null_decimals_type n p s a : null_decimals n p s = Ok a -> data_type a = TDecimal Decimal128 p s.
Proof. unfold null_decimals. destruct (of_arrow_conv _); simpl; [|done]. by intros [= <-]. Qed.

(** The type TO_DECIMAL declares has a precision from 1 to 38 and a smaller scale, integer literals
    within these bounds are accepted as they are, and the column it computes has the declared type. *)
Theorem to_decimal_typed `{!CastLaws} try_mode literals t args n c k k' p s x :
  decimal_return_type literals = Ok t -> to_decimal try_mode t args n = Ok c ->
  decimal_type_ok t /\ columnar_type c = t /\
  (decimal_return_type [x; Some (SInt k (Some p)); Some (SInt k' (Some s))] = Ok (TDecimal Decimal128 p s) <->
   1 <= p <= 38 /\ 0 <= s < p).
Proof.
  intros Ht Hc. pose proof (decimal_return_type_ok _ _ Ht) as Hok. split; [done|].
  destruct Hok as (p0 & s0 & -> & _). split.
  - revert Hc. unfold to_decimal. destruct (arg_at args 0) as [expr|]; simpl; [|done].
    destruct (arg_array expr) as [array|]; simpl; [|done]. destruct (decimal_format_arg args) as [format|]; simpl; [|done].
    match goal with |- result_bind ?r _ = _ -> _ => destruct r as [a|] eqn:E end; simpl; [|done]. intros [= <-]. simpl.
    unfold error_or_null_array in E.
    repeat case_match; simplify_eq/=;
      try (apply of_arrow_conv_Ok in E; by apply cast_decimal_type in E); try (by apply null_decimals_type in E).
    destruct (of_arrow_conv (cast_int64 _)); simplify_eq/=. apply of_arrow_conv_Ok in E. by apply cast_decimal_type in E.
  - split; [intros (? & ? & [= <- <-] & Hb)%decimal_return_type_ok; lia|]. intros [Hp Hs]. cbn.
    unfold get_precision_checked, get_scale_checked. cbn.
    by repeat (case_match; try lia; cbn).
Qed.
End decimals.

(** ** The rows of TO_ARRAY *)
Section arrays.
Context {C : Chrono} `{ArrowExt, !ConvExt, Serde}.

(** What DataFusion documents of scalars of strings. *)
Class StringScalarLaws : Prop := {
  display_string : forall k s, scalar_display (SUtf8 k (Some s)) = s;
  scalar_at_string : forall k rows i v, rows !! i = Some v -> scalar_at (AUtf8 k rows) i = Ok (SUtf8 k v);
  strings_to_array : forall l, l <> [] -> scalars_to_array (map (fun s => SUtf8 Utf8 (Some s)) l) = Ok (AUtf8 Utf8 (map Some l)) }.
Context `{!StringScalarLaws}.

(** The elements of a row: those of a JSON array, or the text itself; none for null. *)
Definition elements (row : option string) : list string :=
  match row with
  | None => []
  | Some s => match from_str s with Some (VArray l) => map to_string l | _ => [s] end
  end.

Definition all_elements (rows : list (option string)) : list string := concat (map elements rows).

Fixpoint offsets_of (start : nat) (rows : list (option string)) : list nat :=
  match rows with
  | [] => []
  | row :: rows => (start + length (elements row))%nat :: offsets_of (start + length (elements row)) rows
  end.

Notation utf8 := (fun s => SUtf8 Utf8 (Some s)).

Lemma row_elements_string k s : row_elements (TUtf8 k) (SUtf8 k (Some s)) = map utf8 (elements (Some s)).
Proof.
  simpl. rewrite display_string. destruct (from_str s) as [[]|]; try done. by rewrite map_map.
Qed.

Lemma array_rows_strings k rows pre : Z.of_nat (length pre + length (all_elements rows)) <= i32_max ->
  array_rows (TUtf8 k) (map utf8 pre) (map (SUtf8 k) rows) =
  Ok (map utf8 (pre ++ all_elements rows)%list, offsets_of (length pre) rows).
Proof.
  revert pre. induction rows as [|row rows IH]; intros pre Hl; cbn [array_rows map offsets_of]; [by rewrite app_nil_r|].
  unfold all_elements in *. cbn [map concat] in *. rewrite length_app in Hl.
  assert ((if match row with Some _ => false | None => true end then map utf8 pre
           else map utf8 pre ++ row_elements (TUtf8 k) (SUtf8 k row))%list = map utf8 (pre ++ elements row)%list) as E.
  { destruct row as [s|]; simpl scalar_is_null; cbn iota; [by rewrite row_elements_string, map_app|by rewrite app_nil_r]. }
  replace (scalar_is_null (SUtf8 k row)) with (match row with Some _ => false | None => true end) by (by destruct row).
  cbn zeta. rewrite E, length_map, length_app. destruct (Z.leb_spec (Z.of_nat (length pre + length (elements row))) i32_max); [|lia].
  rewrite IH by (rewrite length_app; lia). simpl. rewrite length_app, app_assoc. done.
Qed.

Lemma list_rows_strings all rows pre : all = (pre ++ all_elements rows)%list ->
  list_rows (AUtf8 Utf8 (map Some all)) (length pre) (offsets_of (length pre) rows) =
  map (fun row => Some (AUtf8 Utf8 (map Some (elements row)))) rows.
Proof.
  revert pre. induction rows as [|row rows IH]; intros pre Ha; simpl; [done|]. f_equal.
  - do 2 f_equal. unfold window. rewrite Ha. unfold all_elements. cbn [map concat]. rewrite !map_app.
    rewrite drop_app_length' by (by rewrite length_map). rewrite take_app_length'; [done|]. rewrite length_map. lia.
  - rewrite <- length_app. apply IH. rewrite Ha. unfold all_elements. cbn [map concat]. by rewrite app_assoc.
Qed.

Lemma offsets_of_last rows start : (default 0%nat (last (offsets_of start rows)) <= start + length (all_elements rows))%nat.
Proof.
  revert start. induction rows as [|row rows IH]; intros start; [simpl; lia|].
  unfold all_elements in *. cbn [map concat offsets_of]. rewrite length_app.
  specialize (IH (start + length (elements row))%nat). destruct (offsets_of _ rows) as [|o l]; [simpl; lia|].
  change (last (_ :: o :: l)) with (last (o :: l)). lia.
Qed.

Lemma traverse_scalar_at k rows : traverse (fun i => of_arrow_conv (scalar_at (AUtf8 k rows) i)) (seq 0 (length rows)) = Ok (map (SUtf8 k) rows).
Proof.
  assert (forall n tl, drop n rows = tl -> traverse (fun i => of_arrow_conv (scalar_at (AUtf8 k rows) i)) (seq n (length tl)) = Ok (map (SUtf8 k) tl)) as Ht.
  2:{ by apply (Ht 0%nat). }
  intros n tl. revert n. induction tl as [|v tl IH]; intros n Hd; [done|]. simpl.
  rewrite (scalar_at_string k rows n v) by (by rewrite <- (Nat.add_0_r n), <- lookup_drop, Hd). simpl.
  rewrite IH; [done|]. replace (S n) with (n + 1)%nat by lia. by rewrite <- drop_drop, Hd.
Qed.

(** TO_ARRAY of a column of strings has a list per row: the elements of a JSON array as JSON text,
    the text itself when it is no array, and the empty list for null. *)
Theorem to_array_of_strings rows n : Z.of_nat (length (all_elements rows)) <= i32_max ->
  to_array_func [Array (AUtf8 Utf8 rows)] n =
  Ok (Array (AList List_ (TUtf8 Utf8) (map (fun row => Some (AUtf8 Utf8 (map Some (elements row)))) rows))).
Proof.
  intros Hl. unfold to_array_func. simpl. rewrite traverse_scalar_at. simpl.
  pose proof (array_rows_strings Utf8 rows [] Hl) as Er. cbn [map app length] in Er. rewrite Er. cbn [result_bind].
  assert (match map utf8 (all_elements rows) with
          | [] => Ok (slice_rows 0 0 (AUtf8 Utf8 rows))
          | _ => of_arrow_conv (scalars_to_array (map utf8 (all_elements rows)))
          end = Ok (AUtf8 Utf8 (map Some (all_elements rows)))) as E.
  { destruct (all_elements rows) as [|x l] eqn:Ea; [done|]. pose proof (strings_to_array (x :: l) ltac:(done)) as Es.
    cbn [map] in *. by rewrite Es. }
  simpl in E. rewrite E. cbn [result_bind len data_type].
  pose proof (offsets_of_last rows 0) as Ho. rewrite length_map. destruct (Nat.leb_spec (default 0%nat (last (offsets_of 0 rows))) (length (all_elements rows))); [|simpl in *; lia].
  do 3 f_equal. by apply (list_rows_strings _ rows []).
Qed.
End arrays.

(** ** Instances and witnesses *)
Module ConversionExamples.
Import Gregorian ArrowExample SerdeExample.

Definition display (s : ScalarValue) : string := match s with SUtf8 _ (Some s) => s | _ => "NULL" end.

Definition strings_of (l : list ScalarValue) : result ArrowError ArrayRef :=
  result_map (AUtf8 Utf8) (traverse (fun s => match s with SUtf8 Utf8 v => Ok v | _ => Err (OtherError "mixed types") end) l).

Definition hex_digit (c : ascii) : option Z :=
  let n := Z.of_nat (nat_of_ascii c) in
  if is_ascii_digit c then Some (n - 48) else if (97 <=? n) && (n <=? 102) then Some (n - 87) else None.

Fixpoint hex_bytes (s : string) : option (list byte) :=
  match s with
  | String a (String b s) =>
      match hex_digit a, hex_digit b, hex_bytes s with
      | Some x, Some y, Some l => option_map (fun c => c :: l) (Byte.of_N (Z.to_N (x * 16 + y)))
      | _, _, _ => None
      end
  | EmptyString => Some []
  | _ => None
  end.

(** Dates as [YYYY-MM-DD] only. *)
Definition iso_date (s : string) : option date :=
  match Utf8.split s "-" with
  | [y; m; d] =>
      match parse_digits y, parse_digits m, parse_digits d with
      | Some y, Some m, Some d => mk y m d
      | _, _, _ => None
      end
  | _ => None
  end.

Definition epoch_day : @NaiveDate chrono := exist _ (1970, 1, 1) eq_refl.

#[global] Instance example_conv : ConvExt (C := chrono) := {|
  str_to_lowercase := to_ascii_lowercase;
  str_to_uppercase := to_ascii_uppercase;
  scalar_display := display;
  cast_string a := match a with AUtf8 _ rows => Ok (AUtf8 Utf8 rows) | _ => Err (OtherError "no string") end;
  cast_date32 _ a := match a with ATemporal Date32 _ => Ok a | _ => Err (OtherError "no date") end;
  cast_decimal128 _ p s a :=
    match a with
    | AInt _ rows => Ok (ADecimal Decimal128 p s (map (option_map (fun v => v * 10 ^ s)) rows))
    | _ => Err (OtherError "no number")
    end;
  cast_int64 a :=
    match a with
    | ABoolean rows => Ok (AInt Int64 (map (option_map Z.b2z) rows))
    | AInt _ rows => Ok (AInt Int64 rows)
    | _ => Err (OtherError "no number")
    end;
  with_precision_and_scale p s := if (1 <=? p) && (p <=? 38) && (s <=? p) then Ok tt else Err (OtherError "precision");
  scalar_at a i := match a with
    | AUtf8 k rows => match rows !! i with Some v => Ok (SUtf8 k v) | None => Err (OtherError "index") end
    | _ => Err (OtherError "type") end;
  scalars_to_array := strings_of;
  decode_hex_digits s := match hex_bytes s with Some b => Ok b | None => Err "Invalid character" end;
  decode_base64 s := match s with EmptyString => Ok [] | _ => Err "Invalid byte" end;
  time_from_str _ _ := Err "input is not enough for unique time";
  time64_from_str _ := None;
  date_from_str s f := if String.eqb f YYYY_MM_DD_FORMAT then iso_date s else None;
  date_of_seconds n := checked_add_days epoch_day (n / 86400);
  with_year D y := mk y (m_of D) (d_of D) |}.

#[global] Instance example_cast_laws : CastLaws.
Proof. split. intros safe p s a b. simpl. by destruct a; intros [= <-]. Qed.

#[global] Instance example_string_laws : StringScalarLaws.
Proof.
  split; [done|..].
  - intros k rows i v E. simpl. by rewrite E.
  - intros l _. simpl. unfold strings_of.
    assert (traverse (fun s => match s with SUtf8 Utf8 v => Ok v | _ => Err (OtherError "mixed types") end) (map (fun s => SUtf8 Utf8 (Some s)) l) = Ok (map Some l)) as ->; [|done].
    induction l as [|s l IH]; [done|]. simpl. by rewrite IH.
Qed.

Lemma try_conversions_total_witness :
  to_boolean true [Array (AUtf8 Utf8 [Some "YES"; None; Some "maybe"; Some "oFF"])] =
    Ok (Array (ABoolean [Some true; None; None; Some false])) /\
  to_date true [Array (AUtf8 Utf8 [Some "1970-01-02T10:00:00"; Some "soon"; Some "864001"])] =
    Ok (Array (ATemporal Date32 [Some 1; None; Some 10])).
Proof.
  split.
  - refine (proj1 (try_conversions_total [Some "YES"; None; Some "maybe"; Some "oFF"] "HEX" "" None _)). repeat constructor.
  - refine (proj2 (proj2 (proj2 (proj2 (try_conversions_total [Some "1970-01-02T10:00:00"; Some "soon"; Some "864001"] "HEX" "" None _)))) [] eq_refl).
    repeat constructor.
Defined.

Lemma try_conversions_agree_witness :
  conv_rows (to_boolean_row true) [None] = Ok [None] /\ conv_rows (binary_row "hex" true) [None] = Ok [None] /\
  conv_rows (time_row true None) [None] = Ok [None] /\ conv_rows (date_row true None) [None] = Ok [None].
Proof. apply try_conversions_agree; reflexivity. Defined.

Example panicking_date : to_date true [Array (AUtf8 Utf8 [Some "éééééé"])] = Err (ConvHalt Panic).
Proof. apply try_to_date_panics; try reflexivity. intros f. simpl. by destruct (String.eqb f _). Qed.

Lemma to_time_correct_witness :
  to_time false [Array (ATemporal (Timestamp Second None) [Some (-1); Some 86402])] =
    Ok (Array (ATemporal (Time64 Nanosecond) [Some 86399000000000; Some 2000000000])) /\
  to_time false [Array (AUtf8 Utf8 [Some "31536001"])] = Ok (Array (ATemporal (Time64 Nanosecond) [Some 1000000000])).
Proof.
  destruct (to_time_correct Second None [-1; 86402] "31536001" false) as (E & E' & _); [repeat constructor|done|done|].
  split; [exact E|exact E'].
Defined.

Lemma to_date_of_digits_witness :
  to_date false [Array (AUtf8 Utf8 [Some "31536000000"])] = Ok (Array (ATemporal Date32 [Some 365])).
Proof.
  rewrite (to_date_of_digits false "31536000000"); [vm_compute; reflexivity|done|done|simpl; lia|repeat constructor].
Defined.

Lemma to_decimal_typed_witness :
  decimal_type_ok (TDecimal Decimal128 5 2) /\
  columnar_type (Array (ADecimal Decimal128 5 2 [Some 100; None])) = TDecimal Decimal128 5 2 /\
  (decimal_return_type [None; Some (SInt Int64 (Some 38)); Some (SInt Int8 (Some 0))] = Ok (TDecimal Decimal128 38 0) <->
   1 <= 38 <= 38 /\ 0 <= 0 < 38).
Proof.
  apply (to_decimal_typed false [None; Some (SInt Int64 (Some 5)); Some (SInt Int64 (Some 2))] _
    [Array (AInt Int64 [Some 1; None]); Scalar (SInt Int64 (Some 5)); Scalar (SInt Int64 (Some 2))] 2); reflexivity.
Defined.

Lemma to_array_of_strings_witness :
  to_array_func [Array (AUtf8 Utf8 [Some "[1,2]"; None; Some "x"])] 3 =
  Ok (Array (AList List_ (TUtf8 Utf8)
    [Some (AUtf8 Utf8 [Some "1"; Some "2"]); Some (AUtf8 Utf8 []); Some (AUtf8 Utf8 [Some "x"])])).
Proof.
  rewrite (to_array_of_strings [Some "[1,2]"; None; Some "x"] 3); [vm_compute; reflexivity|vm_compute; discriminate].
Defined.

(** The formats of fractional seconds with a number of digits lose to the shorter [FF]. *)
Example time_format_ff3 : replace_all TIME_MAP "HH24:MI:SS.FF3" = "%H:%M:%S.%.f3".
Proof. reflexivity. Qed.

(** Only one missing part of a date is completed. *)
Example year_format_lacks_day : format_missing_chrono_format (parse_to_chrono_format "yyyy") = ("%C%y%m", "01").
Proof. reflexivity. Qed.

(** The [T] of a month's name ends a date in text. *)
Example october_cut : format_date_str "01-OCT-2024" = Ok "01-OC".
Proof. reflexivity. Qed.

(** A [LargeBinary] column is refused, and one of [Utf8View] with a number format panics. *)
Example large_binary_refused : to_binary false [Array (ABinary LargeBinary [None])] = Err (ConvHalt (Raise (OtherError "could not cast"))).
Proof. reflexivity. Qed.

Example view_with_format_panics :
  to_decimal true (TDecimal Decimal128 38 0) [Array (AUtf8 Utf8View [Some "$1"]); Scalar (SUtf8 Utf8 (Some "$9"))] 1 = Err (ConvHalt Panic).
Proof. reflexivity. Qed.
End ConversionExamples.
