(* ===== verification/ToTimestamp.v ===== *)
(** * TO_TIMESTAMP

    [functions/src/conversion/to_timestamp.rs]: TO_TIMESTAMP and its NTZ, LTZ, TZ and TRY variants on
    numbers, decimals, dates, timestamps and text, the type it declares, and [parse_timezone], which
    the encoding of results uses too.

    Parameters ([TimestampExt]): the two regular expressions, [chrono]'s and Arrow's parsers, and
    Arrow's casts.  Instants are nanoseconds since the epoch, as in [DateParts]. *)

From Stdlib Require Import ZArith Lia Ascii String.
From stdpp Require Import base option list gmap strings.
From S2P Require Import Prelude Calendar Utf8 SessionParams DateTime DateParts JsonValue JsonEncode SemiStructured Conversions.

Open Scope string_scope.
Open Scope Z_scope.
Open Scope rust_scope.

#[local] Arguments String.append : simpl nomatch.

(** The groups of [TIMESTAMP_REGEX]: the three parts of the date, the hour, minute, second and
    fraction, and the zone. *)
Record Captures := mkCaptures {
  group1 : string; group2 : string; group3 : string;
  group4 : option string; group5 : option string; group6 : option string; group7 : option string;
  group8 : option string }.

Class TimestampExt {C : Chrono} {TZ : TimeZones} := {
  (** [string_to_timestamp_nanos] of Arrow. *)
  string_to_timestamp_nanos : string -> option Z;
  timestamp_captures : string -> option Captures;
  (** Where [RE_TIMEZONE] matches. *)
  timezone_suffix : string -> option nat;
  fixed_offset_from_str : string -> option Z;
  (** The offset of a zone now. *)
  offset_now : Tz -> Z;
  month_from_str : string -> option Z;
  and_hms_nano_opt : NaiveDate -> Z -> Z -> Z -> Z -> option NaiveDateTime;
  (** A local time in UTC, for an offset in seconds. *)
  to_utc : NaiveDateTime -> Z -> option NaiveDateTime;
  timestamp_micros : NaiveDateTime -> Z;
  datetime_from_str : string -> string -> option NaiveDateTime;
  (** [from_timestamp_micros], as nanoseconds. *)
  from_timestamp_micros : Z -> option Z;
  cast_timestamp : TimeUnit -> option string -> ArrayRef -> result ArrowError ArrayRef;
  scalar_to_int64 : ScalarValue -> result ArrowError ScalarValue;
  scalar_to_utf8 : ScalarValue -> result ArrowError ScalarValue;
  (** The bytes below a null row of a string array. *)
  null_slot : string }.

(** [str::parse::<u32>]. *)
Definition parse_u32 (s : string) : option Z :=
  let '(sign, digits) := split_sign s in
  match sign with
  | Some "-"%char => None
  | _ => match parse_digits digits with Some n => if n <=? 4294967295 then Some n else None | None => None end
  end.

Definition contains_only_digits (s : string) : bool := str_all is_ascii_digit s.

Definition determine_timestamp_scale (value : Z) : Z :=
  let abs_value := wrap_i64 (Z.abs value) in
  if abs_value <? 31536000000 then 0
  else if abs_value <? 31536000000000 then 3
  else if abs_value <? 31536000000000000 then 6
  else 9.

Definition convert_snowflake_format_to_chrono `{ConvExt} (snowflake_format : string) : string :=
  replace_all
    [("yyyy", "%Y"); ("yy", "%y"); ("mm", "%m"); ("mon", "%b"); ("month", "%B"); ("dd", "%d"); ("dy", "%a"); ("day", "%A");
     ("hh24", "%H"); ("hh", "%I"); ("am", "%P"); ("pm", "%P"); ("mi", "%M"); ("ss", "%S");
     (".ff9", "%.9f"); (".ff6", "%.6f"); (".ff3", "%.3f"); (".ff", "%.f"); ("tzh:tzm", "%z"); ("tzhtzm", "%Z"); ("t", "T")]
    (str_to_lowercase snowflake_format).

(** The unit of a scale. *)
Definition scale_unit (scale : Z) : option TimeUnit :=
  if scale =? 0 then Some Second else if scale =? 3 then Some Millisecond
  else if scale =? 6 then Some Microsecond else if scale =? 9 then Some Nanosecond else None.

Section to_timestamp.
Context {C : Chrono} {T : Timestamps} {TZ : TimeZones} `{ArrowExt, !ConvExt, !TimestampExt}.

(** ** Zones *)

(** [FixedOffset::east_opt]: offsets are below a day. *)
Definition east_opt (secs : Z) : option Z := if (-86400 <? secs) && (secs <? 86400) then Some secs else None.
Definition west_opt (secs : Z) : option Z := east_opt (- secs).

Definition parse_timezone (s : string) : option Z :=
  let u := str_to_uppercase s in
  if String.eqb u "Z" || String.eqb u "UTC" || String.eqb u "GMT" then east_opt 0
  else if String.eqb u "CET" then east_opt 3600
  else if String.eqb u "CEST" then east_opt 7200
  else if String.eqb u "EET" then east_opt 7200
  else if String.eqb u "EEST" then east_opt 10800
  else if String.eqb u "PST" then west_opt (8 * 3600)
  else if String.eqb u "PDT" then west_opt (7 * 3600)
  else if String.eqb u "EST" then west_opt (5 * 3600)
  else if String.eqb u "EDT" then west_opt (4 * 3600)
  else if String.eqb u "CST" then west_opt (6 * 3600)
  else if String.eqb u "CDT" then west_opt (5 * 3600)
  else if String.eqb u "MST" then west_opt (7 * 3600)
  else if String.eqb u "MDT" then west_opt (6 * 3600)
  else if String.eqb u "JST" then east_opt (9 * 3600)
  else if String.eqb u "MSD" then east_opt 14400
  else match fixed_offset_from_str s with
       | Some fixed => Some fixed
       | None => match parse_tz s with Some tz => Some (offset_now tz) | None => None end
       end.

Definition remove_timezone (datetime_str : string) : string :=
  if (String.length datetime_str <? 15)%nat then datetime_str
  else match timezone_suffix datetime_str with
       | Some start => trim (substring 0 start datetime_str)
       | None => datetime_str
       end.

(** ** Text *)

(** The nanoseconds of a fraction: its first nine digits, filled with zeros. *)
Definition fraction_nanos (frac_str : string) : Z :=
  let head := substring 0 (Nat.min 9 (String.length frac_str)) frac_str in
  let padded := head ++ string_of_list_ascii (repeat "0"%char (9 - String.length head)) in
  default 0 (parse_u32 padded).

(** The date: the year is the part above 31. *)
Definition captured_date (caps : Captures) : option (Z * Z * Z) :=
  match parse_u32 caps.(group1), match month_from_str caps.(group2) with Some m => Some m | None => parse_u32 caps.(group2) end,
        parse_u32 caps.(group3) with
  | Some first, Some second, Some third =>
      if 31 <? first then Some (first, second, third) else if 31 <? third then Some (third, second, first) else None
  | _, _, _ => None
  end.

(** The time; [caps[5]] panics without that group. *)
Definition captured_time (caps : Captures) : cres (option (Z * Z * Z * Z)) :=
  match caps.(group4) with
  | None => Ok (Some (0, 0, 0, 0))
  | Some hour =>
      match parse_u32 hour with
      | None => Ok None
      | Some hour =>
          let? minute := ok_or caps.(group5) (ConvHalt Panic) in
          match parse_u32 minute with
          | None => Ok None
          | Some minute =>
              Ok (Some (hour, minute, from_option (fun m => default 0 (parse_u32 m)) 0 caps.(group6),
                        from_option fraction_nanos 0 caps.(group7)))
          end
      end
  end.

Definition captured_zone (caps : Captures) (naive : NaiveDateTime) : option NaiveDateTime :=
  match option_map trim caps.(group8) with
  | Some tz_str => match parse_timezone tz_str with Some offset => to_utc naive offset | None => Some naive end
  | None => Some naive
  end.

Definition in_unit (unit : TimeUnit) (dt : NaiveDateTime) : option Z :=
  match unit with Microsecond => Some (timestamp_micros dt) | _ => timestamp_nanos_opt dt end.

Definition try_parse_with_regex (s : string) (unit : TimeUnit) : cres (option Z) :=
  match timestamp_captures s with
  | None => Ok None
  | Some caps =>
      match captured_date caps with
      | None => Ok None
      | Some (year, month, day) =>
          let? hms := captured_time caps in
          match hms with
          | None => Ok None
          | Some (hour, minute, second, nano) =>
              Ok (from_ymd_opt (wrap_i32 year) month day ≫= fun d => and_hms_nano_opt d hour minute second nano
                  ≫= fun naive => captured_zone caps naive ≫= in_unit unit)
          end
      end
  end.

Definition try_parse_with_auto (s : string) (try_mode : bool) (unit : TimeUnit) : cres (option Z) :=
  match string_to_timestamp_nanos s with
  | Some v => Ok (Some v)
  | None =>
      let? parsed := try_parse_with_regex s unit in
      match parsed with
      | Some ts => Ok (Some ts)
      | None => unconverted try_mode (Conv ConversionError.CantGetTimestamp)
      end
  end.

Definition try_parse_with_format (s format : string) (try_mode : bool) : cres (option Z) :=
  match datetime_from_str s format with
  | Some v => Ok (timestamp_nanos_opt v)
  | None => unconverted try_mode (Conv ConversionError.CantGetTimestamp)
  end.

Definition apply_timezone (ts : Z) (tz_str : string) (try_mode : bool) (unit : TimeUnit) : cres Z :=
  let? tz := ok_or (parse_tz tz_str) (Conv ConversionError.CantParseTimezone) in
  let? dt := match unit with
             | Microsecond => ok_or (from_timestamp_micros ts) (Conv ConversionError.CantGetTimestamp)
             | _ => Ok ts
             end in
  match from_local tz dt with
  | Some local => if in_i64 local then Ok local else cfail ConversionError.CantGetTimestamp
  | None => if try_mode then Ok 0 else cfail ConversionError.CantAddLocalTimezone
  end.

(** A row of digits, in nanoseconds whatever the unit of the column. *)
Definition digits_row (s : string) : cres (option Z) :=
  let? i := ok_or (parse_i64 s) (Conv (ConversionError.FailedToParseInt s)) in
  let scale := determine_timestamp_scale i in
  if scale =? 0 then Ok (Some (wrap_i64 (i * 1000000000)))
  else if scale =? 3 then Ok (Some (wrap_i64 (i * 1000000)))
  else if scale =? 6 then Ok (Some (wrap_i64 (i * 1000)))
  else if scale =? 9 then Ok (Some i)
  else cfail ConversionError.CantParseTimestamp.

Definition timestamp_row (unit : TimeUnit) (format : string) (tz : option string) (try_mode : bool) (s : string) : cres (option Z) :=
  if contains_only_digits s then digits_row s
  else
    let s := remove_timezone s in
    let? parsed_opt :=
      if eq_ignore_ascii_case format "auto" then try_parse_with_auto s try_mode unit
      else try_parse_with_format s format try_mode in
    match parsed_opt with
    | Some parsed =>
        let? t := match tz with Some tz => apply_timezone parsed tz try_mode unit | None => Ok parsed end in
        Ok (Some t)
    | None => Ok None
    end.

Definition build_timestamp_array_from_scalar_string (unit : TimeUnit) (arr : list (option string)) (format : string)
    (tz : option string) (try_mode : bool) : cres ArrayRef :=
  result_map (ATemporal (Timestamp unit tz)) (conv_rows (timestamp_row unit format tz try_mode) arr).

(** ** Decimals *)

(** [args[1]] as a scale; a column counts as zero. *)
Definition scale_arg (args : list ColumnarValue) : cres Z :=
  match args !! 1%nat with
  | None | Some (Array _) => Ok 0
  | Some (Scalar v) =>
      let? scale := of_arrow_conv (scalar_to_int64 v) in
      match scale with
      | SInt Int64 (Some v) => Ok v
      | _ => cfail ConversionError.ArgumentTwoNeedsToBeInteger
      end
  end.

(** [10_i128.pow(s as u32)] of a negative scale overflows, to zero where it wraps. *)
Definition decimal_divisor (s : Z) : Z := if s <? 0 then 0 else 10 ^ s.

Definition decimal_row (s v : Z) : cres (option Z) :=
  if decimal_divisor s =? 0 then cpanic else Ok (Some (wrap_i64 (Z.quot v (decimal_divisor s)))).

Definition parse_decimal (rows : list (option Z)) (args : list ColumnarValue) (timezone : option string) (s : Z) : cres ColumnarValue :=
  let? scale := scale_arg args in
  let? unit := ok_or (scale_unit scale) (Conv ConversionError.InvalidValueForFunctionAtPositionTwo) in
  let? rows := conv_rows (decimal_row s) rows in
  match rows with
  | [v] => Ok (Scalar (STemporal (Timestamp unit timezone) v))
  | _ => Ok (Array (ATemporal (Timestamp unit timezone) rows))
  end.

(** ** The function *)
Record ToTimestampFunc := mkToTimestamp { params : SessionParams; name : string; try_mode : bool }.

Definition input_format (self : ToTimestampFunc) : string :=
  default "auto" (get_property self.(params) "timestamp_input_format").

Definition timezone (self : ToTimestampFunc) : option string :=
  let timezone := default "America/Los_Angeles" (get_property self.(params) "timezone") in
  if String.eqb self.(name) "to_timestamp_ntz" || String.eqb self.(name) "try_to_timestamp_ntz" then None
  else if String.eqb self.(name) "to_timestamp" || String.eqb self.(name) "try_to_timestamp" then
    if String.eqb (default "timestamp_ntz" (get_property self.(params) "timestamp_input_mapping")) "timestamp_ntz" then None
    else Some timezone
  else Some timezone.

(** Panics are not caught by [is_ok]. *)
Definition parses {A} (r : cres A) : cres bool :=
  match r with Ok _ => Ok true | Err (ConvHalt s) => Err (ConvHalt s) | Err _ => Ok false end.

Definition unit_for_string_input (self : ToTimestampFunc) (v : string) : cres TimeUnit :=
  let? nano := parses (try_parse_with_auto v self.(try_mode) Nanosecond) in
  if nano then Ok Nanosecond
  else
    let? micro := parses (try_parse_with_auto v self.(try_mode) Microsecond) in
    Ok (if micro then Microsecond else Nanosecond).

(** [DataType::is_numeric]. *)
Definition is_numeric (t : DataType) : bool :=
  match t with TInt _ | TFloat _ | TDecimal _ _ _ | TDecimal256 _ _ => true | _ => false end.

(** The declared type, from the types of the arguments and the literals among them. *)
Definition timestamp_return_type (self : ToTimestampFunc) (arg_types : list DataType) (scalar_arguments : list (option ScalarValue)) : cres DataType :=
  let? first := ok_or (arg_types !! 0%nat) (ConvHalt Panic) in
  let timestamp unit tz := TTemporal (Timestamp unit tz) in
  let by_type :=
    match first with
    | TTemporal (Timestamp Microsecond _) => Ok (timestamp Microsecond (timezone self))
    | TTemporal (Timestamp Nanosecond (Some _)) => Ok (timestamp Nanosecond (timezone self))
    | _ => Ok (timestamp Nanosecond (timezone self))
    end in
  match scalar_arguments with
  | [literal] =>
      if is_numeric first then Ok (timestamp Second (timezone self))
      else match literal with
           | Some (SUtf8 Utf8 (Some v)) => let? unit := unit_for_string_input self v in Ok (timestamp unit (timezone self))
           | _ => by_type
           end
  | [literal; scale] =>
      if is_numeric first then
        match scale with
        | Some v =>
            let? scale := of_arrow_conv (scalar_to_int64 v) in
            match scale with
            | SInt Int64 (Some s) =>
                match scale_unit s with
                | Some unit => Ok (timestamp unit (timezone self))
                | None => cfail ConversionError.InvalidValueForFunctionAtPositionTwo
                end
            | _ => cfail ConversionError.ArgumentTwoNeedsToBeInteger
            end
        | None => by_type
        end
      else match literal with
           | Some (STemporal (Timestamp unit (Some tz)) _) => Ok (timestamp unit (Some tz))
           | _ => by_type
           end
  | _ => by_type
  end.

(** The format of a text: the argument, or that of the session. *)
Definition timestamp_format (self : ToTimestampFunc) (args : list ColumnarValue) : cres string :=
  match args !! 1%nat with
  | Some (Scalar v) =>
      let? format := of_arrow_conv (scalar_to_utf8 v) in
      match format with
      | SUtf8 Utf8 (Some v) => Ok (convert_snowflake_format_to_chrono v)
      | _ => cfail ConversionError.ArgumentTwoNeedsToBeString
      end
  | Some (Array _) => cfail ConversionError.ArgumentTwoNeedsToBeString
  | None =>
      if String.eqb (to_ascii_lowercase (input_format self)) "auto" then Ok "auto"
      else Ok (convert_snowflake_format_to_chrono (input_format self))
  end.

(** [arr.value(0)] panics on an empty array. *)
Definition first_value (arr : list (option string)) : cres string :=
  match arr with [] => cpanic | v :: _ => Ok (default null_slot v) end.

Definition as_string_array (a : ArrayRef) : cres (list (option string)) :=
  match a with AUtf8 Utf8 rows => Ok rows | _ => of_arrow_conv (Err (OtherError "could not cast")) end.

Definition as_int64_array (a : ArrayRef) : cres (list (option Z)) :=
  match a with AInt Int64 rows => Ok rows | _ => of_arrow_conv (Err (OtherError "could not cast")) end.

Definition to_timestamp (self : ToTimestampFunc) (args : list ColumnarValue) : cres ColumnarValue :=
  let? arg := arg_at args 0 in
  let? arr := arg_array arg in
  match arr with
  | ANull n => Ok (Array (ATemporal (Timestamp Nanosecond (timezone self)) (replicate n None)))
  | AInt _ _ | AFloat _ _ =>
      let? arr := of_arrow_conv (cast_int64 arr) in
      let? rows := as_int64_array arr in
      let? scale := scale_arg args in
      let? unit := ok_or (scale_unit scale) (Conv ConversionError.InvalidValueForFunctionAtPositionTwo) in
      Ok (Array (ATemporal (Timestamp unit (timezone self)) rows))
  | ATemporal (Timestamp unit tz) _ =>
      if match unit, tz with Microsecond, _ | Nanosecond, Some _ => true | _, _ => false end then
        if decide (tz = timezone self) then Ok (Array arr)
        else result_map Array (of_arrow_conv (cast_timestamp unit (timezone self) arr))
      else
        let tz := match tz with Some tz => Some tz | None => timezone self end in
        result_map Array (of_arrow_conv (cast_timestamp Nanosecond tz arr))
  | ATemporal Date32 _ | ATemporal Date64 _ => result_map Array (of_arrow_conv (cast_timestamp Nanosecond (timezone self) arr))
  | ADecimal Decimal128 _ s rows => parse_decimal rows args (timezone self) s
  | AUtf8 _ _ =>
      let? format := timestamp_format self args in
      let? arr := of_arrow_conv (cast_string arr) in
      let? rows := as_string_array arr in
      let? first := first_value rows in
      let? unit := unit_for_string_input self first in
      result_map Array
        (build_timestamp_array_from_scalar_string (match unit with Microsecond => Microsecond | _ => Nanosecond end)
           rows format (timezone self) self.(try_mode))
  | _ => cfail ConversionError.InvalidDataType
  end.
End to_timestamp.

(** ** The instant of a text *)
Section text.
Context {C : Chrono} {CD : ChronoDays} {laws : ChronoLaws} {T : Timestamps} {T_laws : TimestampsLaws} {TZ : TimeZones}
  `{ArrowExt, !ConvExt, !TimestampExt}.

(** The nanoseconds of a date and time since the epoch. *)
Definition instant (dt : NaiveDateTime) : Z := (num_days_from_ce dt.(date) - epoch_ce) * nanos_per_day + dt.(time).

(** What [chrono] documents. *)
Class TimestampExtLaws : Prop := {
  and_hms_valid : forall D h m s n, 0 <= h < 24 -> 0 <= m < 60 -> 0 <= s < 60 -> 0 <= n < 1000000000 ->
    and_hms_nano_opt D h m s n = Some (mk_datetime D (((h * 60 + m) * 60 + s) * 1000000000 + n));
  and_hms_invalid : forall D h m s n, 24 <= h \/ 60 <= m \/ 60 <= s -> and_hms_nano_opt D h m s n = None;
  to_utc_instant : forall naive offset dt, to_utc naive offset = Some dt -> instant dt = instant naive - offset * 1000000000;
  micros_instant : forall dt, timestamp_micros dt = instant dt / 1000 }.
Context `{!TimestampExtLaws}.

Lemma zeros_value n v : digits_value v (string_of_list_ascii (repeat "0"%char n)) = v * 10 ^ Z.of_nat n.
Proof.
  revert v. induction n as [|n IH]; intros v; [simpl; lia|]. cbn [repeat string_of_list_ascii digits_value].
  rewrite IH, Nat2Z.inj_succ, Z.pow_succ_r by lia. change (Z.of_nat (nat_of_ascii "0")) with 48. lia.
Qed.

Lemma zeros_digits n : str_all is_ascii_digit (string_of_list_ascii (repeat "0"%char n)) = true.
Proof. by induction n. Qed.

Lemma zeros_length n : String.length (string_of_list_ascii (repeat "0"%char n)) = n.
Proof. induction n as [|n IH]; simpl; congruence. Qed.

Lemma parse_u32_digits s : s <> "" -> str_all is_ascii_digit s = true -> (String.length s <= 9)%nat -> parse_u32 s = Some (digits_value 0 s).
Proof.
  intros Hn Hs Hl. unfold parse_u32. rewrite split_sign_digits, parse_digits_value by done.
  pose proof (digits_value_bounds s 0 Hs).
  assert (10 ^ Z.of_nat (String.length s) <= 10 ^ 9) by (apply Z.pow_le_mono_r; lia).
  change (10 ^ 9) with 1000000000 in *. destruct (Z.leb_spec (digits_value 0 s) 4294967295); [done|lia].
Qed.

(** The fraction of a second in nanoseconds: digits past the ninth are dropped. *)
Lemma fraction_nanos_digits t : t <> "" -> str_all is_ascii_digit t = true ->
  fraction_nanos t = digits_value 0 t * 10 ^ 9 / 10 ^ Z.of_nat (String.length t) /\ 0 <= fraction_nanos t < 1000000000.
Proof.
  intros Hn Ht. set (n := Nat.min 9 (String.length t)). set (head := substring 0 n t).
  assert (String.length head = n) as Hl by (apply substring_length; lia).
  assert (str_all is_ascii_digit head = true) as Hh by (by apply str_all_substring).
  assert (0 < String.length t)%nat by (destruct t; simpl in *; [done|lia]).
  assert (fraction_nanos t = digits_value 0 head * 10 ^ Z.of_nat (9 - n)) as E.
  { unfold fraction_nanos. fold n head. rewrite Hl, parse_u32_digits.
    - simpl. by rewrite digits_value_app, zeros_value.
    - intros E. apply (f_equal String.length) in E. rewrite string_length_app, Hl in E. simpl in E. lia.
    - by rewrite str_all_app, Hh, zeros_digits.
    - rewrite string_length_app, Hl, zeros_length. lia. }
  assert (fraction_nanos t = digits_value 0 t * 10 ^ 9 / 10 ^ Z.of_nat (String.length t)) as F.
  { rewrite E. destruct (decide (String.length t <= 9)%nat) as [Hs|Hb].
    - assert (n = String.length t) as Hnl by lia.
      assert (head = t) as Hht by (unfold head; rewrite Hnl; apply substring_full). rewrite Hht, Hnl.
      replace (10 ^ 9) with (10 ^ Z.of_nat (9 - String.length t) * 10 ^ Z.of_nat (String.length t)).
      2:{ rewrite <- Z.pow_add_r by lia. f_equal. lia. }
      rewrite Z.mul_assoc, Z.div_mul by (apply Z.pow_nonzero; lia). done.
    - assert (n = 9)%nat as Hn9 by lia. replace (9 - n)%nat with 0%nat by lia. rewrite Z.mul_1_r.
      rewrite (digits_value_quotient head (substring n (String.length t - n) t)) by (by apply str_all_substring).
      unfold head. rewrite <- string_split, substring_length by lia.
      replace (10 ^ Z.of_nat (String.length t)) with (10 ^ 9 * 10 ^ Z.of_nat (String.length t - n)).
      2:{ rewrite <- Z.pow_add_r by lia. f_equal. lia. }
      rewrite (Z.mul_comm (digits_value 0 t)). rewrite Z.div_mul_cancel_l; [done|apply Z.pow_nonzero; lia|done]. }
  split; [done|]. rewrite E. pose proof (digits_value_bounds head 0 Hh) as Hb. rewrite Hl in Hb.
  assert (10 ^ Z.of_nat n * 10 ^ Z.of_nat (9 - n) = 1000000000) as Hp.
  { rewrite <- Z.pow_add_r by lia. replace (Z.of_nat n + Z.of_nat (9 - n)) with 9 by lia. done. }
  assert (0 < 10 ^ Z.of_nat (9 - n)) by (apply Z.pow_pos_nonneg; lia). nia.
Qed.

(** The zone of a text: the offset in seconds it is written with, none being UTC. *)
Definition written_offset (caps : Captures) (naive : NaiveDateTime) (offset : Z) : Prop :=
  match caps.(group8) with
  | None => offset = 0
  | Some tz_str => parse_timezone (trim tz_str) = Some offset /\ is_Some (to_utc naive offset)
  end.

Lemma captured_zone_instant caps naive offset : written_offset caps naive offset ->
  exists dt, captured_zone caps naive = Some dt /\ instant dt = instant naive - offset * 1000000000.
Proof.
  unfold written_offset, captured_zone. destruct (group8 caps) as [tz|]; simpl.
  - intros [-> [dt E]]. rewrite E. eexists. split; [done|]. by apply to_utc_instant.
  - intros ->. eexists. split; [done|]. lia.
Qed.

(** A text that the pattern splits into a date, a time of day and a zone is the instant it names:
    the nanoseconds of the civil time less the offset, when they fit 64 bits, and the microseconds
    always; a time of day that does not exist is no timestamp. *)
Theorem text_timestamp_correct s caps y m d h mi sec nano D offset :
  timestamp_captures s = Some caps -> captured_date caps = Some (y, m, d) ->
  captured_time caps = Ok (Some (h, mi, sec, nano)) -> from_ymd_opt y m d = Some D ->
  0 <= h -> 0 <= mi -> 0 <= sec -> 0 <= nano < 1000000000 ->
  let naive := mk_datetime D (((h * 60 + mi) * 60 + sec) * 1000000000 + nano) in
  let n := instant naive - offset * 1000000000 in
  written_offset caps naive offset ->
  if (h <? 24) && (mi <? 60) && (sec <? 60)
  then try_parse_with_regex s Nanosecond = Ok (if in_i64 n then Some n else None) /\
       try_parse_with_regex s Microsecond = Ok (Some (n / 1000))
  else forall unit, try_parse_with_regex s unit = Ok None.
Proof.
  intros Hs Hd Ht HD Hh Hmi Hsec Hnano naive n Hz. unfold try_parse_with_regex. rewrite Hs, Hd, Ht. cbn [result_bind].
  assert (wrap_i32 y = y) as ->.
  { apply wrap_i32_id. destruct (proj1 (from_ymd_valid y m d) (ex_intro _ D HD)) as [Hy _]. pose proof years_fit.
    unfold in_i32, i32_min, i32_max. lia. }
  rewrite HD. cbn [mbind option_bind]. destruct ((h <? 24) && (mi <? 60) && (sec <? 60)) eqn:Er.
  - rewrite and_hms_valid by lia. fold naive. cbn [mbind option_bind].
    destruct (captured_zone_instant _ _ _ Hz) as (dt & -> & Hi). cbn [mbind option_bind in_unit].
    rewrite nanos_opt_spec, micros_instant. fold (instant dt). by rewrite Hi.
  - intros unit. rewrite and_hms_invalid by lia. done.
Qed.

(** ** Digits and zones *)

(** The nanoseconds of one unit of a number: seconds below the milliseconds of a year of 365 days, milliseconds below its
    microseconds, microseconds below its nanoseconds, and nanoseconds from there on. *)
Definition year_seconds : Z := 365 * 86400.
Definition digits_unit_nanos (v : Z) : Z :=
  if v <? year_seconds * 1000 then 1000000000
  else if v <? year_seconds * 1000000 then 1000000
  else if v <? year_seconds * 1000000000 then 1000
  else 1.

(** C38: in a column of nanoseconds a text of digits is a number of seconds below 31536000000, of milliseconds below 31536000000000, of
    microseconds below 31536000000000000 and of nanoseconds from there on; its row is that instant in nanoseconds whenever it fits 64 bits,
    and digits that do not fit 64 bits are an error. *)
Theorem digits_timestamp_correct format tz try_mode s :
  s <> "" -> str_all is_ascii_digit s = true ->
  let v := digits_value 0 s in
  let n := v * digits_unit_nanos v in
  (in_i64 n = true -> timestamp_row Nanosecond format tz try_mode s = Ok (Some n)) /\
  (in_i64 v = false -> timestamp_row Nanosecond format tz try_mode s = cfail (ConversionError.FailedToParseInt s)).
Proof.
  intros Hn Hs v n. pose proof (digits_value_bounds s 0 Hs) as Hb. assert (0 <= v) as Hv by (unfold v; nia).
  assert (timestamp_row Nanosecond format tz try_mode s = (if in_i64 v then Ok (Some (wrap_i64 n)) else cfail (ConversionError.FailedToParseInt s))) as E.
  { unfold timestamp_row, contains_only_digits, digits_row. rewrite Hs, parse_i64_digits by done. fold v.
    destruct (in_i64 v) eqn:Ev; [|done]. cbn [ok_or result_bind]. unfold n, digits_unit_nanos, year_seconds, determine_timestamp_scale.
    rewrite Z.abs_eq, wrap_i64_id by done.
    change (365 * 86400 * 1000) with 31536000000. change (365 * 86400 * 1000000) with 31536000000000. change (365 * 86400 * 1000000000) with 31536000000000000.
    repeat case_match; cbn [Z.eqb]; do 2 f_equal; rewrite ?Z.mul_1_r, ?wrap_i64_id; done. }
  split; [|intros Ev; by rewrite E, Ev]. intros Hfit. rewrite E. assert (in_i64 v = true) as ->; [|by rewrite wrap_i64_id].
  assert (1 <= digits_unit_nanos v) by (unfold digits_unit_nanos; repeat case_match; lia).
  unfold in_i64, i64_min, i64_max, n in *. nia.
Qed.
End text.

Section zones.
Context {TZ : TimeZones} {TZ_laws : TimeZonesLaws} {C : Chrono} {T : Timestamps} `{ArrowExt, !ConvExt, !TimestampExt}.

(** Wall-clock time: the instant a zone is applied to keeps the hands of the clock. *)
Lemma apply_timezone_wall_clock ts tz tz_str try_mode u :
  parse_tz tz_str = Some tz -> from_local tz ts = Some u -> in_i64 u = true ->
  apply_timezone ts tz_str try_mode Nanosecond = Ok u /\ u + utc_offset tz u = ts.
Proof.
  intros Hz Hl Hu. unfold apply_timezone. rewrite Hz. cbn [ok_or result_bind]. rewrite Hl, Hu. split; [done|].
  by apply from_local_single in Hl as [? _].
Qed.

(** A time that a zone skips or repeats: the TRY variant makes it the epoch. *)
Lemma apply_timezone_ambiguous ts tz tz_str :
  parse_tz tz_str = Some tz -> from_local tz ts = None ->
  apply_timezone ts tz_str true Nanosecond = Ok 0 /\
  apply_timezone ts tz_str false Nanosecond = cfail ConversionError.CantAddLocalTimezone.
Proof. intros Hz Hl. unfold apply_timezone. rewrite Hz. cbn [ok_or result_bind]. by rewrite Hl. Qed.
End zones.

(** ** The declared type *)
Section declared_type.
Context {C : Chrono} {T : Timestamps} {TZ : TimeZones} `{ArrowExt, !ConvExt, !TimestampExt}.

(** A cast gives the type it is asked for; a literal as an array keeps its type and value. *)
Class TimestampCastLaws : Prop := {
  cast_timestamp_type : forall unit tz a b, cast_timestamp unit tz a = Ok b -> data_type b = TTemporal (Timestamp unit tz);
  literal_string : forall s, to_array_of_size (SUtf8 Utf8 (Some s)) 1 = Ok (AUtf8 Utf8 [Some s]);
  cast_string_id : forall rows, cast_string (AUtf8 Utf8 rows) = Ok (AUtf8 Utf8 rows) }.
Context `{!TimestampCastLaws}.

Definition literal (a : ColumnarValue) : option ScalarValue := match a with Scalar s => Some s | Array _ => None end.

(** Calls with one literal text; with a column of numbers and no scale or a literal one; and with a column of nulls, of dates, of timestamps
    without a zone, or of timestamps in micro- or nanoseconds. *)
Definition row_independent (args : list ColumnarValue) : bool :=
  match args with
  | [Scalar (SUtf8 Utf8 (Some _))] => true
  | [Array a] =>
      match data_type a with
      | TNull | TInt _ | TFloat _ | TDecimal Decimal128 _ _ | TTemporal Date32 | TTemporal Date64
      | TTemporal (Timestamp _ None) | TTemporal (Timestamp Microsecond _) | TTemporal (Timestamp Nanosecond _) => true
      | _ => false
      end
  | [Array a; Scalar _] => match data_type a with TInt _ | TFloat _ | TDecimal Decimal128 _ _ => true | _ => false end
  | _ => false
  end.

Lemma unit_for_string_cases self v unit : unit_for_string_input self v = Ok unit -> unit = Nanosecond \/ unit = Microsecond.
Proof.
  unfold unit_for_string_input. destruct (parses _) as [[]|]; simpl; [intros [= <-]; auto| |done].
  destruct (parses _) as [[]|]; simpl; [intros [= <-]; auto|intros [= <-]; auto|done].
Qed.

Lemma numeric_type self arr args c :
  is_numeric (data_type arr) = true -> match data_type arr with TInt _ | TFloat _ | TDecimal Decimal128 _ _ => True | _ => False end ->
  to_timestamp self (Array arr :: args) = Ok c ->
  exists scale unit, scale_arg (Array arr :: args) = Ok scale /\ scale_unit scale = Some unit /\
    columnar_type c = TTemporal (Timestamp unit (timezone self)).
Proof.
  intros Hn Ha. unfold to_timestamp. cbn [arg_at lookup list_lookup ok_or result_bind arg_array].
  destruct arr; simpl in Ha; try done.
  1,2: (destruct (of_arrow_conv _) as [b|]; simpl; [|done]; destruct (as_int64_array b); simpl; [|done];
    destruct (scale_arg _) as [scale|]; cbn [result_bind]; [|done]; destruct (scale_unit scale) eqn:E; simpl; [|done];
    intros [= <-]; eauto).
  destruct k; try done. unfold parse_decimal. destruct (scale_arg _) as [scale'|]; cbn [result_bind]; [|done].
  destruct (scale_unit scale') eqn:E; simpl; [|done]. destruct (conv_rows _ _) as [[|v []]|]; simpl; try done; intros [= <-]; eauto.
Qed.

Lemma literal_text_type self v c : to_timestamp self [Scalar (SUtf8 Utf8 (Some v))] = Ok c ->
  exists unit, unit_for_string_input self v = Ok unit /\ columnar_type c = TTemporal (Timestamp unit (timezone self)).
Proof.
  unfold to_timestamp. cbn [arg_at lookup list_lookup ok_or result_bind arg_array]. rewrite literal_string. cbn [of_arrow_conv result_bind].
  destruct (timestamp_format _ _); cbn [result_bind]; [|done]. rewrite cast_string_id. cbn [of_arrow_conv as_string_array result_bind first_value].
  change (default null_slot (Some v)) with v.
  destruct (unit_for_string_input self v) as [unit|] eqn:E; cbn [result_bind]; [|done].
  unfold build_timestamp_array_from_scalar_string. destruct (conv_rows _ _); simpl; [|done]. intros [= <-].
  exists unit. split; [done|]. by destruct (unit_for_string_cases _ _ _ E) as [->| ->].
Qed.

Lemma cast_result_type unit tz a c : result_map Array (of_arrow_conv (cast_timestamp unit tz a)) = Ok c -> columnar_type c = TTemporal (Timestamp unit tz).
Proof.
  destruct (cast_timestamp unit tz a) as [b|] eqn:E; simpl; [|done]. intros [= <-]. by apply cast_timestamp_type in E.
Qed.

Lemma temporal_type self k rows c : row_independent [Array (ATemporal k rows)] = true ->
  to_timestamp self [Array (ATemporal k rows)] = Ok c ->
  columnar_type c = TTemporal (Timestamp (match k with Timestamp Microsecond _ => Microsecond | _ => Nanosecond end) (timezone self)).
Proof.
  cbn [row_independent data_type]. unfold to_timestamp. cbn [arg_at lookup list_lookup ok_or result_bind arg_array]. intros Hi.
  destruct k as [[] [tz|]| | | | |]; try discriminate;
    try case_decide as Hz; try (by apply cast_result_type); intros [= <-]; cbn; by rewrite <- Hz.
Qed.

(** C37: when TO_TIMESTAMP is called with one literal text, with a column of integers, floats or decimals and no scale or a literal one, or with
    one column of nulls, of dates, of timestamps without a zone or of timestamps in micro- or nanoseconds, and it returns, the column has the type
    declared for the call. Columns of text, columns as scales, scalar numbers and zoned timestamps in seconds or milliseconds are not covered. *)
Theorem to_timestamp_typed self args t c :
  row_independent args = true ->
  timestamp_return_type self (map columnar_type args) (map literal args) = Ok t ->
  to_timestamp self args = Ok c -> columnar_type c = t.
Proof.
  intros Hi Ht Hc. destruct args as [|[arr|s] [|[a2|s2] [|? ?]]]; try done.
  - simpl in Hi. destruct (is_numeric (data_type arr)) eqn:En.
    + destruct (numeric_type self arr [] c En) as (scale & unit & Es & Eu & ->); [by destruct (data_type arr) as [| | | | | | | | | | |[]| | | |]|done|].
      unfold timestamp_return_type in Ht. cbn [map lookup list_lookup ok_or result_bind columnar_type literal] in Ht; cbn [scale_arg lookup list_lookup] in Es. rewrite En in Ht. simplify_eq. change (scale_unit 0) with (Some Second) in Eu. by simplify_eq.
    + destruct arr; try (clear -Hi En; discriminate).
      * cbn [map lookup list_lookup ok_or result_bind columnar_type literal data_type is_numeric timestamp_return_type arg_at arg_array to_timestamp] in Ht, Hc. by simplify_eq.
      * rewrite (temporal_type self k rows c Hi Hc). unfold timestamp_return_type in Ht. cbn [map lookup list_lookup ok_or result_bind columnar_type literal data_type is_numeric] in Ht.
        destruct k as [[] [tz|]| | | | |]; congruence.
  - simpl in Hi. assert (is_numeric (data_type arr) = true) as En by (by destruct (data_type arr)).
    destruct (numeric_type self arr [Scalar s2] c En) as (scale & unit & Es & Eu & ->); [by destruct (data_type arr) as [| | | | | | | | | | |[]| | | |]|done|].
    unfold timestamp_return_type in Ht. cbn [map lookup list_lookup ok_or result_bind columnar_type literal] in Ht; cbn [scale_arg lookup list_lookup] in Es. rewrite En in Ht.
    destruct (of_arrow_conv (scalar_to_int64 s2)) as [v|]; cbn [result_bind] in *; [|done].
    destruct v as [| |[] [z|]| | | | | | |]; simplify_eq/=. rewrite Eu in Ht. by simplify_eq.
  - destruct s as [| | | |[] [v|]| | | | |]; try done. destruct (literal_text_type self v c Hc) as (unit & Eu & ->).
    unfold timestamp_return_type in Ht. cbn [map lookup list_lookup ok_or result_bind columnar_type literal data_type is_numeric] in Ht. rewrite Eu in Ht. by simplify_eq/=.
  - by destruct s as [| | | |[] [|]| | | | |].
  - by destruct s as [| | | |[] [|]| | | | |].
  - by destruct s as [| | | |[] [|]| | | | |].
  - by destruct s as [| | | |[] [|]| | | | |].
Qed.
End declared_type.

(** ** Instances and witnesses *)
Module TimestampExamples.
Import Gregorian ArrowExample SerdeExample ConversionExamples DatePartsExamples.

(** [YYYY-MM-DD hh:mm:ss.f], a zone of one word after a space, and nothing else. *)
Definition captures_of (s : string) : option Captures :=
  match Utf8.split s " " with
  | date :: time :: zone =>
      match Utf8.split date "-", Utf8.split time ":" with
      | [y; m; d], [h; mi; sec] =>
          match Utf8.split sec "." with
          | [sec] => Some (mkCaptures y m d (Some h) (Some mi) (Some sec) None (head zone))
          | [sec; f] => Some (mkCaptures y m d (Some h) (Some mi) (Some sec) (Some f) (head zone))
          | _ => None
          end
      | _, _ => None
      end
  | _ => None
  end.

Definition instant_of (dt : @NaiveDateTime chrono) : Z := (num_days_from_ce dt.(DateTime.date) - epoch_ce) * nanos_per_day + dt.(DateTime.time).

#[global] Instance example_timestamps : TimestampExt (C := chrono) (TZ := fixed_zones) := {|
  string_to_timestamp_nanos _ := None;
  timestamp_captures := captures_of;
  timezone_suffix _ := None;
  fixed_offset_from_str _ := None;
  offset_now tz := tz;
  month_from_str _ := None;
  and_hms_nano_opt D h m s n :=
    if (h <? 24) && (m <? 60) && (s <? 60) && (n <? 1000000000)
    then Some (mk_datetime D (((h * 60 + m) * 60 + s) * 1000000000 + n)) else None;
  to_utc naive offset :=
    let t := naive.(DateTime.time) - offset * 1000000000 in
    match checked_add_days naive.(DateTime.date) (t / nanos_per_day) with
    | Some D => Some (mk_datetime D (t mod nanos_per_day))
    | None => None
    end;
  timestamp_micros dt := instant_of dt / 1000;
  datetime_from_str _ _ := None;
  from_timestamp_micros ts := Some (ts * 1000);
  cast_timestamp unit tz a := match a with ATemporal _ rows => Ok (ATemporal (Timestamp unit tz) rows) | _ => Err (OtherError "no timestamp") end;
  scalar_to_int64 s := match s with SInt _ v => Ok (SInt Int64 v) | _ => Err (OtherError "no integer") end;
  scalar_to_utf8 s := Ok s;
  null_slot := "" |}.

#[global] Instance example_timestamp_laws : TimestampExtLaws (C := chrono) (CD := chrono_days).
Proof.
  split; cbn -[checked_add_days nanos_per_day num_days_from_ce].
  - intros D h m s n Hh Hm Hs Hn. destruct (Z.ltb_spec h 24), (Z.ltb_spec m 60), (Z.ltb_spec s 60), (Z.ltb_spec n 1000000000); done || lia.
  - intros D h m s n Hb. destruct (Z.ltb_spec h 24), (Z.ltb_spec m 60), (Z.ltb_spec s 60); simpl; done || lia.
  - intros [D t] offset dt. cbn [DateTime.date DateTime.time]. destruct (checked_add_days D _) as [D'|] eqn:E; [|done]. intros [= <-].
    unfold instant. cbn [DateTime.date DateTime.time]. apply (proj1 (add_days_ce _ _ _)) in E. rewrite E.
    unfold nanos_per_day. Z.div_mod_to_equations. lia.
  - done.
Qed.

#[global] Instance example_timestamp_casts : TimestampCastLaws (C := chrono).
Proof. split; [|done|done]. intros unit tz a b. simpl. by destruct a; intros [= <-]. Qed.

Definition noon_text : string := "2024-02-29 12:30:15.25 CET".

Lemma text_timestamp_correct_witness :
  try_parse_with_regex noon_text Nanosecond = Ok (Some 1709206215250000000) /\
  try_parse_with_regex noon_text Microsecond = Ok (Some 1709206215250000).
Proof.
  refine (text_timestamp_correct noon_text (mkCaptures "2024" "02" "29" (Some "12") (Some "30") (Some "15") (Some "25") (Some "CET"))
    2024 2 29 12 30 15 250000000 (on 2024 2 29 eq_refl) 3600 _ _ _ _ _ _ _ _ _);
    try reflexivity; try lia; done.
Defined.

Lemma digits_timestamp_correct_witness :
  timestamp_row Nanosecond "auto" None false "1709206215" = Ok (Some 1709206215000000000) /\
  timestamp_row Nanosecond "auto" None false "31536000000" = Ok (Some 31536000000000000) /\
  timestamp_row Nanosecond "auto" None false "9223372036854775808" = cfail (ConversionError.FailedToParseInt "9223372036854775808").
Proof.
  split; [|split].
  - apply (digits_timestamp_correct "auto" None false "1709206215"); done.
  - apply (digits_timestamp_correct "auto" None false "31536000000"); done.
  - apply (digits_timestamp_correct "auto" None false "9223372036854775808"); done.
Defined.

Definition ntz : ToTimestampFunc := mkToTimestamp ∅ "to_timestamp_ntz" false.

Lemma to_timestamp_typed_witness :
  columnar_type (Array (ATemporal (Timestamp Millisecond None) [Some 5; None])) = TTemporal (Timestamp Millisecond None) /\
  columnar_type (Array (ATemporal (Timestamp Microsecond None) [Some 253402300799000000])) = TTemporal (Timestamp Microsecond None).
Proof.
  split.
  - apply (to_timestamp_typed ntz [Array (AInt Int64 [Some 5; None]); Scalar (SInt Int64 (Some 3))]); vm_compute; reflexivity.
  - apply (to_timestamp_typed ntz [Scalar (SUtf8 Utf8 (Some "9999-12-31 23:59:59"))]); vm_compute; reflexivity.
Defined.

(** A scale that is no literal: nanoseconds are declared, seconds computed. *)
Example scale_column_mistyped :
  timestamp_return_type ntz [TInt Int64; TInt Int64] [None; None] = Ok (TTemporal (Timestamp Nanosecond None)) /\
  to_timestamp ntz [Array (AInt Int64 [Some 5]); Array (AInt Int64 [Some 3])] = Ok (Array (ATemporal (Timestamp Second None) [Some 5])).
Proof. vm_compute. done. Qed.

(** A column of texts beyond the range of nanoseconds: nanoseconds are declared, microseconds computed. *)
Example far_text_column_mistyped :
  timestamp_return_type ntz [TUtf8 Utf8] [None] = Ok (TTemporal (Timestamp Nanosecond None)) /\
  to_timestamp ntz [Array (AUtf8 Utf8 [Some "9999-12-31 23:59:59"])] = Ok (Array (ATemporal (Timestamp Microsecond None) [Some 253402300799000000])).
Proof. vm_compute. done. Qed.

(** A zoned column of seconds: no zone is declared, the zone of the column is computed. *)
Example zoned_seconds_mistyped :
  timestamp_return_type ntz [TTemporal (Timestamp Second (Some "CET"))] [None] = Ok (TTemporal (Timestamp Nanosecond None)) /\
  exists rows, to_timestamp ntz [Array (ATemporal (Timestamp Second (Some "CET")) [Some 5])] = Ok (Array (ATemporal (Timestamp Nanosecond (Some "CET")) rows)).
Proof. split; [reflexivity|]. eexists. vm_compute. reflexivity. Qed.

(** Digits in a column of microseconds: the row is in nanoseconds. *)
Example digits_in_microseconds :
  to_timestamp ntz [Array (AUtf8 Utf8 [Some "9999-12-31 23:59:59"; Some "1709206215"])] =
  Ok (Array (ATemporal (Timestamp Microsecond None) [Some 253402300799000000; Some 1709206215000000000])).
Proof. vm_compute. done. Qed.

(** The TRY variant never chooses microseconds: the text the strict function converts is null. *)
Example try_variant_loses_far_dates :
  let text := [Array (AUtf8 Utf8 [Some "9999-12-31 23:59:59"])] in
  to_timestamp ntz text = Ok (Array (ATemporal (Timestamp Microsecond None) [Some 253402300799000000])) /\
  to_timestamp (mkToTimestamp ∅ "try_to_timestamp_ntz" true) text = Ok (Array (ATemporal (Timestamp Nanosecond None) [None])).
Proof. vm_compute. done. Qed.

(** An empty column of text panics; empty text and digits beyond 64 bits are errors of the TRY variant too. *)
Example empty_column_panics : to_timestamp ntz [Array (AUtf8 Utf8 [])] = Err (ConvHalt Panic).
Proof. reflexivity. Qed.

Example try_digits_fail :
  to_timestamp (mkToTimestamp ∅ "try_to_timestamp_ntz" true) [Array (AUtf8 Utf8 [Some ""])] = cfail (ConversionError.FailedToParseInt "").
Proof. reflexivity. Qed.

(** Seconds from 1970-01-01 to 2262-04-11 are exact, later ones wrap. *)
Example digits_wrap : timestamp_row Nanosecond "auto" None false "9223372037" = Ok (Some (-9223372036709551616)).
Proof. reflexivity. Qed.

(** [MON] is replaced before [MONTH]. *)
Example month_format : convert_snowflake_format_to_chrono "DD MONTH YYYY" = "%d %bTh %Y".
Proof. reflexivity. Qed.
End TimestampExamples.
