(* ===== verification/ResultBatches.v ===== *)
(** * The encoding of query results

    [executor/src/utils.rs], [convert_record_batches] and what it calls: the columns of a result in
    the form Snowflake's clients read, as JSON or Arrow; [convert_struct_to_timestamp], the way back
    for timestamps; and [executor/src/models.rs], the description of columns.

    Parameters: Arrow's casts and [RecordBatch::try_new] ([BatchExt]), [chrono] ([TimeZones],
    [TimestampExt]).  Arithmetic on [i64] wraps as in a release build. *)

From Stdlib Require Import ZArith Lia Ascii String DecimalString DecimalN.
From stdpp Require Import base option list gmap strings.
From S2P Require Import Prelude Calendar Utf8 SessionParams DateTime DateParts JsonValue JsonEncode SemiStructured Conversions ToTimestamp.

Open Scope string_scope.
Open Scope Z_scope.
Open Scope rust_scope.

#[local] Arguments String.append : simpl nomatch.

(** ** Data *)

(** [arrow::datatypes::Field] and [RecordBatch]. *)
Record Field := mkField { field_name : string; field_type : DataType; nullable : bool; metadata : gmap string string }.
Record RecordBatch := mkBatch { fields : list Field; columns : list ArrayRef }.

Record QueryMetric := mkMetric { node_id : nat; parent_node_id : option nat; operator : string; metric_values : Value }.
Record QueryResult := mkResult { records : list RecordBatch; schema : list Field; query_metrics : list QueryMetric }.

Inductive DataSerializationFormat := Arrow | Json.

Record ColumnInfo := mkColumnInfo {
  info_name : string; info_database : string; info_schema : string; info_table : string; info_nullable : bool;
  info_type : string; byte_length : option Z; info_length : option Z; scale : option Z; precision : option Z;
  collation : option string }.

(** [executor::Error], those raised here; [unwrap] and indexing panic. *)
Inductive batch_failure := BatchArrow (e : ArrowError) | CantCastTo (v : string) | BatchPanic.

Notation bres A := (result batch_failure A).

Definition of_arrow_batch {A} (r : result ArrowError A) : bres A :=
  match r with Ok a => Ok a | Err e => Err (BatchArrow e) end.

Class BatchExt {C : Chrono} {TZ : TimeZones} := {
  try_new : list Field -> list ArrayRef -> result ArrowError RecordBatch;
  cast_text : ArrayRef -> result ArrowError ArrayRef;
  (** [DateTime::from_timestamp_millis], in nanoseconds. *)
  from_timestamp_millis : Z -> option Z;
  (** [to_rfc3339] of an instant at an offset. *)
  to_rfc3339 : Z -> Z -> string }.

(** ** Columns *)

(** [functions::to_snowflake_datatype] *)
Definition to_snowflake_datatype (data_type : DataType) : string :=
  match data_type with
  | TInt _ | TDecimal Decimal128 _ _ | TDecimal256 _ _ => "fixed"
  | TFloat _ => "real"
  | TBoolean => "boolean"
  | TTemporal (Time32 _) | TTemporal (Time64 _) => "time"
  | TTemporal Date32 | TTemporal Date64 => "date"
  | TTemporal (Timestamp _ tz) => match tz with Some _ => "timestamp_tz" | None => "timestamp_ntz" end
  | TBinary Binary | TBinary BinaryView => "binary"
  | _ => "text"
  end.

Definition unit_scale (unit : TimeUnit) : Z := match unit with Second => 0 | Millisecond => 3 | Microsecond => 6 | Nanosecond => 9 end.

Definition from_field (field : Field) : ColumnInfo :=
  let '(byte_length, length, scale, precision) :=
    match field.(field_type) with
    | TInt _ => (None, None, Some 0, Some 38)
    | TFloat _ => (None, None, Some 16, Some 38)
    | TDecimal Decimal128 p s | TDecimal256 p s => (None, None, Some s, Some p)
    | TUtf8 Utf8 => (Some 16777216, Some 16777216, None, None)
    | TTemporal (Time32 _) | TTemporal (Time64 _) => (None, None, Some 9, Some 0)
    | TTemporal (Timestamp unit _) => (None, None, Some (unit_scale unit), Some 0)
    | TBinary Binary | TBinary BinaryView => (Some 8388608, Some 8388608, None, None)
    | _ => (None, None, None, None)
    end in
  mkColumnInfo field.(field_name) "" "" "" field.(nullable) (to_snowflake_datatype field.(field_type))
    byte_length length scale precision None.

Definition from_schema (schema : list Field) : list ColumnInfo := map from_field schema.

Definition column_info (self : QueryResult) : list ColumnInfo := from_schema self.(schema).

Section batches.
Context {C : Chrono} {T : Timestamps} {TZ : TimeZones} `{!ConvExt, !TimestampExt, !BatchExt}.

Definition to_metadata (self : ColumnInfo) : gmap string string :=
  <["logicalType" := str_to_uppercase self.(info_type)]>
  (<["precision" := int_to_string (default 38 self.(precision))]>
  (<["scale" := int_to_string (default 0 self.(scale))]>
  (<["charLength" := int_to_string (default 0 self.(info_length))]> ∅))).

Definition with_metadata (f : Field) (m : gmap string string) : Field := mkField f.(field_name) f.(field_type) f.(nullable) m.

(** The first type of a row whose child has values; [child] of an unknown type panics. *)
Fixpoint first_non_empty (children : list (Z * ArrayRef)) (type_ids : list Z) : bres (option ArrayRef) :=
  match type_ids with
  | [] => Ok None
  | type_id :: type_ids =>
      match union_child children type_id with
      | Ok child => if (0 <? len child)%nat then Ok (Some child) else first_non_empty children type_ids
      | Err _ => Err BatchPanic
      end
  end.

Definition first_non_empty_type (union_array : ArrayRef) : bres (option (DataType * ArrayRef)) :=
  match union_array with
  | AUnion _ type_ids _ children => result_map (option_map (fun child => (data_type child, child))) (first_non_empty children type_ids)
  | _ => Err BatchPanic
  end.

(** ** Timestamps *)

(** [downcast_and_iter!]: the rows of an array of the expected type. *)
Definition timestamp_rows (column : ArrayRef) (unit : TimeUnit) : bres (list (option Z)) :=
  match column, unit with
  | ATemporal (Timestamp Second _) rows, Second | ATemporal (Timestamp Millisecond _) rows, Millisecond
  | ATemporal (Timestamp Microsecond _) rows, Microsecond | ATemporal (Timestamp Nanosecond _) rows, Nanosecond => Ok rows
  | _, _ => Err BatchPanic
  end.

Definition encode_tz (tz : option string) : option Z :=
  match tz with
  | Some t => option_map (fun off => wrap_i32 (Z.quot off 60 + 1440)) (parse_timezone t)
  | None => None
  end.

(** [timestamp()] and [timestamp_subsec_*()] of an instant in nanoseconds. *)
Definition timestamp_secs (nanos : Z) : Z := nanos / 1000000000.
Definition subsec (unit : TimeUnit) (nanos : Z) : Z := nanos mod 1000000000 / unit_nanos unit.

(** The instant of a value in a unit; [unwrap_or_default] is the epoch. *)
Definition instant_of (unit : TimeUnit) (ts : Z) : Z :=
  match unit with
  | Second => default 0 (from_timestamp ts 0)
  | Millisecond => default 0 (from_timestamp_millis ts)
  | Microsecond => default 0 (from_timestamp_micros ts)
  | Nanosecond => ts
  end.

(** The text of a timestamp; the fraction is not padded. *)
Definition timestamp_text (unit : TimeUnit) (tz_encoded : option Z) (ts : Z) : string :=
  let n := instant_of unit ts in
  let secs := int_to_string (timestamp_secs n) in
  let number := match unit with Second => secs | _ => secs ++ "." ++ int_to_string (subsec unit n) end in
  match tz_encoded with Some tz => number ++ " " ++ int_to_string tz | None => number end.

(** Nanoseconds; the product wraps. *)
Definition to_nanoseconds (column : ArrayRef) (unit : TimeUnit) : bres (list (option Z)) :=
  let? rows := timestamp_rows column unit in
  Ok (match unit with Nanosecond => rows | _ => map (option_map (fun v => wrap_i64 (v * unit_nanos unit))) rows end).

Definition tz_to_i32 (tz_str : string) (nanos : Z) : Z :=
  if nanos =? 0 then 1440
  else
    let secs := Z.quot nanos 1000000000 in
    let r := Z.rem nanos 1000000000 in
    let sub := if 0 <=? r then r else 0 in
    match from_timestamp secs sub with
    | None => 1440
    | Some dt => match parse_tz tz_str with Some tz => wrap_i32 (Z.quot (Z.quot (utc_offset tz dt) 1000000000) 60 + 1440) | None => 1440 end
    end.

Definition int_column (f : Z -> Z) (k : IntKind) (rows : list (option Z)) : ArrayRef := AInt k (map (option_map f) rows).

Definition convert_timestamp_to_struct (column : ArrayRef) (unit : TimeUnit) : bres ArrayRef :=
  match column with
  | ATemporal (Timestamp _ (Some tz)) _ =>
      let? ts_array := to_nanoseconds column unit in
      Ok (AStruct
        [("epoch", int_column (fun nanos => Z.quot nanos 1000000000) Int64 ts_array);
         ("fraction", int_column (fun nanos => wrap_i32 (Z.rem nanos 1000000000)) Int32 ts_array);
         ("timezone", int_column (tz_to_i32 tz) Int32 ts_array)]
        (replicate (length ts_array) true))
  | _ => let? rows := timestamp_rows column unit in Ok (AInt Int64 rows)
  end.

Definition convert_timestamp (column : ArrayRef) (unit : TimeUnit) (tz : option string) (data_format : DataSerializationFormat) : bres ArrayRef :=
  match data_format with
  | Arrow => convert_timestamp_to_struct column unit
  | Json =>
      let tz_encoded := encode_tz tz in
      let? rows := timestamp_rows column unit in
      Ok (AUtf8 Utf8 (map (option_map (timestamp_text unit tz_encoded)) rows))
  end.

(** *** Back from structs *)
Fixpoint column_by_name (name : string) (columns : list (string * ArrayRef)) : option ArrayRef :=
  match columns with
  | [] => None
  | (n, a) :: columns => if String.eqb n name then Some a else column_by_name name columns
  end.

Definition int_rows (k : IntKind) (a : option ArrayRef) : option (list (option Z)) :=
  match a with
  | Some (AInt k' rows) => if decide (k = k') then Some rows else None
  | _ => None
  end.

(** One row; an offset that is out of range is UTC. *)
Definition timestamp_string (epoch fraction : Z) (offset_minutes : option Z) : string :=
  let dt := wrap_i64 (wrap_i64 (epoch * 1000000000) + fraction) in
  match offset_minutes with
  | Some m => to_rfc3339 dt (default 0 (east_opt (wrap_i32 (wrap_i32 (m - 1440) * 60))))
  | None => to_rfc3339 dt 0
  end.

(** The zone of a null row is read as the bytes below it, zero. *)
Fixpoint build_timestamp_strings (epochs fractions : list (option Z)) (tz_col : option (list (option Z))) : bres (list (option string)) :=
  match epochs with
  | [] => Ok []
  | epoch :: epochs =>
      let rest := build_timestamp_strings epochs (tl fractions) (option_map (@tl _) tz_col) in
      match epoch, fractions with
      | None, _ | _, None :: _ => result_map (cons None) rest
      | Some _, [] => Err BatchPanic
      | Some epoch, Some fraction :: _ =>
          match tz_col with
          | Some [] => Err BatchPanic
          | Some (tz :: _) => result_map (cons (Some (timestamp_string epoch fraction (Some (default 0 tz))))) rest
          | None => result_map (cons (Some (timestamp_string epoch fraction None))) rest
          end
      end
  end.

Definition struct_column (field : Field) (column : ArrayRef) : bres (Field * ArrayRef) :=
  match field.(field_type) with
  | TStruct fields_in_struct =>
      let has name := existsb (fun f => String.eqb (fst f) name) fields_in_struct in
      if has "epoch" && has "fraction" then
        match column with
        | AStruct columns _ =>
            let? epoch_col := ok_or (int_rows Int64 (column_by_name "epoch" columns)) (CantCastTo "int64_array") in
            let? fraction_col := ok_or (int_rows Int32 (column_by_name "fraction" columns)) (CantCastTo "int32_array") in
            let tz_col := int_rows Int32 (column_by_name "timezone" columns) in
            let? strings := build_timestamp_strings epoch_col fraction_col tz_col in
            Ok (mkField field.(field_name) (TUtf8 Utf8) true ∅, AUtf8 Utf8 strings)
        | _ => Err (CantCastTo "struct_array")
        end
      else Ok (field, column)
  | _ => Ok (field, column)
  end.

Definition convert_struct_to_timestamp (records : list RecordBatch) : bres (list RecordBatch) :=
  traverse (fun batch =>
    let? converted := traverse (fun fc => struct_column (fst fc) (snd fc)) (combine batch.(fields) batch.(columns)) in
    of_arrow_batch (try_new (map fst converted) (map snd converted))) records.

(** ** Dates, times and numbers *)

(** [(v / 86_400_000) as i32]: days before the epoch are rounded towards it. *)
Definition date64_days (v : Z) : Z := wrap_i32 (Z.quot v 86400000).

Definition convert_date (column : ArrayRef) (data_format : DataSerializationFormat) : ArrayRef :=
  match data_format with
  | Json =>
      match column with
      | ATemporal Date32 rows => AInt Int32 rows
      | ATemporal Date64 rows => AInt Int32 (map (option_map date64_days) rows)
      | _ => column
      end
  | Arrow => column
  end.

(** The field and the column for unsigned integers: the next wider signed type. *)
Definition convert_uint_to_int_datatypes (field : Field) (column : ArrayRef) (metadata : gmap string string)
    (data_format : DataSerializationFormat) (precision_scale : Z * Z) : bres (Field * ArrayRef) :=
  let pushed t := mkField field.(field_name) t field.(nullable) metadata in
  match data_format with
  | Arrow =>
      match field.(field_type) with
      | TInt UInt64 =>
          match column with
          | AInt UInt64 rows =>
              let p := precision_scale.1 mod 256 in
              let s := (precision_scale.2 + 128) mod 256 - 128 in
              Ok (pushed (TDecimal Decimal128 p s), ADecimal Decimal128 38 0 rows)
          | _ => Err BatchPanic
          end
      | TInt UInt32 => match column with AInt UInt32 rows => Ok (pushed (TInt Int64), AInt Int64 rows) | _ => Err BatchPanic end
      | TInt UInt16 => match column with AInt UInt16 rows => Ok (pushed (TInt Int32), AInt Int32 rows) | _ => Err BatchPanic end
      | TInt UInt8 => match column with AInt UInt8 rows => Ok (pushed (TInt Int16), AInt Int16 rows) | _ => Err BatchPanic end
      | _ => Ok (with_metadata field metadata, column)
      end
  | Json => Ok (with_metadata field metadata, column)
  end.

Definition zeroes (n : nat) : string := string_of_list_ascii (repeat "0"%char n).

Definition format_time_string (timestamp : Z) (sub_str : string) (scale : nat) : string :=
  int_to_string timestamp ++ "." ++ zeroes (scale - String.length sub_str) ++ sub_str.

Definition time_rows (column : ArrayRef) (unit : TimeUnit) : bres (list (option Z)) :=
  match column, unit with
  | ATemporal (Time32 Second) rows, Second | ATemporal (Time32 Millisecond) rows, Millisecond
  | ATemporal (Time64 Microsecond) rows, Microsecond | ATemporal (Time64 Nanosecond) rows, Nanosecond => Ok rows
  | _, _ => Err BatchPanic
  end.

Definition time_text (unit : TimeUnit) (ts : Z) : string :=
  let n := instant_of unit ts in
  match unit with
  | Second => format_time_string (timestamp_secs n) "000" 0
  | Millisecond => format_time_string (timestamp_secs n) (int_to_string (subsec Millisecond n)) 3
  | Microsecond => format_time_string (timestamp_secs n) (int_to_string (subsec Microsecond n)) 6
  | Nanosecond => format_time_string (timestamp_secs n) (int_to_string (subsec Nanosecond n)) 9
  end.

Definition convert_time (column : ArrayRef) (unit : TimeUnit) (data_format : DataSerializationFormat) : bres ArrayRef :=
  let? rows := time_rows column unit in
  match data_format with
  | Json => Ok (AUtf8 Utf8 (map (option_map (time_text unit)) rows))
  | Arrow => Ok (AInt Int64 rows)
  end.

Definition to_utf8_array (array : ArrayRef) (upper_case : bool) : bres ArrayRef :=
  let? casted := of_arrow_batch (cast_text array) in
  match casted with
  | AUtf8 Utf8 rows => Ok (AUtf8 Utf8 (map (option_map (fun s => if upper_case then to_ascii_uppercase s else s)) rows))
  | _ => Err (BatchArrow (InvalidArgumentError "expected Utf8 array"))
  end.

(** ** Batches *)
Definition convert_and_push (column : ArrayRef) (field : Field) (metadata : gmap string string)
    (convert_fn : ArrayRef -> bres ArrayRef) : bres (Field * ArrayRef) :=
  let? converted := convert_fn column in
  Ok (mkField field.(field_name) (data_type converted) field.(nullable) metadata, converted).

Definition json_or_same (data_format : DataSerializationFormat) (convert_fn : ArrayRef -> bres ArrayRef) (column : ArrayRef) : bres ArrayRef :=
  match data_format with Json => convert_fn column | Arrow => Ok column end.

Definition convert_column (data_format : DataSerializationFormat) (info : ColumnInfo) (field : Field) (column : ArrayRef) : bres (Field * ArrayRef) :=
  let metadata := to_metadata info in
  let same := (with_metadata field metadata, column) in
  match field.(field_type) with
  | TUnion _ _ =>
      match column with
      | AUnion _ _ _ _ =>
          let? first := first_non_empty_type column in
          match first with
          | Some (data_type, array) => Ok (mkField field.(field_name) data_type field.(nullable) metadata, array)
          | None => Ok same
          end
      | _ => Ok same
      end
  | TTemporal (Timestamp unit tz) => convert_and_push column field metadata (fun col => convert_timestamp col unit tz data_format)
  | TTemporal Date32 | TTemporal Date64 => convert_and_push column field metadata (fun col => Ok (convert_date col data_format))
  | TTemporal (Time32 unit) | TTemporal (Time64 unit) => convert_and_push column field metadata (fun col => convert_time col unit data_format)
  | TInt (UInt64 | UInt32 | UInt16 | UInt8) =>
      convert_uint_to_int_datatypes field column metadata data_format (default 38 info.(precision), default 0 info.(scale))
  | TBinary BinaryView | TUtf8 Utf8View => convert_and_push column field metadata (fun col => of_arrow_batch (cast_text col))
  | TDecimal Decimal128 _ _ =>
      convert_and_push column field metadata (json_or_same data_format (fun col => of_arrow_batch (cast_text col)))
  | TBoolean => convert_and_push column field metadata (json_or_same data_format (fun col => to_utf8_array col true))
  | _ => Ok same
  end.

(** [column_infos[i]] panics when the schema of the result has fewer columns than the batch. *)
Fixpoint convert_columns (data_format : DataSerializationFormat) (infos : list ColumnInfo) (fcs : list (Field * ArrayRef)) : bres (list (Field * ArrayRef)) :=
  match fcs with
  | [] => Ok []
  | (field, column) :: fcs =>
      match infos with
      | [] => Err BatchPanic
      | info :: infos =>
          let? fc := convert_column data_format info field column in
          result_map (cons fc) (convert_columns data_format infos fcs)
      end
  end.

Definition convert_batch (data_format : DataSerializationFormat) (infos : list ColumnInfo) (batch : RecordBatch) : bres RecordBatch :=
  let? converted := convert_columns data_format infos (combine batch.(fields) batch.(columns)) in
  of_arrow_batch (try_new (map fst converted) (map snd converted)).

Definition convert_record_batches (query_result : QueryResult) (data_format : DataSerializationFormat) : bres (list RecordBatch) :=
  traverse (convert_batch data_format (column_info query_result)) query_result.(records).
End batches.

(** ** Types of the converted batches *)
Section typed.
Context {C : Chrono} {T : Timestamps} {TZ : TimeZones} `{!ConvExt, !TimestampExt, !BatchExt}.

Definition no_nulls (a : ArrayRef) : Prop := forall i, is_null a i = false.

(** A column that its field describes. *)
Definition column_ok (f : Field) (a : ArrayRef) : Prop :=
  data_type a = f.(field_type) /\ (f.(nullable) = false -> no_nulls a).

(** What [RecordBatch::try_new] checks: a column per field, of its type, all of one length. *)
Definition batch_ok (fs : list Field) (cs : list ArrayRef) (n : nat) : Prop :=
  cs <> [] /\ Forall2 column_ok fs cs /\ Forall (fun c => len c = n) cs.

(** Text casts of Arrow keep the number of rows, and the nulls except for bytes that are no text. *)
Class BatchLaws : Prop := {
  try_new_ok : forall fs cs n, batch_ok fs cs n -> try_new fs cs = Ok (mkBatch fs cs);
  cast_text_rows : forall a, match a with ABoolean _ | ADecimal Decimal128 _ _ _ | AUtf8 _ _ | ABinary _ _ => True | _ => False end ->
    exists rows, cast_text a = Ok (AUtf8 Utf8 rows) /\ length rows = len a /\
      (match a with ABinary _ _ => False | _ => True end -> forall i, row_null rows i = is_null a i) }.
Context `{!BatchLaws}.

(** No unions, no times of a unit Arrow does not have, and no columns of bytes that must not be null. *)
Definition encodable_field (f : Field) : bool :=
  match f.(field_type) with
  | TUnion _ _ => false
  | TTemporal k => valid_temporal k
  | TBinary BinaryView => f.(nullable)
  | _ => true
  end.

Lemma row_null_map {A B} (g : A -> B) rows i : row_null (map (option_map g) rows) i = row_null rows i.
Proof. unfold row_null. rewrite list_lookup_fmap. by destruct (rows !! i) as [[]|]. Qed.

Lemma row_null_replicate n i : is_null (AStruct [] (replicate n true)) i = false.
Proof. simpl. destruct (replicate n true !! i) as [b|] eqn:E; [|done]. by apply lookup_replicate in E as [-> _]. Qed.

(** What a conversion keeps of a column. *)
Definition keeps (f : Field) (a : ArrayRef) (m : gmap string string) (r : bres (Field * ArrayRef)) : Prop :=
  exists f' a', r = Ok (f', a') /\ f'.(field_name) = f.(field_name) /\ f'.(nullable) = f.(nullable) /\ f'.(metadata) = m /\
    column_ok f' a' /\ len a' = len a.

Lemma keeps_push f a m g b : g a = Ok b -> len b = len a -> (f.(nullable) = false -> no_nulls b) -> keeps f a m (convert_and_push a f m g).
Proof. intros E Hl Hn. unfold convert_and_push. rewrite E. eexists _, _. split; [done|]. by repeat split. Qed.

Lemma keeps_same f a m : column_ok f a -> keeps f a m (Ok (with_metadata f m, a)).
Proof. intros [Ht Hn]. eexists _, _. split; [done|]. by repeat split. Qed.

Lemma keeps_timestamp f m unit tz rows fmt : column_ok f (ATemporal (Timestamp unit tz) rows) ->
  keeps f (ATemporal (Timestamp unit tz) rows) m (convert_and_push (ATemporal (Timestamp unit tz) rows) f m (fun col => convert_timestamp col unit tz fmt)).
Proof.
  intros [_ Hn]. assert (timestamp_rows (ATemporal (Timestamp unit tz) rows) unit = Ok rows) as E by (by destruct unit).
  destruct fmt; [destruct tz as [tz|]|].
  - eapply keeps_push.
    + unfold convert_timestamp, convert_timestamp_to_struct, to_nanoseconds. rewrite E. simpl. reflexivity.
    + simpl. rewrite length_replicate. by destruct unit; rewrite ?length_map.
    + intros _ i. apply row_null_replicate.
  - eapply keeps_push; [unfold convert_timestamp, convert_timestamp_to_struct; rewrite E; reflexivity|done|]. intros Hf i. exact (Hn Hf i).
  - eapply keeps_push; [unfold convert_timestamp; rewrite E; reflexivity|apply length_map|]. intros Hf i. simpl.
    rewrite row_null_map. exact (Hn Hf i).
Qed.

Lemma keeps_time f m k unit rows fmt : column_ok f (ATemporal k rows) -> time_rows (ATemporal k rows) unit = Ok rows ->
  keeps f (ATemporal k rows) m (convert_and_push (ATemporal k rows) f m (fun col => convert_time col unit fmt)).
Proof.
  intros [_ Hn] E. destruct fmt; (eapply keeps_push; [unfold convert_time; rewrite E; reflexivity|simpl; rewrite ?length_map; done|]);
    intros Hf i; simpl; rewrite ?row_null_map; exact (Hn Hf i).
Qed.

Lemma keeps_date f m k rows fmt : column_ok f (ATemporal k rows) -> k = Date32 \/ k = Date64 ->
  keeps f (ATemporal k rows) m (convert_and_push (ATemporal k rows) f m (fun col => Ok (convert_date col fmt))).
Proof.
  intros [_ Hn] Hk. eapply keeps_push; [reflexivity| |].
  - destruct fmt, Hk as [->| ->]; simpl; rewrite ?length_map; done.
  - intros Hf i. destruct fmt, Hk as [->| ->]; simpl; rewrite ?row_null_map; exact (Hn Hf i).
Qed.

Lemma keeps_cast f m a : column_ok f a -> encodable_field f = true ->
  match a with ABoolean _ | ADecimal Decimal128 _ _ _ | AUtf8 _ _ | ABinary BinaryView _ => True | _ => False end ->
  keeps f a m (convert_and_push a f m (fun col => of_arrow_batch (cast_text col))).
Proof.
  intros [Ht Hn] He Ha. destruct (cast_text_rows a) as (rows & E & Hl & Hi); [by destruct a|].
  eapply keeps_push; [by rewrite E|done|]. intros Hf i. simpl. rewrite Hi; [exact (Hn Hf i)|].
  destruct a; try done. destruct k; try done. unfold encodable_field in He. rewrite <- Ht in He. simpl in He. congruence.
Qed.

Lemma keeps_boolean f m rows : column_ok f (ABoolean rows) ->
  keeps f (ABoolean rows) m (convert_and_push (ABoolean rows) f m (fun col => to_utf8_array col true)).
Proof.
  intros [Ht Hn]. destruct (cast_text_rows (ABoolean rows) I) as (text & E & Hl & Hi).
  eapply keeps_push; [unfold to_utf8_array; rewrite E; reflexivity|by simpl; rewrite length_map|].
  intros Hf i. simpl. rewrite row_null_map, Hi by done. exact (Hn Hf i).
Qed.

Lemma keeps_unsigned f m k rows fmt p s : column_ok f (AInt k rows) -> p = 38 -> s = 0 ->
  keeps f (AInt k rows) m (convert_uint_to_int_datatypes f (AInt k rows) m fmt (p, s)).
Proof.
  intros Hok -> ->. pose proof Hok as [Ht Hn]. unfold convert_uint_to_int_datatypes. rewrite <- Ht.
  destruct fmt; [destruct k|]; simpl; try (by apply keeps_same);
    (eexists _, _; split; [reflexivity|]; repeat split; intros Hf i; exact (Hn Hf i)).
Qed.

Lemma convert_column_keeps fmt sf f a : column_ok f a -> encodable_field f = true -> sf.(field_type) = f.(field_type) ->
  keeps f a (to_metadata (from_field sf)) (convert_column fmt (from_field sf) f a).
Proof.
  intros Hok He Hs. pose proof Hok as [Ht _]. unfold convert_column. unfold encodable_field in He. rewrite <- Ht in *.
  destruct a; simpl in *; try (by apply keeps_same); try discriminate.
  - destruct fmt; [by eapply keeps_push; [reflexivity|done|apply Hok]|by apply keeps_boolean].
  - assert (precision (from_field sf) = Some 38 /\ scale (from_field sf) = Some 0) as [-> ->].
    { unfold from_field. by rewrite Hs. }
    destruct k; (by apply keeps_same) || (by apply keeps_unsigned).
  - destruct k; try (by apply keeps_same). apply keeps_cast; [done|unfold encodable_field; by rewrite <- Ht|done].
  - destruct k; try (by apply keeps_same). apply keeps_cast; [done|unfold encodable_field; by rewrite <- Ht|done].
  - destruct k as [| | | [] | [] | ]; try discriminate;
      first [by apply keeps_timestamp | by apply keeps_date; auto | by apply keeps_time | by apply keeps_same].
  - destruct k; try (by apply keeps_same).
    destruct fmt; [by eapply keeps_push; [reflexivity|done|apply Hok]|].
    apply keeps_cast; [done|unfold encodable_field; by rewrite <- Ht|done].
Qed.

Lemma convert_columns_keep fmt sfs fs cs n :
  Forall2 (fun sf f => sf.(field_type) = f.(field_type)) sfs fs -> Forall2 column_ok fs cs ->
  Forall (fun f => encodable_field f = true) fs -> Forall (fun c => len c = n) cs ->
  exists out, convert_columns fmt (map from_field sfs) (combine fs cs) = Ok out /\
    Forall2 column_ok (map fst out) (map snd out) /\ Forall (fun c => len c = n) (map snd out) /\
    map field_name (map fst out) = map field_name fs /\ map nullable (map fst out) = map nullable fs /\
    map metadata (map fst out) = map (fun sf => to_metadata (from_field sf)) sfs.
Proof.
  intros Hs Hok. revert cs Hok. induction Hs as [|sf f sfs fs Hsf _ IH]; intros cs Hok He Hn.
  - apply Forall2_nil_inv_l in Hok as ->. exists []. by repeat split.
  - apply Forall2_cons_inv_l in Hok as (c & cs' & Hc & Hcs & ->). apply Forall_cons in He as [Hf He]. apply Forall_cons in Hn as [Hlen Hn].
    destruct (convert_column_keeps fmt sf f c Hc Hf Hsf) as (f' & c' & E & Hname & Hnull & Hmeta & Hok' & Hl).
    destruct (IH cs' Hcs He Hn) as (out & Eo & Ho & Hlo & Hno & Hnu & Hm).
    exists ((f', c') :: out). cbn [map combine convert_columns fst snd]. rewrite E. cbn [result_bind]. rewrite Eo. cbn [result_map].
    split; [done|]. rewrite Hname, Hnull, Hmeta, Hno, Hnu, Hm. split_and!; try done; constructor; try done. congruence.
Qed.

(** The batches of a result as their schemas say. *)
Definition result_ok (q : QueryResult) (n : RecordBatch -> nat) : Prop :=
  Forall (fun b => batch_ok b.(fields) b.(columns) (n b) /\ Forall (fun f => encodable_field f = true) b.(fields) /\
                   Forall2 (fun sf f => sf.(field_type) = f.(field_type)) q.(schema) b.(fields)) q.(records).

Lemma converted_batches_keep q fmt n : result_ok q n ->
  exists out, convert_record_batches q fmt = Ok out /\
    Forall2 (fun b o => batch_ok o.(fields) o.(columns) (n b) /\
      map field_name o.(fields) = map field_name b.(fields) /\ map nullable o.(fields) = map nullable b.(fields) /\
      map metadata o.(fields) = map to_metadata (column_info q)) q.(records) out.
Proof.
  unfold result_ok, convert_record_batches. generalize q.(records) as bs.
  induction bs as [|b bs IH]; intros Hq; [by exists []|].
  apply Forall_cons in Hq as [([Hne [Hok Hn]] & He & Hs) Hq]. destruct (IH Hq) as (out & E & Hout).
  destruct (convert_columns_keep fmt _ _ _ _ Hs Hok He Hn) as (cs & Ec & Hcok & Hcl & Hnames & Hnull & Hmeta).
  exists (mkBatch (map fst cs) (map snd cs) :: out). cbn [traverse]. unfold convert_batch at 1, column_info at 1, from_schema at 1.
  rewrite Ec. cbn [result_bind].
  assert (batch_ok (map fst cs) (map snd cs) (n b)) as Hb.
  { split; [|done]. destruct cs; [|done]. destruct (columns b) as [|c l]; [done|].
    apply Forall2_cons_inv_r in Hok as (f & fs & _ & _ & Ef). rewrite Ef in Hnames. done. }
  rewrite (try_new_ok _ _ _ Hb). cbn [of_arrow_batch result_bind]. rewrite E. cbn [result_bind]. split; [done|].
  constructor; [|done]. split_and!; try done. cbn [fields]. rewrite Hmeta. unfold column_info, from_schema. by rewrite map_map.
Qed.
(** C13: the encoding of a well-typed result succeeds in both formats, and keeps the number of rows, the
    names and the nullability of the columns; each column has the type its field says, so that the
    result is a valid batch, with the description of the result's columns as its metadata. *)
Theorem convert_record_batches_typed q fmt n : result_ok q n ->
  exists out, convert_record_batches q fmt = Ok out /\
    Forall2 (fun b o => batch_ok o.(fields) o.(columns) (n b) /\
      map field_name o.(fields) = map field_name b.(fields) /\ map nullable o.(fields) = map nullable b.(fields) /\
      map metadata o.(fields) = map to_metadata (column_info q)) q.(records) out.
Proof. apply converted_batches_keep. Qed.
End typed.

(** ** Timestamps as structs *)
Section structs.
Context {C : Chrono} {T : Timestamps} {TZ : TimeZones} {TZ_laws : TimeZonesLaws} `{!ConvExt, !TimestampExt, !BatchExt}.

(** The instant at which the offset of a timestamp's zone is taken: fractions before 1970 are dropped. *)
Definition zone_instant (n : Z) : Z := Z.quot n 1000000000 * 1000000000 + Z.max 0 (Z.rem n 1000000000).

(** The offset, in seconds, that a client reads for a timestamp: UTC at the epoch itself. *)
Definition encoded_offset (tz : Tz) (n : Z) : Z := if n =? 0 then 0 else Z.quot (utc_offset tz (zone_instant n)) 1000000000.

(** Offsets of whole minutes below a day. *)
Definition minute_offsets (tz : Tz) : Prop := forall n, exists m, utc_offset tz n = m * 60 * 1000000000 /\ -1440 < m < 1440.

Lemma tz_to_i32_offset tz_str tz n : parse_tz tz_str = Some tz -> minute_offsets tz -> in_i64 n = true ->
  wrap_i32 (wrap_i32 (tz_to_i32 tz_str n - 1440) * 60) = encoded_offset tz n /\ -86400 < encoded_offset tz n < 86400.
Proof.
  intros Hz Hm Hn. unfold tz_to_i32, encoded_offset. destruct (Z.eqb_spec n 0) as [->|Hn0]; [by vm_compute|].
  assert ((if 0 <=? Z.rem n 1000000000 then Z.rem n 1000000000 else 0) = Z.max 0 (Z.rem n 1000000000)) as ->.
  { destruct (Z.leb_spec 0 (Z.rem n 1000000000)); lia. }
  rewrite from_timestamp_ok; [|pose proof (Z.rem_bound_abs n 1000000000); lia|].
  2:{ unfold in_i64, i64_min, i64_max in *. pose proof (Z.quot_rem' n 1000000000). pose proof (Z.rem_bound_abs n 1000000000). 
      assert (0 <= n -> 0 <= Z.rem n 1000000000) by (intros; apply Z.rem_nonneg; lia).
      assert (n <= 0 -> Z.rem n 1000000000 <= 0) by (intros; apply Z.rem_nonpos; lia). lia. }
  rewrite Hz. fold (zone_instant n). destruct (Hm (zone_instant n)) as (m & -> & Hb).
  rewrite Z.quot_mul by lia. rewrite Z.quot_mul by lia.
  rewrite (wrap_i32_id (m + 1440)) by (unfold in_i32, i32_min, i32_max; lia).
  replace (m + 1440 - 1440) with m by lia. rewrite (wrap_i32_id m) by (unfold in_i32, i32_min, i32_max; lia).
  rewrite wrap_i32_id by (unfold in_i32, i32_min, i32_max; lia). lia.
Qed.

Lemma struct_row_string tz_str tz n : parse_tz tz_str = Some tz -> minute_offsets tz -> in_i64 n = true ->
  timestamp_string (Z.quot n 1000000000) (wrap_i32 (Z.rem n 1000000000)) (Some (tz_to_i32 tz_str n)) = to_rfc3339 n (encoded_offset tz n).
Proof.
  intros Hz Hm Hn. unfold timestamp_string. destruct (tz_to_i32_offset tz_str tz n Hz Hm Hn) as [-> Hb].
  pose proof (Z.quot_rem' n 1000000000) as Hq. pose proof (Z.rem_bound_abs n 1000000000) as Hr.
  assert (0 <= n -> 0 <= Z.rem n 1000000000) by (intros; apply Z.rem_nonneg; lia).
  assert (n <= 0 -> Z.rem n 1000000000 <= 0) by (intros; apply Z.rem_nonpos; lia).
  rewrite (wrap_i32_id (Z.rem n 1000000000)) by (unfold in_i32, i32_min, i32_max; lia).
  rewrite (wrap_i64_id (Z.quot n 1000000000 * 1000000000)) by (unfold in_i64, i64_min, i64_max in *; lia).
  replace (Z.quot n 1000000000 * 1000000000 + Z.rem n 1000000000) with n by lia. rewrite wrap_i64_id by done.
  unfold east_opt. destruct (Z.ltb_spec (-86400) (encoded_offset tz n)), (Z.ltb_spec (encoded_offset tz n) 86400); done || lia.
Qed.

Lemma build_struct_strings tz_str tz (ns : list (option Z)) : parse_tz tz_str = Some tz -> minute_offsets tz ->
  Forall (fun row => match row with Some n => in_i64 n = true | None => True end) ns ->
  build_timestamp_strings (map (option_map (fun n => Z.quot n 1000000000)) ns)
    (map (option_map (fun n => wrap_i32 (Z.rem n 1000000000))) ns) (Some (map (option_map (tz_to_i32 tz_str)) ns)) =
  Ok (map (option_map (fun n => to_rfc3339 n (encoded_offset tz n))) ns).
Proof.
  intros Hz Hm. induction 1 as [|row ns Hrow _ IH]; [done|]. cbn [map build_timestamp_strings option_map tl].
  rewrite IH. destruct row as [n|]; cbn [option_map]; [|done]. cbn [result_map from_option]. unfold id.
  by rewrite (struct_row_string tz_str tz n).
Qed.

(** Timestamps with a zone survive the Arrow format: read back from the struct of epoch, fraction and
    zone, each row is the instant that was sent, before 1970 too, at the zone's offset at that time (UTC at the
    epoch itself), and null rows stay null. *)
Theorem struct_timestamps_round_trip unit tz_str tz rows f :
  parse_tz tz_str = Some tz -> minute_offsets tz ->
  Forall (fun row => match row with Some v => in_i64 (v * unit_nanos unit) = true | None => True end) rows ->
  exists s, convert_timestamp (ATemporal (Timestamp unit (Some tz_str)) rows) unit (Some tz_str) Arrow = Ok s /\
    struct_column (mkField f.(field_name) (data_type s) f.(nullable) f.(metadata)) s =
    Ok (mkField f.(field_name) (TUtf8 Utf8) true ∅,
        AUtf8 Utf8 (map (option_map (fun v => let n := v * unit_nanos unit in to_rfc3339 n (encoded_offset tz n))) rows)).
Proof.
  intros Hz Hm Hr.
  assert (to_nanoseconds (ATemporal (Timestamp unit (Some tz_str)) rows) unit = Ok (map (option_map (fun v => v * unit_nanos unit)) rows)) as E.
  { unfold to_nanoseconds. assert (timestamp_rows (ATemporal (Timestamp unit (Some tz_str)) rows) unit = Ok rows) as -> by (by destruct unit).
    cbn [result_bind]. f_equal. destruct unit; cbn [unit_nanos]; try (apply map_ext_Forall; eapply Forall_impl; [exact Hr|];
      intros [v|] Hv; [|done]; cbn [option_map]; f_equal; by apply wrap_i64_id).
    clear. induction rows as [|[v|] rows IH]; cbn [map option_map]; [done| |]; rewrite <- IH; do 2 f_equal. lia. }
  eexists. split; [unfold convert_timestamp, convert_timestamp_to_struct; rewrite E; reflexivity|].
  unfold struct_column. cbn [field_type data_type map fst snd existsb String.eqb Ascii.eqb Bool.eqb orb andb column_by_name int_rows int_column ok_or result_bind field_name].
  rewrite !decide_True by done. cbn [ok_or result_bind]. rewrite (build_struct_strings tz_str tz _ Hz Hm).
  - cbn [result_bind]. do 3 f_equal. rewrite map_map. apply map_ext. by intros [v|].
  - apply Forall_map. eapply Forall_impl; [exact Hr|]. by intros [v|].
Qed.
End structs.

(** ** Times as text *)
Section times.
Context {C : Chrono} {T : Timestamps} {TZ : TimeZones} {TZ_laws : TimeZonesLaws} `{!ConvExt, !TimestampExt, !BatchExt}.

(** [chrono] has the instants of a day in every unit. *)
Class DayLaws : Prop := {
  millis_of_day : forall ts, 0 <= ts < 86400000 -> from_timestamp_millis ts = Some (ts * 1000000);
  micros_of_day : forall ts, 0 <= ts < 86400000000 -> from_timestamp_micros ts = Some (ts * 1000) }.
Context `{!DayLaws}.

Lemma nzhead_head d d' : Decimal.nzhead d <> Decimal.D0 d'.
Proof. induction d; simpl; try done. Qed.

(** No number but zero is written with a zero in front. *)
Lemma to_uint_head n d : N.to_uint n = Decimal.D0 d -> n = 0%N.
Proof.
  intros E. pose proof (DecimalN.Unsigned.to_of (N.to_uint n)) as Hu. rewrite DecimalN.Unsigned.of_to, E in Hu.
  unfold Decimal.unorm in Hu. destruct (Decimal.nzhead (Decimal.D0 d)) eqn:F; try discriminate.
  - injection Hu as ->. by rewrite <- (DecimalN.Unsigned.of_to n), E.
  - by apply nzhead_head in F.
Qed.

Lemma int_to_string_length n k : 0 <= n < 10 ^ Z.of_nat k -> (0 < k)%nat -> (String.length (int_to_string n) <= k)%nat.
Proof.
  intros [Hge Hk] Hpos. destruct (digits_value_to_string n Hge) as (Hd & Hne & Hv).
  destruct (decide (String.length (int_to_string n) <= k)%nat) as [|Hlong]; [done|exfalso].
  destruct (decide (n = 0)) as [->|Hn]; [simpl in Hlong; lia|].
  destruct (int_to_string n) as [|c s] eqn:E; [done|]. cbn [digits_value str_all String.length] in *.
  apply andb_prop in Hd as [Hc Hs]. pose proof (digits_value_bounds s (10 * 0 + (Z.of_nat (nat_of_ascii c) - 48)) Hs) as Hb.
  assert (1 <= Z.of_nat (nat_of_ascii c) - 48) as Hfirst.
  { destruct (digit_cases c Hc) as (d & Hd9 & ->). rewrite nat_ascii_embedding by lia. destruct d as [|d]; [|lia]. exfalso.
    assert (int_to_string n = NilZero.string_of_uint (N.to_uint (Z.to_N n))) as E' by (by destruct n).
    rewrite E' in E. destruct (N.to_uint (Z.to_N n)) as [|u|u|u|u|u|u|u|u|u|u] eqn:Eu; simpl in E; try discriminate.
    - by apply to_uint_nonnil in Eu.
    - apply to_uint_head in Eu. lia. }
  assert (10 ^ Z.of_nat k <= 10 ^ Z.of_nat (String.length s)) by (apply Z.pow_le_mono_r; lia). nia.
Qed.

Definition unit_digits (unit : TimeUnit) : nat := match unit with Second => 0 | Millisecond => 3 | Microsecond => 6 | Nanosecond => 9 end.

(** The digits after the point: three for seconds. *)
Definition text_digits (unit : TimeUnit) : nat := match unit with Second => 3 | _ => unit_digits unit end.

Lemma format_time_string_digits secs sub scale : 0 <= secs -> 0 <= sub < 10 ^ Z.of_nat scale -> (0 < scale)%nat ->
  exists frac, format_time_string secs (int_to_string sub) scale = int_to_string secs ++ "." ++ frac /\
    str_all is_ascii_digit frac = true /\ String.length frac = scale /\ digits_value 0 frac = sub.
Proof.
  intros Hs Hsub Hk. destruct (digits_value_to_string sub (proj1 Hsub)) as (Hd & _ & Hv).
  pose proof (int_to_string_length sub scale Hsub Hk) as Hl.
  exists (zeroes (scale - String.length (int_to_string sub)) ++ int_to_string sub). split; [done|].
  split; [unfold zeroes; by rewrite str_all_app, zeros_digits|]. split.
  - unfold zeroes. rewrite string_length_app, zeros_length. lia.
  - unfold zeroes. by rewrite digits_value_app, zeros_value, Z.mul_0_l.
Qed.

Lemma instant_of_day unit ts : 0 <= ts * unit_nanos unit < NANOS_IN_DAY -> instant_of unit ts = ts * unit_nanos unit.
Proof.
  change NANOS_IN_DAY with 86400000000000. intros Hb. destruct unit; cbn [unit_nanos instant_of] in *.
  - rewrite from_timestamp_ok; [simpl; lia|lia|]. unfold in_i64, i64_min, i64_max. lia.
  - by rewrite millis_of_day by lia.
  - by rewrite micros_of_day by lia.
  - lia.
Qed.

(** A time of day as text is its whole seconds, a point and a fraction of exactly as many digits as
    its unit has (three zeros for seconds), which read back give the time: the digits of both are the value
    in the unit. *)
Theorem time_text_exact unit ts : 0 <= ts * unit_nanos unit < NANOS_IN_DAY ->
  exists secs frac, time_text unit ts = secs ++ "." ++ frac /\
    str_all is_ascii_digit secs = true /\ str_all is_ascii_digit frac = true /\
    String.length frac = text_digits unit /\
    digits_value 0 (secs ++ frac) = ts * 10 ^ Z.of_nat (text_digits unit - unit_digits unit).
Proof.
  intros Hb. pose proof (instant_of_day unit ts Hb) as Hi. unfold time_text. rewrite Hi. set (n := ts * unit_nanos unit) in *.
  assert (0 <= timestamp_secs n) as Hs by (unfold timestamp_secs; apply Z.div_pos; lia).
  destruct (digits_value_to_string _ Hs) as (Hd & _ & Hv).
  assert (forall k, (0 < k)%nat -> subsec unit n < 10 ^ Z.of_nat k -> 0 <= subsec unit n ->
    (timestamp_secs n * 10 ^ Z.of_nat k + subsec unit n = ts) ->
    exists secs frac, format_time_string (timestamp_secs n) (int_to_string (subsec unit n)) k = secs ++ "." ++ frac /\
      str_all is_ascii_digit secs = true /\ str_all is_ascii_digit frac = true /\ String.length frac = k /\
      digits_value 0 (secs ++ frac) = ts) as Hk.
  { intros k Hpos Hlt Hge Hsum. destruct (format_time_string_digits _ _ k Hs (conj Hge Hlt) Hpos) as (frac & E & Hf & Hl & Hfv).
    exists (int_to_string (timestamp_secs n)), frac. split_and!; try done.
    rewrite digits_value_app, Hv. pose proof (digits_value_acc frac (timestamp_secs n)) as Ha. rewrite Ha, Hfv, Hl. lia. }
  change NANOS_IN_DAY with 86400000000000 in *. unfold subsec, timestamp_secs, n in *.
  destruct unit; cbn [unit_nanos text_digits unit_digits] in *.
  - exists (int_to_string (ts * 1000000000 / 1000000000)), "000". split_and!; try done.
    rewrite digits_value_app, Hv. rewrite Z.div_mul, digits_value_acc by lia. change (digits_value 0 "000") with 0. change (String.length "000") with (3 - 0)%nat. lia.
  - replace (ts * 10 ^ Z.of_nat (3 - 3)) with ts by (cbn; lia). apply Hk; [lia|..]; change (10 ^ Z.of_nat 3) with 1000; Z.div_mod_to_equations; lia.
  - replace (ts * 10 ^ Z.of_nat (6 - 6)) with ts by (cbn; lia). apply Hk; [lia|..]; change (10 ^ Z.of_nat 6) with 1000000; Z.div_mod_to_equations; lia.
  - replace (ts * 10 ^ Z.of_nat (9 - 9)) with ts by (cbn; lia). apply Hk; [lia|..]; change (10 ^ Z.of_nat 9) with 1000000000; rewrite Z.div_1_r; Z.div_mod_to_equations; lia.
Qed.
End times.

(** ** Instances and witnesses *)
Module BatchExamples.
Import Gregorian ArrowExample SerdeExample ConversionExamples DatePartsExamples TimestampExamples.

Definition bool_text (b : bool) : string := if b then "true" else "false".

Definition text_cast (a : ArrayRef) : result ArrowError ArrayRef :=
  match a with
  | ABoolean rows => Ok (AUtf8 Utf8 (map (option_map bool_text) rows))
  | ADecimal Decimal128 _ _ rows => Ok (AUtf8 Utf8 (map (option_map int_to_string) rows))
  | AUtf8 _ rows => Ok (AUtf8 Utf8 rows)
  | ABinary _ rows => Ok (AUtf8 Utf8 (map (fun row => row ≫= from_utf8) rows))
  | _ => Err (OtherError "no text")
  end.

(** [try_new] that checks nothing, and times as their number and offset. *)
#[global] Instance example_batches : BatchExt (C := chrono) (TZ := fixed_zones) := {|
  try_new fs cs := Ok (mkBatch fs cs);
  cast_text := text_cast;
  from_timestamp_millis ts := Some (ts * 1000000);
  to_rfc3339 n offset := int_to_string n ++ "+" ++ int_to_string offset |}.

#[global] Instance example_batch_laws : BatchLaws.
Proof.
  split; [done|]. intros a Ha. destruct a; try done.
  - eexists. split; [reflexivity|]. split; [apply length_map|]. intros _ i. apply row_null_map.
  - eexists. split; [reflexivity|]. done.
  - eexists. split; [reflexivity|]. split; [apply length_map|done].
  - destruct k; try done. eexists. split; [reflexivity|]. split; [apply length_map|]. intros _ i. apply row_null_map.
Qed.

#[global] Instance example_day_laws : DayLaws.
Proof. split; done. Qed.

Definition sample_schema : list Field :=
  [mkField "ID" (TInt UInt32) false ∅; mkField "AT" (TTemporal (Timestamp Millisecond (Some "UTC"))) true ∅; mkField "OK" TBoolean true ∅].
Definition sample_batch : RecordBatch :=
  mkBatch sample_schema
    [AInt UInt32 [Some 1; Some 4294967295]; ATemporal (Timestamp Millisecond (Some "UTC")) [Some 1005; None]; ABoolean [Some true; None]].
Definition sample_result : QueryResult := mkResult [sample_batch] sample_schema [].

Lemma convert_record_batches_typed_witness :
  exists out, convert_record_batches sample_result Arrow = Ok out /\
    map columns out = [[AInt Int64 [Some 1; Some 4294967295];
      AStruct [("epoch", AInt Int64 [Some 1; None]); ("fraction", AInt Int32 [Some 5000000; None]); ("timezone", AInt Int32 [Some 1440; None])] [true; true];
      ABoolean [Some true; None]]] /\
    Forall2 (fun b o => batch_ok o.(fields) o.(columns) 2 /\
      map field_name o.(fields) = map field_name b.(fields) /\ map nullable o.(fields) = map nullable b.(fields) /\
      map metadata o.(fields) = map to_metadata (column_info sample_result)) [sample_batch] out.
Proof.
  destruct (convert_record_batches_typed sample_result Arrow (fun _ => 2%nat)) as (out & E & H).
  - constructor; [|done]. split; [|split; [repeat constructor|repeat constructor]]. split; [done|]. split; [|repeat constructor].
    repeat constructor; intros Hn i; try discriminate. by destruct i as [|[|[]]].
  - exists out. split; [exact E|]. split; [|exact H]. assert (out = match convert_record_batches sample_result Arrow with Ok o => o | Err _ => [] end) as -> by (by rewrite E).
    vm_compute. reflexivity.
Defined.

Lemma struct_timestamps_round_trip_witness :
  exists s, convert_timestamp (ATemporal (Timestamp Millisecond (Some "UTC")) [Some (-1500); None; Some 0]) Millisecond (Some "UTC") Arrow = Ok s /\
    struct_column (mkField "AT" (data_type s) true ∅) s =
    Ok (mkField "AT" (TUtf8 Utf8) true ∅, AUtf8 Utf8 [Some "-1500000000+0"; None; Some "0+0"]).
Proof.
  destruct (struct_timestamps_round_trip Millisecond "UTC" (zone 0) [Some (-1500); None; Some 0] (mkField "AT" TNull true ∅)) as (s & E & E').
  - done.
  - intros n. exists 0. done.
  - repeat constructor.
  - exists s. split; [exact E|]. etransitivity; [exact E'|]. vm_compute. reflexivity.
Defined.

Lemma time_text_exact_witness :
  exists secs frac, time_text Millisecond 3661005 = secs ++ "." ++ frac /\
    str_all is_ascii_digit secs = true /\ str_all is_ascii_digit frac = true /\ String.length frac = 3%nat /\
    digits_value 0 (secs ++ frac) = 3661005 * 10 ^ 0.
Proof. apply (time_text_exact Millisecond 3661005). vm_compute. split; [discriminate|reflexivity]. Defined.

Example time_text_value : time_text Millisecond 3661005 = "3661.005".
Proof. reflexivity. Qed.

(** In JSON the fraction of a timestamp is not padded: 1.005 s and 1.5 s differ by the zeros only. *)
Example timestamp_fraction_unpadded :
  convert_timestamp (ATemporal (Timestamp Millisecond None) [Some 1005; Some 1500]) Millisecond None Json = Ok (AUtf8 Utf8 [Some "1.5"; Some "1.500"]).
Proof. reflexivity. Qed.

(** Days before the epoch in milliseconds are rounded up. *)
Example date64_before_epoch : convert_date (ATemporal Date64 [Some (-1)]) Json = AInt Int32 [Some 0].
Proof. reflexivity. Qed.

(** Seconds from the year 2262 on wrap in the Arrow format. *)
Example far_seconds_wrap :
  to_nanoseconds (ATemporal (Timestamp Second (Some "UTC")) [Some 9223372037]) Second = Ok [Some (-9223372036709551616)].
Proof. reflexivity. Qed.

(** A union becomes the child of its first row: the values of the other types are lost. *)
Example union_loses_types :
  let u := AUnion Sparse [0; 1; 0] [] [(0, AInt Int32 [Some 1; None; Some 34]); (1, AFloat Float64 [None; Some (SpecFloat.S754_zero false); None])] in
  convert_column Json (from_field (mkField "U" (data_type u) true ∅)) (mkField "U" (data_type u) true ∅) u =
  Ok (mkField "U" (TInt Int32) true (to_metadata (from_field (mkField "U" (data_type u) true ∅))), AInt Int32 [Some 1; None; Some 34]).
Proof. reflexivity. Qed.
End BatchExamples.
