(* ===== verification/Catalog.v ===== *)
(** * The catalog

    [crates/catalog/src]: [EmbucketCatalogList], its [CachingCatalog]s, their [CachingSchema]s and
    [CachingTable]s, the caches in front of the providers of DataFusion and of Iceberg catalogs.

    [Backend] is what the caches stand in front of: the state [World] of the providers (the mirror of
    an Iceberg catalog, or a catalog in memory) and of the Iceberg catalogs, and their operations.  A
    caching object is a record of the code's fields, and an operation maps the world and the object to
    their new values.  [LocalBackend] and [IcebergBackend] are what providers promise. *)

From Stdlib Require Import ZArith Lia Ascii String.
From stdpp Require Import base option list gmap strings sorting.
From S2P Require Import Prelude Utf8.

Open Scope string_scope.
Open Scope rust_scope.

#[local] Arguments String.append : simpl nomatch.

(** ** Data *)

(** [iceberg_rust::error::Error] and [DataFusionError], as far as they are told apart. *)
Inductive IcebergError := CatalogNotFound | NotFound (what : string) | IcebergOther (message : string).
Inductive DataFusionError :=
| Internal (message : string)
| External (e : IcebergError)
| ObjectStoreNotFound (url : string)
| DataFusionOther (message : string).

(** [catalog::Error]; the error of the metastore by its text. *)
Inductive Error :=
| Metastore (source : string)
| DataFusion (e : DataFusionError)
| InvalidCache (entity name : string)
| NotImplemented (feature details : string)
| MissingVolume (name : string)
| Iceberg (e : IcebergError).

Notation dres A := (result DataFusionError A).
Notation catres A := (result Error A).

Definition df {A} (r : dres A) : catres A := match r with Ok a => Ok a | Err e => Err (DataFusion e) end.
Definition iceberg {A} (r : result IcebergError A) : catres A := match r with Ok a => Ok a | Err e => Err (Iceberg e) end.

(** [Schema] of a table: the names of its columns with what else describes them. *)
Notation TableSchema := (list (string * nat)).

Class Backend := {
  World : Type;
  SchemaHandle : Type;
  CatalogHandle : Type;
  IcebergCatalog : Type;
  Table : Type;
  Builder : Type;
  (** [TableProvider] *)
  is_view : Table -> bool;
  is_builder : Table -> bool;
  provider_schema : Table -> TableSchema;
  (** [CatalogProvider] *)
  provider_schema_names : World -> CatalogHandle -> list string;
  provider_schema_of : World -> CatalogHandle -> string -> option SchemaHandle;
  (** [None] is a new, empty schema in memory. *)
  provider_register_schema : World -> CatalogHandle -> string -> option SchemaHandle -> dres World;
  provider_deregister_schema : World -> CatalogHandle -> string -> bool -> dres World;
  (** [SchemaProvider] *)
  provider_table_names : World -> SchemaHandle -> list string;
  provider_table : World -> SchemaHandle -> string -> dres (option Table);
  provider_register_table : World -> SchemaHandle -> string -> Table -> dres World;
  provider_deregister_table : World -> SchemaHandle -> string -> dres (World * option Table);
  provider_table_exist : World -> SchemaHandle -> string -> bool;
  (** [iceberg_rust::catalog::Catalog]; a builder knows the name of its table. *)
  load_tabular : World -> IcebergCatalog -> string -> string -> result IcebergError Table;
  build_table : World -> IcebergCatalog -> string -> Builder -> result IcebergError (World * Table);
  iceberg_drop_table : World -> IcebergCatalog -> string -> string -> result IcebergError World;
  create_namespace : World -> IcebergCatalog -> string -> result IcebergError World;
  drop_namespace : World -> IcebergCatalog -> string -> result IcebergError World;
  (** [DataFusionIcebergCatalog::new] and [new_sync], and the tables of a mirror. *)
  new_mirror : World -> IcebergCatalog -> dres (World * CatalogHandle);
  new_mirror_sync : World -> IcebergCatalog -> World * CatalogHandle;
  mirror_schema_exists : World -> CatalogHandle -> string -> bool;
  mirror_register_table : World -> CatalogHandle -> list string -> string -> dres World;
  (** [Identifier::try_new]: the namespace and the name. *)
  identifier_try_new : list string -> dres (list string * string);
  (** [Utc::now] *)
  now : World -> Z;
  (** The order in which concurrent requests complete. *)
  completion_order : forall {A : Type}, list A -> list A }.

Section catalog.
Context `{B : Backend}.

(** ** [table.rs]: the schemas of a table, computed once *)
Record CachingTable := mkTable {
  schema_cell : option TableSchema;
  normalized_cell : option TableSchema;
  table_name : string;
  table : Table;
  case_sensitive_cell : option bool }.

Definition to_lower (s : string) : string := to_ascii_lowercase s.

Definition to_upper (s : string) : string := to_ascii_uppercase s.

Definition normalize_schema_case (s : TableSchema) : TableSchema := map (fun f => (to_lower (fst f), snd f)) s.

(** A name in upper case, or without letters, makes a schema case sensitive. *)
Definition case_sensitive_schema (s : TableSchema) : bool := existsb (fun f => String.eqb (fst f) (to_upper (fst f))) s.

Definition new_table (name : string) (t : Table) : CachingTable := mkTable None None name t None.

Definition new_with_schema (name : string) (s : TableSchema) (t : Table) : CachingTable :=
  mkTable (Some s) (Some (normalize_schema_case s)) name t (Some (case_sensitive_schema s)).

(** [OnceCell::get_or_init]: the value, and the table with the cell filled. *)
Definition table_schema (self : CachingTable) : TableSchema * CachingTable :=
  let s := default (provider_schema self.(table)) self.(schema_cell) in
  (s, mkTable (Some s) self.(normalized_cell) self.(table_name) self.(table) self.(case_sensitive_cell)).

Definition normalized_schema (self : CachingTable) : TableSchema * CachingTable :=
  let s := default (normalize_schema_case (provider_schema self.(table))) self.(normalized_cell) in
  (s, mkTable self.(schema_cell) (Some s) self.(table_name) self.(table) self.(case_sensitive_cell)).

Definition is_case_sensitive (self : CachingTable) : bool * CachingTable :=
  let b := default (case_sensitive_schema (provider_schema self.(table))) self.(case_sensitive_cell) in
  (b, mkTable self.(schema_cell) self.(normalized_cell) self.(table_name) self.(table) (Some b)).

(** [rewrite_expr_case] of one column: the first field of that name, whatever the case. *)
Definition rewrite_column (s : TableSchema) (name : string) : string :=
  match List.find (fun f => String.eqb (to_lower (fst f)) (to_lower name)) s with
  | Some f => fst f
  | None => name
  end.

(** The names of the columns of a scan, renamed to the normalized schema: a projection by index. *)
Definition scan_names (self : CachingTable) (projection : option (list nat)) : option (list string) :=
  let names := map fst (fst (normalized_schema self)) in
  match projection with
  | None => Some names
  | Some indices => mapM (fun i => names !! i) indices
  end.

(** ** [schema.rs] *)
Record CatalogConfig := mkConfig { iceberg_catalog_timeout_secs : Z; iceberg_table_timeout_secs : Z }.

Record CachingSchema := mkSchema {
  schema : SchemaHandle;
  iceberg_catalog : option IcebergCatalog;
  iceberg_namespace : string;
  schema_name : string;
  tables_cache : gmap string CachingTable;
  schema_config : CatalogConfig }.

Definition with_tables (self : CachingSchema) (tables : gmap string CachingTable) : CachingSchema :=
  mkSchema self.(schema) self.(iceberg_catalog) self.(iceberg_namespace) self.(schema_name) tables self.(schema_config).

Definition sort (l : list string) : list string := merge_sort str_le l.

Definition table_names (w : World) (self : CachingSchema) : list string :=
  let names := provider_table_names w self.(schema) in
  sort (foldl (fun names n => if bool_decide (n ∈ names) then names else (names ++ [n])%list) names
    (map fst (map_to_list self.(tables_cache)))).

Definition load_fresh_iceberg_table (w : World) (self : CachingSchema) (requested_name : string) : dres (option CachingTable) :=
  let? catalog := ok_or self.(iceberg_catalog) (Internal "Iceberg catalog missing from Iceberg schema") in
  let name := match self.(tables_cache) !! requested_name with Some t => t.(table_name) | None => requested_name end in
  match load_tabular w catalog self.(iceberg_namespace) name with
  | Ok tabular => Ok (Some (new_table name tabular))
  | Err CatalogNotFound | Err (NotFound _) => Ok None
  | Err error => Err (External error)
  end.

(** The table, and the schema with its cache. *)
Definition get_table (w : World) (self : CachingSchema) (name : string) : dres (option CachingTable * CachingSchema) :=
  match self.(iceberg_catalog) with
  | Some _ =>
      match self.(tables_cache) !! name with
      | Some t => if is_view t.(table) then Ok (Some t, self) else let? r := load_fresh_iceberg_table w self name in Ok (r, self)
      | None => let? r := load_fresh_iceberg_table w self name in Ok (r, self)
      end
  | None =>
      match self.(tables_cache) !! name with
      | Some t => Ok (Some t, self)
      | None =>
          let? found := provider_table w self.(schema) name in
          match found with
          | Some t =>
              let caching_table := new_table name t in
              Ok (Some caching_table, with_tables self (<[name := caching_table]> self.(tables_cache)))
          | None => Ok (None, self)
          end
      end
  end.

Definition register_table (w : World) (self : CachingSchema) (name : string) (t : Table) : dres (World * CachingSchema) :=
  let is_iceberg := match self.(iceberg_catalog) with Some _ => true | None => false end in
  if is_iceberg && is_builder t then
    Err (Internal "register_table called with IcebergTableBuilder; callers must use CachingSchema::create_iceberg_table_async instead")
  else
    let? w := if is_iceberg || negb (is_view t) then provider_register_table w self.(schema) name t else Ok w in
    Ok (w, with_tables self (<[name := new_table name t]> self.(tables_cache))).

(** What it returns is the cached table, or the provider's for a local table.  The cache is changed even
    when the provider fails. *)
Definition deregister_table (w : World) (self : CachingSchema) (name : string) : dres (World * option Table) * CachingSchema :=
  match self.(tables_cache) !! name with
  | None => (Ok (w, None), self)
  | Some t =>
      let self' := with_tables self (delete name self.(tables_cache)) in
      if is_view t.(table) then (Ok (w, Some t.(table)), self')
      else
        let removed := provider_deregister_table w self.(schema) name in
        match self.(iceberg_catalog) with
        | Some _ => (result_map (fun r => (fst r, Some t.(table))) removed, self')
        | None => (removed, self')
        end
  end.

Definition table_exist (w : World) (self : CachingSchema) (name : string) : bool :=
  match self.(tables_cache) !! name with Some _ => true | None => provider_table_exist w self.(schema) name end.

Definition create_iceberg_table_async (w : World) (self : CachingSchema) (name : string) (builder : Builder) : catres (World * CachingSchema * Table) :=
  let? catalog := iceberg (ok_or self.(iceberg_catalog) (NotFound "iceberg catalog")) in
  let? (w, provider) := iceberg (build_table w catalog self.(iceberg_namespace) builder) in
  let? w := df (provider_register_table w self.(schema) name provider) in
  Ok (w, with_tables self (<[name := new_table name provider]> self.(tables_cache)), provider).

(** The Iceberg table is dropped only when it is cached, under the name that was asked for. *)
Definition drop_table_async (w : World) (self : CachingSchema) (name : string) : catres (World * option CachingTable) * CachingSchema :=
  let removed := self.(tables_cache) !! name in
  let self' := with_tables self (delete name self.(tables_cache)) in
  let r :=
    let? w := match self.(iceberg_catalog), removed with
              | Some catalog, Some t =>
                  if is_view t.(table) then Ok w else iceberg (iceberg_drop_table w catalog self.(iceberg_namespace) name)
              | _, _ => Ok w
              end in
    let? r := df (provider_deregister_table w self.(schema) name) in
    Ok (fst r, removed) in
  (r, self').

(** ** [catalog.rs] *)
Record Properties := mkProperties { created_at : Z; updated_at : Z }.

Definition default_properties (w : World) : Properties := mkProperties (now w) (now w).

Inductive CatalogType := Embucket | Memory.

Definition catalog_type_fmt (t : CatalogType) : string := match t with Embucket => "embucket" | Memory => "memory" end.

Record CachingCatalog := mkCatalog {
  catalog : CatalogHandle;
  catalog_iceberg : option IcebergCatalog;
  catalog_type : CatalogType;
  schemas_cache : gmap string CachingSchema;
  should_refresh : bool;
  catalog_name : string;
  enable_information_schema : bool;
  properties : option Properties;
  catalog_config : CatalogConfig }.

Definition new_catalog (provider : CatalogHandle) (name : string) (ice : option IcebergCatalog) (config : CatalogConfig) : CachingCatalog :=
  mkCatalog provider ice Embucket ∅ false name true None config.

Definition with_refresh (self : CachingCatalog) (refresh : bool) : CachingCatalog :=
  let '(mkCatalog c i t ss _ n e p g) := self in mkCatalog c i t ss refresh n e p g.

Definition with_information_schema (self : CachingCatalog) (enable : bool) : CachingCatalog :=
  let '(mkCatalog c i t ss r n _ p g) := self in mkCatalog c i t ss r n enable p g.

Definition with_catalog_type (self : CachingCatalog) (t : CatalogType) : CachingCatalog :=
  let '(mkCatalog c i _ ss r n e p g) := self in mkCatalog c i t ss r n e p g.

Definition with_properties (self : CachingCatalog) (properties : Properties) : CachingCatalog :=
  let '(mkCatalog c i t ss r n e _ g) := self in mkCatalog c i t ss r n e (Some properties) g.

Definition with_schemas (self : CachingCatalog) (schemas : gmap string CachingSchema) : CachingCatalog :=
  mkCatalog self.(catalog) self.(catalog_iceberg) self.(catalog_type) schemas self.(should_refresh) self.(catalog_name)
    self.(enable_information_schema) self.(properties) self.(catalog_config).

(** A schema without cached tables, as every operation makes it. *)
Definition fresh_schema (self : CachingCatalog) (name namespace : string) (h : SchemaHandle) : CachingSchema :=
  mkSchema h self.(catalog_iceberg) namespace name ∅ self.(catalog_config).

(** Listing also forgets cached schemas that are gone. *)
Definition schema_names (w : World) (self : CachingCatalog) : list string * CachingCatalog :=
  let names := sort (provider_schema_names w self.(catalog)) in
  (names, with_schemas self (filter (fun kv => kv.1 ∈ names) self.(schemas_cache))).

Definition get_schema (w : World) (self : CachingCatalog) (name : string) : option CachingSchema * CachingCatalog :=
  match self.(schemas_cache) !! name with
  | Some s => (Some s, self)
  | None =>
      match provider_schema_of w self.(catalog) name with
      | Some h => let s := fresh_schema self name name h in (Some s, with_schemas self (<[name := s]> self.(schemas_cache)))
      | None => (None, self)
      end
  end.

(** The schema just registered, from the mirror. *)
Definition registered_schema (w : World) (self : CachingCatalog) (name : string) : dres (CachingSchema * CachingCatalog) :=
  let? h := ok_or (provider_schema_of w self.(catalog) name)
    (Internal ("Failed to look up newly registered schema " ++ name ++ " in catalog " ++ self.(catalog_name))) in
  let s := fresh_schema self name name h in
  Ok (s, with_schemas self (<[name := s]> self.(schemas_cache))).

Definition create_namespace_async (w : World) (self : CachingCatalog) (name : string) : catres (World * CachingSchema * CachingCatalog) :=
  let? w := match self.(catalog_iceberg) with Some c => iceberg (create_namespace w c name) | None => Ok w end in
  let? w := df (provider_register_schema w self.(catalog) name None) in
  let? (s, self) := df (registered_schema w self name) in
  Ok (w, s, self).

Definition drop_namespace_async (w : World) (self : CachingCatalog) (name : string) (cascade : bool) : catres (World * option CachingSchema * CachingCatalog) :=
  let? w := match self.(catalog_iceberg) with Some c => iceberg (drop_namespace w c name) | None => Ok w end in
  let? w := df (provider_deregister_schema w self.(catalog) name cascade) in
  Ok (w, self.(schemas_cache) !! name, with_schemas self (delete name self.(schemas_cache))).

(** For a catalog without Iceberg the provider alone is changed. *)
Definition register_schema (w : World) (self : CachingCatalog) (name : string) (h : SchemaHandle) : dres (World * CachingCatalog) :=
  match self.(catalog_iceberg) with
  | None => result_map (fun w => (w, self)) (provider_register_schema w self.(catalog) name (Some h))
  | Some _ =>
      let? w := provider_register_schema w self.(catalog) name (Some h) in
      let? (_, self) := registered_schema w self name in
      Ok (w, self)
  end.

Definition deregister_schema (w : World) (self : CachingCatalog) (name : string) (cascade : bool) : dres (World * CachingCatalog) :=
  match self.(catalog_iceberg) with
  | None => result_map (fun w => (w, self)) (provider_deregister_schema w self.(catalog) name cascade)
  | Some _ =>
      let? w := provider_deregister_schema w self.(catalog) name cascade in
      Ok (w, with_schemas self (delete name self.(schemas_cache)))
  end.

(** ** [utils.rs] *)

(** The tables of a schema; those that are gone or fail are skipped. *)
Definition fetch_table_providers (w : World) (h : SchemaHandle) : dres (list (string * Table)) :=
  let fetched := completion_order (map (fun n =>
    match provider_table w h n with
    | Ok (Some t) => Some (n, t)
    | Ok None => None
    | Err _ => None
    end) (provider_table_names w h)) in
  Ok (omap id fetched).

(** ** [catalog_list.rs] *)
Record CatalogListConfig := mkListConfig {
  max_concurrent_table_fetches : nat; list_table_timeout_secs : Z; list_catalog_timeout_secs : Z }.

Definition config_from (c : CatalogListConfig) : CatalogConfig := mkConfig c.(list_catalog_timeout_secs) c.(list_table_timeout_secs).

Context {Store : Type} (local_file_system : Store).

Record EmbucketCatalogList := mkList {
  table_object_store : gmap string Store;
  catalogs : gmap string CachingCatalog;
  list_config : CatalogListConfig }.

Definition with_catalogs (self : EmbucketCatalogList) (cs : gmap string CachingCatalog) : EmbucketCatalogList :=
  mkList self.(table_object_store) cs self.(list_config).

Definition new_list (config : CatalogListConfig) : EmbucketCatalogList := mkList {["file://" := local_file_system]} ∅ config.

Definition drop_catalog (self : EmbucketCatalogList) (name : string) : catres EmbucketCatalogList :=
  match self.(catalogs) !! name with
  | None => Err (InvalidCache "catalog" name)
  | Some _ => Ok (with_catalogs self (delete name self.(catalogs)))
  end.

Definition register_iceberg_catalog (w : World) (self : EmbucketCatalogList) (name : string) (ice : IcebergCatalog) (refresh : bool) :
    catres (World * EmbucketCatalogList) :=
  let? (w, h) := df (new_mirror w ice) in
  let caching := with_refresh (new_catalog h name (Some ice) (config_from self.(list_config))) refresh in
  let caching := with_properties caching (default_properties w) in
  Ok (w, with_catalogs self (<[name := caching]> self.(catalogs))).

Definition case_aliases (name : string) : list string :=
  foldl (fun aliases alias => if bool_decide (alias ∈ aliases) then aliases else (aliases ++ [alias])%list) []
    [name; to_lower name; to_upper name].

Definition parse_bootstrap_table_identifier (t : string) : catres (option (list string * string)) :=
  let ident_parts := List.filter (fun part => negb (String.eqb part "")) (map trim (split t ".")) in
  if (length ident_parts <? 2)%nat then Ok None
  else result_map Some (df (identifier_try_new ident_parts)).

Definition bootstrap_caching_schema (w : World) (self : CachingCatalog) (namespace iceberg_namespace : string) : catres (CachingSchema * CachingCatalog) :=
  match self.(schemas_cache) !! namespace with
  | Some s => Ok (s, self)
  | None =>
      let? h := df (ok_or (provider_schema_of w self.(catalog) namespace)
        (Internal ("Bootstrap Iceberg schema " ++ namespace ++ " was not found"))) in
      let s := fresh_schema self namespace iceberg_namespace h in
      Ok (s, with_schemas self (<[namespace := s]> self.(schemas_cache)))
  end.

(** Loops that change a state and stop at the first error. *)
Fixpoint try_fold {S A} (f : S -> A -> catres S) (s : S) (l : list A) : catres S :=
  match l with [] => Ok s | a :: l => let? s := f s a in try_fold f s l end.

Definition namespace_of (ident : list string * string) : string := join "." (fst ident).

(** A schema of each spelling of the namespace, in the mirror. *)
Definition register_alias (h : CatalogHandle) (w : World) (namespace_alias : string) : catres World :=
  if mirror_schema_exists w h namespace_alias then Ok w else df (provider_register_schema w h namespace_alias None).

Definition register_bootstrap_table (h : CatalogHandle) (s : World * list (list string * string)) (t : string) :
    catres (World * list (list string * string)) :=
  let '(w, identifiers) := s in
  let? ident := parse_bootstrap_table_identifier t in
  match ident with
  | None => Ok s
  | Some identifier =>
      let? w := try_fold (register_alias h) w (case_aliases (namespace_of identifier)) in
      let? w := df (mirror_register_table w h (fst identifier) (snd identifier)) in
      Ok (w, (identifiers ++ [identifier])%list)
  end.

(** The table under every spelling, in the schema of one spelling of the namespace. *)
Definition cache_aliases (w : World) (namespace : string) (name : string) (t : Table) (self : CachingCatalog) (namespace_alias : string) :
    catres CachingCatalog :=
  let? (s, self) := bootstrap_caching_schema w self namespace_alias namespace in
  let tables := foldl (fun m table_alias => <[table_alias := new_table name t]> m) s.(tables_cache) (case_aliases name) in
  Ok (with_schemas self (<[namespace_alias := with_tables s tables]> self.(schemas_cache))).

Definition bootstrap_table (w : World) (self : CachingCatalog) (identifier : list string * string) : catres CachingCatalog :=
  let namespace := namespace_of identifier in
  let name := snd identifier in
  let? (exact_schema, self) := bootstrap_caching_schema w self namespace namespace in
  let? found := df (provider_table w exact_schema.(schema) name) in
  let? t := df (ok_or found (Internal ("Bootstrap Iceberg table " ++ join "." (fst identifier ++ [name])%list ++ " was not found"))) in
  try_fold (cache_aliases w namespace name t) self (case_aliases namespace).

Definition register_iceberg_catalog_lazy (w : World) (self : EmbucketCatalogList) (name : string) (ice : IcebergCatalog)
    (bootstrap_schemas bootstrap_tables : list string) (refresh : bool) : catres (World * EmbucketCatalogList) :=
  let '(w, h) := new_mirror_sync w ice in
  let? w := try_fold (fun w s => df (provider_register_schema w h s None)) w bootstrap_schemas in
  let? (w, identifiers) := try_fold (register_bootstrap_table h) (w, []) bootstrap_tables in
  let caching := with_refresh (new_catalog h name (Some ice) (config_from self.(list_config))) refresh in
  let caching := with_properties caching (default_properties w) in
  let? caching := try_fold (bootstrap_table w) caching identifiers in
  Ok (w, with_catalogs self (<[name := caching]> self.(catalogs))).

(** *** Refreshing *)

(** A refresh by itself: the providers are in one state [w] from its start to its end, and no other call runs
    at its awaits.  A removal from a map that is being iterated waits for the iterator's own lock. *)
Inductive refresh_failure := RefreshError (e : Error) | SelfDeadlock.

Definition refresh_schema (w : World) (self : CachingCatalog) (name : string) : result refresh_failure CachingCatalog :=
  match provider_schema_of w self.(catalog) name with
  | None => Ok self
  | Some h =>
      let s := fresh_schema self name name h in
      match fetch_table_providers w h with
      | Err e => Err (RefreshError (DataFusion e))
      | Ok table_providers =>
          let tables := foldl (fun m nt => <[fst nt := new_with_schema (fst nt) (provider_schema (snd nt)) (snd nt)]> m) ∅ table_providers in
          Ok (with_schemas self (<[name := with_tables s tables]> self.(schemas_cache)))
      end
  end.

Fixpoint refresh_schemas (w : World) (self : CachingCatalog) (names : list string) : result refresh_failure CachingCatalog :=
  match names with
  | [] => Ok self
  | n :: names => let? self := refresh_schema w self n in refresh_schemas w self names
  end.

Definition refresh_catalog (w : World) (self : CachingCatalog) : result refresh_failure CachingCatalog :=
  if self.(should_refresh) then
    let '(schemas, self) := schema_names w self in
    let? self := refresh_schemas w self schemas in
    if forallb (fun kv => bool_decide (kv.1 ∈ schemas)) (map_to_list self.(schemas_cache)) then Ok self else Err SelfDeadlock
  else Ok self.

Fixpoint refresh_catalogs (w : World) (l : list (string * CachingCatalog)) (cs : gmap string CachingCatalog) :
    result refresh_failure (gmap string CachingCatalog) :=
  match l with
  | [] => Ok cs
  | (n, c) :: l => let? c := refresh_catalog w c in refresh_catalogs w l (<[n := c]> cs)
  end.

Definition refresh (w : World) (self : EmbucketCatalogList) : result refresh_failure EmbucketCatalogList :=
  result_map (with_catalogs self) (refresh_catalogs w (map_to_list self.(catalogs)) self.(catalogs)).

(** *** Stores and catalogs by name *)

(** [url::Url]: the scheme, and the host with its port. *)
Record Url := mkUrl { scheme : string; host_and_port : string }.

Definition get_url_key (url : Url) : string := url.(scheme) ++ "://" ++ url.(host_and_port).

Definition register_store (self : EmbucketCatalogList) (url : Url) (store : Store) : EmbucketCatalogList * option Store :=
  let key := get_url_key url in
  (mkList (<[key := store]> self.(table_object_store)) self.(catalogs) self.(list_config), self.(table_object_store) !! key).

Definition get_store (self : EmbucketCatalogList) (url : Url) : dres Store :=
  let key := get_url_key url in
  match self.(table_object_store) !! key with Some s => Ok s | None => Err (ObjectStoreNotFound key) end.

Definition register_catalog (self : EmbucketCatalogList) (name : string) (h : CatalogHandle) : EmbucketCatalogList * option CachingCatalog :=
  (with_catalogs self (<[name := new_catalog h name None (config_from self.(list_config))]> self.(catalogs)), self.(catalogs) !! name).

Definition catalog_names (self : EmbucketCatalogList) : list string := map fst (map_to_list self.(catalogs)).

Definition get_catalog (self : EmbucketCatalogList) (name : string) : option CachingCatalog := self.(catalogs) !! name.
End catalog.

(** ** Local schemas *)

(** A provider in memory: a map of tables. *)
Class LocalBackend `{B : Backend} := {
  contents : World -> SchemaHandle -> gmap string Table;
  local_table : forall w h n, provider_table w h n = Ok (contents w h !! n);
  local_exist : forall w h n, provider_table_exist w h n = bool_decide (is_Some (contents w h !! n));
  local_names : forall w h, provider_table_names w h ≡ₚ map fst (map_to_list (contents w h));
  local_register : forall w h n t, contents w h !! n = None ->
    exists w', provider_register_table w h n t = Ok w' /\ contents w' h = <[n := t]> (contents w h);
  local_register_twice : forall w h n t, is_Some (contents w h !! n) -> exists e, provider_register_table w h n t = Err e;
  local_deregister : forall w h n,
    exists w', provider_deregister_table w h n = Ok (w', contents w h !! n) /\ contents w' h = delete n (contents w h) }.

Lemma foldl_push_elem (l names : list string) :
  (forall x, x ∈ foldl (fun names n => if bool_decide (n ∈ names) then names else (names ++ [n])%list) names l <-> x ∈ names \/ x ∈ l) /\
  (NoDup names -> NoDup (foldl (fun names n => if bool_decide (n ∈ names) then names else (names ++ [n])%list) names l)).
Proof.
  revert names. induction l as [|n l IH]; intros names; simpl; [split; [set_solver|done]|].
  destruct (IH (if bool_decide (n ∈ names) then names else (names ++ [n])%list)) as [He Hn]. split.
  - intros x. rewrite He. case_bool_decide; set_solver.
  - intros Hd. apply Hn. case_bool_decide; [done|]. apply NoDup_app. split; [done|]. split; [set_solver|apply NoDup_singleton].
Qed.

Section local.
Context `{L : LocalBackend}.

(** The tables of a schema: those of the cache, views among them, in front of the provider's. *)
Definition visible (w : World) (s : CachingSchema) : gmap string Table := (table <$> s.(tables_cache)) ∪ contents w s.(schema).

(** A cached table is a view or the provider's own. *)
Definition local_ok (w : World) (s : CachingSchema) : Prop :=
  s.(iceberg_catalog) = None /\
  forall n t, s.(tables_cache) !! n = Some t -> t.(table_name) = n /\ (is_view t.(table) = true \/ contents w s.(schema) !! n = Some t.(table)).

Lemma visible_lookup w s n : visible w s !! n = match s.(tables_cache) !! n with Some t => Some t.(table) | None => contents w s.(schema) !! n end.
Proof. unfold visible. rewrite lookup_union, lookup_fmap. by destruct (tables_cache s !! n); simpl; [destruct (contents _ _ !! n)|destruct (contents _ _ !! n)]. Qed.

Lemma get_table_local w s n : local_ok w s ->
  exists r s', get_table w s n = Ok (r, s') /\ table <$> r = visible w s !! n /\ local_ok w s' /\ visible w s' = visible w s.
Proof.
  intros [Hi Hc]. unfold get_table. rewrite Hi, visible_lookup. destruct (tables_cache s !! n) as [t|] eqn:E.
  - by exists (Some t), s.
  - rewrite local_table. simpl. destruct (contents w (schema s) !! n) as [t|] eqn:F; [|by exists None, s].
    eexists _, _. split; [done|]. split; [done|]. split; [split; [done|]|].
    + intros n' t'. simpl. destruct (decide (n = n')) as [<-|Hn].
      * rewrite lookup_insert_eq. intros [= <-]. simpl. auto.
      * rewrite lookup_insert_ne by done. apply Hc.
    + apply map_eq. intros n'. rewrite !visible_lookup. simpl. destruct (decide (n = n')) as [<-|Hn].
      * by rewrite lookup_insert_eq, E, F.
      * by rewrite lookup_insert_ne.
Qed.

Lemma register_local w s n t w' : local_ok w s -> contents w' s.(schema) = (if is_view t then contents w s.(schema) else <[n := t]> (contents w s.(schema))) ->
  local_ok w' (with_tables s (<[n := new_table n t]> s.(tables_cache))) /\
  visible w' (with_tables s (<[n := new_table n t]> s.(tables_cache))) = <[n := t]> (visible w s).
Proof.
  intros [Hi Hc] Hw. split.
  - split; [done|]. intros n' t'. simpl. destruct (decide (n = n')) as [<-|Hn].
    + rewrite lookup_insert_eq. intros [= <-]. simpl. split; [done|]. destruct (is_view t); [by left|right]. by rewrite Hw, lookup_insert_eq.
    + rewrite lookup_insert_ne by done. intros E. destruct (Hc _ _ E) as [Hname Hv]. split; [done|]. rewrite Hw.
      destruct (is_view t); [done|]. by rewrite lookup_insert_ne.
  - apply map_eq. intros n'. rewrite visible_lookup. simpl. destruct (decide (n = n')) as [<-|Hn].
    + by rewrite !lookup_insert_eq.
    + rewrite !lookup_insert_ne, visible_lookup, Hw by done. destruct (tables_cache s !! n'); [done|].
      destruct (is_view t); [done|]. by rewrite lookup_insert_ne.
Qed.

Lemma register_table_local w s n t : local_ok w s ->
  (is_view t = true \/ contents w s.(schema) !! n = None ->
   exists w' s', register_table w s n t = Ok (w', s') /\ local_ok w' s' /\ visible w' s' = <[n := t]> (visible w s)) /\
  (is_view t = false -> is_Some (contents w s.(schema) !! n) -> exists e, register_table w s n t = Err e).
Proof.
  intros Hok. pose proof Hok as [Hi _]. unfold register_table. rewrite Hi. simpl. split.
  - intros Ht. destruct (is_view t) eqn:Ev; simpl.
    + eexists _, _. split; [done|]. apply register_local; [done|]. by rewrite Ev.
    + destruct Ht as [|Hn]; [done|]. destruct (local_register w _ n t Hn) as (w' & -> & Hw). simpl.
      eexists _, _. split; [done|]. apply register_local; [done|]. by rewrite Ev.
  - intros -> Hs. simpl. destruct (local_register_twice w _ n t Hs) as [e ->]. simpl. by exists e.
Qed.

Lemma forget_local w s n w' : local_ok w s -> contents w' s.(schema) = delete n (contents w s.(schema)) ->
  let s' := with_tables s (delete n s.(tables_cache)) in local_ok w' s' /\ visible w' s' = delete n (visible w s).
Proof.
  intros [Hi Hc] Hw. split.
  - split; [done|]. intros n' t'. simpl. rewrite lookup_delete_Some. intros [Hn E]. destruct (Hc _ _ E) as [Hname Hv].
    split; [done|]. rewrite Hw. by rewrite lookup_delete_ne.
  - apply map_eq. intros n'. rewrite visible_lookup. simpl. rewrite Hw. destruct (decide (n = n')) as [<-|Hn].
    + by rewrite !lookup_delete_eq.
    + by rewrite !lookup_delete_ne, visible_lookup.
Qed.

Lemma drop_table_local w s n : local_ok w s ->
  exists w' r s', drop_table_async w s n = (Ok (w', r), s') /\ local_ok w' s' /\ visible w' s' = delete n (visible w s).
Proof.
  intros Hok. pose proof Hok as [Hi _]. unfold drop_table_async. rewrite Hi. simpl.
  destruct (local_deregister w (schema s) n) as (w' & -> & Hw). simpl. eexists _, _, _. split; [done|]. by apply forget_local.
Qed.

Lemma deregister_table_local w s n t : local_ok w s -> s.(tables_cache) !! n = Some t -> is_view t.(table) = false ->
  exists w' s', deregister_table w s n = (Ok (w', Some t.(table)), s') /\ local_ok w' s' /\ visible w' s' = delete n (visible w s).
Proof.
  intros Hok E Hv. pose proof Hok as [Hi Hc]. unfold deregister_table. rewrite E, Hv, Hi.
  destruct (local_deregister w (schema s) n) as (w' & -> & Hw). destruct (Hc _ _ E) as [_ [Hv'|Hn]]; [congruence|]. rewrite Hn.
  eexists _, _. split; [done|]. by apply forget_local.
Qed.

Lemma table_names_local w s n : (n ∈ table_names w s <-> is_Some (visible w s !! n)) /\ NoDup (table_names w s) /\ Sorted str_le (table_names w s).
Proof.
  unfold table_names, sort. destruct (foldl_push_elem (map fst (map_to_list (tables_cache s))) (provider_table_names w (schema s))) as [He Hn].
  split_and!.
  - rewrite merge_sort_Permutation, He, local_names, visible_lookup.
    assert (forall A (m : gmap string A), n ∈ map fst (map_to_list m) <-> is_Some (m !! n)) as Hm.
    { intros A m. rewrite list_elem_of_fmap. split.
      - intros ([k v] & -> & E%elem_of_map_to_list). by exists v.
      - intros [v E]. exists (n, v). split; [done|]. by apply elem_of_map_to_list. }
    rewrite !Hm. destruct (tables_cache s !! n); [|naive_solver]. split; [by eexists|]. intros _. right. by eexists.
  - rewrite merge_sort_Permutation. apply Hn. rewrite local_names. apply NoDup_fst_map_to_list.
  - apply (Sorted_merge_sort str_le).
Qed.

(** C12: a schema over a provider in memory is a map from names to tables, those of the cache in front of the
    provider's: reading, creating, dropping and listing implement lookup, insertion, deletion and the sorted
    keys of that map, and the cache never shows a table that is neither a view nor the provider's own. *)
Theorem local_schema_refines_map w s n t :
  local_ok w s ->
  (exists r s', get_table w s n = Ok (r, s') /\ table <$> r = visible w s !! n /\ local_ok w s' /\ visible w s' = visible w s) /\
  (is_view t = true \/ contents w s.(schema) !! n = None ->
   exists w' s', register_table w s n t = Ok (w', s') /\ local_ok w' s' /\ visible w' s' = <[n := t]> (visible w s)) /\
  (is_view t = false -> is_Some (contents w s.(schema) !! n) -> exists e, register_table w s n t = Err e) /\
  (exists w' r s', drop_table_async w s n = (Ok (w', r), s') /\ local_ok w' s' /\ visible w' s' = delete n (visible w s)) /\
  (n ∈ table_names w s <-> is_Some (visible w s !! n)) /\ NoDup (table_names w s) /\ Sorted str_le (table_names w s) /\
  table_exist w s n = bool_decide (is_Some (visible w s !! n)).
Proof.
  intros Hok. destruct (register_table_local w s n t Hok). destruct (table_names_local w s n) as (? & ? & ?).
  split_and!; try done; [by apply get_table_local|by apply drop_table_local|].
  unfold table_exist. rewrite visible_lookup, local_exist. by destruct (tables_cache s !! n).
Qed.
End local.

(** ** Iceberg schemas *)

(** An Iceberg catalog: the tables by namespace and name; the mirror does not change it. *)
Class IcebergBackend `{B : Backend} := {
  remote : World -> IcebergCatalog -> gmap (string * string) Table;
  builder_name : Builder -> string;
  remote_load : forall w c ns n, match remote w c !! (ns, n) with
    | Some t => load_tabular w c ns n = Ok t
    | None => exists e, load_tabular w c ns n = Err (NotFound e) end;
  remote_build : forall w c ns b, remote w c !! (ns, builder_name b) = None -> exists w' t,
    build_table w c ns b = Ok (w', t) /\ remote w' c = <[(ns, builder_name b) := t]> (remote w c);
  remote_drop : forall w c ns n, is_Some (remote w c !! (ns, n)) -> exists w',
    iceberg_drop_table w c ns n = Ok w' /\ remote w' c = delete (ns, n) (remote w c);
  mirror_register : forall w c h n t, exists w', provider_register_table w h n t = Ok w' /\ remote w' c = remote w c;
  mirror_deregister : forall w c h n, exists w' r, provider_deregister_table w h n = Ok (w', r) /\ remote w' c = remote w c }.

Section iceberg_schemas.
Context `{I : IcebergBackend}.

(** The name of a table in the Iceberg catalog: the cache knows other spellings. *)
Definition remote_name (s : CachingSchema) (n : string) : string :=
  match s.(tables_cache) !! n with Some t => t.(table_name) | None => n end.

Definition cached_view (s : CachingSchema) (n : string) : bool :=
  match s.(tables_cache) !! n with Some t => is_view t.(table) | None => false end.

Lemma load_fresh w s c n : s.(iceberg_catalog) = Some c ->
  load_fresh_iceberg_table w s n = Ok (new_table (remote_name s n) <$> remote w c !! (s.(iceberg_namespace), remote_name s n)).
Proof.
  intros Hc. unfold load_fresh_iceberg_table. rewrite Hc. cbn [ok_or result_bind]. fold (remote_name s n).
  pose proof (remote_load w c (iceberg_namespace s) (remote_name s n)) as Hl. destruct (remote w c !! _) as [t|].
  - by rewrite Hl.
  - by destruct Hl as [e ->].
Qed.

Lemma get_table_iceberg w s c n : s.(iceberg_catalog) = Some c -> cached_view s n = false ->
  get_table w s n = Ok (new_table (remote_name s n) <$> remote w c !! (s.(iceberg_namespace), remote_name s n), s).
Proof.
  intros Hc Hv. unfold get_table. rewrite Hc. unfold cached_view in Hv. pose proof (load_fresh w s c n Hc) as Hl.
  destruct (tables_cache s !! n) as [t|]; [rewrite Hv|]; rewrite Hl; done.
Qed.

Lemma with_tables_namespace s m : iceberg_namespace (with_tables s m) = iceberg_namespace s.
Proof. done. Qed.

(** In a schema of an Iceberg catalog every read is of the catalog's current state, whatever is cached
    (views aside): after a table is created it is found, after a cached table is dropped it is not, neither in
    the catalog nor through the schema, and no other table of the catalog changes. *)
Theorem iceberg_schema_reads_through w s c n b :
  s.(iceberg_catalog) = Some c -> cached_view s n = false ->
  let ns := s.(iceberg_namespace) in
  get_table w s n = Ok (new_table (remote_name s n) <$> remote w c !! (ns, remote_name s n), s) /\
  (n = builder_name b -> remote w c !! (ns, n) = None -> exists w' s' t,
   create_iceberg_table_async w s n b = Ok (w', s', t) /\ remote w' c = <[(ns, n) := t]> (remote w c) /\
   (is_view t = false -> get_table w' s' n = Ok (Some (new_table n t), s'))) /\
  (is_Some (s.(tables_cache) !! n) -> is_Some (remote w c !! (ns, n)) -> exists w' r s',
   drop_table_async w s n = (Ok (w', r), s') /\ remote w' c = delete (ns, n) (remote w c) /\ get_table w' s' n = Ok (None, s')).
Proof.
  intros Hc Hv ns. split_and!; [by apply get_table_iceberg|..].
  - intros -> Hn. unfold create_iceberg_table_async. rewrite Hc. simpl.
    destruct (remote_build w c ns b Hn) as (w1 & t & E & Hw1). fold ns. rewrite E. simpl.
    destruct (mirror_register w1 c (schema s) (builder_name b) t) as (w2 & -> & Hw2). simpl.
    eexists _, _, _. split; [done|]. split; [by rewrite Hw2|]. intros Ht.
    assert (remote_name (with_tables s (<[builder_name b := new_table (builder_name b) t]> (tables_cache s))) (builder_name b) = builder_name b) as Hr.
    { unfold remote_name. simpl. by rewrite lookup_insert_eq. }
    rewrite (get_table_iceberg w2 _ c); [|done|unfold cached_view; simpl; by rewrite lookup_insert_eq].
    rewrite Hr, with_tables_namespace, Hw2, Hw1. fold ns. by rewrite lookup_insert_eq.
  - intros [ct Hct] Hs. unfold drop_table_async. rewrite Hc, Hct. unfold cached_view in Hv. rewrite Hct in Hv. rewrite Hv.
    destruct (remote_drop w c ns n Hs) as (w1 & E & Hw1). fold ns. rewrite E. simpl.
    destruct (mirror_deregister w1 c (schema s) n) as (w2 & r & -> & Hw2). simpl.
    eexists _, _, _. split; [done|]. split; [by rewrite Hw2|].
    assert (remote_name (with_tables s (delete n (tables_cache s))) n = n) as Hr by (unfold remote_name; simpl; by rewrite lookup_delete_eq).
    rewrite (get_table_iceberg w2 _ c); [|done|unfold cached_view; simpl; by rewrite lookup_delete_eq].
    rewrite Hr, with_tables_namespace, Hw2, Hw1. fold ns. by rewrite lookup_delete_eq.
Qed.

(** Dropping a table that is not cached succeeds and leaves it in the catalog: the next read finds it. *)
Theorem drop_uncached_table_survives w s c n t :
  s.(iceberg_catalog) = Some c -> s.(tables_cache) !! n = None -> remote w c !! (s.(iceberg_namespace), n) = Some t ->
  exists w' s', drop_table_async w s n = (Ok (w', None), s') /\ get_table w' s' n = Ok (Some (new_table n t), s').
Proof.
  intros Hc Hn Ht. unfold drop_table_async. rewrite Hc, Hn. simpl.
  destruct (mirror_deregister w c (schema s) n) as (w2 & r & -> & Hw2). simpl. eexists _, _. split; [done|].
  assert (remote_name (with_tables s (delete n (tables_cache s))) n = n) as Hr by (unfold remote_name; simpl; by rewrite lookup_delete_eq).
  rewrite (get_table_iceberg w2 _ c); [|done|unfold cached_view; simpl; by rewrite lookup_delete_eq].
  by rewrite Hr, with_tables_namespace, Hw2, Ht.
Qed.
End iceberg_schemas.

(** ** Spellings of a name *)
Section aliases.
Context `{B : Backend}.

Lemma case_aliases_spec name : (forall a, a ∈ case_aliases name <-> a = name \/ a = to_lower name \/ a = to_upper name) /\ NoDup (case_aliases name).
Proof.
  unfold case_aliases. destruct (foldl_push_elem [name; to_lower name; to_upper name] []) as [He Hn]. split; [|apply Hn, NoDup_nil_2].
  intros a. rewrite He. set_solver.
Qed.

Lemma foldl_insert_lookup {A} (t : A) (l : list string) (m : gmap string A) k :
  foldl (fun m a => <[a := t]> m) m l !! k = if decide (k ∈ l) then Some t else m !! k.
Proof.
  revert m. induction l as [|a l IH]; intros m; simpl; [done|]. rewrite IH. destruct (decide (k ∈ l)).
  - rewrite decide_True by set_solver. done.
  - destruct (decide (a = k)) as [->|Hk]; [by rewrite lookup_insert_eq, decide_True by set_solver|].
    rewrite lookup_insert_ne, decide_False by (done || set_solver). done.
Qed.

(** A table cached under a name of a schema. *)
Definition cached (self : CachingCatalog) (schema_alias table_alias : string) (t : CachingTable) : Prop :=
  exists s, self.(schemas_cache) !! schema_alias = Some s /\ s.(tables_cache) !! table_alias = Some t.

Lemma bootstrap_schema_cached w self ns ins s self' : bootstrap_caching_schema w self ns ins = Ok (s, self') ->
  self'.(schemas_cache) !! ns = Some s /\ (forall k, k <> ns -> self'.(schemas_cache) !! k = self.(schemas_cache) !! k) /\
  (forall s0, self.(schemas_cache) !! ns = Some s0 -> s = s0) /\ (self.(schemas_cache) !! ns = None -> s.(tables_cache) = ∅).
Proof.
  unfold bootstrap_caching_schema. destruct (schemas_cache self !! ns) as [s0|] eqn:E.
  - intros [= <- <-]. split_and!; try done. by intros ? [= <-].
  - destruct (provider_schema_of _ _ _) as [h|]; simpl; [|done]. intros [= <- <-]. simpl. split_and!; try done.
    + by rewrite lookup_insert_eq.
    + intros k Hk. by rewrite lookup_insert_ne.
Qed.

Lemma cache_aliases_cached w ns name t self a self' : cache_aliases w ns name t self a = Ok self' ->
  (forall b, b ∈ case_aliases name -> cached self' a b (new_table name t)) /\
  (forall a' b ct, cached self a' b ct -> a' <> a \/ b ∉ case_aliases name -> cached self' a' b ct) /\
  (forall a' b, a' <> a -> forall ct, cached self' a' b ct <-> cached self a' b ct).
Proof.
  unfold cache_aliases. destruct (bootstrap_caching_schema w self a ns) as [[s self1]|] eqn:E; simpl; [|done]. intros [= <-].
  destruct (bootstrap_schema_cached _ _ _ _ _ _ E) as (H1 & H2 & H3 & H4). split_and!.
  - intros b Hb. eexists. simpl. rewrite lookup_insert_eq. split; [done|]. simpl. rewrite foldl_insert_lookup. by rewrite decide_True.
  - intros a' b ct (s0 & Hs0 & Hct) Hne. destruct (decide (a' = a)) as [->|Hn].
    + destruct Hne as [|Hb]; [done|]. eexists. simpl. rewrite lookup_insert_eq. split; [done|]. simpl.
      rewrite foldl_insert_lookup, decide_False by done. by rewrite (H3 _ Hs0).
    + exists s0. simpl. rewrite lookup_insert_ne, H2 by done. done.
  - intros a' b Hn ct. unfold cached. simpl. rewrite lookup_insert_ne, H2 by done. done.
Qed.

Lemma cache_all_aliases w ns name t l self self' : NoDup l -> try_fold (cache_aliases w ns name t) self l = Ok self' ->
  (forall a b, a ∈ l -> b ∈ case_aliases name -> cached self' a b (new_table name t)) /\
  (forall a b ct, cached self a b ct -> a ∉ l \/ b ∉ case_aliases name -> cached self' a b ct).
Proof.
  intros Hd. revert self. induction Hd as [|a l Ha _ IH]; intros self; simpl; [intros [= <-]; set_solver|].
  destruct (cache_aliases w ns name t self a) as [self1|] eqn:E; simpl; [|done]. intros Hf.
  destruct (cache_aliases_cached _ _ _ _ _ _ _ E) as (C1 & C2 & C3). destruct (IH _ Hf) as [D1 D2]. split.
  - intros a' b Hin Hb. apply elem_of_cons in Hin as [->|Hin]; [|by apply D1]. apply D2; [by apply C1|auto].
  - intros a' b ct Hc Hn. destruct (decide (a' = a)) as [->|Hne].
    + apply D2; [apply C2; [done|]|]; set_solver.
    + apply D2; [apply C2; [done|auto]|]. set_solver.
Qed.

(** A table named at start-up can be read under every spelling: as written, in lower and in upper case,
    of its schema and of its own name; each is the provider's table under its true name, and what was cached
    under other names stays. *)
Theorem bootstrap_table_aliases w self ident self' :
  bootstrap_table w self ident = Ok self' ->
  exists t, (forall a b, a = namespace_of ident \/ a = to_lower (namespace_of ident) \/ a = to_upper (namespace_of ident) ->
                b = snd ident \/ b = to_lower (snd ident) \/ b = to_upper (snd ident) -> cached self' a b (new_table (snd ident) t)) /\
    (forall a b ct, cached self a b ct -> a ∉ case_aliases (namespace_of ident) \/ b ∉ case_aliases (snd ident) -> cached self' a b ct).
Proof.
  unfold bootstrap_table. destruct (bootstrap_caching_schema _ _ _ _) as [[s self1]|] eqn:E; simpl; [|done].
  destruct (provider_table w (schema s) (snd ident)) as [[t|]|]; simpl; try done. intros Hf.
  destruct (case_aliases_spec (namespace_of ident)) as [Ha Hd]. destruct (case_aliases_spec (snd ident)) as [Hb _].
  destruct (cache_all_aliases _ _ _ _ _ _ _ Hd Hf) as [D1 D2]. exists t. split.
  - intros a b Hina Hinb. apply D1; [by apply Ha|by apply Hb].
  - intros a b ct (s0 & Hs0 & Hct) Hn. apply D2; [|done].
    destruct (bootstrap_schema_cached _ _ _ _ _ _ E) as (H1 & H2 & H3 & H4). unfold cached.
    destruct (decide (a = namespace_of ident)) as [->|Hne]; [exists s; split; [done|]; by rewrite (H3 _ Hs0)|].
    exists s0. by rewrite H2.
Qed.
End aliases.

(** ** Refreshing *)

(** Concurrent requests all complete, in some order. *)
Class CompletionLaws `{B : Backend} : Prop := {
  completion_Permutation : forall A (l : list A), completion_order l ≡ₚ l }.

Section refreshing.
Context `{B : Backend} `{!CompletionLaws}.

Lemma fetch_elem w h : exists l, fetch_table_providers w h = Ok l /\
  forall n t, (n, t) ∈ l <-> n ∈ provider_table_names w h /\ provider_table w h n = Ok (Some t).
Proof.
  eexists. split; [done|]. intros n t. rewrite list_elem_of_omap. setoid_rewrite completion_Permutation. setoid_rewrite list_elem_of_fmap. split.
  - intros (x & (k & -> & Hk) & E). destruct (provider_table w h k) as [[t'|]|] eqn:F; simplify_eq/=. done.
  - intros [Hn E]. exists (Some (n, t)). split; [|done]. exists n. by rewrite E.
Qed.

(** The table a refresh caches for a name. *)
Definition fetched_table (w : World) (h : SchemaHandle) (n : string) : option CachingTable :=
  if decide (n ∈ provider_table_names w h)
  then match provider_table w h n with Ok (Some t) => Some (new_with_schema n (provider_schema t) t) | _ => None end
  else None.

Lemma foldl_tables (l : list (string * Table)) (m : gmap string CachingTable) n :
  (forall t t', (n, t) ∈ l -> (n, t') ∈ l -> t = t') ->
  (forall t, (n, t) ∈ l -> foldl (fun m nt => <[fst nt := new_with_schema (fst nt) (provider_schema (snd nt)) (snd nt)]> m) m l !! n =
    Some (new_with_schema n (provider_schema t) t)) /\
  ((forall t, (n, t) ∉ l) -> foldl (fun m nt => <[fst nt := new_with_schema (fst nt) (provider_schema (snd nt)) (snd nt)]> m) m l !! n = m !! n).
Proof.
  revert m. induction l as [|[k t0] l IH]; intros m Hu; simpl; [split; [set_solver|done]|].
  destruct (IH (<[k := new_with_schema k (provider_schema t0) t0]> m)) as [H1 H2]; [set_solver|]. split.
  - intros t Ht. assert ((exists t', (n, t') ∈ l) \/ forall t', (n, t') ∉ l) as [[t' Ht']|Hno].
    { destruct (decide (n ∈ map fst l)) as [([? t'] & -> & Hin)%list_elem_of_fmap|Hno]; [left; by exists t'|right].
      intros t' Hin. apply Hno, list_elem_of_fmap. by exists (n, t'). }
    + rewrite (H1 t' Ht'). assert (t = t') as -> by (apply Hu; set_solver). done.
    + rewrite H2 by naive_solver. apply elem_of_cons in Ht as [[= -> ->]|Ht]; [|naive_solver]. by rewrite lookup_insert_eq.
  - intros Hno. rewrite H2 by set_solver. rewrite lookup_insert_ne; [done|]. intros ->. apply (Hno t0). set_solver.
Qed.

Definition refreshed_schema (w : World) (self : CachingCatalog) (name : string) (h : SchemaHandle) (s : CachingSchema) : Prop :=
  s = with_tables (fresh_schema self name name h) s.(tables_cache) /\ forall n, s.(tables_cache) !! n = fetched_table w h n.

Lemma refresh_schema_spec w self name : exists self', refresh_schema w self name = Ok self' /\
  (forall k, k <> name -> self'.(schemas_cache) !! k = self.(schemas_cache) !! k) /\
  match provider_schema_of w self.(catalog) name with
  | Some h => exists s, self'.(schemas_cache) !! name = Some s /\ refreshed_schema w self name h s
  | None => self' = self
  end /\ with_schemas self' ∅ = with_schemas self ∅.
Proof.
  unfold refresh_schema. destruct (provider_schema_of w (catalog self) name) as [h|]; [|by exists self].
  destruct (fetch_elem w h) as (l & -> & Hl). eexists. split; [done|]. simpl. split; [intros k Hk; by rewrite lookup_insert_ne|].
  split; [|done]. rewrite lookup_insert_eq. eexists. split; [done|]. split; [done|]. intros n. simpl. unfold fetched_table.
  destruct (foldl_tables l ∅ n) as [H1 H2].
  { intros t t' [_ Ht]%Hl [_ Ht']%Hl. congruence. }
  destruct (decide (n ∈ provider_table_names w h)) as [Hn|Hn].
  - destruct (provider_table w h n) as [[t|]|] eqn:E; [apply H1; by apply Hl|rewrite H2; [done|]..];
      intros t [_ Ht]%Hl; congruence.
  - rewrite H2; [done|]. intros t [Ht _]%Hl. done.
Qed.

Lemma refreshed_schema_config w self self' n h s : with_schemas self' ∅ = with_schemas self ∅ ->
  refreshed_schema w self' n h s -> refreshed_schema w self n h s.
Proof.
  intros Hc [Hs Ht]. split; [|done]. assert (catalog_iceberg self' = catalog_iceberg self /\ catalog_config self' = catalog_config self) as [E1 E2]
    by (unfold with_schemas in Hc; split; congruence).
  rewrite Hs. unfold fresh_schema. by rewrite E1, E2.
Qed.

Lemma refresh_schemas_spec w self names : exists self', refresh_schemas w self names = Ok self' /\
  (forall n, n ∉ names -> self'.(schemas_cache) !! n = self.(schemas_cache) !! n) /\
  (forall n, n ∈ names -> match provider_schema_of w self.(catalog) n with
    | Some h => exists s, self'.(schemas_cache) !! n = Some s /\ refreshed_schema w self n h s
    | None => self'.(schemas_cache) !! n = self.(schemas_cache) !! n
    end) /\ with_schemas self' ∅ = with_schemas self ∅.
Proof.
  revert self. induction names as [|n names IH]; intros self; simpl; [exists self; split_and!; set_solver|].
  destruct (refresh_schema_spec w self n) as (self1 & -> & Hk & Hn & Hc). simpl.
  destruct (IH self1) as (self2 & -> & Hk2 & Hn2 & Hc2). exists self2. split; [done|].
  assert (catalog self1 = catalog self) as Hcat by (unfold with_schemas in Hc; congruence). split_and!.
  - intros k Hnot. rewrite Hk2, Hk by set_solver. done.
  - intros k Hin. destruct (decide (k ∈ names)) as [Hk'|Hk'].
    + specialize (Hn2 k Hk'). rewrite Hcat in Hn2. destruct (provider_schema_of w (catalog self) k) as [h|] eqn:E.
      * destruct Hn2 as (s & Hs & Hr). exists s. split; [done|]. by eapply refreshed_schema_config.
      * rewrite Hn2. destruct (decide (k = n)) as [->|]; [|by apply Hk]. rewrite E in Hn. by rewrite Hn.
    + assert (k = n) as -> by set_solver. rewrite Hk2 by done.
      destruct (provider_schema_of w (catalog self) n) as [h|]; [done|]. by rewrite Hn.
  - by rewrite Hc2.
Qed.

(** What a refresh leaves in the cache of a catalog: the listed schemas only, each with the tables the
    provider has now; a schema that is listed but not found is left as it was. *)
Definition refreshed (w : World) (c c' : CachingCatalog) : Prop :=
  with_schemas c' ∅ = with_schemas c ∅ /\
  forall n, if decide (n ∈ provider_schema_names w c.(catalog))
    then match provider_schema_of w c.(catalog) n with
         | Some h => exists s, c'.(schemas_cache) !! n = Some s /\ refreshed_schema w c n h s
         | None => c'.(schemas_cache) !! n = c.(schemas_cache) !! n
         end
    else c'.(schemas_cache) !! n = None.

Lemma refresh_catalog_spec w c : exists c', refresh_catalog w c = Ok c' /\ (if c.(should_refresh) then refreshed w c c' else c' = c).
Proof.
  unfold refresh_catalog. destruct (should_refresh c); [|by exists c]. unfold schema_names. cbn beta iota zeta.
  set (names := sort (provider_schema_names w (catalog c))). set (c1 := with_schemas c (filter _ _)).
  assert (forall n, n ∈ names <-> n ∈ provider_schema_names w (catalog c)) as Hnames.
  { intros n. unfold names, sort. by rewrite merge_sort_Permutation. }
  destruct (refresh_schemas_spec w c1 names) as (c2 & -> & Hk & Hn & Hc). simpl.
  assert (forall n, n ∉ names -> schemas_cache c2 !! n = None) as Hgone.
  { intros n Hnot. rewrite Hk by done. unfold c1. simpl. apply map_lookup_filter_None. right. intros s _. simpl. done. }
  assert (forallb (fun kv => bool_decide (kv.1 ∈ names)) (map_to_list (schemas_cache c2)) = true) as ->.
  { apply forallb_forall. intros [k s] Hks%list_elem_of_In%elem_of_map_to_list. apply bool_decide_eq_true. simpl.
    destruct (decide (k ∈ names)) as [|Hnot]; [done|]. rewrite (Hgone k Hnot) in Hks. done. }
  exists c2. split; [done|]. split; [by rewrite Hc|]. intros n. destruct (decide (n ∈ provider_schema_names w (catalog c))) as [Hin|Hin].
  - specialize (Hn n (proj2 (Hnames n) Hin)). change (catalog c1) with (catalog c) in Hn.
    destruct (provider_schema_of w (catalog c) n) as [h|]; [exact Hn|]. rewrite Hn. unfold c1. simpl.
    destruct (schemas_cache c !! n) as [s|] eqn:E; [|apply map_lookup_filter_None; by left].
    apply map_lookup_filter_Some. split; [done|]. simpl. by apply Hnames.
  - apply Hgone. by rewrite Hnames.
Qed.

Lemma refresh_catalogs_spec w (l : list (string * CachingCatalog)) cs : NoDup (map fst l) ->
  exists cs', refresh_catalogs w l cs = Ok cs' /\
    (forall n c, (n, c) ∈ l -> exists c', cs' !! n = Some c' /\ (if c.(should_refresh) then refreshed w c c' else c' = c)) /\
    (forall n, n ∉ map fst l -> cs' !! n = cs !! n).
Proof.
  revert cs. induction l as [|[n c] l IH]; intros cs Hd; simpl; [exists cs; split_and!; set_solver|].
  apply NoDup_cons in Hd as [Hn Hd]. destruct (refresh_catalog_spec w c) as (c' & -> & Hc'). simpl.
  destruct (IH (<[n := c']> cs) Hd) as (cs' & -> & H1 & H2). exists cs'. split_and!; [done|..].
  - intros n0 c0 Hin. apply elem_of_cons in Hin as [[= -> ->]|Hin]; [|by apply H1]. exists c'. split; [|done]. rewrite H2 by done. by rewrite lookup_insert_eq.
  - intros n0 Hn0. rewrite H2 by set_solver. by rewrite lookup_insert_ne by set_solver.
Qed.

(** A refresh during which nothing else changes the providers or the caches never fails: a table whose provider
    answers with an error is skipped, and no error reaches the caller.  Each catalog that is to be refreshed then
    caches the schemas its provider lists and no others, with the tables the provider has, in whatever order the
    requests complete; the other catalogs do not change. *)
Lemma refresh_skips_errors {Store} w (self : EmbucketCatalogList (Store := Store)) :
  exists self', refresh w self = Ok self' /\
    forall n, match self.(catalogs) !! n with
      | Some c => exists c', self'.(catalogs) !! n = Some c' /\ (if c.(should_refresh) then refreshed w c c' else c' = c)
      | None => self'.(catalogs) !! n = None
      end.
Proof.
  unfold refresh. destruct (refresh_catalogs_spec w (map_to_list self.(catalogs)) self.(catalogs)) as (cs & -> & H1 & H2).
  { apply NoDup_fst_map_to_list. }
  eexists. split; [done|]. intros n. simpl. destruct (catalogs self !! n) as [c|] eqn:E.
  - apply H1. by apply elem_of_map_to_list.
  - rewrite H2; [done|]. intros ([k c] & -> & Hin%elem_of_map_to_list)%list_elem_of_fmap. simpl in E. congruence.
Qed.

(** The schema of a catalog in memory that was dropped is still found, until the schemas are listed. *)
Theorem deregistered_schema_still_cached w w' self name cascade s :
  self.(catalog_iceberg) = None -> self.(schemas_cache) !! name = Some s ->
  provider_deregister_schema w self.(catalog) name cascade = Ok w' -> name ∉ provider_schema_names w' self.(catalog) ->
  exists self', deregister_schema w self name cascade = Ok (w', self') /\ fst (get_schema w' self' name) = Some s /\
    let listed := snd (schema_names w' self') in listed.(schemas_cache) !! name = None.
Proof.
  intros Hi Hs Hd Hn. unfold deregister_schema. rewrite Hi, Hd. simpl. exists self. split; [done|]. unfold get_schema. rewrite Hs.
  split; [done|]. simpl. apply map_lookup_filter_None. right. intros s' _. simpl. unfold sort. by rewrite merge_sort_Permutation.
Qed.

(** An object store is found again under every URL of its scheme, host and port. *)
Lemma store_found {Store} (self : EmbucketCatalogList (Store := Store)) u u' store :
  get_url_key u = get_url_key u' -> get_store (fst (register_store self u store)) u' = Ok store.
Proof. intros E. unfold get_store, register_store. simpl. by rewrite E, lookup_insert_eq. Qed.
End refreshing.

(** ** A backend *)
Module CatalogExamples.

(** The schemas of a provider with their tables (a table: its name and whether it is a view), and the
    tables of an Iceberg catalog. *)
Record ExampleWorld := mkWorld { schemas : gmap string (gmap string (string * bool)); lake : gmap (string * string) (string * bool) }.

Definition tables_of (w : ExampleWorld) (h : string) : gmap string (string * bool) := default ∅ (schemas w !! h).

Definition set_tables (w : ExampleWorld) (h : string) (m : gmap string (string * bool)) : ExampleWorld := mkWorld (<[h := m]> (schemas w)) (lake w).

(** A provider in memory refuses a table that exists; a mirror replaces it. *)
Definition example_backend (in_memory : bool) : Backend := {|
  World := ExampleWorld; SchemaHandle := string; CatalogHandle := unit; IcebergCatalog := unit; Table := string * bool; Builder := string;
  is_view := snd; is_builder _ := false; provider_schema t := [(fst t, 0%nat)];
  provider_schema_names w _ := map fst (map_to_list (schemas w));
  provider_schema_of w _ n := (fun _ => n) <$> schemas w !! n;
  provider_register_schema w _ n _ := Ok (set_tables w n ∅);
  provider_deregister_schema w _ n _ := Ok (mkWorld (delete n (schemas w)) (lake w));
  provider_table_names w h := map fst (map_to_list (tables_of w h));
  provider_table w h n := Ok (tables_of w h !! n);
  provider_register_table w h n t :=
    if in_memory && bool_decide (is_Some (tables_of w h !! n)) then Err (DataFusionOther "exists")
    else Ok (set_tables w h (<[n := t]> (tables_of w h)));
  provider_deregister_table w h n := Ok (set_tables w h (delete n (tables_of w h)), tables_of w h !! n);
  provider_table_exist w h n := bool_decide (is_Some (tables_of w h !! n));
  load_tabular w _ ns n := match lake w !! (ns, n) with Some t => Ok t | None => Err (NotFound n) end;
  build_table w _ ns b := Ok (mkWorld (schemas w) (<[(ns, b) := (b, false)]> (lake w)), (b, false));
  iceberg_drop_table w _ ns n := Ok (mkWorld (schemas w) (delete (ns, n) (lake w)));
  create_namespace w _ _ := Ok w;
  drop_namespace w _ _ := Ok w;
  new_mirror w _ := Ok (w, tt);
  new_mirror_sync w _ := (w, tt);
  mirror_schema_exists w _ n := bool_decide (is_Some (schemas w !! n));
  mirror_register_table w _ ns n := Ok (set_tables w (join "." ns) (<[n := (n, false)]> (tables_of w (join "." ns))));
  identifier_try_new parts := match rev parts with n :: ns => Ok (rev ns, n) | [] => Err (DataFusionOther "empty") end;
  now _ := 0%Z;
  completion_order := @rev |}.

Lemma tables_of_set w h m : tables_of (set_tables w h m) h = m.
Proof. unfold tables_of. simpl. by rewrite lookup_insert_eq. Qed.

#[refine] Instance memory_local : @LocalBackend (example_backend true) := { contents := tables_of }.
Proof.
  - done.
  - done.
  - done.
  - intros w h n t E. simpl in *. rewrite E. simpl. eexists. split; [done|]. apply tables_of_set.
  - intros w h n t [t' E]. simpl in *. rewrite E. by eexists.
  - intros w h n. simpl. eexists. split; [done|]. apply tables_of_set.
Defined.

#[refine] Instance mirror_iceberg : @IcebergBackend (example_backend false) := { remote w _ := lake w; builder_name b := b }.
Proof.
  - intros w c ns n. simpl in *. destruct (lake w !! (ns, n)); [done|by eexists].
  - intros w c ns b _. by eexists _, _.
  - intros w c ns n _. by eexists.
  - intros. by eexists.
  - intros. by eexists _, _.
Defined.

#[export] Instance example_completion b : @CompletionLaws (example_backend b).
Proof. split. intros A l. simpl. symmetry. apply Permutation_rev. Qed.

Definition config : CatalogConfig := mkConfig 30 30.
Definition memory_world : ExampleWorld := mkWorld {["public" := {["t" := ("t", false)]}]} ∅.
Definition memory_schema : @CachingSchema (example_backend true) := @mkSchema (example_backend true) "public" None "public" "public" ∅ config.

Lemma local_schema_refines_map_witness :
  @local_ok (example_backend true) _ memory_world memory_schema /\
  (exists w' r s', @drop_table_async (example_backend true) memory_world memory_schema "t" = (Ok (w', r), s') /\
     @local_ok (example_backend true) _ w' s' /\
     @visible (example_backend true) _ w' s' = delete "t" (@visible (example_backend true) _ memory_world memory_schema)).
Proof.
  assert (@local_ok (example_backend true) _ memory_world memory_schema) as Hok by (split; [done|intros n t E; discriminate E]).
  split; [exact Hok|]. exact (proj1 (proj2 (proj2 (proj2 (local_schema_refines_map (B := example_backend true) memory_world memory_schema "t" ("t", false) Hok))))).
Defined.

Definition lake_world : ExampleWorld := mkWorld ∅ {[("s", "t") := ("t", false)]}.
Definition lake_schema (cached : bool) : @CachingSchema (example_backend false) :=
  @mkSchema (example_backend false) "s" (Some tt) "s" "s"
    (if cached then {["t" := @new_table (example_backend false) "t" ("t", false)]} else ∅) config.

Lemma iceberg_schema_reads_through_witness :
  @cached_view (example_backend false) (lake_schema true) "t" = false /\
  (exists w' r s', @drop_table_async (example_backend false) lake_world (lake_schema true) "t" = (Ok (w', r), s') /\
     @get_table (example_backend false) w' s' "t" = Ok (None, s')).
Proof.
  assert (@cached_view (example_backend false) (lake_schema true) "t" = false) as Hv by (vm_compute; reflexivity).
  split; [exact Hv|].
  destruct (proj2 (proj2 (iceberg_schema_reads_through (B := example_backend false) lake_world (lake_schema true) tt "t" "t" eq_refl Hv)))
    as (w' & r & s' & E & _ & G); [eexists; reflexivity|eexists; reflexivity|].
  exists w', r, s'. split; assumption.
Defined.

(** DROP TABLE of a table that was not read before: it succeeds and the table stays. *)
Example drop_uncached_table_survives_example :
  exists w' s', @drop_table_async (example_backend false) lake_world (lake_schema false) "t" = (Ok (w', None), s') /\
    @get_table (example_backend false) w' s' "t" = Ok (Some (@new_table (example_backend false) "t" ("t", false)), s').
Proof. by apply (drop_uncached_table_survives (B := example_backend false) lake_world (lake_schema false) tt "t" ("t", false)). Qed.

Definition bootstrap_world : ExampleWorld :=
  mkWorld {["Sales" := {["Orders" := ("Orders", false)]}; "sales" := ∅; "SALES" := ∅]} ∅.
Definition lazy_catalog : @CachingCatalog (example_backend false) := @new_catalog (example_backend false) tt "lake" (Some tt) config.

Definition bootstrapped : @CachingCatalog (example_backend false) :=
  match @bootstrap_table (example_backend false) bootstrap_world lazy_catalog (["Sales"], "Orders") with Ok c => c | Err _ => lazy_catalog end.

Lemma bootstrap_table_aliases_witness :
  @bootstrap_table (example_backend false) bootstrap_world lazy_catalog (["Sales"], "Orders") = Ok bootstrapped /\
  exists t, @cached (example_backend false) bootstrapped "SALES" "orders" (@new_table (example_backend false) "Orders" t).
Proof.
  assert (@bootstrap_table (example_backend false) bootstrap_world lazy_catalog (["Sales"], "Orders") = Ok bootstrapped) as E
    by vm_cast_no_check (@eq_refl (result Error (@CachingCatalog (example_backend false))) (Ok bootstrapped)).
  split; [exact E|]. destruct (bootstrap_table_aliases (B := example_backend false) _ _ _ _ E) as (t & Ha & _). exists t. apply Ha; [right; right|right; left]; reflexivity.
Defined.

Definition schema_catalog : @CachingCatalog (example_backend true) :=
  @with_schemas (example_backend true) (@new_catalog (example_backend true) tt "memory" None config) {["public" := memory_schema]}.

(** DROP SCHEMA in a catalog in memory: the schema is still found in the cache. *)
Example deregistered_schema_example :
  exists self', @deregister_schema (example_backend true) memory_world schema_catalog "public" true = Ok (mkWorld ∅ ∅, self') /\
    fst (@get_schema (example_backend true) (mkWorld ∅ ∅) self' "public") = Some memory_schema /\
    @schemas_cache (example_backend true) (snd (@schema_names (example_backend true) (mkWorld ∅ ∅) self')) !! "public" = None.
Proof.
  apply (deregistered_schema_still_cached (B := example_backend true)); [reflexivity|reflexivity|reflexivity|]. apply (bool_decide_eq_false_1 _). reflexivity.
Qed.

(** The identifiers of the settings: fewer than two parts are ignored. *)
Example bootstrap_identifiers :
  @parse_bootstrap_table_identifier (example_backend false) " a . b..c " = Ok (Some (["a"; "b"], "c")) /\
  @parse_bootstrap_table_identifier (example_backend false) "orders" = Ok None.
Proof. done. Qed.
End CatalogExamples.
