(* ===== verification/RestSessions.v ===== *)
(** * Requests and their sessions

    [crates/api-snowflake-rest-sessions/src]: the headers of a request, the tokens in them
    ([session.rs], [helpers.rs]), the session a request belongs to ([TokenizedSession] as an extractor)
    and the cookie layer ([layer.rs]).

    Headers are a list of names, in lower case as [HeaderName] keeps them, and values.  JSON web tokens
    are the class [Jwt]: what [jsonwebtoken] decodes and encodes under a [Validation]; [Env] is the
    environment of the process and [default_hash] its hasher.  The execution service is that of
    [ExecutionService]; the clock is an argument. *)

From Stdlib Require Import ZArith Lia Ascii String.
From stdpp Require Import base option list gmap strings sorting.
From S2P Require Import Prelude Utf8 JsonValue ExecutorErrors RunningQueries ExecutionService.

Open Scope string_scope.
Open Scope rust_scope.

#[local] Arguments String.append : simpl nomatch.

(** ** Headers *)
Notation HeaderMap := (list (string * string)).

(** [HeaderValue::to_str]: visible ASCII, spaces and tabs. *)
Definition visible_char (c : ascii) : bool :=
  let n := nat_of_ascii c in ((32 <=? n) && (n <? 127))%nat || (n =? 9)%nat.

Definition to_str (v : string) : option string := if str_all visible_char v then Some v else None.

Definition header_get (headers : HeaderMap) (name : string) : option string :=
  snd <$> List.find (fun h => String.eqb (fst h) name) headers.

Definition header_get_all (headers : HeaderMap) (name : string) : list string :=
  map snd (List.filter (fun h => String.eqb (fst h) name) headers).

Definition non_empty (s : string) : option string := if String.eqb s "" then None else Some s.

Definition header_value (headers : HeaderMap) (name : string) : option string :=
  v ← header_get headers name; v ← to_str v; non_empty (trim v).

Definition REDACTED_HEADER_VALUE : string := "<redacted>".

Definition is_sensitive_header (name : string) : bool :=
  let name := to_ascii_lowercase name in
  String.eqb name "authorization" || String.eqb name "proxy-authorization" || String.eqb name "cookie"
  || String.eqb name "set-cookie" || contains "token" name.

(** The map that is printed, before [format!]. *)
Definition redacted_value (h : string * string) : string :=
  if is_sensitive_header (fst h) then REDACTED_HEADER_VALUE else default "<non-utf8>" (to_str (snd h)).

Definition redacted (headers : HeaderMap) : gmap string (list string) :=
  foldl (fun m h => <[fst h := (default [] (m !! fst h) ++ [redacted_value h])%list]> m) ∅ headers.

(** *** The authorization header *)
Definition quote : ascii := "034"%char.

Definition ascii_between (lo hi : nat) (c : ascii) : bool := let n := nat_of_ascii c in (lo <=? n)%nat && (n <=? hi)%nat.

(** [[A-Za-z0-9_\-]] and [[0-9a-fA-F]] *)
Definition token_char (c : ascii) : bool :=
  ascii_between 65 90 c || ascii_between 97 122 c || ascii_between 48 57 c || Ascii.eqb c "_" || Ascii.eqb c "-".
Definition hex_char (c : ascii) : bool := ascii_between 48 57 c || ascii_between 97 102 c || ascii_between 65 70 c.

(** The characters of a class at the start, as many as there are, and the rest. *)
Fixpoint span (p : ascii -> bool) (s : string) : string * string :=
  match s with
  | String c s' => if p c then let '(a, r) := span p s' in (String c a, r) else ("", s)
  | EmptyString => ("", "")
  end.

Definition span1 (p : ascii -> bool) (s : string) : option (string * string) :=
  match span p s with ("", _) => None | r => Some r end.

Definition expect (c : ascii) (s : string) : option string :=
  match s with String d s' => if Ascii.eqb c d then Some s' else None | EmptyString => None end.

(** Three parts with dots between them: no class holds a dot, so there is one way to match. *)
Definition match_jwt (s : string) : option (string * string) :=
  '(a, s) ← span1 token_char s; s ← expect "." s; '(b, s) ← span1 token_char s; s ← expect "." s; '(c, s) ← span1 token_char s;
  Some (a ++ "." ++ b ++ "." ++ c, s).

Fixpoint take_hex (n : nat) (s : string) : option (string * string) :=
  match n, s with
  | O, _ => Some ("", s)
  | S n, String c s => if hex_char c then '(a, r) ← take_hex n s; Some (String c a, r) else None
  | S _, EmptyString => None
  end.

Definition match_uuid (s : string) : option (string * string) :=
  '(a, s) ← take_hex 8 s; s ← expect "-" s; '(b, s) ← take_hex 4 s; s ← expect "-" s; '(c, s) ← take_hex 4 s; s ← expect "-" s;
  '(d, s) ← take_hex 4 s; s ← expect "-" s; '(e, s) ← take_hex 12 s;
  Some (a ++ "-" ++ b ++ "-" ++ c ++ "-" ++ d ++ "-" ++ e, s).

Definition closed (r : option (string * string)) : option string := '(t, s) ← r; _ ← expect quote s; Some t.

(** The pattern at the start of a text; the first alternative that ends with a quote. *)
Definition token_at (s : string) : option string :=
  s ← strip_prefix ("Snowflake Token=" ++ String quote "") s;
  match closed (match_jwt s) with Some t => Some t | None => closed (match_uuid s) end.

(** [Regex::captures]: the leftmost match. *)
Fixpoint find_token (s : string) : option string :=
  match token_at s, s with
  | Some t, _ => Some t
  | None, String _ s => find_token s
  | None, EmptyString => None
  end.

Definition extract_token_from_header_value (value : string) : option string := auth ← to_str value; find_token auth.

Definition extract_token_from_auth (headers : HeaderMap) : option string :=
  v ← header_get headers "authorization"; extract_token_from_header_value v.

(** *** Cookies *)
Definition SESSION_ID_COOKIE_NAME : string := "session_id".

Definition cookie_parts (cookie : string) : option (string * string) :=
  match split (trim cookie) "=" with name :: value :: _ => Some (name, value) | _ => None end.

Definition cookies_from_header (headers : HeaderMap) (header_name : string) : gmap string string :=
  foldl (fun m kv => <[kv.1 := kv.2]> m) ∅
    (omap cookie_parts (concat (map (fun v => split v ";") (omap to_str (header_get_all headers header_name))))).

Definition extract_token_from_cookie (headers : HeaderMap) : option string :=
  cookies_from_header headers "cookie" !! SESSION_ID_COOKIE_NAME.

(** ** Sessions *)

(** [executor::models::SessionMetadata] *)
Inductive SessionMetadataAttr := UserName | Warehouse | Database | Schema | AccountName | ClientAppId | ClientAppVersion.

Definition attr_name (a : SessionMetadataAttr) : string :=
  match a with
  | UserName => "UserName" | Warehouse => "Warehouse" | Database => "Database" | Schema => "Schema"
  | AccountName => "AccountName" | ClientAppId => "ClientAppId" | ClientAppVersion => "ClientAppVersion"
  end.

Notation SessionMetadata := (gmap string string).

Definition set_attr (m : SessionMetadata) (a : SessionMetadataAttr) (value : string) : SessionMetadata := <[attr_name a := value]> m.
Definition attr (m : SessionMetadata) (a : SessionMetadataAttr) : option string := m !! attr_name a.

Record TokenizedSession := mkTokenized { session_id : string; metadata : SessionMetadata }.

Definition new_tokenized (id : string) : TokenizedSession := mkTokenized id ∅.
Definition with_metadata (self : TokenizedSession) (m : SessionMetadata) : TokenizedSession := mkTokenized self.(session_id) m.

(** ** Tokens *)

(** The claims of the server's own tokens. *)
Record Claims := mkClaims { sub : string; aud : string; iat : Z; exp : Z; session : TokenizedSession }.

Inductive JwtAudience := One (aud : string) | Many (audiences : list string).

Record SpcsCallerTokenClaims := mkCaller {
  token_type : option string;
  caller_aud : option JwtAudience;
  iss : option string;
  call_context : option string;
  caller_sub : option string }.

(** [jsonwebtoken::Validation]: the audience that is required, if any, and whether the signature counts. *)
Record Validation := mkValidation {
  leeway : Z; validate_aud : bool; audience : option (list string); required_spec_claims : list string; check_signature : bool }.

(** [Validation::new(Algorithm::HS256)], the default. *)
Definition new_validation : Validation := mkValidation 60 true None ["exp"] true.
Definition set_audience (v : Validation) (audience : list string) : Validation :=
  mkValidation v.(leeway) v.(validate_aud) (Some audience) v.(required_spec_claims) v.(check_signature).
Definition set_required_spec_claims (v : Validation) (required : list string) : Validation :=
  mkValidation v.(leeway) v.(validate_aud) v.(audience) required v.(check_signature).
Definition set_leeway (v : Validation) (leeway : Z) : Validation :=
  mkValidation leeway v.(validate_aud) v.(audience) v.(required_spec_claims) v.(check_signature).
Definition insecure (v : Validation) : Validation := mkValidation v.(leeway) false v.(audience) v.(required_spec_claims) false.

Class Jwt := {
  JwtError : Type;
  decode : Z -> string -> string -> Validation -> result JwtError Claims;
  decode_caller : Z -> string -> string -> Validation -> result JwtError SpcsCallerTokenClaims;
  encode : Claims -> string -> result JwtError string }.

Class Process := {
  env : string -> option string;
  (** [DefaultHasher] over the strings that are hashed, in order. *)
  default_hash : list string -> Z }.

(** [session_error::Error] *)
Inductive SessionError {J : Jwt} :=
| ResponseHeader
| SetCookie
| SessionExecution (e : Error)
| BadSessionToken (e : JwtError)
| MissingToken
| MissingHost
| ExtensionRejection.

Definition session_status `{J : Jwt} (e : SessionError) : Z :=
  match e with BadSessionToken _ | MissingToken | MissingHost | ExtensionRejection => 401 | _ => 500 end.

Section sessions.
Context {J : Jwt} {P : Process}.

Definition jwt_claims (now : Z) (username audience : string) (expiration : Z) (s : TokenizedSession) : Claims :=
  mkClaims username audience now (now + expiration) s.

Definition get_claims_validate_jwt_token (now : Z) (token audience jwt_secret : string) : result JwtError Claims :=
  decode now token jwt_secret (set_required_spec_claims (set_audience (set_leeway new_validation 5) [audience]) ["exp"; "aud"]).

Definition create_jwt (claims : Claims) (jwt_secret : string) : result JwtError string := encode claims jwt_secret.

Definition ensure_jwt_secret_is_valid (jwt_secret : string) : option string := non_empty jwt_secret.

(** *** Callers of Snowpark Container Services *)
Definition SPCS_CURRENT_USER_HEADER : string := "sf-context-current-user".
Definition SPCS_CURRENT_ACCOUNT_HEADER : string := "sf-context-current-account".
Definition SPCS_CURRENT_USER_TOKEN_HEADER : string := "sf-context-current-user-token".

Definition audience_contains (self : JwtAudience) (expected : string) : bool :=
  match self with One aud => String.eqb aud expected | Many audiences => existsb (fun aud => String.eqb aud expected) audiences end.

Definition canonical (self : JwtAudience) : string :=
  match self with One aud => aud | Many audiences => join "," (merge_sort str_le audiences) end.

(** [str::split_once] with a character *)
Fixpoint split_once (c : ascii) (s : string) : option (string * string) :=
  match s with
  | EmptyString => None
  | String d s' => if Ascii.eqb c d then Some ("", s') else '(a, b) ← split_once c s'; Some (String d a, b)
  end.

Definition before (c : ascii) (s : string) : string := match split_once c s with Some (a, _) => a | None => s end.

Definition eq_ignore_case (a b : string) : bool := String.eqb (to_ascii_lowercase a) (to_ascii_lowercase b).

Definition normalized_url_host (value : string) : option string :=
  let value := trim value in
  let value := match strip_prefix "https://" value with
               | Some v => v
               | None => default value (strip_prefix "http://" value)
               end in
  let value := before "/" value in
  let value := trim_end "." value in
  non_empty (before ":" value).

Definition issuer_matches (issuer expected_host : string) : bool :=
  match normalized_url_host issuer, normalized_url_host expected_host with
  | Some issuer_host, Some expected_host => eq_ignore_case issuer_host expected_host
  | _, _ => false
  end.

Definition spcs_caller_issuer_matches (claims : SpcsCallerTokenClaims) : bool :=
  match (match env "SNOWFLAKE_ISSUER_HOST" with Some h => Some h | None => env "SNOWFLAKE_HOST" end) with
  | None => true
  | Some expected_issuer => match claims.(iss) with Some iss => issuer_matches iss expected_issuer | None => false end
  end.

(** A host without a port is taken as it is, with its dots at the end. *)
Definition normalized_host (host : string) : string :=
  match split_once ":" (trim_end "." host) with Some (name, _) => name | None => host end.

Definition spcs_caller_audience_matches (claims : SpcsCallerTokenClaims) (headers : HeaderMap) : bool :=
  match header_value headers "host" with
  | None => true
  | Some host =>
      let normalized_host := normalized_host host in
      let endpoint_id := before "." normalized_host in
      match claims.(caller_aud) with
      | Some aud => audience_contains aud normalized_host || audience_contains aud endpoint_id
      | None => false
      end
  end.

(** The subject need not be the user. *)
Definition spcs_caller_subject_matches (claims : SpcsCallerTokenClaims) (user : string) : bool :=
  match (sub ← claims.(caller_sub); non_empty (trim sub)) with Some _ => true | None => false end.

Definition spcs_caller_token_claims_match (claims : SpcsCallerTokenClaims) (user : string) (headers : HeaderMap) : bool :=
  if negb (bool_decide (claims.(token_type) = Some "SCT")) then false
  else if negb (bool_decide (claims.(call_context) = Some "CALLER")) then false
  else spcs_caller_subject_matches claims user && spcs_caller_audience_matches claims headers && spcs_caller_issuer_matches claims.

Definition validated_spcs_caller_token_claims (now : Z) (token user : string) (headers : HeaderMap) : option SpcsCallerTokenClaims :=
  match decode_caller now token "" (set_required_spec_claims (insecure new_validation) ["exp"; "aud"; "iss"; "sub"]) with
  | Err _ => None
  | Ok claims => if spcs_caller_token_claims_match claims user headers then Some claims else None
  end.

Definition hex_digit (d : Z) : ascii := ascii_of_nat (Z.to_nat (if Z.ltb d 10 then 48 + d else 87 + d)).

(** [n] hexadecimal digits *)
Fixpoint hex (n : nat) (v : Z) : string :=
  match n with O => "" | S n => (hex n (v / 16)%Z ++ String (hex_digit (v mod 16)%Z) "") end.

(** What is hashed of a caller, and the names of its session. *)
Definition spcs_identity (now : Z) (headers : HeaderMap) (user account : string) : option (list string) :=
  match header_value headers SPCS_CURRENT_USER_TOKEN_HEADER with
  | Some token =>
      claims ← validated_spcs_caller_token_claims now token user headers;
      Some ["sct"; default "" claims.(iss); default "" (canonical <$> claims.(caller_aud)); default user claims.(caller_sub); account]
  | None => Some ["user"; account; user]
  end.

Definition spcs_ingress_session_from_headers (now : Z) (headers : HeaderMap) : option TokenizedSession :=
  user ← header_value headers SPCS_CURRENT_USER_HEADER;
  let account := default "" (header_value headers SPCS_CURRENT_ACCOUNT_HEADER) in
  identity ← spcs_identity now headers user account;
  let id := "spcs-" ++ hex 16 (default_hash identity) in
  let m := set_attr ∅ UserName user in
  let m := if String.eqb account "" then m else set_attr m AccountName account in
  Some (with_metadata (new_tokenized id) m).

(** ** The session of a request *)

(** What the extractors see of a request: its headers, and the session a layer put into its extensions. *)
Record Parts := mkParts { headers : HeaderMap; extension : option TokenizedSession }.

Definition with_extension (req : Parts) (s : TokenizedSession) : Parts := mkParts req.(headers) (Some s).

(** [Host] as an extractor *)
Definition host_of (req : Parts) : result SessionError string :=
  ok_or (h ← header_get req.(headers) "host"; to_str h) MissingHost.

Context {R QueryResult : Type} {ops : RunningQueries R}.
Notation svc := (CoreExecutionService R QueryResult).

(** Building a [UserSession] can fail. *)
Context (build_session : string -> result Error unit).

(** [ExecutionService::create_session] with the errors of the construction. *)
Definition create_user_session (now : Z) (id : string) (s : svc) : result Error svc :=
  match df_sessions s !! id with
  | Some _ => Ok s
  | None => let? _ := build_session id in Ok (create_session now id s)
  end.

Definition get_or_create_session (now : Z) (ts : TokenizedSession) (s : svc) : result SessionError (TokenizedSession * svc) :=
  let '(found, s) := update_session_expiry now ts.(session_id) s in
  if found then Ok (ts, s)
  else match create_user_session now ts.(session_id) s with
       | Ok s => Ok (ts, s)
       | Err e => Err (SessionExecution e)
       end.

(** What a state says to the extractor: [JwtSecret] and [TrustedSpcsIngress]. *)
Record SessionConfig := mkSessionConfig { jwt_secret : string; trust_spcs_ingress : bool }.

Definition trusted_session (now : Z) (cfg : SessionConfig) (headers : HeaderMap) : option TokenizedSession :=
  if cfg.(trust_spcs_ingress) then spcs_ingress_session_from_headers now headers else None.

Definition located_session (now : Z) (cfg : SessionConfig) (req : Parts) : result SessionError TokenizedSession :=
  match trusted_session now cfg req.(headers) with
  | Some ts => Ok ts
  | None =>
      match extract_token_from_auth req.(headers) with
      | Some token =>
          let? host := host_of req in
          match get_claims_validate_jwt_token now token host cfg.(jwt_secret) with
          | Ok claims => Ok claims.(session)
          | Err e => Err (BadSessionToken e)
          end
      | None => ok_or req.(extension) MissingToken
      end
  end.

(** [TokenizedSession::from_request_parts] *)
Definition from_request_parts (now : Z) (cfg : SessionConfig) (req : Parts) (s : svc) : result SessionError (TokenizedSession * svc) :=
  let? ts := located_session now cfg req in
  get_or_create_session now ts s.

(** *** The cookie layer

    [next] is the rest of the request; a response is its headers and whatever else it holds.
    [render_cookie] is the text of a cookie, or none when it cannot be a header. *)
Context {Body : Type} (render_cookie : string -> string -> option string).

Record Response := mkResponse { response_headers : HeaderMap; response_body : Body }.

(** [HeaderMap::try_insert] replaces the values of a name. *)
Definition header_insert (hs : HeaderMap) (name value : string) : HeaderMap :=
  (List.filter (fun h => negb (String.eqb (fst h) name)) hs ++ [(name, value)])%list.

Definition set_headers_in_flight (hs : HeaderMap) (header_name name token : string) : result SessionError HeaderMap :=
  let? value := ok_or (render_cookie name token) ResponseHeader in
  Ok (header_insert hs header_name value).

(** A new session id, [uuid], is propagated and set as a cookie. *)
Definition new_cookie (uuid : string) (req : Parts) (next : Parts -> svc -> Response * svc) (s : svc) : result SessionError Response * svc :=
  let '(res, s) := next (with_extension req (new_tokenized uuid)) s in
  (let? hs := set_headers_in_flight res.(response_headers) "set-cookie" SESSION_ID_COOKIE_NAME uuid in
   Ok (mkResponse hs res.(response_body)), s).

Definition propagate_session_cookie (uuid : string) (req : Parts) (next : Parts -> svc -> Response * svc) (s : svc) :
    result SessionError Response * svc :=
  match extract_token_from_cookie req.(headers) with
  | Some token =>
      if negb (session_exists token s) then new_cookie uuid req next s
      else let '(res, s) := next (with_extension req (new_tokenized token)) s in (Ok res, s)
  | None => new_cookie uuid req next s
  end.

(** [SessionStore::continuously_delete_expired]: a sweep at each tick, in the order of the ticks. *)
Definition continuously_delete_expired (ticks : list Z) (s : svc) : svc := foldl (fun s now => delete_expired_sessions now s) s ticks.
End sessions.

(** ** Redaction *)

Lemma redacted_values_app hs (m : gmap string (list string)) n : (foldl (fun m h => <[fst h := (default [] (m !! fst h) ++ [redacted_value h])%list]> m) m hs) !! n =
  match map redacted_value (List.filter (fun h => String.eqb (fst h) n) hs) with
  | [] => m !! n
  | vs => Some (default [] (m !! n) ++ vs)%list
  end.
Proof.
  revert m. induction hs as [|h hs IH]; intros m; simpl; [done|]. rewrite IH. destruct (String.eqb_spec (fst h) n) as [E|E].
  - rewrite E, lookup_insert_eq. simpl. destruct (map redacted_value _); [done|]. by rewrite <- app_assoc.
  - by rewrite lookup_insert_ne.
Qed.

(** What is logged of the headers depends on the values of the sensitive ones in no way: two requests
    that differ there print the same, and every value of such a header prints as the placeholder. *)
Theorem redaction_hides hs hs' :
  Forall2 (fun h h' => fst h = fst h' /\ (is_sensitive_header (fst h) = false -> snd h = snd h')) hs hs' ->
  redacted hs = redacted hs' /\
  forall n vs, redacted hs !! n = Some vs -> is_sensitive_header n = true -> Forall (fun v => v = REDACTED_HEADER_VALUE) vs.
Proof.
  intros Hf. split.
  - unfold redacted. generalize (∅ : gmap string (list string)) as m.
    induction Hf as [|h h' hs hs' [Hn Hv] _ IH]; intros m; [done|]. simpl. rewrite IH, Hn. f_equal.
    unfold redacted_value. rewrite <- Hn. destruct (is_sensitive_header (fst h)); [done|]. by rewrite Hv.
  - clear Hf. intros n vs Hl Hs. unfold redacted in Hl. rewrite redacted_values_app, lookup_empty in Hl.
    assert (Forall (fun v => v = REDACTED_HEADER_VALUE) (map redacted_value (List.filter (fun h => String.eqb (fst h) n) hs))) as Ha.
    { apply Forall_map, Forall_forall. intros h [Hn _]%list_elem_of_In%filter_In%and_comm. apply String.eqb_eq in Hn.
      unfold compose, redacted_value. by rewrite Hn, Hs. }
    destruct (map redacted_value _) as [|v vs']; [done|]. simpl in Hl. injection Hl as <-. exact Ha.
Qed.

(** ** Tokens in the authorization header *)
Definition jwt_shape (t : string) : Prop :=
  exists a b c, t = a ++ "." ++ b ++ "." ++ c /\ a <> "" /\ b <> "" /\ c <> "" /\
    str_all token_char a = true /\ str_all token_char b = true /\ str_all token_char c = true.

Definition token_header (t : string) : string := "Snowflake Token=" ++ String quote "" ++ t ++ String quote "".

Lemma span_all p a c r : str_all p a = true -> p c = false -> span p (a ++ String c r) = (a, String c r).
Proof.
  intros Ha Hc. induction a as [|d a IH]; cbn [String.append span str_all] in *; [by rewrite Hc|].
  apply andb_true_iff in Ha as [-> Ha]. by rewrite IH.
Qed.

Lemma span1_all p a c r : a <> "" -> str_all p a = true -> p c = false -> span1 p (a ++ String c r) = Some (a, String c r).
Proof. intros Hne Ha Hc. unfold span1. rewrite span_all by done. by destruct a. Qed.

Lemma span_spec p s a r : span p s = (a, r) -> s = a ++ r /\ str_all p a = true.
Proof.
  revert a r. induction s as [|c s IH]; intros a r; cbn [span].
  - intros [= <- <-]. done.
  - destruct (p c) eqn:Ec; [|intros [= <- <-]; done]. destruct (span p s) as [a' r'] eqn:E. intros [= <- <-].
    destruct (IH a' r' eq_refl) as [-> Ha]. cbn [String.append str_all]. by rewrite Ec.
Qed.

Lemma span1_spec p s a r : span1 p s = Some (a, r) -> s = a ++ r /\ a <> "" /\ str_all p a = true.
Proof.
  unfold span1. destruct (span p s) as [a' r'] eqn:E. apply span_spec in E as [-> Ha]. destruct a'; [done|]. by intros [= <- <-].
Qed.

Lemma expect_spec c s r : expect c s = Some r -> s = String c r.
Proof. destruct s as [|d s]; simpl; [done|]. destruct (Ascii.eqb_spec c d) as [->|]; [|done]. by intros [= ->]. Qed.

Lemma match_jwt_shape t r : jwt_shape t -> match_jwt (t ++ String quote r) = Some (t, String quote r).
Proof.
  intros (a & b & c & -> & Ha & Hb & Hc & Pa & Pb & Pc). unfold match_jwt.
  repeat (rewrite ?string_app_assoc; cbn [String.append]).
  rewrite (span1_all token_char a "." _ Ha Pa eq_refl). cbn. rewrite (span1_all token_char b "." _ Hb Pb eq_refl). cbn.
  by rewrite (span1_all token_char c quote _ Hc Pc eq_refl).
Qed.

Lemma match_jwt_sound s t r : match_jwt s = Some (t, r) -> s = t ++ r /\ jwt_shape t.
Proof.
  unfold match_jwt. destruct (span1 token_char s) as [[a s1]|] eqn:Ea; cbn; [|done]. apply span1_spec in Ea as (-> & Na & Pa).
  destruct (expect "." s1) as [s2|] eqn:E1; cbn; [|done]. apply expect_spec in E1 as ->.
  destruct (span1 token_char s2) as [[b s3]|] eqn:Eb; cbn; [|done]. apply span1_spec in Eb as (-> & Nb & Pb).
  destruct (expect "." s3) as [s4|] eqn:E2; cbn; [|done]. apply expect_spec in E2 as ->.
  destruct (span1 token_char s4) as [[c s5]|] eqn:Ec; cbn; [|done]. apply span1_spec in Ec as (-> & Nc & Pc).
  intros [= <- <-]. split; [|by exists a, b, c]. repeat (rewrite ?string_app_assoc; cbn [String.append]). done.
Qed.

Lemma take_hex_spec n s a r : take_hex n s = Some (a, r) -> s = a ++ r /\ str_all hex_char a = true /\ String.length a = n.
Proof.
  revert s a r. induction n as [|n IH]; intros s a r; cbn [take_hex]; [by intros [= <- <-]|].
  destruct s as [|c s]; [done|]. destruct (hex_char c) eqn:Ec; [|done]. destruct (take_hex n s) as [[a' r']|] eqn:E; cbn; [|done].
  intros [= <- <-]. destruct (IH _ _ _ E) as (-> & Ha & Hl). cbn [String.append str_all String.length]. by rewrite Ec, Hl.
Qed.

(** Hexadecimal digits and dashes *)
Definition uuid_char (c : ascii) : bool := hex_char c || Ascii.eqb c "-".

Lemma match_uuid_sound s t r : match_uuid s = Some (t, r) -> s = t ++ r /\ str_all uuid_char t = true /\ String.length t = 36%nat.
Proof.
  unfold match_uuid. destruct (take_hex 8 s) as [[a s1]|] eqn:Ea; cbn [mbind option_bind]; [|done]. apply take_hex_spec in Ea as (-> & Pa & La).
  destruct (expect "-" s1) as [s2|] eqn:E1; cbn [mbind option_bind]; [|done]. apply expect_spec in E1 as ->.
  destruct (take_hex 4 s2) as [[b s3]|] eqn:Eb; cbn [mbind option_bind]; [|done]. apply take_hex_spec in Eb as (-> & Pb & Lb).
  destruct (expect "-" s3) as [s4|] eqn:E2; cbn [mbind option_bind]; [|done]. apply expect_spec in E2 as ->.
  destruct (take_hex 4 s4) as [[c s5]|] eqn:Ec; cbn [mbind option_bind]; [|done]. apply take_hex_spec in Ec as (-> & Pc & Lc).
  destruct (expect "-" s5) as [s6|] eqn:E3; cbn [mbind option_bind]; [|done]. apply expect_spec in E3 as ->.
  destruct (take_hex 4 s6) as [[d s7]|] eqn:Ed; cbn [mbind option_bind]; [|done]. apply take_hex_spec in Ed as (-> & Pd & Ld).
  destruct (expect "-" s7) as [s8|] eqn:E4; cbn [mbind option_bind]; [|done]. apply expect_spec in E4 as ->.
  destruct (take_hex 12 s8) as [[e s9]|] eqn:Ee; cbn [mbind option_bind]; [|done]. apply take_hex_spec in Ee as (-> & Pe & Le).
  intros [= <- <-]. split; [|split].
  - repeat (rewrite ?string_app_assoc; cbn [String.append]). done.
  - assert (forall x, str_all hex_char x = true -> str_all uuid_char x = true) as Hu.
    { intros x. apply str_all_impl. intros y Hy. unfold uuid_char. by rewrite Hy. }
    repeat (rewrite ?str_all_app; cbn [String.append str_all]). rewrite (Hu a), (Hu b), (Hu c), (Hu d), (Hu e) by done. done.
  - repeat (rewrite ?string_length_app; cbn [String.append String.length]). rewrite La, Lb, Lc, Ld, Le. done.
Qed.

Lemma token_at_sound s t : token_at s = Some t ->
  (exists r, s = token_header t ++ r) /\ (jwt_shape t \/ str_all uuid_char t = true /\ String.length t = 36%nat).
Proof.
  unfold token_at. destruct (strip_prefix _ s) as [s1|] eqn:E; cbn [mbind option_bind]; [|done]. apply strip_prefix_Some in E as ->.
  assert (forall m, closed m = Some t -> exists r, m = Some (t, String quote r)) as Hc.
  { intros [[t' r']|]; unfold closed; cbn [mbind option_bind]; [|done]. destruct (expect quote r') as [r|] eqn:Eq; cbn [mbind option_bind]; [|done].
    apply expect_spec in Eq as ->. intros [= ->]. by exists r. }
  unfold token_header. destruct (closed (match_jwt s1)) as [t'|] eqn:Ej.
  - intros [= ->]. destruct (Hc _ Ej) as [r Em]. apply match_jwt_sound in Em as [-> Hs]. split; [|by left].
    exists r. repeat (rewrite ?string_app_assoc; cbn [String.append]). done.
  - intros Eu. destruct (Hc _ Eu) as [r Em]. apply match_uuid_sound in Em as [-> Hs]. split; [|by right].
    exists r. repeat (rewrite ?string_app_assoc; cbn [String.append]). done.
Qed.

Lemma find_token_sound s t : find_token s = Some t ->
  (exists a r, s = a ++ token_header t ++ r) /\ (jwt_shape t \/ str_all uuid_char t = true /\ String.length t = 36%nat).
Proof.
  induction s as [|c s IH].
  - cbn [find_token]. destruct (token_at "") eqn:E; [|done]. intros [= ->]. apply token_at_sound in E as [[r Hr] Hs]. split; [by exists "", r|done].
  - cbn [find_token]. destruct (token_at (String c s)) eqn:E.
    + intros [= ->]. apply token_at_sound in E as [[r Hr] Hs]. split; [by exists "", r|done].
    + intros Hf. destruct (IH Hf) as [(a & r & ->) Hs]. split; [by exists (String c a), r|done].
Qed.

Lemma token_header_read t : jwt_shape t -> find_token (token_header t) = Some t.
Proof.
  intros Ht. assert (token_at (token_header t) = Some t) as E.
  { unfold token_at. assert (strip_prefix ("Snowflake Token=" ++ String quote "") (token_header t) = Some (t ++ String quote "")) as ->.
    { unfold token_header. repeat (cbn [strip_prefix String.append Ascii.eqb Bool.eqb]). done. }
    cbn [mbind option_bind]. by rewrite (match_jwt_shape t "" Ht). }
  unfold token_header in *. cbn [String.append] in *. cbn [find_token]. by rewrite E.
Qed.

Lemma visible_app a b : str_all visible_char (a ++ b) = str_all visible_char a && str_all visible_char b.
Proof. apply str_all_app. Qed.

Lemma token_char_visible c : token_char c = true -> visible_char c = true.
Proof. destruct c as [[] [] [] [] [] [] [] []]; vm_compute; done. Qed.

Lemma token_header_visible t : jwt_shape t -> to_str (token_header t) = Some (token_header t).
Proof.
  intros (a & b & c & -> & _ & _ & _ & Pa & Pb & Pc). unfold to_str, token_header.
  assert (forall x, str_all token_char x = true -> str_all visible_char x = true) as Hv by (intros x; apply str_all_impl, token_char_visible).
  rewrite !visible_app, (Hv a), (Hv b), (Hv c) by done. done.
Qed.

(** A header as clients write it is read back as its token. *)
Lemma token_header_round_trip t : jwt_shape t -> extract_token_from_header_value (token_header t) = Some t.
Proof. intros Ht. unfold extract_token_from_header_value. rewrite token_header_visible by done. by apply token_header_read. Qed.

(** ** The session of a request lives *)

(** What [jsonwebtoken] promises: a token it accepts is signed with the key when that is checked, has not
    expired beyond the leeway and is for the audience; a token it made is accepted, and is three parts. *)
Class JwtLaws `{J : Jwt} := {
  signed : string -> string -> Prop;
  encode_shape : forall c key t, encode c key = Ok t -> jwt_shape t /\ signed t key;
  decode_sound : forall now t key v c, decode now t key v = Ok c ->
    (v.(check_signature) = true -> signed t key) /\ (now - v.(leeway) <= c.(exp))%Z /\
    (v.(validate_aud) = true -> forall l, v.(audience) = Some l -> c.(aud) ∈ l);
  encode_decode : forall now c key t v l, encode c key = Ok t -> v.(audience) = Some l -> c.(aud) ∈ l ->
    (now - v.(leeway) <= c.(exp))%Z -> decode now t key v = Ok c }.

(** What it promises of signatures: a token carries at most one set of claims under a key; those it decodes,
    when it checks the signature, are the ones the token carries; and a token that carries claims which have
    not expired, for an audience that is asked for, is accepted. *)
Class JwtSignatures `{J : Jwt} := {
  carries : string -> string -> Claims -> Prop;
  carries_one : forall t key c c', carries t key c -> carries t key c' -> c' = c;
  decode_carries : forall now t key v c, decode now t key v = Ok c -> v.(check_signature) = true -> carries t key c;
  decode_complete : forall now t key v l c, carries t key c -> v.(audience) = Some l -> c.(aud) ∈ l ->
    (now - v.(leeway) <= c.(exp))%Z -> decode now t key v = Ok c }.

Section extractor.
Context `{JL : JwtLaws} {P : Process} {R QueryResult : Type} {ops : RunningQueries R}.
Notation svc := (CoreExecutionService R QueryResult).
Context (build_session : string -> result Error unit).
Implicit Types s : svc.

Lemma get_or_create_alive now ts s ts' s' : get_or_create_session build_session now ts s = Ok (ts', s') ->
  ts' = ts /\ df_sessions s' !! ts.(session_id) = Some (now + SESSION_INACTIVITY_EXPIRATION_SECONDS)%Z /\
  (forall k, k <> ts.(session_id) -> df_sessions s' !! k = df_sessions s !! k) /\ queries s' = queries s.
Proof.
  unfold get_or_create_session, update_session_expiry. destruct (df_sessions s !! session_id ts) as [e|] eqn:E.
  - intros [= <- <-]. split_and!; [done|apply lookup_insert_eq|intros k Hk; by apply lookup_insert_ne|done].
  - unfold create_user_session. rewrite E. destruct (build_session (session_id ts)); cbn [result_bind]; [|done].
    intros [= <- <-]. unfold create_session. rewrite E. split_and!; [done|apply lookup_insert_eq|intros k Hk; by apply lookup_insert_ne|done].
Qed.

Lemma delete_expired_keeps now s k expiry : df_sessions s !! k = Some expiry -> (now < expiry)%Z ->
  df_sessions (delete_expired_sessions now s) !! k = Some expiry.
Proof.
  intros E Hlt. unfold delete_expired_sessions. cbn. apply map_lookup_filter_Some. split; [done|]. cbn.
  unfold retain_session. by rewrite bool_decide_eq_false_2 by lia.
Qed.

Lemma sweeps_keep ticks s k expiry : df_sessions s !! k = Some expiry -> Forall (fun now => (now < expiry)%Z) ticks ->
  df_sessions (continuously_delete_expired ticks s) !! k = Some expiry.
Proof.
  unfold continuously_delete_expired. revert s. induction ticks as [|t ticks IH]; intros s E Hf; [done|].
  apply Forall_cons in Hf as [Ht Hf]. simpl. apply IH; [|done]. by apply delete_expired_keeps.
Qed.

(** C29: the extractor never hands a request a session that is not there: after it succeeds the session
    is registered for the next four hours, whether it was known or had expired, the sweeps of that
    time leave it, and no other session is touched. *)
Theorem extracted_session_alive now cfg req s ts s' ticks :
  from_request_parts build_session now cfg req s = Ok (ts, s') ->
  df_sessions s' !! ts.(session_id) = Some (now + SESSION_INACTIVITY_EXPIRATION_SECONDS)%Z /\
  (forall k, k <> ts.(session_id) -> df_sessions s' !! k = df_sessions s !! k) /\
  (Forall (fun tick => (tick < now + SESSION_INACTIVITY_EXPIRATION_SECONDS)%Z) ticks ->
   session_exists ts.(session_id) (continuously_delete_expired ticks s') = true).
Proof.
  unfold from_request_parts. intros (ts0 & Hl & Hg)%result_bind_Ok. destruct (get_or_create_alive _ _ _ _ _ Hg) as (-> & Ha & Ho & _).
  split_and!; [done..|]. intros Ht. unfold session_exists. apply bool_decide_eq_true. rewrite (sweeps_keep _ _ _ _ Ha Ht). by eexists.
Qed.

(** The session a request proves: with a host, that of the trusted ingress, or else that of the claims its
    token carries under the secret of the server, when they are for its host and have not expired. *)
Definition authentic `{JS : !JwtSignatures} (now : Z) (cfg : SessionConfig) (req : Parts) (ts : TokenizedSession) : Prop :=
  exists host, host_of req = Ok host /\
    (trusted_session now cfg req.(headers) = Some ts \/
     trusted_session now cfg req.(headers) = None /\ cfg.(jwt_secret) <> "" /\
     exists token c, extract_token_from_auth req.(headers) = Some token /\ carries token cfg.(jwt_secret) c /\
       c.(aud) = host /\ (now - 5 <= c.(exp))%Z /\ c.(session) = ts).

Lemma validated_claims `{JS : !JwtSignatures} now token host secret c :
  get_claims_validate_jwt_token now token host secret = Ok c <-> carries token secret c /\ c.(aud) = host /\ (now - 5 <= c.(exp))%Z.
Proof.
  unfold get_claims_validate_jwt_token. split.
  - intros E. destruct (decode_sound _ _ _ _ _ E) as (_ & He & Ha). split_and!; [by apply (decode_carries _ _ _ _ _ E)| |done].
    by apply list_elem_of_singleton, (Ha eq_refl _ eq_refl).
  - intros (Hc & Ha & He). by apply (decode_complete now _ _ _ [host] _ Hc); [|rewrite Ha; apply list_elem_of_singleton|].
Qed.

Lemma get_or_create_succeeds now ts s :
  is_Some (df_sessions s !! ts.(session_id)) \/ build_session ts.(session_id) = Ok tt ->
  exists s', get_or_create_session build_session now ts s = Ok (ts, s').
Proof.
  unfold get_or_create_session, update_session_expiry, create_user_session. destruct (df_sessions s !! session_id ts) as [e|] eqn:E; [by eexists|].
  intros [[]|Hb]; [done|]. rewrite E, Hb. by eexists.
Qed.
End extractor.

(** ** Callers of Snowpark Container Services *)

Lemma hex_digit_inj d e : (0 <= d < 16)%Z -> (0 <= e < 16)%Z -> hex_digit d = hex_digit e -> d = e.
Proof.
  intros Hd He E. apply (f_equal nat_of_ascii) in E. unfold hex_digit in E.
  rewrite !nat_ascii_embedding in E; [destruct (Z.ltb_spec d 10), (Z.ltb_spec e 10); lia|destruct (Z.ltb_spec e 10); lia|destruct (Z.ltb_spec d 10); lia].
Qed.

Lemma hex_length n v : String.length (hex n v) = n.
Proof. revert v. induction n as [|n IH]; intros v; [done|]. cbn [hex]. rewrite string_length_app, IH. cbn. lia. Qed.

Lemma str_snoc_inj a b (c d : ascii) : a ++ String c "" = b ++ String d "" -> a = b /\ c = d.
Proof.
  revert b. induction a as [|x a IH]; intros [|y b] E; cbn [String.append] in E.
  - by injection E.
  - injection E as _ E. destruct b; done.
  - injection E as _ E. destruct a; done.
  - injection E as -> E. destruct (IH b E) as [-> ->]. done.
Qed.

Lemma str_app_inj p a b : p ++ a = p ++ b -> a = b.
Proof. induction p as [|c p IH]; [done|]. cbn [String.append]. intros E. apply IH. by injection E. Qed.

Lemma hex_inj n v w : (0 <= v < 16 ^ Z.of_nat n)%Z -> (0 <= w < 16 ^ Z.of_nat n)%Z -> hex n v = hex n w -> v = w.
Proof.
  revert v w. induction n as [|n IH]; intros v w Hv Hw E; [simpl in *; lia|].
  rewrite Nat2Z.inj_succ, Z.pow_succ_r in Hv, Hw by lia. cbn [hex] in E. apply str_snoc_inj in E as [Eh Ed].
  apply hex_digit_inj in Ed; [|apply Z.mod_pos_bound; lia..]. apply IH in Eh; [|split; [apply Z.div_pos; lia|apply Z.div_lt_upper_bound; lia]..].
  rewrite (Z.div_mod v 16), (Z.div_mod w 16) by lia. by rewrite Eh, Ed.
Qed.

(** [Hasher::finish] is 64 bits wide. *)
Class ProcessLaws `{P : Process} : Prop := { default_hash_range : forall l, (0 <= default_hash l < 2 ^ 64)%Z }.

Section callers.
Context {J : Jwt} `{PL : ProcessLaws}.

(** Callers of the ingress without a token share a session exactly when they have the same user and
    account, unless the 64-bit hash of two different callers collides; the session tells who the caller is. *)
Theorem spcs_session_by_caller now hs hs' user user' ts ts' :
  header_value hs SPCS_CURRENT_USER_HEADER = Some user -> header_value hs' SPCS_CURRENT_USER_HEADER = Some user' ->
  header_value hs SPCS_CURRENT_USER_TOKEN_HEADER = None -> header_value hs' SPCS_CURRENT_USER_TOKEN_HEADER = None ->
  spcs_ingress_session_from_headers now hs = Some ts -> spcs_ingress_session_from_headers now hs' = Some ts' ->
  let account := default "" (header_value hs SPCS_CURRENT_ACCOUNT_HEADER) in
  let account' := default "" (header_value hs' SPCS_CURRENT_ACCOUNT_HEADER) in
  (default_hash ["user"; account; user] = default_hash ["user"; account'; user'] -> account = account' /\ user = user') ->
  (ts.(session_id) = ts'.(session_id) <-> account = account' /\ user = user') /\ attr ts.(metadata) UserName = Some user.
Proof.
  intros Hu Hu' Ht Ht' Hs Hs' account account' Hinj. unfold spcs_ingress_session_from_headers, spcs_identity in Hs, Hs'.
  rewrite Hu, Ht in Hs. rewrite Hu', Ht' in Hs'. cbn [mbind option_bind] in Hs, Hs'. apply (inj Some) in Hs as <-. apply (inj Some) in Hs' as <-.
  fold account account'. split.
  - cbn [session_id with_metadata new_tokenized]. split; [|intros [-> ->]; done]. intros E. apply Hinj. apply (hex_inj 16).
    + apply default_hash_range.
    + apply default_hash_range.
    + by apply str_app_inj in E.
  - unfold attr, set_attr. cbn [metadata with_metadata]. destruct (String.eqb account ""); [apply lookup_insert_eq|].
    rewrite lookup_insert_ne by done. apply lookup_insert_eq.
Qed.

(** A request without a valid caller token has no trusted session, whoever it claims to be. *)
Lemma bad_caller_token_refused now hs token :
  header_value hs SPCS_CURRENT_USER_TOKEN_HEADER = Some token ->
  (forall user, validated_spcs_caller_token_claims now token user hs = None) -> spcs_ingress_session_from_headers now hs = None.
Proof.
  intros Ht Hv. unfold spcs_ingress_session_from_headers. destruct (header_value hs SPCS_CURRENT_USER_HEADER) as [user|]; [|done].
  cbn [mbind option_bind]. unfold spcs_identity. by rewrite Ht, Hv.
Qed.
End callers.

(** ** Examples *)
Module RestExamples.

#[global] Instance tokenized_eq_dec : EqDecision TokenizedSession.
Proof. solve_decision. Defined.
#[global] Instance claims_eq_dec : EqDecision Claims.
Proof. solve_decision. Defined.

(** A signer that has made the tokens of a table, and no others. *)
Definition lookup_token (table : list (Claims * string * string)) (t key : string) : option Claims :=
  c ← List.find (fun e => String.eqb (snd e) t && String.eqb (snd (fst e)) key) table; Some (fst (fst c)).

Definition issue (table : list (Claims * string * string)) (c : Claims) (key : string) : option string :=
  e ← List.find (fun e => bool_decide (fst (fst e) = c) && String.eqb (snd (fst e)) key) table; Some (snd e).

Definition accepts (now : Z) (v : Validation) (c : Claims) : bool :=
  Z.leb (now - v.(leeway))%Z c.(exp) && match v.(audience) with Some l => bool_decide (c.(aud) ∈ l) | None => true end.

Definition table_jwt (table : list (Claims * string * string)) : Jwt := {|
  JwtError := string;
  decode now t key v := match lookup_token table t key with Some c => if accepts now v c then Ok c else Err "expired" | None => Err "signature" end;
  decode_caller now t key v := Err "no caller";
  encode c key := match issue table c key with Some t => Ok t | None => Err "key" end |}.

Definition table_ok (table : list (Claims * string * string)) : Prop :=
  Forall (fun e => jwt_shape (snd e) /\ lookup_token table (snd e) (snd (fst e)) = Some (fst (fst e))) table.

Lemma issue_spec table c key t : table_ok table -> issue table c key = Some t -> jwt_shape t /\ lookup_token table t key = Some c.
Proof.
  intros Hok. unfold issue. destruct (List.find _ table) as [[[c' k'] t']|] eqn:E; cbn [mbind option_bind]; [|done]. intros [= <-].
  apply find_some in E as [Hin [Hc%bool_decide_eq_true Hk%String.eqb_eq]%andb_true_iff]. cbn in Hc, Hk. subst.
  apply list_elem_of_In in Hin. by apply (proj1 (Forall_forall _ _) Hok) in Hin.
Qed.

Definition table_jwt_laws table (Hok : table_ok table) : @JwtLaws (table_jwt table).
Proof.
  refine {| signed := fun t key => is_Some (lookup_token table t key) |}.
  - intros c key t E. cbn [encode table_jwt] in E. destruct (issue table c key) as [t'|] eqn:Ei; [|done]. injection E as <-.
    destruct (issue_spec _ _ _ _ Hok Ei) as [Hs Hl]. split; [done|]. rewrite Hl. by eexists.
  - intros now t key v c E. cbn [decode table_jwt] in E. destruct (lookup_token table t key) as [c'|] eqn:El; [|done].
    destruct (accepts now v c') eqn:Ea; [|done]. injection E as <-. apply andb_true_iff in Ea as [Hexp Haud]. apply Z.leb_le in Hexp.
    split_and!; [intros _; by eexists|done|]. intros _ l Hl. rewrite Hl in Haud. by apply bool_decide_eq_true in Haud.
  - intros now c key t v l E Hl Ha Hexp. cbn [encode table_jwt] in E. destruct (issue table c key) as [t'|] eqn:Ei; [|done]. injection E as <-.
    destruct (issue_spec _ _ _ _ Hok Ei) as [_ El]. cbn [decode table_jwt]. rewrite El. unfold accepts. rewrite Hl.
    rewrite (proj2 (Z.leb_le _ _) Hexp). by rewrite bool_decide_eq_true_2.
Defined.

Definition table_jwt_signatures table : @JwtSignatures (table_jwt table).
Proof.
  refine {| carries := fun t key c => lookup_token table t key = Some c |}.
  - intros t key c c' E E'. congruence.
  - intros now t key v c E _. cbn [decode table_jwt] in E. destruct (lookup_token table t key) as [c'|]; [|done].
    destruct (accepts now v c'); [|done]. by injection E as ->.
  - intros now t key v l c El Hl Ha Hexp. cbn [decode table_jwt]. rewrite El. unfold accepts. rewrite Hl.
    rewrite (proj2 (Z.leb_le _ _) Hexp). by rewrite bool_decide_eq_true_2.
Defined.

(** Bytes of the strings to the base 257, in 64 bits. *)
Definition string_number (acc : Z) (s : string) : Z :=
  fold_left (fun n c => (n * 257 + Z.of_nat (nat_of_ascii c) + 1) mod 2 ^ 64)%Z (list_ascii_of_string s) acc.

#[global] Instance example_process : Process := {| env _ := None; default_hash l := (fold_left string_number l 0 mod 2 ^ 64)%Z |}.

#[global] Instance example_process_laws : ProcessLaws.
Proof. split. intros l. apply Z.mod_pos_bound. lia. Qed.

Definition ann : TokenizedSession := mkTokenized "11111111" (set_attr ∅ UserName "ann").
Definition ann_claims : Claims := mkClaims "ann" "localhost" 0 259200 ann.
Definition forged_claims : Claims := mkClaims "eve" "localhost" 0 259200 ann.
Definition tokens : list (Claims * string * string) := [(ann_claims, "secret", "aa.bb.cc"); (forged_claims, "", "ee.ff.gg")].

Lemma tokens_ok : table_ok tokens.
Proof. repeat constructor; [exists "aa", "bb", "cc"|exists "ee", "ff", "gg"]; by split_and!. Qed.

#[global] Instance example_jwt : Jwt := table_jwt tokens.
#[global] Instance example_jwt_laws : JwtLaws := table_jwt_laws tokens tokens_ok.
#[global] Instance example_jwt_signatures : JwtSignatures := table_jwt_signatures tokens.

Definition service : CoreExecutionService Registry.t nat := new.
Definition ann_request : Parts := mkParts [("host", "localhost"); ("authorization", token_header "aa.bb.cc")] None.

Lemma redaction_hides_witness :
  redacted [("authorization", "secret"); ("x-request-id", "1")] = redacted [("authorization", "other"); ("x-request-id", "1")] /\
  redacted [("authorization", "secret"); ("x-request-id", "1")] !! "authorization" = Some ["<redacted>"].
Proof.
  destruct (redaction_hides [("authorization", "secret"); ("x-request-id", "1")] [("authorization", "other"); ("x-request-id", "1")]) as [E _].
  - repeat constructor; cbn; done.
  - split; [exact E|]. reflexivity.
Defined.

Lemma extracted_session_alive_witness :
  session_exists "11111111" (continuously_delete_expired [1000; 14000]%Z
    (insert_session 0 "11111111" service)) = true /\
  exists s', from_request_parts (fun _ => Ok tt) 0 (mkSessionConfig "secret" false) ann_request service = Ok (ann, s').
Proof.
  assert (from_request_parts (fun _ => Ok tt) 0 (mkSessionConfig "secret" false) ann_request service = Ok (ann, insert_session 0 "11111111" service)) as E
    by reflexivity.
  split; [|exists (insert_session 0 "11111111" service); exact E].
  apply (proj2 (proj2 (extracted_session_alive (fun _ => Ok tt) 0 (mkSessionConfig "secret" false) ann_request service ann _ [1000; 14000]%Z E))).
  repeat constructor.
Defined.

Definition caller (user : string) : HeaderMap := [(SPCS_CURRENT_USER_HEADER, user); (SPCS_CURRENT_ACCOUNT_HEADER, " acme ")].

Lemma spcs_session_by_caller_witness :
  match spcs_ingress_session_from_headers 0 (caller "ann"), spcs_ingress_session_from_headers 0 (caller "bob") with
  | Some ts, Some ts' => ts.(session_id) = ts'.(session_id) <-> "acme" = "acme" /\ "ann" = "bob"
  | _, _ => False
  end.
Proof.
  destruct (spcs_ingress_session_from_headers 0 (caller "ann")) as [ts|] eqn:E; [|discriminate E].
  destruct (spcs_ingress_session_from_headers 0 (caller "bob")) as [ts'|] eqn:E'; [|discriminate E'].
  refine (proj1 (spcs_session_by_caller 0 (caller "ann") (caller "bob") "ann" "bob" ts ts' _ _ _ _ E E' _)); [reflexivity..|].
  intros Hh. vm_compute in Hh. discriminate Hh.
Defined.

(** The audience of a host with a dot at its end and no port: the dot is not removed. *)
Example trailing_dot_audience :
  let claims := mkCaller (Some "SCT") (Some (One "a.example.com")) None (Some "CALLER") (Some "1") in
  spcs_caller_audience_matches claims [("host", "a.example.com")] = true /\
  spcs_caller_audience_matches claims [("host", "a.example.com:443")] = true /\
  spcs_caller_audience_matches claims [("host", "a.example.com.")] = false.
Proof. split_and!; reflexivity. Qed.

(** Issuers as the tests of the source have them. *)
Example issuers :
  issuer_matches "https://AA06228.us-east-2.aws.snowflakecomputing.com/" "aa06228.us-east-2.aws.snowflakecomputing.com" = true /\
  issuer_matches "https://AA06228.us-east-2.aws.snowflakecomputing.com" "AA06228.us-east-2.aws.snowflakecomputing.com:443" = true /\
  issuer_matches "https://OTHER.us-east-2.aws.snowflakecomputing.com" "AA06228.us-east-2.aws.snowflakecomputing.com" = false.
Proof. split_and!; reflexivity. Qed.

(** Audiences that are different lists have one canonical text. *)
Example canonical_not_injective : canonical (Many ["a"; "b"]) = canonical (One "a,b").
Proof. reflexivity. Qed.

(** The token of a session of the ingress, as a login returns it, is not recognized in a header. *)
Example spcs_token_unreadable : extract_token_from_header_value (token_header "spcs-0123456789abcdef") = None.
Proof. reflexivity. Qed.

(** A cookie's value ends at an equals sign. *)
Example cookie_values :
  extract_token_from_cookie [("cookie", "a=1; session_id=abc")] = Some "abc" /\
  extract_token_from_cookie [("cookie", "session_id=ab=c")] = Some "ab".
Proof. split; reflexivity. Qed.
End RestExamples.
