(* ===== verification/RestServer.v ===== *)
(** * The REST server

    [crates/api-snowflake-rest/src/server]: the authentication layer ([layer.rs]), the handlers
    ([handlers.rs], [logic.rs]), the response to a query ([helpers.rs]) and the routes
    ([router.rs]), over the sessions of [RestSessions], the execution service and the encoding of
    results.

    A request is what axum has parsed of it.  [QueryCalls] are the calls of the service that run a
    query, whose protocol [ExecutionService] models; [Writers] are the serializers of Arrow.  A
    handler maps the state of the service to a response or an error and the new state, which an error
    does not undo.  The clock and the fresh ids are arguments. *)

From Stdlib Require Import ZArith Lia Ascii String.
From stdpp Require Import base option list gmap strings.
From S2P Require Import Prelude Utf8 Calendar DateTime DateParts SessionParams JsonValue JsonEncode SemiStructured Conversions ToTimestamp ResultBatches.
From S2P Require Import ExecutorErrors RunningQueries ExecutionService RestSessions.

Open Scope string_scope.
Open Scope rust_scope.

#[local] Arguments String.append : simpl nomatch.

(** ** Data *)
Record LoginRequestQueryParams := mkLoginParams { database_name : option string; schema_name : option string; warehouse : option string }.

(** The members no handler reads, [client_environment] among them, are left out. *)
Record LoginRequestData := mkLogin {
  client_app_id : string; client_app_version : string; account_name : string; login_name : string; password : string }.

Record LoginResponse := mkLoginResponse { login_token : option string; login_success : bool; login_message : option string }.

Record QueryRequest := mkQueryRequest { request_id : Uuid; retry_count : option Z }.
Record QueryRequestBody := mkQueryBody { sql_text : string; async_exec : option bool; submission_time : option Z }.
Record AbortRequestBody := mkAbort { abort_sql_text : string; abort_request_id : Uuid }.
(** The ids a request to end a session carries are only logged. *)
Record SessionQueryParams := mkSessionParams { delete_session_flag : bool }.

Record ResponseData := mkData {
  row_type : list ColumnInfo; row_set_base_64 : option string; row_set : option string; total : option Z; returned : option Z;
  query_result_format : option string; data_error_code : option string; sql_state : option string; data_query_id : option string }.
Record JsonResponse := mkJson { data : option ResponseData; success : bool; message : option string; code : option string }.

Record Auth := mkAuth { demo_user : string; demo_password : string; auth_secret : string; auth_trust : bool }.
Record RestApiConfig := mkRestConfig { auth : Auth; dbt_serialization_format : DataSerializationFormat }.

(** [Auth::new], [with_demo_credentials] and [with_trust_spcs_ingress] *)
Definition new_auth (jwt_secret : string) : Auth := mkAuth "" "" jwt_secret false.

(** [DataSerializationFormat::try_from], whatever the case. *)
Definition parse_format (s : string) : option DataSerializationFormat :=
  if eq_ignore_case s "Arrow" then Some ResultBatches.Arrow else if eq_ignore_case s "Json" then Some Json else None.

Definition new_rest_config (data_format jwt_secret : string) : option RestApiConfig :=
  (fun f => mkRestConfig (new_auth jwt_secret) f) <$> parse_format data_format.

Definition with_demo_credentials (self : RestApiConfig) (user password : string) : RestApiConfig :=
  mkRestConfig (mkAuth user password self.(auth).(auth_secret) self.(auth).(auth_trust)) self.(dbt_serialization_format).

Definition with_trust_spcs_ingress (self : RestApiConfig) (trust : bool) : RestApiConfig :=
  mkRestConfig (mkAuth self.(auth).(demo_user) self.(auth).(demo_password) self.(auth).(auth_secret) trust) self.(dbt_serialization_format).

(** What [AppState] tells the extractor of sessions. *)
Definition session_config (a : Auth) : SessionConfig := mkSessionConfig a.(auth_secret) a.(auth_trust).

(** [executor::models::QueryContext] *)
Record QueryContext := mkQueryContext {
  ctx_database : option string; ctx_schema : option string; worksheet_id : option Z; ctx_query_id : QueryId;
  ctx_request_id : option Uuid; ip_address : option string; query_submission_time : option Z;
  session_metadata : option SessionMetadata }.

(** [id] is [Uuid::now_v7]. *)
Definition new_context (id : QueryId) (database schema : option string) (worksheet : option Z) : QueryContext :=
  mkQueryContext database schema worksheet id None None None None.

Definition with_request_id (c : QueryContext) (r : Uuid) : QueryContext :=
  mkQueryContext c.(ctx_database) c.(ctx_schema) c.(worksheet_id) c.(ctx_query_id) (Some r) c.(ip_address) c.(query_submission_time) c.(session_metadata).
Definition with_ip_address (c : QueryContext) (ip : string) : QueryContext :=
  mkQueryContext c.(ctx_database) c.(ctx_schema) c.(worksheet_id) c.(ctx_query_id) c.(ctx_request_id) (Some ip) c.(query_submission_time) c.(session_metadata).
Definition with_query_submission_time (c : QueryContext) (t : option Z) : QueryContext :=
  mkQueryContext c.(ctx_database) c.(ctx_schema) c.(worksheet_id) c.(ctx_query_id) c.(ctx_request_id) c.(ip_address) t c.(session_metadata).
Definition with_session_metadata (c : QueryContext) (m : option SessionMetadata) : QueryContext :=
  mkQueryContext c.(ctx_database) c.(ctx_schema) c.(worksheet_id) c.(ctx_query_id) c.(ctx_request_id) c.(ip_address) c.(query_submission_time) m.

(** How a request fails: the error of a handler or a layer, a rejection by an extractor, a panic. *)
Inductive rest_failure {J : Jwt} := Api (e : ApiError) | Rejected (e : SessionError) | ServerPanic.

Definition rest_status `{J : Jwt} (e : rest_failure) : Z :=
  match e with Api e => http_status e | Rejected e => session_status e | ServerPanic => 500 end.

Notation rres A := (result rest_failure A).

Inductive RestResponse := RLogin (r : LoginResponse) | RQuery (r : JsonResponse) | RNull | RHeartbeat.

(** The routes, with the body and the parameters parsed. *)
Inductive Route :=
| PostLogin (params : LoginRequestQueryParams) (body : LoginRequestData)
| PostHeartbeat
| PostSession (params : SessionQueryParams)
| PostQuery (query : QueryRequest) (body : QueryRequestBody)
| PostAbort (body : AbortRequestBody).

Definition route_path (r : Route) : string :=
  match r with
  | PostLogin _ _ => "/session/v1/login-request"
  | PostHeartbeat => "/session/heartbeat"
  | PostSession _ => "/session"
  | PostQuery _ _ => "/queries/v1/query-request"
  | PostAbort _ => "/queries/v1/abort-request"
  end.

(** The routes of [create_router], behind [require_auth]. *)
Definition guarded (r : Route) : bool := match r with PostQuery _ _ | PostAbort _ => true | _ => false end.

Record Request := mkRequest { parts : Parts; addr : string; route : Route }.

Class Writers := {
  write_json : list RecordBatch -> result ApiError string;
  write_arrow : list RecordBatch -> result ApiError string;
  arrow_display : JsonEncode.ArrowError -> string }.

(** ** [helpers.rs] *)
Section server.
Context {C : Chrono} {T : Timestamps} {TZ : TimeZones} `{!ConvExt, !TimestampExt, !BatchExt, !Writers}.
Context {J : Jwt} {P : Process} {R : Type} {ops : RunningQueries R}.
Notation svc := (CoreExecutionService R QueryResult).

Definition of_batch {A} (r : bres A) : rres A :=
  match r with
  | Ok a => Ok a
  | Err (BatchArrow e) => Err (Api (Execution (ExecutorErrors.Arrow (arrow_display e))))
  | Err (CantCastTo v) => Err (Api (Execution (OtherError ("Can't cast to " ++ v))))
  | Err BatchPanic => Err ServerPanic
  end.

Definition of_api {A} (r : result ApiError A) : rres A := match r with Ok a => Ok a | Err e => Err (Api e) end.

(** [RecordBatch::num_rows] *)
Definition num_rows (b : RecordBatch) : Z := match b.(columns) with c :: _ => Z.of_nat (len c) | [] => 0 end.

(** [i64::try_from(..).unwrap_or(i64::MAX)], and [sum] *)
Definition total_rows (records : list RecordBatch) : Z := foldl (fun n b => wrap_i64 (n + Z.min (num_rows b) i64_max)) 0 records.

Definition format_name (f : DataSerializationFormat) : string := match f with ResultBatches.Arrow => "Arrow" | Json => "Json" end.

Definition handle_query_ok_result (query_id : QueryId) (query_result : QueryResult) (ser_fmt : DataSerializationFormat) : rres JsonResponse :=
  let? records := of_batch (convert_record_batches query_result ser_fmt) in
  let total_rows := total_rows records in
  let? row_set := match ser_fmt with
                  | Json => let? records := of_batch (convert_struct_to_timestamp records) in result_map Some (of_api (write_json records))
                  | ResultBatches.Arrow => Ok None
                  end in
  let? row_set_base_64 := match ser_fmt with
                          | ResultBatches.Arrow => result_map Some (of_api (write_arrow records))
                          | Json => Ok None
                          end in
  let d := mkData (column_info query_result) row_set_base_64 row_set (Some total_rows) (Some total_rows)
             (Some (to_ascii_lowercase (format_name ser_fmt))) None (Some "02000") (Some query_id) in
  Ok (mkJson (Some d) true (Some "successfully executed") None).

(** ** [layer.rs] *)
Definition has_demo_user (a : Auth) : bool := negb (String.eqb a.(demo_user) "" || String.eqb a.(demo_password) "").

(** The request that goes on to the handler. *)
Definition require_auth (now : Z) (a : Auth) (req : Parts) : rres Parts :=
  let? host := match host_of req with Ok h => Ok h | Err e => Err (Rejected e) end in
  if negb (has_demo_user a) then Ok req
  else match trusted_session now (session_config a) req.(headers) with
       | Some session => Ok (with_extension req session)
       | None =>
           let? token := ok_or (extract_token_from_auth req.(headers)) (Api MissingAuthToken) in
           let? jwt_secret := ok_or (ensure_jwt_secret_is_valid a.(auth_secret)) (Api NoJwtSecret) in
           match get_claims_validate_jwt_token now token host jwt_secret with
           | Ok _ => Ok req
           | Err _ => Err (Api BadAuthToken)
           end
       end.

(** ** [logic.rs] *)
Definition JWT_TOKEN_EXPIRATION_SECONDS : Z := 3 * 24 * 60 * 60.

Class QueryCalls := {
  query : string -> string -> QueryContext -> svc -> result Error QueryResult * svc;
  wait : QueryId -> svc -> result Error QueryResult * svc;
  abort_query : QueryId -> svc -> result Error unit * svc;
  build_session : string -> result Error unit }.
Context `{!QueryCalls}.

(** The session of the ingress, which is required when it is trusted. *)
Definition login_spcs_session (now : Z) (a : Auth) (hs : HeaderMap) : rres (option TokenizedSession) :=
  if a.(auth_trust) then result_map Some (ok_or (spcs_ingress_session_from_headers now hs) (Api InvalidAuthData)) else Ok None.

Definition login_user (a : Auth) (credentials : LoginRequestData) (spcs_session : option TokenizedSession) : rres string :=
  match spcs_session with
  | Some s => ok_or (attr s.(RestSessions.metadata) UserName) (Api InvalidAuthData)
  | None =>
      if negb (String.eqb credentials.(login_name) a.(demo_user)) || negb (String.eqb credentials.(password) a.(demo_password))
      then Err (Api InvalidAuthData) else Ok credentials.(login_name)
  end.

Definition set_some (m : SessionMetadata) (k : SessionMetadataAttr) (v : option string) : SessionMetadata :=
  match v with Some v => set_attr m k v | None => m end.

Definition login_metadata (user account : string) (credentials : LoginRequestData) (params : LoginRequestQueryParams) : SessionMetadata :=
  let m := set_attr (set_attr (set_attr (set_attr ∅ UserName user) AccountName account)
             ClientAppId credentials.(client_app_id)) ClientAppVersion credentials.(client_app_version) in
  set_some (set_some (set_some m Database params.(database_name)) Schema params.(schema_name)) Warehouse params.(warehouse).

Definition login_account (credentials : LoginRequestData) (spcs_session : option TokenizedSession) (hs : HeaderMap) : string :=
  match (s ← spcs_session; attr s.(RestSessions.metadata) AccountName) with
  | Some a => a
  | None => default credentials.(account_name) (header_value hs SPCS_CURRENT_ACCOUNT_HEADER)
  end.

Definition login_response (token : string) : LoginResponse := mkLoginResponse (Some token) true (Some "successfully executed").

(** [uuid] is [Uuid::new_v4]. The session is created before the secret is looked at. *)
Definition handle_login_request (now : Z) (uuid : string) (a : Auth) (host : string) (credentials : LoginRequestData)
    (params : LoginRequestQueryParams) (hs : HeaderMap) (s : svc) : rres LoginResponse * svc :=
  match (let? spcs_session := login_spcs_session now a hs in
         let? user := login_user a credentials spcs_session in
         let m := login_metadata user (login_account credentials spcs_session hs) credentials params in
         Ok (user, with_metadata (default (new_tokenized uuid) spcs_session) m)) with
  | Err e => (Err e, s)
  | Ok (user, tokenized_session) =>
      match create_user_session build_session now tokenized_session.(session_id) s with
      | Err e => (Err (Api (Execution e)), s)
      | Ok s =>
          (result_map login_response
             (if a.(auth_trust) then Ok tokenized_session.(session_id)
              else
                let? _ := ok_or (ensure_jwt_secret_is_valid a.(auth_secret)) (Api NoJwtSecret) in
                let claims := jwt_claims now user host JWT_TOKEN_EXPIRATION_SECONDS tokenized_session in
                match create_jwt claims a.(auth_secret) with Ok t => Ok t | Err _ => Err (Api CreateJwt) end), s)
      end
  end.

(** The context of a query from its session and its request. *)
Definition query_context (id : QueryId) (ts : TokenizedSession) (q : QueryRequest) (body : QueryRequestBody) (client_ip : option string) : QueryContext :=
  let m := ts.(RestSessions.metadata) in
  let c := with_session_metadata (with_query_submission_time (with_request_id (new_context id (attr m Database) (attr m Schema) None)
             q.(request_id)) body.(submission_time)) (Some m) in
  match client_ip with Some ip => with_ip_address c ip | None => c end.

(** Without the feature that disables retries. *)
Definition handle_query_request (id : QueryId) (cfg : RestApiConfig) (ts : TokenizedSession) (q : QueryRequest) (body : QueryRequestBody)
    (client_ip : option string) (s : svc) : rres JsonResponse * svc :=
  if default false body.(async_exec) then (Err (Api NotImplemented), s)
  else
    let context := query_context id ts q body client_ip in
    let located := locate_query_id (ByRequestId q.(request_id) body.(sql_text)) (queries s) in
    let '(result, query_id, s) :=
      match located with
      | Ok query_id =>
          if (0 <? default 0 q.(retry_count))%Z then let '(r, s) := wait query_id s in (r, query_id, s)
          else let '(r, s) := query ts.(session_id) body.(sql_text) context s in (r, context.(ctx_query_id), s)
      | Err _ => let '(r, s) := query ts.(session_id) body.(sql_text) context s in (r, context.(ctx_query_id), s)
      end in
    match result with
    | Err e => (Err (Api (Execution e)), s)
    | Ok result => (handle_query_ok_result query_id result cfg.(dbt_serialization_format), s)
    end.

(** ** [handlers.rs] and [router.rs] *)
Definition handle_abort (body : AbortRequestBody) (s : svc) : rres RestResponse * svc :=
  match locate_query_id (ByRequestId body.(abort_request_id) body.(abort_sql_text)) (queries s) with
  | Err e => (Err (Api (Execution e)), s)
  | Ok query_id =>
      match abort_query query_id s with
      | (Err e, s) => (Err (Api (Execution e)), s)
      | (Ok _, s) => (Ok RNull, s)
      end
  end.

(** A handler that needs the session of its request. *)
Definition with_session (now : Z) (cfg : RestApiConfig) (req : Parts) (s : svc)
    (k : TokenizedSession -> svc -> rres RestResponse * svc) : rres RestResponse * svc :=
  match from_request_parts build_session now (session_config cfg.(auth)) req s with
  | Err e => (Err (Rejected e), s)
  | Ok (ts, s) => k ts s
  end.

Definition handle (now : Z) (uuid : string) (id : QueryId) (cfg : RestApiConfig) (req : Parts) (addr : string) (r : Route) (s : svc) :
    rres RestResponse * svc :=
  match r with
  | PostLogin params body =>
      match host_of req with
      | Err e => (Err (Rejected e), s)
      | Ok host => let '(r, s) := handle_login_request now uuid cfg.(auth) host body params req.(headers) s in (result_map RLogin r, s)
      end
  | PostHeartbeat => with_session now cfg req s (fun _ s => (Ok RHeartbeat, s))
  | PostSession params =>
      with_session now cfg req s (fun ts s =>
        (Ok RNull, if params.(delete_session_flag) then delete_session ts.(session_id) s else s))
  | PostQuery q body =>
      with_session now cfg req s (fun ts s =>
        let '(r, s) := handle_query_request id cfg ts q body (Some addr) s in (result_map RQuery r, s))
  | PostAbort body => handle_abort body s
  end.

Definition serve (now : Z) (uuid : string) (id : QueryId) (cfg : RestApiConfig) (req : Request) (s : svc) : rres RestResponse * svc :=
  if guarded req.(route) then
    match require_auth now cfg.(auth) req.(parts) with
    | Err e => (Err e, s)
    | Ok parts => handle now uuid id cfg parts req.(addr) req.(route) s
    end
  else handle now uuid id cfg req.(parts) req.(addr) req.(route) s.
End server.

(** ** Authentication *)
Section authentication.
Context {C : Chrono} {T : Timestamps} {TZ : TimeZones} `{!ConvExt, !TimestampExt, !BatchExt, !Writers}.
Context `{JL : JwtLaws} {P : Process} {R : Type} {ops : RunningQueries R} `{!QueryCalls (R := R)}.
Notation svc := (CoreExecutionService R QueryResult).
Implicit Types s : svc.

(** The layer lets a request through exactly when it is authentic, and the handlers find that session. *)
Lemma require_auth_authentic `{JS : !JwtSignatures} now a req ts : has_demo_user a = true ->
  (exists req', require_auth now a req = Ok req' /\ located_session now (session_config a) req' = Ok ts) <-> authentic now (session_config a) req ts.
Proof.
  intros Hd. unfold require_auth, authentic. rewrite Hd. cbn [negb].
  destruct (host_of req) as [host|] eqn:Hh; cbn [result_bind]; [|split; [by intros (? & ? & _)|by intros (? & ? & _)]].
  destruct (trusted_session now (session_config a) (headers req)) as [ts'|] eqn:Et.
  - split.
    + intros (req' & [= <-] & El). exists host. split; [done|left]. unfold located_session in El. cbn [headers with_extension] in El. rewrite Et in El. congruence.
    + intros (h & _ & [[= ->]|[? _]]); [|done]. eexists. split; [done|]. unfold located_session. cbn [headers with_extension]. by rewrite Et.
  - destruct (extract_token_from_auth (headers req)) as [token|] eqn:Ek; cbn [ok_or result_bind].
    2: { split; [by intros (? & ? & _)|]. by intros (h & _ & [?|(_ & _ & token & c & ? & _)]). }
    unfold ensure_jwt_secret_is_valid, non_empty. cbn [session_config jwt_secret].
    destruct (String.eqb_spec (auth_secret a) "") as [E0|E0]; cbn [ok_or result_bind].
    { split; [by intros (? & ? & _)|]. by intros (h & _ & [?|(_ & ? & _)]). }
    split.
    + intros (req' & Ev & El). destruct (get_claims_validate_jwt_token now token host (auth_secret a)) as [c|] eqn:Ec; [|done]. injection Ev as <-.
      exists host. split; [done|right]. split_and!; [done..|]. exists token, c. destruct (proj1 (validated_claims _ _ _ _ _) Ec) as (? & ? & ?). split_and!; try done.
      unfold located_session in El. rewrite Et, Ek, Hh in El. cbn [result_bind session_config jwt_secret] in El. rewrite Ec in El. congruence.
    + intros (h & [= <-] & [?|(_ & _ & tok & c & [= <-] & Hc & Ha & He & <-)]); [done|].
      pose proof (proj2 (validated_claims now token host (auth_secret a) c) (conj Hc (conj Ha He))) as Ec. rewrite Ec.
      exists req. split; [done|]. unfold located_session. rewrite Et, Ek, Hh. cbn [result_bind session_config jwt_secret]. by rewrite Ec.
Qed.

Lemma authentic_one `{JS : !JwtSignatures} now cfg req ts ts' : authentic now cfg req ts -> authentic now cfg req ts' -> ts' = ts.
Proof.
  intros (h & Hh & [Ht|(Ht & _ & tok & c & Hk & Hc & _ & _ & <-)]) (h' & Hh' & [Ht'|(Ht' & _ & tok' & c' & Hk' & Hc' & _ & _ & <-)]); try congruence.
  rewrite Hk in Hk'. injection Hk' as <-. by rewrite (carries_one _ _ _ _ Hc Hc').
Qed.

Lemma require_auth_located now a req req' : has_demo_user a = true -> require_auth now a req = Ok req' ->
  exists ts, located_session now (session_config a) req' = Ok ts.
Proof.
  intros Hd. unfold require_auth, located_session. rewrite Hd. cbn [negb]. destruct (host_of req) as [host|] eqn:Hh; cbn [result_bind]; [|done].
  destruct (trusted_session now (session_config a) (headers req)) as [ts|] eqn:Et; [intros [= <-]; cbn [headers with_extension]; rewrite Et; by eexists|].
  destruct (extract_token_from_auth (headers req)) as [token|] eqn:Ek; cbn [ok_or result_bind]; [|done].
  unfold ensure_jwt_secret_is_valid, non_empty. destruct (String.eqb (auth_secret a) ""); cbn [ok_or result_bind]; [done|].
  destruct (get_claims_validate_jwt_token now token host (auth_secret a)) as [c|] eqn:Ec; [|done]. intros [= <-].
  rewrite Et, Ek, Hh. cbn [result_bind session_config jwt_secret]. rewrite Ec. by eexists.
Qed.

Lemma require_auth_fails_401 now a req e : require_auth now a req = Err e -> rest_status e = 401.
Proof.
  unfold require_auth. destruct (host_of req) as [host|e'] eqn:Hh; cbn [result_bind].
  - destruct (negb _); [done|]. destruct (trusted_session _ _ _); [done|]. destruct (extract_token_from_auth _); cbn [ok_or result_bind]; [|by intros [= <-]].
    destruct (ensure_jwt_secret_is_valid _); cbn [ok_or result_bind]; [|by intros [= <-]].
    destruct (get_claims_validate_jwt_token _ _ _ _); [done|]. by intros [= <-].
  - intros [= <-]. unfold host_of in Hh. destruct (mbind _ _); simpl in Hh; [done|]. by injection Hh as <-.
Qed.


(** ** Logging in *)
Lemma login_metadata_attr user account credentials params :
  let m := login_metadata user account credentials params in
  attr m UserName = Some user /\ attr m AccountName = Some account /\ attr m Database = params.(database_name) /\
  attr m Schema = params.(schema_name) /\ attr m Warehouse = params.(warehouse).
Proof.
  unfold login_metadata, attr, set_some, set_attr. destruct params as [[d|] [sc|] [wh|]]; cbn [database_name schema_name warehouse attr_name];
    split_and!; repeat (rewrite lookup_insert_eq || rewrite lookup_insert_ne by discriminate); done.
Qed.

Lemma login_ok now uuid a host credentials params hs s r s1 :
  a.(auth_trust) = false -> handle_login_request now uuid a host credentials params hs s = (Ok r, s1) ->
  credentials.(login_name) = a.(demo_user) /\ credentials.(password) = a.(demo_password) /\ a.(auth_secret) <> "" /\
  exists token, r = login_response token /\
    create_jwt (jwt_claims now credentials.(login_name) host JWT_TOKEN_EXPIRATION_SECONDS
      (mkTokenized uuid (login_metadata credentials.(login_name) (login_account credentials None hs) credentials params))) a.(auth_secret) = Ok token /\
    is_Some (df_sessions s1 !! uuid).
Proof.
  intros Ht. unfold handle_login_request, login_spcs_session, login_user. rewrite Ht. cbn [result_bind].
  destruct (String.eqb_spec (login_name credentials) (demo_user a)) as [E1|]; cbn [negb orb result_bind]; [|done].
  destruct (String.eqb_spec (password credentials) (demo_password a)) as [E2|]; cbn [negb orb result_bind]; [|done].
  cbn [default from_option id with_metadata new_tokenized session_id].
  destruct (create_user_session build_session now uuid s) as [s2|] eqn:Ec; [|done]. intros [= Hr <-].
  unfold ensure_jwt_secret_is_valid, non_empty in Hr. destruct (String.eqb_spec (auth_secret a) "") as [|Hs]; cbn [ok_or result_bind result_map] in Hr; [done|].
  destruct (create_jwt _ (auth_secret a)) as [token|] eqn:Ej; [|done]. injection Hr as <-. split_and!; [done..|]. exists token. split_and!; [done|done|].
  unfold create_user_session in Ec. destruct (df_sessions s !! uuid) as [x|] eqn:El; [injection Ec as <-; rewrite El; by eexists|].
  destruct (build_session uuid); cbn [result_bind] in Ec; [|done]. injection Ec as <-. unfold create_session. rewrite El. cbn. rewrite lookup_insert_eq. by eexists.
Qed.

(** C8: a login round trip: the token a login returns, sent back for the same host within three days, passes
    the authentication layer and gives every handler the session of that login, with the user who
    logged in and the database, schema and warehouse that were asked for. *)
Theorem login_then_request now uuid a host credentials params hs s r s1 :
  has_demo_user a = true -> a.(auth_trust) = false -> to_str host = Some host ->
  handle_login_request now uuid a host credentials params hs s = (Ok r, s1) ->
  exists token, r.(login_token) = Some token /\
    forall now' req, (now' <= now + JWT_TOKEN_EXPIRATION_SECONDS + 5)%Z -> header_get req.(headers) "host" = Some host ->
      header_get req.(headers) "authorization" = Some (token_header token) ->
      require_auth now' a req = Ok req /\
      exists ts, located_session now' (session_config a) req = Ok ts /\ ts.(session_id) = uuid /\
        attr ts.(RestSessions.metadata) UserName = Some a.(demo_user) /\ attr ts.(RestSessions.metadata) Database = params.(database_name) /\
        attr ts.(RestSessions.metadata) Schema = params.(schema_name) /\ attr ts.(RestSessions.metadata) Warehouse = params.(warehouse).
Proof.
  intros Hd Ht Hh Hl. destruct (login_ok _ _ _ _ _ _ _ _ _ _ Ht Hl) as (Hu & _ & Hs & token & -> & Hj & _).
  exists token. split; [done|]. intros now' req Hn Hhost Hauth. unfold create_jwt in Hj.
  destruct (encode_shape _ _ _ Hj) as [Hshape _].
  assert (host_of req = Ok host) as Eh by (unfold host_of; rewrite Hhost; cbn [mbind option_bind]; by rewrite Hh).
  assert (extract_token_from_auth (headers req) = Some token) as Et.
  { unfold extract_token_from_auth. rewrite Hauth. cbn [mbind option_bind]. by apply token_header_round_trip. }
  assert (trusted_session now' (session_config a) (headers req) = None) as En by (unfold trusted_session, session_config; cbn; by rewrite Ht).
  pose proof (encode_decode now' _ _ _ (set_required_spec_claims (set_audience (set_leeway new_validation 5) [host]) ["exp"; "aud"]) [host] Hj eq_refl) as Ed.
  cbn [jwt_claims aud exp leeway set_required_spec_claims set_audience set_leeway] in Ed. specialize (Ed ltac:(by apply list_elem_of_singleton) ltac:(lia)).
  split.
  - unfold require_auth. rewrite Eh, Hd, En, Et. cbn [negb result_bind ok_or]. unfold ensure_jwt_secret_is_valid, non_empty.
    destruct (String.eqb_spec (auth_secret a) ""); cbn [ok_or result_bind]; [done|]. unfold get_claims_validate_jwt_token. by rewrite Ed.
  - eexists. unfold located_session. rewrite En, Et, Eh. cbn [result_bind]. unfold get_claims_validate_jwt_token. cbn [jwt_secret session_config].
    rewrite Ed. split; [done|]. cbn [session jwt_claims session_id RestSessions.metadata]. rewrite <- Hu.
    destruct (login_metadata_attr (login_name credentials) (login_account credentials None hs) credentials params) as (A & _ & B & D & E). by split_and!.
Qed.

(** A login with the wrong name or password is refused with 401 and creates no session. *)
Lemma wrong_credentials_refused now uuid a host credentials params hs s :
  a.(auth_trust) = false -> credentials.(login_name) <> a.(demo_user) \/ credentials.(password) <> a.(demo_password) ->
  handle_login_request now uuid a host credentials params hs s = (Err (Api InvalidAuthData), s) /\ rest_status (Api InvalidAuthData) = 401.
Proof.
  intros Ht Hw. split; [|done]. unfold handle_login_request, login_spcs_session, login_user. rewrite Ht. cbn [result_bind].
  destruct (String.eqb_spec (login_name credentials) (demo_user a)); cbn [negb orb result_bind]; [|done].
  destruct (String.eqb_spec (password credentials) (demo_password a)); cbn [negb orb result_bind]; [|done]. naive_solver.
Qed.

(** Without a secret a login fails, but its session has been created by then. *)
Theorem failed_login_leaves_session now uuid a host credentials params hs s :
  a.(auth_trust) = false -> a.(auth_secret) = "" -> credentials.(login_name) = a.(demo_user) -> credentials.(password) = a.(demo_password) ->
  build_session uuid = Ok tt -> df_sessions s !! uuid = None ->
  exists s', handle_login_request now uuid a host credentials params hs s = (Err (Api NoJwtSecret), s') /\ is_Some (df_sessions s' !! uuid).
Proof.
  intros Ht Hs Hu Hp Hb Hn. unfold handle_login_request, login_spcs_session, login_user. rewrite Ht, Hu, Hp, !String.eqb_refl. cbn [negb orb result_bind].
  cbn [default from_option id with_metadata new_tokenized session_id]. unfold create_user_session. rewrite Hn, Hb, Hs. cbn [result_bind].
  eexists. split; [reflexivity|]. unfold create_session. rewrite Hn. cbn. rewrite lookup_insert_eq. by eexists.
Qed.

(** Without a secret anybody can sign tokens: the routes that are not guarded take a session from a token
    signed with the empty key, and delete it. *)
Theorem empty_secret_forgery now uuid id cfg hs ext addr host token c s :
  cfg.(auth).(auth_secret) = "" -> cfg.(auth).(auth_trust) = false -> header_get hs "host" = Some host -> to_str host = Some host ->
  header_get hs "authorization" = Some (token_header token) -> encode c "" = Ok token -> c.(aud) = host -> (now - 5 <= c.(exp))%Z ->
  is_Some (df_sessions s !! c.(session).(session_id)) ->
  exists s', serve now uuid id cfg (mkRequest (mkParts hs ext) addr (PostSession (mkSessionParams true))) s = (Ok RNull, s') /\
    df_sessions s' !! c.(session).(session_id) = None.
Proof.
  intros Hs Ht Hhost Hh Hauth He Ha Hexp [e Hses]. unfold serve. cbn [guarded route handle]. unfold with_session, from_request_parts, located_session.
  unfold trusted_session, session_config. cbn [trust_spcs_ingress parts headers]. rewrite Ht.
  unfold extract_token_from_auth. rewrite Hauth. cbn [mbind option_bind]. rewrite token_header_round_trip by (by eapply encode_shape).
  unfold host_of. cbn [headers]. rewrite Hhost. cbn [mbind option_bind]. rewrite Hh. cbn [ok_or result_bind jwt_secret]. rewrite Hs.
  unfold get_claims_validate_jwt_token. rewrite (encode_decode now c "" token _ [host]) by (done || (by rewrite Ha; apply list_elem_of_singleton)).
  cbn [result_bind]. unfold get_or_create_session, update_session_expiry. rewrite Hses. cbn [delete_session_flag].
  eexists. split; [reflexivity|]. cbn. apply lookup_delete_eq.
Qed.

(** ** Retries *)

(** A query in progress under a request id is not run again by a retry: the retry waits for it and
    answers under its id. *)
Lemma retry_waits id cfg ts q body client_ip s query_id n :
  default false body.(async_exec) = false -> q.(retry_count) = Some n -> (0 < n)%Z ->
  locate_query_id (ByRequestId q.(request_id) body.(sql_text)) (queries s) = Ok query_id ->
  handle_query_request id cfg ts q body client_ip s =
    let '(r, s') := wait query_id s in
    (match r with
     | Ok r => handle_query_ok_result query_id r cfg.(dbt_serialization_format)
     | Err e => Err (Api (Execution e))
     end, s').
Proof.
  intros Ha Hc Hn Hl. unfold handle_query_request. rewrite Ha, Hl, Hc. change (default 0%Z (Some n)) with n. rewrite (proj2 (Z.ltb_lt _ _) Hn).
  destruct (wait query_id s) as [[r|e] s']; done.
Qed.
End authentication.

(** ** The response *)
Section response.
Context {C : Chrono} {T : Timestamps} {TZ : TimeZones} `{!ConvExt, !TimestampExt, !BatchExt, !BatchLaws, !Writers} {J : Jwt}.

Lemma num_rows_ok fs cs n : batch_ok fs cs n -> num_rows (mkBatch fs cs) = Z.of_nat n.
Proof. intros (Hne & _ & Hl). unfold num_rows. cbn [columns]. destruct cs as [|c cs]; [done|]. by apply Forall_cons in Hl as [-> _]. Qed.

Lemma total_rows_sum (n : RecordBatch -> nat) bs out acc :
  Forall2 (fun b o => num_rows o = Z.of_nat (n b)) bs out -> (0 <= acc)%Z -> (acc + Z.of_nat (sum_list_with n bs) <= i64_max)%Z ->
  foldl (fun m b => wrap_i64 (m + Z.min (num_rows b) i64_max)) acc out = (acc + Z.of_nat (sum_list_with n bs))%Z.
Proof.
  intros Hf. revert acc. induction Hf as [|b o bs out Hb _ IH]; intros acc Hacc Hle; cbn [foldl sum_list_with] in *; [lia|].
  rewrite Hb, Z.min_l by lia. rewrite wrap_i64_id by solve_range. rewrite IH by lia. lia.
Qed.

(** The response to a query whose result is well typed counts its rows, describes its columns and holds
    them in the one format the server is configured for; in the Arrow format it fails only when
    the writer of Arrow does. *)
Theorem response_describes_result id q fmt n : result_ok q n -> (Z.of_nat (sum_list_with n q.(records)) <= i64_max)%Z ->
  (forall r, handle_query_ok_result id q fmt = Ok r -> exists d, r = mkJson (Some d) true (Some "successfully executed") None /\
     d.(total) = Some (Z.of_nat (sum_list_with n q.(records))) /\ d.(returned) = d.(total) /\ d.(row_type) = column_info q /\ d.(data_query_id) = Some id /\
     (fmt = Json -> d.(query_result_format) = Some "json" /\ is_Some d.(row_set) /\ d.(row_set_base_64) = None) /\
     (fmt = ResultBatches.Arrow -> d.(query_result_format) = Some "arrow" /\ is_Some d.(row_set_base_64) /\ d.(row_set) = None)) /\
  (fmt = ResultBatches.Arrow -> forall e, handle_query_ok_result id q fmt = Err e ->
     exists out err, convert_record_batches q fmt = Ok out /\ write_arrow out = Err err /\ e = Api err).
Proof.
  intros Hok Hle. destruct (converted_batches_keep q fmt n Hok) as (out & Eo & Hout). unfold handle_query_ok_result. rewrite Eo. cbn [of_batch result_bind].
  assert (total_rows out = Z.of_nat (sum_list_with n (records q))) as ->.
  { unfold total_rows. rewrite (total_rows_sum n (records q)); [done| |lia|done]. eapply Forall2_impl; [exact Hout|].
    intros b [fs cs] (Hb & _). by apply num_rows_ok in Hb. }
  split.
  - intros r. destruct fmt.
    + cbn [result_bind]. destruct (write_arrow out) as [t|]; cbn [of_api result_map result_bind]; [|done]. intros [= <-].
      eexists. split; [done|]. cbn. by split_and!.
    + destruct (of_batch (convert_struct_to_timestamp out)) as [out'|]; cbn [result_bind]; [|done].
      destruct (write_json out') as [t|]; cbn [of_api result_map result_bind]; [|done]. intros [= <-].
      eexists. split; [done|]. cbn. by split_and!.
  - intros -> e. cbn [result_bind]. destruct (write_arrow out) as [t|err] eqn:Ew; cbn [of_api result_map result_bind]; [done|].
    intros [= <-]. by exists out, err.
Qed.
End response.

(** ** Examples *)
Module ServerExamples.
Import Gregorian ArrowExample SerdeExample ConversionExamples DatePartsExamples TimestampExamples BatchExamples RestExamples.

Definition state : Type := CoreExecutionService Registry.t QueryResult.

#[global] Instance example_writers : Writers := {|
  write_json _ := Ok "[]"; write_arrow _ := Ok "arrow"; arrow_display _ := "arrow" |}.

(** Queries answer with a sample result and leave the service as it is. *)
#[global] Instance example_calls : QueryCalls (R := Registry.t) := {|
  query _ _ _ s := (Ok sample_result, s); wait _ s := (Ok sample_result, s); abort_query _ s := (Ok tt, s); build_session _ := Ok tt |}.

Definition auth0 : Auth := mkAuth "ann" "pw" "secret" false.
Definition config0 : RestApiConfig := mkRestConfig auth0 Json.
Definition empty_service : state := new.

(** The login that made the token of the table has no more metadata than its names. *)
Definition credentials0 : LoginRequestData := mkLogin "" "" "" "ann" "pw".
Definition params0 : LoginRequestQueryParams := mkLoginParams (Some "db") None None.

Definition login_claims : Claims :=
  jwt_claims 0 "ann" "localhost" JWT_TOKEN_EXPIRATION_SECONDS (mkTokenized "u1" (login_metadata "ann" "" credentials0 params0)).
Definition login_table : list (Claims * string * string) := [(login_claims, "secret", "aa.bb.cc")].

Lemma login_table_ok : table_ok login_table.
Proof. repeat constructor. exists "aa", "bb", "cc". by split_and!. Qed.

Definition login_jwt : Jwt := table_jwt login_table.
Definition login_jwt_laws : @JwtLaws login_jwt := table_jwt_laws login_table login_table_ok.

Definition logged_in : result (@rest_failure login_jwt) LoginResponse * state :=
  handle_login_request (J := login_jwt) 0 "u1" auth0 "localhost" credentials0 params0 [] empty_service.

Lemma login_then_request_witness :
  fst logged_in = Ok (login_response "aa.bb.cc") /\
  require_auth (J := login_jwt) 86400 auth0 (mkParts [("host", "localhost"); ("authorization", token_header "aa.bb.cc")] None) =
    Ok (mkParts [("host", "localhost"); ("authorization", token_header "aa.bb.cc")] None).
Proof.
  assert (logged_in = (Ok (login_response "aa.bb.cc"), snd logged_in)) as E by reflexivity.
  split; [by rewrite E|].
  destruct (login_then_request (J := login_jwt) (JL := login_jwt_laws) 0 "u1" auth0 "localhost" credentials0 params0 [] empty_service
    (login_response "aa.bb.cc") (snd logged_in) eq_refl eq_refl eq_refl E) as (token & Ht & Hr).
  injection Ht as <-. apply (Hr 86400%Z (mkParts [("host", "localhost"); ("authorization", token_header "aa.bb.cc")] None)); [vm_compute; discriminate|reflexivity|reflexivity].
Defined.

Definition anonymous_query : Request :=
  mkRequest (mkParts [("host", "localhost")] None) "127.0.0.1" (PostQuery (mkQueryRequest "r1" None) (mkQueryBody "SELECT 1" None None)).

Definition ann_query : Request :=
  mkRequest ann_request "127.0.0.1" (PostQuery (mkQueryRequest "r1" None) (mkQueryBody "SELECT 1" None None)).


Lemma response_describes_result_witness :
  exists d, handle_query_ok_result "q" sample_result ResultBatches.Arrow = Ok (mkJson (Some d) true (Some "successfully executed") None) /\ d.(total) = Some 2%Z.
Proof.
  destruct (response_describes_result "q" sample_result ResultBatches.Arrow (fun _ => 2%nat)) as [H _].
  - constructor; [|done]. split; [|split; [repeat constructor|repeat constructor]]. split; [done|]. split; [|repeat constructor].
    repeat constructor; intros Hn i; try discriminate. by destruct i as [|[|[]]].
  - vm_compute. discriminate.
  - destruct (handle_query_ok_result "q" sample_result ResultBatches.Arrow) as [r|e] eqn:E; [|discriminate E].
    destruct (H r eq_refl) as (d & -> & Ht & _). exists d. split; [reflexivity|exact Ht].
Defined.

(** The token that was signed with the empty key ends the session of another user. *)
Example forged_deletion :
  let cfg := mkRestConfig (mkAuth "ann" "pw" "" false) Json in
  let s := insert_session 0 "11111111" empty_service in
  exists s', serve 0 "u" "q" cfg (mkRequest (mkParts [("host", "localhost"); ("authorization", token_header "ee.ff.gg")] None) "10.0.0.1"
      (PostSession (mkSessionParams true))) s = (Ok RNull, s') /\ df_sessions s' !! "11111111" = None.
Proof.
  intros cfg s. apply (empty_secret_forgery 0 "u" "q" cfg _ None "10.0.0.1" "localhost" "ee.ff.gg" forged_claims s);
    [reflexivity..|vm_compute; discriminate|by eexists].
Qed.

(** Without a demo user a query still needs a token, but an abort needs nothing. *)
Example no_demo_user :
  let cfg := mkRestConfig (mkAuth "" "" "secret" false) Json in
  let running := RunningQuery.with_request_id (RunningQuery.new "q" Shared.empty).1 (Some "r1") in
  let s := set_queries (Registry.add running Registry.new) empty_service in
  fst (serve 0 "u" "q" cfg anonymous_query s) = Err (Rejected MissingToken) /\
  fst (serve 0 "u" "q" cfg (mkRequest (mkParts [("host", "localhost")] None) "10.0.0.1" (PostAbort (mkAbort "SELECT 1" "r1"))) s) = Ok RNull.
Proof. split; reflexivity. Qed.

(** A column of the client's own with members named as those of a timestamp fails the query. *)
Example user_struct_fails :
  let field := mkField "S" (TStruct [("epoch", TUtf8 JsonEncode.Utf8); ("fraction", TInt Int32)]) true ∅ in
  let batch := mkBatch [field] [AStruct [("epoch", AUtf8 JsonEncode.Utf8 [Some "x"]); ("fraction", AInt Int32 [Some 1%Z])] [true]] in
  handle_query_ok_result "q" (mkResult [batch] [field] []) Json = Err (Api (Execution (OtherError "Can't cast to int64_array"))).
Proof. reflexivity. Qed.
End ServerExamples.
