(* ===== verification/Flatten.v ===== *)
(** * FLATTEN

    [functions/src/table/flatten]: the table function that explodes arrays and objects into rows
    ([func.rs]) and its execution over the batches of an input expression ([provider.rs]).

    A row is a record of the six columns and the builders are the list of the rows so far.
    Parameters: [serde_json] ([Serde]) and the evaluation of expressions and subqueries by
    DataFusion ([Evaluator]). *)

From Stdlib Require Import ZArith Lia Ascii String.
From stdpp Require Import base option list gmap strings.
From S2P Require Import Prelude Utf8 JsonValue JsonEncode SemiStructured.

Open Scope string_scope.
Open Scope rust_scope.

#[local] Arguments String.append : simpl nomatch.

(** ** Data *)
Inductive FlattenMode := Both | Array | Object.

Definition is_object (self : FlattenMode) : bool := match self with Object | Both => true | Array => false end.
Definition is_array (self : FlattenMode) : bool := match self with Array | Both => true | Object => false end.

(** [datafusion_expr::Expr], the cases that are told apart. *)
Inductive Expr :=
| Literal (v : ScalarValue)
| Column (relation : option string) (name : string)
| ScalarFunction (func : string) (args : list Expr)
| ScalarSubquery (plan : nat)
| BinaryExpr (lhs : Expr) (op : string) (rhs : Expr)
| OtherExpr (children : list Expr) (text : string).

Record FlattenArgs := mkArgs { input_expr : Expr; args_path : list PathToken; is_outer : bool; is_recursive : bool; mode : FlattenMode }.

Record Row := mkRow {
  seq : Z; key : option string; row_path : option string; index : option nat; row_value : option string; this : option string }.

(** The rows of the builders, and the last value that was expanded. *)
Record Out := mkOut { rows : list Row; last_outer : option Value }.

Inductive flatten_failure := FlattenExec (message : string) | FlattenJson (text : string) | FlattenOther (message : string).

Notation fres A := (result flatten_failure A).

(** ** [func.rs] *)

(** The number of a token is its position; the first key has no dot. *)
Definition token_text (idx : nat) (t : PathToken) : string :=
  match t with
  | Key k => if Nat.eqb idx 0 then k else "." ++ k
  | Index i => "[" ++ nat_to_string i ++ "]"
  end.

Fixpoint path_text (idx : nat) (path : list PathToken) : string :=
  match path with [] => "" | t :: path => token_text idx t ++ path_text (S idx) path end.

Definition path_to_string (path : list PathToken) : string := path_text 0 path.

Section flatten.
Context `{Serde}.

Definition push (out : Out) (r : Row) : Out := mkOut (out.(rows) ++ [r])%list out.(last_outer).
Definition set_outer (out : Out) (v : Value) : Out := mkOut out.(rows) (Some v).

Definition append_null (row_id : Z) (out : Out) : Out := push out (mkRow row_id None None None None None).

(** The row of a child. *)
Definition child_row (row_id : Z) (p : list PathToken) (t : PathToken) (v parent : Value) : Row :=
  mkRow row_id (match t with Key k => Some k | Index _ => None end) (Some (path_to_string p))
    (match t with Index i => Some i | Key _ => None end) (Some (to_string_pretty v)) (Some (to_string_pretty parent)).

(** [outer] is only passed on. *)
Fixpoint flatten (row_id : Z) (value : Value) (path : list PathToken) (outer recursive : bool) (mode : FlattenMode) (out : Out) : Out :=
  match value with
  | VArray l =>
      if negb (is_array mode) then out
      else
        (fix each (i : nat) (l : list Value) (out : Out) : Out :=
          match l with
          | [] => out
          | v :: l =>
              let p := (path ++ [Index i])%list in
              let out := push out (child_row row_id p (Index i) v value) in
              let out := if recursive then flatten row_id v p outer recursive mode out else out in
              each (S i) l out
          end) O l (set_outer out value)
  | VObject m =>
      if negb (is_object mode) then out
      else
        (fix each (m : Map) (out : Out) : Out :=
          match m with
          | [] => out
          | (k, v) :: m =>
              let p := (path ++ [Key k])%list in
              let out := push out (child_row row_id p (Key k) v value) in
              let out := if recursive then flatten row_id v p outer recursive mode out else out in
              each m out
          end) m (set_outer out value)
  | _ => out
  end.

(** *** Arguments *)
Definition literal_text (e : option Expr) : option string := match e with Some (Literal (SUtf8 Utf8 (Some v))) => Some v | _ => None end.
Definition literal_bool (e : option Expr) : option bool := match e with Some (Literal (SBoolean (Some v))) => Some v | _ => None end.

Definition path_arg (e : option Expr) : fres (list PathToken) :=
  match literal_text e with
  | Some v => ok_or (tokenize_path v) (FlattenExec "Invalid JSON path")
  | None => Ok []
  end.

(** Only called when every argument has a name. *)
Definition get_arg (args : list (Expr * option string)) (name : string) : option Expr :=
  fst <$> List.find (fun a => match snd a with Some n => String.eqb (to_ascii_lowercase n) name | None => false end) args.

Definition get_named_args (args : list (Expr * option string)) : fres FlattenArgs :=
  let? input_expr := ok_or (get_arg args "input") (FlattenExec "Missing required argument: INPUT") in
  let? path := path_arg (get_arg args "path") in
  let is_outer := default false (literal_bool (get_arg args "is_outer")) in
  let is_recursive := default false (literal_bool (get_arg args "is_recursive")) in
  let? mode := match literal_text (get_arg args "mode") with
               | Some v =>
                   let v := to_ascii_lowercase v in
                   if String.eqb v "object" then Ok Object else if String.eqb v "array" then Ok Array else if String.eqb v "both" then Ok Both
                   else Err (FlattenExec "MODE must be one of: object, array, both")
               | None => Ok Both
               end in
  Ok (mkArgs input_expr path is_outer is_recursive mode).

Definition get_args (args : list Expr) : fres FlattenArgs :=
  match args with
  | [] => Err (FlattenExec "flatten() expects at least 1 argument: INPUT")
  | input :: _ =>
      let? path := path_arg (args !! 1%nat) in
      let is_outer := default false (literal_bool (args !! 2%nat)) in
      let is_recursive := default false (literal_bool (args !! 3%nat)) in
      let mode := match literal_text (args !! 4%nat) with
                  | Some v => let v := to_ascii_lowercase v in if String.eqb v "object" then Object else if String.eqb v "array" then Array else Both
                  | None => Both
                  end in
      Ok (mkArgs input path is_outer is_recursive mode)
  end.

Definition call (args : list (Expr * option string)) : fres FlattenArgs :=
  let named_args_count := length (List.filter (fun a => match snd a with Some _ => true | None => false end) args) in
  if (0 <? named_args_count)%nat && negb (Nat.eqb named_args_count (length args)) then
    Err (FlattenExec "flatten() supports either all named arguments or positional")
  else if (0 <? named_args_count)%nat then get_named_args args else get_args (map fst args).

(** ** [provider.rs] *)
Class Evaluator := {
  (** [create_physical_expr] on no input, and [collect] of a scan with a projection: the batches of one column, as text. *)
  evaluate : Expr -> fres (list (option string));
  scan_project : string -> Expr -> fres (list (list (option string)));
  evaluate_subquery : nat -> fres (list (list ScalarValue)) }.
Context `{Evaluator}.

(** [TreeNode::apply]: the first column with a table, in the order of the tree. *)
Fixpoint extract_table_ref (e : Expr) : option string :=
  let first := fix first (es : list Expr) : option string :=
    match es with [] => None | e :: es => match extract_table_ref e with Some r => Some r | None => first es end end in
  match e with
  | Column (Some r) _ => Some r
  | Column None _ | Literal _ | ScalarSubquery _ => None
  | ScalarFunction _ args => first args
  | BinaryExpr l _ r => match extract_table_ref l with Some t => Some t | None => extract_table_ref r end
  | OtherExpr es _ => first es
  end.

(** The first value of the first batch, or null. *)
Definition subquery_value (batches : list (list ScalarValue)) : Expr :=
  match batches with (v :: _) :: _ => Literal v | _ => Literal SNull end.

Fixpoint inline_scalar_subqueries_in_expr (e : Expr) : fres Expr :=
  match e with
  | ScalarFunction func args =>
      let? args := (fix each (es : list Expr) : fres (list Expr) :=
        match es with
        | [] => Ok []
        | e :: es => let? e := inline_scalar_subqueries_in_expr e in let? es := each es in Ok (e :: es)
        end) args in
      Ok (ScalarFunction func args)
  | ScalarSubquery plan => let? batches := evaluate_subquery plan in Ok (subquery_value batches)
  | BinaryExpr l op r =>
      let? l := inline_scalar_subqueries_in_expr l in
      let? r := inline_scalar_subqueries_in_expr r in
      Ok (BinaryExpr l op r)
  | other => Ok other
  end.

Definition evaluate_expr_or_plan (e : Expr) : fres (list (list (option string))) :=
  match extract_table_ref e with
  | None => let? e := inline_scalar_subqueries_in_expr e in let? rows := evaluate e in Ok [rows]
  | Some table_ref => scan_project table_ref e
  end.

Definition input_batches (args : FlattenArgs) : fres (list (list (option string))) :=
  match args.(input_expr) with
  | Literal (SUtf8 Utf8 (Some s)) => Ok [[Some s]]
  | e => evaluate_expr_or_plan e
  end.

(** One value of the input column. *)
Definition flatten_input (args : FlattenArgs) (row_id : Z) (out : Out) (v : option string) : fres Out :=
  match v with
  | None => Ok (append_null row_id out)
  | Some v =>
      let? json_val := ok_or (from_str v) (FlattenJson v) in
      match get_json_value json_val args.(args_path) with
      | None => Ok out
      | Some input => Ok (flatten row_id input args.(args_path) args.(is_outer) args.(is_recursive) args.(mode) out)
      end
  end.

Fixpoint flatten_inputs (args : FlattenArgs) (row_id : Z) (vs : list (option string)) (out : Out) : fres Out :=
  match vs with [] => Ok out | v :: vs => let? out := flatten_input args row_id out v in flatten_inputs args row_id vs out end.

(** The batches with rows, the value the last batch expanded last, and the counter. *)
Fixpoint flatten_batches (args : FlattenArgs) (row_id : Z) (batches : list (list (option string))) (outer : option Value) :
    fres (list (list Row) * option Value * Z) :=
  match batches with
  | [] => Ok ([], outer, row_id)
  | batch :: batches =>
      let row_id := (row_id + 1)%Z in
      let? out := flatten_inputs args row_id batch (mkOut [] None) in
      let? (rest, outer, row_id) := flatten_batches args row_id batches out.(last_outer) in
      Ok (match out.(rows) with [] => rest | rows => rows :: rest end, outer, row_id)
  end.

Definition empty_record_batch (path : list PathToken) (last_outer : option Value) (null : bool) (row_id : Z) : list Row :=
  if null then [mkRow row_id None (Some (path_to_string path)) None None (to_string_pretty <$> last_outer)] else [].

(** The batches of the stream; the stream applies the limit and the projection. *)
Definition execute (args : FlattenArgs) : fres (list (list Row)) :=
  let? batches := input_batches args in
  let? (all_batches, last_outer, row_id) := flatten_batches args 0 batches None in
  match all_batches with
  | [] => Ok [empty_record_batch args.(args_path) last_outer args.(is_outer) row_id]
  | _ => Ok all_batches
  end.
End flatten.

(** ** The rows *)

(** The elements of a value that a mode admits, with their tokens. *)
Definition children (mode : FlattenMode) (v : Value) : list (PathToken * Value) :=
  match v with
  | VArray l => if is_array mode then imap (fun i w => (Index i, w)) l else []
  | VObject m => if is_object mode then map (fun kw => (Key kw.1, kw.2)) m else []
  | _ => []
  end.

(** A value below another: the path to it, the value and the value that holds it. *)
Record node := mkNode { node_path : list PathToken; node_value : Value; node_parent : Value }.

Definition below (t : PathToken) (n : node) : node := mkNode (t :: n.(node_path)) n.(node_value) n.(node_parent).

(** All values below a value, each before those below it. *)
Fixpoint nodes (recursive : bool) (mode : FlattenMode) (v : Value) : list node :=
  match v with
  | VArray l =>
      if is_array mode then
        (fix each (i : nat) (l : list Value) : list node :=
          match l with
          | [] => []
          | w :: l => (mkNode [Index i] w v :: (if recursive then map (below (Index i)) (nodes recursive mode w) else [])) ++ each (S i) l
          end%list) O l
      else []
  | VObject m =>
      if is_object mode then
        (fix each (m : Map) : list node :=
          match m with
          | [] => []
          | (k, w) :: m => (mkNode [Key k] w v :: (if recursive then map (below (Key k)) (nodes recursive mode w) else [])) ++ each m
          end%list) m
      else []
  | _ => []
  end.

(** The nodes of one child, and of a value by its children. *)
Definition child_nodes (recursive : bool) (mode : FlattenMode) (v : Value) (c : PathToken * Value) : list node :=
  mkNode [c.1] c.2 v :: (if recursive then map (below c.1) (nodes recursive mode c.2) else []).

Lemma nodes_children recursive mode v : nodes recursive mode v = concat (map (child_nodes recursive mode v) (children mode v)).
Proof.
  destruct v as [| | | |l|m]; cbn [nodes children]; try done.
  - destruct (is_array mode); [|done]. set (w := VArray l). unfold imap.
    change (fun i w0 => (Index i, w0)) with (fun i (w0 : Value) => (Index (0 + i), w0)).
    assert (forall k, (fix each (i : nat) (l : list Value) : list node :=
      match l with
      | [] => []
      | w0 :: l => (mkNode [Index i] w0 w :: (if recursive then map (below (Index i)) (nodes recursive mode w0) else [])) ++ each (S i) l
      end%list) k l = concat (map (child_nodes recursive mode w) (imap (fun i (w0 : Value) => (Index (k + i), w0)) l))) as Hk.
    { clear. intros k. revert k. generalize w as v0. induction l as [|x l IH]; intros v0 k; [done|].
      cbn [imap map concat]. rewrite IH. f_equal; [unfold child_nodes; cbn; by rewrite Nat.add_0_r|]. f_equal. f_equal.
      apply imap_ext. intros i y _. cbn. by rewrite Nat.add_succ_r. }
    apply (Hk 0%nat).
  - destruct (is_object mode); [|done]. set (w := VObject m). clearbody w. induction m as [|[k x] m IH]; [done|]. cbn [map concat]. by rewrite IH.
Qed.

Lemma elem_of_concat {A} (x : A) (ls : list (list A)) : x ∈ concat ls <-> exists l, x ∈ l /\ l ∈ ls.
Proof.
  rewrite list_elem_of_In, in_concat. setoid_rewrite list_elem_of_In. naive_solver.
Qed.

Section rows.
Context `{Serde}.

Definition row_of (row_id : Z) (path : list PathToken) (n : node) : Row :=
  child_row row_id (path ++ n.(node_path))%list (default (Index 0) (last n.(node_path))) n.(node_value) n.(node_parent).

Lemma nodes_nonempty recursive mode v n : n ∈ nodes recursive mode v -> n.(node_path) <> [].
Proof.
  rewrite nodes_children. intros (l & Hn & (c & -> & _)%list_elem_of_fmap)%elem_of_concat. unfold child_nodes in Hn.
  apply elem_of_cons in Hn as [->|Hn]; [done|]. destruct recursive; [|by apply not_elem_of_nil in Hn].
  by apply list_elem_of_fmap in Hn as (n' & -> & _).
Qed.

Lemma row_of_below row_id path t n : n.(node_path) <> [] -> row_of row_id path (below t n) = row_of row_id (path ++ [t])%list n.
Proof. intros Hn. unfold row_of. cbn [node_path below node_value node_parent]. rewrite <- app_assoc. cbn [app]. by destruct (node_path n). Qed.

(** One turn of the loops, on their children. *)
Definition turn (row_id : Z) (path : list PathToken) (outer recursive : bool) (mode : FlattenMode) (v : Value) (out : Out) (c : PathToken * Value) : Out :=
  let p := (path ++ [c.1])%list in
  let out := push out (child_row row_id p c.1 c.2 v) in
  if recursive then flatten row_id c.2 p outer recursive mode out else out.

Lemma flatten_children row_id v path outer recursive mode out :
  flatten row_id v path outer recursive mode out =
  foldl (turn row_id path outer recursive mode v)
    (match v with VArray _ => if is_array mode then set_outer out v else out | VObject _ => if is_object mode then set_outer out v else out | _ => out end)
    (children mode v).
Proof.
  destruct v as [| | | |l|m]; cbn [flatten children]; try done.
  - destruct (is_array mode); cbn [negb]; [|done]. set (w := VArray l).
    change (fun i w0 => (Index i, w0)) with (fun i (w0 : Value) => (Index (0 + i), w0)).
    generalize (set_outer out w) as o. generalize 0%nat as k. clearbody w. induction l as [|x l IH]; intros k o; [done|].
    cbn [imap foldl]. rewrite IH. unfold turn at 2. cbn [fst snd]. rewrite Nat.add_0_r. f_equal.
    apply imap_ext. intros i y _. cbn. by rewrite Nat.add_succ_r.
  - destruct (is_object mode); cbn [negb]; [|done]. set (w := VObject m). generalize (set_outer out w) as o. clearbody w.
    induction m as [|[k x] m IH]; intros o; [done|]. cbn [map foldl]. rewrite IH. done.
Qed.

Lemma foldl_turn_rows row_id path outer recursive mode v cs out :
  Forall (fun c => forall p o, rows (flatten row_id c.2 p outer recursive mode o) = (rows o ++ map (row_of row_id p) (nodes recursive mode c.2))%list) cs ->
  rows (foldl (turn row_id path outer recursive mode v) out cs) =
    (rows out ++ map (row_of row_id path) (concat (map (child_nodes recursive mode v) cs)))%list.
Proof.
  revert out. induction cs as [|c cs IH]; intros out Hc; cbn [foldl map concat]; [by rewrite app_nil_r|].
  apply Forall_cons in Hc as [Hc Hcs]. rewrite IH by done. rewrite map_app, app_assoc. f_equal. unfold turn, child_nodes.
  assert (child_row row_id (path ++ [c.1]) c.1 c.2 v = row_of row_id path (mkNode [c.1] c.2 v)) as -> by done.
  destruct recursive; [|done]. rewrite Hc. cbn [rows push map]. rewrite <- app_assoc. cbn [app]. do 2 f_equal.
  rewrite map_map. apply map_ext_in. intros n Hn%list_elem_of_In. symmetry. apply row_of_below. by eapply nodes_nonempty.
Qed.

Lemma children_elem_value mode v (P : Value -> Prop) :
  match v with VArray l => Forall P l | VObject m => Forall (fun kv => P kv.2) m | _ => True end -> Forall (fun c => P c.2) (children mode v).
Proof.
  destruct v as [| | | |l|m]; cbn [children]; try done.
  - intros Hl. destruct (is_array mode); [|done]. apply Forall_forall. intros [t w] (i & x & [= -> ->] & Hw)%elem_of_lookup_imap. cbn.
    by eapply Forall_lookup_1.
  - intros Hm. destruct (is_object mode); [|done]. apply Forall_map. eapply Forall_impl; [exact Hm|]. done.
Qed.

(** The builders end with a row for every node, in order. *)
Lemma flatten_rows row_id v path outer recursive mode out :
  rows (flatten row_id v path outer recursive mode out) = (rows out ++ map (row_of row_id path) (nodes recursive mode v))%list.
Proof.
  revert path out. induction v as [|bo|nu|st|l IH|m IH] using value_ind'; intros path out; rewrite flatten_children, nodes_children; cbn [children].
  1-4: cbn [foldl concat map]; by rewrite app_nil_r.
  - rewrite foldl_turn_rows; [by destruct (is_array mode)|]. exact (children_elem_value mode (VArray l) (fun w => forall p o, rows (flatten row_id w p outer recursive mode o) = (rows o ++ map (row_of row_id p) (nodes recursive mode w))%list) IH).
  - rewrite foldl_turn_rows; [by destruct (is_object mode)|]. exact (children_elem_value mode (VObject m) (fun w => forall p o, rows (flatten row_id w p outer recursive mode o) = (rows o ++ map (row_of row_id p) (nodes recursive mode w))%list) IH).
Qed.
End rows.

(** *** Which values have rows *)
Definition admits (mode : FlattenMode) (v : Value) : bool :=
  match v with VArray _ => is_array mode | VObject _ => is_object mode | _ => false end.

(** Every value on the way, and the one at the end, is one the mode expands. *)
Fixpoint admitted (mode : FlattenMode) (v : Value) (q : list PathToken) : bool :=
  admits mode v &&
  match q with
  | [] => true
  | t :: q => match get_json_value v [t] with Some w => admitted mode w q | None => false end
  end.

Lemma children_spec mode v t w : value_wf v -> (t, w) ∈ children mode v <-> admits mode v = true /\ get_json_value v [t] = Some w.
Proof.
  intros Hwf. destruct v as [| | | |l|m]; cbn [children admits].
  1-4: split; [by intros []%not_elem_of_nil|by intros []].
  - destruct (is_array mode); [|split; [by intros []%not_elem_of_nil|by intros []]]. split.
    + intros (i & x & [= -> ->] & Hw)%elem_of_lookup_imap. split; [done|]. cbn. by rewrite Hw.
    + intros [_ Hg]. apply elem_of_lookup_imap. destruct t as [k|i]; cbn in Hg; [done|]. destruct (l !! i) as [x|] eqn:E; [|done].
      injection Hg as ->. by exists i, w.
  - apply value_wf_object in Hwf as [Hnd _]. destruct (is_object mode); [|split; [by intros []%not_elem_of_nil|by intros []]]. split.
    + intros ([k x] & [= -> ->] & Hin)%list_elem_of_fmap. split; [done|]. cbn. by rewrite (map_get_elem _ _ _ Hnd Hin).
    + intros [_ Hg]. destruct t as [k|i]; cbn in Hg; [|done]. destruct (map_get k m) as [x|] eqn:E; [|done]. injection Hg as ->.
      apply list_elem_of_fmap. exists (k, w). split; [done|]. by apply map_get_Some.
Qed.

Lemma children_wf mode v : value_wf v -> Forall (fun c => value_wf c.2) (children mode v).
Proof.
  intros Hwf. apply children_elem_value. destruct v; try done; [by apply value_wf_array in Hwf|by apply value_wf_object in Hwf as [_ ?]].
Qed.

Lemma get_json_value_cons v t q : get_json_value v (t :: q) = get_json_value v [t] ≫= (fun w => get_json_value w q).
Proof. destruct t as [k|i]; cbn; [by destruct (get_key k v)|by destruct (get_index i v)]. Qed.

Lemma elem_of_nodes_step recursive mode v n : n ∈ nodes recursive mode v <->
  exists t w, (t, w) ∈ children mode v /\ (n = mkNode [t] w v \/ recursive = true /\ exists n', n' ∈ nodes recursive mode w /\ n = below t n').
Proof.
  rewrite nodes_children, elem_of_concat. split.
  - intros (l & Hn & ([t w] & -> & Hc)%list_elem_of_fmap). exists t, w. split; [done|]. unfold child_nodes in Hn. cbn [fst snd] in Hn.
    apply elem_of_cons in Hn as [->|Hn]; [by left|right]. destruct recursive; [|by apply not_elem_of_nil in Hn]. split; [done|].
    apply list_elem_of_fmap in Hn as (n' & -> & Hn'). by exists n'.
  - intros (t & w & Hc & Hn). exists (child_nodes recursive mode v (t, w)). split.
    + unfold child_nodes. cbn [fst snd]. destruct Hn as [->|(-> & n' & Hn' & ->)]; [by left|right]. apply list_elem_of_fmap. by exists n'.
    + apply list_elem_of_fmap. by exists (t, w).
Qed.

(** A node is an element of a value that the path before its last token leads to. *)
Definition at_path (recursive : bool) (mode : FlattenMode) (v : Value) (n : node) : Prop :=
  exists q t, n.(node_path) = (q ++ [t])%list /\ (recursive = false -> q = []) /\ admitted mode v q = true /\
    get_json_value v q = Some n.(node_parent) /\ get_json_value n.(node_parent) [t] = Some n.(node_value).

Lemma at_path_below mode v t w n : admits mode v = true -> get_json_value v [t] = Some w -> at_path true mode w n -> at_path true mode v (below t n).
Proof.
  intros Had Hg (q & t0 & E & _ & Ha & Hq & Ht). exists (t :: q), t0. cbn [node_path below node_value node_parent].
  split_and!; [by rewrite E|done|cbn [admitted]; by rewrite Had, Hg|by rewrite get_json_value_cons, Hg|done].
Qed.

Lemma nodes_at_path recursive mode v n : value_wf v -> n ∈ nodes recursive mode v -> at_path recursive mode v n.
Proof.
  revert n. induction v as [|bo|nu|st|l IH|m IH] using value_ind'; intros n Hwf Hn; apply elem_of_nodes_step in Hn as (t & w & Hc & Hn);
    try (by apply not_elem_of_nil in Hc).
  all: pose proof (proj1 (Forall_forall _ _) (children_wf mode _ Hwf) _ Hc) as Hww; cbn [snd] in Hww;
    pose proof (proj1 (children_spec _ _ _ _ Hwf) Hc) as [Had Hg];
    destruct Hn as [->|(-> & n' & Hn' & ->)]; [exists [], t; cbn [node_path node_value node_parent admitted]; rewrite Had; by split_and!|];
    apply (at_path_below _ _ _ w); [done|done|].
  - exact (proj1 (Forall_forall _ _) (children_elem_value mode (VArray l) (fun w => forall n, value_wf w -> n ∈ nodes true mode w -> at_path true mode w n) IH) _ Hc n' Hww Hn').
  - exact (proj1 (Forall_forall _ _) (children_elem_value mode (VObject m) (fun w => forall n, value_wf w -> n ∈ nodes true mode w -> at_path true mode w n) IH) _ Hc n' Hww Hn').
Qed.

Lemma elem_of_nodes recursive mode v n : value_wf v -> n ∈ nodes recursive mode v <-> at_path recursive mode v n.
Proof.
  intros Hwf. split; [by apply nodes_at_path|].
  intros (q & t & E & Hr & Ha & Hq & Ht). destruct n as [p w parent]. cbn [node_path node_value node_parent] in *. subst p.
  revert v Hwf Ha Hq Hr. induction q as [|u q IH]; intros v Hwf Ha Hq Hr; apply elem_of_nodes_step.
  - injection Hq as ->. cbn [admitted] in Ha. rewrite andb_true_r in Ha. exists t, w. split; [by apply children_spec|by left].
  - cbn [admitted] in Ha. apply andb_true_iff in Ha as [Had Ha]. rewrite get_json_value_cons in Hq.
    destruct (get_json_value v [u]) as [x|] eqn:Eu; [|done]. assert ((u, x) ∈ children mode v) as Hc by (by apply children_spec).
    exists u, x. split; [done|]. right. destruct recursive; [|by discriminate (Hr eq_refl)]. split; [done|].
    exists (mkNode (q ++ [t])%list w parent). split; [|done]. apply IH; try done.
    by apply (proj1 (Forall_forall _ _) (children_wf mode _ Hwf) _ Hc).
Qed.

(** *** No value has two rows *)
Lemma children_tokens mode v : value_wf v -> NoDup (map fst (children mode v)).
Proof.
  intros Hwf. destruct v as [| | | |l|m]; cbn [children]; try apply NoDup_nil_2.
  - destruct (is_array mode); [|apply NoDup_nil_2]. apply NoDup_alt. intros i j t. rewrite !list_lookup_fmap, !list_lookup_imap.
    destruct (l !! i), (l !! j); cbn; try done. congruence.
  - apply value_wf_object in Hwf as [Hnd _]. destruct (is_object mode); [|apply NoDup_nil_2]. rewrite map_map. cbn [fst].
    rewrite <- (map_map fst Key). apply NoDup_fmap_2; [|done]. intros x y. by injection 1.
Qed.

Lemma NoDup_concat {A B} (f : A -> B) (g : A -> list (list B)) (cs : list A) :
  NoDup (map f cs) -> Forall (fun c => NoDup (g c) /\ Forall (fun p => head p = Some (f c)) (g c)) cs -> NoDup (concat (map g cs)).
Proof.
  induction cs as [|c cs IH]; cbn [map concat]; intros Hd Hg; [apply NoDup_nil_2|]. apply NoDup_cons in Hd as [Hc Hd].
  apply Forall_cons in Hg as [[Hn Hh] Hg]. apply NoDup_app. split_and!; [done| |by apply IH].
  intros p Hp (l & Hl & (c' & -> & Hc')%list_elem_of_fmap)%elem_of_concat. apply Hc.
  pose proof (proj1 (Forall_forall _ _) Hh _ Hp) as E. destruct (proj1 (Forall_forall _ _) Hg _ Hc') as [_ Hh'].
  pose proof (proj1 (Forall_forall _ _) Hh' _ Hl) as E'. apply list_elem_of_fmap. exists c'. split; [congruence|done].
Qed.

Lemma nodes_paths_distinct recursive mode v : value_wf v -> NoDup (map node_path (nodes recursive mode v)).
Proof.
  induction v as [|bo|nu|st|l IH|m IH] using value_ind'; intros Hwf; try apply NoDup_nil_2; rewrite nodes_children, concat_map, map_map;
    apply (NoDup_concat fst); try (by apply children_tokens); apply Forall_forall; intros c Hc;
    pose proof (proj1 (Forall_forall _ _) (children_wf mode _ Hwf) _ Hc) as Hww.
  all: assert (NoDup (map node_path (nodes recursive mode c.2))) as Hd by
    (first [exact (proj1 (Forall_forall _ _) (children_elem_value mode (VArray l) (fun w => value_wf w -> NoDup (map node_path (nodes recursive mode w))) IH) _ Hc Hww)
           |exact (proj1 (Forall_forall _ _) (children_elem_value mode (VObject m) (fun w => value_wf w -> NoDup (map node_path (nodes recursive mode w))) IH) _ Hc Hww)]).
  all: unfold child_nodes; cbn [map node_path]; destruct recursive; [|split; [apply NoDup_singleton|by repeat constructor]].
  all: rewrite map_map; cbn [node_path below]; split.
  all: try (constructor; [done|apply Forall_map, Forall_forall; done]).
  all: apply NoDup_cons; split; [intros (n & E & Hn)%list_elem_of_fmap; apply nodes_nonempty in Hn; by destruct (node_path n)|].
  all: rewrite <- (map_map node_path (cons c.1)); apply NoDup_fmap_2; [intros x y; by injection 1|done].
Qed.

(** ** The paths of the rows *)
Definition plain_token (t : PathToken) : bool := match t with Key k => plain_key k | Index i => Z.of_nat i <=? u64_max end%Z.

Lemma path_text_print i p : Forall (fun t => plain_token t = true) p -> path_text (S i) p = print_path p.
Proof.
  intros Hp. revert i. induction Hp as [|t p Ht _ IH]; intros i; [done|]. cbn [path_text print_path]. rewrite IH. f_equal.
  destruct t as [k|j]; cbn [token_text print_token Nat.eqb plain_token] in *; [by rewrite Ht|done].
Qed.

Lemma plain_printable p : Forall (fun t => plain_token t = true) p -> Forall (fun t => printable t = true) p.
Proof. intros Hp. eapply Forall_impl; [exact Hp|]. intros [k|i]; cbn; [by intros ->|done]. Qed.

(** A path of plain keys is read back from its text. *)
Lemma tokenize_path_to_string p : Forall (fun t => plain_token t = true) p -> tokenize_path (path_to_string p) = Some p.
Proof.
  intros Hp. rewrite <- (tokenize_path_print p) by (by apply plain_printable).
  destruct Hp as [|t p Ht Hp]; [done|]. unfold path_to_string. cbn [path_text print_path]. rewrite path_text_print by done.
  destruct t as [k|j]; cbn [token_text print_token Nat.eqb plain_token] in *; [|done]. rewrite Ht.
  set (s := k ++ print_path p). change (String "." k ++ print_path p) with (String "." s).
  rewrite (tokenize_path_unfold (S (String.length s)) (String "." s)), (tokenize_path_unfold (String.length s) s) by (cbn; lia). done.
Qed.

Lemma get_json_value_app v p q : get_json_value v (p ++ q) = get_json_value v p ≫= (fun w => get_json_value w q).
Proof.
  revert v. induction p as [|t p IH]; intros v; [done|]. cbn [app]. rewrite (get_json_value_cons v t (p ++ q)), (get_json_value_cons v t p).
  destruct (get_json_value v [t]) as [w|]; [apply IH|done].
Qed.

(** Every key of the value can be written in a path without quotes, and every index fits the tokenizer. *)
Fixpoint plain_value (v : Value) : bool :=
  match v with
  | VArray l => (Z.of_nat (length l) <=? u64_max)%Z && forallb plain_value l
  | VObject m => forallb (fun kv => plain_key kv.1 && plain_value kv.2) m
  | _ => true
  end.

Lemma plain_step v t w : plain_value v = true -> get_json_value v [t] = Some w -> plain_token t = true /\ plain_value w = true.
Proof.
  intros Hv Hg. destruct t as [k|i], v as [| | | |l|m]; cbn [get_json_value get_key get_index plain_value plain_token] in *; try done.
  - destruct (map_get k m) as [x|] eqn:E; [|done]. injection Hg as ->. apply map_get_Some in E.
    rewrite forallb_forall in Hv. apply list_elem_of_In, Hv, andb_true_iff in E. exact E.
  - destruct (l !! i) as [x|] eqn:E; [|done]. injection Hg as ->. apply andb_true_iff in Hv as [Hn Hv].
    pose proof (lookup_lt_Some _ _ _ E). split; [lia|]. rewrite forallb_forall in Hv. by eapply Hv, list_elem_of_In, list_elem_of_lookup_2.
Qed.

(** The tokens that lead into such a value are plain. *)
Lemma plain_path v p w : plain_value v = true -> get_json_value v p = Some w -> Forall (fun t => plain_token t = true) p.
Proof.
  revert v. induction p as [|t p IH]; intros v Hv Hg; [done|]. rewrite get_json_value_cons in Hg.
  destruct (get_json_value v [t]) as [x|] eqn:E; [|done]. destruct (plain_step _ _ _ Hv E). constructor; [done|]. by apply (IH x).
Qed.

Section main.
Context `{Serde}.

(** C16: FLATTEN of a value has one row for each of its elements and, when it is recursive, for each value below
    it that is reached through values the mode expands; no value has two rows, and the row has the key
    or index of the value, its path, its text and the text of the value that holds it. *)
Theorem flatten_correct row_id v path outer recursive mode out : value_wf v ->
  exists ns, rows (flatten row_id v path outer recursive mode out) = (rows out ++ map (row_of row_id path) ns)%list /\
    NoDup (map node_path ns) /\ forall n, n ∈ ns <-> at_path recursive mode v n.
Proof.
  intros Hwf. exists (nodes recursive mode v). split_and!; [apply flatten_rows|by apply nodes_paths_distinct|]. intros n. by apply elem_of_nodes.
Qed.

(** C33: the PATH of a row leads back to it. When the keys of the input need no quotes, the tokenizer reads the PATH
    of every row, and following it in the whole input gives the VALUE of the row; without its last token it leads to THIS,
    and the last token is the KEY or the INDEX of the row. *)
Theorem flatten_path_leads_back row_id root v path outer recursive mode r :
  value_wf v -> plain_value root = true -> get_json_value root path = Some v ->
  r ∈ rows (flatten row_id v path outer recursive mode (mkOut [] None)) ->
  exists text p t parent w,
    r.(row_path) = Some text /\ tokenize_path text = Some (p ++ [t])%list /\
    get_json_value root (p ++ [t]) = Some w /\ r.(row_value) = Some (to_string_pretty w) /\
    get_json_value root p = Some parent /\ r.(this) = Some (to_string_pretty parent) /\
    match t with Key k => r.(key) = Some k /\ r.(index) = None | Index i => r.(key) = None /\ r.(index) = Some i end.
Proof.
  intros Hwf Hpl Hp Hr. rewrite flatten_rows in Hr. cbn [rows app] in Hr. apply list_elem_of_fmap in Hr as (n & -> & Hn).
  apply elem_of_nodes in Hn as (q & t & E & _ & _ & Hq & Ht); [|done].
  assert (get_json_value root (path ++ q) = Some (node_parent n)) as Hparent by (rewrite get_json_value_app, Hp; exact Hq).
  assert (get_json_value root ((path ++ q) ++ [t]) = Some (node_value n)) as Hvalue by (rewrite get_json_value_app, Hparent; exact Ht).
  exists (path_to_string ((path ++ q) ++ [t])), (path ++ q)%list, t, (node_parent n), (node_value n).
  unfold row_of, child_row. cbn [row_path row_value this key index]. rewrite E, last_snoc. cbn [default from_option id].
  split_and!; [by rewrite app_assoc|apply tokenize_path_to_string; by apply (plain_path root _ (node_value n))|done..|].
  by destruct t.
Qed.

(** *** The rows of the input *)
Definition input_rows (args : FlattenArgs) (row_id : Z) (v : option string) : list Row :=
  match v with
  | None => [mkRow row_id None None None None None]
  | Some v =>
      match from_str v ≫= (fun j => get_json_value j args.(args_path)) with
      | Some w => map (row_of row_id args.(args_path)) (nodes args.(is_recursive) args.(mode) w)
      | None => []
      end
  end.

Lemma flatten_inputs_rows args row_id vs out out' : flatten_inputs args row_id vs out = Ok out' ->
  rows out' = (rows out ++ concat (map (input_rows args row_id) vs))%list.
Proof.
  revert out. induction vs as [|v vs IH]; intros out; cbn [flatten_inputs map concat]; [intros [= <-]; by rewrite app_nil_r|].
  intros (out1 & E & Hr)%result_bind_Ok. rewrite (IH _ Hr), app_assoc. f_equal. destruct v as [v|]; cbn [flatten_input input_rows] in *.
  - destruct (from_str v) as [j|]; cbn [ok_or result_bind mbind option_bind] in *; [|done].
    destruct (get_json_value j (args_path args)); injection E as <-; [apply flatten_rows|by rewrite app_nil_r].
  - by injection E as <-.
Qed.

Lemma flatten_batches_rows args row_id batches outer all o k : flatten_batches args row_id batches outer = Ok (all, o, k) ->
  concat all = concat (imap (fun i b => concat (map (input_rows args (row_id + 1 + Z.of_nat i)%Z) b)) batches) /\
  Forall (fun b => b <> []) all /\ k = (row_id + Z.of_nat (length batches))%Z.
Proof.
  revert row_id outer all. induction batches as [|b batches IH]; intros row_id outer all; cbn [flatten_batches imap].
  - intros [= <- <- <-]. cbn. split_and!; [done..|lia].
  - intros (out & E & ([[rest o'] k'] & Er & [= <- <- <-])%result_bind_Ok)%result_bind_Ok. apply flatten_inputs_rows in E. cbn [rows app] in E.
    destruct (IH _ _ _ Er) as (Hc & Hf & Hk). cbn [concat imap length]. replace (row_id + 1 + Z.of_nat 0)%Z with (row_id + 1)%Z by lia.
    rewrite <- E. split_and!; [|destruct (rows out); [done|by constructor]|lia].
    assert (imap ((fun i b => concat (map (input_rows args (row_id + 1 + Z.of_nat i)%Z) b)) ∘ S) batches =
            imap (fun i b => concat (map (input_rows args (row_id + 1 + 1 + Z.of_nat i)%Z) b)) batches) as ->.
    { apply imap_ext. intros i y _. cbn. do 3 f_equal. lia. }
    rewrite <- Hc. by destruct (rows out).
Qed.

Lemma flatten_inputs_Ok args row_id vs out :
  Forall (fun v => match v with Some v => is_Some (from_str v) | None => True end) vs -> exists out', flatten_inputs args row_id vs out = Ok out'.
Proof.
  intros Hv. revert out. induction Hv as [|v vs Hv _ IH]; intros out; cbn [flatten_inputs]; [by eexists|].
  destruct v as [v|]; cbn [flatten_input]; [destruct Hv as [j ->]; cbn [ok_or result_bind]; destruct (get_json_value j (args_path args))|];
    cbn [result_bind]; apply IH.
Qed.

Lemma flatten_batches_Ok args row_id batches outer :
  Forall (Forall (fun v => match v with Some v => is_Some (from_str v) | None => True end)) batches ->
  exists r, flatten_batches args row_id batches outer = Ok r.
Proof.
  intros Hb. revert row_id outer. induction Hb as [|b batches Hb _ IH]; intros row_id outer; cbn [flatten_batches]; [by eexists|].
  destruct (flatten_inputs_Ok args (row_id + 1) b (mkOut [] None) Hb) as [out ->]. cbn [result_bind].
  destruct (IH (row_id + 1)%Z (last_outer out)) as [[[rest o] k] ->]. cbn [result_bind]. by eexists.
Qed.

(** Over a column of JSON texts FLATTEN succeeds and returns the rows of the inputs in their order, those of the
    i-th batch with the number i as SEQ; a null input has a row of nulls, and only when no input has a row does an outer
    FLATTEN return one. *)
Theorem flatten_execution `{Evaluator} args batches : input_batches args = Ok batches ->
  Forall (Forall (fun v => match v with Some v => is_Some (from_str v) | None => True end)) batches ->
  exists out, execute args = Ok out /\
    let all := concat (imap (fun i b => concat (map (input_rows args (1 + Z.of_nat i)%Z) b)) batches) in
    (all <> [] -> concat out = all) /\
    (all = [] -> exists this, concat out = if args.(is_outer) then [mkRow (Z.of_nat (length batches)) None (Some (path_to_string args.(args_path))) None None this] else []).
Proof.
  intros Hi Hb. unfold execute. rewrite Hi. cbn [result_bind]. destruct (flatten_batches_Ok args 0 batches None Hb) as [[[all o] k] E].
  rewrite E. cbn [result_bind]. destruct (flatten_batches_rows _ _ _ _ _ _ _ E) as (Hc & Hf & Hk). cbn zeta.
  assert (concat (imap (fun i b => concat (map (input_rows args (0 + 1 + Z.of_nat i)%Z) b)) batches) =
          concat (imap (fun i b => concat (map (input_rows args (1 + Z.of_nat i)%Z) b)) batches)) as Hs by done.
  rewrite <- Hs, <- Hc. destruct all as [|b all].
  - eexists. split; [done|]. split; [done|]. intros _. unfold empty_record_batch. exists (to_string_pretty <$> o). subst k. by destruct (is_outer args).
  - exists (b :: all). split; [done|]. split; [done|]. apply Forall_cons in Hf as [Hb0 _]. cbn [concat]. by destruct b.
Qed.
End main.

(** ** Examples *)
Module FlattenExamples.
Import SerdeExample.

(** Expressions that are not literals have no value. *)
#[global] Instance example_evaluator : Evaluator := {|
  evaluate _ := Ok []; scan_project _ _ := Ok [[Some "[1]"; Some "[]"; None]]; evaluate_subquery _ := Ok [] |}.

(** [{"a": 1, "b": [77, 88], "c": {"d": "X"}}] *)
Definition number (z : Z) : Value := VNumber (PosInt z).
Definition sample : Value :=
  VObject [("a", number 1); ("b", VArray [number 77; number 88]); ("c", VObject [("d", VString "X")])].

Lemma sample_wf : value_wf sample.
Proof. cbn. split_and!; try done; apply (bool_decide_eq_true_1 _); reflexivity. Qed.

Definition sample_rows (recursive : bool) (mode : FlattenMode) : list Row := rows (flatten 1 sample [] false recursive mode (mkOut [] None)).

(** The paths of the test of the source: with recursion, and of objects only. *)
Example sample_paths :
  map row_path (sample_rows false Both) = [Some "a"; Some "b"; Some "c"] /\
  map row_path (sample_rows true Both) = [Some "a"; Some "b"; Some "b[0]"; Some "b[1]"; Some "c"; Some "c.d"] /\
  map row_path (sample_rows true Object) = [Some "a"; Some "b"; Some "c"; Some "c.d"].
Proof. split_and!; reflexivity. Qed.

Lemma flatten_correct_witness :
  value_wf sample /\ exists ns, sample_rows true Both = map (row_of 1 []) ns /\ length ns = 6%nat /\ NoDup (map node_path ns) /\
    forall n, n ∈ ns <-> at_path true Both sample n.
Proof.
  split; [exact sample_wf|]. destruct (flatten_correct 1 sample [] false true Both (mkOut [] None) sample_wf) as (ns & E & Hd & He).
  exists ns. split; [exact E|]. split; [|split; [exact Hd|exact He]].
  apply (f_equal (@length Row)) in E. cbn [rows app] in E. rewrite length_map in E. rewrite <- E. reflexivity.
Defined.

(** The row of the second element of [b], with recursion from the root. *)
Definition row_b1 : Row := mkRow 1 None (Some "b[1]") (Some 1%nat) (Some "88") (Some "[77,88]").

Lemma flatten_path_leads_back_witness :
  row_b1 ∈ sample_rows true Both /\ tokenize_path "b[1]" = Some [Key "b"; Index 1] /\
  get_json_value sample [Key "b"; Index 1] = Some (number 88) /\
  exists text p t parent w,
    row_b1.(row_path) = Some text /\ tokenize_path text = Some (p ++ [t])%list /\
    get_json_value sample (p ++ [t]) = Some w /\ row_b1.(row_value) = Some (to_string_pretty w) /\
    get_json_value sample p = Some parent /\ row_b1.(this) = Some (to_string_pretty parent) /\
    match t with Key k => row_b1.(key) = Some k /\ row_b1.(index) = None | Index i => row_b1.(key) = None /\ row_b1.(index) = Some i end.
Proof.
  assert (row_b1 ∈ sample_rows true Both) as Hr by (apply list_elem_of_In; vm_compute; auto 10).
  split; [exact Hr|]. split; [reflexivity|]. split; [reflexivity|].
  apply (flatten_path_leads_back 1 sample sample [] false true Both row_b1 sample_wf); [reflexivity|reflexivity|exact Hr].
Defined.

Definition two_inputs (outer : bool) : FlattenArgs := mkArgs (Column (Some "t") "v") [] outer false Both.

Lemma flatten_execution_witness :
  exists out, execute (two_inputs true) = Ok out /\ map seq (concat out) = [1; 1]%Z /\ map row_value (concat out) = [Some "1"; None].
Proof.
  destruct (flatten_execution (two_inputs true) [[Some "[1]"; Some "[]"; None]]) as (out & E & H1 & _).
  - reflexivity.
  - repeat constructor; by eexists.
  - exists out. split; [exact E|]. rewrite H1 by (vm_compute; discriminate). split; reflexivity.
Defined.

(** An outer FLATTEN loses the inputs without elements as soon as another input has rows, and one that is not outer
    keeps the inputs that are null. *)
Example outer_rows :
  execute (two_inputs true) = execute (two_inputs false) /\
  (let? out := execute (two_inputs false) in Ok (map row_path (concat out))) = Ok [Some "[0]"; None].
Proof. split; reflexivity. Qed.

(** The arguments OUTER and RECURSIVE by name have no effect: other names are looked up. *)
Example named_arguments :
  let input := (Literal (SUtf8 Utf8 (Some "[]")), Some "INPUT") in
  let yes := Literal (SBoolean (Some true)) in
  call [input; (yes, Some "OUTER"); (yes, Some "RECURSIVE")] = Ok (mkArgs (fst input) [] false false Both) /\
  call [(fst input, None); (Literal (SUtf8 Utf8 (Some "")), None); (yes, None); (yes, None)] = Ok (mkArgs (fst input) [] true true Both).
Proof. split; reflexivity. Qed.

(** An unknown mode is an error by name and both by position. *)
Example unknown_mode :
  let input := Literal (SUtf8 Utf8 (Some "[]")) in
  let m := Literal (SUtf8 Utf8 (Some "list")) in
  call [(input, Some "input"); (m, Some "mode")] = Err (FlattenExec "MODE must be one of: object, array, both") /\
  call [(input, None); (Literal SNull, None); (Literal SNull, None); (Literal SNull, None); (m, None)] = Ok (mkArgs input [] false false Both).
Proof. split; reflexivity. Qed.

(** A key with a dot in it: the path of its row leads nowhere. *)
Example dotted_key :
  let v := VObject [("a.b", number 1)] in
  match rows (flatten 1 v [] false false Both (mkOut [] None)) with
  | [r] => r.(row_path) = Some "a.b" /\ (tokenize_path "a.b" ≫= get_json_value v) = None
  | _ => False
  end.
Proof. split; reflexivity. Qed.
End FlattenExamples.
