(* ===== verification/Bootstrap.v ===== *)
(** * Filling the metastore at start-up

    Models [crates/catalog-metastore/src/metastore_bootstrap_config.rs]: the configuration of volumes,
    databases, schemas and tables, where it is loaded from, and [apply], which brings the metastore to it by
    calls of the [Metastore] trait.  The calls are those of [Metastore]; each has its own answers of the
    libraries ([Ext]), numbered by a counter.  What else is asked of libraries (files, the environment, the
    object store, serialization) is the record [BootExt].  Start-up has no concurrent calls. *)

From Stdlib Require Import ZArith Lia Ascii String.
From stdpp Require Import base option list gmap strings.
From S2P Require Import Prelude Utf8 MetastoreModels Metastore JsonValue.

#[local] Open Scope string_scope.

(** ** The configuration *)
Record VolumeEntry := mkVolumeEntry { volume : Volume.t; volume_database : option string; volume_should_refresh : bool }.
Record DatabaseEntry := mkDatabaseEntry { ident : string; database_volume : VolumeIdent; should_refresh : bool }.
Record SchemaEntry := mkSchemaEntry { schema_database : string; schema : string }.
Record TableEntry := mkTableEntry { table_database : string; table_schema : string; table : string; metadata_location : string }.

Record MetastoreBootstrapConfig := mkConfig {
  cfg_volumes : list VolumeEntry; cfg_databases : list DatabaseEntry; cfg_schemas : list SchemaEntry; cfg_tables : list TableEntry }.

Definition table_ident (self : TableEntry) : TableIdent.t := TableIdent.new self.(table_database) self.(table_schema) self.(table).

(** Errors of libraries are their text. *)
Inductive ConfigError :=
| ReadConfig (path source : string)
| ParseConfig (path source : string)
| ParseJsonConfig (source : string)
| EnvConfig (reason : string)
| MetastoreFailed (source : merror)
| TableDatabaseMissing (table database : string)
| TableVolumeMissing (table : string) (volume : VolumeIdent)
| InvalidMetadataLocation (table reason : string)
| InvalidMetadata
| MetadataFetch (table source : string)
| MetadataParse (table source : string).

Definition DEFAULT_VOLUME_NAME : string := "embucket".
Definition DEFAULT_DATABASE_NAME : string := "embucket".
Definition DEFAULT_SCHEMA_NAME : string := "public".

Definition bootstrap : MetastoreBootstrapConfig :=
  mkConfig [mkVolumeEntry (Volume.mk DEFAULT_VOLUME_NAME Volume.Memory) (Some DEFAULT_DATABASE_NAME) false]
    [mkDatabaseEntry DEFAULT_DATABASE_NAME DEFAULT_VOLUME_NAME false]
    [mkSchemaEntry DEFAULT_DATABASE_NAME DEFAULT_SCHEMA_NAME] [].

Definition default_config : MetastoreBootstrapConfig := mkConfig [] [] [] [].

(** ** Where it comes from *)
Record BootExt {ObjectStore : Type} := {
  env_var : string -> option string;
  env_lowercase : string -> string;
  read_to_string : string -> result string string;
  config_from_yaml : string -> result string MetastoreBootstrapConfig;
  config_from_json : string -> result string MetastoreBootstrapConfig;
  (** [iceberg_rust::spec::util::strip_prefix], [ObjectStoreExt::get] and [GetResult::bytes] *)
  strip_prefix : string -> string;
  object_get : ObjectStore -> string -> result string string;
  object_bytes : string -> result string string;
  value_from_slice : string -> result string Value;
  value_to_vec : Value -> result string string;
  metadata_from_slice : string -> result string Iceberg.metadata }.
Arguments BootExt : clear implicits.

Definition blank (s : string) : bool := String.eqb (trim s) "".

Definition or_config {A} (wrap : string -> ConfigError) (r : result string A) : result ConfigError A :=
  match r with Ok a => Ok a | Err e => Err (wrap e) end.

Section bootstrap.
Context {ObjectStore Settings : Type} (e : BootExt ObjectStore).

Definition missing_var_error (name : string) : ConfigError :=
  EnvConfig (name ++ " environment variable is required for volume bootstrap").

(** [client_options] carry no data (see [Volume.S3Volume]). *)
Definition load_volume_from_env : result ConfigError (option VolumeEntry) :=
  match env_var e "VOLUME_TYPE" with
  | Some v =>
      if blank v then Ok None
      else
        let volume_type := env_lowercase e v in
        let ident := default "embucket" (env_var e "VOLUME_IDENT") in
        let database := match env_var e "VOLUME_DATABASE" with Some db => if blank db then None else Some db | None => None end in
        let? volume_type :=
          if String.eqb volume_type "s3" then
            let? access_key := ok_or (env_var e "VOLUME_ACCESS_KEY") (missing_var_error "VOLUME_ACCESS_KEY") in
            let? secret_key := ok_or (env_var e "VOLUME_SECRET_KEY") (missing_var_error "VOLUME_SECRET_KEY") in
            let credentials := Volume.AccessKey {| Volume.aws_access_key_id := access_key;
                                                   Volume.aws_secret_access_key := secret_key; Volume.aws_session_token := None |} in
            Ok (Volume.S3 {| Volume.region := None; Volume.bucket := Some ident; Volume.endpoint := None;
                             Volume.credentials := Some credentials |})
          else if String.eqb volume_type "memory" then Ok Volume.Memory
          else Err (EnvConfig ("Unsupported VOLUME_TYPE '" ++ volume_type ++ "'")) in
        Ok (Some (mkVolumeEntry (Volume.mk ident volume_type) database false))
  | None => Ok None
  end.

(** The volume of the environment goes behind those of the configuration. *)
Definition push_volume (config : MetastoreBootstrapConfig) (volume : option VolumeEntry) : MetastoreBootstrapConfig :=
  match volume with
  | Some v => mkConfig (config.(cfg_volumes) ++ [v])%list config.(cfg_databases) config.(cfg_schemas) config.(cfg_tables)
  | None => config
  end.

Definition load (path : string) : result ConfigError MetastoreBootstrapConfig :=
  let? contents := or_config (ReadConfig path) (read_to_string e path) in
  let? config := or_config (ParseConfig path) (config_from_yaml e contents) in
  result_map (push_volume config) load_volume_from_env.

Definition load_from_json_data (data : string) : result ConfigError MetastoreBootstrapConfig :=
  let? config := or_config ParseJsonConfig (config_from_json e data) in
  result_map (push_volume config) load_volume_from_env.

Definition load_from_env : result ConfigError MetastoreBootstrapConfig := result_map (push_volume default_config) load_volume_from_env.

(** ** Missing fields of the metadata *)

(** [Value::get], which is none of a value that is not an object. *)
Definition field_of (k : string) (v : Value) : option Value := match v with VObject m => map_get k m | _ => None end.

Definition patch_summary (summary : Value) : result ConfigError Value :=
  match field_of "operation" summary with
  | Some _ => Ok summary
  | None => match summary with
            | VObject m => Ok (VObject (map_insert "operation" (VString "append") m))
            | _ => Err InvalidMetadata
            end
  end.

Definition patch_snapshot (snapshot : Value) : result ConfigError Value :=
  match snapshot, field_of "summary" snapshot with
  | VObject m, Some summary => let? summary := patch_summary summary in Ok (VObject (map_insert "summary" summary m))
  | _, _ => Ok snapshot
  end.

Definition patch_missing_operation (value : Value) : result ConfigError Value :=
  match value, field_of "snapshots" value with
  | VObject m, Some (VArray snapshots) =>
      let? snapshots := traverse patch_snapshot snapshots in Ok (VObject (map_insert "snapshots" (VArray snapshots) m))
  | _, _ => Ok value
  end.

(** ** Calls of the metastore *)
Record Boot := mkBoot { store : InMemoryMetastore (ObjectStore := ObjectStore) (Settings := Settings); calls : nat }.

(** How a program ends: with a result, or never, when it waits for a lock it holds. *)
Inductive boot_end (A : Type) := Ended (r : result ConfigError A) | Stuck.
Arguments Ended {A} r.
Arguments Stuck {A}.

Definition B (A : Type) : Type := Boot -> boot_end A * Boot.

Definition boot_lift {A} (r : result ConfigError A) : B A := fun b => (Ended r, b).
Definition boot_bind {A C} (c : B A) (k : A -> B C) : B C :=
  fun b => match c b with
           | (Ended (Ok a), b') => k a b'
           | (Ended (Err e), b') => (Ended (Err e), b')
           | (Stuck, b') => (Stuck, b')
           end.

Local Notation "'let*' x ':=' c 'in' k" := (boot_bind c (fun x => k)) (at level 10, x pattern, c at level 100, k at level 200).

(** [.await.context(MetastoreSnafu)]: the n-th call has the n-th answers. *)
Context (x : nat -> Ext ObjectStore).

Definition invoke {A} (c : Ext ObjectStore -> M A) : B A :=
  fun b => let (o, m) := c (x b.(calls)) b.(store) in
           (match o with Done (Ok a) => Ended (Ok a) | Done (Err err) => Ended (Err (MetastoreFailed err)) | Deadlock => Stuck end,
            mkBoot m (S b.(calls))).

Fixpoint for_each {A} (f : A -> B unit) (l : list A) : B unit :=
  match l with [] => boot_lift (Ok tt) | a :: l => let* _ := f a in for_each f l end.

(** ** [apply] *)
Definition ensure_schema (database schema : string) : B unit :=
  let schema_ident := SchemaIdent.new database schema in
  let* row := invoke (fun _ => get_schema schema_ident) in
  match row with
  | None => let* _ := invoke (fun x => create_schema x schema_ident (Schema.mk schema_ident None)) in boot_lift (Ok tt)
  | Some _ => boot_lift (Ok tt)
  end.

Definition ensure_database (ident volume : string) (should_refresh : bool) : B unit :=
  let* row := invoke (fun _ => get_database ident) in
  let* _ := match row with
            | None => let* _ := invoke (fun x => create_database x ident (Database.mk ident None volume should_refresh)) in boot_lift (Ok tt)
            | Some _ => boot_lift (Ok tt)
            end in
  ensure_schema ident DEFAULT_SCHEMA_NAME.

Definition apply_volume (entry : VolumeEntry) : B unit :=
  let ident := Volume.ident entry.(volume) in
  let* row := invoke (fun _ => get_volume ident) in
  let* _ := match row with
            | None => let* _ := invoke (fun x => create_volume x ident entry.(volume)) in boot_lift (Ok tt)
            | Some _ => boot_lift (Ok tt)
            end in
  match entry.(volume_database) with
  | Some database => ensure_database database ident entry.(volume_should_refresh)
  | None => boot_lift (Ok tt)
  end.

(** The metadata of a table, read from its object store and completed. *)
Definition read_metadata (object_store : ObjectStore) (entry : TableEntry) : result ConfigError Iceberg.metadata :=
  let name := entry.(table) in
  let? got := or_config (InvalidMetadataLocation name) (object_get e object_store (strip_prefix e entry.(metadata_location))) in
  let? bytes := or_config (MetadataFetch name) (object_bytes e got) in
  let? json_val := or_config (MetadataParse name) (value_from_slice e bytes) in
  let? json_val := patch_missing_operation json_val in
  let? patched_bytes := or_config (MetadataParse name) (value_to_vec e json_val) in
  or_config (MetadataParse name) (metadata_from_slice e patched_bytes).

Definition apply_table (entry : TableEntry) : B unit :=
  let ident := table_ident entry in
  let name := entry.(table) in
  let* exists_ := invoke (fun _ => table_exists ident) in
  if exists_ then boot_lift (Ok tt)
  else
    let* row := invoke (fun _ => get_database entry.(table_database)) in
    let* database := boot_lift (ok_or row (TableDatabaseMissing name entry.(table_database))) in
    let* _ := ensure_schema entry.(table_database) entry.(table_schema) in
    let volume_ident := Database.volume (RwObject.data database) in
    let* row := invoke (fun _ => get_volume volume_ident) in
    let* volume := boot_lift (ok_or row (TableVolumeMissing name volume_ident)) in
    let* table_object_store := invoke (fun x => lift (get_object_store x (RwObject.data volume))) in
    let* metadata := boot_lift (read_metadata table_object_store entry) in
    let stored_table := Table.mk ident metadata entry.(metadata_location) ∅ (Some (Volume.ident (RwObject.data volume))) None false
                          Table.IcebergFormat in
    let* _ := invoke (fun x => register_table x ident stored_table) in
    boot_lift (Ok tt).

Definition apply (self : MetastoreBootstrapConfig) : B unit :=
  let* _ := for_each apply_volume self.(cfg_volumes) in
  let* _ := for_each (fun db => ensure_database db.(ident) db.(database_volume) db.(should_refresh)) self.(cfg_databases) in
  let* _ := for_each (fun s => ensure_schema s.(schema_database) s.(schema)) self.(cfg_schemas) in
  for_each apply_table self.(cfg_tables).
End bootstrap.

Arguments Ended {A} r.
Arguments Stuck {A}.

(** ** What [apply] brings about *)

(** Rows that were there are still there, unchanged. *)
Definition extends (s s' : MetastoreState) : Prop :=
  volumes s ⊆ volumes s' /\ databases s ⊆ databases s' /\ schemas s ⊆ schemas s' /\ tables s ⊆ tables s'.

#[export] Instance extends_preorder : PreOrder extends.
Proof.
  split; [by intros s|]. intros a b c (V & D & S & T) (V' & D' & S' & T'). repeat split; by etrans.
Qed.

Definition has_schema (d sch : string) (s : MetastoreState) : Prop := is_Some (schemas s !! schema_key (SchemaIdent.new d sch)).
Definition has_database (d : string) (s : MetastoreState) : Prop := is_Some (databases s !! d) /\ has_schema d DEFAULT_SCHEMA_NAME s.
Definition has_volume (v : VolumeEntry) (s : MetastoreState) : Prop :=
  is_Some (volumes s !! Volume.ident v.(volume)) /\ match v.(volume_database) with Some d => has_database d s | None => True end.
Definition has_table (t : TableEntry) (s : MetastoreState) : Prop := is_Some (tables s !! table_key (table_ident t)).

(** Everything the configuration names is there. *)
Definition configured (c : MetastoreBootstrapConfig) (s : MetastoreState) : Prop :=
  (forall v, v ∈ c.(cfg_volumes) -> has_volume v s) /\ (forall d, d ∈ c.(cfg_databases) -> has_database d.(ident) s) /\
  (forall sc, sc ∈ c.(cfg_schemas) -> has_schema sc.(schema_database) sc.(schema) s) /\ (forall t, t ∈ c.(cfg_tables) -> has_table t s).

(** The names of databases are in lower case. *)
Definition plain (d : string) : Prop := to_ascii_lowercase d = d.
Definition plain_names (c : MetastoreBootstrapConfig) : Prop :=
  (forall v, v ∈ c.(cfg_volumes) -> match v.(volume_database) with Some d => plain d | None => True end) /\
  (forall d, d ∈ c.(cfg_databases) -> plain d.(ident)) /\ (forall s, s ∈ c.(cfg_schemas) -> plain s.(schema_database)) /\
  (forall t, t ∈ c.(cfg_tables) -> plain t.(table_database)).

(** A fact about a state that more rows do not end. *)
Definition monotone (Q : MetastoreState -> Prop) : Prop := forall s s', extends s s' -> Q s -> Q s'.

Lemma monotone_schema d sch : monotone (has_schema d sch).
Proof. intros s s' (_ & _ & HS & _) H. by eapply lookup_weaken_is_Some. Qed.

Lemma monotone_database d : monotone (has_database d).
Proof. intros s s' E [H1 H2]. split; [by eapply lookup_weaken_is_Some; [|apply E]|by eapply monotone_schema]. Qed.

Lemma monotone_volume v : monotone (has_volume v).
Proof.
  intros s s' E [H1 H2]. split; [by eapply lookup_weaken_is_Some; [|apply E]|]. destruct (volume_database v); [|done]. by eapply monotone_database.
Qed.

Lemma monotone_table t : monotone (has_table t).
Proof. intros s s' (_ & _ & _ & HT) H. by eapply lookup_weaken_is_Some. Qed.

#[export] Hint Resolve monotone_schema monotone_database monotone_volume monotone_table : boot.

Section runs.
Context {ObjectStore Settings : Type} (e : BootExt ObjectStore) (x : nat -> Ext ObjectStore).
Notation Boot := (Boot (ObjectStore := ObjectStore) (Settings := Settings)).
Notation Metastore := (InMemoryMetastore (ObjectStore := ObjectStore) (Settings := Settings)).
Notation B := (B (ObjectStore := ObjectStore) (Settings := Settings)).

(** From one state to another: rows are only added, and added well when [N] holds. *)
Record reaches (N : Prop) (b b' : Boot) : Prop := mkReaches {
  reaches_inv : inv (store b');
  reaches_extends : extends (state (store b)) (state (store b'));
  reaches_wf : N -> wf (state (store b)) -> wf (state (store b')) }.

Lemma reaches_same N b k : inv (store b) -> reaches N b (mkBoot (store b) k).
Proof. by split. Qed.

Lemma reaches_trans N b1 b2 b3 : reaches N b1 b2 -> reaches N b2 b3 -> reaches N b1 b3.
Proof. intros [I1 E1 W1] [I2 E2 W2]. split; [done|by etrans|auto]. Qed.

(** The program ends, and establishes [Q] when it succeeds. *)
Definition yields (N : Prop) (c : B unit) (Q : MetastoreState -> Prop) : Prop :=
  forall b, inv (store b) -> exists o b', c b = (Ended o, b') /\ reaches N b b' /\ (o = Ok tt -> Q (state (store b'))).

(** In a state where there is nothing to do, nothing is done. *)
Definition settled (c : B unit) (m : Metastore) : Prop := forall k, exists k', c (mkBoot m k) = (Ended (Ok tt), mkBoot m k').

Lemma yields_bind N c1 c2 Q1 Q2 : monotone Q1 ->
  yields N c1 Q1 -> yields N c2 Q2 -> yields N (boot_bind c1 (fun _ => c2)) (fun s => Q1 s /\ Q2 s).
Proof.
  intros M1 H1 H2 b Hb. unfold boot_bind. destruct (H1 b Hb) as ([[]|err] & b1 & -> & R1 & K1); [|by exists (Err err), b1].
  destruct (H2 b1 (reaches_inv _ _ _ R1)) as (o & b2 & -> & R2 & K2). exists o, b2. split; [done|].
  split; [by eapply reaches_trans|]. intros Ho. split; [|by apply K2]. eapply M1; [apply R2|]. by apply K1.
Qed.

Lemma yields_for_each {A} N (f : A -> B unit) Q l : (forall a, a ∈ l -> monotone (Q a)) ->
  (forall a, a ∈ l -> yields N (f a) (Q a)) -> yields N (for_each f l) (fun s => forall a, a ∈ l -> Q a s).
Proof.
  intros HM Hf. induction l as [|a l IH].
  - intros b Hb. exists (Ok tt), b. split; [done|]. destruct b. split; [by apply (reaches_same N (mkBoot _ _))|]. by intros _ ? ?%not_elem_of_nil.
  - intros b Hb. cbn [for_each]. destruct (yields_bind N (f a) (for_each f l) (Q a) (fun s => forall a, a ∈ l -> Q a s)) with (b := b)
      as (o & b' & E & R & K); [apply HM; set_solver|apply Hf; set_solver|apply IH; set_solver|done|].
    exists o, b'. do 2 (split; [done|]). intros Ho. destruct (K Ho). set_solver.
Qed.

Lemma settled_bind c1 c2 m : settled c1 m -> settled c2 m -> settled (boot_bind c1 (fun _ => c2)) m.
Proof. intros H1 H2 k. unfold boot_bind. destruct (H1 k) as [k1 ->]. apply H2. Qed.

Lemma settled_for_each {A} (f : A -> B unit) l m : (forall a, a ∈ l -> settled (f a) m) -> settled (for_each f l) m.
Proof.
  induction l as [|a l IH]; intros H; [by intros k; exists k|]. cbn [for_each]. apply settled_bind; [apply H; set_solver|apply IH; set_solver].
Qed.

(** *** The calls *)
Ltac run_ms :=
  unfold write_lock, read_lock, bind, get_state, put_state, get_cache, put_cache, lift, ret, fail, set_guard, set_volumes, set_databases,
    set_schemas, set_tables, ok_or in *; cbn in *.

Definition with_state (s : MetastoreState) (m : Metastore) : Metastore := mkStore s (object_store_cache m) (settings_config m) (guard m).

Lemma inv_with_state s m : inv m -> volumes s = volumes (state m) -> inv (with_state s m).
Proof. intros [Hg Hc] Hv. split; [done|]. intros v. cbn. rewrite Hv. apply Hc. Qed.

Lemma get_schema_row i (m : Metastore) : inv m -> get_schema i m = (Done (Ok (schemas (state m) !! schema_key i)), m).
Proof. intros [Hg _]. unfold get_schema. run_ms. by rewrite Hg. Qed.

Lemma get_database_row d (m : Metastore) : inv m -> get_database d m = (Done (Ok (databases (state m) !! d)), m).
Proof. intros [Hg _]. unfold get_database. run_ms. by rewrite Hg. Qed.

Lemma get_volume_row v (m : Metastore) : inv m -> get_volume v m = (Done (Ok (volumes (state m) !! v)), m).
Proof. intros [Hg _]. unfold get_volume. run_ms. by rewrite Hg. Qed.

Lemma table_exists_row i (m : Metastore) : inv m -> table_exists i m = (Done (Ok (bool_decide (is_Some (tables (state m) !! table_key i)))), m).
Proof. intros [Hg _]. unfold table_exists. run_ms. by rewrite Hg. Qed.

Lemma create_schema_row y i sch (m : Metastore) : inv m -> schemas (state m) !! schema_key i = None ->
  create_schema y i sch m =
    match databases (state m) !! SchemaIdent.database i with
    | None => (Done (Err (DatabaseNotFound (SchemaIdent.database i))), m)
    | Some _ => (Done (Ok (RwObject.new (now y) sch)),
                 with_state (set_schemas (<[schema_key i := RwObject.new (now y) sch]> (schemas (state m))) (state m)) m)
    end.
Proof. intros [Hg _] Hn. destruct m as [s c o g]. unfold create_schema. run_ms. subst g. rewrite Hn. by destruct (databases s !! _). Qed.

Lemma create_database_row y d db (m : Metastore) : inv m -> databases (state m) !! d = None ->
  create_database y d db m =
    match volumes (state m) !! Database.volume db with
    | None => (Done (Err (VolumeNotFound (Database.volume db))), m)
    | Some _ => (Done (Ok (RwObject.new (now y) db)),
                 with_state (set_databases (<[d := RwObject.new (now y) db]> (databases (state m))) (state m)) m)
    end.
Proof.
  intros [Hg _] Hn. destruct m as [s c o g]. unfold create_database, Metastore.ensure_volume. run_ms. subst g. destruct (volumes s !! _); [|done].
  by rewrite Hn.
Qed.

Lemma create_volume_row y v vol (m : Metastore) : inv m -> volumes (state m) !! v = None ->
  create_volume y v vol m =
    match get_object_store y vol with
    | Err err => (Done (Err err), m)
    | Ok st => (Done (Ok (RwObject.new (now y) vol)),
                mkStore (set_volumes (<[v := RwObject.new (now y) vol]> (volumes (state m))) (state m)) (<[v := st]> (object_store_cache m))
                  (settings_config m) false)
    end.
Proof.
  intros [Hg _] Hn. destruct m as [s c o g]. unfold create_volume. run_ms. subst g. destruct (get_object_store y vol); [|done]. by rewrite Hn.
Qed.

Lemma register_table_row y i t (m : Metastore) : inv m ->
  register_table y i t m =
    (Done (Ok (RwObject.new (now y) t)), with_state (set_tables (<[table_key i := RwObject.new (now y) t]> (tables (state m))) (state m)) m).
Proof. intros [Hg _]. destruct m as [s c o g]. unfold register_table. run_ms. by subst g. Qed.

(** *** The parts of [apply] *)
Lemma invoke_row {A} (c : Ext ObjectStore -> M A) (b : Boot) r m : c (x (calls b)) (store b) = (Done (Ok r), m) ->
  invoke x c b = (Ended (Ok r), mkBoot m (S (calls b))).
Proof. intros H. unfold invoke. by rewrite H. Qed.

Lemma invoke_fails {A} (c : Ext ObjectStore -> M A) (b : Boot) err m : c (x (calls b)) (store b) = (Done (Err err), m) ->
  invoke x c b = (Ended (Err (MetastoreFailed err)), mkBoot m (S (calls b))).
Proof. intros H. unfold invoke. by rewrite H. Qed.

(** Looking for a schema that is missing is all that [ensure_schema] does to the other maps. *)
Lemma ensure_schema_frame d sch (b : Boot) o b' : inv (store b) -> ensure_schema x d sch b = (o, b') ->
  volumes (state (store b')) = volumes (state (store b)) /\ databases (state (store b')) = databases (state (store b)) /\
  tables (state (store b')) = tables (state (store b)).
Proof.
  intros Hb. unfold ensure_schema, boot_bind. rewrite (invoke_row _ b _ _ (get_schema_row _ _ Hb)).
  destruct (schemas (state (store b)) !! _) as [row|] eqn:Hn; [by intros [= <- <-]|].
  set (b1 := mkBoot (store b) (S (calls b))). pose proof (create_schema_row (x (calls b1)) (SchemaIdent.new d sch)
    (Schema.mk (SchemaIdent.new d sch) None) (store b1) Hb Hn) as Hc. destruct (databases (state (store b1)) !! _) as [drow|] eqn:Hd.
  - rewrite (invoke_row (fun y => create_schema y _ _) b1 _ _ Hc). by intros [= <- <-].
  - rewrite (invoke_fails (fun y => create_schema y _ _) b1 _ _ Hc). by intros [= <- <-].
Qed.

Lemma ensure_row_yields {A} (N : Prop) (get : M (option A)) (create : Ext ObjectStore -> M A) (row : MetastoreState -> option A) :
  (forall m, inv m -> get m = (Done (Ok (row (state m))), m)) ->
  (forall y m, inv m -> row (state m) = None ->
     (exists err, create y m = (Done (Err err), m)) \/
     exists a m', create y m = (Done (Ok a), m') /\ is_Some (row (state m')) /\ forall b k, store b = m -> reaches N b (mkBoot m' k)) ->
  yields N (boot_bind (invoke x (fun _ => get)) (fun r =>
    match r with None => boot_bind (invoke x create) (fun _ => boot_lift (Ok tt)) | Some _ => boot_lift (Ok tt) end)) (fun s => is_Some (row s)).
Proof.
  intros Hget Hcreate b Hb. unfold boot_bind. rewrite (invoke_row (fun _ => get) b _ _ (Hget _ Hb)).
  destruct (row (state (store b))) as [r|] eqn:Hr.
  { exists (Ok tt), (mkBoot (store b) (S (calls b))). split; [done|]. split; [by apply reaches_same|]. intros _. by eexists. }
  set (b1 := mkBoot (store b) (S (calls b))). destruct (Hcreate (x (calls b1)) (store b1) Hb Hr) as [[err Hc]|(a & m' & Hc & Hs & Hm)].
  - rewrite (invoke_fails create b1 _ _ Hc). eexists (Err _), _. split; [done|]. split; [exact (reaches_same N b _ Hb)|done].
  - rewrite (invoke_row create b1 _ _ Hc). eexists (Ok tt), _. split; [done|]. split; [by apply Hm|done].
Qed.

Lemma ensure_schema_yields (N : Prop) d sch : (N -> plain d) -> yields N (ensure_schema x d sch) (has_schema d sch).
Proof.
  intros HN. apply (ensure_row_yields N (get_schema _) _ (fun s => schemas s !! schema_key (SchemaIdent.new d sch)));
    [by intros m; apply get_schema_row|].
  intros y m Hm Hn. rewrite (create_schema_row y _ _ m Hm Hn). destruct (databases (state m) !! _) as [drow|] eqn:Hd; [right|left; by eexists].
  eexists _, _. split; [done|]. split; [cbn; rewrite lookup_insert_eq; by eexists|]. intros b k Hb. subst m.
  split; [by apply inv_with_state|repeat split; try done; cbn; by apply insert_subseteq|]. intros Hp Hw. apply wf_insert_schema; [done|done|]. cbn in *.
  rewrite (HN Hp). by eexists.
Qed.

Lemma boot_bind_assoc {A C D} (c : B A) (k : A -> B C) (h : C -> B D) b :
  boot_bind c (fun a => boot_bind (k a) h) b = boot_bind (boot_bind c k) h b.
Proof. unfold boot_bind. destruct (c b) as [[[a|err]|] b']; done. Qed.

Lemma ensure_database_yields (N : Prop) d v refresh : (N -> plain d) -> yields N (ensure_database x d v refresh) (has_database d).
Proof.
  intros HN b Hb. unfold ensure_database. rewrite boot_bind_assoc. revert b Hb.
  apply (yields_bind N _ _ (fun s => is_Some (databases s !! d))); [intros s s' (_ & HD & _) H; by eapply lookup_weaken_is_Some| |by apply ensure_schema_yields].
  apply (ensure_row_yields N (get_database d) _ (fun s => databases s !! d)); [by intros m; apply get_database_row|].
  intros y m Hm Hn. rewrite (create_database_row y d (Database.mk d None v refresh) m Hm Hn). destruct (volumes (state m) !! _) as [vol|] eqn:Hv; [right|left; by eexists].
  eexists _, _. split; [done|]. split; [cbn; rewrite lookup_insert_eq; by eexists|]. intros b k Hb. subst m.
  split; [by apply inv_with_state|repeat split; try done; cbn; by apply insert_subseteq|]. intros Hp Hw. apply wf_insert_database; cbn; [done..|by apply HN|by eexists].
Qed.

Lemma apply_volume_yields (N : Prop) v : (N -> match v.(volume_database) with Some d => plain d | None => True end) ->
  yields N (apply_volume x v) (has_volume v).
Proof.
  intros HN b Hb. unfold apply_volume. rewrite boot_bind_assoc. revert b Hb.
  apply (yields_bind N _ _ (fun s => is_Some (volumes s !! Volume.ident (volume v)))
    (fun s => match v.(volume_database) with Some d => has_database d s | None => True end)); [intros s s' (HV & _) H; by eapply lookup_weaken_is_Some| |].
  - apply (ensure_row_yields N (get_volume _) _ (fun s => volumes s !! Volume.ident (volume v))); [by intros m; apply get_volume_row|].
    intros y m Hm Hn. rewrite (create_volume_row y _ (volume v) m Hm Hn). destruct (get_object_store y (volume v)) as [st|err]; [right|left; by eexists].
    eexists _, _. split; [done|]. split; [cbn; rewrite lookup_insert_eq; by eexists|]. intros b k Hb. subst m. split.
    + split; [done|]. intros n. cbn. rewrite !lookup_insert. case_decide; [done|]. apply Hm.
    + repeat split; try done; cbn; by apply insert_subseteq.
    + intros _ Hw. by apply wf_insert_volume.
  - destruct (volume_database v) as [d|]; [by apply ensure_database_yields|]. intros b Hb. exists (Ok tt), b. split; [done|].
    destruct b. split; [by apply (reaches_same N (mkBoot _ _))|done].
Qed.

Lemma apply_table_yields (N : Prop) t : (N -> plain t.(table_database)) -> yields N (apply_table e x t) (has_table t).
Proof.
  intros HN b Hb. unfold apply_table, boot_bind at 1. rewrite (invoke_row _ b _ _ (table_exists_row _ _ Hb)).
  case_bool_decide as Ht; [eexists (Ok tt), _; split; [done|split; [exact (reaches_same N b _ Hb)|done]]|].
  set (b1 := mkBoot (store b) (S (calls b))). unfold boot_bind at 1. rewrite (invoke_row _ b1 _ _ (get_database_row _ _ Hb)).
  set (b2 := mkBoot (store b) (S (calls b1))). assert (reaches N b b2) as R2 by exact (reaches_same N b _ Hb).
  unfold boot_bind at 1. destruct (databases (state (store b)) !! table_database t) as [db|]; [|eexists (Err _), b2; split; [done|split; [exact R2|done]]]. cbn [ok_or boot_lift].
  unfold boot_bind at 1. destruct (ensure_schema_yields N t.(table_database) t.(table_schema) HN b2 Hb) as ([[]|err] & b3 & E3 & R3 & K3); rewrite E3.
  2: { exists (Err err), b3. split; [done|]. split; [by eapply reaches_trans|done]. }
  apply ensure_schema_frame in E3 as (_ & _ & HT); [|done]. pose proof (reaches_inv _ _ _ R3) as I3. specialize (K3 eq_refl).
  assert (reaches N b b3) as R by (by eapply reaches_trans). clear R2 R3.
  unfold boot_bind at 1. rewrite (invoke_row _ b3 _ _ (get_volume_row _ _ I3)). set (b4 := mkBoot (store b3) (S (calls b3))).
  assert (forall k, reaches N b (mkBoot (store b3) k)) as R4 by (intros k; eapply reaches_trans; [exact R|by apply reaches_same]).
  unfold boot_bind at 1. destruct (volumes (state (store b3)) !! Database.volume (RwObject.data db)) as [vol|]; [|eexists (Err _), b4; split; [done|split; [apply R4|done]]]. cbn [ok_or boot_lift].
  unfold boot_bind at 1. unfold invoke at 1. unfold lift. destruct (get_object_store _ (RwObject.data vol)) as [st|err].
  2: { eexists (Err _), _. split; [done|]. split; [apply R4|done]. }
  set (b5 := mkBoot (store b3) (S (calls b4))). unfold boot_bind at 1, boot_lift at 1. destruct (read_metadata e st t) as [md|err].
  2: { eexists (Err _), b5. split; [done|]. split; [apply R4|done]. }
  unfold boot_bind. rewrite (invoke_row (fun y => register_table y _ _) b5 _ _ (register_table_row _ _ _ _ I3)). eexists (Ok tt), _. split; [done|].
  split; [|intros _; unfold has_table; cbn; rewrite lookup_insert_eq; by eexists].
  eapply reaches_trans; [exact R|]. split; [by apply inv_with_state| |].
  - repeat split; try done. cbn. apply insert_subseteq. rewrite HT. cbn. by destruct (tables (state (store b)) !! _) eqn:E; [destruct Ht|].
  - intros _ Hw. apply wf_insert_table; [done|done|]. exact K3.
Qed.

(** *** Nothing to do *)
Lemma settled_row {A} (get : M (option A)) (create : B unit) m r : get m = (Done (Ok (Some r)), m) ->
  settled (boot_bind (invoke x (fun _ => get)) (fun row => match row with None => create | Some _ => boot_lift (Ok tt) end)) m.
Proof. intros H k. unfold boot_bind. rewrite (invoke_row (fun _ => get) (mkBoot m k) _ _ H). by eexists. Qed.

Lemma settled_schema d sch m : inv m -> has_schema d sch (state m) -> settled (ensure_schema x d sch) m.
Proof. intros Hm [row Hr]. eapply settled_row. rewrite (get_schema_row _ _ Hm). by rewrite Hr. Qed.

Lemma settled_database d v refresh m : inv m -> has_database d (state m) -> settled (ensure_database x d v refresh) m.
Proof.
  intros Hm [[row Hr] Hs] k. unfold ensure_database. rewrite boot_bind_assoc. revert k. apply settled_bind; [|by apply settled_schema].
  eapply settled_row. rewrite (get_database_row _ _ Hm). by rewrite Hr.
Qed.

Lemma settled_volume v m : inv m -> has_volume v (state m) -> settled (apply_volume x v) m.
Proof.
  intros Hm [[row Hr] Hd] k. unfold apply_volume. rewrite boot_bind_assoc. revert k. apply settled_bind.
  - eapply settled_row. rewrite (get_volume_row _ _ Hm). by rewrite Hr.
  - destruct (volume_database v); [by apply settled_database|]. intros k. by exists k.
Qed.

Lemma settled_table t m : inv m -> has_table t (state m) -> settled (apply_table e x t) m.
Proof.
  intros Hm Ht k. unfold apply_table, boot_bind at 1. rewrite (invoke_row _ (mkBoot m k) _ _ (table_exists_row _ _ Hm)).
  rewrite bool_decide_eq_true_2 by done. by eexists.
Qed.

Lemma settled_configured c m : inv m -> configured c (state m) -> settled (apply e x c) m.
Proof.
  intros Hm (HV & HD & HS & HT). unfold apply. repeat apply settled_bind; apply settled_for_each; intros a Ha;
    auto using settled_volume, settled_database, settled_schema, settled_table.
Qed.

Lemma apply_yields c : yields (plain_names c) (apply e x c) (configured c).
Proof.
  unfold apply. intros b Hb.
  destruct (yields_bind (plain_names c) (for_each (apply_volume x) c.(cfg_volumes))
    (boot_bind (for_each (fun db => ensure_database x db.(ident) db.(database_volume) db.(should_refresh)) c.(cfg_databases)) (fun _ =>
     boot_bind (for_each (fun s => ensure_schema x s.(schema_database) s.(schema)) c.(cfg_schemas)) (fun _ =>
     for_each (apply_table e x) c.(cfg_tables))))
    (fun s => forall v, v ∈ c.(cfg_volumes) -> has_volume v s)
    (fun s => (forall d, d ∈ c.(cfg_databases) -> has_database d.(ident) s) /\
       (forall sc, sc ∈ c.(cfg_schemas) -> has_schema sc.(schema_database) sc.(schema) s) /\ (forall t, t ∈ c.(cfg_tables) -> has_table t s)))
    with (b := b) as (o & b' & E & R & K); try done; [..|by exists o, b'].
  - intros s s' Es H v Hv. eapply monotone_volume; eauto.
  - apply yields_for_each; [auto with boot|]. intros v Hv. apply apply_volume_yields. intros HN. by apply HN.
  - apply yields_bind; [intros s s' Es H d Hd; eapply monotone_database; eauto|..].
    + apply yields_for_each; [auto with boot|]. intros d Hd. apply ensure_database_yields. intros HN. by apply HN.
    + apply yields_bind; [intros s s' Es H sc Hs; eapply monotone_schema; eauto|..].
      * apply yields_for_each; [auto with boot|]. intros sc Hs. apply ensure_schema_yields. intros HN. by apply HN.
      * apply yields_for_each; [auto with boot|]. intros t Ht. apply apply_table_yields. intros HN. by apply HN.
Qed.

(** C30: applying a configuration ends, whatever the libraries answer, and never removes or changes a row of the metastore; when it
    succeeds, everything the configuration names is there, and applying it again succeeds and changes nothing. *)
Theorem apply_configures c (b : Boot) : reachable (store b) ->
  exists o b', apply e x c b = (Ended o, b') /\ extends (state (store b)) (state (store b')) /\
    (o = Ok tt -> configured c (state (store b')) /\ forall k, exists k', apply e x c (mkBoot (store b') k) = (Ended (Ok tt), mkBoot (store b') k')).
Proof.
  intros Hb%reachable_inv. destruct (apply_yields c b Hb) as (o & b' & E & R & K). exists o, b'. split; [done|]. split; [apply R|].
  intros Ho. specialize (K Ho). split; [done|]. apply settled_configured; [apply R|done].
Qed.

(** A configuration whose databases are named in lower case keeps the integrity of the metastore, also when it fails half way. *)
Theorem apply_keeps_integrity c (b : Boot) : plain_names c -> reachable_normal (store b) -> wf (state (store (apply e x c b).2)).
Proof.
  intros Hc Hb. pose proof (reachable_normal_inv _ Hb) as Hi. destruct (apply_yields c b Hi) as (o & b' & -> & R & _).
  apply R; [done|]. by apply reachable_normal_wf.
Qed.
End runs.

(** ** Metadata and environment *)

(** A snapshot that the Iceberg reader accepts: its summary, if there is one, names its operation. *)
Definition snapshot_complete (v : Value) : bool :=
  match field_of "summary" v with
  | Some summary => match field_of "operation" summary with Some _ => true | None => false end
  | None => true
  end.

Definition snapshots_of (v : Value) : list Value := match field_of "snapshots" v with Some (VArray l) => l | _ => [] end.

Lemma patch_snapshot_complete v v' : patch_snapshot v = Ok v' -> snapshot_complete v' = true /\ (snapshot_complete v = true -> v' = v).
Proof.
  unfold patch_snapshot, snapshot_complete. destruct (field_of "summary" v) as [sm|] eqn:Es; destruct v as [| | | |l|m]; cbn in Es; try done;
    try (cbn; rewrite ?Es; intros [= <-]; cbn; by rewrite ?Es).
  unfold patch_summary. cbn [field_of]. rewrite Es. destruct (field_of "operation" sm) eqn:Eo; cbn [result_bind].
  - intros [= <-]. cbn [field_of]. rewrite map_get_insert_eq, Eo. split; [done|]. intros _. f_equal. clear -Es.
    induction m as [|[k w] m IH]; [done|]. cbn in *. case_match; simplify_eq; [done|]. by rewrite IH.
  - destruct sm as [| | | | |ms]; try done. intros [= <-]. split; [|done]. cbn [field_of]. rewrite map_get_insert_eq. cbn [field_of]. by rewrite map_get_insert_eq.
Qed.

(** The completion of metadata gives every snapshot with a summary an operation, leaves the complete ones and all other fields as they are,
    and leaves complete metadata alone. *)
Theorem patch_missing_operation_correct v v' : patch_missing_operation v = Ok v' ->
  Forall2 (fun s s' => snapshot_complete s' = true /\ (snapshot_complete s = true -> s' = s)) (snapshots_of v) (snapshots_of v') /\
  (forall k, k <> "snapshots" -> field_of k v' = field_of k v).
Proof.
  unfold patch_missing_operation, snapshots_of. destruct (field_of "snapshots" v) as [sn|] eqn:Es;
    destruct v as [| | | |l|m]; cbn in Es; try done; try (cbn; rewrite ?Es; intros [= <-]; cbn; rewrite ?Es; by constructor).
  cbn [field_of]. rewrite Es. destruct sn as [| | | |sn|]; try (intros [= <-]; cbn; rewrite ?Es; by constructor).
  destruct (traverse patch_snapshot sn) as [sn'|] eqn:Et; cbn [result_bind]; [|done]. intros [= <-]. cbn. rewrite map_get_insert_eq. split.
  - apply traverse_Ok in Et. eapply Forall2_impl; [exact Et|]. intros s s'. apply patch_snapshot_complete.
  - intros k Hk. by rewrite map_get_insert_ne.
Qed.

(** The environment adds at most one volume, behind those of the configuration, and only an unusable setting is an error: a
    type that is neither S3 nor memory, or S3 without both keys. *)
Theorem environment_volume {ObjectStore} (e : BootExt ObjectStore) :
  (forall data c c', config_from_json e data = Ok c -> load_from_json_data e data = Ok c' ->
     c'.(cfg_databases) = c.(cfg_databases) /\ exists l, c'.(cfg_volumes) = (c.(cfg_volumes) ++ l)%list /\ (length l <= 1)%nat) /\
  (forall v, env_var e "VOLUME_TYPE" = Some v -> blank v = false ->
     (exists entry, load_volume_from_env e = Ok (Some entry)) <->
     env_lowercase e v = "memory" \/ env_lowercase e v = "s3" /\ is_Some (env_var e "VOLUME_ACCESS_KEY") /\ is_Some (env_var e "VOLUME_SECRET_KEY")).
Proof.
  split.
  - intros data c c' Hc. unfold load_from_json_data. rewrite Hc. cbn [or_config result_bind].
    destruct (load_volume_from_env e) as [[v|]|]; cbn; intros [= <-]; cbn; (split; [done|]).
    + by exists [v]; split; [|cbn; lia].
    + exists []. rewrite app_nil_r. split; [done|cbn; lia].
  - intros v Hv Hb. unfold load_volume_from_env. rewrite Hv, Hb. destruct (String.eqb_spec (env_lowercase e v) "s3") as [->|Hs].
    + destruct (env_var e "VOLUME_ACCESS_KEY"), (env_var e "VOLUME_SECRET_KEY"); cbn; split; intros H; eauto 6;
        by first [destruct H as [? [=]]|destruct H as [[=]|(_ & [? ?] & [? ?])]].
    + destruct (String.eqb_spec (env_lowercase e v) "memory") as [->|Hm]; cbn; split; eauto; [by intros [? [=]]|]. by intros [?|[? _]].
Qed.

(** ** Examples *)
Module BootExamples.
Definition files : BootExt unit :=
  {| env_var := fun _ => None; env_lowercase := to_ascii_lowercase; read_to_string := fun _ => Err "none"; config_from_yaml := fun _ => Err "none";
     config_from_json := fun _ => Ok default_config; strip_prefix := fun s => s; object_get := fun _ _ => Ok ""; object_bytes := Ok;
     value_from_slice := fun _ => Ok (VObject []); value_to_vec := fun _ => Ok ""; metadata_from_slice := fun _ => Ok Metastore.Demo.md0 |}.

Definition answers (n : nat) : Ext unit := Metastore.Demo.ext.

Definition with_table : MetastoreBootstrapConfig :=
  mkConfig bootstrap.(cfg_volumes) bootstrap.(cfg_databases) bootstrap.(cfg_schemas) [mkTableEntry "embucket" "sales" "Orders" "orders/v1.json"].

Definition start : Boot (ObjectStore := unit) (Settings := unit) := mkBoot new 0.
Definition booted := apply files answers with_table start.

Lemma apply_configures_witness : configured with_table (state (store booted.2)).
Proof.
  destruct (apply_configures files answers with_table start) as (o & b' & E & _ & K); [apply reach_new|].
  assert (booted = (Ended (Ok tt), booted.2)) as Hb by (vm_compute; reflexivity).
  unfold booted in *. rewrite E in Hb. injection Hb as ->. rewrite E. exact (proj1 (K eq_refl)).
Defined.

Lemma apply_keeps_integrity_witness : wf (state (store booted.2)).
Proof.
  apply (apply_keeps_integrity files answers with_table start); [|apply reach_n_new].
  split_and!; intros a Ha; repeat (apply elem_of_cons in Ha as [->|Ha]); try reflexivity; by apply not_elem_of_nil in Ha.
Defined.

(** The tables of a configuration are found under any spelling. *)
Example configured_table :
  (table_exists (TableIdent.mk "ORDERS" "Sales" "EMBUCKET") (store booted.2)).1 = Done (Ok true).
Proof. vm_compute. reflexivity. Qed.

(** Databases are told apart by the case of their names, schemas are not: the schema [public] of the second database is that of the first. *)
Definition two_cases : MetastoreBootstrapConfig :=
  mkConfig bootstrap.(cfg_volumes) [mkDatabaseEntry "Db" "embucket" false; mkDatabaseEntry "DB" "embucket" false] [] [].

Example databases_share_schema :
  let s := state (store (apply files answers two_cases start).2) in
  is_Some (databases s !! "Db") /\ is_Some (databases s !! "DB") /\
  (Schema.ident ∘ RwObject.data <$> schemas s !! ("db", "public")) = Some (SchemaIdent.new "Db" "public") /\ databases s !! "db" = None.
Proof. split_and!; try (vm_compute; by eexists); vm_compute; reflexivity. Qed.

(** A configuration that fails keeps what it has created so far. *)
Definition missing_database : MetastoreBootstrapConfig := mkConfig bootstrap.(cfg_volumes) [] [] [mkTableEntry "other" "s" "t" "l"].

Example failed_configuration_stays :
  let r := apply files answers missing_database start in
  r.1 = Ended (Err (TableDatabaseMissing "t" "other")) /\ is_Some (volumes (state (store r.2)) !! "embucket").
Proof. vm_compute. split; [reflexivity|by eexists]. Qed.
End BootExamples.
