(* ===== verification/Regexp.v ===== *)
(** * Regular expression functions

    [functions/src/regexp] and [functions/src/utils.rs]: REGEXP_INSTR, REGEXP_SUBSTR, REGEXP_SUBSTR_ALL, REGEXP_REPLACE and
    REGEXP_LIKE, each as its arguments, the computation of one row and the function over a column.  The [regex] crate is the
    class [RegexEngine]: a match is the list of the byte ranges of its groups, the whole match first.  Positions are those of
    bytes, as in the source. *)

From Stdlib Require Import ZArith Lia Ascii String.
From Stdlib.Strings Require Import Byte.
From stdpp Require Import base option list strings.
From S2P Require Import Prelude Utf8 JsonValue JsonEncode SemiStructured Calendar Aggregates Conversions.

#[local] Open Scope string_scope.
#[local] Open Scope Z_scope.
#[local] Open Scope rust_scope.

#[local] Arguments String.append : simpl nomatch.

(** ** Errors *)
Module RegexpError.
Inductive t :=
| FormatMustBeNonNullScalarValue
| NotEnoughArguments (got at_least : nat)
| TooManyArguments (got at_maximum : nat)
| UnsupportedInputType (data_type : DataType)
| UnsupportedInputTypeWithPosition (data_type : DataType) (position : nat)
| UnsupportedRegex (error : string)
| UnsupportedArgValue (got expected : string)
| WrongArgValue (got reason : string)
| InvalidIntegerConversion.
End RegexpError.

Inductive regexp_failure :=
| Regexp (e : RegexpError.t)
| RegexpInput (data_type : DataType)
| RegexpHalt (s : stop).

Notation xres A := (result regexp_failure A).

Definition xfail {A} (e : RegexpError.t) : xres A := Err (Regexp e).
Definition xpanic {A} : xres A := Err (RegexpHalt Panic).
Definition of_arrow_regexp {A} (r : result ArrowError A) : xres A := match r with Ok a => Ok a | Err e => Err (RegexpHalt (Raise e)) end.

(** ** The regular expressions *)
Notation Captures := (list (option (nat * nat))) (only parsing).

Class RegexEngine := {
  Regex : Type;
  regex_build : string -> bool -> bool -> bool -> result string Regex;
  captures_iter : Regex -> string -> list Captures;
  regex_replace : Regex -> string -> string -> string;
  regex_replace_all : Regex -> string -> string -> string }.

(** [Captures::get]. *)
Definition group (cap : Captures) (n : Z) : option (nat * nat) := mjoin (cap !! Z.to_nat n).

(** [Match::as_str]. *)
Definition match_text (h : string) (m : nat * nat) : string := substring (fst m) (snd m - fst m) h.

(** [str::contains] of a character, and of any of a set. *)
Fixpoint contains_any (cs : list ascii) (s : string) : bool :=
  match s with EmptyString => false | String c s => existsb (Ascii.eqb c) cs || contains_any cs s end.

(** The last of the characters [i] and [c]. *)
Fixpoint last_case (s : string) : option ascii :=
  match s with
  | EmptyString => None
  | String c s => match last_case s with Some d => Some d | None => if Ascii.eqb c "i" || Ascii.eqb c "c" then Some c else None end
  end.

(** [&s[n..]], a panic inside a character. *)
Definition slice_from (s : string) (n : nat) : xres string :=
  let t := substring n (String.length s - n) s in if starts_char t then Ok t else xpanic.

(** [&s[..n]], also out of range. *)
Definition slice_until (s : string) (n : nat) : xres string := ok_or (slice_to s n) (RegexpHalt Panic).

Section functions.
Context `{ArrowExt, Kernels} {RX : RegexEngine}.

(** [utils.rs] *)
Definition pattern_to_regex (pattern regexp_parameters : string) : xres Regex :=
  let case_insensitive := match last_case regexp_parameters with Some c => Ascii.eqb c "i" | None => false end in
  match regex_build pattern case_insensitive (contains_any ["m"%char] regexp_parameters) (contains_any ["s"%char] regexp_parameters) with
  | Ok r => Ok r
  | Err e => xfail (RegexpError.UnsupportedRegex e)
  end.

(** One value of [regexp]: the matches in the text from the position on. *)
Definition regexp (regex : Regex) (position : Z) (s : string) : xres (string * list Captures) :=
  let? h := slice_from s (Z.to_nat (Z.min position (Z.of_nat (String.length s)))) in Ok (h, captures_iter regex h).

Definition string_rows (array : ArrayRef) : xres (list (option string)) :=
  match array with
  | AUtf8 Utf8 rows => Ok rows
  | AUtf8 _ _ =>
      let? casted := of_arrow_regexp (cast_utf8 array) in
      match casted with AUtf8 Utf8 rows => Ok rows | _ => of_arrow_regexp (Err (OtherError "could not cast")) end
  | _ => Err (RegexpInput (data_type array))
  end.

(** ** Arguments *)
Definition unsupported {A} (v : ColumnarValue) (position : nat) : xres A :=
  xfail (RegexpError.UnsupportedInputTypeWithPosition (columnar_type v) position).

(** [usize::try_from] of a number that is below 2^63. *)
Definition to_usize (z : Z) : xres Z := if 0 <=? z then Ok z else xfail RegexpError.InvalidIntegerConversion.

(** A number that counts from one ([less] is 1) or from zero; [reason] is what the error of a negative number says. *)
Definition number_arg (args : list ColumnarValue) (i : nat) (less : Z) (reason : string) (default : Z) : xres Z :=
  match args !! i with
  | None => Ok default
  | Some (Scalar (SInt Int64 (Some value))) =>
      if 0 <=? value then to_usize (value - less) else xfail (RegexpError.WrongArgValue (int_to_string value) reason)
  | Some other => unsupported other (S i)
  end.

(** The first byte of the text is its first character, or the error panics. *)
Definition unknown_parameter (value : string) : xres string :=
  match slice_to value 1 with
  | Some c => xfail (RegexpError.WrongArgValue value ("Unknown parameter: '" ++ c ++ "'"))
  | None => xpanic
  end.

Definition parameters_arg (args : list ColumnarValue) (i position : nat) : xres string :=
  match args !! i with
  | None => Ok "c"
  | Some (Scalar (SUtf8 _ (Some value))) =>
      if contains_any ["c"; "i"; "m"; "e"; "s"]%char value then Ok value
      else if String.eqb value "" then Ok "c"
      else unknown_parameter value
  | Some other => unsupported other position
  end.

Definition group_arg (args : list ColumnarValue) (i : nat) (regexp_parameters : string) : xres Z :=
  number_arg args i 0 "Capture group mustbe non-negative" (if contains_any ["e"%char] regexp_parameters then 1 else 0).

Definition option_arg (args : list ColumnarValue) : xres Z :=
  match args !! 4%nat with
  | None => Ok 0
  | Some (Scalar (SInt Int64 (Some value))) =>
      if (0 <=? value) && (value <=? 1) then to_usize value
      else xfail (RegexpError.WrongArgValue (int_to_string value) "Return option must be 0, 1, or NULL")
  | Some other => unsupported other 5
  end.

Definition replacement_arg (args : list ColumnarValue) : xres string :=
  match args !! 2%nat with
  | None => Ok ""
  | Some (Scalar (SUtf8 _ (Some value))) => Ok value
  | Some other => unsupported other 3
  end.

Definition instr_args (args : list ColumnarValue) : xres (Z * Z * Z * string * Z) :=
  let? position := number_arg args 2 1 "Position must be positive" 0 in
  let? occurrence := number_arg args 3 1 "Occurrence must be positive" 0 in
  let? option := option_arg args in
  let? regexp_parameters := parameters_arg args 5 6 in
  let? group_num := group_arg args 6 regexp_parameters in
  Ok (position, occurrence, option, regexp_parameters, group_num).

(** [take_args_values] of REGEXP_SUBSTR and of REGEXP_SUBSTR_ALL. *)
Definition substr_args (args : list ColumnarValue) : xres (Z * Z * string * Z) :=
  let? position := number_arg args 2 1 "Position must be positive" 0 in
  let? occurrence := number_arg args 3 1 "Occurrence must be positive" 0 in
  let? regex_parameters := parameters_arg args 4 5 in
  let? group_num := group_arg args 5 regex_parameters in
  Ok (position, occurrence, regex_parameters, group_num).

Definition substr_all_args (args : list ColumnarValue) : xres (Z * Z * string * Z) := substr_args args.

(** Here 0 is a number: every occurrence. *)
Definition replace_args (args : list ColumnarValue) : xres (string * Z * Z * string) :=
  let? replacement := replacement_arg args in
  let? position := number_arg args 3 1 "Position must be positive" 0 in
  let? occurrence := number_arg args 4 0 "Occurrence must be positive" 0 in
  let? regex_parameters := parameters_arg args 5 6 in
  Ok (replacement, position, occurrence, regex_parameters).

(** [return_type] with the number of arguments it allows. *)
Definition regexp_return_type (at_maximum : nat) (t : DataType) (n : nat) : xres DataType :=
  if Nat.eqb n 0 then xfail (RegexpError.NotEnoughArguments 0 2)
  else if (n <=? at_maximum)%nat && (1 <? n)%nat then Ok t
  else xfail (RegexpError.TooManyArguments n at_maximum).

Definition instr_return_type : nat -> xres DataType := regexp_return_type 7 (TInt Int64).
Definition substr_return_type : nat -> xres DataType := regexp_return_type 6 (TUtf8 Utf8).
Definition substr_all_return_type : nat -> xres DataType := regexp_return_type 6 (TUtf8 Utf8).
Definition replace_return_type : nat -> xres DataType := regexp_return_type 6 (TUtf8 Utf8).
Definition like_return_type : nat -> xres DataType := regexp_return_type 3 TBoolean.

(** ** Rows *)
Definition instr_row (regex : Regex) (position occurrence option group_num : Z) (row : Datatypes.option string) : xres (Datatypes.option Z) :=
  let? found := match row with
                | None => Ok None
                | Some s =>
                    let? (_, caps) := regexp regex position s in
                    Ok (cap ← caps !! Z.to_nat occurrence; mat ← group cap group_num;
                        let p := Z.of_nat (if option =? 0 then fst mat else snd mat) + position + 1 in if in_i64 p then Some p else None)
                end in
  Ok (Some (default 0 found)).

Definition substr_row (regex : Regex) (position occurrence group_num : Z) (row : option string) : xres (option string) :=
  match row with
  | None => Ok None
  | Some s => let? (h, caps) := regexp regex position s in Ok (cap ← caps !! Z.to_nat occurrence; match_text h <$> group cap group_num)
  end.

(** The text that is built in the loop: each match in quotes, with a comma behind it. *)
Definition push_match (h : string) (group_num : Z) (result : string) (cap : Captures) : string :=
  match group cap group_num with Some mat => result ++ String quote (match_text h mat) ++ String quote "," | None => result end.

(** [String::pop] of the comma. *)
Definition pop (s : string) : string := substring 0 (String.length s - 1) s.

Definition substr_all_row (regex : Regex) (position occurrence group_num : Z) (row : option string) : xres (option string) :=
  match row with
  | None => Ok None
  | Some s =>
      let? (h, caps) := regexp regex position s in
      let result := foldl (push_match h group_num) "[" (drop (Z.to_nat occurrence) caps) in
      Ok (Some ((if (1 <? String.length result)%nat then pop result else result) ++ "]"))
  end.

Definition replace_row (regex : Regex) (replacement : string) (position occurrence : Z) (row : option string) : xres (option string) :=
  match row with
  | None => Ok None
  | Some value =>
      let? (_, caps) := regexp regex position value in
      match caps !! Z.to_nat (Z.max (occurrence - 1) 0) with
      | None => Ok None
      | Some cap =>
          match group cap 0 with
          | Some (start, _) =>
              let n := (Z.to_nat position + start)%nat in
              let? not_changeable := slice_until value n in
              let? changeable := slice_from value n in
              let changed := if 0 <? occurrence then regex_replace regex changeable replacement else regex_replace_all regex changeable replacement in
              Ok (Some (not_changeable ++ changed))
          | None => Ok (Some value)
          end
      end
  end.

Definition like_row (regex : Regex) (row : option string) : xres (option bool) :=
  match row with
  | None => Ok None
  | Some s => let? (_, caps) := regexp regex 0 s in Ok (Some (existsb (fun cap => bool_decide (is_Some (group cap 0))) caps))
  end.

(** ** The functions *)
Definition subject_array (args : list ColumnarValue) : xres ArrayRef :=
  match args !! 0%nat with
  | Some (Array a) => Ok a
  | Some (Scalar s) => of_arrow_regexp (to_array_of_size s 1)
  | None => xpanic
  end.

Definition pattern_arg (args : list ColumnarValue) : xres string :=
  match args !! 1%nat with
  | Some (Scalar (SUtf8 _ (Some pattern))) => Ok pattern
  | Some other => unsupported other 2
  | None => xpanic
  end.

(** The rows of a string column; any other is refused. *)
Definition over_strings {B} (array : ArrayRef) (pattern parameters : string) (f : Regex -> option string -> xres (option B)) : xres (list (option B)) :=
  match array with
  | AUtf8 _ _ =>
      let? rows := string_rows array in
      let? regex := pattern_to_regex pattern parameters in
      traverse (f regex) rows
  | _ => xfail (RegexpError.UnsupportedInputTypeWithPosition (data_type array) 1)
  end.

Definition regexp_instr (args : list ColumnarValue) : xres ColumnarValue :=
  let? array := subject_array args in
  let? pattern := pattern_arg args in
  let? (position, occurrence, option, regexp_parameters, group_num) := instr_args args in
  let? rows := over_strings array pattern regexp_parameters (fun r => instr_row r position occurrence option group_num) in
  Ok (Array (AInt Int64 rows)).

Definition regexp_substr (args : list ColumnarValue) : xres ColumnarValue :=
  let? array := subject_array args in
  let? pattern := pattern_arg args in
  let? (position, occurrence, regex_parameters, group_num) := substr_args args in
  let? rows := over_strings array pattern regex_parameters (fun r => substr_row r position occurrence group_num) in
  Ok (string_column rows).

Definition regexp_substr_all (args : list ColumnarValue) : xres ColumnarValue :=
  let? array := subject_array args in
  let? pattern := pattern_arg args in
  let? (position, occurrence, regex_parameters, group_num) := substr_all_args args in
  let? rows := over_strings array pattern regex_parameters (fun r => substr_all_row r position occurrence group_num) in
  Ok (string_column rows).

Definition regexp_replace (args : list ColumnarValue) : xres ColumnarValue :=
  let? array := subject_array args in
  let? pattern := pattern_arg args in
  let? (replacement, position, occurrence, regex_parameters) := replace_args args in
  let? rows := over_strings array pattern regex_parameters (fun r => replace_row r replacement position occurrence) in
  Ok (string_column rows).

Definition regexp_like (args : list ColumnarValue) : xres ColumnarValue :=
  let? array := subject_array args in
  let? pattern := pattern_arg args in
  let? parameters := parameters_arg args 2 5 in
  let? rows := over_strings array ("^" ++ pattern ++ "$") parameters like_row in
  Ok (Array (ABoolean rows)).
End functions.

(** ** Texts and their parts *)
Definition from (n : nat) (s : string) : string := substring n (String.length s - n) s.

Lemma from_0 s : from 0 s = s.
Proof. unfold from. rewrite Nat.sub_0_r. apply substring_full. Qed.

Lemma from_S n c s : from (S n) (String c s) = from n s.
Proof. done. Qed.

Lemma substring_empty n m : substring n m "" = "".
Proof. by destruct n, m. Qed.

Lemma substring_zero n s : substring n 0 s = "".
Proof. revert n. induction s as [|c s IH]; intros [|n]; try done. apply IH. Qed.

Lemma from_length n s : String.length (from n s) = (String.length s - n)%nat.
Proof.
  revert n. induction s as [|c s IH]; intros n; [by destruct n|]. destruct n as [|n]; [by rewrite from_0|]. rewrite from_S, IH. cbn. lia.
Qed.

Lemma substring_from n m a s : substring n m (from a s) = substring (a + n) m s.
Proof.
  revert a. induction s as [|c s IH]; intros a; [unfold from; by rewrite !substring_empty|].
  destruct a as [|a]; [by rewrite from_0|]. rewrite from_S, IH. done.
Qed.

Lemma from_from n a s : from n (from a s) = from (a + n) s.
Proof. unfold from at 1. rewrite substring_from, from_length. unfold from. f_equal. lia. Qed.

Lemma from_split a b s : (a <= b <= String.length s)%nat -> substring a (b - a) s ++ from b s = from a s.
Proof.
  revert a b. induction s as [|c s IH]; intros a b Hab; cbn in Hab.
  { assert (a = 0%nat) as -> by lia. assert (b = 0%nat) as -> by lia. done. }
  destruct a as [|a], b as [|b]; try lia.
  - done.
  - rewrite from_S, from_0, Nat.sub_0_r. cbn [substring String.append]. f_equal. specialize (IH 0%nat b). rewrite Nat.sub_0_r, from_0 in IH.
    apply IH. lia.
  - rewrite !from_S. cbn [substring]. replace (S b - S a)%nat with (b - a)%nat by lia. apply IH. lia.
Qed.

(** ** What the crate promises

    The whole match is always there, the groups are ranges of characters, and the matches follow each other without overlapping;
    a replacement without [$] is literal. *)
Definition whole (cap : Captures) : option (nat * nat) := group cap 0.
Definition wholes {RX : RegexEngine} (r : Regex) (h : string) : list (nat * nat) := omap whole (captures_iter r h).

(** The text from [n] on, with the ranges replaced. *)
Fixpoint splice (h rep : string) (n : nat) (ms : list (nat * nat)) : string :=
  match ms with
  | [] => from n h
  | (a, b) :: ms => substring n (a - n) h ++ rep ++ splice h rep b ms
  end.

Class RegexLaws {RX : RegexEngine} := {
  whole_match : forall r h cap, cap ∈ captures_iter r h -> is_Some (whole cap);
  match_range : forall r h cap n m, cap ∈ captures_iter r h -> group cap n = Some m ->
    (fst m <= snd m <= String.length h)%nat /\ starts_char (from (fst m) h) = true /\ starts_char (from (snd m) h) = true;
  matches_ordered : forall r h i j m n, (i < j)%nat -> wholes r h !! i = Some m -> wholes r h !! j = Some n -> (snd m <= fst n)%nat;
  replace_first_literal : forall r h rep, contains_any ["$"%char] rep = false -> regex_replace r h rep = splice h rep 0 (take 1 (wholes r h));
  replace_all_literal : forall r h rep, contains_any ["$"%char] rep = false -> regex_replace_all r h rep = splice h rep 0 (wholes r h) }.

Section laws.
Context {RX : RegexEngine} {RL : RegexLaws}.

Lemma wholes_lookup r h i : wholes r h !! i = captures_iter r h !! i ≫= whole.
Proof.
  unfold wholes. assert (Forall (fun cap => is_Some (whole cap)) (captures_iter r h)) as Hf by (apply Forall_forall; apply whole_match).
  revert i. induction Hf as [|cap caps [m Hm] _ IH]; intros i; [done|]. cbn. rewrite Hm. destruct i as [|i]; [done|]. apply IH.
Qed.

Lemma whole_range r h i m : wholes r h !! i = Some m -> (fst m <= snd m <= String.length h)%nat /\ starts_char (from (fst m) h) = true.
Proof.
  rewrite wholes_lookup. intros (cap & Hc & Hm)%bind_Some. apply list_elem_of_lookup_2 in Hc. destruct (match_range r h cap 0 m Hc Hm) as (? & ? & _). done.
Qed.

(** *** REGEXP_INSTR and REGEXP_SUBSTR *)
Definition fits (position : Z) (s : string) : Prop := Z.of_nat (String.length s) + position < i64_max.

Lemma regexp_from r position s h caps : 0 <= position -> regexp r position s = Ok (h, caps) ->
  h = from (Z.to_nat (Z.min position (Z.of_nat (String.length s)))) s /\ caps = captures_iter r h.
Proof.
  intros Hp. unfold regexp, slice_from. change (substring ?n (String.length s - ?n) s) with (from n s).
  destruct (starts_char _); cbn [result_bind]; [|done]. by intros [= <- <-].
Qed.

(** REGEXP_INSTR and REGEXP_SUBSTR speak of the same match: where there is one, REGEXP_INSTR gives the places where it begins
    and where it has ended, at or after the position the search starts from, and REGEXP_SUBSTR the text between them; REGEXP_INSTR is 0
    exactly where REGEXP_SUBSTR is null. *)
Theorem instr_substr_agree r position occurrence group_num s i j t :
  0 <= position <= Z.of_nat (String.length s) -> fits position s ->
  instr_row r position occurrence 0 group_num (Some s) = Ok (Some i) ->
  instr_row r position occurrence 1 group_num (Some s) = Ok (Some j) ->
  substr_row r position occurrence group_num (Some s) = Ok t ->
  (i = 0 <-> t = None) /\
  (i <> 0 -> position + 1 <= i /\ i <= j <= Z.of_nat (String.length s) + 1 /\ t = Some (substring (Z.to_nat (i - 1)) (Z.to_nat (j - i)) s)).
Proof.
  intros Hp Hfit. unfold instr_row, substr_row. destruct (regexp r position s) as [[h caps]|] eqn:E; cbn [result_bind]; [|done].
  apply regexp_from in E as [Hh ->]; [|lia]. rewrite Z.min_l in Hh by lia. destruct (captures_iter r h !! Z.to_nat occurrence) as [cap|] eqn:Ec; cbn [mbind option_bind].
  2: { intros [= <-] [= <-] [= <-]. done. }
  destruct (group cap group_num) as [[a b]|] eqn:Eg; cbn [mbind option_bind fmap option_fmap option_map fst snd]; [|intros [= <-] [= <-] [= <-]; done].
  apply list_elem_of_lookup_2 in Ec. destruct (match_range r h cap group_num (a, b) Ec Eg) as (Hr & _). cbn [fst snd] in Hr.
  rewrite Hh, from_length in Hr. unfold fits in Hfit. unfold match_text. cbn [fst snd].
  assert (forall n, (n <= String.length s)%nat -> in_i64 (Z.of_nat n + position + 1) = true) as Hin
    by (intros n Hn; unfold in_i64, i64_min; apply andb_true_iff; lia).
  cbn [Z.eqb]. rewrite !Hin by lia.
  cbn [default]. intros [= <-] [= <-] [= <-]. split; [split; [lia|done]|]. intros _. split; [lia|]. split; [lia|]. f_equal.
  rewrite Hh, substring_from. f_equal; lia.
Qed.

(** *** REGEXP_SUBSTR_ALL *)
Definition quoted (t : string) : string := String quote t ++ String quote "".

(** The texts of a group, from an occurrence on. *)
Definition group_texts (h : string) (group_num : Z) (caps : list Captures) : list string := omap (fun cap => match_text h <$> group cap group_num) caps.

Lemma pop_snoc s c : pop (s ++ String c "") = s.
Proof.
  unfold pop. rewrite string_length_app. cbn [String.length]. replace (String.length s + 1 - 1)%nat with (String.length s) by lia.
  induction s as [|d s IH]; [done|]. cbn [String.append String.length substring]. by rewrite IH.
Qed.

Lemma push_matches h g acc caps :
  foldl (push_match h g) acc caps = acc ++ of_chars (map (fun t => quoted t ++ ",") (group_texts h g caps)).
Proof.
  revert acc. induction caps as [|cap caps IH]; intros acc; cbn [foldl map of_chars]; [by rewrite string_app_nil_r|].
  rewrite IH. unfold push_match, group_texts. cbn [omap list_omap]. destruct (group cap g) as [m|]; cbn [fmap option_fmap option_map map of_chars]; [|done].
  rewrite !string_app_assoc. cbn [String.append]. f_equal. unfold quoted. cbn [String.append]. by rewrite !string_app_assoc.
Qed.

Lemma joined_items ts : ts <> [] -> of_chars (map (fun t => quoted t ++ ",") ts) = join "," (map quoted ts) ++ ",".
Proof.
  induction ts as [|t [|u ts] IH]; intros H; [done|cbn; by rewrite string_app_nil_r|].
  change (of_chars (map (fun t => quoted t ++ ",") (t :: u :: ts))) with ((quoted t ++ ",") ++ of_chars (map (fun t => quoted t ++ ",") (u :: ts))).
  rewrite IH by done. change (join "," (map quoted (t :: u :: ts))) with (quoted t ++ "," ++ join "," (map quoted (u :: ts))).
  by rewrite !string_app_assoc.
Qed.

(** REGEXP_SUBSTR_ALL lists the texts of the group in every match from the occurrence on, in quotes and separated by commas. *)
Theorem substr_all_lists r position occurrence group_num s h caps : regexp r position s = Ok (h, caps) ->
  substr_all_row r position occurrence group_num (Some s) =
    Ok (Some ("[" ++ join "," (map quoted (group_texts h group_num (drop (Z.to_nat occurrence) caps))) ++ "]")).
Proof.
  intros E. unfold substr_all_row. rewrite E. cbn [result_bind]. do 2 f_equal. rewrite push_matches.
  destruct (group_texts h group_num (drop (Z.to_nat occurrence) caps)) as [|t ts]; [done|].
  rewrite joined_items by done. rewrite <- string_app_assoc, pop_snoc.
  rewrite (proj2 (Nat.ltb_lt _ _)); [by rewrite string_app_assoc|]. rewrite !string_length_app. cbn. lia.
Qed.

(** *** REGEXP_REPLACE *)
Definition shift (n : nat) (m : nat * nat) : nat * nat := ((n + fst m)%nat, (n + snd m)%nat).

(** The matches in the text from a match on are the matches from there on: so for patterns that do not look back. *)
Definition looks_ahead (r : Regex) : Prop :=
  forall h i m, wholes r h !! i = Some m -> map (shift (fst m)) (wholes r (from (fst m) h)) = drop i (wholes r h).

Lemma splice_shift h rep a n ms : (a <= n)%nat ->
  splice (from a h) rep (n - a) ms = splice h rep n (map (shift a) ms).
Proof.
  intros Hn. revert n Hn. induction ms as [|[x y] ms IH]; intros n Hn; cbn [splice map shift fst snd].
  - rewrite from_from. f_equal. lia.
  - rewrite substring_from. f_equal; [f_equal; lia|]. f_equal. rewrite <- (IH (a + y)%nat) by lia. f_equal. lia.
Qed.

Lemma slice_until_ok s n : (n <= String.length s)%nat -> starts_char (from n s) = true -> slice_until s n = Ok (substring 0 n s).
Proof. intros Hn Hs. unfold slice_until, slice_to. unfold from in Hs. by rewrite (proj2 (Nat.leb_le _ _) Hn), Hs. Qed.

Lemma slice_from_ok s n : starts_char (from n s) = true -> slice_from s n = Ok (from n s).
Proof. intros Hs. unfold slice_from. unfold from in *. by rewrite Hs. Qed.

Lemma lookup_shift a ms i : map (shift a) ms !! i = shift a <$> ms !! i.
Proof. apply list_lookup_fmap. Qed.

Lemma map_shift_shift a b ms : map (shift a) (map (shift b) ms) = map (shift (a + b)) ms.
Proof. rewrite map_map. apply map_ext. intros [x y]. unfold shift. cbn. by rewrite !Nat.add_assoc. Qed.

End laws.

(** *** Calls that end *)
Section totality.
Context `{ArrowExt, Kernels} {RX : RegexEngine} {RL : RegexLaws}.

Lemma ascii_from n s : ascii_text s = true -> starts_char (from n s) = true.
Proof. intros Hs. apply ascii_starts_char. by apply str_all_substring. Qed.

Lemma regexp_ascii r position s : ascii_text s = true -> exists h caps, regexp r position s = Ok (h, caps).
Proof. intros Hs. unfold regexp. rewrite slice_from_ok by (by apply ascii_from). cbn [result_bind]. by eexists _, _. Qed.

Definition ascii_rows (rows : list (option string)) : Prop := Forall (fun row => match row with Some s => ascii_text s = true | None => True end) rows.

Lemma rows_total {B} (f : option string -> xres (option B)) rows (P : option string -> option B -> Prop) :
  (forall row, match row with Some s => ascii_text s = true | None => True end -> exists v, f row = Ok v /\ P row v) ->
  ascii_rows rows -> exists out, traverse f rows = Ok out /\ Forall2 P rows out.
Proof.
  intros Hf. induction 1 as [|row rows Hr _ [out [E HP]]]; [by exists []|]. destruct (Hf row Hr) as (v & Ev & Pv). exists (v :: out). cbn.
  rewrite Ev. cbn. rewrite E. cbn. split; [done|by constructor].
Qed.

(** Over a column of ASCII text the four functions that search succeed for every regular expression and every position, and
    have a row for each subject: null for a null subject, except that REGEXP_INSTR is never null. *)
Theorem regexp_functions_total pattern parameters regex rows position occurrence option group_num :
  pattern_to_regex pattern parameters = Ok regex -> ascii_rows rows ->
  let over {B} (f : Regex -> Datatypes.option string -> xres (Datatypes.option B)) := over_strings (AUtf8 Utf8 rows) pattern parameters f in
  (exists out, over (fun r => instr_row r position occurrence option group_num) = Ok out /\ Forall2 (fun _ v => is_Some v) rows out) /\
  (exists out, over (fun r => substr_row r position occurrence group_num) = Ok out /\ Forall2 (fun row v => row = None -> v = None) rows out) /\
  (exists out, over (fun r => substr_all_row r position occurrence group_num) = Ok out /\ Forall2 (fun row v => row = None <-> v = None) rows out) /\
  (exists out, over like_row = Ok out /\ Forall2 (fun row v => row = None <-> v = None) rows out).
Proof.
  intros Hr Hrows over. unfold over, over_strings. cbn [string_rows result_bind]. rewrite Hr. cbn [result_bind].
  split_and!; (apply rows_total; [|done]); (intros [s|] Hs; [|by eexists]).
  - destruct (regexp_ascii regex position s Hs) as (h & caps & E). unfold instr_row. rewrite E. by eexists.
  - destruct (regexp_ascii regex position s Hs) as (h & caps & E). unfold substr_row. rewrite E. by eexists.
  - destruct (regexp_ascii regex position s Hs) as (h & caps & E). unfold substr_all_row. rewrite E. by eexists.
  - destruct (regexp_ascii regex 0 s Hs) as (h & caps & E). unfold like_row. rewrite E. by eexists.
Qed.
End totality.

(** ** An engine

    Alternatives of literals, with the anchors of the text and [\B] in front, enough to run the functions on. *)
Module SmallRegex.
Record alternative := mkAlternative { at_start : bool; inside : bool; literal : string; at_end : bool }.

Definition cut_prefix (p s : string) : bool * string := match strip_prefix p s with Some s => (true, s) | None => (false, s) end.

Definition parse_alternative (s : string) : alternative :=
  let (at_start, s) := cut_prefix "^" s in
  let (inside, s) := cut_prefix "\B" s in
  if ends_with_char "$" s then mkAlternative at_start inside (pop s) true else mkAlternative at_start inside s false.

Definition parse_regex (pattern : string) : list alternative := map parse_alternative (split pattern "|").

(** The end of the alternative's match at [i]. *)
Definition alternative_at (h : string) (i : nat) (x : alternative) : option nat :=
  let e := (i + String.length x.(literal))%nat in
  if implb x.(at_start) (Nat.eqb i 0) && implb x.(inside) (negb (Nat.eqb i 0)) && String.prefix x.(literal) (from i h) && implb x.(at_end) (Nat.eqb e (String.length h))
     && (e <=? String.length h)%nat && starts_char (from i h) && starts_char (from e h)
  then Some e else None.

Fixpoint match_at (xs : list alternative) (h : string) (i : nat) : option nat :=
  match xs with [] => None | x :: xs => match alternative_at h i x with Some e => Some e | None => match_at xs h i end end.

Fixpoint scan (fuel : nat) (xs : list alternative) (h : string) (i : nat) : list (nat * nat) :=
  match fuel with
  | O => []
  | S fuel =>
      if (i <=? String.length h)%nat then
        match match_at xs h i with
        | Some e => (i, e) :: scan fuel xs h (Nat.max e (S i))
        | None => scan fuel xs h (S i)
        end
      else []
  end.

Definition matches (xs : list alternative) (h : string) : list (nat * nat) := scan (S (String.length h)) xs h 0.

#[global] Instance small_engine : RegexEngine := {|
  Regex := list alternative;
  regex_build := fun pattern _ _ _ => Ok (parse_regex pattern);
  captures_iter := fun xs h => map (fun m => [Some m]) (matches xs h);
  regex_replace := fun xs h rep => splice h rep 0 (take 1 (matches xs h));
  regex_replace_all := fun xs h rep => splice h rep 0 (matches xs h) |}.

Lemma match_at_range xs h i e : match_at xs h i = Some e -> (i <= e <= String.length h)%nat /\ starts_char (from i h) = true /\ starts_char (from e h) = true.
Proof.
  induction xs as [|x xs IH]; [done|]. cbn [match_at]. unfold alternative_at. case_match eqn:E; [|apply IH].
  revert E. case_match eqn:Eb; [|done]. intros [= <-] [= <-]. rewrite !andb_true_iff in Eb. destruct Eb as [[[[[[_ _] _] _] He] Hs] Ht].
  apply Nat.leb_le in He. split; [lia|done].
Qed.

Lemma scan_range fuel xs h i m : m ∈ scan fuel xs h i ->
  (i <= fst m)%nat /\ (fst m <= snd m <= String.length h)%nat /\ starts_char (from (fst m) h) = true /\ starts_char (from (snd m) h) = true.
Proof.
  revert i. induction fuel as [|fuel IH]; intros i; cbn [scan]; [by intros ?%not_elem_of_nil|]. case_match; [|by intros ?%not_elem_of_nil].
  destruct (match_at xs h i) as [e|] eqn:Em.
  - intros [->|Hm]%elem_of_cons; [apply match_at_range in Em; cbn; split; [lia|done]|]. destruct (IH _ Hm). split; [lia|done].
  - intros Hm. destruct (IH _ Hm). split; [lia|done].
Qed.

Lemma scan_ordered fuel xs h i j k m n : (j < k)%nat -> scan fuel xs h i !! j = Some m -> scan fuel xs h i !! k = Some n -> (snd m <= fst n)%nat.
Proof.
  revert i j k. induction fuel as [|fuel IH]; intros i j k Hjk; cbn [scan]; [done|]. case_match; [|done].
  destruct (match_at xs h i) as [e|] eqn:Em; [|by apply IH]. destruct k as [|k]; [lia|]. cbn. destruct j as [|j]; [|apply IH; lia].
  intros [= <-] Hn%list_elem_of_lookup_2. apply scan_range in Hn. cbn. lia.
Qed.

Lemma wholes_matches (xs : list alternative) h : wholes (xs : Regex) h = matches xs h.
Proof.
  unfold wholes, captures_iter, small_engine. generalize (matches xs h). intros ms. induction ms as [|m ms IH]; [done|]. cbn. f_equal. exact IH.
Qed.

#[global] Instance small_laws : RegexLaws.
Proof.
  split.
  - intros r h cap (m & -> & _)%list_elem_of_fmap. by eexists.
  - intros r h cap n m (m' & -> & Hm)%list_elem_of_fmap. unfold group. destruct (Z.to_nat n) as [|[]]; try done. intros [= <-]. eapply scan_range in Hm. apply Hm.
  - intros r h i j m n Hij. rewrite wholes_matches. by apply scan_ordered.
  - intros r h rep _. by rewrite wholes_matches.
  - intros r h rep _. by rewrite wholes_matches.
Qed.

(** Without anchors the engine looks ahead only. *)
Definition free (x : alternative) : bool := negb x.(at_start) && negb x.(inside) && negb x.(at_end).

Lemma scan_fuel f g xs h i : (String.length h < f + i)%nat -> (String.length h < g + i)%nat -> scan f xs h i = scan g xs h i.
Proof.
  revert g i. induction f as [|f IH]; intros [|g] i Hf Hg; cbn [scan]; [done|rewrite (proj2 (Nat.leb_gt _ _)) by lia; done..|].
  case_match; [|done]. destruct (match_at xs h i); [f_equal|]; apply IH; lia.
Qed.

Lemma match_at_from xs h a i : forallb free xs = true -> (a <= String.length h)%nat -> match_at xs (from a h) i = (fun e => e - a)%nat <$> match_at xs h (a + i).
Proof.
  intros Hf Ha. induction xs as [|x xs IH]; [done|]. cbn [forallb] in Hf. apply andb_true_iff in Hf as [Hx Hf]. cbn [match_at].
  unfold alternative_at. unfold free in Hx. rewrite !andb_true_iff, !negb_true_iff in Hx. destruct Hx as [[-> ->] ->]. cbn [implb].
  rewrite !from_from, from_length, !andb_true_r. cbn [andb].
  replace (i + String.length (literal x) <=? String.length h - a)%nat with (a + i + String.length (literal x) <=? String.length h)%nat
    by (destruct (Nat.leb_spec (a + i + String.length (literal x)) (String.length h)); symmetry; [apply Nat.leb_le|apply Nat.leb_gt]; lia).
  rewrite Nat.add_assoc. destruct (String.prefix _ _ && _ && _ && _); cbn [fmap option_fmap option_map]; [f_equal; lia|]. by apply IH.
Qed.

Lemma scan_from f xs h a i : forallb free xs = true -> (a <= String.length h)%nat -> map (shift a) (scan f xs (from a h) i) = scan f xs h (a + i).
Proof.
  intros Hf Ha. revert i. induction f as [|f IH]; intros i; [done|]. cbn [scan]. rewrite from_length.
  destruct (Nat.leb_spec i (String.length h - a)); [rewrite (proj2 (Nat.leb_le (a + i) _)) by lia|rewrite (proj2 (Nat.leb_gt (a + i) _)) by lia; done].
  rewrite match_at_from by done. destruct (match_at xs h (a + i)) as [e|] eqn:Em; cbn [fmap option_fmap option_map].
  - apply match_at_range in Em as [He _]. cbn [map]. rewrite IH. unfold shift. cbn [fst snd]. f_equal; [f_equal; lia|f_equal; lia].
  - rewrite IH. f_equal. lia.
Qed.

Lemma scan_drop f xs h i k m : (String.length h < f + i)%nat -> scan f xs h i !! k = Some m -> drop k (scan f xs h i) = scan (S (String.length h) - fst m) xs h (fst m).
Proof.
  revert i k. induction f as [|f IH]; intros i k Hf; [done|]. intros Hk. pose proof Hk as Hm. apply list_elem_of_lookup_2, scan_range in Hm.
  destruct k as [|k].
  - rewrite drop_0. revert Hk. cbn [scan]. case_match eqn:Ei; [|done]. destruct (match_at xs h i) as [e|] eqn:Em.
    + intros [= <-]. cbn [fst]. replace (S (String.length h) - i)%nat with (S (String.length h - i)) by lia. cbn [scan]. rewrite Ei, Em. f_equal. apply scan_fuel; lia.
    + intros Hk. rewrite <- (drop_0 (scan f xs h (S i))). apply IH; [lia|done].
  - revert Hk. cbn [scan]. case_match eqn:Ei; [|done]. destruct (match_at xs h i) as [e|] eqn:Em; [cbn [drop]|]; intros Hk; apply IH; try done; lia.
Qed.

Lemma free_looks_ahead (xs : list alternative) : forallb free xs = true -> looks_ahead (xs : Regex).
Proof.
  intros Hf h i m. rewrite !wholes_matches. intros Hi. unfold matches in *. pose proof Hi as Hm. apply list_elem_of_lookup_2, scan_range in Hm as (_ & Hm & _).
  rewrite (scan_drop (S (String.length h)) xs h 0 i m), scan_from, Nat.add_0_r by (done || lia). apply scan_fuel; rewrite ?from_length; lia.
Qed.
End SmallRegex.

(** ** Examples *)
Module RegexpExamples.
Import SmallRegex.

Definition text (s : string) : ColumnarValue := Scalar (SUtf8 Utf8 (Some s)).
Definition number (z : Z) : ColumnarValue := Scalar (SInt Int64 (Some z)).
Definition subjects (l : list string) : ColumnarValue := string_column (map Some l).
Definition more : Regex := parse_regex "more|less".

Lemma instr_substr_agree_witness :
  0 + 1 <= 9 /\ 9 <= 13 <= 12 + 1 /\ Some "less" = Some (substring (Z.to_nat (9 - 1)) (Z.to_nat (13 - 9)) "more or less").
Proof.
  apply (instr_substr_agree more 0 1 0 "more or less" 9 13 (Some "less")); [cbn; lia|vm_compute; reflexivity..|lia].
Defined.


Lemma regexp_functions_total_witness : exists out, over_strings (AUtf8 Utf8 [Some "more"; None]) "more|less" "c" like_row = Ok out.
Proof.
  destruct (regexp_functions_total "more|less" "c" more [Some "more"; None] 0 0 0 0) as (_ & _ & _ & out & H & _);
    [vm_compute; reflexivity|by repeat constructor|]. by exists out.
Defined.

Example searches :
  let q := String quote "" in
  regexp_instr [subjects ["nevermore"; "less"]; text "more"] = Ok (Array (AInt Int64 [Some 6; Some 0])) /\
  regexp_substr [subjects ["nevermore"; "x"]; text "more|never"; number 1; number 2] = Ok (string_column [Some "more"; None]) /\
  regexp_substr_all [subjects ["nevermore"; "x"]; text "more|never"] =
    Ok (string_column [Some ("[" ++ q ++ "never" ++ q ++ "," ++ q ++ "more" ++ q ++ "]"); Some "[]"]).
Proof. vm_compute. split_and!; reflexivity. Qed.

(** A pattern with an alternative is anchored only at its first and its last one. *)
Example like_alternatives : regexp_like [subjects ["another"]; text "an|other"] = Ok (Array (ABoolean [Some true])).
Proof. vm_compute. reflexivity. Qed.

(** Positions count bytes, and a position inside a character panics. *)
Example positions_count_bytes :
  regexp_instr [subjects ["éa"]; text "a"] = Ok (Array (AInt Int64 [Some 3])) /\ regexp_instr [subjects ["éa"]; text "a"; number 2] = xpanic.
Proof. vm_compute. split; reflexivity. Qed.

(** Without a match the subject is lost; the documentation returns it. *)
Example replace_without_match : regexp_replace [subjects ["less"]; text "more"; text ""] = Ok (string_column [None]).
Proof. vm_compute. reflexivity. Qed.

(** The text in front of the match is not seen by the replacement. *)
Example replace_looks_back : regexp_replace [subjects ["xa"]; text "\Ba"; text "b"] = Ok (string_column [Some "xa"]).
Proof. vm_compute. reflexivity. Qed.

(** An empty match behind the end panics. *)
Example replace_past_end : regexp_replace [subjects ["a"]; text "b|"; text "c"; number 5] = xpanic.
Proof. vm_compute. reflexivity. Qed.

(** Quotes in a match are not escaped: the text is no array of JSON. *)
Example substr_all_unescaped :
  let q := String quote "" in regexp_substr_all [subjects [q]; text q] = Ok (string_column [Some ("[" ++ q ++ q ++ q ++ "]")]).
Proof. vm_compute. reflexivity. Qed.

(** An unknown parameter that is no ASCII character panics; one argument is said to be too many. *)
Example argument_errors :
  regexp_like [subjects ["a"]; text "a"; text "é"] = xpanic /\ like_return_type 1 = xfail (RegexpError.TooManyArguments 1 3).
Proof. vm_compute. split; reflexivity. Qed.
End RegexpExamples.
