(* ===== verification/Encryption.v ===== *)
(** * Encryption functions

    [functions/src/encryption]: ENCRYPT_RAW and DECRYPT_RAW with the check of their argument types, the computation of one row
    and the functions over columns.  AES-GCM, the hexadecimal encoding, Unicode upper case, the random numbers and the text
    of data types are the class [Crypto]. *)

From Stdlib Require Import ZArith Lia Ascii String.
From Stdlib.Strings Require Import Byte.
From stdpp Require Import base option list strings.
From S2P Require Import Prelude Utf8 JsonValue JsonEncode SemiStructured.

#[local] Open Scope string_scope.
#[local] Open Scope rust_scope.

Notation bytes := (list byte).

(** ** Errors *)
Module EncryptionError.
Inductive t :=
| InvalidArgumentTypes (function_name types : string)
| ArrayLengthMismatch
| MalformedEncryptionMethod (method : string)
| UnsupportedEncryptionAlgorithm (algorithm : string)
| UnsupportedEncryptionMode (mode : string)
| InvalidIvSize (bits expected_bits : nat) (mode : string)
| InvalidKeySize (bits : nat) (algorithm : string)
| InvalidKeyLength (length : nat)
| CiphertextTooShort
| CipherCreation
| EncryptionFailed
| DecryptionFailed
| NullIvForDecryption
| SliceCreationFailed.
End EncryptionError.
Import EncryptionError.

Inductive crypto_failure := Crypt (e : EncryptionError.t) | CryptHalt (s : stop).
Notation kres A := (result crypto_failure A).
Definition kfail {A} (e : EncryptionError.t) : kres A := Err (Crypt e).
Definition of_arrow_crypt {A} (r : result ArrowError A) : kres A := match r with Ok a => Ok a | Err e => Err (CryptHalt (Raise e)) end.

(** AES-GCM with keys of 16, 24 and 32 bytes: the tag is the end of what [aes_encrypt] returns. *)
Class Crypto := {
  new_from_slice : bytes -> bool;
  aes_encrypt : bytes -> bytes -> bytes -> bytes -> option bytes;
  aes_decrypt : bytes -> bytes -> bytes -> bytes -> option bytes;
  hex_encode_upper : bytes -> string;
  method_to_uppercase : string -> string;
  type_debug : DataType -> string }.

Section functions.
Context `{ArrowExt, Serde, Crypto}.

(** ** [coerce_types] *)
Definition coerce_null (text_position : nat) (last : nat) (i : nat) (t : DataType) : DataType :=
  match t with
  | TNull => if Nat.eqb i text_position then TUtf8 Utf8 else if (i <=? last)%nat then TBinary Binary else t
  | _ => t
  end.

Definition is_binary (t : DataType) : bool := match t with TBinary Binary => true | _ => false end.
Definition is_utf8 (t : DataType) : bool := match t with TUtf8 Utf8 => true | _ => false end.

(** The types of the arguments; the method is the only text. *)
Definition accepted (types : list DataType) : bool :=
  forallb (fun p => if Nat.eqb (fst p) 4 then is_utf8 (snd p) else is_binary (snd p)) (imap pair types).

Definition format_types (types : list DataType) : string := "(" ++ join ", " (map type_debug types) ++ ")".

Definition coerce_types (function_name : string) (last at_maximum : nat) (arg_types : list DataType) : kres (list DataType) :=
  let coerced_types := imap (coerce_null 4 last) arg_types in
  let n := length coerced_types in
  if (3 <=? n)%nat && (n <=? at_maximum)%nat && accepted coerced_types then Ok coerced_types
  else kfail (InvalidArgumentTypes function_name (format_types arg_types)).

Definition encrypt_coerce_types : list DataType -> kres (list DataType) := coerce_types "ENCRYPT_RAW" 3 5.
Definition decrypt_coerce_types : list DataType -> kres (list DataType) := coerce_types "DECRYPT_RAW" 5 6.

(** ** One value *)
Definition encrypt (value key iv aad : bytes) : kres (bytes * bytes) :=
  if negb (new_from_slice key) then kfail CipherCreation
  else if negb (Nat.eqb (length iv) 12) then kfail SliceCreationFailed
  else match aes_encrypt key iv aad value with
       | None => kfail EncryptionFailed
       | Some ct => if (length ct <? 16)%nat then Err (CryptHalt Panic)
                    else let n := (length ct - 16)%nat in Ok (take n ct, drop n ct)
       end.

Definition decrypt (ct key iv aad : bytes) : kres bytes :=
  if negb (new_from_slice key) then kfail DecryptionFailed
  else if negb (Nat.eqb (length iv) 12) then kfail SliceCreationFailed
  else ok_or (aes_decrypt key iv aad ct) (Crypt DecryptionFailed).

Definition check_method (method : string) : kres unit :=
  match split (method_to_uppercase method) "-" with
  | [algorithm; mode] =>
      if negb (String.eqb algorithm "AES") then kfail (UnsupportedEncryptionAlgorithm algorithm)
      else if negb (String.eqb mode "GCM") then kfail (UnsupportedEncryptionMode mode)
      else Ok tt
  | _ => kfail (MalformedEncryptionMethod method)
  end.

Definition check_iv (iv : bytes) : kres unit :=
  if Nat.eqb (length iv) 12 then Ok tt else kfail (InvalidIvSize (length iv * 8) 96 "GCM").

Definition key_size_ok (key : bytes) : bool := Nat.eqb (length key) 16 || Nat.eqb (length key) 24 || Nat.eqb (length key) 32.

Definition encrypted_json (ciphertext iv tag : bytes) : Value :=
  VObject [("ciphertext", VString (hex_encode_upper ciphertext)); ("iv", VString (hex_encode_upper iv)); ("tag", VString (hex_encode_upper tag))].

(** The values of a row without nulls. *)
Definition encrypt_value (random_iv value key : bytes) (iv : option bytes) (aad : bytes) (method : string) : kres string :=
  let? _ := check_method method in
  let iv := match iv with None | Some [] => random_iv | Some iv => iv end in
  let? _ := check_iv iv in
  if key_size_ok key then
    let? (ciphertext, tag) := encrypt value key iv aad in
    Ok (to_string (encrypted_json ciphertext iv tag))
  else kfail (InvalidKeySize (length key * 8) "AES").

(** One row; an argument that is not given is [None], a null row [Some None]. [random_iv] is [generate_random_iv]. *)
Definition encrypt_row (random_iv : bytes) (value key iv : option bytes) (aad : option (option bytes)) (method : option (option string)) :
    kres (option string) :=
  match value, key, aad, method with
  | None, _, _, _ | _, None, _, _ | _, _, Some None, _ | _, _, _, Some None => Ok None
  | Some value, Some key, _, _ => result_map Some (encrypt_value random_iv value key iv (default [] (mjoin aad)) (default "AES-GCM" (mjoin method)))
  end.

(** The ciphertext with its tag, which is its end when no tag is given. *)
Definition combined (ct tag : bytes) : kres bytes :=
  match tag with
  | [] => if (length ct <? 16)%nat then kfail CiphertextTooShort else let n := (length ct - 16)%nat in Ok (take n ct ++ drop n ct)%list
  | _ => Ok (ct ++ tag)%list
  end.

Definition decrypt_value (ct key iv aad : bytes) (method : string) (tag : bytes) : kres bytes :=
  let? _ := check_iv iv in
  let? _ := check_method method in
  let? combined_ct := combined ct tag in
  if key_size_ok key then decrypt combined_ct key iv aad else kfail (InvalidKeyLength (length key)).

Definition decrypt_row (ct key iv : option bytes) (aad : option (option bytes)) (method : option (option string)) (tag : option (option bytes)) :
    kres (option bytes) :=
  match iv with
  | None => kfail NullIvForDecryption
  | Some iv =>
      match ct, key, aad, method, tag with
      | None, _, _, _, _ | _, None, _, _, _ | _, _, Some None, _, _ | _, _, _, Some None, _ | _, _, _, _, Some None => Ok None
      | Some ct, Some key, _, _, _ =>
          result_map Some (decrypt_value ct key iv (default [] (mjoin aad)) (default "AES-GCM" (mjoin method)) (default [] (mjoin tag)))
      end
  end.

(** ** Columns *)
Definition argument_array (v : ColumnarValue) : kres ArrayRef := match v with Array a => Ok a | Scalar s => of_arrow_crypt (to_array_of_size s 1) end.

(** [args[i]], and an argument that may be missing. *)
Definition required (args : list ColumnarValue) (i : nat) : kres ArrayRef := let? v := ok_or (args !! i) (CryptHalt Panic) in argument_array v.
Definition optional (args : list ColumnarValue) (i : nat) : kres (option ArrayRef) :=
  match args !! i with Some v => result_map Some (argument_array v) | None => Ok None end.

Definition as_binary_array (a : ArrayRef) : kres (list (option bytes)) :=
  match a with ABinary Binary rows => Ok rows | _ => of_arrow_crypt (Err (OtherError "could not cast")) end.
Definition as_string_array (a : ArrayRef) : kres (list (option string)) :=
  match a with AUtf8 Utf8 rows => Ok rows | _ => of_arrow_crypt (Err (OtherError "could not cast")) end.

Definition transpose_rows {A} (f : ArrayRef -> kres (list (option A))) (a : option ArrayRef) : kres (option (list (option A))) :=
  match a with Some a => result_map Some (f a) | None => Ok None end.

Definition same_length (n : nat) (a : option ArrayRef) : bool := match a with Some a => Nat.eqb (len a) n | None => true end.

(** The row [i] of a column, and of an argument that may be missing. *)
Definition row {A} (rows : list (option A)) (i : nat) : option A := mjoin (rows !! i).
Definition row_opt {A} (rows : option (list (option A))) (i : nat) : option (option A) := (fun rows => row rows i) <$> rows.

(** [random i] are the random bytes of the row [i]. *)
Definition encrypt_raw (random : nat -> bytes) (args : list ColumnarValue) : kres ColumnarValue :=
  let? val_arr := required args 0 in
  let? key_arr := required args 1 in
  let? iv_arr := required args 2 in
  let? aad_arr := optional args 3 in
  let? method_arr := optional args 4 in
  let n := len val_arr in
  if negb (Nat.eqb (len key_arr) n && Nat.eqb (len iv_arr) n && same_length n aad_arr && same_length n method_arr) then kfail ArrayLengthMismatch
  else
    let? vals := as_binary_array val_arr in
    let? keys := as_binary_array key_arr in
    let? ivs := as_binary_array iv_arr in
    let? aads := transpose_rows as_binary_array aad_arr in
    let? methods := transpose_rows as_string_array method_arr in
    let? rows := traverse (fun i => encrypt_row (random i) (row vals i) (row keys i) (row ivs i) (row_opt aads i) (row_opt methods i)) (seq 0 n) in
    Ok (string_column rows).

Definition decrypt_raw (args : list ColumnarValue) : kres ColumnarValue :=
  let? ct_arr := required args 0 in
  let? key_arr := required args 1 in
  let? iv_arr := required args 2 in
  let? aad_arr := optional args 3 in
  let? method_arr := optional args 4 in
  let? tag_arr := optional args 5 in
  let n := len ct_arr in
  if negb (Nat.eqb (len key_arr) n && Nat.eqb (len iv_arr) n && same_length n aad_arr && same_length n method_arr && same_length n tag_arr)
  then kfail ArrayLengthMismatch
  else
    let? cts := as_binary_array ct_arr in
    let? keys := as_binary_array key_arr in
    let? ivs := as_binary_array iv_arr in
    let? aads := transpose_rows as_binary_array aad_arr in
    let? methods := transpose_rows as_string_array method_arr in
    let? tags := transpose_rows as_binary_array tag_arr in
    let? rows := traverse (fun i => decrypt_row (row cts i) (row keys i) (row ivs i) (row_opt aads i) (row_opt methods i) (row_opt tags i)) (seq 0 n) in
    Ok (Array (ABinary Binary rows)).
End functions.

(** ** What the libraries promise

    A cipher is created for each of the three key sizes; the ciphertext has a tag of 16 bytes, and decrypting with the
    same key, initialization vector and additional data gives the text back. *)
Class CryptoLaws `{Crypto} := {
  cipher_for_key : forall key, key_size_ok key = true -> new_from_slice key = true;
  ciphertext_length : forall key iv aad m ct, aes_encrypt key iv aad m = Some ct -> (16 <= length ct)%nat;
  decrypt_encrypt : forall key iv aad m ct, aes_encrypt key iv aad m = Some ct -> aes_decrypt key iv aad ct = Some m;
  uppercase_default : method_to_uppercase "AES-GCM" = "AES-GCM" }.

Section laws.
Context `{Serde} {CR : Crypto} {CL : CryptoLaws}.

Lemma combined_length (ct tag : bytes) : length tag = 16%nat -> combined ct tag = Ok (ct ++ tag)%list /\ combined (ct ++ tag)%list [] = Ok (ct ++ tag)%list.
Proof.
  intros Ht. split; [by destruct tag|]. unfold combined. rewrite length_app. rewrite (proj2 (Nat.ltb_ge _ _)) by lia. by rewrite take_drop.
Qed.

Lemma encrypt_decrypt_value random value key iv aad method json : encrypt_value random value key iv aad method = Ok json ->
  exists ct iv' tag, json = to_string (encrypted_json ct iv' tag) /\ length iv' = 12%nat /\ (forall i, iv = Some i -> i <> [] -> iv' = i) /\
    decrypt_value ct key iv' aad method tag = Ok value /\ decrypt_value (ct ++ tag)%list key iv' aad method [] = Ok value.
Proof.
  unfold encrypt_value. destruct (check_method method) as [[]|] eqn:Em; cbn [result_bind]; [|done].
  set (iv' := match iv with None | Some [] => random | Some i => i end). destruct (check_iv iv') as [[]|] eqn:Ei; cbn [result_bind]; [|done].
  destruct (key_size_ok key) eqn:Ek; [|done]. assert (length iv' = 12%nat) as Hl by (unfold check_iv in Ei; case_match eqn:E; [by apply Nat.eqb_eq|done]).
  unfold encrypt. rewrite (cipher_for_key key Ek), (proj2 (Nat.eqb_eq _ _) Hl). cbn [negb]. destruct (aes_encrypt key iv' aad value) as [ct|] eqn:Ec; [|done].
  pose proof (ciphertext_length _ _ _ _ _ Ec) as Hc. rewrite (proj2 (Nat.ltb_ge _ _) Hc). cbn [result_bind]. intros [= <-].
  set (n := (length ct - 16)%nat). exists (take n ct), iv', (drop n ct). assert (length (drop n ct) = 16%nat) as Ht by (rewrite length_drop; unfold n; lia).
  destruct (combined_length (take n ct) (drop n ct) Ht) as [C1 C2]. split; [done|]. split; [done|]. split; [intros i -> Hi; by destruct i|].
  unfold decrypt_value, decrypt. rewrite Ei, Em. cbn [result_bind]. rewrite C1, C2, take_drop. cbn [result_bind].
  rewrite Ek, (cipher_for_key key Ek), (proj2 (Nat.eqb_eq _ _) Hl). cbn [negb]. by rewrite (decrypt_encrypt _ _ _ _ _ Ec).
Qed.

(** C35: what ENCRYPT_RAW returns for a row is the text of an object with the ciphertext, the initialization vector it used, given or
    random, and the tag; DECRYPT_RAW of those with the same key, additional data and method is the value, whether the tag is
    given on its own or at the end of the ciphertext. *)
Theorem encrypt_decrypt_raw random value key iv aad method json :
  encrypt_row random (Some value) (Some key) iv aad method = Ok (Some json) ->
  exists ct iv' tag, json = to_string (encrypted_json ct iv' tag) /\ length iv' = 12%nat /\ (forall i, iv = Some i -> i <> [] -> iv' = i) /\
    decrypt_row (Some ct) (Some key) (Some iv') aad method (Some (Some tag)) = Ok (Some value) /\
    decrypt_row (Some (ct ++ tag)%list) (Some key) (Some iv') aad method None = Ok (Some value).
Proof.
  intros E. assert (encrypt_value random value key iv (default [] (mjoin aad)) (default "AES-GCM" (mjoin method)) = Ok json) as Ev.
  { unfold encrypt_row in E. destruct aad as [[aad|]|], method as [[method|]|]; try done;
      (destruct (encrypt_value _ _ _ _ _ _); cbn in E; [by injection E as ->|done]). }
  destruct (encrypt_decrypt_value _ _ _ _ _ _ _ Ev) as (ct & iv' & tag & Hj & Hl & Hi & D1 & D2). exists ct, iv', tag. do 3 (split; [done|]).
  unfold encrypt_row in E. unfold decrypt_row. destruct aad as [[aad|]|], method as [[method|]|]; try done; cbn -[decrypt_value] in *; by rewrite D1, D2.
Qed.

(** DECRYPT_RAW sees the ciphertext and the tag only in a row: a given tag of any length may be cut off anywhere. *)
Theorem tag_boundary_free ct tag ct' tag' key iv aad method : tag <> [] -> tag' <> [] -> (ct ++ tag = ct' ++ tag')%list ->
  decrypt_value ct key iv aad method tag = decrypt_value ct' key iv aad method tag'.
Proof. intros Ht Ht' E. unfold decrypt_value, combined. destruct tag, tag'; try done. by rewrite E. Qed.
End laws.

(** ** Examples

    A cipher that hides nothing: the tag is sixteen zeros. *)
Module EncryptionExamples.
Definition zeros : bytes := replicate 16 x00.
#[global] Instance toy_crypto : Crypto := {|
  new_from_slice := key_size_ok;
  aes_encrypt := fun _ _ _ m => Some (m ++ zeros)%list;
  aes_decrypt := fun _ _ _ ct => if (16 <=? length ct)%nat then Some (take (length ct - 16) ct) else None;
  hex_encode_upper := fun b => String.string_of_list_byte b;
  method_to_uppercase := fun s => s;
  type_debug := fun _ => "" |}.

#[global] Instance toy_laws : CryptoLaws.
Proof.
  split; try done.
  - intros key iv aad m ct [= <-]. rewrite length_app. change (length zeros) with 16%nat. lia.
  - intros key iv aad m ct [= <-]. cbn [aes_decrypt toy_crypto]. rewrite length_app. change (length zeros) with 16%nat.
    rewrite (proj2 (Nat.leb_le _ _)) by lia. replace (length m + 16 - 16)%nat with (length m) by lia. by rewrite take_app_length.
Qed.

Definition key : bytes := replicate 32 x01.
Definition nonce : bytes := replicate 12 x02.
Definition secret : bytes := [x41; x42].

Lemma encrypt_decrypt_raw_witness :
  exists ct iv tag, length iv = 12%nat /\ decrypt_row (Some ct) (Some key) (Some iv) None None (Some (Some tag)) = Ok (Some secret).
Proof.
  destruct (encrypt_decrypt_raw nonce secret key None None None (to_string (encrypted_json secret nonce zeros)))
    as (ct & iv & tag & _ & Hl & _ & H & _); [reflexivity|]. by exists ct, iv, tag.
Defined.

(** A column is not encrypted with a constant key: the constant is a column of one row. *)
Example constant_key_refused :
  encrypt_raw (fun _ => nonce) [Array (ABinary Binary [Some secret; Some secret]); Array (ABinary Binary [Some key]); Array (ABinary Binary [None])] =
  kfail ArrayLengthMismatch.
Proof. reflexivity. Qed.

(** A null in an optional argument gives null, not the default of the argument; a null initialization vector fails also for a null value. *)
Example nulls :
  decrypt_row (Some (secret ++ zeros)%list) (Some key) (Some nonce) (Some None) None None = Ok None /\
  decrypt_row None None None None None None = kfail NullIvForDecryption.
Proof. split; reflexivity. Qed.
End EncryptionExamples.
