(* ===== verification/SqlAst.v ===== *)
(** * The syntax tree of SQL and its visitors

    The program rewrites the syntax tree of a statement before it is planned, by visitors derived with
    [sqlparser]'s [VisitMut].  The tree belongs to that crate: this file has the constructors and fields the
    visitors of [functions/src/visitors], [functions/src/semi-structured/variant/visitors] and
    [executor/src/query.rs] name; what they never look into is a [Clause], a text with the expressions it holds, and
    the constructors they never name are [OtherExpr], [OtherFactor], [OtherSet] and [OtherStatement].

    Expressions, queries and table factors are the nodes a visitor is called on.  Every type is visited field by
    field by one function, written for any applicative functor: [parts] gives the nodes directly below a
    node, and how to put others in their places, [size] their number.  A visit calls the hook before, visits
    the nodes below in their order, puts the results back and calls the hook after. *)

From Stdlib Require Import ZArith Lia Ascii String.
From stdpp Require Import base option list gmap strings.
From S2P Require Import Prelude.

#[local] Open Scope string_scope.

(** ** The tree *)

Record Ident := mkIdent { ident_value : string; quote_style : option ascii }.
(** [Ident::new] *)
Definition new_ident (s : string) : Ident := mkIdent s None.

Inductive ObjectNamePart :=
| PartIdentifier (ident : Ident)
| PartFunction (text : string).

Definition ObjectName : Type := list ObjectNamePart.
(** [ObjectName::from(vec![Ident::new(s)])] *)
Definition simple_name (s : string) : ObjectName := [PartIdentifier (new_ident s)].

Inductive Value :=
| Number (digits : string) (long : bool)
| SingleQuotedString (s : string)
| DoubleQuotedString (s : string)
| Boolean (b : bool)
| OtherValue (text : string).

Inductive TimezoneInfo := TzNone | WithTimeZone | WithoutTimeZone | Tz.

Inductive DataType :=
| Timestamp (precision : option Z) (tz : TimezoneInfo)
| TimestampNtz (precision : option Z)
| ArrayType (element : string)
| StringType (length : option Z)
| Custom (name : ObjectName) (modifiers : list string)
| OtherType (text : string).

Inductive UnaryOperator := Not | OtherUnary (op : string).
Inductive BinaryOperator := Or | OtherBinary (op : string).

Inductive SetOperator := Union | Except | Intersect | Minus.

Record TableAlias := mkTableAlias { alias_name : Ident; alias_columns : list string; explicit : bool }.

Record Clause (E : Type) := mkClause { clause_text : string; inside : list E }.
Arguments mkClause {E}.
Arguments clause_text {E}.
Arguments inside {E}.

Inductive FunctionArgExpr (E : Type) :=
| ArgExpr (e : E)
| ArgQualifiedWildcard (name : ObjectName)
| ArgWildcard.
Arguments ArgExpr {E}.
Arguments ArgQualifiedWildcard {E}.
Arguments ArgWildcard {E}.

Inductive FunctionArg (E : Type) :=
| Named (name : Ident) (arg : FunctionArgExpr E) (operator : string)
| ExprNamed (name : E) (arg : FunctionArgExpr E) (operator : string)
| Unnamed (arg : FunctionArgExpr E).
Arguments Named {E}.
Arguments ExprNamed {E}.
Arguments Unnamed {E}.

Inductive FunctionArguments (E Q : Type) :=
| ArgsNone
| ArgsSubquery (q : Q)
| ArgsList (duplicate_treatment : option string) (args : list (FunctionArg E)) (clauses : list (Clause E)).
Arguments ArgsNone {E Q}.
Arguments ArgsSubquery {E Q}.
Arguments ArgsList {E Q}.

Record Function_ (E Q : Type) := mkFunction {
  func_name : ObjectName;
  uses_odbc_syntax : bool;
  parameters : FunctionArguments E Q;
  func_args : FunctionArguments E Q;
  func_filter : option E;
  null_treatment : option string;
  over : option (Clause E);
  within_group : list (Clause E) }.
Arguments mkFunction {E Q}.
Arguments func_name {E Q}.
Arguments uses_odbc_syntax {E Q}.
Arguments parameters {E Q}.
Arguments func_args {E Q}.
Arguments func_filter {E Q}.
Arguments null_treatment {E Q}.
Arguments over {E Q}.
Arguments within_group {E Q}.

Inductive JsonPathElem (E : Type) :=
| Dot (key : string) (quoted : bool)
| Bracket (key : E).
Arguments Dot {E}.
Arguments Bracket {E}.

Inductive SelectItem (E : Type) :=
| UnnamedExpr (e : E)
| ExprWithAlias (e : E) (alias : Ident)
| OtherItem (c : Clause E).
Arguments UnnamedExpr {E}.
Arguments ExprWithAlias {E}.
Arguments OtherItem {E}.

Inductive TopQuantity (E : Type) :=
| TopExpr (e : E)
| TopConstant (n : Z).
Arguments TopExpr {E}.
Arguments TopConstant {E}.

Record Top (E : Type) := mkTop { top_with_ties : bool; top_percent : bool; top_quantity : option (TopQuantity E) }.
Arguments mkTop {E}.
Arguments top_with_ties {E}.
Arguments top_percent {E}.
Arguments top_quantity {E}.

Record Join (E F : Type) := mkJoin { join_relation : F; join_operator : Clause E }.
Arguments mkJoin {E F}.
Arguments join_relation {E F}.
Arguments join_operator {E F}.

Record TableWithJoins (E F : Type) := mkTwj { relation : F; joins : list (Join E F) }.
Arguments mkTwj {E F}.
Arguments relation {E F}.
Arguments joins {E F}.

(** [select_options] has the fields without expressions; [into_clauses] is [exclude] and [into], [lateral_views] also
    [prewhere], [grouping] the fields from [connect_by] to [named_window]. *)
Record Select_ (E F : Type) := mkSelect {
  select_options : string;
  distinct : option (Clause E);
  top : option (Top E);
  projection : list (SelectItem E);
  into_clauses : list (Clause E);
  from : list (TableWithJoins E F);
  lateral_views : list (Clause E);
  selection : option E;
  grouping : list (Clause E);
  qualify : option E }.
Arguments mkSelect {E F}.
Arguments select_options {E F}.
Arguments distinct {E F}.
Arguments top {E F}.
Arguments projection {E F}.
Arguments into_clauses {E F}.
Arguments from {E F}.
Arguments lateral_views {E F}.
Arguments selection {E F}.
Arguments grouping {E F}.
Arguments qualify {E F}.

(** [OtherSet] is [VALUES], [TABLE] and the statements a set expression can hold. *)
Inductive SetExpr (E Q F : Type) :=
| SetSelect (s : Select_ E F)
| SetQuery (q : Q)
| SetOperation (op : SetOperator) (quantifier : string) (left right : SetExpr E Q F)
| OtherSet (c : Clause E).
Arguments SetSelect {E Q F}.
Arguments SetQuery {E Q F}.
Arguments SetOperation {E Q F}.
Arguments OtherSet {E Q F}.

Record Cte (Q : Type) := mkCte { cte_alias : TableAlias; cte_query : Q }.
Arguments mkCte {Q}.
Arguments cte_alias {Q}.
Arguments cte_query {Q}.

Record With_ (Q : Type) := mkWith { recursive : bool; cte_tables : list (Cte Q) }.
Arguments mkWith {Q}.
Arguments recursive {Q}.
Arguments cte_tables {Q}.

Record Offset (E : Type) := mkOffset { offset_value : E; offset_rows : string }.
Arguments mkOffset {E}.
Arguments offset_value {E}.
Arguments offset_rows {E}.

Inductive LimitClause (E : Type) :=
| LimitOffset (limit : option E) (offset : option (Offset E)) (limit_by : list E)
| OffsetCommaLimit (offset limit : E).
Arguments LimitOffset {E}.
Arguments OffsetCommaLimit {E}.

Record Fetch (E : Type) := mkFetch { fetch_with_ties : bool; fetch_percent : bool; fetch_quantity : option E }.
Arguments mkFetch {E}.
Arguments fetch_with_ties {E}.
Arguments fetch_percent {E}.
Arguments fetch_quantity {E}.

Inductive Expr :=
| Identifier (ident : Ident)
| EValue (value : Value)
| EFunction (f : Function_ Expr Query)
| Like (negated any : bool) (expr pattern : Expr) (escape_char : option Value)
| ILike (negated any : bool) (expr pattern : Expr) (escape_char : option Value)
| RLike (negated : bool) (expr pattern : Expr) (regexp : bool)
| BinaryOp (left : Expr) (op : BinaryOperator) (right : Expr)
| UnaryOp (op : UnaryOperator) (expr : Expr)
| Nested (expr : Expr)
| ETuple (exprs : list Expr)
| EArray (elem : list Expr)
| Cast (kind : string) (expr : Expr) (data_type : DataType) (format : option string)
| JsonAccess (value : Expr) (path : list (JsonPathElem Expr))
| Subquery (subquery : Query)
| OtherExpr (text : string) (exprs : list Expr) (queries : list Query)
with Query :=
| mkQuery (with_ : option (With_ Query)) (body : SetExpr Expr Query TableFactor) (order_by : option (Clause Expr))
    (limit_clause : option (LimitClause Expr)) (fetch : option (Fetch Expr)) (rest : list (Clause Expr))
with TableFactor :=
| Table (name : ObjectName) (alias : option TableAlias) (args : option (list (FunctionArg Expr))) (rest : Clause Expr)
| Derived (lateral : bool) (subquery : Query) (alias : option TableAlias) (sample : option string)
| TableFunction (expr : Expr) (alias : option TableAlias)
| FactorFunction (lateral : bool) (name : ObjectName) (args : list (FunctionArg Expr)) (alias : option TableAlias)
| NestedJoin (table_with_joins : TableWithJoins Expr TableFactor) (alias : option TableAlias)
| OtherFactor (text : string) (tables : list TableFactor) (exprs : list Expr).

Notation Function := (Function_ Expr Query).
Notation Args := (FunctionArguments Expr Query).
Notation Select := (Select_ Expr TableFactor).
Notation Body := (SetExpr Expr Query TableFactor).
Notation With := (With_ Query).
Notation From := (TableWithJoins Expr TableFactor).

Definition with_ (q : Query) : option With := let 'mkQuery w _ _ _ _ _ := q in w.
Definition body (q : Query) : Body := let 'mkQuery _ b _ _ _ _ := q in b.
Definition order_by (q : Query) : option (Clause Expr) := let 'mkQuery _ _ o _ _ _ := q in o.
Definition limit_clause (q : Query) : option (LimitClause Expr) := let 'mkQuery _ _ _ l _ _ := q in l.
Definition fetch (q : Query) : option (Fetch Expr) := let 'mkQuery _ _ _ _ f _ := q in f.
Definition rest (q : Query) : list (Clause Expr) := let 'mkQuery _ _ _ _ _ r := q in r.

Record ColumnDef := mkColumn { column_name : Ident; data_type : DataType; column_options : Clause Expr }.

Record CreateTable_ := mkCreateTable {
  create_name : ObjectName;
  columns : list ColumnDef;
  create_query : option Query;
  partition_by : option Expr;
  create_rest : Clause Expr }.

Record CopyInto := mkCopyInto {
  into : ObjectName;
  from_obj : option ObjectName;
  storage_integration : option string;
  from_query : option Query;
  copy_options : string }.

Inductive Statement :=
| StQuery (q : Query)
| CopyIntoSnowflake (c : CopyInto)
| CreateTable (c : CreateTable_)
| OtherStatement (text : string) (tables : list From) (queries : list Query) (exprs : list Expr).

(** ** Field by field *)

Class Idiom (F : Type -> Type) := {
  pure : forall {A}, A -> F A;
  ap : forall {A B}, F (A -> B) -> F A -> F B }.

Declare Scope idiom_scope.
Delimit Scope idiom_scope with idiom.
Infix "<*>" := ap (at level 61, left associativity) : idiom_scope.
#[local] Open Scope idiom_scope.

Section fields.
Context {F : Type -> Type} `{Idiom F} {E Q T : Type} (ve : E -> F E) (vq : Q -> F Q) (vt : T -> F T).

Definition fields_option {A} (f : A -> F A) (o : option A) : F (option A) :=
  match o with Some a => pure Some <*> f a | None => pure None end.

Fixpoint fields_list {A} (f : A -> F A) (l : list A) : F (list A) :=
  match l with [] => pure [] | x :: l => pure cons <*> f x <*> fields_list f l end.

Definition fields_clause (c : Clause E) : F (Clause E) := pure (mkClause c.(clause_text)) <*> fields_list ve c.(inside).

Definition fields_arg_expr (a : FunctionArgExpr E) : F (FunctionArgExpr E) :=
  match a with ArgExpr e => pure ArgExpr <*> ve e | a => pure a end.

Definition fields_arg (a : FunctionArg E) : F (FunctionArg E) :=
  match a with
  | Named n a op => pure (fun a => Named n a op) <*> fields_arg_expr a
  | ExprNamed n a op => pure (fun n a => ExprNamed n a op) <*> ve n <*> fields_arg_expr a
  | Unnamed a => pure Unnamed <*> fields_arg_expr a
  end.

Definition fields_args (a : FunctionArguments E Q) : F (FunctionArguments E Q) :=
  match a with
  | ArgsNone => pure ArgsNone
  | ArgsSubquery q => pure ArgsSubquery <*> vq q
  | ArgsList d l c => pure (ArgsList d) <*> fields_list fields_arg l <*> fields_list fields_clause c
  end.

Definition fields_function (f : Function_ E Q) : F (Function_ E Q) :=
  pure (fun p a fi o w => mkFunction f.(func_name) f.(uses_odbc_syntax) p a fi f.(null_treatment) o w)
    <*> fields_args f.(parameters) <*> fields_args f.(func_args) <*> fields_option ve f.(func_filter)
    <*> fields_option fields_clause f.(over) <*> fields_list fields_clause f.(within_group).

Definition fields_path (p : JsonPathElem E) : F (JsonPathElem E) :=
  match p with Dot k q => pure (Dot k q) | Bracket e => pure Bracket <*> ve e end.

Definition fields_item (i : SelectItem E) : F (SelectItem E) :=
  match i with
  | UnnamedExpr e => pure UnnamedExpr <*> ve e
  | ExprWithAlias e a => pure (fun e => ExprWithAlias e a) <*> ve e
  | OtherItem c => pure OtherItem <*> fields_clause c
  end.

Definition fields_quantity (q : TopQuantity E) : F (TopQuantity E) :=
  match q with TopExpr e => pure TopExpr <*> ve e | TopConstant n => pure (TopConstant n) end.

Definition fields_top (t : Top E) : F (Top E) :=
  pure (mkTop t.(top_with_ties) t.(top_percent)) <*> fields_option fields_quantity t.(top_quantity).

Definition fields_join (j : Join E T) : F (Join E T) :=
  pure mkJoin <*> vt j.(join_relation) <*> fields_clause j.(join_operator).

Definition fields_twj (t : TableWithJoins E T) : F (TableWithJoins E T) :=
  pure mkTwj <*> vt t.(relation) <*> fields_list fields_join t.(joins).

Definition fields_select (s : Select_ E T) : F (Select_ E T) :=
  pure (mkSelect s.(select_options)) <*> fields_option fields_clause s.(distinct) <*> fields_option fields_top s.(top)
    <*> fields_list fields_item s.(projection) <*> fields_list fields_clause s.(into_clauses)
    <*> fields_list fields_twj s.(from) <*> fields_list fields_clause s.(lateral_views) <*> fields_option ve s.(selection)
    <*> fields_list fields_clause s.(grouping) <*> fields_option ve s.(qualify).

Fixpoint fields_set (b : SetExpr E Q T) : F (SetExpr E Q T) :=
  match b with
  | SetSelect s => pure SetSelect <*> fields_select s
  | SetQuery q => pure SetQuery <*> vq q
  | SetOperation op k l r => pure (SetOperation op k) <*> fields_set l <*> fields_set r
  | OtherSet c => pure OtherSet <*> fields_clause c
  end.

Definition fields_cte (c : Cte Q) : F (Cte Q) := pure (mkCte c.(cte_alias)) <*> vq c.(cte_query).

Definition fields_with (w : With_ Q) : F (With_ Q) := pure (mkWith w.(recursive)) <*> fields_list fields_cte w.(cte_tables).

Definition fields_offset (o : Offset E) : F (Offset E) := pure (fun e => mkOffset e o.(offset_rows)) <*> ve o.(offset_value).

Definition fields_limit (l : LimitClause E) : F (LimitClause E) :=
  match l with
  | LimitOffset li o by_ => pure LimitOffset <*> fields_option ve li <*> fields_option fields_offset o <*> fields_list ve by_
  | OffsetCommaLimit o li => pure OffsetCommaLimit <*> ve o <*> ve li
  end.

Definition fields_fetch (f : Fetch E) : F (Fetch E) :=
  pure (mkFetch f.(fetch_with_ties) f.(fetch_percent)) <*> fields_option ve f.(fetch_quantity).

End fields.

Section nodes.
Context {F : Type -> Type} `{Idiom F} (ve : Expr -> F Expr) (vq : Query -> F Query) (vt : TableFactor -> F TableFactor).

Definition fields_expr (e : Expr) : F Expr :=
  match e with
  | Identifier i => pure (Identifier i)
  | EValue v => pure (EValue v)
  | EFunction f => pure EFunction <*> fields_function ve vq f
  | Like n a e p c => pure (fun e p => Like n a e p c) <*> ve e <*> ve p
  | ILike n a e p c => pure (fun e p => ILike n a e p c) <*> ve e <*> ve p
  | RLike n e p r => pure (fun e p => RLike n e p r) <*> ve e <*> ve p
  | BinaryOp l o r => pure (fun l r => BinaryOp l o r) <*> ve l <*> ve r
  | UnaryOp o e => pure (UnaryOp o) <*> ve e
  | Nested e => pure Nested <*> ve e
  | ETuple l => pure ETuple <*> fields_list ve l
  | EArray l => pure EArray <*> fields_list ve l
  | Cast k e d f => pure (fun e => Cast k e d f) <*> ve e
  | JsonAccess v p => pure JsonAccess <*> ve v <*> fields_list (fields_path ve) p
  | Subquery q => pure Subquery <*> vq q
  | OtherExpr t l qs => pure (OtherExpr t) <*> fields_list ve l <*> fields_list vq qs
  end.

Definition fields_query (q : Query) : F Query :=
  match q with
  | mkQuery w b o l f r =>
      pure mkQuery <*> fields_option (fields_with vq) w <*> fields_set ve vq vt b <*> fields_option (fields_clause ve) o
        <*> fields_option (fields_limit ve) l <*> fields_option (fields_fetch ve) f <*> fields_list (fields_clause ve) r
  end.

Definition fields_factor (t : TableFactor) : F TableFactor :=
  match t with
  | Table n a args r => pure (Table n a) <*> fields_option (fields_list (fields_arg ve)) args <*> fields_clause ve r
  | Derived la q a s => pure (fun q => Derived la q a s) <*> vq q
  | TableFunction e a => pure (fun e => TableFunction e a) <*> ve e
  | FactorFunction la n args a => pure (fun args => FactorFunction la n args a) <*> fields_list (fields_arg ve) args
  | NestedJoin t a => pure (fun t => NestedJoin t a) <*> fields_twj ve vt t
  | OtherFactor x ts es => pure (OtherFactor x) <*> fields_list vt ts <*> fields_list ve es
  end.

Definition fields_column (c : ColumnDef) : F ColumnDef :=
  pure (mkColumn c.(column_name) c.(data_type)) <*> fields_clause ve c.(column_options).

Definition fields_statement (s : Statement) : F Statement :=
  match s with
  | StQuery q => pure StQuery <*> vq q
  | CopyIntoSnowflake c =>
      pure (fun q => CopyIntoSnowflake (mkCopyInto c.(into) c.(from_obj) c.(storage_integration) q c.(copy_options)))
        <*> fields_option vq c.(from_query)
  | CreateTable c =>
      pure (fun cs q p r => CreateTable (mkCreateTable c.(create_name) cs q p r))
        <*> fields_list fields_column c.(columns) <*> fields_option vq c.(create_query) <*> fields_option ve c.(partition_by)
        <*> fields_clause ve c.(create_rest)
  | OtherStatement x ts qs es =>
      pure (OtherStatement x) <*> fields_list (fields_twj ve vt) ts <*> fields_list vq qs <*> fields_list ve es
  end.

End nodes.

(** The number of nodes. *)
Definition Count (A : Type) : Type := nat.
#[export] Instance count_idiom : Idiom Count := {| pure _ _ := 0%nat; ap _ _ m n := (m + n)%nat |}.

Fixpoint size_expr (e : Expr) : Count Expr := S (fields_expr size_expr size_query e)
with size_query (q : Query) : Count Query := S (fields_query size_expr size_query size_factor q)
with size_factor (t : TableFactor) : Count TableFactor := S (fields_factor size_expr size_query size_factor t).

(** ** Nodes and the nodes below them *)

Inductive Node := NE (e : Expr) | NQ (q : Query) | NF (t : TableFactor).

Inductive Sort := SExpr | SQuery | SFactor.
Definition sort (x : Node) : Sort := match x with NE _ => SExpr | NQ _ => SQuery | NF _ => SFactor end.

Definition size (x : Node) : nat := match x with NE e => size_expr e | NQ q => size_query q | NF t => size_factor t end.

(** The nodes of a value in their order, and the value with its nodes taken from the head of a list, which also returns the
    rest of the list. *)
Definition Parts (A : Type) : Type := list Node * (list Node -> A * list Node).
#[export] Instance parts_idiom : Idiom Parts := {|
  pure _ a := ([], fun l => (a, l));
  ap _ _ p q := ((fst p ++ fst q)%list, fun l => let (f, l) := snd p l in let (a, l) := snd q l in (f a, l)) |}.

Definition part_expr (e : Expr) : Parts Expr := ([NE e], fun l => match l with NE e' :: l => (e', l) | _ => (e, l) end).
Definition part_query (q : Query) : Parts Query := ([NQ q], fun l => match l with NQ q' :: l => (q', l) | _ => (q, l) end).
Definition part_factor (t : TableFactor) : Parts TableFactor := ([NF t], fun l => match l with NF t' :: l => (t', l) | _ => (t, l) end).

Definition map_parts {A B} (f : A -> B) (p : Parts A) : Parts B := (fst p, fun l => let (a, l) := snd p l in (f a, l)).

Definition parts (x : Node) : Parts Node :=
  match x with
  | NE e => map_parts NE (fields_expr part_expr part_query e)
  | NQ q => map_parts NQ (fields_query part_expr part_query part_factor q)
  | NF t => map_parts NF (fields_factor part_expr part_query part_factor t)
  end.

Definition children (x : Node) : list Node := fst (parts x).
Definition rebuild (x : Node) (l : list Node) : Node := fst (snd (parts x) l).

Definition statement_parts : Statement -> Parts Statement := fields_statement part_expr part_query part_factor.
Definition statement_children (s : Statement) : list Node := fst (statement_parts s).
Definition rebuild_statement (s : Statement) (l : list Node) : Statement := fst (snd (statement_parts s) l).

(** *** Laws

    A value with its own nodes is itself; one with others of the same sorts has those; the size is the sum of theirs. *)
Definition total (l : list Node) : nat := sum_list_with size l.

Record lawful {A} (p : A -> Parts A) (n : A -> Count A) (x : A) : Prop := mkLawful {
  lawful_same : forall l, snd (p x) (fst (p x) ++ l)%list = (x, l);
  lawful_put : forall l k, map sort l = map sort (fst (p x)) -> exists y, snd (p x) (l ++ k)%list = (y, k) /\ fst (p y) = l;
  lawful_size : n x = total (fst (p x)) }.

Lemma total_app l k : total (l ++ k) = (total l + total k)%nat.
Proof. unfold total. induction l as [|x l IH]; simpl; lia. Qed.

Lemma total_cons x l : total (x :: l) = (size x + total l)%nat.
Proof. done. Qed.

Lemma map_eq_app {A B} (f : A -> B) l k1 k2 : map f l = (k1 ++ k2)%list -> exists l1 l2, l = (l1 ++ l2)%list /\ map f l1 = k1 /\ map f l2 = k2.
Proof.
  revert l. induction k1 as [|x k1 IH]; intros l E; [by exists [], l|].
  destruct l as [|y l]; [done|]. injection E as <- E. destruct (IH l E) as (l1 & l2 & -> & <- & <-). by exists (y :: l1), l2.
Qed.

Class Lawful {A} (p : A -> Parts A) (n : A -> Count A) : Prop := law : forall x, lawful p n x.

(** Each law for a value whose fields are lawful: the nodes are taken field after field. *)
Ltac put_fields :=
  repeat match goal with
  | H : map sort ?l = map sort (_ ++ _) |- _ =>
      rewrite map_app in H; apply map_eq_app in H; destruct H as (? & ? & -> & ? & ?)
  | H : map sort ?l = map sort [] |- _ => destruct l; [clear H|discriminate H]
  end;
  rewrite <- ?app_assoc; cbn [app];
  repeat match goal with
  | H : map sort ?l = map sort (fst (?p ?x)) |- context [snd (?p ?x) (?l ++ ?k)%list] =>
      let y := fresh "y" in destruct (lawful_put _ _ _ (law (p := p) x) l k H) as (y & -> & <-); clear H
  end.

Ltac same_fields :=
  rewrite <- ?app_assoc; cbn [app];
  repeat match goal with |- context [snd (?p ?x) (fst (?p ?x) ++ ?k)%list] => rewrite (lawful_same _ _ _ (law (p := p) x)) end.

Ltac size_fields :=
  rewrite ?total_app; cbn [total sum_list_with foldr];
  repeat match goal with |- context [total (fst (?p ?x))] => rewrite <- (lawful_size _ _ _ (law (p := p) x)) end.

Ltac run_idiom := cbn [pure ap parts_idiom count_idiom fst snd].

Tactic Notation "solve_lawful" tactic3(open) :=
  constructor;
  [intros ?; open; run_idiom; same_fields; reflexivity
  |intros ? ?; open; run_idiom; intros; put_fields; eexists; split; [reflexivity|]; open; run_idiom; rewrite ?app_assoc; reflexivity
  |open; run_idiom; size_fields; unfold Count; lia].

#[export] Instance lawful_part_expr : Lawful part_expr size_expr.
Proof.
  intros e. constructor; [done| |cbn; lia]. intros l k Hs. destruct l as [|[e'| |] []]; try done. by exists e'.
Qed.
#[export] Instance lawful_part_query : Lawful part_query size_query.
Proof.
  intros e. constructor; [done| |cbn; lia]. intros l k Hs. destruct l as [|[|e'|] []]; try done. by exists e'.
Qed.
#[export] Instance lawful_part_factor : Lawful part_factor size_factor.
Proof.
  intros e. constructor; [done| |cbn; lia]. intros l k Hs. destruct l as [|[| |e'] []]; try done. by exists e'.
Qed.

#[export] Instance lawful_option {A} p n `{!Lawful (A := A) p n} : Lawful (fields_option p) (fields_option n).
Proof. intros [x|]; solve_lawful (unfold fields_option; cbn beta iota zeta). Qed.

#[export] Instance lawful_list {A} p n `{!Lawful (A := A) p n} : Lawful (fields_list p) (fields_list n).
Proof.
  intros x. induction x as [|x l IH]; [solve_lawful (cbn [fields_list])|].
  destruct (law (p := p) x) as [A1 A2 A3], IH as [B1 B2 B3]. constructor.
  - intros k. cbn [fields_list]. run_idiom. rewrite <- ?app_assoc. cbn [app]. by rewrite A1, B1.
  - intros l' k. cbn [fields_list]. run_idiom. intros Hs. put_fields.
    match goal with H : map sort _ = _ |- _ => destruct (B2 _ k H) as (ys & -> & <-) end. by exists (y :: ys).
  - cbn [fields_list]. run_idiom. rewrite total_app. cbn [app]. unfold Count in *. rewrite <- A3, <- B3. lia.
Qed.

#[export] Instance lawful_clause : Lawful (fields_clause part_expr) (fields_clause size_expr).
Proof. intros [t l]. solve_lawful (unfold fields_clause; cbn beta iota zeta delta [clause_text inside]). Qed.

#[export] Instance lawful_arg_expr : Lawful (fields_arg_expr part_expr) (fields_arg_expr size_expr).
Proof. intros [e|n|]; solve_lawful (unfold fields_arg_expr; cbn beta iota zeta). Qed.

#[export] Instance lawful_arg : Lawful (fields_arg part_expr) (fields_arg size_expr).
Proof. intros [n a op|n a op|a]; solve_lawful (unfold fields_arg; cbn beta iota zeta). Qed.

#[export] Instance lawful_args : Lawful (fields_args part_expr part_query) (fields_args size_expr size_query).
Proof. intros [|q|d l c]; solve_lawful (unfold fields_args; cbn beta iota zeta). Qed.

#[export] Instance lawful_function : Lawful (fields_function part_expr part_query) (fields_function size_expr size_query).
Proof.
  intros []. solve_lawful (unfold fields_function; cbn beta iota zeta delta [func_name uses_odbc_syntax parameters func_args func_filter null_treatment over within_group]).
Qed.

#[export] Instance lawful_path : Lawful (fields_path part_expr) (fields_path size_expr).
Proof. intros [k q|e]; solve_lawful (unfold fields_path; cbn beta iota zeta). Qed.

#[export] Instance lawful_item : Lawful (fields_item part_expr) (fields_item size_expr).
Proof. intros [e|e a|c]; solve_lawful (unfold fields_item; cbn beta iota zeta). Qed.

#[export] Instance lawful_quantity : Lawful (fields_quantity part_expr) (fields_quantity size_expr).
Proof. intros [e|n]; solve_lawful (unfold fields_quantity; cbn beta iota zeta). Qed.

#[export] Instance lawful_top : Lawful (fields_top part_expr) (fields_top size_expr).
Proof. intros []. solve_lawful (unfold fields_top; cbn beta iota zeta delta [top_with_ties top_percent top_quantity]). Qed.

#[export] Instance lawful_join : Lawful (fields_join part_expr part_factor) (fields_join size_expr size_factor).
Proof. intros []. solve_lawful (unfold fields_join; cbn beta iota zeta delta [join_relation join_operator]). Qed.

#[export] Instance lawful_twj : Lawful (fields_twj part_expr part_factor) (fields_twj size_expr size_factor).
Proof. intros []. solve_lawful (unfold fields_twj; cbn beta iota zeta delta [relation joins]). Qed.

#[export] Instance lawful_select : Lawful (fields_select part_expr part_factor) (fields_select size_expr size_factor).
Proof.
  intros []. solve_lawful (unfold fields_select; cbn beta iota zeta delta [select_options distinct top projection into_clauses from lateral_views selection grouping qualify]).
Qed.

#[export] Instance lawful_set : Lawful (fields_set part_expr part_query part_factor) (fields_set size_expr size_query size_factor).
Proof.
  intros x. induction x as [s|q|op k l [A1 A2 A3] r [B1 B2 B3]|c]; try solve_lawful (cbn [fields_set]). constructor.
  - intros l'. cbn [fields_set]. run_idiom. rewrite <- ?app_assoc. cbn [app]. by rewrite A1, B1.
  - intros l' k'. cbn [fields_set]. run_idiom. intros Hs. put_fields.
    repeat match goal with H : map sort _ = _ |- context [(?a ++ ?b)%list] => first [destruct (A2 _ b H) as (y1 & -> & <-)|destruct (B2 _ b H) as (y2 & -> & <-)]; clear H end.
    by exists (SetOperation op k y1 y2).
  - cbn [fields_set]. run_idiom. rewrite total_app. cbn [app]. unfold Count in *. rewrite <- A3, <- B3. lia.
Qed.

#[export] Instance lawful_cte : Lawful (fields_cte part_query) (fields_cte size_query).
Proof. intros []. solve_lawful (unfold fields_cte; cbn beta iota zeta delta [cte_alias cte_query]). Qed.

#[export] Instance lawful_with : Lawful (fields_with part_query) (fields_with size_query).
Proof. intros []. solve_lawful (unfold fields_with; cbn beta iota zeta delta [recursive cte_tables]). Qed.

#[export] Instance lawful_offset : Lawful (fields_offset part_expr) (fields_offset size_expr).
Proof. intros []. solve_lawful (unfold fields_offset; cbn beta iota zeta delta [offset_value offset_rows]). Qed.

#[export] Instance lawful_limit : Lawful (fields_limit part_expr) (fields_limit size_expr).
Proof. intros []; solve_lawful (unfold fields_limit; cbn beta iota zeta). Qed.

#[export] Instance lawful_fetch : Lawful (fields_fetch part_expr) (fields_fetch size_expr).
Proof. intros []. solve_lawful (unfold fields_fetch; cbn beta iota zeta delta [fetch_with_ties fetch_percent fetch_quantity]). Qed.

#[export] Instance lawful_expr : Lawful (fields_expr part_expr part_query) (fields_expr size_expr size_query).
Proof. intros []; solve_lawful (unfold fields_expr; cbn beta iota zeta). Qed.

#[export] Instance lawful_query : Lawful (fields_query part_expr part_query part_factor) (fields_query size_expr size_query size_factor).
Proof. intros []. solve_lawful (unfold fields_query; cbn beta iota zeta). Qed.

#[export] Instance lawful_factor : Lawful (fields_factor part_expr part_query part_factor) (fields_factor size_expr size_query size_factor).
Proof. intros []; solve_lawful (unfold fields_factor; cbn beta iota zeta). Qed.

#[export] Instance lawful_column : Lawful (fields_column part_expr) (fields_column size_expr).
Proof. intros []. solve_lawful (unfold fields_column; cbn beta iota zeta delta [column_name data_type column_options]). Qed.

Definition statement_size : Statement -> Count Statement := fields_statement size_expr size_query size_factor.

#[export] Instance lawful_statement : Lawful statement_parts statement_size.
Proof.
  unfold statement_parts, statement_size.
  intros [q|[]|[]|]; solve_lawful (unfold fields_statement; cbn beta iota zeta delta [into from_obj storage_integration from_query copy_options create_name columns create_query partition_by create_rest]).
Qed.

(** *** What the visitors use *)

Lemma rebuild_children x : rebuild x (children x) = x.
Proof.
  unfold rebuild, children. destruct x as [e|q|t]; cbn [parts map_parts fst snd];
    rewrite <- (app_nil_r (fst _)); rewrite (lawful_same _ _ _ (law _)); done.
Qed.

Lemma children_rebuild x l : map sort l = map sort (children x) -> children (rebuild x l) = l.
Proof.
  unfold rebuild, children. rewrite <- (app_nil_r l) at 2.
  destruct x as [e|q|t]; cbn [parts map_parts fst snd]; intros Hs;
    destruct (lawful_put _ _ _ (law _) l [] Hs) as (y & -> & Hy); exact Hy.
Qed.

Lemma sort_rebuild x l : sort (rebuild x l) = sort x.
Proof. unfold rebuild. destruct x as [e|q|t]; cbn [parts map_parts fst snd]; by destruct (snd _ l). Qed.

Lemma size_children x : size x = S (total (children x)).
Proof.
  destruct x as [e|q|t]; unfold children; cbn [parts map_parts fst]; rewrite <- (lawful_size _ _ _ (law _)); cbn [size]; [by destruct e|by destruct q|by destruct t].
Qed.

Lemma rebuild_statement_children s : rebuild_statement s (statement_children s) = s.
Proof. unfold rebuild_statement, statement_children. rewrite <- (app_nil_r (fst _)). by rewrite (lawful_same _ _ _ (law s)). Qed.

Lemma children_rebuild_statement s l : map sort l = map sort (statement_children s) -> statement_children (rebuild_statement s l) = l.
Proof.
  unfold rebuild_statement, statement_children. rewrite <- (app_nil_r l) at 2. intros Hs.
  by destruct (lawful_put _ _ _ (law s) l [] Hs) as (y & -> & Hy).
Qed.

Lemma total_elem x l : x ∈ l -> (size x <= total l)%nat.
Proof. induction 1; cbn [total sum_list_with foldr] in *; unfold total in *; simpl; lia. Qed.

Lemma size_child x y : y ∈ children x -> (size y < size x)%nat.
Proof. rewrite (size_children x). intros Hy%total_elem. lia. Qed.

Lemma node_ind (P : Node -> Prop) : (forall x, (forall y, y ∈ children x -> P y) -> P x) -> forall x, P x.
Proof.
  intros H x. remember (size x) as n eqn:E. revert x E. induction (lt_wf n) as [n _ IH]. intros x ->.
  apply H. intros y Hy. by eapply IH; [apply size_child|].
Qed.

(** ** All nodes of a tree, those above before those below *)

Fixpoint preorder (fuel : nat) (x : Node) : list Node :=
  match fuel with O => [] | S fuel => x :: flat_map (preorder fuel) (children x) end.
Definition nodes (x : Node) : list Node := preorder (size x) x.
Definition statement_nodes (s : Statement) : list Node := flat_map nodes (statement_children s).

Definition everywhere (P : Node -> Prop) (x : Node) : Prop := Forall P (nodes x).
Definition statement_everywhere (P : Node -> Prop) (s : Statement) : Prop := Forall P (statement_nodes s).

Lemma preorder_fuel n m x : (size x <= n)%nat -> (size x <= m)%nat -> preorder n x = preorder m x.
Proof.
  revert m x. induction n as [|n IH]; intros [|m] x Hn Hm; try (rewrite size_children in *; lia).
  cbn [preorder]. f_equal. rewrite !flat_map_concat_map. f_equal. apply map_ext_in. intros y Hy%list_elem_of_In%size_child. apply IH; lia.
Qed.

Lemma nodes_unfold x : nodes x = x :: flat_map nodes (children x).
Proof.
  unfold nodes at 1. rewrite (size_children x). cbn [preorder]. f_equal. rewrite !flat_map_concat_map. f_equal. apply map_ext_in.
  intros y Hy%list_elem_of_In%total_elem. by apply preorder_fuel.
Qed.

Lemma Forall_flat_map {A B} (P : B -> Prop) (f : A -> list B) l : Forall P (flat_map f l) <-> Forall (fun x => Forall P (f x)) l.
Proof. induction l as [|x l IH]; simpl; [by split; constructor|]. by rewrite Forall_app, Forall_cons, IH. Qed.

Lemma everywhere_unfold P x : everywhere P x <-> P x /\ Forall (everywhere P) (children x).
Proof. unfold everywhere. by rewrite nodes_unfold, Forall_cons, Forall_flat_map. Qed.

Lemma statement_everywhere_unfold P s : statement_everywhere P s <-> Forall (everywhere P) (statement_children s).
Proof. unfold statement_everywhere, statement_nodes. by rewrite Forall_flat_map. Qed.

Lemma everywhere_impl (P Q : Node -> Prop) x : (forall y, P y -> Q y) -> everywhere P x -> everywhere Q x.
Proof. intros H K. by eapply Forall_impl. Qed.

(** ** Visitors *)

(** [ControlFlow], a panic, and the end of the fuel. *)
Inductive flow (B A : Type) :=
| Continue (a : A)
| Break (b : B)
| Panic
| Starved.
Arguments Continue {B A}.
Arguments Break {B A}.
Arguments Panic {B A}.
Arguments Starved {B A}.

Definition V (S B A : Type) : Type := S -> flow B (A * S).

Section visitor_monad.
Context {S B : Type}.
Definition vret {A} (a : A) : V S B A := fun s => Continue (a, s).
Definition vbind {A C} (m : V S B A) (f : A -> V S B C) : V S B C :=
  fun s => match m s with Continue (a, s) => f a s | Break b => Break b | Panic => Panic | Starved => Starved end.
Fixpoint each {A C} (f : A -> V S B C) (l : list A) : V S B (list C) :=
  match l with [] => vret [] | x :: l => vbind (f x) (fun y => vbind (each f l) (fun l => vret (y :: l))) end.
End visitor_monad.

Declare Scope visit_scope.
Delimit Scope visit_scope with visit.
Notation "'let*' x ':=' r 'in' k" := (vbind r (fun x => k)) (at level 10, x pattern, r at level 100, k at level 200) : visit_scope.
#[local] Open Scope visit_scope.

Record Visitor (S B : Type) := mkVisitor {
  pre_visit_statement : Statement -> V S B Statement;
  post_visit_statement : Statement -> V S B Statement;
  pre_visit_query : Query -> V S B Query;
  pre_visit_expr : Expr -> V S B Expr;
  post_visit_expr : Expr -> V S B Expr;
  post_visit_table_factor : TableFactor -> V S B TableFactor }.
Arguments mkVisitor {S B}.
Arguments pre_visit_statement {S B}.
Arguments post_visit_statement {S B}.
Arguments pre_visit_query {S B}.
Arguments pre_visit_expr {S B}.
Arguments post_visit_expr {S B}.
Arguments post_visit_table_factor {S B}.

(** Visitors with one hook; the hooks that a visitor does not implement continue. *)
Definition on_statement {S B} (f : Statement -> V S B Statement) : Visitor S B := mkVisitor f vret vret vret vret vret.
Definition after_statement {S B} (f : Statement -> V S B Statement) : Visitor S B := mkVisitor vret f vret vret vret vret.
Definition on_query {S B} (f : Query -> V S B Query) : Visitor S B := mkVisitor vret vret f vret vret vret.
Definition on_expr {S B} (f : Expr -> V S B Expr) : Visitor S B := mkVisitor vret vret vret f vret vret.
Definition after_expr {S B} (f : Expr -> V S B Expr) : Visitor S B := mkVisitor vret vret vret vret f vret.
Definition after_factor {S B} (f : TableFactor -> V S B TableFactor) : Visitor S B := mkVisitor vret vret vret vret vret f.

Section visit.
Context {S B : Type} (v : Visitor S B).

Definition before (x : Node) : V S B Node :=
  match x with
  | NE e => let* e := v.(pre_visit_expr) e in vret (NE e)
  | NQ q => let* q := v.(pre_visit_query) q in vret (NQ q)
  | NF t => vret (NF t)
  end.

Definition after (x : Node) : V S B Node :=
  match x with
  | NE e => let* e := v.(post_visit_expr) e in vret (NE e)
  | NQ q => vret (NQ q)
  | NF t => let* t := v.(post_visit_table_factor) t in vret (NF t)
  end.

Fixpoint visit (fuel : nat) (x : Node) : V S B Node :=
  match fuel with
  | O => fun _ => Starved
  | Datatypes.S fuel =>
      let* x := before x in
      let* l := each (visit fuel) (children x) in
      after (rebuild x l)
  end.

(** [Statement::visit], with fuel for every node directly below, and [visit] of an expression and of a query. *)
Definition visit_statement_with (fuel : Node -> nat) (s : Statement) : V S B Statement :=
  let* s := v.(pre_visit_statement) s in
  let* l := each (fun x => visit (fuel x) x) (statement_children s) in
  v.(post_visit_statement) (rebuild_statement s l).
Definition visit_statement : Statement -> V S B Statement := visit_statement_with size.
Definition visit_expr (e : Expr) : V S B Expr :=
  let* x := visit (size_expr e) (NE e) in vret (match x with NE e => e | _ => e end).
Definition visit_query (q : Query) : V S B Query :=
  let* x := visit (size_query q) (NQ q) in vret (match x with NQ q => q | _ => q end).

(** *** How a visit ends *)

Lemma vbind_Continue {A C} (m : V S B A) (f : A -> V S B C) s r :
  vbind m f s = Continue r <-> exists a s', m s = Continue (a, s') /\ f a s' = Continue r.
Proof.
  unfold vbind. split; [|by intros (a & s' & -> & E)]. destruct (m s) as [[a s']| | |]; try done. intros E. by exists a, s'.
Qed.

Lemma before_sort x s y s' : before x s = Continue (y, s') -> sort y = sort x.
Proof. destruct x; cbn; try (intros (a & s1 & _ & [= <- _])%vbind_Continue; done); by intros [= <- _]. Qed.

Lemma after_sort x s y s' : after x s = Continue (y, s') -> sort y = sort x.
Proof. destruct x; cbn; try (intros (a & s1 & _ & [= <- _])%vbind_Continue; done); by intros [= <- _]. Qed.

Lemma visit_Continue n x s y s' : visit (Datatypes.S n) x s = Continue (y, s') <->
  exists x1 s1 l s2, before x s = Continue (x1, s1) /\ each (visit n) (children x1) s1 = Continue (l, s2) /\ after (rebuild x1 l) s2 = Continue (y, s').
Proof.
  cbn [visit]. rewrite vbind_Continue. split.
  - intros (x1 & s1 & H1 & (l & s2 & H2 & H3)%vbind_Continue). by exists x1, s1, l, s2.
  - intros (x1 & s1 & l & s2 & H1 & H2 & H3). exists x1, s1. split; [done|]. apply vbind_Continue. by exists l, s2.
Qed.

(** What holds of every element holds of the list. *)
Lemma each_Forall2 {A C} (f : A -> V S B C) (R : A -> C -> Prop) l s k s' :
  (forall x s y s', x ∈ l -> f x s = Continue (y, s') -> R x y) -> each f l s = Continue (k, s') -> Forall2 R l k.
Proof.
  revert s k s'. induction l as [|x l IH]; intros s k s' Hf; cbn [each]; [by intros [= <- _]|].
  intros (y & s1 & H1 & (k1 & s2 & H2 & [= <- _])%vbind_Continue)%vbind_Continue. constructor; [eapply Hf; [left|done]|].
  eapply IH; [|done]. intros. eapply Hf; [by right|done].
Qed.

Lemma Forall2_sort l k : Forall2 (fun x y => sort y = sort x) l k -> map sort k = map sort l.
Proof. induction 1 as [|x y l k H _ IH]; [done|]. simpl. by rewrite H, IH. Qed.

Lemma visit_sort n x s y s' : visit n x s = Continue (y, s') -> sort y = sort x.
Proof.
  destruct n as [|n]; [done|]. intros (x1 & s1 & l & s2 & H1 & H2 & H3)%visit_Continue.
  by rewrite (after_sort _ _ _ _ H3), sort_rebuild, (before_sort _ _ _ _ H1).
Qed.

Lemma each_visit_sort fuel l s k s' : each (fun x => visit (fuel x) x) l s = Continue (k, s') -> map sort k = map sort l.
Proof. intros E. apply Forall2_sort. eapply each_Forall2; [|exact E]. intros x s0 y s1 _. apply visit_sort. Qed.

(** *** Termination

    Fuel is enough for a node when the hooks called before do not make nodes larger and no hook runs out of fuel. *)
Lemma each_not_Starved {A C} (f : A -> V S B C) l s : (forall x s, x ∈ l -> f x s <> Starved) -> each f l s <> Starved.
Proof.
  revert s. induction l as [|x l IH]; intros s Hf; cbn [each]; [done|]. unfold vbind.
  destruct (f x s) as [[y s1]| | |] eqn:E; try done; [|exfalso; eapply Hf; [left|exact E]].
  destruct (each f l s1) as [[k s2]| | |] eqn:E2; try done. exfalso. eapply IH; [|exact E2]. intros. apply Hf. by right.
Qed.

Definition steady : Prop :=
  (forall x s, before x s <> Starved) /\ (forall x s, after x s <> Starved) /\
  (forall x s y s', before x s = Continue (y, s') -> (size y <= size x)%nat).

Lemma visit_enough n x s : steady -> (size x <= n)%nat -> visit n x s <> Starved.
Proof.
  intros (Hb & Ha & Hs). revert x s. induction n as [|n IH]; intros x s Hx; [rewrite size_children in Hx; lia|].
  cbn [visit]. unfold vbind at 1. destruct (before x s) as [[x1 s1]| | |] eqn:E; try done; [|by apply Hb in E].
  apply Hs in E. unfold vbind. destruct (each (visit n) (children x1) s1) as [[l s2]| | |] eqn:E2; try done.
  exfalso. eapply each_not_Starved; [|exact E2]. intros y s0 Hy%size_child. apply IH. lia.
Qed.

Lemma visit_statement_enough st s : steady -> (forall st s, v.(pre_visit_statement) st s <> Starved) -> (forall st s, v.(post_visit_statement) st s <> Starved) ->
  visit_statement st s <> Starved.
Proof.
  intros Hst Hp Hq. unfold visit_statement, visit_statement_with. unfold vbind at 1.
  destruct (pre_visit_statement v st s) as [[st1 s1]| | |] eqn:E; try done; [|by apply Hp in E].
  unfold vbind. destruct (each _ _ s1) as [[l s2]| | |] eqn:E2; try done.
  exfalso. eapply each_not_Starved; [|exact E2]. intros x s0 _. by apply visit_enough.
Qed.

(** *** Congruences

    What the hooks relate, the visit relates, for every relation that is compatible with the tree. *)
Definition compatible (R : Node -> Node -> Prop) : Prop :=
  forall x l, map sort l = map sort (children x) -> Forall2 R (children x) l -> R x (rebuild x l).
Definition statement_compatible (R : Node -> Node -> Prop) (RS : Statement -> Statement -> Prop) : Prop :=
  forall st l, map sort l = map sort (statement_children st) -> Forall2 R (statement_children st) l -> RS st (rebuild_statement st l).

Lemma visit_related (R : Node -> Node -> Prop) `{!Transitive R} n x s y s' : compatible R ->
  (forall x s y s', before x s = Continue (y, s') -> R x y) -> (forall x s y s', after x s = Continue (y, s') -> R x y) ->
  visit n x s = Continue (y, s') -> R x y.
Proof.
  intros HC Hb Ha. revert x s y s'. induction n as [|n IH]; intros x s y s'; [done|].
  intros (x1 & s1 & l & s2 & H1 & H2 & H3)%visit_Continue. etransitivity; [by eapply Hb|]. etransitivity; [|by eapply Ha].
  apply HC; [by eapply (each_visit_sort (fun _ => n))|]. eapply each_Forall2; [|exact H2]. intros z s3 z' s4 _. apply IH.
Qed.

Lemma visit_statement_related (R : Node -> Node -> Prop) (RS : Statement -> Statement -> Prop) `{!Transitive R, !Transitive RS} fuel st s st' s' :
  compatible R -> statement_compatible R RS ->
  (forall x s y s', before x s = Continue (y, s') -> R x y) -> (forall x s y s', after x s = Continue (y, s') -> R x y) ->
  (forall x s y s', v.(pre_visit_statement) x s = Continue (y, s') -> RS x y) ->
  (forall x s y s', v.(post_visit_statement) x s = Continue (y, s') -> RS x y) ->
  visit_statement_with fuel st s = Continue (st', s') -> RS st st'.
Proof.
  intros HC HS Hb Ha Hp Hq. unfold visit_statement_with. intros (st1 & s1 & H1 & (l & s2 & H2 & H3)%vbind_Continue)%vbind_Continue.
  etransitivity; [by eapply Hp|]. etransitivity; [|by eapply Hq]. apply HS; [by eapply each_visit_sort|].
  eapply each_Forall2; [|exact H2]. intros z s3 z' s4 _. by apply visit_related.
Qed.

(** *** Normal forms

    When the hook called after a node ensures [P] of all the nodes of its result, given it for those below, so does the visit. *)
Definition establishes (P : Node -> Prop) : Prop :=
  forall x s y s', Forall (everywhere P) (children x) -> after x s = Continue (y, s') -> everywhere P y.

Lemma visit_establishes P n x s y s' : establishes P -> visit n x s = Continue (y, s') -> everywhere P y.
Proof.
  intros HP. revert x s y s'. induction n as [|n IH]; intros x s y s'; [done|].
  intros (x1 & s1 & l & s2 & H1 & H2 & H3)%visit_Continue. eapply HP; [|exact H3].
  rewrite children_rebuild by (by eapply (each_visit_sort (fun _ => n))).
  assert (Forall2 (fun _ z => everywhere P z) (children x1) l) as HF by (eapply each_Forall2; [|exact H2]; intros z s3 z' s4 _; apply IH).
  clear -HF. induction HF; by constructor.
Qed.

Lemma visit_statement_establishes P fuel st s st' s' : establishes P -> (forall x s y s', v.(post_visit_statement) x s = Continue (y, s') -> y = x) ->
  visit_statement_with fuel st s = Continue (st', s') -> statement_everywhere P st'.
Proof.
  intros HP Hq. unfold visit_statement_with. intros (st1 & s1 & H1 & (l & s2 & H2 & ->%Hq)%vbind_Continue)%vbind_Continue.
  apply statement_everywhere_unfold. rewrite children_rebuild_statement by (by eapply each_visit_sort).
  assert (Forall2 (fun _ z => everywhere P z) (statement_children st1) l) as HF by (eapply each_Forall2; [|exact H2]; intros z s3 z' s4 _; by apply visit_establishes).
  clear -HF. induction HF; by constructor.
Qed.

End visit.

(** *** Visitors that look only

    A hook that checks expressions sees those of the statement in preorder. *)
Definition check {B} (f : Expr -> option B) : Visitor unit B :=
  on_expr (fun e => match f e with Some b => fun _ => Break b | None => vret e end).

Definition expr_of (x : Node) : option Expr := match x with NE e => Some e | _ => None end.

(** The first complaint of [f]. *)
Fixpoint first_break {B} (f : Expr -> option B) (l : list Node) : option B :=
  match l with
  | [] => None
  | NE e :: l => match f e with Some b => Some b | None => first_break f l end
  | _ :: l => first_break f l
  end.

Lemma first_break_app {B} (f : Expr -> option B) l k :
  first_break f (l ++ k)%list = match first_break f l with Some b => Some b | None => first_break f k end.
Proof. induction l as [|[e|q|t] l IH]; simpl; try done. by destruct (f e). Qed.

Definition checked {B A} (o : option B) (a : A) : flow B (A * unit) := match o with Some b => Break b | None => Continue (a, ()) end.

Lemma each_check {B} (f : Expr -> option B) (g : Node -> V unit B Node) l :
  (forall x, x ∈ l -> g x () = checked (first_break f (nodes x)) x) -> each g l () = checked (first_break f (flat_map nodes l)) l.
Proof.
  induction l as [|x l IH]; intros Hg; [done|]. cbn [each flat_map]. rewrite first_break_app. unfold vbind. rewrite Hg by left.
  destruct (first_break f (nodes x)); [done|]. cbn. rewrite IH by (intros; apply Hg; by right). by destruct (first_break f (flat_map nodes l)).
Qed.

Lemma visit_check {B} (f : Expr -> option B) n x : (size x <= n)%nat -> visit (check f) n x () = checked (first_break f (nodes x)) x.
Proof.
  revert x. induction n as [|n IH]; intros x Hx; [rewrite size_children in Hx; lia|]. rewrite nodes_unfold. cbn [visit]. unfold vbind at 1.
  assert (before (check f) x () = checked (first_break f [x]) x) as ->.
  { destruct x as [e|q|t]; cbn; try done. unfold vbind, vret. by destruct (f e). }
  change (x :: flat_map nodes (children x)) with ([x] ++ flat_map nodes (children x))%list. rewrite (first_break_app f [x] (flat_map _ _)). destruct (first_break f [x]); [done|]. cbn [checked].
  unfold vbind. rewrite (each_check f) by (intros y Hy%size_child; apply IH; lia).
  destruct (first_break f (flat_map nodes (children x))); [done|]. cbn [checked]. rewrite rebuild_children. by destruct x.
Qed.

Lemma visit_statement_check {B} (f : Expr -> option B) st : visit_statement (check f) st () = checked (first_break f (statement_nodes st)) st.
Proof.
  unfold visit_statement, visit_statement_with, vbind, statement_nodes. cbn.
  rewrite (each_check f) by (intros x _; by apply visit_check). destruct (first_break f _); [done|]. cbn. by rewrite rebuild_statement_children.
Qed.

(** *** What a node is, without the nodes below *)
Inductive Kind :=
| KRLike
| KAny
| KArray
| KJsonAccess
| KCast (t : DataType)
| KFunction (name : ObjectName)
| KFetch
| KOther.

Definition kind (x : Node) : Kind :=
  match x with
  | NE (RLike _ _ _ _) => KRLike
  | NE (Like _ true _ _ _) | NE (ILike _ true _ _ _) => KAny
  | NE (EArray _) => KArray
  | NE (JsonAccess _ _) => KJsonAccess
  | NE (Cast _ _ t _) => KCast t
  | NE (EFunction f) => KFunction f.(func_name)
  | NQ (mkQuery _ _ _ _ (Some _) _) => KFetch
  | _ => KOther
  end.

Lemma kind_rebuild x l : kind (rebuild x l) = kind x.
Proof.
  unfold rebuild. destruct x as [e|[w b o li f r]|t]; cbn [parts map_parts fst snd].
  - destruct e; unfold fields_expr; run_idiom; try done; repeat (case_match; simplify_eq/=; try done).
  - destruct f; unfold fields_query; run_idiom; repeat (case_match; simplify_eq/=; try done).
  - by destruct (snd _ l).
Qed.

Definition all_kinds (P : Kind -> Prop) (x : Node) : Prop := everywhere (fun x => P (kind x)) x.
Definition all_statement_kinds (P : Kind -> Prop) (st : Statement) : Prop := Forall (all_kinds P) (statement_children st).

Lemma all_kinds_unfold P x : all_kinds P x <-> P (kind x) /\ Forall (all_kinds P) (children x).
Proof. apply everywhere_unfold. Qed.

(** *** What a visit keeps

    For a property of nodes that other nodes of the same sorts below do not change, and an invariant of the visitor's state. *)
Definition local (L : Node -> Prop) : Prop := forall x l, map sort l = map sort (children x) -> L x -> L (rebuild x l).

Lemma kind_local P : local (fun x => P (kind x)).
Proof. intros x l _. by rewrite kind_rebuild. Qed.

Lemma everywhere_rebuild L x l : local L -> map sort l = map sort (children x) -> L x -> Forall (everywhere L) l -> everywhere L (rebuild x l).
Proof. intros HL Hs Hx Hl. apply everywhere_unfold. rewrite children_rebuild by done. split; [by apply HL|done]. Qed.

Lemma all_kinds_rebuild P x l : map sort l = map sort (children x) -> P (kind x) -> Forall (all_kinds P) l -> all_kinds P (rebuild x l).
Proof. apply (everywhere_rebuild (fun x => P (kind x))), kind_local. Qed.

Section keeps.
Context {S B : Type} (v : Visitor S B) (L : Node -> Prop) (HL : local L) (I : S -> Prop).

Definition keeps (f : Node -> V S B Node) : Prop :=
  forall x s y s', I s -> everywhere L x -> f x s = Continue (y, s') -> I s' /\ everywhere L y.

Lemma each_keeps (f : Node -> V S B Node) l s k s' : keeps f -> I s -> Forall (everywhere L) l -> each f l s = Continue (k, s') -> I s' /\ Forall (everywhere L) k.
Proof.
  intros Hf. revert s k s'. induction l as [|x l IH]; intros s k s' Hs Hl; cbn [each]; [by intros [= <- <-]|]. inversion Hl; subst.
  intros (y & s1 & H1' & (k1 & s2 & H2' & [= <- <-])%vbind_Continue)%vbind_Continue. destruct (Hf _ _ _ _ Hs ltac:(done) H1') as [Hs1 Hy].
  destruct (IH _ _ _ Hs1 ltac:(done) H2') as [Hs2 Hk]. split; [done|]. by constructor.
Qed.

Lemma visit_keeps n : keeps (before v) -> keeps (after v) -> keeps (visit v n).
Proof.
  intros Hb Ha. induction n as [|n IH]; intros x s y s' Hs Hx; [done|].
  intros (x1 & s1 & l & s2 & H1 & H2 & H3)%visit_Continue. destruct (Hb _ _ _ _ Hs Hx H1) as [Hs1 [Hk Hc]%everywhere_unfold].
  destruct (each_keeps _ _ _ _ _ IH Hs1 Hc H2) as [Hs2 Hl]. eapply Ha; [exact Hs2| |exact H3].
  apply everywhere_rebuild; [done|by eapply (each_visit_sort v (fun _ => n))|done..].
Qed.

Definition keeps_statement (f : Statement -> V S B Statement) : Prop :=
  forall st s st' s', I s -> Forall (everywhere L) (statement_children st) -> f st s = Continue (st', s') -> I s' /\ Forall (everywhere L) (statement_children st').

Lemma visit_statement_keeps fuel : keeps (before v) -> keeps (after v) -> keeps_statement v.(pre_visit_statement) ->
  keeps_statement v.(post_visit_statement) -> keeps_statement (visit_statement_with v fuel).
Proof.
  intros Hb Ha Hp Hq st s st' s' Hs Hst. unfold visit_statement_with.
  intros (st1 & s1 & H1 & (l & s2 & H2 & H3)%vbind_Continue)%vbind_Continue. destruct (Hp _ _ _ _ Hs Hst H1) as [Hs1 Hst1].
  destruct (each_keeps _ _ _ _ _ (fun x => visit_keeps (fuel x) Hb Ha x) Hs1 Hst1 H2) as [Hs2 Hl].
  eapply Hq; [exact Hs2| |exact H3]. by rewrite children_rebuild_statement by (by eapply each_visit_sort).
Qed.

End keeps.

(** *** The nodes below some expressions *)
Lemma parts_of_list {A} (p : A -> Parts A) l : fst (fields_list p l) = flat_map (fun x => fst (p x)) l.
Proof. induction l as [|x l IH]; [done|]. cbn [fields_list]. run_idiom. cbn [app flat_map]. by rewrite IH. Qed.

Lemma flat_map_NE l : flat_map (fun x => fst (part_expr x)) l = map NE l.
Proof. induction l as [|x l IH]; [done|]. cbn [flat_map map]. by rewrite IH. Qed.

Lemma children_tuple l : children (NE (ETuple l)) = map NE l.
Proof. etransitivity; [apply (parts_of_list part_expr)|apply flat_map_NE]. Qed.

Lemma children_array l : children (NE (EArray l)) = map NE l.
Proof. etransitivity; [apply (parts_of_list part_expr)|apply flat_map_NE]. Qed.

(** *** What a visit removes

    From a property of nodes to another, for visitors that act after the nodes below: the hook is called on a node
    with the first property, whose nodes below have the second. *)
Section removes.
Context {S B : Type} (v : Visitor S B) (Q P : Node -> Prop) (HQ : local Q).
Hypothesis before_none : forall x s y s', before v x s = Continue (y, s') -> y = x.

Definition turns : Prop :=
  forall x s y s', Q x -> Forall (everywhere P) (children x) -> after v x s = Continue (y, s') -> everywhere P y.

Lemma visit_turns n x s y s' : turns -> everywhere Q x -> visit v n x s = Continue (y, s') -> everywhere P y.
Proof.
  intros HT. revert x s y s'. induction n as [|n IH]; intros x s y s' Hx; [done|].
  intros (x1 & s1 & l & s2 & H1 & H2 & H3)%visit_Continue. apply before_none in H1 as ->.
  assert (map sort l = map sort (children x)) as Hs by (by eapply (each_visit_sort v (fun _ => n))).
  apply everywhere_unfold in Hx as [Hk Hc]. eapply HT; [by apply HQ| |exact H3]. rewrite children_rebuild by done.
  assert (Forall2 (fun _ z => everywhere P z) (children x) l) as HF.
  { eapply each_Forall2; [|exact H2]. intros z s3 z' s4 Hz. apply IH. rewrite Forall_forall in Hc. by apply Hc. }
  clear -HF. induction HF; by constructor.
Qed.

Lemma visit_statement_turns fuel st s st' s' : turns -> (forall x s y s', v.(pre_visit_statement) x s = Continue (y, s') -> y = x) ->
  (forall x s y s', v.(post_visit_statement) x s = Continue (y, s') -> y = x) ->
  Forall (everywhere Q) (statement_children st) -> visit_statement_with v fuel st s = Continue (st', s') -> Forall (everywhere P) (statement_children st').
Proof.
  intros HT Hp Hq Hst. unfold visit_statement_with. intros (st1 & s1 & ->%Hp & (l & s2 & H2 & ->%Hq)%vbind_Continue)%vbind_Continue.
  rewrite children_rebuild_statement by (by eapply each_visit_sort).
  assert (Forall2 (fun _ z => everywhere P z) (statement_children st) l) as HF.
  { eapply each_Forall2; [|exact H2]. intros z s3 z' s4 Hz. apply visit_turns; [done|]. rewrite Forall_forall in Hst. by apply Hst. }
  clear -HF. induction HF; by constructor.
Qed.

End removes.

Lemma all_kinds_impl (Q P : Kind -> Prop) x : (forall k, Q k -> P k) -> all_kinds Q x -> all_kinds P x.
Proof. intros H. apply everywhere_impl. intros y. apply H. Qed.

Lemma all_statement_kinds_impl (Q P : Kind -> Prop) st : (forall k, Q k -> P k) -> all_statement_kinds Q st -> all_statement_kinds P st.
Proof. intros H K. eapply Forall_impl; [exact K|]. intros x. by apply all_kinds_impl. Qed.

Lemma all_statement_kinds_everywhere P st : all_statement_kinds P st <-> statement_everywhere (fun x => P (kind x)) st.
Proof. by rewrite statement_everywhere_unfold. Qed.

(** *** More fuel *)
Lemma each_more {S B A C} (f g : A -> V S B C) l s r : (forall x s r, x ∈ l -> f x s = Continue r -> g x s = Continue r) ->
  each f l s = Continue r -> each g l s = Continue r.
Proof.
  revert s r. induction l as [|x l IH]; intros s r Hfg; [done|]. cbn [each].
  intros (y & s1 & H1 & (k & s2 & H2 & H3)%vbind_Continue)%vbind_Continue. apply vbind_Continue. exists y, s1. split; [apply Hfg; [left|done]|].
  apply vbind_Continue. exists k, s2. split; [|done]. apply IH; [|done]. intros z s0 r0 Hz. apply Hfg. by right.
Qed.

Lemma visit_more {S B} (v : Visitor S B) n m x s r : (n <= m)%nat -> visit v n x s = Continue r -> visit v m x s = Continue r.
Proof.
  revert m x s r. induction n as [|n IH]; intros m x s [y s'] Hm; [done|]. destruct m as [|m]; [lia|].
  intros (x1 & s1 & l & s2 & H1 & H2 & H3)%visit_Continue. apply visit_Continue. exists x1, s1, l, s2. split; [done|]. split; [|done].
  eapply each_more; [|exact H2]. intros z s0 r _. apply IH. lia.
Qed.
