(* ===== verification/Visitors.v ===== *)
(** * The visitors that rewrite a statement

    [functions/src/visitors] and [functions/src/semi-structured/variant/visitors], a module per file: what each hook does
    with the node it is called on, and [visit], the visit of a statement with it.  The visitors that substitute aliases and inline
    common table expressions are in files of their own.

    How names, expressions, paths and types are printed, and upper and lower case beyond ASCII, are the class
    [SqlText]. *)

From Stdlib Require Import ZArith Lia Ascii String.
From stdpp Require Import base option list gmap strings pretty.
From S2P Require Import Prelude Utf8 SqlAst.

#[local] Open Scope string_scope.
#[local] Open Scope visit_scope.

(** [Display] of the tree; [decimal_digit] is the class [\d] of regular expressions, on a character. *)
Class SqlText := {
  name_to_string : ObjectName -> string;
  expr_to_string : Expr -> string;
  path_to_string : list (JsonPathElem Expr) -> string;
  data_type_to_string : DataType -> string;
  to_lowercase : string -> string;
  to_uppercase : string -> string;
  decimal_digit : string -> bool }.

Fixpoint is_ascii (s : string) : bool := match s with EmptyString => true | String c s => (nat_of_ascii c <? 128)%nat && is_ascii s end.

Class SqlTextLaws {TX : SqlText} := {
  name_single : forall s, name_to_string (simple_name s) = s;
  lowercase_ascii : forall s, is_ascii s = true -> to_lowercase s = to_ascii_lowercase s;
  uppercase_ascii : forall s, is_ascii s = true -> to_uppercase s = to_ascii_uppercase s }.

(** A call with unnamed arguments and nothing else. *)
Definition arg (e : Expr) : FunctionArg Expr := Unnamed (ArgExpr e).
Definition call_with (name : string) (args : Args) : Function := mkFunction (simple_name name) false ArgsNone args None None None [].
Definition call (name : string) (args : list Expr) : Expr := EFunction (call_with name (ArgsList None (map arg args) [])).

(** The visitors that rewrite expressions after those below have no state and never break. *)
Definition rewriter (f : Expr -> Expr) : Visitor unit unit := after_expr (fun e => vret (f e)).
(** Those that can panic. *)
Definition partial_rewriter (h : Expr -> option Expr) : Visitor unit unit :=
  after_expr (fun e => match h e with Some e => vret e | None => fun _ => Panic end).

(** ** [rlike_regexp_expr_rewriter.rs] *)
Module RLikeRegexp.

Definition post_visit_expr (e : Expr) : Expr :=
  match e with
  | RLike negated inner pattern _ =>
      let function := call "regexp_like" [inner; pattern] in
      if negated then UnaryOp Not function else function
  | e => e
  end.

Definition visit : Statement -> V unit unit Statement := visit_statement (rewriter post_visit_expr).

End RLikeRegexp.

(** ** [functions_rewriter.rs] *)
Module FunctionsRewriter.
Section functions_rewriter.
Context `{SqlText}.

Definition transformed_value (value : string) : string :=
  if String.eqb value "epoch_second" || String.eqb value "epoch_seconds" then "epoch" else value.

Definition date_part (e : Expr) : Expr :=
  match e with
  | Identifier i => EValue (SingleQuotedString (transformed_value i.(ident_value)))
  | EValue (SingleQuotedString value) => EValue (SingleQuotedString (transformed_value value))
  | EValue (DoubleQuotedString value) => EValue (DoubleQuotedString (transformed_value value))
  | e => e
  end.

(** The n-th argument, when it is an unnamed expression. *)
Definition on_arg (n : nat) (f : Expr -> Expr) (args : Args) : Args :=
  match args with
  | ArgsList d l c => match l !! n with Some (Unnamed (ArgExpr e)) => ArgsList d (<[n := arg (f e)]> l) c | _ => args end
  | args => args
  end.

Definition on_string (f : string -> string) (e : Expr) : Expr :=
  match e with EValue (SingleQuotedString value) => EValue (SingleQuotedString (f value)) | e => e end.

Definition date_format (fmt : string) : string :=
  replace (replace (replace (replace (replace (replace fmt "YYYY" "%Y") "MM" "%m") "DD" "%d") "HH24" "%H") "MI" "%M") "SS" "%S".

Definition rewrite_date_format : Args -> Args := on_arg 1 (on_string date_format).

(** [Regex::new(r"\\(\d)")] and [replace_all] with [$] and the digit *)
Fixpoint group_references (l : list string) : list string :=
  match l with
  | c :: ((d :: l) as l') => if String.eqb c "\" && decimal_digit d then "$" :: d :: group_references l else c :: group_references l'
  | l => l
  end.

Definition regexp_args (args : Args) : Args :=
  on_arg 2 (on_string (fun value => of_chars (group_references (chars value))))
    (on_arg 1 (on_string (fun value => replace value "\" "\\")) args).

Definition date_functions : list string :=
  ["dateadd"; "date_add"; "datediff"; "date_diff"; "date_part"; "timestampdiff"; "timestamp_diff"; "time_diff"; "timediff"].

Definition rewrite_function (func_name : string) (args : Args) : string * Args :=
  if existsb (String.eqb func_name) date_functions then (func_name, on_arg 0 date_part args)
  else if existsb (String.eqb func_name) ["variance"; "variance_samp"] then ("var_samp", args)
  else if String.eqb func_name "variance_pop" then ("var_pop", args)
  else if String.eqb func_name "grouping_id" then ("grouping", args)
  else if String.eqb func_name "to_char" then (func_name, rewrite_date_format args)
  else if String.eqb func_name "date" then ("to_date", args)
  else if String.prefix "regexp_" func_name || String.eqb func_name "rlike" then
    (if String.eqb func_name "rlike" then "regexp_like"
     else if String.eqb func_name "regexp_extract_all" then "regexp_substr_all" else func_name, regexp_args args)
  else (func_name, args).

Definition post_visit_expr (e : Expr) : Expr :=
  match e with
  | EFunction f =>
      let (name, args) := rewrite_function (to_lowercase (name_to_string f.(func_name))) f.(func_args) in
      EFunction (mkFunction (simple_name name) f.(uses_odbc_syntax) f.(parameters) args f.(func_filter) f.(null_treatment) f.(over)
        f.(within_group))
  | e => e
  end.

Definition visit : Statement -> V unit unit Statement := visit_statement (rewriter post_visit_expr).

End functions_rewriter.
End FunctionsRewriter.

(** ** [like_ilike_any.rs] *)
Module LikeILikeAny.

(** [None] where the source indexes the last of no patterns. *)
Definition disjunction (f : Expr -> Expr) (patterns : list Expr) : option Expr :=
  match rev patterns with
  | [] => None
  | p :: ps => Some (foldl (fun new_expr p => BinaryOp (f p) Or new_expr) (f p) ps)
  end.

Definition new_expr (negated : bool) (inner pattern : Expr) (escape_char : option Value) (case_sensitive : bool) : option Expr :=
  let f p := if case_sensitive then ILike negated false inner p escape_char else Like negated false inner p escape_char in
  match pattern with
  | ETuple patterns => disjunction f patterns
  | Nested pattern => Some (f pattern)
  | pattern => Some pattern
  end.

Definition post_visit_expr (e : Expr) : option Expr :=
  match e with
  | Like negated true inner pattern escape_char => new_expr negated inner pattern escape_char false
  | ILike negated true inner pattern escape_char => new_expr negated inner pattern escape_char true
  | e => Some e
  end.

Definition visit : Statement -> V unit unit Statement := visit_statement (partial_rewriter post_visit_expr).

End LikeILikeAny.

(** ** [timestamp.rs] *)
Module TimestampVisitor.

(** [None] where the source indexes the first part of an empty name. *)
Definition post_visit_expr (e : Expr) : option Expr :=
  match e with
  | Cast _ cast_expr data_type _ =>
      match data_type with
      | Timestamp _ TzNone => Some (call "to_timestamp" [cast_expr])
      | TimestampNtz _ => Some (call "to_timestamp_ntz" [cast_expr])
      | Custom [] _ => None
      | Custom (PartIdentifier ident :: _) _ =>
          let name := to_ascii_lowercase ident.(ident_value) in
          if existsb (String.eqb name) ["timestamp_tz"; "timestamp_ntz"; "timestamp_ltz"] then Some (call ("to_" ++ name) [cast_expr]) else Some e
      | Custom (PartFunction _ :: _) _ => Some e
      | _ => Some e
      end
  | e => Some e
  end.

Definition visit : Statement -> V unit unit Statement := visit_statement (partial_rewriter post_visit_expr).

End TimestampVisitor.

(** ** [json_element.rs] *)
Module JsonVisitor.

Definition key_expr (elem : JsonPathElem Expr) : Expr :=
  match elem with Dot key _ => EValue (SingleQuotedString key) | Bracket key => key end.

Fixpoint convert_json_access (e : Expr) : Expr :=
  match e with
  | JsonAccess value path => foldl (fun base elem => call "json_get" [base; key_expr elem]) (convert_json_access value) path
  | e => e
  end.

Definition post_visit_expr (e : Expr) : Expr := match e with JsonAccess _ _ => convert_json_access e | e => e end.
Definition visit : Statement -> V unit unit Statement := visit_statement (rewriter post_visit_expr).

End JsonVisitor.

(** ** [variant/visitors] *)
Module VariantVisitors.
Section variant_visitors.
Context `{SqlText}.

Definition last_ident_is (name : ObjectName) (s : string) : bool :=
  match last name with Some (PartIdentifier i) => String.eqb i.(ident_value) s | _ => false end.

(** [array_agg.rs] *)
Definition array_agg_expr (e : Expr) : Expr :=
  match e with
  | EFunction f =>
      if last_ident_is f.(func_name) "array_agg" then JsonAccess (call "array_construct" [e]) [Bracket (EValue (Number "0" false))] else e
  | e => e
  end.

(** [array_construct_compact.rs] *)
Definition array_construct_compact_expr (e : Expr) : Expr :=
  match e with
  | EFunction f =>
      if last_ident_is f.(func_name) "array_construct_compact"
      then call "array_compact" [EFunction (call_with "array_construct" f.(func_args))] else e
  | e => e
  end.

(** [array_construct.rs] *)
Definition array_construct_expr (e : Expr) : Expr :=
  match e with EArray elem => call "array_construct" elem | e => e end.

(** [variant_element.rs] *)
Definition element_path (path : string) : string :=
  "$" ++ (match path with String ":" rest => "." ++ rest | path => path end).

Definition variant_element_expr (e : Expr) : Expr :=
  match e with
  | JsonAccess value path =>
      call "variant_element" [value; EValue (SingleQuotedString (element_path (path_to_string path))); EValue (Boolean true)]
  | e => e
  end.

(** [type_rewrite.rs]: the types are tested one after the other, each as the ones before have left it. *)
Definition rewrite_type (t : DataType) : DataType :=
  let t := match t with ArrayType _ => StringType None | t => t end in
  match t with
  | Custom _ _ =>
      let t := if String.eqb (data_type_to_string t) "OBJECT" then StringType None else t in
      if String.eqb (data_type_to_string t) "VARIANT" then StringType None else t
  | t => t
  end.

Definition type_rewrite_statement (s : Statement) : Statement :=
  match s with
  | CreateTable c =>
      CreateTable (mkCreateTable c.(create_name) (map (fun c => mkColumn c.(column_name) (rewrite_type c.(data_type)) c.(column_options)) c.(columns))
        c.(create_query) c.(partition_by) c.(create_rest))
  | s => s
  end.

Definition type_rewrite : Visitor unit unit := after_statement (fun s => vret (type_rewrite_statement s)).

Definition visit_all (s : Statement) : V unit unit Statement :=
  let* s := visit_statement (rewriter array_agg_expr) s in
  let* s := visit_statement (rewriter array_construct_compact_expr) s in
  let* s := visit_statement (rewriter array_construct_expr) s in
  let* s := visit_statement type_rewrite s in
  visit_statement (rewriter variant_element_expr) s.

End variant_visitors.
End VariantVisitors.

(** ** [copy_into_identifiers.rs] *)
Module CopyIntoIdentifiers.

(** [trim_start_matches] with a set of characters *)
Fixpoint trim_start_any (cs : list ascii) (s : string) : string :=
  match s with String c s' => if existsb (Ascii.eqb c) cs then trim_start_any cs s' else s | EmptyString => s end.

Definition sanitize_identifier (n : ObjectName) : ObjectName :=
  match n with
  | PartIdentifier i :: n => PartIdentifier (mkIdent (trim_start_any ["@"; "~"; "/"]%char i.(ident_value)) i.(quote_style)) :: n
  | n => n
  end.

Definition pre_visit_statement (s : Statement) : Statement :=
  match s with
  | CopyIntoSnowflake c =>
      CopyIntoSnowflake (mkCopyInto (sanitize_identifier c.(into)) (option_map sanitize_identifier c.(from_obj))
        (option_map (fun s => trim_end "'" (trim_start_any ["'"%char] s)) c.(storage_integration)) c.(from_query) c.(copy_options))
  | s => s
  end.

Definition visit : Statement -> V unit unit Statement := visit_statement (on_statement (fun s => vret (pre_visit_statement s))).

End CopyIntoIdentifiers.

(** ** [unimplemented]: [mod.rs], [functions_list.rs] and [functions_checker.rs] *)
Module Unimplemented.

Record FunctionInfo := mkInfo {
  name : string;
  description : string;
  documentation_url : option string;
  issue_url : option string;
  subcategory : option string }.

Definition new_info (name description : string) : FunctionInfo := mkInfo name description None None None.
Definition with_docs (i : FunctionInfo) (url : string) : FunctionInfo := mkInfo i.(name) i.(description) (Some url) i.(issue_url) i.(subcategory).
Definition with_subcategory (i : FunctionInfo) (s : string) : FunctionInfo := mkInfo i.(name) i.(description) i.(documentation_url) i.(issue_url) (Some s).
Definition with_issue_url (i : FunctionInfo) (url : string) : FunctionInfo := mkInfo i.(name) i.(description) i.(documentation_url) (Some url) i.(subcategory).

Definition get_preferred_url (i : FunctionInfo) : option string :=
  match i.(issue_url) with Some u => Some u | None => i.(documentation_url) end.

Definition SnowflakeFunctions : Type := gmap string FunctionInfo.

Definition build_hashmap_from_array (l : list (string * FunctionInfo)) : SnowflakeFunctions := foldl (fun m p => <[p.1 := p.2]> m) ∅ l.

(** [SnowflakeFunctions::new], given the arrays of the categories in their order: a later one replaces what an earlier has *)
Definition new (categories : list (list (string * FunctionInfo))) : SnowflakeFunctions :=
  foldl (fun m l => build_hashmap_from_array l ∪ m) ∅ categories.

Definition check_function_exists (fs : SnowflakeFunctions) (n : string) : bool := bool_decide (is_Some (fs !! n)).
Definition get_function_info (fs : SnowflakeFunctions) (n : string) : option FunctionInfo := fs !! n.
Definition total_function_count (fs : SnowflakeFunctions) : nat := base.size fs.
Definition get_all_function_names (fs : SnowflakeFunctions) : gset string := dom fs.

Record UnimplementedFunctionError := mkUnimplemented { function_name : string; details : option string }.

(** [Display] *)
Definition error_to_string (e : UnimplementedFunctionError) : string :=
  let plain := "Function '" ++ e.(function_name) ++ "' is not implemented yet" in
  match e.(details) with
  | Some d => if String.eqb d "" then plain else plain ++ ". Details: " ++ d
  | None => plain
  end.

Section checker.
Context `{SqlText} (fs : SnowflakeFunctions).

Definition is_unimplemented (n : string) : bool := check_function_exists fs (to_uppercase n).

Definition complaint (e : Expr) : option UnimplementedFunctionError :=
  match e with
  | EFunction f =>
      let func_name := to_uppercase (name_to_string f.(SqlAst.func_name)) in
      if is_unimplemented func_name
      then Some (mkUnimplemented (to_lowercase func_name) (match get_function_info fs func_name with Some i => get_preferred_url i | None => None end))
      else None
  | _ => None
  end.

Definition check_unimplemented_functions (s : Statement) : flow UnimplementedFunctionError (Statement * unit) :=
  visit_statement (check complaint) s ().

End checker.
End Unimplemented.

(** ** Parts of queries *)

Definition with_body (q : Query) (b : Body) : Query := let 'mkQuery w _ o l f r := q in mkQuery w b o l f r.
Definition with_limit (q : Query) (l : option (LimitClause Expr)) : Query := let 'mkQuery w b o _ f r := q in mkQuery w b o l f r.
Definition with_fetch (q : Query) (f : option (Fetch Expr)) : Query := let 'mkQuery w b o l _ r := q in mkQuery w b o l f r.
Definition with_ctes (q : Query) (w : option With) : Query := let 'mkQuery _ b o l f r := q in mkQuery w b o l f r.
Definition with_projection (s : Select) (p : list (SelectItem Expr)) : Select :=
  mkSelect s.(select_options) s.(distinct) s.(top) p s.(into_clauses) s.(from) s.(lateral_views) s.(selection) s.(grouping) s.(qualify).
Definition with_from (s : Select) (f : list From) : Select :=
  mkSelect s.(select_options) s.(distinct) s.(top) s.(projection) s.(into_clauses) f s.(lateral_views) s.(selection) s.(grouping) s.(qualify).
Definition with_top (s : Select) (t : option (Top Expr)) : Select :=
  mkSelect s.(select_options) s.(distinct) t s.(projection) s.(into_clauses) s.(from) s.(lateral_views) s.(selection) s.(grouping) s.(qualify).

(** The queries a hook sees, as an update of the [SELECT] that is their body. *)
Definition on_select (f : Select -> Select) (q : Query) : Query :=
  match body q with SetSelect s => with_body q (SetSelect (f s)) | _ => q end.

(** ** [fetch_to_limit.rs] *)
Module FetchToLimit.

(** [ParserError::ParserError] *)
Definition no_quantity : string :=
  "FETCH requires a quantity to be specified. The number of rows returned must be a non-negative integer constant.".

Definition existing (l : option (LimitClause Expr)) : option (Offset Expr) * list Expr :=
  match l with
  | Some (LimitOffset _ offset limit_by) => (offset, limit_by)
  | Some (OffsetCommaLimit offset _) => (Some (mkOffset offset ""), [])
  | None => (None, [])
  end.

Definition pre_visit_query (q : Query) : V unit string Query :=
  match fetch q with
  | Some f =>
      match f.(fetch_quantity) with
      | Some quantity =>
          let (offset, limit_by) := existing (limit_clause q) in
          vret (with_limit (with_fetch q None) (Some (LimitOffset (Some quantity) offset limit_by)))
      | None => fun _ => Break no_quantity
      end
  | None => vret q
  end.

Definition visit (s : Statement) : flow string (Statement * unit) := visit_statement (on_query pre_visit_query) s ().

End FetchToLimit.

(** ** [table_functions.rs] *)
Module TableFunctions.
Section table_functions.
Context `{SqlText}.

Definition relation_function (t : TableFactor) : TableFactor :=
  match t with
  | TableFunction (EFunction f) alias =>
      match f.(func_args) with
      | ArgsList _ args _ =>
          if existsb (String.eqb (to_lowercase (name_to_string f.(func_name)))) ["result_scan"; "flatten"]
          then FactorFunction false f.(func_name) args alias else t
      | _ => t
      end
  | t => t
  end.

Definition pre_visit_query : Query -> Query :=
  on_select (fun s => with_from s (map (fun item => mkTwj (relation_function item.(relation)) item.(joins)) s.(from))).

Definition visit : Statement -> V unit unit Statement := visit_statement (on_query (fun q => vret (pre_visit_query q))).

End table_functions.
End TableFunctions.

(** ** [select_expr_aliases.rs] *)
Module SelectExprAliases.
Section select_expr_aliases.
Context `{SqlText}.

Fixpoint add_aliases (seen : gset string) (counter : nat) (items : list (SelectItem Expr)) : list (SelectItem Expr) :=
  match items with
  | [] => []
  | UnnamedExpr e :: items =>
      let expr_str := expr_to_string e in
      if bool_decide (expr_str ∈ seen)
      then ExprWithAlias e (new_ident ("expr_" ++ pretty counter)) :: add_aliases seen (S counter) items
      else UnnamedExpr e :: add_aliases ({[expr_str]} ∪ seen) counter items
  | ExprWithAlias e alias :: items => ExprWithAlias e alias :: add_aliases ({[alias.(ident_value)]} ∪ seen) counter items
  | item :: items => item :: add_aliases seen counter items
  end.

Definition pre_visit_query : Query -> Query := on_select (fun s => with_projection s (add_aliases ∅ 0 s.(projection))).

Definition visit : Statement -> V unit unit Statement := visit_statement (on_query (fun q => vret (pre_visit_query q))).

End select_expr_aliases.
End SelectExprAliases.

(** ** [top_limit.rs] *)
Module TopLimit.

(** [ensure_limit_clause]: the limit and the clause with another limit; [None] where the source is [unreachable!]. *)
Definition ensure_limit_clause (l : option (LimitClause Expr)) : option (option Expr * (option Expr -> LimitClause Expr)) :=
  match l with
  | None => Some (None, fun limit => LimitOffset limit None [])
  | Some (LimitOffset limit offset limit_by) => Some (limit, fun limit => LimitOffset limit offset limit_by)
  | Some (OffsetCommaLimit _ _) => None
  end.

Definition quantity_expr (q : TopQuantity Expr) : Expr :=
  match q with TopExpr e => e | TopConstant n => EValue (Number (pretty n) false) end.

(** The end of the [Select] case: the [SELECT] and the limit clause. *)
Definition take_top (s : Select) (outer : option (LimitClause Expr)) : option (Select * option (LimitClause Expr)) :=
  match s.(top) with
  | None => Some (s, outer)
  | Some t =>
      if negb t.(top_percent) && negb t.(top_with_ties) then
        match ensure_limit_clause outer with
        | None => None
        | Some (Some limit, put) => Some (s, Some (put (Some limit)))
        | Some (None, put) =>
            match t.(top_quantity) with
            | Some q => Some (with_top s None, Some (put (Some (quantity_expr q))))
            | None => Some (s, Some (put None))
            end
        end
      else Some (s, outer)
  end.

Section process_set_expr.
Context (process_query : Query -> option Query).

Definition process_relation (t : From) : option From :=
  match t with
  | mkTwj (Derived lateral subquery alias sample) js =>
      match process_query subquery with Some q => Some (mkTwj (Derived lateral q alias sample) js) | None => None end
  | t => Some t
  end.

Fixpoint process_list {A} (f : A -> option A) (l : list A) : option (list A) :=
  match l with
  | [] => Some []
  | x :: l => match f x with Some x => match process_list f l with Some l => Some (x :: l) | None => None end | None => None end
  end.

Fixpoint process_set_expr (b : Body) (outer : option (LimitClause Expr)) : option (Body * option (LimitClause Expr)) :=
  match b with
  | SetSelect s =>
      match process_list process_relation s.(from) with
      | Some f => match take_top (with_from s f) outer with Some (s, l) => Some (SetSelect s, l) | None => None end
      | None => None
      end
  | SetQuery q => match process_query q with Some q => Some (SetQuery q, outer) | None => None end
  | SetOperation op quantifier lhs rhs =>
      match process_set_expr lhs outer with
      | Some (lhs, outer) =>
          match process_set_expr rhs outer with Some (rhs, outer) => Some (SetOperation op quantifier lhs rhs, outer) | None => None end
      | None => None
      end
  | b => Some (b, outer)
  end.

Definition process_cte (c : Cte Query) : option (Cte Query) :=
  match process_query c.(cte_query) with Some q => Some (mkCte c.(cte_alias) q) | None => None end.

Definition process_with (w : option With) : option (option With) :=
  match w with
  | None => Some None
  | Some w => match process_list process_cte w.(cte_tables) with Some l => Some (Some (mkWith w.(recursive) l)) | None => None end
  end.

End process_set_expr.

Fixpoint process_query (q : Query) : option Query :=
  match q with
  | mkQuery w b o l f r =>
      match process_with process_query w with
      | Some w => match process_set_expr process_query b l with Some (b, l) => Some (mkQuery w b o l f r) | None => None end
      | None => None
      end
  end.

Definition pre_visit_statement (s : Statement) : V unit unit Statement :=
  match s with
  | StQuery q => match process_query q with Some q => vret (StQuery q) | None => fun _ => Panic end
  | s => vret s
  end.

Definition visit : Statement -> V unit unit Statement := visit_statement (on_statement pre_visit_statement).

End TopLimit.

(** ** Visits that always continue *)

Lemma each_total {S B A C} (f : A -> V S B C) l : (forall x s, x ∈ l -> exists y s', f x s = Continue (y, s')) ->
  forall s, exists k s', each f l s = Continue (k, s').
Proof.
  induction l as [|x l IH]; intros Hf s; [by eexists _, _|]. destruct (Hf x s) as (y & s1 & E1); [left|].
  destruct (IH (fun z s Hz => Hf z s (list_elem_of_further _ _ _ Hz)) s1) as (k & s2 & E2). exists (y :: k), s2. cbn [each]. unfold vbind, vret. by rewrite E1, E2.
Qed.

Lemma visit_total {S B} (v : Visitor S B) n x s :
  (forall x s, exists y s', before v x s = Continue (y, s') /\ (size y <= size x)%nat) -> (forall x s, exists y s', after v x s = Continue (y, s')) ->
  (size x <= n)%nat -> exists y s', visit v n x s = Continue (y, s').
Proof.
  intros Hb Ha. revert x s. induction n as [|n IH]; intros x s Hx; [rewrite size_children in Hx; lia|].
  destruct (Hb x s) as (x1 & s1 & E1 & Hs1). destruct (each_total (visit v n) (children x1)) with (s := s1) as (l & s2 & E2).
  { intros y s0 Hy%size_child. apply IH. lia. }
  destruct (Ha (rebuild x1 l) s2) as (y & s3 & E3). exists y, s3. apply visit_Continue. by exists x1, s1, l, s2.
Qed.

Lemma visit_statement_total {S B} (v : Visitor S B) st s :
  (forall x s, exists y s', before v x s = Continue (y, s') /\ (size y <= size x)%nat) -> (forall x s, exists y s', after v x s = Continue (y, s')) ->
  (forall x s, exists y s', v.(pre_visit_statement) x s = Continue (y, s')) -> (forall x s, exists y s', v.(post_visit_statement) x s = Continue (y, s')) ->
  exists st' s', visit_statement v st s = Continue (st', s').
Proof.
  intros Hb Ha Hp Hq. destruct (Hp st s) as (st1 & s1 & E1).
  destruct (each_total (fun x => visit v (size x) x) (statement_children st1)) with (s := s1) as (l & s2 & E2); [intros; by apply visit_total|].
  destruct (Hq (rebuild_statement st1 l) s2) as (st2 & s3 & E3). exists st2, s3. unfold visit_statement, visit_statement_with, vbind. by rewrite E1, E2.
Qed.

Lemma rewriter_total f st : exists st', visit_statement (rewriter f) st () = Continue (st', ()).
Proof.
  destruct (visit_statement_total (rewriter f) st ()) as (st' & [] & E); [..|by exists st'].
  - intros [e|q|t] s; by eexists _, _.
  - intros [e|q|t] s; by eexists _, _.
  - intros x s. by eexists _, _.
  - intros x s. by eexists _, _.
Qed.

(** ** What the operators mean

    A meaning of the tree that is compositional, the operators the rewriting uses and the operators it removes. *)
Class Meaning := {
  D : Type;
  meaning : Node -> D;
  statement_meaning : Statement -> D;
  d_not : D -> D;
  d_or : D -> D -> D;
  d_regexp_like : D -> D -> D;
  d_like : bool -> option Value -> D -> D -> D }.

Section meaning.
Context `{Meaning}.

Definition negate (negated : bool) (d : D) : D := if negated then d_not d else d.
(** At least one of several. *)
Fixpoint any_of (d : D) (l : list D) : D := match l with [] => d | d' :: l => d_or d (any_of d' l) end.
Definition m (e : Expr) : D := meaning (NE e).
Definition like (insensitive negated any : bool) : Expr -> Expr -> option Value -> Expr := if insensitive then ILike negated any else Like negated any.
End meaning.

Class MeaningLaws {M : Meaning} := {
  compositional : forall x l, map sort l = map sort (children x) -> map meaning l = map meaning (children x) -> meaning (rebuild x l) = meaning x;
  statement_compositional : forall st l, map sort l = map sort (statement_children st) -> map meaning l = map meaning (statement_children st) ->
    statement_meaning (rebuild_statement st l) = statement_meaning st;
  means_not : forall e, m (UnaryOp Not e) = d_not (m e);
  means_or : forall e e', m (BinaryOp e Or e') = d_or (m e) (m e');
  means_regexp_like : forall e p, m (call "regexp_like" [e; p]) = d_regexp_like (m e) (m p);
  means_rlike : forall negated e p r, m (RLike negated e p r) = negate negated (d_regexp_like (m e) (m p));
  means_like : forall i negated e p c, m (like i negated false e p c) = negate negated (d_like i c (m e) (m p));
  means_any_of : forall i negated e p ps c,
    m (like i negated true e (ETuple (p :: ps)) c) = negate negated (any_of (d_like i c (m e) (m p)) (map (fun p => d_like i c (m e) (m p)) ps));
  means_any : forall i negated e p c, m (like i negated true e (Nested p) c) = negate negated (d_like i c (m e) (m p)) }.

(** LIKE ANY with a pattern in parentheses or, when it is not negated, with several. *)
Definition any_ok (negated : bool) (pattern : Expr) : bool :=
  match pattern with
  | ETuple [_] | Nested _ => true
  | ETuple (_ :: _) => negb negated
  | _ => false
  end.
Definition supported (x : Node) : Prop :=
  match x with
  | NE (Like negated true _ pattern _) | NE (ILike negated true _ pattern _) => any_ok negated pattern = true
  | _ => True
  end.

Section soundness.
Context {M : Meaning} {ML : MeaningLaws}.

Lemma map_meaning l k : Forall2 (fun x y => meaning y = meaning x) l k -> map meaning k = map meaning l.
Proof. induction 1 as [|x y l k E _ IH]; [done|]. simpl. by rewrite E, IH. Qed.

(** A hook that keeps the meaning of expressions keeps that of statements. *)
Lemma rewriter_meaning f st st' : (forall e, m (f e) = m e) -> visit_statement (rewriter f) st () = Continue (st', ()) -> statement_meaning st' = statement_meaning st.
Proof.
  intros Hf. assert (Transitive (fun x y : Node => meaning y = meaning x)) by (intros x y z E1 E2; by rewrite E2).
  assert (Transitive (fun x y : Statement => statement_meaning y = statement_meaning x)) by (intros x y z E1 E2; by rewrite E2).
  eapply (visit_statement_related (rewriter f) (fun x y => meaning y = meaning x) (fun x y => statement_meaning y = statement_meaning x)).
  - intros x l Hs Hl. apply compositional; [done|]. by apply map_meaning.
  - intros x l Hs Hl. apply statement_compositional; [done|]. by apply map_meaning.
  - intros [e|q|t] s y s' [= <- _]; done.
  - intros [e|q|t] s y s' [= <- _]; [apply Hf|done..].
  - by intros x s y s' [= <- _].
  - by intros x s y s' [= <- _].
Qed.

Lemma rlike_meaning e : m (RLikeRegexp.post_visit_expr e) = m e.
Proof. destruct e; try done. cbn. rewrite means_rlike. destruct negated; [by rewrite means_not, means_regexp_like|apply means_regexp_like]. Qed.

(** *** LIKE ANY *)

Fixpoint any_expr (f : Expr -> Expr) (p : Expr) (ps : list Expr) : Expr :=
  match ps with [] => f p | p' :: ps => BinaryOp (f p) Or (any_expr f p' ps) end.

Lemma disjunction_cons f p ps : LikeILikeAny.disjunction f (p :: ps) = Some (any_expr f p ps).
Proof.
  revert p. induction ps as [|p' ps IH]; intros p; [done|]. specialize (IH p'). unfold LikeILikeAny.disjunction in *. cbn [rev any_expr] in *.
  destruct (rev ps ++ [p'])%list as [|q qs]; [done|]. cbn [app]. rewrite foldl_app. cbn [foldl]. by injection IH as ->.
Qed.

Lemma means_any_expr f p ps : m (any_expr f p ps) = any_of (m (f p)) (map (fun p => m (f p)) ps).
Proof. revert p. induction ps as [|p' ps IH]; intros p; [done|]. cbn [any_expr map any_of]. by rewrite means_or, IH. Qed.

Lemma everywhere_leaf P e l : children (NE e) = map NE l -> (everywhere P (NE e) <-> P (NE e) /\ Forall (fun e => everywhere P (NE e)) l).
Proof. intros E. by rewrite everywhere_unfold, E, Forall_map. Qed.

Lemma children_like i negated any e p c : children (NE (like i negated any e p c)) = map NE [e; p].
Proof. by destruct i. Qed.

Lemma any_expr_supported i negated e c p ps : everywhere supported (NE e) -> Forall (fun p => everywhere supported (NE p)) (p :: ps) ->
  everywhere supported (NE (any_expr (fun p => like i negated false e p c) p ps)).
Proof.
  intros He. revert p. induction ps as [|p' ps IH]; intros p Hp; inversion Hp; subst; cbn [any_expr].
  - rewrite (everywhere_leaf _ _ [e; p]) by apply children_like. split; [by destruct i|]. by repeat constructor.
  - rewrite (everywhere_leaf _ _ [like i negated false e p c; any_expr (fun p => like i negated false e p c) p' ps]) by done.
    split; [done|]. constructor; [|constructor; [by apply IH|constructor]].
    rewrite (everywhere_leaf _ _ [e; p]) by apply children_like. split; [by destruct i|]. by repeat constructor.
Qed.

(** The hook on a LIKE ANY. *)
Lemma new_expr_supported i negated e p c : any_ok negated p = true -> everywhere supported (NE e) -> everywhere supported (NE p) ->
  exists e', LikeILikeAny.new_expr negated e p c i = Some e' /\ everywhere supported (NE e') /\ m e' = m (like i negated true e p c).
Proof.
  intros Hok He Hp. unfold LikeILikeAny.new_expr. cbn zeta.
  replace (fun p => if i then ILike negated false e p c else Like negated false e p c) with (fun p => like i negated false e p c) by (unfold like; by destruct i).
  destruct p as [| | | | | | | |p|[|p ps]| | | | |]; try done.
  - rewrite (everywhere_leaf _ _ [p]) in Hp by done. destruct Hp as [_ Hp]. exists (like i negated false e p c). inversion Hp; subst.
    split; [by destruct i|]. split; [by apply (any_expr_supported i negated e c p [])|]. by rewrite means_any, means_like.
  - rewrite (everywhere_leaf _ _ (p :: ps)) in Hp by apply children_tuple. destruct Hp as [_ Hp]. rewrite disjunction_cons. eexists. split; [done|].
    split; [by apply any_expr_supported|]. rewrite means_any_expr, means_any_of, means_like. destruct ps as [|p' ps]; [done|].
    destruct negated; [done|]. cbn [negate]. f_equal. apply map_ext. intros q. apply (means_like i false).
Qed.

Definition same_shape (x y : Node) : Prop :=
  match x with
  | NE (ETuple l) => exists l', y = NE (ETuple l') /\ length l' = length l
  | NE (Nested _) => exists e, y = NE (Nested e)
  | _ => True
  end.

Definition refines (x y : Node) : Prop := everywhere supported y /\ meaning y = meaning x /\ same_shape x y.

Lemma same_shape_refl x : same_shape x x.
Proof. destruct x as [[]| |]; cbn; eauto. Qed.

Lemma refines_trans x y z : refines x y -> refines y z -> refines x z.
Proof.
  intros (Hy & Ey & Sy) (Hz & Ez & Sz). split; [done|]. split; [by rewrite Ez|].
  destruct x as [[]| |]; try done; [by destruct Sy as [e ->]|]. destruct Sy as (l' & -> & El). destruct Sz as (l2 & -> & El2). exists l2. by rewrite El2.
Qed.

Lemma any_ok_shape negated p p' : same_shape (NE p) (NE p') -> any_ok negated p = true -> any_ok negated p' = true.
Proof.
  destruct p; try done; [by intros [e [= ->]]|]. intros (l' & [= ->] & El). by destruct exprs as [|? []], l' as [|? []].
Qed.

Lemma kind_any x : kind x = KAny -> exists i negated e p c, x = NE (like i negated true e p c).
Proof.
  destruct x as [e|[w b o l [f|] r]|t]; try done. destruct e; try done; destruct any; try done; intros _;
    [by exists false, negated, e1, e2, escape_char|by exists true, negated, e1, e2, escape_char].
Qed.

Lemma kind_any_dec x : kind x = KAny \/ kind x <> KAny.
Proof. destruct (kind x); naive_solver. Qed.

Lemma supported_kind x : kind x <> KAny -> supported x.
Proof. destruct x as [[]| |]; try done; by destruct any. Qed.

Lemma supported_like i negated e p c : supported (NE (like i negated true e p c)) <-> any_ok negated p = true.
Proof. by destruct i. Qed.

Lemma rebuild_like i negated any e p c e' p' : rebuild (NE (like i negated any e p c)) [NE e'; NE p'] = NE (like i negated any e' p' c).
Proof. by destruct i. Qed.

Lemma same_shape_rebuild x l : map sort l = map sort (children x) -> same_shape x (rebuild x l).
Proof.
  intros Hs. destruct x as [[]| |]; try done.
  - destruct l as [|[e'| |] []]; try done. by exists e'.
  - pose proof (children_rebuild _ _ Hs) as Hc. destruct (rebuild (NE (ETuple exprs)) l) as [[]| |] eqn:E; try (unfold rebuild in E; cbn in E; by destruct (snd _ l)).
    rewrite children_tuple in *. eexists. split; [done|]. apply (f_equal length) in Hs. rewrite <- Hc, !length_map in Hs. done.
Qed.

Lemma refines_rebuild x l : everywhere supported x -> map sort l = map sort (children x) -> Forall2 refines (children x) l -> refines x (rebuild x l).
Proof.
  intros [Hx _]%everywhere_unfold Hs HF. split; [|split].
  - apply everywhere_unfold. rewrite children_rebuild by done. split; [|clear -HF; induction HF as [|? ? ? ? []]; by constructor].
    destruct (kind_any_dec x) as [(i & negated & e & p & c & ->)%kind_any|Hk]; [|apply supported_kind; by rewrite kind_rebuild].
    rewrite children_like in Hs, HF. destruct l as [|[e'| |] [|[p'| |] []]]; try done. rewrite rebuild_like, supported_like in *.
    inversion HF as [|? ? ? ? _ HF2]; subst. inversion HF2 as [|? ? ? ? (_ & _ & Hsh) _]; subst. by eapply any_ok_shape.
  - apply compositional; [done|]. apply map_meaning. clear -HF. induction HF as [|? ? ? ? (_ & ? & _)]; by constructor.
  - by apply same_shape_rebuild.
Qed.

Lemma like_any_hook e : everywhere supported (NE e) ->
  exists e', LikeILikeAny.post_visit_expr e = Some e' /\ refines (NE e) (NE e').
Proof.
  intros He. destruct (kind_any_dec (NE e)) as [(i & negated & a & p & c & [= ->])%kind_any|Hk].
  - pose proof He as [Hok Hc]%everywhere_unfold. rewrite children_like in Hc. rewrite supported_like in Hok. apply Forall_map in Hc.
    inversion Hc as [|? ? Ha Hc2]; subst. inversion Hc2 as [|? ? Hp _]; subst.
    destruct (new_expr_supported i negated a p c Hok Ha Hp) as (e' & E & He' & Em). exists e'. split; [by destruct i|]. split; [done|]. split; [done|]. by destruct i.
  - exists e. split; [destruct e; try done; by destruct any|]. split; [done|]. split; [done|]. apply same_shape_refl.
Qed.

Lemma rlike_hook e : everywhere supported (NE e) -> refines (NE e) (NE (RLikeRegexp.post_visit_expr e)).
Proof.
  intros He. split; [|split; [apply rlike_meaning|]].
  - destruct e; try done. rewrite (everywhere_leaf _ _ [e1; e2]) in He by done. destruct He as [_ He]. cbn.
    assert (everywhere supported (NE (call "regexp_like" [e1; e2]))) as Hc by (by apply (everywhere_leaf _ _ [e1; e2])).
    destruct negated; [|done]. apply (everywhere_leaf _ _ [call "regexp_like" [e1; e2]]); [done|]. split; [done|]. constructor; [exact Hc|constructor].
  - destruct e; try apply same_shape_refl. done.
Qed.

(** A visit with such a hook. *)
Section hook.
Context (h : Expr -> option Expr) (Hh : forall e, everywhere supported (NE e) -> exists e', h e = Some e' /\ refines (NE e) (NE e')).
Let v : Visitor unit unit := partial_rewriter h.

Lemma each_refines (g : Node -> V unit unit Node) l : Forall (fun x => exists y, g x () = Continue (y, ()) /\ sort y = sort x /\ refines x y) l ->
  exists k, each g l () = Continue (k, ()) /\ map sort k = map sort l /\ Forall2 refines l k.
Proof.
  induction 1 as [|x l (y & Ey & Es & Hy) _ (k & Ek & Eks & Hk)]; [by exists []|]. exists (y :: k). cbn [each map]. unfold vbind, vret.
  rewrite Ey, Ek, Es, Eks. split; [done|]. split; [done|]. by constructor.
Qed.

Lemma visit_refines n x : (size x <= n)%nat -> everywhere supported x -> exists y, visit v n x () = Continue (y, ()) /\ sort y = sort x /\ refines x y.
Proof.
  revert x. induction n as [|n IH]; intros x Hx Hsup; [rewrite size_children in Hx; lia|].
  destruct (each_refines (visit v n) (children x)) as (l & El & Es & Hl).
  { pose proof Hsup as [_ Hc]%everywhere_unfold. rewrite Forall_forall in Hc |- *. intros y Hy. apply IH; [|by apply Hc].
    apply size_child in Hy. lia. }
  pose proof (refines_rebuild _ _ Hsup Es Hl) as HR.
  assert (exists y, after v (rebuild x l) () = Continue (y, ()) /\ refines (rebuild x l) y) as (y & Ey & Hy).
  { destruct (rebuild x l) as [e|q|t]; [|exists (NQ q)|exists (NF t)]; try (split; [done|]; split; [apply HR|split; [done|apply same_shape_refl]]).
    destruct (Hh e) as (e' & E & He'); [apply HR|]. exists (NE e'). split; [|done]. cbn. unfold vbind. by rewrite E. }
  exists y. assert (visit v (S n) x () = Continue (y, ())) as E by (apply visit_Continue; exists x, (), l, (); by destruct x).
  split; [done|]. split; [by eapply visit_sort|]. by eapply refines_trans.
Qed.

Lemma visit_statement_refines st : statement_everywhere supported st -> exists st',
  visit_statement v st () = Continue (st', ()) /\ statement_everywhere supported st' /\ statement_meaning st' = statement_meaning st.
Proof.
  intros Hst%statement_everywhere_unfold. destruct (each_refines (fun x => visit v (size x) x) (statement_children st)) as (l & El & Es & Hl).
  { eapply Forall_impl; [exact Hst|]. intros x Hx. by apply visit_refines. }
  exists (rebuild_statement st l). split; [|split].
  - unfold visit_statement, visit_statement_with, vbind. cbn. by rewrite El.
  - apply statement_everywhere_unfold. rewrite children_rebuild_statement by done. clear -Hl. induction Hl as [|? ? ? ? []]; by constructor.
  - apply statement_compositional; [done|]. apply map_meaning. clear -Hl. induction Hl as [|? ? ? ? (_ & ? & _)]; by constructor.
Qed.

End hook.

End soundness.

(** ** What the visitors remove

    For properties of the kinds of nodes that say nothing of functions and of the kinds without a name. *)
Section kinds.
Context (P : Kind -> Prop) (HF : forall n, P (KFunction n)) (HO : P KOther).

Lemma all_kinds_leaf e l : children (NE e) = map NE l -> (all_kinds P (NE e) <-> P (kind (NE e)) /\ Forall (fun e => all_kinds P (NE e)) l).
Proof. apply everywhere_leaf. Qed.

Lemma children_call n l : children (NE (call n l)) = map NE l.
Proof.
  unfold call, call_with, children. cbn [parts map_parts fst fields_expr]. run_idiom. cbn [app]. unfold fields_function. run_idiom.
  cbn [func_name uses_odbc_syntax parameters func_args func_filter null_treatment over within_group fields_args fields_option fields_list]. run_idiom.
  rewrite !app_nil_r. cbn [app]. rewrite parts_of_list. induction l as [|x l IH]; [done|]. cbn [map flat_map]. by rewrite IH.
Qed.

Lemma all_kinds_call_named n l : P (KFunction (simple_name n)) -> Forall (fun e => all_kinds P (NE e)) l -> all_kinds P (NE (call n l)).
Proof. intros Hn Hl. apply (all_kinds_leaf _ l); [apply children_call|]. by split. Qed.

Lemma all_kinds_call n l : Forall (fun e => all_kinds P (NE e)) l -> all_kinds P (NE (call n l)).
Proof. apply all_kinds_call_named, HF. Qed.

(** The hook of a rewriter. *)
Definition rewrites (Q : Kind -> Prop) (h : Expr -> option Expr) : Prop :=
  forall e e', Q (kind (NE e)) -> Forall (all_kinds P) (children (NE e)) -> h e = Some e' -> all_kinds P (NE e').

Lemma rewrites_turns Q (h : Expr -> option Expr) : (forall k, Q k -> k = KFetch \/ k = KOther -> P k) -> rewrites Q h ->
  turns (partial_rewriter h) (fun x => Q (kind x)) (fun x => P (kind x)).
Proof.
  intros HQ Hh [e|q|t] s y s' Hk Hc; cbn.
  - intros (e' & s1 & E & [= <- _])%vbind_Continue. destruct (h e) as [e2|] eqn:Eh; [|done]. injection E as -> _. by eapply Hh.
  - intros [= <- _]. apply all_kinds_unfold. split; [|done]. apply HQ; [done|]. destruct q as [? ? ? ? [f|] ?]; auto.
  - intros [= <- _]. apply all_kinds_unfold. by split.
Qed.

(** A statement after the visit. *)
Lemma visit_rewrites Q (h : Expr -> option Expr) st st' : (forall k, Q k -> k = KFetch \/ k = KOther -> P k) -> rewrites Q h -> all_statement_kinds Q st ->
  visit_statement (partial_rewriter h) st () = Continue (st', ()) -> all_statement_kinds P st'.
Proof.
  intros HQ Hh. apply visit_statement_turns; [apply kind_local|..].
  - intros [e|q|t] s y s' [= <- _]; done.
  - by apply rewrites_turns.
  - by intros x s y s' [= <- _].
  - by intros x s y s' [= <- _].
Qed.

Lemma keeps_expr e : P (kind (NE e)) -> Forall (all_kinds P) (children (NE e)) -> all_kinds P (NE e).
Proof. intros. by apply all_kinds_unfold. Qed.

Lemma rlike_rewrites : P (KFunction (simple_name "regexp_like")) -> rewrites (fun k => k = KRLike \/ P k) (fun e => Some (RLikeRegexp.post_visit_expr e)).
Proof.
  intros HR e e' Hk Hc [= <-]. destruct e; try (by destruct Hk; [|apply keeps_expr]); try (destruct any, Hk; try done; by apply keeps_expr).
  assert (all_kinds P (NE (call "regexp_like" [e1; e2]))) as Hf by (by apply all_kinds_call_named, (Forall_map NE (all_kinds P) [e1; e2])).
  cbn. destruct negated; [|done]. apply (all_kinds_leaf _ [call "regexp_like" [e1; e2]]); [done|]. split; [done|]. constructor; [exact Hf|constructor].
Qed.

Lemma all_kinds_like i negated e p c : all_kinds P (NE e) -> all_kinds P (NE p) -> all_kinds P (NE (like i negated false e p c)).
Proof.
  intros He Hp. apply (all_kinds_leaf _ [e; p]); [apply children_like|]. split; [by destruct i|]. constructor; [exact He|]. constructor; [exact Hp|constructor].
Qed.

Lemma all_kinds_any_expr i negated e c p ps : all_kinds P (NE e) -> Forall (fun p => all_kinds P (NE p)) (p :: ps) ->
  all_kinds P (NE (any_expr (fun p => like i negated false e p c) p ps)).
Proof.
  intros He. revert p. induction ps as [|p' ps IH]; intros p Hp; inversion Hp; subst; cbn [any_expr]; [by apply all_kinds_like|].
  apply (all_kinds_leaf _ [like i negated false e p c; any_expr (fun p => like i negated false e p c) p' ps]); [done|]. split; [done|].
  constructor; [by apply all_kinds_like|]. constructor; [by apply IH|constructor].
Qed.

Lemma new_expr_kinds i negated e p c e' : all_kinds P (NE e) -> all_kinds P (NE p) -> LikeILikeAny.new_expr negated e p c i = Some e' -> all_kinds P (NE e').
Proof.
  intros He Hp. unfold LikeILikeAny.new_expr. cbn zeta.
  replace (fun p => if i then ILike negated false e p c else Like negated false e p c) with (fun p => like i negated false e p c) by (unfold like; by destruct i).
  destruct p as [| | | | | | | |p|[|p ps]| | | | |]; try (by intros [= <-]).
  - intros [= <-]. apply (all_kinds_leaf _ [p]) in Hp as [_ Hp]; [|done]. inversion Hp; subst.
    destruct i; [by apply (all_kinds_like true)|by apply (all_kinds_like false)].
  - rewrite disjunction_cons. intros [= <-]. apply (all_kinds_leaf _ (p :: ps)) in Hp as [_ Hp]; [|apply children_tuple]. by apply all_kinds_any_expr.
Qed.

Lemma like_any_rewrites : rewrites (fun k => k = KAny \/ P k) LikeILikeAny.post_visit_expr.
Proof.
  intros e e' Hk Hc. destruct (kind_any_dec (NE e)) as [(i & negated & a & p & c & [= ->])%kind_any|Hn].
  - rewrite children_like in Hc. apply Forall_map in Hc. inversion Hc as [|? ? Ha Hc2]; subst. inversion Hc2 as [|? ? Hp _]; subst.
    intros E. apply (new_expr_kinds i negated a p c); [exact Ha|exact Hp|]. destruct i; exact E.
  - destruct Hk as [|Hk]; [done|]. destruct e; try (intros [= <-]; by apply keeps_expr); destruct any; try done; intros [= <-]; by apply keeps_expr.
Qed.

(** The arguments of a function. *)
Definition args_kinds (a : Args) : Prop := Forall (all_kinds P) (fst (fields_args part_expr part_query a)).

Lemma children_function f : children (NE (EFunction f)) =
  (fst (fields_args part_expr part_query f.(parameters)) ++ fst (fields_args part_expr part_query f.(func_args)) ++
   fst (fields_option part_expr f.(func_filter)) ++ fst (fields_option (fields_clause part_expr) f.(over)) ++
   fst (fields_list (fields_clause part_expr) f.(within_group)))%list.
Proof.
  unfold children. cbn [parts map_parts fst fields_expr]. unfold fields_function. run_idiom. cbn [app]. by rewrite <- !app_assoc.
Qed.

(** Another name and other arguments. *)
Lemma function_kinds f n args : P (KFunction n) -> Forall (all_kinds P) (children (NE (EFunction f))) -> args_kinds args ->
  all_kinds P (NE (EFunction (mkFunction n f.(uses_odbc_syntax) f.(parameters) args f.(func_filter) f.(null_treatment) f.(over) f.(within_group)))).
Proof.
  intros Hn. rewrite children_function. rewrite !Forall_app. intros (H1 & _ & H2) Ha. apply all_kinds_unfold. split; [exact Hn|].
  rewrite children_function, !Forall_app. cbn [parameters func_args func_filter over within_group]. split; [exact H1|]. split; [exact Ha|exact H2].
Qed.

Lemma on_arg_kinds n f args : (forall e, all_kinds P (NE e) -> all_kinds P (NE (f e))) -> args_kinds args -> args_kinds (FunctionsRewriter.on_arg n f args).
Proof.
  intros Hf. destruct args as [|q|d l c]; try done. cbn [FunctionsRewriter.on_arg].
  destruct (l !! n) as [[| |[e| |]]|] eqn:El; try done. unfold args_kinds. cbn [fields_args]. run_idiom.
  rewrite !Forall_app, !(parts_of_list (fields_arg part_expr)), !Forall_flat_map. intros ((H1 & H2) & H3). split; [split; [done|]|done].
  apply Forall_insert; [done|]. pose proof (Forall_lookup_1 _ _ _ _ H2 El) as H4. cbn in H4. inversion H4; subst.
  cbn. constructor; [by apply Hf|constructor].
Qed.

Lemma on_string_kinds f e : all_kinds P (NE e) -> all_kinds P (NE (FunctionsRewriter.on_string f e)).
Proof. destruct e as [|[]| | | | | | | | | | | | |]; try done. intros _. by apply (all_kinds_leaf _ []). Qed.

Lemma date_part_kinds e : all_kinds P (NE e) -> all_kinds P (NE (FunctionsRewriter.date_part e)).
Proof. destruct e as [|[]| | | | | | | | | | | | |]; try done; intros _; by apply (all_kinds_leaf _ []). Qed.

Lemma functions_rewrites `{SqlText} (Q : ObjectName -> Prop) :
  (forall n a, Q n -> P (KFunction (simple_name (fst (FunctionsRewriter.rewrite_function (to_lowercase (name_to_string n)) a))))) ->
  rewrites (fun k => match k with KFunction n => Q n | k => P k end) (fun e => Some (FunctionsRewriter.post_visit_expr e)).
Proof.
  intros HQ e e' Hk Hc [= <-]. destruct e; try (by apply keeps_expr); try (destruct any; by apply keeps_expr). cbn [FunctionsRewriter.post_visit_expr kind] in *.
  specialize (HQ f.(func_name) f.(func_args) Hk). destruct (FunctionsRewriter.rewrite_function _ _) as [name args] eqn:E. apply function_kinds; [done|done|].
  assert (args_kinds f.(func_args)) as Ha by (rewrite children_function, !Forall_app in Hc; apply Hc).
  revert E. unfold FunctionsRewriter.rewrite_function, FunctionsRewriter.rewrite_date_format, FunctionsRewriter.regexp_args.
  repeat case_match; intros [= _ <-]; try done; repeat (apply on_arg_kinds; [auto using on_string_kinds, date_part_kinds|]); done.
Qed.

Definition timestamp_cast (t : DataType) : bool :=
  match t with
  | Timestamp _ TzNone | TimestampNtz _ => true
  | Custom (PartIdentifier i :: _) _ => existsb (String.eqb (to_ascii_lowercase i.(ident_value))) ["timestamp_tz"; "timestamp_ntz"; "timestamp_ltz"]
  | _ => false
  end.

Lemma timestamp_rewrites : rewrites (fun k => (exists t, k = KCast t /\ timestamp_cast t = true) \/ P k) TimestampVisitor.post_visit_expr.
Proof.
  intros e e' Hk Hc. destruct e as [| | |? any|? any| | | | | | |cast e data_type format| | |];
    try (intros [= <-]; destruct Hk as [(t & [=] & _)|Hk]; by apply keeps_expr);
    try (destruct any; intros [= <-]; destruct Hk as [(t & [=] & _)|Hk]; by apply keeps_expr).
  assert (forall n, all_kinds P (NE (call n [e]))) as Hcall by (intros n; by apply all_kinds_call, (Forall_map NE (all_kinds P) [e])).
  assert (timestamp_cast data_type = false -> all_kinds P (NE (Cast cast e data_type format))) as Hkeep.
  { intros Ht. destruct Hk as [(t & [= <-] & Ht')|Hk]; [congruence|]. by apply keeps_expr. }
  cbn [TimestampVisitor.post_visit_expr]. destruct data_type as [p []|p| | |[|[i|x] n] ms|]; try (intros [= <-]; auto; fail).
  destruct (existsb _ _) eqn:Ex; intros [= <-]; auto.
Qed.

Lemma array_construct_rewrites : rewrites (fun k => k = KArray \/ P k) (fun e => Some (VariantVisitors.array_construct_expr e)).
Proof.
  intros e e' Hk Hc [= <-]. destruct e; try (by destruct Hk; [|apply keeps_expr]); try (destruct any, Hk; try done; by apply keeps_expr).
  apply all_kinds_call. rewrite children_array in Hc. exact (proj1 (Forall_map NE (all_kinds P) elem) Hc).
Qed.

Lemma compact_rewrites : rewrites P (fun e => Some (VariantVisitors.array_construct_compact_expr e)).
Proof.
  intros e e' Hk Hc [= <-]. destruct e; try by apply keeps_expr. cbn [VariantVisitors.array_construct_compact_expr].
  case_match; [|by apply keeps_expr]. apply all_kinds_call. constructor; [|constructor].
  rewrite children_function, !Forall_app in Hc. apply all_kinds_unfold. split; [apply HF|]. rewrite children_function, !Forall_app. by split_and!; try apply Hc.
Qed.

Lemma array_agg_rewrites : P KJsonAccess -> rewrites P (fun e => Some (VariantVisitors.array_agg_expr e)).
Proof.
  intros HJ e e' Hk Hc [= <-]. assert (all_kinds P (NE e)) as He by by apply keeps_expr. destruct e; try done. cbn [VariantVisitors.array_agg_expr].
  case_match; [|done]. apply (all_kinds_leaf _ [call "array_construct" [EFunction f]; EValue (Number "0" false)]); [done|]. split; [done|].
  constructor; [apply all_kinds_call; by constructor|]. constructor; [by apply (all_kinds_leaf _ [])|constructor].
Qed.

Lemma variant_element_rewrites `{SqlText} : rewrites (fun k => k = KJsonAccess \/ P k) (fun e => Some (VariantVisitors.variant_element_expr e)).
Proof.
  intros e e' Hk Hc [= <-]. destruct e; try (by destruct Hk; [|apply keeps_expr]); try (destruct any, Hk; try done; by apply keeps_expr).
  inversion Hc; subst. apply all_kinds_call. rewrite !Forall_cons. split_and!; try done; by apply (all_kinds_leaf _ []).
Qed.

Lemma json_get_kinds base path : all_kinds P (NE base) -> Forall (all_kinds P) (fst (fields_list (fields_path part_expr) path)) ->
  all_kinds P (NE (foldl (fun base elem => call "json_get" [base; JsonVisitor.key_expr elem]) base path)).
Proof.
  rewrite parts_of_list, Forall_flat_map. revert base. induction path as [|x path IH]; intros base Hb Hp; [done|]. inversion Hp as [|? ? Hx Hp']; subst.
  cbn [foldl]. apply IH; [|done]. apply all_kinds_call. rewrite !Forall_cons. split_and!; try done.
  destruct x; cbn; [by apply (all_kinds_leaf _ [])|by inversion Hx].
Qed.

Lemma convert_json_access_kinds x : all_kinds P x -> match x with NE e => all_kinds P (NE (JsonVisitor.convert_json_access e)) | _ => True end.
Proof.
  induction x as [x IH] using node_ind. intros Hx. destruct x as [e| |]; try done. destruct e; try done.
  apply all_kinds_unfold in Hx as [_ Hc]. inversion Hc as [|? ? Hv Hp]; subst. apply json_get_kinds; [|done]. apply (IH (NE e)); [left|done].
Qed.

Lemma json_element_rewrites : rewrites (fun k => k = KJsonAccess \/ P k) (fun e => Some (JsonVisitor.post_visit_expr e)).
Proof.
  intros e e' Hk Hc [= <-]. destruct e; try (by destruct Hk; [|apply keeps_expr]); try (destruct any, Hk; try done; by apply keeps_expr).
  inversion Hc as [|? ? Hv Hp]; subst. apply json_get_kinds; [|done]. by apply (convert_json_access_kinds (NE e)).
Qed.

End kinds.

Section soundness_theorem.
Context {M : Meaning} {ML : MeaningLaws}.

Definition no_regexp_operator (k : Kind) : Prop := match k with KRLike => False | _ => True end.
Definition no_pattern_operator (k : Kind) : Prop := match k with KRLike | KAny => False | _ => True end.

Lemma rlike_removed st st' : RLikeRegexp.visit st () = Continue (st', ()) -> all_statement_kinds no_regexp_operator st'.
Proof.
  apply (visit_rewrites no_regexp_operator I (fun k => k = KRLike \/ no_regexp_operator k) (fun e => Some (RLikeRegexp.post_visit_expr e))).
  - intros k _ [-> | ->]; done.
  - by apply rlike_rewrites.
  - unfold all_statement_kinds. apply Forall_true. intros x. unfold all_kinds, everywhere. apply Forall_true. intros y. destruct (kind y); cbn; auto.
Qed.

Lemma like_any_removed st st' : all_statement_kinds no_regexp_operator st -> LikeILikeAny.visit st () = Continue (st', ()) -> all_statement_kinds no_pattern_operator st'.
Proof.
  intros Hst. apply (visit_rewrites no_pattern_operator I (fun k => k = KAny \/ no_pattern_operator k)).
  - intros k _ [-> | ->]; done.
  - by apply like_any_rewrites.
  - eapply all_statement_kinds_impl; [|exact Hst]. intros []; cbn; auto.
Qed.

(** C9: the operators RLIKE, REGEXP and LIKE ANY are rewritten to calls of REGEXP_LIKE and to disjunctions of LIKE without a change of what the
    statement means, and none of them is left, provided LIKE ANY has at least one pattern and, where it is negated, not more. *)
Theorem operators_keep_meaning st : statement_everywhere supported st ->
  exists st1 st2, RLikeRegexp.visit st () = Continue (st1, ()) /\ LikeILikeAny.visit st1 () = Continue (st2, ()) /\
    statement_meaning st2 = statement_meaning st /\ statement_everywhere (fun x => no_pattern_operator (kind x)) st2.
Proof.
  intros Hst. destruct (visit_statement_refines (fun e => Some (RLikeRegexp.post_visit_expr e))
    (fun e He => ex_intro _ _ (conj eq_refl (rlike_hook e He))) st Hst) as (st1 & E1 & Hst1 & M1).
  destruct (visit_statement_refines _ like_any_hook st1 Hst1) as (st2 & E2 & _ & M2). exists st1, st2.
  split; [exact E1|]. split; [exact E2|]. split; [by rewrite M2|]. apply all_statement_kinds_everywhere.
  eapply like_any_removed; [|exact E2]. by eapply rlike_removed.
Qed.

End soundness_theorem.

(** ** Functions that are not implemented *)
Section unimplemented.
Import Unimplemented.
Context `{SqlText} (fs : SnowflakeFunctions).

Definition listed (x : Node) : Prop :=
  match x with NE (EFunction f) => is_Some (fs !! to_uppercase (to_uppercase (name_to_string f.(func_name)))) | _ => False end.

Lemma complaint_spec e : match complaint fs e with Some _ => listed (NE e) | None => ~ listed (NE e) end.
Proof.
  destruct e; try (by intros []). cbn. unfold is_unimplemented, check_function_exists. by case_bool_decide.
Qed.

Lemma first_break_spec l :
  match first_break (complaint fs) l with
  | None => Forall (fun x => ~ listed x) l
  | Some err => exists pre f post, l = (pre ++ NE (EFunction f) :: post)%list /\ Forall (fun x => ~ listed x) pre /\ listed (NE (EFunction f)) /\
      complaint fs (EFunction f) = Some err
  end.
Proof.
  induction l as [|x l IH]; [constructor|]. destruct (match x with NE e => complaint fs e | _ => None end) as [err|] eqn:Ex.
  - destruct x as [e|q|t]; try done. cbn [first_break]. rewrite Ex. pose proof (complaint_spec e) as He. rewrite Ex in He.
    destruct e; try done. exists [], f, l. by split_and!; [|constructor|..].
  - assert (~ listed x) as Hx by (destruct x as [e|q|t]; [pose proof (complaint_spec e) as He; by rewrite Ex in He|intros []..]).
    assert (first_break (complaint fs) (x :: l) = first_break (complaint fs) l) as -> by (destruct x as [e|q|t]; cbn; [by rewrite Ex|done..]).
    destruct (first_break (complaint fs) l) as [err|]; [|by constructor].
    destruct IH as (pre & f & post & -> & Hpre & Hf). exists (x :: pre), f, post. split; [done|]. split; [by constructor|done].
Qed.

(** C22: the check passes a statement on unchanged when none of its functions is listed as not implemented, and otherwise fails with
    the first that is, in the order of the statement, and with the page that documents it. *)
Theorem unimplemented_functions_checked st :
  match check_unimplemented_functions fs st with
  | Continue (st', _) => st' = st /\ forall f, NE (EFunction f) ∈ statement_nodes st -> fs !! to_uppercase (to_uppercase (name_to_string f.(func_name))) = None
  | Break err => exists pre f post, statement_nodes st = (pre ++ NE (EFunction f) :: post)%list /\
      (forall g, NE (EFunction g) ∈ pre -> fs !! to_uppercase (to_uppercase (name_to_string g.(func_name))) = None) /\
      let upper := to_uppercase (name_to_string f.(func_name)) in
      is_Some (fs !! to_uppercase upper) /\ err = mkUnimplemented (to_lowercase upper) (fs !! upper ≫= get_preferred_url)
  | _ => False
  end.
Proof.
  unfold check_unimplemented_functions. rewrite visit_statement_check. pose proof (first_break_spec (statement_nodes st)) as Hs.
  assert (forall l, Forall (fun x => ~ listed x) l -> forall f, NE (EFunction f) ∈ l -> fs !! to_uppercase (to_uppercase (name_to_string f.(func_name))) = None) as Hl.
  { intros l Hl f Hf. rewrite Forall_forall in Hl. apply Hl in Hf. by apply eq_None_not_Some. }
  destruct (first_break _ _) as [err|]; cbn [checked]; [|split; [done|by apply Hl]].
  destruct Hs as (pre & f & post & -> & Hpre & Hf & Ec). exists pre, f, post. split; [done|]. split; [by apply Hl|]. cbn zeta. split; [exact Hf|].
  cbn in Ec. unfold is_unimplemented, check_function_exists, get_function_info in Ec. case_bool_decide; [|done]. injection Ec as <-.
  by destruct (fs !! _).
Qed.

End unimplemented.

(** ** Queries under the hooks called before *)

Notation parts_with := (fields_option (fields_with part_query)).
Notation parts_body := (fields_set part_expr part_query part_factor).
Notation parts_clause := (fields_clause part_expr).
Notation parts_limit := (fields_option (fields_limit part_expr)).
Notation parts_fetch := (fields_option (fields_fetch part_expr)).
Notation parts_items := (fields_list (fields_item part_expr)).
Notation parts_from := (fields_list (fields_twj part_expr part_factor)).

Lemma children_query w b o l f r : children (NQ (mkQuery w b o l f r)) =
  (fst (parts_with w) ++ fst (parts_body b) ++ fst (fields_option parts_clause o) ++ fst (parts_limit l) ++ fst (parts_fetch f) ++
   fst (fields_list parts_clause r))%list.
Proof. unfold children. cbn [parts map_parts fst fields_query]. run_idiom. cbn [app]. by rewrite <- !app_assoc. Qed.

Lemma children_select s : fst (parts_body (SetSelect s)) =
  (fst (fields_option parts_clause s.(distinct)) ++ fst (fields_option (fields_top part_expr) s.(top)) ++ fst (parts_items s.(projection)) ++
   fst (fields_list parts_clause s.(into_clauses)) ++ fst (parts_from s.(from)) ++ fst (fields_list parts_clause s.(lateral_views)) ++
   fst (fields_option part_expr s.(selection)) ++ fst (fields_list parts_clause s.(grouping)) ++ fst (fields_option part_expr s.(qualify)))%list.
Proof. cbn [fields_set]. unfold fields_select. run_idiom. cbn [app]. by rewrite <- !app_assoc. Qed.

(** *** [FETCH] *)

Definition no_fetch (k : Kind) : Prop := k <> KFetch.

Definition fetch_ok (x : Node) : Prop :=
  match x with NQ q => match fetch q with Some f => is_Some f.(fetch_quantity) | None => True end | _ => True end.

Lemma node_below x y : y ∈ nodes x -> incl (nodes y) (nodes x).
Proof.
  revert y. induction x as [x IH] using node_ind. intros y. rewrite (nodes_unfold x). rewrite list_elem_of_In. intros [->|Hy]; [rewrite (nodes_unfold y); apply incl_refl|].
  apply in_flat_map in Hy as (c & Hc & Hy). rewrite <- list_elem_of_In in Hc, Hy. intros z Hz. right. apply in_flat_map. exists c.
  split; [by apply list_elem_of_In|]. by eapply IH.
Qed.

Lemma child_below x y : y ∈ children x -> y ∈ nodes x.
Proof.
  intros Hy. rewrite nodes_unfold. right. apply list_elem_of_In, in_flat_map. exists y. split; [by apply list_elem_of_In|]. rewrite nodes_unfold. by left.
Qed.

(** The query the hook leaves: the quantity is the limit, the offset is kept. *)
Lemma fetch_hook q : match FetchToLimit.pre_visit_query q () with
  | Continue (q', _) => fetch q' = None /\ incl (children (NQ q')) (children (NQ q)) /\ (size (NQ q') <= size (NQ q))%nat /\ with_ q' = with_ q /\ body q' = body q /\ order_by q' = order_by q /\
      match fetch q with
      | None => q' = q
      | Some f => exists quantity offset limit_by, f.(fetch_quantity) = Some quantity /\ limit_clause q' = Some (LimitOffset (Some quantity) offset limit_by) /\
          match limit_clause q with
          | Some (LimitOffset _ o by_) => offset = o /\ limit_by = by_
          | Some (OffsetCommaLimit o _) => offset = Some (mkOffset o "") /\ limit_by = []
          | None => offset = None /\ limit_by = []
          end
      end
  | Break e => e = FetchToLimit.no_quantity /\ ~ fetch_ok (NQ q)
  | _ => False
  end.
Proof.
  destruct q as [w b o l [[ties percent [n|]]|] r]; cbn -[children size].
  - destruct l as [[li off by_|off li]|]; cbn -[children size]; (split; [done|]; split; [|split; [|naive_solver]]);
      rewrite ?size_children, !children_query, ?total_app; cbn; rewrite ?app_nil_r, ?total_app; try lia;
      intros x; rewrite ?in_app_iff; cbn; rewrite ?in_app_iff; tauto.
  - split; [done|]. by intros [].
  - split; [done|]. split; [apply incl_refl|]. done.
Qed.

Definition fetched (x : Node) (r : flow string (Node * unit)) : Prop :=
  match r with
  | Continue (y, _) => sort y = sort x /\ all_kinds no_fetch y
  | Break e => e = FetchToLimit.no_quantity /\ exists z, z ∈ nodes x /\ ~ fetch_ok z
  | _ => False
  end.

Lemma each_fetched (g : Node -> V unit string Node) l : (forall x, x ∈ l -> fetched x (g x ())) ->
  match each g l () with
  | Continue (k, _) => map sort k = map sort l /\ Forall (all_kinds no_fetch) k
  | Break e => e = FetchToLimit.no_quantity /\ exists x z, x ∈ l /\ z ∈ nodes x /\ ~ fetch_ok z
  | _ => False
  end.
Proof.
  induction l as [|x l IH]; intros Hg; [by repeat constructor|]. cbn [each]. unfold vbind.
  pose proof (Hg x ltac:(left)) as Hx. destruct (g x ()) as [[y []]|e| |]; try done.
  - specialize (IH ltac:(intros; apply Hg; by right)). destruct (each g l ()) as [[k []]|e| |]; cbn in *; try done.
    + destruct Hx as [-> Hy], IH as [-> Hk]. split; [done|]. by constructor.
    + destruct IH as [-> (x' & z & H1 & H2)]. split; [done|]. exists x', z. split; [by right|done].
  - destruct Hx as [-> (z & H1 & H2)]. split; [done|]. exists x, z. split; [by left|done].
Qed.

Lemma visit_fetch n x : (size x <= n)%nat -> fetched x (visit (on_query FetchToLimit.pre_visit_query) n x ()).
Proof.
  revert x. induction n as [|n IH]; intros x Hx; [rewrite size_children in Hx; lia|]. cbn [visit].
  set (v := on_query FetchToLimit.pre_visit_query) in *.
  assert (match before v x () with
          | Continue (x1, _) => sort x1 = sort x /\ incl (children x1) (children x) /\ kind x1 <> KFetch /\ (size x1 <= size x)%nat
          | Break e => e = FetchToLimit.no_quantity /\ ~ fetch_ok x | _ => False end) as Hb.
  { destruct x as [e|q|t]; cbn -[children size].
    - split; [done|]. split; [apply incl_refl|]. split; [destruct e; try done; by destruct any|done].
    - pose proof (fetch_hook q) as Hq. unfold vbind. destruct (FetchToLimit.pre_visit_query q ()) as [[q' []]|e| |]; try done.
      destruct Hq as (Hf & Hi & Hs & _). split; [done|]. split; [done|]. split; [|done]. by destruct q' as [? ? ? ? [f|] ?].
    - split; [done|]. by split; [apply incl_refl|]. }
  unfold vbind at 1. destruct (before v x ()) as [[x1 []]|e| |]; try done.
  - destruct Hb as (Es & Hi & Hk & Hs). pose proof (each_fetched (visit v n) (children x1)) as He. unfold vbind.
    specialize (He ltac:(intros y Hy%size_child; apply IH; lia)). destruct (each _ _ ()) as [[k []]|e| |]; try done.
    + destruct He as [Hsk Hk2]. assert (after v (rebuild x1 k) () = Continue (rebuild x1 k, ())) as -> by (by destruct (rebuild x1 k)).
      split; [by rewrite sort_rebuild|]. by apply all_kinds_rebuild.
    + destruct He as [-> (y & z & Hy & Hz & Hn)]. split; [done|]. exists z. split; [|done]. apply list_elem_of_In.
      apply (node_below x y); [|by apply list_elem_of_In]. apply child_below, list_elem_of_In, Hi. by apply list_elem_of_In.
  - destruct Hb as [-> Hn]. split; [done|]. exists x. split; [|done]. rewrite nodes_unfold. by left.
Qed.

(** A FETCH clause becomes a LIMIT wherever a query has one: where the visit comes by a FETCH with a quantity, that is the limit of the
    query, and the offset is kept; the visit ends, and either no query of the statement has a FETCH left, or it fails because one
    of them has a FETCH without a quantity. *)
Theorem fetch_to_limit_correct st :
  (forall w b o l r ties percent n, exists offset limit_by,
     FetchToLimit.pre_visit_query (mkQuery w b o l (Some (mkFetch ties percent (Some n))) r) () =
       Continue (mkQuery w b o (Some (LimitOffset (Some n) offset limit_by)) None r, ()) /\
     match l with
     | Some (LimitOffset _ off by_) => offset = off /\ limit_by = by_
     | Some (OffsetCommaLimit off _) => offset = Some (mkOffset off "") /\ limit_by = []
     | None => offset = None /\ limit_by = []
     end) /\
  match FetchToLimit.visit st with
  | Continue (st', _) => statement_everywhere (fun x => kind x <> KFetch) st'
  | Break e => e = FetchToLimit.no_quantity /\ exists q f, NQ q ∈ statement_nodes st /\ fetch q = Some f /\ f.(fetch_quantity) = None
  | _ => False
  end.
Proof.
  split.
  { intros w b o l r ties percent n. unfold FetchToLimit.pre_visit_query. cbn. destruct l as [[li off by_|off li]|]; cbn; by eexists _, _. }
  unfold FetchToLimit.visit, visit_statement, visit_statement_with. set (v := on_query FetchToLimit.pre_visit_query).
  pose proof (each_fetched (fun x => visit v (size x) x) (statement_children st) ltac:(intros; by apply visit_fetch)) as He. unfold vbind. cbn -[size visit].
  destruct (each _ _ ()) as [[k []]|e| |]; try done.
  - destruct He as [Hs Hk]. cbn. apply statement_everywhere_unfold. by rewrite children_rebuild_statement.
  - destruct He as [-> (x & z & Hx & Hz & Hn)]. split; [done|]. destruct z as [e|q|t]; try (by destruct Hn).
    unfold fetch_ok in Hn. destruct (fetch q) as [f|] eqn:Ef; [|by destruct Hn]. exists q, f. split; [|split; [done|by apply eq_None_not_Some]].
    apply list_elem_of_In, in_flat_map. exists x. by rewrite <- !list_elem_of_In.
Qed.

(** *** Aliases of repeated expressions *)
Section aliases.
Import SelectExprAliases.
Context `{SqlText}.

Definition item_expr (i : SelectItem Expr) : option Expr :=
  match i with UnnamedExpr e | ExprWithAlias e _ => Some e | OtherItem _ => None end.
Definition unnamed_text (i : SelectItem Expr) : option string := match i with UnnamedExpr e => Some (expr_to_string e) | _ => None end.

(** The name an item is known by: the text of an expression without alias, the alias of one with. *)
Definition item_name (i : SelectItem Expr) : option string :=
  match i with UnnamedExpr e => Some (expr_to_string e) | ExprWithAlias _ a => Some a.(ident_value) | OtherItem _ => None end.

Inductive aliased : nat -> list (SelectItem Expr) -> list (SelectItem Expr) -> Prop :=
| aliased_nil n : aliased n [] []
| aliased_same n i l k : aliased n l k -> aliased n (i :: l) (i :: k)
| aliased_new n e l k : aliased (S n) l k -> aliased n (UnnamedExpr e :: l) (ExprWithAlias e (new_ident ("expr_" ++ pretty n)) :: k).

Lemma add_aliases_aliased seen n items : aliased n items (add_aliases seen n items).
Proof. revert seen n. induction items as [|[e|e a|c] items IH]; intros seen n; cbn [add_aliases]; [|case_bool_decide|..]; by constructor. Qed.

Lemma add_aliases_fresh seen n items t : t ∈ omap unnamed_text (add_aliases seen n items) -> t ∉ seen.
Proof.
  revert seen n. induction items as [|[e|e a|c] items IH]; intros seen n; cbn [add_aliases]; [by intros ?%not_elem_of_nil| | |].
  - case_bool_decide as Hin; cbn; [apply IH|]. rewrite elem_of_cons. intros [->|Ht%IH]; [done|set_solver].
  - cbn. intros Ht%IH. set_solver.
  - apply IH.
Qed.

Lemma add_aliases_NoDup seen n items : NoDup (omap unnamed_text (add_aliases seen n items)).
Proof.
  revert seen n. induction items as [|[e|e a|c] items IH]; intros seen n; cbn [add_aliases]; [constructor| |apply IH|apply IH].
  case_bool_decide as Hin; cbn; [apply IH|]. constructor; [|apply IH]. intros Ht%add_aliases_fresh. set_solver.
Qed.

(** After the hook no expression without alias has the text of another, and none the alias of an item before it; items change only by
    getting an alias [expr_n], numbered in their order. *)
Theorem select_aliases_correct q s : body q = SetSelect s ->
  exists s', body (pre_visit_query q) = SetSelect s' /\ aliased 0 s.(projection) s'.(projection) /\ NoDup (omap unnamed_text s'.(projection)) /\
    s'.(from) = s.(from) /\ s'.(selection) = s.(selection) /\ s'.(qualify) = s.(qualify).
Proof.
  intros E. unfold pre_visit_query, on_select. rewrite E. exists (with_projection s (add_aliases ∅ 0 s.(projection))).
  split; [by destruct q|]. split; [apply add_aliases_aliased|]. split; [apply add_aliases_NoDup|done].
Qed.

Lemma add_aliases_parts seen n items : fst (parts_items (add_aliases seen n items)) = fst (parts_items items).
Proof.
  rewrite !parts_of_list. revert seen n. induction items as [|[e|e a|c] items IH]; intros seen n; cbn [add_aliases]; [done|case_bool_decide|..];
    cbn [flat_map]; by rewrite IH.
Qed.

Lemma aliases_children q : children (NQ (pre_visit_query q)) = children (NQ q).
Proof.
  destruct q as [w [s|sq|op k lhs rhs|c] o l f r']; try done. unfold pre_visit_query, on_select. cbn [body with_body]. rewrite !children_query, !children_select.
  cbn [with_projection distinct top projection into_clauses from lateral_views selection grouping qualify]. by rewrite add_aliases_parts.
Qed.

Lemma aliases_kind q : kind (NQ (pre_visit_query q)) = kind (NQ q).
Proof. by destruct q as [w [s|sq|op k lhs rhs|c] o l f r']. Qed.

End aliases.

(** *** What the hooks called before keep *)
Section keep.
Context (P : Kind -> Prop) (HO : P KOther).

Lemma on_query_keeps {B} (f : Query -> V unit B Query) st st' :
  (forall q q', all_kinds P (NQ q) -> f q () = Continue (q', ()) -> all_kinds P (NQ q')) ->
  all_statement_kinds P st -> visit_statement (on_query f) st () = Continue (st', ()) -> all_statement_kinds P st'.
Proof.
  intros Hf Hst E. eapply (visit_statement_keeps (on_query f) (fun x => P (kind x)) (kind_local P) (fun _ => True)); [..|exact E]; try done.
  - intros [e|q|t] [] y [] _ Hx; cbn; try (by intros [= <-]). intros (q' & [] & E' & [= <-])%vbind_Continue. split; [done|]. by eapply Hf.
  - intros [e|q|t] [] y [] _ Hx; by intros [= <-].
  - by intros x [] y [] _ Hx [= <-].
  - by intros x [] y [] _ Hx [= <-].
Qed.

Lemma aliases_keep `{SqlText} st st' : all_statement_kinds P st -> SelectExprAliases.visit st () = Continue (st', ()) -> all_statement_kinds P st'.
Proof.
  apply on_query_keeps. intros q q' Hq [= <-]. apply all_kinds_unfold in Hq. apply all_kinds_unfold. by rewrite aliases_kind, aliases_children.
Qed.

Lemma fetch_keep st st' : all_statement_kinds P st -> FetchToLimit.visit st = Continue (st', ()) -> all_statement_kinds P st'.
Proof.
  apply on_query_keeps. intros q q' Hq E. pose proof (fetch_hook q) as Hh. rewrite E in Hh. destruct Hh as (Hf & Hi & _).
  apply all_kinds_unfold in Hq as [_ Hc]. apply all_kinds_unfold. split; [by destruct q' as [? ? ? ? [f|] ?]|].
  rewrite Forall_forall in Hc |- *. intros x Hx%list_elem_of_In%Hi. by apply Hc, list_elem_of_In.
Qed.

Lemma kind_no_fetch q : fetch q = None -> kind (NQ q) = KOther.
Proof. by destruct q as [? ? ? ? [f|] ?]. Qed.

Lemma relation_function_keeps `{SqlText} t : all_kinds P (NF t) -> all_kinds P (NF (TableFunctions.relation_function t)).
Proof.
  destruct t as [| |[]| | |]; try done. cbn [TableFunctions.relation_function]. destruct (func_args f) as [|q|d l c] eqn:Ea; try done. case_match; [|done].
  intros Ht. apply all_kinds_unfold in Ht as [_ Ht]. inversion Ht as [|? ? Hf _]; subst. apply all_kinds_unfold in Hf as [_ Hf].
  rewrite children_function, Ea, !Forall_app in Hf. destruct Hf as (_ & Hf & _). cbn [fields_args] in Hf. revert Hf. run_idiom. rewrite !Forall_app.
  intros [[_ Hf] _]. apply all_kinds_unfold. split; [done|]. unfold children. cbn [parts map_parts fst fields_factor]. run_idiom. exact Hf.
Qed.

Lemma from_keeps (g : From -> From) l : (forall t, Forall (all_kinds P) (fst (fields_twj part_expr part_factor t)) -> Forall (all_kinds P) (fst (fields_twj part_expr part_factor (g t)))) ->
  Forall (all_kinds P) (fst (parts_from l)) -> Forall (all_kinds P) (fst (parts_from (map g l))).
Proof. intros Hg. rewrite !parts_of_list, !Forall_flat_map, Forall_map. intros Hl. by eapply Forall_impl. Qed.

Lemma table_functions_keep `{SqlText} st st' : all_statement_kinds P st -> TableFunctions.visit st () = Continue (st', ()) -> all_statement_kinds P st'.
Proof.
  apply on_query_keeps. intros q q' Hq [= <-]. destruct q as [w [s|sq|op k lhs rhs|c] o l f r']; try done.
  unfold TableFunctions.pre_visit_query, on_select. cbn [body with_body]. apply all_kinds_unfold in Hq as [Hk Hc]. apply all_kinds_unfold. split; [done|].
  revert Hc. rewrite !children_query, !children_select. cbn [with_from distinct top projection into_clauses from lateral_views selection grouping qualify].
  rewrite !Forall_app. intros (? & (? & ? & ? & ? & Hf & ? & ? & ? & ?) & ? & ? & ? & ?). split_and!; try done.
  apply from_keeps; [|done]. intros [t js]. unfold fields_twj. cbn [relation joins]. run_idiom. rewrite !Forall_app. intros [[? Ht] ?]. split; [split; [done|]|done].
  cbn in Ht |- *. inversion Ht; subst. constructor; [by apply relation_function_keeps|constructor].
Qed.

End keep.

(** *** [TOP] *)
Section top.
Import TopLimit.

Section keep.
Context (P : Kind -> Prop) (HO : P KOther).
Notation ok l := (Forall (all_kinds P) l).

Lemma quantity_keeps q : ok (fst (fields_quantity part_expr q)) -> all_kinds P (NE (quantity_expr q)).
Proof. destruct q; cbn; intros Hq; [by inversion Hq|]. by apply (all_kinds_leaf P _ []). Qed.

Lemma take_top_keeps s l s' l' : ok (fst (parts_body (SetSelect s))) -> ok (fst (parts_limit l)) -> take_top s l = Some (s', l') ->
  ok (fst (parts_body (SetSelect s'))) /\ ok (fst (parts_limit l')).
Proof.
  intros Hs Hl. unfold take_top. destruct (top s) as [t|] eqn:Et; [|by intros [= <- <-]]. case_match; [|by intros [= <- <-]].
  assert (match ensure_limit_clause l with Some (_, put) => forall o, ok (fst (fields_option part_expr o)) -> ok (fst (parts_limit (Some (put o)))) | None => True end) as Hput.
  { destruct l as [[li off by_|]|]; cbn [ensure_limit_clause]; try done; intros o Ho; cbn in Hl |- *; rewrite ?app_nil_r in *; rewrite ?Forall_app in *; [|done].
    destruct Hl as [[_ H2] H3]. by split_and!. }
  destruct (ensure_limit_clause l) as [[[li|] put]|] eqn:El; try done.
  - intros [= <- <-]. split; [done|]. apply Hput. destruct l as [[[li'|] off by_|]|]; try done. injection El as -> _. cbn in Hl |- *. by inversion Hl; constructor.
  - destruct (top_quantity t) as [q|] eqn:Eq; intros [= <- <-]; [|split; [done|by apply Hput]].
    rewrite children_select, Et, !Forall_app in Hs. destruct Hs as (H1 & Ht & H3). split.
    + rewrite children_select, !Forall_app. cbn [with_top distinct top projection into_clauses from lateral_views selection grouping qualify].
      destruct H3 as (? & ? & ? & ? & ? & ? & ?). by split_and!.
    + apply Hput. constructor; [|constructor]. apply quantity_keeps. cbn in Ht. unfold fields_top in Ht. by rewrite Eq in Ht.
Qed.

Lemma process_list_Forall2 {A} (f : A -> option A) l l' : process_list f l = Some l' -> Forall2 (fun x y => f x = Some y) l l'.
Proof.
  revert l'. induction l as [|x l IH]; intros l'; cbn [process_list]; [intros [= <-]; constructor|].
  destruct (f x) eqn:Ex; [|done]. destruct (process_list f l) eqn:El; [|done]. intros [= <-]. constructor; [done|by apply IH].
Qed.

Section query.
Context (n : nat) (pq : Query -> option Query).
Hypothesis Hpq : forall q q', (size (NQ q) <= n)%nat -> all_kinds P (NQ q) -> pq q = Some q' -> all_kinds P (NQ q').

Lemma process_relation_keeps t t' : (total (fst (fields_twj part_expr part_factor t)) <= n)%nat -> ok (fst (fields_twj part_expr part_factor t)) ->
  process_relation pq t = Some t' -> ok (fst (fields_twj part_expr part_factor t')).
Proof.
  destruct t as [[| lateral q alias sample| | | |] js]; try (by intros _ H [= <-]). unfold fields_twj. cbn [relation joins]. run_idiom. cbn [app part_factor fst].
  cbn [process_relation]. intros Hn Ht. inversion Ht as [|? ? Hd Hjs]; subst. destruct (pq q) as [q'|] eqn:Eq; [|done]. intros [= <-]. cbn [relation joins app part_factor fst].
  constructor; [|done]. apply all_kinds_unfold in Hd as [_ Hd]. inversion Hd as [|? ? Hq _]; subst. apply all_kinds_unfold. split; [done|].
  constructor; [|constructor]. eapply Hpq; [|exact Hq|exact Eq]. pose proof (size_child (NF (Derived lateral q alias sample)) (NQ q) ltac:(left)) as Hs.
  rewrite total_cons in Hn. lia.
Qed.

Lemma from_list_keeps l l' : (total (fst (parts_from l)) <= n)%nat -> ok (fst (parts_from l)) -> process_list (process_relation pq) l = Some l' -> ok (fst (parts_from l')).
Proof.
  rewrite !parts_of_list. intros Hn Hl E%process_list_Forall2. induction E as [|x y l l' Exy _ IH]; [done|]. cbn [flat_map] in *.
  rewrite total_app in Hn. rewrite Forall_app in *. split; [eapply process_relation_keeps; [|apply Hl|exact Exy]; lia|]. apply IH; [lia|apply Hl].
Qed.

Lemma process_set_keeps b outer b' outer' : (total (fst (parts_body b)) <= n)%nat -> ok (fst (parts_body b)) -> ok (fst (parts_limit outer)) ->
  process_set_expr pq b outer = Some (b', outer') -> ok (fst (parts_body b')) /\ ok (fst (parts_limit outer')).
Proof.
  revert outer b' outer'. induction b as [s|q|op k b1 IH1 b2 IH2|c]; intros outer b' outer' Hn Hb Ho; cbn [process_set_expr].
  - destruct (process_list _ (from s)) as [f|] eqn:Ef; [|done]. destruct (take_top _ outer) as [[s' l']|] eqn:Et; [|done]. intros [= <- <-].
    eapply take_top_keeps; [|exact Ho|exact Et]. revert Hn Hb. rewrite !children_select, !total_app, !Forall_app.
    cbn [with_from distinct top projection into_clauses from lateral_views selection grouping qualify].
    intros Hn (? & ? & ? & ? & Hf & ? & ? & ? & ?). split_and!; try done. eapply from_list_keeps; [|exact Hf|exact Ef]. lia.
  - destruct (pq q) as [q'|] eqn:Eq; [|done]. intros [= <- <-]. split; [|done]. inversion Hb as [|? ? Hq _]; subst. cbn. constructor; [|constructor].
    eapply Hpq; [|exact Hq|exact Eq]. cbn [fields_set] in Hn. revert Hn. run_idiom. cbn [app part_query fst]. rewrite total_cons. lia.
  - cbn [fields_set] in Hn, Hb. revert Hn Hb. run_idiom. cbn [app]. rewrite total_app, Forall_app. intros Hn [Hb1 Hb2].
    destruct (process_set_expr pq b1 outer) as [[b1' o1]|] eqn:E1; [|done]. destruct (IH1 outer b1' o1 ltac:(lia) Hb1 Ho E1) as [H1 Ho1].
    destruct (process_set_expr pq b2 o1) as [[b2' o2]|] eqn:E2; [|done]. destruct (IH2 o1 b2' o2 ltac:(lia) Hb2 Ho1 E2) as [H2 Ho2].
    intros [= <- <-]. cbn [fields_set]. run_idiom. cbn [app]. by rewrite Forall_app.
  - by intros [= <- <-].
Qed.

Lemma process_with_keeps w w' : (total (fst (parts_with w)) <= n)%nat -> ok (fst (parts_with w)) -> process_with pq w = Some w' -> ok (fst (parts_with w')).
Proof.
  destruct w as [[rec ctes]|]; cbn [process_with cte_tables recursive]; [|by intros _ _ [= <-]].
  destruct (process_list _ ctes) as [l'|] eqn:El; [|done]. intros Hn Hw [= <-]. unfold fields_option, fields_with in *. cbn [recursive cte_tables] in *. revert Hn Hw. run_idiom.
  cbn [app]. rewrite !parts_of_list. apply process_list_Forall2 in El. induction El as [|[a q] y l l' Exy _ IH]; [done|]. cbn [flat_map] in *.
  rewrite total_app, !Forall_app. intros Hn [Hx Hl]. split; [|apply IH; [lia|done]]. unfold process_cte in Exy. cbn [cte_query cte_alias] in Exy.
  destruct (pq q) as [q'|] eqn:Eq; [|done]. injection Exy as <-. cbn in Hx |- *. inversion Hx as [|? ? Hq _]; subst. constructor; [|constructor].
  eapply Hpq; [|exact Hq|exact Eq]. unfold fields_cte in Hn. revert Hn. cbn [cte_query cte_alias]. run_idiom. cbn [app part_query fst]. rewrite total_cons. lia.
Qed.

End query.

Lemma process_query_keeps q q' : all_kinds P (NQ q) -> process_query q = Some q' -> all_kinds P (NQ q').
Proof.
  remember (size (NQ q)) as n eqn:En. revert q q' En. induction (lt_wf n) as [n _ IH]. intros [w b o l f r] q' -> Hq. cbn [process_query].
  pose proof (size_children (NQ (mkQuery w b o l f r))) as Hsz. rewrite children_query, !total_app in Hsz.
  set (k := (size (NQ (mkQuery w b o l f r)) - 1)%nat).
  assert (forall q q', (size (NQ q) <= k)%nat -> all_kinds P (NQ q) -> process_query q = Some q' -> all_kinds P (NQ q')) as Hpq.
  { intros q0 q0' Hk. eapply IH; [|done]. subst k. lia. }
  apply all_kinds_unfold in Hq as [Hk Hc]. rewrite children_query, !Forall_app in Hc. destruct Hc as (Hw & Hb & Ho & Hl & Hf & Hr).
  destruct (process_with process_query w) as [w'|] eqn:Ew; [|done].
  destruct (process_set_expr process_query b l) as [[b' l']|] eqn:Eb; [|done]. intros [= <-].
  destruct (process_set_keeps k process_query Hpq b l b' l' ltac:(subst k; lia) Hb Hl Eb) as [Hb' Hl'].
  apply all_kinds_unfold. split; [done|]. rewrite children_query, !Forall_app. split_and!; try done.
  eapply (process_with_keeps k process_query Hpq); [|exact Hw|exact Ew]. subst k. lia.
Qed.

Lemma top_limit_keep st st' : all_statement_kinds P st -> visit st () = Continue (st', ()) -> all_statement_kinds P st'.
Proof.
  intros Hst E. eapply (visit_statement_keeps (on_statement pre_visit_statement) (fun x => P (kind x)) (kind_local P) (fun _ => True)); [..|exact E]; try done.
  - intros [e|q|t] [] y [] _ Hx; by intros [= <-].
  - intros [e|q|t] [] y [] _ Hx; by intros [= <-].
  - intros [q| | |] [] y [] _ Hx; try (by intros [= <-]). cbn. destruct (process_query q) as [q'|] eqn:Eq; [|done]. intros [= <-]. split; [done|].
    inversion Hx as [|? ? Hq _]; subst. constructor; [by eapply process_query_keeps|constructor].
  - by intros x [] y [] _ Hx [= <-].
Qed.

End keep.
(** Without the form [LIMIT offset, limit], which the code does not expect, the visit does not panic. *)
Definition comma_free (x : Node) : Prop :=
  match x with NQ q => match limit_clause q with Some (OffsetCommaLimit _ _) => False | _ => True end | _ => True end.
Definition limit_offset (l : option (LimitClause Expr)) : Prop := match l with Some (OffsetCommaLimit _ _) => False | _ => True end.

Lemma take_top_total s l : limit_offset l -> exists s' l', take_top s l = Some (s', l') /\ limit_offset l'.
Proof.
  intros Hl. unfold take_top. destruct (top s) as [t|]; [|by eexists _, _]. case_match; [|by eexists _, _].
  destruct l as [[[li|] off by_|]|]; cbn [ensure_limit_clause]; try done; [by eexists _, _|destruct (top_quantity t); by eexists _, _..].
Qed.

Lemma process_list_total {A} (f : A -> option A) l : (forall x, x ∈ l -> is_Some (f x)) -> is_Some (process_list f l).
Proof.
  induction l as [|x l IH]; intros Hf; [by eexists|]. destruct (Hf x ltac:(left)) as [y Ey]. destruct IH as [k Ek]; [intros; apply Hf; by right|].
  cbn. rewrite Ey, Ek. by eexists.
Qed.

Section total.
Context (n : nat) (pq : Query -> option Query).
Hypothesis Hpq : forall q, (size (NQ q) <= n)%nat -> everywhere comma_free (NQ q) -> is_Some (pq q).

Lemma process_relation_total t : (total (fst (fields_twj part_expr part_factor t)) <= n)%nat ->
  Forall (everywhere comma_free) (fst (fields_twj part_expr part_factor t)) -> is_Some (process_relation pq t).
Proof.
  destruct t as [[| lateral q alias sample| | | |] js]; try (by intros; eexists). unfold fields_twj. cbn [relation joins]. run_idiom. cbn [app part_factor fst].
  rewrite total_cons. cbn [process_relation]. intros Hn Ht. inversion Ht as [|? ? Hd _]; subst. apply everywhere_unfold in Hd as [_ Hd]. inversion Hd as [|? ? Hq _]; subst.
  pose proof (size_child (NF (Derived lateral q alias sample)) (NQ q) ltac:(left)) as Hs. destruct (Hpq q ltac:(lia) Hq) as [q' ->]. by eexists.
Qed.

Lemma process_set_total b outer : (total (fst (parts_body b)) <= n)%nat -> Forall (everywhere comma_free) (fst (parts_body b)) -> limit_offset outer ->
  exists b' outer', process_set_expr pq b outer = Some (b', outer') /\ limit_offset outer'.
Proof.
  revert outer. induction b as [s|q|op k b1 IH1 b2 IH2|c]; intros outer Hn Hb Ho; cbn [process_set_expr].
  - revert Hn Hb. rewrite children_select, !total_app, !Forall_app. intros Hn (_ & _ & _ & _ & Hf & _). rewrite parts_of_list in *.
    destruct (process_list_total (process_relation pq) (from s)) as [f ->].
    { intros t Ht. apply process_relation_total; [|rewrite Forall_flat_map, Forall_forall in Hf; by apply Hf].
      apply list_elem_of_In, in_split in Ht as (l1 & l2 & E). rewrite E, flat_map_app in Hn. cbn [flat_map] in Hn. rewrite !total_app in Hn. lia. }
    destruct (take_top_total (with_from s f) outer Ho) as (s' & l' & -> & Hl). by eexists _, _.
  - cbn [fields_set] in Hn, Hb. revert Hn Hb. run_idiom. cbn [app part_query fst]. rewrite total_cons. intros Hn Hb. inversion Hb; subst.
    destruct (Hpq q) as [q' ->]; [lia|done|]. by eexists _, _.
  - cbn [fields_set] in Hn, Hb. revert Hn Hb. run_idiom. cbn [app]. rewrite total_app, Forall_app. intros Hn [Hb1 Hb2].
    destruct (IH1 outer ltac:(lia) Hb1 Ho) as (b1' & o1 & -> & Ho1). destruct (IH2 o1 ltac:(lia) Hb2 Ho1) as (b2' & o2 & -> & Ho2). by eexists _, _.
  - by eexists _, _.
Qed.

Lemma process_with_total w : (total (fst (parts_with w)) <= n)%nat -> Forall (everywhere comma_free) (fst (parts_with w)) -> is_Some (process_with pq w).
Proof.
  destruct w as [[rec ctes]|]; [|by eexists]. unfold fields_option, fields_with. cbn [recursive cte_tables process_with]. run_idiom. cbn [app]. rewrite parts_of_list.
  intros Hn Hw. destruct (process_list_total (process_cte pq) ctes) as [l ->]; [|by eexists].
  intros [a q] Hq. rewrite Forall_flat_map, Forall_forall in Hw. apply Hw in Hq as Hc. cbn in Hc. inversion Hc; subst.
  apply list_elem_of_In, in_split in Hq as (l1 & l2 & ->). rewrite flat_map_app in Hn. cbn [flat_map] in Hn. rewrite !total_app in Hn.
  unfold process_cte. cbn [cte_query]. destruct (Hpq q) as [q' ->]; [|done|by eexists].
  unfold fields_cte in Hn. revert Hn. cbn [cte_query]. run_idiom. cbn [app part_query fst]. rewrite total_cons. lia.
Qed.

End total.

Lemma process_query_total q : everywhere comma_free (NQ q) -> is_Some (process_query q).
Proof.
  remember (size (NQ q)) as n eqn:En. revert q En. induction (lt_wf n) as [n _ IH]. intros [w b o l f r] -> Hq. cbn [process_query].
  pose proof (size_children (NQ (mkQuery w b o l f r))) as Hsz. rewrite children_query, !total_app in Hsz.
  set (k := (size (NQ (mkQuery w b o l f r)) - 1)%nat).
  assert (forall q, (size (NQ q) <= k)%nat -> everywhere comma_free (NQ q) -> is_Some (process_query q)) as Hpq.
  { intros q0 Hk. eapply IH; [|done]. subst k. lia. }
  apply everywhere_unfold in Hq as [Hk Hc]. rewrite children_query, !Forall_app in Hc. destruct Hc as (Hw & Hb & _).
  destruct (process_with_total k process_query Hpq w ltac:(subst k; lia) Hw) as [w' ->].
  destruct (process_set_total k process_query Hpq b l ltac:(subst k; lia) Hb Hk) as (b' & l' & -> & _). by eexists.
Qed.

(** How many rows a SELECT is asked for: its limit, or else its TOP. *)
Definition limit_of (l : option (LimitClause Expr)) : option Expr :=
  match l with Some (LimitOffset limit _ _) => limit | Some (OffsetCommaLimit _ limit) => Some limit | None => None end.
Definition plain_top (s : Select) : option Expr :=
  match s.(top) with Some (mkTop false false (Some q)) => Some (quantity_expr q) | _ => None end.
Definition asked (s : Select) (l : option (LimitClause Expr)) : option Expr := match limit_of l with Some e => Some e | None => plain_top s end.

Lemma take_top_asked s l s' l' : take_top s l = Some (s', l') ->
  asked s' l' = asked s l /\ (limit_of l' = None -> plain_top s' = None) /\ with_top s' None = with_top s None.
Proof.
  unfold take_top, asked, plain_top. destruct (top s) as [[ties percent q]|] eqn:Et; [|intros [= <- <-]; by rewrite Et].
  cbn [top_percent top_with_ties top_quantity]. destruct percent, ties; cbn [negb andb]; try (intros [= <- <-]; rewrite Et; by destruct (limit_of l)).
  destruct l as [[[li|] off by_|off li]|]; cbn [ensure_limit_clause]; try done;
    [intros [= <- <-]; cbn; by rewrite Et|destruct q as [q|]; intros [= <- <-]; cbn; rewrite ?Et; done..].
Qed.

(** A query whose body is a SELECT: the visit does not panic, the rows asked for are the same, and after it only a limit asks for them. *)
Theorem top_limit_correct w s o l f r : everywhere comma_free (NQ (mkQuery w (SetSelect s) o l f r)) ->
  exists w' s' l', process_query (mkQuery w (SetSelect s) o l f r) = Some (mkQuery w' (SetSelect s') o l' f r) /\
    asked s' l' = asked s l /\ (limit_of l' = None -> plain_top s' = None) /\ s'.(projection) = s.(projection) /\ s'.(selection) = s.(selection).
Proof.
  intros Hq. destruct (process_query_total _ Hq) as [q' E]. rewrite E. cbn [process_query] in E. destruct (process_with process_query w) as [w'|]; [|done].
  cbn [process_set_expr] in E. destruct (process_list _ (from s)) as [fr|]; [|done]. destruct (take_top (with_from s fr) l) as [[s' l']|] eqn:Et; [|done].
  injection E as <-. destruct (take_top_asked _ _ _ _ Et) as (H1 & H2 & H3). exists w', s', l'. split; [done|]. split; [done|]. split; [done|].
  unfold with_top in H3. cbn in H3. split; congruence.
Qed.

End top.

(** ** Examples

    A meaning of the operators on texts: patterns match by equality. *)
Module SmallMeaning.

Inductive Sem := STruth (b : bool) | SText (s : string) | STuple (l : list Sem) | SNested (a : Sem) | SNode (l : list Sem).

Definition s_not (a : Sem) : Sem := match a with STruth b => STruth (negb b) | a => SNode [a] end.
Definition s_or (a b : Sem) : Sem := match a, b with STruth x, STruth y => STruth (x || y) | a, b => SNode [a; b] end.
Definition s_match (f : string -> string) (a b : Sem) : Sem := match a, b with SText x, SText y => STruth (String.eqb (f x) (f y)) | a, b => SNode [a; b] end.
Definition s_like (i : bool) : Sem -> Sem -> Sem := s_match (if i then to_ascii_lowercase else fun s => s).
Fixpoint s_any_of (d : Sem) (l : list Sem) : Sem := match l with [] => d | d' :: l => s_or d (s_any_of d' l) end.
Definition s_any (i : bool) (a b : Sem) : Sem :=
  match b with
  | STuple (p :: ps) => s_any_of (s_like i a p) (map (s_like i a) ps)
  | SNested p => s_like i a p
  | b => SNode [a; b]
  end.
Definition s_negate (negated : bool) (a : Sem) : Sem := if negated then s_not a else a.

Definition interp (x : Node) (l : list Sem) : Sem :=
  match x, l with
  | NE (EValue (SingleQuotedString s)), _ => SText s
  | NE (RLike negated _ _ _), [a; b] => s_negate negated (s_match (fun s => s) a b)
  | NE (EFunction f), [a; b] => if VariantVisitors.last_ident_is f.(func_name) "regexp_like" then s_match (fun s => s) a b else SNode l
  | NE (Like negated any _ _ _), [a; b] => s_negate negated (if any then s_any false a b else s_like false a b)
  | NE (ILike negated any _ _ _), [a; b] => s_negate negated (if any then s_any true a b else s_like true a b)
  | NE (UnaryOp Not _), [a] => s_not a
  | NE (BinaryOp _ Or _), [a; b] => s_or a b
  | NE (ETuple _), l => STuple l
  | NE (Nested _), [a] => SNested a
  | _, l => SNode l
  end.

Fixpoint sem (fuel : nat) (x : Node) : Sem :=
  match fuel with O => SNode [] | S fuel => interp x (map (sem fuel) (children x)) end.

#[export] Instance small_meaning : Meaning := {|
  meaning x := sem (size x) x;
  statement_meaning st := SNode (map (fun x => sem (size x) x) (statement_children st));
  d_not := s_not;
  d_or := s_or;
  d_regexp_like := s_match (fun s => s);
  d_like i _ := s_like i |}.

Lemma sem_fuel n k x : (size x <= n)%nat -> (size x <= k)%nat -> sem n x = sem k x.
Proof.
  revert k x. induction n as [|n IH]; intros [|k] x Hn Hk; try (rewrite size_children in *; lia).
  cbn [sem]. f_equal. apply map_ext_in. intros y Hy%list_elem_of_In%size_child. apply IH; lia.
Qed.

Lemma meaning_unfold x : meaning x = interp x (map meaning (children x)).
Proof.
  cbn. rewrite size_children at 1. cbn [sem]. f_equal. apply map_ext_in. intros y Hy%list_elem_of_In%total_elem. by apply sem_fuel.
Qed.

Lemma interp_rebuild x l k : map sort l = map sort (children x) -> interp (rebuild x l) k = interp x k.
Proof.
  intros Hs. unfold rebuild. destruct x as [e|q|t]; cbn [parts map_parts fst snd]; try (by destruct (snd _ l)).
  destruct e as [| |f| | | | | | | | | | | |]; unfold fields_expr; run_idiom; try done; repeat (case_match; simplify_eq/=; try done).
Qed.

#[export] Instance small_meaning_laws : MeaningLaws.
Proof.
  split.
  - intros x l Hs Hl. rewrite !meaning_unfold, children_rebuild, Hl by done. by apply interp_rebuild.
  - intros st l Hs Hl. cbn. f_equal. rewrite children_rebuild_statement by done. exact Hl.
  - intros e. unfold m. by rewrite meaning_unfold.
  - intros e e'. unfold m. by rewrite meaning_unfold.
  - intros e p. unfold m. rewrite meaning_unfold. by rewrite children_call.
  - intros negated e p r. unfold m. by rewrite meaning_unfold.
  - intros i negated e p c. unfold m. rewrite meaning_unfold, children_like. by destruct i.
  - intros i negated e p ps c. unfold m. rewrite meaning_unfold, children_like. cbn [map]. rewrite (meaning_unfold (NE (ETuple _))), children_tuple, map_map.
    destruct i; cbn [interp like map]; cbn [s_any]; f_equal; rewrite map_map; done.
  - intros i negated e p c. unfold m. rewrite meaning_unfold, children_like. cbn [map]. rewrite (meaning_unfold (NE (Nested p))). by destruct i.
Qed.

End SmallMeaning.

Module VisitorExamples.
Import SmallMeaning.

Definition part_text (p : ObjectNamePart) : string := match p with PartIdentifier i => i.(ident_value) | PartFunction s => s end.

#[export] Instance small_text : SqlText := {|
  name_to_string n := join "." (map part_text n);
  expr_to_string e := match e with Identifier i => i.(ident_value) | EValue (SingleQuotedString s) => "'" ++ s ++ "'" | EValue (Number d _) => d | _ => "..." end;
  path_to_string l := of_chars (map (fun p => match p with Dot k _ => ":" ++ k | Bracket _ => "[..]" end) l);
  data_type_to_string t := match t with Custom n _ => join "." (map part_text n) | _ => "" end;
  to_lowercase := to_ascii_lowercase;
  to_uppercase := to_ascii_uppercase;
  decimal_digit s := existsb (String.eqb s) ["0"; "1"; "2"; "3"; "4"; "5"; "6"; "7"; "8"; "9"] |}.

#[export] Instance small_text_laws : SqlTextLaws.
Proof. by split. Qed.

Definition str (s : string) : Expr := EValue (SingleQuotedString s).
Definition num (s : string) : Expr := EValue (Number s false).
Definition col (s : string) : Expr := Identifier (new_ident s).
Definition select (items : list (SelectItem Expr)) (f : list From) : Select := mkSelect "" None None items [] f [] None [] None.
Definition query (b : Body) : Query := mkQuery None b None None None [].
Definition table (n : string) : From := mkTwj (Table (simple_name n) None None (mkClause "" [])) [].

(** [SELECT 'nevermore' RLIKE 'never', 'a' LIKE ANY ('b', 'a')] *)
Definition sample : Statement :=
  StQuery (query (SetSelect (select [UnnamedExpr (RLike true (str "nevermore") (str "never") false);
    UnnamedExpr (Like false true (str "a") (ETuple [str "b"; str "a"]) None)] []))).

Lemma operators_keep_meaning_witness :
  exists st1 st2, RLikeRegexp.visit sample () = Continue (st1, ()) /\ LikeILikeAny.visit st1 () = Continue (st2, ()) /\
    statement_meaning st2 = statement_meaning sample /\ statement_everywhere (fun x => no_pattern_operator (kind x)) st2.
Proof. apply operators_keep_meaning. vm_compute. repeat constructor. Defined.

(** The tests of the source. *)
Example sample_rewritten : exists st1, RLikeRegexp.visit sample () = Continue (st1, ()) /\
  LikeILikeAny.visit st1 () = Continue (StQuery (query (SetSelect (select
    [UnnamedExpr (UnaryOp Not (call "regexp_like" [str "nevermore"; str "never"]));
     UnnamedExpr (BinaryOp (Like false false (str "a") (str "b") None) Or (Like false false (str "a") (str "a") None))] []))), ()).
Proof. eexists. split; vm_compute; reflexivity. Qed.

(** NOT LIKE ANY becomes a disjunction of NOT LIKE: it is true of a text that matches one of the patterns. *)
Example negated_any :
  let e := Like true true (str "a") (ETuple [str "a"; str "b"]) None in
  m e = STruth false /\ option_map m (LikeILikeAny.post_visit_expr e) = Some (STruth true).
Proof. split; vm_compute; reflexivity. Qed.

(** LIKE ANY with a subquery is replaced by the subquery; with no pattern the visitor panics. *)
Example any_of_subquery q : LikeILikeAny.post_visit_expr (Like false true (col "a") (Subquery q) None) = Some (Subquery q) /\
  LikeILikeAny.visit (StQuery (query (SetSelect (select [UnnamedExpr (Like false true (col "a") (ETuple []) None)] [])))) () = Panic.
Proof. split; [reflexivity|vm_compute; reflexivity]. Qed.

(** The pattern of an operator is escaped by the visitor that comes after, as that of a call. *)
Example rlike_escaped :
  FunctionsRewriter.post_visit_expr (RLikeRegexp.post_visit_expr (RLike false (col "a") (str "\d+") false)) = call "regexp_like" [col "a"; str "\\d+"] /\
  FunctionsRewriter.post_visit_expr (call "REGEXP_REPLACE" [col "a"; str "(\d)"; str "<\1>"]) = call "regexp_replace" [col "a"; str "(\\d)"; str "<$1>"].
Proof. split; vm_compute; reflexivity. Qed.

Example functions_rewritten :
  FunctionsRewriter.post_visit_expr (call "dateadd" [col "year"; num "5"; str "2025-06-01"]) = call "dateadd" [str "year"; num "5"; str "2025-06-01"] /\
  FunctionsRewriter.post_visit_expr (call "DATE_PART" [str "epoch_seconds"; col "t"]) = call "date_part" [str "epoch"; col "t"] /\
  FunctionsRewriter.post_visit_expr (call "to_char" [col "t"; str "MM/DD/YYYY HH24:MI:SS"]) = call "to_char" [col "t"; str "%m/%d/%Y %H:%M:%S"].
Proof. split_and!; vm_compute; reflexivity. Qed.

(** A qualified name becomes one identifier with dots. *)
Example qualified_function :
  match FunctionsRewriter.post_visit_expr (EFunction (mkFunction [PartIdentifier (new_ident "Db"); PartIdentifier (new_ident "F")] false ArgsNone ArgsNone None None None [])) with
  | EFunction f => f.(func_name) = simple_name "db.f" | _ => False end.
Proof. vm_compute. reflexivity. Qed.

(** [FETCH FIRST 10 PERCENT ROWS WITH TIES] is read as ten rows. *)
Example fetch_percent :
  FetchToLimit.pre_visit_query (mkQuery None (SetSelect (select [] [])) None None (Some (mkFetch true true (Some (num "10")))) []) () =
    Continue (mkQuery None (SetSelect (select [] [])) None (Some (LimitOffset (Some (num "10")) None [])) None [], ()).
Proof. reflexivity. Qed.

(** The TOP of one branch of a UNION limits the whole UNION, and the one of the other branch is left. *)
Definition top_select (n : Z) (t : string) : Select := with_top (select [] [table t]) (Some (mkTop false false (Some (TopConstant n)))).
Example top_of_union :
  TopLimit.process_query (query (SetOperation Union "ALL" (SetSelect (top_select 1 "a")) (SetSelect (top_select 2 "b")))) =
    Some (mkQuery None (SetOperation Union "ALL" (SetSelect (select [] [table "a"])) (SetSelect (top_select 2 "b"))) None
      (Some (LimitOffset (Some (num "1")) None [])) None []).
Proof. vm_compute. reflexivity. Qed.

(** [LIMIT 1, 2] with a TOP is a case the code takes for unreachable. *)
Example top_with_comma_limit :
  TopLimit.process_query (mkQuery None (SetSelect (top_select 1 "a")) None (Some (OffsetCommaLimit (num "1") (num "2"))) None []) = None.
Proof. reflexivity. Qed.

(** An alias that is added can be one the query has already. *)
Example alias_clash :
  SelectExprAliases.add_aliases ∅ 0 [ExprWithAlias (col "a") (new_ident "expr_0"); UnnamedExpr (col "b"); UnnamedExpr (col "b")] =
    [ExprWithAlias (col "a") (new_ident "expr_0"); UnnamedExpr (col "b"); ExprWithAlias (col "b") (new_ident "expr_0")].
Proof. vm_compute. reflexivity. Qed.

Lemma select_aliases_correct_witness : exists s', body (SelectExprAliases.pre_visit_query (query (SetSelect (select [UnnamedExpr (col "b"); UnnamedExpr (col "b")] [])))) = SetSelect s' /\
  NoDup (omap unnamed_text s'.(projection)).
Proof.
  destruct (select_aliases_correct (query (SetSelect (select [UnnamedExpr (col "b"); UnnamedExpr (col "b")] []))) _ eq_refl) as (s' & E & _ & H & _). by exists s'.
Defined.

(** [TABLE(FLATTEN(...))] in a join keeps its wrapper: only the first relation of an item of FROM is looked at. *)
Definition flatten_call : TableFactor := TableFunction (call "FLATTEN" [col "x"]) None.
Example flatten_in_join :
  match body (TableFunctions.pre_visit_query (query (SetSelect (select [] [mkTwj flatten_call [mkJoin flatten_call (mkClause "" [])]])))) with
  | SetSelect s => s.(from) = [mkTwj (FactorFunction false (simple_name "FLATTEN") [arg (col "x")] None) [mkJoin flatten_call (mkClause "" [])]]
  | _ => False
  end.
Proof. vm_compute. reflexivity. Qed.

(** Only the first identifier of a stage is cleaned, and of its leading characters only. *)
Example stage_cleaned :
  CopyIntoIdentifiers.sanitize_identifier [PartIdentifier (new_ident "@~/path"); PartIdentifier (new_ident "%t")] =
    [PartIdentifier (new_ident "path"); PartIdentifier (new_ident "%t")].
Proof. reflexivity. Qed.

(** [OBJECT] and [VARIANT] are recognized in upper case only. *)
Example variant_types : map VariantVisitors.rewrite_type [ArrayType ""; Custom (simple_name "VARIANT") []; Custom (simple_name "variant") []] =
  [StringType None; StringType None; Custom (simple_name "variant") []].
Proof. reflexivity. Qed.

Example elements : VariantVisitors.variant_element_expr (JsonAccess (col "c") [Dot "id" false; Bracket (num "0")]) =
    call "variant_element" [col "c"; str "$.id[..]"; EValue (Boolean true)] /\
  JsonVisitor.post_visit_expr (JsonAccess (col "c") [Bracket (num "0"); Dot "id" false]) = call "json_get" [call "json_get" [col "c"; num "0"]; str "id"].
Proof. split; vm_compute; reflexivity. Qed.

End VisitorExamples.
