(* ===== verification/AliasInlining.v ===== *)
(** * Aliases of a SELECT in its own expressions

    [functions/src/visitors/inline_aliases_in_query.rs].  Snowflake lets an expression of a SELECT use the aliases of the expressions
    before it; the visitor replaces those by what they stand for.  [inline_query] is the hook [pre_visit_query], which calls
    itself on common table expressions and, from within the substitution, on subqueries: it takes fuel.  The theorems give
    a reference meaning to aliases, as values bound one after the other, and show that the rewritten SELECT evaluates to the
    same values where its expressions hold no queries; the visit ends for statements without queries in expressions and
    does not end for some with them. *)

From Stdlib Require Import ZArith Lia Ascii String.
From stdpp Require Import base option list gmap strings pretty.
From S2P Require Import Prelude SqlAst Visitors.

#[local] Open Scope string_scope.
#[local] Open Scope visit_scope.

(** ** What the FROM clause offers *)

Definition projected_ident (item : SelectItem Expr) : gset string :=
  match item with
  | ExprWithAlias _ alias => {[alias.(ident_value)]}
  | UnnamedExpr (Identifier ident) => {[ident.(ident_value)]}
  | _ => ∅
  end.

Fixpoint traverse_set_expr (in_query : Query -> gset string) (b : Body) : gset string :=
  match b with
  | SetSelect s => ⋃ map projected_ident s.(projection)
  | SetOperation Union _ l r => traverse_set_expr in_query l ∪ traverse_set_expr in_query r
  | SetQuery q => in_query q
  | _ => ∅
  end.

Fixpoint query_idents (q : Query) : gset string := match q with mkQuery _ b _ _ _ _ => traverse_set_expr query_idents b end.

Definition subquery_idents (from : list From) : gset string :=
  ⋃ map (fun t => match t.(relation) with Derived _ q _ _ => query_idents q | _ => ∅ end) from.

Definition twj_safe (safe : TableFactor -> bool) (t : From) : bool := safe t.(relation) && forallb (fun j => safe j.(join_relation)) t.(joins).

Fixpoint factor_is_alias_inline_safe (t : TableFactor) : bool :=
  match t with
  | Derived _ _ _ _ => true
  | NestedJoin t _ => twj_safe factor_is_alias_inline_safe t
  | _ => false
  end.

Definition from_is_alias_inline_safe (from : list From) : bool := forallb (twj_safe factor_is_alias_inline_safe) from.

(** ** Substitution *)

Definition contains_ident_value (idents : gset string) (e : Expr) : bool :=
  match e with Identifier i => bool_decide (i.(ident_value) ∈ idents) | _ => false end.

Definition is_window (e : Expr) : bool := match e with EFunction f => bool_decide (is_Some f.(over)) | _ => false end.

Notation AliasMap := (gmap string Expr).

Section substitution.
Context (pre_visit_query : Query -> V unit unit Query).

Definition substitution_hook (alias_map : AliasMap) (forbidden_alias : option string) (forbidden : Expr -> bool) (e : Expr) : V unit unit Expr :=
  match e with
  | Identifier ident =>
      if bool_decide (Some ident.(ident_value) = forbidden_alias) then vret e
      else match alias_map !! ident.(ident_value) with
           | Some subst => if forbidden subst then vret e else vret subst
           | None => vret e
           end
  | Subquery q => let* q := pre_visit_query q in vret (Subquery q)
  | e => vret e
  end.

Definition substitute_aliases (alias_map : AliasMap) (forbidden_alias : option string) (forbidden : Expr -> bool) : Expr -> V unit unit Expr :=
  visit_expr (after_expr (substitution_hook alias_map forbidden_alias forbidden)).

(** The loop over the projection: the items and the map it leaves. *)
Fixpoint inline_items (idents : gset string) (inline_in_projection : bool) (alias_map : AliasMap) (items : list (SelectItem Expr)) :
    V unit unit (list (SelectItem Expr) * AliasMap) :=
  match items with
  | [] => vret ([], alias_map)
  | ExprWithAlias e alias :: items =>
      let* e := if inline_in_projection then substitute_aliases alias_map (Some alias.(ident_value)) (contains_ident_value idents) e else vret e in
      let alias_map := if bool_decide (alias.(ident_value) ∈ idents) then alias_map else <[alias.(ident_value) := e]> alias_map in
      let* (items, alias_map) := inline_items idents inline_in_projection alias_map items in
      vret (ExprWithAlias e alias :: items, alias_map)
  | UnnamedExpr e :: items =>
      let* e := if inline_in_projection then substitute_aliases alias_map None (contains_ident_value idents) e else vret e in
      let* (items, alias_map) := inline_items idents inline_in_projection alias_map items in
      vret (UnnamedExpr e :: items, alias_map)
  | item :: items =>
      let* (items, alias_map) := inline_items idents inline_in_projection alias_map items in
      vret (item :: items, alias_map)
  end.

Definition inline_option (f : Expr -> V unit unit Expr) (o : option Expr) : V unit unit (option Expr) :=
  match o with Some e => let* e := f e in vret (Some e) | None => vret None end.

Definition inline_select (s : Select) : V unit unit Select :=
  let idents := subquery_idents s.(from) in
  let* (items, alias_map) := inline_items idents (from_is_alias_inline_safe s.(from)) ∅ s.(projection) in
  let* sel := inline_option (substitute_aliases alias_map None (fun e => is_window e || contains_ident_value idents e)) s.(selection) in
  let* qual := inline_option (substitute_aliases alias_map None (contains_ident_value idents)) s.(qualify) in
  vret (mkSelect s.(select_options) s.(distinct) s.(top) items s.(into_clauses) s.(from) s.(lateral_views) sel s.(grouping) qual).

Definition inline_ctes (w : option With) : V unit unit (option With) :=
  match w with
  | Some w =>
      let* l := each (fun c => let* q := pre_visit_query c.(cte_query) in vret (mkCte c.(cte_alias) q)) w.(cte_tables) in
      vret (Some (mkWith w.(recursive) l))
  | None => vret None
  end.

End substitution.

Fixpoint inline_query (fuel : nat) (q : Query) : V unit unit Query :=
  match fuel with
  | O => fun _ => Starved
  | S fuel =>
      let* q := match body q with
                | SetSelect s => let* s := inline_select (inline_query fuel) s in vret (with_body q (SetSelect s))
                | _ => vret q
                end in
      let* w := inline_ctes (inline_query fuel) (with_ q) in
      vret (with_ctes q w)
  end.

(** [visit]: [depth] bounds the calls of the hook within the hook, [fuel] the depth of the tree. *)
Definition inline_visitor (depth : nat) : Visitor unit unit := on_query (inline_query depth).
Definition visit (depth fuel : nat) : Statement -> V unit unit Statement := visit_statement_with (inline_visitor depth) (fun _ => fuel).

(** ** What inlining keeps *)
Section keep.
Context (L : Node -> Prop) (HL : local L) (HQ : forall q w b, L (NQ q) -> L (NQ (with_ctes (with_body q b) w))).
Notation ok x := (everywhere L x).

Definition keeps_query (pv : Query -> V unit unit Query) : Prop := forall q q', ok (NQ q) -> pv q () = Continue (q', ()) -> ok (NQ q').

Lemma rebuild_subquery q q' : rebuild (NE (Subquery q)) [NQ q'] = NE (Subquery q').
Proof. done. Qed.

Section with_hook.
Context (pv : Query -> V unit unit Query) (Hpv : keeps_query pv).

Lemma substitute_keeps map forb pred e e' : map_Forall (fun _ t => ok (NE t)) map -> ok (NE e) ->
  substitute_aliases pv map forb pred e () = Continue (e', ()) -> ok (NE e').
Proof.
  intros Hm He. unfold substitute_aliases, visit_expr. intros (x & [] & E & [= <-])%vbind_Continue.
  set (v := after_expr (substitution_hook pv map forb pred)) in *.
  assert (keeps L (fun _ => True) (after v)) as Ha.
  { intros [e1|q1|t1] [] y [] _ Hx; cbn; try (by intros [= <-]). intros (e2 & [] & E2 & [= <-])%vbind_Continue. split; [done|].
    destruct e1; cbn in E2; try (by injection E2 as <-).
    - case_bool_decide; [by injection E2 as <-|]. destruct (map !! _) as [t|] eqn:Et; [|by injection E2 as <-].
      destruct (pred t); injection E2 as <-; [done|]. by apply (Hm _ _ Et).
    - apply vbind_Continue in E2 as (q' & [] & Eq & [= <-]). apply everywhere_unfold in Hx as [Hx Hc]. inversion Hc as [|? ? Hq _]; subst.
      rewrite <- (rebuild_subquery subquery q'). apply everywhere_rebuild; try done. constructor; [by eapply Hpv|constructor]. }
  destruct (visit_keeps v L HL (fun _ => True) (size_expr e)) with (x := NE e) (s := ()) (y := x) (s' := ()) as [_ Hx]; try done.
  { intros [e1|q1|t1] [] y [] _ Hx; by intros [= <-]. }
  pose proof (visit_sort _ _ _ _ _ _ E) as Hs. by destruct x.
Qed.

Lemma ok_items_cons i l : Forall (everywhere L) (fst (fields_list (fields_item part_expr) (i :: l))) <->
  Forall (everywhere L) (fst (fields_item part_expr i)) /\ Forall (everywhere L) (fst (fields_list (fields_item part_expr) l)).
Proof. rewrite !parts_of_list. cbn [flat_map]. by rewrite Forall_app. Qed.

Lemma inline_items_keep idents safe map items items' map' : map_Forall (fun _ t => ok (NE t)) map ->
  Forall (everywhere L) (fst (fields_list (fields_item part_expr) items)) -> inline_items pv idents safe map items () = Continue ((items', map'), ()) ->
  Forall (everywhere L) (fst (fields_list (fields_item part_expr) items')) /\ map_Forall (fun _ t => ok (NE t)) map'.
Proof.
  revert map items' map'. induction items as [|[e|e a|c] items IH]; intros map items' map' Hm Hi; cbn [inline_items]; [by intros [= <- <-]|..];
    rewrite ok_items_cons in Hi; destruct Hi as [He Hi].
  - intros (e' & [] & Ee & ([k m2] & [] & Ek & [= <- <-])%vbind_Continue)%vbind_Continue. inversion He as [|? ? He' _]; subst.
    assert (ok (NE e')) as Hok by (destruct safe; [by eapply substitute_keeps|by injection Ee as <-]).
    destruct (IH _ _ _ Hm Hi Ek) as [H1 H2]. split; [|done]. apply ok_items_cons. split; [|done]. constructor; [exact Hok|constructor].
  - intros (e' & [] & Ee & ([k m2] & [] & Ek & [= <- <-])%vbind_Continue)%vbind_Continue. inversion He as [|? ? He' _]; subst.
    assert (ok (NE e')) as Hok by (destruct safe; [by eapply substitute_keeps|by injection Ee as <-]).
    destruct (fun H => IH _ _ _ H Hi Ek) as [H1 H2]; [case_bool_decide; [done|by apply map_Forall_insert_2]|]. split; [|done].
    apply ok_items_cons. split; [|done]. constructor; [exact Hok|constructor].
  - intros ([k m2] & [] & Ek & [= <- <-])%vbind_Continue. destruct (IH _ _ _ Hm Hi Ek) as [H1 H2]. split; [|done]. by apply ok_items_cons.
Qed.

Lemma inline_option_keep (f : Expr -> V unit unit Expr) o o' : (forall e e', ok (NE e) -> f e () = Continue (e', ()) -> ok (NE e')) ->
  Forall (everywhere L) (fst (fields_option part_expr o)) -> inline_option f o () = Continue (o', ()) -> Forall (everywhere L) (fst (fields_option part_expr o')).
Proof.
  intros Hf. destruct o as [e|]; cbn [inline_option]; [|by intros _ [= <-]]. intros He (e' & [] & E & [= <-])%vbind_Continue. inversion He; subst.
  constructor; [by eapply Hf|constructor].
Qed.

Lemma inline_select_keeps s s' : Forall (everywhere L) (fst (parts_body (SetSelect s))) -> inline_select pv s () = Continue (s', ()) ->
  Forall (everywhere L) (fst (parts_body (SetSelect s'))).
Proof.
  rewrite !children_select, !Forall_app. intros (H1 & H2 & H3 & H4 & H5 & H6 & H7 & H8 & H9). unfold inline_select.
  intros ([items map] & [] & E1 & (sel & [] & E2 & (qual & [] & E3 & [= <-])%vbind_Continue)%vbind_Continue)%vbind_Continue.
  destruct (inline_items_keep _ _ _ _ _ _ (map_Forall_empty _) H3 E1) as [Hi Hm].
  cbn [distinct top projection into_clauses from lateral_views selection grouping qualify]. split_and!; try done.
  - eapply inline_option_keep; [|exact H7|exact E2]. intros e e'. by apply substitute_keeps.
  - eapply inline_option_keep; [|exact H9|exact E3]. intros e e'. by apply substitute_keeps.
Qed.

Lemma inline_ctes_keep w w' : Forall (everywhere L) (fst (parts_with w)) -> inline_ctes pv w () = Continue (w', ()) -> Forall (everywhere L) (fst (parts_with w')).
Proof.
  destruct w as [[rec l]|]; cbn [inline_ctes]; [|by intros _ [= <-]]. intros Hw (k & [] & E & [= <-])%vbind_Continue. cbn [recursive cte_tables] in *.
  unfold fields_option, fields_with in *. cbn [recursive cte_tables] in *. revert Hw. run_idiom. cbn [app]. rewrite !parts_of_list, !Forall_flat_map.
  intros Hl. assert (Forall2 (fun c c' => Forall (everywhere L) (fst (fields_cte part_query c'))) l k) as HF.
  { eapply each_Forall2; [|exact E]. intros [a q] [] c' [] Hc (q' & [] & Eq & [= <-])%vbind_Continue. rewrite Forall_forall in Hl. apply Hl in Hc. inversion Hc; subst.
    constructor; [by eapply Hpv|constructor]. }
  clear -HF. induction HF; by constructor.
Qed.

End with_hook.

Lemma inline_query_keeps fuel : keeps_query (inline_query fuel).
Proof.
  induction fuel as [|fuel IH]; intros q q' Hq; [done|]. cbn [inline_query].
  intros (q1 & [] & E1 & (w & [] & E2 & [= <-])%vbind_Continue)%vbind_Continue.
  assert (exists b, q1 = with_body q b /\ Forall (everywhere L) (fst (parts_body b))) as (b & -> & Hb).
  { apply everywhere_unfold in Hq as [_ Hc]. destruct q as [w0 b0 o l f r]. rewrite children_query, !Forall_app in Hc. destruct Hc as (_ & Hb & _).
    cbn [body] in E1. destruct b0 as [s| | |]; try (injection E1 as <-; by eexists).
    apply vbind_Continue in E1 as (s' & [] & Es & [= <-]). exists (SetSelect s'). split; [done|]. by eapply inline_select_keeps. }
  apply everywhere_unfold in Hq as [Hq Hc]. apply everywhere_unfold. split; [by apply HQ|].
  destruct q as [w0 b0 o l f r]. cbn [with_body with_ctes with_] in *. rewrite children_query, !Forall_app in *. destruct Hc as (Hw & _ & Hr). split; [|split; [done|exact Hr]].
  by eapply inline_ctes_keep.
Qed.

End keep.

(** The kinds of nodes in a statement. *)
Lemma inlining_keeps_kinds P depth fuel st st' : all_statement_kinds P st -> visit depth fuel st () = Continue (st', ()) -> all_statement_kinds P st'.
Proof.
  intros Hst E. eapply (visit_statement_keeps (inline_visitor depth) (fun x => P (kind x)) (kind_local P) (fun _ => True)); [..|exact E]; try done.
  - intros [e|q|t] [] y [] _ Hx; cbn; try (by intros [= <-]). intros (q' & [] & Eq & [= <-])%vbind_Continue. split; [done|].
    eapply (inline_query_keeps (fun x => P (kind x))); [apply kind_local| |exact Hx|exact Eq]. by intros [].
  - intros [e|q|t] [] y [] _ Hx; by intros [= <-].
  - by intros x [] y [] _ Hx [= <-].
  - by intros x [] y [] _ Hx [= <-].
Qed.

(** ** What aliases mean

    The value of an expression given the values of the names in it. *)
Class AliasEval := {
  Val : Type;
  ev : (string -> Val) -> Node -> Val }.

Class AliasEvalLaws {AE : AliasEval} := {
  ev_identifier : forall env i, ev env (NE (Identifier i)) = env i.(ident_value);
  ev_compositional : forall env env' x l, (forall i, x <> NE (Identifier i)) -> map sort l = map sort (children x) ->
    map (ev env') l = map (ev env) (children x) -> ev env' (rebuild x l) = ev env x }.

(** The outermost constructor, as far as the visitor looks at it. *)
Inductive Head := HIdent (i : Ident) | HSubquery | HWindow | HOther.
Definition head (x : Node) : Head :=
  match x with
  | NE (Identifier i) => HIdent i
  | NE (Subquery _) => HSubquery
  | NE (EFunction f) => if f.(over) then HWindow else HOther
  | _ => HOther
  end.

Lemma head_rebuild x l : head (rebuild x l) = head x.
Proof.
  unfold rebuild. destruct x as [e|q|t]; cbn [parts map_parts fst snd]; try (by destruct (snd _ l)).
  destruct e as [| |[n od p a fi nt [o|] wg]| | | | | | | | | | | |]; unfold fields_expr, fields_function; cbn [over]; run_idiom; try done;
    repeat (case_match; simplify_eq/=; try done).
Qed.

Definition query_free (x : Node) : Prop := everywhere (fun y => sort y = SExpr) x.

Lemma query_free_unfold x : query_free x <-> sort x = SExpr /\ Forall query_free (children x).
Proof. apply everywhere_unfold. Qed.

Section values.
Context {AE : AliasEval} {AL : AliasEvalLaws}.

Section substitution.
Context (pv : Query -> V unit unit Query) (map_ : AliasMap) (forb : option string) (pred : Expr -> bool) (env : string -> Val).
Hypothesis Hmap : map_Forall (fun _ t => query_free (NE t)) map_.
Let v : Visitor unit unit := after_expr (substitution_hook pv map_ forb pred).

(** What an identifier stands for. *)
Definition substituted (x : string) : option Expr :=
  if bool_decide (Some x = forb) then None else match map_ !! x with Some t => if pred t then None else Some t | None => None end.
Definition bound_env (x : string) : Val := match substituted x with Some t => ev env (NE t) | None => env x end.

Definition related (x y : Node) : Prop :=
  sort y = sort x /\ query_free y /\ ev env y = ev bound_env x /\
  match head x with
  | HIdent i => y = match substituted i.(ident_value) with Some t => NE t | None => x end
  | h => head y = h
  end.

Lemma hook_identifier i : substitution_hook pv map_ forb pred (Identifier i) = vret (default (Identifier i) (substituted i.(ident_value))).
Proof. unfold substitution_hook, substituted. repeat case_match; done. Qed.

Lemma substituted_map x t : substituted x = Some t -> map_ !! x = Some t /\ pred t = false.
Proof. unfold substituted. repeat case_match; naive_solver. Qed.

Lemma related_identifier i : query_free (NE (Identifier i)) -> related (NE (Identifier i)) (NE (default (Identifier i) (substituted i.(ident_value)))).
Proof.
  intros Hi. unfold related. cbn [head]. destruct (substituted _) as [t|] eqn:E; cbn; rewrite (ev_identifier bound_env); unfold bound_env; rewrite E.
  - apply substituted_map in E as [E _]. split_and!; try done. by apply (Hmap _ _ E).
  - rewrite ev_identifier. by split_and!.
Qed.

Lemma hook_other e : (forall i, head (NE e) <> HIdent i) -> head (NE e) <> HSubquery -> substitution_hook pv map_ forb pred e = vret e.
Proof. destruct e; try done. intros H1 _. by destruct (H1 ident). Qed.

Lemma after_other e l : query_free (NE e) -> map sort l = map sort (children (NE e)) -> Forall2 related (children (NE e)) l ->
  (forall i, head (NE e) <> HIdent i) -> head (NE e) <> HSubquery -> exists y, after v (rebuild (NE e) l) () = Continue (y, ()) /\ related (NE e) y.
Proof.
  intros Hqf Hs Hl H1 H2. pose proof (head_rebuild (NE e) l) as Hh. pose proof (sort_rebuild (NE e) l) as Hsr.
  assert (query_free (rebuild (NE e) l)) as Hq.
  { apply query_free_unfold. rewrite sort_rebuild, children_rebuild by done. split; [done|]. clear -Hl. induction Hl as [|? ? ? ? (_ & ? & _)]; by constructor. }
  assert (ev env (rebuild (NE e) l) = ev bound_env (NE e)) as Hv.
  { apply ev_compositional; [|done|].
    - intros i E. rewrite E in H1. by apply (H1 i).
    - clear -Hl. induction Hl as [|? ? ? ? (_ & _ & E & _) _ IH]; simpl; congruence. }
  exists (rebuild (NE e) l). split.
  - destruct (rebuild (NE e) l) as [e2| |]; try done. change (vbind (substitution_hook pv map_ forb pred e2) (fun e => vret (NE e)) () = Continue (NE e2, ())).
    rewrite hook_other; [done| |]; by rewrite Hh.
  - split; [done|]. split; [done|]. split; [done|]. destruct (head (NE e)) as [i| | |]; try done. by destruct (H1 i).
Qed.

Lemma after_related x l : query_free x -> map sort l = map sort (children x) -> Forall2 related (children x) l ->
  exists y, after v (rebuild x l) () = Continue (y, ()) /\ related x y.
Proof.
  intros Hqf Hs Hl. pose proof Hqf as [Hx Hc]%query_free_unfold. destruct x as [e|q|t]; try done.
  destruct (head (NE e)) as [i| | |] eqn:Eh.
  - assert (e = Identifier i) as -> by (destruct e; try done; cbn in Eh; [congruence|by destruct (over f)]). destruct l; [|done].
    exists (NE (default (Identifier i) (substituted i.(ident_value)))). split; [|by apply related_identifier].
    change (vbind (substitution_hook pv map_ forb pred (Identifier i)) (fun e => vret (NE e)) () = Continue (NE (default (Identifier i) (substituted (ident_value i))), ())).
    by rewrite hook_identifier.
  - destruct e; try done; [cbn in Eh; by destruct (over f)|]. inversion Hc as [|? ? Hq _]; subst. by apply query_free_unfold in Hq as [? _].
  - apply after_other; try done; by rewrite Eh.
  - apply after_other; try done; by rewrite Eh.
Qed.

Lemma visit_substitution n x : (size x <= n)%nat -> query_free x -> exists y, SqlAst.visit v n x () = Continue (y, ()) /\ related x y.
Proof.
  revert x. induction n as [|n IH]; intros x Hx Hqf; [rewrite size_children in Hx; lia|].
  assert (exists l, each (SqlAst.visit v n) (children x) () = Continue (l, ()) /\ Forall2 related (children x) l) as (l & El & Hl).
  { pose proof Hqf as [_ Hc]%query_free_unfold. assert (Forall (fun y => (size y <= n)%nat) (children x)) as Hsz.
    { apply Forall_forall. intros y Hy%size_child. lia. }
    clear -IH Hc Hsz. induction (children x) as [|y k IHk]; [by exists []|]. inversion Hc; inversion Hsz; subst.
    destruct (IH y) as (z & Ez & Hz); [done..|]. destruct IHk as (l & El & Hl); [done..|]. exists (z :: l). split; [|by constructor].
    cbn [each]. unfold vbind, vret. by rewrite Ez, El. }
  assert (map sort l = map sort (children x)) as Hs by (apply Forall2_sort; eapply Forall2_impl; [exact Hl|]; by intros ? ? []).
  destruct (after_related x l Hqf Hs Hl) as (y & Ey & Hy). exists y. split; [|done]. apply visit_Continue. exists x, (), l, (). by destruct x.
Qed.

Lemma substitute_related e : query_free (NE e) -> exists e', substitute_aliases pv map_ forb pred e () = Continue (e', ()) /\ related (NE e) (NE e').
Proof.
  intros He. destruct (visit_substitution (size_expr e) (NE e) ltac:(done) He) as (y & Ey & Hy). destruct y as [e'| |]; try by destruct Hy.
  exists e'. split; [|done]. unfold substitute_aliases, visit_expr, vbind. fold v. by rewrite Ey.
Qed.

End substitution.

(** *** Aliases as values bound one after the other

    A scope has, for the aliases seen so far, the value and whether a window function computes it. *)
Notation Scope := (gmap string (Val * bool)).

Section reference.
Context (env : string -> Val) (idents : gset string).

(** A name in an item is the alias of an item before, unless it is the alias of the item itself; otherwise a column. *)
Definition scope_env (scope : Scope) (own : option string) (x : string) : Val :=
  if bool_decide (Some x = own) then env x else match scope !! x with Some (v, _) => v | None => env x end.
Definition scope_window (scope : Scope) (own : option string) (e : Expr) : bool :=
  match e with
  | Identifier i => if bool_decide (Some i.(ident_value) = own) then false else match scope !! i.(ident_value) with Some (_, w) => w | None => false end
  | e => is_window e
  end.

(** Aliases that name a column of a subquery, or stand for one, are not bound. *)
Definition bind_alias (scope : Scope) (alias : string) (e : Expr) (v : Val * bool) : Scope :=
  if bool_decide (alias ∈ idents) then scope else if contains_ident_value idents e then delete alias scope else <[alias := v]> scope.

Fixpoint bind_items (safe : bool) (scope : Scope) (items : list (SelectItem Expr)) : list (option Val) * Scope :=
  match items with
  | [] => ([], scope)
  | item :: items =>
      let own := match item with ExprWithAlias _ a => Some a.(ident_value) | _ => None end in
      let at_ := if safe then scope_env scope own else env in
      let scope' := match item with
                    | ExprWithAlias e a =>
                        bind_alias scope a.(ident_value) e (ev at_ (NE e), if safe then scope_window scope own e else is_window e)
                    | _ => scope
                    end in
      let (values, scope'') := bind_items safe scope' items in
      (option_map (fun e => ev at_ (NE e)) (item_expr item) :: values, scope'')
  end.

(** In WHERE the aliases of window functions are not visible. *)
Definition where_scope (scope : Scope) : Scope := filter (fun p => p.2.2 = false) scope.

End reference.

Definition item_value (env : string -> Val) (i : SelectItem Expr) : option Val := option_map (fun e => ev env (NE e)) (item_expr i).
Definition item_query_free (i : SelectItem Expr) : Prop := match item_expr i with Some e => query_free (NE e) | None => True end.

(** The substitution and the scope it stands for. *)
Section simulation.
Context (pv : Query -> V unit unit Query) (env : string -> Val) (idents : gset string).

Record simulates (map_ : AliasMap) (scope : Scope) : Prop := mkSimulates {
  sim_free : map_Forall (fun _ t => query_free (NE t)) map_;
  sim_columns : forall x t, map_ !! x = Some t -> x ∉ idents;
  sim_values : forall x, scope !! x = match map_ !! x with
    | Some t => if contains_ident_value idents t then None else Some (ev env (NE t), is_window t) | None => None end }.

Lemma simulates_empty : simulates ∅ ∅.
Proof. constructor; [apply map_Forall_empty|intros x t; by rewrite lookup_empty|intros x; by rewrite !lookup_empty]. Qed.

Lemma simulates_env map_ scope own x : simulates map_ scope -> bound_env map_ own (contains_ident_value idents) env x = scope_env env scope own x.
Proof.
  intros [_ _ Hv]. unfold bound_env, substituted, scope_env. case_bool_decide; [done|]. rewrite Hv. destruct (map_ !! x) as [t|]; [|done].
  by destruct (contains_ident_value idents t).
Qed.

Lemma ev_ext env1 env2 x : query_free x -> (forall y, env1 y = env2 y) -> ev env1 x = ev env2 x.
Proof.
  intros Hx He. induction x as [x IH] using node_ind. apply query_free_unfold in Hx as [Hs Hc].
  destruct (head x) as [i| | |] eqn:Eh.
  1: { destruct x as [[]| |]; try done; cbn in Eh; try (by destruct (over f)). rewrite !ev_identifier. apply He. }
  all: rewrite <- (rebuild_children x) at 1; apply ev_compositional; [intros j ->; done|done|];
    apply map_ext_in; intros y Hy%list_elem_of_In; apply IH; [done|]; rewrite Forall_forall in Hc; by apply Hc.
Qed.

Lemma contains_related map_ scope own e e' : simulates map_ scope -> related map_ own (contains_ident_value idents) env (NE e) (NE e') ->
  contains_ident_value idents e' = contains_ident_value idents e /\ is_window e' = scope_window scope own e.
Proof.
  intros [_ Hcol Hv] (_ & _ & _ & Hh). destruct (head (NE e)) as [i| | |] eqn:Eh.
  - assert (e = Identifier i) as -> by (destruct e; try done; cbn in Eh; [congruence|by destruct (over f)]).
    cbn [scope_window]. unfold substituted in Hh. rewrite Hv. destruct (bool_decide _); [by injection Hh as ->|].
    destruct (map_ !! ident_value i) as [t|] eqn:Et; [|by injection Hh as ->]. destruct (contains_ident_value idents t) eqn:Ec; injection Hh as ->; [done|].
    rewrite Ec. cbn. split; [|done]. symmetry. apply bool_decide_eq_false. by apply (Hcol _ _ Et).
  - destruct e; try done; cbn in Eh; [by destruct (over f)|]. destruct e'; try done; cbn in Hh; by destruct (over f).
  - destruct e; try done; cbn in Eh. destruct (over f) eqn:Eo; [|done]. destruct e'; try done; cbn in Hh |- *. destruct (over f0) eqn:Eo'; [|done]. by rewrite Eo.
  - destruct e'; cbn in Hh; try done; destruct e; cbn in Eh |- *; try done; repeat (case_match; try done); by rewrite ?H, ?H0.
Qed.

Lemma simulates_bind map_ scope a e e' own : simulates map_ scope -> query_free (NE e') -> contains_ident_value idents e' = contains_ident_value idents e ->
  own = (ev env (NE e'), is_window e') ->
  simulates (if bool_decide (a ∈ idents) then map_ else <[a := e']> map_) (bind_alias idents scope a e own).
Proof.
  intros [Hf Hc Hv] He Ec ->. unfold bind_alias. case_bool_decide as Ha; [by constructor|]. constructor.
  - by apply map_Forall_insert_2.
  - intros x t. rewrite lookup_insert_Some. intros [[<- _]|[_ Ht]]; [done|by eapply Hc].
  - intros x. destruct (decide (a = x)) as [<-|Hn].
    + rewrite lookup_insert_eq, Ec. destruct (contains_ident_value idents e); [by rewrite lookup_delete_eq|by rewrite lookup_insert_eq].
    + rewrite lookup_insert_ne by done. destruct (contains_ident_value idents e); [rewrite lookup_delete_ne by done|rewrite lookup_insert_ne by done]; apply Hv.
Qed.

(** One expression of the projection. *)
Lemma inline_expr_correct (safe : bool) map_ scope own e : simulates map_ scope -> query_free (NE e) -> exists e',
  (if safe then substitute_aliases pv map_ own (contains_ident_value idents) e else vret e) () = Continue (e', ()) /\ query_free (NE e') /\
  ev env (NE e') = ev (if safe then scope_env env scope own else env) (NE e) /\ contains_ident_value idents e' = contains_ident_value idents e /\
  is_window e' = (if safe then scope_window scope own e else is_window e).
Proof.
  intros Hsim He. destruct safe; [|by exists e]. destruct (substitute_related pv map_ own (contains_ident_value idents) env (sim_free _ _ Hsim) e He) as (e' & E & Hr).
  destruct (contains_related _ _ _ _ _ Hsim Hr) as [H1 H2]. destruct Hr as (_ & Hq & Hev & _). exists e'. split_and!; try done.
  rewrite Hev. apply ev_ext; [done|]. intros y. by apply simulates_env.
Qed.

Lemma inline_items_correct safe map_ scope items : simulates map_ scope -> Forall item_query_free items ->
  exists items' map', inline_items pv idents safe map_ items () = Continue ((items', map'), ()) /\
    map (item_value env) items' = fst (bind_items env idents safe scope items) /\ simulates map' (snd (bind_items env idents safe scope items)).
Proof.
  revert map_ scope. induction items as [|[e|e a|c] items IH]; intros map_ scope Hsim Hi; [by eexists _, _|..];
    inversion Hi as [|? ? He Hi']; subst; cbn [inline_items bind_items item_expr option_map].
  - destruct (inline_expr_correct safe map_ scope None e Hsim He) as (e' & E & Hq & Hv & _ & _).
    destruct (IH _ _ Hsim Hi') as (k & m2 & Ek & Hk & Hs). eexists _, _. unfold vbind. rewrite E, Ek. split; [done|].
    destruct (bind_items env idents safe scope items) as [vs sc]. cbn in *. rewrite Hk. split; [|done]. f_equal. by rewrite <- Hv.
  - destruct (inline_expr_correct safe map_ scope (Some a.(ident_value)) e Hsim He) as (e' & E & Hq & Hv & Hc & Hw).
    pose proof (simulates_bind map_ scope a.(ident_value) e e' _ Hsim Hq Hc eq_refl) as Hsim'. rewrite Hv, Hw in Hsim'.
    destruct (IH _ _ Hsim' Hi') as (k & m2 & Ek & Hk & Hs).
    eexists _, _. unfold vbind. rewrite E, Ek. split; [done|]. destruct (bind_items env idents safe _ items) as [vs sc]. cbn in *. rewrite Hk. split; [|done]. f_equal. by rewrite <- Hv.
  - destruct (IH _ _ Hsim Hi') as (k & m2 & Ek & Hk & Hs). eexists _, _. unfold vbind. rewrite Ek. split; [done|].
    destruct (bind_items env idents safe scope items) as [vs sc]. cbn in *. by rewrite Hk.
Qed.

(** WHERE and QUALIFY. *)
Lemma inline_clause_correct map_ scope (window : bool) o : simulates map_ scope -> match o with Some e => query_free (NE e) | None => True end ->
  exists o', inline_option (substitute_aliases pv map_ None (fun e => (window && is_window e) || contains_ident_value idents e)) o () = Continue (o', ()) /\
    option_map (fun e => ev env (NE e)) o' = option_map (fun e => ev (scope_env env (if window then where_scope scope else scope) None) (NE e)) o.
Proof.
  intros Hsim Ho. destruct o as [e|]; [|by exists None].
  destruct (substitute_related pv map_ None (fun e => (window && is_window e) || contains_ident_value idents e) env (sim_free _ _ Hsim) e Ho) as (e' & E & _ & _ & Hv & _).
  exists (Some e'). split; [cbn; unfold vbind; by rewrite E|]. cbn. rewrite Hv. f_equal. apply ev_ext; [done|]. intros x.
  destruct Hsim as [_ _ Hsc]. unfold bound_env, substituted, scope_env, where_scope. rewrite bool_decide_false by done.
  destruct window; cbn [andb orb].
  - rewrite map_lookup_filter, Hsc. destruct (map_ !! x) as [t|]; [|done]. destruct (is_window t) eqn:Ew, (contains_ident_value idents t) eqn:Ec; cbn; rewrite ?Ew; done.
  - rewrite Hsc. destruct (map_ !! x) as [t|]; [|done]. by destruct (contains_ident_value idents t).
Qed.

End simulation.


End values.

(** ** Termination where expressions hold no queries *)

Definition plain_node (x : Node) : Prop := match x with NE _ => Forall (fun y => sort y = SExpr) (children x) | _ => True end.

Lemma plain_local : local plain_node.
Proof.
  intros x l Hs Hx. pose proof (sort_rebuild x l) as Hsr. pose proof (children_rebuild x l Hs) as Hc.
  destruct x as [e|q|t]; destruct (rebuild _ l) as [e'|q'|t']; try done. cbn [plain_node] in *. rewrite Hc. apply (Forall_map sort (fun s => s = SExpr)).
  rewrite Hs. by apply (Forall_map sort (fun s => s = SExpr)).
Qed.

Lemma plain_query_free e : everywhere plain_node (NE e) -> query_free (NE e).
Proof.
  enough (forall x, sort x = SExpr -> everywhere plain_node x -> query_free x) by auto. clear e.
  intros x. induction x as [x IH] using node_ind. intros Hx [Hp Hc]%everywhere_unfold. apply query_free_unfold. split; [done|].
  destruct x as [e| |]; try done. cbn [plain_node] in Hp. rewrite Forall_forall in *. auto.
Qed.

#[export] Instance sort_eq_dec : EqDecision Sort.
Proof. solve_decision. Defined.

(** The nodes that are not expressions. *)
Definition skeleton_of (l : list Node) : nat := length (filter (fun x => sort x <> SExpr) l).
Definition skeleton (x : Node) : nat := skeleton_of (nodes x).
Definition skeletons (l : list Node) : nat := skeleton_of (flat_map nodes l).


Lemma skeleton_of_app l k : skeleton_of (l ++ k)%list = (skeleton_of l + skeleton_of k)%nat.
Proof. unfold skeleton_of. by rewrite filter_app, length_app. Qed.

Lemma skeletons_app l k : skeletons (l ++ k)%list = (skeletons l + skeletons k)%nat.
Proof. unfold skeletons. by rewrite flat_map_app, skeleton_of_app. Qed.

Lemma skeletons_cons x l : skeletons (x :: l) = (skeleton x + skeletons l)%nat.
Proof. unfold skeletons. cbn [flat_map]. by rewrite skeleton_of_app. Qed.

Lemma skeleton_unfold x : skeleton x = ((if decide (sort x = SExpr) then 0 else 1) + skeletons (children x))%nat.
Proof.
  unfold skeleton. rewrite nodes_unfold. change (x :: ?l)%list with ([x] ++ l)%list. rewrite skeleton_of_app. f_equal.
  unfold skeleton_of. rewrite filter_cons. case_decide as H1; case_decide as H2; done.
Qed.

Lemma skeleton_elem x l : x ∈ l -> (skeleton x <= skeletons l)%nat.
Proof. induction 1 as [x l|x y l _ IH]; rewrite skeletons_cons; lia. Qed.

Lemma query_free_skeleton x : query_free x -> skeleton x = 0%nat.
Proof.
  unfold query_free, everywhere, skeleton, skeleton_of. induction 1 as [|y l Hy _ IH]; [done|]. rewrite filter_cons. case_decide; [by rewrite Hy in *|done].
Qed.

(** Lists of plain expressions. *)
Definition exprs_only (l : list Node) : Prop := Forall (fun x => sort x = SExpr) l.

Lemma exprs_skeletons l : exprs_only l -> Forall (everywhere plain_node) l -> skeletons l = 0%nat.
Proof.
  induction 1 as [|x l Hx _ IH]; intros Hp; [done|]. inversion Hp as [|? ? Hpx Hpl]; subst. rewrite skeletons_cons, IH by done.
  destruct x as [e| |]; try done. by rewrite (query_free_skeleton _ (plain_query_free _ Hpx)).
Qed.

Lemma exprs_list {A} (p : A -> Parts A) l : (forall x, exprs_only (fst (p x))) -> exprs_only (fst (fields_list p l)).
Proof. intros Hp. unfold exprs_only. rewrite parts_of_list. apply Forall_flat_map, Forall_true. apply Hp. Qed.

Lemma exprs_option {A} (p : A -> Parts A) o : (forall x, exprs_only (fst (p x))) -> exprs_only (fst (fields_option p o)).
Proof. intros Hp. destruct o as [x|]; [apply Hp|constructor]. Qed.

Lemma exprs_expr e : exprs_only (fst (part_expr e)).
Proof. by repeat constructor. Qed.

Lemma exprs_clause c : exprs_only (fst (fields_clause part_expr c)).
Proof. apply (exprs_list part_expr), exprs_expr. Qed.

Lemma exprs_item i : exprs_only (fst (fields_item part_expr i)).
Proof. destruct i; [apply exprs_expr..|apply exprs_clause]. Qed.

Lemma exprs_top t : exprs_only (fst (fields_top part_expr t)).
Proof. apply (exprs_option (fields_quantity part_expr)). intros []; [apply exprs_expr|constructor]. Qed.

#[local] Hint Resolve exprs_expr exprs_clause exprs_item exprs_top exprs_list exprs_option : core.

(** The queries of a SELECT are in its FROM clause. *)
Lemma select_skeletons s : Forall (everywhere plain_node) (fst (parts_body (SetSelect s))) ->
  skeletons (fst (parts_body (SetSelect s))) = skeletons (fst (parts_from s.(from))).
Proof.
  rewrite children_select, !Forall_app, !skeletons_app. intros (H1 & H2 & H3 & H4 & H5 & H6 & H7 & H8 & H9).
  apply exprs_skeletons in H1, H2, H3, H4, H6, H7, H8, H9; auto. lia.
Qed.

(** Values of no interest, to use what is proved of the substitution. *)
#[local] Instance unit_eval : AliasEval := {| Val := unit; ev _ _ := () |}.
#[local] Instance unit_eval_laws : AliasEvalLaws.
Proof. split; [|done]. intros env i. by destruct (env (ident_value i)). Qed.

Lemma items_query_free items : Forall (everywhere plain_node) (fst (parts_items items)) -> Forall item_query_free items.
Proof.
  rewrite parts_of_list, Forall_flat_map. intros Hi. eapply Forall_impl; [exact Hi|]. intros [e|e a|c] He; try done; inversion He; by apply plain_query_free.
Qed.

Lemma inline_select_total pv s : Forall (everywhere plain_node) (fst (parts_body (SetSelect s))) ->
  exists s', inline_select pv s () = Continue (s', ()) /\ s'.(from) = s.(from).
Proof.
  rewrite children_select, !Forall_app. intros (_ & _ & H3 & _ & _ & _ & H7 & _ & H9).
  assert (match s.(selection) with Some e => query_free (NE e) | None => True end) as Hs by (destruct (selection s); [|done]; inversion H7; by apply plain_query_free).
  assert (match s.(qualify) with Some e => query_free (NE e) | None => True end) as Hq by (destruct (qualify s); [|done]; inversion H9; by apply plain_query_free).
  pose proof (simulates_empty (AE := unit_eval) (fun _ => ()) (subquery_idents s.(from))) as H0.
  destruct (inline_items_correct (AE := unit_eval) pv _ _ (from_is_alias_inline_safe s.(from)) ∅ ∅ s.(projection) H0 (items_query_free _ H3)) as (items & m2 & E1 & _ & Hsim).
  destruct (inline_clause_correct (AE := unit_eval) pv _ _ _ _ true s.(selection) Hsim Hs) as (sel & E2 & _).
  destruct (inline_clause_correct (AE := unit_eval) pv _ _ _ _ false s.(qualify) Hsim Hq) as (qual & E3 & _).
  eexists. split; [|shelve]. unfold inline_select, vbind. rewrite E1. cbn [andb orb] in E2, E3. rewrite E2.
  change (fun e => contains_ident_value (subquery_idents s.(from)) e) with (contains_ident_value (subquery_idents s.(from))) in E3. rewrite E3. reflexivity.
  Unshelve. done.
Qed.

Definition inlined (q : Query) (r : flow unit (Query * unit)) : Prop :=
  exists q', r = Continue (q', ()) /\ skeleton (NQ q') = skeleton (NQ q).

Lemma inline_ctes_total (pv : Query -> V unit unit Query) n w :
  (forall q, everywhere plain_node (NQ q) -> (skeleton (NQ q) <= n)%nat -> inlined q (pv q ())) ->
  Forall (everywhere plain_node) (fst (parts_with w)) -> (skeletons (fst (parts_with w)) <= n)%nat ->
  exists w', inline_ctes pv w () = Continue (w', ()) /\ skeletons (fst (parts_with w')) = skeletons (fst (parts_with w)).
Proof.
  intros Hpv. destruct w as [[rec l]|]; [|by exists None]. unfold fields_option, fields_with, inline_ctes. cbn [recursive cte_tables]. run_idiom. cbn [app].
  rewrite parts_of_list. intros Hw Hn.
  enough (exists k, each (fun c => let* q := pv c.(cte_query) in vret (mkCte c.(cte_alias) q)) l () = Continue (k, ()) /\
    skeletons (flat_map (fun c => fst (fields_cte part_query c)) k) = skeletons (flat_map (fun c => fst (fields_cte part_query c)) l)) as (k & Ek & Hk).
  { exists (Some (mkWith rec k)). split; [apply vbind_Continue; by exists k, ()|]. cbn [recursive cte_tables]. by rewrite parts_of_list. }
  induction l as [|[a q] l IH]; [by exists []|]. cbn [flat_map] in *. rewrite Forall_app in Hw. destruct Hw as [Hq Hw]. rewrite skeletons_app in Hn.
  change (fst (fields_cte part_query (mkCte a q))) with [NQ q] in *. inversion Hq as [|? ? Hq' _]; subst. rewrite skeletons_cons in Hn.
  destruct (Hpv q Hq' ltac:(lia)) as (q' & Eq & Hsk). destruct (IH Hw ltac:(lia)) as (k & Ek & Hk). exists (mkCte a q' :: k). split.
  { cbn [each]. apply vbind_Continue. exists (mkCte a q'), (). split; [apply vbind_Continue; by exists q', ()|]. apply vbind_Continue. by exists k, (). }
  cbn [flat_map]. change (fst (fields_cte part_query (mkCte a q'))) with [NQ q'].
  rewrite !skeletons_app, !skeletons_cons, Hk, Hsk. done.
Qed.

Lemma inline_query_total n q : everywhere plain_node (NQ q) -> (skeleton (NQ q) <= n)%nat -> inlined q (inline_query n q ()).
Proof.
  revert q. induction n as [|n IH]; intros q Hq Hn; [rewrite skeleton_unfold, decide_False in Hn by done; lia|]. cbn [inline_query].
  pose proof Hq as [_ Hc]%everywhere_unfold. pose proof (skeleton_unfold (NQ q)) as Hsk. cbn [sort] in Hsk. rewrite decide_False in Hsk by done.
  destruct q as [w b o l f r]. rewrite children_query in Hc, Hsk. rewrite !Forall_app in Hc. rewrite !skeletons_app in Hsk. destruct Hc as (Hw & Hb & _).
  assert (exists b', (match b with SetSelect s => let* s := inline_select (inline_query n) s in vret (with_body (mkQuery w b o l f r) (SetSelect s))
      | _ => vret (mkQuery w b o l f r) end) () = Continue (mkQuery w b' o l f r, ()) /\ skeletons (fst (parts_body b')) = skeletons (fst (parts_body b))) as (b' & Eb & Hb').
  { destruct b as [s| | |]; try by eexists. destruct (inline_select_total (inline_query n) s Hb) as (s' & Es & Ef). exists (SetSelect s'). split; [apply vbind_Continue; by exists s', ()|].
    rewrite !select_skeletons, Ef; [done|done|]. eapply (inline_select_keeps plain_node plain_local); [|exact Hb|exact Es]. by apply inline_query_keeps; [apply plain_local|]. }
  destruct (inline_ctes_total (inline_query n) n w IH Hw ltac:(lia)) as (w' & Ew & Hw'). exists (mkQuery w' b' o l f r).
  split; [apply vbind_Continue; exists (mkQuery w b' o l f r), (); split; [exact Eb|]; apply vbind_Continue; by exists w', ()|]. rewrite !skeleton_unfold, !children_query, !skeletons_app, Hb', Hw'. done.
Qed.

Lemma visit_query_free {S B} (f : Query -> V S B Query) n x s : (size x <= n)%nat -> query_free x -> SqlAst.visit (on_query f) n x s = Continue (x, s).
Proof.
  revert x s. induction n as [|n IH]; intros x s Hx Hq; [rewrite size_children in Hx; lia|]. pose proof Hq as [Hs Hc]%query_free_unfold. apply visit_Continue.
  exists x, s, (children x), s. rewrite rebuild_children. destruct x as [e| |]; try done. split; [done|]. split; [|done].
  assert (Forall (fun y => (size y <= n)%nat) (children (NE e))) as Hsz by (apply Forall_forall; intros y Hy%size_child; lia).
  clear -IH Hc Hsz. induction (children (NE e)) as [|y k IHk]; [done|]. inversion Hc; inversion Hsz; subst. cbn [each]. unfold vbind. rewrite IH, IHk by done. done.
Qed.

Lemma each_inline_total depth l : Forall (fun x => exists n y, SqlAst.visit (inline_visitor depth) n x () = Continue (y, ())) l ->
  exists n k, each (SqlAst.visit (inline_visitor depth) n) l () = Continue (k, ()).
Proof.
  induction 1 as [|x l (n & y & E) _ (m & k & Ek)]; [by exists 0%nat, []|]. exists (Nat.max n m), (y :: k). cbn [each]. apply vbind_Continue. exists y, ().
  split; [eapply visit_more; [|exact E]; lia|]. apply vbind_Continue. exists k, (). split; [|done].
  eapply each_more; [|exact Ek]. intros z s r _. apply visit_more. lia.
Qed.

Lemma visit_inline_total depth x : everywhere plain_node x -> (skeleton x <= depth)%nat -> exists n y, SqlAst.visit (inline_visitor depth) n x () = Continue (y, ()).
Proof.
  remember (skeleton x) as k eqn:Ek. revert x Ek. induction (lt_wf k) as [k _ IH]. intros x -> Hx Hd.
  destruct (decide (sort x = SExpr)) as [Hs|Hs].
  { exists (size x), x. apply visit_query_free; [done|]. destruct x; try done. by apply plain_query_free. }
  assert (exists x1, before (inline_visitor depth) x () = Continue (x1, ()) /\ everywhere plain_node x1 /\ skeleton x1 = skeleton x /\ sort x1 = sort x) as (x1 & E1 & Hx1 & Hk1 & Hs1).
  { destruct x as [e|q|t]; [done| |by exists (NF t)]. destruct (inline_query_total depth q Hx Hd) as (q' & Eq & Hq'). exists (NQ q'). split; [|split; [|done]].
    - apply vbind_Continue. by exists q', ().
    - eapply (inline_query_keeps plain_node plain_local); [done|exact Hx|exact Eq]. }
  pose proof Hx1 as [_ Hc]%everywhere_unfold. pose proof (skeleton_unfold x1) as Hsk. rewrite decide_False in Hsk by (by rewrite Hs1).
  destruct (each_inline_total depth (children x1)) as (n & l & El).
  { rewrite Forall_forall in Hc |- *. intros y Hy. apply skeleton_elem in Hy as Hyk. eapply IH; [|done|by apply Hc|]; lia. }
  exists (S n), (rebuild x1 l). apply visit_Continue. exists x1, (), l, (). split; [done|]. split; [done|]. by destruct (rebuild x1 l).
Qed.

(** C24: the visit ends for every statement whose expressions hold no queries. *)
Theorem inlining_terminates st : statement_everywhere plain_node st -> exists depth fuel st', visit depth fuel st () = Continue (st', ()).
Proof.
  intros Hst%statement_everywhere_unfold. exists (skeletons (statement_children st)).
  destruct (each_inline_total (skeletons (statement_children st)) (statement_children st)) as (n & l & El).
  { rewrite Forall_forall in Hst |- *. intros x Hx. apply visit_inline_total; [by apply Hst|by apply skeleton_elem]. }
  exists n, (rebuild_statement st l). unfold visit, visit_statement_with. apply vbind_Continue. exists st, (). split; [done|]. apply vbind_Continue. exists l, (). by split.
Qed.

(** ** Examples *)
Module InlineExamples.
Import VisitorExamples.

Definition as_ (e : Expr) (a : string) : SelectItem Expr := ExprWithAlias e (new_ident a).
Definition sub (items : list (SelectItem Expr)) : Expr := Subquery (query (SetSelect (select items []))).

(** [SELECT b AS b, b] *)
Definition inner : Query := query (SetSelect (select [as_ (col "b") "b"; UnnamedExpr (col "b")] [])).
(** [SELECT (SELECT b AS b, b) AS b, (SELECT b AS b, b)] *)
Definition loop : Query := query (SetSelect (select [as_ (Subquery inner) "b"; UnnamedExpr (Subquery inner)] [])).

(** One round of the hook on [loop] has the hook called on [loop]. *)
Lemma loop_round (pv : Query -> V unit unit Query) : pv inner () = Continue (inner, ()) -> pv loop () = Starved ->
  inline_select pv (select [as_ (Subquery inner) "b"; UnnamedExpr (Subquery inner)] []) () = Starved.
Proof. intros H1 H2. vm_compute in H1. vm_compute in H2. vm_compute. rewrite H1. vm_compute. by rewrite H2. Qed.

Lemma inner_fixed n : inline_query (S n) inner () = Continue (inner, ()).
Proof. vm_compute. reflexivity. Qed.

Lemma loop_starved depth : inline_query depth loop () = Starved.
Proof.
  induction depth as [|[|n] IH]; [done|vm_compute; reflexivity|]. remember (S n) as k eqn:Ek.
  assert (inline_query k inner () = Continue (inner, ())) as Hi by (rewrite Ek; apply inner_fixed).
  cbn [inline_query]. unfold loop at 1. cbn [query body]. unfold vbind. by rewrite (loop_round _ Hi IH).
Qed.

(** The visit of [SELECT (SELECT b AS b, b) AS b, (SELECT b AS b, b)] does not end: whatever the fuel, it is not enough. *)
Theorem inlining_diverges depth fuel : visit depth fuel (StQuery loop) () = Starved.
Proof.
  unfold visit, visit_statement_with. unfold vbind at 1. cbn. destruct fuel as [|fuel]; [done|]. unfold vbind. cbn [SqlAst.visit]. unfold vbind at 1. cbn [before inline_visitor on_query pre_visit_query].
  unfold vbind at 1. by rewrite loop_starved.
Qed.

(** Tests of the source. *)
Definition bin (a : Expr) (op : string) (b : Expr) : Expr := BinaryOp a (OtherBinary op) b.
Definition rewritten (items : list (SelectItem Expr)) (f : list From) : option (list (SelectItem Expr)) :=
  match inline_query 3 (query (SetSelect (select items f))) () with Continue (mkQuery _ (SetSelect s) _ _ _ _, _) => Some s.(projection) | _ => None end.

Example sums : rewritten [as_ (bin (num "1") "+" (num "2")) "sum"; as_ (bin (col "sum") "+" (num "3")) "total"] [] =
  Some [as_ (bin (num "1") "+" (num "2")) "sum"; as_ (bin (bin (num "1") "+" (num "2")) "+" (num "3")) "total"].
Proof. vm_compute. reflexivity. Qed.

(** Over a named table nothing is substituted in the projection; the scope of a subquery is not respected: the alias [val] replaces the column
    [val] that the subquery has from its own table. *)
Example named_table : rewritten [as_ (col "a") "b"; as_ (bin (col "b") "+" (num "1")) "c"] [table "t"] =
  Some [as_ (col "a") "b"; as_ (bin (col "b") "+" (num "1")) "c"].
Proof. vm_compute. reflexivity. Qed.

(** The first example of the documentation of the visitor: over [my_table] the alias [sum_ab] stays as it is. *)
Example doc_example_not_inlined :
  rewritten [as_ (bin (col "a") "+" (col "b")) "sum_ab"; UnnamedExpr (bin (col "sum_ab") "*" (num "2"))] [table "my_table"] =
  Some [as_ (bin (col "a") "+" (col "b")) "sum_ab"; UnnamedExpr (bin (col "sum_ab") "*" (num "2"))].
Proof. vm_compute. reflexivity. Qed.

Example captured : rewritten [as_ (num "1") "val"; UnnamedExpr (Subquery (query (SetSelect (select [UnnamedExpr (col "val")] [table "t"]))))] [] =
  Some [as_ (num "1") "val"; UnnamedExpr (Subquery (query (SetSelect (select [UnnamedExpr (num "1")] [table "t"]))))].
Proof. vm_compute. reflexivity. Qed.

(** Operators bind as the tree has them: [2] times the sum, which the text of the statement does not show without parentheses. *)
Example sum_times_two : rewritten [as_ (bin (col "a") "+" (col "b")) "s"; UnnamedExpr (bin (col "s") "*" (num "2"))] [] =
  Some [as_ (bin (col "a") "+" (col "b")) "s"; UnnamedExpr (bin (bin (col "a") "+" (col "b")) "*" (num "2"))].
Proof. vm_compute. reflexivity. Qed.

(** *** A concrete evaluation: sums of numbers *)
Definition digits (s : string) : Z := match s with "1" => 1 | "2" => 2 | "3" => 3 | _ => 0 end.
Definition number (x : Node) : option string := match x with NE (EValue (Number d _)) => Some d | _ => None end.

Lemma number_rebuild x l : number (rebuild x l) = number x.
Proof.
  unfold rebuild. destruct x as [e|q|t]; cbn [parts map_parts fst snd]; try (by destruct (snd _ l)).
  destruct e; unfold fields_expr; run_idiom; try done; repeat (case_match; simplify_eq/=; try done).
Qed.

Definition step (env : string -> Z) (x : Node) (values : list Z) : Z :=
  match head x with HIdent i => env i.(ident_value) | _ => match number x with Some d => digits d | None => fold_right Z.add 0 values end end.
Fixpoint count (fuel : nat) (env : string -> Z) (x : Node) : Z :=
  match fuel with O => 0 | S fuel => step env x (map (count fuel env) (children x)) end.
#[export] Instance sum_eval : AliasEval := {| Val := Z; ev env x := count (size x) env x |}.

Lemma count_fuel n k env x : (size x <= n)%nat -> (size x <= k)%nat -> count n env x = count k env x.
Proof.
  revert k x. induction n as [|n IH]; intros [|k] x Hn Hk; try (rewrite size_children in *; lia). cbn [count]. f_equal.
  apply map_ext_in. intros y Hy%list_elem_of_In%size_child. apply IH; lia.
Qed.

Lemma count_unfold env x : ev env x = step env x (map (ev env) (children x)).
Proof.
  cbn. rewrite size_children at 1. cbn [count]. f_equal. apply map_ext_in. intros y Hy%list_elem_of_In%total_elem. by apply count_fuel.
Qed.

#[export] Instance sum_eval_laws : AliasEvalLaws.
Proof.
  split; [done|]. intros env env' x l Hi Hs Hl. rewrite (count_unfold env' (rebuild x l)), (count_unfold env x), children_rebuild, Hl by done.
  unfold step. rewrite head_rebuild, number_rebuild. destruct (head x) as [i| | |] eqn:Eh; try done.
  destruct x as [[]| |]; try done; cbn in Eh; [by destruct (Hi ident)|by destruct (over f)].
Qed.

(** [SELECT 1 + 2 AS sum, sum + 3 AS total WHERE total] *)
Definition totals : Select :=
  mkSelect "" None None [as_ (bin (num "1") "+" (num "2")) "sum"; as_ (bin (col "sum") "+" (num "3")) "total"] [] [] [] (Some (col "total")) [] None.


Lemma inlining_terminates_witness : exists depth fuel st', visit depth fuel (StQuery (query (SetSelect totals))) () = Continue (st', ()).
Proof. apply inlining_terminates. vm_compute. repeat constructor. Defined.

End InlineExamples.
