(* ===== verification/CteRelation.v ===== *)
(** * Common table expressions in the input of FLATTEN

    [functions/src/visitors/table_functions_cte_relation.rs] and the constructors of [visitors/mod.rs].  A FLATTEN in FROM
    may use a column of a common table expression next to it; the visitor replaces the column by a subquery that selects
    it from the expression, with the expressions it refers to inlined.  The visitor has state: the expressions seen so far and
    the FROM clause of the query entered last.  The inliner calls itself on the expressions it inlines; [level] bounds the depth of
    these calls, and the number of expressions is enough, since those being inlined are on a stack and not inlined again. *)

From Stdlib Require Import ZArith Lia Ascii String.
From stdpp Require Import base option list gmap strings.
From S2P Require Import Prelude SqlAst Visitors.

#[local] Open Scope string_scope.
#[local] Open Scope visit_scope.

Definition eq_ignore_ascii_case (a b : string) : bool := String.eqb (to_ascii_lowercase a) (to_ascii_lowercase b).

Definition query_with_body (inner_select : Select) : Query := mkQuery None (SetSelect inner_select) None None None [].
Definition select_with_body (items : list (SelectItem Expr)) (relation : TableFactor) (sel : option Expr) : Select :=
  mkSelect "" None None items [] [mkTwj relation []] [] sel [mkClause "" []] None.

Notation Ctes := (gmap string Query).

Section cte_relation.
Context `{SqlText}.

Definition table_key (name : ObjectName) : string := to_ascii_lowercase (name_to_string name).

(** ** [CteInliner] *)

Fixpoint cte_inliner (ctes : Ctes) (level : nat) (stack : list string) : Visitor unit unit :=
  after_factor (fun tf =>
    match tf with
    | Table name alias _ _ =>
        let key := table_key name in
        if bool_decide (key ∈ stack) then vret tf
        else match ctes !! key with
             | Some cte_q =>
                 match level with
                 | O => fun _ => Starved
                 | S level =>
                     let* subq := visit_query (cte_inliner ctes level (key :: stack)) cte_q in
                     vret (Derived false subq alias None)
                 end
             | None => vret tf
             end
    | tf => vret tf
    end).

Definition inline_cte_refs_in_query (ctes : Ctes) : Query -> V unit unit Query := visit_query (cte_inliner ctes (base.size ctes) []).

(** ** [TableFuncInlineCte] *)

Record TableFuncInlineCte := mkState { ctes : Ctes; current_from_tables : list TableFactor }.

(** [entry(..).or_insert_with(..)] *)
Definition or_insert (k : string) (q : Query) (m : Ctes) : Ctes := match m !! k with Some _ => m | None => <[k := q]> m end.

Section collect.
Context (collect : Query -> Ctes -> Ctes).
Fixpoint collect_ctes (l : list (Cte Query)) (m : Ctes) : Ctes :=
  match l with
  | [] => m
  | c :: l => collect_ctes l (collect c.(cte_query) (or_insert (to_ascii_lowercase c.(cte_alias).(alias_name).(ident_value)) c.(cte_query) m))
  end.
End collect.

Fixpoint collect_ctes_from_query (q : Query) (m : Ctes) : Ctes :=
  match q with
  | mkQuery w _ _ _ _ _ => match w with Some w => collect_ctes collect_ctes_from_query w.(cte_tables) m | None => m end
  end.

Definition projected_columns (items : list (SelectItem Expr)) : list string :=
  omap (fun item => match item with
                    | ExprWithAlias _ alias => Some alias.(ident_value)
                    | UnnamedExpr (Identifier ident) => Some ident.(ident_value)
                    | _ => None
                    end) items.

Definition cte_names_on_same_level (self : TableFuncInlineCte) : list string :=
  omap (fun tf => match tf with
                  | Table name _ _ _ | FactorFunction _ name _ _ =>
                      if bool_decide (is_Some (self.(ctes) !! table_key name)) then Some (table_key name) else None
                  | _ => None
                  end) self.(current_from_tables).

Definition projects (ctes : Ctes) (column cte : string) : bool :=
  match ctes !! cte with
  | Some q => match body q with SetSelect s => existsb (String.eqb column) (projected_columns s.(projection)) | _ => false end
  | None => false
  end.

Definition extract_projected_columns (self : TableFuncInlineCte) (column : string) : option (string * Query) :=
  let names := cte_names_on_same_level self in
  match List.find (projects self.(ctes) column) names with
  | Some cte => option_map (pair cte) (self.(ctes) !! cte)
  | None => match names with cte :: _ => option_map (pair cte) (self.(ctes) !! cte) | [] => None end
  end.

Definition cte_is_self_referencing (alias : string) (q : Query) : bool :=
  match body q with
  | SetSelect s => existsb (fun t => match t.(relation) with Table name _ _ _ => String.eqb (table_key name) alias | _ => false end) s.(from)
  | _ => false
  end.

Definition replace_ident (self : TableFuncInlineCte) (ident : Ident) : V unit unit Expr :=
  match extract_projected_columns self ident.(ident_value) with
  | Some (alias, q) =>
      if cte_is_self_referencing alias q then vret (Identifier ident)
      else
        let* inlined_query := inline_cte_refs_in_query self.(ctes) q in
        let relation := Derived false inlined_query (Some (mkTableAlias (new_ident alias) [] true)) None in
        vret (Subquery (query_with_body (select_with_body [UnnamedExpr (Identifier (new_ident ident.(ident_value)))] relation None)))
  | None => vret (Identifier ident)
  end.

Section replace_arg.
Context (replace_expr : Expr -> V unit unit Expr).
Definition replace_arg (a : FunctionArg Expr) : V unit unit (FunctionArg Expr) :=
  match a with
  | Named name (ArgExpr inner) operator => let* e := replace_expr inner in vret (Named name (ArgExpr e) operator)
  | Unnamed (ArgExpr inner) => let* e := replace_expr inner in vret (Unnamed (ArgExpr e))
  | other => vret other
  end.
Fixpoint replace_args (l : list (FunctionArg Expr)) : V unit unit (list (FunctionArg Expr)) :=
  match l with [] => vret [] | a :: l => let* a := replace_arg a in let* l := replace_args l in vret (a :: l) end.
End replace_arg.

Fixpoint replace_expr (self : TableFuncInlineCte) (e : Expr) : V unit unit Expr :=
  match e with
  | EFunction (mkFunction n od p a fi nt o wg) =>
      let* a := match a with
                | ArgsList d l c => let* l := replace_args (replace_expr self) l in vret (ArgsList d l c)
                | a => vret a
                end in
      vret (EFunction (mkFunction n od p a fi nt o wg))
  | Identifier ident => replace_ident self ident
  | other => vret other
  end.

Definition replace_flatten_arg (self : TableFuncInlineCte) (a : FunctionArg Expr) : V unit unit (FunctionArg Expr) :=
  match a with
  | Named name (ArgExpr e) operator =>
      if eq_ignore_ascii_case (name_to_string [PartIdentifier name]) "input"
      then let* e := replace_expr self e in vret (Named name (ArgExpr e) operator) else vret a
  | other => vret other
  end.

Definition replace_flatten_args (self : TableFuncInlineCte) : list (FunctionArg Expr) -> V unit unit (list (FunctionArg Expr)) := each (replace_flatten_arg self).

(** The hooks, with the visitor's state. *)
Definition pre_visit_query (q : Query) : V TableFuncInlineCte unit Query := fun self =>
  Continue (q, mkState (collect_ctes_from_query q self.(ctes))
                 (match body q with SetSelect s => map relation s.(from) | _ => [] end)).

(** A computation that does not change the visitor. *)
Definition reading {A} (f : TableFuncInlineCte -> V unit unit A) : V TableFuncInlineCte unit A := fun self =>
  match f self () with Continue (a, _) => Continue (a, self) | Break b => Break b | Panic => Panic | Starved => Starved end.

Definition post_visit_table_factor (tf : TableFactor) : V TableFuncInlineCte unit TableFactor :=
  match tf with
  | FactorFunction lateral name args alias =>
      if eq_ignore_ascii_case (name_to_string name) "flatten"
      then let* args := reading (fun self => replace_flatten_args self args) in vret (FactorFunction lateral name args alias)
      else vret tf
  | tf => vret tf
  end.

Definition table_func_visitor : Visitor TableFuncInlineCte unit := mkVisitor vret vret pre_visit_query vret vret post_visit_table_factor.

Definition visit (s : Statement) : flow unit (Statement * TableFuncInlineCte) := visit_statement table_func_visitor s (mkState ∅ []).

End cte_relation.

(** ** The visit ends *)
Section total.
Context `{SqlText}.

Lemma stack_room (m : Ctes) (stack : list string) k : NoDup stack -> Forall (fun x => is_Some (m !! x)) stack -> is_Some (m !! k) -> k ∉ stack ->
  (S (length stack) <= base.size m)%nat.
Proof.
  intros Hn Hs Hk Hks. rewrite <- size_dom. change (S (length stack)) with (length (k :: stack)).
  rewrite <- (size_list_to_set (C := gset string) (k :: stack)) by (by constructor). apply subseteq_size. intros x. rewrite elem_of_list_to_set, elem_of_cons, elem_of_dom.
  intros [->|Hx]; [done|]. rewrite Forall_forall in Hs. by apply Hs.
Qed.

Lemma inliner_before m level stack x s : before (cte_inliner m level stack) x s = Continue (x, s).
Proof. by destruct level, x. Qed.

Lemma inliner_after_total m level stack x : NoDup stack -> Forall (fun x => is_Some (m !! x)) stack -> (base.size m <= level + length stack)%nat ->
  exists y, after (cte_inliner m level stack) x () = Continue (y, ()).
Proof.
  revert stack x. induction level as [|level IH]; intros stack x Hn Hs Hl; (destruct x as [e|q|t]; [by eexists..|]); destruct t; try (by eexists); cbn -[visit_query];
    unfold vbind at 1; (case_bool_decide as Hk; [eexists; reflexivity|]); destruct (m !! table_key name) as [q|] eqn:Eq; try (eexists; reflexivity).
  - pose proof (stack_room m stack (table_key name) Hn Hs ltac:(by eexists) Hk). lia.
  - set (v := cte_inliner m level (table_key name :: stack)).
    destruct (visit_total v (size_query q) (NQ q) ()) as (y & [] & E); [| |done|].
    + intros z []. exists z, (). unfold v. by rewrite inliner_before.
    + intros z []. destruct (IH (table_key name :: stack) z) as [z' Ez]; [by constructor|by constructor|cbn; lia|]. by exists z', ().
    + exists (NF (Derived false (match y with NQ q => q | _ => q end) alias None)). unfold visit_query, vbind. fold v. by rewrite E.
Qed.

Lemma inline_cte_refs_total m q : exists q', inline_cte_refs_in_query m q () = Continue (q', ()).
Proof.
  unfold inline_cte_refs_in_query. set (v := cte_inliner m (base.size m) []). destruct (visit_total v (size_query q) (NQ q) ()) as (y & [] & E); [| |done|].
  - intros z []. exists z, (). unfold v. by rewrite inliner_before.
  - intros z []. destruct (inliner_after_total m (base.size m) [] z) as [z' Ez]; [constructor|constructor|cbn; lia|]. by exists z', ().
  - exists (match y with NQ q => q | _ => q end). unfold visit_query, vbind. fold v. by rewrite E.
Qed.

Lemma replace_ident_total self i : exists e, replace_ident self i () = Continue (e, ()).
Proof.
  unfold replace_ident. destruct (extract_projected_columns self _) as [[alias q]|]; [|by eexists]. case_match; [by eexists|].
  destruct (inline_cte_refs_total self.(ctes) q) as [q' E]. eexists. unfold vbind. rewrite E. done.
Qed.

Lemma replace_expr_total self e : exists e', replace_expr self e () = Continue (e', ()).
Proof.
  enough (forall x, match x with NE e => exists e', replace_expr self e () = Continue (e', ()) | _ => True end) as Hx by exact (Hx (NE e)). clear e.
  intros x. induction x as [x IH] using node_ind. destruct x as [e| |]; try done. destruct e; try (by eexists); [apply replace_ident_total|].
  pose proof (children_function f) as Hf. destruct f as [n od p a fi nt o wg]. cbn [replace_expr]. destruct a as [|q|d l c]; try (by eexists).
  enough (exists l', replace_args (replace_expr self) l () = Continue (l', ())) as [l' El] by (eexists; unfold vbind; by rewrite El).
  assert (forall e, NE e ∈ flat_map (fun x => fst (fields_arg part_expr x)) l -> exists e', replace_expr self e () = Continue (e', ())) as IH'.
  { intros e He. apply (IH (NE e)). rewrite Hf. cbn [func_args fields_args]. run_idiom. rewrite (parts_of_list (fields_arg part_expr)). rewrite !elem_of_app. tauto. }
  clear -IH'. induction l as [|a l IHl]; [by eexists|]. cbn [flat_map] in IH'.
  destruct IHl as [l' El]; [intros e He; apply IH'; apply elem_of_app; by right|].
  assert (exists a', replace_arg (replace_expr self) a () = Continue (a', ())) as [a' Ea].
  { destruct a as [n [e| |] op|n a op|[e| |]]; try (by eexists); (destruct (IH' e) as [e' Ee]; [apply elem_of_app; left; left|]); eexists; cbn; unfold vbind; by rewrite Ee. }
  exists (a' :: l'). cbn [replace_args]. unfold vbind. by rewrite Ea, El.
Qed.

Lemma replace_flatten_args_total self l : exists l', replace_flatten_args self l () = Continue (l', ()).
Proof.
  unfold replace_flatten_args. induction l as [|a l [l' El]]; [by eexists|].
  assert (exists a', replace_flatten_arg self a () = Continue (a', ())) as [a' Ea].
  { destruct a as [n [e| |] op|n a op|a]; try (by eexists). cbn. case_match; [|by eexists]. destruct (replace_expr_total self e) as [e' Ee]. eexists. unfold vbind. by rewrite Ee. }
  exists (a' :: l'). cbn [each]. unfold vbind. by rewrite Ea, El.
Qed.

(** C23: the visit of every statement ends, however the common table expressions refer to each other: the inliner is not called more deeply
    than there are expressions. *)
Theorem cte_visit_terminates st : exists st' self, visit st = Continue (st', self).
Proof.
  destruct (visit_statement_total table_func_visitor st (mkState ∅ [])) as (st' & self & E); [..|by exists st', self].
  - intros [e|q|t] s; by eexists _, _.
  - intros [e|q|t] s; try (by eexists _, _). destruct t; try (by eexists _, _). cbn. case_match; [|by eexists _, _].
    destruct (replace_flatten_args_total s args) as [l E]. eexists _, _. unfold vbind, reading. by rewrite E.
  - intros x s. by eexists _, _.
  - intros x s. by eexists _, _.
Qed.

End total.

(** ** What it keeps *)
Section keep.
Context `{SqlText} (P : Kind -> Prop) (HO : P KOther).
Notation ok_ctes m := (map_Forall (fun _ q => all_kinds P (NQ q)) m).
Notation local_P := (kind_local P).

Lemma derived_kinds lateral q alias sample : all_kinds P (NQ q) -> all_kinds P (NF (Derived lateral q alias sample)).
Proof. intros Hq. apply all_kinds_unfold. split; [done|]. constructor; [exact Hq|constructor]. Qed.

Lemma visit_query_keeps (v : Visitor unit unit) q q' : (forall x s, before v x s = Continue (x, s)) -> keeps (fun x => P (kind x)) (fun _ => True) (after v) ->
  all_kinds P (NQ q) -> visit_query v q () = Continue (q', ()) -> all_kinds P (NQ q').
Proof.
  intros Hb Ha Hq (y & [] & E & [= <-])%vbind_Continue. pose proof (visit_sort _ _ _ _ _ _ E) as Hs.
  destruct (visit_keeps v (fun x => P (kind x)) local_P (fun _ => True) (size_query q)) with (x := NQ q) (s := ()) (y := y) (s' := ()) as [_ Hy]; try done; [|by destruct y].
  intros x [] z [] _ Hx. rewrite Hb. by intros [= <-].
Qed.

Lemma inliner_keeps m level stack : ok_ctes m -> keeps (fun x => P (kind x)) (fun _ => True) (after (cte_inliner m level stack)).
Proof.
  intros Hm. revert stack. induction level as [|level IH]; intros stack x [] y [] _ Hx; (destruct x as [e|q|t]; [by intros [= <-]..|]); destruct t; try (by intros [= <-]);
    cbn -[visit_query]; intros (t' & [] & E & [= <-])%vbind_Continue; revert E; (case_bool_decide; [by intros [= <-]|]);
    destruct (m !! table_key name) as [q|] eqn:Eq; try (by intros [= <-]).
  intros (q' & [] & Ev & [= <-])%vbind_Continue. split; [done|]. apply derived_kinds. eapply visit_query_keeps; [|apply IH|exact (Hm _ _ Eq)|exact Ev]. intros. apply inliner_before.
Qed.

Lemma inline_cte_refs_keeps m q q' : ok_ctes m -> all_kinds P (NQ q) -> inline_cte_refs_in_query m q () = Continue (q', ()) -> all_kinds P (NQ q').
Proof. intros Hm. apply visit_query_keeps; [intros; apply inliner_before|by apply inliner_keeps]. Qed.

Lemma ident_kinds i : all_kinds P (NE (Identifier i)).
Proof. by apply (all_kinds_leaf P _ []). Qed.

Lemma replace_ident_keeps self i e : ok_ctes self.(ctes) -> replace_ident self i () = Continue (e, ()) -> all_kinds P (NE e).
Proof.
  intros Hm. unfold replace_ident. destruct (extract_projected_columns self _) as [[alias q]|] eqn:Ex; [|intros [= <-]; apply ident_kinds].
  case_match; [intros [= <-]; apply ident_kinds|]. intros (q' & [] & E & [= <-])%vbind_Continue.
  assert (all_kinds P (NQ q)) as Hq.
  { unfold extract_projected_columns in Ex. destruct (List.find _ _) as [c|]; [|destruct (cte_names_on_same_level self) as [|c l]; [done|]];
      destruct (ctes self !! c) as [q0|] eqn:Ec; try done; injection Ex as <- <-; by apply (Hm _ _ Ec). }
  pose proof (inline_cte_refs_keeps _ _ _ Hm Hq E) as Hq'. apply all_kinds_unfold. split; [done|]. constructor; [|constructor].
  apply all_kinds_unfold. split; [done|]. constructor; [apply ident_kinds|]. constructor; [by apply derived_kinds|constructor].
Qed.

Lemma replace_expr_keeps self e e' : ok_ctes self.(ctes) -> all_kinds P (NE e) -> replace_expr self e () = Continue (e', ()) -> all_kinds P (NE e').
Proof.
  intros Hm. enough (forall x, match x with NE e => forall e', all_kinds P (NE e) -> replace_expr self e () = Continue (e', ()) -> all_kinds P (NE e') | _ => True end) as Hx
    by exact (Hx (NE e) e'). clear e e'.
  intros x. induction x as [x IH] using node_ind. destruct x as [e| |]; try done. destruct e; try (by intros e' He [= <-]); intros e' He; [by apply replace_ident_keeps|].
  pose proof (children_function f) as Hf. destruct f as [n od p a fi nt o wg]. apply all_kinds_unfold in He as [Hk Hc]. cbn [replace_expr].
  intros (a' & [] & Ea & [= <-])%vbind_Continue. change (all_kinds P (NE (EFunction (mkFunction n (uses_odbc_syntax (mkFunction n od p a fi nt o wg)) p a' fi nt o wg)))).
  apply (function_kinds P (mkFunction n od p a fi nt o wg) n a' Hk Hc). rewrite Hf in Hc, IH. cbn [parameters func_args func_filter over within_group] in Hc, IH. rewrite !Forall_app in Hc.
  destruct Hc as (_ & Hc & _). destruct a as [|q|d l c]; try (by injection Ea as <-). apply vbind_Continue in Ea as (l' & [] & El & [= <-]).
  unfold args_kinds. cbn [fields_args] in *. revert Hc IH. run_idiom. rewrite !(parts_of_list (fields_arg part_expr)), !Forall_app. intros [[_ Hl] Hcl] IH. split; [split; [done|]|done].
  assert (forall e e', NE e ∈ flat_map (fun x => fst (fields_arg part_expr x)) l -> replace_expr self e () = Continue (e', ()) -> all_kinds P (NE e')) as IH'.
  { intros e e' He. apply (IH (NE e)); [rewrite !elem_of_app; tauto|]. rewrite Forall_forall in Hl. by apply Hl. }
  clear -IH' El Hl. revert l' El. induction l as [|a l IHl]; intros l'; cbn [replace_args]; [by intros [= <-]|]. cbn [flat_map] in *. rewrite Forall_app in Hl. destruct Hl as [Ha Hl].
  intros (a1 & [] & E1 & (l1 & [] & E2 & [= <-])%vbind_Continue)%vbind_Continue. cbn [flat_map]. apply Forall_app. split; [|apply IHl; [done| |done]; intros; eapply IH'; [apply elem_of_app; by right|done]].
  assert (forall e e', NE e ∈ fst (fields_arg part_expr a) -> replace_expr self e () = Continue (e', ()) -> all_kinds P (NE e')) as IHa by (intros e e' He; apply IH'; apply elem_of_app; by left).
  destruct a as [nm [e| |] op|nm a op|[e| |]]; cbn in E1; try (by injection E1 as <-); apply vbind_Continue in E1 as (e' & [] & Ee & [= <-]);
    (constructor; [|constructor]); (eapply IHa; [left|exact Ee]).
Qed.

Lemma replace_flatten_args_keep self l l' : ok_ctes self.(ctes) -> Forall (all_kinds P) (fst (fields_list (fields_arg part_expr) l)) ->
  replace_flatten_args self l () = Continue (l', ()) -> Forall (all_kinds P) (fst (fields_list (fields_arg part_expr) l')).
Proof.
  intros Hm. rewrite !parts_of_list, !Forall_flat_map. unfold replace_flatten_args. revert l'. induction l as [|a l IH]; intros l' Hl; cbn [each]; [by intros [= <-]|].
  inversion Hl as [|? ? Ha Hl']; subst. intros (a1 & [] & E1 & (l1 & [] & E2 & [= <-])%vbind_Continue)%vbind_Continue. constructor; [|by apply IH].
  destruct a as [nm [e| |] op|nm a op|a]; cbn in E1; try (by injection E1 as <-). revert E1. case_match; [|by intros [= <-]].
  intros (e' & [] & Ee & [= <-])%vbind_Continue. inversion Ha; subst. constructor; [by eapply replace_expr_keeps|constructor].
Qed.

Lemma collect_keeps q m : all_kinds P (NQ q) -> ok_ctes m -> ok_ctes (collect_ctes_from_query q m).
Proof.
  enough (forall x, match x with NQ q => forall m, all_kinds P (NQ q) -> ok_ctes m -> ok_ctes (collect_ctes_from_query q m) | _ => True end) as Hx by exact (Hx (NQ q) m). clear q m.
  intros x. induction x as [x IH] using node_ind. destruct x as [|q|]; try done. intros m Hq Hm. destruct q as [[[rec l]|] b o li f r]; [|done]. cbn [collect_ctes_from_query cte_tables].
  apply all_kinds_unfold in Hq as [_ Hc]. rewrite children_query in Hc, IH. rewrite !Forall_app in Hc. destruct Hc as [Hc _].
  assert (fst (parts_with (Some (mkWith rec l))) = map (fun c => NQ c.(cte_query)) l) as E.
  { unfold fields_option, fields_with. cbn [recursive cte_tables]. run_idiom. cbn [app]. rewrite parts_of_list. clear. induction l as [|[a q] l IHl]; [done|]. cbn [flat_map map]. by rewrite IHl. }
  rewrite E in Hc, IH. assert (forall q m, NQ q ∈ map (fun c => NQ c.(cte_query)) l -> all_kinds P (NQ q) -> ok_ctes m -> ok_ctes (collect_ctes_from_query q m)) as IH'.
  { intros q m' Hq. apply (IH (NQ q)). apply elem_of_app. by left. }
  clear -IH' Hc Hm. revert m Hm. induction l as [|[a q] l IHl]; intros m Hm; [done|]. cbn [collect_ctes cte_query cte_alias] in *. cbn [map] in *. inversion Hc; subst.
  apply IHl; [done|intros; apply IH'; [by right|done..]|]. apply IH'; [left|done|]. unfold or_insert. case_match; [done|]. by apply map_Forall_insert_2.
Qed.

Lemma cte_relation_keeps st st' self : all_statement_kinds P st -> visit st = Continue (st', self) -> all_statement_kinds P st'.
Proof.
  intros Hst E. eapply (visit_statement_keeps table_func_visitor (fun x => P (kind x)) local_P (fun self => ok_ctes self.(ctes))); [..|exact Hst|exact E].
  - intros [e|q|t] s y s' Hs Hx; cbn; try (by intros [= <- <-]). intros [= <- <-]. split; [|done]. by apply collect_keeps.
  - intros [e|q|t] s y s' Hs Hx; try (by intros [= <- <-]). destruct t; try (by intros [= <- <-]). cbn. case_match; [|by intros [= <- <-]].
    intros (t' & s1 & (args' & s2 & Ea & [= <- <-])%vbind_Continue & [= <- <-])%vbind_Continue. unfold reading in Ea.
    destruct (replace_flatten_args s args ()) as [[l []]| | |] eqn:El; try done. injection Ea as <- <-. split; [done|].
    apply all_kinds_unfold in Hx as [_ Hc]. apply all_kinds_unfold. split; [done|]. unfold children in *. cbn [parts map_parts fst fields_factor] in *. revert Hc. run_idiom. cbn [app].
    intros Hc. by eapply replace_flatten_args_keep.
  - by intros x s y s' Hs Hx [= <- <-].
  - by intros x s y s' Hs Hx [= <- <-].
  - apply map_Forall_empty.
Qed.

End keep.

(** ** Inlined queries stand on their own *)
Section acyclic.
Context `{SqlText} (m : Ctes).

(** The expression a table factor names. *)
Definition names_cte (x : Node) : option string :=
  match x with NF (Table name _ _ _) => if bool_decide (is_Some (m !! table_key name)) then Some (table_key name) else None | _ => None end.

Lemma names_cte_rebuild x l : names_cte (rebuild x l) = names_cte x.
Proof.
  unfold rebuild. destruct x as [e|q|t]; cbn [parts map_parts fst snd]; try (by destruct (snd _ l)).
  destruct t; unfold fields_factor; run_idiom; repeat (case_match; simplify_eq/=; try done).
Qed.

Definition unnamed (stack : list string) (x : Node) : Prop := match names_cte x with Some k => k ∉ stack | None => True end.
Definition free_of_ctes (x : Node) : Prop := names_cte x = None.

Lemma unnamed_local stack : local (unnamed stack).
Proof. intros x l _. unfold unnamed. by rewrite names_cte_rebuild. Qed.

(** The expressions refer to those of smaller rank only. *)
Context (rank : string -> nat).
Hypothesis acyclic : map_Forall (fun k q => everywhere (fun x => match names_cte x with Some j => (rank j < rank k)%nat | None => True end) (NQ q)) m.

(** What is on the stack has a larger rank than what is inlined. *)
Definition above (stack : list string) (x : Node) : Prop := match names_cte x with Some k => forall j, j ∈ stack -> (rank k < rank j)%nat | None => True end.

Lemma above_local stack : local (above stack).
Proof. intros x l _. unfold above. by rewrite names_cte_rebuild. Qed.

Lemma inlined_above stack k q : m !! k = Some q -> (forall j, j ∈ stack -> (rank k < rank j)%nat) -> everywhere (above (k :: stack)) (NQ q).
Proof.
  intros Hk Hr. eapply everywhere_impl; [|exact (acyclic _ _ Hk)]. intros x. unfold above. destruct (names_cte x) as [i|]; [|done].
  intros Hi j Hj. apply elem_of_cons in Hj as [->|Hj]; [done|]. apply Hr in Hj. lia.
Qed.

Lemma visit_query_turns level stack q q' : turns (cte_inliner m level stack) (above stack) free_of_ctes -> everywhere (above stack) (NQ q) ->
  visit_query (cte_inliner m level stack) q () = Continue (q', ()) -> everywhere free_of_ctes (NQ q').
Proof.
  intros HT Hq (y & [] & E & [= <-])%vbind_Continue. pose proof (visit_sort _ _ _ _ _ _ E) as Hs.
  apply (visit_turns _ (above stack) free_of_ctes (above_local stack)) in E; [by destruct y| |done|done].
  intros x s z s'. rewrite inliner_before. by intros [= <- _].
Qed.

Lemma inliner_turns level stack : turns (cte_inliner m level stack) (above stack) free_of_ctes.
Proof.
  revert stack. induction level as [|level IH]; intros stack x [] y [] Hx Hc;
    (destruct x as [e|q|t]; [by intros [= <-]; apply everywhere_unfold..|]); destruct t; try (by intros [= <-]; apply everywhere_unfold);
    cbn -[visit_query children]; intros (t' & [] & E & [= <-])%vbind_Continue; revert E; unfold above in Hx; cbn [names_cte] in Hx;
    (destruct (m !! table_key name) as [q|] eqn:Eq;
      [rewrite bool_decide_true in Hx by (by eexists); rewrite bool_decide_false by (intros Hk%Hx; lia)
      |intros E; assert (t' = Table name alias args rest) as -> by (revert E; destruct (bool_decide (table_key name ∈ stack)); by intros [= <-]); apply everywhere_unfold; split; [|done];
       unfold free_of_ctes; cbn [names_cte]; rewrite bool_decide_false; [done|by rewrite Eq; intros []]]).
  - done.
  - intros (q' & [] & Ev & [= <-])%vbind_Continue. apply everywhere_unfold. split; [done|]. constructor; [|constructor].
    eapply visit_query_turns; [apply IH| |exact Ev]. by apply inlined_above.
Qed.

(** C21: when the common table expressions refer to each other without a cycle, a query with its references inlined names none of them. *)
Theorem inlined_query_is_closed q : exists q', inline_cte_refs_in_query m q () = Continue (q', ()) /\ everywhere free_of_ctes (NQ q').
Proof.
  destruct (inline_cte_refs_total m q) as [q' E]. exists q'. split; [done|]. eapply visit_query_turns; [apply inliner_turns| |exact E].
  apply Forall_true. intros x. unfold above. destruct (names_cte x); [|done]. intros j Hj. by apply not_elem_of_nil in Hj.
Qed.

End acyclic.

(** ** Examples *)
Module CteExamples.
Import VisitorExamples.

Definition cte (n : string) (q : Query) : Cte Query := mkCte (mkTableAlias (new_ident n) [] true) q.
Definition flatten_ (e : Expr) : From := mkTwj (FactorFunction true (simple_name "FLATTEN") [Named (new_ident "INPUT") (ArgExpr e) "=>"] None) [].
Definition with_query (ctes : list (Cte Query)) (s : Select) : Query := mkQuery (Some (mkWith false ctes)) (SetSelect s) None None None [].
Definition star : SelectItem Expr := OtherItem (mkClause "*" []).

Definition base : Query := query (SetSelect (select [ExprWithAlias (str "{}") (new_ident "jsontext")] [])).
Definition inlined_base (q : Query) : Expr :=
  Subquery (query_with_body (select_with_body [UnnamedExpr (col "jsontext")] (Derived false q (Some (mkTableAlias (new_ident "base") [] true)) None) None)).

(** The test of the source. *)
Definition intermediate (e : Expr) : Query := query (SetSelect (select [UnnamedExpr (col "value")] [table "base"; flatten_ (call "parse_json" [e])])).
Example inlined_column :
  match visit (StQuery (with_query [cte "base" base; cte "intermediate" (intermediate (col "jsontext"))] (select [star] [table "intermediate"]))) with
  | Continue (st, _) => st = StQuery (with_query [cte "base" base; cte "intermediate" (intermediate (inlined_base base))] (select [star] [table "intermediate"]))
  | _ => False
  end.
Proof. vm_compute. reflexivity. Qed.

(** In the query that has the WITH clause the column is left alone: the FROM clause the visitor remembers is the one of the expression it
    visited last. *)
Definition outer : Statement := StQuery (with_query [cte "base" base] (select [star] [table "base"; flatten_ (col "jsontext")])).
Example outer_left_alone : match visit outer with Continue (st, self) => st = outer /\ self.(current_from_tables) = [] | _ => False end.
Proof. vm_compute. split; reflexivity. Qed.

(** Expressions that refer to each other. *)
Definition knot : Ctes := {["a" := query (SetSelect (select [star] [table "b"])); "b" := query (SetSelect (select [star] [table "a"]))]}.
Definition derived (s : Select) : From := mkTwj (Derived false (query (SetSelect s)) None None) [].
Example knot_inlined : inline_cte_refs_in_query knot (query (SetSelect (select [star] [table "a"]))) () =
  Continue (query (SetSelect (select [star] [derived (select [star] [derived (select [star] [table "a"])])])), ()).
Proof. vm_compute. reflexivity. Qed.

Definition chain : Ctes := {["a" := query (SetSelect (select [star] [table "t"])); "b" := query (SetSelect (select [star] [table "a"]))]}.
Lemma inlined_query_is_closed_witness : exists q', inline_cte_refs_in_query chain (query (SetSelect (select [star] [table "b"]))) () = Continue (q', ()) /\
  everywhere (free_of_ctes chain) (NQ q').
Proof.
  apply (inlined_query_is_closed chain (fun k => if String.eqb k "b" then 1%nat else 0%nat)).
  unfold chain. rewrite !map_Forall_insert, map_Forall_singleton by done. split; vm_compute; repeat constructor.
Defined.

End CteExamples.
