(* ===== verification/StatementRewriting.v ===== *)
(** * The rewriting of a statement before it is planned

    [postprocess_query_statement_with_validation] of [executor/src/query.rs]: the visitors in their order, the check for functions that
    are not implemented among them, and the PARTITION BY clause of a table set aside meanwhile.  A failure of a visitor is an error
    of the query; [depth] and [fuel] are those of the alias inlining, the only visitor that may not end. *)

From Stdlib Require Import ZArith Lia Ascii String.
From stdpp Require Import base option list gmap strings.
From S2P Require Import Prelude SqlAst Visitors AliasInlining CteRelation.

#[local] Open Scope string_scope.

(** The errors of [executor/src/error.rs] this function raises. *)
Inductive RewriteError :=
| UnimplementedFunction (source : Unimplemented.UnimplementedFunctionError)
| SqlParser (message : string).

Inductive DFStatement :=
| DFPlain (statement : Statement)
| DFExplain (statement : DFStatement)
| DFOther (text : string).

Definition flow_bind {B A C} (r : flow B A) (f : A -> flow B C) : flow B C :=
  match r with Continue a => f a | Break b => Break b | Panic => Panic | Starved => Starved end.
Declare Scope flow_scope.
Notation "'let+' x ':=' r 'in' k" := (flow_bind r (fun x => k)) (at level 10, x pattern, r at level 100, k at level 200) : flow_scope.
#[local] Open Scope flow_scope.

(** [let _ = stmt.visit(..)] ignores a break; [context(..)?] turns it into an error. *)
Definition ignoring {S B : Type} (st : Statement) (r : flow B (Statement * S)) : flow RewriteError Statement :=
  match r with Continue (st, _) => Continue st | Break _ => Continue st | Panic => Panic | Starved => Starved end.
Definition raising {S B : Type} (error : B -> RewriteError) (r : flow B (Statement * S)) : flow RewriteError Statement :=
  match r with Continue (st, _) => Continue st | Break b => Break (error b) | Panic => Panic | Starved => Starved end.

Section postprocess.
Context `{SqlText} (fs : Unimplemented.SnowflakeFunctions) (depth fuel : nat).

(** [ct.partition_by.take()] and its way back. *)
Definition take_partition (st : Statement) : option Expr * Statement :=
  match st with
  | CreateTable c => (c.(partition_by), CreateTable (mkCreateTable c.(create_name) c.(columns) c.(create_query) None c.(create_rest)))
  | st => (None, st)
  end.
Definition put_partition (p : option Expr) (st : Statement) : Statement :=
  match st with
  | CreateTable c => CreateTable (mkCreateTable c.(create_name) c.(columns) c.(create_query) p c.(create_rest))
  | st => st
  end.

Definition run_visitors (st : Statement) : flow RewriteError Statement :=
  let+ st := ignoring st (RLikeRegexp.visit st ()) in
  let+ st := ignoring st (FunctionsRewriter.visit st ()) in
  let+ st := ignoring st (LikeILikeAny.visit st ()) in
  let+ st := ignoring st (TopLimit.visit st ()) in
  let+ st := raising UnimplementedFunction (Unimplemented.check_unimplemented_functions fs st) in
  let+ st := ignoring st (CopyIntoIdentifiers.visit st ()) in
  let+ st := ignoring st (SelectExprAliases.visit st ()) in
  let+ st := ignoring st (AliasInlining.visit depth fuel st ()) in
  let+ st := raising SqlParser (FetchToLimit.visit st) in
  let+ st := ignoring st (TableFunctions.visit st ()) in
  let+ st := ignoring st (TimestampVisitor.visit st ()) in
  let+ st := ignoring st (CteRelation.visit st) in
  ignoring st (VariantVisitors.visit_all st ()).

Definition postprocess_statement (value : Statement) : flow RewriteError Statement :=
  let (stashed_partition_by, value) := take_partition value in
  let+ value := run_visitors value in
  Continue (put_partition stashed_partition_by value).

Definition postprocess_query_statement_with_validation (statement : DFStatement) : flow RewriteError DFStatement :=
  match statement with
  | DFPlain value => let+ value := postprocess_statement value in Continue (DFPlain value)
  | DFExplain (DFPlain value) => let+ value := postprocess_statement value in Continue (DFExplain (DFPlain value))
  | statement => Continue statement
  end.

(** ** PARTITION BY *)

Definition same_statement (st st' : Statement) : Prop :=
  match st, st' with
  | CreateTable c, CreateTable c' => c'.(create_name) = c.(create_name)
  | StQuery _, StQuery _ | CopyIntoSnowflake _, CopyIntoSnowflake _ | OtherStatement _ _ _ _, OtherStatement _ _ _ _ => True
  | _, _ => False
  end.

#[export] Instance same_statement_preorder : PreOrder same_statement.
Proof. split; [by intros []|]. intros [] [] []; cbn; try done. congruence. Qed.

Lemma rebuild_same st l : same_statement st (rebuild_statement st l).
Proof.
  unfold rebuild_statement, statement_parts. destruct st; unfold fields_statement; run_idiom; repeat (case_match; simplify_eq/=; try done).
Qed.

Lemma visit_same {S B} (v : Visitor S B) fuel_ st s st' s' :
  (forall st s st' s', v.(pre_visit_statement) st s = Continue (st', s') -> same_statement st st') ->
  (forall st s st' s', v.(post_visit_statement) st s = Continue (st', s') -> same_statement st st') ->
  visit_statement_with v fuel_ st s = Continue (st', s') -> same_statement st st'.
Proof.
  intros Hp Hq (st1 & s1 & H1 & (l & s2 & _ & H2)%vbind_Continue)%vbind_Continue. etransitivity; [by eapply Hp|]. etransitivity; [apply (rebuild_same st1 l)|by eapply Hq].
Qed.

(** For the hooks a visitor does not have. *)
Ltac no_hook := by intros ? ? ? ? [= <- _].

Lemma flow_bind_Continue {B A C} (r : flow B A) (f : A -> flow B C) c : flow_bind r f = Continue c <-> exists a, r = Continue a /\ f a = Continue c.
Proof. destruct r; naive_solver. Qed.

Lemma ignoring_Continue {S B} st (r : flow B (Statement * S)) st' : ignoring st r = Continue st' -> (exists s, r = Continue (st', s)) \/ (exists b, r = Break b /\ st' = st).
Proof. destruct r as [[]| | |]; naive_solver. Qed.

Lemma ignoring_same {S B} st (r : flow B (Statement * S)) st' : (forall st' s, r = Continue (st', s) -> same_statement st st') -> ignoring st r = Continue st' -> same_statement st st'.
Proof. intros Hr [(s & ->)|(b & _ & ->)]%ignoring_Continue; [by eapply Hr|done]. Qed.

Lemma raising_Continue {S B} (e : B -> RewriteError) (r : flow B (Statement * S)) st' : raising e r = Continue st' -> exists s, r = Continue (st', s).
Proof. destruct r as [[]| | |]; naive_solver. Qed.

Lemma visit_all_same st s st' s' : VariantVisitors.visit_all st s = Continue (st', s') -> same_statement st st'.
Proof.
  intros (st1 & s1 & H1 & (st2 & s2 & H2 & (st3 & s3 & H3 & (st4 & s4 & H4 & H5)%vbind_Continue)%vbind_Continue)%vbind_Continue)%vbind_Continue.
  etransitivity; [eapply visit_same; [| |exact H1]; no_hook|]. etransitivity; [eapply visit_same; [| |exact H2]; no_hook|].
  etransitivity; [eapply visit_same; [| |exact H3]; no_hook|].
  etransitivity; [eapply visit_same; [| |exact H4]; [no_hook|]; by intros [] ? ? ? [= <- _]|].
  eapply visit_same; [| |exact H5]; no_hook.
Qed.

Lemma run_visitors_same st st' : run_visitors st = Continue st' -> same_statement st st'.
Proof.
  unfold run_visitors.
  intros (st1 & H1 & (st2 & H2 & (st3 & H3 & (st4 & H4 & (st5 & H5 & (st6 & H6 & (st7 & H7 & (st8 & H8 & (st9 & H9 & (st10 & H10 & (st11 & H11 & (st12 & H12 & H13)
    %flow_bind_Continue)%flow_bind_Continue)%flow_bind_Continue)%flow_bind_Continue)%flow_bind_Continue)%flow_bind_Continue)%flow_bind_Continue)%flow_bind_Continue)
    %flow_bind_Continue)%flow_bind_Continue)%flow_bind_Continue)%flow_bind_Continue.
  etransitivity; [eapply ignoring_same; [|exact H1]; intros ? ?; apply visit_same; no_hook|].
  etransitivity; [eapply ignoring_same; [|exact H2]; intros ? ?; apply visit_same; no_hook|].
  etransitivity; [eapply ignoring_same; [|exact H3]; intros ? ?; apply visit_same; no_hook|].
  etransitivity; [eapply ignoring_same; [|exact H4]; intros ? ?; apply visit_same; [|no_hook]; intros [q| | |] ? ? ?; cbn; [destruct (TopLimit.process_query q)|..]; by try intros [= <- _]|].
  etransitivity; [apply raising_Continue in H5 as [s H5]; revert H5; apply visit_same; no_hook|].
  etransitivity; [eapply ignoring_same; [|exact H6]; intros ? ?; apply visit_same; [|no_hook]; by intros [] ? ? ? [= <- _]|].
  etransitivity; [eapply ignoring_same; [|exact H7]; intros ? ?; apply visit_same; no_hook|].
  etransitivity; [eapply ignoring_same; [|exact H8]; intros ? ?; apply visit_same; no_hook|].
  etransitivity; [apply raising_Continue in H9 as [s H9]; revert H9; apply visit_same; no_hook|].
  etransitivity; [eapply ignoring_same; [|exact H10]; intros ? ?; apply visit_same; no_hook|].
  etransitivity; [eapply ignoring_same; [|exact H11]; intros ? ?; apply visit_same; no_hook|].
  etransitivity; [eapply ignoring_same; [|exact H12]; intros ? ?; apply visit_same; no_hook|].
  eapply ignoring_same; [|exact H13]. intros ? ?. apply visit_all_same.
Qed.

(** C25: the PARTITION BY clause of CREATE TABLE takes no part in the rewriting: no function in it is refused, what the rest of the statement
    becomes does not depend on it, and it is as before in the statement that is planned. *)
Theorem partition_clause_untouched c :
  match postprocess_statement (CreateTable c), postprocess_statement (put_partition None (CreateTable c)) with
  | Continue st, Continue st0 => st = put_partition c.(partition_by) st0 /\ exists c', st = CreateTable c' /\ c'.(partition_by) = c.(partition_by) /\ c'.(create_name) = c.(create_name)
  | Break e, Break e0 => e = e0
  | Panic, Panic | Starved, Starved => True
  | _, _ => False
  end.
Proof.
  unfold postprocess_statement. cbn [take_partition put_partition create_name columns create_query partition_by create_rest].
  destruct (run_visitors _) as [st| | |] eqn:E; cbn [flow_bind]; try done. apply run_visitors_same in E. destruct st as [| |c'|]; try done. cbn in E |- *.
  split; [done|]. by eexists.
Qed.

(** ** The normal form *)

(** What the planner may be given: the kinds of nodes that are rewritten are gone. *)
Definition plannable (k : Kind) : Prop :=
  match k with
  | KRLike | KAny | KFetch | KArray | KJsonAccess => False
  | KCast t => timestamp_cast t = false
  | KFunction _ | KOther => True
  end.

(** The visitors that rewrite expressions never break. *)
Lemma each_unbroken {S B A C} (f : A -> V S B C) l s b : (forall x s b, x ∈ l -> f x s <> Break b) -> each f l s <> Break b.
Proof.
  revert s. induction l as [|x l IH]; intros s Hf; cbn [each]; [done|]. unfold vbind.
  destruct (f x s) as [[y s1]|b'| |] eqn:E; try done; [|exfalso; eapply Hf; [left|exact E]].
  destruct (each f l s1) as [[k s2]|b'| |] eqn:E2; try done. intros [= ->]. eapply IH; [|exact E2]. intros. apply Hf. by right.
Qed.

Lemma rewriter_unbroken h n x s b : SqlAst.visit (partial_rewriter h) n x s <> Break b.
Proof.
  revert x s b. induction n as [|n IH]; intros x s b; [done|]. cbn [SqlAst.visit]. unfold vbind at 1.
  destruct (before _ x s) as [[x1 s1]|b'| |] eqn:Eb; try done; [|by destruct x]. unfold vbind.
  destruct (each _ (children x1) s1) as [[l s2]|b'| |] eqn:E; try done; [|exfalso; eapply each_unbroken; [|exact E]; intros; apply IH].
  destruct (rebuild x1 l) as [e|q|t]; cbn; try done. unfold vbind. by destruct (h e).
Qed.

Lemma rewriter_statement_unbroken h st b : visit_statement (partial_rewriter h) st () <> Break b.
Proof.
  unfold visit_statement, visit_statement_with, vbind. cbn. destruct (each _ _ ()) as [[l []]|b'| |] eqn:E; try done.
  exfalso. eapply each_unbroken; [|exact E]. intros. apply rewriter_unbroken.
Qed.

Lemma ignoring_rewriter h st st' : ignoring st (visit_statement (partial_rewriter h) st ()) = Continue st' ->
  visit_statement (partial_rewriter h) st () = Continue (st', ()).
Proof. intros [([] & ->)|(b & E & _)]%ignoring_Continue; [done|by apply rewriter_statement_unbroken in E]. Qed.

(** Where a visitor breaks, the statement is as before. *)
Lemma ignoring_keeps {S B} P st (r : flow B (Statement * S)) st' : (forall st' s, all_statement_kinds P st -> r = Continue (st', s) -> all_statement_kinds P st') ->
  all_statement_kinds P st -> ignoring st r = Continue st' -> all_statement_kinds P st'.
Proof. intros Hr Hst [(s & E)|(b & _ & ->)]%ignoring_Continue; [by eapply Hr|done]. Qed.

Lemma all_statement_kinds_and P Q st : all_statement_kinds P st -> all_statement_kinds Q st -> all_statement_kinds (fun k => P k /\ Q k) st.
Proof. rewrite !all_statement_kinds_everywhere. intros H1 H2. by apply Forall_and. Qed.

Lemma fetch_removed st st' : FetchToLimit.visit st = Continue (st', ()) -> all_statement_kinds no_fetch st'.
Proof.
  unfold FetchToLimit.visit, visit_statement, visit_statement_with. set (v := on_query FetchToLimit.pre_visit_query).
  pose proof (each_fetched (fun x => SqlAst.visit v (size x) x) (statement_children st) ltac:(intros; by apply visit_fetch)) as He.
  unfold vbind. cbn -[size SqlAst.visit]. destruct (each _ _ ()) as [[k []]|e| |]; try done. destruct He as [Hs Hk]. intros [= <-].
  unfold all_statement_kinds. by rewrite children_rebuild_statement.
Qed.

Lemma copy_into_children st : statement_children (CopyIntoIdentifiers.pre_visit_statement st) = statement_children st.
Proof. by destruct st. Qed.

Lemma type_rewrite_children st : statement_children (VariantVisitors.type_rewrite_statement st) = statement_children st.
Proof.
  destruct st as [| |c|]; try done. unfold statement_children, statement_parts. cbn [VariantVisitors.type_rewrite_statement fields_statement].
  run_idiom. cbn [columns create_query partition_by create_rest]. rewrite !parts_of_list. do 4 f_equal.
  induction (columns c) as [|x l IH]; [done|]. cbn [map flat_map]. by rewrite IH.
Qed.

(** A visitor with a hook on the statement, which has the same nodes after it. *)
Lemma statement_hook_keeps (v : Visitor unit unit) P st st' s : (forall x s, before v x s = Continue (x, s)) -> (forall x s, after v x s = Continue (x, s)) ->
  (forall st s, exists st', v.(pre_visit_statement) st s = Continue (st', s) /\ statement_children st' = statement_children st) ->
  (forall st s, exists st', v.(post_visit_statement) st s = Continue (st', s) /\ statement_children st' = statement_children st) ->
  all_statement_kinds P st -> visit_statement v st () = Continue (st', s) -> all_statement_kinds P st'.
Proof.
  intros Hb Ha Hp Hq Hst E. eapply (visit_statement_keeps v (fun x => P (kind x)) (kind_local P) (fun _ => True)); [..|done|exact Hst|exact E].
  - intros x s0 y s1 _ Hx. rewrite Hb. by intros [= <- _].
  - intros x s0 y s1 _ Hx. rewrite Ha. by intros [= <- _].
  - intros x s0 y s1 _ Hx. destruct (Hp x s0) as (z & -> & Ez). intros [= <- _]. by rewrite Ez.
  - intros x s0 y s1 _ Hx. destruct (Hq x s0) as (z & -> & Ez). intros [= <- _]. by rewrite Ez.
Qed.

(** A visitor that changes the kinds from [Q] to [P], which say nothing of functions. *)
Lemma ignoring_rewrites (Q P : Kind -> Prop) h st st' : (forall k, Q k -> k = KFetch \/ k = KOther -> P k) -> P KOther -> rewrites P Q h ->
  all_statement_kinds Q st -> ignoring st (visit_statement (partial_rewriter h) st ()) = Continue st' -> all_statement_kinds P st'.
Proof. intros HQ HO Hh Hst E%ignoring_rewriter. by eapply visit_rewrites. Qed.

(** What is left to remove, from the last visitor back. *)
Definition before_elements (k : Kind) : Prop := k = KJsonAccess \/ plannable k.
Definition before_arrays (k : Kind) : Prop := k = KArray \/ before_elements k.
Definition before_casts (k : Kind) : Prop := (exists t, k = KCast t /\ timestamp_cast t = true) \/ before_arrays k.

Lemma type_rewrite_keeps P st st' s : all_statement_kinds P st -> visit_statement VariantVisitors.type_rewrite st () = Continue (st', s) -> all_statement_kinds P st'.
Proof.
  apply statement_hook_keeps; [by intros []|by intros []|by eexists|]. intros st0 s0. eexists. split; [reflexivity|apply type_rewrite_children].
Qed.

Lemma copy_into_keeps P st st' s : all_statement_kinds P st -> CopyIntoIdentifiers.visit st () = Continue (st', s) -> all_statement_kinds P st'.
Proof.
  apply statement_hook_keeps; [by intros []|by intros []| |by eexists]. intros st0 s0. eexists. split; [reflexivity|apply copy_into_children].
Qed.

Lemma type_rewrite_unbroken st b : visit_statement VariantVisitors.type_rewrite st () <> Break b.
Proof.
  assert (forall n x s b, SqlAst.visit VariantVisitors.type_rewrite n x s <> Break b) as Hv.
  { intros n. induction n as [|n IH]; intros x s b'; [done|]. cbn [SqlAst.visit]. unfold vbind at 1. destruct (before _ x s) as [[x1 s1]|b2| |] eqn:Eb; try done; [|by destruct x].
    unfold vbind. destruct (each _ (children x1) s1) as [[l s2]|b2| |] eqn:E; try done; [by destruct (rebuild x1 l)|]. exfalso. eapply each_unbroken; [|exact E]. intros. apply IH. }
  unfold visit_statement, visit_statement_with, vbind. cbn. destruct (each _ _ ()) as [[l []]|b'| |] eqn:E; try done.
  exfalso. eapply each_unbroken; [|exact E]. intros. apply Hv.
Qed.

Lemma vbind_Break {S B A C} (m : V S B A) (f : A -> V S B C) s b : vbind m f s = Break b -> m s = Break b \/ exists a s', m s = Continue (a, s') /\ f a s' = Break b.
Proof. unfold vbind. destruct (m s) as [[a s']| | |]; naive_solver. Qed.

Lemma visit_all_unbroken st b : VariantVisitors.visit_all st () <> Break b.
Proof.
  unfold VariantVisitors.visit_all. intros [E|(st1 & [] & _ & E)]%vbind_Break; [by apply (rewriter_statement_unbroken (fun e => Some (VariantVisitors.array_agg_expr e))) in E|].
  apply vbind_Break in E as [E|(st2 & [] & _ & E)]; [by apply (rewriter_statement_unbroken (fun e => Some (VariantVisitors.array_construct_compact_expr e))) in E|].
  apply vbind_Break in E as [E|(st3 & [] & _ & E)]; [by apply (rewriter_statement_unbroken (fun e => Some (VariantVisitors.array_construct_expr e))) in E|].
  apply vbind_Break in E as [E|(st4 & [] & _ & E)]; [by apply type_rewrite_unbroken in E|].
  by apply (rewriter_statement_unbroken (fun e => Some (VariantVisitors.variant_element_expr e))) in E.
Qed.

(** The visitors of arrays and variants. *)
Lemma visit_all_plannable st st' : all_statement_kinds before_arrays st -> ignoring st (VariantVisitors.visit_all st ()) = Continue st' -> all_statement_kinds plannable st'.
Proof.
  intros Hst [([] & E)|(b & E & _)]%ignoring_Continue; [|by apply visit_all_unbroken in E].
  unfold VariantVisitors.visit_all in E. apply vbind_Continue in E as (st1 & [] & E1 & (st2 & [] & E2 & (st3 & [] & E3 & (st4 & [] & E4 & E5)%vbind_Continue)%vbind_Continue)%vbind_Continue).
  assert (all_statement_kinds before_arrays st1) as H1.
  { eapply (visit_rewrites before_arrays _ before_arrays (fun e => Some (VariantVisitors.array_agg_expr e))); [done| |exact Hst|exact E1].
    apply array_agg_rewrites; unfold before_arrays, before_elements; cbn; auto. }
  assert (all_statement_kinds before_arrays st2) as H2.
  { eapply (visit_rewrites before_arrays _ before_arrays (fun e => Some (VariantVisitors.array_construct_compact_expr e))); [done| |exact H1|exact E2].
    apply compact_rewrites; unfold before_arrays, before_elements; cbn; auto. }
  assert (all_statement_kinds before_elements st3) as H3.
  { eapply (visit_rewrites before_elements _ before_arrays (fun e => Some (VariantVisitors.array_construct_expr e))); [|by apply array_construct_rewrites; right|exact H2|exact E3].
    by intros k [->|] [|]. }
  apply (type_rewrite_keeps before_elements) in E4; [|done].
  eapply (visit_rewrites plannable _ before_elements (fun e => Some (VariantVisitors.variant_element_expr e))); [|by apply variant_element_rewrites|exact E4|exact E5].
  by intros k [->|] [|].
  Unshelve. all: unfold before_arrays, before_elements; cbn; auto.
Qed.

(** The visitors up to those of FETCH. *)
Lemma casts_left k : no_pattern_operator k /\ no_fetch k -> before_casts k.
Proof.
  unfold before_casts, before_arrays, before_elements, no_fetch. destruct k as [| | | |t| | |]; cbn; try naive_solver.
  destruct (timestamp_cast t) eqn:E; [left; by exists t|auto].
Qed.

Lemma run_visitors_plannable st st' : run_visitors st = Continue st' -> all_statement_kinds plannable st'.
Proof.
  unfold run_visitors.
  intros (st1 & H1%(ignoring_rewriter (fun e => Some (RLikeRegexp.post_visit_expr e))) & (st2 & H2 & (st3 & H3 & (st4 & H4 & (st5 & H5 & (st6 & H6 & (st7 & H7 & (st8 & H8 & (st9 & H9 & (st10 & H10 & (st11 & H11 & (st12 & H12 & H13)
    %flow_bind_Continue)%flow_bind_Continue)%flow_bind_Continue)%flow_bind_Continue)%flow_bind_Continue)%flow_bind_Continue)%flow_bind_Continue)%flow_bind_Continue)
    %flow_bind_Continue)%flow_bind_Continue)%flow_bind_Continue)%flow_bind_Continue.
  apply rlike_removed in H1. apply (ignoring_rewrites (fun k => match k with KFunction _ => True | k => no_regexp_operator k end) no_regexp_operator
    (fun e => Some (FunctionsRewriter.post_visit_expr e))) in H2; [|by intros k _ [-> | ->]|done|by apply (functions_rewrites no_regexp_operator I (fun _ => True))|by eapply all_statement_kinds_impl; [|exact H1]; intros []].
  apply ignoring_rewriter, like_any_removed in H3; [|done].
  apply (ignoring_keeps no_pattern_operator) in H4; [|intros ? []; by apply top_limit_keep|done].
  apply raising_Continue in H5 as [[] H5]. unfold Unimplemented.check_unimplemented_functions in H5. 
  rewrite visit_statement_check in H5. destruct (first_break _ _); [done|]. injection H5 as ->.
  apply (ignoring_keeps no_pattern_operator) in H6; [|intros ? ?; by apply copy_into_keeps|done].
  apply (ignoring_keeps no_pattern_operator) in H7; [|intros ? []; by apply aliases_keep|done].
  apply (ignoring_keeps no_pattern_operator) in H8; [|intros ? []; by apply inlining_keeps_kinds|done].
  apply raising_Continue in H9 as [[] H9]. pose proof (fetch_removed _ _ H9) as Hf. apply (fetch_keep no_pattern_operator I) in H9; [|done].
  assert (all_statement_kinds before_casts st9) as Hc by (eapply all_statement_kinds_impl; [exact casts_left|by apply all_statement_kinds_and]).
  assert (before_casts KOther /\ before_arrays KOther) as [HO HO'] by (unfold before_casts, before_arrays, before_elements; cbn; auto).
  apply (ignoring_keeps before_casts) in H10; [|intros ? []; by apply table_functions_keep|done].
  apply (ignoring_rewrites before_casts before_arrays) in H11; [|by intros k [(t & -> & _)|] [|]|done|apply timestamp_rewrites; unfold before_arrays, before_elements; cbn; auto|done].
  apply (ignoring_keeps before_arrays) in H12; [|intros ? ?; by apply cte_relation_keeps|done].
  by eapply visit_all_plannable.
Qed.

(** C5: the statement that is planned is in the form the planner understands: apart from the PARTITION BY clause, no expression of it, however
    deep and wherever, is RLIKE, LIKE ANY, an array literal, an element of a variant or a cast to a timestamp that is rewritten, and no query
    of it has a FETCH. *)
Theorem rewritten_is_plannable st st' : postprocess_statement st = Continue st' ->
  statement_everywhere (fun x => plannable (kind x)) (snd (take_partition st')).
Proof.
  unfold postprocess_statement. destruct (take_partition st) as [p st0]. intros (st1 & H1%run_visitors_plannable & [= <-])%flow_bind_Continue.
  apply all_statement_kinds_everywhere. destruct st1 as [| |c|]; try done. revert H1. unfold all_statement_kinds, statement_children, statement_parts.
  cbn [take_partition put_partition snd fields_statement create_name columns create_query partition_by create_rest]. run_idiom. rewrite !Forall_app. naive_solver.
Qed.

End postprocess.

(** ** Examples *)
Module RewritingExamples.
Import VisitorExamples.

Definition registry : Unimplemented.SnowflakeFunctions :=
  Unimplemented.new [[("SYSTEM$WAIT", Unimplemented.with_docs (Unimplemented.new_info "SYSTEM$WAIT" "Waits.") "docs/system_wait")]].

(** [SELECT a RLIKE 'b\d', v:id AS id, ['x']::TIMESTAMP AS x FROM (SELECT a FROM t FETCH FIRST 3 ROWS)] *)
Definition inner : Query := mkQuery None (SetSelect (select [UnnamedExpr (col "a")] [table "t"])) None None (Some (mkFetch false false (Some (num "3")))) [].
Definition statement : Statement :=
  StQuery (query (SetSelect (select
    [UnnamedExpr (RLike false (col "a") (str "b\d") false);
     ExprWithAlias (JsonAccess (col "v") [Dot "id" false]) (new_ident "id");
     ExprWithAlias (Cast "" (EArray [str "x"]) (Timestamp None TzNone) None) (new_ident "x")]
    [mkTwj (Derived false inner None None) []]))).

Definition rewritten : Statement :=
  StQuery (query (SetSelect (select
    [UnnamedExpr (call "regexp_like" [col "a"; str "b\\d"]);
     ExprWithAlias (call "variant_element" [col "v"; str "$.id"; EValue (Boolean true)]) (new_ident "id");
     ExprWithAlias (call "to_timestamp" [call "array_construct" [str "x"]]) (new_ident "x")]
    [mkTwj (Derived false (mkQuery None (SetSelect (select [UnnamedExpr (col "a")] [table "t"])) None (Some (LimitOffset (Some (num "3")) None [])) None []) None None) []]))).

Example statement_rewritten : postprocess_statement registry 2 100 statement = Continue rewritten.
Proof. vm_compute. reflexivity. Qed.

Lemma rewritten_is_plannable_witness : statement_everywhere (fun x => plannable (kind x)) rewritten.
Proof. apply (rewritten_is_plannable registry 2 100 statement rewritten). vm_compute. reflexivity. Defined.

(** Names are looked up in upper case, and the message has them in lower case. *)
Example refused :
  postprocess_query_statement_with_validation registry 2 100 (DFExplain (DFPlain (StQuery (query (SetSelect (select [UnnamedExpr (call "System$Wait" [num "1"])] [])))))) =
    Break (UnimplementedFunction (Unimplemented.mkUnimplemented "system$wait" (Some "docs/system_wait"))).
Proof. vm_compute. reflexivity. Qed.

(** The same call in PARTITION BY is not refused; a statement under two EXPLAIN is not rewritten. *)
Definition partitioned : Statement := CreateTable (mkCreateTable (simple_name "t") [mkColumn (new_ident "c") (Custom (simple_name "VARIANT") []) (mkClause "" [])] None (Some (call "System$Wait" [num "1"])) (mkClause "" [])).
Example partition_not_checked :
  postprocess_statement registry 2 100 partitioned =
    Continue (CreateTable (mkCreateTable (simple_name "t") [mkColumn (new_ident "c") (StringType None) (mkClause "" [])] None (Some (call "System$Wait" [num "1"])) (mkClause "" []))) /\
  postprocess_query_statement_with_validation registry 2 100 (DFExplain (DFExplain (DFPlain statement))) = Continue (DFExplain (DFExplain (DFPlain statement))).
Proof. split; vm_compute; reflexivity. Qed.

End RewritingExamples.
