(* ===== verification/UnimplementedFunctions.v ===== *)
(** * The functions that are not implemented

    The registry of [functions/src/visitors/unimplemented]: the arrays of [generated_snowflake_functions.rs], a long one in pieces, and the registry
    [SnowflakeFunctions::new] makes of them; that its entries are well formed, and what becomes of statements that call functions of it. *)

From Stdlib Require Import ZArith Lia Ascii String.
From stdpp Require Import base option list gmap strings.
From S2P Require Import Prelude Utf8 SqlAst Visitors AliasInlining CteRelation StatementRewriting.

#[local] Open Scope string_scope.

Import Visitors.Unimplemented.

Definition Category : Type := list (string * FunctionInfo).

Definition account_functions : Category :=
  [
  ("CUMULATIVE_PRIVACY_LOSSES", with_docs (new_info "CUMULATIVE_PRIVACY_LOSSES"
    "Returns the privacy budgets associated with a specific privacy policy.")
    "https://docs.snowflake.com/en/sql-reference/functions/cumulative_privacy_losses");
  ("ESTIMATE_REMAINING_DP_AGGREGATES", with_docs (new_info "ESTIMATE_REMAINING_DP_AGGREGATES"
    "Returns the estimated number of aggregation functions that can be run before the limit of a privacy budget is reached.")
    "https://docs.snowflake.com/en/sql-reference/functions/estimate_remaining_dp_aggregates");
  ("TAG_REFERENCES_WITH_LINEAGE", with_docs (new_info "TAG_REFERENCES_WITH_LINEAGE"
    "Returns a table in which each row displays an association between the specified tag and the Snowflake object to which the tag is associated.")
    "https://docs.snowflake.com/en/sql-reference/functions/tag_references_with_lineage")].

Definition aggregate_functions_1 : Category :=
  [
  ("APPROXIMATE_JACCARD_INDEX", with_docs (new_info "APPROXIMATE_JACCARD_INDEX"
    "Returns an estimation of the similarity (Jaccard index) of inputs based on their MinHash states.")
    "https://docs.snowflake.com/en/sql-reference/functions/approximate_jaccard_index");
  ("APPROXIMATE_SIMILARITY", with_docs (new_info "APPROXIMATE_SIMILARITY"
    "Returns an estimation of the similarity (Jaccard index) of inputs based on their MinHash states.")
    "https://docs.snowflake.com/en/sql-reference/functions/approximate_similarity");
  ("APPROX_COUNT_DISTINCT", with_docs (new_info "APPROX_COUNT_DISTINCT"
    "Uses HyperLogLog to return an approximation of the distinct cardinality of the input (i.e. HLL(col1, col2, ... ) returns an approximation of COUNT(DISTINCT col1, col2, ... )).")
    "https://docs.snowflake.com/en/sql-reference/functions/approx_count_distinct");
  ("APPROX_PERCENTILE", with_docs (new_info "APPROX_PERCENTILE"
    "Returns an approximated value for the desired percentile (that is, if column c has n numbers, APPROX_PERCENTILE(c, p) returns a number such that approximately n * p of the numbers in c are smaller than the returned number).")
    "https://docs.snowflake.com/en/sql-reference/functions/approx_percentile");
  ("APPROX_PERCENTILE_ACCUMULATE", with_docs (new_info "APPROX_PERCENTILE_ACCUMULATE"
    "Returns the internal representation of the t-Digest state (as a JSON object) at the end of aggregation.")
    "https://docs.snowflake.com/en/sql-reference/functions/approx_percentile_accumulate");
  ("APPROX_PERCENTILE_COMBINE", with_docs (new_info "APPROX_PERCENTILE_COMBINE"
    "Combines (merges) percentile input states into a single output state.")
    "https://docs.snowflake.com/en/sql-reference/functions/approx_percentile_combine");
  ("APPROX_PERCENTILE_ESTIMATE", with_docs (new_info "APPROX_PERCENTILE_ESTIMATE"
    "Returns the desired approximated percentile value for the specified t-Digest state.")
    "https://docs.snowflake.com/en/sql-reference/functions/approx_percentile_estimate");
  ("APPROX_TOP_K", with_docs (new_info "APPROX_TOP_K"
    "Uses Space-Saving to return an approximation of the most frequent values in the input, along with their approximate frequencies.")
    "https://docs.snowflake.com/en/sql-reference/functions/approx_top_k");
  ("APPROX_TOP_K_ACCUMULATE", with_docs (new_info "APPROX_TOP_K_ACCUMULATE"
    "Returns the Space-Saving summary at the end of aggregation.")
    "https://docs.snowflake.com/en/sql-reference/functions/approx_top_k_accumulate");
  ("APPROX_TOP_K_COMBINE", with_docs (new_info "APPROX_TOP_K_COMBINE"
    "Combines (merges) input states into a single output state.")
    "https://docs.snowflake.com/en/sql-reference/functions/approx_top_k_combine");
  ("APPROX_TOP_K_ESTIMATE", with_docs (new_info "APPROX_TOP_K_ESTIMATE"
    "Returns the approximate most frequent values and their estimated frequency for the given Space-Saving state.")
    "https://docs.snowflake.com/en/sql-reference/functions/approx_top_k_estimate");
  ("BITAND_AGG", with_docs (new_info "BITAND_AGG"
    "Returns the bitwise AND value of all non-NULL numeric records in a group.")
    "https://docs.snowflake.com/en/sql-reference/functions/bitand_agg");
  ("BITMAP_BIT_POSITION", with_docs (new_info "BITMAP_BIT_POSITION"
    "Given a numeric value, returns the relative position for the bit that represents that value in a bitmap.")
    "https://docs.snowflake.com/en/sql-reference/functions/bitmap_bit_position");
  ("BITMAP_BUCKET_NUMBER", with_docs (new_info "BITMAP_BUCKET_NUMBER"
    "Given a numeric value, returns an identifier (“bucket number”) for the bitmap containing the bit that represents the value..")
    "https://docs.snowflake.com/en/sql-reference/functions/bitmap_bucket_number");
  ("BITMAP_CONSTRUCT_AGG", with_docs (new_info "BITMAP_CONSTRUCT_AGG"
    "Returns a bitmap with bits set for each distinct value in a group.")
    "https://docs.snowflake.com/en/sql-reference/functions/bitmap_construct_agg");
  ("BITMAP_COUNT", with_docs (new_info "BITMAP_COUNT"
    "Given a bitmap that represents the set of distinct values for a column, returns the number of distinct value.")
    "https://docs.snowflake.com/en/sql-reference/functions/bitmap_count");
  ("BITMAP_OR_AGG", with_docs (new_info "BITMAP_OR_AGG"
    "Returns a bitmap containing the results of a binary OR operation on the input bitmaps.")
    "https://docs.snowflake.com/en/sql-reference/functions/bitmap_or_agg");
  ("BITOR_AGG", with_docs (new_info "BITOR_AGG"
    "Returns the bitwise OR value of all non-NULL numeric records in a group.")
    "https://docs.snowflake.com/en/sql-reference/functions/bitor_agg");
  ("BITXOR_AGG", with_docs (new_info "BITXOR_AGG"
    "Returns the bitwise XOR value of all non-NULL numeric records in a group.")
    "https://docs.snowflake.com/en/sql-reference/functions/bitxor_agg");
  ("COUNT_IF", with_docs (new_info "COUNT_IF"
    "Returns the number of records that satisfy a condition or NULL if no records satisfy the condition.")
    "https://docs.snowflake.com/en/sql-reference/functions/count_if");
  ("HASH_AGG", with_docs (new_info "HASH_AGG"
    "Returns an aggregate signed 64-bit hash value over the (unordered) set of input rows.")
    "https://docs.snowflake.com/en/sql-reference/functions/hash_agg");
  ("HLL", with_docs (new_info "HLL"
    "Uses HyperLogLog to return an approximation of the distinct cardinality of the input (i.e. HLL(col1, col2, ... ) returns an approximation of COUNT(DISTINCT col1, col2, ... )).")
    "https://docs.snowflake.com/en/sql-reference/functions/hll");
  ("HLL_ACCUMULATE", with_docs (new_info "HLL_ACCUMULATE"
    "Returns the HyperLogLog state at the end of aggregation.")
    "https://docs.snowflake.com/en/sql-reference/functions/hll_accumulate")].

Definition aggregate_functions_2 : Category :=
  [
  ("HLL_COMBINE", with_docs (new_info "HLL_COMBINE"
    "Combines (merges) input states into a single output state.")
    "https://docs.snowflake.com/en/sql-reference/functions/hll_combine");
  ("HLL_ESTIMATE", with_docs (new_info "HLL_ESTIMATE"
    "Returns the cardinality estimate for the given HyperLogLog state.")
    "https://docs.snowflake.com/en/sql-reference/functions/hll_estimate");
  ("HLL_EXPORT", with_docs (new_info "HLL_EXPORT"
    "Converts input in BINARY format to OBJECT format.")
    "https://docs.snowflake.com/en/sql-reference/functions/hll_export");
  ("HLL_IMPORT", with_docs (new_info "HLL_IMPORT"
    "Converts input in OBJECT format to BINARY format.")
    "https://docs.snowflake.com/en/sql-reference/functions/hll_import");
  ("KURTOSIS", with_docs (new_info "KURTOSIS"
    "Returns the population excess kurtosis of non-NULL records.")
    "https://docs.snowflake.com/en/sql-reference/functions/kurtosis");
  ("MAX_BY", with_docs (new_info "MAX_BY"
    "Finds the row(s) containing the maximum value for a column and returns the value of another column in that row.")
    "https://docs.snowflake.com/en/sql-reference/functions/max_by");
  ("MINHASH", with_docs (new_info "MINHASH"
    "Returns a MinHash state containing an array of size k constructed by applying k number of different hash functions to the input rows and keeping the minimum of each hash function.")
    "https://docs.snowflake.com/en/sql-reference/functions/minhash");
  ("MINHASH_COMBINE", with_docs (new_info "MINHASH_COMBINE"
    "Combines input MinHash states into a single MinHash output state.")
    "https://docs.snowflake.com/en/sql-reference/functions/minhash_combine");
  ("MIN_BY", with_docs (new_info "MIN_BY"
    "Finds the row(s) containing the minimum value for a column and returns the value of another column in that row.")
    "https://docs.snowflake.com/en/sql-reference/functions/min_by");
  ("MODE", with_docs (new_info "MODE"
    "Returns the most frequent value for the values within expr1.")
    "https://docs.snowflake.com/en/sql-reference/functions/mode");
  ("PERCENTILE_DISC", with_docs (new_info "PERCENTILE_DISC"
    "Returns a percentile value based on a discrete distribution of the input column (specified in order_by_expr).")
    "https://docs.snowflake.com/en/sql-reference/functions/percentile_disc");
  ("SKEW", with_docs (new_info "SKEW"
    "Returns the sample skewness of non-NULL records.")
    "https://docs.snowflake.com/en/sql-reference/functions/skew");
  ("VARIANCE", with_docs (new_info "VARIANCE"
    "Returns the sample variance of non-NULL records in a group.")
    "https://docs.snowflake.com/en/sql-reference/functions/variance");
  ("VARIANCE_POP", with_docs (new_info "VARIANCE_POP"
    "Returns the population variance of non-NULL records in a group.")
    "https://docs.snowflake.com/en/sql-reference/functions/variance_pop");
  ("VARIANCE_SAMP", with_docs (new_info "VARIANCE_SAMP"
    "Returns the sample variance of non-NULL records in a group.")
    "https://docs.snowflake.com/en/sql-reference/functions/variance")].

Definition aggregate_functions : Category := (aggregate_functions_1 ++ aggregate_functions_2)%list.

Definition bitwise_functions : Category :=
  [
  ("BITAND", with_docs (new_info "BITAND"
    "Returns the bitwise AND of two numeric or binary expressions.")
    "https://docs.snowflake.com/en/sql-reference/functions/bitand");
  ("BITNOT", with_docs (new_info "BITNOT"
    "Returns the bitwise negation of a numeric or binary expression.")
    "https://docs.snowflake.com/en/sql-reference/functions/bitnot");
  ("BITOR", with_docs (new_info "BITOR"
    "Returns the bitwise OR of two numeric or binary expressions.")
    "https://docs.snowflake.com/en/sql-reference/functions/bitor");
  ("BITSHIFTLEFT", with_docs (new_info "BITSHIFTLEFT"
    "Shifts the bits for a numeric or binary expression n positions to the left.")
    "https://docs.snowflake.com/en/sql-reference/functions/bitshiftleft");
  ("BITSHIFTRIGHT", with_docs (new_info "BITSHIFTRIGHT"
    "Shifts the bits for a numeric or binary expression n positions to the right.")
    "https://docs.snowflake.com/en/sql-reference/functions/bitshiftright");
  ("BITXOR", with_docs (new_info "BITXOR"
    "Returns the bitwise XOR of two numeric or binary expressions.")
    "https://docs.snowflake.com/en/sql-reference/functions/bitxor");
  ("GETBIT", with_docs (new_info "GETBIT"
    "Given an INTEGER value, returns the value of a bit at a specified position.")
    "https://docs.snowflake.com/en/sql-reference/functions/getbit")].

Definition conditional_functions : Category :=
  [
  ("BOOLNOT", with_docs (new_info "BOOLNOT"
    "Computes the Boolean NOT of a single numeric expression.")
    "https://docs.snowflake.com/en/sql-reference/functions/boolnot");
  ("CASE", with_docs (new_info "CASE"
    "Works like a cascading “if-then-else” statement.")
    "https://docs.snowflake.com/en/sql-reference/functions/case");
  ("GREATEST_IGNORE_NULLS", with_docs (new_info "GREATEST_IGNORE_NULLS"
    "Returns the largest non-NULL value from a list of expressions.")
    "https://docs.snowflake.com/en/sql-reference/functions/greatest_ignore_nulls");
  ("LEAST_IGNORE_NULLS", with_docs (new_info "LEAST_IGNORE_NULLS"
    "Returns the smallest non-NULL value from a list of expressions.")
    "https://docs.snowflake.com/en/sql-reference/functions/least_ignore_nulls");
  ("REGR_VALX", with_docs (new_info "REGR_VALX"
    "Returns NULL if the first argument is NULL; otherwise, returns the second argument.")
    "https://docs.snowflake.com/en/sql-reference/functions/regr_valx");
  ("REGR_VALY", with_docs (new_info "REGR_VALY"
    "Returns NULL if the second argument is NULL; otherwise, returns the first argument.")
    "https://docs.snowflake.com/en/sql-reference/functions/regr_valy")].

Definition context_functions_1 : Category :=
  [
  ("ALL_USER_NAMES", with_docs (new_info "ALL_USER_NAMES"
    "Returns all user names in the current account.")
    "https://docs.snowflake.com/en/sql-reference/functions/all_user_names");
  ("CURRENT_ACCOUNT", with_docs (new_info "CURRENT_ACCOUNT"
    "Returns the account locator used by the user’s current session.")
    "https://docs.snowflake.com/en/sql-reference/functions/current_account");
  ("CURRENT_ACCOUNT_NAME", with_docs (new_info "CURRENT_ACCOUNT_NAME"
    "Returns the name of the current account.")
    "https://docs.snowflake.com/en/sql-reference/functions/current_account_name");
  ("CURRENT_AVAILABLE_ROLES", with_docs (new_info "CURRENT_AVAILABLE_ROLES"
    "Returns a list of all account-level roles granted to the current user.")
    "https://docs.snowflake.com/en/sql-reference/functions/current_available_roles");
  ("CURRENT_ORGANIZATION_NAME", with_docs (new_info "CURRENT_ORGANIZATION_NAME"
    "Returns the name of the organization to which the current account belongs.")
    "https://docs.snowflake.com/en/sql-reference/functions/current_organization_name");
  ("CURRENT_REGION", with_docs (new_info "CURRENT_REGION"
    "Returns the name of the region for the account where the current user is logged in.")
    "https://docs.snowflake.com/en/sql-reference/functions/current_region");
  ("CURRENT_SECONDARY_ROLES", with_docs (new_info "CURRENT_SECONDARY_ROLES"
    "Returns the secondary roles in use for the current session.")
    "https://docs.snowflake.com/en/sql-reference/functions/current_secondary_roles");
  ("CURRENT_STATEMENT", with_docs (new_info "CURRENT_STATEMENT"
    "Returns the SQL text of the statement that is currently executing.")
    "https://docs.snowflake.com/en/sql-reference/functions/current_statement");
  ("CURRENT_TRANSACTION", with_docs (new_info "CURRENT_TRANSACTION"
    "Returns the transaction id of an open transaction in the current session.")
    "https://docs.snowflake.com/en/sql-reference/functions/current_transaction");
  ("CURRENT_USER", with_docs (new_info "CURRENT_USER"
    "Returns the name of the user currently logged into the system.")
    "https://docs.snowflake.com/en/sql-reference/functions/current_user");
  ("GETDATE", with_docs (new_info "GETDATE"
    "Returns the current timestamp for the system in the local time zone.")
    "https://docs.snowflake.com/en/sql-reference/functions/getdate");
  ("GETVARIABLE", with_docs (new_info "GETVARIABLE"
    "Returns the value associated with a SQL variable name.")
    "https://docs.snowflake.com/en/sql-reference/functions/getvariable");
  ("GET_CONDITION_QUERY_UUID", with_docs (new_info "GET_CONDITION_QUERY_UUID"
    "Returns the query ID for the SQL statement executed for the condition of an alert.")
    "https://docs.snowflake.com/en/sql-reference/functions/get_condition_query_uuid");
  ("INVOKER_ROLE", with_docs (new_info "INVOKER_ROLE"
    "Returns the name of the account-level role of the object executing the query or NULL if the name of the role is a database role.")
    "https://docs.snowflake.com/en/sql-reference/functions/invoker_role");
  ("INVOKER_SHARE", with_docs (new_info "INVOKER_SHARE"
    "Returns the name of the share that directly accessed the table or view where the INVOKER_SHARE function is invoked, otherwise the function returns NULL.")
    "https://docs.snowflake.com/en/sql-reference/functions/invoker_share");
  ("IS_APPLICATION_ROLE_IN_SESSION", with_docs (new_info "IS_APPLICATION_ROLE_IN_SESSION"
    "Verifies whether the application role is activated in the consumer’s current session.")
    "https://docs.snowflake.com/en/sql-reference/functions/is_application_role_in_session");
  ("IS_DATABASE_ROLE_IN_SESSION", with_docs (new_info "IS_DATABASE_ROLE_IN_SESSION"
    "Verifies whether the database role is in the user’s active primary or secondary role hierarchy for the current session or if the specified column contains a database role that is in the user’s active primary or secondary role hierarchy for the current session.")
    "https://docs.snowflake.com/en/sql-reference/functions/is_database_role_in_session");
  ("IS_GRANTED_TO_INVOKER_ROLE", with_docs (new_info "IS_GRANTED_TO_INVOKER_ROLE"
    "Returns TRUE if the role returned by the INVOKER_ROLE function inherits the privileges of the specified role in the argument based on the context in which the function is called.")
    "https://docs.snowflake.com/en/sql-reference/functions/is_granted_to_invoker_role");
  ("IS_INSTANCE_ROLE_IN_SESSION", with_docs (new_info "IS_INSTANCE_ROLE_IN_SESSION"
    "Verifies whether the user’s active primary or secondary role hierarchy for the session inherits the specified instance role.")
    "https://docs.snowflake.com/en/sql-reference/functions/is_instance_role_in_session");
  ("IS_ROLE_IN_SESSION", with_docs (new_info "IS_ROLE_IN_SESSION"
    "Verifies whether the account role is in the user’s active primary or secondary role hierarchy for the session or if the specified column contains a role that is in the user’s active primary or secondary role hierarchy for the session.")
    "https://docs.snowflake.com/en/sql-reference/functions/is_role_in_session");
  ("LAST_TRANSACTION", with_docs (new_info "LAST_TRANSACTION"
    "Returns the transaction ID of the last transaction that was either committed or rolled back in the current session.")
    "https://docs.snowflake.com/en/sql-reference/functions/last_transaction");
  ("LOCALTIME", with_docs (new_info "LOCALTIME"
    "Returns the current time for the system.")
    "https://docs.snowflake.com/en/sql-reference/functions/localtime");
  ("LOCALTIMESTAMP", with_docs (new_info "LOCALTIMESTAMP"
    "Returns the current timestamp for the system in the local time zone.")
    "https://docs.snowflake.com/en/sql-reference/functions/localtimestamp")].

Definition context_functions_2 : Category :=
  [
  ("POLICY_CONTEXT", with_docs (new_info "POLICY_CONTEXT"
    "Simulates the results of a query based upon the value of one or more context functions, which lets you determine how policies affect query results.")
    "https://docs.snowflake.com/en/sql-reference/functions/policy_context");
  ("SYSDATE", with_docs (new_info "SYSDATE"
    "Returns the current timestamp for the system in the UTC time zone.")
    "https://docs.snowflake.com/en/sql-reference/functions/sysdate");
  ("SYSTIMESTAMP", with_docs (new_info "SYSTIMESTAMP"
    "Returns the current timestamp for the system.")
    "https://docs.snowflake.com/en/sql-reference/functions/systimestamp")].

Definition context_functions : Category := (context_functions_1 ++ context_functions_2)%list.

Definition conversion_functions : Category :=
  [
  ("CAST", with_docs (new_info "CAST"
    "Converts a value of one data type into another data type.")
    "https://docs.snowflake.com/en/sql-reference/functions/cast");
  ("ST_GEOGFROMGEOHASH", with_subcategory (with_docs (new_info "ST_GEOGFROMGEOHASH"
    "Returns a GEOGRAPHY object for the polygon that represents the boundaries of a geohash.")
    "https://docs.snowflake.com/en/sql-reference/functions/st_geogfromgeohash") "geospatial");
  ("ST_GEOGPOINTFROMGEOHASH", with_subcategory (with_docs (new_info "ST_GEOGPOINTFROMGEOHASH"
    "Returns a GEOGRAPHY object for the Point that represents the center of a geohash.")
    "https://docs.snowflake.com/en/sql-reference/functions/st_geogpointfromgeohash") "geospatial");
  ("ST_GEOGRAPHYFROMWKB", with_subcategory (with_docs (new_info "ST_GEOGRAPHYFROMWKB"
    "Parses a WKB (well-known binary) or EWKB (extended well-known binary) input and returns a value of type GEOGRAPHY.")
    "https://docs.snowflake.com/en/sql-reference/functions/st_geographyfromwkb") "geospatial");
  ("ST_GEOGRAPHYFROMWKT", with_subcategory (with_docs (new_info "ST_GEOGRAPHYFROMWKT"
    "Parses a WKT (well-known text) or EWKT (extended well-known text) input and returns a value of type GEOGRAPHY.")
    "https://docs.snowflake.com/en/sql-reference/functions/st_geographyfromwkt") "geospatial");
  ("ST_GEOMETRYFROMWKB", with_subcategory (with_docs (new_info "ST_GEOMETRYFROMWKB"
    "Parses a WKB (well-known binary) or EWKB (extended well-known binary) input and returns a value of type GEOMETRY.")
    "https://docs.snowflake.com/en/sql-reference/functions/st_geometryfromwkb") "geospatial");
  ("ST_GEOMETRYFROMWKT", with_subcategory (with_docs (new_info "ST_GEOMETRYFROMWKT"
    "Parses a WKT (well-known text) or EWKT (extended well-known text) input and returns a value of type GEOMETRY.")
    "https://docs.snowflake.com/en/sql-reference/functions/st_geometryfromwkt") "geospatial");
  ("TO_DOUBLE", with_docs (new_info "TO_DOUBLE"
    "Converts an expression to a double-precision floating-point number.")
    "https://docs.snowflake.com/en/sql-reference/functions/to_double");
  ("TO_GEOGRAPHY", with_subcategory (with_docs (new_info "TO_GEOGRAPHY"
    "Parses an input and returns a value of type GEOGRAPHY.")
    "https://docs.snowflake.com/en/sql-reference/functions/to_geography") "geospatial");
  ("TO_GEOMETRY", with_subcategory (with_docs (new_info "TO_GEOMETRY"
    "Parses an input and returns a value of type GEOMETRY.")
    "https://docs.snowflake.com/en/sql-reference/functions/to_geometry") "geospatial");
  ("TO_JSON", with_subcategory (with_docs (new_info "TO_JSON"
    "Converts a VARIANT value to a string containing the JSON representation of the value.")
    "https://docs.snowflake.com/en/sql-reference/functions/to_json") "semi-structured");
  ("TO_XML", with_subcategory (with_docs (new_info "TO_XML"
    "Converts a VARIANT to a VARCHAR that contains an XML representation of the value.")
    "https://docs.snowflake.com/en/sql-reference/functions/to_xml") "semi-structured");
  ("TRY_CAST", with_docs (new_info "TRY_CAST"
    "A special version of CAST , :: that is available for a subset of data type conversions.")
    "https://docs.snowflake.com/en/sql-reference/functions/try_cast");
  ("TRY_TO_DOUBLE", with_docs (new_info "TRY_TO_DOUBLE"
    "A special version of TO_DOUBLE that performs the same operation (that is, converts an input expression to a double-precision floating-point number), but with error-handling support (that is, if the conversion can’t be performed, it returns a NULL value instead of raising an error).")
    "https://docs.snowflake.com/en/sql-reference/functions/try_to_double");
  ("TRY_TO_GEOGRAPHY", with_subcategory (with_docs (new_info "TRY_TO_GEOGRAPHY"
    "Parses an input and returns a value of type GEOGRAPHY.")
    "https://docs.snowflake.com/en/sql-reference/functions/try_to_geography") "geospatial");
  ("TRY_TO_GEOMETRY", with_subcategory (with_docs (new_info "TRY_TO_GEOMETRY"
    "Parses an input and returns a value of type GEOMETRY.")
    "https://docs.snowflake.com/en/sql-reference/functions/try_to_geometry") "geospatial")].

Definition data_metric_functions : Category :=
  [
  ("BLANK_COUNT", with_docs (new_info "BLANK_COUNT"
    "Returns the count of column values that are blank for the specified column in a table.")
    "https://docs.snowflake.com/en/sql-reference/functions/dmf_blank_count");
  ("BLANK_PERCENT", with_docs (new_info "BLANK_PERCENT"
    "Returns the percentage of column values that are blank for the specified column in a table.")
    "https://docs.snowflake.com/en/sql-reference/functions/dmf_blank_percent");
  ("DATA_METRIC_SCHEDULED_TIME", with_docs (new_info "DATA_METRIC_SCHEDULED_TIME"
    "Returns the timestamp for when a DMF is scheduled to run or the current timestamp if the function is called manually.")
    "https://docs.snowflake.com/en/sql-reference/functions/dmf_data_metric_schedule_time");
  ("DUPLICATE_COUNT", with_docs (new_info "DUPLICATE_COUNT"
    "Returns the count of column values that have duplicates, including NULL values.")
    "https://docs.snowflake.com/en/sql-reference/functions/dmf_duplicate_count");
  ("FRESHNESS", with_docs (new_info "FRESHNESS"
    "Returns the difference in seconds between the maximum value of a timestamp column and the scheduled time when the data metric function runs.")
    "https://docs.snowflake.com/en/sql-reference/functions/dmf_freshness");
  ("NULL_COUNT", with_docs (new_info "NULL_COUNT"
    "Returns the total number of NULL values for the specified columns in a table.")
    "https://docs.snowflake.com/en/sql-reference/functions/dmf_null_count");
  ("NULL_PERCENT", with_docs (new_info "NULL_PERCENT"
    "Returns the percentage of columns values that are NULL for the specified column in a table.")
    "https://docs.snowflake.com/en/sql-reference/functions/dmf_null_percent");
  ("ROW_COUNT", with_docs (new_info "ROW_COUNT"
    "Returns the total number of rows for the specified table.")
    "https://docs.snowflake.com/en/sql-reference/functions/dmf_row_count");
  ("UNIQUE_COUNT", with_docs (new_info "UNIQUE_COUNT"
    "Returns the total number of unique non-NULL values for the specified columns in a table.")
    "https://docs.snowflake.com/en/sql-reference/functions/dmf_unique_count")].

Definition data_quality_functions : Category :=
  [
  ("DATA_QUALITY_MONITORING_RESULTS", with_docs (new_info "DATA_QUALITY_MONITORING_RESULTS"
    "Returns a row for each data metric function assigned to the specified object, which includes the evaluation result and other metadata of the data metric function on the object.")
    "https://docs.snowflake.com/en/sql-reference/functions/data_quality_monitoring_results")].

Definition datetime_functions : Category :=
  [
  ("EXTRACT", with_docs (new_info "EXTRACT"
    "Extracts the specified date or time part from a date, time, or timestamp.")
    "https://docs.snowflake.com/en/sql-reference/functions/extract");
  ("LAST_SUCCESSFUL_SCHEDULED_TIME", with_docs (new_info "LAST_SUCCESSFUL_SCHEDULED_TIME"
    "Returns the timestamp representing the scheduled time for the most recent successful evaluation of the alert condition, where no errors occurred when executing the action.")
    "https://docs.snowflake.com/en/sql-reference/functions/last_successful_scheduled_time");
  ("MONTHS_BETWEEN", with_docs (new_info "MONTHS_BETWEEN"
    "Returns the number of months between two DATE or TIMESTAMP values.")
    "https://docs.snowflake.com/en/sql-reference/functions/months_between");
  ("SCHEDULED_TIME", with_docs (new_info "SCHEDULED_TIME"
    "Returns the timestamp representing the scheduled time of the current alert.")
    "https://docs.snowflake.com/en/sql-reference/functions/scheduled_time");
  ("TIME_SLICE", with_docs (new_info "TIME_SLICE"
    "Calculates the beginning or end of a “slice” of time, where the length of the slice is a multiple of a standard unit of time (minute, hour, day, etc.).")
    "https://docs.snowflake.com/en/sql-reference/functions/time_slice")].

Definition differential_privacy_functions : Category :=
  [
  ("DP_INTERVAL_HIGH", with_docs (new_info "DP_INTERVAL_HIGH"
    "Returns the upper bound of the noise interval, which is used by differential privacy to help analysts determine how much noise has been introduced into query results.")
    "https://docs.snowflake.com/en/sql-reference/functions/dp_interval_high");
  ("DP_INTERVAL_LOW", with_docs (new_info "DP_INTERVAL_LOW"
    "Returns the lower bound of the noise interval, which is used by differential privacy to help analysts determine how much noise has been introduced into query results.")
    "https://docs.snowflake.com/en/sql-reference/functions/dp_interval_low")].

Definition encryption_functions : Category :=
  [
  ("DECRYPT", with_docs (new_info "DECRYPT"
    "Decrypts a BINARY value using a VARCHAR passphrase.")
    "https://docs.snowflake.com/en/sql-reference/functions/decrypt");
  ("ENCRYPT", with_docs (new_info "ENCRYPT"
    "Encrypts a VARCHAR or BINARY value using a VARCHAR passphrase.")
    "https://docs.snowflake.com/en/sql-reference/functions/encrypt");
  ("TRY_DECRYPT", with_docs (new_info "TRY_DECRYPT"
    "A special version of DECRYPT that returns a NULL value if an error occurs during decryption.")
    "https://docs.snowflake.com/en/sql-reference/functions/try_decrypt");
  ("TRY_DECRYPT_RAW", with_docs (new_info "TRY_DECRYPT_RAW"
    "A special version of DECRYPT_RAW that returns a NULL value if an error occurs during decryption.")
    "https://docs.snowflake.com/en/sql-reference/functions/try_decrypt_raw")].

Definition file_functions : Category :=
  [
  ("BUILD_SCOPED_FILE_URL", with_docs (new_info "BUILD_SCOPED_FILE_URL"
    "Generates a scoped Snowflake file URL to a staged file using the stage name and relative file path as inputs.")
    "https://docs.snowflake.com/en/sql-reference/functions/build_scoped_file_url");
  ("BUILD_STAGE_FILE_URL", with_docs (new_info "BUILD_STAGE_FILE_URL"
    "Generates a Snowflake file URL to a staged file using the stage name and relative file path as inputs.")
    "https://docs.snowflake.com/en/sql-reference/functions/build_stage_file_url");
  ("GET_ABSOLUTE_PATH", with_docs (new_info "GET_ABSOLUTE_PATH"
    "Retrieves the absolute path of a staged file using the stage name and path of the file relative to its location in the stage as inputs.")
    "https://docs.snowflake.com/en/sql-reference/functions/get_absolute_path");
  ("GET_PRESIGNED_URL", with_docs (new_info "GET_PRESIGNED_URL"
    "Generates a pre-signed URL to a file on a stage using the stage name and relative file path as inputs.")
    "https://docs.snowflake.com/en/sql-reference/functions/get_presigned_url");
  ("GET_RELATIVE_PATH", with_docs (new_info "GET_RELATIVE_PATH"
    "Extracts the path of a staged file relative to its location in the stage using the stage name and absolute file path in cloud storage as inputs.")
    "https://docs.snowflake.com/en/sql-reference/functions/get_relative_path");
  ("GET_STAGE_LOCATION", with_docs (new_info "GET_STAGE_LOCATION"
    "Retrieves the URL for an external or internal named stage using the stage name as the input.")
    "https://docs.snowflake.com/en/sql-reference/functions/get_stage_location")].

Definition generation_functions : Category :=
  [
  ("NORMAL", with_docs (new_info "NORMAL"
    "Generates a normally-distributed pseudo-random floating point number with specified mean and stddev (standard deviation).")
    "https://docs.snowflake.com/en/sql-reference/functions/normal");
  ("SEQ1", with_docs (new_info "SEQ1"
    "Returns a sequence of monotonically increasing integers, with wrap-around.")
    "https://docs.snowflake.com/en/sql-reference/functions/seq1");
  ("SEQ2", with_docs (new_info "SEQ2"
    "Returns a sequence of monotonically increasing integers, with wrap-around.")
    "https://docs.snowflake.com/en/sql-reference/functions/seq1");
  ("SEQ4", with_docs (new_info "SEQ4"
    "Returns a sequence of monotonically increasing integers, with wrap-around.")
    "https://docs.snowflake.com/en/sql-reference/functions/seq1");
  ("SEQ8", with_docs (new_info "SEQ8"
    "Returns a sequence of monotonically increasing integers, with wrap-around.")
    "https://docs.snowflake.com/en/sql-reference/functions/seq1");
  ("UNIFORM", with_docs (new_info "UNIFORM"
    "Generates a uniformly-distributed pseudo-random number in the inclusive range [min, max].")
    "https://docs.snowflake.com/en/sql-reference/functions/uniform");
  ("UUID_STRING", with_subcategory (with_docs (new_info "UUID_STRING"
    "Generates either a version 4 (random) or version 5 (named) RFC 4122-compliant universally unique identifier (UUID) as a formatted string.")
    "https://docs.snowflake.com/en/sql-reference/functions/uuid_string") "string");
  ("ZIPF", with_docs (new_info "ZIPF"
    "Returns a Zipf-distributed integer, for N elements and characteristic exponent s.")
    "https://docs.snowflake.com/en/sql-reference/functions/zipf")].

Definition geospatial_functions_1 : Category :=
  [
  ("H3_CELL_TO_BOUNDARY", with_docs (new_info "H3_CELL_TO_BOUNDARY"
    "Returns the GEOGRAPHY object representing the boundary of an H3 cell.")
    "https://docs.snowflake.com/en/sql-reference/functions/h3_cell_to_boundary");
  ("H3_CELL_TO_CHILDREN", with_docs (new_info "H3_CELL_TO_CHILDREN"
    "Returns an array of the INTEGER IDs of the children of an H3 cell for a given resolution.")
    "https://docs.snowflake.com/en/sql-reference/functions/h3_cell_to_children");
  ("H3_CELL_TO_CHILDREN_STRING", with_docs (new_info "H3_CELL_TO_CHILDREN_STRING"
    "Returns an array of the VARCHAR values containing the hexadecimal IDs of the children of an H3 cell for a given resolution.")
    "https://docs.snowflake.com/en/sql-reference/functions/h3_cell_to_children_string");
  ("H3_CELL_TO_PARENT", with_docs (new_info "H3_CELL_TO_PARENT"
    "Returns the ID of the parent of an H3 cell for a given resolution.")
    "https://docs.snowflake.com/en/sql-reference/functions/h3_cell_to_parent");
  ("H3_CELL_TO_POINT", with_docs (new_info "H3_CELL_TO_POINT"
    "Returns the GEOGRAPHY object representing the Point that is the centroid of an H3 cell.")
    "https://docs.snowflake.com/en/sql-reference/functions/h3_cell_to_point");
  ("H3_COMPACT_CELLS", with_docs (new_info "H3_COMPACT_CELLS"
    "Returns an array of VARIANT values that contain the INTEGER IDs of fewer, larger H3 cells that cover the same area as the H3 cells in the input.")
    "https://docs.snowflake.com/en/sql-reference/functions/h3_compact_cells");
  ("H3_COMPACT_CELLS_STRINGS", with_docs (new_info "H3_COMPACT_CELLS_STRINGS"
    "Returns an array of VARIANT values that contain the VARCHAR hexadecimal IDs of fewer, larger H3 cells that cover the same area as the H3 cells in the input.")
    "https://docs.snowflake.com/en/sql-reference/functions/h3_compact_cells_strings");
  ("H3_COVERAGE", with_docs (new_info "H3_COVERAGE"
    "Returns an array of IDs (as INTEGER values) identifying the minimal set of H3 cells that completely cover a shape (specified by a GEOGRAPHY object).")
    "https://docs.snowflake.com/en/sql-reference/functions/h3_coverage");
  ("H3_COVERAGE_STRINGS", with_docs (new_info "H3_COVERAGE_STRINGS"
    "Returns an array of hexadecimal IDs (as VARCHAR values) identifying the minimal set of H3 cells that completely cover a shape (specified by a GEOGRAPHY object).")
    "https://docs.snowflake.com/en/sql-reference/functions/h3_coverage_strings");
  ("H3_GET_RESOLUTION", with_docs (new_info "H3_GET_RESOLUTION"
    "Returns the resolution of an H3 cell.")
    "https://docs.snowflake.com/en/sql-reference/functions/h3_get_resolution");
  ("H3_GRID_DISK", with_docs (new_info "H3_GRID_DISK"
    "Returns an array of the IDs of the H3 cells that are within the k-distance from the specified cell.")
    "https://docs.snowflake.com/en/sql-reference/functions/h3_grid_disk");
  ("H3_GRID_DISTANCE", with_docs (new_info "H3_GRID_DISTANCE"
    "Returns the distance between two H3 cells specified by their IDs.")
    "https://docs.snowflake.com/en/sql-reference/functions/h3_grid_distance");
  ("H3_GRID_PATH", with_docs (new_info "H3_GRID_PATH"
    "Returns an array of the IDs of the H3 cells that represent the line between two cells.")
    "https://docs.snowflake.com/en/sql-reference/functions/h3_grid_path");
  ("H3_INT_TO_STRING", with_docs (new_info "H3_INT_TO_STRING"
    "Converts the INTEGER value of an H3 cell ID to hexadecimal format.")
    "https://docs.snowflake.com/en/sql-reference/functions/h3_int_to_string");
  ("H3_IS_PENTAGON", with_docs (new_info "H3_IS_PENTAGON"
    "Returns TRUE if the boundary of an H3 cell represents a pentagon.")
    "https://docs.snowflake.com/en/sql-reference/functions/h3_is_pentagon");
  ("H3_IS_VALID_CELL", with_docs (new_info "H3_IS_VALID_CELL"
    "Returns TRUE if the input represents a valid H3 cell.")
    "https://docs.snowflake.com/en/sql-reference/functions/h3_is_valid_cell");
  ("H3_LATLNG_TO_CELL", with_docs (new_info "H3_LATLNG_TO_CELL"
    "Returns the INTEGER value of the H3 cell ID for a given latitude, longitude, and resolution.")
    "https://docs.snowflake.com/en/sql-reference/functions/h3_latlng_to_cell");
  ("H3_LATLNG_TO_CELL_STRING", with_docs (new_info "H3_LATLNG_TO_CELL_STRING"
    "Returns the H3 cell ID in hexadecimal format (as a VARCHAR value) for a given latitude, longitude, and resolution.")
    "https://docs.snowflake.com/en/sql-reference/functions/h3_latlng_to_cell_string");
  ("H3_POINT_TO_CELL", with_docs (new_info "H3_POINT_TO_CELL"
    "Returns the INTEGER value of an H3 cell ID for a Point (specified by a GEOGRAPHY object) at a given resolution.")
    "https://docs.snowflake.com/en/sql-reference/functions/h3_point_to_cell");
  ("H3_POINT_TO_CELL_STRING", with_docs (new_info "H3_POINT_TO_CELL_STRING"
    "Returns the hexadecimal value of an H3 cell ID for a Point (specified by a GEOGRAPHY object) at a given resolution.")
    "https://docs.snowflake.com/en/sql-reference/functions/h3_point_to_cell_string");
  ("H3_POLYGON_TO_CELLS", with_docs (new_info "H3_POLYGON_TO_CELLS"
    "Returns an array of INTEGER values of the IDs of H3 cells that have centroids contained by a Polygon (specified by a GEOGRAPHY object).")
    "https://docs.snowflake.com/en/sql-reference/functions/h3_polygon_to_cells");
  ("H3_POLYGON_TO_CELLS_STRINGS", with_docs (new_info "H3_POLYGON_TO_CELLS_STRINGS"
    "Returns an array of VARCHAR values of the hexadecimal IDs of H3 cells that have centroids contained by a Polygon (specified by a GEOGRAPHY object).")
    "https://docs.snowflake.com/en/sql-reference/functions/h3_polygon_to_cells_strings");
  ("H3_STRING_TO_INT", with_docs (new_info "H3_STRING_TO_INT"
    "Converts an H3 cell ID in hexadecimal format to an INTEGER value.")
    "https://docs.snowflake.com/en/sql-reference/functions/h3_string_to_int")].

Definition geospatial_functions_2 : Category :=
  [
  ("H3_TRY_COVERAGE", with_docs (new_info "H3_TRY_COVERAGE"
    "A special version of H3_COVERAGE that returns NULL if an error occurs when it attempts to return an array of IDs (as INTEGER values) identifying the minimal set of H3 cells that completely cover a shape (specified by a GEOGRAPHY object).")
    "https://docs.snowflake.com/en/sql-reference/functions/h3_try_coverage");
  ("H3_TRY_COVERAGE_STRINGS", with_docs (new_info "H3_TRY_COVERAGE_STRINGS"
    "A special version of H3_COVERAGE_STRINGS that returns NULL if an error occurs when it attempts to return an array of hexadecimal IDs (as VARCHAR values) identifying the minimal set of H3 cells that completely cover a shape (specified by a GEOGRAPHY object).")
    "https://docs.snowflake.com/en/sql-reference/functions/h3_try_coverage_strings");
  ("H3_TRY_GRID_DISTANCE", with_docs (new_info "H3_TRY_GRID_DISTANCE"
    "A special version of H3_GRID_DISTANCE that returns NULL if an error occurs when it attempts to return the distance between two H3 cells.")
    "https://docs.snowflake.com/en/sql-reference/functions/h3_try_grid_distance");
  ("H3_TRY_GRID_PATH", with_docs (new_info "H3_TRY_GRID_PATH"
    "A special version of H3_GRID_PATH that returns NULL if an error occurs when it attempts to return an array of VARIANT values that contain the IDs of the H3 cells that represent the line between two cells.")
    "https://docs.snowflake.com/en/sql-reference/functions/h3_try_grid_path");
  ("H3_TRY_POLYGON_TO_CELLS", with_docs (new_info "H3_TRY_POLYGON_TO_CELLS"
    "A special version of H3_POLYGON_TO_CELLS that returns NULL if an error occurs when it attempts to return an array of INTEGER values of the IDs of H3 cells that have centroids contained by a Polygon (specified by a GEOGRAPHY object).")
    "https://docs.snowflake.com/en/sql-reference/functions/h3_try_polygon_to_cells");
  ("H3_TRY_POLYGON_TO_CELLS_STRINGS", with_docs (new_info "H3_TRY_POLYGON_TO_CELLS_STRINGS"
    "A special version of H3_POLYGON_TO_CELLS_STRINGS that returns NULL if an error occurs when it attempts to return an array of VARCHAR values of the hexadecimal IDs of H3 cells that have centroids contained by a Polygon (specified by a GEOGRAPHY object).")
    "https://docs.snowflake.com/en/sql-reference/functions/h3_try_polygon_to_cells_strings");
  ("H3_UNCOMPACT_CELLS", with_docs (new_info "H3_UNCOMPACT_CELLS"
    "Returns an array of VARIANT values that contain the INTEGER IDs of H3 cells at the specified resolution that cover the same area as the H3 cells in the input.")
    "https://docs.snowflake.com/en/sql-reference/functions/h3_uncompact_cells");
  ("H3_UNCOMPACT_CELLS_STRINGS", with_docs (new_info "H3_UNCOMPACT_CELLS_STRINGS"
    "Returns an array of VARIANT values that contain the VARCHAR hexadecimal IDs of H3 cells at the specified resolution that cover the same area as the H3 cells in the input.")
    "https://docs.snowflake.com/en/sql-reference/functions/h3_uncompact_cells_strings");
  ("HAVERSINE", with_docs (new_info "HAVERSINE"
    "Calculates the great-circle distance in kilometers between two points on the Earth’s surface, using the Haversine formula.")
    "https://docs.snowflake.com/en/sql-reference/functions/haversine");
  ("ST_AREA", with_docs (new_info "ST_AREA"
    "Returns the area of the Polygon(s) in a GEOGRAPHY or GEOMETRY object.")
    "https://docs.snowflake.com/en/sql-reference/functions/st_area");
  ("ST_ASBINARY", with_docs (new_info "ST_ASBINARY"
    "Given a value of type GEOGRAPHY or GEOMETRY, return the binary representation of that value in WKB (well-known binary) format.")
    "https://docs.snowflake.com/en/sql-reference/functions/st_aswkb");
  ("ST_ASEWKB", with_docs (new_info "ST_ASEWKB"
    "Given a value of type GEOGRAPHY or GEOMETRY, return the binary representation of that value in EWKB (extended well-known binary) format.")
    "https://docs.snowflake.com/en/sql-reference/functions/st_asewkb");
  ("ST_ASEWKT", with_docs (new_info "ST_ASEWKT"
    "Given a value of type GEOGRAPHY or GEOMETRY, return the text (VARCHAR) representation of that value in EWKT (extended well-known text) format.")
    "https://docs.snowflake.com/en/sql-reference/functions/st_asewkt");
  ("ST_ASGEOJSON", with_docs (new_info "ST_ASGEOJSON"
    "Given a value of type GEOGRAPHY or GEOMETRY, return the GeoJSON representation of that value.")
    "https://docs.snowflake.com/en/sql-reference/functions/st_asgeojson");
  ("ST_ASTEXT", with_docs (new_info "ST_ASTEXT"
    "Given a value of type GEOGRAPHY or GEOMETRY, return the text (VARCHAR) representation of that value in WKT (well-known text) format.")
    "https://docs.snowflake.com/en/sql-reference/functions/st_aswkt");
  ("ST_ASWKB", with_docs (new_info "ST_ASWKB"
    "Given a value of type GEOGRAPHY or GEOMETRY, return the binary representation of that value in WKB (well-known binary) format.")
    "https://docs.snowflake.com/en/sql-reference/functions/st_aswkb");
  ("ST_ASWKT", with_docs (new_info "ST_ASWKT"
    "Given a value of type GEOGRAPHY or GEOMETRY, return the text (VARCHAR) representation of that value in WKT (well-known text) format.")
    "https://docs.snowflake.com/en/sql-reference/functions/st_aswkt");
  ("ST_AZIMUTH", with_docs (new_info "ST_AZIMUTH"
    "Given a Point that represents the origin (the location of the observer) and a specified Point, returns the azimuth in radians.")
    "https://docs.snowflake.com/en/sql-reference/functions/st_azimuth");
  ("ST_BUFFER", with_docs (new_info "ST_BUFFER"
    "Returns a GEOMETRY object that represents a MultiPolygon containing the points within a specified distance of the input GEOMETRY object.")
    "https://docs.snowflake.com/en/sql-reference/functions/st_buffer");
  ("ST_CENTROID", with_docs (new_info "ST_CENTROID"
    "Returns the Point representing the geometric center of a GEOGRAPHY or GEOMETRY object.")
    "https://docs.snowflake.com/en/sql-reference/functions/st_centroid");
  ("ST_COLLECT", with_docs (new_info "ST_COLLECT"
    "There are two forms of ST_COLLECT.")
    "https://docs.snowflake.com/en/sql-reference/functions/st_collect");
  ("ST_CONTAINS", with_docs (new_info "ST_CONTAINS"
    "Returns TRUE if a GEOGRAPHY or GEOMETRY object is completely inside another object of the same type.")
    "https://docs.snowflake.com/en/sql-reference/functions/st_contains");
  ("ST_COVEREDBY", with_docs (new_info "ST_COVEREDBY"
    "Returns TRUE if no point in one geospatial object is outside another geospatial object.")
    "https://docs.snowflake.com/en/sql-reference/functions/st_coveredby")].

Definition geospatial_functions_3 : Category :=
  [
  ("ST_COVERS", with_docs (new_info "ST_COVERS"
    "Returns TRUE if no point in one geospatial object is outside of another geospatial object.")
    "https://docs.snowflake.com/en/sql-reference/functions/st_covers");
  ("ST_DIFFERENCE", with_docs (new_info "ST_DIFFERENCE"
    "Given two input GEOGRAPHY objects, returns a GEOGRAPHY object that represents the points in the first object that are not in the second object (i.e. the difference between the two objects).")
    "https://docs.snowflake.com/en/sql-reference/functions/st_difference");
  ("ST_DIMENSION", with_docs (new_info "ST_DIMENSION"
    "Given a value of type GEOGRAPHY or GEOMETRY, return the “dimension” of the value.")
    "https://docs.snowflake.com/en/sql-reference/functions/st_dimension");
  ("ST_DISJOINT", with_docs (new_info "ST_DISJOINT"
    "Returns TRUE if the two GEOGRAPHY objects or the two GEOMETRY objects are disjoint (i.e. do not share any portion of space).")
    "https://docs.snowflake.com/en/sql-reference/functions/st_disjoint");
  ("ST_DISTANCE", with_docs (new_info "ST_DISTANCE"
    "Returns the minimum geodesic distance between two GEOGRAPHY or the minimum Euclidean distance between two GEOMETRY objects.")
    "https://docs.snowflake.com/en/sql-reference/functions/st_distance");
  ("ST_DWITHIN", with_docs (new_info "ST_DWITHIN"
    "Returns TRUE if the minimum geodesic distance between two points (two GEOGRAPHY objects) is within the specified distance.")
    "https://docs.snowflake.com/en/sql-reference/functions/st_dwithin");
  ("ST_ENDPOINT", with_docs (new_info "ST_ENDPOINT"
    "Returns the last Point in a LineString.")
    "https://docs.snowflake.com/en/sql-reference/functions/st_endpoint");
  ("ST_ENVELOPE", with_docs (new_info "ST_ENVELOPE"
    "Returns the minimum bounding box (a rectangular “envelope”) that encloses a specified GEOGRAPHY or GEOMETRY object.")
    "https://docs.snowflake.com/en/sql-reference/functions/st_envelope");
  ("ST_GEOHASH", with_docs (new_info "ST_GEOHASH"
    "Returns the geohash for a GEOGRAPHY or GEOMETRY object.")
    "https://docs.snowflake.com/en/sql-reference/functions/st_geohash");
  ("ST_GEOMFROMGEOHASH", with_docs (new_info "ST_GEOMFROMGEOHASH"
    "Returns a GEOMETRY object for the polygon that represents the boundaries of a geohash.")
    "https://docs.snowflake.com/en/sql-reference/functions/st_geomfromgeohash");
  ("ST_GEOMPOINT", with_docs (new_info "ST_GEOMPOINT"
    "Constructs a GEOMETRY object that represents a Point with the specified longitude and latitude.")
    "https://docs.snowflake.com/en/sql-reference/functions/st_makegeompoint");
  ("ST_GEOMPOINTFROMGEOHASH", with_docs (new_info "ST_GEOMPOINTFROMGEOHASH"
    "Returns a GEOMETRY object for the point that represents center of a geohash.")
    "https://docs.snowflake.com/en/sql-reference/functions/st_geompointfromgeohash");
  ("ST_HAUSDORFFDISTANCE", with_docs (new_info "ST_HAUSDORFFDISTANCE"
    "Returns the discrete Hausdorff distance between two GEOGRAPHY objects.")
    "https://docs.snowflake.com/en/sql-reference/functions/st_hausdorffdistance");
  ("ST_INTERPOLATE", with_docs (new_info "ST_INTERPOLATE"
    "Given an input GEOGRAPHY object, returns an interpolated object that is within a specified tolerance.")
    "https://docs.snowflake.com/en/sql-reference/functions/st_interpolate");
  ("ST_INTERSECTION", with_docs (new_info "ST_INTERSECTION"
    "Given two input GEOGRAPHY objects, returns a GEOGRAPHY object that represents the shape containing the set of points that are common to both input objects (i.e. the intersection of the two objects).")
    "https://docs.snowflake.com/en/sql-reference/functions/st_intersection");
  ("ST_INTERSECTION_AGG", with_docs (new_info "ST_INTERSECTION_AGG"
    "Given a GEOGRAPHY column, returns a GEOGRAPHY object that represents the shape containing the combined set of points that are common to the shapes represented by the objects in the column (that is, the intersection of the shapes).")
    "https://docs.snowflake.com/en/sql-reference/functions/st_intersection_agg");
  ("ST_INTERSECTS", with_docs (new_info "ST_INTERSECTS"
    "Returns TRUE if the two GEOGRAPHY objects or the two GEOMETRY objects intersect (i.e. share any portion of space).")
    "https://docs.snowflake.com/en/sql-reference/functions/st_intersects");
  ("ST_ISVALID", with_docs (new_info "ST_ISVALID"
    "Returns TRUE if the specified GEOGRAPHY or GEOMETRY object represents a valid shape.")
    "https://docs.snowflake.com/en/sql-reference/functions/st_isvalid");
  ("ST_LENGTH", with_docs (new_info "ST_LENGTH"
    "Returns the geodesic length of the LineString(s) in a GEOGRAPHY object or the Euclidean length of the LineString(s) in a GEOMETRY object.")
    "https://docs.snowflake.com/en/sql-reference/functions/st_length");
  ("ST_MAKEGEOMPOINT", with_docs (new_info "ST_MAKEGEOMPOINT"
    "Constructs a GEOMETRY object that represents a Point with the specified longitude and latitude.")
    "https://docs.snowflake.com/en/sql-reference/functions/st_makegeompoint");
  ("ST_MAKELINE", with_docs (new_info "ST_MAKELINE"
    "Constructs a GEOGRAPHY or GEOMETRY object that represents a line connecting the points in the input objects.")
    "https://docs.snowflake.com/en/sql-reference/functions/st_makeline");
  ("ST_MAKEPOINT", with_docs (new_info "ST_MAKEPOINT"
    "Constructs a GEOGRAPHY object that represents a point with the specified longitude and latitude.")
    "https://docs.snowflake.com/en/sql-reference/functions/st_makepoint");
  ("ST_MAKEPOLYGON", with_docs (new_info "ST_MAKEPOLYGON"
    "Constructs a GEOGRAPHY or GEOMETRY object that represents a Polygon without holes.")
    "https://docs.snowflake.com/en/sql-reference/functions/st_makepolygon")].

Definition geospatial_functions_4 : Category :=
  [
  ("ST_MAKEPOLYGONORIENTED", with_docs (new_info "ST_MAKEPOLYGONORIENTED"
    "Constructs a GEOGRAPHY object that represents a Polygon without holes.")
    "https://docs.snowflake.com/en/sql-reference/functions/st_makepolygonoriented");
  ("ST_NPOINTS", with_docs (new_info "ST_NPOINTS"
    "Returns the number of points in a GEOGRAPHY or GEOGRAPHY object.")
    "https://docs.snowflake.com/en/sql-reference/functions/st_npoints");
  ("ST_NUMPOINTS", with_docs (new_info "ST_NUMPOINTS"
    "Returns the number of points in a GEOGRAPHY or GEOGRAPHY object.")
    "https://docs.snowflake.com/en/sql-reference/functions/st_npoints");
  ("ST_PERIMETER", with_docs (new_info "ST_PERIMETER"
    "Returns the length of the perimeter of the polygon(s) in a GEOGRAPHY or GEOMETRY object.")
    "https://docs.snowflake.com/en/sql-reference/functions/st_perimeter");
  ("ST_POINT", with_docs (new_info "ST_POINT"
    "Constructs a GEOGRAPHY object that represents a point with the specified longitude and latitude.")
    "https://docs.snowflake.com/en/sql-reference/functions/st_makepoint");
  ("ST_POINTN", with_docs (new_info "ST_POINTN"
    "Returns a Point at a specified index in a LineString.")
    "https://docs.snowflake.com/en/sql-reference/functions/st_pointn");
  ("ST_POLYGON", with_docs (new_info "ST_POLYGON"
    "Constructs a GEOGRAPHY or GEOMETRY object that represents a Polygon without holes.")
    "https://docs.snowflake.com/en/sql-reference/functions/st_makepolygon");
  ("ST_SETSRID", with_docs (new_info "ST_SETSRID"
    "Returns a GEOMETRY object that has its SRID (spatial reference system identifier) set to the specified value.")
    "https://docs.snowflake.com/en/sql-reference/functions/st_setsrid");
  ("ST_SIMPLIFY", with_docs (new_info "ST_SIMPLIFY"
    "Given an input GEOGRAPHY or GEOMETRY object that represents a Line or Polygon, returns a simpler approximation of the object.")
    "https://docs.snowflake.com/en/sql-reference/functions/st_simplify");
  ("ST_SRID", with_docs (new_info "ST_SRID"
    "Returns the SRID (spatial reference system identifier) of a GEOGRAPHY or GEOMETRY object.")
    "https://docs.snowflake.com/en/sql-reference/functions/st_srid");
  ("ST_STARTPOINT", with_docs (new_info "ST_STARTPOINT"
    "Returns the first Point in a LineString.")
    "https://docs.snowflake.com/en/sql-reference/functions/st_startpoint");
  ("ST_SYMDIFFERENCE", with_docs (new_info "ST_SYMDIFFERENCE"
    "Given two input GEOGRAPHY objects, returns a GEOGRAPHY object that represents the set of points from both input objects that are not part of the intersection of the objects (i.e. the symmetric difference of the two objects).")
    "https://docs.snowflake.com/en/sql-reference/functions/st_symdifference");
  ("ST_TRANSFORM", with_docs (new_info "ST_TRANSFORM"
    "Converts a GEOMETRY object from one spatial reference system (SRS) to another.")
    "https://docs.snowflake.com/en/sql-reference/functions/st_transform");
  ("ST_UNION", with_docs (new_info "ST_UNION"
    "Given two input GEOGRAPHY objects, returns a GEOGRAPHY object that represents the combined set of shapes for both objects (i.e. the union of the two shapes).")
    "https://docs.snowflake.com/en/sql-reference/functions/st_union");
  ("ST_UNION_AGG", with_docs (new_info "ST_UNION_AGG"
    "Given a GEOGRAPHY column, returns a GEOGRAPHY object that represents the combined set of points that are in at least one of the shapes represented by the objects in the column (that is, the union of the shapes).")
    "https://docs.snowflake.com/en/sql-reference/functions/st_union_agg");
  ("ST_WITHIN", with_docs (new_info "ST_WITHIN"
    "Returns true if the first geospatial object is fully contained by the second geospatial object.")
    "https://docs.snowflake.com/en/sql-reference/functions/st_within");
  ("ST_X", with_docs (new_info "ST_X"
    "Returns the longitude (X coordinate) of a Point represented by a GEOGRAPHY or GEOMETRY object.")
    "https://docs.snowflake.com/en/sql-reference/functions/st_x");
  ("ST_XMAX", with_docs (new_info "ST_XMAX"
    "Returns the maximum longitude (X coordinate) of all points contained in the specified GEOGRAPHY or GEOMETRY object.")
    "https://docs.snowflake.com/en/sql-reference/functions/st_xmax");
  ("ST_XMIN", with_docs (new_info "ST_XMIN"
    "Returns the minimum longitude (X coordinate) of all points contained in the specified GEOGRAPHY or GEOMETRY object.")
    "https://docs.snowflake.com/en/sql-reference/functions/st_xmin");
  ("ST_Y", with_docs (new_info "ST_Y"
    "Returns the latitude (Y coordinate) of a Point represented by a GEOGRAPHY or GEOMETRY object.")
    "https://docs.snowflake.com/en/sql-reference/functions/st_y");
  ("ST_YMAX", with_docs (new_info "ST_YMAX"
    "Returns the maximum latitude (Y coordinate) of all points contained in the specified GEOGRAPHY or GEOMETRY object.")
    "https://docs.snowflake.com/en/sql-reference/functions/st_ymax");
  ("ST_YMIN", with_docs (new_info "ST_YMIN"
    "Returns the minimum latitude (Y coordinate) of all points contained in the specified GEOGRAPHY or GEOMETRY object.")
    "https://docs.snowflake.com/en/sql-reference/functions/st_ymin")].

Definition geospatial_functions : Category := (geospatial_functions_1 ++ geospatial_functions_2 ++ geospatial_functions_3 ++ geospatial_functions_4)%list.

Definition hash_functions : Category :=
  [
  ("HASH", with_docs (new_info "HASH"
    "Returns a signed 64-bit hash value.")
    "https://docs.snowflake.com/en/sql-reference/functions/hash")].

Definition iceberg_functions : Category :=
  [
  ("ICEBERG_TABLE_FILES", with_docs (new_info "ICEBERG_TABLE_FILES"
    "Returns information about the data files registered to an externally managed")
    "https://docs.snowflake.com/en/sql-reference/functions/iceberg_table_files");
  ("ICEBERG_TABLE_SNAPSHOT_REFRESH_HISTORY", with_docs (new_info "ICEBERG_TABLE_SNAPSHOT_REFRESH_HISTORY"
    "Returns metadata and snapshot information about the most recent refresh history for a specified externally managed")
    "https://docs.snowflake.com/en/sql-reference/functions/iceberg_table_snapshot_refresh_history")].

Definition information_schema_functions_1 : Category :=
  [
  ("ALERT_HISTORY", with_docs (new_info "ALERT_HISTORY"
    "This INFORMATION_SCHEMA table function can be used to query the history of alerts within a specified date range.")
    "https://docs.snowflake.com/en/sql-reference/functions/alert_history");
  ("AUTOMATIC_CLUSTERING_HISTORY", with_docs (new_info "AUTOMATIC_CLUSTERING_HISTORY"
    "This table function is used for querying the Automatic Clustering history for given tables within a specified date range.")
    "https://docs.snowflake.com/en/sql-reference/functions/automatic_clustering_history");
  ("AUTO_REFRESH_REGISTRATION_HISTORY", with_docs (new_info "AUTO_REFRESH_REGISTRATION_HISTORY"
    "This table function can be used to query the history of data files registered in the metadata of specified objects and the credits billed for these operations.")
    "https://docs.snowflake.com/en/sql-reference/functions/auto_refresh_registration_history");
  ("AVAILABLE_LISTING_REFRESH_HISTORY", with_docs (new_info "AVAILABLE_LISTING_REFRESH_HISTORY"
    "Returns the past 14 days of refresh history for an available listing or a database mounted from a listing using cross-cloud auto-fulfillment.")
    "https://docs.snowflake.com/en/sql-reference/functions/available_listing_refresh_history");
  ("COMPLETE_TASK_GRAPHS", with_docs (new_info "COMPLETE_TASK_GRAPHS"
    "Returns the status of a completed graph run.")
    "https://docs.snowflake.com/en/sql-reference/functions/complete_task_graphs");
  ("COPY_HISTORY", with_docs (new_info "COPY_HISTORY"
    "This table function can be used to query Snowflake data loading history along various dimensions within the last 14 days.")
    "https://docs.snowflake.com/en/sql-reference/functions/copy_history");
  ("CURRENT_TASK_GRAPHS", with_docs (new_info "CURRENT_TASK_GRAPHS"
    "Returns the status of a graph run that is currently scheduled or is executing.")
    "https://docs.snowflake.com/en/sql-reference/functions/current_task_graphs");
  ("DATABASE_REFRESH_HISTORY", with_docs (new_info "DATABASE_REFRESH_HISTORY"
    "Returns the refresh history for a secondary database.")
    "https://docs.snowflake.com/en/sql-reference/functions/database_refresh_history");
  ("DATABASE_REFRESH_PROGRESS", with_docs (new_info "DATABASE_REFRESH_PROGRESS"
    "The DATABASE_REFRESH_PROGRESS family of functions can be used to query the status of a database refresh along various dimensions.")
    "https://docs.snowflake.com/en/sql-reference/functions/database_refresh_progress");
  ("DATABASE_REFRESH_PROGRESS_BY_JOB", with_docs (new_info "DATABASE_REFRESH_PROGRESS_BY_JOB"
    "The DATABASE_REFRESH_PROGRESS family of functions can be used to query the status of a database refresh along various dimensions.")
    "https://docs.snowflake.com/en/sql-reference/functions/database_refresh_progress");
  ("DATABASE_REPLICATION_USAGE_HISTORY", with_docs (new_info "DATABASE_REPLICATION_USAGE_HISTORY"
    "This table function can be used to query the replication history for a specified database within a specified date range.")
    "https://docs.snowflake.com/en/sql-reference/functions/database_replication_usage_history");
  ("DATABASE_STORAGE_USAGE_HISTORY", with_docs (new_info "DATABASE_STORAGE_USAGE_HISTORY"
    "This table function can be used to query the average daily storage usage, in bytes, for a single database (or all the databases in your account) within a specified date range.")
    "https://docs.snowflake.com/en/sql-reference/functions/database_storage_usage_history");
  ("DATA_METRIC_FUNCTION_REFERENCES", with_docs (new_info "DATA_METRIC_FUNCTION_REFERENCES"
    "Returns a row for each object that has the specified data metric function assigned to the object or returns a row for each data metric function assigned to the specified object.")
    "https://docs.snowflake.com/en/sql-reference/functions/data_metric_function_references");
  ("DATA_TRANSFER_HISTORY", with_docs (new_info "DATA_TRANSFER_HISTORY"
    "This table function can be used to query the history of data transferred from Snowflake tables into a different cloud storage provider’s network (i.e. from Snowflake on AWS, Google Cloud Platform, or Microsoft Azure into the other cloud provider’s network) and/or geographical region within a specified date range.")
    "https://docs.snowflake.com/en/sql-reference/functions/data_transfer_history");
  ("DYNAMIC_TABLES", with_docs (new_info "DYNAMIC_TABLES"
    "This table function returns metadata about dynamic tables, including aggregate lag metrics and the status of the most recent refreshes, within 7 days of the current time.")
    "https://docs.snowflake.com/en/sql-reference/functions/dynamic_tables");
  ("DYNAMIC_TABLE_GRAPH_HISTORY", with_docs (new_info "DYNAMIC_TABLE_GRAPH_HISTORY"
    "This table function returns information on all dynamic tables in the current account.")
    "https://docs.snowflake.com/en/sql-reference/functions/dynamic_table_graph_history");
  ("DYNAMIC_TABLE_REFRESH_HISTORY", with_docs (new_info "DYNAMIC_TABLE_REFRESH_HISTORY"
    "This table function returns information about each refresh (completed and running) of dynamic tables.")
    "https://docs.snowflake.com/en/sql-reference/functions/dynamic_table_refresh_history");
  ("EXTERNAL_FUNCTIONS_HISTORY", with_docs (new_info "EXTERNAL_FUNCTIONS_HISTORY"
    "This table function retrieves the history of external functions called by Snowflake for your entire Snowflake account.")
    "https://docs.snowflake.com/en/sql-reference/functions/external_functions_history");
  ("EXTERNAL_TABLE_FILES", with_docs (new_info "EXTERNAL_TABLE_FILES"
    "This table function can be used to query information about the staged data files included in the metadata for a specified external table.")
    "https://docs.snowflake.com/en/sql-reference/functions/external_table_files");
  ("EXTERNAL_TABLE_FILE_REGISTRATION_HISTORY", with_docs (new_info "EXTERNAL_TABLE_FILE_REGISTRATION_HISTORY"
    "This table function can be used to query information about the metadata history for an external table.")
    "https://docs.snowflake.com/en/sql-reference/functions/external_table_registration_history");
  ("LISTING_REFRESH_HISTORY", with_docs (new_info "LISTING_REFRESH_HISTORY"
    "Returns the past 14 days of refresh history for a cross-cloud auto-fulfillment listing.")
    "https://docs.snowflake.com/en/sql-reference/functions/listing_refresh_history");
  ("LOGIN_HISTORY", with_docs (new_info "LOGIN_HISTORY"
    "The LOGIN_HISTORY family of table functions can be used to query login attempts by Snowflake users along various dimensions.")
    "https://docs.snowflake.com/en/sql-reference/functions/login_history");
  ("LOGIN_HISTORY_BY_USER", with_docs (new_info "LOGIN_HISTORY_BY_USER"
    "The LOGIN_HISTORY family of table functions can be used to query login attempts by Snowflake users along various dimensions.")
    "https://docs.snowflake.com/en/sql-reference/functions/login_history")].

Definition information_schema_functions_2 : Category :=
  [
  ("MATERIALIZED_VIEW_REFRESH_HISTORY", with_docs (new_info "MATERIALIZED_VIEW_REFRESH_HISTORY"
    "This table function is used for querying the materialized views refresh history for a specified materialized view within a specified date range.")
    "https://docs.snowflake.com/en/sql-reference/functions/materialized_view_refresh_history");
  ("NETWORK_RULE_REFERENCES", with_docs (new_info "NETWORK_RULE_REFERENCES"
    "Returns a row for each object with which the specified network rule is associated or returns a row for each network rule associated with the specified container.")
    "https://docs.snowflake.com/en/sql-reference/functions/network_rule_references");
  ("NOTIFICATION_HISTORY", with_docs (new_info "NOTIFICATION_HISTORY"
    "This table function can be used to query the history of notifications sent through Snowflake.")
    "https://docs.snowflake.com/en/sql-reference/functions/notification_history");
  ("PIPE_USAGE_HISTORY", with_docs (new_info "PIPE_USAGE_HISTORY"
    "This table function can be used to query the history of data loaded into Snowflake tables using Snowpipe within a specified date range.")
    "https://docs.snowflake.com/en/sql-reference/functions/pipe_usage_history");
  ("POLICY_REFERENCES", with_docs (new_info "POLICY_REFERENCES"
    "Returns a row for each object that has the specified policy assigned to the object or returns a row for each policy assigned to the specified object.")
    "https://docs.snowflake.com/en/sql-reference/functions/policy_references");
  ("QUERY_ACCELERATION_HISTORY", with_docs (new_info "QUERY_ACCELERATION_HISTORY"
    "The QUERY_ACCELERATION_HISTORY function is used for querying the query acceleration service history within a specified date range.")
    "https://docs.snowflake.com/en/sql-reference/functions/query_acceleration_history");
  ("QUERY_HISTORY", with_docs (new_info "QUERY_HISTORY"
    "The QUERY_HISTORY family of table functions can be used to query Snowflake query history along various dimensions.")
    "https://docs.snowflake.com/en/sql-reference/functions/query_history");
  ("REPLICATION_GROUP_REFRESH_HISTORY", with_docs (new_info "REPLICATION_GROUP_REFRESH_HISTORY"
    "Returns the replication history for a secondary replication or failover group within the last 14 days.")
    "https://docs.snowflake.com/en/sql-reference/functions/replication_group_refresh_history");
  ("REPLICATION_GROUP_REFRESH_PROGRESS", with_docs (new_info "REPLICATION_GROUP_REFRESH_PROGRESS"
    "The REPLICATION_GROUP_REFRESH_PROGRESS family of functions can be used to query the status of a replication or failover group refresh.")
    "https://docs.snowflake.com/en/sql-reference/functions/replication_group_refresh_progress");
  ("REPLICATION_GROUP_REFRESH_PROGRESS_BY_JOB", with_docs (new_info "REPLICATION_GROUP_REFRESH_PROGRESS_BY_JOB"
    "The REPLICATION_GROUP_REFRESH_PROGRESS family of functions can be used to query the status of a replication or failover group refresh.")
    "https://docs.snowflake.com/en/sql-reference/functions/replication_group_refresh_progress");
  ("REPLICATION_GROUP_USAGE_HISTORY", with_docs (new_info "REPLICATION_GROUP_USAGE_HISTORY"
    "Returns the replication usage history for secondary replication or failover groups within the last 14 days.")
    "https://docs.snowflake.com/en/sql-reference/functions/replication_group_usage_history");
  ("REPLICATION_USAGE_HISTORY", with_docs (new_info "REPLICATION_USAGE_HISTORY"
    "This table function can be used to query the replication history for a specified database within a specified date range.")
    "https://docs.snowflake.com/en/sql-reference/functions/replication_usage_history");
  ("SEARCH_OPTIMIZATION_HISTORY", with_docs (new_info "SEARCH_OPTIMIZATION_HISTORY"
    "This table function is used for querying the search optimization service maintenance history for a specified table within a specified date range.")
    "https://docs.snowflake.com/en/sql-reference/functions/search_optimization_history");
  ("SERVERLESS_ALERT_HISTORY", with_docs (new_info "SERVERLESS_ALERT_HISTORY"
    "This table function is used for querying the serverless alert usage history.")
    "https://docs.snowflake.com/en/sql-reference/functions/serverless_alert_history");
  ("SERVERLESS_TASK_HISTORY", with_docs (new_info "SERVERLESS_TASK_HISTORY"
    "This table function is used for querying the serverless task usage history.")
    "https://docs.snowflake.com/en/sql-reference/functions/serverless_task_history");
  ("STAGE_DIRECTORY_FILE_REGISTRATION_HISTORY", with_docs (new_info "STAGE_DIRECTORY_FILE_REGISTRATION_HISTORY"
    "This table function can be used to query information about the metadata history for a directory table.")
    "https://docs.snowflake.com/en/sql-reference/functions/stage_directory_file_registration_history");
  ("STAGE_STORAGE_USAGE_HISTORY", with_docs (new_info "STAGE_STORAGE_USAGE_HISTORY"
    "This table function can be used to query the average daily data storage usage, in bytes, for all the Snowflake stages in your account within a specified date range.")
    "https://docs.snowflake.com/en/sql-reference/functions/stage_storage_usage_history");
  ("TAG_REFERENCES", with_docs (new_info "TAG_REFERENCES"
    "Returns a table in which each row displays an association between a tag and value.")
    "https://docs.snowflake.com/en/sql-reference/functions/tag_references");
  ("TAG_REFERENCES_ALL_COLUMNS", with_docs (new_info "TAG_REFERENCES_ALL_COLUMNS"
    "Returns a table in which each row displays the tag name and tag value assigned to a specific column.")
    "https://docs.snowflake.com/en/sql-reference/functions/tag_references_all_columns");
  ("TASK_DEPENDENTS", with_docs (new_info "TASK_DEPENDENTS"
    "This table function returns the list of child tasks for a given root task in a task graph.")
    "https://docs.snowflake.com/en/sql-reference/functions/task_dependents");
  ("TASK_HISTORY", with_docs (new_info "TASK_HISTORY"
    "You can use this table function to query the history of task usage within a specified date range.")
    "https://docs.snowflake.com/en/sql-reference/functions/task_history");
  ("VALIDATE_PIPE_LOAD", with_docs (new_info "VALIDATE_PIPE_LOAD"
    "This table function can be used to validate data files processed by Snowpipe within a specified time range.")
    "https://docs.snowflake.com/en/sql-reference/functions/validate_pipe_load");
  ("WAREHOUSE_LOAD_HISTORY", with_docs (new_info "WAREHOUSE_LOAD_HISTORY"
    "This table function can be used to query the activity history (defined as the “query load”) for a single warehouse within a specified date range.")
    "https://docs.snowflake.com/en/sql-reference/functions/warehouse_load_history")].

Definition information_schema_functions_3 : Category :=
  [
  ("WAREHOUSE_METERING_HISTORY", with_docs (new_info "WAREHOUSE_METERING_HISTORY"
    "This table function can be used in queries to return the hourly credit usage for a single warehouse (or all the warehouses in your account) within a specified date range.")
    "https://docs.snowflake.com/en/sql-reference/functions/warehouse_metering_history")].

Definition information_schema_functions : Category := (information_schema_functions_1 ++ information_schema_functions_2 ++ information_schema_functions_3)%list.

Definition metadata_functions : Category :=
  [
  ("GENERATE_COLUMN_DESCRIPTION", with_docs (new_info "GENERATE_COLUMN_DESCRIPTION"
    "Generates a list of columns from a set of staged files that contain semi-structured data using the INFER_SCHEMA function output.")
    "https://docs.snowflake.com/en/sql-reference/functions/generate_column_description");
  ("GET_DDL", with_docs (new_info "GET_DDL"
    "Returns a DDL statement that can be used to recreate the specified object.")
    "https://docs.snowflake.com/en/sql-reference/functions/get_ddl")].

Definition notification_functions : Category :=
  [
  ("APPLICATION_JSON", with_docs (new_info "APPLICATION_JSON"
    "Returns a JSON object that specifies the JSON message to use for a notification.")
    "https://docs.snowflake.com/en/sql-reference/functions/application_json");
  ("EMAIL_INTEGRATION_CONFIG", with_docs (new_info "EMAIL_INTEGRATION_CONFIG"
    "Returns a JSON object that specifies the email notification integration, recipients, and subject line to use for an email notification.")
    "https://docs.snowflake.com/en/sql-reference/functions/email_integration_config");
  ("INTEGRATION", with_docs (new_info "INTEGRATION"
    "Returns a JSON object that specifies the notification integration to use to send a message.")
    "https://docs.snowflake.com/en/sql-reference/functions/integration");
  ("SANITIZE_WEBHOOK_CONTENT", with_docs (new_info "SANITIZE_WEBHOOK_CONTENT"
    "Removes placeholders (for example, the SNOWFLAKE_WEBHOOK_SECRET placeholder, which specifies a secret) from the body of a notification message to be sent.")
    "https://docs.snowflake.com/en/sql-reference/functions/sanitize_webhook_content");
  ("TEXT_HTML", with_docs (new_info "TEXT_HTML"
    "Returns a JSON object that specifies the HTML message to use for a notification.")
    "https://docs.snowflake.com/en/sql-reference/functions/text_html");
  ("TEXT_PLAIN", with_docs (new_info "TEXT_PLAIN"
    "Returns a JSON object that specifies the plain text message to use for a notification.")
    "https://docs.snowflake.com/en/sql-reference/functions/text_plain")].

Definition numeric_functions : Category :=
  [
  ("MOD", with_docs (new_info "MOD"
    "Returns the remainder of input expr1 divided by input expr2.")
    "https://docs.snowflake.com/en/sql-reference/functions/mod");
  ("SIGN", with_docs (new_info "SIGN"
    "Returns the sign of its argument.")
    "https://docs.snowflake.com/en/sql-reference/functions/sign");
  ("SQUARE", with_docs (new_info "SQUARE"
    "Returns the square of a numeric expression (i.e. a numeric expression multiplied by itself).")
    "https://docs.snowflake.com/en/sql-reference/functions/square");
  ("TRUNCATE", with_docs (new_info "TRUNCATE"
    "Rounds the input expression down to the nearest (or equal) integer closer to zero, or to the nearest equal or smaller value with the specified number of places after the decimal point.")
    "https://docs.snowflake.com/en/sql-reference/functions/trunc");
  ("WIDTH_BUCKET", with_docs (new_info "WIDTH_BUCKET"
    "Constructs equi-width histograms, in which the histogram range is divided into intervals of identical size, and returns the bucket number into which the value of an expression falls, after it has been evaluated.")
    "https://docs.snowflake.com/en/sql-reference/functions/width_bucket")].

Definition semistructured_functions_1 : Category :=
  [
  ("ARRAY_CONSTRUCT_COMPACT", with_subcategory (with_docs (new_info "ARRAY_CONSTRUCT_COMPACT"
    "Returns an array constructed from zero, one, or more inputs; the constructed array omits any NULL input values.")
    "https://docs.snowflake.com/en/sql-reference/functions/array_construct_compact") "array");
  ("AS_BINARY", with_subcategory (with_docs (new_info "AS_BINARY"
    "Casts a VARIANT value to a BINARY value.")
    "https://docs.snowflake.com/en/sql-reference/functions/as_binary") "conversion");
  ("AS_BOOLEAN", with_subcategory (with_docs (new_info "AS_BOOLEAN"
    "Casts a VARIANT value to a BOOLEAN value.")
    "https://docs.snowflake.com/en/sql-reference/functions/as_boolean") "conversion");
  ("AS_CHAR", with_subcategory (with_docs (new_info "AS_CHAR"
    "Casts a VARIANT value to a VARCHAR value.")
    "https://docs.snowflake.com/en/sql-reference/functions/as_char-varchar") "conversion");
  ("AS_DATE", with_subcategory (with_docs (new_info "AS_DATE"
    "Casts a VARIANT value to a DATE value.")
    "https://docs.snowflake.com/en/sql-reference/functions/as_date") "conversion");
  ("AS_DECIMAL", with_subcategory (with_docs (new_info "AS_DECIMAL"
    "Casts a VARIANT value to a fixed-point NUMBER value, with optional precision and scale.")
    "https://docs.snowflake.com/en/sql-reference/functions/as_decimal-number") "conversion");
  ("AS_DOUBLE", with_subcategory (with_docs (new_info "AS_DOUBLE"
    "Casts a VARIANT value to a floating-point value.")
    "https://docs.snowflake.com/en/sql-reference/functions/as_double-real") "conversion");
  ("AS_INTEGER", with_subcategory (with_docs (new_info "AS_INTEGER"
    "Casts a VARIANT value to an INTEGER.")
    "https://docs.snowflake.com/en/sql-reference/functions/as_integer") "conversion");
  ("AS_NUMBER", with_subcategory (with_docs (new_info "AS_NUMBER"
    "Casts a VARIANT value to a fixed-point NUMBER value, with optional precision and scale.")
    "https://docs.snowflake.com/en/sql-reference/functions/as_decimal-number") "conversion");
  ("AS_REAL", with_subcategory (with_docs (new_info "AS_REAL"
    "Casts a VARIANT value to a floating-point value.")
    "https://docs.snowflake.com/en/sql-reference/functions/as_double-real") "conversion");
  ("AS_TIME", with_subcategory (with_docs (new_info "AS_TIME"
    "Casts a VARIANT value to a TIME value.")
    "https://docs.snowflake.com/en/sql-reference/functions/as_time") "conversion");
  ("AS_TIMESTAMP_LTZ", with_subcategory (with_docs (new_info "AS_TIMESTAMP_LTZ"
    "Casts a VARIANT value to the respective timestamp value.")
    "https://docs.snowflake.com/en/sql-reference/functions/as_timestamp") "conversion");
  ("AS_TIMESTAMP_NTZ", with_subcategory (with_docs (new_info "AS_TIMESTAMP_NTZ"
    "Casts a VARIANT value to the respective timestamp value.")
    "https://docs.snowflake.com/en/sql-reference/functions/as_timestamp") "conversion");
  ("AS_TIMESTAMP_TZ", with_subcategory (with_docs (new_info "AS_TIMESTAMP_TZ"
    "Casts a VARIANT value to the respective timestamp value.")
    "https://docs.snowflake.com/en/sql-reference/functions/as_timestamp") "conversion");
  ("AS_VARCHAR", with_subcategory (with_docs (new_info "AS_VARCHAR"
    "Casts a VARIANT value to a VARCHAR value.")
    "https://docs.snowflake.com/en/sql-reference/functions/as_char-varchar") "conversion");
  ("CHECK_JSON", with_docs (new_info "CHECK_JSON"
    "Checks the validity of a JSON document.")
    "https://docs.snowflake.com/en/sql-reference/functions/check_json");
  ("CHECK_XML", with_docs (new_info "CHECK_XML"
    "Checks the validity of an XML document.")
    "https://docs.snowflake.com/en/sql-reference/functions/check_xml");
  ("EXPLAIN_JSON", with_subcategory (with_docs (new_info "EXPLAIN_JSON"
    "This function converts an EXPLAIN plan from JSON to a table.")
    "https://docs.snowflake.com/en/sql-reference/functions/explain_json") "json");
  ("FILTER", with_docs (new_info "FILTER"
    "Filters an array based on the logic in a lambda expression.")
    "https://docs.snowflake.com/en/sql-reference/functions/filter");
  ("IS_BINARY", with_docs (new_info "IS_BINARY"
    "Returns TRUE if its VARIANT argument contains a binary string value.")
    "https://docs.snowflake.com/en/sql-reference/functions/is_binary")].

Definition semistructured_functions_2 : Category :=
  [
  ("IS_CHAR", with_docs (new_info "IS_CHAR"
    "Returns TRUE if its VARIANT argument contains a string value.")
    "https://docs.snowflake.com/en/sql-reference/functions/is_char-varchar");
  ("IS_DATE", with_docs (new_info "IS_DATE"
    "Returns TRUE if its VARIANT argument contains a DATE value.")
    "https://docs.snowflake.com/en/sql-reference/functions/is_date-value");
  ("IS_DATE_VALUE", with_docs (new_info "IS_DATE_VALUE"
    "Returns TRUE if its VARIANT argument contains a DATE value.")
    "https://docs.snowflake.com/en/sql-reference/functions/is_date-value");
  ("IS_TIME", with_docs (new_info "IS_TIME"
    "Verifies whether a VARIANT argument contains a TIME value.")
    "https://docs.snowflake.com/en/sql-reference/functions/is_time");
  ("IS_TIMESTAMP_LTZ", with_docs (new_info "IS_TIMESTAMP_LTZ"
    "Verifies whether a VARIANT argument contains the respective timestamp value.")
    "https://docs.snowflake.com/en/sql-reference/functions/is_timestamp");
  ("IS_TIMESTAMP_NTZ", with_docs (new_info "IS_TIMESTAMP_NTZ"
    "Verifies whether a VARIANT argument contains the respective timestamp value.")
    "https://docs.snowflake.com/en/sql-reference/functions/is_timestamp");
  ("IS_TIMESTAMP_TZ", with_docs (new_info "IS_TIMESTAMP_TZ"
    "Verifies whether a VARIANT argument contains the respective timestamp value.")
    "https://docs.snowflake.com/en/sql-reference/functions/is_timestamp");
  ("MAP_CAT", with_subcategory (with_docs (new_info "MAP_CAT"
    "Returns the concatenatation of two MAPs.")
    "https://docs.snowflake.com/en/sql-reference/functions/map_cat") "map");
  ("MAP_CONTAINS_KEY", with_subcategory (with_docs (new_info "MAP_CONTAINS_KEY"
    "Determines whether the specified MAP contains the specified key.")
    "https://docs.snowflake.com/en/sql-reference/functions/map_contains_key") "map");
  ("MAP_DELETE", with_subcategory (with_docs (new_info "MAP_DELETE"
    "Returns a MAP based on an existing MAP with one or more keys removed..")
    "https://docs.snowflake.com/en/sql-reference/functions/map_delete") "map");
  ("MAP_INSERT", with_subcategory (with_docs (new_info "MAP_INSERT"
    "Returns a new MAP consisting of the input MAP with a new key-value pair inserted (an existing key updated with a new value).")
    "https://docs.snowflake.com/en/sql-reference/functions/map_insert") "map");
  ("MAP_PICK", with_subcategory (with_docs (new_info "MAP_PICK"
    "Returns a new MAP containing the specified key-value pairs from an existing MAP.")
    "https://docs.snowflake.com/en/sql-reference/functions/map_pick") "map");
  ("MAP_SIZE", with_subcategory (with_docs (new_info "MAP_SIZE"
    "Returns the size of a MAP.")
    "https://docs.snowflake.com/en/sql-reference/functions/map_size") "map");
  ("PARSE_XML", with_subcategory (with_docs (new_info "PARSE_XML"
    "Interprets an input string as an XML document, producing an OBJECT value.")
    "https://docs.snowflake.com/en/sql-reference/functions/parse_xml") "xml");
  ("REDUCE", with_docs (new_info "REDUCE"
    "Reduces an array to a single value based on the logic in a lambda expression.")
    "https://docs.snowflake.com/en/sql-reference/functions/reduce");
  ("SEARCH_IP", with_docs (new_info "SEARCH_IP"
    "Searches for valid IPv4 addresses in specified character-string columns from one or more tables, including fields in VARIANT, OBJECT, and ARRAY columns.")
    "https://docs.snowflake.com/en/sql-reference/functions/search_ip");
  ("STRIP_NULL_VALUE", with_subcategory (with_docs (new_info "STRIP_NULL_VALUE"
    "Converts a JSON null value to a SQL NULL value.")
    "https://docs.snowflake.com/en/sql-reference/functions/strip_null_value") "json");
  ("TRANSFORM", with_docs (new_info "TRANSFORM"
    "Transforms an array based on the logic in a lambda expression.")
    "https://docs.snowflake.com/en/sql-reference/functions/transform");
  ("XMLGET", with_subcategory (with_docs (new_info "XMLGET"
    "Extracts an XML element object (often referred to as simply a tag) from the content of the outer XML element based on the name and instance number of the specified tag.")
    "https://docs.snowflake.com/en/sql-reference/functions/xmlget") "x,l")].

Definition semistructured_functions : Category := (semistructured_functions_1 ++ semistructured_functions_2)%list.

Definition string_binary_functions_1 : Category :=
  [
  ("BASE64_DECODE_BINARY", with_docs (new_info "BASE64_DECODE_BINARY"
    "Decodes a Base64-encoded string to a binary.")
    "https://docs.snowflake.com/en/sql-reference/functions/base64_decode_binary");
  ("BASE64_DECODE_STRING", with_docs (new_info "BASE64_DECODE_STRING"
    "Decodes a Base64-encoded string to a string.")
    "https://docs.snowflake.com/en/sql-reference/functions/base64_decode_string");
  ("BASE64_ENCODE", with_docs (new_info "BASE64_ENCODE"
    "Encodes the input (string or binary) using Base64 encoding.")
    "https://docs.snowflake.com/en/sql-reference/functions/base64_encode");
  ("CHAR", with_docs (new_info "CHAR"
    "Converts a Unicode code point (including 7-bit ASCII) into the character that matches the input Unicode.")
    "https://docs.snowflake.com/en/sql-reference/functions/chr");
  ("CHARINDEX", with_docs (new_info "CHARINDEX"
    "Searches for the first occurrence of the first argument in the second argument and, if successful, returns the position (1-based) of the first argument in the second argument.")
    "https://docs.snowflake.com/en/sql-reference/functions/charindex");
  ("CLASSIFY_TEXT", with_subcategory (with_docs (new_info "CLASSIFY_TEXT"
    "Classifies free-form text into categories that you provide.")
    "https://docs.snowflake.com/en/sql-reference/functions/classify_text-snowflake-cortex") "llm");
  ("COLLATE", with_docs (new_info "COLLATE"
    "Returns a copy of the original string, but with the specified collation_specification property instead of the original collation_specification property.")
    "https://docs.snowflake.com/en/sql-reference/functions/collate");
  ("COLLATION", with_docs (new_info "COLLATION"
    "Returns the collation specification of the expression.")
    "https://docs.snowflake.com/en/sql-reference/functions/collation");
  ("COMPLETE", with_subcategory (with_docs (new_info "COMPLETE"
    "Given a prompt, generates a response (completion) using your choice of supported language model.")
    "https://docs.snowflake.com/en/sql-reference/functions/complete-snowflake-cortex") "llm");
  ("COMPRESS", with_docs (new_info "COMPRESS"
    "Compresses the input string or binary value with a compression method.")
    "https://docs.snowflake.com/en/sql-reference/functions/compress");
  ("COUNT_TOKENS", with_subcategory (with_docs (new_info "COUNT_TOKENS"
    "Returns the number of tokens in a prompt for the large language model or the task-specific function specified in the argument.")
    "https://docs.snowflake.com/en/sql-reference/functions/count_tokens-snowflake-cortex") "llm");
  ("DECOMPRESS_BINARY", with_docs (new_info "DECOMPRESS_BINARY"
    "Decompresses the compressed BINARY input parameter.")
    "https://docs.snowflake.com/en/sql-reference/functions/decompress_binary");
  ("DECOMPRESS_STRING", with_docs (new_info "DECOMPRESS_STRING"
    "Decompresses the compressed BINARY input parameter to a string.")
    "https://docs.snowflake.com/en/sql-reference/functions/decompress_string");
  ("EDITDISTANCE", with_docs (new_info "EDITDISTANCE"
    "Computes the Levenshtein distance between two input strings.")
    "https://docs.snowflake.com/en/sql-reference/functions/editdistance");
  ("EMBED_TEXT_1024", with_subcategory (with_docs (new_info "EMBED_TEXT_1024"
    "Creates a vector embedding of 1024 dimensions from text.")
    "https://docs.snowflake.com/en/sql-reference/functions/embed_text_1024-snowflake-cortex") "llm");
  ("EMBED_TEXT_768", with_subcategory (with_docs (new_info "EMBED_TEXT_768"
    "Creates a vector embedding of 768 dimensions from English-language text.")
    "https://docs.snowflake.com/en/sql-reference/functions/embed_text-snowflake-cortex") "llm");
  ("ENDSWITH", with_docs (new_info "ENDSWITH"
    "Returns TRUE if the first expression ends with the second expression.")
    "https://docs.snowflake.com/en/sql-reference/functions/endswith");
  ("EXTRACT_ANSWER", with_docs (new_info "EXTRACT_ANSWER"
    "Extracts an answer to a given question from a text document.")
    "https://docs.snowflake.com/en/sql-reference/functions/extract_answer-snowflake-cortex");
  ("FINETUNE", with_subcategory (with_docs (new_info "FINETUNE"
    "Cancels the specified fine-tuning job from the current schema.")
    "https://docs.snowflake.com/en/sql-reference/functions/finetune-cancel") "llm");
  ("FINETUNE", with_subcategory (with_docs (new_info "FINETUNE"
    "Creates a fine-tuning job.")
    "https://docs.snowflake.com/en/sql-reference/functions/finetune-create") "llm");
  ("FINETUNE", with_subcategory (with_docs (new_info "FINETUNE"
    "Describes the properties of a fine-tuning job.")
    "https://docs.snowflake.com/en/sql-reference/functions/finetune-describe") "llm")].

Definition string_binary_functions_2 : Category :=
  [
  ("FINETUNE", with_subcategory (with_docs (new_info "FINETUNE"
    "Lists the fine-tuning jobs for which you have access privileges.")
    "https://docs.snowflake.com/en/sql-reference/functions/finetune-show") "llm");
  ("FINETUNE", with_docs (new_info "FINETUNE"
    "This function lets you create and manage large language models customized for your specific task.")
    "https://docs.snowflake.com/en/sql-reference/functions/finetune-snowflake-cortex");
  ("ILIKE ANY", with_docs (new_info "ILIKE ANY"
    "Performs a case-insensitive comparison to match a string against any of one or more specified patterns.")
    "https://docs.snowflake.com/en/sql-reference/functions/ilike_any");
  ("LIKE ALL", with_docs (new_info "LIKE ALL"
    "Performs a case-sensitive comparison to match a string against all of one or more specified patterns.")
    "https://docs.snowflake.com/en/sql-reference/functions/like_all");
  ("LIKE ANY", with_docs (new_info "LIKE ANY"
    "Performs a case-sensitive comparison to match a string against any of one or more specified patterns.")
    "https://docs.snowflake.com/en/sql-reference/functions/like_any");
  ("MD5_BINARY", with_docs (new_info "MD5_BINARY"
    "Returns a 16-byte BINARY value containing the 128-bit MD5 message digest.")
    "https://docs.snowflake.com/en/sql-reference/functions/md5_binary");
  ("MD5_HEX", with_docs (new_info "MD5_HEX"
    "Returns a 32-character hex-encoded string containing the 128-bit MD5 message digest.")
    "https://docs.snowflake.com/en/sql-reference/functions/md5");
  ("MD5_NUMBER_LOWER64", with_docs (new_info "MD5_NUMBER_LOWER64"
    "Calculates the 128-bit MD5 message digest, interprets it as a signed 128-bit big endian number, and returns the lower 64 bits of the number as an unsigned integer.")
    "https://docs.snowflake.com/en/sql-reference/functions/md5_number_lower64");
  ("MD5_NUMBER_UPPER64", with_docs (new_info "MD5_NUMBER_UPPER64"
    "Calculates the 128-bit MD5 message digest, interprets it as a signed 128-bit big endian number, and returns the upper 64 bits of the number as an unsigned integer.")
    "https://docs.snowflake.com/en/sql-reference/functions/md5_number_upper64");
  ("PARSE_DOCUMENT", with_docs (new_info "PARSE_DOCUMENT"
    "Returns the extracted content from a document on a Snowflake stage as an OBJECT that contains JSON-encoded objects as strings.")
    "https://docs.snowflake.com/en/sql-reference/functions/parse_document-snowflake-cortex");
  ("PARSE_URL", with_docs (new_info "PARSE_URL"
    "Returns a JSON object consisting of all the components (fragment, host, path, port, query, scheme) in a valid input URL/URI.")
    "https://docs.snowflake.com/en/sql-reference/functions/parse_url");
  ("SEARCH", with_docs (new_info "SEARCH"
    "Searches character data (text) in specified columns from one or more tables, including fields in VARIANT, OBJECT, and ARRAY columns.")
    "https://docs.snowflake.com/en/sql-reference/functions/search");
  ("SEARCH_PREVIEW", with_subcategory (with_docs (new_info "SEARCH_PREVIEW"
    "Given a Cortex Search service name, and a query, returns a response from the specified service.")
    "https://docs.snowflake.com/en/sql-reference/functions/search_preview-snowflake-cortex") "llm");
  ("SENTIMENT", with_subcategory (with_docs (new_info "SENTIMENT"
    "Returns a sentiment score for the given English-language input text.")
    "https://docs.snowflake.com/en/sql-reference/functions/sentiment-snowflake-cortex") "llm");
  ("SHA1", with_docs (new_info "SHA1"
    "Returns a 40-character hex-encoded string containing the 160-bit SHA-1 message digest.")
    "https://docs.snowflake.com/en/sql-reference/functions/sha1");
  ("SHA1_BINARY", with_docs (new_info "SHA1_BINARY"
    "Returns a 20-byte binary containing the 160-bit SHA-1 message digest.")
    "https://docs.snowflake.com/en/sql-reference/functions/sha1_binary");
  ("SHA1_HEX", with_docs (new_info "SHA1_HEX"
    "Returns a 40-character hex-encoded string containing the 160-bit SHA-1 message digest.")
    "https://docs.snowflake.com/en/sql-reference/functions/sha1");
  ("SHA2_BINARY", with_docs (new_info "SHA2_BINARY"
    "Returns a binary containing the N-bit SHA-2 message digest, where N is the specified output digest size.")
    "https://docs.snowflake.com/en/sql-reference/functions/sha2_binary");
  ("SOUNDEX", with_docs (new_info "SOUNDEX"
    "Returns a string that contains a phonetic representation of the input string.")
    "https://docs.snowflake.com/en/sql-reference/functions/soundex");
  ("SOUNDEX_P123", with_docs (new_info "SOUNDEX_P123"
    "Returns a string that contains a phonetic representation of the input string, and retains the Soundex code number for the second letter when the first and second letters use the same number.")
    "https://docs.snowflake.com/en/sql-reference/functions/soundex_p123");
  ("SPACE", with_docs (new_info "SPACE"
    "Builds a string consisting of the specified number of blank spaces.")
    "https://docs.snowflake.com/en/sql-reference/functions/space");
  ("SPLIT_TEXT_RECURSIVE_CHARACTER", with_docs (new_info "SPLIT_TEXT_RECURSIVE_CHARACTER"
    "The SPLIT_TEXT_RECURSIVE_CHARACTER function splits a string into shorter stings, recursively, for preprocessing text to be used with text embedding or search indexing functions.")
    "https://docs.snowflake.com/en/sql-reference/functions/split_text_recursive_character-snowflake-cortex")].

Definition string_binary_functions_3 : Category :=
  [
  ("STARTSWITH", with_docs (new_info "STARTSWITH"
    "Returns true if expr1 starts with expr2.")
    "https://docs.snowflake.com/en/sql-reference/functions/startswith");
  ("SUMMARIZE", with_subcategory (with_docs (new_info "SUMMARIZE"
    "Summarizes the given English-language input text.")
    "https://docs.snowflake.com/en/sql-reference/functions/summarize-snowflake-cortex") "llm");
  ("TRY_BASE64_DECODE_BINARY", with_docs (new_info "TRY_BASE64_DECODE_BINARY"
    "A special version of BASE64_DECODE_BINARY that returns a NULL value if an error occurs during decoding.")
    "https://docs.snowflake.com/en/sql-reference/functions/try_base64_decode_binary");
  ("TRY_BASE64_DECODE_STRING", with_docs (new_info "TRY_BASE64_DECODE_STRING"
    "A special version of BASE64_DECODE_STRING that returns a NULL value if an error occurs during decoding.")
    "https://docs.snowflake.com/en/sql-reference/functions/try_base64_decode_string");
  ("TRY_COMPLETE", with_subcategory (with_docs (new_info "TRY_COMPLETE"
    "Performs the same operation as the COMPLETE function but returns NULL instead of raising an error when the operation cannot be performed.")
    "https://docs.snowflake.com/en/sql-reference/functions/try_complete-snowflake-cortex") "llm");
  ("UNICODE", with_docs (new_info "UNICODE"
    "Returns the Unicode code point for the first Unicode character in a string.")
    "https://docs.snowflake.com/en/sql-reference/functions/unicode")].

Definition string_binary_functions : Category := (string_binary_functions_1 ++ string_binary_functions_2 ++ string_binary_functions_3)%list.

Definition system_functions_1 : Category :=
  [
  ("EXTRACT_SEMANTIC_CATEGORIES", with_docs (new_info "EXTRACT_SEMANTIC_CATEGORIES"
    "Returns a set of categories (semantic and privacy) for each supported column in the specified table or view.")
    "https://docs.snowflake.com/en/sql-reference/functions/extract_semantic_categories");
  ("GET_ANACONDA_PACKAGES_REPODATA", with_docs (new_info "GET_ANACONDA_PACKAGES_REPODATA"
    "Returns a list of third-party packages that are available from Anaconda.")
    "https://docs.snowflake.com/en/sql-reference/functions/get_anaconda_packages_repodata");
  ("GET_PYTHON_PROFILER_OUTPUT", with_docs (new_info "GET_PYTHON_PROFILER_OUTPUT"
    "Returns output containing a report generated by the Python code profiler.")
    "https://docs.snowflake.com/en/sql-reference/functions/get_python_profiler_output");
  ("GET_QUERY_OPERATOR_STATS", with_docs (new_info "GET_QUERY_OPERATOR_STATS"
    "Returns statistics about individual query operators within a query that has completed.")
    "https://docs.snowflake.com/en/sql-reference/functions/get_query_operator_stats");
  ("SHOW_PYTHON_PACKAGES_DEPENDENCIES", with_docs (new_info "SHOW_PYTHON_PACKAGES_DEPENDENCIES"
    "Returns a list of the dependencies and their versions for the Python packages that were specified.")
    "https://docs.snowflake.com/en/sql-reference/functions/show_python_packages_dependencies");
  ("SYSTEM$ABORT_SESSION", with_docs (new_info "SYSTEM$ABORT_SESSION"
    "Aborts the specified session.")
    "https://docs.snowflake.com/en/sql-reference/functions/system_abort_session");
  ("SYSTEM$ABORT_TRANSACTION", with_docs (new_info "SYSTEM$ABORT_TRANSACTION"
    "Aborts the specified transaction, if it is running.")
    "https://docs.snowflake.com/en/sql-reference/functions/system_abort_transaction");
  ("SYSTEM$ADD_EVENT", with_docs (new_info "SYSTEM$ADD_EVENT"
    "Add an event for trace.")
    "https://docs.snowflake.com/en/sql-reference/functions/system_add_event");
  ("SYSTEM$ALLOWLIST", with_docs (new_info "SYSTEM$ALLOWLIST"
    "Returns hostnames and port numbers to add to your firewall’s allowed list so that you can access Snowflake from behind your firewall.")
    "https://docs.snowflake.com/en/sql-reference/functions/system_allowlist");
  ("SYSTEM$ALLOWLIST_PRIVATELINK", with_docs (new_info "SYSTEM$ALLOWLIST_PRIVATELINK"
    "Returns hostnames and port numbers for AWS PrivateLink, Azure Private Link, and Google Cloud Private Service Connect deployments to add to your firewall’s allowed list so that you can access Snowflake from behind your firewall.")
    "https://docs.snowflake.com/en/sql-reference/functions/system_allowlist_privatelink");
  ("SYSTEM$AUTHORIZE_PRIVATELINK", with_docs (new_info "SYSTEM$AUTHORIZE_PRIVATELINK"
    "Enables private connectivity to the Snowflake service for the current account.")
    "https://docs.snowflake.com/en/sql-reference/functions/system_authorize_privatelink");
  ("SYSTEM$AUTHORIZE_STAGE_PRIVATELINK_ACCESS", with_docs (new_info "SYSTEM$AUTHORIZE_STAGE_PRIVATELINK_ACCESS"
    "Authorizes Snowflake to access the Microsoft Azure Private Endpoint for Azure private endpoints for internal stages for the current account.")
    "https://docs.snowflake.com/en/sql-reference/functions/system_authorize_stage_privatelink_access");
  ("SYSTEM$AUTO_REFRESH_STATUS", with_docs (new_info "SYSTEM$AUTO_REFRESH_STATUS"
    "Returns the automated refresh status for an externally managed Iceberg table.")
    "https://docs.snowflake.com/en/sql-reference/functions/system_auto_refresh_status");
  ("SYSTEM$BEHAVIOR_CHANGE_BUNDLE_STATUS", with_docs (new_info "SYSTEM$BEHAVIOR_CHANGE_BUNDLE_STATUS"
    "Returns the status of the specified behavior change release bundle for the current account.")
    "https://docs.snowflake.com/en/sql-reference/functions/system_behavior_change_bundle_status");
  ("SYSTEM$BLOCK_INTERNAL_STAGES_PUBLIC_ACCESS", with_docs (new_info "SYSTEM$BLOCK_INTERNAL_STAGES_PUBLIC_ACCESS"
    "Prevents all public traffic from accessing the internal stage of the current Snowflake account on Microsoft Azure.")
    "https://docs.snowflake.com/en/sql-reference/functions/system_block_internal_stages_public_access");
  ("SYSTEM$CANCEL_ALL_QUERIES", with_docs (new_info "SYSTEM$CANCEL_ALL_QUERIES"
    "Cancels all active/running queries in the specified session.")
    "https://docs.snowflake.com/en/sql-reference/functions/system_cancel_all_queries");
  ("SYSTEM$CANCEL_QUERY", with_docs (new_info "SYSTEM$CANCEL_QUERY"
    "Cancels the specified query (or statement) if it is currently active/running.")
    "https://docs.snowflake.com/en/sql-reference/functions/system_cancel_query");
  ("SYSTEM$CLEANUP_DATABASE_ROLE_GRANTS", with_docs (new_info "SYSTEM$CLEANUP_DATABASE_ROLE_GRANTS"
    "Revokes privileges on dropped objects from the share and grants the database role to the share.")
    "https://docs.snowflake.com/en/sql-reference/functions/system_cleanup_database_role_grants");
  ("SYSTEM$CLIENT_VERSION_INFO", with_docs (new_info "SYSTEM$CLIENT_VERSION_INFO"
    "Returns version information for Snowflake clients and drivers.")
    "https://docs.snowflake.com/en/sql-reference/functions/system_client_version_info");
  ("SYSTEM$CLUSTERING_DEPTH", with_docs (new_info "SYSTEM$CLUSTERING_DEPTH"
    "Computes the average depth of the table according to the specified columns (or the clustering key defined for the table).")
    "https://docs.snowflake.com/en/sql-reference/functions/system_clustering_depth");
  ("SYSTEM$CLUSTERING_INFORMATION", with_docs (new_info "SYSTEM$CLUSTERING_INFORMATION"
    "Returns clustering information, including average clustering depth, for a table based on one or more columns in the table.")
    "https://docs.snowflake.com/en/sql-reference/functions/system_clustering_information");
  ("SYSTEM$COMMIT_MOVE_ORGANIZATION_ACCOUNT", with_docs (new_info "SYSTEM$COMMIT_MOVE_ORGANIZATION_ACCOUNT"
    "Finalizes the process of moving an organization account from one region to another.")
    "https://docs.snowflake.com/en/sql-reference/functions/system_commit_move_organization_account");
  ("SYSTEM$CONVERT_PIPES_SQS_TO_SNS", with_docs (new_info "SYSTEM$CONVERT_PIPES_SQS_TO_SNS"
    "Convert pipes using Amazon SQS (Simple Queue Service) notifications to the Amazon Simple Notification Service (SNS) service for an S3 bucket.")
    "https://docs.snowflake.com/en/sql-reference/functions/system_convert_pipes_sqs_to_sns")].

Definition system_functions_2 : Category :=
  [
  ("SYSTEM$CREATE_BILLING_EVENT", with_docs (new_info "SYSTEM$CREATE_BILLING_EVENT"
    "Creates a billable event that tracks consumer usage of an installed monetized application.")
    "https://docs.snowflake.com/en/sql-reference/functions/system_create_billing_event");
  ("SYSTEM$CREATE_BILLING_EVENTS", with_docs (new_info "SYSTEM$CREATE_BILLING_EVENTS"
    "Creates multiple billable events that track consumer usage of installed monetized applications.")
    "https://docs.snowflake.com/en/sql-reference/functions/system_create_billing_events");
  ("SYSTEM$CURRENT_USER_TASK_NAME", with_docs (new_info "SYSTEM$CURRENT_USER_TASK_NAME"
    "Returns the name of the task currently executing when invoked from the statement or stored procedure defined by the task.")
    "https://docs.snowflake.com/en/sql-reference/functions/system_current_user_task_name");
  ("SYSTEM$DATA_METRIC_SCAN", with_docs (new_info "SYSTEM$DATA_METRIC_SCAN"
    "Returns the rows identified by a data quality metric as containing data that failed a data quality check.")
    "https://docs.snowflake.com/en/sql-reference/functions/system_data_metric_scan");
  ("SYSTEM$DEPROVISION_PRIVATELINK_ENDPOINT", with_docs (new_info "SYSTEM$DEPROVISION_PRIVATELINK_ENDPOINT"
    "Deprovisions a private connectivity endpoint in the Snowflake VPC or VNet to prevent Snowflake from connecting to an external service using private connectivity.")
    "https://docs.snowflake.com/en/sql-reference/functions/system_deprovision_privatelink_endpoint");
  ("SYSTEM$DISABLE_BEHAVIOR_CHANGE_BUNDLE", with_docs (new_info "SYSTEM$DISABLE_BEHAVIOR_CHANGE_BUNDLE"
    "Disables the behavior changes included in the specified behavior change release bundle for the current account.")
    "https://docs.snowflake.com/en/sql-reference/functions/system_disable_behavior_change_bundle");
  ("SYSTEM$DISABLE_DATABASE_REPLICATION", with_docs (new_info "SYSTEM$DISABLE_DATABASE_REPLICATION"
    "Disable replication for a primary database and any secondary databases linked to it.")
    "https://docs.snowflake.com/en/sql-reference/functions/system_disable_database_replication");
  ("SYSTEM$DISABLE_PREVIEW_ACCESS", with_docs (new_info "SYSTEM$DISABLE_PREVIEW_ACCESS"
    "Disables access to open preview and private preview features.")
    "https://docs.snowflake.com/en/sql-reference/functions/system_disable_preview_access");
  ("SYSTEM$ENABLE_BEHAVIOR_CHANGE_BUNDLE", with_docs (new_info "SYSTEM$ENABLE_BEHAVIOR_CHANGE_BUNDLE"
    "Enables behavior changes included in the specified behavior change release bundle for the current account.")
    "https://docs.snowflake.com/en/sql-reference/functions/system_enable_behavior_change_bundle");
  ("SYSTEM$ENABLE_PREVIEW_ACCESS", with_docs (new_info "SYSTEM$ENABLE_PREVIEW_ACCESS"
    "Enables access to open preview features.")
    "https://docs.snowflake.com/en/sql-reference/functions/system_enable_preview_access");
  ("SYSTEM$ESTIMATE_AUTOMATIC_CLUSTERING_COSTS", with_docs (new_info "SYSTEM$ESTIMATE_AUTOMATIC_CLUSTERING_COSTS"
    "Returns estimated costs associated with enabling Automatic Clustering for a table.")
    "https://docs.snowflake.com/en/sql-reference/functions/system_estimate_automatic_clustering_costs");
  ("SYSTEM$ESTIMATE_QUERY_ACCELERATION", with_docs (new_info "SYSTEM$ESTIMATE_QUERY_ACCELERATION"
    "For a previously executed query, this function returns a JSON object that specifies if the query is eligible to benefit from the query acceleration service.")
    "https://docs.snowflake.com/en/sql-reference/functions/system_estimate_query_acceleration");
  ("SYSTEM$ESTIMATE_SEARCH_OPTIMIZATION_COSTS", with_docs (new_info "SYSTEM$ESTIMATE_SEARCH_OPTIMIZATION_COSTS"
    "Returns the estimated costs of adding search optimization to a given table and configuring specific columns for search optimization.")
    "https://docs.snowflake.com/en/sql-reference/functions/system_estimate_search_optimization_costs");
  ("SYSTEM$EXPLAIN_JSON_TO_TEXT", with_docs (new_info "SYSTEM$EXPLAIN_JSON_TO_TEXT"
    "This function converts EXPLAIN output from JSON to formatted text.")
    "https://docs.snowflake.com/en/sql-reference/functions/system_explain_json_to_text");
  ("SYSTEM$EXPLAIN_PLAN_JSON", with_docs (new_info "SYSTEM$EXPLAIN_PLAN_JSON"
    "Given the text of a SQL statement, this function generates the EXPLAIN plan in JSON.")
    "https://docs.snowflake.com/en/sql-reference/functions/system_explain_plan_json");
  ("SYSTEM$EXTERNAL_TABLE_PIPE_STATUS", with_docs (new_info "SYSTEM$EXTERNAL_TABLE_PIPE_STATUS"
    "Retrieves a JSON representation of the current refresh status for the internal (hidden) pipe object associated with an external table.")
    "https://docs.snowflake.com/en/sql-reference/functions/system_external_table_pipe_status");
  ("SYSTEM$FINISH_OAUTH_FLOW", with_docs (new_info "SYSTEM$FINISH_OAUTH_FLOW"
    "Sets the OAUTH_REFRESH_TOKEN parameter value of the secret passed as an argument in the SYSTEM$START_OAUTH_FLOW call that began the OAuth flow.")
    "https://docs.snowflake.com/en/sql-reference/functions/system_finish_oauth_flow");
  ("SYSTEM$GENERATE_SAML_CSR", with_docs (new_info "SYSTEM$GENERATE_SAML_CSR"
    "Generates a certificate signing request (CSR) with the subject set to the subject of the certificate stored in the SAML2 integration and can specify the DN to be used in the CSR.")
    "https://docs.snowflake.com/en/sql-reference/functions/system_generate_saml_csr");
  ("SYSTEM$GENERATE_SCIM_ACCESS_TOKEN", with_docs (new_info "SYSTEM$GENERATE_SCIM_ACCESS_TOKEN"
    "Returns a new SCIM access token that is valid for six months.")
    "https://docs.snowflake.com/en/sql-reference/functions/system_generate_scim_access_token");
  ("SYSTEM$GET_AWS_SNS_IAM_POLICY", with_docs (new_info "SYSTEM$GET_AWS_SNS_IAM_POLICY"
    "Returns an AWS IAM policy statement that must be added to the Amazon SNS topic policy in order to grant the Amazon SQS messaging queue created by Snowflake to subscribe to the topic.")
    "https://docs.snowflake.com/en/sql-reference/functions/system_get_aws_sns_iam_policy");
  ("SYSTEM$GET_CLASSIFICATION_RESULT", with_docs (new_info "SYSTEM$GET_CLASSIFICATION_RESULT"
    "Returns the classification result of the specified object.")
    "https://docs.snowflake.com/en/sql-reference/functions/system_get_classification_result");
  ("SYSTEM$GET_CMK_AKV_CONSENT_URL", with_docs (new_info "SYSTEM$GET_CMK_AKV_CONSENT_URL"
    "Returns a consent URL to the Azure Key Vault account related to customer-managed keys.")
    "https://docs.snowflake.com/en/sql-reference/functions/system_get_cmk_akv_consent_url");
  ("SYSTEM$GET_CMK_CONFIG", with_docs (new_info "SYSTEM$GET_CMK_CONFIG"
    "Returns configuration information for use with customer-managed keys (CMKs) and Tri-Secret Secure.")
    "https://docs.snowflake.com/en/sql-reference/functions/system_get_cmk_config")].

Definition system_functions_3 : Category :=
  [
  ("SYSTEM$GET_CMK_INFO", with_docs (new_info "SYSTEM$GET_CMK_INFO"
    "Returns a status about your customer-managed key (CMK) for use with Tri-Secret Secure.")
    "https://docs.snowflake.com/en/sql-reference/functions/system_get_cmk_info");
  ("SYSTEM$GET_CMK_KMS_KEY_POLICY", with_docs (new_info "SYSTEM$GET_CMK_KMS_KEY_POLICY"
    "Returns an ARRAY containing a snippet of the AWS Key Management Service policy information related to customer-managed keys.")
    "https://docs.snowflake.com/en/sql-reference/functions/system_get_cmk_kms_key_policy");
  ("SYSTEM$GET_COMPUTE_POOL_STATUS", with_docs (new_info "SYSTEM$GET_COMPUTE_POOL_STATUS"
    "Retrieves status of a compute pool.")
    "https://docs.snowflake.com/en/sql-reference/functions/system_get_compute_pool_status");
  ("SYSTEM$GET_DIRECTORY_TABLE_STATUS", with_docs (new_info "SYSTEM$GET_DIRECTORY_TABLE_STATUS"
    "Returns a list of records that contain the directory table consistency status for stages in your account.")
    "https://docs.snowflake.com/en/sql-reference/functions/system_get_directory_table_status");
  ("SYSTEM$GET_GCP_KMS_CMK_GRANT_ACCESS_CMD", with_docs (new_info "SYSTEM$GET_GCP_KMS_CMK_GRANT_ACCESS_CMD"
    "Returns a Google Cloud gcloud command to obtain policy information for the Google Cloud Key Management Service for use with customer-managed keys.")
    "https://docs.snowflake.com/en/sql-reference/functions/system_get_gcp_kms_cmk_grant_access_cmd");
  ("SYSTEM$GET_ICEBERG_TABLE_INFORMATION", with_docs (new_info "SYSTEM$GET_ICEBERG_TABLE_INFORMATION"
    "Returns the location of the root metadata file and status of the latest snapshot for an Apache Iceberg™ table.")
    "https://docs.snowflake.com/en/sql-reference/functions/system_get_iceberg_table_information");
  ("SYSTEM$GET_LOGIN_FAILURE_DETAILS", with_docs (new_info "SYSTEM$GET_LOGIN_FAILURE_DETAILS"
    "Returns a JSON object that represents an unsuccessful login attempt associated with External OAuth, SAML, or key pair authentication.")
    "https://docs.snowflake.com/en/sql-reference/functions/system_get_login_failure_details");
  ("SYSTEM$GET_PREDECESSOR_RETURN_VALUE", with_docs (new_info "SYSTEM$GET_PREDECESSOR_RETURN_VALUE"
    "Retrieves the return value for the predecessor task in a task graph.")
    "https://docs.snowflake.com/en/sql-reference/functions/system_get_predecessor_return_value");
  ("SYSTEM$GET_PREVIEW_ACCESS_STATUS", with_docs (new_info "SYSTEM$GET_PREVIEW_ACCESS_STATUS"
    "Determine if access to all preview features is enabled or disabled.")
    "https://docs.snowflake.com/en/sql-reference/functions/system_get_preview_access_status");
  ("SYSTEM$GET_PRIVATELINK", with_docs (new_info "SYSTEM$GET_PRIVATELINK"
    "Verifies whether your current account is authorized for private connectivity to the Snowflake service.")
    "https://docs.snowflake.com/en/sql-reference/functions/system_get_privatelink");
  ("SYSTEM$GET_PRIVATELINK_AUTHORIZED_ENDPOINTS", with_docs (new_info "SYSTEM$GET_PRIVATELINK_AUTHORIZED_ENDPOINTS"
    "Returns a list of the authorized endpoints for your current account to use with private connectivity to the Snowflake service.")
    "https://docs.snowflake.com/en/sql-reference/functions/system_get_privatelink_authorized_endpoints");
  ("SYSTEM$GET_PRIVATELINK_CONFIG", with_docs (new_info "SYSTEM$GET_PRIVATELINK_CONFIG"
    "Returns a JSON representation of the Snowflake account information necessary to facilitate the self-service configuration of private connectivity to the Snowflake service or Snowflake internal stages.")
    "https://docs.snowflake.com/en/sql-reference/functions/system_get_privatelink_config");
  ("SYSTEM$GET_PRIVATELINK_ENDPOINTS_INFO", with_docs (new_info "SYSTEM$GET_PRIVATELINK_ENDPOINTS_INFO"
    "Returns the status of all private connectivity endpoints that you provision.")
    "https://docs.snowflake.com/en/sql-reference/functions/system_get_privatelink_endpoints_info");
  ("SYSTEM$GET_SERVICE_LOGS", with_docs (new_info "SYSTEM$GET_SERVICE_LOGS"
    "Retrieves local logs from a Snowpark Container Services service container.")
    "https://docs.snowflake.com/en/sql-reference/functions/system_get_service_logs");
  ("SYSTEM$GET_SNOWFLAKE_PLATFORM_INFO", with_docs (new_info "SYSTEM$GET_SNOWFLAKE_PLATFORM_INFO"
    "Returns platform information for the cloud provider that hosts your Snowflake account.")
    "https://docs.snowflake.com/en/sql-reference/functions/system_get_snowflake_platform_info");
  ("SYSTEM$GET_TAG", with_docs (new_info "SYSTEM$GET_TAG"
    "Returns the tag value associated with the specified Snowflake object or column.")
    "https://docs.snowflake.com/en/sql-reference/functions/system_get_tag");
  ("SYSTEM$GET_TAG_ALLOWED_VALUES", with_docs (new_info "SYSTEM$GET_TAG_ALLOWED_VALUES"
    "Returns a comma-separated list of string values that can be set on a supported object, or NULL to indicate the tag key does not have any specified string values and accepts all possible string values.")
    "https://docs.snowflake.com/en/sql-reference/functions/system_get_tag_allowed_values");
  ("SYSTEM$GET_TAG_ON_CURRENT_COLUMN", with_docs (new_info "SYSTEM$GET_TAG_ON_CURRENT_COLUMN"
    "Returns the tag string value assigned to the column based upon the specified tag or NULL if a tag is not assigned to the specified column.")
    "https://docs.snowflake.com/en/sql-reference/functions/system_get_tag_on_current_column");
  ("SYSTEM$GET_TAG_ON_CURRENT_TABLE", with_docs (new_info "SYSTEM$GET_TAG_ON_CURRENT_TABLE"
    "Returns the tag string value assigned to the table based upon the specified tag or NULL if a tag is not assigned to the specified table.")
    "https://docs.snowflake.com/en/sql-reference/functions/system_get_tag_on_current_table");
  ("SYSTEM$GET_TASK_GRAPH_CONFIG", with_docs (new_info "SYSTEM$GET_TASK_GRAPH_CONFIG"
    "Returns the value of the configuration string for the task currently executing when invoked from the statement or stored procedure defined by the task.")
    "https://docs.snowflake.com/en/sql-reference/functions/system_get_task_graph_config");
  ("SYSTEM$GLOBAL_ACCOUNT_SET_PARAMETER", with_docs (new_info "SYSTEM$GLOBAL_ACCOUNT_SET_PARAMETER"
    "Enables replication and failover features for a specified account in an organization.")
    "https://docs.snowflake.com/en/sql-reference/functions/system_global_account_set_parameter");
  ("SYSTEM$INITIATE_MOVE_ORGANIZATION_ACCOUNT", with_docs (new_info "SYSTEM$INITIATE_MOVE_ORGANIZATION_ACCOUNT"
    "Starts the process of moving an organization account to a new region.")
    "https://docs.snowflake.com/en/sql-reference/functions/system_initiate_move_organization_account");
  ("SYSTEM$INTERNAL_STAGES_PUBLIC_ACCESS_STATUS", with_docs (new_info "SYSTEM$INTERNAL_STAGES_PUBLIC_ACCESS_STATUS"
    "Checks to see whether public IP addresses are allowed to access the internal stage of the current Snowflake account on Microsoft Azure.")
    "https://docs.snowflake.com/en/sql-reference/functions/system_internal_stages_public_access_status")].

Definition system_functions_4 : Category :=
  [
  ("SYSTEM$IS_APPLICATION_INSTALLED_FROM_SAME_ACCOUNT", with_docs (new_info "SYSTEM$IS_APPLICATION_INSTALLED_FROM_SAME_ACCOUNT"
    "Shows if an app is installed on the same account as the application package it is based on.")
    "https://docs.snowflake.com/en/sql-reference/functions/system_is_application_installed_from_same_account");
  ("SYSTEM$IS_APPLICATION_SHARING_EVENTS_WITH_PROVIDER", with_docs (new_info "SYSTEM$IS_APPLICATION_SHARING_EVENTS_WITH_PROVIDER"
    "Shows if event sharing is enabled.")
    "https://docs.snowflake.com/en/sql-reference/functions/system_is_application_sharing_events_with_provider");
  ("SYSTEM$LAST_CHANGE_COMMIT_TIME", with_docs (new_info "SYSTEM$LAST_CHANGE_COMMIT_TIME"
    "Returns a token that can be used to detect whether a database table or view changed between two calls to the function.")
    "https://docs.snowflake.com/en/sql-reference/functions/system_last_change_commit_time");
  ("SYSTEM$LINK_ACCOUNT_OBJECTS_BY_NAME", with_docs (new_info "SYSTEM$LINK_ACCOUNT_OBJECTS_BY_NAME"
    "Adds a global identifier to account objects in the target (current) account that were created using scripts and that match objects with the same names in the source account.")
    "https://docs.snowflake.com/en/sql-reference/functions/system_link_account_objects_by_name");
  ("SYSTEM$LIST_APPLICATION_RESTRICTED_FEATURES", with_subcategory (with_docs (new_info "SYSTEM$LIST_APPLICATION_RESTRICTED_FEATURES"
    "Returns a JSON object containing a list of restricted features that the consumer has allowed a")
    "https://docs.snowflake.com/en/sql-reference/functions/system_list_application_restricted_features") "native-app");
  ("SYSTEM$LIST_ICEBERG_TABLES_FROM_CATALOG", with_subcategory (with_docs (new_info "SYSTEM$LIST_ICEBERG_TABLES_FROM_CATALOG"
    "Lists tables in a remote")
    "https://docs.snowflake.com/en/sql-reference/functions/system_list_iceberg_tables_from_catalog") "iceberg");
  ("SYSTEM$LIST_NAMESPACES_FROM_CATALOG", with_subcategory (with_docs (new_info "SYSTEM$LIST_NAMESPACES_FROM_CATALOG"
    "Lists the namespaces in a remote")
    "https://docs.snowflake.com/en/sql-reference/functions/system_list_namespaces_from_catalog") "iceberg");
  ("SYSTEM$MIGRATE_SAML_IDP_REGISTRATION", with_docs (new_info "SYSTEM$MIGRATE_SAML_IDP_REGISTRATION"
    "Migrates an existing SAML identity provider (i.e. IdP) configuration as defined by the account parameter SAML_IDENTITY_PROVIDER to a security integration.")
    "https://docs.snowflake.com/en/sql-reference/functions/system_migrate_saml_idp_registration");
  ("SYSTEM$PIPE_FORCE_RESUME", with_docs (new_info "SYSTEM$PIPE_FORCE_RESUME"
    "Forces a pipe paused using ALTER PIPE to resume.")
    "https://docs.snowflake.com/en/sql-reference/functions/system_pipe_force_resume");
  ("SYSTEM$PIPE_REBINDING_WITH_NOTIFICATION_CHANNEL", with_docs (new_info "SYSTEM$PIPE_REBINDING_WITH_NOTIFICATION_CHANNEL"
    "Retries the notification channel binding process when a replicated pipe has not been successfully bound to a notification channel during replication time.")
    "https://docs.snowflake.com/en/sql-reference/functions/system_pipe_rebinding_with_notification_channel");
  ("SYSTEM$PIPE_STATUS", with_docs (new_info "SYSTEM$PIPE_STATUS"
    "Retrieves a JSON representation of the current status of a pipe.")
    "https://docs.snowflake.com/en/sql-reference/functions/system_pipe_status");
  ("SYSTEM$PROVISION_PRIVATELINK_ENDPOINT", with_docs (new_info "SYSTEM$PROVISION_PRIVATELINK_ENDPOINT"
    "Provisions a private connectivity endpoint in the Snowflake VPC or VNet to enable Snowflake to connect to an external service using private connectivity.")
    "https://docs.snowflake.com/en/sql-reference/functions/system_provision_privatelink_endpoint");
  ("SYSTEM$QUERY_REFERENCE", with_docs (new_info "SYSTEM$QUERY_REFERENCE"
    "Returns a query reference that you can pass to a stored procedure.")
    "https://docs.snowflake.com/en/sql-reference/functions/system_query_reference");
  ("SYSTEM$REFERENCE", with_docs (new_info "SYSTEM$REFERENCE"
    "Returns a reference to an object (a table, view, or function).")
    "https://docs.snowflake.com/en/sql-reference/functions/system_reference");
  ("SYSTEM$REGISTER_CMK_INFO", with_docs (new_info "SYSTEM$REGISTER_CMK_INFO"
    "Registers your customer-managed key (CMK) for use with Tri-Secret Secure.")
    "https://docs.snowflake.com/en/sql-reference/functions/system_register_cmk_info");
  ("SYSTEM$RESTORE_PRIVATELINK_ENDPOINT", with_docs (new_info "SYSTEM$RESTORE_PRIVATELINK_ENDPOINT"
    "Restores a private connectivity endpoint in the Snowflake VPC or VNet to enable Snowflake to connect to an external service using private connectivity.")
    "https://docs.snowflake.com/en/sql-reference/functions/system_restore_privatelink_endpoint");
  ("SYSTEM$REVOKE_PRIVATELINK", with_docs (new_info "SYSTEM$REVOKE_PRIVATELINK"
    "Disables private connectivity to the Snowflake service for the current account.")
    "https://docs.snowflake.com/en/sql-reference/functions/system_revoke_privatelink");
  ("SYSTEM$REVOKE_STAGE_PRIVATELINK_ACCESS", with_docs (new_info "SYSTEM$REVOKE_STAGE_PRIVATELINK_ACCESS"
    "Revokes the authorization for Snowflake to access the Microsoft Azure Private Endpoint for Azure private endpoints for internal stages for the current account.")
    "https://docs.snowflake.com/en/sql-reference/functions/system_revoke_stage_privatelink_access");
  ("SYSTEM$SEND_NOTIFICATIONS_TO_CATALOG", with_subcategory (with_docs (new_info "SYSTEM$SEND_NOTIFICATIONS_TO_CATALOG"
    "Sends a notification to Snowflake Open Catalog to update Snowflake-managed Apache Iceberg™ tables in")
    "https://docs.snowflake.com/en/sql-reference/functions/system_send_notifications_to_catalog") "opencatalog");
  ("SYSTEM$SET_APPLICATION_RESTRICTED_FEATURE_ACCESS", with_subcategory (with_docs (new_info "SYSTEM$SET_APPLICATION_RESTRICTED_FEATURE_ACCESS"
    "Enables a restricted feature for a")
    "https://docs.snowflake.com/en/sql-reference/functions/system_set_application_restricted_feature_access") "native-app");
  ("SYSTEM$SET_EVENT_SHARING_ACCOUNT_FOR_REGION", with_docs (new_info "SYSTEM$SET_EVENT_SHARING_ACCOUNT_FOR_REGION"
    "Sets the event account for a region.")
    "https://docs.snowflake.com/en/sql-reference/functions/system_set_event_sharing_account_for_region");
  ("SYSTEM$SET_RETURN_VALUE", with_docs (new_info "SYSTEM$SET_RETURN_VALUE"
    "Explicitly sets the return value for a task.")
    "https://docs.snowflake.com/en/sql-reference/functions/system_set_return_value")].

Definition system_functions_5 : Category :=
  [
  ("SYSTEM$SET_SPAN_ATTRIBUTES", with_docs (new_info "SYSTEM$SET_SPAN_ATTRIBUTES"
    "Sets attribute name and value associated with a span containing trace events.")
    "https://docs.snowflake.com/en/sql-reference/functions/system_set_span_attributes");
  ("SYSTEM$SHOW_ACTIVE_BEHAVIOR_CHANGE_BUNDLES", with_docs (new_info "SYSTEM$SHOW_ACTIVE_BEHAVIOR_CHANGE_BUNDLES"
    "Returns an array of the currently available behavior change release bundles, the default state of each bundle, and the actual state of the bundle for the current account.")
    "https://docs.snowflake.com/en/sql-reference/functions/system_show_active_behavior_change_bundles");
  ("SYSTEM$SHOW_BUDGETS_IN_ACCOUNT", with_docs (new_info "SYSTEM$SHOW_BUDGETS_IN_ACCOUNT"
    "Returns the budgets in the account for which you have access privileges.")
    "https://docs.snowflake.com/en/sql-reference/functions/system_show_budgets_in_account");
  ("SYSTEM$SHOW_EVENT_SHARING_ACCOUNTS", with_docs (new_info "SYSTEM$SHOW_EVENT_SHARING_ACCOUNTS"
    "Shows event accounts in a provider organization.")
    "https://docs.snowflake.com/en/sql-reference/functions/system_show_event_sharing_accounts");
  ("SYSTEM$SHOW_MOVE_ORGANIZATION_ACCOUNT_STATUS", with_docs (new_info "SYSTEM$SHOW_MOVE_ORGANIZATION_ACCOUNT_STATUS"
    "Returns the status of an attempt to move an organization account.")
    "https://docs.snowflake.com/en/sql-reference/functions/system_show_move_organization_account_status");
  ("SYSTEM$SHOW_OAUTH_CLIENT_SECRETS", with_docs (new_info "SYSTEM$SHOW_OAUTH_CLIENT_SECRETS"
    "Returns the client secrets in a string.")
    "https://docs.snowflake.com/en/sql-reference/functions/system_show_oauth_client_secrets");
  ("SYSTEM$SNOWPIPE_STREAMING_UPDATE_CHANNEL_OFFSET_TOKEN", with_docs (new_info "SYSTEM$SNOWPIPE_STREAMING_UPDATE_CHANNEL_OFFSET_TOKEN"
    "Updates the offset token for a particular channel used by Snowpipe Streaming with a new offset token.")
    "https://docs.snowflake.com/en/sql-reference/functions/system_snowpipe_streaming_update_channel_offset_token");
  ("SYSTEM$START_OAUTH_FLOW", with_docs (new_info "SYSTEM$START_OAUTH_FLOW"
    "Initiates the OAUTH client flow, returning a URL you use in a browser to complete the OAuth consent process.")
    "https://docs.snowflake.com/en/sql-reference/functions/system_start_oauth_flow");
  ("SYSTEM$STREAM_BACKLOG", with_docs (new_info "SYSTEM$STREAM_BACKLOG"
    "Returns the set of table versions between the current offset for a specified stream and the current timestamp.")
    "https://docs.snowflake.com/en/sql-reference/functions/system_stream_backlog");
  ("SYSTEM$STREAM_GET_TABLE_TIMESTAMP", with_docs (new_info "SYSTEM$STREAM_GET_TABLE_TIMESTAMP"
    "Returns the timestamp in nanoseconds of the latest table version at or before the current offset for the specified stream.")
    "https://docs.snowflake.com/en/sql-reference/functions/system_stream_get_table_timestamp");
  ("SYSTEM$STREAM_HAS_DATA", with_docs (new_info "SYSTEM$STREAM_HAS_DATA"
    "Indicates whether a specified stream contains change data capture (CDC) records.")
    "https://docs.snowflake.com/en/sql-reference/functions/system_stream_has_data");
  ("SYSTEM$TASK_DEPENDENTS_ENABLE", with_docs (new_info "SYSTEM$TASK_DEPENDENTS_ENABLE"
    "Recursively resumes a specified task and all its dependent tasks.")
    "https://docs.snowflake.com/en/sql-reference/functions/system_task_dependents_enable");
  ("SYSTEM$TASK_RUNTIME_INFO", with_docs (new_info "SYSTEM$TASK_RUNTIME_INFO"
    "Returns information about the current task run.")
    "https://docs.snowflake.com/en/sql-reference/functions/system_task_runtime_info");
  ("SYSTEM$UNBLOCK_INTERNAL_STAGES_PUBLIC_ACCESS", with_docs (new_info "SYSTEM$UNBLOCK_INTERNAL_STAGES_PUBLIC_ACCESS"
    "Allows traffic from public IP addresses to access the internal stage of the current Snowflake account on Microsoft Azure.")
    "https://docs.snowflake.com/en/sql-reference/functions/system_unblock_internal_stages_public_access");
  ("SYSTEM$UNSET_EVENT_SHARING_ACCOUNT_FOR_REGION", with_docs (new_info "SYSTEM$UNSET_EVENT_SHARING_ACCOUNT_FOR_REGION"
    "Unsets the events account for a region.")
    "https://docs.snowflake.com/en/sql-reference/functions/system_unset_event_sharing_account_for_region");
  ("SYSTEM$USER_TASK_CANCEL_ONGOING_EXECUTIONS", with_docs (new_info "SYSTEM$USER_TASK_CANCEL_ONGOING_EXECUTIONS"
    "Aborts a run of the specified task that the system has already started to process (i.e. a run with an EXECUTING state in the TASK_HISTORY output).")
    "https://docs.snowflake.com/en/sql-reference/functions/system_user_task_cancel_ongoing_executions");
  ("SYSTEM$VALIDATE_STORAGE_INTEGRATION", with_docs (new_info "SYSTEM$VALIDATE_STORAGE_INTEGRATION"
    "Validates the configuration for a specified storage integration.")
    "https://docs.snowflake.com/en/sql-reference/functions/system_validate_storage_integration");
  ("SYSTEM$VERIFY_CMK_INFO", with_docs (new_info "SYSTEM$VERIFY_CMK_INFO"
    "Verifies your customer-managed key (CMK) configuration and returns a message about the registered CMK.")
    "https://docs.snowflake.com/en/sql-reference/functions/system_verify_cmk_info");
  ("SYSTEM$VERIFY_EXTERNAL_OAUTH_TOKEN", with_docs (new_info "SYSTEM$VERIFY_EXTERNAL_OAUTH_TOKEN"
    "Determines whether your External OAuth access token is valid or has expired and needs to be regenerated.")
    "https://docs.snowflake.com/en/sql-reference/functions/system_verify_ext_oauth_token");
  ("SYSTEM$VERIFY_EXTERNAL_VOLUME", with_docs (new_info "SYSTEM$VERIFY_EXTERNAL_VOLUME"
    "Verifies the configuration for a specified external volume.")
    "https://docs.snowflake.com/en/sql-reference/functions/system_verify_external_volume");
  ("SYSTEM$WAIT", with_docs (new_info "SYSTEM$WAIT"
    "Waits for the specified amount of time before proceeding.")
    "https://docs.snowflake.com/en/sql-reference/functions/system_wait");
  ("SYSTEM$WAIT_FOR_SERVICES", with_docs (new_info "SYSTEM$WAIT_FOR_SERVICES"
    "Waits for one or more Snowpark Container Services services to reach the READY state (or becomes upgraded) before returning.")
    "https://docs.snowflake.com/en/sql-reference/functions/system_wait_for_services")].

Definition system_functions : Category := (system_functions_1 ++ system_functions_2 ++ system_functions_3 ++ system_functions_4 ++ system_functions_5)%list.

Definition table_functions : Category :=
  [
  ("CORTEX_SEARCH_DATA_SCAN", with_docs (new_info "CORTEX_SEARCH_DATA_SCAN"
    "This table function returns the data indexed by a Cortex Search service, including the columns defined in the source query and the computed vector embeddings for the search column.")
    "https://docs.snowflake.com/en/sql-reference/functions/cortex_search_data_scan");
  ("GENERATOR", with_docs (new_info "GENERATOR"
    "Creates rows of data based either on a specified number of rows, a specified generation period (in seconds), or both.")
    "https://docs.snowflake.com/en/sql-reference/functions/generator");
  ("GET_LINEAGE", with_docs (new_info "GET_LINEAGE"
    "Given a Snowflake object, returns data lineage information upstream or downstream from that object.")
    "https://docs.snowflake.com/en/sql-reference/functions/get_lineage-snowflake-core");
  ("GET_OBJECT_REFERENCES", with_docs (new_info "GET_OBJECT_REFERENCES"
    "Returns a list of objects that a specified object references.")
    "https://docs.snowflake.com/en/sql-reference/functions/get_object_references");
  ("INFER_SCHEMA", with_docs (new_info "INFER_SCHEMA"
    "Automatically detects the file metadata schema in a set of staged data files that contain semi-structured data and retrieves the column definitions.")
    "https://docs.snowflake.com/en/sql-reference/functions/infer_schema");
  ("REST_EVENT_HISTORY", with_docs (new_info "REST_EVENT_HISTORY"
    "Returns a list of SCIM REST API requests made to Snowflake over a specified time interval.")
    "https://docs.snowflake.com/en/sql-reference/functions/rest_event_history");
  ("SPLIT_TO_TABLE", with_subcategory (with_docs (new_info "SPLIT_TO_TABLE"
    "This table function splits a string (based on a specified delimiter) and flattens the results into rows.")
    "https://docs.snowflake.com/en/sql-reference/functions/split_to_table") "string");
  ("STRTOK_SPLIT_TO_TABLE", with_subcategory (with_docs (new_info "STRTOK_SPLIT_TO_TABLE"
    "Tokenizes a string with the given set of delimiters and flattens the results into rows.")
    "https://docs.snowflake.com/en/sql-reference/functions/strtok_split_to_table") "string");
  ("TO_QUERY", with_docs (new_info "TO_QUERY"
    "Returns a result set based on SQL text and an optional set of arguments that are passed to the SQL text if it is parameterized.")
    "https://docs.snowflake.com/en/sql-reference/functions/to_query");
  ("VALIDATE", with_docs (new_info "VALIDATE"
    "Validates the files loaded in a past execution of the COPY INTO <table> command and returns all the errors encountered during the load, rather than just the first error.")
    "https://docs.snowflake.com/en/sql-reference/functions/validate")].

Definition vector_functions : Category :=
  [
  ("VECTOR_COSINE_SIMILARITY", with_docs (new_info "VECTOR_COSINE_SIMILARITY"
    "Computes the cosine similarity between two vectors.")
    "https://docs.snowflake.com/en/sql-reference/functions/vector_cosine_similarity");
  ("VECTOR_INNER_PRODUCT", with_docs (new_info "VECTOR_INNER_PRODUCT"
    "Computes the inner product of two vectors.")
    "https://docs.snowflake.com/en/sql-reference/functions/vector_inner_product");
  ("VECTOR_L1_DISTANCE", with_docs (new_info "VECTOR_L1_DISTANCE"
    "Computes the L1 distance between two vectors.")
    "https://docs.snowflake.com/en/sql-reference/functions/vector_l1_distance");
  ("VECTOR_L2_DISTANCE", with_docs (new_info "VECTOR_L2_DISTANCE"
    "Computes the L2 distance between two vectors.")
    "https://docs.snowflake.com/en/sql-reference/functions/vector_l2_distance")].

Definition window_functions : Category :=
  [
  ("CONDITIONAL_CHANGE_EVENT", with_docs (new_info "CONDITIONAL_CHANGE_EVENT"
    "Returns a window event number for each row within a window partition when the value of the argument expr1 in the current row is different from the value of expr1 in the previous row.")
    "https://docs.snowflake.com/en/sql-reference/functions/conditional_change_event");
  ("RATIO_TO_REPORT", with_docs (new_info "RATIO_TO_REPORT"
    "Returns the ratio of a value within a group to the sum of the values within the group.")
    "https://docs.snowflake.com/en/sql-reference/functions/ratio_to_report")].

(** [SnowflakeFunctions::new]: the categories in the order in which they are added. *)
Definition categories : list Category :=
  [numeric_functions; string_binary_functions; datetime_functions; semistructured_functions; aggregate_functions;
   window_functions; conditional_functions; conversion_functions; context_functions; system_functions;
   geospatial_functions; table_functions; information_schema_functions; bitwise_functions; hash_functions;
   encryption_functions; file_functions; notification_functions; generation_functions; vector_functions;
   differential_privacy_functions; data_metric_functions; data_quality_functions; metadata_functions; account_functions;
   iceberg_functions].

Definition snowflake_functions : SnowflakeFunctions := new categories.

(** ** Entries *)

(** [is_valid_sql_identifier], by which the tests of [functions_list.rs] judge the names. *)
Definition is_alphabetic (c : ascii) : bool := let n := nat_of_ascii c in ((65 <=? n) && (n <=? 90) || (97 <=? n) && (n <=? 122))%nat.
Definition is_digit (c : ascii) : bool := let n := nat_of_ascii c in ((48 <=? n) && (n <=? 57))%nat.
Fixpoint contains (s p : string) : bool := String.prefix p s || match s with EmptyString => false | String _ s => contains s p end.
Definition valid_char (name : string) (c : ascii) : bool :=
  is_alphabetic c || is_digit c || Ascii.eqb c "_" || Ascii.eqb c "$" || (Ascii.eqb c " " && contains name "LIKE").
Definition is_valid_sql_identifier (name : string) : bool :=
  match name with
  | EmptyString => false
  | String c rest => (is_alphabetic c || Ascii.eqb c "_") && forallb (valid_char name) (String.list_ascii_of_string rest)
  end.

Definition docs : string := "https://docs.snowflake.com/en/sql-reference/functions/".

Definition entry_ok (p : string * FunctionInfo) : bool :=
  String.eqb p.1 p.2.(name) && is_valid_sql_identifier p.1 && String.eqb (to_ascii_uppercase p.1) p.1 &&
  negb (String.eqb p.2.(description) "") && match get_preferred_url p.2 with Some url => String.prefix docs url | None => false end.

Lemma entries_ok : forallb entry_ok (concat categories) = true.
Proof. vm_compute. reflexivity. Qed.

(** A lookup in the registry is a search for the last entry of the arrays under the name. *)
Definition found (k : string) (o : option FunctionInfo) (p : string * FunctionInfo) : option FunctionInfo := if String.eqb p.1 k then Some p.2 else o.
Definition find_function (k : string) : Category -> option FunctionInfo := foldl (found k) None.

Lemma found_default k o l : foldl (found k) o l = match find_function k l with Some i => Some i | None => o end.
Proof.
  revert o. induction l as [|p l IH]; intros o; [done|]. unfold find_function. cbn [foldl]. rewrite !IH. destruct (find_function k l); [done|].
  unfold found. by destruct (String.eqb p.1 k).
Qed.

Lemma build_lookup l (m : SnowflakeFunctions) k : foldl (fun m p => <[p.1 := p.2]> m) m l !! k = foldl (found k) (m !! k) l.
Proof.
  revert m. induction l as [|p l IH]; intros m; [done|]. cbn [foldl]. rewrite IH. f_equal. unfold found.
  destruct (String.eqb_spec p.1 k) as [->|Hk]; [apply lookup_insert_eq|by apply lookup_insert_ne].
Qed.

Lemma empty_registry k : (∅ : SnowflakeFunctions) !! k = None.
Proof. apply lookup_empty. Qed.

Lemma new_lookup cs (m : SnowflakeFunctions) k : foldl (fun m l => build_hashmap_from_array l ∪ m) m cs !! k = foldl (found k) (m !! k) (concat cs).
Proof.
  revert m. induction cs as [|c cs IH]; intros m; [done|]. cbn [foldl concat]. rewrite IH, foldl_app. f_equal. rewrite found_default.
  assert (find_function k c = build_hashmap_from_array c !! k) as -> by (symmetry; refine (eq_trans (build_lookup c ∅ k) _); by rewrite empty_registry).
  destruct (build_hashmap_from_array c !! k) as [i|] eqn:E; [by apply lookup_union_Some_l|]. by apply lookup_union_r.
Qed.

Lemma registry_lookup k : snowflake_functions !! k = find_function k (concat categories).
Proof. refine (eq_trans (new_lookup categories ∅ k) _). by rewrite empty_registry. Qed.

Lemma find_function_elem k l i : find_function k l = Some i -> (k, i) ∈ l.
Proof.
  induction l as [|p l IH]; [done|]. unfold find_function. cbn [foldl]. rewrite found_default. destruct (find_function k l) as [i'|]; [intros [= ->]; right; by apply IH|].
  unfold found. destruct (String.eqb_spec p.1 k) as [<-|]; [|done]. intros [= <-]. destruct p. left.
Qed.

Lemma in_registry k i : snowflake_functions !! k = Some i -> entry_ok (k, i) = true.
Proof.
  rewrite registry_lookup. intros H%find_function_elem. pose proof entries_ok as Hall. rewrite forallb_forall in Hall. by apply Hall, list_elem_of_In.
Qed.

(** The registry of functions that are not implemented has an entry for each of 498 names; each is filed under its own name, a valid identifier in
    upper case, with a description and the address of its documentation, so that a refused call always refers the user to it. *)
Theorem registry_well_formed :
  total_function_count snowflake_functions = 498%nat /\
  forall k i, get_function_info snowflake_functions k = Some i ->
    i.(name) = k /\ is_valid_sql_identifier k = true /\ to_ascii_uppercase k = k /\ i.(description) <> "" /\
    exists page, get_preferred_url i = Some page /\ String.prefix docs page = true.
Proof.
  split; [vm_compute; reflexivity|]. unfold get_function_info. intros k i H. apply in_registry in H. unfold entry_ok in H. cbn [fst snd] in H.
  destruct (get_preferred_url i) as [page|]; [|by rewrite andb_false_r in H]. rewrite !andb_true_iff, !String.eqb_eq, negb_true_iff, String.eqb_neq in H.
  destruct H as [[[[-> ?] ?] ?] ?]. split_and!; try done. by exists page.
Qed.

(** ** What is refused *)

(** The names the visitors give to functions. *)
Definition given_names : list string := ["regexp_like"; "var_samp"; "var_pop"; "grouping"; "to_date"; "regexp_substr_all"].

(** They are in lower case, and their upper case is not in the registry. *)
Definition plain_ascii (s : string) : bool :=
  is_ascii s && is_ascii (to_ascii_uppercase s) && String.eqb (to_ascii_lowercase s) s && String.eqb (to_ascii_uppercase (to_ascii_uppercase s)) (to_ascii_uppercase s).

Lemma given_names_plain : forallb plain_ascii given_names = true.
Proof. vm_compute. reflexivity. Qed.

Definition unlisted (s : string) : bool := match find_function (to_ascii_uppercase s) (concat categories) with Some _ => false | None => true end.

Lemma given_names_unlisted : forallb unlisted given_names = true.
Proof. vm_compute. reflexivity. Qed.

Lemma given_names_checked s : s ∈ given_names -> snowflake_functions !! to_ascii_uppercase s = None.
Proof.
  intros Hs%list_elem_of_In. pose proof given_names_unlisted as Hall. rewrite forallb_forall in Hall. apply Hall in Hs. unfold unlisted in Hs.
  rewrite registry_lookup. by destruct (find_function _ _).
Qed.

Section refused.
Context `{SqlTextLaws} (fs : SnowflakeFunctions) (given_names_ok : forall s, s ∈ given_names -> fs !! to_ascii_uppercase s = None) (depth fuel : nat).

(** A name before [functions_rewriter.rs] has made it lower case, and one after. *)
Definition implemented (n : ObjectName) : Prop := fs !! to_uppercase (to_uppercase (to_lowercase (name_to_string n))) = None.
Definition accepted (n : ObjectName) : Prop := fs !! to_uppercase (to_uppercase (name_to_string n)) = None.

Definition on_functions (P : ObjectName -> Prop) (k : Kind) : Prop := match k with KFunction n => P n | _ => True end.

Lemma given_accepted s : s ∈ given_names -> implemented (simple_name s) /\ accepted (simple_name s).
Proof.
  intros Hs. pose proof (given_names_ok s Hs) as Hk. apply list_elem_of_In in Hs. pose proof given_names_plain as Hall. rewrite forallb_forall in Hall. apply Hall in Hs.
  unfold plain_ascii in Hs. rewrite !andb_true_iff, !String.eqb_eq in Hs. destruct Hs as [[[H1 H2] H3] H4].
  unfold implemented, accepted. rewrite name_single, (lowercase_ascii s), H3, (uppercase_ascii s), (uppercase_ascii (to_ascii_uppercase s)), H4 by done. done.
Qed.

Lemma rewritten_name n a : let s := fst (FunctionsRewriter.rewrite_function n a) in s = n \/ s ∈ given_names.
Proof.
  unfold FunctionsRewriter.rewrite_function, given_names. rewrite list_elem_of_In. cbn zeta.
  repeat match goal with |- context [if ?b then _ else _] => destruct b end; cbn [fst In]; tauto.
Qed.

Lemma rewritten_accepted n a : implemented n -> accepted (simple_name (fst (FunctionsRewriter.rewrite_function (to_lowercase (name_to_string n)) a))).
Proof.
  intros Hn. destruct (rewritten_name (to_lowercase (name_to_string n)) a) as [->|Hg]; [|by apply given_accepted]. unfold accepted. by rewrite name_single.
Qed.

Lemma first_break_accepted l : Forall (fun x => on_functions accepted (kind x)) l -> first_break (complaint fs) l = None.
Proof.
  induction 1 as [|x l Hx _ IH]; [done|]. destruct x as [e|q|t]; cbn [first_break]; try exact IH.
  pose proof (complaint_spec fs e) as Hc. destruct (complaint fs e) as [err|]; [|exact IH].
  destruct e; try (by destruct Hc). cbn in Hx, Hc. unfold accepted in Hx. rewrite Hx in Hc. by destruct Hc.
Qed.

Lemma accepted_checked st : all_statement_kinds (on_functions accepted) st -> check_unimplemented_functions fs st = Continue (st, ()).
Proof.
  intros Hst%all_statement_kinds_everywhere. unfold check_unimplemented_functions. rewrite visit_statement_check. by rewrite first_break_accepted.
Qed.

(** The visitors before the check. *)
Lemma rlike_implemented st st' : all_statement_kinds (on_functions implemented) st -> ignoring st (RLikeRegexp.visit st ()) = Continue st' ->
  all_statement_kinds (on_functions implemented) st'.
Proof.
  intros Hst E. apply (ignoring_rewrites (fun k => k = KRLike \/ on_functions implemented k) _ (fun e => Some (RLikeRegexp.post_visit_expr e)) st); [| | | |exact E].
  - by intros k _ [-> | ->].
  - done.
  - apply rlike_rewrites; [done|]. apply given_accepted. by left.
  - eapply all_statement_kinds_impl; [|exact Hst]. auto.
Qed.

Lemma functions_accepted st st' : all_statement_kinds (on_functions implemented) st -> ignoring st (FunctionsRewriter.visit st ()) = Continue st' ->
  all_statement_kinds (on_functions accepted) st'.
Proof.
  intros Hst E. eapply (ignoring_rewrites (fun k => match k with KFunction n => implemented n | k => on_functions accepted k end) _
    (fun e => Some (FunctionsRewriter.post_visit_expr e)) st); [| | | |exact E].
  - by intros k _ [-> | ->].
  - done.
  - apply functions_rewrites; [done|]. intros n a. apply rewritten_accepted.
  - eapply all_statement_kinds_impl; [|exact Hst]. by intros [].
Qed.

Lemma like_any_accepted st st' : all_statement_kinds (on_functions accepted) st -> ignoring st (LikeILikeAny.visit st ()) = Continue st' ->
  all_statement_kinds (on_functions accepted) st'.
Proof.
  intros Hst E. eapply (ignoring_rewrites (fun k => k = KAny \/ on_functions accepted k)); [| | | |exact E].
  - by intros k _ [-> | ->].
  - done.
  - by apply like_any_rewrites.
  - eapply all_statement_kinds_impl; [|exact Hst]. auto.
Qed.

Lemma bind_unbroken {A C} (r : flow RewriteError A) (f : A -> flow RewriteError C) e : r <> Break e -> (forall a, r = Continue a -> f a <> Break e) -> flow_bind r f <> Break e.
Proof. intros Hr Hf. destruct r as [a|b| |]; cbn; [by apply Hf|congruence|done|done]. Qed.

Lemma ignoring_unbroken {S B} st (r : flow B (Statement * S)) e : ignoring st r <> Break e.
Proof. by destruct r as [[]| | |]. Qed.

Lemma run_visitors_accepted st err : all_statement_kinds (on_functions implemented) st ->
  run_visitors fs depth fuel st <> Break (UnimplementedFunction err).
Proof.
  intros Hst. unfold run_visitors. apply bind_unbroken; [apply ignoring_unbroken|]. intros st1 E1%rlike_implemented; [|done].
  apply bind_unbroken; [apply ignoring_unbroken|]. intros st2 E2%functions_accepted; [|done].
  apply bind_unbroken; [apply ignoring_unbroken|]. intros st3 E3%like_any_accepted; [|done].
  apply bind_unbroken; [apply ignoring_unbroken|]. intros st4 E4. apply (ignoring_keeps (on_functions accepted)) in E4; [|intros ? []; by apply top_limit_keep|done].
  rewrite accepted_checked by done. apply bind_unbroken; [done|]. intros ? _. do 3 (apply bind_unbroken; [apply ignoring_unbroken|]; intros ? _).
  apply bind_unbroken; [by destruct (FetchToLimit.visit _) as [[]| | |]|]. intros ? _. do 3 (apply bind_unbroken; [apply ignoring_unbroken|]; intros ? _).
  apply ignoring_unbroken.
Qed.

End refused.

(** C11: a statement that calls none of the functions of the registry, PARTITION BY apart, is never refused for a function that is not implemented: none of the names
    the visitors themselves give to functions is in the registry. *)
Theorem implemented_not_refused `{SqlTextLaws} depth fuel st err : statement_everywhere (fun x => on_functions (implemented snowflake_functions) (kind x)) (snd (take_partition st)) ->
  postprocess_statement snowflake_functions depth fuel st <> Break (UnimplementedFunction err).
Proof.
  intros Hst. unfold postprocess_statement. destruct (take_partition st) as [p st0]. apply bind_unbroken; [|done].
  apply run_visitors_accepted; [exact given_names_checked|]. by apply all_statement_kinds_everywhere.
Qed.

(** ** Examples *)
Module RegistryExamples.
Import VisitorExamples RewritingExamples.

Definition select_call (f : string) (args : list Expr) : Statement := StQuery (query (SetSelect (select [UnnamedExpr (call f args)] []))).

Lemma implemented_not_refused_witness : postprocess_statement snowflake_functions 2 100 (select_call "Upper" [col "x"]) <> Break (UnimplementedFunction (mkUnimplemented "upper" None)).
Proof.
  apply (implemented_not_refused 2 100 (select_call "Upper" [col "x"]) (mkUnimplemented "upper" None)).
  change (Forall (fun x => on_functions (implemented snowflake_functions) (kind x))
    [NQ (query (SetSelect (select [UnnamedExpr (call "Upper" [col "x"])] []))); NE (call "Upper" [col "x"]); NE (col "x")]).
  constructor; [exact I|]. constructor; [apply eq_trans with (1 := registry_lookup _); vm_compute; reflexivity|]. constructor; [exact I|constructor].
Defined.

(** The function a statement is refused for, and what the user is told. *)
Definition refused_for (f : string) (args : list Expr) : option (string * string) :=
  match postprocess_statement snowflake_functions 2 100 (select_call f args) with
  | Break (UnimplementedFunction e) => Some (e.(function_name), error_to_string e)
  | _ => None
  end.
Definition message (f page : string) : option (string * string) :=
  Some (f, "Function '" ++ f ++ "' is not implemented yet. Details: https://docs.snowflake.com/en/sql-reference/functions/" ++ page).

(** ARRAY_CONSTRUCT_COMPACT has a visitor of its own, which comes after the check, and SYSTEM$CANCEL_QUERY an implementation: both are refused.  VARIANCE and its
    kin are in the registry, but are renamed before the check.  Of the partition transforms [truncate] and [bucket] the first is in the registry.
    FINETUNE is in five categories. *)
Example implemented_but_refused :
  (refused_for "array_construct_compact" [num "1"], refused_for "system$cancel_query" [str "id"], refused_for "FINETUNE" [], refused_for "VARIANCE" [col "x"],
   map (check_function_exists snowflake_functions) ["VARIANCE"; "VARIANCE_SAMP"; "VARIANCE_POP"; "TRUNCATE"; "BUCKET"]) =
  (message "array_construct_compact" "array_construct_compact", message "system$cancel_query" "system_cancel_query", message "finetune" "finetune-snowflake-cortex", None,
   [true; true; true; true; false]).
Proof. vm_compute. reflexivity. Qed.

End RegistryExamples.
