(* ===== verification/Conditional.v ===== *)
(** * Conditional, numeric and window functions

    [functions/src/conditional], [functions/src/numeric/div0.rs] and [functions/src/window]: BOOLAND, BOOLOR, BOOLXOR, EQUAL_NULL, IFF, NULLIFZERO,
    ZEROIFNULL, DIV0, DIV0NULL and CONDITIONAL_TRUE_EVENT on the columns of [JsonEncode].  Arrow's comparison, casts and [zip], and the
    numbers of rust_decimal, are classes. *)

From Stdlib Require Import ZArith Lia Ascii String SpecFloat.
From stdpp Require Import base option list strings.
From S2P Require Import Prelude JsonValue JsonEncode Aggregates.

#[local] Open Scope string_scope.
#[local] Open Scope Z_scope.
#[local] Open Scope rust_scope.

(** What stops a function: an error of [array_to_boolean], of Arrow, an execution error, an error of [numeric/errors.rs], or a panic. *)
Inductive cond_failure :=
| Shared (e : agg_failure)
| ArrowFailure (e : ArrowError)
| ExecError (message : string)
| CastToType (target_type : string)
| UnexpectedArrayType (expected : string) (actual : DataType)
| CondPanic.

Notation cond A := (result cond_failure A).

Definition of_shared {A} (r : result agg_failure A) : cond A := match r with Ok a => Ok a | Err e => Err (Shared e) end.
Definition of_arrow_cond {A} (r : result ArrowError A) : cond A := match r with Ok a => Ok a | Err e => Err (ArrowFailure e) end.

(** [apply_cmp(Operator::Eq, ..)], [cast] of arrays and scalars, [zip]; how types and errors are printed. *)
Class CondExt := {
  apply_eq : ColumnarValue -> ColumnarValue -> result ArrowError ColumnarValue;
  cast_array : ArrayRef -> DataType -> result ArrowError ArrayRef;
  cast_scalar : ScalarValue -> DataType -> result ArrowError ScalarValue;
  scalar_type : ScalarValue -> DataType;
  zip_arrays : list (option bool) -> ArrayRef -> ArrayRef -> result ArrowError ArrayRef;
  type_to_string : DataType -> string;
  error_to_string : ArrowError -> string }.

#[export] Instance TimeUnit_eq_dec : EqDecision TimeUnit.
Proof. solve_decision. Defined.
#[export] Instance FloatKind_eq_dec : EqDecision FloatKind.
Proof. solve_decision. Defined.
#[export] Instance Utf8Kind_eq_dec : EqDecision Utf8Kind.
Proof. solve_decision. Defined.
#[export] Instance BinaryKind_eq_dec : EqDecision BinaryKind.
Proof. solve_decision. Defined.
#[export] Instance TemporalKind_eq_dec : EqDecision TemporalKind.
Proof. solve_decision. Defined.
#[export] Instance ListKind_eq_dec : EqDecision ListKind.
Proof. solve_decision. Defined.
#[export] Instance DecimalKind_eq_dec : EqDecision DecimalKind.
Proof. solve_decision. Defined.
#[export] Instance IntervalUnit_eq_dec : EqDecision IntervalUnit.
Proof. solve_decision. Defined.
#[export] Instance UnionMode_eq_dec : EqDecision UnionMode.
Proof. solve_decision. Defined.

#[export] Instance DataType_eq_dec : EqDecision DataType.
Proof.
  refine (fix go (x y : DataType) : {x = y} + {x <> y} :=
    match x, y with
    | TNull, TNull | TBoolean, TBoolean => left eq_refl
    | TInt a, TInt b => cast_if (decide (a = b))
    | TFloat a, TFloat b => cast_if (decide (a = b))
    | TUtf8 a, TUtf8 b => cast_if (decide (a = b))
    | TBinary a, TBinary b => cast_if (decide (a = b))
    | TDictionary k a, TDictionary k' b => cast_if_and (decide (k = k')) (go a b)
    | TTemporal a, TTemporal b => cast_if (decide (a = b))
    | TInterval a, TInterval b => cast_if (decide (a = b))
    | TList k a, TList k' b => cast_if_and (decide (k = k')) (go a b)
    | TStruct l, TStruct l' => cast_if (@list_eq_dec _ (@prod_eq_dec _ _ _ go) l l')
    | TDecimal k p s, TDecimal k' p' s' => cast_if_and3 (decide (k = k')) (decide (p = p')) (decide (s = s'))
    | TDecimal256 p s, TDecimal256 p' s' => cast_if_and (decide (p = p')) (decide (s = s'))
    | TRunEndEncoded a, TRunEndEncoded b => cast_if (go a b)
    | TMap a, TMap b => cast_if (go a b)
    | TUnion l m, TUnion l' m' => cast_if_and (@list_eq_dec _ (@prod_eq_dec _ _ _ go) l l') (decide (m = m'))
    | _, _ => right _
    end); clear go; abstract congruence.
Defined.

(** ** [conditional] *)
Section conditional.
Context `{ArrowExt, CondExt}.

(** [args[i]] *)
Definition argument (args : list ColumnarValue) (i : nat) : cond ColumnarValue := ok_or (args !! i) CondPanic.

(** A constant is a column of one row. *)
Definition column (v : ColumnarValue) : cond ArrayRef := match v with Array a => Ok a | Scalar s => of_arrow_cond (to_array_of_size s 1) end.

Definition boolean_column (v : ColumnarValue) : cond (list (option bool)) := let? a := column v in of_shared (array_to_boolean a).

Definition is_true (v : option bool) : bool := default false v.
Definition is_none (v : option bool) : bool := match v with None => true | Some _ => false end.

Definition booland_row (lhs rhs : option bool) : option bool :=
  if is_none lhs && is_none rhs then None
  else if (is_none lhs || is_none rhs) && (is_true lhs || is_true rhs) then None
  else Some (is_true lhs && is_true rhs).

Definition boolor_row (lhs rhs : option bool) : option bool :=
  if is_none lhs && is_none rhs then None
  else if (is_none lhs || is_none rhs) && (negb (is_true lhs) && negb (is_true rhs)) then None
  else Some (is_true lhs || is_true rhs).

Definition boolxor_row (lhs rhs : option bool) : option bool :=
  if is_none lhs && is_none rhs then None
  else if is_none lhs || is_none rhs then None
  else if (is_true lhs && negb (is_true rhs)) || (negb (is_true lhs) && is_true rhs) then Some true
  else if (is_true lhs && is_true rhs) || (negb (is_true lhs) && negb (is_true rhs)) then Some false
  else None.

(** The loop is over the rows both columns have. *)
Definition boolean_function (row : option bool -> option bool -> option bool) (args : list ColumnarValue) : cond ColumnarValue :=
  let? a := argument args 0 in
  let? lhs := boolean_column a in
  let? b := argument args 1 in
  let? rhs := boolean_column b in
  Ok (Array (ABoolean (zip_with row lhs rhs))).

Definition booland : list ColumnarValue -> cond ColumnarValue := boolean_function booland_row.
Definition boolor : list ColumnarValue -> cond ColumnarValue := boolean_function boolor_row.
Definition boolxor : list ColumnarValue -> cond ColumnarValue := boolean_function boolxor_row.

Definition equal_null_row (lhs rhs : ArrayRef) (i : nat) (v : option bool) : option bool :=
  match v with
  | Some v => Some v
  | None => if is_null lhs i && is_null rhs i then Some true else None
  end.

Definition equal_null (args : list ColumnarValue) : cond ColumnarValue :=
  let? a := argument args 0 in
  let? lhs := column a in
  let? b := argument args 1 in
  let? rhs := column b in
  if negb (len lhs =? len rhs)%nat then Err (ExecError "the first and second arguments must be of the same length")
  else
    let? cmp := of_arrow_cond (apply_eq a b) in
    let? cmp_res := column cmp in
    match cmp_res with
    | ABoolean rows => Ok (Array (ABoolean (imap (equal_null_row lhs rhs) rows)))
    | _ => Err CondPanic
    end.

Definition iff_return_type (lhs rhs : DataType) : DataType :=
  match lhs, rhs with
  | TNull, _ => rhs
  | _, TNull => lhs
  | _, _ => rhs
  end.

Definition value_type (v : ColumnarValue) : DataType := match v with Array a => data_type a | Scalar s => scalar_type s end.

(** A branch of IFF in the type of the result; a constant has a row for each row of the condition. *)
Definition iff_branch (target_type : DataType) (input_len : nat) (v : ColumnarValue) : cond ArrayRef :=
  match v with
  | Scalar s => let? s := of_arrow_cond (cast_scalar s target_type) in of_arrow_cond (to_array_of_size s input_len)
  | Array a => of_arrow_cond (cast_array a target_type)
  end.

Definition iff (args : list ColumnarValue) : cond ColumnarValue :=
  match args with
  | [input; lhs; rhs] =>
      let? input := boolean_column input in
      let lhs_dt := value_type lhs in
      let rhs_dt := value_type rhs in
      if bool_decide (lhs_dt <> rhs_dt /\ lhs_dt <> TNull /\ rhs_dt <> TNull)
      then Err (ExecError "IFF function requires the second and third arguments to be of the same type or NULL")
      else
        let target_type := iff_return_type lhs_dt rhs_dt in
        let? lhs_array := iff_branch target_type (length input) lhs in
        let? rhs_array := iff_branch target_type (length input) rhs in
        match zip_arrays input lhs_array rhs_array with
        | Ok result => Ok (Array result)
        | Err e => Err (ExecError (error_to_string e))
        end
  | _ => Err (ExecError "iff function requires 3 arguments")
  end.

(** [build_array!]: the builders of decimals have the default precision and scale. *)
Definition null_if {A} (zero : A -> bool) (row : option A) : option A := match row with Some v => if zero v then None else Some v | None => None end.

Definition nullifzero (args : list ColumnarValue) : cond ColumnarValue :=
  let? a := argument args 0 in
  let? arr := column a in
  match arr with
  | AInt k rows => Ok (Array (AInt k (map (null_if (Z.eqb 0)) rows)))
  | AFloat k rows => Ok (Array (AFloat k (map (null_if is_zero) rows)))
  | ADecimal Decimal128 _ _ rows => Ok (Array (ADecimal Decimal128 38 10 (map (null_if (Z.eqb 0)) rows)))
  | ADecimal256 _ _ rows => Ok (Array (ADecimal256 76 10 (map (null_if decimal256_is_zero) rows)))
  | _ => Err (ExecError ("function does not support type " ++ type_to_string (data_type arr)))
  end.

Definition zeroifnull (args : list ColumnarValue) : cond ColumnarValue :=
  let? a := argument args 0 in
  let? arr := column a in
  match arr with
  | AInt k rows => Ok (Array (AInt k (map (fun v => Some (default 0 v)) rows)))
  | AFloat Float32 rows => Ok (Array (AFloat Float32 (map (fun v => Some (default (S754_zero false) v)) rows)))
  | AFloat Float64 rows => Ok (Array (AFloat Float64 (map (fun v => Some (default (S754_zero false) v)) rows)))
  | ADecimal Decimal128 p s rows => Ok (Array (ADecimal Decimal128 p s (map (fun v => Some (default 0 v)) rows)))
  | _ => Err (ExecError "zeroifnull function only supports numeric types")
  end.

End conditional.

(** ** [numeric/div0.rs] *)

(** [rust_decimal::Decimal]: [None] where the crate panics. *)
Class Decimals := {
  Dec : Type;
  from_i128_with_scale : Z -> Z -> option Dec;
  dec_is_zero : Dec -> bool;
  dec_div : Dec -> Dec -> option Dec;
  dec_rescale : Dec -> Z -> Dec;
  dec_mantissa : Dec -> Z }.

(** [u8::saturating_add] and [saturating_sub]; [as u8] and [as i8]. *)
Definition saturating_add (a b : Z) : Z := Z.min 255 (a + b).
Definition saturating_sub (a b : Z) : Z := Z.max 0 (a - b).
Definition as_u8 (z : Z) : Z := z mod 256.
Definition as_i8 (z : Z) : Z := if z mod 256 <? 128 then z mod 256 else z mod 256 - 256.

Definition calculate_precision_and_scale (dividend divisor : DataType) : Z * Z :=
  let (p1, s1) := match dividend with TDecimal Decimal128 p s => (p, as_u8 s) | _ => (38, 0) end in
  let s2 := match divisor with TDecimal Decimal128 _ s => as_u8 s | _ => 0 end in
  let l1 := saturating_sub p1 s1 in
  let l_output := saturating_add l1 s2 in
  let s_output := Z.max s1 (Z.min (saturating_add s1 6) 12) in
  let p_output_unclamped := saturating_add l_output s_output in
  (Z.min p_output_unclamped 38, as_i8 s_output).

Definition is_null_type (t : DataType) : bool := match t with TNull => true | _ => false end.
Definition is_floating (t : DataType) : bool := match t with TFloat _ => true | _ => false end.
Definition decimal_type (ps : Z * Z) : DataType := TDecimal Decimal128 ps.1 ps.2.

(** [return_type]; [null] is the field that makes DIV0NULL of DIV0. *)
Definition div0_return_type (null : bool) (t1 t2 : DataType) : DataType :=
  if is_null_type t1 || is_null_type t2 then
    if null && is_null_type t2 then decimal_type (calculate_precision_and_scale t1 (TDecimal Decimal128 38 0)) else TNull
  else if is_floating t1 || is_floating t2 then TFloat Float64
  else decimal_type (calculate_precision_and_scale t1 t2).

(** [with_precision_and_scale] *)
Definition valid_decimal128 (p s : Z) : bool := (1 <=? p) && (p <=? 38) && (s <=? 38) && negb ((0 <? s) && (p <? s)).

Section div0.
Context `{ArrowExt, CondExt, Decimals} (null : bool).

Definition in_array (v : ColumnarValue) (number_rows : nat) : cond ArrayRef :=
  match v with Array a => Ok a | Scalar s => of_arrow_cond (to_array_of_size s number_rows) end.

Definition numeric_cast (a : ArrayRef) (t : DataType) (target_type : string) : cond ArrayRef :=
  match cast_array a t with Ok a => Ok a | Err _ => Err (CastToType target_type) end.

Definition as_float64 (a : ArrayRef) : cond (list (option f64)) :=
  let? a := if is_floating (data_type a) then Ok a else numeric_cast a (TFloat Float64) "Float64" in
  match a with AFloat Float64 rows => Ok rows | _ => Err (UnexpectedArrayType "Float64Array" (data_type a)) end.

Definition float_row (dividend divisor : option f64) : option f64 :=
  match dividend, divisor with
  | Some dividend, Some divisor => if is_zero divisor then Some (S754_zero false) else Some (SFdiv 53 1024 dividend divisor)
  | _, _ => if null then Some (S754_zero false) else None
  end.

Definition as_decimal128 (a : ArrayRef) : cond (Z * Z * list (option Z)) :=
  let? a := match data_type a with TDecimal Decimal128 _ _ => Ok a | _ => numeric_cast a (TDecimal Decimal128 38 0) "Decimal128" end in
  match a with ADecimal Decimal128 p s rows => Ok (p, s, rows) | _ => Err (UnexpectedArrayType "Decimal128Array" (data_type a)) end.

(** A scale is passed [as u32]. *)
Definition as_u32 (z : Z) : Z := z mod 2 ^ 32.

Definition decimal_row (dividend_scale divisor_scale s : Z) (row : option Z * option Z) : cond (option Z) :=
  match row with
  | (Some dividend, Some divisor) =>
      let? dividend := ok_or (from_i128_with_scale dividend (as_u32 dividend_scale)) CondPanic in
      let? divisor := ok_or (from_i128_with_scale divisor (as_u32 divisor_scale)) CondPanic in
      if dec_is_zero divisor then Ok (Some 0)
      else let? r := ok_or (dec_div dividend divisor) CondPanic in Ok (Some (dec_mantissa (dec_rescale r (as_u32 s))))
  | _ => Ok (if null then Some 0 else None)
  end.

Definition div0 (args : list ColumnarValue) (number_rows : nat) : cond ColumnarValue :=
  let? a := argument args 0 in
  let? dividend := in_array a number_rows in
  let? b := argument args 1 in
  let? divisor := in_array b number_rows in
  if (is_null_type (data_type dividend) || is_null_type (data_type divisor)) && negb null then Ok (Scalar SNull)
  else if is_floating (data_type dividend) || is_floating (data_type divisor) then
    let? divided := as_float64 dividend in
    let? divisor := as_float64 divisor in
    Ok (Array (AFloat Float64 (zip_with float_row divided divisor)))
  else
    let? (p1, dividend_scale, dividend) := as_decimal128 dividend in
    let? (p2, divisor_scale, divisor) := as_decimal128 divisor in
    let (p, s) := calculate_precision_and_scale (TDecimal Decimal128 p1 dividend_scale) (TDecimal Decimal128 p2 divisor_scale) in
    let? rows := traverse (decimal_row dividend_scale divisor_scale s) (zip dividend divisor) in
    if valid_decimal128 p s then Ok (Array (ADecimal Decimal128 p s rows)) else Err (ArrowFailure (InvalidArgumentError "precision and scale")).

End div0.

(** ** [window/conditional_true_event.rs] *)
Record ConditionalTrueEventEvaluator := mkEvent { prev : bool; count : Z }.
Definition event_default : ConditionalTrueEventEvaluator := mkEvent false 0.

(** One row: [!is_null(i) && value(i)], which panics out of range; the counter is a u64. *)
Definition event_row (bools : list (option bool)) (i : nat) (self : ConditionalTrueEventEvaluator) : cond (Z * ConditionalTrueEventEvaluator) :=
  let? v := ok_or (bools !! i) CondPanic in
  let current := is_true v in
  let count := if current then (self.(count) + 1) mod 2 ^ 64 else self.(count) in
  Ok (count, mkEvent current count).

Fixpoint event_loop (bools : list (option bool)) (i n : nat) (self : ConditionalTrueEventEvaluator) : cond (list Z * ConditionalTrueEventEvaluator) :=
  match n with
  | O => Ok ([], self)
  | S n =>
      let? (v, self) := event_row bools i self in
      let? (l, self) := event_loop bools (S i) n self in
      Ok (v :: l, self)
  end.

Definition evaluate_all (values : list ArrayRef) (num_rows : nat) (self : ConditionalTrueEventEvaluator) : cond (ArrayRef * ConditionalTrueEventEvaluator) :=
  let? a := ok_or (values !! 0%nat) CondPanic in
  let? bools := of_shared (array_to_boolean a) in
  let? (l, self) := event_loop bools 0 num_rows self in
  Ok (AInt UInt64 (map Some l), self).

(** [range.end - 1] underflows at 0. *)
Definition evaluate_range (values : list ArrayRef) (end_ : nat) (self : ConditionalTrueEventEvaluator) : cond (ScalarValue * ConditionalTrueEventEvaluator) :=
  match end_ with
  | O => Err CondPanic
  | S idx =>
      let? a := ok_or (values !! 0%nat) CondPanic in
      let? bools := of_shared (array_to_boolean a) in
      let? (v, self) := event_row bools idx self in
      Ok (SInt UInt64 (Some v), self)
  end.

(** ** Three-valued logic *)

Definition kleene_not (a : option bool) : option bool := option_map negb a.
Definition kleene_and (a b : option bool) : option bool :=
  match a, b with
  | Some false, _ | _, Some false => Some false
  | Some true, Some true => Some true
  | _, _ => None
  end.
Definition kleene_or (a b : option bool) : option bool := kleene_not (kleene_and (kleene_not a) (kleene_not b)).
Definition kleene_xor (a b : option bool) : option bool := kleene_and (kleene_or a b) (kleene_not (kleene_and a b)).

Lemma booland_kleene a b : booland_row a b = kleene_and a b.
Proof. by destruct a as [[]|], b as [[]|]. Qed.
Lemma boolor_kleene a b : boolor_row a b = kleene_or a b.
Proof. by destruct a as [[]|], b as [[]|]. Qed.
Lemma boolxor_kleene a b : boolxor_row a b = kleene_xor a b.
Proof. by destruct a as [[]|], b as [[]|]. Qed.

Lemma zip_with_ext {A B C} (f g : A -> B -> C) l k : (forall a b, f a b = g a b) -> zip_with f l k = zip_with g l k.
Proof. intros E. revert k. induction l as [|a l IH]; intros [|b k]; [done..|]. cbn. by rewrite E, IH. Qed.

Section kleene.
Context `{ArrowExt, CondExt}.

Lemma boolean_function_columns row spec a b l k : (forall x y, row x y = spec x y) -> array_to_boolean a = Ok l -> array_to_boolean b = Ok k ->
  boolean_function row [Array a; Array b] = Ok (Array (ABoolean (zip_with spec l k))).
Proof. intros E Ea Eb. unfold boolean_function, boolean_column. cbn. rewrite Ea. cbn. rewrite Eb. cbn. by rewrite (zip_with_ext row spec). Qed.

(** BOOLAND, BOOLOR and BOOLXOR of two columns are conjunction, disjunction and exclusive disjunction of three-valued logic, row by row: a number is true
    when it is not zero and null is unknown, so that a false operand decides a conjunction and a true one a disjunction. *)
Theorem boolean_functions_kleene a b l k : array_to_boolean a = Ok l -> array_to_boolean b = Ok k ->
  booland [Array a; Array b] = Ok (Array (ABoolean (zip_with kleene_and l k))) /\
  boolor [Array a; Array b] = Ok (Array (ABoolean (zip_with kleene_or l k))) /\
  boolxor [Array a; Array b] = Ok (Array (ABoolean (zip_with kleene_xor l k))).
Proof.
  intros Ea Eb. split; [|split]; apply boolean_function_columns; auto using booland_kleene, boolor_kleene, boolxor_kleene.
Qed.

(** ** EQUAL_NULL *)

(** Arrow compares the rows of two integer columns of one length; a null row gives null. *)
Definition eq_row (a b : option Z) : option bool := match a, b with Some a, Some b => Some (a =? b) | _, _ => None end.

Class EqLaws : Prop := {
  eq_columns : forall t l k, length l = length k -> apply_eq (Array (AInt t l)) (Array (AInt t k)) = Ok (Array (ABoolean (zip_with eq_row l k))) }.

Definition null_safe (a b : option Z) : option bool :=
  match a, b with Some a, Some b => Some (a =? b) | None, None => Some true | _, _ => None end.

Lemma equal_null_rows l k l0 k0 : length l = length k -> length l0 = length k0 ->
  imap (fun i => equal_null_row (AInt Int64 (l0 ++ l)) (AInt Int64 (k0 ++ k)) (length l0 + i)) (zip_with eq_row l k) = zip_with null_safe l k.
Proof.
  revert k l0 k0. induction l as [|a l IH]; intros [|b k] l0 k0 Hl Hk0; try done. cbn [zip_with imap]. f_equal.
  - unfold equal_null_row, is_null, row_null. rewrite Nat.add_0_r. rewrite (list_lookup_middle l0), (list_lookup_middle k0) by done. by destruct a, b.
  - specialize (IH k (l0 ++ [a])%list (k0 ++ [b])%list ltac:(cbn in Hl; lia) ltac:(rewrite !length_app; cbn; lia)).
    rewrite <- !app_assoc, length_app in IH. cbn [app length] in IH. rewrite <- IH. apply imap_ext. intros i x _. cbn. f_equal. lia.
Qed.

Lemma equal_null_kind t l k i v : equal_null_row (AInt t l) (AInt t k) i v = equal_null_row (AInt Int64 l) (AInt Int64 k) i v.
Proof. done. Qed.

(** EQUAL_NULL of two integer columns of one length compares row by row, takes two nulls for equal, and is null, not false, where one side is. *)
Theorem equal_null_columns `{!EqLaws} t l k : length l = length k ->
  equal_null [Array (AInt t l); Array (AInt t k)] = Ok (Array (ABoolean (zip_with null_safe l k))).
Proof.
  intros Hl. unfold equal_null. cbn [argument lookup list_lookup ok_or column result_bind len]. rewrite Hl, Nat.eqb_refl. cbn [negb].
  rewrite eq_columns by done. cbn. do 2 f_equal. f_equal. rewrite <- (equal_null_rows l k [] []) by done. by apply imap_ext.
Qed.

(** ** IFF *)

(** The rows a condition selects; an unknown condition selects the second value. *)
Fixpoint choose {A} (m : list (option bool)) (a b : list A) : list A :=
  match m, a, b with v :: m, x :: a, y :: b => (if is_true v then x else y) :: choose m a b | _, _, _ => [] end.

(** [cast] of a column to the type it has, and [zip] of integer columns of the length of the mask. *)
Class ZipLaws : Prop := {
  cast_same : forall a, cast_array a (data_type a) = Ok a;
  zip_columns : forall m t a b, length a = length m -> length b = length m -> zip_arrays m (AInt t a) (AInt t b) = Ok (AInt t (choose m a b)) }.

(** IFF of integer columns has the row of the second argument where the condition is true, and that of the third where it is false or null. *)
Theorem iff_selects `{!ZipLaws} c m t a b : array_to_boolean c = Ok m -> length a = length m -> length b = length m ->
  iff [Array c; Array (AInt t a); Array (AInt t b)] = Ok (Array (AInt t (choose m a b))).
Proof.
  intros Ec Ha Hb. unfold iff, boolean_column. cbn [column result_bind]. rewrite Ec. cbn [of_shared result_bind value_type data_type].
  rewrite bool_decide_false by (by intros [? _]). cbn [iff_return_type]. unfold iff_branch.
  pose proof (cast_same (AInt t a)) as Ea. pose proof (cast_same (AInt t b)) as Eb. cbn [data_type] in Ea, Eb. rewrite Ea, Eb. cbn. by rewrite zip_columns.
Qed.

(** ** NULLIFZERO and ZEROIFNULL *)

(** On integers ZEROIFNULL undoes NULLIFZERO and NULLIFZERO undoes ZEROIFNULL, up to the row that is null or zero. *)
Theorem zero_and_null k rows :
  (let? v := nullifzero [Array (AInt k rows)] in zeroifnull [v]) = zeroifnull [Array (AInt k rows)] /\
  (let? v := zeroifnull [Array (AInt k rows)] in nullifzero [v]) = nullifzero [Array (AInt k rows)].
Proof.
  cbn. rewrite !map_map. split; do 2 f_equal; f_equal; apply map_ext; intros [z|]; try done; cbn.
  destruct z; done.
Qed.

End kleene.

(** ** DIV0 *)

Lemma as_u8_id z : 0 <= z < 256 -> as_u8 z = z.
Proof. apply Z.mod_small. Qed.
Lemma as_i8_id z : 0 <= z < 128 -> as_i8 z = z.
Proof. intros Hz. unfold as_i8. rewrite Z.mod_small by lia. destruct (Z.ltb_spec z 128); lia. Qed.

Definition scale_of (t : DataType) : Z := match t with TDecimal Decimal128 _ s => s | _ => 0 end.
Definition digits_of (t : DataType) : Z := match t with TDecimal Decimal128 p _ => p | _ => 38 end.
Definition plain_decimal (t : DataType) : Prop := 1 <= digits_of t <= 38 /\ 0 <= scale_of t <= digits_of t.

(** The type DIV0 declares for operands with at most 38 digits is a type of Arrow; it keeps the digits of the dividend after the point, adds up to six of them, and
    has as many digits before the point as the quotient may have, unless 38 are not enough. *)
Theorem div0_precision t1 t2 : plain_decimal t1 -> plain_decimal t2 ->
  let (p, s) := calculate_precision_and_scale t1 t2 in
  valid_decimal128 p s = true /\ scale_of t1 <= s <= Z.max (scale_of t1) 12 /\
  (p = 38 \/ p - s = digits_of t1 - scale_of t1 + scale_of t2).
Proof.
  intros [H1 H2] [H3 H4]. unfold calculate_precision_and_scale.
  replace (match t1 with TDecimal Decimal128 p s => (p, as_u8 s) | _ => (38, 0) end) with (digits_of t1, scale_of t1)
    by (destruct t1 as [| | | | | | | | | | |[] ? ?| | | |]; try done; cbn in *; by rewrite as_u8_id by lia).
  replace (match t2 with TDecimal Decimal128 _ s => as_u8 s | _ => 0 end) with (scale_of t2)
    by (destruct t2 as [| | | | | | | | | | |[] ? ?| | | |]; try done; cbn in *; by rewrite as_u8_id by lia).
  unfold saturating_add, saturating_sub. set (s := Z.max (scale_of t1) _). rewrite as_i8_id by lia. split; [|lia].
  unfold valid_decimal128. rewrite !andb_true_iff, negb_true_iff, andb_false_iff, !Z.leb_le, Z.ltb_ge, Z.ltb_ge. lia.
Qed.

Section div0_types.
Context `{ArrowExt, CondExt, Decimals}.

(** A cast that succeeds has the type asked for. *)
Class CastTypes : Prop := cast_type : forall a t a', cast_array a t = Ok a' -> data_type a' = t.

Lemma decimal_parts_type a r : match a with ADecimal Decimal128 p s rows => Ok (p, s, rows) | _ => Err (UnexpectedArrayType "Decimal128Array" (data_type a)) end = Ok r ->
  data_type a = TDecimal Decimal128 r.1.1 r.1.2.
Proof. destruct a as [| | | | | | | | | | | | |[]| | | |]; try done. by intros [= <-]. Qed.

Lemma as_decimal128_type `{!CastTypes} a p s rows : as_decimal128 a = Ok (p, s, rows) -> p = digits_of (data_type a) /\ s = scale_of (data_type a).
Proof.
  unfold as_decimal128, numeric_cast. intros (a' & Ea & Et%decimal_parts_type)%result_bind_Ok. cbn [fst snd] in Et.
  assert (a' = a /\ (exists p' s', data_type a = TDecimal Decimal128 p' s') \/ data_type a' = TDecimal Decimal128 38 0 /\ digits_of (data_type a) = 38 /\ scale_of (data_type a) = 0) as Hc.
  { destruct (data_type a) as [| | | | | | | | | | |[] p' s'| | | |]; try (right; destruct (cast_array a _) eqn:Ec; [|done]; injection Ea as ->; by apply cast_type in Ec).
    left. injection Ea as <-. split; [done|]. by exists p', s'. }
  destruct Hc as [[-> (p' & s' & E)]|[E [-> ->]]]; rewrite E in *; by injection Et as -> ->.
Qed.

Lemma calculate_by_digits t1 t2 :
  calculate_precision_and_scale (TDecimal Decimal128 (digits_of t1) (scale_of t1)) (TDecimal Decimal128 (digits_of t2) (scale_of t2)) = calculate_precision_and_scale t1 t2.
Proof. destruct t1 as [| | | | | | | | | | |[] ? ?| | | |], t2 as [| | | | | | | | | | |[] ? ?| | | |]; done. Qed.

(** What DIV0 returns for two columns has the type it declares. *)
Theorem div0_typed `{!CastTypes} a b n r : div0 false [Array a; Array b] n = Ok (Array r) -> data_type r = div0_return_type false (data_type a) (data_type b).
Proof.
  unfold div0, div0_return_type. cbn [argument lookup list_lookup ok_or in_array result_bind negb].
  destruct (is_null_type (data_type a) || is_null_type (data_type b)); [done|]. cbn [andb].
  destruct (is_floating (data_type a) || is_floating (data_type b)).
  - destruct (as_float64 a); [|done]. cbn. destruct (as_float64 b); [|done]. by intros [= <-].
  - destruct (as_decimal128 a) as [[[p1 s1] l1]|] eqn:E1; [|done]. cbn [result_bind]. destruct (as_decimal128 b) as [[[p2 s2] l2]|] eqn:E2; [|done].
    cbn [result_bind]. apply as_decimal128_type in E1 as [-> ->], E2 as [-> ->]. rewrite calculate_by_digits.
    destruct (calculate_precision_and_scale _ _) as [p s]. destruct (traverse _ _); [|done]. cbn. destruct (valid_decimal128 p s); [|done]. by intros [= <-].
Qed.

(** rust_decimal: a number is a mantissa of 96 bits and a scale of at most 28; a quotient that such a number can express is exact, and so is a change of scale. *)
Context (dec_scale : Dec -> Z).
Definition fits (m : Z) : Prop := Z.abs m < 2 ^ 96.
Class DecimalLaws : Prop := {
  from_fits : forall m s, fits m -> 0 <= s <= 28 -> exists d, from_i128_with_scale m s = Some d /\ dec_mantissa d = m /\ dec_scale d = s;
  from_too_large : forall m s, ~ fits m -> from_i128_with_scale m s = None;
  is_zero_mantissa : forall d, dec_is_zero d = (dec_mantissa d =? 0);
  div_exact : forall a b q s, dec_mantissa b <> 0 -> 0 <= dec_scale a -> 0 <= dec_scale b -> 0 <= s <= 28 -> fits q ->
    dec_mantissa a * 10 ^ (dec_scale b + s) = q * dec_mantissa b * 10 ^ dec_scale a ->
    exists r, dec_div a b = Some r /\ 0 <= dec_scale r /\ dec_mantissa r * 10 ^ s = q * 10 ^ dec_scale r;
  rescale_exact : forall d q s, 0 <= dec_scale d -> 0 <= s <= 28 -> fits q -> dec_mantissa d * 10 ^ s = q * 10 ^ dec_scale d -> dec_mantissa (dec_rescale d s) = q }.

(** A division of decimals: nothing is lost of a quotient that has no more digits after the point than the result, a divisor of zero gives zero, and an operand of
    more than 96 bits panics. *)
Theorem div0_row `{!DecimalLaws} null s1 s2 s a b : 0 <= s1 <= 28 -> 0 <= s2 <= 28 -> 0 <= s <= 28 ->
  (fits a -> fits b -> b = 0 -> decimal_row null s1 s2 s (Some a, Some b) = Ok (Some 0)) /\
  (forall q, fits a -> fits b -> b <> 0 -> fits q -> a * 10 ^ (s2 + s) = q * b * 10 ^ s1 -> decimal_row null s1 s2 s (Some a, Some b) = Ok (Some q)) /\
  (~ fits a -> decimal_row null s1 s2 s (Some a, Some b) = Err CondPanic).
Proof.
  intros Hs1 Hs2 Hs. unfold decimal_row, as_u32. rewrite !Z.mod_small by lia. split; [|split].
  - intros Ha Hb ->. destruct (from_fits a s1 Ha Hs1) as (d1 & -> & _). destruct (from_fits 0 s2 Hb Hs2) as (d2 & -> & Em & _). cbn. by rewrite is_zero_mantissa, Em.
  - intros q Ha Hb Hn Hq E. destruct (from_fits a s1 Ha Hs1) as (d1 & -> & M1 & S1). destruct (from_fits b s2 Hb Hs2) as (d2 & -> & M2 & S2). cbn.
    rewrite is_zero_mantissa, M2. destruct (Z.eqb_spec b 0); [done|]. destruct (div_exact d1 d2 q s) as (r & -> & Hr & Er); [by rewrite M2|lia|lia|done|done|by rewrite M1, M2, S1, S2|].
    cbn. by rewrite (rescale_exact r q s).
  - intros Ha. by rewrite from_too_large.
Qed.

End div0_types.

(** ** CONDITIONAL_TRUE_EVENT *)

(** The number of changes from false or null to true up to each row, after [n] of them and with the condition [before]. *)
Fixpoint transitions (before : bool) (n : Z) (l : list (option bool)) : list Z :=
  match l with [] => [] | v :: l => let n := if is_true v && negb before then n + 1 else n in n :: transitions (is_true v) n l end.

(** No row whose condition is true directly follows another. *)
Fixpoint separated (before : bool) (l : list (option bool)) : bool :=
  match l with [] => true | v :: l => negb (before && is_true v) && separated (is_true v) l end.

Lemma event_loop_total bools n i self : (i + n <= length bools)%nat ->
  exists l self', event_loop bools i n self = Ok (l, self') /\ length l = n.
Proof.
  revert i self. induction n as [|n IH]; intros i self Hn; [by exists [], self|]. cbn [event_loop]. unfold event_row.
  destruct (lookup_lt_is_Some_2 bools i ltac:(lia)) as [v ->]. cbn [ok_or result_bind].
  match goal with |- context [event_loop bools (S i) n ?s] => destruct (IH (S i) s ltac:(lia)) as (l & self' & -> & Hl) end.
  cbn [result_bind]. eexists _, self'. split; [done|]. cbn. by rewrite Hl.
Qed.

Lemma event_loop_transitions before done_ l self n : separated before l = true -> self.(count) = n mod 2 ^ 64 ->
  exists self', event_loop (done_ ++ l) (length done_) (length l) self = Ok (map (fun c => c mod 2 ^ 64) (transitions before n l), self').
Proof.
  revert before done_ self n. induction l as [|v l IH]; intros before done_ self n Hs Hc; [by eexists|].
  cbn [length event_loop transitions separated map] in *. apply andb_true_iff in Hs as [Hb Hs]. unfold event_row at 1.
  rewrite list_lookup_middle by done. cbn [ok_or result_bind]. set (n' := if is_true v && negb before then n + 1 else n).
  assert ((if is_true v then (count self + 1) mod 2 ^ 64 else count self) = n' mod 2 ^ 64) as ->.
  { subst n'. destruct (is_true v), before; cbn in Hb |- *; try done. by rewrite Hc, Zplus_mod_idemp_l. }
  destruct (IH (is_true v) (done_ ++ [v])%list (mkEvent (is_true v) (n' mod 2 ^ 64)) n' Hs eq_refl) as (self' & El).
  rewrite <- app_assoc, length_app in El. cbn [app length] in El. rewrite Nat.add_1_r in El. rewrite El. cbn [result_bind]. by exists self'.
Qed.

(** The calls of [evaluate] over a partition, row after row. *)
Fixpoint evaluate_rows (values : list ArrayRef) (i n : nat) (self : ConditionalTrueEventEvaluator) : cond (list ScalarValue * ConditionalTrueEventEvaluator) :=
  match n with
  | O => Ok ([], self)
  | S n =>
      let? (v, self) := evaluate_range values (S i) self in
      let? (l, self) := evaluate_rows values (S i) n self in
      Ok (v :: l, self)
  end.

Lemma evaluate_rows_loop a bools i n self : array_to_boolean a = Ok bools ->
  evaluate_rows [a] i n self = (let? (l, self) := event_loop bools i n self in Ok (map (fun v => SInt UInt64 (Some v)) l, self)).
Proof.
  intros Ea. revert i self. induction n as [|n IH]; intros i self; [done|]. cbn [evaluate_rows event_loop]. unfold evaluate_range. cbn [lookup list_lookup ok_or result_bind].
  rewrite Ea. cbn [of_shared result_bind]. destruct (event_row bools i self) as [[v self1]|e]; [|done]. cbn [result_bind]. rewrite IH.
  by destruct (event_loop bools (S i) n self1) as [[l self2]|e].
Qed.

(** C36: CONDITIONAL_TRUE_EVENT returns for every partition whose condition is boolean or numeric, and gives the same numbers and
    the same state whether the partition is evaluated at once or row after row. Where no true row directly follows another, each row has the
    number of changes from false or null to true up to it (modulo 2^64), as it is documented. *)
Theorem conditional_true_event_correct a bools : array_to_boolean a = Ok bools ->
  exists numbers self,
    evaluate_all [a] (length bools) event_default = Ok (AInt UInt64 (map Some numbers), self) /\
    evaluate_rows [a] 0 (length bools) event_default = Ok (map (fun v => SInt UInt64 (Some v)) numbers, self) /\
    length numbers = length bools /\
    (separated false bools = true -> numbers = map (fun c => c mod 2 ^ 64) (transitions false 0 bools)).
Proof.
  intros Ea. destruct (event_loop_total bools (length bools) 0 event_default) as (l & self & El & Hl); [lia|]. exists l, self. split_and!.
  - unfold evaluate_all. cbn [lookup list_lookup ok_or result_bind]. rewrite Ea. cbn [of_shared result_bind]. by rewrite El.
  - rewrite (evaluate_rows_loop _ bools) by done. by rewrite El.
  - done.
  - intros Hs. destruct (event_loop_transitions false [] bools event_default 0 Hs eq_refl) as (self' & El'). cbn [app length] in El'. congruence.
Qed.

(** ** Instances, witnesses and examples *)
Module ConditionalExamples.
Import ArrowExample.

Definition small_cast (a : ArrayRef) (t : DataType) : result ArrowError ArrayRef :=
  if decide (data_type a = t) then Ok a
  else match a, t with
       | AInt _ rows, TDecimal Decimal128 p s => Ok (ADecimal Decimal128 p s (map (option_map (Z.mul (10 ^ s))) rows))
       | AInt _ rows, TFloat Float64 => Ok (AFloat Float64 (map (option_map f64_of_Z) rows))
       | ANull n, TDecimal Decimal128 p s => Ok (ADecimal Decimal128 p s (replicate n None))
       | ANull n, TFloat Float64 => Ok (AFloat Float64 (replicate n None))
       | _, _ => Err (OtherError "cast")
       end.

#[export] Instance small_cond : CondExt := {|
  apply_eq a b := match a, b with Array (AInt _ l), Array (AInt _ k) => Ok (Array (ABoolean (zip_with eq_row l k))) | _, _ => Err (OtherError "compare") end;
  cast_array := small_cast;
  cast_scalar s _ := Ok s;
  scalar_type s := match s with SBoolean _ => TBoolean | SInt k _ => TInt k | _ => TNull end;
  zip_arrays m a b := match a, b with AInt k l, AInt _ l' => Ok (AInt k (choose m l l')) | _, _ => Err (OtherError "zip") end;
  type_to_string _ := "";
  error_to_string _ := "" |}.

#[export] Instance small_eq : EqLaws.
Proof. by split. Qed.

#[export] Instance small_zip : ZipLaws.
Proof. split; [|done]. intros a. cbn. unfold small_cast. by rewrite decide_True. Qed.

#[export] Instance small_casts : CastTypes.
Proof.
  intros a t a'. cbn. unfold small_cast. destruct (decide (data_type a = t)) as [<-|_]; [by intros [= <-]|].
  destruct a; try done; destruct t as [| | |[]| | | | | | | |[] ? ?| | | |]; try done; by intros [= <-].
Qed.

(** Numbers without the bound on the mantissa of a quotient; quotients have 28 digits after the point. *)
Definition small_from (m s : Z) : option (Z * Z) := if (Z.abs m <? 2 ^ 96) && (0 <=? s) && (s <=? 28) then Some (m, s) else None.
#[export] Instance small_decimals : Decimals := {|
  Dec := Z * Z;
  from_i128_with_scale := small_from;
  dec_is_zero d := d.1 =? 0;
  dec_div a b := Some (a.1 * 10 ^ (b.2 + 28) / (b.1 * 10 ^ a.2), 28);
  dec_rescale d s := (d.1 * 10 ^ s / 10 ^ d.2, s);
  dec_mantissa d := d.1 |}.

#[export] Instance small_decimal_laws : DecimalLaws snd.
Proof.
  assert (forall k, 0 <= k -> 0 < 10 ^ k) as Hp by (intros; by apply Z.pow_pos_nonneg).
  split; cbn.
  - unfold fits, small_from. intros m s Hm Hs. exists (m, s). rewrite (proj2 (Z.ltb_lt _ _)), !(proj2 (Z.leb_le _ _)) by lia. done.
  - unfold fits, small_from. intros m s Hm. by rewrite (proj2 (Z.ltb_ge _ _)) by lia.
  - done.
  - intros a b q s Hb Ha0 Hb0 Hs _ E. eexists. split; [done|]. cbn. split; [lia|].
    replace (b.2 + 28) with (b.2 + s + (28 - s)) by lia. rewrite (Z.pow_add_r 10 (b.2 + s)), Z.mul_assoc, E by lia.
    replace (q * b.1 * 10 ^ a.2 * 10 ^ (28 - s)) with (q * 10 ^ (28 - s) * (b.1 * 10 ^ a.2)) by ring. pose proof (Hp a.2 Ha0).
    rewrite Z.div_mul by (apply Z.neq_mul_0; lia). rewrite <- Z.mul_assoc, <- Z.pow_add_r by lia. do 2 f_equal. lia.
  - intros d q s Hd Hs _ E. rewrite E. apply Z.div_mul. pose proof (Hp d.2 Hd). lia.
Qed.

Definition ints (l : list (option Z)) : ColumnarValue := Array (AInt Int64 l).

Lemma boolean_functions_kleene_witness :
  booland [ints [Some 3; None; None]; ints [Some 0; Some 0; Some 7]] = Ok (Array (ABoolean [Some false; Some false; None])) /\
  boolor [ints [Some 3; None; None]; ints [Some 0; Some 0; Some 7]] = Ok (Array (ABoolean [Some true; None; Some true])) /\
  boolxor [ints [Some 3; None; None]; ints [Some 0; Some 0; Some 7]] = Ok (Array (ABoolean [Some true; None; None])).
Proof.
  exact (boolean_functions_kleene (AInt Int64 [Some 3; None; None]) (AInt Int64 [Some 0; Some 0; Some 7]) [Some true; None; None] [Some false; Some false; Some true] eq_refl eq_refl).
Defined.

(** A constant and a column: the result has one row, whatever the column has. *)
Example constant_and_column : booland [Scalar (SInt Int64 (Some 1)); ints [Some 1; Some 0; None]] = Ok (Array (ABoolean [Some true])).
Proof. reflexivity. Qed.

Lemma equal_null_columns_witness :
  equal_null [ints [Some 1; Some 1; None; None]; ints [Some 1; Some 2; Some 1; None]] = Ok (Array (ABoolean [Some true; Some false; None; Some true])).
Proof. exact (equal_null_columns Int64 [Some 1; Some 1; None; None] [Some 1; Some 2; Some 1; None] eq_refl). Defined.

(** A constant is not compared with a column. *)
Example equal_null_constant : equal_null [ints [Some 1; Some 2]; Scalar (SInt Int64 (Some 1))] = Err (ExecError "the first and second arguments must be of the same length").
Proof. reflexivity. Qed.

(** 3.14159 comes out of NULLIFZERO as 0.0000314159. *)
Example nullifzero_decimal :
  nullifzero [Array (ADecimal Decimal128 6 5 [Some 314159; Some 0])] = Ok (Array (ADecimal Decimal128 38 10 [Some 314159; None])).
Proof. reflexivity. Qed.

(** The tests of the source. *)
Example div0_tests :
  div0 false [ints [Some 10; Some 10; None; Some 10]; ints [Some 2; Some 0; Some 2; None]] 4 = Ok (Array (ADecimal Decimal128 38 6 [Some 5000000; Some 0; None; None])) /\
  div0 false [Array (ADecimal Decimal128 5 3 [Some 1000]); ints [Some 1]] 1 = Ok (Array (ADecimal Decimal128 11 9 [Some 1000000000])) /\
  div0 true [ints [Some 10]; Array (ANull 1)] 1 = Ok (Array (ADecimal Decimal128 38 6 [Some 0])).
Proof. split_and!; vm_compute; reflexivity. Qed.

Lemma div0_typed_witness : TDecimal Decimal128 11 9 = div0_return_type false (TDecimal Decimal128 5 3) (TInt Int64).
Proof.
  apply (div0_typed (ADecimal Decimal128 5 3 [Some 1000]) (AInt Int64 [Some 1]) 1 (ADecimal Decimal128 11 9 [Some 1000000000])). vm_compute. reflexivity.
Defined.

(** 1.5 / 0.3 *)
Lemma div0_row_witness : decimal_row false 1 1 7 (Some 15, Some 3) = Ok (Some 50000000).
Proof. apply (@div0_row small_decimals (snd : Z * Z -> Z) _ false 1 1 7 15 3); unfold fits; lia. Defined.

Lemma iff_selects_witness : iff [Array (ABoolean [Some true; Some false; None]); ints [Some 1; Some 2; None]; ints [Some 4; Some 5; Some 6]] = Ok (ints [Some 1; Some 5; Some 6]).
Proof. exact (iff_selects (ABoolean [Some true; Some false; None]) [Some true; Some false; None] Int64 [Some 1; Some 2; None] [Some 4; Some 5; Some 6] eq_refl eq_refl eq_refl). Defined.

(** DIV0NULL: a null dividend gives zero; where the dividend is the constant NULL, or the divisor of a float, the result has another type than the one declared. *)
Example div0null_departures :
  div0 true [ints [None]; ints [Some 2]] 1 = Ok (Array (ADecimal Decimal128 38 6 [Some 0])) /\
  div0 true [Array (ANull 1); ints [Some 2]] 1 = Ok (Array (ADecimal Decimal128 38 6 [Some 0])) /\ div0_return_type true TNull (TInt Int64) = TNull /\
  div0 true [Array (AFloat Float64 [Some f64_one]); Array (ANull 1)] 1 = Ok (Array (AFloat Float64 [Some (S754_zero false)])) /\
  div0_return_type true (TFloat Float64) TNull = TDecimal Decimal128 38 6.
Proof. split_and!; vm_compute; reflexivity. Qed.

(** A column of 32-bit floats is refused. *)
Example float32_refused :
  div0 false [Array (AFloat Float32 [Some f64_one]); ints [Some 2]] 1 = Err (UnexpectedArrayType "Float64Array" (TFloat Float32)).
Proof. reflexivity. Qed.

(** A number of 30 digits panics. *)
Example large_decimal_panics : div0 false [Array (ADecimal Decimal128 38 0 [Some (10 ^ 29)]); ints [Some 1]] 1 = Err CondPanic.
Proof. vm_compute. reflexivity. Qed.

Lemma conditional_true_event_correct_witness :
  exists numbers self,
    evaluate_all [ABoolean [Some true; Some false; Some true; None; Some true]] 5 event_default = Ok (AInt UInt64 (map Some numbers), self) /\
    evaluate_rows [ABoolean [Some true; Some false; Some true; None; Some true]] 0 5 event_default = Ok (map (fun v => SInt UInt64 (Some v)) numbers, self) /\
    length numbers = 5%nat /\ numbers = [1; 1; 2; 2; 3].
Proof.
  destruct (conditional_true_event_correct (ABoolean [Some true; Some false; Some true; None; Some true]) [Some true; Some false; Some true; None; Some true] eq_refl)
    as (numbers & self & H1 & H2 & H3 & H4).
  exists numbers, self. split; [exact H1|]. split; [exact H2|]. split; [exact H3|]. exact (H4 eq_refl).
Defined.

(** The documentation counts the changes from false or null to true: one at the first and one at the fourth row. *)
Example every_true_row_counts :
  transitions false 0 [Some true; Some true; Some false; Some true] = [1; 1; 1; 2] /\
  exists self, evaluate_all [ABoolean [Some true; Some true; Some false; Some true]] 4 event_default = Ok (AInt UInt64 [Some 1; Some 2; Some 2; Some 3], self).
Proof. split; [reflexivity|]. eexists. reflexivity. Qed.

End ConditionalExamples.
